(* ===== verification/_CoqProject ===== *)
-Q . S2P
Prelude.v
PyText.v
PyInt.v
PyUuid.v
PyTime.v
PyHash.v
PyNum.v
Scenes.v
PyJson.v
Errors.v
JsonRoundTrip.v
JsonValues.v
PyIso.v
Prompts.v
InputValues.v
ScaleInput.v
MbtiReferences.v
MbtiInput.v
Failure.v
Checkpoint.v
Completion.v
Actions.v
Resolution.v
Preflight.v
Review.v
Correction.v
Gates.v
Reopening.v
Closure.v
Transactions.v
Session.v
Service.v
ReportInput.v
Output.v
Tables.v
CheckpointRecords.v
CompletionRecords.v
Publication.v
Policies.v
SlotClaims.v
Projection.v
Acceptance.v
CompletionProgress.v
Documents.v
DispatchLedger.v
CandidatePlan.v
Completions.v
Judgements.v
Recovery.v
EvidenceLedger.v
EvidenceBudget.v
Suites.v
RunProgress.v
UnknownDecisions.v
ContractDecisions.v
RunCreation.v
ReviewRecords.v
GateSnapshot.v
ReviewDecisions.v
Cancellations.v
RunLifecycle.v
RunHistories.v
FinalDecisions.v
FinalVerification.v
CreatedRuns.v
Capacity.v
Quotas.v
MysqlUow.v
ModelCapacity.v
Execution.v
Generation.v
EvaluationSamples.v
ReviewSamples.v
InterpretationSamples.v
CapacitySamples.v
PublicationSamples.v
ClaimSamples.v
CandidateSamples.v
ReportSamples.v
DecisionSamples.v
