(* ===== verification/Prelude.v ===== *)
(** * qs-ai: a verification development

    qs-ai interprets assessment results for participants with a language model, and releases the
    prompts and models it uses only after an evaluation run has judged them.  This library models
    the core of the Python program under [src/src/qs_ai] and proves what makes it correct.

    ** The program

    - An {i evaluation run} generates candidates for a fixed inventory of slots and judges them.  Its
      planners ([domain/evaluation]) choose the next execution, a worker claims a slot, records the
      dispatch under the budget of the frozen policy and only then calls the provider; the terminal
      evidence, human reviews and quality gates decide whether the release is approved.
    - A {i publication} makes an approved release the active configuration of a selector
      ([domain/governance]); an {i organization quota} bounds what an organization may spend.
    - An {i interpretation} of a participant is admitted under an idempotency key, binds the published
      configuration, and runs as a job under a fenced lease; one gateway call is made per run
      ([application/interpretation], [application/execution], [infrastructure/persistence/mysql]).

    ** The library

    The files are listed in dependency order; each opens with the sources it models.

    - Python: [Prelude] (exceptions, fallible code, validated dataclasses, tactics), [Transactions]
      (fallible transactions over the tables), [PyText], [PyInt],
      [PyUuid], [PyTime], [PyIso], [PyHash], [PyNum], [PyJson], [JsonRoundTrip], [JsonValues]: text
      as UTF-8, [int], [uuid], [datetime] with its ISO form, SHA-256, mixed numbers, and JSON with
      the typed fields the decoders read.  [Errors] is the
      calculus of which exceptions a computation can raise.
    - Reports: [Scenes] (the report scenes), [Prompts] (the published prompt and its single data
      message), [InputValues] and [ScaleInput] (the evidence of a behavioural-ability or scale
      report), [MbtiReferences] and [MbtiInput] (the published MBTI references and the MBTI views of
      the evidence), [ReportInput] (what the interpretation assembles before it calls the model) and
      [Output] (what it accepts from the model).
    - Evaluation domain: [Failure], [Checkpoint], [Completion], [Actions], [Resolution], [Preflight],
      [Review], [Correction], [Gates], [Reopening], [Closure].
    - Evaluation claims: [CheckpointRecords] (the coordinator row and the JSON of a checkpoint),
      [Policies] (the frozen documents), [SlotClaims] (claims and dispatches as transactions over the
      tables), [DispatchLedger] (theorems on every sequence of them).
    - Evaluation evidence: [CompletionRecords] (the terminal rows and their typed completions),
      [Projection] (the slots of a run reconstructed from its rows), [CandidatePlan] (the planner run
      on that reconstruction), [Acceptance] (what a judge's answer must be), [CompletionProgress] (the
      status a completion leads to), [Completions] and [Judgements] (the transactions that store a
      generation or a judgement), [Recovery] (expired checkpoints), [EvidenceLedger] and
      [EvidenceBudget] (theorems on every sequence of these transactions).
    - Evaluation decisions: [Documents] (documents stored as JSON and what
      the database gives back of them), [Suites] (the frozen suite and its
      preflight), [RunCreation] (the frozen document of a run and its first rows), [RunProgress]
      (requested transitions and the recorded preflight), [UnknownDecisions] and [ContractDecisions]
      (what an operator decides on an unknown result or a contract violation), [ReviewRecords],
      [GateSnapshot] and [ReviewDecisions] (reviews, corrections, the gates over the stored evidence,
      the final decision and a reopened round), [Cancellations].
    - The life of a run: [RunLifecycle] (the step relation of every operation on a run, by workers,
      the system or people), [RunHistories] (theorems on every history of them), [FinalDecisions],
      [FinalVerification] and [CreatedRuns] (what an approval, a final record and a creation leave).
    - Interpretation: [Session] (the domain), [Service] (the commands, over the type class
      [UnitOfWork] and its laws [UnitOfWorkLaws]), [Tables] and [MysqlUow] (the tables and the
      instance that satisfies the laws), [Capacity], [Quotas], [ModelCapacity], [Execution] (the store
      of leases and model calls), [Generation] (the protocol around the gateway).
    - Governance: [Publication].
    - Samples: [EvaluationSamples], [ReviewSamples], [InterpretationSamples], [CapacitySamples],
      [PublicationSamples], [ClaimSamples], [CandidateSamples], [ReportSamples], [DecisionSamples]:
      concrete inputs on which the hypotheses of the theorems hold, evaluated by [vm_compute].

    ** How code becomes definitions

    A function that may raise is a function into [res]; [raise_if c e] is [if c: raise e] and the
    guards appear in the order of the source.  A frozen dataclass is a record whose [__post_init__]
    is its [Validated] instance; [construct] is the constructor call, and [constructed x] says that
    Python could build [x].  A method that mutates its object returns the new value.  A transaction
    is a computation [tx DB A] over the tables: what it wrote before an exception is visible inside
    the transaction and rolled back with it.  A table is a finite map from its primary key; its other
    constraints are guards of [insert_row].  Row locks are implied by running each transaction as one
    step, and interleavings are sequences of such steps ([rtc] of a step relation).

    ** What the theorems show

    - Evaluation: the planners dispatch only what the budget and the history permit, agree with each
      other and accept exactly the frozen plan; a closed run has a complete, causally ordered
      inventory; a run is approved exactly when the gates pass, and then every candidate is reviewed
      by two different people; adjudication, corrections and reopenings change only what they may.
    - Claims: the transactions on coordinators and claims implement locks with fencing tokens; a
      released claim is never accepted again, a claim is dispatched once, and the ledger never exceeds
      the frozen policy; a checkpoint survives its storage.
    - Evidence: the reconstruction accounts for every dispatch and completion; the claim that the
      planner prepares is the next one of the ledger; every terminal row answers its own reservation,
      attempts are numbered without a gap and end with the first success, rows are never changed or
      removed, and their number stays within the frozen policy; an accepted judgement decides every
      obligation once and is read back as it was stored; a run goes to review only when every slot has
      a judged candidate; recovery gives up an expired claim without a second call.
    - Life of a run: whatever is done to a run, its status only takes the edges of the state machine
      and its frozen documents stay; a run under review never changes its evidence; an approval stays
      true of the rows that are stored; a final record verifies itself against the evidence, whatever
      the database rounds in it; a created
      run is readable by everything that reads it.
    - Interpretation: admission and commands are idempotent; what a claim of a job does is decided by
      the rows it finds, a stale claim is refused for ever, a result is written once and by the live
      owner, and the gateway is called at most once per
      run under every interleaving and crash; sessions stay in their state machine.
    - Capacity: reservations stay within the budgets, quotas within the ceilings of the deployment,
      and the limiter of model calls within its totals without a lost wake-up.
    - Publication: a query resolves to exactly one most specific active publication; a change takes
      effect once and its history is consistent.
    - Reports: the facts a prompt carries are exactly the assembled evidence and are read back as data,
      never as instructions; an assembled input names only dimensions it holds, a walk of their lineage
      ends and answers the lineage relation; an accepted answer of any scene cites only evidence of its
      input and stays within the output policy; the refusals of both ends are the exceptions the callers handle
      (two places where they are not are findings of the manifest).

    ** Fuel and bounds

    [PyJson.parse_value] takes the length of the text as fuel for its nesting, which every nested
    value consumes ([JsonRoundTrip.loads_dumps] shows it suffices for every text that was written).
    [PyJson.shortest] searches at most 17 digits, which determine a binary64 value.
    [Output.enough] gives the walk of a lineage one round more than there are dimensions, and
    [Output.lineage_walk_ends] shows that more rounds change nothing.  Every other
    recursion is structural.  Integers are Python's unbounded integers ([Z]); the widths of columns
    are guards where a value can reach them.

    ** Not modelled

    The gRPC and HTTP transports, the message broker, generated protocol code, dependency injection,
    model adapters, logging, deployment scripts and one-off migrations: they carry no decision of the
    program that the modelled parts do not take.  Of the parts that are modelled, each file says what
    it leaves out: the text screen of [application/interpretation/safety.py] (Unicode case mapping;
    only the building of an artifact and the candidate assertions call it), the candidate assertions
    themselves ([evaluated_generation_assertions]: a completed generation arrives with the candidate
    that the caller computed), the registered assets and the JSON-schema validator (the interfaces
    [Acceptance.Assets] and [Judgements.RunAssets]),
    the native validation of a suite and the inputs built from its cases, the worker loop and the
    management views of runs, the [urlsplit] of published references, the iteration order of Python sets (only which of
    two refusals is raised first), reads of bundled files, JSON-schema validation and other third-party calls, audit
    columns nobody reads, event marks of a session, and texts of exceptions the program does not
    distinguish.  A JSON column gives back what was written, except in [FinalVerification], which is
    about what MySQL may change there ([Documents.JsonServer]). *)
From stdpp Require Export prelude gmap strings.
From Stdlib Require Export ZArith Lia ZifyBool.
From Stdlib Require Import Sorting.Sorted.

#[export] Set Default Goal Selector "1".

(** ** Python exceptions and fallible code

    A Python function that may raise is a Rocq function into [res].  The exception
    classes are the ones the modelled sources raise; a [ValueError] keeps its message. *)

Inductive exn : Type :=
| ValueError (msg : string)
| UnicodeError
| JSONDecodeError
| TypeError
| IndexError
| KeyError (key : string)
| AttributeError
| OverflowError
| RuleViolation (code : string)
| AccessDenied
| NotFound
| AdmissionRejected (code : string)
| DependencyUnavailable
| LeaseLost (msg : string)
| ProviderFailure (code : string) (retryable result_unknown : bool)
| PublicationConflict (msg : string)
| DraftConflict (msg : string)
| CheckpointConflict (msg : string)
| InvalidPrompt (msg : string)
| InvalidOutput (code : string)
| SemanticDecisionInvalid (msg : string)
| InvalidMBTIReferences (msg : string)
| InvalidInput (msg : string)
| NotApplicable (msg : string)
| ConfigurationUnavailable (msg : string)
| RuntimeError (msg : string)
| BindingError (msg : string)
| IntegrityError
| DataError
| NoResultFound
| MultipleResultsFound
| SchemaError
| CapacityExceeded (msg : string)
| InvalidRelease (msg : string)
| ManifestUnavailable (msg : string)
| AssetConflict (msg : string)
| AssertionError.

#[export] Instance exn_eq_dec : EqDecision exn.
Proof. solve_decision. Defined.

(** [except ValueError]: the classes that derive from [ValueError]. *)
Definition is_value_error (e : exn) : bool :=
  match e with
  | ValueError _ | UnicodeError | JSONDecodeError | PublicationConflict _
  | DraftConflict _ | InvalidPrompt _ | InvalidOutput _ | InvalidMBTIReferences _
  | InvalidInput _ | NotApplicable _ | ConfigurationUnavailable _ | InvalidRelease _
  | SemanticDecisionInvalid _ | ManifestUnavailable _
  | AssetConflict _ => true
  | _ => false
  end.

Inductive res (A : Type) : Type :=
| Ok (a : A)
| Err (e : exn).
Arguments Ok {A} a.
Arguments Err {A} e.

#[export] Instance res_eq_dec {A} `{EqDecision A} : EqDecision (res A).
Proof. solve_decision. Defined.

#[export] Instance res_ret : MRet res := @Ok.
#[export] Instance res_bind : MBind res := λ A B f m,
  match m with Ok a => f a | Err e => Err e end.
#[export] Instance res_fmap : FMap res := λ A B f m,
  match m with Ok a => Ok (f a) | Err e => Err e end.

Definition is_ok {A} (m : res A) : bool :=
  match m with Ok _ => true | Err _ => false end.

(** [if c: raise e] *)
Definition raise_if (c : bool) (e : exn) : res unit :=
  if c then Err e else Ok tt.

(** [if c: raise e] where evaluating [c] may itself raise. *)
Definition raise_ifM (c : res bool) (e : exn) : res unit :=
  b ← c; raise_if b e.

(** Python's short-circuit [or] and [and] on conditions that may raise. *)
Definition orM (a : res bool) (b : res bool) : res bool :=
  x ← a; if (x : bool) then Ok true else b.
Definition andM (a : res bool) (b : res bool) : res bool :=
  x ← a; if (x : bool) then b else Ok false.
Definition negM (a : res bool) : res bool := negb <$> a.

#[global] Arguments raise_if : simpl never.
#[global] Arguments raise_ifM : simpl never.
#[global] Arguments orM : simpl never.
#[global] Arguments andM : simpl never.
#[global] Arguments negM : simpl never.

(** [any(p(x) for x in l)] and [all(...)] with a predicate that may raise. *)
Fixpoint anyM {A} (p : A → res bool) (l : list A) : res bool :=
  match l with
  | [] => Ok false
  | x :: l => orM (p x) (anyM p l)
  end.
Definition allM {A} (p : A → res bool) (l : list A) : res bool :=
  negM (anyM (λ x, negM (p x)) l).

(** A [for] loop that threads a state through a fallible body. *)
Fixpoint foldM {A S} (f : S → A → res S) (s : S) (l : list A) : res S :=
  match l with
  | [] => Ok s
  | x :: l => s' ← f s x; foldM f s' l
  end.

(** A comprehension whose element expression may raise. *)
Fixpoint mapM {A B} (f : A → res B) (l : list A) : res (list B) :=
  match l with
  | [] => Ok []
  | x :: l => y ← f x; ys ← mapM f l; Ok (y :: ys)
  end.

(** ** Notation of the modelled expressions *)

Declare Scope py_scope.
Delimit Scope py_scope with py.
Notation "x == y" := (bool_decide (x = y)) (at level 35, no associativity) : py_scope.
Notation "x != y" := (negb (bool_decide (x = y))) (at level 35, no associativity) : py_scope.
Notation "x 'is_in' l" := (bool_decide (x ∈ l)) (at level 35, no associativity) : py_scope.
Notation "x 'not_in' l" := (negb (bool_decide (x ∈ l))) (at level 35, no associativity) : py_scope.
Notation "a '<orM>' b" := (orM a b) (at level 50, left associativity) : py_scope.
Notation "a '<andM>' b" := (andM a b) (at level 40, left associativity) : py_scope.

(** [len] as a Python integer. *)
Definition len {A} (l : list A) : Z := Z.of_nat (length l).

(** Truth value of a [str]: nonempty. *)
Definition nonempty (s : string) : bool := negb (bool_decide (s = ""%string)).

Definition is_none {A} (o : option A) : bool := match o with None => true | Some _ => false end.
Definition is_some {A} (o : option A) : bool := negb (is_none o).

(** ** Dictionaries built by comprehension: the last value of a key wins. *)
Definition dict_of {A} (key : A → string) (l : list A) : gmap string A :=
  foldl (λ m x, <[key x := x]> m) ∅ l.

(** ** Validated dataclasses

    A frozen dataclass is a Record; its [__post_init__] is [post_init].  [construct] is the
    Python constructor call, and [constructed x] says that [x] is a value Python could build. *)
Class Validated (A : Type) : Type := post_init : A → res unit.
Definition construct {A} `{Validated A} (x : A) : res A := post_init x ;; Ok x.
Definition constructed {A} `{Validated A} (x : A) : Prop := post_init x = Ok tt.

(** ** Lemmas on fallible code *)

Create Rewrite HintDb pyres.
Create Rewrite HintDb pybool.

Section res_lemmas.
Context {A B : Type}.
Implicit Types (m : res A) (f : A → res B).

Lemma bind_Ok m f b : m ≫= f = Ok b ↔ ∃ a, m = Ok a ∧ f a = Ok b.
Proof. destruct m; cbn; naive_solver. Qed.

Lemma bind_Err m f e :
  m ≫= f = Err e ↔ m = Err e ∨ ∃ a, m = Ok a ∧ f a = Err e.
Proof. destruct m; cbn; naive_solver. Qed.

Lemma fmap_Ok (g : A → B) m b : g <$> m = Ok b ↔ ∃ a, m = Ok a ∧ g a = b.
Proof. destruct m; cbn; naive_solver. Qed.

Lemma is_ok_true m : is_ok m = true ↔ ∃ a, m = Ok a.
Proof. destruct m; cbn; naive_solver. Qed.

Lemma Ok_inj (a b : A) : Ok a = Ok b ↔ a = b.
Proof. naive_solver. Qed.
End res_lemmas.

Lemma bind_Ok_unit (m : res unit) {B} (k : unit → res B) b :
  m ≫= k = Ok b ↔ m = Ok tt ∧ k tt = Ok b.
Proof. destruct m as [[]|]; cbn; naive_solver. Qed.

Lemma construct_Ok {A} `{Validated A} (x y : A) : construct x = Ok y ↔ constructed x ∧ y = x.
Proof. unfold construct, constructed. rewrite bind_Ok_unit, Ok_inj. intuition congruence. Qed.

Lemma raise_if_Ok c e u : raise_if c e = Ok u ↔ c = false.
Proof. unfold raise_if; destruct c, u; cbn; naive_solver. Qed.

Lemma raise_if_Err c e e' : raise_if c e = Err e' ↔ c = true ∧ e = e'.
Proof. unfold raise_if; destruct c; cbn; naive_solver. Qed.

Lemma raise_ifM_Ok c e u : raise_ifM c e = Ok u ↔ c = Ok false.
Proof. unfold raise_ifM, raise_if; destruct c as [[]|], u; cbn; naive_solver. Qed.

Lemma orM_false a b : orM a b = Ok false ↔ a = Ok false ∧ b = Ok false.
Proof. unfold orM, andM; destruct a as [[]|]; cbn; naive_solver. Qed.

Lemma orM_true a b : orM a b = Ok true ↔ a = Ok true ∨ (a = Ok false ∧ b = Ok true).
Proof. unfold orM, andM; destruct a as [[]|]; cbn; naive_solver. Qed.

Lemma andM_true a b : andM a b = Ok true ↔ a = Ok true ∧ b = Ok true.
Proof. unfold orM, andM; destruct a as [[]|]; cbn; naive_solver. Qed.

Lemma andM_false a b : andM a b = Ok false ↔ a = Ok false ∨ (a = Ok true ∧ b = Ok false).
Proof. unfold orM, andM; destruct a as [[]|]; cbn; naive_solver. Qed.

Lemma negM_Ok a b : negM a = Ok b ↔ a = Ok (negb b).
Proof. unfold negM. destruct a as [[]|], b; cbn; naive_solver. Qed.

Lemma anyM_false {A} (p : A → res bool) l :
  anyM p l = Ok false ↔ ∀ x, x ∈ l → p x = Ok false.
Proof.
  induction l as [|y l IH]; cbn; [set_solver|].
  rewrite orM_false, IH. set_solver.
Qed.

Lemma allM_true {A} (p : A → res bool) l :
  allM p l = Ok true ↔ ∀ x, x ∈ l → p x = Ok true.
Proof.
  unfold allM. rewrite negM_Ok. cbn. rewrite anyM_false.
  setoid_rewrite negM_Ok. done.
Qed.

Lemma existsb_false {A} (p : A → bool) l :
  existsb p l = false ↔ ∀ x, x ∈ l → p x = false.
Proof.
  induction l as [|y l IH]; cbn; [set_solver|].
  rewrite orb_false_iff, IH. set_solver.
Qed.

Lemma existsb_true {A} (p : A → bool) l :
  existsb p l = true ↔ ∃ x, x ∈ l ∧ p x = true.
Proof. rewrite existsb_exists. setoid_rewrite <- list_elem_of_In. done. Qed.

Lemma forallb_true {A} (p : A → bool) l :
  forallb p l = true ↔ ∀ x, x ∈ l → p x = true.
Proof. rewrite forallb_forall. setoid_rewrite <- list_elem_of_In. done. Qed.

Lemma is_none_true {A} (o : option A) : is_none o = true ↔ o = None.
Proof. destruct o; cbn; naive_solver. Qed.
Lemma is_none_false {A} (o : option A) : is_none o = false ↔ ∃ x, o = Some x.
Proof. destruct o; cbn; naive_solver. Qed.
Lemma is_some_true {A} (o : option A) : is_some o = true ↔ ∃ x, o = Some x.
Proof. destruct o; cbn; naive_solver. Qed.
Lemma is_some_false {A} (o : option A) : is_some o = false ↔ o = None.
Proof. destruct o; cbn; naive_solver. Qed.
Lemma nonempty_true s : nonempty s = true ↔ s ≠ ""%string.
Proof. unfold nonempty. rewrite negb_true_iff, bool_decide_eq_false. done. Qed.
Lemma nonempty_false s : nonempty s = false ↔ s = ""%string.
Proof. unfold nonempty. rewrite negb_false_iff, bool_decide_eq_true. done. Qed.

#[export] Hint Rewrite @bind_Ok_unit @bind_Ok @fmap_Ok @raise_if_Ok @raise_ifM_Ok
  orM_false andM_true negM_Ok @anyM_false @allM_true @Ok_inj : pyres.
#[export] Hint Rewrite orb_false_iff andb_true_iff negb_false_iff negb_true_iff
  bool_decide_eq_true bool_decide_eq_false @is_none_true @is_none_false
  @is_some_true @is_some_false nonempty_true nonempty_false
  @existsb_false @forallb_true Z.ltb_lt Z.ltb_ge Z.leb_le Z.leb_gt : pybool.

(** Membership in the literal tuples of the source. *)
Lemma elem_of_two {A} (x a b : A) : x ∈ [a; b] ↔ x = a ∨ x = b.
Proof. set_solver. Qed.
Lemma elem_of_three {A} (x a b c : A) : x ∈ [a; b; c] ↔ x = a ∨ x = b ∨ x = c.
Proof. set_solver. Qed.
Lemma elem_of_four {A} (x a b c d : A) : x ∈ [a; b; c; d] ↔ x = a ∨ x = b ∨ x = c ∨ x = d.
Proof. set_solver. Qed.

(** ** Tactics

    [ok_inv] decomposes every hypothesis [... = Ok _] into its sub-computations;
    [bool_inv] turns the guards that were passed into propositions. *)
Ltac ok_inv1 :=
  match goal with
  | H : Ok _ = Ok _ |- _ => injection H as H; try subst
  | H : Err _ = Ok _ |- _ => discriminate H
  | H : Ok _ = Err _ |- _ => discriminate H
  | H : mret _ = Ok _ |- _ => cbv [mret res_ret] in H
  | H : _ ≫= _ = Ok _ |- _ =>
    first [ apply bind_Ok_unit in H; destruct H as [? H]
          | apply bind_Ok in H; destruct H as (? & ? & H) ]; cbn beta iota in *
  | H : _ <$> _ = Ok _ |- _ => apply fmap_Ok in H; destruct H as (? & ? & H)
  | H : raise_if _ _ = Ok _ |- _ => apply raise_if_Ok in H
  | H : raise_ifM _ _ = Ok _ |- _ => apply raise_ifM_Ok in H
  | H : orM _ _ = Ok false |- _ => apply orM_false in H; destruct H
  | H : andM _ _ = Ok true |- _ => apply andM_true in H; destruct H
  | H : negM _ = Ok _ |- _ => apply negM_Ok in H; cbn [negb] in H
  | H : anyM _ _ = Ok false |- _ => rewrite anyM_false in H
  | H : allM _ _ = Ok true |- _ => rewrite allM_true in H
  end.
Ltac ok_inv := repeat ok_inv1.

Ltac bool_inv1 :=
  match goal with
  | H : _ || _ = false |- _ => apply orb_false_iff in H; destruct H
  | H : _ && _ = true |- _ => apply andb_true_iff in H; destruct H
  | H : negb _ = false |- _ => apply negb_false_iff in H
  | H : negb _ = true |- _ => apply negb_true_iff in H
  | H : bool_decide _ = true |- _ => apply bool_decide_eq_true in H
  | H : bool_decide _ = false |- _ => apply bool_decide_eq_false in H
  | H : is_none _ = true |- _ => apply is_none_true in H
  | H : is_none _ = false |- _ => apply is_none_false in H as [? H]
  | H : is_some _ = true |- _ => apply is_some_true in H as [? H]
  | H : is_some _ = false |- _ => apply is_some_false in H
  | H : nonempty _ = true |- _ => apply nonempty_true in H
  | H : nonempty _ = false |- _ => apply nonempty_false in H
  | H : existsb _ _ = false |- _ => rewrite existsb_false in H
  | H : forallb _ _ = true |- _ => rewrite forallb_true in H
  | H : (_ <? _)%Z = true |- _ => apply Z.ltb_lt in H
  | H : (_ <? _)%Z = false |- _ => apply Z.ltb_ge in H
  | H : (_ <=? _)%Z = true |- _ => apply Z.leb_le in H
  | H : (_ <=? _)%Z = false |- _ => apply Z.leb_gt in H
  end.
Ltac bool_inv := repeat bool_inv1.
Ltac py_inv := repeat (ok_inv1 || bool_inv1).

(** Case analysis on an [if] statement of the program in a hypothesis. *)
Ltac if_inv :=
  match goal with
  | H : (if ?b then _ else _) = _ |- _ => destruct b eqn:?
  | H : if ?b then _ else _ |- _ => destruct b eqn:?
  end.

(** Rewrites a goal [m = Ok x] into the conjunction of its guards. *)
Ltac ok_goal := repeat (progress autorewrite with pyres pybool).

(** ** Loops *)

Section loops.
Context {A S : Type} (f : S → A → res S).

Lemma foldM_app s l1 l2 : foldM f s (l1 ++ l2) = (s' ← foldM f s l1; foldM f s' l2).
Proof.
  revert s; induction l1 as [|x l1 IH]; intros s; cbn; [done|].
  destruct (f s x); cbn; [apply IH|done].
Qed.

Lemma foldM_snoc s l x s' :
  foldM f s (l ++ [x]) = Ok s' ↔ ∃ s1, foldM f s l = Ok s1 ∧ f s1 x = Ok s'.
Proof.
  rewrite foldM_app, bind_Ok. cbn [foldM].
  split; intros (s1 & ? & H); exists s1; (split; [done|]).
  - by destruct (f s1 x).
  - by rewrite H.
Qed.

(** An invariant of the body is an invariant of the loop. *)
Lemma foldM_ind (P : S → Prop) s l s' :
  (∀ s x s', x ∈ l → P s → f s x = Ok s' → P s') →
  P s → foldM f s l = Ok s' → P s'.
Proof.
  revert s; induction l as [|x l IH]; intros s Hstep Hs Hl; cbn in Hl; ok_inv; [done|].
  eapply IH; [|eapply Hstep; [left|exact Hs|eassumption]|exact Hl].
  intros; eapply Hstep; eauto; by right.
Qed.
End loops.

Lemma foldM_unit_elem {A} (f : A → res unit) l :
  foldM (λ _ x, f x) tt l = Ok tt → ∀ x, x ∈ l → f x = Ok tt.
Proof.
  induction l as [|y l IH]; cbn; [intros _ x Hx; by apply not_elem_of_nil in Hx|].
  rewrite bind_Ok_unit. intros [Hy Hl] x [->|Hx]%elem_of_cons; auto.
Qed.

Lemma mapM_Ok {A B} (f : A → res B) l k :
  mapM f l = Ok k ↔ Forall2 (λ x y, f x = Ok y) l k.
Proof.
  revert k; induction l as [|x l IH]; intros k; cbn.
  - rewrite Ok_inj. split; [intros <-; constructor|by inversion 1].
  - rewrite bind_Ok. setoid_rewrite bind_Ok. setoid_rewrite IH. split.
    + intros (y & ? & ys & ? & [= <-]). by constructor.
    + inversion 1; subst; eauto 10.
Qed.

Lemma mapM_elem {A B} (f : A → res B) l k :
  mapM f l = Ok k → Forall2 (λ x y, x ∈ l ∧ f x = Ok y) l k.
Proof.
  rewrite mapM_Ok. intros H.
  assert (Hl : Forall (λ x, x ∈ l) l) by by apply Forall_forall.
  revert Hl. generalize l at 1 3. intros m. induction H; intros Hl; [constructor|].
  apply Forall_cons in Hl as [? ?]. constructor; auto.
Qed.

Lemma mapM_total {A B} (f : A → res B) l :
  Forall (λ x, ∃ y, f x = Ok y) l → ∃ l', mapM f l = Ok l'.
Proof.
  intros Hl. induction Hl as [|x l [y Hy] _ [l' Hl']]; [by exists []|].
  exists (y :: l'). cbn. by rewrite Hy, Hl'.
Qed.

Lemma NoDup_reverse {A} (l : list A) : NoDup (reverse l) ↔ NoDup l.
Proof. by rewrite reverse_Permutation. Qed.

(** ** Dictionaries *)

Section dict.
Context {A : Type} (key : A → string).

Lemma dict_of_app l x : dict_of key (l ++ [x]) = <[key x := x]> (dict_of key l).
Proof. unfold dict_of. by rewrite foldl_app. Qed.

Lemma dict_of_lookup_elem l k x : dict_of key l !! k = Some x → x ∈ l ∧ key x = k.
Proof.
  induction l as [|y l IH] using rev_ind; [done|].
  rewrite dict_of_app. destruct (decide (key y = k)) as [<-|Hk]; simplify_map_eq; set_solver.
Qed.

Lemma dict_of_lookup_None l k : dict_of key l !! k = None ↔ k ∉ key <$> l.
Proof.
  induction l as [|y l IH] using rev_ind; [set_solver|].
  rewrite dict_of_app, lookup_insert_None, IH, fmap_app. set_solver.
Qed.

Lemma dict_of_lookup_NoDup l k x :
  NoDup (key <$> l) → dict_of key l !! k = Some x ↔ x ∈ l ∧ key x = k.
Proof.
  intros Hnd. split; [apply dict_of_lookup_elem|].
  intros [Hx <-]. induction l as [|y l IH] using rev_ind; [set_solver|].
  rewrite dict_of_app. rewrite fmap_app in Hnd. apply NoDup_app in Hnd as (Hnd & Hdis & _).
  apply elem_of_app in Hx as [Hx|Hx].
  - rewrite lookup_insert_ne; [auto|]. intros Heq.
    apply (Hdis (key x)); [by apply list_elem_of_fmap_2|]. cbn. rewrite Heq. left.
  - apply list_elem_of_singleton in Hx as ->. by simplify_map_eq.
Qed.

Lemma dict_of_dom l : dom (dict_of key l) = list_to_set (key <$> l) :> gset string.
Proof.
  apply set_eq. intros k. rewrite elem_of_dom, elem_of_list_to_set.
  pose proof (dict_of_lookup_None l k) as H.
  destruct (dict_of key l !! k) eqn:E; rewrite ?E in H.
  - split; [|eauto]. intros _. destruct (decide (k ∈ key <$> l)); [done|].
    by assert (Some a = None) by by apply H.
  - split; [by intros []|]. intros ?. by destruct (proj1 H eq_refl).
Qed.

(** [len({key(x): x for x in l}) == len(l)] iff the keys are distinct. *)
Lemma dict_of_size l : size (dict_of key l) = length l ↔ NoDup (key <$> l).
Proof.
  enough (size (dict_of key l) ≤ length l ∧
          (size (dict_of key l) = length l ↔ NoDup (key <$> l))) by tauto.
  induction l as [|y l [IHle IH]] using rev_ind; [split; [done|by split; [constructor|]]|].
  rewrite dict_of_app, fmap_app, length_app; cbn [fmap list_fmap length].
  destruct (dict_of key l !! key y) as [z|] eqn:E.
  - rewrite map_size_insert_Some by eauto. split; [lia|]. split; [lia|].
    intros (_ & Hd & _)%NoDup_app. apply dict_of_lookup_elem in E as [Hz Hk].
    destruct (Hd (key y)); [rewrite <- Hk; by apply list_elem_of_fmap_2|left].
  - rewrite map_size_insert_None by done. split; [lia|].
    apply dict_of_lookup_None in E. rewrite NoDup_app.
    split.
    + intros ?. split; [apply IH; lia|]. split; [|apply NoDup_singleton].
      intros k Hk ->%list_elem_of_singleton. done.
    + intros (Hnd & _). apply IH in Hnd. lia.
Qed.
End dict.

(** ** [l.sort(key=...)], a stable sort by the order of the keys *)
Section sorting.
Context {A : Type} (le : A → A → bool).

Fixpoint insert_by (x : A) (l : list A) : list A :=
  match l with
  | [] => [x]
  | y :: l' => if le x y then x :: l else y :: insert_by x l'
  end.
Definition sort_by (l : list A) : list A := foldr insert_by [] l.
Definition in_order (x y : A) : Prop := le x y = true.

Lemma insert_by_perm x l : insert_by x l ≡ₚ x :: l.
Proof.
  induction l as [|y l IH]; cbn; [done|]. destruct (le x y); [done|].
  rewrite IH. apply Permutation_swap.
Qed.
Lemma sort_by_perm l : sort_by l ≡ₚ l.
Proof. induction l as [|x l IH]; cbn; [done|]. by rewrite insert_by_perm, IH. Qed.

Hypothesis le_total : ∀ x y, le x y = true ∨ le y x = true.

Lemma insert_by_sorted x l : Sorted in_order l → Sorted in_order (insert_by x l).
Proof using le_total.
  induction l as [|y l IH]; cbn; intros Hl; [by repeat constructor|].
  destruct (le x y) eqn:Hx; [constructor; [done|by constructor]|].
  apply Sorted_inv in Hl as [Hl Hh]. constructor; [by apply IH|].
  assert (Hy : in_order y x) by (destruct (le_total x y); [congruence|done]).
  destruct l as [|z l]; cbn; [by constructor|].
  destruct (le x z); constructor; [done|by inversion Hh].
Qed.
Lemma sort_by_sorted l : Sorted in_order (sort_by l).
Proof using le_total. induction l; cbn; [constructor|]. by apply insert_by_sorted. Qed.
End sorting.

Lemma sort_by_forall {A} (le : A → A → bool) (P : A → Prop) l : Forall P l → Forall P (sort_by le l).
Proof. by rewrite sort_by_perm. Qed.
