(* ===== verification/PyText.v ===== *)
(** * Text: Python [str] values and the regular expressions of the source

    A [str] is represented by its UTF-8 encoding, a Rocq [string] of bytes; so
    [len(s.encode())] is the length of the [string] and [len(s)] counts code points.  Strings
    that cannot be encoded (lone surrogates) have no representation. *)
From S2P Require Import Prelude.
From Stdlib Require Import Ascii.

Local Open Scope N_scope.

(** Code points of a UTF-8 string; a byte that starts no sequence stands for itself. *)
Fixpoint code_points (s : string) : list N :=
  match s with
  | EmptyString => []
  | String c r =>
    let b := N_of_ascii c in
    let low x := N.land (N_of_ascii x) 63 in
    if b <? 128 then b :: code_points r
    else if b <? 224 then
      match r with
      | String c1 r1 => N.lor (N.shiftl (N.land b 31) 6) (low c1) :: code_points r1
      | _ => b :: code_points r
      end
    else if b <? 240 then
      match r with
      | String c1 (String c2 r2) =>
        N.lor (N.shiftl (N.land b 15) 12) (N.lor (N.shiftl (low c1) 6) (low c2)) :: code_points r2
      | _ => b :: code_points r
      end
    else
      match r with
      | String c1 (String c2 (String c3 r3)) =>
        N.lor (N.shiftl (N.land b 7) 18)
          (N.lor (N.shiftl (low c1) 12) (N.lor (N.shiftl (low c2) 6) (low c3))) :: code_points r3
      | _ => b :: code_points r
      end
  end.

Definition byte (n : N) : ascii := ascii_of_N n.

Definition utf8_char (c : N) (rest : string) : string :=
  let cont k := byte (N.lor 128 (N.land (N.shiftr c k) 63)) in
  if c <? 128 then String (byte c) rest
  else if c <? 2048 then String (byte (N.lor 192 (N.shiftr c 6))) (String (cont 0) rest)
  else if c <? 65536 then
    String (byte (N.lor 224 (N.shiftr c 12))) (String (cont 6) (String (cont 0) rest))
  else String (byte (N.lor 240 (N.shiftr c 18)))
         (String (cont 12) (String (cont 6) (String (cont 0) rest))).

Definition of_code_points (l : list N) : string := foldr utf8_char EmptyString l.

(** [str.isspace] of one code point. *)
Definition is_space (c : N) : bool :=
  ((9 <=? c) && (c <=? 13)) || ((28 <=? c) && (c <=? 32)) || (c =? 133) || (c =? 160)
  || (c =? 5760) || ((8192 <=? c) && (c <=? 8202)) || (c =? 8232) || (c =? 8233)
  || (c =? 8239) || (c =? 8287) || (c =? 12288).

Fixpoint drop_spaces (l : list N) : list N :=
  match l with
  | c :: l' => if is_space c then drop_spaces l' else l
  | [] => []
  end.

(** [s.strip()] *)
Definition strip (s : string) : string :=
  of_code_points (reverse (drop_spaces (reverse (drop_spaces (code_points s))))).

(** [bool(s.strip())]: some character is not a space. *)
Definition has_text (s : string) : bool := existsb (λ c, negb (is_space c)) (code_points s).

(** [len(s.encode())] and [len(s)]. *)
Definition byte_len (s : string) : Z := Z.of_nat (String.length s).
Definition str_len (s : string) : Z := len (code_points s).

(** [any(c in s for c in chars)] for ASCII [chars]. *)
Definition any_char (chars : list ascii) (s : string) : bool :=
  existsb (λ c, bool_decide (c ∈ chars)) (String.list_ascii_of_string s).

Definition angle_brackets : list ascii := ["<"; ">"]%char.
Definition nul : ascii := Ascii.zero.

(** [needle in s] and [needle in raw] (substring, bytewise on the encodings). *)
Fixpoint contains (needle s : string) : bool :=
  String.prefix needle s ||
  match s with
  | EmptyString => false
  | String _ r => contains needle r
  end.

(** [s.isascii()] *)
Definition is_ascii (s : string) : bool :=
  forallb (λ c, N_of_ascii c <? 128) (String.list_ascii_of_string s).

(** ** Character classes *)
Definition in_range (lo hi : ascii) (c : ascii) : bool :=
  (N_of_ascii lo <=? N_of_ascii c) && (N_of_ascii c <=? N_of_ascii hi).
Definition digit : ascii → bool := in_range "0" "9".
Definition lower : ascii → bool := in_range "a" "z".
Definition upper : ascii → bool := in_range "A" "Z".
Definition alnum (c : ascii) : bool := digit c || lower c || upper c.
Definition one_of (l : list ascii) (c : ascii) : bool := bool_decide (c ∈ l).

(** [re.fullmatch(r"[head][tail]{0,bound}", s)] *)
Definition head_tail (head tail : ascii → bool) (bound : nat) (s : string) : bool :=
  match String.list_ascii_of_string s with
  | [] => false
  | c :: l => head c && forallb tail l && (Nat.leb (length l) bound)
  end.

(** [re.fullmatch(r"prefix[class]{n}", s)] *)
Definition fixed_run (prefix : string) (cls : ascii → bool) (n : nat) (s : string) : bool :=
  String.prefix prefix s &&
  let l := drop (String.length prefix) (String.list_ascii_of_string s) in
  forallb cls l && (Nat.eqb (length l) n).

(** [[A-Za-z0-9][A-Za-z0-9:._/-]{0,127}] *)
Definition valid_id : string → bool :=
  head_tail alnum (λ c, alnum c || one_of [":"; "."; "_"; "/"; "-"]%char c) 127.
(** [[A-Za-z0-9][A-Za-z0-9._/-]{0,127}] *)
Definition version_re : string → bool :=
  head_tail alnum (λ c, alnum c || one_of ["."; "_"; "/"; "-"]%char c) 127.
(** [[a-z][a-z0-9_-]{0,127}] *)
Definition code_re : string → bool :=
  head_tail lower (λ c, lower c || digit c || one_of ["_"; "-"]%char c) 127.
Definition hex_digit (c : ascii) : bool := digit c || in_range "a" "f" c.
(** [sha256:[0-9a-f]{64}] *)
Definition sha_re : string → bool := fixed_run "sha256:" hex_digit 64.
(** [[0-9a-f]{64}] *)
Definition hex64_re : string → bool := fixed_run "" hex_digit 64.

Section text_examples.
Local Open Scope string_scope.
Example strip_example :
  strip (String.append "  a b" (String "227" (String "128" (String "128" EmptyString)))) = "a b".
Proof. reflexivity. Qed.
Example str_len_example : (str_len "冻结" = 2 ∧ byte_len "冻结" = 6)%Z.
Proof. split; reflexivity. Qed.
Example valid_id_example : valid_id "case:1/a" = true ∧ valid_id "-x" = false.
Proof. split; reflexivity. Qed.
End text_examples.

Lemma has_text_nonempty s : has_text s = true → s ≠ ""%string.
Proof. by intros Hs ->. Qed.

Lemma head_tail_nonempty h t n s : head_tail h t n s = true → s ≠ ""%string.
Proof. by intros Hs ->. Qed.

Lemma valid_id_nonempty s : valid_id s = true → s ≠ ""%string.
Proof. apply head_tail_nonempty. Qed.

(** Stripping an empty-after-strip string is the same test as [has_text]. *)
Lemma drop_spaces_nil l : drop_spaces l = [] ↔ existsb (λ c, negb (is_space c)) l = false.
Proof.
  induction l as [|c l IH]; cbn; [done|].
  destruct (is_space c); cbn; [apply IH|done].
Qed.

(** ** Plain texts: ASCII characters that are no spaces *)

Definition plain_char (c : ascii) : bool := (N_of_ascii c <? 128)%N && negb (is_space (N_of_ascii c)).
Definition plain (s : string) : bool := forallb plain_char (String.list_ascii_of_string s).

Lemma plain_code_points s :
  plain s = true → code_points s = N_of_ascii <$> String.list_ascii_of_string s.
Proof.
  unfold plain. induction s as [|c s IH]; [done|]. cbn [String.list_ascii_of_string forallb].
  rewrite andb_true_iff. intros [[Hc _]%andb_true_iff Hs]. cbn [code_points]. rewrite Hc. cbn. by rewrite IH.
Qed.

Lemma plain_of_code_points s :
  plain s = true → of_code_points (N_of_ascii <$> String.list_ascii_of_string s) = s.
Proof.
  unfold plain. induction s as [|c s IH]; [done|]. cbn [String.list_ascii_of_string forallb].
  rewrite andb_true_iff. intros [[Hc _]%andb_true_iff Hs]. cbn. unfold utf8_char. rewrite Hc.
  unfold byte. rewrite ascii_N_embedding. f_equal. by apply IH.
Qed.

Lemma drop_spaces_none l : Forall (λ c, is_space c = false) l → drop_spaces l = l.
Proof. by intros [|c k Hc _]; cbn; [|rewrite Hc]. Qed.

Lemma strip_plain s : plain s = true → strip s = s.
Proof.
  intros Hs. unfold strip. rewrite plain_code_points by done.
  assert (Forall (λ c, is_space c = false) (N_of_ascii <$> String.list_ascii_of_string s)) as Hf.
  { apply Forall_fmap, Forall_forall. intros c Hc. unfold plain in Hs. rewrite forallb_forall in Hs.
    apply list_elem_of_In, Hs, andb_true_iff in Hc as [_ Hc]. by apply negb_true_iff in Hc. }
  rewrite (drop_spaces_none _ Hf), drop_spaces_none by by apply Forall_reverse.
  rewrite reverse_involutive. by apply plain_of_code_points.
Qed.

Lemma list_ascii_length s : length (String.list_ascii_of_string s) = String.length s.
Proof. induction s; cbn; congruence. Qed.

(** The characters of an identity. *)
Lemma head_tail_forall (P : ascii → Prop) h t n s :
  (∀ c, h c = true → P c) → (∀ c, t c = true → P c) → head_tail h t n s = true →
  Forall P (String.list_ascii_of_string s) ∧ (String.length s <= S n)%nat.
Proof.
  unfold head_tail. rewrite <- list_ascii_length. intros Hh Ht.
  destruct (String.list_ascii_of_string s) as [|c l]; [done|].
  intros [[Hc Hl]%andb_true_iff Hn%Nat.leb_le]%andb_true_iff. cbn. split; [|lia].
  constructor; [by apply Hh|]. apply Forall_forall. intros x Hx. apply Ht.
  rewrite forallb_forall in Hl. by apply Hl, list_elem_of_In.
Qed.

Lemma alnum_code c :
  alnum c = true →
  (48 <= N_of_ascii c <= 57 ∨ 97 <= N_of_ascii c <= 122 ∨ 65 <= N_of_ascii c <= 90)%N.
Proof. unfold alnum, digit, lower, upper, in_range. cbn. lia. Qed.

Lemma one_of_code l c : one_of l c = true → N_of_ascii c ∈ N_of_ascii <$> l.
Proof. intros Hc%bool_decide_eq_true. by apply list_elem_of_fmap_2. Qed.

Lemma plain_code c :
  (33 <= N_of_ascii c <= 127)%N → plain_char c = true.
Proof. unfold plain_char, is_space. lia. Qed.

(** An identity is plain, has no character of markup and at most 128 bytes. *)
Lemma valid_id_chars s :
  valid_id s = true →
  Forall (λ c, (45 <= N_of_ascii c <= 58)%N ∨ (65 <= N_of_ascii c <= 90)%N ∨
               (95 <= N_of_ascii c <= 122)%N) (String.list_ascii_of_string s) ∧
  (String.length s <= 128)%nat.
Proof.
  apply head_tail_forall.
  - intros c Hc%alnum_code. lia.
  - intros c [Hc%alnum_code|Hc%one_of_code]%orb_true_iff; [lia|].
    cbn in Hc. rewrite !elem_of_cons, elem_of_nil in Hc. lia.
Qed.

Lemma valid_id_plain s : valid_id s = true → plain s = true.
Proof.
  intros [Hs _]%valid_id_chars. apply forallb_forall. intros c Hc%list_elem_of_In.
  rewrite Forall_forall in Hs. apply plain_code. specialize (Hs c Hc). lia.
Qed.
