(* ===== verification/PyInt.v ===== *)
(** * PyInt: [int] of a text and [str] of an integer

    The decimal identities of organizations and participants travel as text and are stored as
    unsigned columns: [int(text)] on the way in, [str(column)] on the way out.  [py_int] models
    [int] on ASCII digits; [str] of a natural number is stdpp's [pretty]. *)
From stdpp Require Import pretty.
From S2P Require Import Prelude PyText.
From Stdlib Require Import Ascii.

Local Open Scope Z_scope.

Definition digit_value (c : ascii) : Z := Z.of_N (N_of_ascii c) - 48.

(** The value of a text of digits. *)
Definition int_of_digits (s : string) : Z :=
  foldl (λ acc c, acc * 10 + digit_value c) 0 (String.list_ascii_of_string s).

(** Digits with single underscores between them, after a first part of value [acc] that ended in a
    digit when [after_digit]. *)
Fixpoint int_digits (l : list ascii) (acc : Z) (after_digit : bool) : option Z :=
  match l with
  | [] => if after_digit then Some acc else None
  | c :: l =>
    if digit c then int_digits l (acc * 10 + digit_value c) true
    else if bool_decide (c = "_"%char) && after_digit then int_digits l acc false
    else None
  end.

(** [int(s)], the [ValueError] as [None]. *)
Definition py_int (s : string) : option Z :=
  match String.list_ascii_of_string (strip s) with
  | "+"%char :: l => int_digits l 0 false
  | "-"%char :: l => Z.opp <$> int_digits l 0 false
  | l => int_digits l 0 false
  end.

Example py_int_example :
  py_int " 1_0 " = Some 10 ∧ py_int "-7" = Some (-7) ∧ py_int "1__0" = None ∧ py_int "" = None.
Proof. split_and!; reflexivity. Qed.

(** ** Lemmas *)

Lemma digit_spec c : digit c = true ↔ (48 <= N_of_ascii c ∧ N_of_ascii c <= 57)%N.
Proof. unfold digit, in_range. cbn. lia. Qed.

Lemma digit_not_space c : digit c = true → is_space (N_of_ascii c) = false.
Proof. rewrite digit_spec. unfold is_space. lia. Qed.

Definition digits (s : string) : bool := forallb digit (String.list_ascii_of_string s).

Lemma digits_plain s : digits s = true → plain s = true.
Proof.
  unfold digits, plain. rewrite !forallb_forall. intros Hs c Hc. specialize (Hs c Hc).
  apply digit_spec in Hs. apply plain_code. lia.
Qed.

Lemma digits_code_points s :
  digits s = true → code_points s = N_of_ascii <$> String.list_ascii_of_string s.
Proof. intros Hs. by apply plain_code_points, digits_plain. Qed.

Lemma strip_digits s : digits s = true → strip s = s.
Proof. intros Hs. by apply strip_plain, digits_plain. Qed.

Lemma int_digits_fold l acc b :
  forallb digit l = true → (l ≠ [] ∨ b = true) →
  int_digits l acc b = Some (foldl (λ acc c, acc * 10 + digit_value c) acc l).
Proof.
  revert acc b. induction l as [|c l IH]; intros acc b Hl Hb; cbn.
  - by destruct Hb as [?| ->].
  - cbn in Hl. apply andb_true_iff in Hl as [Hc Hl]. rewrite Hc. apply IH; auto.
Qed.

(** On a text of digits [int] is its decimal value. *)
Lemma py_int_digits s : digits s = true → s ≠ ""%string → py_int s = Some (int_of_digits s).
Proof.
  intros Hs Hne. unfold py_int, int_of_digits. rewrite strip_digits by done.
  assert (String.list_ascii_of_string s ≠ []) as Hnil by by destruct s.
  unfold digits in Hs. destruct (String.list_ascii_of_string s) as [|c l] eqn:E; [done|].
  pose proof (int_digits_fold (c :: l) 0 false Hs (or_introl Hnil)) as Hi.
  cbn in Hs. apply andb_true_iff in Hs as [Hc _].
  destruct c as [[] [] [] [] [] [] [] []]; first [exact Hi|discriminate Hc].
Qed.

Lemma pretty_N_go_digits x s :
  digits s = true → digits (pretty_N_go x s) = true.
Proof.
  revert s. induction (N.lt_wf_0 x) as [x _ IH]; intros s Hs.
  destruct (decide (0 < x)%N) as [Hx|Hx].
  - rewrite pretty_N_go_step by done. apply IH; [by apply N.div_lt|].
    unfold digits in *. cbn. rewrite Hs, andb_true_r.
    assert (x `mod` 10 < 10)%N as Hm by by apply N.mod_lt.
    unfold pretty_N_char. repeat case_match; reflexivity.
  - by assert (x = 0%N) as -> by lia.
Qed.

Lemma pretty_N_char_value m : (m < 10)%N → digit_value (pretty_N_char m) = Z.of_N m.
Proof.
  intros Hm. assert (m = 0 ∨ m = 1 ∨ m = 2 ∨ m = 3 ∨ m = 4 ∨ m = 5 ∨ m = 6 ∨ m = 7 ∨ m = 8 ∨ m = 9)%N
    as Hc by lia.
  repeat (destruct Hc as [->|Hc]; [reflexivity|]). by subst.
Qed.

Lemma pretty_N_go_value x s :
  foldl (λ acc c, acc * 10 + digit_value c) 0 (String.list_ascii_of_string (pretty_N_go x s))
  = foldl (λ acc c, acc * 10 + digit_value c) (Z.of_N x) (String.list_ascii_of_string s).
Proof.
  revert s. induction (N.lt_wf_0 x) as [x _ IH]; intros s.
  destruct (decide (0 < x)%N) as [Hx|Hx].
  - rewrite pretty_N_go_step, IH by (done || by apply N.div_lt). cbn.
    rewrite pretty_N_char_value by by apply N.mod_lt.
    f_equal. pose proof (N.div_mod x 10). lia.
  - by assert (x = 0%N) as -> by lia.
Qed.

Lemma pretty_N_digits (n : N) : digits (pretty n) = true ∧ pretty n ≠ ""%string.
Proof.
  unfold pretty, pretty_N. case_decide as Hn; [done|]. split; [by apply pretty_N_go_digits|].
  intros Hx. pose proof (pretty_N_go_value n ""%string) as Hv. rewrite Hx in Hv. cbn in Hv. lia.
Qed.

Lemma pretty_N_value (n : N) : int_of_digits (pretty n) = Z.of_N n.
Proof.
  unfold pretty, pretty_N. case_decide as Hn; [by subst|].
  apply (pretty_N_go_value n ""%string).
Qed.

(** [int(str(n)) == n] *)
Lemma py_int_pretty (n : N) : py_int (pretty n) = Some (Z.of_N n).
Proof.
  destruct (pretty_N_digits n). by rewrite py_int_digits, pretty_N_value.
Qed.

(** The decimal texts that [str] prints. *)
Definition decimal_text (v : string) : Prop := ∃ n : N, v = pretty n.

Lemma pretty_Z_decimal (z : Z) : 0 <= z → decimal_text (pretty z).
Proof. destruct z as [|p|p]; intros Hz; [by exists 0%N|by exists (N.pos p)|lia]. Qed.
