(* ===== verification/PyUuid.v ===== *)
(** * PyUuid: the texts [uuid.UUID] accepts and prints

    [uuid_int] models [UUID(hex=s).int] on ASCII text: the [urn:] and [uuid:] prefixes, braces and
    hyphens are dropped and 32 characters must remain that [int(_, 16)] reads as a non-negative
    number; anything else raises [ValueError], here [None].  [uuid_text] is [str(UUID(int=n))]. *)
From S2P Require Import Prelude PyText.
From Stdlib Require Import Ascii.

Local Open Scope Z_scope.

(** [l] without the non-overlapping occurrences of [needle], from the left. *)
Fixpoint remove_all (needle l : list ascii) (skip : nat) : list ascii :=
  match l with
  | [] => []
  | c :: l' =>
    match skip with
    | S skip => remove_all needle l' skip
    | O =>
      if bool_decide (take (length needle) l = needle)
      then remove_all needle l' (length needle - 1)
      else c :: remove_all needle l' 0
    end
  end.

Fixpoint drop_chars (chars l : list ascii) : list ascii :=
  match l with
  | c :: l' => if bool_decide (c ∈ chars) then drop_chars chars l' else l
  | [] => []
  end.

(** [l.strip(chars)] *)
Definition strip_chars (chars l : list ascii) : list ascii :=
  reverse (drop_chars chars (reverse (drop_chars chars l))).

Definition hex_digit_value (c : ascii) : option Z :=
  let n := Z.of_N (N_of_ascii c) in
  if digit c then Some (n - 48)
  else if in_range "a" "f" c then Some (n - 87)
  else if in_range "A" "F" c then Some (n - 55)
  else None.

(** Hexadecimal digits with single underscores between them. *)
Fixpoint hex_digits (l : list ascii) (acc : Z) (after_digit : bool) : option Z :=
  match l with
  | [] => if after_digit then Some acc else None
  | c :: l =>
    match hex_digit_value c with
    | Some d => hex_digits l (acc * 16 + d) true
    | None =>
      if bool_decide (c = "_"%char) && after_digit then hex_digits l acc false else None
    end
  end.

(** [int(s, 16)]: spaces around, a sign and [0x] are accepted, and an underscore after [0x]. *)
Definition hex_int (l : list ascii) : option Z :=
  let l := strip_chars ["009"; "010"; "011"; "012"; "013"; "028"; "029"; "030"; "031"; " "]%char l in
  let '(sign, l) := match l with
                    | "+"%char :: l => (1, l)
                    | "-"%char :: l => (-1, l)
                    | _ => (1, l)
                    end in
  Z.mul sign <$>
    match l with
    | "0"%char :: ("x" | "X")%char :: "_"%char :: l => hex_digits l 0 false
    | "0"%char :: ("x" | "X")%char :: l => hex_digits l 0 false
    | _ => hex_digits l 0 false
    end.

Definition uuid_int (s : string) : option Z :=
  let l := String.list_ascii_of_string s in
  let l := remove_all (String.list_ascii_of_string "urn:") l 0 in
  let l := remove_all (String.list_ascii_of_string "uuid:") l 0 in
  let l := remove_all ["-"%char] (strip_chars ["{"; "}"]%char l) 0 in
  if bool_decide (length l = 32%nat) then
    match hex_int l with
    | Some n => if (0 <=? n) && (n <? 2 ^ 128) then Some n else None
    | None => None
    end
  else None.

Definition hex_of (d : Z) : ascii :=
  ascii_of_N (Z.to_N (if d <? 10 then d + 48 else d + 87)).

Definition uuid_text (n : Z) : string :=
  let digits := (λ i, hex_of (n / 16 ^ Z.of_nat i mod 16)) <$> reverse (seq 0 32) in
  let part a k := take k (drop a digits) in
  String.string_of_list_ascii
    (part 0 8 ++ "-"%char :: part 8 4 ++ "-"%char :: part 12 4 ++ "-"%char :: part 16 4
     ++ "-"%char :: part 20 12)%nat.

(** [str(UUID(s)) == s], and [None] where [UUID] raises. *)
Definition uuid_canonical (s : string) : option bool :=
  (λ n, bool_decide (uuid_text n = s)) <$> uuid_int s.

(** [str(UUID(s)) == s and UUID(s).int != 0], for a caller that raises a [ValueError] either way. *)
Definition canonical_uuid (s : string) : bool :=
  match uuid_int s with
  | Some n => bool_decide (uuid_text n = s) && negb (n =? 0)
  | None => false
  end.

Example uuid_examples :
  uuid_canonical "0b9c5a1e-6d3f-4a52-8e0e-0123456789ab" = Some true ∧
  uuid_canonical "{0B9C5A1E-6d3f-4a52-8e0e-0123456789ab}" = Some false ∧
  uuid_canonical "urn:uuid:0b9c5a1e6d3f4a528e0e0123456789ab" = Some false ∧
  uuid_canonical "0b9c5a1e" = None ∧
  canonical_uuid "00000000-0000-0000-0000-000000000000" = false.
Proof. split_and!; vm_compute; reflexivity. Qed.
