(* ===== verification/PyTime.v ===== *)
(** * Time: Python [datetime] values

    A [datetime] is its local time in microseconds since 1970-01-01T00:00:00 and its [tzinfo]; the offset of an aware
    value is fixed (every [datetime] of the program is built with a fixed offset).  Ordering an
    aware and a naive value raises [TypeError]; [==] between them is [False]. *)
From S2P Require Import Prelude.
From stdpp Require Import pretty.

Local Open Scope string_scope.
Local Open Scope Z_scope.

Inductive tzinfo : Type :=
| NoTz
| TzNoOffset
| TzOffset (us : Z).

Record datetime : Type := mk_datetime {
  dt_local : Z;
  dt_tz : tzinfo;
}.

#[export] Instance tzinfo_eq_dec : EqDecision tzinfo.
Proof. solve_decision. Defined.
#[export] Instance datetime_eq_dec : EqDecision datetime.
Proof. solve_decision. Defined.

(** [t.tzinfo is None] and [t.utcoffset()]. *)
Definition tz_none (t : datetime) : bool := bool_decide (dt_tz t = NoTz).
Definition utcoffset (t : datetime) : option Z :=
  match dt_tz t with TzOffset o => Some o | _ => None end.

(** [t.tzinfo is not None and t.utcoffset() is not None] *)
Definition aware (t : datetime) : bool := negb (tz_none t) && is_some (utcoffset t).

(** The value two comparable datetimes are compared by. *)
Definition instant (t : datetime) : Z := dt_local t - default 0 (utcoffset t).

Definition comparable (a b : datetime) : bool :=
  Bool.eqb (is_none (utcoffset a)) (is_none (utcoffset b)).

(** [a < b], [a <= b], [a > b], [a >= b] *)
Definition dt_lt (a b : datetime) : res bool :=
  if comparable a b then Ok (instant a <? instant b) else Err TypeError.
Definition dt_le (a b : datetime) : res bool :=
  if comparable a b then Ok (instant a <=? instant b) else Err TypeError.
Definition dt_gt (a b : datetime) : res bool := dt_lt b a.
Definition dt_ge (a b : datetime) : res bool := dt_le b a.

(** [a == b] *)
Definition dt_eqb (a b : datetime) : bool := comparable a b && (instant a =? instant b).

Definition opt_dt_eqb (a b : option datetime) : bool :=
  match a, b with
  | None, None => true
  | Some a, Some b => dt_eqb a b
  | _, _ => false
  end.

(** [datetime(..., tzinfo=UTC)] *)
Definition utc (t : Z) : datetime := mk_datetime t (TzOffset 0).

(** ** [isoformat] *)

(** The proleptic Gregorian date of a day number since 1970-01-01. *)
Definition civil_of_days (days : Z) : Z * Z * Z :=
  let z := days + 719468 in
  let era := z / 146097 in
  let doe := z - era * 146097 in
  let yoe := (doe - doe / 1460 + doe / 36524 - doe / 146096) / 365 in
  let doy := doe - (365 * yoe + yoe / 4 - yoe / 100) in
  let mp := (5 * doy + 2) / 153 in
  let d := doy - (153 * mp + 2) / 5 + 1 in
  let m := if mp <? 10 then mp + 3 else mp - 9 in
  let y := yoe + era * 400 + (if m <=? 2 then 1 else 0) in
  (y, m, d).

(** A number padded with zeros to [width] digits. *)
Definition padded (width : nat) (n : Z) : string :=
  let s := pretty n in
  foldr (λ _ acc, String.append "0" acc) s (seq 0 (width - String.length s)).

Definition iso_offset (us : Z) : string :=
  let a := Z.abs us in
  let sub := a mod 60000000 in
  String.append (if us <? 0 then "-" else "+")
    (String.append (padded 2 (a / 3600000000))
      (String.append ":" (String.append (padded 2 (a / 60000000 mod 60))
        (if sub =? 0 then "" else
           String.append ":" (String.append (padded 2 (sub / 1000000))
             (if sub mod 1000000 =? 0 then ""
              else String.append "." (padded 6 (sub mod 1000000)))))))).

Definition isoformat (t : datetime) : string :=
  let days := dt_local t / 86400000000 in
  let us := dt_local t mod 86400000000 in
  let '(y, m, d) := civil_of_days days in
  let date := String.append (padded 4 y) (String.append "-" (String.append (padded 2 m)
                (String.append "-" (padded 2 d)))) in
  let time := String.append (padded 2 (us / 3600000000)) (String.append ":"
                (String.append (padded 2 (us / 60000000 mod 60)) (String.append ":"
                  (padded 2 (us / 1000000 mod 60))))) in
  let fraction :=
    if us mod 1000000 =? 0 then "" else String.append "." (padded 6 (us mod 1000000)) in
  String.append date (String.append "T" (String.append time (String.append fraction
    (match utcoffset t with Some o => iso_offset o | None => "" end)))).

Example isoformat_examples :
  isoformat (utc 1709210096000000) = "2024-02-29T12:34:56+00:00"%string ∧
  isoformat (mk_datetime (-1) (TzOffset (-19800000000))) = "1969-12-31T23:59:59.999999-05:30"%string.
Proof. split; vm_compute; reflexivity. Qed.

Lemma aware_offset t : aware t = true ↔ ∃ o, utcoffset t = Some o.
Proof.
  unfold aware, tz_none, utcoffset. destruct t as [l []]; cbn; naive_solver.
Qed.

Lemma aware_utc t : aware (utc t) = true.
Proof. reflexivity. Qed.

Lemma aware_comparable a b : aware a = true → aware b = true → comparable a b = true.
Proof.
  rewrite !aware_offset. intros [o1 H1] [o2 H2]. unfold comparable. by rewrite H1, H2.
Qed.

Lemma dt_lt_aware a b :
  aware a = true → aware b = true → dt_lt a b = Ok (instant a <? instant b).
Proof. intros. unfold dt_lt. by rewrite aware_comparable. Qed.
Lemma dt_le_aware a b :
  aware a = true → aware b = true → dt_le a b = Ok (instant a <=? instant b).
Proof. intros. unfold dt_le. by rewrite aware_comparable. Qed.

Lemma comparable_sym a b : comparable a b = true → comparable b a = true.
Proof. unfold comparable. intros ->%eqb_prop. by destruct (is_none _). Qed.

Lemma dt_lt_false a b : dt_lt a b = Ok false ↔ comparable a b = true ∧ instant b <= instant a.
Proof.
  unfold dt_lt. destruct (comparable a b); [rewrite Ok_inj, Z.ltb_ge|]; naive_solver.
Qed.
Lemma dt_lt_true a b : dt_lt a b = Ok true ↔ comparable a b = true ∧ instant a < instant b.
Proof.
  unfold dt_lt. destruct (comparable a b); [rewrite Ok_inj, Z.ltb_lt|]; naive_solver.
Qed.
Lemma dt_le_true a b : dt_le a b = Ok true ↔ comparable a b = true ∧ instant a <= instant b.
Proof.
  unfold dt_le. destruct (comparable a b); [rewrite Ok_inj, Z.leb_le|]; naive_solver.
Qed.
Lemma dt_le_false a b : dt_le a b = Ok false ↔ comparable a b = true ∧ instant b < instant a.
Proof.
  unfold dt_le. destruct (comparable a b); [rewrite Ok_inj, Z.leb_gt|]; naive_solver.
Qed.

(** Python equality of datetimes is an equivalence coarser than [=]: two aware values with
    different offsets are equal when they name the same instant. *)
Definition dt_equiv (a b : datetime) : Prop := dt_eqb a b = true.

#[export] Instance dt_equiv_equivalence : Equivalence dt_equiv.
Proof.
  unfold dt_equiv, dt_eqb, comparable. split.
  - intros a. rewrite Z.eqb_refl. by destruct (is_none _).
  - intros a b. rewrite !andb_true_iff, !Z.eqb_eq, !eqb_true_iff. naive_solver.
  - intros a b c. rewrite !andb_true_iff, !Z.eqb_eq, !eqb_true_iff. naive_solver congruence.
Qed.

(** The comparisons respect it. *)
#[export] Instance comparable_proper : Proper (dt_equiv ==> dt_equiv ==> eq) comparable.
Proof.
  unfold dt_equiv, dt_eqb. intros a a' [Ha _]%andb_true_iff b b' [Hb _]%andb_true_iff.
  unfold comparable in *. apply eqb_prop in Ha, Hb. by rewrite Ha, Hb.
Qed.
Lemma dt_equiv_instant a b : dt_equiv a b → instant a = instant b.
Proof. intros [_ ->%Z.eqb_eq]%andb_true_iff. done. Qed.
#[export] Instance dt_lt_proper : Proper (dt_equiv ==> dt_equiv ==> eq) dt_lt.
Proof.
  intros a a' Ha b b' Hb. unfold dt_lt.
  by rewrite Ha, Hb, (dt_equiv_instant _ _ Ha), (dt_equiv_instant _ _ Hb).
Qed.
#[export] Instance dt_le_proper : Proper (dt_equiv ==> dt_equiv ==> eq) dt_le.
Proof.
  intros a a' Ha b b' Hb. unfold dt_le.
  by rewrite Ha, Hb, (dt_equiv_instant _ _ Ha), (dt_equiv_instant _ _ Hb).
Qed.
#[export] Instance aware_proper : Proper (dt_equiv ==> eq) aware.
Proof.
  intros a b [Hc _]%andb_true_iff. apply eqb_prop in Hc.
  destruct (aware a) eqn:Ha, (aware b) eqn:Hb; try done; exfalso.
  - apply aware_offset in Ha as [o Ho]. rewrite Ho in Hc. destruct (utcoffset b) eqn:E; [|done].
    assert (aware b = true) by (apply aware_offset; eauto). congruence.
  - apply aware_offset in Hb as [o Ho]. rewrite Ho in Hc. destruct (utcoffset a) eqn:E; [|done].
    assert (aware a = true) by (apply aware_offset; eauto). congruence.
Qed.

#[export] Hint Rewrite dt_lt_true dt_lt_false dt_le_true dt_le_false : pyres.

Ltac dt_inv1 :=
  match goal with
  | H : dt_gt _ _ = _ |- _ => unfold dt_gt in H
  | H : dt_ge _ _ = _ |- _ => unfold dt_ge in H
  | H : dt_lt _ _ = Ok false |- _ => apply dt_lt_false in H; destruct H
  | H : dt_lt _ _ = Ok true |- _ => apply dt_lt_true in H; destruct H
  | H : dt_le _ _ = Ok true |- _ => apply dt_le_true in H; destruct H
  | H : dt_le _ _ = Ok false |- _ => apply dt_le_false in H; destruct H
  end.
Ltac py_inv ::= repeat (ok_inv1 || bool_inv1 || dt_inv1).
