(* ===== verification/PyHash.v ===== *)
(** * Hashing: SHA-256 as [hashlib.sha256(...).hexdigest()]

    The digest is computed on 32-bit words kept in [N]; the wrap-around of every addition is
    written out.  The two test vectors at the end are those of the standard. *)
From S2P Require Import Prelude.
From Stdlib Require Import Ascii.

Local Open Scope N_scope.

Definition word_mask : N := 4294967295.
Definition add32 (a b : N) : N := N.land (a + b) word_mask.
Definition rotr (n x : N) : N :=
  N.land (N.lor (N.shiftr x n) (N.shiftl x (32 - n))) word_mask.
Definition not32 (x : N) : N := N.lxor x word_mask.

Definition sha_k : list N := [
  1116352408; 1899447441; 3049323471; 3921009573; 961987163; 1508970993; 2453635748; 2870763221;
  3624381080; 310598401; 607225278; 1426881987; 1925078388; 2162078206; 2614888103; 3248222580;
  3835390401; 4022224774; 264347078; 604807628; 770255983; 1249150122; 1555081692; 1996064986;
  2554220882; 2821834349; 2952996808; 3210313671; 3336571891; 3584528711; 113926993; 338241895;
  666307205; 773529912; 1294757372; 1396182291; 1695183700; 1986661051; 2177026350; 2456956037;
  2730485921; 2820302411; 3259730800; 3345764771; 3516065817; 3600352804; 4094571909; 275423344;
  430227734; 506948616; 659060556; 883997877; 958139571; 1322822218; 1537002063; 1747873779;
  1955562222; 2024104815; 2227730452; 2361852424; 2428436474; 2756734187; 3204031479; 3329325298].

Definition sha_h0 : list N := [
  1779033703; 3144134277; 1013904242; 2773480762; 1359893119; 2600822924; 528734635; 1541459225].

Definition small0 x := N.lxor (rotr 7 x) (N.lxor (rotr 18 x) (N.shiftr x 3)).
Definition small1 x := N.lxor (rotr 17 x) (N.lxor (rotr 19 x) (N.shiftr x 10)).
Definition big0 x := N.lxor (rotr 2 x) (N.lxor (rotr 13 x) (rotr 22 x)).
Definition big1 x := N.lxor (rotr 6 x) (N.lxor (rotr 11 x) (rotr 25 x)).
Definition choose e f g := N.lxor (N.land e f) (N.land (not32 e) g).
Definition majority a b c := N.lxor (N.land a b) (N.lxor (N.land a c) (N.land b c)).

(** The 64 schedule words of a block; [ws] holds the words so far, newest first. *)
Fixpoint schedule (n : nat) (ws : list N) : list N :=
  match n with
  | O => reverse ws
  | S n =>
    let w k := nth k ws 0 in
    schedule n (add32 (add32 (small1 (w 1%nat)) (w 6%nat)) (add32 (small0 (w 14%nat)) (w 15%nat)) :: ws)
  end.

Definition round (st : list N) (kw : N * N) : list N :=
  match st with
  | [a; b; c; d; e; f; g; h] =>
    let t1 := add32 (add32 h (big1 e)) (add32 (choose e f g) (add32 (fst kw) (snd kw))) in
    let t2 := add32 (big0 a) (majority a b c) in
    [add32 t1 t2; a; b; c; add32 d t1; e; f; g]
  | _ => st
  end.

Definition compress (h block : list N) : list N :=
  zip_with add32 h (foldl round h (zip sha_k (schedule 48 (reverse block)))).

(** Big-endian 32-bit words of a byte list. *)
Fixpoint words (l : list N) : list N :=
  match l with
  | a :: b :: c :: d :: l =>
    N.lor (N.shiftl a 24) (N.lor (N.shiftl b 16) (N.lor (N.shiftl c 8) d)) :: words l
  | _ => []
  end.

Definition be_bytes (width : nat) (n : N) : list N :=
  (λ k, N.land (N.shiftr n (8 * N.of_nat k)) 255) <$> reverse (seq 0 width).

Definition pad (msg : list N) : list N :=
  let n := length msg in
  msg ++ [128] ++ replicate ((119 - n mod 64) mod 64) 0 ++ be_bytes 8 (8 * N.of_nat n).

(** [fuel] bounds the blocks: one per 16 words of the padded message. *)
Fixpoint digest_blocks (fuel : nat) (h ws : list N) : list N :=
  match fuel, ws with
  | S fuel, _ :: _ => digest_blocks fuel (compress h (take 16 ws)) (drop 16 ws)
  | _, _ => h
  end.

Definition sha256 (msg : string) : list N :=
  let ws := words (pad (N_of_ascii <$> String.list_ascii_of_string msg)) in
  digest_blocks (length ws) sha_h0 ws.

Definition hex_char (n : N) : ascii :=
  if n <? 10 then ascii_of_N (48 + n) else ascii_of_N (87 + n).

Definition hex_byte (n : N) (rest : string) : string :=
  String (hex_char (N.shiftr n 4)) (String (hex_char (N.land n 15)) rest).

(** [hashlib.sha256(msg).hexdigest()] *)
Definition sha256_hex (msg : string) : string :=
  foldr hex_byte EmptyString (sha256 msg ≫= be_bytes 4).

(** ["sha256:" + hashlib.sha256(msg).hexdigest()] *)
Definition fingerprint_of (msg : string) : string := String.append "sha256:" (sha256_hex msg).

Example sha256_empty :
  sha256_hex "" = "e3b0c44298fc1c149afbf4c8996fb92427ae41e4649b934ca495991b7852b855".
Proof. vm_compute. reflexivity. Qed.

Example sha256_two_blocks :
  sha256_hex "abcdbcdecdefdefgefghfghighijhijkijkljklmklmnlmnomnopnopq"
  = "248d6a61d20638b8e5c026930c3e6039a33ce45964ff2167f6ecedd419db06c1".
Proof. vm_compute. reflexivity. Qed.
