(* ===== verification/PyNum.v ===== *)
(** * Numbers: Python [int] and [float] mixed comparisons and true division

    A [float] is an IEEE 754 binary64 value ([SpecFloat]); [/] on integers is correctly rounded
    and a comparison between an [int] and a [float] is exact, as in Python. *)
From S2P Require Import Prelude.
From Stdlib Require Export SpecFloat.

Local Open Scope Z_scope.

Definition float64 := spec_float.
Definition prec64 : Z := 53.
Definition emax64 : Z := 1024.

#[export] Instance spec_float_eq_dec : EqDecision spec_float.
Proof. solve_decision. Defined.

(** The integer [z] as a float, exact below [2^53] and correctly rounded above. *)
Definition float_of_int (z : Z) : float64 := binary_normalize prec64 emax64 z 0 false.

Definition int_as_float (z : Z) : float64 :=
  match z with
  | Z0 => S754_zero false
  | Zpos p => S754_finite false p 0
  | Zneg p => S754_finite true p 0
  end.

(** [a / b] on integers with [b <> 0]: the correctly rounded quotient. *)
Definition int_truediv (a b : Z) : float64 :=
  SFdiv prec64 emax64 (int_as_float a) (int_as_float b).

(** A decimal literal [m * 10^e], correctly rounded. *)
Definition float_of_decimal (m e : Z) : float64 :=
  if 0 <=? e then float_of_int (m * 10 ^ e) else int_truediv m (10 ^ (- e)).

(** A value whose type is [int] or [float]. *)
Inductive num : Type :=
| NInt (z : Z)
| NFloat (f : float64).
#[export] Instance num_eq_dec : EqDecision num.
Proof. solve_decision. Defined.

(** Compare [z] with [(-1)^s * m * 2^e] exactly. *)
Definition compare_int_finite (z : Z) (s : bool) (m : positive) (e : Z) : comparison :=
  let m := if s then Z.neg m else Z.pos m in
  if 0 <=? e then z ?= Z.shiftl m e else Z.shiftl z (- e) ?= m.

Definition compare_int_float (z : Z) (f : float64) : option comparison :=
  match f with
  | S754_zero _ => Some (z ?= 0)
  | S754_infinity s => Some (if s then Gt else Lt)
  | S754_nan => None
  | S754_finite s m e => Some (compare_int_finite z s m e)
  end.

Definition num_compare (a b : num) : option comparison :=
  match a, b with
  | NInt x, NInt y => Some (x ?= y)
  | NInt x, NFloat f => compare_int_float x f
  | NFloat f, NInt y => CompOpp <$> compare_int_float y f
  | NFloat f, NFloat g => SFcompare f g
  end.

(** [a < b], [a <= b] and [a == b] *)
Definition num_lt (a b : num) : bool :=
  match num_compare a b with Some Lt => true | _ => false end.
Definition num_le (a b : num) : bool :=
  match num_compare a b with Some (Lt | Eq) => true | _ => false end.
Definition num_eqb (a b : num) : bool :=
  match num_compare a b with Some Eq => true | _ => false end.

(** [math.isfinite(v)]: an [int] too large for a float raises. *)
Definition isfinite (v : num) : res bool :=
  match v with
  | NInt z => if Z.abs z <? 2 ^ 1024 - 2 ^ 970 then Ok true else Err OverflowError
  | NFloat f =>
    Ok match f with S754_nan | S754_infinity _ => false | _ => true end
  end.

Example truediv_rounds :
  int_truediv 19 20 = float_of_decimal 95 (-2) ∧ int_truediv 9 10 = float_of_decimal 9 (-1).
Proof. split; vm_compute; reflexivity. Qed.
Example truediv_exact : int_truediv 4 4 = float_of_int 1.
Proof. vm_compute. reflexivity. Qed.
Example mixed_compare : num_lt (NInt 4) (NFloat (float_of_decimal 45 (-1))) = true.
Proof. vm_compute. reflexivity. Qed.

Lemma num_lt_int x y : num_lt (NInt x) (NInt y) = (x <? y).
Proof. unfold num_lt, num_compare, Z.ltb. by destruct (x ?= y). Qed.
Lemma num_le_int x y : num_le (NInt x) (NInt y) = (x <=? y).
Proof. unfold num_le, num_compare, Z.leb. by destruct (x ?= y). Qed.
