(* ===== verification/Scenes.v ===== *)
(** * Scenes: the finite, versioned identities of the explained scenes

    [domain/governance/scenes.py]: the two released MBTI models, their axes and the bounds of
    their scores. *)
From S2P Require Import Prelude PyNum.

Local Open Scope string_scope.
Local Open Scope Z_scope.
Local Open Scope py_scope.

Definition MBTI_MODEL : string := "MBTI_OEJTS".
Definition MBTI_VERSION : string := "v64-report-202608-v1".
Definition MBTI_AXES : list (string * string * string) :=
  [("EI", "I", "E"); ("SN", "S", "N"); ("TF", "F", "T"); ("JP", "J", "P")].
Definition MBTI_CONTRACT : string := "mbti-single-assessment/v1".
Definition MBTI_THEMATIC_CONTRACT : string := "mbti-single-assessment/v2".
Definition MBTI_EXPLORATION_MODEL : string := "MBTI_FC_93".
Definition MBTI_EXPLORATION_VERSION : string := "v55-report-202608-v1".

Record MBTIModelContract : Type := mk_MBTIModelContract {
  axes : list (string * string * string);
  bounds : list (Z * Z * num);
  thematic_input_version : string;
}.

(** [11.5] *)
Definition eleven_and_a_half : num := NFloat (float_of_decimal 115 (-1)).

Definition mbti_model_contract (code version : option string) : option MBTIModelContract :=
  if (code, version) == (Some MBTI_MODEL, Some MBTI_VERSION) then
    Some (mk_MBTIModelContract MBTI_AXES (replicate 4 (8, 40, NInt 24)) "ai-explanation-input/v3")
  else if (code, version) == (Some MBTI_EXPLORATION_MODEL, Some MBTI_EXPLORATION_VERSION) then
    Some (mk_MBTIModelContract
            [("EI", "E", "I"); ("SN", "S", "N"); ("TF", "T", "F"); ("JP", "J", "P")]
            [(0, 23, eleven_and_a_half); (0, 23, eleven_and_a_half); (0, 23, eleven_and_a_half);
             (0, 24, eleven_and_a_half)]
            "ai-explanation-input/v4")
  else None.

Definition is_mbti_selector (audience kind decision : string) (code version : option string)
    : bool :=
  ((audience, kind, decision) == ("participant", "typology", "pole_composition"))
  && is_some (mbti_model_contract code version).
