(* ===== verification/PyJson.v ===== *)
(** * JSON: the values of [json.loads] and the texts of [json.dumps]

    Objects keep the insertion order of a Python [dict] and have distinct keys.  The decoder
    follows [json.loads] with its [object_pairs_hook] and [parse_constant] hooks; [fuel] bounds
    the nesting and is the length of the text, which a nested value always consumes.  Texts
    nested deeper than the interpreter's recursion limit are outside the model. *)
From S2P Require Import Prelude PyText PyNum.
From stdpp Require Import pretty.
From Stdlib Require Import Ascii.

Local Open Scope string_scope.
Local Open Scope Z_scope.

Inductive json : Type :=
| JNull
| JBool (b : bool)
| JInt (z : Z)
| JFloat (f : float64)
| JStr (s : string)
| JList (l : list json)
| JObj (l : list (string * json)).

(** ** Operations of Python values *)

Fixpoint assoc {A} (k : string) (l : list (string * A)) : option A :=
  match l with
  | [] => None
  | (k', v) :: l => if bool_decide (k = k') then Some v else assoc k l
  end.

(** [d[k] = v]: an existing key keeps its position. *)
Fixpoint assoc_set {A} (k : string) (v : A) (l : list (string * A)) : list (string * A) :=
  match l with
  | [] => [(k, v)]
  | (k', v') :: l =>
    if bool_decide (k = k') then (k, v) :: l else (k', v') :: assoc_set k v l
  end.

Definition dict_of_pairs (pairs : list (string * json)) : json :=
  JObj (foldl (λ d kv, assoc_set kv.1 kv.2 d) [] pairs).

(** [type(v) is ...], [isinstance(v, ...)] *)
Definition is_int (v : json) : bool := match v with JInt _ => true | _ => false end.
Definition is_str (v : json) : bool := match v with JStr _ => true | _ => false end.
Definition is_list (v : json) : bool := match v with JList _ => true | _ => false end.
Definition is_dict (v : json) : bool := match v with JObj _ => true | _ => false end.
Definition is_bool (v : json) : bool := match v with JBool _ => true | _ => false end.

(** [v.get(k)]: [None] for a missing key, [AttributeError] when [v] is not a dict. *)
Definition json_get (v : json) (k : string) : res json :=
  match v with
  | JObj l => Ok (default JNull (assoc k l))
  | _ => Err AttributeError
  end.
(** [v.get(k, d)] *)
Definition json_get_default (v : json) (k : string) (d : json) : res json :=
  match v with
  | JObj l => Ok (default d (assoc k l))
  | _ => Err AttributeError
  end.
(** [v[k]] with a string [k] *)
Definition json_item (v : json) (k : string) : res json :=
  match v with
  | JObj l => match assoc k l with Some x => Ok x | None => Err (KeyError k) end
  | _ => Err TypeError
  end.
(** A field a typed constructor reads. *)
Definition text_field (v : json) (k : string) : res string :=
  x ← json_item v k; match x with JStr s => Ok s | _ => Err TypeError end.
Definition int_field (v : json) (k : string) : res Z :=
  x ← json_item v k; match x with JInt z => Ok z | _ => Err TypeError end.
(** The truth value of a decoded value. *)
Definition truthy (v : json) : bool :=
  match v with
  | JNull => false
  | JBool b => b
  | JInt z => negb (Z.eqb z 0)
  | JFloat f => match f with S754_zero _ => false | _ => true end
  | JStr s => nonempty s
  | JList l => match l with [] => false | _ => true end
  | JObj l => match l with [] => false | _ => true end
  end.

Definition keys (v : json) : res (list string) :=
  match v with JObj l => Ok l.*1 | _ => Err AttributeError end.

Lemma json_item_dict l k v : assoc k l = Some v → json_item (JObj l) k = Ok v.
Proof. cbn. by intros ->. Qed.
Lemma text_field_dict l k s : assoc k l = Some (JStr s) → text_field (JObj l) k = Ok s.
Proof. intros Hk. unfold text_field. by rewrite (json_item_dict _ _ _ Hk). Qed.
Lemma int_field_dict l k z : assoc k l = Some (JInt z) → int_field (JObj l) k = Ok z.
Proof. intros Hk. unfold int_field. by rewrite (json_item_dict _ _ _ Hk). Qed.

Lemma assoc_assoc_set {A} k k' (v : A) l :
  assoc k (assoc_set k' v l) = if bool_decide (k = k') then Some v else assoc k l.
Proof.
  induction l as [|[k1 v1] l IH]; cbn; [done|].
  destruct (decide (k' = k1)) as [->|Hne].
  - rewrite (bool_decide_eq_true_2 (k1 = k1)) by done. cbn. repeat case_bool_decide; congruence.
  - rewrite (bool_decide_eq_false_2 (k' = k1)) by done. cbn. rewrite IH.
    repeat case_bool_decide; congruence.
Qed.

Definition num_of (v : json) : option num :=
  match v with
  | JBool b => Some (NInt (if b then 1 else 0))
  | JInt z => Some (NInt z)
  | JFloat f => Some (NFloat f)
  | _ => None
  end.

(** Python [==]: numbers and booleans compare by value, objects ignore the order of keys. *)
Fixpoint json_eqb (a b : json) {struct a} : bool :=
  match a, b with
  | JNull, JNull => true
  | JStr s, JStr t => bool_decide (s = t)
  | JList l, JList k =>
    (fix go (l k : list json) : bool :=
       match l, k with
       | [], [] => true
       | x :: l, y :: k => json_eqb x y && go l k
       | _, _ => false
       end) l k
  | JObj l, JObj k =>
    Nat.eqb (length l) (length k) &&
    (fix go (l : list (string * json)) : bool :=
       match l with
       | [] => true
       | (key, x) :: l =>
         match assoc key k with Some y => json_eqb x y | None => false end && go l
       end) l
  | _, _ =>
    match num_of a, num_of b with
    | Some x, Some y => num_eqb x y
    | _, _ => false
    end
  end.

Lemma json_eqb_str v s : json_eqb v (JStr s) = true → v = JStr s.
Proof. destruct v; try done. cbn. by intros ->%bool_decide_eq_true. Qed.

(** [type(a) is type(b)] *)
Definition same_type (a b : json) : bool :=
  match a, b with
  | JNull, JNull | JBool _, JBool _ | JInt _, JInt _ | JFloat _, JFloat _ | JStr _, JStr _
  | JList _, JList _ | JObj _, JObj _ => true
  | _, _ => false
  end.

(** ** Decoding *)

Record hooks : Type := mk_hooks {
  object_pairs_hook : list (string * json) → res json;
  parse_constant : string → res json;
}.

Definition float_constant (c : string) : res json :=
  Ok (JFloat (if bool_decide (c = "NaN") then S754_nan
              else S754_infinity (bool_decide (c = "-Infinity")))).
Definition default_hooks : hooks := mk_hooks (λ pairs, Ok (dict_of_pairs pairs)) float_constant.

Fixpoint skip_ws (s : string) : string :=
  match s with
  | String c r =>
    if one_of [" "; "009"; "010"; "013"]%char c then skip_ws r else s
  | EmptyString => EmptyString
  end.

(** The rest of [s] after a literal prefix. *)
Fixpoint eat (p s : string) : option string :=
  match p, s with
  | EmptyString, _ => Some s
  | String a p, String b s => if bool_decide (a = b) then eat p s else None
  | _, _ => None
  end.

Definition hex_value (c : ascii) : option N :=
  let n := N_of_ascii c in
  if digit c then Some (n - 48)%N
  else if in_range "a" "f" c then Some (n - 87)%N
  else if in_range "A" "F" c then Some (n - 55)%N
  else None.

Definition hex4 (a b c d : ascii) : option N :=
  x ← hex_value a; y ← hex_value b; z ← hex_value c; w ← hex_value d;
  Some (((x * 16 + y) * 16 + z) * 16 + w)%N.

Definition quote : ascii := "034"%char.
Definition backslash : ascii := "\"%char.

Definition escape_char (c : ascii) : option ascii :=
  if bool_decide (c = quote) then Some quote
  else if bool_decide (c = backslash) then Some backslash
  else if bool_decide (c = "/"%char) then Some "/"%char
  else if bool_decide (c = "b"%char) then Some "008"%char
  else if bool_decide (c = "f"%char) then Some "012"%char
  else if bool_decide (c = "n"%char) then Some "010"%char
  else if bool_decide (c = "r"%char) then Some "013"%char
  else if bool_decide (c = "t"%char) then Some "009"%char
  else None.

Definition high_surrogate (n : N) : bool := (55296 <=? n)%N && (n <=? 56319)%N.
Definition low_surrogate (n : N) : bool := (56320 <=? n)%N && (n <=? 57343)%N.
Definition join_surrogates (hi lo : N) : N := (65536 + (hi - 55296) * 1024 + (lo - 56320))%N.

(** The characters of a string literal up to its closing quote, and the rest. *)
Fixpoint json_string (s : string) : res (string * string) :=
  match s with
  | EmptyString => Err JSONDecodeError
  | String c r =>
    if bool_decide (c = quote) then Ok (EmptyString, r)
    else if bool_decide (c = backslash) then
      match r with
      | EmptyString => Err JSONDecodeError
      | String e r' =>
        if bool_decide (e = "u"%char) then
          match r' with
          | String a (String b (String c (String d r4))) =>
            match hex4 a b c d with
            | None => Err JSONDecodeError
            | Some hi =>
              let single := '(t, rest) ← json_string r4; Ok (utf8_char hi t, rest) in
              if high_surrogate hi then
                match r4 with
                | String b1 (String u1 (String a' (String b' (String c' (String d' r10))))) =>
                  if bool_decide (b1 = backslash) && bool_decide (u1 = "u"%char) then
                    match hex4 a' b' c' d' with
                    | None => Err JSONDecodeError
                    | Some lo =>
                      if low_surrogate lo then
                        '(t, rest) ← json_string r10;
                        Ok (utf8_char (join_surrogates hi lo) t, rest)
                      else single
                    end
                  else single
                | _ => single
                end
              else single
            end
          | _ => Err JSONDecodeError
          end
        else
          match escape_char e with
          | None => Err JSONDecodeError
          | Some x => '(t, rest) ← json_string r'; Ok (String x t, rest)
          end
      end
    else if (N_of_ascii c <=? 31)%N then Err JSONDecodeError
    else '(t, rest) ← json_string r; Ok (String c t, rest)
  end.

(** The longest run of digits. *)
Fixpoint digits (s : string) : list N * string :=
  match s with
  | String c r =>
    if digit c then let '(ds, rest) := digits r in ((N_of_ascii c - 48)%N :: ds, rest)
    else ([], s)
  | EmptyString => ([], EmptyString)
  end.

Definition decimal_value (ds : list N) : Z :=
  Z.of_N (foldl (λ acc d, acc * 10 + d)%N 0%N ds).

Definition too_many_digits : exn :=
  ValueError "Exceeds the limit (4300 digits) for integer string conversion".

(** A number: an optional minus sign, an integer part, a fraction and an exponent. *)
Definition json_number (s : string) : res (json * string) :=
  let '(sign, s1) := match eat "-" s with Some r => (-1, r) | None => (1, s) end in
  let '(ip, s2) :=
    match eat "0" s1 with
    | Some r => ([0%N], r)
    | None => digits s1
    end in
  raise_if (bool_decide (ip = [])) JSONDecodeError ;;
  let '(frac, s3) :=
    match eat "." s2 with
    | Some r => match digits r with ([], _) => ([], s2) | x => x end
    | None => ([], s2)
    end in
  let '(ex, s4) :=
    match match eat "e" s3 with Some r => Some r | None => eat "E" s3 end with
    | Some r =>
      let '(es, r1) :=
        match eat "-" r with
        | Some r => (-1, r)
        | None => match eat "+" r with Some r => (1, r) | None => (1, r) end
        end in
      match digits r1 with ([], _) => (None, s3) | (ds, r2) => (Some (es * decimal_value ds), r2) end
    | None => (None, s3)
    end in
  if bool_decide (frac = []) && bool_decide (ex = None) then
    raise_if (4300 <? len ip) too_many_digits ;;
    Ok (JInt (sign * decimal_value ip), s4)
  else
    Ok (JFloat (float_of_decimal (sign * decimal_value (ip ++ frac)) (default 0 ex - len frac)),
        s4).

Definition expect (p s : string) : res string :=
  match eat p s with Some r => Ok r | None => Err JSONDecodeError end.

Section decoder.
Context (h : hooks).

Fixpoint parse_value (fuel : nat) (s : string) {struct fuel} : res (json * string) :=
  match fuel with
  | O => Err JSONDecodeError
  | S n =>
    match s with
    | EmptyString => Err JSONDecodeError
    | String c r =>
      if bool_decide (c = quote) then '(t, r) ← json_string r; Ok (JStr t, r)
      else if bool_decide (c = "{"%char) then
        match eat "}" (skip_ws r) with
        | Some r => v ← object_pairs_hook h []; Ok (v, r)
        | None =>
          '(ps, r) ← parse_members n (skip_ws r);
          v ← object_pairs_hook h ps; Ok (v, r)
        end
      else if bool_decide (c = "["%char) then
        match eat "]" (skip_ws r) with
        | Some r => Ok (JList [], r)
        | None => '(l, r) ← parse_elements n (skip_ws r); Ok (JList l, r)
        end
      else if bool_decide (c = "n"%char) then r ← expect "null" s; Ok (JNull, r)
      else if bool_decide (c = "t"%char) then r ← expect "true" s; Ok (JBool true, r)
      else if bool_decide (c = "f"%char) then r ← expect "false" s; Ok (JBool false, r)
      else
        match eat "NaN" s with
        | Some r => v ← parse_constant h "NaN"; Ok (v, r)
        | None =>
          match eat "Infinity" s with
          | Some r => v ← parse_constant h "Infinity"; Ok (v, r)
          | None =>
            match eat "-Infinity" s with
            | Some r => v ← parse_constant h "-Infinity"; Ok (v, r)
            | None => json_number s
            end
          end
        end
    end
  end
with parse_members (fuel : nat) (s : string) {struct fuel}
    : res (list (string * json) * string) :=
  match fuel with
  | O => Err JSONDecodeError
  | S n =>
    r ← expect (String quote EmptyString) s;
    '(k, r) ← json_string r;
    r ← expect ":" (skip_ws r);
    '(v, r) ← parse_value n (skip_ws r);
    match eat "}" (skip_ws r) with
    | Some r => Ok ([(k, v)], r)
    | None =>
      r ← expect "," (skip_ws r);
      '(ps, r) ← parse_members n (skip_ws r);
      Ok ((k, v) :: ps, r)
    end
  end
with parse_elements (fuel : nat) (s : string) {struct fuel} : res (list json * string) :=
  match fuel with
  | O => Err JSONDecodeError
  | S n =>
    '(v, r) ← parse_value n s;
    match eat "]" (skip_ws r) with
    | Some r => Ok ([v], r)
    | None =>
      r ← expect "," (skip_ws r);
      '(l, r) ← parse_elements n (skip_ws r);
      Ok (v :: l, r)
    end
  end.

(** [json.loads(s, object_pairs_hook=..., parse_constant=...)] *)
Definition loads_with (s : string) : res json :=
  '(v, r) ← parse_value (S (String.length s)) (skip_ws s);
  raise_if (nonempty (skip_ws r)) JSONDecodeError ;;
  Ok v.
End decoder.

Definition loads : string → res json := loads_with default_hooks.

(** Strict UTF-8: what [raw.decode("utf-8")] accepts. *)
Definition continuation (c : ascii) : bool := let n := N_of_ascii c in (128 <=? n)%N && (n <=? 191)%N.
Fixpoint utf8_valid (s : string) : bool :=
  match s with
  | EmptyString => true
  | String c r =>
    let b := N_of_ascii c in
    if (b <? 128)%N then utf8_valid r
    else if (194 <=? b)%N && (b <=? 223)%N then
      match r with String c1 r => continuation c1 && utf8_valid r | _ => false end
    else if (224 <=? b)%N && (b <=? 239)%N then
      match r with
      | String c1 (String c2 r) =>
        let n1 := N_of_ascii c1 in
        continuation c1 && continuation c2
        && (negb (b =? 224)%N || (160 <=? n1)%N) && (negb (b =? 237)%N || (n1 <=? 159)%N)
        && utf8_valid r
      | _ => false
      end
    else if (240 <=? b)%N && (b <=? 244)%N then
      match r with
      | String c1 (String c2 (String c3 r)) =>
        let n1 := N_of_ascii c1 in
        continuation c1 && continuation c2 && continuation c3
        && (negb (b =? 240)%N || (144 <=? n1)%N) && (negb (b =? 244)%N || (n1 <=? 143)%N)
        && utf8_valid r
      | _ => false
      end
    else false
  end.

(** [raw.decode("utf-8")] *)
Definition decode_utf8 (raw : string) : res string :=
  if utf8_valid raw then Ok raw else Err UnicodeError.

(** [json.loads(raw)] on [bytes]: the encoding detected for a text that opens with no byte order
    mark and no NUL byte is UTF-8. *)
Definition loads_bytes (raw : string) : res json := s ← decode_utf8 raw; loads s.

(** ** Encoding *)

Definition hex_digit_char (n : N) : ascii :=
  ascii_of_N (if (n <? 10)%N then n + 48 else n + 87)%N.

(** The escape of one character inside a string literal, with [ensure_ascii=False]. *)
Definition escape (c : ascii) : string :=
  if bool_decide (c = quote) then String backslash (String quote "")
  else if bool_decide (c = backslash) then String backslash (String backslash "")
  else if bool_decide (c = "010"%char) then "\n"
  else if bool_decide (c = "013"%char) then "\r"
  else if bool_decide (c = "009"%char) then "\t"
  else if bool_decide (c = "012"%char) then "\f"
  else if bool_decide (c = "008"%char) then "\b"
  else
    let n := N_of_ascii c in
    if (n <? 32)%N then
      "\u00" ++ String (hex_digit_char (n / 16)) (String (hex_digit_char (n mod 16)) "")
    else String c "".
Fixpoint escape_all (s : string) : string :=
  match s with
  | EmptyString => ""
  | String c r => escape c ++ escape_all r
  end.
Definition dump_string (s : string) : string :=
  String quote (escape_all s ++ String quote "").

Fixpoint insert_key {A} (kv : string * A) (l : list (string * A)) : list (string * A) :=
  match l with
  | [] => [kv]
  | kv' :: l' => if String.leb kv.1 kv'.1 then kv :: l else kv' :: insert_key kv l'
  end.
(** [sorted(d.items())]: code points and UTF-8 bytes order strings alike. *)
Definition sort_items {A} (l : list (string * A)) : list (string * A) := foldr insert_key [] l.

Definition decimal (z : Z) : string := pretty z.

(** The digit limit of the interpreter, for [int(s)] and for [repr]. *)
Definition within_digits (z : Z) : bool := Nat.leb (String.length (decimal (Z.abs z))) 4300.

(** [repr] of a float: the shortest correctly rounded decimal that reads back as the float. *)
Section float_repr.
Context (neg : bool) (m : positive) (e : Z).

Definition float_num : Z := Z.pos m * 2 ^ Z.max 0 e.
Definition float_den : Z := 2 ^ Z.max 0 (- e).

(** [d] with [num/den] nearest to [d * 10^k], ties to even. *)
Definition round_at (k : Z) : Z :=
  let a := float_num * 10 ^ Z.max 0 (- k) in
  let b := float_den * 10 ^ Z.max 0 k in
  let q := a / b in
  match 2 * (a mod b) ?= b with
  | Lt => q
  | Gt => q + 1
  | Eq => if Z.even q then q else q + 1
  end.

(** The exponent [k] with [10^k <= num/den < 10^(k+1)]. *)
Definition dec_exponent : Z :=
  let guess := ((Z.log2 (Z.pos m) + e) * 30103) / 100000 in
  let at_least k := float_den * 10 ^ Z.max 0 k <=? float_num * 10 ^ Z.max 0 (- k) in
  if at_least (guess + 1) then guess + 1 else if at_least guess then guess else guess - 1.

Fixpoint shortest (fuel : nat) (p : Z) : Z * Z :=
  let k := dec_exponent - p + 1 in
  let d := round_at k in
  match fuel with
  | O => (d, k)
  | S fuel =>
    if bool_decide (float_of_decimal d k = S754_finite false m e) then (d, k)
    else shortest fuel (p + 1)
  end.

Fixpoint strip_zeros (fuel : nat) (d k : Z) : Z * Z :=
  match fuel with
  | O => (d, k)
  | S fuel => if d mod 10 =? 0 then strip_zeros fuel (d / 10) (k + 1) else (d, k)
  end.

Definition zeros (n : Z) : string := foldr (λ _ s, String "0" s) "" (seq 0 (Z.to_nat n)).
Definition take_str (n : Z) (s : string) : string := String.substring 0 (Z.to_nat n) s.
Definition drop_str (n : Z) (s : string) : string :=
  String.substring (Z.to_nat n) (String.length s) s.

Definition float_text : string :=
  let '(d, k) := let '(d, k) := shortest 17 1 in strip_zeros 20 d k in
  let ds := decimal d in
  let n := byte_len ds in
  let point := n + k in
  let body :=
    if (point <=? -4) || (16 <? point) then
      let x := point - 1 in
      let mant := if n =? 1 then ds else take_str 1 ds ++ "." ++ drop_str 1 ds in
      let ax := decimal (Z.abs x) in
      mant ++ "e" ++ (if x <? 0 then "-" else "+") ++ (if byte_len ax =? 1 then "0" else "") ++ ax
    else if point <=? 0 then "0." ++ zeros (- point) ++ ds
    else if n <=? point then ds ++ zeros (point - n) ++ ".0"
    else take_str point ds ++ "." ++ drop_str point ds in
  if neg then "-" ++ body else body.
End float_repr.

Definition float_repr (allow_nan : bool) (f : float64) : res string :=
  let bad := ValueError "Out of range float values are not JSON compliant" in
  match f with
  | S754_nan => if allow_nan then Ok "NaN" else Err bad
  | S754_infinity s => if allow_nan then Ok (if s then "-Infinity" else "Infinity") else Err bad
  | S754_zero s => Ok (if s then "-0.0" else "0.0")
  | S754_finite s m e => Ok (float_text s m e)
  end.

Record dump_style : Type := mk_dump_style {
  item_separator : string;
  key_separator : string;
  sort_keys : bool;
  allow_nan : bool;
}.

(** [json.dumps(v, ensure_ascii=False, sort_keys=..., separators=..., allow_nan=...)] *)
Section encoder.
Context (st : dump_style).

Fixpoint join_dumps (l : list string) : string :=
  match l with
  | [] => ""
  | [s] => s
  | s :: l => s ++ item_separator st ++ join_dumps l
  end.

Definition dump_member (kv : string * string) : string :=
  dump_string kv.1 ++ key_separator st ++ kv.2.

Fixpoint dumps_with (v : json) : res string :=
  match v with
  | JNull => Ok "null"
  | JBool b => Ok (if b then "true" else "false")
  | JInt z => raise_if (negb (within_digits z)) too_many_digits ;; Ok (decimal z)
  | JFloat f => float_repr (allow_nan st) f
  | JStr s => Ok (dump_string s)
  | JList l =>
    parts ← (fix go (l : list json) : res (list string) :=
               match l with
               | [] => Ok []
               | x :: l => t ← dumps_with x; ts ← go l; Ok (t :: ts)
               end) l;
    Ok ("[" ++ join_dumps parts ++ "]")
  | JObj l =>
    parts ← (fix go (l : list (string * json)) : res (list (string * string)) :=
               match l with
               | [] => Ok []
               | (k, x) :: l => t ← dumps_with x; ts ← go l; Ok ((k, t) :: ts)
               end) l;
    Ok ("{" ++ join_dumps (dump_member <$> (if sort_keys st then sort_items parts else parts))
        ++ "}")
  end.
End encoder.

(** [separators=(",", ":")] with and without [sort_keys=True], and the default separators. *)
Definition compact_sorted : dump_style := mk_dump_style "," ":" true true.
Definition compact : dump_style := mk_dump_style "," ":" false true.
Definition compact_finite : dump_style := mk_dump_style "," ":" false false.
Definition spaced : dump_style := mk_dump_style ", " ": " false true.

(** [for x in v]: the items a loop over a decoded value visits. *)
Definition iterate (v : json) : res (list json) :=
  match v with
  | JList l => Ok l
  | JObj l => Ok (JStr <$> l.*1)
  | JStr s => Ok ((λ c, JStr (of_code_points [c])) <$> code_points s)
  | _ => Err TypeError
  end.

Example dumps_example :
  dumps_with compact_sorted
    (JObj [("b", JList [JInt (-3); JNull; JFloat (float_of_decimal 1 (-1))]);
           ("a", JStr (String "010" "x"))])
  = Ok ("{" ++ dump_string "a" ++ ":" ++ dump_string (String "010" "x") ++ ","
        ++ dump_string "b" ++ ":[-3,null,0.1]}").
Proof. vm_compute. reflexivity. Qed.
Example repr_examples :
  (λ d, float_repr true (float_of_decimal d.1 d.2)) <$> [(25, -2); (1, 22); (5, -324); (100, 0); (123456789, -13)]
  = [Ok "0.25"; Ok "1e+22"; Ok "5e-324"; Ok "100.0"; Ok "1.23456789e-05"].
Proof. vm_compute. reflexivity. Qed.
Example round_trip_example :
  (t ← dumps_with spaced (JObj [("k", JList [JBool true; JStr "冻结"])]); loads t)
  = Ok (JObj [("k", JList [JBool true; JStr "冻结"])]).
Proof. vm_compute. reflexivity. Qed.
