(* ===== verification/Errors.v ===== *)
(** * Errors: which exceptions fallible code may raise

    [raises P m] says that every exception of [m] satisfies [P].  The lemmas follow the
    constructs of fallible code, so that [solve_raises] computes the exceptions of an operation
    from those of its parts; the decoder of JSON texts is the first instance. *)
From S2P Require Import Prelude PyText PyNum PyJson.
From Stdlib Require Import Ascii.

Local Open Scope Z_scope.

Definition raises {A} (P : exn → Prop) (m : res A) : Prop :=
  match m with Ok _ => True | Err e => P e end.

Create HintDb raises.

Section raises.
Context (P : exn → Prop).
Implicit Types (e : exn).

Lemma raises_spec {A} (m : res A) : raises P m ↔ ∀ e, m = Err e → P e.
Proof. destruct m; cbn; naive_solver. Qed.

Lemma raises_ok {A} (a : A) : raises P (Ok a).
Proof. done. Qed.
Lemma raises_err {A} e : P e → raises P (Err e : res A).
Proof. done. Qed.

Lemma raises_bind {A B} (m : res A) (f : A → res B) :
  raises P m → (∀ a, m = Ok a → raises P (f a)) → raises P (m ≫= f).
Proof. destruct m; cbn; eauto. Qed.
Lemma raises_fmap {A B} (f : A → B) (m : res A) : raises P m → raises P (f <$> m).
Proof. by destruct m. Qed.

Lemma raises_if c e : P e → raises P (raise_if c e).
Proof. by destruct c. Qed.
Lemma raises_ifM c e : raises P c → P e → raises P (raise_ifM c e).
Proof. destruct c as [[]|]; by cbn. Qed.
Lemma raises_orM a b : raises P a → raises P b → raises P (orM a b).
Proof. destruct a as [[]|]; by cbn. Qed.
Lemma raises_andM a b : raises P a → raises P b → raises P (andM a b).
Proof. destruct a as [[]|]; by cbn. Qed.
Lemma raises_negM a : raises P a → raises P (negM a).
Proof. by destruct a. Qed.

Lemma raises_anyM {A} (p : A → res bool) l : (∀ x, raises P (p x)) → raises P (anyM p l).
Proof. intros Hp. induction l as [|x l IH]; cbn; [done|]. by apply raises_orM. Qed.
Lemma raises_allM {A} (p : A → res bool) l : (∀ x, raises P (p x)) → raises P (allM p l).
Proof. intros Hp. apply raises_negM, raises_anyM. intros x. by apply raises_negM. Qed.
Lemma raises_mapM {A B} (f : A → res B) l : (∀ x, raises P (f x)) → raises P (mapM f l).
Proof.
  intros Hf. induction l as [|x l IH]; cbn; [done|].
  apply raises_bind; [done|]. intros y _. apply raises_bind; [done|]. by intros.
Qed.
Lemma raises_foldM {A S} (f : S → A → res S) s l :
  (∀ s x, raises P (f s x)) → raises P (foldM f s l).
Proof.
  intros Hf. revert s. induction l as [|x l IH]; intros s; cbn; [done|].
  apply raises_bind; [done|]. intros s' _. apply IH.
Qed.
End raises.

Lemma raises_mono {A} (P Q : exn → Prop) (m : res A) :
  (∀ e, P e → Q e) → raises P m → raises Q m.
Proof. destruct m; cbn; eauto. Qed.

#[export] Hint Resolve raises_ok raises_err raises_if : raises.
#[export] Hint Extern 2 (raises _ (raise_ifM _ _)) => apply raises_ifM : raises.
#[export] Hint Extern 2 (raises _ (orM _ _)) => apply raises_orM : raises.
#[export] Hint Extern 2 (raises _ (andM _ _)) => apply raises_andM : raises.
#[export] Hint Extern 2 (raises _ (negM _)) => apply raises_negM : raises.
#[export] Hint Extern 2 (raises _ (_ <$> _)) => apply raises_fmap : raises.

(** One step along the shape of the code: a bind, a case distinction, or a known part. *)
Ltac raises_step :=
  match goal with
  | |- raises _ (_ ≫= _) => apply raises_bind; [|intros ? ?]
  | |- raises _ (raise_if _ _) => apply raises_if
  | |- raises _ (raise_ifM _ _) => apply raises_ifM
  | |- raises _ (orM _ _) => apply raises_orM
  | |- raises _ (andM _ _) => apply raises_andM
  | |- raises _ (negM _) => apply raises_negM
  | |- raises _ (_ <$> _) => apply raises_fmap
  | |- raises _ (anyM _ _) => apply raises_anyM; intros ?
  | |- raises _ (mapM _ _) => apply raises_mapM; intros ?
  | |- raises _ (foldM _ _ _) => apply raises_foldM; intros ? ?
  | |- raises _ (Ok _) => exact I
  | |- raises _ (Err _) => apply raises_err
  | |- raises _ (let _ := _ in _) => cbv zeta
  | |- raises _ (match ?x with _ => _ end) => destruct x eqn:?
  | |- ∀ _, _ => intros ?
  end.
Ltac solve_raises := repeat first [solve [eauto 4 with raises] | raises_step].

(** ** Decoding a JSON text *)

Section decoder_raises.
Context (h : hooks) (P : exn → Prop).
Hypothesis P_decode : P JSONDecodeError.
Hypothesis P_digits : P too_many_digits.
Hypothesis P_pairs : ∀ ps, raises P (object_pairs_hook h ps).
Hypothesis P_constant : ∀ c, raises P (parse_constant h c).

Lemma json_string_raises n s : (String.length s < n)%nat → raises P (json_string s).
Proof using P_decode.
  revert s. induction n as [|n IH]; intros s Hn; [lia|].
  destruct s as [|c s]; [done|]. cbn [json_string String.length] in *.
  repeat first
    [ done
    | match goal with
      | |- raises _ (json_string ?r ≫= _) =>
        apply raises_bind; [apply IH; cbn [String.length] in *; lia|intros ? ?]
      end
    | raises_step ].
Qed.

Lemma json_string_raises' s : raises P (json_string s).
Proof using P_decode. eapply json_string_raises. apply Nat.lt_succ_diag_r. Qed.

Lemma expect_raises p s : raises P (expect p s).
Proof using P_decode. unfold expect. by destruct (eat p s). Qed.

Lemma json_number_raises s : raises P (json_number s).
Proof using P_decode P_digits.
  unfold json_number. solve_raises; done.
Qed.

Lemma parse_raises fuel :
  (∀ s, raises P (parse_value h fuel s)) ∧ (∀ s, raises P (parse_members h fuel s)) ∧
  (∀ s, raises P (parse_elements h fuel s)).
Proof using All.
  induction fuel as [|n (IHv & IHm & IHe)]; [done|].
  split_and!; intros s; cbn [parse_value parse_members parse_elements];
    repeat first
      [ done | apply json_string_raises' | apply expect_raises | apply json_number_raises
      | apply P_pairs | apply P_constant | apply IHv | apply IHm | apply IHe | raises_step ].
Qed.

Lemma loads_with_raises s : raises P (loads_with h s).
Proof using All.
  unfold loads_with. apply raises_bind; [apply parse_raises|].
  intros [v r] _. by solve_raises.
Qed.
End decoder_raises.
