(* ===== verification/JsonRoundTrip.v ===== *)
(** * JsonRoundTrip: [json.loads] reads back what [json.dumps] writes

    The codecs of the program store a value with [json.dumps] and read it with [json.loads]; the
    theorem of this file carries their round trips.  It holds for every separator style of the
    sources, for values with distinct keys whose floats read back from their printed form, and for
    every decoder that builds an object from pairs with distinct keys. *)
From stdpp Require Import pretty.
From Stdlib Require Import Ascii.
From S2P Require Import Prelude PyText PyInt PyNum PyJson Errors.

Local Open Scope string_scope.
Local Open Scope Z_scope.

#[local] Arguments String.append : simpl nomatch.

(** ** Texts *)

Lemma app_assoc_s (a b c : string) : (a ++ b) ++ c = a ++ b ++ c.
Proof. induction a as [|x a IH]; cbn; [done|]. by rewrite IH. Qed.
Lemma app_nil_r_s (a : string) : a ++ "" = a.
Proof. induction a as [|x a IH]; cbn; [done|]. by rewrite IH. Qed.
Lemma length_app_s (a b : string) :
  String.length (a ++ b) = (String.length a + String.length b)%nat.
Proof. induction a as [|x a IH]; cbn; [done|]. by rewrite IH. Qed.

Lemma eat_app p s : eat p (p ++ s) = Some s.
Proof. induction p as [|a p IH]; cbn; [done|]. by rewrite bool_decide_eq_true_2. Qed.

Lemma expect_char c r : expect (String c "") (String c r) = Ok r.
Proof. unfold expect. cbn. by rewrite bool_decide_eq_true_2. Qed.

(** The text after a value: the end, or a separator, a closing bracket or a space. *)
Definition delimiters : list ascii := [","; "]"; "}"; " "; ":"]%char.
Definition delimited (rest : string) : bool :=
  match rest with EmptyString => true | String c _ => one_of delimiters c end.

(** ** Numbers *)

Definition digit_N (c : ascii) : N := (N_of_ascii c - 48)%N.

Lemma json_digits t rest :
  PyInt.digits t = true →
  match rest with String c _ => digit c = false | EmptyString => True end →
  PyJson.digits (t ++ rest) = (digit_N <$> String.list_ascii_of_string t, rest).
Proof.
  unfold PyInt.digits. intros Ht Hr. induction t as [|c t IH]; cbn in *.
  - destruct rest as [|c r]; cbn; [done|]. by rewrite Hr.
  - apply andb_true_iff in Ht as [Hc Ht]. by rewrite Hc, IH.
Qed.

Lemma digits_value_from l (a : N) :
  forallb digit l = true →
  Z.of_N (foldl (λ acc d, acc * 10 + d)%N a (digit_N <$> l))
  = foldl (λ acc c, acc * 10 + digit_value c) (Z.of_N a) l.
Proof.
  revert a; induction l as [|c l IH]; intros a Hl; cbn in *; [done|].
  apply andb_true_iff in Hl as [Hc%digit_spec Hl]. rewrite IH by done. f_equal.
  unfold digit_value, digit_N. lia.
Qed.

Lemma decimal_value_digits t :
  PyInt.digits t = true →
  decimal_value (digit_N <$> String.list_ascii_of_string t) = int_of_digits t.
Proof. unfold PyInt.digits, decimal_value, int_of_digits. apply (digits_value_from _ 0). Qed.

Lemma pretty_N_go_head x s :
  (0 < x)%N → ∃ c r, pretty_N_go x s = String c r ∧ c ≠ "0"%char.
Proof.
  revert s. induction (N.lt_wf_0 x) as [x _ IH]; intros s Hx.
  rewrite pretty_N_go_step by done. destruct (decide (x < 10)%N) as [Hlt|Hge].
  - rewrite N.div_small by done. rewrite pretty_N_go_0. rewrite N.mod_small by done.
    eexists _, _. split; [reflexivity|].
    assert (x = 1 ∨ x = 2 ∨ x = 3 ∨ x = 4 ∨ x = 5 ∨ x = 6 ∨ x = 7 ∨ x = 8 ∨ x = 9)%N as H
      by lia.
    repeat (destruct H as [->|H]; [done|]). by subst.
  - apply IH; [by apply N.div_lt|]. apply N.div_str_pos. lia.
Qed.

(** Every character that may follow a number ends it. *)
Lemma delimited_ends rest :
  delimited rest = true →
  match rest with String c _ => digit c = false | EmptyString => True end ∧
  eat "." rest = None ∧ eat "e" rest = None ∧ eat "E" rest = None.
Proof.
  destruct rest as [|c r]; [done|]. cbn. unfold one_of, delimiters.
  rewrite bool_decide_eq_true, !elem_of_cons.
  intros [->|[->|[->|[->|[->|H]]]]]; [by vm_compute..|by apply not_elem_of_nil in H].
Qed.

Lemma json_number_tail (sign : Z) (t rest : string) (ip : list N) :
  delimited rest = true → ip ≠ [] → len ip <= 4300 →
  (let '(frac, s3) :=
     match eat "." rest with
     | Some r => match PyJson.digits r with ([], _) => ([], rest) | x => x end
     | None => ([], rest)
     end in
   let '(ex, s4) :=
     match match eat "e" s3 with Some r => Some r | None => eat "E" s3 end with
     | Some r =>
       let '(es, r1) :=
         match eat "-" r with
         | Some r => (-1, r)
         | None => match eat "+" r with Some r => (1, r) | None => (1, r) end
         end in
       match PyJson.digits r1 with
       | ([], _) => (None, s3) | (ds, r2) => (Some (es * decimal_value ds), r2) end
     | None => (None, s3)
     end in
   if bool_decide (frac = []) && bool_decide (ex = None) then
     raise_if (4300 <? len ip) too_many_digits ;;
     Ok (JInt (sign * decimal_value ip), s4)
   else
     Ok (JFloat (float_of_decimal (sign * decimal_value (ip ++ frac)) (default 0 ex - len frac)),
         s4)) = Ok (JInt (sign * decimal_value ip), rest).
Proof.
  intros (_ & Hd & He & HE)%delimited_ends Hip Hlen. rewrite Hd, He, HE. cbn.
  unfold raise_if. by rewrite (proj2 (Z.ltb_ge _ _)).
Qed.

Lemma json_number_N (n : N) sign s1 rest :
  delimited rest = true → (String.length (pretty n) ≤ 4300)%nat →
  match eat "-" s1 with Some r => (-1, r) | None => (1, s1) end = (sign, pretty n ++ rest) →
  json_number s1 = Ok (JInt (sign * Z.of_N n), rest).
Proof.
  intros Hr Hlen Hs. unfold json_number. rewrite Hs.
  destruct (pretty_N_digits n) as [Hd Hne].
  destruct (delimited_ends rest Hr) as (Hnd & _).
  assert (Hip : match eat "0" (pretty n ++ rest) with
          | Some r => ([0%N], r) | None => PyJson.digits (pretty n ++ rest) end
          = (digit_N <$> String.list_ascii_of_string (pretty n), rest)).
  { destruct (decide (n = 0)%N) as [->|Hn]; [done|].
    assert (Hp : pretty n = pretty_N_go n "") by (unfold pretty, pretty_N; by rewrite decide_False).
    destruct (pretty_N_go_head n "") as (c & r & Hc & H0); [lia|].
    rewrite <- (json_digits (pretty n) rest Hd Hnd). rewrite Hp, Hc. cbn [eat String.append].
    by rewrite bool_decide_eq_false_2 by congruence. }
  rewrite Hip. rewrite <- (pretty_N_value n), <- (decimal_value_digits (pretty n) Hd).
  unfold raise_if at 1. rewrite bool_decide_eq_false_2.
  - cbn [mbind res_bind]. apply (json_number_tail sign (pretty n)); [done| |].
    + destruct (pretty n); done.
    + unfold len. rewrite length_fmap, list_ascii_length. lia.
  - destruct (pretty n); done.
Qed.

Lemma dumps_int st z t :
  dumps_with st (JInt z) = Ok t → t = decimal z ∧ within_digits z = true.
Proof. intros Ht. cbn in Ht. ok_inv. by bool_inv. Qed.

Lemma json_number_decimal z rest :
  delimited rest = true → within_digits z = true →
  json_number (decimal z ++ rest) = Ok (JInt z, rest).
Proof.
  unfold within_digits, decimal. intros Hr Hlen%Nat.leb_le.
  destruct z as [|p|p].
  - by apply (json_number_N 0 1).
  - replace (Z.pos p) with (1 * Z.of_N (N.pos p)) at 2 by lia. apply json_number_N; [done|done|].
    change (pretty (Z.pos p)) with (pretty (N.pos p)).
    destruct (pretty_N_go_head (N.pos p) "") as (c & r & Hc & _); [lia|].
    destruct (pretty_N_digits (N.pos p)) as [Hd _].
    change (pretty (N.pos p)) with (pretty_N_go (N.pos p) "") in *. rewrite Hc in *.
    unfold PyInt.digits in Hd. cbn in Hd. apply andb_true_iff in Hd as [Hcd%digit_spec _].
    cbn [eat String.append]. rewrite bool_decide_eq_false_2; [done|].
    intros <-. vm_compute in Hcd. destruct Hcd as [Hx _]. by apply Hx.
  - change (pretty (Z.neg p)) with ("-" ++ pretty (N.pos p)) in *.
    replace (Z.neg p) with (-1 * Z.of_N (N.pos p)) by lia. apply json_number_N; [done|done|].
    by rewrite app_assoc_s, eat_app.
Qed.

(** ** Strings *)

Lemma json_string_escape c r :
  json_string (escape c ++ r) = ('(t, rest) ← json_string r; Ok (String c t, rest)).
Proof. destruct c as [[] [] [] [] [] [] [] []]; reflexivity. Qed.

Lemma json_string_escape_all s r :
  json_string (escape_all s ++ String quote r) = Ok (s, r).
Proof.
  induction s as [|c s IH]; cbn [escape_all]; [done|].
  rewrite app_assoc_s, json_string_escape, IH. done.
Qed.

(** What follows a number does not change it. *)
Lemma eat_frame c s rest :
  delimited rest = true → one_of delimiters c = false →
  eat (String c "") (s ++ rest) = (λ r, r ++ rest) <$> eat (String c "") s.
Proof.
  intros Hr Hc. destruct s as [|x s]; cbn; [|by case_bool_decide].
  destruct rest as [|y rest]; [done|]. rewrite bool_decide_eq_false_2; [done|]. intros ->.
  cbn in Hr. congruence.
Qed.

Lemma digits_frame s rest :
  delimited rest = true →
  PyJson.digits (s ++ rest) = (let '(ds, r) := PyJson.digits s in (ds, r ++ rest)).
Proof.
  intros (Hr & _)%delimited_ends. induction s as [|c s IH]; cbn.
  - destruct rest as [|c rest]; [done|]. cbn. by rewrite Hr.
  - destruct (digit c); [|done]. rewrite IH. by destruct (PyJson.digits s).
Qed.

(** The stages of [json_number]: each reads a part and leaves the rest. *)
Definition number_sign (s : string) : Z * string :=
  match eat "-" s with Some r => (-1, r) | None => (1, s) end.
Definition number_int (s : string) : list N * string :=
  match eat "0" s with Some r => ([0%N], r) | None => PyJson.digits s end.
Definition number_frac (s : string) : list N * string :=
  match eat "." s with
  | Some r => match PyJson.digits r with ([], _) => ([], s) | x => x end
  | None => ([], s)
  end.
Definition exponent_sign (s : string) : Z * string :=
  match eat "-" s with
  | Some r => (-1, r)
  | None => match eat "+" s with Some r => (1, r) | None => (1, s) end
  end.
Definition number_exp (s : string) : option Z * string :=
  match match eat "e" s with Some r => Some r | None => eat "E" s end with
  | Some r =>
    let '(es, r1) := exponent_sign r in
    match PyJson.digits r1 with ([], _) => (None, s) | (ds, r2) => (Some (es * decimal_value ds), r2) end
  | None => (None, s)
  end.

Lemma json_number_stages s :
  json_number s =
    (let '(sign, s1) := number_sign s in
     let '(ip, s2) := number_int s1 in
     raise_if (bool_decide (ip = [])) JSONDecodeError ;;
     let '(frac, s3) := number_frac s2 in
     let '(ex, s4) := number_exp s3 in
     if bool_decide (frac = []) && bool_decide (ex = None) then
       raise_if (4300 <? len ip) too_many_digits ;;
       Ok (JInt (sign * decimal_value ip), s4)
     else
       Ok (JFloat (float_of_decimal (sign * decimal_value (ip ++ frac)) (default 0 ex - len frac)),
           s4)).
Proof. reflexivity. Qed.

Definition framed {A} (rest : string) (f : string → A * string) : Prop :=
  ∀ s, f (s ++ rest) = (let '(x, r) := f s in (x, r ++ rest)).

Lemma stages_framed rest :
  delimited rest = true →
  framed rest number_sign ∧ framed rest number_int ∧ framed rest number_frac ∧
  framed rest exponent_sign.
Proof.
  intros Hr. split_and!; intros s;
    unfold number_sign, number_int, number_frac, exponent_sign; rewrite !eat_frame by done.
  - by destruct (eat "-" s).
  - destruct (eat "0" s); [done|]. by apply digits_frame.
  - destruct (eat "." s) as [r|]; [|done]. cbn. rewrite digits_frame by done.
    by destruct (PyJson.digits r) as [[|] ?].
  - destruct (eat "-" s); [done|]. by destruct (eat "+" s).
Qed.

Lemma number_exp_framed rest : delimited rest = true → framed rest number_exp.
Proof.
  intros Hr s. destruct (stages_framed rest Hr) as (_ & _ & _ & Hs).
  unfold number_exp. rewrite !eat_frame by done.
  assert (He : ∀ r, (let '(es, r1) := exponent_sign (r ++ rest) in
    match PyJson.digits r1 with
    | ([], _) => (None, s ++ rest) | (ds, r2) => (Some (es * decimal_value ds), r2) end)
    = (let '(x, r') := let '(es, r1) := exponent_sign r in
       match PyJson.digits r1 with
       | ([], _) => (None, s) | (ds, r2) => (Some (es * decimal_value ds), r2) end
       in (x, r' ++ rest))).
  { intros r. rewrite Hs. destruct (exponent_sign r) as [es r1]. rewrite digits_frame by done.
    by destruct (PyJson.digits r1) as [[|] ?]. }
  destruct (eat "e" s); [apply He|]. by destruct (eat "E" s); [apply He|].
Qed.

Lemma json_number_frame s rest :
  delimited rest = true →
  json_number (s ++ rest) = (λ '(v, r), (v, r ++ rest)) <$> json_number s.
Proof.
  intros Hr. destruct (stages_framed rest Hr) as (Hsign & Hint & Hfrac & _).
  pose proof (number_exp_framed rest Hr) as Hexp. rewrite !json_number_stages, Hsign.
  destruct (number_sign s) as [sign s1]. rewrite Hint. destruct (number_int s1) as [ip s2].
  destruct (bool_decide (ip = [])); [done|]. cbn [raise_if mbind res_bind].
  rewrite Hfrac. destruct (number_frac s2) as [frac s3]. rewrite Hexp.
  destruct (number_exp s3) as [ex s4]. destruct (_ && _); [|done].
  by destruct (4300 <? len ip).
Qed.

(** ** Values *)

(** Induction on a value through its elements and members. *)
Section json_induction.
Context (P : json → Prop).
Context (Hnull : P JNull) (Hbool : ∀ b, P (JBool b)) (Hint : ∀ z, P (JInt z))
  (Hfloat : ∀ f, P (JFloat f)) (Hstr : ∀ s, P (JStr s))
  (Hlist : ∀ l, Forall P l → P (JList l))
  (Hobj : ∀ l, Forall (λ kv, P kv.2) l → P (JObj l)).
Fixpoint json_induction (v : json) : P v :=
  match v with
  | JNull => Hnull
  | JBool b => Hbool b
  | JInt z => Hint z
  | JFloat f => Hfloat f
  | JStr s => Hstr s
  | JList l => Hlist l ((fix go (l : list json) : Forall P l :=
                           match l with
                           | [] => Forall_nil_2 P
                           | x :: l => Forall_cons_2 P x l (json_induction x) (go l)
                           end) l)
  | JObj l => Hobj l ((fix go (l : list (string * json)) : Forall (λ kv, P kv.2) l :=
                         match l with
                         | [] => Forall_nil_2 (λ kv : string * json, P kv.2)
                         | kv :: l =>
                           Forall_cons_2 (λ kv : string * json, P kv.2) kv l
                             (json_induction kv.2) (go l)
                         end) l)
  end.
End json_induction.

(** A text that a decoder reads as a number. *)
Definition number_head (t : string) : bool :=
  match t with
  | String c r =>
    digit c || (bool_decide (c = "-"%char)
                && match r with String d _ => digit d | EmptyString => false end)
  | EmptyString => false
  end.
(** A finite float whose printed form is read back as the same float. *)
Definition float_reads (f : float64) : bool :=
  match float_repr false f with
  | Ok t =>
    number_head t
    && match json_number t with Ok (JFloat g, "") => bool_decide (f = g) | _ => false end
  | Err _ => false
  end.

(** The values a text keeps: floats that read back, distinct keys. *)
Fixpoint textual (v : json) : bool :=
  match v with
  | JNull | JBool _ | JInt _ | JStr _ => true
  | JFloat f => float_reads f
  | JList l => forallb textual l
  | JObj l => bool_decide (NoDup l.*1) && forallb (λ kv, textual kv.2) l
  end.

Section style.
Context (st : dump_style).

(** What is read back: the members of an object in the order they were written. *)
Fixpoint written (v : json) : json :=
  match v with
  | JList l => JList (List.map written l)
  | JObj l =>
    let l := List.map (λ kv, (kv.1, written kv.2)) l in
    JObj (if sort_keys st then sort_items l else l)
  | _ => v
  end.

(** A separator of the sources: its character, and perhaps a space. *)
Definition separates (c : string) (sep : string) : Prop := sep = c ∨ sep = c ++ " ".
Context (Hitem : separates "," (item_separator st)) (Hkey : separates ":" (key_separator st)).

Lemma dumps_list l :
  dumps_with st (JList l)
  = (parts ← mapM (dumps_with st) l; Ok ("[" ++ join_dumps st parts ++ "]")).
Proof.
  cbn [dumps_with]. f_equal. induction l as [|v l IH]; [done|]. cbn [mapM]. by rewrite IH.
Qed.

Lemma dumps_obj l :
  dumps_with st (JObj l)
  = (parts ← mapM (λ kv, t ← dumps_with st kv.2; Ok (kv.1, t)) l;
     Ok ("{" ++ join_dumps st
                  (dump_member st <$> (if sort_keys st then sort_items parts else parts))
         ++ "}")).
Proof.
  cbn [dumps_with]. f_equal. induction l as [|[k v] l IH]; [done|]. cbn [mapM]. rewrite <- IH.
  cbn. by destruct (dumps_with st v).
Qed.

(** ** The sorted members *)

Lemma insert_key_Forall2 {A B} (R : A → B → Prop) (k : string * A) (k' : string * B) l l' :
  k.1 = k'.1 → R k.2 k'.2 → Forall2 (λ a b, a.1 = b.1 ∧ R a.2 b.2) l l' →
  Forall2 (λ a b, a.1 = b.1 ∧ R a.2 b.2) (insert_key k l) (insert_key k' l').
Proof.
  intros Hk HR Hl. induction Hl as [|a b l l' [Hab HRab] Hl IH]; cbn; [by repeat constructor|].
  rewrite Hk, Hab. destruct (String.leb k'.1 b.1); by repeat constructor.
Qed.

Lemma sort_items_Forall2 {A B} (R : A → B → Prop)
    (l : list (string * A)) (l' : list (string * B)) :
  Forall2 (λ a b, a.1 = b.1 ∧ R a.2 b.2) l l' →
  Forall2 (λ a b, a.1 = b.1 ∧ R a.2 b.2) (sort_items l) (sort_items l').
Proof.
  intros Hl. induction Hl as [|a b l l' [Hab HR] _ IH]; cbn; [constructor|].
  by apply insert_key_Forall2.
Qed.

Lemma insert_key_perm {A} (k : string * A) l : insert_key k l ≡ₚ k :: l.
Proof.
  induction l as [|a l IH]; cbn; [done|]. destruct (String.leb k.1 a.1); [done|].
  by rewrite IH, Permutation_swap.
Qed.

Lemma sort_items_perm {A} (l : list (string * A)) : sort_items l ≡ₚ l.
Proof. induction l as [|k l IH]; cbn; [done|]. by rewrite insert_key_perm, IH. Qed.

Lemma assoc_set_fresh {A} k (v : A) l : k ∉ l.*1 → assoc_set k v l = (l ++ [(k, v)])%list.
Proof.
  induction l as [|[k' v'] l IH]; cbn; [done|]. rewrite not_elem_of_cons. intros [Hk Hl].
  rewrite bool_decide_eq_false_2 by done. by rewrite IH.
Qed.

Lemma dict_of_pairs_NoDup (l : list (string * json)) : NoDup l.*1 → dict_of_pairs l = JObj l.
Proof.
  unfold dict_of_pairs. intros Hl. f_equal.
  enough (∀ d, NoDup (d ++ l)%list.*1 →
            foldl (λ d kv, assoc_set kv.1 kv.2 d) d l = (d ++ l)%list) as H by by apply (H []).
  clear Hl. induction l as [|[k v] l IH]; intros d Hd; cbn; [by rewrite app_nil_r|].
  rewrite assoc_set_fresh.
  - replace (d ++ (k, v) :: l)%list with ((d ++ [(k, v)]) ++ l)%list in *
      by by rewrite <- app_assoc.
    by apply IH.
  - rewrite fmap_app in Hd. apply NoDup_app in Hd as (_ & Hdis & _). intros Hin.
    apply (Hdis k Hin). left.
Qed.

(** ** The first character of a text *)

(** It is no space and closes nothing. *)
Definition opens (c : ascii) : bool :=
  negb (one_of [" "; "009"; "010"; "013"; "]"; "}"]%char c).

Lemma opens_skip c r : opens c = true → skip_ws (String c r) = String c r.
Proof. by destruct c as [[] [] [] [] [] [] [] []]. Qed.

Lemma decimal_head z :
  ∃ c r, decimal z = String c r ∧
    (digit c = true ∨ c = "-"%char ∧ ∃ d r', r = String d r' ∧ digit d = true).
Proof.
  assert (HN : ∀ n : N, ∃ c r, pretty n = String c r ∧ digit c = true).
  { intros n. destruct (pretty_N_digits n) as [Hd Hne]. destruct (pretty n) as [|c r]; [done|].
    exists c, r. split; [done|]. unfold PyInt.digits in Hd. cbn in Hd.
    by apply andb_true_iff in Hd as [? _]. }
  unfold decimal. destruct z as [|p|p].
  - destruct (HN 0%N) as (c & r & ? & ?). eauto 10.
  - destruct (HN (N.pos p)) as (c & r & ? & ?). eauto 10.
  - destruct (HN (N.pos p)) as (c & r & Hp & ?).
    exists "-"%char, (pretty (N.pos p)). split; [done|]. right. split; [done|]. by exists c, r.
Qed.

Lemma digit_opens c : digit c = true → opens c = true.
Proof. by destruct c as [[] [] [] [] [] [] [] []]. Qed.

Lemma dumps_float f t :
  dumps_with st (JFloat f) = Ok t → float_reads f = true →
  number_head t = true ∧ json_number t = Ok (JFloat f, "").
Proof.
  unfold float_reads. intros Ht Hf. destruct f; cbn in Ht, Hf; try discriminate;
    injection Ht as <-; apply andb_true_iff in Hf as [? Hf]; (split; [done|]);
    destruct (json_number _) as [[[] []]|]; try discriminate Hf;
    by apply bool_decide_eq_true in Hf as <-.
Qed.

Lemma dumps_head v t :
  dumps_with st v = Ok t → textual v = true → ∃ c r, t = String c r ∧ opens c = true.
Proof.
  destruct v as [|b|z|f|s|l|l]; intros Ht Hv.
  - injection Ht as <-. by eexists _, _.
  - injection Ht as <-. destruct b; by eexists _, _.
  - apply dumps_int in Ht as [-> Hz]. destruct (decimal_head z) as (c & r & -> & Hc).
    exists c, r. split; [done|]. destruct Hc as [Hc|[-> _]]; [by apply digit_opens|done].
  - apply dumps_float in Ht as (Hn & _); [|done]. destruct t as [|c r]; [done|].
    exists c, r. split; [done|]. cbn in Hn. apply orb_true_iff in Hn as [Hc|Hc];
      [by apply digit_opens|]. apply andb_true_iff in Hc as [->%bool_decide_eq_true _]. done.
  - injection Ht as <-. by eexists _, _.
  - rewrite dumps_list in Ht. ok_inv. by eexists _, _.
  - rewrite dumps_obj in Ht. ok_inv. by eexists _, _.
Qed.

(** ** Reading back *)

(** A decoder that builds an object from pairs with distinct keys. *)
Context (h : hooks).
Hypothesis Hpairs : ∀ ps, NoDup ps.*1 → object_pairs_hook h ps = Ok (dict_of_pairs ps).

Notation parse := (parse_value h).

Definition reads (v : json) (t : string) : Prop :=
  ∀ fuel rest, (String.length t ≤ fuel)%nat → delimited rest = true →
    parse fuel (t ++ rest) = Ok (written v, rest).

Lemma parse_number n c r :
  digit c = true → parse (S n) (String c r) = json_number (String c r).
Proof. destruct c as [[] [] [] [] [] [] [] []]; (reflexivity || discriminate). Qed.

Lemma parse_negative n c r :
  digit c = true →
  parse (S n) (String "-" (String c r)) = json_number (String "-" (String c r)).
Proof. destruct c as [[] [] [] [] [] [] [] []]; (reflexivity || discriminate). Qed.

Lemma reads_int z : within_digits z = true → reads (JInt z) (decimal z).
Proof.
  intros Hz fuel rest Hf Hr. cbn [written]. rewrite <- (json_number_decimal z rest Hr Hz).
  destruct (decimal_head z) as (c & r & Hd & Hc). rewrite Hd in *.
  destruct fuel as [|n]; [cbn in Hf; lia|].
  destruct Hc as [Hc|(-> & d & r' & -> & Hdd)]; [by apply parse_number|by apply parse_negative].
Qed.

Lemma parse_number_head n t :
  number_head t = true → parse (S n) t = json_number t.
Proof.
  destruct t as [|c r]; [done|]. cbn [number_head]. rewrite orb_true_iff, andb_true_iff.
  intros [Hc|[->%bool_decide_eq_true Hr]]; [by apply parse_number|].
  destruct r as [|d r]; [done|]. by apply parse_negative.
Qed.

Lemma reads_float f t :
  number_head t = true → json_number t = Ok (JFloat f, "") → reads (JFloat f) t.
Proof.
  intros Ht Hn [|n] rest Hf Hr; [destruct t; [done|cbn in Hf; lia]|].
  rewrite parse_number_head.
  - by rewrite json_number_frame, Hn.
  - destruct t as [|c r]; [done|]. cbn in Ht |- *.
    apply orb_true_iff in Ht as [->|Ht]; [done|]. destruct r as [|d r].
    + by rewrite andb_false_r in Ht.
    + cbn. by rewrite Ht, orb_true_r.
Qed.

Lemma reads_string s : reads (JStr s) (dump_string s).
Proof.
  intros [|n] rest Hf Hr; [cbn in Hf; lia|]. unfold dump_string. cbn [String.append].
  rewrite app_assoc_s. cbn [parse_value].
  change (String quote "" ++ rest) with (String quote rest).
  rewrite bool_decide_eq_true_2 by done. by rewrite json_string_escape_all.
Qed.

(** A separator before the next text. *)
Lemma separator_spec c sep t :
  separates (String c "") sep → (∃ x r, t = String x r ∧ opens x = true) → opens c = true →
  ∃ r, skip_ws (sep ++ t) = String c r ∧ skip_ws r = t ∧
    delimited (sep ++ t) = one_of delimiters c ∧ (1 ≤ String.length sep)%nat.
Proof.
  intros Hsep (x & r & -> & Hx) Hc. destruct Hsep as [-> | ->].
  - exists (String x r). rewrite (opens_skip x r Hx). cbn [String.append].
    rewrite (opens_skip c _ Hc). done.
  - exists (String " " (String x r)). cbn [String.append]. rewrite (opens_skip c _ Hc).
    split_and!; [done|exact (opens_skip x r Hx)|done|cbn; lia].
Qed.

Lemma app_opens a b :
  (∃ x r, a = String x r ∧ opens x = true) → ∃ x r, a ++ b = String x r ∧ opens x = true.
Proof. intros (x & r & -> & Hx). by exists x, (r ++ b). Qed.

Definition item_reads (v : json) (t : string) : Prop :=
  reads v t ∧ ∃ c r, t = String c r ∧ opens c = true.

Lemma join_opens x t l ts :
  Forall2 item_reads (x :: l) (t :: ts) →
  ∃ c r, join_dumps st (t :: ts) = String c r ∧ opens c = true.
Proof.
  intros [[_ Ht] _]%Forall2_cons. destruct ts as [|t' ts]; [done|]. by apply app_opens.
Qed.

Lemma parse_elements_join l ts x t fuel rest :
  Forall2 item_reads (x :: l) (t :: ts) →
  (S (String.length (join_dumps st (t :: ts))) ≤ fuel)%nat →
  parse_elements h fuel (join_dumps st (t :: ts) ++ String "]" rest)
  = Ok (List.map written (x :: l), rest).
Proof.
  revert x t fuel l. induction ts as [|t' ts IH]; intros x t fuel l Hl Hf;
    pose proof Hl as [[Hx Hopen] Hl']%Forall2_cons; (destruct fuel as [|n]; [lia|]).
  - apply Forall2_nil_inv_r in Hl' as ->. cbn [join_dumps] in *. cbn [parse_elements].
    rewrite Hx by (done || lia). done.
  - destruct l as [|x' l]; [by inversion Hl'|].
    change (join_dumps st (t :: t' :: ts))
      with (t ++ item_separator st ++ join_dumps st (t' :: ts)) in *.
    rewrite !length_app_s in Hf. rewrite !app_assoc_s. cbn [parse_elements].
    set (tail := join_dumps st _) in *.
    destruct (separator_spec "," (item_separator st) (tail ++ String "]" rest))
      as (r & Hs & Hr & Hd & Hlen); [exact Hitem|by eapply app_opens, join_opens|done|].
    rewrite Hx by (lia || by rewrite Hd). cbn [mbind res_bind].
    rewrite Hs. cbn [eat]. rewrite bool_decide_eq_false_2 by done.
    rewrite expect_char. cbn [mbind res_bind]. rewrite Hr. unfold tail.
    rewrite (IH x' t' n l Hl'); [done|]. fold tail. lia.
Qed.

(** A member and its text: the key stays, the value reads back. *)
Definition member_reads (a : string * json) (b : string * string) : Prop :=
  a.1 = b.1 ∧ item_reads a.2 b.2.

Lemma member_opens b ps :
  ∃ c r, join_dumps st (dump_member st <$> b :: ps) = String c r ∧ opens c = true.
Proof.
  destruct ps as [|b' ps]; cbn; by eexists _, _.
Qed.

(** One member, up to the text after its value. *)
Lemma parse_members_head k x t n tail :
  item_reads x t → (String.length (dump_member st (k, t)) ≤ S n)%nat → delimited tail = true →
  parse_members h (S n) (dump_member st (k, t) ++ tail)
  = match eat "}" (skip_ws tail) with
    | Some r => Ok ([(k, written x)], r)
    | None =>
      r ← expect "," (skip_ws tail);
      '(ps, r) ← parse_members h n (skip_ws r);
      Ok ((k, written x) :: ps, r)
    end.
Proof.
  intros [Hx Hopen] Hf Hd. unfold dump_member, dump_string in *. cbn [fst snd] in *.
  cbn [String.append String.length] in Hf. rewrite !length_app_s in Hf.
  cbn [String.append]. rewrite !app_assoc_s. cbn [parse_members]. rewrite expect_char.
  cbn [mbind res_bind]. change (String quote "" ++ ?x) with (String quote x).
  rewrite json_string_escape_all. cbn [mbind res_bind].
  destruct (separator_spec ":" (key_separator st) (t ++ tail))
    as (r & Hs & Hr & _ & Hlen); [exact Hkey|by apply app_opens|done|].
  rewrite Hs, expect_char. cbn [mbind res_bind]. rewrite Hr, Hx by (done || lia). done.
Qed.

Lemma parse_members_join l ps a b fuel rest :
  Forall2 member_reads (a :: l) (b :: ps) →
  (S (String.length (join_dumps st (dump_member st <$> b :: ps))) ≤ fuel)%nat →
  parse_members h fuel
    (join_dumps st (dump_member st <$> b :: ps) ++ String "}" rest)
  = Ok (List.map (λ kv, (kv.1, written kv.2)) (a :: l), rest).
Proof.
  revert a b fuel l. induction ps as [|b' ps IH]; intros [k x] [k' t] fuel l Hl Hf;
    pose proof Hl as [[Hk Hx] Hl']%Forall2_cons; (destruct fuel as [|n]; [lia|]);
    cbn in Hk, Hx; subst k'.
  - apply Forall2_nil_inv_r in Hl' as ->. cbn [fmap list_fmap join_dumps] in *.
    by rewrite (parse_members_head k x t n) by (done || lia).
  - destruct l as [|a' l]; [by inversion Hl'|].
    change (join_dumps st (dump_member st <$> (k, t) :: b' :: ps))
      with (dump_member st (k, t) ++ item_separator st
              ++ join_dumps st (dump_member st <$> b' :: ps)) in *.
    rewrite !length_app_s in Hf. rewrite !app_assoc_s. set (tail := join_dumps st _) in *.
    destruct (separator_spec "," (item_separator st) (tail ++ String "}" rest))
      as (r & Hs & Hr & Hd & Hlen); [exact Hitem|by apply app_opens, member_opens|done|].
    rewrite (parse_members_head k x t n) by (done || lia || by rewrite Hd).
    rewrite Hs. rewrite expect_char. cbn [eat mbind res_bind].
    rewrite bool_decide_eq_false_2, Hr by done. unfold tail.
    rewrite (IH a' b' n l Hl'); [done|]. fold tail. lia.
Qed.

(** Parts written one by one. *)
Lemma items_read l ts :
  Forall (λ v, ∀ t, textual v = true → dumps_with st v = Ok t → reads v t) l →
  forallb textual l = true → mapM (dumps_with st) l = Ok ts → Forall2 item_reads l ts.
Proof.
  intros Hl. revert ts. induction Hl as [|v l Hv _ IH]; intros ts Ht Hts; cbn in *; ok_inv;
    [constructor|]. apply andb_true_iff in Ht as [Htv Htl].
  constructor; [|by apply IH]. split; [by apply Hv|]. by eapply dumps_head.
Qed.

Lemma members_read l ps :
  Forall (λ kv, ∀ t, textual kv.2 = true → dumps_with st kv.2 = Ok t → reads kv.2 t) l →
  forallb (λ kv, textual kv.2) l = true →
  mapM (λ kv, t ← dumps_with st kv.2; Ok (kv.1, t)) l = Ok ps → Forall2 member_reads l ps.
Proof.
  intros Hl. revert ps. induction Hl as [|v l Hv _ IH]; intros ps Ht Hps; cbn in *; ok_inv;
    [constructor|]. apply andb_true_iff in Ht as [Htv Htl].
  constructor; [|by apply IH]. split; [done|]. split; [by apply Hv|]. by eapply dumps_head.
Qed.

Lemma opens_eat x c r :
  opens c = true → one_of ["]"; "}"]%char x = true → eat (String x "") (String c r) = None.
Proof.
  intros Hc Hx. cbn. rewrite bool_decide_eq_false_2; [done|]. intros ->. unfold opens, one_of in *.
  apply negb_true_iff, bool_decide_eq_false in Hc. apply bool_decide_eq_true in Hx. set_solver.
Qed.

Lemma parse_open_list n s :
  (∃ c r, s = String c r ∧ opens c = true) →
  parse (S n) (String "[" s) = ('(l, r) ← parse_elements h n s; Ok (JList l, r)).
Proof.
  intros (c & r & -> & Hc). cbn [parse_value]. rewrite (opens_skip c r Hc).
  by rewrite (opens_eat "]" c r Hc).
Qed.

Lemma parse_open_obj n s :
  (∃ c r, s = String c r ∧ opens c = true) →
  parse (S n) (String "{" s)
  = ('(ps, r) ← parse_members h n s; v ← object_pairs_hook h ps; Ok (v, r)).
Proof.
  intros (c & r & -> & Hc). cbn [parse_value]. rewrite (opens_skip c r Hc).
  rewrite (opens_eat "}" c r Hc) by done. done.
Qed.

Lemma reads_list l ts :
  Forall2 item_reads l ts → reads (JList l) ("[" ++ join_dumps st ts ++ "]").
Proof.
  intros Hl fuel rest Hf Hr. destruct fuel as [|n]; [cbn in Hf; lia|].
  cbn [String.append String.length] in *. rewrite length_app_s in Hf. rewrite app_assoc_s.
  cbn [String.append]. cbn in Hf.
  destruct Hl as [|x t l ts Hxt Hl]; [done|].
  assert (Hj : Forall2 item_reads (x :: l) (t :: ts)) by by constructor.
  rewrite parse_open_list by by eapply app_opens, join_opens.
  by rewrite (parse_elements_join l ts x t n rest Hj) by lia.
Qed.

Lemma written_keys (l : list (string * json)) :
  (List.map (λ kv, (kv.1, written kv.2)) l).*1 = l.*1.
Proof. induction l as [|kv l IH]; cbn; congruence. Qed.

Lemma sort_items_map {A B} (f : A → B) (l : list (string * A)) :
  sort_items (List.map (λ kv, (kv.1, f kv.2)) l) = List.map (λ kv, (kv.1, f kv.2)) (sort_items l).
Proof.
  induction l as [|[k v] l IH]; [done|]. cbn [List.map sort_items foldr].
  change (insert_key (k, f v) (sort_items (List.map (λ kv, (kv.1, f kv.2)) l))
          = List.map (λ kv, (kv.1, f kv.2)) (insert_key (k, v) (sort_items l))).
  rewrite IH. generalize (sort_items l). clear. intros l.
  induction l as [|[k' v'] l IH]; [done|]. cbn. destruct (String.leb k k'); cbn; by rewrite ?IH.
Qed.

Lemma reads_obj l ps :
  NoDup l.*1 → Forall2 member_reads l ps →
  reads (JObj l)
    ("{" ++ join_dumps st (dump_member st <$> (if sort_keys st then sort_items ps else ps)) ++ "}").
Proof.
  intros Hnd Hl fuel rest Hf Hr. destruct fuel as [|n]; [cbn in Hf; lia|].
  set (l' := if sort_keys st then sort_items l else l).
  set (ps' := if sort_keys st then sort_items ps else ps) in *.
  assert (Hl' : Forall2 member_reads l' ps').
  { unfold l', ps'. destruct (sort_keys st); [by apply sort_items_Forall2|done]. }
  assert (Hnd' : NoDup l'.*1).
  { unfold l'. destruct (sort_keys st); [by rewrite sort_items_perm|done]. }
  assert (Hw : written (JObj l) = dict_of_pairs (List.map (λ kv, (kv.1, written kv.2)) l')).
  { assert (Hp : l' ≡ₚ l) by (unfold l'; destruct (sort_keys st); [apply sort_items_perm|done]).
    rewrite dict_of_pairs_NoDup by by rewrite written_keys, Hp.
    unfold l'. cbn [written]. destruct (sort_keys st); by rewrite ?sort_items_map. }
  rewrite Hw. cbn [String.append String.length] in *. rewrite length_app_s in Hf.
  rewrite app_assoc_s. cbn [String.append]. cbn in Hf.
  destruct Hl' as [|a b k qs Hab Hk];
    [cbn; by rewrite (Hpairs [] ltac:(constructor))|].
  assert (Hj : Forall2 member_reads (a :: k) (b :: qs)) by by constructor.
  rewrite parse_open_obj by by apply app_opens, member_opens.
  rewrite (parse_members_join k qs a b n rest Hj) by lia. cbn [mbind res_bind].
  by rewrite Hpairs by by rewrite written_keys.
Qed.

(** Every text of the encoder reads back. *)
Lemma dumps_reads v : ∀ t, textual v = true → dumps_with st v = Ok t → reads v t.
Proof.
  induction v as [|b|z|f|s|l IH|l IH] using json_induction; intros t Hv Ht.
  - injection Ht as <-. intros [|n] rest Hf Hr; [cbn in Hf; lia|]. reflexivity.
  - injection Ht as <-. intros [|n] rest Hf Hr; [destruct b; cbn in Hf; lia|]. by destruct b.
  - apply dumps_int in Ht as [-> Hz]. by apply reads_int.
  - destruct (dumps_float f t Ht Hv) as [Hn Hj]. intros n rest. exact (reads_float f t Hn Hj n rest).
  - injection Ht as <-. apply reads_string.
  - rewrite dumps_list in Ht. destruct (mapM _ l) as [ts|] eqn:Hts; [|done]. injection Ht as <-.
    by apply reads_list, items_read.
  - rewrite dumps_obj in Ht. destruct (mapM _ l) as [ps|] eqn:Hps; [|done]. injection Ht as <-.
    cbn in Hv. apply andb_true_iff in Hv as [Hnd%bool_decide_eq_true Hv].
    by apply reads_obj, members_read.
Qed.

(** A decoder reads back every text [json.dumps] writes, for every separator style of the
    sources and every value whose floats read back and whose keys are distinct: the result is the
    value, its members in the order they were written. *)
Lemma loads_with_dumps v t :
  textual v = true → dumps_with st v = Ok t → loads_with h t = Ok (written v).
Proof.
  intros Hv Ht. destruct (dumps_head v t Ht Hv) as (c & r & -> & Hc).
  pose proof (dumps_reads v (String c r) Hv Ht (S (String.length (String c r))) ""
    ltac:(lia) eq_refl) as H.
  rewrite app_nil_r_s in H. unfold loads_with. by rewrite (opens_skip c r Hc), H.
Qed.

(** Without sorting the members keep their order. *)
Lemma written_unsorted v : sort_keys st = false → written v = v.
Proof.
  intros Hs. induction v as [| | | | |l IH|l IH] using json_induction; try done; cbn.
  - f_equal. induction IH as [|x l Hx _ IH]; [done|]. cbn. by rewrite Hx, IH.
  - rewrite Hs. f_equal. induction IH as [|[k x] l Hx _ IH]; [done|]. cbn in *. by rewrite Hx, IH.
Qed.

(** Python's [==] does not see the order of the keys. *)
Lemma assoc_keys {A} k (l : list (string * A)) : k ∈ l.*1 → ∃ v, assoc k l = Some v.
Proof.
  induction l as [|[k' v] l IH]; cbn; [by intros ?%not_elem_of_nil|].
  intros [->|Hk]%elem_of_cons; case_bool_decide; eauto. done.
Qed.

Lemma assoc_elem {A} k (v : A) l : NoDup l.*1 → (k, v) ∈ l → assoc k l = Some v.
Proof.
  induction l as [|[k' v'] l IH]; cbn; [by intros _ ?%not_elem_of_nil|].
  rewrite NoDup_cons. intros [Hk Hl] [[= <- <-]|Hin]%elem_of_cons.
  - by rewrite bool_decide_eq_true_2.
  - rewrite bool_decide_eq_false_2; [by apply IH|]. intros <-.
    apply Hk. by apply (list_elem_of_fmap_2 fst _ (k, v)).
Qed.

Lemma json_eqb_written v : textual v = true → json_eqb v (written v) = true.
Proof.
  induction v as [|b|z|f|s|l IH|l IH] using json_induction; intros Hv; cbn in Hv.
  - done.
  - by destruct b.
  - cbn. unfold num_eqb. cbn. by rewrite Z.compare_refl.
  - destruct f as [| | |s m e]; try done; unfold json_eqb, num_eqb; cbn;
      rewrite ?Z.compare_refl, ?Pos.compare_cont_refl; by destruct s.
  - cbn. by rewrite bool_decide_eq_true_2.
  - cbn. induction IH as [|x l Hx _ IH]; [done|]. cbn in *.
    apply andb_true_iff in Hv as [Hvx Hvl]. by rewrite Hx, IH.
  - apply andb_true_iff in Hv as [Hnd%bool_decide_eq_true Hv].
    set (w := List.map (λ kv, (kv.1, written kv.2)) l).
    assert (Hw : ∃ w', written (JObj l) = JObj w' ∧ w' ≡ₚ w).
    { cbn. destruct (sort_keys st); eexists; (split; [reflexivity|]); [apply sort_items_perm|done]. }
    destruct Hw as (w' & -> & Hp).
    assert (Hndw : NoDup w'.*1) by by rewrite Hp; unfold w; rewrite written_keys.
    cbn [json_eqb]. rewrite (Permutation_length Hp). unfold w at 1. rewrite length_map, Nat.eqb_refl.
    cbn [andb]. assert (Hin : ∀ kv, kv ∈ l → assoc kv.1 w' = Some (written kv.2)).
    { intros kv Hkv. apply assoc_elem; [done|]. rewrite Hp. unfold w.
      by apply (list_elem_of_fmap_2 (λ kv, (kv.1, written kv.2))). }
    clear -IH Hv Hin. induction IH as [|[k x] l Hx _ IH]; [done|]. cbn in Hv.
    apply andb_true_iff in Hv as [Hvx Hvl].
    pose proof (Hin (k, x) ltac:(left)) as Hk. cbn in Hk, Hx. rewrite Hk, Hx by done.
    apply IH; [done|]. intros kv Hkv. apply Hin. by right.
Qed.
End style.

(** [json.loads] without hooks *)
Lemma loads_dumps st (Hitem : separates "," (item_separator st))
    (Hkey : separates ":" (key_separator st)) v t :
  textual v = true → dumps_with st v = Ok t → loads t = Ok (written st v).
Proof. by apply loads_with_dumps. Qed.

(** What writing a value can raise. *)
Lemma dumps_with_raises (P : exn → Prop) st v :
  P too_many_digits → P (ValueError "Out of range float values are not JSON compliant") →
  raises P (dumps_with st v).
Proof.
  intros Hd Hf. induction v as [| | |f| |l IH|l IH] using json_induction; try done.
  - cbn. by solve_raises.
  - destruct f; cbn; by try destruct (allow_nan st).
  - rewrite dumps_list. apply raises_bind; [|done].
    induction IH as [|v l Hv _ IH]; [done|]. cbn. apply raises_bind; [done|]. intros t _.
    by apply raises_bind.
  - rewrite dumps_obj. apply raises_bind; [|done].
    induction IH as [|v l Hv _ IH]; [done|]. cbn. apply raises_bind.
    + by apply raises_bind.
    + intros t _. by apply raises_bind.
Qed.
