(* ===== verification/JsonValues.v ===== *)
(** * JsonValues: what every decoded value satisfies

    A decoder with stricter hooks reads the same value as one with looser hooks, and a property of
    scalars, of lists and of the objects that the hook builds is a property of every decoded value;
    in particular the objects of [json.loads] have distinct keys. *)
From S2P Require Import Prelude PyText PyNum PyJson JsonRoundTrip.

Local Open Scope string_scope.
Local Open Scope Z_scope.

(** The first computation returns only what the second returns, and only values of [R]. *)
Definition agrees {A} (R : A → Prop) (m1 m2 : res A) : Prop :=
  ∀ x, m1 = Ok x → m2 = Ok x ∧ R x.

Lemma agrees_refl {A} (R : A → Prop) (m : res A) : (∀ x, m = Ok x → R x) → agrees R m m.
Proof. intros HR x Hx. auto. Qed.
Lemma agrees_ok {A} (R : A → Prop) x : R x → agrees R (Ok x) (Ok x).
Proof. by intros HR y [= <-]. Qed.
Lemma agrees_bind {A B} (R : B → Prop) (R' : A → Prop) (m1 m2 : res A) (k1 k2 : A → res B) :
  agrees R' m1 m2 → (∀ x, R' x → agrees R (k1 x) (k2 x)) → agrees R (m1 ≫= k1) (m2 ≫= k2).
Proof.
  intros Hm Hk y (x & Hx & Hy)%bind_Ok. destruct (Hm x Hx) as [-> HR]. by apply (Hk x HR).
Qed.

Definition scalar (v : json) : bool := match v with JList _ | JObj _ => false | _ => true end.

Lemma json_number_scalar s v r : json_number s = Ok (v, r) → scalar v = true.
Proof.
  rewrite json_number_stages. intros H.
  repeat (match type of H with context [let '(_, _) := ?x in _] => destruct x end; try done).
  py_inv. destruct (_ && _); py_inv; by simplify_eq.
Qed.

Section agreement.
Context (h1 h2 : hooks) (Q : json → Prop).
Hypothesis Q_scalar : ∀ v, scalar v = true → Q v.
Hypothesis Q_list : ∀ l, Forall Q l → Q (JList l).
Hypothesis hook_agrees : ∀ ps, Forall (λ kv, Q kv.2) ps →
  agrees Q (object_pairs_hook h1 ps) (object_pairs_hook h2 ps).
Hypothesis constant_agrees : ∀ c, agrees Q (parse_constant h1 c) (parse_constant h2 c).

Lemma json_number_agrees s : agrees (λ x, Q x.1) (json_number s) (json_number s).
Proof using Q_scalar. apply agrees_refl. intros [v r] H. by eapply Q_scalar, json_number_scalar. Qed.

Local Ltac part := by apply agrees_refl.
Local Ltac agree_step :=
  first
    [ intros v r ?
    | done
    | apply agrees_ok; cbn; auto
    | match goal with
      | |- agrees _ (expect _ _ ≫= _) _ =>
        apply (agrees_bind _ (λ _, True)); [by apply agrees_refl|intros ? _]
      | |- agrees _ (json_string _ ≫= _) _ =>
        apply (agrees_bind _ (λ _, True)); [by apply agrees_refl|intros [? ?] _]
      | |- agrees _ (object_pairs_hook _ _ ≫= _) _ =>
        apply (agrees_bind _ Q); [apply hook_agrees; cbn; auto|intros ? ?]
      | |- agrees _ (parse_constant _ _ ≫= _) _ =>
        apply (agrees_bind _ Q); [apply constant_agrees|intros ? ?]
      | |- agrees _ (json_number _) _ => apply json_number_agrees
      | |- agrees _ (match ?x with _ => _ end) _ => destruct x
      end ].

Lemma parse_agrees fuel :
  (∀ s, agrees (λ x, Q x.1) (parse_value h1 fuel s) (parse_value h2 fuel s)) ∧
  (∀ s, agrees (λ x, Forall (λ kv, Q kv.2) x.1) (parse_members h1 fuel s) (parse_members h2 fuel s)) ∧
  (∀ s, agrees (λ x, Forall Q x.1) (parse_elements h1 fuel s) (parse_elements h2 fuel s)).
Proof using All.
  induction fuel as [|n (IHv & IHm & IHe)]; [by split_and!|].
  split_and!; intros s; cbn [parse_value parse_members parse_elements];
    repeat first
      [ agree_step
      | eapply agrees_bind; [apply IHv|intros [? ?] ?]
      | eapply agrees_bind; [apply IHm|intros [? ?] ?]
      | eapply agrees_bind; [apply IHe|intros [? ?] ?] ].
Qed.

Lemma loads_with_agrees s : agrees Q (loads_with h1 s) (loads_with h2 s).
Proof using All.
  unfold loads_with. eapply agrees_bind; [apply parse_agrees|]. intros [v r] HQ.
  apply (agrees_bind _ (λ _, True)); [by apply agrees_refl|]. intros _ _. by apply agrees_ok.
Qed.
End agreement.

(** ** Objects with distinct keys *)

Fixpoint distinct (v : json) : bool :=
  match v with
  | JList l => forallb distinct l
  | JObj l => bool_decide (NoDup l.*1) && forallb (λ kv, distinct kv.2) l
  | _ => true
  end.

Lemma assoc_set_keys {A} k (v : A) l :
  (assoc_set k v l).*1 = if bool_decide (k ∈ l.*1) then l.*1 else (l.*1 ++ [k])%list.
Proof.
  induction l as [|[k' v'] l IH]; [done|]. cbn [assoc_set].
  destruct (bool_decide_reflect (k = k')) as [->|Hne]; rewrite !fmap_cons.
  - by rewrite bool_decide_eq_true_2 by (by left).
  - rewrite IH. cbn [fst]. repeat case_bool_decide; set_solver.
Qed.

Lemma assoc_set_forall {A} (P : A → Prop) k v l :
  P v → Forall (λ kv, P kv.2) l → Forall (λ kv, P kv.2) (assoc_set k v l).
Proof.
  intros Hv Hl. induction Hl as [|[k' v'] l Hx Hl IH]; cbn; [by repeat constructor|].
  case_bool_decide; by constructor.
Qed.

Lemma dict_of_pairs_distinct ps :
  Forall (λ kv, distinct kv.2 = true) ps → distinct (dict_of_pairs ps) = true.
Proof.
  intros Hps. unfold dict_of_pairs. cbn [distinct].
  cut (NoDup (foldl (λ d kv, assoc_set kv.1 kv.2 d) [] ps).*1 ∧
       Forall (λ kv, distinct kv.2 = true) (foldl (λ d kv, assoc_set kv.1 kv.2 d) [] ps)).
  { intros [Hn Hf]. rewrite bool_decide_eq_true_2 by done. apply forallb_forall.
    intros x Hx. rewrite Forall_forall in Hf. by apply Hf, list_elem_of_In. }
  induction ps as [|[k v] ps IH] using rev_ind; [split; constructor|].
  apply Forall_app in Hps as [Hps [Hv _]%Forall_cons]. destruct (IH Hps) as [Hn Hf].
  rewrite foldl_app. cbn. split; [|by apply (assoc_set_forall (λ v, distinct v = true))].
  rewrite assoc_set_keys. case_bool_decide; [done|]. apply NoDup_app. set_solver by (apply NoDup_singleton).
Qed.

(** A finite text is read as [json.loads] reads it, and has distinct keys throughout. *)
Lemma loads_finite_agrees msg s :
  agrees (λ v, distinct v = true)
    (loads_with (mk_hooks (λ pairs, Ok (dict_of_pairs pairs)) (λ _, Err (ValueError msg))) s) (loads s).
Proof.
  apply loads_with_agrees.
  - by intros [].
  - intros l Hl. cbn. apply forallb_forall. intros x Hx. rewrite Forall_forall in Hl.
    by apply Hl, list_elem_of_In.
  - intros ps Hps. apply agrees_ok. by apply dict_of_pairs_distinct.
  - by intros c v.
Qed.

(** ** Equality with itself *)

Lemma json_eqb_ints (l : list (string * json)) :
  NoDup l.*1 → Forall (λ kv, is_int kv.2 = true) l → json_eqb (JObj l) (JObj l) = true.
Proof.
  intros Hnd Hl. assert (Ht : textual (JObj l) = true).
  { cbn. rewrite bool_decide_eq_true_2 by done. apply forallb_forall. intros x Hx.
    rewrite Forall_forall in Hl. specialize (Hl x). rewrite list_elem_of_In in Hl.
    by destruct (x.2) eqn:E; specialize (Hl Hx). }
  pose proof (json_eqb_written compact _ Ht) as H.
  by rewrite written_unsorted in H.
Qed.
