(* ===== verification/PyIso.v ===== *)
(** * PyIso: [datetime.fromisoformat]

    Reads the texts [isoformat] writes: the extended format with a separator of one ASCII
    character, minutes, optional seconds, a fraction whose digits after the sixth are dropped, and an
    optional offset
    or [Z].  The basic, week and partial formats of the standard, which no writer of the program
    produces, are outside the model.  The theorem is the round trip of every time between the years
    1 and 9999. *)
From stdpp Require Import pretty.
From Stdlib Require Import Ascii.
From S2P Require Import Prelude PyText PyInt PyTime PyJson JsonRoundTrip.

Local Open Scope string_scope.
Local Open Scope Z_scope.

#[local] Arguments String.append : simpl nomatch.

Definition bad_format : exn := ValueError "Invalid isoformat string".

(** ** The calendar *)

(** The day number of a date, the inverse of [civil_of_days]. *)
Definition days_of_civil (y m d : Z) : Z :=
  let y' := y - (if m <=? 2 then 1 else 0) in
  let era := y' / 400 in
  let yoe := y' - era * 400 in
  let doy := (153 * (m + (if 2 <? m then -3 else 9)) + 2) / 5 + d - 1 in
  let doe := yoe * 365 + yoe / 4 - yoe / 100 + doy in
  era * 146097 + doe - 719468.

Definition leap (y : Z) : bool :=
  (y mod 4 =? 0) && (negb (y mod 100 =? 0) || (y mod 400 =? 0)).
Definition days_in_month (y m : Z) : Z :=
  if m =? 2 then (if leap y then 29 else 28)
  else if existsb (Z.eqb m) [4; 6; 9; 11] then 30 else 31.
Definition valid_date (y m d : Z) : bool :=
  (1 <=? y) && (y <=? 9999) && (1 <=? m) && (m <=? 12) && (1 <=? d) && (d <=? days_in_month y m).

(** ** Reading *)

(** [n] digits, continuing the number [acc]. *)
Fixpoint read_digits (n : nat) (acc : Z) (s : string) : option (Z * string) :=
  match n with
  | O => Some (acc, s)
  | S n =>
    match s with
    | String c s => if digit c then read_digits n (acc * 10 + digit_value c) s else None
    | EmptyString => None
    end
  end.

Definition number (n : nat) (s : string) : res (Z * string) :=
  match read_digits n 0 s with Some x => Ok x | None => Err bad_format end.
Definition literal (p s : string) : res string :=
  match eat p s with Some r => Ok r | None => Err bad_format end.

(** The fraction of a second in microseconds, from at most six digits. *)
Fixpoint fraction (n : nat) (acc : Z) (s : string) : Z * string :=
  match n with
  | O => (acc, s)
  | S n =>
    match s with
    | String c r =>
      if digit c then fraction n (acc + digit_value c * 10 ^ Z.of_nat n) r else (acc, s)
    | EmptyString => (acc, s)
    end
  end.

(** Hours, minutes and perhaps seconds and their fraction, in microseconds. *)
Definition clock (s : string) : res (Z * Z * Z * Z * string) :=
  '(h, s) ← number 2 s;
  s ← literal ":" s;
  '(m, s) ← number 2 s;
  match eat ":" s with
  | None => Ok (h, m, 0, 0, s)
  | Some s =>
    '(sec, s) ← number 2 s;
    match eat "." s with
    | None => Ok (h, m, sec, 0, s)
    | Some s =>
      '(_, _) ← number 1 s;
      let '(us, s) := fraction 6 0 s in
      Ok (h, m, sec, us, (PyJson.digits s).2)
    end
  end.

Definition microseconds (h m sec us : Z) : Z := ((h * 60 + m) * 60 + sec) * 1000000 + us.

Definition offset (s : string) : res tzinfo :=
  match s with
  | EmptyString => Ok NoTz
  | String c r =>
    if bool_decide (s = "Z") then Ok (TzOffset 0)
    else if bool_decide (c = "+"%char) || bool_decide (c = "-"%char) then
      '(h, m, sec, us, rest) ← clock r;
      let o := microseconds h m sec us in
      raise_if (nonempty rest || (86400000000 <=? o)) bad_format ;;
      Ok (TzOffset (if bool_decide (c = "-"%char) then - o else o))
    else Err bad_format
  end.

Definition fromisoformat (s : string) : res datetime :=
  '(y, s) ← number 4 s;
  s ← literal "-" s;
  '(m, s) ← number 2 s;
  s ← literal "-" s;
  '(d, s) ← number 2 s;
  raise_if (negb (valid_date y m d)) (ValueError "day is out of range for month") ;;
  let days := days_of_civil y m d in
  match s with
  | EmptyString => Ok (mk_datetime (days * 86400000000) NoTz)
  | String c s =>
    raise_if (128 <=? Z.of_N (N_of_ascii c)) bad_format ;;
    '(h, mi, sec, us, s) ← clock s;
    raise_if ((23 <? h) || (59 <? mi) || (59 <? sec)) (ValueError "time out of range") ;;
    tz ← offset s;
    Ok (mk_datetime (days * 86400000000 + microseconds h mi sec us) tz)
  end.

Example fromisoformat_examples :
  fromisoformat "2024-02-29T12:34:56+00:00" = Ok (utc 1709210096000000) ∧
  fromisoformat "1969-12-31T23:59:59.999999-05:30" = Ok (mk_datetime (-1) (TzOffset (-19800000000))) ∧
  fromisoformat "2023-02-29T00:00:00" = Err (ValueError "day is out of range for month") ∧
  fromisoformat "2024-01-01T00:00:00.5Z" = Ok (utc 1704067200500000) ∧
  fromisoformat "2024-01-01T00:00:00.123456789Z" = Ok (utc 1704067200123456).
Proof. split_and!; vm_compute; reflexivity. Qed.

(** ** Numbers of a fixed width *)

Lemma fold_digits_ge l acc :
  forallb digit l = true → 0 <= acc →
  acc * 10 ^ len l <= foldl (λ acc c, acc * 10 + digit_value c) acc l.
Proof.
  revert acc; induction l as [|c l IH]; intros acc Hl Ha; [change (acc * 1 <= acc); lia|].
  cbn in Hl. apply andb_true_iff in Hl as [Hc%digit_spec Hl]. cbn.
  assert (0 <= digit_value c) by (unfold digit_value; lia).
  specialize (IH (acc * 10 + digit_value c) Hl ltac:(lia)).
  unfold len in *. cbn [length]. rewrite Nat2Z.inj_succ, Z.pow_succ_r by lia.
  pose proof (Z.pow_nonneg 10 (Z.of_nat (length l)) ltac:(lia)). nia.
Qed.

Lemma pretty_length (n : N) w :
  (0 < w)%nat → (n < 10 ^ N.of_nat w)%N → (String.length (pretty n) ≤ w)%nat.
Proof.
  intros Hw Hn. destruct (decide (n = 0)%N) as [->|Hn0]; [change (1 ≤ w)%nat; lia|].
  destruct (pretty_N_go_head n "") as (c & r & Hc & H0); [lia|].
  assert (Hp : pretty n = String c r) by (unfold pretty, pretty_N; by rewrite decide_False).
  pose proof (pretty_N_value n) as Hv. destruct (pretty_N_digits n) as [Hd _].
  rewrite Hp in *. unfold int_of_digits, PyInt.digits in *. cbn in *.
  apply andb_true_iff in Hd as [Hcd Hr].
  assert (1 <= digit_value c).
  { apply digit_spec in Hcd. unfold digit_value.
    assert (N_of_ascii c ≠ 48)%N; [|lia]. intros Heq. apply H0.
    rewrite <- (ascii_N_embedding c), Heq. done. }
  pose proof (fold_digits_ge _ (digit_value c) Hr ltac:(lia)) as Hge.
  destruct (Nat.le_gt_cases (S (String.length r)) w) as [|Hgt]; [done|].
  change (0 * 10 + digit_value c) with (digit_value c) in Hv.
  exfalso. rewrite Hv in Hge. unfold len in Hge. rewrite list_ascii_length in Hge.
  assert (10 ^ Z.of_nat w <= 10 ^ Z.of_nat (String.length r)) by (apply Z.pow_le_mono_r; lia).
  assert (Z.of_N n < 10 ^ Z.of_nat w).
  { rewrite <- nat_N_Z. change 10 with (Z.of_N 10). rewrite <- N2Z.inj_pow. lia. }
  nia.
Qed.

Lemma zeros_padding k t :
  PyInt.digits t = true →
  let p := foldr (λ (_ : nat) acc, "0" ++ acc) t (seq 0 k) in
  PyInt.digits p = true ∧ String.length p = (k + String.length t)%nat ∧
  int_of_digits p = int_of_digits t.
Proof.
  intros Ht. cbn zeta. generalize 0%nat as i. induction k as [|k IH]; intros i; [done|].
  destruct (IH (S i)) as (Hd & Hl & Hv). cbn [seq foldr]. revert Hd Hl Hv.
  generalize (foldr (λ (_ : nat) acc, "0" ++ acc) t (seq (S i) k)). intros p Hd Hl Hv.
  change ("0" ++ p) with (String "0" p).
  split_and!; [|cbn [String.length]; lia|exact Hv]. unfold PyInt.digits in *. cbn. exact Hd.
Qed.

Lemma padded_spec w n :
  (0 < w)%nat → 0 <= n < 10 ^ Z.of_nat w →
  PyInt.digits (padded w n) = true ∧ String.length (padded w n) = w ∧ int_of_digits (padded w n) = n.
Proof.
  intros Hw Hn. unfold padded.
  assert (Hp : pretty n = pretty (Z.to_N n)) by (destruct n as [|p|p]; [done|done|lia]).
  rewrite Hp.
  assert (Hl : (String.length (pretty (Z.to_N n)) ≤ w)%nat).
  { apply pretty_length; [done|]. change 10%N with (Z.to_N 10). rewrite <- (N2Z.id (N.of_nat w)), nat_N_Z.
    rewrite <- Z2N.inj_pow by lia. lia. }
  destruct (pretty_N_digits (Z.to_N n)) as [Hd _].
  destruct (zeros_padding (w - String.length (pretty (Z.to_N n))) _ Hd) as (H1 & H2 & H3).
  split_and!; [done|rewrite H2; lia|]. rewrite H3, pretty_N_value. lia.
Qed.

Lemma read_digits_text t rest acc :
  PyInt.digits t = true →
  read_digits (String.length t) acc (t ++ rest)
  = Some (foldl (λ acc c, acc * 10 + digit_value c) acc (String.list_ascii_of_string t), rest).
Proof.
  unfold PyInt.digits. revert acc. induction t as [|c t IH]; intros acc Ht; [done|]. cbn in *.
  apply andb_true_iff in Ht as [Hc Ht]. rewrite Hc. by apply IH.
Qed.

Lemma number_padded w n rest :
  (0 < w)%nat → 0 <= n < 10 ^ Z.of_nat w → number w (padded w n ++ rest) = Ok (n, rest).
Proof.
  intros Hw Hn. destruct (padded_spec w n Hw Hn) as (Hd & Hl & Hv). unfold number.
  rewrite <- Hl at 1. rewrite read_digits_text by done. unfold int_of_digits in Hv. by rewrite Hv.
Qed.

(** Six digits of a fraction are its microseconds. *)
Lemma fraction_digits t rest acc :
  PyInt.digits t = true →
  fraction (String.length t) acc (t ++ rest)
  = (acc + foldl (λ acc c, acc * 10 + digit_value c) 0 (String.list_ascii_of_string t), rest).
Proof.
  unfold PyInt.digits. revert acc. induction t as [|c t IH]; intros acc Ht; [cbn; f_equal; lia|].
  cbn [String.list_ascii_of_string forallb] in Ht. apply andb_true_iff in Ht as [Hc Ht].
  cbn [String.length fraction String.append]. rewrite Hc, IH by done. f_equal.
  cbn [String.list_ascii_of_string foldl]. rewrite Z.mul_0_l, Z.add_0_l.
  rewrite <- list_ascii_length. generalize (digit_value c) as v. clear.
  assert (H : ∀ l v, foldl (λ acc c, acc * 10 + digit_value c) v l
             = v * 10 ^ len l + foldl (λ acc c, acc * 10 + digit_value c) 0 l).
  { induction l as [|d l IH]; intros v; [change (v = v * 1 + 0); lia|]. cbn [foldl].
    rewrite (IH (v * 10 + digit_value d)), (IH (0 * 10 + digit_value d)). unfold len. cbn [length].
    rewrite Nat2Z.inj_succ, Z.pow_succ_r by lia. ring. }
  intros v. rewrite (H _ v). unfold len. lia.
Qed.

(** ** The calendar, period by period *)

Lemma civil_shift d k :
  civil_of_days (d + 146097 * k)
  = let '(y, m, dd) := civil_of_days d in (y + 400 * k, m, dd).
Proof.
  unfold civil_of_days.
  assert (He : (d + 146097 * k + 719468) / 146097 = (d + 719468) / 146097 + k).
  { replace (d + 146097 * k + 719468) with (d + 719468 + k * 146097) by lia.
    by rewrite Z.div_add by done. }
  rewrite He.
  replace (d + 146097 * k + 719468 - ((d + 719468) / 146097 + k) * 146097)
    with (d + 719468 - (d + 719468) / 146097 * 146097) by lia.
  cbn beta iota zeta. do 2 f_equal. ring.
Qed.

Lemma days_shift y m d k :
  days_of_civil (y + 400 * k) m d = days_of_civil y m d + 146097 * k.
Proof.
  unfold days_of_civil. set (c := if m <=? 2 then 1 else 0). clearbody c.
  assert (He : (y + 400 * k - c) / 400 = (y - c) / 400 + k).
  { replace (y + 400 * k - c) with (y - c + k * 400) by lia. by rewrite Z.div_add by done. }
  rewrite He.
  replace (y + 400 * k - c - ((y - c) / 400 + k) * 400) with (y - c - (y - c) / 400 * 400) by lia.
  cbn zeta. lia.
Qed.

Lemma days_in_month_shift y m k : days_in_month (y + 400 * k) m = days_in_month y m.
Proof.
  unfold days_in_month, leap.
  assert (H : ∀ n, (n = 4 ∨ n = 100 ∨ n = 400) → (y + 400 * k) mod n = y mod n).
  { intros n [->|[->| ->]].
    - replace (y + 400 * k) with (y + (100 * k) * 4) by lia. by rewrite Z.mod_add.
    - replace (y + 400 * k) with (y + (4 * k) * 100) by lia. by rewrite Z.mod_add.
    - replace (y + 400 * k) with (y + k * 400) by lia. by rewrite Z.mod_add. }
  by rewrite !H by auto.
Qed.

(** Whether a predicate holds of the [n] numbers from 0. *)
Definition below (n : nat) (f : Z → bool) : bool := forallb (λ i, f (Z.of_nat i)) (seq 0 n).
Lemma below_spec n f x : below n f = true → 0 <= x < Z.of_nat n → f x = true.
Proof.
  unfold below. rewrite forallb_forall. intros H Hx. rewrite <- (Z2Nat.id x) by lia. apply H.
  apply in_seq. lia.
Qed.

(** The year of a day of the period, and the first day of a year: a year of the period begins in
    March. *)
Definition leapless (doe : Z) : Z := doe - doe / 1460 + doe / 36524 - doe / 146096.
Definition year_of (doe : Z) : Z := leapless doe / 365.
Definition year_start (y : Z) : Z := y * 365 + y / 4 - y / 100.

Lemma leapless_mono a b : 0 <= a <= b → leapless a <= leapless b.
Proof.
  intros [Ha Hab]. cut (∀ n : nat, leapless a <= leapless (a + Z.of_nat n)).
  { intros H. specialize (H (Z.to_nat (b - a))). by replace (a + Z.of_nat (Z.to_nat (b - a))) with b in H by lia. }
  induction n as [|n IH]; [by rewrite Z.add_0_r|]. etrans; [exact IH|].
  rewrite Nat2Z.inj_succ, Z.add_succ_r. set (d := a + Z.of_nat n). assert (0 <= d) by (unfold d; lia).
  clearbody d. unfold leapless. change 146096 with (36524 * 4). rewrite <- !Z.div_div by lia.
  pose proof (Z.div_le_mono d (Z.succ d) 36524 ltac:(lia) ltac:(lia)).
  generalize dependent (Z.succ d / 36524); intros e. generalize (d / 36524); intros e'.
  intros. Z.to_euclidean_division_equations. lia.
Qed.

Definition good_year (y : Z) : bool :=
  (year_of (year_start y) =? y)
  && (year_of (if y =? 399 then 146096 else year_start (y + 1) - 1) =? y)
  && ((if y =? 399 then 146097 else year_start (y + 1)) - year_start y
      =? (if leap (y + 1) then 366 else 365))
  && (leapless (year_start y) <? 365 * 400).

Lemma good_years y : 0 <= y < 400 → good_year y = true.
Proof. intros Hy. apply (below_spec 400 good_year); [by vm_compute|done]. Qed.

(** A day of the period lies in its year. *)
Lemma year_of_spec doe :
  0 <= doe < 146097 →
  0 <= year_of doe < 400 ∧ 0 <= doe - year_start (year_of doe) < (if leap (year_of doe + 1) then 366 else 365).
Proof.
  intros Hd. set (y := year_of doe). assert (Hy : 0 <= y < 400).
  { pose proof (leapless_mono 0 doe ltac:(lia)). pose proof (leapless_mono doe 146096 ltac:(lia)) as Hb.
    change (leapless 0) with 0 in *. change (leapless 146096) with 145999 in Hb.
    unfold y, year_of. split; [by apply Z.div_pos|]. apply Z.div_lt_upper_bound; lia. }
  split; [done|].
  pose proof (good_years y Hy) as Hg. unfold good_year in Hg.
  rewrite !andb_true_iff, !Z.eqb_eq, Z.ltb_lt in Hg. destruct Hg as [[[H1 H2] H3] _].
  assert (Hmono : ∀ a b, 0 <= a <= b → year_of a <= year_of b).
  { intros a b Hab. unfold year_of. apply Z.div_le_mono; [lia|]. by apply leapless_mono. }
  split.
  - destruct (Z.le_gt_cases (year_start y) doe) as [|Hlt]; [lia|]. exfalso.
    destruct (Z.eq_dec y 0) as [H0|H0]; [rewrite H0 in Hlt; change (year_start 0) with 0 in Hlt; lia|].
    pose proof (good_years (y - 1) ltac:(lia)) as Hg. unfold good_year in Hg.
    rewrite !andb_true_iff, !Z.eqb_eq in Hg. destruct Hg as [[[_ Hp] _] _].
    assert ((y - 1 =? 399) = false) as E by (apply Z.eqb_neq; lia). rewrite E in Hp.
    replace (y - 1 + 1) with y in Hp by lia.
    pose proof (Hmono doe (year_start y - 1) ltac:(lia)). fold y in H. lia.
  - rewrite <- H3. destruct (Z.eqb_spec y 399) as [E|E]; [lia|].
    destruct (Z.lt_ge_cases doe (year_start (y + 1))) as [|Hge]; [lia|]. exfalso.
    pose proof (good_years (y + 1) ltac:(lia)) as Hg. unfold good_year in Hg.
    rewrite !andb_true_iff, !Z.eqb_eq in Hg. destruct Hg as [[[Hn _] _] _].
    assert (0 <= year_start (y + 1)) by (unfold year_start; Z.to_euclidean_division_equations; lia).
    pose proof (Hmono (year_start (y + 1)) doe ltac:(lia)). fold y in H0. lia.
Qed.

(** The month and day of a day of the year. *)
Definition good_day (doy : Z) : bool :=
  let mp := (5 * doy + 2) / 153 in
  let d := doy - (153 * mp + 2) / 5 + 1 in
  let m := if mp <? 10 then mp + 3 else mp - 9 in
  ((153 * (m + (if 2 <? m then -3 else 9)) + 2) / 5 + d - 1 =? doy)
  && (1 <=? m) && (m <=? 12) && (1 <=? d)
  && (d <=? (if m =? 2 then (if doy =? 365 then 29 else 28) else days_in_month 1 m))
  && Bool.eqb (m <=? 2) (306 <=? doy).

Lemma good_days doy : 0 <= doy < 366 → good_day doy = true.
Proof. intros Hy. apply (below_spec 366 good_day); [by vm_compute|done]. Qed.

(** The days of the years 1 to 9999. *)
Definition first_day : Z := -719162.
Definition last_day : Z := 2932896.

Lemma days_in_month_le y m : days_in_month y m <= 31.
Proof. unfold days_in_month. by repeat case_match. Qed.

Lemma leap_shift y k : leap (y + 400 * k) = leap y.
Proof.
  pose proof (days_in_month_shift y 2 k) as H. unfold days_in_month in H. cbn in H.
  by destruct (leap (y + 400 * k)), (leap y).
Qed.

Lemma civil_days d :
  first_day <= d <= last_day →
  let '(y, m, dd) := civil_of_days d in
  days_of_civil y m dd = d ∧ valid_date y m dd = true ∧ 1 <= y <= 9999 ∧ 1 <= m <= 12 ∧ 1 <= dd <= 31.
Proof.
  unfold first_day, last_day. intros Hd. unfold civil_of_days.
  set (era := (d + 719468) / 146097). set (doe := d + 719468 - era * 146097).
  assert (Hdoe : 0 <= doe < 146097)
    by (unfold doe, era; pose proof (Z.div_mod (d + 719468) 146097 ltac:(lia));
        pose proof (Z.mod_pos_bound (d + 719468) 146097 ltac:(lia)); lia).
  change ((doe - doe / 1460 + doe / 36524 - doe / 146096) / 365) with (year_of doe).
  rewrite (Z.mul_comm 365). change (year_of doe * 365 + year_of doe / 4 - year_of doe / 100)
    with (year_start (year_of doe)).
  destruct (year_of_spec doe Hdoe) as [Hy Hdoy].
  assert (Hlast : era = 24 → year_of doe = 399 → doe - year_start (year_of doe) < 306).
  { intros He ->. change (year_start 399) with 145731. unfold doe. lia. }
  assert (Hfirst : era = 0 → year_of doe = 0 → 306 <= doe - year_start (year_of doe)).
  { intros He ->. change (year_start 0) with 0. unfold doe. lia. }
  assert (Hera : 0 <= era <= 24) by (unfold doe in Hdoe; lia).
  assert (Hsum : doe = year_start (year_of doe) + (doe - year_start (year_of doe))) by lia.
  assert (Hd' : d = era * 146097 + doe - 719468) by (unfold doe; lia).
  revert Hy Hdoy Hlast Hfirst Hsum. generalize (year_of doe). intros y.
  generalize (doe - year_start y). intros doy Hy Hdoy Hlast Hfirst Hsum.
  pose proof (good_days doy ltac:(destruct (leap (y + 1)); lia)) as Hg. unfold good_day in Hg.
  revert Hg. set (mp := (5 * doy + 2) / 153). set (m := if mp <? 10 then mp + 3 else mp - 9).
  generalize (doy - (153 * mp + 2) / 5 + 1). intros dd.
  clearbody m era doe. clear mp. intros Hg. cbn zeta in Hg. cbn zeta.
  rewrite !andb_true_iff, Z.eqb_eq, !Z.leb_le in Hg.
  destruct Hg as [[[[[H1 H2] H3] H4] H5] H6%Bool.eqb_prop].
  assert (Hlp : dd <= days_in_month (y + era * 400 + (if m <=? 2 then 1 else 0)) m).
  { destruct (Z.eqb_spec m 2) as [->|Hm].
    - change (2 <=? 2) with true. change (if true then 1 else 0) with 1. cbn match in H5.
      unfold days_in_month. change (2 =? 2) with true. cbn match.
      replace (y + era * 400 + 1) with (y + 1 + 400 * era) by lia. rewrite leap_shift.
      destruct (Z.eqb_spec doy 365), (leap (y + 1)); lia.
    - unfold days_in_month in *. apply Z.eqb_neq in Hm. by rewrite Hm in *. }
  pose proof (days_in_month_le (y + era * 400 + (if m <=? 2 then 1 else 0)) m).
  assert (1 <= y + era * 400 + (if m <=? 2 then 1 else 0) <= 9999).
  { rewrite H6. destruct (Z.leb_spec 306 doy); lia. }
  split_and!; try lia.
  - unfold days_of_civil.
    replace (y + era * 400 + (if m <=? 2 then 1 else 0) - (if m <=? 2 then 1 else 0))
      with (y + era * 400) by lia.
    rewrite Z.div_add, (Z.div_small y) by lia. rewrite Hd', Hsum. unfold year_start.
    replace (y + era * 400 - (0 + era) * 400) with y by lia. cbn zeta. lia.
  - unfold valid_date. rewrite !andb_true_iff, !Z.leb_le. lia.
Qed.

(** ** Times of day and offsets *)

Definition fraction_text (us : Z) : string := if us =? 0 then "" else "." ++ padded 6 us.

(** The rest does not continue the seconds. *)
Definition time_ends (rest : string) : Prop :=
  eat "." rest = None ∧ eat ":" rest = None ∧ PyJson.digits rest = ([], rest).

Lemma number_first t rest :
  PyInt.digits t = true → (0 < String.length t)%nat → ∃ x, number 1 (t ++ rest) = Ok x.
Proof.
  unfold PyInt.digits, number. destruct t as [|c t]; cbn; [lia|]. intros [-> _]%andb_true_iff _. eauto.
Qed.

Lemma fraction_read us rest :
  0 <= us < 1000000 → fraction 6 0 (padded 6 us ++ rest) = (us, rest).
Proof.
  intros Hu. destruct (padded_spec 6 us ltac:(lia) ltac:(lia)) as (Hd & Hl & Hv).
  rewrite <- Hl at 1. rewrite fraction_digits by done. unfold int_of_digits in Hv. by rewrite Hv.
Qed.

Lemma clock_read h m s us rest :
  0 <= h < 100 → 0 <= m < 100 → 0 <= s < 100 → 0 <= us < 1000000 → time_ends rest →
  clock (padded 2 h ++ ":" ++ padded 2 m ++ ":" ++ padded 2 s ++ fraction_text us ++ rest)
  = Ok (h, m, s, us, rest).
Proof.
  intros Hh Hm Hs Hu (Hr & _ & Hd'). unfold clock.
  rewrite number_padded by lia. cbn [mbind res_bind]. unfold literal. rewrite eat_app.
  cbn [mbind res_bind]. rewrite number_padded by lia. cbn [mbind res_bind]. rewrite eat_app.
  rewrite number_padded by lia. cbn [mbind res_bind]. unfold fraction_text.
  destruct (Z.eqb_spec us 0) as [->|Hn]; [change ("" ++ rest) with rest; by rewrite Hr|].
  rewrite app_assoc_s, eat_app.
  destruct (padded_spec 6 us ltac:(lia) ltac:(lia)) as (Hd & Hl & _).
  destruct (number_first (padded 6 us) rest Hd ltac:(lia)) as [[v r] ->]. cbn [mbind res_bind].
  by rewrite fraction_read, Hd'.
Qed.

Lemma clock_read_short h m rest :
  0 <= h < 100 → 0 <= m < 100 → time_ends rest →
  clock (padded 2 h ++ ":" ++ padded 2 m ++ rest) = Ok (h, m, 0, 0, rest).
Proof.
  intros Hh Hm (_ & Hr & _). unfold clock.
  rewrite number_padded by lia. cbn [mbind res_bind]. unfold literal. rewrite eat_app.
  cbn [mbind res_bind]. rewrite number_padded by lia. cbn [mbind res_bind]. by rewrite Hr.
Qed.

Lemma offset_read o :
  -86400000000 < o < 86400000000 → offset (iso_offset o) = Ok (TzOffset o).
Proof.
  intros Ho. unfold iso_offset.
  set (a := Z.abs o). set (h := a / 3600000000). set (m := a / 60000000 mod 60).
  set (sub := a mod 60000000). set (s := sub / 1000000). set (us := sub mod 1000000).
  assert (Ha : 0 <= a < 86400000000) by lia.
  assert (Hh : 0 <= h < 24 ∧ 0 <= m < 60 ∧ 0 <= s < 60 ∧ 0 <= us < 1000000
               ∧ microseconds h m s us = a ∧ (sub = 0 → s = 0 ∧ us = 0))
    by (unfold h, m, s, us, sub, microseconds; clearbody a; clear - Ha;
        Z.to_euclidean_division_equations; lia).
  destruct Hh as (Hh & Hm & Hs & Hu & Hsum & Hz).
  change (if us =? 0 then "" else "." ++ padded 6 us) with (fraction_text us).
  assert (Hc : ∃ c : ascii, (c = "+" ∨ c = "-")%char ∧ (if o <? 0 then "-" else "+") = String c ""
                 ∧ (if bool_decide (c = "-"%char) then - a else a) = o).
  { unfold a. destruct (Z.ltb_spec o 0); [exists "-"%char|exists "+"%char]; split_and!; auto;
      [rewrite bool_decide_eq_true_2 by done|rewrite bool_decide_eq_false_2 by done]; lia. }
  destruct Hc as (c & Hc & -> & Hsign).
  set (t := if sub =? 0 then "" else ":" ++ padded 2 s ++ fraction_text us).
  assert (Hk : clock (padded 2 h ++ ":" ++ padded 2 m ++ t) = Ok (h, m, s, us, "")).
  { unfold t. destruct (Z.eqb_spec sub 0) as [E|E].
    - destruct (Hz E) as [-> ->]. apply clock_read_short; [lia|lia|done].
    - rewrite <- (app_nil_r_s (fraction_text us)). apply clock_read; done || lia. }
  change (String c "" ++ padded 2 h ++ ":" ++ padded 2 m ++ t)
    with (String c (padded 2 h ++ ":" ++ padded 2 m ++ t)).
  revert Hk. generalize (padded 2 h ++ ":" ++ padded 2 m ++ t). intros r Hk. unfold offset.
  rewrite bool_decide_eq_false_2 by (destruct Hc as [-> | ->]; intros [=]).
  assert (Hb : bool_decide (c = "+"%char) || bool_decide (c = "-"%char) = true)
    by by destruct Hc as [-> | ->].
  rewrite Hb, Hk. cbn [mbind res_bind nonempty negb]. rewrite Hsum.
  rewrite (proj2 (Z.leb_gt 86400000000 a)) by lia. cbn. by rewrite Hsign.
Qed.

Lemma offset_ends o : time_ends (iso_offset o).
Proof. unfold iso_offset, time_ends. by destruct (o <? 0). Qed.

(** ** The round trip *)

(** The values whose text the standard reads back: a naive time or one with an offset of less than
    a day, of a year the calendar has. *)
Definition printable_time (t : datetime) : bool :=
  (first_day <=? dt_local t / 86400000000) && (dt_local t / 86400000000 <=? last_day)
  && match dt_tz t with
     | NoTz => true
     | TzNoOffset => false
     | TzOffset o => (-86400000000 <? o) && (o <? 86400000000)
     end.

Lemma fromisoformat_isoformat t :
  printable_time t = true → fromisoformat (isoformat t) = Ok t.
Proof.
  unfold printable_time. rewrite !andb_true_iff, !Z.leb_le. intros [[H1 H2] Htz].
  unfold isoformat. set (days := dt_local t / 86400000000) in *.
  set (us := dt_local t mod 86400000000).
  assert (Hus : 0 <= us < 86400000000) by (apply Z.mod_pos_bound; lia).
  pose proof (civil_days days ltac:(lia)) as Hc. destruct (civil_of_days days) as [[y m] d].
  destruct Hc as (Hdays & Hv & Hy & Hm & Hd). cbn zeta.
  change (if us mod 1000000 =? 0 then "" else "." ++ padded 6 (us mod 1000000))
    with (fraction_text (us mod 1000000)).
  assert (Hclock : 0 <= us / 3600000000 < 24 ∧ 0 <= us / 60000000 mod 60 < 60
            ∧ 0 <= us / 1000000 mod 60 < 60 ∧ 0 <= us mod 1000000 < 1000000
            ∧ microseconds (us / 3600000000) (us / 60000000 mod 60) (us / 1000000 mod 60)
                (us mod 1000000) = us)
    by (unfold microseconds; clear - Hus; clearbody us;
        Z.to_euclidean_division_equations; lia).
  revert Hclock. generalize (us / 3600000000), (us / 60000000 mod 60), (us / 1000000 mod 60),
    (us mod 1000000). intros h mi s u (Hh & Hmi & Hs & Hu & Hsum).
  set (tz := match utcoffset t with Some o => iso_offset o | None => "" end).
  assert (Hends : time_ends tz) by (unfold tz; destruct (utcoffset t); [apply offset_ends|done]).
  assert (Hoff : offset tz = Ok (dt_tz t)).
  { unfold tz, utcoffset. destruct (dt_tz t) as [| |o]; [done|done|].
    apply andb_true_iff in Htz as [?%Z.ltb_lt ?%Z.ltb_lt]. by apply offset_read. }
  clearbody tz. rewrite !app_assoc_s. unfold fromisoformat, literal.
  rewrite number_padded by lia. cbn [mbind res_bind]. rewrite eat_app. cbn [mbind res_bind].
  rewrite number_padded by lia. cbn [mbind res_bind]. rewrite eat_app. cbn [mbind res_bind].
  rewrite number_padded by lia. cbn [mbind res_bind]. rewrite Hv. cbn [negb raise_if mbind res_bind].
  rewrite Hdays.
  pose proof (clock_read h mi s u tz ltac:(lia) ltac:(lia) ltac:(lia) ltac:(lia) Hends) as Hk.
  revert Hk. generalize (padded 2 h ++ ":" ++ padded 2 mi ++ ":" ++ padded 2 s ++ fraction_text u ++ tz).
  intros r Hk. cbn [String.append]. change (raise_if (128 <=? _) bad_format) with (Ok tt).
  cbn [mbind res_bind]. rewrite Hk. cbn [mbind res_bind].
  rewrite (proj2 (Z.ltb_ge 23 h)), (proj2 (Z.ltb_ge 59 mi)), (proj2 (Z.ltb_ge 59 s)) by lia.
  cbn [orb raise_if mbind res_bind]. rewrite Hoff. cbn [mbind res_bind]. rewrite Hsum.
  destruct t as [l z]. cbn in *. unfold raise_if. cbn. do 2 f_equal. unfold days, us.
  pose proof (Z.div_mod l 86400000000 ltac:(lia)). lia.
Qed.

Example printable_examples :
  printable_time (utc 1709210096000000) = true ∧
  printable_time (utc (-62135596800000000)) = true ∧ printable_time (utc 253402300799999999) = true ∧
  printable_time (utc (-62135596800000001)) = false ∧ printable_time (utc 253402300800000000) = false.
Proof. by split_and!. Qed.
