(* ===== verification/Prompts.v ===== *)
(** * Prompts: trusted prompt policy and untrusted assessment facts

    [application/interpretation/prompts.py]: [render_prompt] fills the placeholders of a frozen
    task template with the policy of a published profile and with the locale and focus areas of
    the provider payload, and hands the payload over as a separate data message. *)
From S2P Require Import Prelude PyText PyNum PyJson Errors JsonRoundTrip Scenes.
From Stdlib Require Import Ascii.

Local Open Scope string_scope.
Local Open Scope Z_scope.
#[local] Arguments String.append : simpl nomatch.

(** ** The regular expressions *)

(** [s.split(sep)] on characters *)
Fixpoint split_on (sep : ascii) (l : list ascii) : list (list ascii) :=
  match l with
  | [] => [[]]
  | c :: l =>
    let parts := split_on sep l in
    if bool_decide (c = sep) then [] :: parts
    else match parts with p :: ps => (c :: p) :: ps | [] => [[c]] end
  end.

Definition between (lo hi : nat) (p : ascii → bool) (l : list ascii) : bool :=
  (Nat.leb lo (length l)) && (Nat.leb (length l) hi) && forallb p l.

(** [[A-Za-z]{2,3}(?:-[A-Za-z0-9]{2,8})*] *)
Definition locale_re (s : string) : bool :=
  match split_on "-" (String.list_ascii_of_string s) with
  | language :: subtags =>
    between 2 3 (λ c, lower c || upper c) language && forallb (between 2 8 alnum) subtags
  | [] => false
  end.
(** [[a-zA-Z0-9][a-zA-Z0-9_.-]{0,254}] *)
Definition policy_code_re : string → bool :=
  head_tail alnum (λ c, alnum c || one_of ["_"; "."; "-"]%char c) 254.

(** The characters of a placeholder's name, [[a-z0-9_]]. *)
Definition name_char (c : ascii) : bool := lower c || digit c || bool_decide (c = "_"%char).
Fixpoint span_name (s : string) : string * string :=
  match s with
  | String c r =>
    if name_char c then let '(n, r) := span_name r in (String c n, r) else ("", s)
  | EmptyString => ("", "")
  end.
(** The name of a match of [\{\{[a-z0-9_]+\}\}] that starts here. *)
Definition placeholder_at (s : string) : option string :=
  r ← eat "{{" s;
  let '(name, r) := span_name r in
  if nonempty name then _ ← eat "}}" r; Some name else None.

Inductive piece : Type := Char (c : ascii) | Hole (name : string).
#[export] Instance piece_eq_dec : EqDecision piece.
Proof. solve_decision. Defined.

(** The leftmost non-overlapping matches, and the characters between them; [skip] counts the
    characters left of the match just taken. *)
Fixpoint pieces (skip : nat) (s : string) : list piece :=
  match s with
  | EmptyString => []
  | String c r =>
    match skip with
    | S k => pieces k r
    | O =>
      match placeholder_at s with
      | Some name => Hole name :: pieces (String.length name + 3) r
      | None => Char c :: pieces 0 r
      end
    end
  end.

Definition placeholder (name : string) : string := "{{" ++ name ++ "}}".
(** [PLACEHOLDER.fullmatch(s)] *)
Definition placeholder_re (s : string) : bool :=
  match pieces 0 s with [Hole name] => bool_decide (s = placeholder name) | _ => false end.
(** [PLACEHOLDER.findall(template)], without the braces *)
Definition holes (l : list piece) : list string :=
  omap (λ p, match p with Hole n => Some n | Char _ => None end) l.
(** [PLACEHOLDER.sub(...)] with the value of every hole *)
Fixpoint fill (values : list (string * string)) (l : list piece) : res string :=
  match l with
  | [] => Ok ""
  | Char c :: l => t ← fill values l; Ok (String c t)
  | Hole n :: l =>
    match assoc n values with
    | None => Err (KeyError n)
    | Some v => t ← fill values l; Ok (v ++ t)
    end
  end.

(** ** The data *)

Record PromptPackage : Type := mk_prompt_package {
  package_template_id : string;
  package_version : string;
  fingerprint : string;
  git_blob_sha : option string;
  system_message : string;
  task_template : string;
  data_preamble : string;
  allowed_placeholders : list string;
}.

Record RenderPolicy : Type := mk_render_policy {
  policy_template_id : string;
  policy_version : string;
  allowed_focus_areas : list string;
  allowed_insight_kinds : list string;
  insight_min_items : Z;
  insight_max_items : Z;
  min_dimension_refs : Z;
  max_dimension_refs : Z;
  allow_parent_child_in_same_insight : bool;
  allowed_suggestion_origins : list string;
  allowed_suggestion_categories : list string;
  suggestion_min_items : Z;
  suggestion_max_items : Z;
  max_actions_per_item : Z;
  max_output_characters : Z;
}.

Record PromptMessages : Type := mk_prompt_messages {
  message_system : string;
  message_task : string;
  message_preamble : string;
  data_json : string;
}.
#[export] Instance prompt_messages_eq_dec : EqDecision PromptMessages.
Proof. solve_decision. Defined.

(** [_unique_object] and [_invalid_constant] *)
Definition unique_object (duplicate : exn) (pairs : list (string * json)) : res json :=
  raise_if (negb (bool_decide (NoDup pairs.*1))) duplicate ;;
  Ok (dict_of_pairs pairs).
Definition prompt_hooks : hooks :=
  mk_hooks (unique_object (InvalidPrompt "Duplicate data field"))
           (λ _, Err (InvalidPrompt "Non-JSON numeric constant")).

(** [_json] *)
Definition json_text (v : json) : res string := dumps_with compact_finite v.
Definition strings_json (l : list string) : res string := json_text (JList (JStr <$> l)).

(** [set(a) == set(b)] on texts *)
Definition same_keys (a b : list string) : bool :=
  forallb (λ x, x is_in b)%py a && forallb (λ x, x is_in a)%py b.

(** ** [render_prompt] *)

(** The checks of the package and the payload's text. *)
Definition check_package (package : PromptPackage) (policy : RenderPolicy)
    (scene : option string) : res unit :=
  raise_if (negb (bool_decide (scene ∈ [None; Some MBTI_CONTRACT; Some MBTI_THEMATIC_CONTRACT])))
    (InvalidPrompt "Unsupported scene contract") ;;
  raise_if (negb (bool_decide ((package_template_id package, package_version package)
                               = (policy_template_id policy, policy_version policy))))
    (InvalidPrompt "Prompt and Profile identity mismatch") ;;
  raise_if (negb (forallb has_text
                    [system_message package; task_template package; data_preamble package]))
    (InvalidPrompt "Prompt messages are required") ;;
  raise_if (contains "{{" (system_message package) || contains "{{" (data_preamble package))
    (InvalidPrompt "Dynamic system or data preamble is forbidden") ;;
  let allowed := allowed_placeholders package in
  raise_if (negb (bool_decide (NoDup allowed)) || existsb (λ x, negb (placeholder_re x)) allowed)
    (InvalidPrompt "Invalid or duplicated placeholder").

Definition decode_payload (provider_payload : string) : res json :=
  match loads_with prompt_hooks provider_payload with
  | Ok data => Ok data
  | Err e =>
    if is_value_error e || bool_decide (e = TypeError)
    then Err (InvalidPrompt "Invalid provider payload") else Err e
  end.

(** [isinstance(v, list)] with only [str] items *)
Fixpoint all_strings (l : list json) : option (list string) :=
  match l with
  | [] => Some []
  | JStr s :: l => k ← all_strings l; Some (s :: k)
  | _ :: _ => None
  end.
Definition string_items (v : json) : option (list string) :=
  match v with JList l => all_strings l | _ => None end.

(** The checks of the decoded payload: its locale and focus areas. *)
Definition check_data (policy : RenderPolicy) (scene : option string) (data : json)
    : res (string * list string) :=
  let thematic := bool_decide (scene = Some MBTI_THEMATIC_CONTRACT) in
  let expected := (["context"; "facts"] ++ if thematic then ["reference_material"] else [])%list in
  match data with
  | JObj fields =>
    raise_if (negb (same_keys fields.*1 expected))
      (InvalidPrompt "Provider payload differs from scene contract") ;;
    raise_ifM (Ok thematic <andM> (m ← json_item data "reference_material"; Ok (negb (is_dict m))))%py
      (InvalidPrompt "Reference material must be a frozen object") ;;
    context ← json_item data "context";
    raise_ifM (Ok (negb (is_dict context)) <orM>
               (f ← json_item data "facts"; Ok (negb (is_dict f))))%py
      (InvalidPrompt "Context and facts must be objects") ;;
    locale ← json_get context "locale";
    focus ← json_get context "focus_areas";
    match locale with
    | JStr locale =>
      raise_if ((35 <? str_len locale) || negb (locale_re locale))
        (InvalidPrompt "Invalid locale") ;;
      match string_items focus with
      | Some focus =>
        raise_if (negb (bool_decide (NoDup focus))
                  || existsb (λ x, x not_in allowed_focus_areas policy)%py focus)
          (InvalidPrompt "Focus areas must be unique and allowed by Profile") ;;
        Ok (locale, focus)
      | None => Err (InvalidPrompt "Invalid focus areas")
      end
    | _ => Err (InvalidPrompt "Invalid locale")
    end
  | _ => Err (InvalidPrompt "Provider payload differs from scene contract")
  end.

Definition policy_ranges (policy : RenderPolicy) : list (Z * Z * Z * Z) :=
  [(insight_min_items policy, insight_max_items policy, 1, 8);
   (min_dimension_refs policy, max_dimension_refs policy, 2, 6);
   (suggestion_min_items policy, suggestion_max_items policy, 1, 8);
   (max_actions_per_item policy, max_actions_per_item policy, 1, 5);
   (max_output_characters policy, max_output_characters policy, 512, 20000)].

(** The checks of the policy; its bounds are integers and its hierarchy rule a boolean, so the
    type tests of the source hold. *)
Definition check_policy (policy : RenderPolicy) : res unit :=
  let codes := [allowed_focus_areas policy; allowed_insight_kinds policy;
                allowed_suggestion_origins policy; allowed_suggestion_categories policy] in
  raise_if (existsb (λ xs, negb (bool_decide (NoDup xs))
                           || existsb (λ x, negb (policy_code_re x)) xs) codes)
    (InvalidPrompt "Invalid controlled policy codes") ;;
  raise_if (negb (forallb (λ xs, negb (bool_decide (xs = []))) (drop 1 codes)))
    (InvalidPrompt "Policy kinds, origins and categories are required") ;;
  raise_if (existsb (λ '(lo, hi, floor, ceiling),
              negb ((floor <=? lo) && (lo <=? hi) && (hi <=? ceiling))) (policy_ranges policy))
    (InvalidPrompt "Invalid policy bounds").

(** [values]: the trusted substitutions. *)
Definition prompt_values (policy : RenderPolicy) (locale : string) (focus : list string)
    : res (list (string * string)) :=
  focus_json ← strings_json focus;
  kinds ← strings_json (allowed_insight_kinds policy);
  hierarchy ← json_text (JBool (allow_parent_child_in_same_insight policy));
  origins ← strings_json (allowed_suggestion_origins policy);
  categories ← strings_json (allowed_suggestion_categories policy);
  Ok [("locale", locale);
      ("focus_areas_json", focus_json);
      ("allowed_insight_kinds_json", kinds);
      ("insight_min_items", decimal (insight_min_items policy));
      ("insight_max_items", decimal (insight_max_items policy));
      ("min_dimension_refs", decimal (min_dimension_refs policy));
      ("max_dimension_refs", decimal (max_dimension_refs policy));
      ("allow_parent_child_in_same_insight", hierarchy);
      ("allowed_suggestion_origins_json", origins);
      ("allowed_suggestion_categories_json", categories);
      ("suggestion_min_items", decimal (suggestion_min_items policy));
      ("suggestion_max_items", decimal (suggestion_max_items policy));
      ("max_actions_per_item", decimal (max_actions_per_item policy));
      ("max_output_characters", decimal (max_output_characters policy))].

(** The task message. *)
Definition render_task (package : PromptPackage) (values : list (string * string)) : res string :=
  let parts := pieces 0 (task_template package) in
  raise_if (existsb (λ n, (placeholder n not_in allowed_placeholders package)%py
                          || (n not_in values.*1)%py) (holes parts))
    (InvalidPrompt "Unknown or forbidden placeholder") ;;
  task ← fill values parts;
  raise_if (contains "{{" task || contains "}}" task)
    (InvalidPrompt "Unresolved placeholder") ;;
  Ok task.

Definition render_prompt (package : PromptPackage) (policy : RenderPolicy)
    (provider_payload : string) (scene_contract_version : option string)
    : res PromptMessages :=
  check_package package policy scene_contract_version ;;
  data ← decode_payload provider_payload;
  '(locale, focus) ← check_data policy scene_contract_version data;
  check_policy policy ;;
  values ← prompt_values policy locale focus;
  task ← render_task package values;
  text ← json_text data;
  Ok (mk_prompt_messages (system_message package) task (data_preamble package) text).

(** ** The encoder on the texts of a policy *)

Lemma strings_json_ok l : ∃ t, strings_json l = Ok t.
Proof.
  unfold strings_json, json_text. rewrite dumps_list.
  assert (Hl : ∃ ts, mapM (dumps_with compact_finite) (JStr <$> l) = Ok ts).
  { induction l as [|s l (ts & IH)]; [by exists []|]. cbn. rewrite IH. by eexists. }
  destruct Hl as (ts & ->). by eexists.
Qed.

Lemma prompt_values_ok policy locale focus :
  ∃ values, prompt_values policy locale focus = Ok values ∧
    assoc "locale" values = Some locale.
Proof.
  unfold prompt_values, json_text. cbn [dumps_with mbind res_bind].
  repeat match goal with
         | |- context [strings_json ?l] =>
           let t := fresh "t" in let E := fresh "E" in
           destruct (strings_json_ok l) as [t E]; rewrite E; cbn [mbind res_bind]
         end.
  by eexists.
Qed.

Lemma fill_ok values l : (∀ n, n ∈ holes l → n ∈ values.*1) → ∃ t, fill values l = Ok t.
Proof.
  induction l as [|[c|n] l IH]; cbn; intros Hl; [by eexists| |].
  - destruct IH as [t ->]; [done|]. by eexists.
  - destruct (assoc_keys n values) as [v ->]; [apply Hl; by left|].
    destruct IH as [t ->]; [intros m Hm; apply Hl; by right|]. by eexists.
Qed.

(** [fill] only reads the values of the holes. *)
Lemma fill_ext v1 v2 l : (∀ n, n ∈ holes l → assoc n v1 = assoc n v2) → fill v1 l = fill v2 l.
Proof.
  induction l as [|[c|n] l IH]; cbn; intros Hl; [done| |].
  - by rewrite IH.
  - rewrite (Hl n) by by left. rewrite IH; [done|]. intros m Hm. apply Hl. by right.
Qed.

(** ** The pieces of a template *)

Definition piece_text (p : piece) : string :=
  match p with Char c => String c "" | Hole n => placeholder n end.
Definition template_of (l : list piece) : string := foldr (λ p s, piece_text p ++ s) "" l.

Lemma eat_spec p s r : eat p s = Some r → s = p ++ r.
Proof.
  revert s. induction p as [|a p IH]; intros s; cbn; [by intros [= ->]|].
  destruct s as [|b s]; [done|]. case_bool_decide; [|done]. subst. intros H. by rewrite (IH s H).
Qed.

Lemma span_name_spec s : (let '(n, r) := span_name s in s = n ++ r).
Proof.
  induction s as [|c s IH]; cbn; [done|]. destruct (name_char c); [|done].
  destruct (span_name s) as [n r]. cbn. by rewrite IH.
Qed.

Lemma placeholder_at_spec s n : placeholder_at s = Some n → ∃ r, s = placeholder n ++ r.
Proof.
  unfold placeholder_at. intros (r & Hr & H)%bind_Some. apply eat_spec in Hr as ->.
  pose proof (span_name_spec r) as Hspan. destruct (span_name r) as [name t].
  destruct (nonempty name); [|done]. apply bind_Some in H as (t' & Ht & [= ->]).
  apply eat_spec in Ht as ->. exists t'. subst r. unfold placeholder.
  by rewrite <- !app_assoc_s.
Qed.

Fixpoint drop_text (n : nat) (s : string) : string :=
  match n, s with S n, String _ s => drop_text n s | _, _ => s end.
Lemma drop_text_app a b : drop_text (String.length a) (a ++ b) = b.
Proof. by induction a. Qed.

(** The scan loses nothing: the pieces, written back, are the template. *)
Lemma pieces_template k s : template_of (pieces k s) = drop_text k s.
Proof.
  revert k. induction s as [|c s IH]; intros k; [by destruct k|].
  cbn [pieces]. destruct k as [|k]; [|apply IH].
  destruct (placeholder_at (String c s)) as [n|] eqn:Hn.
  - apply placeholder_at_spec in Hn as [r Hr]. cbn [template_of foldr piece_text].
    change (foldr _ "" ?l) with (template_of l). rewrite IH, Hr. unfold placeholder in Hr |- *.
    cbn [String.append] in Hr. injection Hr as -> Hr. rewrite Hr, !app_assoc_s. f_equal. 
    replace (String.length n + 3)%nat with (String.length ("{" ++ n ++ "}}"))
      by (cbn; rewrite length_app_s; cbn; lia).
    change (String "{" (n ++ "}}" ++ r)) with ("{" ++ n ++ "}}" ++ r).
    replace ("{" ++ n ++ "}}" ++ r) with (("{" ++ n ++ "}}") ++ r) by by rewrite !app_assoc_s.
    by rewrite drop_text_app.
  - cbn. by rewrite IH.
Qed.

(** ** The rendered messages *)

(** The locale and focus areas a payload asks for. *)
Definition request (policy : RenderPolicy) (scene : option string) (payload : string)
    : res (string * list string) :=
  data ← decode_payload payload; check_data policy scene data.

(** The messages that instruct the model. *)
Definition trusted (m : PromptMessages) : string * string * string :=
  (message_system m, message_task m, message_preamble m).

Lemma render_Ok package policy payload scene m :
  render_prompt package policy payload scene = Ok m ↔
  check_package package policy scene = Ok tt ∧ check_policy policy = Ok tt ∧
  ∃ data locale focus values,
    decode_payload payload = Ok data ∧ check_data policy scene data = Ok (locale, focus) ∧
    prompt_values policy locale focus = Ok values ∧
    render_task package values = Ok (message_task m) ∧ json_text data = Ok (data_json m) ∧
    message_system m = system_message package ∧ message_preamble m = data_preamble package.
Proof.
  unfold render_prompt. split.
  - intros H. ok_inv. destruct x0 as [locale focus]. ok_inv. cbn. naive_solver.
  - intros (-> & Hp & data & locale & focus & values & -> & Hd & Hv & Ht & Hj & Hs & Hb).
    cbn [mbind res_bind]. rewrite Hd. cbn [mbind res_bind]. rewrite Hp. cbn [mbind res_bind].
    rewrite Hv. cbn [mbind res_bind]. rewrite Ht. cbn [mbind res_bind]. rewrite Hj.
    destruct m. cbn in *. by subst.
Qed.

Lemma render_request package policy payload scene m :
  render_prompt package policy payload scene = Ok m →
  ∃ locale focus values,
    request policy scene payload = Ok (locale, focus) ∧
    prompt_values policy locale focus = Ok values ∧
    render_task package values = Ok (message_task m) ∧
    message_system m = system_message package ∧ message_preamble m = data_preamble package.
Proof.
  intros (_ & _ & data & locale & focus & values & Hd & Hc & ? & ? & _ & ? & ?)%render_Ok.
  exists locale, focus, values. unfold request. by rewrite Hd.
Qed.

(** C20: facts never reach the instructions: two payloads that ask for the same locale and focus
    areas render to the same system message, task and preamble, whatever their facts. *)
Theorem facts_stay_data package policy scene p1 p2 m1 m2 :
  render_prompt package policy p1 scene = Ok m1 →
  render_prompt package policy p2 scene = Ok m2 →
  request policy scene p1 = request policy scene p2 →
  trusted m1 = trusted m2.
Proof.
  intros (l1 & f1 & v1 & H1 & Hv1 & Ht1 & Hs1 & Hp1)%render_request
    (l2 & f2 & v2 & H2 & Hv2 & Ht2 & Hs2 & Hp2)%render_request Heq.
  rewrite H1, H2 in Heq. injection Heq as -> ->. rewrite Hv1 in Hv2. injection Hv2 as <-.
  rewrite Ht1 in Ht2. injection Ht2 as Ht2. unfold trusted. congruence.
Qed.

(** ** What a payload can write into the task *)

Definition locale_char (c : ascii) : bool := alnum c || bool_decide (c = "-"%char).

Lemma split_on_chars sep l c : c ∈ l → c = sep ∨ ∃ p, p ∈ split_on sep l ∧ c ∈ p.
Proof.
  induction l as [|x l IH]; [by intros ?%not_elem_of_nil|].
  intros [->|Hc]%elem_of_cons; cbn.
  - case_bool_decide as Hx; [by left|]. right. destruct (split_on sep l) as [|p ps].
    + exists [x]. set_solver.
    + exists (x :: p). set_solver.
  - destruct (IH Hc) as [?|(p & Hp & Hcp)]; [by left|]. right.
    case_bool_decide; [exists p; set_solver|]. destruct (split_on sep l) as [|q ps]; [set_solver|].
    apply elem_of_cons in Hp as [->|Hp]; [exists (x :: q)|exists p]; set_solver.
Qed.

Lemma locale_re_chars s :
  locale_re s = true → forallb locale_char (String.list_ascii_of_string s) = true.
Proof.
  unfold locale_re. rewrite forallb_true. intros Hs c Hc. unfold locale_char.
  destruct (split_on_chars "-" _ c Hc) as [->|(p & Hp & Hcp)]; [done|].
  apply orb_true_iff. left. destruct (split_on _ _) as [|language subtags]; [done|].
  apply andb_true_iff in Hs as [Hl Hsub]. unfold between in *.
  apply andb_true_iff in Hl as [_ Hl]. rewrite forallb_true in Hl.
  rewrite forallb_true in Hsub. apply elem_of_cons in Hp as [->|Hp].
  - specialize (Hl c Hcp). unfold alnum. by destruct (lower c), (upper c), (digit c).
  - specialize (Hsub p Hp). apply andb_true_iff in Hsub as [_ Hsub].
    rewrite forallb_true in Hsub. by apply Hsub.
Qed.

Lemma check_data_Ok policy scene data locale focus :
  check_data policy scene data = Ok (locale, focus) →
  locale_re locale = true ∧ str_len locale <= 35 ∧ NoDup focus ∧
  (∀ x, x ∈ focus → x ∈ allowed_focus_areas policy).
Proof.
  unfold check_data. destruct data as [| | | | | |fields]; try discriminate. intros H. py_inv.
  destruct x0; try discriminate. py_inv. destruct (string_items _); try discriminate. py_inv.
  subst. split_and!; auto; try lia. intros y Hy.
  match goal with Hx : ∀ x, x ∈ focus → _ |- _ => specialize (Hx y Hy) end. by py_inv.
Qed.

Lemma render_task_Ok package values task :
  render_task package values = Ok task →
  fill values (pieces 0 (task_template package)) = Ok task ∧
  (∀ n, n ∈ holes (pieces 0 (task_template package)) →
     placeholder n ∈ allowed_placeholders package ∧ n ∈ values.*1) ∧
  contains "{{" task = false ∧ contains "}}" task = false.
Proof.
  unfold render_task. intros H. py_inv. split_and!; try done; intros n Hn;
    match goal with Hx : ∀ x, x ∈ holes _ → _ |- _ => specialize (Hx n Hn) end; by py_inv.
Qed.

(** what a payload can write into the instructions: a locale of at most 35 letters, digits and
    hyphens, and distinct focus areas out of the controlled codes of the profile; everything else
    of the task is the frozen template and the policy, and no placeholder is left. *)
Theorem payload_text_bounded package policy scene payload m :
  render_prompt package policy payload scene = Ok m →
  ∃ locale focus values,
    request policy scene payload = Ok (locale, focus) ∧
    (forallb locale_char (String.list_ascii_of_string locale) = true ∧ str_len locale <= 35) ∧
    (NoDup focus ∧ ∀ x, x ∈ focus → x ∈ allowed_focus_areas policy ∧ policy_code_re x = true) ∧
    prompt_values policy locale focus = Ok values ∧
    template_of (pieces 0 (task_template package)) = task_template package ∧
    fill values (pieces 0 (task_template package)) = Ok (message_task m) ∧
    (∀ n, n ∈ holes (pieces 0 (task_template package)) →
       placeholder n ∈ allowed_placeholders package) ∧
    contains "{{" (message_task m) = false ∧ contains "}}" (message_task m) = false ∧
    message_system m = system_message package ∧ message_preamble m = data_preamble package.
Proof.
  intros (_ & Hp & data & locale & focus & values & Hd & Hc & Hv & Ht & _ & ? & ?)%render_Ok.
  exists locale, focus, values.
  destruct (check_data_Ok _ _ _ _ _ Hc) as (Hl & Hlen & Hnd & Hf).
  destruct (render_task_Ok _ _ _ Ht) as (Hfill & Hholes & ? & ?).
  split_and!; auto; try by unfold request; rewrite Hd.
  - by apply locale_re_chars.
  - intros x Hx. split; [by apply Hf|]. unfold check_policy in Hp. py_inv.
    match goal with Hk : ∀ l, l ∈ [_; _; _; _] → _ |- _ =>
      specialize (Hk (allowed_focus_areas policy) ltac:(left)) end.
    py_inv. match goal with Hk : ∀ y, y ∈ allowed_focus_areas policy → _ |- _ =>
      specialize (Hk x (Hf x Hx)) end. by py_inv.
  - by rewrite pieces_template.
  - intros n Hn. by apply Hholes.
Qed.

(** ** The data message *)

Lemma prompt_pairs ps :
  NoDup ps.*1 → object_pairs_hook prompt_hooks ps = Ok (dict_of_pairs ps).
Proof. intros Hps. cbn. unfold unique_object. by rewrite bool_decide_eq_true_2. Qed.

Lemma decode_written data t :
  textual data = true → json_text data = Ok t → decode_payload t = Ok data.
Proof.
  intros Hd Ht. unfold decode_payload.
  rewrite (loads_with_dumps compact_finite ltac:(by left) ltac:(by left) prompt_hooks prompt_pairs
             data t Hd Ht).
  by rewrite written_unsorted.
Qed.

(** C26: the data message carries exactly the payload's data: it decodes to the same value, and
    rendering it again gives the same messages. *)
Theorem data_message_faithful package policy scene payload m data :
  render_prompt package policy payload scene = Ok m →
  decode_payload payload = Ok data → textual data = true →
  decode_payload (data_json m) = Ok data ∧
  render_prompt package policy (data_json m) scene = Ok m.
Proof.
  intros Hr Hd Htext. pose proof Hr as
    (Hk & Hp & data' & locale & focus & values & Hd' & Hc & Hv & Ht & Hj & ? & ?)%render_Ok.
  rewrite Hd in Hd'. injection Hd' as <-.
  pose proof (decode_written data _ Htext Hj) as Hback. split; [done|].
  apply render_Ok. split_and!; [done|done|]. by exists data, locale, focus, values.
Qed.

(** ** Refusals *)

Definition invalid_prompt (e : exn) : Prop := ∃ msg, e = InvalidPrompt msg.

Lemma decode_payload_raises payload : raises invalid_prompt (decode_payload payload).
Proof.
  unfold decode_payload. pose proof (loads_with_raises prompt_hooks
    (λ e, is_value_error e = true) eq_refl eq_refl) as H.
  specialize (H ltac:(by intros ps; cbn; unfold unique_object; solve_raises) ltac:(done) payload).
  destruct (loads_with _ _) as [data|e]; [done|]. cbn in H. rewrite H. by eexists.
Qed.

Lemma render_task_raises package policy locale focus values :
  prompt_values policy locale focus = Ok values →
  raises invalid_prompt (render_task package values).
Proof.
  intros Hv. unfold render_task. apply raises_bind; [apply raises_if; by eexists|].
  intros u Hu. py_inv. destruct (fill_ok values (pieces 0 (task_template package))) as [t ->].
  - intros n Hn. match goal with Hx : ∀ x, x ∈ holes _ → _ |- _ => specialize (Hx n Hn) end.
    by py_inv.
  - cbn. apply raises_bind; [apply raises_if; by eexists|done].
Qed.

Lemma json_get_of_dict v k : is_dict v = true → ∃ x, json_get v k = Ok x.
Proof. destruct v; try done. by eexists. Qed.

Lemma json_item_key l k : k ∈ l.*1 → ∃ x, json_item (JObj l) k = Ok x.
Proof. intros [x Hx]%assoc_keys. cbn. rewrite Hx. by eexists. Qed.

Lemma check_data_raises policy scene data : raises invalid_prompt (check_data policy scene data).
Proof.
  assert (Hmsg : ∀ msg, invalid_prompt (InvalidPrompt msg)) by (intros msg; by exists msg).
  unfold check_data. destruct data as [| | | | | |l]; try apply Hmsg. cbv zeta.
  apply raises_bind; [by apply raises_if|]. intros u Hkeys.
  apply raise_if_Ok, negb_false_iff, andb_true_iff in Hkeys as [_ Hkeys].
  rewrite forallb_true in Hkeys.
  assert (Hitem : ∀ k, k ∈ (["context"; "facts"] ++ if bool_decide (scene = Some MBTI_THEMATIC_CONTRACT)
                          then ["reference_material"] else [])%list →
                       ∃ x, json_item (JObj l) k = Ok x).
  { intros k Hk. apply json_item_key. by apply (bool_decide_eq_true_1 _), Hkeys. }
  destruct (Hitem "context") as [context Hcontext]; [set_solver|].
  destruct (Hitem "facts") as [facts ->]; [set_solver|].
  apply raises_bind.
  - apply raises_ifM; [|done]. case_bool_decide; [|done].
    destruct (Hitem "reference_material") as [material ->]; [set_solver|done].
  - intros _ _. rewrite Hcontext. cbn [mbind res_bind].
    apply raises_bind; [by apply raises_ifM; [apply raises_orM|]|]. intros u' Hdict. py_inv.
    destruct (json_get_of_dict context "locale") as [locale ->]; [done|].
    destruct (json_get_of_dict context "focus_areas") as [focus ->]; [done|].
    cbn [mbind res_bind]. solve_raises; apply Hmsg.
Qed.

(** every refusal is an [InvalidPrompt]: a payload that is no JSON text, repeats a key, carries
    NaN or infinity, has other fields than the scene's, a locale or focus areas the profile does
    not allow, a policy out of bounds and a template with an unknown placeholder are all refused
    that way, and no key, type or attribute error escapes; only a number beyond the range of a
    float, whose text is no JSON constant, fails later as the encoder's [ValueError]. *)
Theorem prompt_refusals package policy payload scene e :
  render_prompt package policy payload scene = Err e →
  invalid_prompt e ∨
  (∃ data, decode_payload payload = Ok data ∧ json_text data = Err e).
Proof.
  intros H. unfold render_prompt in H.
  assert (Hmsg : ∀ msg, invalid_prompt (InvalidPrompt msg)) by (intros msg; by exists msg).
  assert (Hpkg : raises invalid_prompt (check_package package policy scene))
    by (unfold check_package; solve_raises; apply Hmsg).
  assert (Hpol : raises invalid_prompt (check_policy policy))
    by (unfold check_policy; solve_raises; apply Hmsg).
  apply bind_Err in H as [H|(u & _ & H)]; [left; by rewrite H in Hpkg|].
  apply bind_Err in H as [H|(data & Hd & H)].
  { left. pose proof (decode_payload_raises payload) as Hr. by rewrite H in Hr. }
  apply bind_Err in H as [H|([locale focus] & Hc & H)].
  { left. pose proof (check_data_raises policy scene data) as Hr. by rewrite H in Hr. }
  apply bind_Err in H as [H|(u' & _ & H)]; [left; by rewrite H in Hpol|].
  destruct (prompt_values_ok policy locale focus) as (values & Hv & _).
  rewrite Hv in H. cbn [mbind res_bind] in H.
  apply bind_Err in H as [H|(task & _ & H)].
  { left. pose proof (render_task_raises package policy locale focus values Hv) as Hr.
    by rewrite H in Hr. }
  apply bind_Err in H as [H|(t & _ & H)]; [right; by exists data|discriminate H].
Qed.
