(* ===== verification/InputValues.v ===== *)
(** * InputValues: the shared parts of report inputs

    [application/interpretation/input_values.py]: policies, the checks of texts and numbers, the
    references of dimensions and the collection of standard suggestions. *)
From stdpp Require Import pretty.
From S2P Require Import Prelude PyText PyNum PyJson Errors JsonRoundTrip Prompts.
From Stdlib Require Import Ascii Sorting.Sorted.

Local Open Scope string_scope.
Local Open Scope Z_scope.
#[local] Arguments String.append : simpl nomatch.

(** ** Policies and the assembled input *)

Record InputPolicy : Type := mk_input_policy {
  profile_id : string;
  profile_version : string;
  profile_fingerprint : string;
  model_code : option string;
  model_version : option string;
  min_dimensions : Z;
  max_dimensions : Z;
  eligible_codes : list string;
  excluded_codes : list string;
  policy_focus_areas : list string;
  include_norm_context : bool;
  include_model_result : bool;
}.

Record AssembledInput : Type := mk_assembled_input {
  canonical_json : string;
  input_fingerprint : string;
  provider_payload : string;
}.

(** ** Values *)

(** [_plain] *)
Definition plain (value : json) (limit : Z) (required : bool) : res string :=
  match value with
  | JStr s =>
    raise_if ((limit <? str_len s) || (required && negb (nonempty s)))
      (InvalidInput "Invalid report text") ;;
    raise_if (any_char angle_brackets s) (InvalidInput "Report text must be plain text") ;;
    Ok s
  | _ => Err (InvalidInput "Invalid report text")
  end.

(** [quote(code, safe="$&+.:=@_")]: the bytes of the encoding that are neither letters, digits nor
    safe become [%XX]. *)
Definition upper_hex (n : N) : ascii :=
  ascii_of_N (if (n <? 10)%N then n + 48 else n + 55)%N.
Definition unquoted (c : ascii) : bool :=
  alnum c || one_of ["_"; "."; "-"; "~"; "$"; "&"; "+"; ":"; "="; "@"]%char c.
Definition quote_char (c : ascii) : string :=
  if unquoted c then String c ""
  else let n := N_of_ascii c in
       String "%" (String (upper_hex (n / 16)) (String (upper_hex (n mod 16)) "")).
Fixpoint quote_text (s : string) : string :=
  match s with
  | EmptyString => ""
  | String c s => quote_char c ++ quote_text s
  end.
(** [_ref]: [quote] of a value that is no text raises. *)
Definition ref_of (code : string) : string := quote_text code.
Definition ref_value (v : json) : res string :=
  match v with JStr s => Ok (ref_of s) | _ => Err TypeError end.

(** [_number] *)
Definition number (value : json) (optional : bool) : res json :=
  match value with
  | JNull => if optional then Ok JNull else Err (InvalidInput "Invalid numeric report fact")
  | JInt z =>
    finite ← isfinite (NInt z);
    raise_if (negb finite) (InvalidInput "Invalid numeric report fact") ;; Ok value
  | JFloat f =>
    finite ← isfinite (NFloat f);
    raise_if (negb finite) (InvalidInput "Invalid numeric report fact") ;; Ok value
  | _ => Err (InvalidInput "Invalid numeric report fact")
  end.

(** The decoder of a snapshot: [object_pairs_hook=_object] *)
Definition snapshot_hooks : hooks :=
  mk_hooks (unique_object (InvalidInput "Duplicate snapshot field")) float_constant.

(** [f"{z}"]: the digits of [z], which the interpreter limits. *)
Definition int_text (z : Z) : res string :=
  raise_if (negb (within_digits z)) too_many_digits ;; Ok (decimal z).

(** [hash(v)] of a decoded value. *)
Definition hashable (v : json) : bool := negb (is_list v || is_dict v).

(** ** Standard suggestions *)

Record Suggestion : Type := mk_suggestion {
  sg_ref : string;
  sg_category : json;
  sg_content : string;
  sg_dimension_refs : list string;
}.
Definition suggestion_json (s : Suggestion) : json :=
  JObj [("ref", JStr (sg_ref s)); ("category", sg_category s); ("content", JStr (sg_content s));
        ("dimension_refs", JList (JStr <$> sg_dimension_refs s))].

(** [result], [by_dimension] and [seen] *)
Record collected : Type := mk_collected {
  result : list Suggestion;
  by_dimension : list (string * list string);
  seen : list (json * string * json);
}.

Definition key_eqb (a b : json * string * json) : bool :=
  json_eqb a.1.1 b.1.1 && bool_decide (a.1.2 = b.1.2) && json_eqb a.2 b.2.

(** [by_dimension.setdefault(code, []).append(ref)] *)
Definition add_reference (code ref : string) (filed : list (string * list string))
    : list (string * list string) :=
  assoc_set code (default [] (assoc code filed) ++ [ref])%list filed.

Section suggestions.
Context (refs : list (string * string)).

(** [append] *)
Definition append_suggestion (st : collected) (ref : string) (category text code : json)
    : res collected :=
  raise_if (negb (truthy category)) (InvalidInput "Suggestion category is required") ;;
  content ← plain text 2000 true;
  raise_if (negb (hashable category && hashable code)) TypeError ;;
  let key := (category, content, code) in
  if existsb (key_eqb key) (seen st) then Ok st
  else
    let noted := mk_collected (result st) (by_dimension st) (key :: seen st) in
    if truthy code then
      match code with
      | JStr c =>
        match assoc c refs with
        | None => Ok noted
        | Some dref =>
          Ok (mk_collected (result st ++ [mk_suggestion ref category content [dref]])%list
                (add_reference c ref (by_dimension st)) (seen noted))
        end
      | _ => Ok noted
      end
    else
      Ok (mk_collected (result st ++ [mk_suggestion ref category content []])%list
            (by_dimension st) (seen noted)).

(** [suggestion["dimension_code"] or ""] *)
Definition or_empty (v : json) : json := if truthy v then v else JStr "".

Definition report_ref (index : Z) : res string :=
  t ← int_text (index + 1); Ok ("suggestion:report:" ++ t).
Definition dimension_suggestion_ref (code : string) : string :=
  "suggestion:dimension:" ++ ref_of code.

(** One of the snapshot's own suggestions; [indices] are the source indices met so far. *)
Definition collect_report (acc : list Z * collected) (suggestion : json)
    : res (list Z * collected) :=
  let '(indices, st) := acc in
  index ← json_item suggestion "source_index";
  match index with
  | JInt index =>
    raise_if ((index <? 0) || (index is_in indices)%py)
      (InvalidInput "Invalid original suggestion index") ;;
    ref ← report_ref index;
    category ← json_item suggestion "category";
    content ← json_item suggestion "content";
    code ← json_item suggestion "dimension_code";
    st ← append_suggestion st ref category content (or_empty code);
    Ok (index :: indices, st)
  | _ => Err (InvalidInput "Invalid original suggestion index")
  end.

(** The suggestion of a dimension. *)
Definition collect_dimension (st : collected) (dimension : json) : res collected :=
  suggestion ← json_item dimension "suggestion";
  match suggestion with
  | JStr text =>
    if has_text text then
      code ← json_item dimension "code";
      ref ← ref_value code;
      append_suggestion st ("suggestion:dimension:" ++ ref) (JStr "dimension") suggestion code
    else Ok st
  | _ => Err AttributeError
  end.

(** [_suggestions] *)
Definition suggestions (snapshot : json) : res (list Suggestion * list (string * list string)) :=
  listed ← json_item snapshot "suggestions"; listed ← iterate listed;
  '(_, st) ← foldM collect_report ([], mk_collected [] [] []) listed;
  dimensions ← json_item snapshot "dimensions"; dimensions ← iterate dimensions;
  st ← foldM collect_dimension st dimensions;
  Ok (result st, by_dimension st).
End suggestions.

(** ** References are injective *)

Lemma upper_hex_inj n m : (n < 16)%N → (m < 16)%N → upper_hex n = upper_hex m → n = m.
Proof.
  unfold upper_hex. intros Hn Hm H. apply (f_equal N_of_ascii) in H.
  destruct (n <? 10)%N eqn:?, (m <? 10)%N eqn:?; rewrite !N_ascii_embedding in H; lia.
Qed.

Lemma quote_char_cases c :
  (unquoted c = true ∧ quote_char c = String c "" ∧ c ≠ "%"%char) ∨
  (∃ x y, quote_char c = String "%" (String x (String y "")) ∧
          x = upper_hex (N_of_ascii c / 16) ∧ y = upper_hex (N_of_ascii c mod 16)).
Proof.
  unfold quote_char. destruct (unquoted c) eqn:Hc; [left|right; by eexists _, _].
  split_and!; try done. by intros ->.
Qed.

Lemma quote_text_inj s t : quote_text s = quote_text t → s = t.
Proof.
  assert (Hbyte : ∀ c d, upper_hex (N_of_ascii c / 16) = upper_hex (N_of_ascii d / 16) →
            upper_hex (N_of_ascii c mod 16) = upper_hex (N_of_ascii d mod 16) → c = d).
  { intros c d Hq Hr. pose proof (N_ascii_bounded c). pose proof (N_ascii_bounded d).
    apply upper_hex_inj in Hq; [|apply N.Div0.div_lt_upper_bound; lia..].
    apply upper_hex_inj in Hr; [|by apply N.mod_lt..].
    rewrite <- (ascii_N_embedding c), <- (ascii_N_embedding d). f_equal.
    rewrite (N.div_mod (N_of_ascii c) 16), (N.div_mod (N_of_ascii d) 16) by done. congruence. }
  assert (Hhead : ∀ c u, quote_char c ++ u ≠ "").
  { intros c u. destruct (quote_char_cases c) as [(_ & -> & _)|(x & y & -> & _)]; done. }
  revert t. induction s as [|c s IH]; intros [|d t]; cbn; intros H; [done| | |].
  - by symmetry in H; apply Hhead in H.
  - by apply Hhead in H.
  - destruct (quote_char_cases c) as [(_ & Hc & Hne)|(x & y & Hc & Hx & Hy)]; rewrite Hc in H;
      destruct (quote_char_cases d) as [(_ & Hd & Hne')|(x' & y' & Hd & Hx' & Hy')];
      rewrite Hd in H; cbn in H.
    + injection H as -> H. by rewrite (IH t H).
    + injection H as ? _. congruence.
    + injection H as ? _. congruence.
    + injection H as -> -> H. rewrite (Hbyte c d) by congruence. by rewrite (IH t H).
Qed.

#[export] Instance ref_of_inj : Inj (=) (=) ref_of.
Proof. intros s t. apply quote_text_inj. Qed.

Lemma report_ref_inj i j r :
  0 <= i → 0 <= j → report_ref i = Ok r → report_ref j = Ok r → i = j.
Proof.
  assert (H : ∀ k, report_ref k = Ok r → r = "suggestion:report:" ++ decimal (k + 1)).
  { unfold report_ref, int_text. intros k Hk. py_inv. by subst. }
  intros ? ? ->%H Hj%H. cbn in Hj. injection Hj as Hj. unfold decimal in Hj.
  apply (inj pretty) in Hj. lia.
Qed.

Lemma report_ref_dimension i c : report_ref i ≠ Ok (dimension_suggestion_ref c).
Proof. unfold report_ref, int_text. intros H. py_inv. discriminate. Qed.

(** ** What the collected suggestions promise *)

Section collection.
Context (refs : list (string * string)).

(** A suggestion of a dimension and the list filed under that dimension name each other. *)
Record well_filed (st : collected) : Prop := {
  wf_dims : ∀ s, s ∈ result st →
    sg_dimension_refs s = [] ∨
    ∃ c d, assoc c refs = Some d ∧ sg_dimension_refs s = [d] ∧
           sg_ref s ∈ default [] (assoc c (by_dimension st));
  wf_filed : ∀ c rs r, assoc c (by_dimension st) = Some rs → r ∈ rs →
    ∃ s d, s ∈ result st ∧ sg_ref s = r ∧ assoc c refs = Some d ∧ sg_dimension_refs s = [d];
}.

Lemma add_reference_self c r filed :
  assoc c (add_reference c r filed) = Some (default [] (assoc c filed) ++ [r])%list.
Proof. unfold add_reference. rewrite assoc_assoc_set. by rewrite bool_decide_eq_true_2. Qed.
Lemma add_reference_other c c' r filed :
  c' ≠ c → assoc c' (add_reference c r filed) = assoc c' filed.
Proof. intros. unfold add_reference. rewrite assoc_assoc_set. by rewrite bool_decide_eq_false_2. Qed.

(** What [append] may do: nothing, or one suggestion at the end. *)
Lemma append_suggestion_spec st ref category text code st' :
  append_suggestion refs st ref category text code = Ok st' →
  (result st' = result st ∧ by_dimension st' = by_dimension st) ∨
  ∃ content,
    (result st' = (result st ++ [mk_suggestion ref category content []])%list ∧
     by_dimension st' = by_dimension st) ∨
    ∃ c d, code = JStr c ∧ assoc c refs = Some d ∧
     result st' = (result st ++ [mk_suggestion ref category content [d]])%list ∧
     by_dimension st' = add_reference c ref (by_dimension st).
Proof.
  unfold append_suggestion. intros H. py_inv.
  destruct (existsb _ _); [ok_inv; by left|].
  destruct (truthy code); [|ok_inv; right; eexists; by left].
  destruct code; ok_inv; try by left. destruct (assoc s refs) eqn:Hs; ok_inv; [|by left].
  right. eexists. right. by exists s, s0.
Qed.

Lemma append_well_filed st ref category text code st' :
  append_suggestion refs st ref category text code = Ok st' → well_filed st → well_filed st'.
Proof.
  intros [[Hr Hb]|(content & [[Hr Hb]|(c & d & _ & Hc & Hr & Hb)])]%append_suggestion_spec [Hd Hf];
    split; rewrite Hr, Hb; try done.
  - intros s [Hs| ->%list_elem_of_singleton]%elem_of_app; [by apply Hd|by left].
  - intros k rs r Hk Hin. destruct (Hf k rs r Hk Hin) as (s & d & ? & ? & ? & ?).
    exists s, d. rewrite elem_of_app. naive_solver.
  - intros s [Hs| ->%list_elem_of_singleton]%elem_of_app.
    + destruct (Hd s Hs) as [?|(k & e & Hk & He & Hin)]; [by left|]. right. exists k, e.
      split_and!; try done. destruct (decide (k = c)) as [->|].
      * rewrite add_reference_self. cbn. apply elem_of_app. by left.
      * by rewrite add_reference_other.
    + right. exists c, d. split_and!; try done. rewrite add_reference_self. cbn. set_solver.
  - intros k rs r Hk Hin. destruct (decide (k = c)) as [->|Hne].
    + rewrite add_reference_self in Hk. injection Hk as <-.
      apply elem_of_app in Hin as [Hin| ->%list_elem_of_singleton].
      * destruct (assoc c (by_dimension st)) as [rs|] eqn:Hrs; [|by apply not_elem_of_nil in Hin].
        destruct (Hf c rs r Hrs Hin) as (s & e & ? & ? & ? & ?). exists s, e.
        rewrite elem_of_app. naive_solver.
      * eexists _, d. rewrite elem_of_app. split_and!; [right; by left|done..].
    + rewrite add_reference_other in Hk by done. destruct (Hf k rs r Hk Hin) as (s & e & ? & ? & ? & ?).
      exists s, e. rewrite elem_of_app. naive_solver.
Qed.


(** ** The loops *)

Definition refs_of (st : collected) : list string := sg_ref <$> result st.

Lemma append_refs st ref category text code st' :
  append_suggestion refs st ref category text code = Ok st' →
  refs_of st' = refs_of st ∨ refs_of st' = (refs_of st ++ [ref])%list.
Proof.
  unfold refs_of.
  intros [[-> _]|(content & [[-> _]|(c & d & _ & _ & -> & _)])]%append_suggestion_spec;
    rewrite ?fmap_app; auto.
Qed.

Lemma append_NoDup st ref category text code st' :
  append_suggestion refs st ref category text code = Ok st' →
  NoDup (refs_of st) → ref ∉ refs_of st → NoDup (refs_of st').
Proof.
  intros [->| ->]%append_refs ? ?; [done|]. apply NoDup_app. split_and!; [done| |apply NoDup_singleton].
  set_solver.
Qed.

(** The references of the report's own suggestions come from distinct source indices. *)
Definition indexed (acc : list Z * collected) : Prop :=
  NoDup (refs_of acc.2) ∧ (∀ i, i ∈ acc.1 → 0 <= i) ∧
  ∀ r, r ∈ refs_of acc.2 → ∃ i, i ∈ acc.1 ∧ report_ref i = Ok r.

Lemma collect_report_spec acc suggestion acc' :
  collect_report refs acc suggestion = Ok acc' → 
  indexed acc → well_filed acc.2 → indexed acc' ∧ well_filed acc'.2.
Proof.
  unfold collect_report. destruct acc as [indices st]. intros H (Hnd & Hpos & Hrefs) Hwf. ok_inv.
  destruct x as [| |index| | | |]; try discriminate. py_inv.
  match goal with Ha : append_suggestion _ _ ?r _ _ _ = Ok _, Hr : report_ref _ = Ok ?r |- _ =>
    rename Ha into Happend, Hr into Href end.
  cbn in *. split; [|by eapply append_well_filed]. split_and!; cbn.
  - eapply append_NoDup; [done..|]. intros Hin. destruct (Hrefs _ Hin) as (i & Hi & Hri).
    assert (i = index) as -> by (eapply report_ref_inj; eauto). done.
  - intros i [->|Hi]%elem_of_cons; [lia|by apply Hpos].
  - intros r Hr. destruct (append_refs _ _ _ _ _ _ Happend) as [He|He]; rewrite He in Hr.
    + destruct (Hrefs r Hr) as (i & ? & ?). exists i. by rewrite elem_of_cons; auto.
    + apply elem_of_app in Hr as [Hr| ->%list_elem_of_singleton].
      * destruct (Hrefs r Hr) as (i & ? & ?). exists i. by rewrite elem_of_cons; auto.
      * exists index. rewrite elem_of_cons; auto.
Qed.

Lemma collect_dimension_spec st d st' c :
  collect_dimension refs st d = Ok st' → json_item d "code" = Ok (JStr c) →
  (well_filed st → well_filed st') ∧
  (refs_of st' = refs_of st ∨ refs_of st' = (refs_of st ++ [dimension_suggestion_ref c])%list).
Proof.
  unfold collect_dimension. intros H Hc. ok_inv. destruct x as [| | | |text| |]; try discriminate.
  destruct (has_text text); ok_inv; [|by auto]. rewrite Hc in *. ok_inv.
  match goal with Hr : ref_value _ = Ok _ |- _ => injection Hr as <- end.
  split; [by eapply append_well_filed|by eapply append_refs].
Qed.

Lemma collect_dimensions_spec ds codes st st' :
  foldM (collect_dimension refs) st ds = Ok st' →
  mapM (λ d, json_item d "code") ds = Ok (JStr <$> codes) → NoDup codes →
  NoDup (refs_of st) → (∀ c, c ∈ codes → dimension_suggestion_ref c ∉ refs_of st) →
  well_filed st → NoDup (refs_of st') ∧ well_filed st'.
Proof.
  revert codes st. induction ds as [|d ds IH]; intros codes st Hf Hcodes Hnd Hst Hfresh Hwf;
    cbn in Hf, Hcodes; ok_inv; [done|].
  destruct codes as [|c codes]; [done|]. injection Hcodes as -> ->.
  apply NoDup_cons in Hnd as [Hc Hnd].
  match goal with H1 : collect_dimension _ _ _ = Ok _, H2 : json_item _ _ = Ok _ |- _ =>
    destruct (collect_dimension_spec _ _ _ _ H1 H2) as [Hkeep Hrefs] end.
  eapply IH; eauto.
  - destruct Hrefs as [->| ->]; [done|]. apply NoDup_app. split_and!; [done| |apply NoDup_singleton].
    intros r Hr ->%list_elem_of_singleton. by apply (Hfresh c); [left|].
  - intros c' Hc'. pose proof (Hfresh c' ltac:(by right)) as Hf1.
    destruct Hrefs as [->| ->]; [done|]. rewrite elem_of_app, list_elem_of_singleton.
    intros [?|Heq]; [done|]. unfold dimension_suggestion_ref in Heq.
    cbn in Heq. injection Heq as Heq. apply (inj ref_of) in Heq as ->. done.
Qed.

(** The suggestions of a snapshot whose dimensions have distinct codes. *)
Lemma suggestions_spec snapshot v ds codes r filed :
  suggestions refs snapshot = Ok (r, filed) →
  json_item snapshot "dimensions" = Ok v → iterate v = Ok ds →
  mapM (λ d, json_item d "code") ds = Ok (JStr <$> codes) → NoDup codes →
  NoDup (sg_ref <$> r) ∧ ∃ noted, well_filed (mk_collected r filed noted).
Proof.
  unfold suggestions. intros H Hv Hds Hcodes Hnd. ok_inv.
  match goal with H1 : foldM (collect_report _) _ _ = Ok ?x |- _ =>
    destruct x as [indices st]; rename H1 into Hreports end.
  ok_inv. rewrite Hv in *. ok_inv. rewrite Hds in *. ok_inv. subst.
  assert (indexed (indices, st) ∧ well_filed st) as [(Hst & _ & Hrefs) Hwf].
  { refine (foldM_ind _ (λ acc, indexed acc ∧ well_filed acc.2) _ _ _ _ _ Hreports).
    - intros acc y acc' _ [? ?] Hs. by eapply collect_report_spec.
    - split; [split_and!; cbn; [constructor|by intros i ?%not_elem_of_nil..]|].
      split; cbn; [by intros s ?%not_elem_of_nil|done]. }
  match goal with H1 : foldM (collect_dimension _) _ _ = Ok ?x |- _ =>
    destruct (collect_dimensions_spec _ _ _ _ H1 Hcodes Hnd Hst) as [Hn Hw] end; [|done|].
  - intros c _ Hin. destruct (Hrefs _ Hin) as (i & _ & Hi). by apply report_ref_dimension in Hi.
  - split; [done|]. exists (seen x3). by destruct x3.
Qed.
End collection.
