(* ===== verification/ScaleInput.v ===== *)
(** * ScaleInput: the input of a scale report

    The scale part of [application/interpretation/input.py]: [_score], [_level], [_norm],
    [_model_result] and [_assemble], which project a frozen report snapshot into the document
    [ai-explanation-input/v1] and the payload of the prompt. *)
From S2P Require Import Prelude PyText PyInt PyHash PyNum PyJson Errors JsonRoundTrip Prompts.
From S2P Require Import InputValues.
From Stdlib Require Import Ascii Sorting.Sorted.

Local Open Scope string_scope.
Local Open Scope Z_scope.
#[local] Arguments String.append : simpl nomatch.

(** [{key: value[key] for key in keys}] *)
Definition pick (value : json) (keys : list string) : res (list (string * json)) :=
  mapM (λ k, v ← json_item value k; Ok (k, v)) keys.

Definition project_score (value : json) : res json :=
  match value with
  | JNull => Ok JNull
  | _ =>
    kind ← json_item value "kind";
    v ← json_item value "value"; v ← number v false;
    label ← json_item value "label";
    max ← json_item value "max"; max ← number max true;
    Ok (JObj [("kind", kind); ("value", v); ("label", label); ("max", max)])
  end.

Definition project_level (value : json) : res json :=
  match value with
  | JNull => Ok JNull
  | _ =>
    code ← json_item value "code";
    label ← json_item value "label";
    severity ← json_item value "severity";
    label ← (if json_eqb label (JStr "") then s ← plain code 2000 true; Ok (JStr s) else Ok label);
    Ok (JObj [("code", code); ("label", label); ("severity", severity)])
  end.

Definition norm_keys : list string :=
  ["score_kind"; "benchmark"; "table_version"; "form_variant"; "min_age_months"; "max_age_months";
   "gender"].
Definition project_norm (value : json) : res json :=
  match value with
  | JNull => Ok JNull
  | _ =>
    fields ← pick value norm_keys;
    benchmark ← json_item (JObj fields) "benchmark";
    _ ← number benchmark false;
    Ok (JObj fields)
  end.

(** [0 <= percent <= 100] on a number *)
Definition num_within (lo hi : num) (v : num) : bool := num_le lo v && num_le v hi.
Definition percent_ok (v : json) : bool :=
  match v with
  | JInt z => num_within (NInt 0) (NInt 100) (NInt z)
  | JFloat f => num_within (NInt 0) (NInt 100) (NFloat f)
  | _ => false
  end.

Definition project_model_result (extra : json) : res json :=
  match extra with
  | JNull => Ok JNull
  | _ =>
    foldM (λ _ key, v ← json_get extra key; _ ← plain v 2000 true; Ok tt) tt
      ["kind"; "type_code"; "type_name"; "one_liner"] ;;
    percent ← json_get_default extra "match_percent" (JInt 0);
    raise_if (negb (percent_ok percent)) (InvalidInput "Invalid model match percent") ;;
    kind ← json_item extra "kind";
    type_code ← json_item extra "type_code";
    type_name ← json_item extra "type_name";
    one_liner ← json_item extra "one_liner";
    commentary ← json_get_default extra "commentary" (JStr "");
    Ok (JObj [("kind", kind); ("type_code", type_code); ("type_name", type_name);
              ("one_liner", one_liner); ("match_percent", percent); ("commentary", commentary)])
  end.

(** ** Checks of the policy and of the caller's request *)

(** [[a-z][a-z0-9_.-]{0,63}] *)
Definition focus_re : string → bool :=
  head_tail lower (λ c, lower c || digit c || one_of ["_"; "."; "-"]%char c) 63.

Definition check_focus (policy : InputPolicy) (focus : list string) : bool :=
  bool_decide (NoDup focus)
  && forallb (λ x, focus_re x && (x is_in policy_focus_areas policy)%py) focus.

(** [[1-9][0-9]{0,19}], below [2**64]; a value that is no text raises. *)
Definition identity_re : string → bool := head_tail (in_range "1" "9") digit 19.
Definition source_identity (v : json) : res bool :=
  match v with
  | JStr s => Ok (identity_re s && (int_of_digits s <? 2 ^ 64))
  | _ => Err TypeError
  end.

Definition source_texts : list string :=
  ["report_template_version"; "content_schema_version"; "builder_identity"; "generated_at"].
Definition source_keys : list string :=
  ["report_id"; "outcome_id"; "report_type"; "report_template_version";
   "content_schema_version"; "builder_identity"; "generated_at"].
Definition check_identity (source : json) (key : string) : res unit :=
  v ← json_item source key; ok ← source_identity v;
  raise_if (negb ok) (InvalidInput "Invalid source identity").
(** [_plain(value[key], limit)] for the keys of a loop *)
Definition check_texts (value : json) (limit : Z) (keys : list string) : res unit :=
  foldM (λ _ key, v ← json_item value key; _ ← plain v limit true; Ok tt) tt keys.
Definition check_source (source : json) : res unit :=
  foldM (λ _ key, check_identity source key) tt ["report_id"; "outcome_id"] ;;
  check_texts source 255 source_texts ;;
  report_type ← json_item source "report_type";
  raise_if (negb (json_eqb report_type (JStr "standard")))
    (NotApplicable "Only standard reports are accepted").

(** [selector is not None and value != selector] *)
Definition differs (value : res json) (selector : option string) : res bool :=
  match selector with
  | None => Ok false
  | Some s => v ← value; Ok (negb (json_eqb v (JStr s)))
  end.

Definition model_keys : list string := ["kind"; "algorithm"; "code"; "version"; "title"].
Definition check_model (policy : InputPolicy) (model runtime : json) : res unit :=
  raise_ifM ((kind ← json_item model "kind"; Ok (negb (json_eqb kind (JStr "scale")))) <orM>
             (d ← json_item runtime "decision_kind"; Ok (negb (json_eqb d (JStr "score_range")))))%py
    (NotApplicable "Input v1 requires participant scale/score_range") ;;
  raise_ifM (differs (json_item model "code") (model_code policy) <orM>
             differs (json_item model "version") (model_version policy))%py
    (NotApplicable "Profile selector does not match report") ;;
  check_texts model 2000 ["algorithm"; "code"; "version"; "title"].

Definition check_scale_policy (policy : InputPolicy) (locale : string) (focus : list string)
    : res unit :=
  raise_if (negb (nonempty (profile_id policy)) || negb (nonempty (profile_version policy))
            || negb (sha_re (profile_fingerprint policy)))
    (InvalidInput "Published Profile reference is required") ;;
  raise_if (negb ((2 <=? min_dimensions policy)
                  && (min_dimensions policy <=? max_dimensions policy)
                  && (max_dimensions policy <=? 50)))
    (InvalidInput "Invalid eligibility bounds") ;;
  raise_if (existsb (λ c, c is_in excluded_codes policy)%py (eligible_codes policy))
    (InvalidInput "Overlapping eligibility policy") ;;
  raise_if (negb (locale_re locale) || (35 <? str_len locale)) (InvalidInput "Invalid locale") ;;
  raise_if (negb (check_focus policy focus)) (InvalidInput "Invalid or disallowed focus areas").

(** ** Dimensions *)

Record Dimension : Type := mk_dimension {
  d_ref : string;
  d_code : string;
  d_kind : string;
  d_name : string;
  d_role : json;
  d_parent_ref : option string;
  d_hierarchy_level : Z;
  d_sort_order : Z;
  d_raw_score : json;
  d_derived_scores : list json;
  d_level : json;
  d_norm_context : json;
  d_description : string;
  d_suggestion_refs : list string;
}.
Definition optional_text (o : option string) : json :=
  match o with Some s => JStr s | None => JNull end.
Definition dimension_json (d : Dimension) : json :=
  JObj [("ref", JStr (d_ref d)); ("code", JStr (d_code d)); ("kind", JStr (d_kind d));
        ("name", JStr (d_name d)); ("role", d_role d);
        ("parent_ref", optional_text (d_parent_ref d));
        ("hierarchy_level", JInt (d_hierarchy_level d)); ("sort_order", JInt (d_sort_order d));
        ("raw_score", d_raw_score d); ("derived_scores", JList (d_derived_scores d));
        ("level", d_level d); ("norm_context", d_norm_context d);
        ("standard_description", JStr (d_description d));
        ("standard_suggestion_refs", JList (JStr <$> d_suggestion_refs d))].

(** [type(d[field]) is not int or d[field] < 0] *)
Definition natural_field (d : json) (field : string) : res Z :=
  v ← json_item d field;
  match v with
  | JInt z =>
    raise_if (z <? 0) (InvalidInput "Invalid dimension hierarchy or sort order") ;; Ok z
  | _ => Err (InvalidInput "Invalid dimension hierarchy or sort order")
  end.

(** [refs.get(code)] with a code of any type *)
Definition parent_of (refs : list (string * string)) (code : json) : res (option string) :=
  raise_if (negb (hashable code)) TypeError ;;
  Ok (match code with JStr c => assoc c refs | _ => None end).

Definition project_dimension (policy : InputPolicy) (refs : list (string * string))
    (filed : list (string * list string)) (selected : string * json) : res Dimension :=
  let '(code, d) := selected in
  level_number ← natural_field d "hierarchy_level";
  sort_order ← natural_field d "sort_order";
  kind ← json_item d "kind"; kind ← plain kind 255 true;
  name ← json_item d "name"; name ← plain name 2000 true;
  role ← json_item d "role";
  parent ← json_item d "parent_code"; parent ← parent_of refs parent;
  raw ← json_item d "raw_score"; raw ← number raw false;
  max ← json_item d "max_score"; max ← number max true;
  derived ← json_item d "derived_scores"; derived ← iterate derived;
  derived ← mapM project_score derived;
  level ← json_item d "level"; level ← project_level level;
  norm ← (if include_norm_context policy
          then norm ← json_item d "norm_reference"; project_norm norm else Ok JNull);
  description ← json_item d "description"; description ← plain description 4000 false;
  Ok (mk_dimension (default "" (assoc code refs)) code kind name role parent level_number sort_order
        (JObj [("kind", JStr "raw_score"); ("value", raw); ("label", JStr ""); ("max", max)])
        derived level norm description (default [] (assoc code filed))).

(** [projected.sort(key=lambda d: (d["sort_order"], d["code"]))], a stable sort *)
Definition before (a b : Dimension) : bool :=
  (d_sort_order a <? d_sort_order b)
  || ((d_sort_order a =? d_sort_order b) && String.leb (d_code a) (d_code b)).
Definition sort_dimensions : list Dimension → list Dimension := sort_by before.

(** [[d["code"] for d in dimensions]], all nonempty texts without duplicates *)
Definition dimension_codes (dimensions : list json) : res (list string) :=
  codes ← mapM (λ d, json_item d "code") dimensions;
  match all_strings codes with
  | Some codes =>
    raise_if (existsb (λ c, negb (nonempty c)) codes || negb (bool_decide (NoDup codes)))
      (InvalidInput "Missing or duplicate dimension code") ;;
    Ok codes
  | None => Err (InvalidInput "Missing or duplicate dimension code")
  end.

Definition eligible (policy : InputPolicy) (code : string) : bool :=
  (bool_decide (eligible_codes policy = []) || (code is_in eligible_codes policy)%py)
  && (code not_in excluded_codes policy)%py.

(** [refs = {d["code"]: "dimension:" + _ref(d["code"]) for d in selected}] *)
Definition dimension_ref (code : string) : string := "dimension:" ++ ref_of code.
Definition refs_table (selected : list (string * json)) : list (string * string) :=
  (λ s, (s.1, dimension_ref s.1)) <$> selected.

(** ** The document *)

Definition context_json (locale : string) (focus : list string) : json :=
  JObj [("scope", JStr "current_assessment_only"); ("audience", JStr "participant");
        ("locale", JStr locale);
        ("personalization_scope",
          JStr (match focus with
                | [] => "assessment_result_only" | _ => "assessment_result_and_focus_areas" end));
        ("focus_areas", JList (JStr <$> focus))].

Definition profile_json (policy : InputPolicy) : json :=
  JObj [("profile_id", JStr (profile_id policy));
        ("profile_version", JStr (profile_version policy));
        ("profile_fingerprint", JStr (profile_fingerprint policy))].

(** The facts of the document, before they become JSON. *)
Record ScaleFacts : Type := mk_scale_facts {
  sf_decision : json;
  sf_model : list (string * json);
  sf_primary_score : json;
  sf_level : json;
  sf_conclusion : json;
  sf_dimensions : list Dimension;
  sf_suggestions : list Suggestion;
  sf_model_result : json;
}.
Definition facts_json (f : ScaleFacts) : json :=
  JObj [("runtime", JObj [("decision_kind", sf_decision f)]);
        ("model", JObj (sf_model f));
        ("overall_result",
          JObj [("primary_score", sf_primary_score f); ("level", sf_level f);
                ("standard_conclusion", sf_conclusion f)]);
        ("dimensions", JList (dimension_json <$> sf_dimensions f));
        ("standard_suggestions", JList (suggestion_json <$> sf_suggestions f));
        ("model_result", sf_model_result f)].

(** The facts of a snapshot under a policy. *)
Definition scale_facts (snapshot : json) (policy : InputPolicy) (model runtime : json)
    : res ScaleFacts :=
  dimensions ← json_item snapshot "dimensions"; dimensions ← iterate dimensions;
  codes ← dimension_codes dimensions;
  let selected := List.filter (λ s, eligible policy s.1) (zip codes dimensions) in
  raise_if (negb ((min_dimensions policy <=? len selected)
                  && (len selected <=? max_dimensions policy)))
    (NotApplicable "Eligible dimension count outside Profile bounds") ;;
  let refs := refs_table selected in
  '(suggested, filed) ← suggestions refs snapshot;
  projected ← mapM (project_dimension policy refs filed) selected;
  decision ← json_item runtime "decision_kind";
  model_fields ← pick model model_keys;
  primary ← json_item snapshot "primary_score"; primary ← project_score primary;
  level ← json_item snapshot "level"; level ← project_level level;
  conclusion ← json_item snapshot "conclusion";
  model_result ← (if include_model_result policy
                  then extra ← json_item snapshot "model_extra"; project_model_result extra
                  else Ok JNull);
  Ok (mk_scale_facts decision model_fields primary level conclusion (sort_dimensions projected)
        suggested model_result).

(** [_assemble] *)
Definition assemble_scale (snapshot : json) (policy : InputPolicy) (locale : string)
    (focus : list string) : res AssembledInput :=
  version ← json_item snapshot "schema_version";
  raise_if (negb (json_eqb version (JStr "qs-report-snapshot/v1")))
    (InvalidInput "Unsupported report snapshot version") ;;
  check_scale_policy policy locale focus ;;
  model ← json_item snapshot "model";
  runtime ← json_item snapshot "runtime";
  check_model policy model runtime ;;
  source ← json_item snapshot "source";
  check_source source ;;
  facts ← scale_facts snapshot policy model runtime;
  source_fields ← pick source source_keys;
  let context := context_json locale focus in
  canonical ← json_text
    (JObj [("schema_version", JStr "ai-explanation-input/v1");
           ("source", JObj source_fields);
           ("profile", profile_json policy);
           ("context", context);
           ("facts", facts_json facts)]);
  payload ← json_text (JObj [("context", context); ("facts", facts_json facts)]);
  Ok (mk_assembled_input canonical (fingerprint_of canonical) payload).

(** ** Sorting *)

Lemma before_total a b : before a b = true ∨ before b a = true.
Proof.
  unfold before. destruct (String.leb_total (d_code a) (d_code b)) as [->| ->];
    destruct (Z.lt_total (d_sort_order a) (d_sort_order b)) as [?|[?|?]]; lia.
Qed.

(** ** The selected dimensions *)

Lemma all_strings_texts k : all_strings (JStr <$> k) = Some k.
Proof. induction k as [|s k IH]; cbn; [done|]. by rewrite IH. Qed.
Lemma all_strings_Some l k : all_strings l = Some k → l = JStr <$> k.
Proof.
  revert k. induction l as [|v l IH]; intros k; cbn; [by intros [= <-]|].
  destruct v as [| | | |s| |]; try done. destruct (all_strings l) as [k'|]; cbn; [|done].
  intros [= <-]. cbn. by rewrite (IH k' eq_refl).
Qed.

Lemma dimension_codes_Ok dimensions codes :
  dimension_codes dimensions = Ok codes →
  mapM (λ d, json_item d "code") dimensions = Ok (JStr <$> codes) ∧ NoDup codes.
Proof.
  unfold dimension_codes. intros H. ok_inv.
  destruct (all_strings _) as [k|] eqn:Hk; [|done]. apply all_strings_Some in Hk as ->. py_inv.
  by subst.
Qed.

Lemma filter_fst_NoDup {A} (p : string * A → bool) l : NoDup l.*1 → NoDup (List.filter p l).*1.
Proof.
  induction l as [|x l IH]; cbn; [done|]. rewrite NoDup_cons. intros [Hx Hl].
  destruct (p x); cbn; [|by apply IH]. constructor; [|by apply IH].
  intros (y & Hy & Hin)%list_elem_of_fmap. apply Hx. rewrite Hy.
  apply list_elem_of_In, filter_In in Hin as [Hin _]. by apply list_elem_of_fmap_2, list_elem_of_In.
Qed.

Lemma assoc_refs selected c d :
  assoc c (refs_table selected) = Some d → c ∈ selected.*1 ∧ d = dimension_ref c.
Proof.
  induction selected as [|[k v] l IH]; cbn; [done|]. case_bool_decide as Hk.
  - intros [= <-]. subst. split; [by left|done].
  - intros [? ?]%IH. split; [by right|done].
Qed.
Lemma refs_assoc selected c :
  c ∈ selected.*1 → assoc c (refs_table selected) = Some (dimension_ref c).
Proof.
  induction selected as [|[k v] l IH]; cbn; [by intros ?%not_elem_of_nil|].
  intros [->|Hc]%elem_of_cons; case_bool_decide; subst; auto. done.
Qed.

#[export] Instance dimension_ref_inj : Inj (=) (=) dimension_ref.
Proof. intros a b H. cbn in H. injection H as H. by apply (inj ref_of) in H. Qed.

Lemma project_dimension_Ok policy refs filed c v d :
  project_dimension policy refs filed (c, v) = Ok d →
  d_code d = c ∧ d_ref d = default "" (assoc c refs) ∧
  d_suggestion_refs d = default [] (assoc c filed) ∧
  (∀ p, d_parent_ref d = Some p → ∃ k, assoc k refs = Some p) ∧
  0 <= d_sort_order d ∧ 0 <= d_hierarchy_level d.
Proof.
  assert (Hnat : ∀ k z, natural_field v k = Ok z → 0 <= z).
  { unfold natural_field. intros k z Hz. ok_inv. destruct x; try discriminate. py_inv. lia. }
  unfold project_dimension. intros H. ok_inv. cbn.
  split_and!; eauto.
  intros p Hp. unfold parent_of in *. py_inv. subst.
  match goal with Hm : match ?v with _ => _ end = Some p |- _ => destruct v; try discriminate Hm end.
  eauto.
Qed.

(** ** The facts are closed

    Every reference of the facts names an item of the facts, both ways. *)
Record closed_facts (policy : InputPolicy) (f : ScaleFacts) : Prop := {
  cf_count : min_dimensions policy <= len (sf_dimensions f) <= max_dimensions policy;
  cf_sorted : Sorted (in_order before) (sf_dimensions f);
  cf_refs : NoDup (d_ref <$> sf_dimensions f);
  cf_eligible : ∀ d, d ∈ sf_dimensions f →
    eligible policy (d_code d) = true ∧ d_ref d = dimension_ref (d_code d);
  cf_parents : ∀ d p, d ∈ sf_dimensions f → d_parent_ref d = Some p →
    p ∈ d_ref <$> sf_dimensions f;
  cf_suggestions : NoDup (sg_ref <$> sf_suggestions f);
  cf_suggested : ∀ s r, s ∈ sf_suggestions f → r ∈ sg_dimension_refs s →
    ∃ d, d ∈ sf_dimensions f ∧ d_ref d = r ∧ sg_ref s ∈ d_suggestion_refs d;
  cf_filed : ∀ d r, d ∈ sf_dimensions f → r ∈ d_suggestion_refs d →
    ∃ s, s ∈ sf_suggestions f ∧ sg_ref s = r ∧ sg_dimension_refs s = [d_ref d];
}.

Lemma fst_zip_le {A B} (l : list A) (k : list B) : ∃ m, l = ((zip l k).*1 ++ m)%list.
Proof.
  revert k. induction l as [|x l IH]; intros [|y k]; cbn; [by exists []|by exists []|by exists (x :: l)|].
  destruct (IH k) as [m Hm]. exists m. by f_equal.
Qed.

Section selection.
Context (policy : InputPolicy) (codes : list string) (dimensions : list json).
Context (filed : list (string * list string)) (projected : list Dimension).
Let selected := List.filter (λ s, eligible policy s.1) (zip codes dimensions).
Let refs := refs_table selected.
Hypothesis Hcodes : NoDup codes.
Hypothesis Hproj : mapM (project_dimension policy refs filed) selected = Ok projected.

Lemma selected_NoDup : NoDup selected.*1.
Proof.
  apply filter_fst_NoDup. destruct (fst_zip_le codes dimensions) as [m Hm].
  rewrite Hm in Hcodes. by apply NoDup_app in Hcodes as [? _].
Qed.

(** What the projection of one selected dimension says of it. *)
Lemma projected_elem d :
  d ∈ projected →
  d_code d ∈ selected.*1 ∧ eligible policy (d_code d) = true ∧
  d_ref d = dimension_ref (d_code d) ∧
  d_suggestion_refs d = default [] (assoc (d_code d) filed) ∧
  (∀ p, d_parent_ref d = Some p → ∃ k, assoc k refs = Some p).
Proof.
  intros Hd. apply mapM_Ok in Hproj. apply list_elem_of_lookup in Hd as [i Hi].
  destruct (Forall2_lookup_r _ _ _ _ _ Hproj Hi) as ([c v] & Hci & Hp).
  apply project_dimension_Ok in Hp as (Hc & Href & Hs & Hparent & _). subst c.
  assert (Hin : d_code d ∈ selected.*1).
  { apply list_elem_of_fmap. exists (d_code d, v). split; [done|]. by eapply list_elem_of_lookup_2. }
  split_and!; auto.
  - apply list_elem_of_lookup_2, list_elem_of_In, filter_In in Hci as [_ ?]. done.
  - rewrite Href. unfold refs. by rewrite refs_assoc.
Qed.

Lemma projected_codes : d_code <$> projected = selected.*1.
Proof.
  apply mapM_Ok in Hproj. revert Hproj. generalize selected, projected, refs. clear.
  intros l k r H. induction H as [|[c v] d l k Hd _ IH]; cbn; [done|].
  apply project_dimension_Ok in Hd as (-> & _). by rewrite IH.
Qed.

Lemma projected_refs : NoDup (d_ref <$> projected).
Proof.
  assert (Hrefs : d_ref <$> projected = dimension_ref <$> (d_code <$> projected)).
  { rewrite <- list_fmap_compose. apply list_fmap_ext. intros i d Hd.
    by apply projected_elem; eapply list_elem_of_lookup_2. }
  rewrite Hrefs. apply NoDup_fmap; [apply _|]. rewrite projected_codes. apply selected_NoDup.
Qed.

(** A code of the table is the code of a projected dimension. *)
Lemma refs_projected c r :
  assoc c refs = Some r → ∃ d, d ∈ projected ∧ d_code d = c ∧ d_ref d = r.
Proof.
  intros [Hc ->]%assoc_refs. rewrite <- projected_codes in Hc.
  apply list_elem_of_fmap in Hc as (d & -> & Hd). exists d. split_and!; [done..|].
  by apply projected_elem in Hd as (_ & _ & -> & _).
Qed.
End selection.

Lemma scale_facts_Ok snapshot policy model runtime f :
  scale_facts snapshot policy model runtime = Ok f → closed_facts policy f.
Proof.
  unfold scale_facts. intros H. ok_inv. cbv zeta in *. ok_inv.
  match goal with Hs : suggestions _ _ = Ok ?x |- _ =>
    destruct x as [suggested filed]; rename Hs into Hsug end.
  ok_inv. cbn [sf_dimensions sf_suggestions].
  match goal with Hc : dimension_codes _ = Ok ?c |- _ =>
    rename c into codes; apply dimension_codes_Ok in Hc as [Hcodes Hnd] end.
  match goal with Hm : mapM (project_dimension _ _ _) _ = Ok ?p |- _ =>
    rename p into projected; rename Hm into Hproj end.
  match goal with Hd : json_item snapshot "dimensions" = Ok _, Hi : iterate _ = Ok ?ds |- _ =>
    rename ds into dims;
    destruct (suggestions_spec _ _ _ _ _ _ _ Hsug Hd Hi Hcodes Hnd) as (Huniq & noted & [Hdims Hfiled])
  end.
  set (sel := List.filter _ _) in *.
  pose proof (projected_codes _ _ _ _ _ Hproj) as Hpc.
  pose proof (projected_elem _ _ _ _ _ Hproj) as Helem.
  pose proof (refs_projected _ _ _ _ _ Hproj) as Hback.
  assert (Hperm : sort_dimensions projected ≡ₚ projected) by apply sort_by_perm.
  assert (Hlen : len (sort_dimensions projected) = len sel).
  { unfold len. rewrite Hperm. f_equal. apply (f_equal length) in Hpc.
    by rewrite !length_fmap in Hpc. }
  split; cbn [sf_dimensions sf_suggestions].
  - rewrite Hlen. py_inv. lia.
  - apply sort_by_sorted, before_total.
  - rewrite Hperm. exact (projected_refs _ _ _ _ _ Hnd Hproj).
  - intros d. rewrite Hperm. intros Hd. apply Helem in Hd as (_ & ? & ? & _). done.
  - intros d p. rewrite Hperm. intros Hd Hp. apply Helem in Hd as (_ & _ & _ & _ & Hpar).
    destruct (Hpar p Hp) as [k Hk]. apply Hback in Hk as (d' & Hd' & _ & <-).
    by apply list_elem_of_fmap_2.
  - done.
  - intros s r Hs Hr. destruct (Hdims s Hs) as [He|(c & dref & Hc & He & Hin)]; rewrite He in Hr.
    + by apply not_elem_of_nil in Hr.
    + apply list_elem_of_singleton in Hr as ->. apply Hback in Hc as (d & Hd & <- & Hdr).
      exists d. rewrite Hperm. split_and!; [done..|]. apply Helem in Hd as (_ & _ & _ & -> & _). done.
  - intros d r. rewrite Hperm. intros Hd Hr. apply Helem in Hd as (Hsel & _ & Href & Hsr & _).
    rewrite Hsr in Hr. destruct (assoc (d_code d) filed) as [rs|] eqn:Hrs; [|by apply not_elem_of_nil in Hr].
    destruct (Hfiled _ rs r Hrs Hr) as (s & dref & Hs & <- & Hc & Hsd). exists s.
    apply assoc_refs in Hc as [_ ->]. by rewrite Hsd, Href.
Qed.

Lemma pick_keys v ks l : pick v ks = Ok l → l.*1 = ks.
Proof.
  unfold pick. rewrite mapM_Ok. intros H. induction H as [|k kv ks l Hk _ IH]; [done|].
  ok_inv. cbn. done.
Qed.

(** C22: the facts of an assembled scale input are closed: within the policy's bounds, ordered by sort
    order and code, with distinct references; every parent, suggestion and dimension reference
    names an item of the same facts, both ways; and the document and the prompt's payload carry
    exactly those facts. *)
Theorem assembled_facts_closed snapshot policy locale focus a :
  assemble_scale snapshot policy locale focus = Ok a →
  ∃ f source,
    closed_facts policy f ∧
    json_text (JObj [("context", context_json locale focus); ("facts", facts_json f)])
    = Ok (provider_payload a) ∧
    json_text
      (JObj [("schema_version", JStr "ai-explanation-input/v1"); ("source", JObj source);
             ("profile", profile_json policy); ("context", context_json locale focus);
             ("facts", facts_json f)]) = Ok (canonical_json a) ∧
    input_fingerprint a = fingerprint_of (canonical_json a) ∧ source.*1 = source_keys.
Proof.
  unfold assemble_scale. intros H. ok_inv.
  match goal with Hf : scale_facts _ _ _ _ = Ok ?f |- _ => exists f; apply scale_facts_Ok in Hf end.
  match goal with Hp : pick _ source_keys = Ok ?s |- _ => exists s; rename Hp into Hpick end.
  split_and!; try done. by eapply pick_keys.
Qed.
