(* ===== verification/MbtiReferences.v ===== *)
(** * MbtiReferences: the frozen reference material of the thematic scene

    [domain/governance/mbti_references.py]: the material of a model, the selection of the entries
    that fit a type, its canonical projection and the check of one citation.  The decoder of the
    material, which reads URLs with the standard library's [urlsplit], is not modelled. *)
From S2P Require Import Prelude PyText PyHash PyNum PyJson Scenes.

Local Open Scope string_scope.
Local Open Scope Z_scope.
#[local] Arguments String.append : simpl nomatch.

Record MBTIReferenceSource : Type := mk_reference_source {
  rs_source_id : string;
  rs_title : string;
  rs_url : string;
  rs_accessed_on : string;
  rs_support_scope : string;
}.
Record MBTIReferenceEntry : Type := mk_reference_entry {
  re_entry_id : string;
  re_topic : string;
  re_axis : string;
  re_pole : string;
  re_content : string;
  re_source_ids : list string;
  re_usage_boundary : string;
}.
Record SelectedMBTIReferences : Type := mk_selected {
  sel_version : string;
  sel_model_code : string;
  sel_model_version : string;
  sel_type_code : string;
  sel_sources : list MBTIReferenceSource;
  sel_entries : list MBTIReferenceEntry;
}.
Record MBTIReferenceMaterial : Type := mk_material {
  mat_version : string;
  mat_model_code : string;
  mat_model_version : string;
  mat_sources : list MBTIReferenceSource;
  mat_entries : list MBTIReferenceEntry;
}.

(** [asdict] *)
Definition source_dict (s : MBTIReferenceSource) : json :=
  JObj [("source_id", JStr (rs_source_id s)); ("title", JStr (rs_title s));
        ("url", JStr (rs_url s)); ("accessed_on", JStr (rs_accessed_on s));
        ("support_scope", JStr (rs_support_scope s))].
Definition entry_dict (e : MBTIReferenceEntry) : json :=
  JObj [("entry_id", JStr (re_entry_id e)); ("topic", JStr (re_topic e));
        ("axis", JStr (re_axis e)); ("pole", JStr (re_pole e));
        ("content", JStr (re_content e)); ("source_ids", JList (JStr <$> re_source_ids e));
        ("usage_boundary", JStr (re_usage_boundary e))].
Definition selected_canonical (s : SelectedMBTIReferences) : res string :=
  dumps_with compact_sorted
    (JObj [("schema_version", JStr "mbti-reference-selection/v1");
           ("version", JStr (sel_version s)); ("model_code", JStr (sel_model_code s));
           ("model_version", JStr (sel_model_version s));
           ("type_code", JStr (sel_type_code s));
           ("sources", JList (source_dict <$> sel_sources s));
           ("entries", JList (entry_dict <$> sel_entries s))]).
(** [projection]: the canonical document with its fingerprint *)
Definition projection (s : SelectedMBTIReferences) : res json :=
  text ← selected_canonical s;
  document ← loads text;
  match document with
  | JObj l => Ok (JObj (assoc_set "fingerprint" (JStr (fingerprint_of text)) l))
  | _ => Err TypeError
  end.

(** The characters of a text. *)
Definition characters (s : string) : list string := (λ c, of_code_points [c]) <$> code_points s.

Definition select (material : MBTIReferenceMaterial) (type_code : string)
    : res SelectedMBTIReferences :=
  let letters := characters type_code in
  raise_if (negb (bool_decide (length letters = 4%nat))
            || existsb (λ '(pole, (_, l, r)), (pole not_in [l; r])%py) (zip letters MBTI_AXES))
    (InvalidMBTIReferences "Invalid MBTI type for reference selection") ;;
  let poles := zip (MBTI_AXES.*1.*1) letters in
  fits ← mapM (λ e, match assoc (re_axis e) poles with
                    | Some pole => Ok (bool_decide (pole = re_pole e), e)
                    | None => Err (KeyError (re_axis e))
                    end) (mat_entries material);
  let entries := (List.filter fst fits).*2 in
  let used := entries ≫= re_source_ids in
  Ok (mk_selected (mat_version material) (mat_model_code material) (mat_model_version material)
        type_code (List.filter (λ s, rs_source_id s is_in used)%py (mat_sources material)) entries).

Definition validate_reference (self : SelectedMBTIReferences) (ref topic : string)
    (evidence_refs : list string) : res unit :=
  match List.find (λ e, bool_decide (ref = "reference:" ++ re_entry_id e)) (sel_entries self) with
  | Some entry =>
    raise_if (re_topic entry != topic)%py
      (InvalidMBTIReferences "Reference is not available for this topic") ;;
    raise_if ((("dimension:" ++ re_axis entry)%string not_in evidence_refs)
              && ("model_result" not_in evidence_refs))%py
      (InvalidMBTIReferences "Reference lacks its report evidence")
  | None => Err (InvalidMBTIReferences "Reference is not available for this topic")
  end.

(** The entries that fit a type: those of the poles it names, with exactly the sources they cite. *)
Lemma select_spec material type_code s :
  select material type_code = Ok s →
  sel_type_code s = type_code ∧ sel_version s = mat_version material ∧
  (∀ e, e ∈ sel_entries s ↔ e ∈ mat_entries material ∧
     assoc (re_axis e) (zip (MBTI_AXES.*1.*1) (characters type_code)) = Some (re_pole e)) ∧
  (∀ x, x ∈ sel_sources s ↔ x ∈ mat_sources material ∧
     ∃ e, e ∈ sel_entries s ∧ rs_source_id x ∈ re_source_ids e).
Proof.
  unfold select. intros H. ok_inv. cbn [sel_type_code sel_version sel_entries sel_sources].
  split_and!; [done..| |].
  - rename x into fits. intros e. rewrite list_elem_of_fmap.
    match goal with Hm : mapM _ _ = Ok fits |- _ => revert Hm end. clear.
    generalize (zip (MBTI_AXES.*1.*1) (characters type_code)) as poles. intros poles.
    revert fits. induction (mat_entries material) as [|e' l IH]; intros fits H; cbn in H; ok_inv.
    + split; [intros ([b x] & _ & Hx)|]; [by apply not_elem_of_nil in Hx|].
      by intros [?%not_elem_of_nil _].
    + match goal with Hm : mapM _ l = Ok ?k |- _ => specialize (IH k Hm) end.
      destruct (assoc (re_axis e') poles) as [pole|] eqn:Hp; ok_inv. cbn.
      case_bool_decide as Hpole; cbn.
      * setoid_rewrite elem_of_cons. split.
        -- intros (y & -> & [->|Hy]); cbn; [subst; auto|].
           destruct (proj1 IH (ex_intro _ y (conj eq_refl Hy))) as [? ?]. auto.
        -- intros [[->|He] Ha]; [by exists (true, e'); auto|].
           destruct (proj2 IH (conj He Ha)) as (y & -> & Hy). by exists y; auto.
      * setoid_rewrite elem_of_cons. rewrite IH. split; [by intros [? ?]; auto|].
        intros [[->|?] Ha]; [congruence|done].
  - intros y. rewrite list_elem_of_In, filter_In, <- list_elem_of_In, bool_decide_eq_true.
    rewrite list_elem_of_bind. naive_solver.
Qed.
