(* ===== verification/MbtiInput.v ===== *)
(** * MbtiInput: the input of an MBTI report

    [application/interpretation/mbti_input.py] and [mbti_themes_input.py]: the strict validation of
    a frozen MBTI snapshot, its projection into the documents of the two scenes, and the validation
    of a projected payload.  The scores are the report's; nothing is computed from them. *)
From S2P Require Import Prelude PyText PyInt PyTime PyHash PyNum PyJson PyIso Errors JsonRoundTrip.
From S2P Require Import Scenes Prompts InputValues ScaleInput MbtiReferences.
From Stdlib Require Import Ascii Sorting.Sorted.

Local Open Scope string_scope.
Local Open Scope Z_scope.
#[local] Arguments String.append : simpl nomatch.

Definition value_error (msg : string) : exn := ValueError msg.

(** [_fields]: a dict with exactly these keys *)
Definition fields (value : json) (names : list string) : res json :=
  match value with
  | JObj l =>
    raise_if (negb (same_keys l.*1 names)) (ValueError "Invalid contract fields") ;; Ok value
  | _ => Err (ValueError "Invalid contract fields")
  end.

(** [_bounded] *)
Definition bounded (value : json) (minimum maximum : num) : res unit :=
  v ← number value false;
  match num_of v with
  | Some n =>
    raise_if (negb (num_within minimum maximum n)) (ValueError "Invalid contract number")
  | None => Err (ValueError "Invalid contract number")
  end.

Definition is_text (v : json) (s : string) : bool := json_eqb v (JStr s).

(** [mbti_model_contract] of two decoded values *)
Definition contract_of (code version : json) : option MBTIModelContract :=
  match code, version with
  | JStr c, JStr v => mbti_model_contract (Some c) (Some v)
  | _, _ => None
  end.

(** [text.replace("Z", "+00:00")] *)
Fixpoint replace_z (s : string) : string :=
  match s with
  | EmptyString => ""
  | String c s => (if bool_decide (c = "Z"%char) then "+00:00" else String c "") ++ replace_z s
  end.
Definition aware (t : datetime) : bool := match dt_tz t with NoTz => false | _ => true end.
(** [datetime.fromisoformat(text.replace("Z", "+00:00")).tzinfo is None] *)
Definition naive_time (v : json) : res bool :=
  match v with
  | JStr s => t ← fromisoformat (replace_z s); Ok (negb (aware t))
  | _ => Err AttributeError
  end.

(** [[IE][SN][FT][JP]] *)
Definition type_code_re (s : string) : bool :=
  match String.list_ascii_of_string s with
  | [a; b; c; d] =>
    one_of ["I"; "E"]%char a && one_of ["S"; "N"]%char b && one_of ["F"; "T"]%char c
    && one_of ["J"; "P"]%char d
  | _ => false
  end.

(** ** The axes of a snapshot *)

Definition pole_keys : list string :=
  ["schema_version"; "left_pole"; "right_pole"; "preference"; "strength"; "min_score"; "max_score";
   "threshold"; "composition_order"].

(** [p["preference"]] once it equals one of the axis's poles *)
Definition text_of (v : json) : string := match v with JStr s => s | _ => "" end.

(** [(d["code"], p["left_pole"], p["right_pole"]) != axis] *)
Definition axis_is (code left right : json) (axis : string * string * string) : bool :=
  is_text code axis.1.1 && is_text left axis.1.2 && is_text right axis.2.

(** [_pole_preference]: the axis's position and the preferred pole. *)
Definition pole_preference (d score : json) (contract : MBTIModelContract) : res (Z * string) :=
  p ← json_item d "pole_facts"; p ← fields p pole_keys;
  order ← json_item p "composition_order";
  match order with
  | JInt order =>
    raise_if (negb ((1 <=? order) && (order <=? 4))) (ValueError "Invalid axis order") ;;
    match bounds contract !! Z.to_nat (order - 1), axes contract !! Z.to_nat (order - 1) with
    | Some (minimum, maximum, threshold), Some axis =>
      bounded score (NInt minimum) (NInt maximum) ;;
      raise_ifM
        ((kind ← json_item d "kind"; Ok (negb (is_text kind "pole"))) <orM>
         (v ← json_item p "schema_version"; Ok (negb (is_text v "mbti-pole-facts/v1"))) <orM>
         (code ← json_item d "code"; left ← json_item p "left_pole";
          right ← json_item p "right_pole"; Ok (negb (axis_is code left right axis))) <orM>
         (pref ← json_item p "preference"; left ← json_item p "left_pole";
          right ← json_item p "right_pole"; Ok (negb (json_eqb pref left || json_eqb pref right))))%py
        (ValueError "Invalid axis identity") ;;
      v ← json_item p "min_score"; bounded v (NInt minimum) (NInt minimum) ;;
      v ← json_item p "max_score"; bounded v (NInt maximum) (NInt maximum) ;;
      v ← json_item p "threshold"; bounded v threshold threshold ;;
      v ← json_item p "strength"; bounded v (NInt 0) (NInt 100) ;;
      pref ← json_item p "preference";
      Ok (order, text_of pref)
    | _, _ => Err IndexError
    end
  | _ => Err (ValueError "Invalid axis order")
  end.

(** [dict] with integer keys, in the order they were added *)
Definition prefs : Type := list (Z * string).
Definition pref_at (l : prefs) (i : Z) : option string :=
  snd <$> List.find (λ kv, i =? kv.1) l.

(** [if order in preferences: raise error]; [preferences[order] = preference] *)
Definition add_preference (error : exn) (l : prefs) (op : Z * string) : res prefs :=
  raise_if (existsb (λ kv, op.1 =? kv.1) l) error ;; Ok (l ++ [op])%list.

(** ["".join(preferences[i] for i in range(1, 5))] *)
Definition joined (l : prefs) : res string :=
  letters ← mapM (λ i, match pref_at l i with Some s => Ok s | None => Err (KeyError (decimal i)) end)
              [1; 2; 3; 4];
  Ok (foldr String.append "" letters).

Definition dimension_keys : list string :=
  ["code"; "kind"; "name"; "raw_score"; "pole_facts"; "description"; "suggestion"].

(** One dimension of a snapshot. *)
Definition check_dimension (contract : MBTIModelContract) (l : prefs) (d : json) : res prefs :=
  d ← fields d dimension_keys;
  name ← json_item d "name"; _ ← plain name 2000 true;
  foldM (λ _ key, v ← json_item d key; _ ← plain v 4000 false; Ok tt) tt
    ["description"; "suggestion"] ;;
  score ← json_item d "raw_score";
  op ← pole_preference d score contract;
  add_preference (ValueError "Duplicate MBTI axis") l op.

(** One suggestion of a snapshot; [indices] are the source indices met so far. *)
Definition check_suggestion (indices : list Z) (s : json) : res (list Z) :=
  s ← fields s ["source_index"; "category"; "content"; "dimension_code"];
  index ← json_item s "source_index";
  match index with
  | JInt index =>
    raise_if ((index <? 0) || (index is_in indices)%py) (ValueError "Invalid suggestion index") ;;
    v ← json_item s "category"; _ ← plain v 2000 true;
    v ← json_item s "content"; _ ← plain v 2000 true;
    code ← json_item s "dimension_code";
    raise_if (negb (existsb (json_eqb code) (JNull :: (JStr <$> MBTI_AXES.*1.*1))))
      (ValueError "Invalid suggestion dimension") ;;
    Ok (index :: indices)
  | _ => Err (ValueError "Invalid suggestion index")
  end.

(** ** The snapshot *)

Definition snapshot_keys : list string :=
  ["schema_version"; "source"; "model"; "runtime"; "conclusion"; "dimensions"; "suggestions";
   "model_extra"].
Definition result_keys : list string :=
  ["kind"; "type_code"; "type_name"; "one_liner"; "match_percent"; "commentary"].

Definition check_mbti_source (value : json) : res unit :=
  source ← fields value source_keys;
  foldM (λ _ key,
    v ← json_item source key;
    raise_if (negb (match v with
                    | JStr s => identity_re s && (int_of_digits s <? 2 ^ 64)
                    | _ => false
                    end)) (ValueError "Invalid source identity")) tt ["report_id"; "outcome_id"] ;;
  check_texts source 255 source_texts ;;
  raise_ifM ((t ← json_item source "report_type"; Ok (negb (is_text t "standard"))) <orM>
             (t ← json_item source "generated_at"; naive_time t))%py
    (ValueError "Invalid report source").

Definition check_mbti_model (value : json) : res MBTIModelContract :=
  model ← fields value model_keys;
  code ← json_item model "code"; version ← json_item model "version";
  kind ← json_item model "kind"; algorithm ← json_item model "algorithm";
  match contract_of code version with
  | Some contract =>
    raise_if (negb (is_text kind "typology" && is_text algorithm "personality_typology"))
      (ValueError "Invalid MBTI model") ;;
    title ← json_item model "title"; _ ← plain title 2000 true;
    Ok contract
  | None => Err (ValueError "Invalid MBTI model")
  end.

Definition check_mbti_result (value : json) : res json :=
  result ← fields value result_keys;
  kind ← json_item result "kind"; type_code ← json_item result "type_code";
  raise_if (negb (is_text kind "personality_type")
            || negb (match type_code with JStr s => type_code_re s | _ => false end))
    (ValueError "Invalid type") ;;
  name ← json_item result "type_name"; _ ← plain name 2000 true;
  foldM (λ _ key, v ← json_item result key; _ ← plain v 4000 false; Ok tt) tt
    ["one_liner"; "commentary"] ;;
  percent ← json_item result "match_percent"; bounded percent (NInt 0) (NInt 100) ;;
  Ok type_code.

(** [_validate_snapshot] *)
Definition validate_snapshot (value : json) : res json :=
  s ← fields value snapshot_keys;
  version ← json_item s "schema_version";
  raise_if (negb (is_text version "qs-report-snapshot/v2"))
    (ValueError "Unsupported MBTI snapshot") ;;
  source ← json_item s "source"; check_mbti_source source ;;
  model ← json_item s "model"; contract ← check_mbti_model model;
  runtime ← json_item s "runtime"; runtime ← fields runtime ["decision_kind"];
  decision ← json_item runtime "decision_kind";
  raise_if (negb (is_text decision "pole_composition")) (ValueError "Invalid decision") ;;
  conclusion ← json_item s "conclusion"; _ ← plain conclusion 4000 false;
  extra ← json_item s "model_extra"; type_code ← check_mbti_result extra;
  dimensions ← json_item s "dimensions";
  match dimensions with
  | JList dimensions =>
    raise_if (negb (bool_decide (length dimensions = 4%nat))) (ValueError "Incomplete MBTI axes") ;;
    preferences ← foldM (check_dimension contract) [] dimensions;
    t ← joined preferences;
    raise_if (negb (is_text type_code t)) (ValueError "Type and preferences conflict") ;;
    listed ← json_item s "suggestions";
    match listed with
    | JList listed =>
      raise_if (50 <? len listed) (ValueError "Invalid suggestions") ;;
      _ ← foldM check_suggestion [] listed;
      Ok s
    | _ => Err (ValueError "Invalid suggestions")
    end
  | _ => Err (ValueError "Incomplete MBTI axes")
  end.

(** [decode_mbti_snapshot] *)
Definition decode_mbti_snapshot (value : json) : res json :=
  match validate_snapshot value with
  | Ok s => Ok s
  | Err e =>
    if is_value_error e
       || (match e with TypeError | KeyError _ | IndexError | AttributeError => true | _ => false end)
    then Err (InvalidInput "Invalid MBTI report snapshot") else Err e
  end.

(** ** The projection *)

(** A key a sort reads. *)
Definition int_at (v : json) (path : list string) : res Z :=
  v ← foldM json_item v path; match v with JInt z => Ok z | _ => Err TypeError end.
Definition by_key {A} (a b : Z * A) : bool := a.1 <=? b.1.
(** [l.sort(key=...)] *)
Definition sort_on (path : list string) (l : list json) : res (list json) :=
  keyed ← mapM (λ v, k ← int_at v path; Ok (k, v)) l;
  Ok (sort_by by_key keyed).*2.

(** One dimension of the facts; [refs] names its code. *)
Definition project_axis (refs : list (string * string)) (filed : list (string * list string))
    (d : json) : res json :=
  code ← text_field d "code";
  kind ← json_item d "kind"; name ← json_item d "name"; score ← json_item d "raw_score";
  poles ← json_item d "pole_facts"; max ← json_item poles "max_score";
  description ← json_item d "description";
  Ok (JObj [("ref", JStr (default "" (assoc code refs))); ("code", JStr code); ("kind", kind);
            ("name", name); ("parent_ref", JNull);
            ("raw_score", JObj [("kind", JStr "raw_score"); ("value", score); ("label", JStr "");
                                ("max", max)]);
            ("pole_facts", poles);
            ("strength_semantics", JStr "preference_strength_not_confidence");
            ("standard_description", description);
            ("standard_suggestion_refs",
              JList (JStr <$> default [] (assoc code filed)))]).

Definition check_mbti_policy (policy : InputPolicy) (scene : string) (code version : json)
    : res unit :=
  raise_if (scene != MBTI_CONTRACT
            || is_none (mbti_model_contract (model_code policy) (model_version policy))
            || negb (json_eqb code (optional_text (model_code policy))
                     && json_eqb version (optional_text (model_version policy)))
            || negb ((min_dimensions policy =? 4) && (max_dimensions policy =? 4))
            || negb (bool_decide (eligible_codes policy = MBTI_AXES.*1.*1))
            || negb (bool_decide (excluded_codes policy = []))
            || include_norm_context policy || negb (include_model_result policy)
            || negb (has_text (profile_id policy)) || negb (has_text (profile_version policy))
            || negb (sha_re (profile_fingerprint policy)))%py
    (InvalidInput "Invalid MBTI input policy").

Definition check_mbti_request (policy : InputPolicy) (locale : string) (focus : list string)
    : res unit :=
  raise_if ((35 <? str_len locale) || negb (locale_re locale)) (InvalidInput "Invalid locale") ;;
  raise_if ((3 <? len focus) || negb (check_focus policy focus))
    (InvalidInput "Invalid or disallowed focus areas").

(** The facts of a validated snapshot. *)
Definition mbti_facts (snapshot : json) : res json :=
  listed ← json_item snapshot "dimensions"; listed ← iterate listed;
  codes ← mapM (λ d, text_field d "code") listed;
  let refs := (λ c, (c, "dimension:" ++ c)) <$> codes in
  dimensions ← sort_on ["pole_facts"; "composition_order"] listed;
  own ← json_item snapshot "suggestions"; own ← iterate own;
  own ← sort_on ["source_index"] own;
  let normalized := match snapshot with
                    | JObj l => JObj (assoc_set "suggestions" (JList own)
                                        (assoc_set "dimensions" (JList dimensions) l))
                    | v => v
                    end in
  '(suggested, filed) ← suggestions refs normalized;
  projected ← mapM (project_axis refs filed) dimensions;
  runtime ← json_item snapshot "runtime"; model ← json_item snapshot "model";
  conclusion ← json_item snapshot "conclusion"; extra ← json_item snapshot "model_extra";
  Ok (JObj [("runtime", runtime); ("model", model);
            ("overall_result", JObj [("standard_conclusion", conclusion)]);
            ("dimensions", JList projected);
            ("standard_suggestions", JList (suggestion_json <$> suggested));
            ("model_result", extra)]).

(** [project_mbti] *)
Definition project_mbti (value : json) (policy : InputPolicy) (scene : string) (locale : string)
    (focus : list string) : res AssembledInput :=
  snapshot ← decode_mbti_snapshot value;
  model ← json_item snapshot "model";
  code ← json_item model "code"; version ← json_item model "version";
  check_mbti_policy policy scene code version ;;
  check_mbti_request policy locale focus ;;
  facts ← mbti_facts snapshot;
  source ← json_item snapshot "source";
  let context := context_json locale focus in
  canonical ← json_text
    (JObj [("schema_version", JStr "ai-explanation-input/v2");
           ("scene_contract_version", JStr scene); ("source", source);
           ("profile", profile_json policy); ("context", context); ("facts", facts)]);
  payload ← json_text (JObj [("context", context); ("facts", facts)]);
  Ok (mk_assembled_input canonical (fingerprint_of canonical) payload).

(** [assemble_mbti] *)
Definition assemble_mbti (value : json) (policy : InputPolicy) (scene : string) (locale : string)
    (focus : list string) : res AssembledInput :=
  raise_if ((model_code policy, model_version policy) != (Some MBTI_MODEL, Some MBTI_VERSION))%py
    (InvalidInput "Legacy MBTI input requires the basic model") ;;
  project_mbti value policy scene locale focus.

(** ** The validation of a projected payload *)

(** [{... for ... in ...}]: hashable values without repetitions *)
Definition set_add (l : list json) (v : json) : res (list json) :=
  raise_if (negb (hashable v)) TypeError ;;
  Ok (if existsb (json_eqb v) l then l else (l ++ [v])%list).
Definition set_of (l : list json) : res (list json) := foldM set_add [] l.
(** [v in s] *)
Definition in_set (v : json) (s : list json) : res bool :=
  raise_if (negb (hashable v)) TypeError ;; Ok (existsb (json_eqb v) s).

(** [any(ref not in allowed for x in items for ref in x[key])] *)
Definition any_dangling (items : list json) (key : string) (allowed : list json) : res bool :=
  anyM (λ x, refs ← json_item x key; refs ← iterate refs;
             anyM (λ ref, negM (in_set ref allowed)) refs) items.

(** [preferences] and [references] *)
Definition check_axis (contract : MBTIModelContract) (acc : prefs * list json) (d : json)
    : res (prefs * list json) :=
  let '(preferences, references) := acc in
  raw ← json_item d "raw_score"; score ← json_item raw "value";
  op ← pole_preference d score contract;
  (if bool_decide (thematic_input_version contract = "ai-explanation-input/v4") then
     max ← json_item raw "max";
     match bounds contract !! Z.to_nat (op.1 - 1) with
     | Some (_, maximum, _) => bounded max (NInt maximum) (NInt maximum)
     | None => Err IndexError
     end
   else Ok tt) ;;
  let error := InvalidInput "Invalid MBTI evaluation axes" in
  preferences ← add_preference error preferences op;
  ref ← json_item d "ref"; code ← text_field d "code";
  raise_if (negb (is_text ref ("dimension:" ++ code))) error ;;
  Ok (preferences, (references ++ [ref])%list).

(** [validate_mbti_projection] *)
Definition validate_mbti_projection (payload : json) : res unit :=
  facts ← json_item payload "facts";
  model ← json_item facts "model";
  code ← json_item model "code"; version ← json_item model "version";
  match contract_of code version with
  | Some contract =>
    raise_ifM
      ((kind ← json_item model "kind"; algorithm ← json_item model "algorithm";
        Ok (negb (is_text kind "typology" && is_text algorithm "personality_typology"))) <orM>
       (runtime ← json_item facts "runtime"; d ← json_item runtime "decision_kind";
        Ok (negb (is_text d "pole_composition"))))%py
      (InvalidInput "Invalid MBTI evaluation model") ;;
    dimensions ← json_item facts "dimensions"; dimensions ← iterate dimensions;
    '(preferences, references) ← foldM (check_axis contract) ([], []) dimensions;
    raise_ifM
      (Ok (negb (bool_decide (length preferences = 4%nat))) <orM>
       (t ← joined preferences;
        result ← json_item facts "model_result"; type_code ← json_item result "type_code";
        Ok (negb (is_text type_code t))))%py
      (InvalidInput "MBTI evaluation type conflicts with axes") ;;
    listed ← json_item facts "standard_suggestions"; listed ← iterate listed;
    refs ← mapM (λ s, json_item s "ref") listed;
    suggestions ← set_of refs;
    raise_ifM
      (Ok (negb (bool_decide (length suggestions = length listed))) <orM>
       any_dangling dimensions "standard_suggestion_refs" suggestions <orM>
       any_dangling listed "dimension_refs" references)%py
      (InvalidInput "Invalid MBTI evaluation suggestion references")
  | None => Err (InvalidInput "Invalid MBTI evaluation model")
  end.

(** ** The thematic scene *)

(** [material.select(v)]: a value that is no text is refused. *)
Definition select_value (material : MBTIReferenceMaterial) (v : json)
    : res SelectedMBTIReferences :=
  match v with
  | JStr s => select material s
  | _ => Err (InvalidMBTIReferences "Invalid MBTI type for reference selection")
  end.

Definition type_code_of (document : json) : res json :=
  foldM json_item document ["facts"; "model_result"; "type_code"].

(** [document.update(...)] *)
Definition update (document : json) (l : list (string * json)) : res json :=
  match document with
  | JObj d => Ok (JObj (foldl (λ d kv, assoc_set kv.1 kv.2 d) d l))
  | _ => Err AttributeError
  end.

(** [assemble_mbti_themes] *)
Definition assemble_mbti_themes (snapshot : json) (policy : InputPolicy) (scene : string)
    (material : MBTIReferenceMaterial) (locale : string) (focus : list string)
    : res AssembledInput :=
  match mbti_model_contract (model_code policy) (model_version policy) with
  | Some contract =>
    raise_if (scene != MBTI_THEMATIC_CONTRACT)%py
      (InvalidInput "Unsupported MBTI thematic contract") ;;
    baseline ← project_mbti snapshot policy MBTI_CONTRACT locale focus;
    document ← loads (canonical_json baseline);
    raise_if (negb (bool_decide ((Some (mat_model_code material), Some (mat_model_version material))
                                 = (model_code policy, model_version policy))))
      (InvalidInput "MBTI references differ from report model") ;;
    type_code ← type_code_of document;
    selected ← select_value material type_code;
    reference ← projection selected;
    document ← update document
      [("schema_version", JStr (thematic_input_version contract));
       ("scene_contract_version", JStr MBTI_THEMATIC_CONTRACT);
       ("reference_material", reference)];
    canonical ← json_text document;
    parts ← pick document ["context"; "facts"; "reference_material"];
    payload ← json_text (JObj parts);
    Ok (mk_assembled_input canonical (fingerprint_of canonical) payload)
  | None => Err (InvalidInput "Unsupported MBTI thematic contract")
  end.

(** [validate_mbti_themes_projection]: an [AttributeError] would escape, as in the source. *)
Definition themes_projection (payload : json) (policy : InputPolicy)
    (material : MBTIReferenceMaterial) : res unit :=
  names ← iterate payload;
  match all_strings names with
  | Some names =>
    raise_if (negb (same_keys names ["context"; "facts"; "reference_material"]))
      (ValueError "") ;;
    code ← foldM json_item payload ["facts"; "model"; "code"];
    version ← foldM json_item payload ["facts"; "model"; "version"];
    raise_if (negb (json_eqb code (optional_text (model_code policy))
                    && json_eqb version (optional_text (model_version policy)))) (ValueError "") ;;
    parts ← pick payload ["context"; "facts"];
    validate_mbti_projection (JObj parts) ;;
    type_code ← type_code_of payload;
    expected ← select_value material type_code;
    expected ← projection expected;
    reference ← json_item payload "reference_material";
    raise_if (negb (json_eqb reference expected)) (ValueError "")
  | None => Err (ValueError "")
  end.
Definition validate_mbti_themes_projection (payload : json) (policy : InputPolicy)
    (material : MBTIReferenceMaterial) : res unit :=
  match themes_projection payload policy material with
  | Ok u => Ok u
  | Err e =>
    if is_value_error e || (match e with TypeError | KeyError _ => true | _ => false end)
    then Err (InvalidInput "Frozen MBTI reference projection mismatch") else Err e
  end.
