(* ===== verification/Failure.v ===== *)
(** * Failure: the failure taxonomy and the frozen execution policy

    Models [src/src/qs_ai/domain/evaluation/failure.py] and
    [src/src/qs_ai/domain/evaluation/policy.py]: the classification of a failed execution, the
    constraints its constructor enforces, and the projections of the frozen policy that decide
    whether a failure may be recovered automatically and whether a budget has room. *)
From S2P Require Import Prelude PyText.
From Stdlib Require Import Ascii.

Local Open Scope string_scope.
Local Open Scope Z_scope.
Local Open Scope py_scope.

(** ** failure.py *)

Definition STAGES : list string :=
  ["generation_execution"; "output_validation"; "deterministic_validation";
   "semantic_evaluation"; "human_review"; "run_governance"].

Definition KINDS : list string :=
  ["infrastructure_execution"; "result_unknown"; "provider_protocol";
   "output_contract_conformance"; "semantic_execution"; "quality_failure"].

Definition DISPOSITIONS : list string :=
  ["retry_generation"; "replace_generation"; "retry_semantic"; "manual_acknowledgement";
   "retain_candidate"; "reject_release"; "cancel_run"; "no_action"].

(** [[A-Za-z0-9_.:-]{1,256}] *)
Definition diagnostic_re (s : string) : bool :=
  let cls c := alnum c || one_of ["_"; "."; ":"; "-"]%char c in
  head_tail cls cls 255 s.

Record ProviderDiagnostics : Type := mk_ProviderDiagnostics {
  pd_code : string;
  pd_request_id : string;
  pd_response_status : string;
  pd_response_shape : string;
}.
#[export] Instance ProviderDiagnostics_eq_dec : EqDecision ProviderDiagnostics.
Proof. solve_decision. Defined.

#[export] Instance ProviderDiagnostics_post_init : Validated ProviderDiagnostics := λ self,
  raise_if (negb (diagnostic_re (pd_code self))) (ValueError "Invalid provider diagnostic code") ;;
  foldM (λ _ value,
    raise_if (nonempty value && negb (diagnostic_re value))
      (ValueError "Invalid provider diagnostic metadata"))
    tt [pd_request_id self; pd_response_status self; pd_response_shape self].

Record ClassifiedFailure : Type := mk_ClassifiedFailure {
  cf_stage : string;
  cf_kind : string;
  cf_code : string;
  cf_retryable : bool;
  cf_result_unknown : bool;
  cf_disposition : string;
  cf_safe_message : string;
  cf_evidence_refs : list string;
  cf_provider_diagnostics : option ProviderDiagnostics;
  cf_schema_version : string;
}.
#[export] Instance ClassifiedFailure_eq_dec : EqDecision ClassifiedFailure.
Proof. solve_decision. Defined.

(** The loop over [evidence_refs]; [seen] holds the stripped references already accepted. *)
Definition check_evidence_ref (seen : list string) (value : string) : res (list string) :=
  let ref := strip value in
  raise_if (negb (nonempty ref)
            || (256 <? byte_len ref)
            || any_char ("009"%char :: "013"%char :: "010"%char :: " "%char :: angle_brackets) ref
            || ref is_in seen)
    (ValueError "Invalid or duplicated evidence reference") ;;
  Ok (ref :: seen).

#[export] Instance ClassifiedFailure_post_init : Validated ClassifiedFailure := λ self,
  raise_if (cf_schema_version self != "ai-explanation-failure-taxonomy/v1"
            || cf_stage self not_in STAGES
            || cf_kind self not_in KINDS
            || cf_disposition self not_in DISPOSITIONS
            || negb (code_re (cf_code self)))
    (ValueError "Invalid failure classification") ;;
  let message := strip (cf_safe_message self) in
  raise_if (negb (nonempty message) || (1000 <? byte_len message)
            || any_char angle_brackets message)
    (ValueError "Invalid safe failure message") ;;
  raise_if (negb ((1 <=? len (cf_evidence_refs self)) && (len (cf_evidence_refs self) <=? 16)))
    (ValueError "Invalid evidence references") ;;
  foldM check_evidence_ref [] (cf_evidence_refs self) ;;
  raise_if (negb (Bool.eqb (cf_result_unknown self) (cf_kind self == "result_unknown")))
    (ValueError "Inconsistent unknown result") ;;
  raise_if ((cf_kind self == "result_unknown")
            && (cf_retryable self || cf_disposition self != "manual_acknowledgement"))
    (ValueError "Unknown results require manual acknowledgement") ;;
  raise_if ((cf_kind self == "output_contract_conformance")
            && (cf_stage self != "output_validation"
                || cf_retryable self
                || cf_disposition self != "replace_generation"))
    (ValueError "Invalid output-contract disposition") ;;
  raise_if ((cf_kind self == "semantic_execution")
            && (cf_stage self != "semantic_evaluation"
                || cf_disposition self != "retry_semantic"))
    (ValueError "Invalid semantic-execution disposition") ;;
  raise_if ((cf_kind self == "quality_failure")
            && (cf_retryable self
                || cf_disposition self not_in ["retain_candidate"; "reject_release"]))
    (ValueError "Quality failures must retain candidate or reject release").

Definition candidate_exists (self : ClassifiedFailure) : bool :=
  cf_kind self is_in ["semantic_execution"; "quality_failure"].

Definition allows_generation_replacement (self : ClassifiedFailure) : bool :=
  cf_disposition self == "replace_generation".

Definition allows_semantic_retry (self : ClassifiedFailure) : bool :=
  cf_disposition self == "retry_semantic".

(** ** policy.py *)

Record ExecutionPolicy : Type := mk_ExecutionPolicy {
  policy_id : string;
  policy_version : string;
  policy_fingerprint : string;
  policy_definition_json : string;
  generation_cases : Z;
  candidates_per_case : Z;
  preflight_cases : Z;
  generation_per_slot : Z;
  generation_per_run : Z;
  semantic_per_candidate : Z;
  semantic_per_run : Z;
  automatic_selectors : gset (string * string);
  manual_selectors : gset (string * string);
  unknown_requires_acknowledgement : bool;
  quality_replacement_allowed : bool;
  semantic_failure_regenerates_candidate : bool;
}.

Definition selects_automatic_retry
    (self : ExecutionPolicy) (stage code : string) (retryable : bool) : bool :=
  retryable && (stage, code) is_in automatic_selectors self.

Definition within_budget
    (self : ExecutionPolicy) (stage : string) (target_executions run_executions : Z) : res bool :=
  raise_if (existsb (λ x, x <? 0) [target_executions; run_executions])
    (ValueError "Invalid execution counts") ;;
  raise_if (run_executions <? target_executions)
    (ValueError "Target count exceeds run count") ;;
  if stage == "generation_execution" then
    Ok ((target_executions <? generation_per_slot self)
        && (run_executions <? generation_per_run self))
  else if stage == "semantic_evaluation" then
    Ok ((target_executions <? semantic_per_candidate self)
        && (run_executions <? semantic_per_run self))
  else Err (ValueError "Unsupported evaluation execution stage").

Definition allows_automatic_generation_recovery
    (self : ExecutionPolicy) (failure : ClassifiedFailure) : bool :=
  allows_generation_replacement failure
  || ((cf_disposition failure == "retry_generation")
      && selects_automatic_retry self (cf_stage failure) (cf_code failure) (cf_retryable failure)).

Definition allows_automatic_semantic_recovery
    (self : ExecutionPolicy) (failure : ClassifiedFailure) : bool :=
  allows_semantic_retry failure
  && selects_automatic_retry self (cf_stage failure) (cf_code failure) (cf_retryable failure).

(** ** Properties *)

(** What a constructed failure guarantees about its classification. *)
Lemma constructed_failure_inv f :
  constructed f →
  cf_stage f ∈ STAGES ∧ cf_kind f ∈ KINDS ∧ cf_disposition f ∈ DISPOSITIONS ∧
  cf_result_unknown f = bool_decide (cf_kind f = "result_unknown") ∧
  (cf_kind f = "result_unknown" →
    cf_retryable f = false ∧ cf_disposition f = "manual_acknowledgement") ∧
  (cf_kind f = "output_contract_conformance" →
    cf_stage f = "output_validation" ∧ cf_retryable f = false ∧
    cf_disposition f = "replace_generation") ∧
  (cf_kind f = "semantic_execution" →
    cf_stage f = "semantic_evaluation" ∧ cf_disposition f = "retry_semantic") ∧
  (cf_kind f = "quality_failure" →
    cf_retryable f = false ∧
    (cf_disposition f = "retain_candidate" ∨ cf_disposition f = "reject_release")).
Proof.
  unfold constructed, post_init, ClassifiedFailure_post_init. intros H. py_inv.
  repeat match goal with
  | H : _ && _ = false |- _ => apply andb_false_iff in H
  | H : Bool.eqb _ _ = true |- _ => apply eqb_prop in H
  end.
  split_and!; [assumption..| | | |];
    intros Hk; rewrite Hk in *;
    repeat match goal with
    | H : bool_decide _ = false ∨ _ |- _ =>
      destruct H as [H|H]; [vm_compute in H; try discriminate H; clear H|]
    end; py_inv; split_and?; try assumption; by apply elem_of_two.
Qed.

(** No policy recovers a failure whose result is unknown: neither a new generation nor a new
    judgement is allowed without a separate manual decision. *)
Lemma unknown_failure_not_recovered policy f :
  constructed f → cf_result_unknown f = true →
  allows_automatic_generation_recovery policy f = false ∧
  allows_automatic_semantic_recovery policy f = false.
Proof.
  intros Hf Hu. destruct (constructed_failure_inv f Hf) as (_ & _ & _ & Hk & Hd & _).
  rewrite Hu in Hk. symmetry in Hk. apply bool_decide_eq_true in Hk.
  destruct (Hd Hk) as [_ Hdisp].
  unfold allows_automatic_generation_recovery, allows_automatic_semantic_recovery,
    allows_generation_replacement, allows_semantic_retry.
  rewrite Hdisp. done.
Qed.

(** The three recovery routes of a constructed failure exclude each other: a failure whose
    generation may be replaced never allows a semantic retry, and conversely. *)
Lemma recovery_routes_disjoint f :
  allows_generation_replacement f = true → allows_semantic_retry f = false.
Proof.
  unfold allows_generation_replacement, allows_semantic_retry.
  intros ->%bool_decide_eq_true. done.
Qed.
