(* ===== verification/Checkpoint.v ===== *)
(** * Checkpoint: one in-flight evaluation execution and its lease

    Models [src/src/qs_ai/domain/evaluation/checkpoint.py]: the checkpoint an execution holds
    while it is prepared and then dispatched, the transition to the dispatch phase and the test
    that lets an expired preparation be released. *)
From S2P Require Import Prelude PyText PyTime.

Local Open Scope string_scope.
Local Open Scope Z_scope.
Local Open Scope py_scope.

Record ExecutionCheckpoint : Type := mk_ExecutionCheckpoint {
  cp_execution_id : string;
  cp_kind : string;
  cp_case_id : string;
  cp_slot_ordinal : Z;
  cp_candidate_id : string;
  cp_execution_ordinal : Z;
  cp_owner : string;
  cp_invocation_id : string;
  cp_phase : string;
  cp_claimed_at : datetime;
  cp_lease_expires_at : datetime;
  cp_dispatch_started_at : option datetime;
}.
#[export] Instance ExecutionCheckpoint_eq_dec : EqDecision ExecutionCheckpoint.
Proof. solve_decision. Defined.

(** [dispatch_started_at] of a dispatching checkpoint: set, aware and inside the lease. *)
Definition dispatch_time_invalid (self : ExecutionCheckpoint) : res bool :=
  match cp_dispatch_started_at self with
  | None => Ok true
  | Some started =>
    Ok (negb (aware started)) <orM>
    negM (dt_le (cp_claimed_at self) started <andM> dt_le started (cp_lease_expires_at self))
  end.

#[export] Instance ExecutionCheckpoint_post_init : Validated ExecutionCheckpoint := λ self,
  raise_if (negb (forallb valid_id [cp_execution_id self; cp_case_id self; cp_owner self;
                                    cp_invocation_id self]))
    (ValueError "Invalid checkpoint identity") ;;
  raise_if (negb ((1 <=? cp_slot_ordinal self) && (cp_slot_ordinal self <=? 5))
            || negb ((1 <=? cp_execution_ordinal self) && (cp_execution_ordinal self <=? 2)))
    (ValueError "Invalid checkpoint ordinal") ;;
  (if cp_kind self == "generation" then
     raise_if (nonempty (cp_candidate_id self))
       (ValueError "Generation checkpoint cannot reference a candidate")
   else
     raise_if (cp_kind self != "semantic" || negb (valid_id (cp_candidate_id self)))
       (ValueError "Semantic checkpoint requires a candidate")) ;;
  raise_ifM (Ok (negb (aware (cp_claimed_at self))) <orM>
             Ok (negb (aware (cp_lease_expires_at self))) <orM>
             dt_le (cp_lease_expires_at self) (cp_claimed_at self))
    (ValueError "Invalid checkpoint lease") ;;
  if cp_phase self == "prepared" then
    raise_if (is_some (cp_dispatch_started_at self))
      (ValueError "Prepared checkpoint cannot have dispatch time")
  else
    raise_ifM (Ok (cp_phase self != "dispatching") <orM> dispatch_time_invalid self)
      (ValueError "Invalid checkpoint dispatch time").

(** [replace(self, phase="dispatching", dispatch_started_at=at)], before validation. *)
Definition dispatched (self : ExecutionCheckpoint) (at_ : datetime) : ExecutionCheckpoint :=
  mk_ExecutionCheckpoint (cp_execution_id self) (cp_kind self) (cp_case_id self)
    (cp_slot_ordinal self) (cp_candidate_id self) (cp_execution_ordinal self) (cp_owner self)
    (cp_invocation_id self) "dispatching" (cp_claimed_at self) (cp_lease_expires_at self)
    (Some at_).

Definition mark_dispatching
    (self : ExecutionCheckpoint) (owner : string) (at_ : datetime) : res ExecutionCheckpoint :=
  raise_if (cp_phase self != "prepared" || strip owner != cp_owner self)
    (ValueError "Prepared execution with matching owner required") ;;
  construct (dispatched self at_).

Definition can_release_preparation
    (self : ExecutionCheckpoint) (invocation_id : string) (observed_expiry at_ : datetime)
    : res bool :=
  raise_if (negb (aware observed_expiry) || negb (aware at_))
    (ValueError "Recovery times must have time zones") ;;
  Ok (cp_phase self == "prepared") <andM>
  Ok (strip invocation_id == cp_invocation_id self) <andM>
  Ok (dt_eqb observed_expiry (cp_lease_expires_at self)) <andM>
  dt_ge at_ (cp_lease_expires_at self).

(** ** Properties *)

(** The window of a constructed checkpoint. *)
Lemma constructed_checkpoint_inv cp :
  constructed cp →
  aware (cp_claimed_at cp) = true ∧ aware (cp_lease_expires_at cp) = true ∧
  instant (cp_claimed_at cp) < instant (cp_lease_expires_at cp) ∧
  1 <= cp_slot_ordinal cp <= 5 ∧ 1 <= cp_execution_ordinal cp <= 2 ∧
  (cp_kind cp = "generation" ∧ cp_candidate_id cp = "" ∨
   cp_kind cp = "semantic" ∧ valid_id (cp_candidate_id cp) = true) ∧
  (cp_phase cp = "prepared" ∧ cp_dispatch_started_at cp = None ∨
   cp_phase cp = "dispatching" ∧
   ∃ t, cp_dispatch_started_at cp = Some t ∧ aware t = true ∧
     instant (cp_claimed_at cp) <= instant t <= instant (cp_lease_expires_at cp)).
Proof.
  unfold constructed, post_init, ExecutionCheckpoint_post_init. intros H. py_inv.
  unfold dispatch_time_invalid in *.
  repeat if_inv; py_inv; destruct (cp_dispatch_started_at cp) as [t|]; py_inv; try discriminate;
    split_and!; eauto 10.
Qed.

(** Re-validation succeeds exactly when the dispatch time lies inside the lease. *)
Lemma dispatched_constructed cp at_ :
  constructed cp →
  constructed (dispatched cp at_) ↔
    aware at_ = true ∧
    instant (cp_claimed_at cp) <= instant at_ <= instant (cp_lease_expires_at cp).
Proof.
  intros Hcp. pose proof (constructed_checkpoint_inv cp Hcp) as (Hc & Hl & Hlt & _).
  assert (Hsame : constructed (dispatched cp at_) ↔
            dispatch_time_invalid (dispatched cp at_) = Ok false).
  { unfold constructed, post_init, ExecutionCheckpoint_post_init in *. cbn -[orM] in *.
    rewrite !bind_Ok_unit, !raise_if_Ok, !raise_ifM_Ok in *.
    destruct Hcp as (? & ? & ? & ? & _).
    change (bool_decide ("dispatching" = "prepared")) with false. cbn iota.
    rewrite raise_ifM_Ok. unfold orM at 3. cbn [bool_decide mbind res_bind].
    split; [intros (_ & _ & _ & _ & Hd); exact Hd|intros Hd; split_and!; assumption]. }
  rewrite Hsame. unfold dispatch_time_invalid. cbn.
  rewrite orM_false, negM_Ok, andM_true, !dt_le_true, Ok_inj, negb_false_iff.
  naive_solver eauto using aware_comparable.
Qed.

(** C-checkpoint: the dispatch transition of a constructed checkpoint, on every branch. *)
Lemma mark_dispatching_Ok cp owner at_ cp' :
  constructed cp →
  mark_dispatching cp owner at_ = Ok cp' ↔
    cp_phase cp = "prepared" ∧ strip owner = cp_owner cp ∧
    aware at_ = true ∧
    instant (cp_claimed_at cp) <= instant at_ <= instant (cp_lease_expires_at cp) ∧
    cp' = dispatched cp at_.
Proof.
  intros Hcp. unfold mark_dispatching, construct.
  rewrite !bind_Ok_unit, raise_if_Ok, orb_false_iff, !negb_false_iff, !bool_decide_eq_true, Ok_inj.
  pose proof (dispatched_constructed cp at_ Hcp) as Hd. unfold constructed in Hd.
  rewrite Hd. naive_solver.
Qed.

(** A dispatched execution is never released as a preparation, and a preparation that may be
    released has outlived every dispatch time its checkpoint could have recorded. *)
Lemma dispatch_release_exclusive cp owner at_ cp' inv expiry t :
  constructed cp → mark_dispatching cp owner at_ = Ok cp' →
  can_release_preparation cp' inv expiry t ≠ Ok true ∧
  (can_release_preparation cp inv expiry t = Ok true →
     instant at_ <= instant (cp_lease_expires_at cp) <= instant t).
Proof.
  intros Hcp Hd. apply (mark_dispatching_Ok cp owner at_ cp' Hcp) in Hd
    as (_ & _ & Hat & Hwin & ->).
  unfold can_release_preparation. split.
  - intros H. py_inv. cbn in *. discriminate.
  - intros H. py_inv. lia.
Qed.
