(* ===== verification/Completion.v ===== *)
(** * Completion: the terminal evidence of one execution

    Models [src/src/qs_ai/domain/evaluation/completion.py],
    [src/src/qs_ai/domain/evaluation/semantic_completion.py] and
    [src/src/qs_ai/domain/interpretation/model_identity.py]: the receipt of a provider call, the
    completion of a generation and of a semantic judgement, and the test that binds a
    completion to the checkpoint that was dispatched.  [bytes] values are strings of bytes. *)
From S2P Require Import Prelude PyText PyTime PyHash PyJson Failure Checkpoint.

Local Open Scope string_scope.
Local Open Scope Z_scope.
Local Open Scope py_scope.

Record ModelExecutionIdentity : Type := mk_ModelExecutionIdentity {
  mi_provider : string;
  mi_requested_model : string;
  mi_protocol : string;
  mi_adapter_contract : string;
  mi_binding_id : string;
  mi_binding_revision : string;
  mi_route_fingerprint : string;
}.
#[export] Instance ModelExecutionIdentity_eq_dec : EqDecision ModelExecutionIdentity.
Proof. solve_decision. Defined.

Record ProviderReceipt : Type := mk_ProviderReceipt {
  pr_invocation_id : string;
  pr_request_id : string;
  pr_provider : string;
  pr_model : string;
  pr_input_tokens : option Z;
  pr_output_tokens : option Z;
  pr_latency_ns : Z;
  pr_execution_identity : option ModelExecutionIdentity;
}.
#[export] Instance ProviderReceipt_eq_dec : EqDecision ProviderReceipt.
Proof. solve_decision. Defined.

Definition max_int64 : Z := 2 ^ 63 - 1.
Definition json_opt_int (o : option Z) : json :=
  match o with Some z => JInt z | None => JNull end.

Definition identity_definition (self : ModelExecutionIdentity) : json :=
  JObj [("provider", JStr (mi_provider self));
        ("requested_model", JStr (mi_requested_model self));
        ("protocol", JStr (mi_protocol self));
        ("adapter_contract", JStr (mi_adapter_contract self));
        ("binding_id", JStr (mi_binding_id self));
        ("binding_revision", JStr (mi_binding_revision self));
        ("route_fingerprint", JStr (mi_route_fingerprint self))].

(** [ProviderReceipt.definition]: [asdict] without an absent execution identity. *)
Definition receipt_definition (self : ProviderReceipt) : json :=
  JObj ([("invocation_id", JStr (pr_invocation_id self));
         ("request_id", JStr (pr_request_id self));
         ("provider", JStr (pr_provider self));
         ("model", JStr (pr_model self));
         ("input_tokens", json_opt_int (pr_input_tokens self));
         ("output_tokens", json_opt_int (pr_output_tokens self));
         ("latency_ns", JInt (pr_latency_ns self))]
        ++ match pr_execution_identity self with
           | None => []
           | Some i => [("execution_identity", identity_definition i)]
           end).

Definition out_of_int64 (x : Z) : bool := negb ((0 <=? x) && (x <=? max_int64)).

#[export] Instance ProviderReceipt_post_init : Validated ProviderReceipt := λ self,
  raise_if (negb (valid_id (pr_invocation_id self)) || negb (valid_id (pr_request_id self)))
    (ValueError "Invalid provider receipt identity") ;;
  raise_if (negb (code_re (pr_provider self))
            || negb (nonempty (strip (pr_model self)))
            || (128 <? byte_len (pr_model self)))
    (ValueError "Invalid provider or model") ;;
  raise_if (existsb out_of_int64
              (omap id [pr_input_tokens self; pr_output_tokens self]))
    (ValueError "Invalid provider usage") ;;
  raise_if (out_of_int64 (pr_latency_ns self)) (ValueError "Invalid provider latency").

(** [json.loads(raw.decode("utf-8"), parse_constant=_reject_constant)] *)
Definition reject_constant_hooks (msg : string) : hooks :=
  mk_hooks (λ pairs, Ok (dict_of_pairs pairs)) (λ _, Err (ValueError msg)).
Definition loads_finite (msg : string) (raw : string) : res json :=
  text ← decode_utf8 raw; loads_with (reject_constant_hooks msg) text.

Definition output_bound : Z := 256 * 1024.

(** ** completion.py *)

Record GenerationCompletion : Type := mk_GenerationCompletion {
  gc_execution_id : string;
  gc_case_id : string;
  gc_slot_ordinal : Z;
  gc_execution_ordinal : Z;
  gc_invocation_id : string;
  gc_status : string;
  gc_started_at : datetime;
  gc_finished_at : datetime;
  gc_provider_call_count : Z;
  gc_receipt : option ProviderReceipt;
  gc_raw_output : string;
  gc_normalized_output : string;
  gc_normalized_fingerprint : string;
  gc_failure : option ClassifiedFailure;
}.

(** [self.receipt is not None and (...)] *)
Definition receipt_mismatch
    (receipt : option ProviderReceipt) (calls : Z) (invocation_id : string) : bool :=
  match receipt with
  | Some r => calls != 1 || pr_invocation_id r != invocation_id
  | None => false
  end.

Definition execution_times_invalid (started finished : datetime) : res bool :=
  Ok (existsb (λ t, tz_none t || is_none (utcoffset t)) [started; finished])
  <orM> dt_lt finished started.

#[export] Instance GenerationCompletion_post_init : Validated GenerationCompletion := λ self,
  raise_if (negb (forallb valid_id [gc_execution_id self; gc_case_id self;
                                    gc_invocation_id self]))
    (ValueError "Invalid execution identity") ;;
  raise_if (negb ((1 <=? gc_slot_ordinal self) && (gc_slot_ordinal self <=? 5))
            || negb ((1 <=? gc_execution_ordinal self) && (gc_execution_ordinal self <=? 2)))
    (ValueError "Invalid execution ordinal") ;;
  raise_ifM (execution_times_invalid (gc_started_at self) (gc_finished_at self))
    (ValueError "Invalid execution times") ;;
  raise_if (gc_provider_call_count self not_in [0; 1])
    (ValueError "Invalid provider call count") ;;
  raise_if (existsb (λ raw, output_bound <? byte_len raw)
              [gc_raw_output self; gc_normalized_output self])
    (ValueError "Output evidence exceeds bound or is not bytes") ;;
  (if nonempty (gc_normalized_output self) then
     loads_finite "Non-JSON numeric constant" (gc_normalized_output self) ;;
     raise_if (gc_normalized_fingerprint self != fingerprint_of (gc_normalized_output self))
       (ValueError "Normalized output fingerprint mismatch")
   else
     raise_if (nonempty (gc_normalized_fingerprint self))
       (ValueError "Fingerprint requires normalized output")) ;;
  raise_if (receipt_mismatch (gc_receipt self) (gc_provider_call_count self)
              (gc_invocation_id self))
    (ValueError "Receipt does not match execution") ;;
  if gc_status self == "succeeded" then
    raise_if (is_none (gc_receipt self)
              || negb (nonempty (gc_raw_output self))
              || negb (nonempty (gc_normalized_output self))
              || is_some (gc_failure self))
      (ValueError "Successful execution evidence incomplete")
  else if gc_status self is_in ["failed"; "result_unknown"] then
    raise_if match gc_failure self with
             | None => true
             | Some failure =>
               candidate_exists failure
               || negb (Bool.eqb (cf_result_unknown failure) (gc_status self == "result_unknown"))
             end
      (ValueError "Terminal failure classification mismatch")
  else Err (ValueError "Terminal status required").

Definition generation_matches_checkpoint
    (self : GenerationCompletion) (checkpoint : ExecutionCheckpoint) (owner : string)
    : res bool :=
  Ok ((cp_phase checkpoint == "dispatching")
      && (cp_kind checkpoint == "generation")
      && (cp_owner checkpoint == strip owner)
      && ((gc_execution_id self, gc_invocation_id self, gc_case_id self, gc_slot_ordinal self,
           gc_execution_ordinal self)
          == (cp_execution_id checkpoint, cp_invocation_id checkpoint, cp_case_id checkpoint,
              cp_slot_ordinal checkpoint, cp_execution_ordinal checkpoint)))
  <andM> match cp_dispatch_started_at checkpoint with
         | None => Ok false
         | Some dispatch => dt_ge (gc_started_at self) dispatch
         end.

(** ** semantic_completion.py *)

Record SemanticCompletion : Type := mk_SemanticCompletion {
  sc_execution_id : string;
  sc_candidate_id : string;
  sc_candidate_output_fingerprint : string;
  sc_execution_ordinal : Z;
  sc_invocation_id : string;
  sc_status : string;
  sc_started_at : datetime;
  sc_finished_at : datetime;
  sc_provider_call_count : Z;
  sc_receipt : option ProviderReceipt;
  sc_raw_output : string;
  sc_normalized_output : string;
  sc_failure : option ClassifiedFailure;
}.

(** [try: m except (UnicodeError, ValueError): raise e from None] *)
Definition except_value_error {A} (m : res A) (e : exn) : res A :=
  match m with
  | Ok a => Ok a
  | Err e' => Err (if is_value_error e' then e else e')
  end.

#[export] Instance SemanticCompletion_post_init : Validated SemanticCompletion := λ self,
  raise_if (negb (forallb valid_id [sc_execution_id self; sc_candidate_id self;
                                    sc_invocation_id self]))
    (ValueError "Invalid semantic execution identity") ;;
  raise_if (negb (sha_re (sc_candidate_output_fingerprint self)))
    (ValueError "Semantic execution requires candidate output fingerprint") ;;
  raise_if (negb ((1 <=? sc_execution_ordinal self) && (sc_execution_ordinal self <=? 2)))
    (ValueError "Invalid semantic execution ordinal") ;;
  raise_ifM (execution_times_invalid (sc_started_at self) (sc_finished_at self))
    (ValueError "Invalid semantic execution times") ;;
  raise_if (sc_provider_call_count self not_in [0; 1])
    (ValueError "Invalid semantic provider call count") ;;
  raise_if (existsb (λ raw, output_bound <? byte_len raw)
              [sc_raw_output self; sc_normalized_output self])
    (ValueError "Semantic output exceeds bound or is not bytes") ;;
  raise_if (receipt_mismatch (sc_receipt self) (sc_provider_call_count self)
              (sc_invocation_id self))
    (ValueError "Semantic receipt does not match invocation") ;;
  if sc_status self == "succeeded" then
    raise_if (is_none (sc_receipt self)
              || negb (nonempty (sc_raw_output self))
              || negb (nonempty (sc_normalized_output self))
              || is_some (sc_failure self))
      (ValueError "Successful semantic evidence incomplete") ;;
    except_value_error (loads_finite "Invalid semantic JSON" (sc_normalized_output self))
      (ValueError "Invalid semantic JSON") ;;
    Ok tt
  else if sc_status self is_in ["failed"; "result_unknown"] then
    raise_if match sc_failure self with
             | None => true
             | Some failure =>
               negb (Bool.eqb (cf_result_unknown failure) (sc_status self == "result_unknown"))
               || (cf_kind failure not_in ["result_unknown"; "semantic_execution";
                                           "infrastructure_execution"; "provider_protocol"])
             end
      (ValueError "Invalid semantic failure classification")
  else Err (ValueError "Terminal semantic status required").

Definition output_fingerprint (self : SemanticCompletion) : string :=
  fingerprint_of (sc_normalized_output self).

Definition semantic_matches_checkpoint
    (self : SemanticCompletion) (checkpoint : ExecutionCheckpoint)
    (owner candidate_fingerprint : string) : res bool :=
  Ok ((cp_kind checkpoint == "semantic")
      && (cp_phase checkpoint == "dispatching")
      && (cp_owner checkpoint == strip owner)
      && ((sc_execution_id self, sc_candidate_id self, sc_execution_ordinal self,
           sc_invocation_id self)
          == (cp_execution_id checkpoint, cp_candidate_id checkpoint,
              cp_execution_ordinal checkpoint, cp_invocation_id checkpoint))
      && (sc_candidate_output_fingerprint self == candidate_fingerprint))
  <andM> match cp_dispatch_started_at checkpoint with
         | None => Ok false
         | Some dispatch => dt_ge (sc_started_at self) dispatch
         end.

(** ** Properties *)

Lemma execution_times_valid started finished :
  execution_times_invalid started finished = Ok false →
  aware started = true ∧ aware finished = true ∧ instant started <= instant finished.
Proof.
  unfold execution_times_invalid. intros [Ha Hle%dt_lt_false]%orM_false.
  injection Ha as Ha. cbn in Ha. rewrite orb_false_r in Ha.
  apply orb_false_iff in Ha as [Hs Hf].
  unfold aware, is_some. rewrite <- !negb_orb, Hs, Hf. naive_solver.
Qed.

(** A completion that matches a checkpoint started no earlier than its dispatch, under the
    owner, ordinal and invocation that the checkpoint recorded; the converse holds too. *)
Lemma generation_matches_iff self cp owner :
  generation_matches_checkpoint self cp owner = Ok true ↔
    cp_phase cp = "dispatching" ∧ cp_kind cp = "generation" ∧ cp_owner cp = strip owner ∧
    gc_execution_id self = cp_execution_id cp ∧ gc_invocation_id self = cp_invocation_id cp ∧
    gc_case_id self = cp_case_id cp ∧ gc_slot_ordinal self = cp_slot_ordinal cp ∧
    gc_execution_ordinal self = cp_execution_ordinal cp ∧
    ∃ t, cp_dispatch_started_at cp = Some t ∧ comparable t (gc_started_at self) = true ∧
         instant t <= instant (gc_started_at self).
Proof.
  unfold generation_matches_checkpoint, dt_ge. rewrite andM_true, Ok_inj.
  rewrite !andb_true_iff, !bool_decide_eq_true, !pair_equal_spec.
  destruct (cp_dispatch_started_at cp) as [t|]; [rewrite dt_le_true|]; naive_solver.
Qed.

Lemma semantic_matches_iff self cp owner fp :
  semantic_matches_checkpoint self cp owner fp = Ok true ↔
    cp_phase cp = "dispatching" ∧ cp_kind cp = "semantic" ∧ cp_owner cp = strip owner ∧
    sc_execution_id self = cp_execution_id cp ∧ sc_invocation_id self = cp_invocation_id cp ∧
    sc_candidate_id self = cp_candidate_id cp ∧
    sc_execution_ordinal self = cp_execution_ordinal cp ∧
    sc_candidate_output_fingerprint self = fp ∧
    ∃ t, cp_dispatch_started_at cp = Some t ∧ comparable t (sc_started_at self) = true ∧
         instant t <= instant (sc_started_at self).
Proof.
  unfold semantic_matches_checkpoint, dt_ge. rewrite andM_true, Ok_inj.
  rewrite !andb_true_iff, !bool_decide_eq_true, !pair_equal_spec.
  destruct (cp_dispatch_started_at cp) as [t|]; [rewrite dt_le_true|]; naive_solver.
Qed.

(** What the constructor guarantees of a completion, by status. *)
Lemma constructed_generation_inv g :
  constructed g →
  (gc_status g = "succeeded" ∨ gc_status g = "failed" ∨ gc_status g = "result_unknown") ∧
  (gc_status g = "succeeded" →
     gc_provider_call_count g = 1 ∧ gc_failure g = None ∧
     (∃ r, gc_receipt g = Some r ∧ pr_invocation_id r = gc_invocation_id g) ∧
     gc_normalized_fingerprint g = fingerprint_of (gc_normalized_output g) ∧
     ∃ v, loads_finite "Non-JSON numeric constant" (gc_normalized_output g) = Ok v) ∧
  (gc_status g ≠ "succeeded" →
     ∃ f, gc_failure g = Some f ∧ candidate_exists f = false ∧
          cf_result_unknown f = bool_decide (gc_status g = "result_unknown")).
Proof.
  unfold constructed, post_init, GenerationCompletion_post_init. intros H.
  ok_inv. destruct (bool_decide_reflect (gc_status g = "succeeded")) as [Hs|Hs].
  - py_inv. rename select (gc_receipt g = Some _) into Hr.
    rename select (receipt_mismatch _ _ _ = _) into Hm. rewrite Hr in Hm. cbn in Hm.
    rename select (gc_normalized_output g ≠ _) into Hne. apply nonempty_true in Hne.
    rename select ((if nonempty _ then _ else _) = _) into Hn. rewrite Hne in Hn. py_inv.
    split; [auto|]. split; [|naive_solver]. intros _. naive_solver.
  - destruct (bool_decide_reflect (gc_status g ∈ ["failed"; "result_unknown"])) as [Hin|];
      [|done]. apply elem_of_two in Hin.
    split; [tauto|]. split; [done|]. intros _.
    destruct (gc_failure g) as [f|]; py_inv; [|done].
    exists f. split_and!; [done..|]. by apply eqb_prop.
Qed.

(** The same for a judgement: its failures never regenerate the candidate. *)
Lemma constructed_semantic_inv s :
  constructed s →
  (sc_status s = "succeeded" ∨ sc_status s = "failed" ∨ sc_status s = "result_unknown") ∧
  (sc_status s = "succeeded" →
     sc_provider_call_count s = 1 ∧ sc_failure s = None ∧
     (∃ r, sc_receipt s = Some r ∧ pr_invocation_id r = sc_invocation_id s) ∧
     ∃ v, loads_finite "Invalid semantic JSON" (sc_normalized_output s) = Ok v) ∧
  (sc_status s ≠ "succeeded" →
     ∃ f, sc_failure s = Some f ∧ cf_kind f ≠ "quality_failure" ∧
          cf_kind f ≠ "output_contract_conformance" ∧
          cf_result_unknown f = bool_decide (sc_status s = "result_unknown")).
Proof.
  unfold constructed, post_init, SemanticCompletion_post_init. intros H.
  ok_inv. destruct (bool_decide_reflect (sc_status s = "succeeded")) as [Hs|Hs].
  - py_inv. rename select (sc_receipt s = Some _) into Hr.
    rename select (receipt_mismatch _ _ _ = _) into Hm. rewrite Hr in Hm. cbn in Hm. py_inv.
    split; [auto|]. split; [|naive_solver]. intros _.
    destruct (loads_finite _ _) eqn:E; [|done]. naive_solver.
  - destruct (bool_decide_reflect (sc_status s ∈ ["failed"; "result_unknown"])) as [Hin|];
      [|done]. apply elem_of_two in Hin.
    split; [tauto|]. split; [done|]. intros _.
    destruct (sc_failure s) as [f|]; py_inv; [|done].
    rename select (cf_kind f ∈ _) into Hk. rewrite elem_of_four in Hk.
    exists f. split_and!; [done| | |by apply eqb_prop]; intros Hc; rewrite Hc in Hk;
      destruct Hk as [?|[?|[?|?]]]; discriminate.
Qed.
