(* ===== verification/Actions.v ===== *)
(** * Actions: what a collecting evaluation Run does next

    Models [src/src/qs_ai/domain/evaluation/actions.py] and
    [src/src/qs_ai/domain/evaluation/parallel_plan.py]: the validated progress of a slot, the
    planner of one slot, the serial planner of a Run and the parallel planner built on both. *)
From S2P Require Import Prelude PyText Failure Checkpoint.

Local Open Scope string_scope.
Local Open Scope Z_scope.
Local Open Scope py_scope.

(** ** actions.py *)

Record ExecutionResult : Type := mk_ExecutionResult {
  er_status : string;
  er_failure : option ClassifiedFailure;
  er_replacement_authorized : bool;
  er_contract_recovery_authorized : bool;
}.
#[export] Instance ExecutionResult_eq_dec : EqDecision ExecutionResult.
Proof. solve_decision. Defined.

#[export] Instance ExecutionResult_post_init : Validated ExecutionResult := λ self,
  raise_if (er_replacement_authorized self && er_status self != "result_unknown")
    (ValueError "Replacement authorization requires unknown evidence") ;;
  raise_if (er_contract_recovery_authorized self
            && (er_status self != "failed"
                || match er_failure self with
                   | None => true
                   | Some failure =>
                     cf_code failure != "semantic_decision_contract_invalid"
                     || negb (allows_semantic_retry failure)
                   end))
    (ValueError "Contract recovery requires a semantic contract failure") ;;
  raise_if (er_status self not_in ["succeeded"; "failed"; "result_unknown"])
    (ValueError "Invalid terminal execution status") ;;
  raise_if ((er_status self == "succeeded") && is_some (er_failure self))
    (ValueError "Successful execution cannot carry failure").

Record CandidateProgress : Type := mk_CandidateProgress {
  cand_id : string;
  cand_review_ready : bool;
  cand_semantic : list ExecutionResult;
}.

Definition has_success (executions : list ExecutionResult) : bool :=
  existsb (λ x, er_status x == "succeeded") executions.

#[export] Instance CandidateProgress_post_init : Validated CandidateProgress := λ self,
  raise_if (negb (valid_id (cand_id self))) (ValueError "Invalid candidate identity") ;;
  raise_if (cand_review_ready self && negb (has_success (cand_semantic self)))
    (ValueError "Review ready candidate requires successful semantic evidence").

Record SlotProgress : Type := mk_SlotProgress {
  sp_case_id : string;
  sp_ordinal : Z;
  sp_generation : list ExecutionResult;
  sp_candidate : option CandidateProgress;
}.

#[export] Instance SlotProgress_post_init : Validated SlotProgress := λ self,
  raise_if (negb (valid_id (sp_case_id self)) || (sp_ordinal self <? 1))
    (ValueError "Invalid slot identity") ;;
  raise_if (is_some (sp_candidate self) && negb (has_success (sp_generation self)))
    (ValueError "Candidate requires successful generation evidence").

Record NextAction : Type := mk_NextAction {
  na_kind : string;
  na_cause : string;
  na_case_id : string;
  na_slot_ordinal : Z;
  na_candidate_id : string;
  na_execution_ordinal : Z;
  na_resume : bool;
}.
#[export] Instance NextAction_eq_dec : EqDecision NextAction.
Proof. solve_decision. Defined.

(** [NextAction(kind, cause)] and [NextAction(kind, cause, case_id)] *)
Definition run_action (kind cause case_id : string) : NextAction :=
  mk_NextAction kind cause case_id 0 "" 0 false.

Definition current_executions (slot : SlotProgress) : list ExecutionResult :=
  match sp_candidate slot with
  | None => sp_generation slot
  | Some candidate => cand_semantic candidate
  end.
Definition current_kind (slot : SlotProgress) : string :=
  match sp_candidate slot with None => "generation" | Some _ => "semantic" end.
Definition current_limit (slot : SlotProgress) (policy : ExecutionPolicy) : Z :=
  match sp_candidate slot with
  | None => generation_per_slot policy
  | Some _ => semantic_per_candidate policy
  end.
Definition current_candidate_id (slot : SlotProgress) : string :=
  match sp_candidate slot with None => "" | Some candidate => cand_id candidate end.
Definition recovery_allowed
    (slot : SlotProgress) (policy : ExecutionPolicy) (failure : ClassifiedFailure) : bool :=
  match sp_candidate slot with
  | None => allows_automatic_generation_recovery policy failure
  | Some _ => allows_automatic_semantic_recovery policy failure
  end.

Definition slot_ready (slot : SlotProgress) : bool :=
  match sp_candidate slot with
  | Some candidate => cand_review_ready candidate
  | None => false
  end.

Definition slot_action
    (slot : SlotProgress) (policy : ExecutionPolicy) : res (option NextAction) :=
  if slot_ready slot then Ok None
  else
    let kind := current_kind slot in
    let executions := current_executions slot in
    let ordinal := len executions + 1 in
    let action kind cause :=
      Ok (Some (mk_NextAction kind cause (sp_case_id slot) (sp_ordinal slot)
                  (current_candidate_id slot) ordinal false)) in
    match last executions with
    | None =>
      action kind (if is_none (sp_candidate slot) then "candidate_missing"
                   else "semantic_evidence_missing")
    | Some last =>
      if (er_status last == "result_unknown") && negb (er_replacement_authorized last) then
        action "block" "result_unknown_requires_review"
      else if current_limit slot policy <? ordinal then
        action "block" (kind ++ "_budget_exhausted")
      else if er_contract_recovery_authorized last then
        raise_if (kind != "semantic")
          (ValueError "Contract recovery cannot regenerate candidates") ;;
        action kind "semantic_contract_recovery_approved"
      else if er_replacement_authorized last then
        action kind "manual_recovery_approved"
      else
        match er_failure last with
        | Some failure =>
          if recovery_allowed slot policy failure then action kind (kind ++ "_recovery_allowed")
          else action "block" (kind ++ "_recovery_not_allowed")
        | None => action "block" (kind ++ "_recovery_not_allowed")
        end
    end.

(** [any(slot.case_id != case_id or slot.ordinal != ordinal
         for ordinal, slot in enumerate(group, start))] *)
Fixpoint disordered (case_id : string) (start : Z) (group : list SlotProgress) : bool :=
  match group with
  | [] => false
  | slot :: group =>
    (sp_case_id slot != case_id || sp_ordinal slot != start)
    || disordered case_id (start + 1) group
  end.

Definition see_candidate (seen : list string) (slot : SlotProgress) : res (list string) :=
  match sp_candidate slot with
  | None => Ok seen
  | Some candidate =>
    raise_if (cand_id candidate is_in seen)
      (ValueError "Candidate belongs to more than one slot") ;;
    Ok (cand_id candidate :: seen)
  end.

(** The body of the loop over groups; the state is [(seen_cases, seen_candidates)]. *)
Definition check_group
    (seen : list string * list string) (group : list SlotProgress)
    : res (list string * list string) :=
  match group with
  | [] => Err IndexError
  | first :: _ =>
    let case_id := sp_case_id first in
    raise_if ((case_id is_in seen.1) || disordered case_id 1 group)
      (ValueError "Duplicate or disordered frozen slots") ;;
    candidates ← foldM see_candidate seen.2 group;
    Ok (case_id :: seen.1, candidates)
  end.

(** The loop over [range(0, len(slots), k)] with [0 < k]; the fuel is [len(slots)]. *)
Fixpoint check_groups
    (fuel k : nat) (seen : list string * list string) (slots : list SlotProgress)
    : res (list string * list string) :=
  match fuel, slots with
  | S fuel, _ :: _ =>
    seen ← check_group seen (take k slots); check_groups fuel k seen (drop k slots)
  | _, _ => Ok seen
  end.

(** [range] raises for a zero step and is empty for a negative one. *)
Definition check_plan (slots : list SlotProgress) (policy : ExecutionPolicy) : res unit :=
  raise_if (len slots != (generation_cases policy * candidates_per_case policy))
    (ValueError "Incomplete frozen slot plan") ;;
  let k := candidates_per_case policy in
  raise_if (k == 0) (ValueError "range() arg 3 must not be zero") ;;
  if k <? 0 then Ok tt
  else check_groups (length slots) (Z.to_nat k) ([], []) slots ;; Ok tt.

Definition slot_history (slot : SlotProgress) : list ExecutionResult :=
  (sp_generation slot
   ++ match sp_candidate slot with Some candidate => cand_semantic candidate | None => [] end)%list.

(** An unknown result without its own replacement authorization. *)
Definition unresolved (execution : ExecutionResult) : bool :=
  (er_status execution == "result_unknown") && negb (er_replacement_authorized execution).
Definition historical_unknown (slots : list SlotProgress) : bool :=
  existsb (λ slot, existsb unresolved (slot_history slot)) slots.

Fixpoint first_action
    (slots : list SlotProgress) (policy : ExecutionPolicy) : res (option NextAction) :=
  match slots with
  | [] => Ok None
  | slot :: slots =>
    planned ← slot_action slot policy;
    match planned with Some a => Ok (Some a) | None => first_action slots policy end
  end.

Definition RUN_STATUSES : list string :=
  ["requested"; "collecting"; "blocked"; "awaiting_review"; "approved"; "rejected"; "canceled"].

Definition next_action
    (status preflight_status preflight_case_id : string) (slots : list SlotProgress)
    (policy : ExecutionPolicy) (checkpoint : option ExecutionCheckpoint)
    (unresolved_unknown : Z) : res NextAction :=
  raise_if (status not_in RUN_STATUSES) (ValueError "Invalid Run status") ;;
  raise_if (unresolved_unknown <? 0) (ValueError "Invalid unresolved result count") ;;
  raise_if (preflight_status not_in ["pending"; "passed"; "failed"])
    (ValueError "Invalid preflight status") ;;
  check_plan slots policy ;;
  if status == "blocked" then Ok (run_action "block" "run_blocked" "")
  else if status != "collecting" then Ok (run_action "none" "run_not_collecting" "")
  else
    match checkpoint with
    | Some cp =>
      Ok (mk_NextAction (cp_kind cp) "resume_active_execution" (cp_case_id cp)
            (cp_slot_ordinal cp) (cp_candidate_id cp) (cp_execution_ordinal cp) true)
    | None =>
      if unresolved_unknown != 0 || historical_unknown slots then
        Ok (run_action "block" "result_unknown_requires_review" "")
      else if preflight_status != "passed" then
        Ok (run_action (if preflight_status == "pending" then "preflight" else "block")
              ("preflight_" ++ preflight_status) preflight_case_id)
      else
        raise_if (len slots != (generation_cases policy * candidates_per_case policy))
          (ValueError "Incomplete frozen slot plan") ;;
        planned ← first_action slots policy;
        Ok (default (run_action "await_review" "candidate_evidence_complete" "") planned)
    end.

(** ** parallel_plan.py *)

Record ParallelPlan : Type := mk_ParallelPlan {
  pp_ready : list NextAction;
  pp_blocked : list NextAction;
  pp_control : option NextAction;
  pp_complete : bool;
}.

Definition slot_key (slot : SlotProgress) : string * Z := (sp_case_id slot, sp_ordinal slot).

(** The loop over the slots; the state is [(ready, blocked, pending)]. *)
Definition plan_slot
    (policy : ExecutionPolicy) (active_slots : gset (string * Z)) (available : Z)
    (state : list NextAction * list NextAction * bool) (slot : SlotProgress)
    : res (list NextAction * list NextAction * bool) :=
  if bool_decide (slot_key slot ∈ active_slots) then Ok state
  else
    action ← slot_action slot policy;
    match action with
    | None => Ok state
    | Some action =>
      let '(ready, blocked, _) := state in
      Ok (if na_kind action == "block" then (ready, (blocked ++ [action])%list, true)
          else if len ready <? available then ((ready ++ [action])%list, blocked, true)
          else (ready, blocked, true))
    end.

Definition plan_parallel
    (status preflight_status preflight_case_id : string) (slots : list SlotProgress)
    (policy : ExecutionPolicy) (active_slots : gset (string * Z)) (limit : Z)
    (unresolved_unknown : Z) : res ParallelPlan :=
  raise_if (negb ((1 <=? limit) && (limit <=? 32))) (ValueError "Invalid parallel limit") ;;
  first ← next_action status preflight_status preflight_case_id slots policy None
            unresolved_unknown;
  raise_if (negb (bool_decide (active_slots ⊆ list_to_set (slot_key <$> slots))))
    (ValueError "Active claims must belong to frozen slots") ;;
  if status != "collecting" || preflight_status != "passed"
     || (na_cause first == "result_unknown_requires_review")
  then Ok (mk_ParallelPlan [] [] (Some first) false)
  else
    let available := 0 `max` (limit - Z.of_nat (size active_slots)) in
    '(ready, blocked, pending) ←
      foldM (plan_slot policy active_slots available) ([], [], false) slots;
    Ok (mk_ParallelPlan ready blocked None (negb pending && bool_decide (active_slots = ∅))).

(** ** Specification of the planners *)

Local Close Scope py_scope.

(** What one slot may dispatch next, stated on its history alone. *)
Definition dispatch_permitted (policy : ExecutionPolicy) (slot : SlotProgress) : Prop :=
  current_executions slot = [] ∨
  ∃ e, last (current_executions slot) = Some e ∧ unresolved e = false ∧
    len (current_executions slot) < current_limit slot policy ∧
    if er_contract_recovery_authorized e then is_Some (sp_candidate slot)
    else er_replacement_authorized e = true ∨
         ∃ f, er_failure e = Some f ∧ recovery_allowed slot policy f = true.

(** The frozen plan: [k] ordinals of every distinct case in order, no candidate in two slots. *)
Definition candidate_ids (slots : list SlotProgress) : list string :=
  omap (λ s, cand_id <$> sp_candidate s) slots.
Definition case_slots (k : nat) (case_id : string) : list (string * Z) :=
  (λ o, (case_id, Z.of_nat o)) <$> seq 1 k.
Definition frozen_plan (cases k : nat) (slots : list SlotProgress) : Prop :=
  NoDup (candidate_ids slots) ∧
  ∃ ids, length ids = cases ∧ NoDup ids ∧ slot_key <$> slots = ids ≫= case_slots k.

(** ** Lemmas *)

Lemma slot_action_None slot policy :
  slot_action slot policy = Ok None ↔ slot_ready slot = true.
Proof.
  unfold slot_action. destruct (slot_ready slot); [done|].
  split; [|done]. intros H. destruct (last _) as [e|]; [|done].
  repeat if_inv; ok_inv; try done.
  destruct (er_failure e); [if_inv|]; ok_inv; done.
Qed.

Lemma last_None_nil {A} (l : list A) : last l = None → l = [].
Proof. by intros ?%last_None. Qed.

(** Every action of a slot names the slot and is either a block or a permitted dispatch. *)
Lemma slot_action_Some slot policy a :
  slot_action slot policy = Ok (Some a) →
  slot_ready slot = false ∧ na_case_id a = sp_case_id slot ∧
  na_slot_ordinal a = sp_ordinal slot ∧ na_candidate_id a = current_candidate_id slot ∧
  na_execution_ordinal a = len (current_executions slot) + 1 ∧ na_resume a = false ∧
  (na_kind a = "block" ∨ (na_kind a = current_kind slot ∧ dispatch_permitted policy slot)).
Proof.
  unfold slot_action, dispatch_permitted. intros H. if_inv; [done|].
  split; [done|]. destruct (last _) as [e|] eqn:He.
  - assert (Hun : (bool_decide (er_status e = "result_unknown")
                   && negb (er_replacement_authorized e)) = unresolved e) by done.
    rewrite Hun in H. repeat if_inv; ok_inv; cbn; try (split_and!; auto; done).
    + py_inv. split_and!; try done. right. split; [done|]. right. exists e. py_inv.
      split_and!; [done|done|lia|]. rewrite Heqb2.
      destruct (sp_candidate slot) eqn:E; [done|].
      unfold current_kind in *. rewrite E in *. done.
    + py_inv. split_and!; try done. right. split; [done|]. right. exists e.
      split_and!; [done|done|lia|]. rewrite Heqb2. auto.
    + destruct (er_failure e) as [f|] eqn:Hf; [if_inv|]; ok_inv; cbn;
        split_and!; try done; auto.
      right. split; [done|]. right. exists e. py_inv. split_and!; [done|done|lia|].
      rewrite Heqb2. eauto.
  - ok_inv. cbn. apply last_None_nil in He. split_and!; auto.
Qed.

Lemma current_kind_not_block slot : current_kind slot ≠ "block".
Proof. unfold current_kind. by destruct (sp_candidate slot). Qed.

(** Conversely a permitted slot is dispatched. *)
Lemma slot_action_permitted slot policy :
  slot_ready slot = false → dispatch_permitted policy slot →
  ∃ a, slot_action slot policy = Ok (Some a) ∧ na_kind a = current_kind slot.
Proof.
  unfold slot_action, dispatch_permitted. intros -> [Hnil|(e & He & Hu & Hlim & Hr)].
  - rewrite Hnil. cbn. eauto.
  - rewrite He. change (bool_decide (er_status e = "result_unknown")
                        && negb (er_replacement_authorized e)) with (unresolved e).
    rewrite Hu. replace (_ <? _) with false by lia.
    destruct (er_contract_recovery_authorized e).
    + destruct Hr as [c Hc]. unfold current_kind. rewrite Hc. cbn. eauto.
    + destruct (er_replacement_authorized e); [eauto|].
      destruct Hr as [?|(f & -> & ->)]; [done|eauto].
Qed.

Lemma first_action_None slots policy :
  first_action slots policy = Ok None ↔ ∀ s, s ∈ slots → slot_ready s = true.
Proof.
  induction slots as [|s slots IH]; cbn; [set_solver|].
  destruct (slot_action s policy) as [[a|]|e] eqn:E; cbn.
  - apply slot_action_Some in E as [E _]. split; [done|]. intros H.
    rewrite H in E by left. done.
  - apply slot_action_None in E. rewrite IH. set_solver.
  - split; [done|]. intros H. assert (slot_ready s = true) as Hs by (apply H; left).
    apply (slot_action_None s policy) in Hs. congruence.
Qed.

Lemma first_action_Some slots policy a :
  first_action slots policy = Ok (Some a) →
  ∃ l1 s l2, slots = (l1 ++ s :: l2)%list ∧ (∀ x, x ∈ l1 → slot_ready x = true) ∧
    slot_action s policy = Ok (Some a).
Proof.
  induction slots as [|s slots IH]; cbn; [done|]. intros H. ok_inv.
  destruct x as [b|]; ok_inv.
  - exists [], s, slots. set_solver.
  - apply slot_action_None in H0. destruct (IH H) as (l1 & s' & l2 & -> & Hl1 & Ha).
    exists (s :: l1), s', l2. split_and!; [done|set_solver|done].
Qed.

(** *** The plan check *)

Lemma candidate_ids_app l1 l2 : candidate_ids (l1 ++ l2) = (candidate_ids l1 ++ candidate_ids l2)%list.
Proof. apply omap_app. Qed.

Lemma candidate_ids_cons s l :
  candidate_ids (s :: l) =
  match sp_candidate s with Some c => cand_id c :: candidate_ids l | None => candidate_ids l end.
Proof. unfold candidate_ids. cbn. by destruct (sp_candidate s). Qed.

Lemma see_candidates_Ok group seen seen' :
  NoDup seen →
  foldM see_candidate seen group = Ok seen' ↔
    seen' = (reverse (candidate_ids group) ++ seen)%list ∧ NoDup seen'.
Proof.
  revert seen; induction group as [|s group IH]; intros seen Hnd; cbn [foldM].
  { rewrite Ok_inj. naive_solver. }
  rewrite candidate_ids_cons. pose proof (eq_refl (see_candidate seen s)) as Hs.
  unfold see_candidate at 2 in Hs. rewrite Hs.
  destruct (sp_candidate s) as [c|] eqn:E; cbn [mbind res_bind]; [|by apply IH].
  destruct (bool_decide_reflect (cand_id c ∈ seen)) as [Hin|Hin];
    unfold raise_if; cbn [mbind res_bind]; clear Hs.
  - split; [done|]. intros [-> Hnd']. exfalso.
    rewrite reverse_cons, <- app_assoc in Hnd'.
    apply NoDup_app in Hnd' as (_ & _ & Hnd'). cbn in Hnd'. by apply NoDup_cons in Hnd' as [? _].
  - rewrite IH by by constructor.
    rewrite reverse_cons, <- app_assoc. done.
Qed.

Lemma disordered_false c n group :
  disordered c (Z.of_nat n) group = false ↔
  slot_key <$> group = (λ o, (c, Z.of_nat o)) <$> seq n (length group).
Proof.
  revert n; induction group as [|s group IH]; intros n; cbn; [done|].
  replace (Z.of_nat n + 1) with (Z.of_nat (S n)) by lia.
  rewrite !orb_false_iff, IH, !negb_false_iff, !bool_decide_eq_true.
  unfold slot_key. split; [intros [[-> ->] ->]; done|].
  intros H. injection H as ? ? ?. auto.
Qed.

Lemma check_group_Ok k sc sd group s' :
  NoDup sc → NoDup sd → length group = S k →
  check_group (sc, sd) group = Ok s' ↔
    ∃ c, slot_key <$> group = case_slots (S k) c ∧
      s' = (c :: sc, (reverse (candidate_ids group) ++ sd)%list) ∧ NoDup s'.1 ∧ NoDup s'.2.
Proof.
  intros Hsc Hsd Hlen. destruct group as [|first group]; [done|].
  unfold check_group, case_slots. rewrite <- Hlen.
  rewrite bind_Ok_unit, raise_if_Ok, orb_false_iff, bool_decide_eq_false. cbn [fst snd].
  change 1 with (Z.of_nat 1). rewrite disordered_false.
  rewrite bind_Ok. setoid_rewrite see_candidates_Ok; [|done]. setoid_rewrite Ok_inj.
  split.
  - intros [[Hin Hk] (cs & [-> Hcs] & <-)]. exists (sp_case_id first).
    split_and!; [done..| |done]. cbn. by constructor.
  - intros (c & Hk & -> & Hc & Hd). cbn [fst snd] in *.
    assert (c = sp_case_id first) as ->.
    { cbn in Hk. injection Hk as Hc0 _ _. done. }
    apply NoDup_cons in Hc as [Hc _]. split; [done|]. by eexists.
Qed.

Lemma slot_key_length_bind k ids (slots : list SlotProgress) :
  slot_key <$> slots = ids ≫= case_slots k → length slots = (length ids * k)%nat.
Proof.
  intros H. apply (f_equal length) in H. rewrite length_fmap in H. rewrite H. clear H.
  induction ids as [|c ids IH]; cbn; [done|].
  rewrite length_app, IH. unfold case_slots. by rewrite length_fmap, length_seq.
Qed.

Lemma check_groups_Ok k m fuel sc sd slots s' :
  NoDup sc → NoDup sd → length slots = (m * S k)%nat → (length slots ≤ fuel)%nat →
  check_groups fuel (S k) (sc, sd) slots = Ok s' ↔
    ∃ ids, length ids = m ∧ slot_key <$> slots = ids ≫= case_slots (S k) ∧
      s' = ((reverse ids ++ sc)%list, (reverse (candidate_ids slots) ++ sd)%list) ∧
      NoDup s'.1 ∧ NoDup s'.2.
Proof.
  revert fuel sc sd slots s'. induction m as [|m IH]; intros fuel sc sd slots s' Hsc Hsd Hlen Hfuel.
  { apply nil_length_inv in Hlen as ->.
    replace (check_groups fuel (S k) (sc, sd) []) with (Ok (sc, sd)) by by destruct fuel.
    rewrite Ok_inj. split.
    - intros <-. by exists [].
    - intros (ids & ->%nil_length_inv & _ & -> & _). done. }
  destruct slots as [|s slots]; [done|]. destruct fuel as [|fuel]; [cbn in Hfuel; lia|].
  cbn [check_groups]. set (all := s :: slots) in *.
  assert (Ht : length (take (S k) all) = S k) by (rewrite length_take; lia).
  assert (Hd : length (drop (S k) all) = (m * S k)%nat) by (rewrite length_drop; lia).
  rewrite bind_Ok. setoid_rewrite (check_group_Ok k); [|done..].
  assert (Hall : all = (take (S k) all ++ drop (S k) all)%list) by by rewrite take_drop.
  assert (Hcids : candidate_ids all
                  = (candidate_ids (take (S k) all) ++ candidate_ids (drop (S k) all))%list)
    by by rewrite <- candidate_ids_app, take_drop.
  split.
  - intros (s1 & (c & Hk & -> & Hc & Hcs) & H).
    apply IH in H as (ids & Hids & Hk' & -> & Hn1 & Hn2); [|done|done|done|lia].
    exists (c :: ids). split_and!; [cbn; lia| | |done|done].
    + rewrite Hall, fmap_app, Hk, Hk'; done.
    + by rewrite Hcids, reverse_cons, reverse_app, <- !app_assoc.
  - intros (ids & Hids & Hk & -> & Hn1 & Hn2). destruct ids as [|c ids]; [done|].
    cbn [fst snd] in *. rewrite Hall, fmap_app in Hk; cbn [mbind list_bind] in Hk.
    apply app_inj_1 in Hk as [Hk Hk'];
      [|rewrite length_fmap, Ht; unfold case_slots; by rewrite length_fmap, length_seq].
    rewrite Hcids, reverse_app, <- app_assoc in Hn2 |- *.
    rewrite reverse_cons, <- app_assoc in Hn1 |- *. cbn [app] in Hn1 |- *.
    pose proof (proj2 (proj2 (proj1 (NoDup_app _ _) Hn1))).
    pose proof (proj2 (proj2 (proj1 (NoDup_app _ _) Hn2))).
    eexists. split; [exists c; split_and!; [done..|exact H|exact H0]|].
    apply IH; [done|done|done|lia|].
    exists ids. cbn in Hids. split_and!; [lia|done|done|done|done].
Qed.

(** The plan check accepts exactly the frozen plans. *)
Lemma check_plan_Ok slots policy :
  0 <= generation_cases policy → 0 < candidates_per_case policy →
  check_plan slots policy = Ok tt ↔
  frozen_plan (Z.to_nat (generation_cases policy)) (Z.to_nat (candidates_per_case policy)) slots.
Proof.
  intros Hm Hk. unfold check_plan, frozen_plan.
  rewrite bind_Ok_unit, raise_if_Ok, negb_false_iff, bool_decide_eq_true.
  rewrite bool_decide_eq_false_2 by lia. cbn [raise_if mbind res_bind].
  replace (candidates_per_case policy <? 0) with false by lia. unfold len.
  set (k := candidates_per_case policy) in *. set (m := generation_cases policy) in *.
  destruct (Z.to_nat k) as [|k'] eqn:HS; [lia|].
  split.
  - intros [Hlen H]. unfold raise_if in H. cbn in H. ok_inv.
    apply (check_groups_Ok _ (Z.to_nat m)) in H0
      as (ids & Hids & Hkeys & -> & Hn1 & Hn2); [|constructor|constructor|nia|lia].
    rewrite !app_nil_r in *. cbn [fst snd] in *. rewrite NoDup_reverse in Hn1, Hn2.
    split; [done|]. exists ids. done.
  - intros [Hc (ids & Hids & Hnd & Hkeys)].
    pose proof (slot_key_length_bind _ _ _ Hkeys) as Hl.
    split; [nia|]. unfold raise_if. cbn [mbind res_bind].
    assert (check_groups (length slots) (S k') ([], []) slots
            = Ok ((reverse ids ++ [])%list, (reverse (candidate_ids slots) ++ [])%list)) as ->;
      [|done].
    apply (check_groups_Ok _ (length ids)); [constructor|constructor|done|done|].
    exists ids. rewrite !app_nil_r. cbn [fst snd]. by rewrite !NoDup_reverse.
Qed.

(** *** Properties *)

(** the whole frozen-plan validation of [next_action] against its specification: for a run
    that is not collecting the planner returns exactly when the plan is the frozen one. *)
Theorem plan_check_exact slots policy :
  0 <= generation_cases policy → 0 < candidates_per_case policy →
  (check_plan slots policy = Ok tt ↔
   frozen_plan (Z.to_nat (generation_cases policy)) (Z.to_nat (candidates_per_case policy))
     slots).
Proof. apply check_plan_Ok. Qed.

Lemma next_action_inv status pre case slots policy cp n a :
  next_action status pre case slots policy cp n = Ok a →
  check_plan slots policy = Ok tt ∧
  ((status ≠ "collecting" ∧ (na_kind a = "block" ∨ na_kind a = "none")) ∨
   (status = "collecting" ∧ is_Some cp ∧ na_resume a = true) ∨
   (status = "collecting" ∧ cp = None ∧
    if bool_decide (n ≠ 0) || historical_unknown slots
    then a = run_action "block" "result_unknown_requires_review" ""
    else if bool_decide (pre = "passed")
    then ∃ o, first_action slots policy = Ok o ∧
              a = default (run_action "await_review" "candidate_evidence_complete" "") o
    else a = run_action (if bool_decide (pre = "pending") then "preflight" else "block")
               ("preflight_" ++ pre) case)).
Proof.
  unfold next_action. intros H. ok_inv. split; [done|].
  if_inv; [ok_inv; bool_inv; subst; left; auto|].
  if_inv; [ok_inv; bool_inv; left; auto|]. bool_inv. right.
  destruct cp as [cp|]; [ok_inv; left; eauto|].
  right. split_and!; [done..|]. rewrite bool_decide_not.
  if_inv; [by ok_inv|].
  destruct (bool_decide_reflect (pre = "passed")); cbn in H; ok_inv; eauto.
Qed.

Lemma historical_unknown_false slots :
  historical_unknown slots = false ↔
  ∀ s e, s ∈ slots → e ∈ slot_history s → unresolved e = false.
Proof.
  unfold historical_unknown. rewrite existsb_false. setoid_rewrite existsb_false. naive_solver.
Qed.

(** C6: a fresh dispatch never crosses an unresolved unknown result and never exceeds the budget
    of its slot: whenever the serial planner answers a generation or a judgement that is not a
    resumption, the run collects without a checkpoint, its preflight passed, every unknown
    result of every slot carries its own replacement authorization, the earlier slots are all
    review ready, and the slot's history permits the dispatch with the next ordinal. *)
Theorem next_action_dispatch_safe status pre case slots policy cp n a :
  next_action status pre case slots policy cp n = Ok a →
  na_resume a = false → na_kind a = "generation" ∨ na_kind a = "semantic" →
  status = "collecting" ∧ cp = None ∧ n = 0 ∧ pre = "passed" ∧
  (∀ s e, s ∈ slots → e ∈ slot_history s →
     er_status e = "result_unknown" → er_replacement_authorized e = true) ∧
  ∃ l1 s l2, slots = (l1 ++ s :: l2)%list ∧ (∀ x, x ∈ l1 → slot_ready x = true) ∧
    slot_ready s = false ∧ na_case_id a = sp_case_id s ∧ na_slot_ordinal a = sp_ordinal s ∧
    na_kind a = current_kind s ∧ dispatch_permitted policy s ∧
    na_execution_ordinal a = len (current_executions s) + 1 ∧
    na_execution_ordinal a <= 1 `max` current_limit s policy.
Proof.
  intros H Hres Hkind. apply next_action_inv in H as [_ [[_ H]|[(_ & _ & H)|(-> & -> & H)]]].
  - intuition congruence.
  - congruence.
  - destruct (bool_decide_reflect (n ≠ 0)) as [|Hn]; cbn in H; [subst; cbn in *; intuition congruence|].
    apply dec_stable in Hn.
    destruct (historical_unknown slots) eqn:Hh; cbn in H; [subst; cbn in *; intuition congruence|].
    destruct (bool_decide_reflect (pre = "passed")) as [->|];
      [|destruct (bool_decide (pre = "pending")); subst; cbn in *; intuition congruence].
    destruct H as (o & Ho & ->). destruct o as [a|]; [cbn in *|cbn in *; intuition congruence].
    split_and!; [done..| |].
    + rewrite historical_unknown_false in Hh. intros s e Hs He Hst.
      specialize (Hh s e Hs He). unfold unresolved in Hh.
      rewrite Hst in Hh. by apply negb_false_iff in Hh.
    + apply first_action_Some in Ho as (l1 & s & l2 & -> & Hl1 & Ha).
      apply slot_action_Some in Ha as (? & ? & ? & ? & Hord & ? & Hk).
      exists l1, s, l2. destruct Hk as [?|[? Hp]]; [intuition congruence|].
      split_and!; [done..|]. rewrite Hord.
      destruct Hp as [->|(e & _ & _ & Hlt & _)]; [change (len []) with 0|]; lia.
Qed.

(** The answer [await_review] of a fresh plan. *)
Lemma next_action_review status pre case slots policy cp n a :
  next_action status pre case slots policy cp n = Ok a → na_resume a = false →
  na_kind a = "await_review" ↔
    status = "collecting" ∧ cp = None ∧ n = 0 ∧ pre = "passed" ∧
    historical_unknown slots = false ∧ (∀ s, s ∈ slots → slot_ready s = true).
Proof.
  intros H Hres. apply next_action_inv in H as [_ [[Hst H]|[(_ & _ & H)|(-> & -> & H)]]].
  - intuition congruence.
  - congruence.
  - destruct (bool_decide_reflect (n ≠ 0)) as [|Hn]; cbn in H; [subst; cbn in *; intuition congruence|].
    apply dec_stable in Hn.
    destruct (historical_unknown slots) eqn:Hh; cbn in H; [subst; cbn in *; intuition congruence|].
    destruct (bool_decide_reflect (pre = "passed")) as [->|];
      [|destruct (bool_decide (pre = "pending")); subst; cbn in *; intuition congruence].
    destruct H as (o & Ho & ->). rewrite <- (first_action_None _ policy).
    destruct o as [a|]; cbn in *; [|intuition congruence].
    apply first_action_Some in Ho as (l1 & s & l2 & -> & Hl1 & Ha).
    apply slot_action_Some in Ha as (Hr & _ & _ & _ & _ & _ & Hk).
    pose proof (current_kind_not_block s).
    split; [|rewrite first_action_None; intros (_ & _ & _ & _ & _ & Hall);
             rewrite Hall in Hr by set_solver; done].
    unfold current_kind in Hk. intros E. rewrite E in Hk.
    destruct (sp_candidate s); intuition congruence.
Qed.

(** A run that goes to review: its preflight passed, nothing is unknown and every slot is ready. *)
Lemma await_review_ready status pre case slots policy n a :
  next_action status pre case slots policy None n = Ok a → na_kind a = "await_review" →
  status = "collecting" ∧ n = 0 ∧ pre = "passed" ∧ historical_unknown slots = false ∧
  ∀ s, s ∈ slots → slot_ready s = true.
Proof.
  intros H Hk. destruct (na_resume a) eqn:Hr.
  - apply next_action_inv in H as [_ [[_ H]|[(_ & [? ?] & _)|(_ & _ & H)]]]; [|done|].
    + intuition congruence.
    + if_inv; [subst; done|].
      destruct (bool_decide (pre = "passed"));
        [|subst; cbn in *; by destruct (bool_decide (pre = "pending"))].
      destruct H as ([b|] & Hb & ->); [|done].
      apply first_action_Some in Hb as (l1 & s & l2 & _ & _ & Hs).
      apply slot_action_Some in Hs as (_ & _ & _ & _ & _ & Hs & _). cbn in Hr. congruence.
  - eapply next_action_review in H as Hx; [|done]. apply Hx in Hk. tauto.
Qed.

(** the planner sends a collecting run to review exactly when every slot of the frozen plan
    holds a review-ready candidate and nothing is pending, unknown or in flight. *)
Theorem await_review_iff status pre case slots policy cp n a :
  next_action status pre case slots policy cp n = Ok a →
  na_resume a = false →
  na_kind a = "await_review" ↔
    status = "collecting" ∧ cp = None ∧ n = 0 ∧ pre = "passed" ∧
    historical_unknown slots = false ∧ (∀ s, s ∈ slots → slot_ready s = true).
Proof. apply next_action_review. Qed.

(** *** The parallel planner *)

Definition is_block (a : NextAction) : Prop := na_kind a = "block".
#[export] Instance is_block_dec a : Decision (is_block a).
Proof. unfold is_block. apply _. Defined.
#[export] Typeclasses Opaque is_block.

(** The actions of the slots without an active claim, in slot order. *)
Definition inactive (active : gset (string * Z)) (slots : list SlotProgress) :=
  filter (λ s, slot_key s ∉ active) slots.
Fixpoint slot_actions
    (policy : ExecutionPolicy) (slots : list SlotProgress) : res (list NextAction) :=
  match slots with
  | [] => Ok []
  | s :: slots =>
    o ← slot_action s policy; acts ← slot_actions policy slots;
    Ok match o with Some a => a :: acts | None => acts end
  end.

Lemma take_snoc_filter (n : nat) (r : list NextAction) a acts :
  (length r ≤ n)%nat →
  (take (n - length r) (a :: acts)) =
  if bool_decide (length r < n)%nat then a :: take (n - length (r ++ [a])) acts else [].
Proof.
  intros Hle. rewrite length_app. cbn [length].
  destruct (bool_decide_reflect (length r < n)%nat).
  - replace (n - length r)%nat with (S (n - (length r + 1))) by lia. done.
  - replace (n - length r)%nat with 0%nat by lia. done.
Qed.

(** The planning loop is the slots' actions, split into blocks and a bounded prefix of the
    dispatches. *)
Lemma plan_slots_eq policy active avail slots r b p :
  (length r ≤ Z.to_nat avail)%nat →
  foldM (plan_slot policy active avail) (r, b, p) slots =
  acts ← slot_actions policy (inactive active slots);
  Ok ((r ++ take (Z.to_nat avail - length r) (filter (λ a, ¬ is_block a) acts))%list,
      (b ++ filter is_block acts)%list, p || bool_decide (acts ≠ [])).
Proof.
  revert r b p. induction slots as [|s slots IH]; intros r b p Hr; cbn [foldM].
  - cbn. by rewrite take_nil, !app_nil_r, orb_false_r.
  - unfold inactive. rewrite filter_cons. fold (inactive active slots).
    pose proof (eq_refl (plan_slot policy active avail (r, b, p) s)) as Hp.
    unfold plan_slot at 2 in Hp. rewrite Hp. clear Hp.
    destruct (decide (slot_key s ∈ active)) as [Hin|Hin].
    { rewrite bool_decide_eq_true_2 by done. cbn [mbind res_bind]. rewrite IH by done.
      by rewrite decide_False by auto. }
    rewrite bool_decide_eq_false_2 by done. rewrite decide_True by done. cbn [slot_actions].
    destruct (slot_action s policy) as [[a|]|e]; cbn [mbind res_bind]; [| |done].
    2: { rewrite IH by done. by destruct (slot_actions policy (inactive active slots)). }
    destruct (bool_decide_reflect (na_kind a = "block")) as [Hb|Hb]; cbn [mbind res_bind].
    { rewrite IH by done.
      destruct (slot_actions policy (inactive active slots)) as [acts|]; cbn [mbind res_bind]; [|done].
      rewrite !filter_cons, (decide_True (P := is_block a)), decide_False by tauto.
      by rewrite <- app_assoc, orb_true_r. }
    destruct (Z.ltb_spec (len r) avail) as [Hlt|Hge]; unfold len in *; cbn [mbind res_bind].
    + rewrite IH by (rewrite length_app; cbn; lia).
      destruct (slot_actions policy (inactive active slots)) as [acts|]; cbn [mbind res_bind]; [|done].
      rewrite !filter_cons, (decide_False (P := is_block a)), decide_True by done.
      rewrite take_snoc_filter by lia.
      rewrite (bool_decide_eq_true_2 (length r < _)%nat) by lia.
      rewrite (bool_decide_eq_true_2 (_ :: _ ≠ [])), orb_true_r by done.
      by rewrite <- app_assoc.
    + rewrite IH by done.
      destruct (slot_actions policy (inactive active slots)) as [acts|]; cbn [mbind res_bind]; [|done].
      rewrite !filter_cons, (decide_False (P := is_block a)), decide_True by done.
      rewrite take_snoc_filter by lia.
      rewrite (bool_decide_eq_false_2 (length r < _)%nat) by lia.
      rewrite (bool_decide_eq_true_2 (_ :: _ ≠ [])), orb_true_r by done.
      replace (Z.to_nat avail - length r)%nat with 0%nat by lia. done.
Qed.

Lemma slot_actions_first policy slots acts :
  slot_actions policy slots = Ok acts → first_action slots policy = Ok (head acts).
Proof.
  revert acts; induction slots as [|s slots IH]; intros acts; cbn; [by intros [= <-]|].
  destruct (slot_action s policy) as [[a|]|]; cbn; [| |done].
  - destruct (slot_actions policy slots); cbn; by intros [= <-].
  - destruct (slot_actions policy slots); cbn; [|done]. intros [= <-]. by apply IH.
Qed.

Lemma slot_actions_elem policy slots acts a :
  slot_actions policy slots = Ok acts → a ∈ acts →
  ∃ s, s ∈ slots ∧ slot_action s policy = Ok (Some a).
Proof.
  revert acts; induction slots as [|s slots IH]; intros acts; cbn; intros H Ha; ok_inv.
  { by apply not_elem_of_nil in Ha. }
  destruct x as [b|].
  - apply elem_of_cons in Ha as [->|Ha]; [exists s; split; [left|done]|].
    destruct (IH _ H1 Ha) as (s' & ? & ?). exists s'. split; [by right|done].
  - destruct (IH _ H1 Ha) as (s' & ? & ?). exists s'. split; [by right|done].
Qed.

Lemma plan_parallel_inv status pre case slots policy active limit n p :
  plan_parallel status pre case slots policy active limit n = Ok p →
  1 <= limit <= 32 ∧ active ⊆ list_to_set (slot_key <$> slots) ∧
  ∃ first, next_action status pre case slots policy None n = Ok first ∧
  if bool_decide (status ≠ "collecting") || bool_decide (pre ≠ "passed")
     || bool_decide (na_cause first = "result_unknown_requires_review")
  then p = mk_ParallelPlan [] [] (Some first) false
  else ∃ acts, slot_actions policy (inactive active slots) = Ok acts ∧
    p = mk_ParallelPlan
          (take (Z.to_nat (limit - Z.of_nat (size active))) (filter (λ a, ¬ is_block a) acts))
          (filter is_block acts) None
          (bool_decide (acts = []) && bool_decide (active = ∅)).
Proof.
  unfold plan_parallel. intros H. py_inv.
  split; [lia|]. split; [done|]. eexists. split; [done|].
  rewrite !bool_decide_not. if_inv; [by ok_inv|].
  rewrite plan_slots_eq in H by (cbn; lia). ok_inv.
  eexists. split; [done|]. rewrite bool_decide_not, negb_involutive.
  do 2 f_equal. lia.
Qed.

(** the parallel planner never plans more dispatches than the limit leaves beside the active
    claims, plans only permitted dispatches of slots without a claim, in slot order, and says
    complete exactly when no claim is active and every slot is review ready. *)
Theorem plan_parallel_bounds status pre case slots policy active limit n p :
  plan_parallel status pre case slots policy active limit n = Ok p →
  len (pp_ready p) + Z.of_nat (size active) <= limit `max` Z.of_nat (size active) ∧
  (∀ a, a ∈ pp_ready p → ∃ s, s ∈ slots ∧ slot_key s ∉ active ∧ slot_ready s = false ∧
     (na_case_id a, na_slot_ordinal a) = slot_key s ∧ na_kind a = current_kind s ∧
     dispatch_permitted policy s) ∧
  (pp_complete p = true →
     active = ∅ ∧ ∀ s, s ∈ slots → slot_ready s = true).
Proof.
  intros H. apply plan_parallel_inv in H as (Hlim & _ & first & _ & H).
  if_inv; [subst; cbn; split_and!; [unfold len; cbn; lia|set_solver|done]|].
  destruct H as (acts & Hacts & ->). cbn [pp_ready pp_complete]. split_and!.
  - unfold len. rewrite length_take. lia.
  - intros a Ha. apply elem_of_take in Ha as (i & Ha & _).
    apply list_elem_of_lookup_2, list_elem_of_filter in Ha as [Hnb Ha].
    destruct (slot_actions_elem _ _ _ _ Hacts Ha) as (s & Hs & Hsa).
    apply list_elem_of_filter in Hs as [Hact Hs].
    apply slot_action_Some in Hsa as (? & ? & ? & ? & ? & ? & Hk).
    exists s. unfold slot_key, is_block in *. split_and!; [done..|congruence| |]; tauto.
  - intros [->%bool_decide_eq_true ->%bool_decide_eq_true]%andb_true_iff.
    split; [done|]. apply slot_actions_first in Hacts. cbn in Hacts.
    rewrite first_action_None in Hacts. intros s Hs. apply Hacts.
    apply list_elem_of_filter. split; [set_solver|done].
Qed.

(** with no claim in flight the two planners agree: what the serial planner answers for the
    run is the control action of the parallel plan, its completion, its first ready dispatch,
    or its first block. *)
Theorem serial_parallel_agree status pre case slots policy limit n p a :
  plan_parallel status pre case slots policy ∅ limit n = Ok p →
  next_action status pre case slots policy None n = Ok a →
  match pp_control p with
  | Some c => a = c
  | None =>
    if pp_complete p then a = run_action "await_review" "candidate_evidence_complete" ""
    else head (pp_ready p) = Some a ∨ head (pp_blocked p) = Some a
  end.
Proof.
  intros H Ha. apply plan_parallel_inv in H as (Hlim & _ & first & Hf & H).
  rewrite Ha in Hf. injection Hf as <-.
  if_inv; [by subst|]. bool_inv. destruct H as (acts & Hacts & ->). cbn.
  assert (inactive ∅ slots = slots) as Hin.
  { unfold inactive. clear. induction slots as [|s l IH]; [done|].
    rewrite filter_cons, decide_True, IH by set_solver. done. }
  rewrite Hin in Hacts. apply slot_actions_first in Hacts.
  apply next_action_inv in Ha as [_ [[Hst _]|[(_ & [? ?] & _)|(_ & _ & Ha)]]]; [done|done|].
  apply dec_stable in H0, H2. subst status pre.
  if_inv; [by subst|]. rewrite bool_decide_eq_true_2 in Ha by done.
  destruct Ha as (o & Ho & ->). rewrite Hacts in Ho. injection Ho as <-.
  rewrite (bool_decide_eq_true_2 (∅ = ∅)), andb_true_r, size_empty by done.
  destruct acts as [|a acts]; [done|]. rewrite bool_decide_eq_false_2 by done.
  rewrite !filter_cons. destruct (decide (is_block a)) as [Hb|Hb].
  - right. done.
  - left. rewrite decide_True by done.
    destruct (Z.to_nat (limit - Z.of_nat 0)) eqn:E; [lia|done].
Qed.
