(* ===== verification/Resolution.v ===== *)
(** * Resolution: decisions on unknown results, cancellation and contract recovery

    Models [src/src/qs_ai/domain/evaluation/resolution.py],
    [src/src/qs_ai/domain/evaluation/cancellation.py] and
    [src/src/qs_ai/domain/evaluation/contract_recovery.py]. *)
From S2P Require Import Prelude PyText PyTime PyHash Failure Checkpoint Completion.
From Stdlib Require Import Ascii.

Local Open Scope string_scope.
Local Open Scope Z_scope.
Local Open Scope py_scope.

(** ** resolution.py *)

Record ResultUnknownResolution : Type := mk_ResultUnknownResolution {
  ru_execution_id : string;
  ru_decision : string;
  ru_actor : string;
  ru_reason : string;
  ru_acknowledged_duplicate_call_and_cost_risk : bool;
  ru_resolved_at : datetime;
}.

(** [not reason.strip() or len(reason.encode()) > 1000 or any(c in reason for c in "<>")] *)
Definition invalid_reason (reason : string) : bool :=
  negb (nonempty (strip reason)) || (1000 <? byte_len reason) || any_char angle_brackets reason.

#[export] Instance ResultUnknownResolution_post_init : Validated ResultUnknownResolution :=
  λ self,
  raise_if (negb (valid_id (ru_execution_id self))
            || negb (valid_id (ru_actor self))
            || ru_decision self not_in ["authorize_replacement"; "cancel_run"]
            || negb (ru_acknowledged_duplicate_call_and_cost_risk self)
            || invalid_reason (ru_reason self)
            || tz_none (ru_resolved_at self)
            || is_none (utcoffset (ru_resolved_at self)))
    (ValueError "Invalid result-unknown resolution audit").

Record UnknownExecution : Type := mk_UnknownExecution {
  ue_execution_id : string;
  ue_kind : string;
  ue_execution_ordinal : Z;
  ue_finished_at : datetime;
}.

#[export] Instance UnknownExecution_post_init : Validated UnknownExecution := λ self,
  raise_if (negb (valid_id (ue_execution_id self))
            || ue_kind self not_in ["generation"; "semantic"]
            || (ue_execution_ordinal self <? 1)
            || tz_none (ue_finished_at self)
            || is_none (utcoffset (ue_finished_at self)))
    (ValueError "Invalid unknown execution evidence").

Record ResolutionProgress : Type := mk_ResolutionProgress {
  rp_status : string;
  rp_unresolved_count : Z;
  rp_resolutions : list ResultUnknownResolution;
}.

(** One item of the check over [prior.items()]; the keys of [resolutions] are distinct there, so
    the items are the resolutions in their order. *)
Definition prior_mismatch
    (executions : gmap string UnknownExecution) (r : ResultUnknownResolution) : res bool :=
  match executions !! ru_execution_id r with
  | None => Ok true
  | Some e => dt_lt (ru_resolved_at r) (ue_finished_at e)
              <orM> Ok (ru_decision r == "cancel_run")
  end.

Definition unknown_limit (target : UnknownExecution) (policy : ExecutionPolicy) : Z :=
  if ue_kind target == "generation" then generation_per_slot policy
  else semantic_per_candidate policy.

Definition resolve_unknown
    (status : string) (unknown_executions : list UnknownExecution)
    (resolutions : list ResultUnknownResolution) (value : ResultUnknownResolution)
    (policy : ExecutionPolicy) : res ResolutionProgress :=
  raise_if (status != "blocked") (ValueError "Blocked Run required") ;;
  let executions := dict_of ue_execution_id unknown_executions in
  let prior := dict_of ru_execution_id resolutions in
  raise_if (negb (Nat.eqb (size executions) (length unknown_executions))
            || negb (Nat.eqb (size prior) (length resolutions)))
    (ValueError "Duplicate execution or resolution evidence") ;;
  raise_ifM (anyM (prior_mismatch executions) resolutions)
    (ValueError "Prior resolution does not match a blocked Run") ;;
  let required := ValueError "Unresolved execution and valid resolution time required" in
  match executions !! ru_execution_id value with
  | None => Err required
  | Some target =>
    raise_ifM (Ok (is_some (prior !! ru_execution_id value))
               <orM> dt_lt (ru_resolved_at value) (ue_finished_at target)) required ;;
    raise_if ((ru_decision value == "authorize_replacement")
              && (unknown_limit target policy <=? ue_execution_ordinal target))
      (ValueError "Frozen recovery budget exhausted") ;;
    let remaining := Z.of_nat (size executions) - Z.of_nat (size prior) - 1 in
    let new_status :=
      if ru_decision value == "cancel_run" then "canceled"
      else if remaining == 0 then "collecting" else "blocked" in
    Ok (mk_ResolutionProgress new_status remaining (resolutions ++ [value])%list)
  end.

(** ** cancellation.py *)

(** [user:[1-9][0-9]*] *)
Definition user_re (s : string) : bool :=
  String.prefix "user:" s &&
  match drop 5 (String.list_ascii_of_string s) with
  | c :: l => in_range "1" "9" c && forallb digit l
  | [] => false
  end.

Record CancellationDecision : Type := mk_CancellationDecision {
  cd_actor : string;
  cd_reason : string;
  cd_discard : bool;
  cd_canceled_at : datetime;
}.

#[export] Instance CancellationDecision_post_init : Validated CancellationDecision := λ self,
  raise_if (negb (user_re (cd_actor self))
            || negb (nonempty (strip (cd_reason self)))
            || cd_reason self != strip (cd_reason self)
            || (1000 <? byte_len (cd_reason self))
            || any_char angle_brackets (cd_reason self)
            || is_none (utcoffset (cd_canceled_at self)))
    (ValueError "Cancellation requires an operator, reason, decision and time").

Definition cancellation_cause
    (self : CancellationDecision) (status : string) (unresolved : Z)
    (checkpoint : option ExecutionCheckpoint) : res string :=
  raise_if (status not_in ["requested"; "collecting"; "blocked"; "awaiting_review"]
            || unresolved != 0
            || negb (Bool.eqb (cd_discard self) (status == "awaiting_review")))
    (ValueError "Run cannot be canceled; resolve unknown calls first") ;;
  match checkpoint with
  | None => Ok tt
  | Some cp =>
    raise_ifM (Ok (cp_phase cp != "prepared" || status != "collecting")
               <orM> dt_lt (cd_canceled_at self) (cp_claimed_at cp))
      (ValueError "Dispatched execution must finish or recover before cancellation")
  end ;;
  Ok (if cd_discard self then "operator_discarded" else "operator_canceled").

(** ** contract_recovery.py *)

Definition RECOVERY_VERSION : string := "semantic-contract-recovery/v1".
Definition RECOVERY_INSTRUCTION : string :=
  "本次重试仅修复语义评判输出契约。必须逐项评判输入 assertions 中的全部检查项，" ++
  "每个 (type, scope, ordinal) 恰好返回一次，不得遗漏、重复或增加检查项。" ++
  "返回前核对 decisions 数量与 assertions 一致；status 必须与 detail 的判断一致。" ++
  "完整返回并不意味着通过：不满足的检查必须如实标记 failed，不得为通过评测改变判断。".
Definition INSTRUCTION_FINGERPRINT : string := fingerprint_of RECOVERY_INSTRUCTION.

Record ContractRecovery : Type := mk_ContractRecovery {
  cr_execution_id : string;
  cr_candidate_id : string;
  cr_candidate_fingerprint : string;
  cr_output_fingerprint : string;
  cr_actor : string;
  cr_reason : string;
  cr_resolved_at : datetime;
  cr_acknowledged_policy_exception_and_cost : bool;
  cr_recovery_version : string;
  cr_instruction_fingerprint : string;
}.

#[export] Instance ContractRecovery_post_init : Validated ContractRecovery := λ self,
  raise_if (negb (forallb valid_id [cr_execution_id self; cr_candidate_id self; cr_actor self])
            || negb (forallb sha_re [cr_candidate_fingerprint self; cr_output_fingerprint self])
            || invalid_reason (cr_reason self)
            || tz_none (cr_resolved_at self)
            || is_none (utcoffset (cr_resolved_at self))
            || negb (cr_acknowledged_policy_exception_and_cost self)
            || cr_recovery_version self != RECOVERY_VERSION
            || cr_instruction_fingerprint self != INSTRUCTION_FINGERPRINT)
    (ValueError "Invalid semantic contract recovery authorization").

Definition recovery_mismatch
    (policy : ExecutionPolicy) (authorized : gset string) (value : ContractRecovery)
    (target : SemanticCompletion) : res bool :=
  Ok (bool_decide (sc_execution_id target ∈ authorized)
      || sc_status target != "failed"
      || match sc_failure target with
         | None => true
         | Some failure =>
           cf_code failure != "semantic_decision_contract_invalid"
           || negb (allows_semantic_retry failure)
           || cf_result_unknown failure
         end
      || is_none (sc_receipt target)
      || negb (nonempty (sc_normalized_output target))
      || sc_candidate_id target != cr_candidate_id value
      || sc_candidate_output_fingerprint target != cr_candidate_fingerprint value
      || output_fingerprint target != cr_output_fingerprint value)
  <orM> dt_lt (cr_resolved_at value) (sc_finished_at target)
  <orM> Ok (semantic_per_candidate policy <=? sc_execution_ordinal target).

Definition successors
    (semantics : list SemanticCompletion) (target : SemanticCompletion)
    : list SemanticCompletion :=
  List.filter (λ s, (sc_candidate_id s == sc_candidate_id target)
                    && (sc_execution_ordinal target <? sc_execution_ordinal s)) semantics.

(** The body of the loop over the recoveries. *)
Definition validate_recovery
    (semantics : list SemanticCompletion) (policy : ExecutionPolicy)
    (authorized : gset string) (value : ContractRecovery) : res (gset string) :=
  let mismatch :=
    ValueError "Recovery requires matching contract failure and remaining budget" in
  match List.find (λ s, sc_execution_id s == cr_execution_id value) semantics with
  | None => Err mismatch
  | Some target =>
    raise_ifM (recovery_mismatch policy authorized value target) mismatch ;;
    raise_ifM (anyM (λ s, dt_lt (sc_started_at s) (cr_resolved_at value))
                 (successors semantics target))
      (ValueError "Semantic retry precedes recovery authorization") ;;
    Ok ({[cr_execution_id value]} ∪ authorized)
  end.

Definition validate_recoveries
    (values : list ContractRecovery) (semantics : list SemanticCompletion)
    (policy : ExecutionPolicy) : res (gset string) :=
  foldM (validate_recovery semantics policy) ∅ values.

Local Close Scope py_scope.

(** ** Resolving unknown results *)

(** When a decision is accepted for a blocked run, stated on the evidence alone. *)
Definition decision_valid
    (unknown : list UnknownExecution) (resolutions : list ResultUnknownResolution)
    (v : ResultUnknownResolution) (policy : ExecutionPolicy) : Prop :=
  ru_execution_id v ∉ ru_execution_id <$> resolutions ∧
  ∃ e, e ∈ unknown ∧ ue_execution_id e = ru_execution_id v ∧
    dt_lt (ru_resolved_at v) (ue_finished_at e) = Ok false ∧
    (ru_decision v = "authorize_replacement" → ue_execution_ordinal e < unknown_limit e policy).

Definition prior_valid
    (unknown : list UnknownExecution) (r : ResultUnknownResolution) : Prop :=
  ru_decision r ≠ "cancel_run" ∧
  ∃ e, e ∈ unknown ∧ ue_execution_id e = ru_execution_id r ∧
    dt_lt (ru_resolved_at r) (ue_finished_at e) = Ok false.

Lemma prior_mismatch_false unknown r :
  NoDup (ue_execution_id <$> unknown) →
  prior_mismatch (dict_of ue_execution_id unknown) r = Ok false ↔ prior_valid unknown r.
Proof.
  intros Hnd. unfold prior_mismatch, prior_valid.
  destruct (dict_of ue_execution_id unknown !! ru_execution_id r) as [e|] eqn:E.
  - rewrite orM_false, Ok_inj, bool_decide_eq_false.
    split.
    + intros [Hlt Hc]. split; [done|]. exists e.
      apply dict_of_lookup_elem in E as [??]. done.
    + intros [Hc (e' & Hin & Hid & Hlt)].
      assert (dict_of ue_execution_id unknown !! ru_execution_id r = Some e') as E'
        by by apply dict_of_lookup_NoDup.
      rewrite E in E'. injection E' as ->. done.
  - split; [done|]. intros [_ (e & Hin & Hid & _)].
    apply dict_of_lookup_None in E. destruct E. rewrite <- Hid. by apply list_elem_of_fmap_2.
Qed.

Lemma resolve_unknown_iff status unknown resolutions v policy st :
  resolve_unknown status unknown resolutions v policy = Ok st ↔
    status = "blocked" ∧ NoDup (ue_execution_id <$> unknown) ∧
    NoDup (ru_execution_id <$> resolutions) ∧ Forall (prior_valid unknown) resolutions ∧
    decision_valid unknown resolutions v policy ∧
    let remaining := len unknown - len resolutions - 1 in
    st = mk_ResolutionProgress
           (if bool_decide (ru_decision v = "cancel_run") then "canceled"
            else if bool_decide (remaining = 0) then "collecting" else "blocked")
           remaining (resolutions ++ [v]).
Proof.
  unfold resolve_unknown.
  rewrite !bind_Ok_unit, !raise_if_Ok, raise_ifM_Ok, orb_false_iff, !negb_false_iff,
    !Nat.eqb_eq, !dict_of_size, bool_decide_eq_true, anyM_false.
  split.
  - intros (-> & [Hu Hr] & Hp & H).
    pose proof (proj2 (dict_of_size _ _) Hu) as Hsu.
    pose proof (proj2 (dict_of_size _ _) Hr) as Hsr.
    destruct (dict_of ue_execution_id unknown !! ru_execution_id v) as [e|] eqn:E; [|done].
    ok_inv. split_and!; try done.
    + apply Forall_forall. intros r Hin. by apply prior_mismatch_false, Hp.
    + split.
      * apply dict_of_lookup_None. by bool_inv.
      * exists e. apply dict_of_lookup_elem in E as [??]. split_and!; try done.
        intros Hd. rename select (_ && _ = false) into Hx.
        rewrite bool_decide_eq_true_2 in Hx by done. cbn in Hx. lia.
    + unfold len. by rewrite Hsu, Hsr.
  - cbv zeta. intros (-> & Hu & Hr & Hp & [Hn (e & Hin & Hid & Hlt & Hb)] & ->).
    pose proof (proj2 (dict_of_size _ _) Hu) as Hsu.
    pose proof (proj2 (dict_of_size _ _) Hr) as Hsr.
    split_and!; try done.
    { intros r Hr'. apply prior_mismatch_false; [done|]. by eapply Forall_forall. }
    assert (dict_of ue_execution_id unknown !! ru_execution_id v = Some e) as ->
      by by apply dict_of_lookup_NoDup.
    apply dict_of_lookup_None in Hn. rewrite Hn. cbn [is_some is_none negb].
    unfold orM. cbn [mbind res_bind]. rewrite Hlt.
    unfold raise_ifM at 1. cbn [mbind res_bind raise_if].
    unfold raise_if.
    destruct (bool_decide_reflect (ru_decision v = "authorize_replacement")) as [Hd|Hd].
    + replace (_ <=? _) with false by (specialize (Hb Hd); lia). cbn [andb mbind res_bind].
      unfold len. by rewrite Hsu, Hsr.
    + cbn [andb mbind res_bind]. unfold len. by rewrite Hsu, Hsr.
Qed.

(** A sequence of decisions applied to one blocked run, as the caller applies them under its
    compare-and-swap: each step sees the status and the resolutions the previous one stored. *)
Section sequences.
Context (unknown : list UnknownExecution) (policy : ExecutionPolicy).

Definition resolve_step (st : ResolutionProgress) (v : ResultUnknownResolution)
  : res ResolutionProgress := resolve_unknown (rp_status st) unknown (rp_resolutions st) v policy.
Definition blocked_start : ResolutionProgress := mk_ResolutionProgress "blocked" (len unknown) [].

(** An authorization that fits the evidence of its own execution. *)
Definition authorization_valid (v : ResultUnknownResolution) : Prop :=
  ru_decision v = "authorize_replacement" ∧
  ∃ e, e ∈ unknown ∧ ue_execution_id e = ru_execution_id v ∧
    dt_lt (ru_resolved_at v) (ue_finished_at e) = Ok false ∧
    ue_execution_ordinal e < unknown_limit e policy.

Definition authorizations_valid (vs : list ResultUnknownResolution) : Prop :=
  NoDup (ue_execution_id <$> unknown) ∧ NoDup (ru_execution_id <$> vs) ∧
  Forall authorization_valid vs.

Definition after_authorizations (vs : list ResultUnknownResolution) : ResolutionProgress :=
  mk_ResolutionProgress (if bool_decide (len unknown = len vs) then "collecting" else "blocked")
    (len unknown - len vs) vs.

Lemma authorized_ids vs :
  Forall authorization_valid vs → ru_execution_id <$> vs ⊆ ue_execution_id <$> unknown.
Proof.
  intros Hv k (v & -> & Hin)%list_elem_of_fmap.
  rewrite Forall_forall in Hv. destruct (Hv v Hin) as (_ & e & He & <- & _).
  by apply list_elem_of_fmap_2.
Qed.

Lemma authorized_length vs : authorizations_valid vs → (length vs ≤ length unknown)%nat.
Proof.
  intros (Hu & Hv & Hall). rewrite <- (length_fmap ru_execution_id vs).
  rewrite <- (length_fmap ue_execution_id unknown).
  apply submseteq_length, NoDup_submseteq; [done|]. by apply authorized_ids.
Qed.

Lemma authorizations_valid_snoc vs v :
  authorizations_valid (vs ++ [v]) ↔
  authorizations_valid vs ∧ authorization_valid v ∧
  ru_execution_id v ∉ ru_execution_id <$> vs.
Proof.
  unfold authorizations_valid. rewrite fmap_app, NoDup_app, Forall_app, Forall_singleton.
  cbn. split.
  - intros (? & (? & Hd & _) & ? & ?). split_and!; try done.
    intros Hin. apply (Hd _ Hin). left.
  - intros ((? & ? & ?) & ? & Hn). split_and!; try done; [|apply NoDup_singleton].
    intros k Hk ->%list_elem_of_singleton. done.
Qed.

Lemma resolve_steps_Ok vs st :
  Forall (λ v, ru_decision v = "authorize_replacement") vs →
  foldM resolve_step blocked_start vs = Ok st ↔
  (vs = [] ∧ st = blocked_start) ∨
  (vs ≠ [] ∧ authorizations_valid vs ∧ st = after_authorizations vs).
Proof.
  revert st. induction vs as [|v vs IH] using rev_ind; intros st Hd.
  { cbn. rewrite Ok_inj. split; [auto|]. intros [[_ ->]|[? _]]; done. }
  apply Forall_app in Hd as [Hd Hv]. rewrite Forall_singleton in Hv.
  rewrite foldM_snoc.
  assert (IH' := λ s, IH s Hd). clear IH. setoid_rewrite IH'. unfold resolve_step.
  setoid_rewrite resolve_unknown_iff. rewrite authorizations_valid_snoc.
  assert (Hdec : bool_decide (ru_decision v = "cancel_run") = false)
    by (rewrite Hv; reflexivity).
  assert (Hfin : ∀ r, mk_ResolutionProgress
      (if bool_decide (ru_decision v = "cancel_run") then "canceled"
       else if bool_decide (len unknown - len r - 1 = 0) then "collecting" else "blocked")
      (len unknown - len r - 1) (r ++ [v]) = after_authorizations (r ++ [v])).
  { intros r. unfold after_authorizations. rewrite Hdec. unfold len. rewrite length_app. cbn.
    f_equal; [|lia]. by rewrite (bool_decide_ext _ (Z.of_nat (length unknown)
      = Z.of_nat (length r + 1))) by lia. }
  split.
  - intros (st1 & Hst1 & (Hs & Hu & Hr & Hp & (Hn & e & He & Hid & Ht & Hb) & ->)).
    right. split; [by destruct vs|].
    assert (rp_resolutions st1 = vs ∧ authorizations_valid vs) as [Hres Hav].
    { destruct Hst1 as [[-> ->]|(_ & ? & ->)]; [|done].
      cbn. split; [done|]. split; [done|]. split; constructor. }
    rewrite Hres in *. cbv zeta. rewrite Hfin. split; [|done].
    split; [exact Hav|]. split; [|exact Hn]. split; [exact Hv|]. exists e; auto.
  - intros [[H _]|(_ & (Hav & [_ (e & He & Hid & Ht & Hb)] & Hn) & ->)]; [by destruct vs|].
    assert (Hlt : (length (vs ++ [v]) ≤ length unknown)%nat).
    { apply authorized_length, authorizations_valid_snoc.
      split; [exact Hav|]. split; [|exact Hn]. split; [exact Hv|]. exists e; auto. }
    rewrite length_app in Hlt. cbn in Hlt.
    exists (if bool_decide (vs = []) then blocked_start else after_authorizations vs).
    assert (rp_resolutions (if bool_decide (vs = []) then blocked_start
                            else after_authorizations vs) = vs) as Hres.
    { destruct (bool_decide_reflect (vs = [])) as [->|]; done. }
    assert (rp_status (if bool_decide (vs = []) then blocked_start
                       else after_authorizations vs) = "blocked") as Hst.
    { destruct (bool_decide_reflect (vs = [])); [done|]. cbn. unfold len.
      by rewrite bool_decide_eq_false_2 by lia. }
    split; [destruct (bool_decide_reflect (vs = [])); auto|].
    rewrite Hres, Hst.
    destruct Hav as (Hu & Hnd & Hall).
    split; [done|]. split; [exact Hu|]. split; [exact Hnd|]. split.
    { eapply Forall_impl; [exact Hall|]. intros r (Hr & e' & ? & ? & ? & _).
      split; [by rewrite Hr|eauto]. }
    split; [split; [exact Hn|]; exists e; auto|]. cbv zeta. by rewrite Hfin.
Qed.
End sequences.

(** authorizing replacements for a blocked run: the decisions that were accepted name
    distinct unknown executions, each inside its frozen budget; the count of unresolved results
    falls by one with each, and the run collects again exactly when every unknown execution has
    its own decision. *)
Theorem resolutions_return_to_collecting unknown policy vs st :
  vs ≠ [] → Forall (λ v, ru_decision v = "authorize_replacement") vs →
  foldM (resolve_step unknown policy) (blocked_start unknown) vs = Ok st →
  authorizations_valid unknown policy vs ∧
  rp_resolutions st = vs ∧ rp_unresolved_count st = len unknown - len vs ∧
  (rp_status st = "collecting" ↔ ru_execution_id <$> vs ≡ₚ ue_execution_id <$> unknown) ∧
  (rp_status st = "collecting" ∨ rp_status st = "blocked").
Proof.
  intros Hne Hd H. apply resolve_steps_Ok in H; [|done].
  destruct H as [[? _]|(_ & Hav & ->)]; [done|]. split; [done|].
  unfold after_authorizations. cbn. split_and!; [done..| |destruct (bool_decide _); auto].
  destruct Hav as (Hu & Hnd & Hall). unfold len.
  destruct (bool_decide_reflect (Z.of_nat (length unknown) = Z.of_nat (length vs))) as [Hl|Hl].
  - split; [|done]. intros _. apply submseteq_length_Permutation;
      [|rewrite !length_fmap; lia].
    apply NoDup_submseteq; [done|]. by eapply authorized_ids.
  - split; [done|]. intros Hp%Permutation_length. rewrite !length_fmap in Hp. lia.
Qed.

(** the order in which operators authorize replacements does not matter: any permutation of
    an accepted sequence is accepted and leaves the run in the same status with the same count,
    holding the same resolutions. *)
Theorem resolutions_commute unknown policy vs vs' st :
  Forall (λ v, ru_decision v = "authorize_replacement") vs → vs ≡ₚ vs' →
  foldM (resolve_step unknown policy) (blocked_start unknown) vs = Ok st →
  ∃ st', foldM (resolve_step unknown policy) (blocked_start unknown) vs' = Ok st' ∧
    rp_status st' = rp_status st ∧ rp_unresolved_count st' = rp_unresolved_count st ∧
    rp_resolutions st' ≡ₚ rp_resolutions st.
Proof.
  intros Hd Hp H. apply resolve_steps_Ok in H; [|done].
  assert (Hd' : Forall (λ v, ru_decision v = "authorize_replacement") vs') by by rewrite <- Hp.
  destruct H as [[-> ->]|(Hne & (Hu & Hnd & Hall) & ->)].
  { apply Permutation_nil in Hp as ->. by eexists. }
  exists (after_authorizations unknown vs'). split.
  { apply resolve_steps_Ok; [done|]. right. split_and!; [|split_and!|done].
    - intros ->. symmetry in Hp. by apply Permutation_nil in Hp.
    - done.
    - by rewrite <- Hp.
    - by rewrite <- Hp. }
  unfold after_authorizations, len. cbn. rewrite (Permutation_length Hp). by split_and!.
Qed.

(** a decision never exceeds the frozen budget, never precedes its evidence and cancels the
    run only when it says so; the remaining evidence is untouched: on every branch that answers,
    the resolutions grow by exactly the accepted one. *)
Theorem resolve_unknown_exact status unknown resolutions v policy st :
  resolve_unknown status unknown resolutions v policy = Ok st ↔
    status = "blocked" ∧ NoDup (ue_execution_id <$> unknown) ∧
    NoDup (ru_execution_id <$> resolutions) ∧ Forall (prior_valid unknown) resolutions ∧
    decision_valid unknown resolutions v policy ∧
    let remaining := len unknown - len resolutions - 1 in
    st = mk_ResolutionProgress
           (if bool_decide (ru_decision v = "cancel_run") then "canceled"
            else if bool_decide (remaining = 0) then "collecting" else "blocked")
           remaining (resolutions ++ [v]).
Proof. apply resolve_unknown_iff. Qed.

(** ** Cancellation *)

(** a run is cancelled only from an open status with no unresolved unknown result, never over
    a dispatched execution, and is recorded as discarded exactly when it was awaiting review. *)
Theorem cancellation_cause_iff self status unresolved checkpoint cause :
  cancellation_cause self status unresolved checkpoint = Ok cause ↔
    unresolved = 0 ∧
    (status = "requested" ∨ status = "collecting" ∨ status = "blocked"
     ∨ status = "awaiting_review") ∧
    (cd_discard self = true ↔ status = "awaiting_review") ∧
    (∀ cp, checkpoint = Some cp → cp_phase cp = "prepared" ∧ status = "collecting" ∧
       dt_lt (cd_canceled_at self) (cp_claimed_at cp) = Ok false) ∧
    cause = if cd_discard self then "operator_discarded" else "operator_canceled".
Proof.
  unfold cancellation_cause.
  rewrite bind_Ok_unit, raise_if_Ok, bind_Ok_unit, Ok_inj, !orb_false_iff, !negb_false_iff,
    !bool_decide_eq_true, elem_of_four, eqb_true_iff.
  rewrite (eq_comm _ cause).
  assert (cd_discard self = bool_decide (status = "awaiting_review") ↔
          (cd_discard self = true ↔ status = "awaiting_review")) as ->.
  { destruct (bool_decide_reflect (status = "awaiting_review")), (cd_discard self);
      intuition congruence. }
  destruct checkpoint as [cp|].
  - rewrite raise_ifM_Ok, orM_false, Ok_inj, orb_false_iff, !negb_false_iff, !bool_decide_eq_true.
    split; [intros; destruct_and?; split_and!; try done; by intros ? [= <-]|].
    intros (? & ? & ? & Hcp & ?). destruct (Hcp cp eq_refl) as (? & ? & ?). tauto.
  - split; [intros; destruct_and?; by split_and!|]. intros; destruct_and?. by split_and!.
Qed.

(** ** Contract recovery *)

Section recovery.
Context (semantics : list SemanticCompletion) (policy : ExecutionPolicy).

(** The failed judgement an authorization is bound to: the first one with its execution id. *)
Definition recovery_target (v : ContractRecovery) : option SemanticCompletion :=
  List.find (λ s, bool_decide (sc_execution_id s = cr_execution_id v)) semantics.

(** What makes an authorization admissible, without the set already authorized. *)
Definition recovery_valid (v : ContractRecovery) : Prop :=
  ∃ t f, recovery_target v = Some t ∧ sc_failure t = Some f ∧
    sc_status t = "failed" ∧ cf_code f = "semantic_decision_contract_invalid" ∧
    allows_semantic_retry f = true ∧ cf_result_unknown f = false ∧
    is_Some (sc_receipt t) ∧ sc_normalized_output t ≠ "" ∧
    sc_candidate_id t = cr_candidate_id v ∧
    sc_candidate_output_fingerprint t = cr_candidate_fingerprint v ∧
    fingerprint_of (sc_normalized_output t) = cr_output_fingerprint v ∧
    dt_lt (cr_resolved_at v) (sc_finished_at t) = Ok false ∧
    sc_execution_ordinal t < semantic_per_candidate policy ∧
    ∀ s, s ∈ semantics → sc_candidate_id s = sc_candidate_id t →
      sc_execution_ordinal t < sc_execution_ordinal s →
      dt_lt (sc_started_at s) (cr_resolved_at v) = Ok false.

Lemma recovery_target_id v t :
  recovery_target v = Some t → sc_execution_id t = cr_execution_id v.
Proof. intros H%List.find_some. by destruct H as [_ H%bool_decide_eq_true]. Qed.

Lemma elem_of_successors s t :
  s ∈ successors semantics t ↔
  s ∈ semantics ∧ sc_candidate_id s = sc_candidate_id t ∧
  sc_execution_ordinal t < sc_execution_ordinal s.
Proof.
  unfold successors. rewrite !list_elem_of_In, List.filter_In, andb_true_iff,
    bool_decide_eq_true, Z.ltb_lt. tauto.
Qed.

Lemma recovery_mismatch_false authorized v t :
  recovery_target v = Some t →
  recovery_mismatch policy authorized v t = Ok false ↔
  cr_execution_id v ∉ authorized ∧
  ∃ f, sc_failure t = Some f ∧
    sc_status t = "failed" ∧ cf_code f = "semantic_decision_contract_invalid" ∧
    allows_semantic_retry f = true ∧ cf_result_unknown f = false ∧
    is_Some (sc_receipt t) ∧ sc_normalized_output t ≠ "" ∧
    sc_candidate_id t = cr_candidate_id v ∧
    sc_candidate_output_fingerprint t = cr_candidate_fingerprint v ∧
    fingerprint_of (sc_normalized_output t) = cr_output_fingerprint v ∧
    dt_lt (cr_resolved_at v) (sc_finished_at t) = Ok false ∧
    sc_execution_ordinal t < semantic_per_candidate policy.
Proof.
  intros Ht%recovery_target_id. unfold recovery_mismatch. rewrite Ht.
  destruct (sc_failure t) as [f|].
  2: { rewrite !orM_false, Ok_inj, !orb_false_iff. split; [intuition congruence|].
       intros [_ (? & ? & _)]. done. }
  rewrite !orM_false, !Ok_inj, !orb_false_iff, !negb_false_iff, !bool_decide_eq_true,
    bool_decide_eq_false, is_none_false, nonempty_true, Z.leb_gt.
  unfold output_fingerprint. split.
  - intros. destruct_and?. split; [done|]. exists f. split_and!; try done.
  - intros [? (f' & [= <-] & ?)]. destruct_and?. split_and!; try done.
Qed.

Lemma validate_recovery_Ok authorized v authorized' :
  validate_recovery semantics policy authorized v = Ok authorized' ↔
  cr_execution_id v ∉ authorized ∧ recovery_valid v ∧
  authorized' = {[cr_execution_id v]} ∪ authorized.
Proof.
  unfold validate_recovery, recovery_valid. fold (recovery_target v).
  destruct (recovery_target v) as [t|] eqn:Ht; [|split; [done|]; naive_solver].
  rewrite !bind_Ok_unit, !raise_ifM_Ok, recovery_mismatch_false, anyM_false by done.
  setoid_rewrite elem_of_successors. split.
  - intros ([? (f & ?)] & Hs & [= <-]). destruct_and?. split; [done|]. split; [|done].
    exists t, f. split_and!; try done. intros s ???. by apply Hs.
  - intros (? & (t' & f & [= <-] & ?) & ->). destruct_and?. split.
    { split; [done|]. exists f. split_and!; done. }
    split; [|done]. intros s (? & ? & ?). auto.
Qed.
End recovery.

(** the recovery authorizations of a run are accepted exactly when they name distinct
    executions and each one repeats the identity, candidate and output of a failed judgement
    whose contract was broken, is not unknown, has budget left and whose retries all started
    after the authorization. *)
Theorem validate_recoveries_iff values semantics policy authorized :
  validate_recoveries values semantics policy = Ok authorized ↔
  NoDup (cr_execution_id <$> values) ∧ Forall (recovery_valid semantics policy) values ∧
  authorized = list_to_set (cr_execution_id <$> values).
Proof.
  unfold validate_recoveries. revert authorized.
  induction values as [|v values IH] using rev_ind; intros authorized.
  { cbn. rewrite Ok_inj. split; [intros <-; split_and!; [constructor..|done]|by intros (_ & _ & ->)]. }
  rewrite foldM_snoc. setoid_rewrite IH. setoid_rewrite validate_recovery_Ok.
  rewrite fmap_app, NoDup_app, Forall_app, Forall_singleton, list_to_set_app_L. cbn. split.
  - intros (s1 & (Hnd & Hall & ->) & Hn & Hv & ->). rewrite elem_of_list_to_set in Hn.
    split_and!; try done; [|apply NoDup_singleton|set_solver].
    by intros k Hk ->%list_elem_of_singleton.
  - intros ((Hnd & Hd & _) & (Hall & Hv) & ->). eexists. split; [done|].
    split_and!; [|done|set_solver].
    rewrite elem_of_list_to_set. intros Hin. apply (Hd _ Hin). left.
Qed.
