(* ===== verification/Preflight.v ===== *)
(** * Preflight: assertion receipts and the evidence of the preflight

    Models [src/src/qs_ai/domain/evaluation/preflight.py]. *)
From S2P Require Import Prelude PyText PyTime.

Local Open Scope string_scope.
Local Open Scope Z_scope.
Local Open Scope py_scope.

Record AssertionReceipt : Type := mk_AssertionReceipt {
  ar_type : string;
  ar_scope : string;
  ar_ordinal : Z;
  ar_hard : bool;
  ar_evaluator : string;
  ar_status : string;
  ar_detail : string;
}.
#[export] Instance AssertionReceipt_eq_dec : EqDecision AssertionReceipt.
Proof. solve_decision. Defined.

#[export] Instance AssertionReceipt_post_init : Validated AssertionReceipt := λ self,
  raise_if (negb (nonempty (strip (ar_type self)))
            || negb (nonempty (strip (ar_evaluator self)))
            || (ar_ordinal self <? 1))
    (ValueError "Invalid assertion identity") ;;
  raise_if (ar_scope self not_in ["default"; "case"]
            || ar_status self not_in ["passed"; "failed"; "pending_semantic"; "blocked"])
    (ValueError "Invalid assertion receipt").

Record PreflightEvidence : Type := mk_PreflightEvidence {
  pe_case_id : string;
  pe_status : string;
  pe_evaluated_at : datetime;
  pe_provider_call_count : Z;
  pe_rejection_reason : string;
  pe_assertions : list AssertionReceipt;
}.

(** [{x.type for x in self.assertions if x.status == "passed"}] *)
Definition passed_types (assertions : list AssertionReceipt) : list string :=
  ar_type <$> List.filter (λ x, ar_status x == "passed") assertions.

#[export] Instance PreflightEvidence_post_init : Validated PreflightEvidence := λ self,
  raise_if (negb (valid_id (pe_case_id self))) (ValueError "Invalid preflight case") ;;
  raise_if (pe_provider_call_count self != 0) (ValueError "Preflight must not call provider") ;;
  raise_if (pe_status self not_in ["passed"; "failed"]
            || tz_none (pe_evaluated_at self) || is_none (utcoffset (pe_evaluated_at self)))
    (ValueError "Terminal preflight requires status and timestamp") ;;
  raise_if (negb (code_re (pe_rejection_reason self)))
    (ValueError "Invalid preflight rejection reason") ;;
  raise_if (negb ((1 <=? len (pe_assertions self)) && (len (pe_assertions self) <=? 16)))
    (ValueError "Preflight assertions required") ;;
  raise_if ((pe_status self == "passed")
            && negb (("provider_call_count" is_in passed_types (pe_assertions self))
                     && ("rejection_reason" is_in passed_types (pe_assertions self))))
    (ValueError "Preflight required assertions did not pass").

(** A passed preflight proves that the rejection happened without a provider call: the receipts
    of both required assertions are in it with status passed. *)
Lemma passed_preflight_inv p :
  constructed p → pe_status p = "passed" →
  pe_provider_call_count p = 0 ∧
  ∀ ty, ty = "provider_call_count" ∨ ty = "rejection_reason" →
    ∃ x, x ∈ pe_assertions p ∧ ar_type x = ty ∧ ar_status x = "passed".
Proof.
  unfold constructed, post_init, PreflightEvidence_post_init. intros H Hs. ok_inv.
  rewrite Hs in *. rewrite bool_decide_eq_true_2 in H by done. cbn [andb] in H. bool_inv.
  split; [by bool_inv|].
  assert (∀ ty, ty ∈ passed_types (pe_assertions p) →
            ∃ a, a ∈ pe_assertions p ∧ ar_type a = ty ∧ ar_status a = "passed") as Hin.
  { intros ty (a & -> & Hx)%list_elem_of_fmap.
    rewrite list_elem_of_In, List.filter_In, <- list_elem_of_In in Hx.
    destruct Hx as [Hx Hp%bool_decide_eq_true]. eauto. }
  intros ty [-> | ->]; auto.
Qed.
