(* ===== verification/Review.v ===== *)
(** * Review: append-only human reviews, their corrections and the adjudicated view

    Models [src/src/qs_ai/domain/evaluation/review.py],
    [src/src/qs_ai/domain/evaluation/adjudication.py] and
    [src/src/qs_ai/domain/evaluation/review_correction.py]. *)
From S2P Require Import Prelude PyText PyTime PyHash PyNum PyJson Completion Preflight.
From Stdlib Require Import Ascii.

Local Open Scope string_scope.
Local Open Scope Z_scope.
Local Open Scope py_scope.

(** ** review.py *)

Definition CONTRADICTION_POLICY : string := "semantic-contradiction-dual-review/v1".

(** [_text] *)
Definition text_ok (value : string) (limit : Z) : bool :=
  nonempty (strip value) && (byte_len value <=? limit) && negb (any_char angle_brackets value).

Record SemanticContradictionReview : Type := mk_SemanticContradictionReview {
  sr_policy_version : string;
  sr_execution_id : string;
  sr_output_fingerprint : string;
  sr_assertion_ordinal : Z;
  sr_original_detail : string;
  sr_candidate_excerpt : string;
  sr_reason : string;
}.
#[export] Instance SemanticContradictionReview_eq_dec : EqDecision SemanticContradictionReview.
Proof. solve_decision. Defined.

#[export] Instance SemanticContradictionReview_post_init :
    Validated SemanticContradictionReview := λ self,
  raise_if (sr_policy_version self != CONTRADICTION_POLICY
            || negb (valid_id (sr_execution_id self))
            || (sr_assertion_ordinal self <? 1)
            || negb (text_ok (sr_original_detail self) 2000)
            || negb (text_ok (sr_candidate_excerpt self) 1000)
            || negb (text_ok (sr_reason self) 1000))
    (ValueError "Invalid semantic contradiction review").

Record CandidateHumanReview : Type := mk_CandidateHumanReview {
  hr_candidate_id : string;
  hr_role : string;
  hr_reviewer : string;
  hr_decision : string;
  hr_reviewed_at : datetime;
  hr_reason : string;
  hr_semantic_review : option SemanticContradictionReview;
}.
#[export] Instance CandidateHumanReview_eq_dec : EqDecision CandidateHumanReview.
Proof. solve_decision. Defined.

#[export] Instance CandidateHumanReview_post_init : Validated CandidateHumanReview := λ self,
  raise_if (negb (valid_id (hr_candidate_id self))
            || negb (valid_id (hr_reviewer self))
            || hr_role self not_in ["assessment_semantics"; "safety_product"]
            || hr_decision self not_in ["approve"; "reject"]
            || negb (aware (hr_reviewed_at self))
            || negb (text_ok (hr_reason self) 1000))
    (ValueError "Invalid candidate human review").

Record ReviewCandidate : Type := mk_ReviewCandidate {
  rc_candidate_id : string;
  rc_accepted_at : datetime;
  rc_normalized_output : string;
  rc_semantic : SemanticCompletion;
  rc_semantic_evaluator : string;
  rc_assertions : list AssertionReceipt;
  rc_semantic_assertions : list AssertionReceipt;
}.

#[export] Instance ReviewCandidate_post_init : Validated ReviewCandidate := λ self,
  raise_ifM (Ok (negb (aware (rc_accepted_at self))
                 || sc_status (rc_semantic self) != "succeeded"
                 || rc_candidate_id self != sc_candidate_id (rc_semantic self))
             <orM> dt_gt (rc_accepted_at self) (sc_started_at (rc_semantic self))
             <orM> Ok (negb (nonempty (rc_normalized_output self))
                       || fingerprint_of (rc_normalized_output self)
                          != sc_candidate_output_fingerprint (rc_semantic self)
                       || (rc_semantic_assertions self == [])
                       || negb (nonempty (strip (rc_semantic_evaluator self)))
                       || (rc_assertions self == [])))
    (ValueError "Review candidate lacks accepted evidence").

(** The test of both comprehensions of [_validate_semantic_review]. *)
Definition disputed_assertion
    (candidate : ReviewCandidate) (ordinal : Z) (detail : string) (a : AssertionReceipt) : bool :=
  ((ar_type a, ar_scope a, ar_ordinal a, ar_status a, ar_detail a)
   == ("forbidden_claims_absent", "default", ordinal, "failed", detail))
  && (ar_evaluator a == rc_semantic_evaluator candidate).

(** [(a.get("type"), ..., a.get("detail")) == expected] *)
Definition decision_matches (ordinal : Z) (detail : string) (a : json) : res bool :=
  ty ← json_get a "type"; scope ← json_get a "scope"; ord ← json_get a "ordinal";
  status ← json_get a "status"; det ← json_get a "detail";
  Ok (json_eqb ty (JStr "forbidden_claims_absent") && json_eqb scope (JStr "default")
      && json_eqb ord (JInt ordinal) && json_eqb status (JStr "failed")
      && json_eqb det (JStr detail)).

(** [sum(p(a) for a in l)] *)
Definition count_true (l : list bool) : Z := len (List.filter id l).

Definition validate_semantic_review
    (value : CandidateHumanReview) (candidate : ReviewCandidate) (gate_policy_version : string)
    : res unit :=
  match hr_semantic_review value with
  | None => Ok tt
  | Some review =>
    let semantic := rc_semantic candidate in
    raise_if (gate_policy_version != "v2"
              || hr_decision value != "approve"
              || sr_execution_id review != sc_execution_id semantic
              || sr_output_fingerprint review != output_fingerprint semantic
              || negb (contains (sr_candidate_excerpt review) (rc_normalized_output candidate)))
      (ValueError "Semantic review does not bind accepted evidence") ;;
    original ← loads_bytes (sc_normalized_output semantic);
    let disputed :=
      disputed_assertion candidate (sr_assertion_ordinal review) (sr_original_detail review) in
    let matches := List.filter disputed (rc_assertions candidate) in
    let semantic_matches := List.filter disputed (rc_semantic_assertions candidate) in
    decisions ← json_get_default original "decisions" (JList []);
    raise_ifM (Ok (len matches != 1) <orM> Ok (len semantic_matches != 1) <orM>
               (items ← iterate decisions;
                found ← mapM (decision_matches (sr_assertion_ordinal review)
                                (sr_original_detail review)) items;
                Ok (count_true found != 1)))
      (ValueError "Original failed forbidden-claims assertion required")
  end.

Record review_seen : Type := mk_review_seen {
  seen_roles : list (string * string);
  seen_reviewers : list (string * string);
}.

(** The body of the loop over the prior reviews and the new ones. *)
Definition check_review
    (targets : gmap string ReviewCandidate) (closed_at : datetime) (gate_policy_version : string)
    (seen : review_seen) (review : CandidateHumanReview) : res review_seen :=
  let outside := ValueError "Review target or timestamp outside closed evidence" in
  match targets !! hr_candidate_id review with
  | None => Err outside
  | Some candidate =>
    raise_ifM (dt_lt (hr_reviewed_at review) closed_at) outside ;;
    let role_key := (hr_candidate_id review, hr_role review) in
    let reviewer_key := (hr_candidate_id review, hr_reviewer review) in
    raise_if ((role_key is_in seen_roles seen) || (reviewer_key is_in seen_reviewers seen))
      (ValueError "Candidate requires unique roles and distinct reviewers") ;;
    validate_semantic_review review candidate gate_policy_version ;;
    Ok (mk_review_seen (role_key :: seen_roles seen) (reviewer_key :: seen_reviewers seen))
  end.

Definition add_human_reviews
    (status : string) (closed_at : datetime) (candidates : list ReviewCandidate)
    (prior values : list CandidateHumanReview) (gate_policy_version : string)
    : res (list CandidateHumanReview) :=
  raise_if (status != "awaiting_review" || negb (aware closed_at)
            || (match candidates with [] => true | _ => false end)
            || (match values with [] => true | _ => false end))
    (ValueError "Closed reviewable Run and nonempty review batch required") ;;
  let targets := dict_of rc_candidate_id candidates in
  raise_ifM (Ok (negb (Nat.eqb (size targets) (length candidates)))
             <orM> anyM (λ c, dt_gt (sc_finished_at (rc_semantic c)) closed_at) candidates)
    (ValueError "Candidate evidence differs from closed Run") ;;
  let result := (prior ++ values)%list in
  foldM (check_review targets closed_at gate_policy_version) (mk_review_seen [] []) result ;;
  Ok result.

(** ** adjudication.py *)

Record SemanticAdjudication : Type := mk_SemanticAdjudication {
  sa_policy_version : string;
  sa_candidate_id : string;
  sa_execution_id : string;
  sa_output_fingerprint : string;
  sa_assertion_type : string;
  sa_assertion_ordinal : Z;
  sa_original_status : string;
  sa_effective_status : string;
  sa_reviewers : string * string;
}.
#[export] Instance SemanticAdjudication_eq_dec : EqDecision SemanticAdjudication.
Proof. solve_decision. Defined.

Record EffectiveCandidateAssertions : Type := mk_EffectiveCandidateAssertions {
  eff_assertions : list AssertionReceipt;
  eff_adjudication : option SemanticAdjudication;
}.

(** [replace(value, status="passed")]: the new status satisfies the constructor. *)
Definition with_status (a : AssertionReceipt) (status : string) : AssertionReceipt :=
  mk_AssertionReceipt (ar_type a) (ar_scope a) (ar_ordinal a) (ar_hard a) (ar_evaluator a)
    status (ar_detail a).

(** [signed[role]]: the last signing review with the role. *)
Definition signs (role : string) (r : CandidateHumanReview) : bool :=
  (hr_role r == role) && (hr_decision r == "approve") && is_some (hr_semantic_review r).
Definition signed (role : string) (reviews : list CandidateHumanReview)
  : option CandidateHumanReview := last (List.filter (signs role) reviews).

Definition signature_identity (r : SemanticContradictionReview) :=
  (sr_policy_version r, sr_execution_id r, sr_output_fingerprint r, sr_assertion_ordinal r,
   sr_original_detail r).

(** [set(signed) == {"assessment_semantics", "safety_product"}]: no signing review has another
    role. *)
Definition only_known_roles (reviews : list CandidateHumanReview) : bool :=
  forallb (λ r, negb ((hr_decision r == "approve") && is_some (hr_semantic_review r))
                || (hr_role r is_in ["assessment_semantics"; "safety_product"])) reviews.

Definition effective_candidate_assertions
    (candidate : ReviewCandidate) (reviews : list CandidateHumanReview) (closed_at : datetime)
    (gate_policy_version : string) : res EffectiveCandidateAssertions :=
  let unchanged := mk_EffectiveCandidateAssertions (rc_assertions candidate) None in
  match reviews with
  | [] => Ok unchanged
  | _ =>
    add_human_reviews "awaiting_review" closed_at [candidate] [] reviews gate_policy_version ;;
    match signed "assessment_semantics" reviews, signed "safety_product" reviews with
    | Some assessment, Some safety =>
      if negb (only_known_roles reviews) then Ok unchanged
      else
        match hr_semantic_review assessment, hr_semantic_review safety with
        | Some a, Some b =>
          if signature_identity a != signature_identity b then Ok unchanged
          else
            let effective :=
              (λ value,
                 if (ar_type value, ar_scope value, ar_ordinal value, ar_status value,
                     ar_detail value, ar_evaluator value)
                    == ("forbidden_claims_absent", "default", sr_assertion_ordinal a, "failed",
                        sr_original_detail a, rc_semantic_evaluator candidate)
                 then with_status value "passed" else value) <$> rc_assertions candidate in
            Ok (mk_EffectiveCandidateAssertions effective
                  (Some (mk_SemanticAdjudication (sr_policy_version a)
                           (rc_candidate_id candidate) (sr_execution_id a)
                           (sr_output_fingerprint a) "forbidden_claims_absent"
                           (sr_assertion_ordinal a) "failed" "passed"
                           (hr_reviewer assessment, hr_reviewer safety))))
        | _, _ => Err AssertionError
        end
    | _, _ => Ok unchanged
    end
  end.

Local Close Scope py_scope.

(** ** The append-only history *)

Definition role_key (r : CandidateHumanReview) : string * string := (hr_candidate_id r, hr_role r).
Definition reviewer_key (r : CandidateHumanReview) : string * string :=
  (hr_candidate_id r, hr_reviewer r).

(** One review fits the closed evidence of its candidate. *)
Definition review_fits
    (candidates : list ReviewCandidate) (closed_at : datetime) (gate : string)
    (r : CandidateHumanReview) : Prop :=
  ∃ c, c ∈ candidates ∧ rc_candidate_id c = hr_candidate_id r ∧
    dt_lt (hr_reviewed_at r) closed_at = Ok false ∧
    validate_semantic_review r c gate = Ok tt.

Definition history_valid
    (candidates : list ReviewCandidate) (closed_at : datetime) (gate : string)
    (l : list CandidateHumanReview) : Prop :=
  NoDup (role_key <$> l) ∧ NoDup (reviewer_key <$> l) ∧
  Forall (review_fits candidates closed_at gate) l.

Definition closed_evidence
    (status : string) (closed_at : datetime) (candidates : list ReviewCandidate) : Prop :=
  status = "awaiting_review" ∧ aware closed_at = true ∧ candidates ≠ [] ∧
  NoDup (rc_candidate_id <$> candidates) ∧
  ∀ c, c ∈ candidates → dt_gt (sc_finished_at (rc_semantic c)) closed_at = Ok false.

Lemma check_review_Ok candidates closed_at gate seen r seen' :
  NoDup (rc_candidate_id <$> candidates) →
  check_review (dict_of rc_candidate_id candidates) closed_at gate seen r = Ok seen' ↔
  review_fits candidates closed_at gate r ∧
  role_key r ∉ seen_roles seen ∧ reviewer_key r ∉ seen_reviewers seen ∧
  seen' = mk_review_seen (role_key r :: seen_roles seen) (reviewer_key r :: seen_reviewers seen).
Proof.
  intros Hnd. unfold check_review, review_fits, role_key, reviewer_key.
  destruct (dict_of rc_candidate_id candidates !! hr_candidate_id r) as [c|] eqn:E.
  - apply dict_of_lookup_NoDup in E as [Hc Hid]; [|done].
    rewrite !bind_Ok_unit, raise_ifM_Ok, raise_if_Ok, orb_false_iff, !bool_decide_eq_false,
      Ok_inj. split.
    + intros (? & [??] & ? & <-). split_and!; try done. by exists c.
    + intros ((c' & Hc' & Hid' & ? & ?) & ? & ? & ->).
      assert (c' = c) as ->; [|done].
      apply (inj Some). rewrite <- (proj2 (dict_of_lookup_NoDup rc_candidate_id candidates
        (hr_candidate_id r) c Hnd) (conj Hc Hid)). symmetry. by apply dict_of_lookup_NoDup.
  - split; [done|]. intros ((c & Hc & Hid & _) & _).
    apply dict_of_lookup_None in E. destruct E. rewrite <- Hid. by apply list_elem_of_fmap_2.
Qed.

Lemma check_reviews_Ok candidates closed_at gate l seen' :
  NoDup (rc_candidate_id <$> candidates) →
  foldM (check_review (dict_of rc_candidate_id candidates) closed_at gate)
    (mk_review_seen [] []) l = Ok seen' ↔
  history_valid candidates closed_at gate l ∧
  seen' = mk_review_seen (reverse (role_key <$> l)) (reverse (reviewer_key <$> l)).
Proof.
  intros Hnd. revert seen'. induction l as [|r l IH] using rev_ind; intros seen'.
  { cbn. rewrite Ok_inj. unfold history_valid. split; [intros <-|intros [_ ->]]; [|done].
    split; [split_and!; constructor|done]. }
  rewrite foldM_snoc. setoid_rewrite IH. setoid_rewrite check_review_Ok; [|done].
  unfold history_valid. rewrite !fmap_app, !NoDup_app, Forall_app, Forall_singleton.
  cbn [fmap list_fmap]. rewrite !reverse_snoc. split.
  - intros (s1 & ((Hr & Hv & Hall) & ->) & Hfit & Hr' & Hv' & ->). cbn in *.
    rewrite elem_of_reverse in Hr', Hv'.
    split; [|done]. split_and!; try done; try apply NoDup_singleton;
      by intros k Hk ->%list_elem_of_singleton.
  - intros (((Hr & Hdr & _) & (Hv & Hdv & _) & Hall & Hfit) & ->).
    eexists. split; [by split_and!|]. cbn. rewrite !elem_of_reverse.
    split_and!; try done; [intros Hin; apply (Hdr _ Hin); left|intros Hin; apply (Hdv _ Hin); left].
Qed.

Lemma add_human_reviews_Ok status closed_at candidates prior values gate result :
  add_human_reviews status closed_at candidates prior values gate = Ok result ↔
  closed_evidence status closed_at candidates ∧ values ≠ [] ∧
  history_valid candidates closed_at gate (prior ++ values) ∧ result = (prior ++ values)%list.
Proof.
  unfold add_human_reviews, closed_evidence.
  rewrite bind_Ok_unit, raise_if_Ok, bind_Ok_unit, raise_ifM_Ok, orM_false, Ok_inj, bind_Ok,
    anyM_false, !orb_false_iff, !negb_false_iff, bool_decide_eq_true, Nat.eqb_eq, dict_of_size.
  assert ((match candidates with [] => true | _ => false end) = false ↔ candidates ≠ [])
    as -> by by destruct candidates.
  assert ((match values with [] => true | _ => false end) = false ↔ values ≠ [])
    as -> by by destruct values.
  split.
  - intros ((((? & ?) & ?) & ?) & (Hnd & ?) & seen & Hf & [= <-]).
    apply check_reviews_Ok in Hf as [? _]; [|done]. split_and!; done.
  - intros ((? & ? & ? & Hnd & ?) & ? & Hh & ->). split_and!; try done.
    eexists. split; [|done]. by apply check_reviews_Ok.
Qed.

Lemma history_valid_prefix candidates closed_at gate l1 l2 :
  history_valid candidates closed_at gate (l1 ++ l2) →
  history_valid candidates closed_at gate l1.
Proof.
  unfold history_valid. rewrite !fmap_app, !NoDup_app, Forall_app. tauto.
Qed.

(** the history of human reviews: a batch is accepted exactly when the run awaits review over
    closed evidence and the whole history it would leave is valid: every review names a
    candidate, comes after the closure, carries only a semantic contradiction bound to that
    candidate's accepted evidence, and no candidate has two reviews of one role or two of one
    reviewer; the accepted history is the old one with the batch appended. *)
Theorem add_human_reviews_iff status closed_at candidates prior values gate result :
  add_human_reviews status closed_at candidates prior values gate = Ok result ↔
  closed_evidence status closed_at candidates ∧ values ≠ [] ∧
  history_valid candidates closed_at gate (prior ++ values) ∧ result = (prior ++ values)%list.
Proof. apply add_human_reviews_Ok. Qed.

(** submitting a batch of reviews at once or one part after the other is the same: the second
    submission is accepted on the history of the first exactly when the joint batch is. *)
Theorem add_human_reviews_incremental status closed_at candidates prior v1 v2 gate result :
  v1 ≠ [] → v2 ≠ [] →
  (r1 ← add_human_reviews status closed_at candidates prior v1 gate;
   add_human_reviews status closed_at candidates r1 v2 gate) = Ok result ↔
  add_human_reviews status closed_at candidates prior (v1 ++ v2) gate = Ok result.
Proof.
  intros H1 H2. rewrite bind_Ok. setoid_rewrite add_human_reviews_Ok.
  assert (v1 ++ v2 ≠ [])%list by by destruct v1.
  split.
  - intros (r1 & (Hc & _ & Hh1 & ->) & _ & _ & Hh & ->). rewrite app_assoc. done.
  - intros (Hc & _ & Hh & ->). exists (prior ++ v1)%list. rewrite <- app_assoc.
    split_and!; try done.
    rewrite app_assoc in Hh. by eapply history_valid_prefix.
Qed.

(** A candidate receives at most one review per role. *)
Lemma reviews_per_candidate l c :
  NoDup (role_key <$> l) → Forall constructed l →
  (length (filter (λ r, hr_candidate_id r = c) l) ≤ 2)%nat.
Proof.
  intros Hnd Hall.
  rewrite <- (length_fmap hr_role).
  change 2%nat with (length ["assessment_semantics"; "safety_product"]).
  apply submseteq_length, NoDup_submseteq.
  - induction l as [|r l IH]; [constructor|].
    apply Forall_cons in Hall as [_ Hall]. rewrite fmap_cons, NoDup_cons in Hnd.
    destruct Hnd as [Hn Hnd]. rewrite filter_cons. case_decide as Hc; [|auto].
    rewrite fmap_cons. constructor; [|auto].
    intros (r' & Hr & [Hc' Hin]%list_elem_of_filter)%list_elem_of_fmap.
    apply Hn. apply list_elem_of_fmap. exists r'. split; [|done].
    unfold role_key. congruence.
  - intros role (r & -> & [_ Hin]%list_elem_of_filter)%list_elem_of_fmap.
    rewrite Forall_forall in Hall. specialize (Hall r Hin).
    unfold constructed, post_init, CandidateHumanReview_post_init in Hall. by py_inv.
Qed.

(** no sequence of accepted batches gives a candidate more than two reviews, and two reviews
    of one candidate are never signed by the same reviewer. *)
Theorem at_most_two_reviews status closed_at candidates prior values gate result c :
  Forall constructed (prior ++ values) →
  add_human_reviews status closed_at candidates prior values gate = Ok result →
  (length (filter (λ r, hr_candidate_id r = c) result) ≤ 2)%nat ∧
  ∀ i j r1 r2, result !! i = Some r1 → result !! j = Some r2 → i ≠ j →
    hr_candidate_id r1 = hr_candidate_id r2 →
    hr_role r1 ≠ hr_role r2 ∧ hr_reviewer r1 ≠ hr_reviewer r2.
Proof.
  intros Hcon H. apply add_human_reviews_Ok in H as (_ & _ & (Hr & Hv & _) & ->).
  split; [by apply reviews_per_candidate|].
  intros i j r1 r2 Hi Hj Hne Hc.
  split; intros Heq; apply Hne;
    [eapply (NoDup_lookup _ i j (role_key r1) Hr)|eapply (NoDup_lookup _ i j (reviewer_key r1) Hv)];
    rewrite list_lookup_fmap, ?Hi, ?Hj; cbn; try done;
    unfold role_key, reviewer_key; by rewrite Hc, Heq.
Qed.

(** ** The adjudicated view *)

Lemma filter_one {A} (p : A → bool) l :
  len (List.filter p l) = 1 →
  ∃ l1 x l2, l = (l1 ++ x :: l2)%list ∧ p x = true ∧
    (∀ y, y ∈ l1 → p y = false) ∧ (∀ y, y ∈ l2 → p y = false).
Proof.
  induction l as [|x l IH]; cbn; [done|]. destruct (p x) eqn:Hp.
  - unfold len. cbn [length]. intros H. exists [], x, l.
    split; [done|]. split; [done|]. split; [set_solver|].
    intros y Hy. destruct (p y) eqn:Hpy; [|done].
    assert (y ∈ List.filter p l) as Hin
      by (rewrite list_elem_of_In, List.filter_In, <- list_elem_of_In; done).
    destruct (List.filter p l); [by apply not_elem_of_nil in Hin|cbn in H; lia].
  - intros H. destruct (IH H) as (l1 & z & l2 & -> & ? & ? & ?).
    exists (x :: l1), z, l2. split; [done|]. split; [done|]. split; [|done].
    intros y [->|?]%elem_of_cons; auto.
Qed.

Lemma map_only_one {A} (p : A → bool) (f : A → A) l1 x l2 :
  p x = true → (∀ y, y ∈ l1 → p y = false) → (∀ y, y ∈ l2 → p y = false) →
  (λ y, if p y then f y else y) <$> (l1 ++ x :: l2)%list = (l1 ++ f x :: l2)%list.
Proof.
  intros Hx H1 H2. rewrite fmap_app, fmap_cons, Hx.
  assert (∀ l, (∀ y, y ∈ l → p y = false) → list_fmap _ _ (λ y, if p y then f y else y) l = l) as Hid.
  { induction l as [|y l IH]; intros Hl; cbn; [done|].
    rewrite (Hl y), IH; [done| |left]. intros z Hz. apply Hl. by right. }
  unfold fmap. by rewrite !Hid.
Qed.

Lemma signed_Some role reviews r :
  signed role reviews = Some r →
  r ∈ reviews ∧ hr_role r = role ∧ hr_decision r = "approve" ∧
  is_Some (hr_semantic_review r).
Proof.
  intros Hl%last_Some_elem_of.
  rewrite list_elem_of_In, List.filter_In, <- list_elem_of_In in Hl. destruct Hl as [? Hs].
  unfold signs in Hs. bool_inv. split_and!; try done; eauto.
Qed.

(** The comparison of the adjudication is the one the review was validated with. *)
Lemma disputed_assertion_eq candidate ordinal detail a :
  disputed_assertion candidate ordinal detail a =
  bool_decide ((ar_type a, ar_scope a, ar_ordinal a, ar_status a, ar_detail a, ar_evaluator a)
    = ("forbidden_claims_absent", "default", ordinal, "failed", detail,
       rc_semantic_evaluator candidate)).
Proof.
  unfold disputed_assertion. rewrite <- bool_decide_and. apply bool_decide_ext.
  rewrite !pair_equal_spec. tauto.
Qed.

Lemma validate_semantic_review_inv r c gate sr :
  hr_semantic_review r = Some sr → validate_semantic_review r c gate = Ok tt →
  gate = "v2" ∧ sr_execution_id sr = sc_execution_id (rc_semantic c) ∧
  sr_output_fingerprint sr = output_fingerprint (rc_semantic c) ∧
  len (List.filter (disputed_assertion c (sr_assertion_ordinal sr) (sr_original_detail sr))
         (rc_assertions c)) = 1.
Proof.
  intros Hs H. unfold validate_semantic_review in H. rewrite Hs in H. by py_inv.
Qed.

(** adjudication never widens evidence: the derived view is the stored one, or it differs in
    exactly one assertion, a failed default forbidden-claims assertion of the semantic evaluator
    turned to passed, and then the gate policy is v2 and two different reviewers, one in each
    role, approved with the same contradiction bound to the accepted judgement. *)
Theorem adjudication_single_flip candidate reviews closed_at gate eff :
  effective_candidate_assertions candidate reviews closed_at gate = Ok eff →
  (eff_assertions eff = rc_assertions candidate ∧ eff_adjudication eff = None) ∨
  ∃ adj r1 r2 l1 a l2,
    eff_adjudication eff = Some adj ∧ gate = "v2" ∧
    r1 ∈ reviews ∧ hr_role r1 = "assessment_semantics" ∧ hr_decision r1 = "approve" ∧
    r2 ∈ reviews ∧ hr_role r2 = "safety_product" ∧ hr_decision r2 = "approve" ∧
    sa_reviewers adj = (hr_reviewer r1, hr_reviewer r2) ∧ hr_reviewer r1 ≠ hr_reviewer r2 ∧
    (∃ s1 s2, hr_semantic_review r1 = Some s1 ∧ hr_semantic_review r2 = Some s2 ∧
       signature_identity s1 = signature_identity s2 ∧
       sr_assertion_ordinal s1 = sa_assertion_ordinal adj) ∧
    sa_execution_id adj = sc_execution_id (rc_semantic candidate) ∧
    rc_assertions candidate = (l1 ++ a :: l2)%list ∧
    eff_assertions eff = (l1 ++ with_status a "passed" :: l2)%list ∧
    ar_type a = "forbidden_claims_absent" ∧ ar_scope a = "default" ∧ ar_status a = "failed" ∧
    ar_ordinal a = sa_assertion_ordinal adj ∧
    ar_evaluator a = rc_semantic_evaluator candidate.
Proof.
  unfold effective_candidate_assertions. destruct reviews as [|r0 reviews0].
  { intros [= <-]. by left. }
  set (reviews := r0 :: reviews0). intros H. apply bind_Ok in H as (res & Hadd & H).
  apply add_human_reviews_Ok in Hadd as (_ & _ & Hh & _). cbn [app] in Hh.
  destruct (signed "assessment_semantics" reviews) as [r1|] eqn:E1; [|ok_inv; by left].
  destruct (signed "safety_product" reviews) as [r2|] eqn:E2; [|ok_inv; by left].
  if_inv; [ok_inv; by left|]. clear Heqb.
  apply signed_Some in E1 as (Hin1 & Hr1 & Hd1 & [a Ha]).
  apply signed_Some in E2 as (Hin2 & Hr2 & Hd2 & [b Hb]).
  rewrite Ha, Hb in H. if_inv; [ok_inv; by left|]. ok_inv. bool_inv. right.
  destruct Hh as (Hroles & Hrev & Hfit). rewrite Forall_forall in Hfit.
  destruct (Hfit r1 Hin1) as (c & ->%list_elem_of_singleton & Hid1 & _ & Hval).
  destruct (Hfit r2 Hin2) as (c & ->%list_elem_of_singleton & Hid2 & _ & _).
  destruct (validate_semantic_review_inv _ _ _ _ Ha Hval) as (Hg & Hex & _ & Hone).
  destruct (filter_one _ _ Hone) as (l1 & x & l2 & Hsplit & Hx & Hl1 & Hl2).
  eexists _, r1, r2, l1, x, l2. split; [reflexivity|]. cbn [sa_reviewers sa_execution_id
    sa_assertion_ordinal eff_assertions].
  rewrite disputed_assertion_eq in Hx. apply bool_decide_eq_true in Hx. injection Hx as Hx1 Hx2 Hx3 Hx4 Hx5 Hx6.
  split_and!; try done.
  - intros Heq. apply list_elem_of_lookup in Hin1 as [i Hi].
    apply list_elem_of_lookup in Hin2 as [j Hj].
    assert (i = j) as ->.
    { eapply (NoDup_lookup _ i j (reviewer_key r1) Hrev); rewrite list_lookup_fmap, ?Hi, ?Hj;
        cbn; [done|]. unfold reviewer_key. congruence. }
    congruence.
  - by exists a, b.
  - rewrite Hsplit.
    setoid_rewrite disputed_assertion_eq in Hl1. setoid_rewrite disputed_assertion_eq in Hl2.
    apply (map_only_one _ (λ v, with_status v "passed")); [|exact Hl1|exact Hl2].
    apply bool_decide_eq_true. by rewrite Hx1, Hx2, Hx3, Hx4, Hx5, Hx6.
Qed.
