(* ===== verification/Correction.v ===== *)
(** * Correction: the audit chain of review corrections

    Models [src/src/qs_ai/domain/evaluation/review_correction.py]: a correction replaces the
    effective review of one candidate and role by a later one of the same reviewer; the signed
    reviews themselves are never edited. *)
From S2P Require Import Prelude PyText PyUuid PyTime PyHash PyJson Completion Preflight Review.
From Stdlib Require Import Ascii.

Local Open Scope string_scope.
Local Open Scope Z_scope.
Local Open Scope py_scope.

(** [asdict(review.semantic_review)] *)
Definition contradiction_definition (s : SemanticContradictionReview) : json :=
  JObj [("policy_version", JStr (sr_policy_version s));
        ("execution_id", JStr (sr_execution_id s));
        ("output_fingerprint", JStr (sr_output_fingerprint s));
        ("assertion_ordinal", JInt (sr_assertion_ordinal s));
        ("original_detail", JStr (sr_original_detail s));
        ("candidate_excerpt", JStr (sr_candidate_excerpt s));
        ("reason", JStr (sr_reason s))].

(** [{**asdict(review), "reviewed_at": review.reviewed_at.isoformat()}] *)
Definition review_definition (review : CandidateHumanReview) : json :=
  JObj [("candidate_id", JStr (hr_candidate_id review));
        ("role", JStr (hr_role review));
        ("reviewer", JStr (hr_reviewer review));
        ("decision", JStr (hr_decision review));
        ("reviewed_at", JStr (isoformat (hr_reviewed_at review)));
        ("reason", JStr (hr_reason review));
        ("semantic_review", match hr_semantic_review review with
                            | Some s => contradiction_definition s
                            | None => JNull
                            end)].

Definition review_fingerprint (review : CandidateHumanReview) : res string :=
  raw ← dumps_with compact_sorted (review_definition review);
  Ok (fingerprint_of raw).

(** [a == b] on reviews: the times are compared as instants. *)
Definition review_eqb (a b : CandidateHumanReview) : bool :=
  ((hr_candidate_id a, hr_role a, hr_reviewer a, hr_decision a)
   == (hr_candidate_id b, hr_role b, hr_reviewer b, hr_decision b))
  && dt_eqb (hr_reviewed_at a) (hr_reviewed_at b)
  && (hr_reason a == hr_reason b)
  && (hr_semantic_review a == hr_semantic_review b).

Record ReviewCorrection : Type := mk_ReviewCorrection {
  rv_command_id : string;
  rv_source_version : Z;
  rv_version : Z;
  rv_previous_review_fingerprint : string;
  rv_candidate_output_fingerprint : string;
  rv_previous_review : CandidateHumanReview;
  rv_review : CandidateHumanReview;
}.

#[export] Instance ReviewCorrection_post_init : Validated ReviewCorrection := λ self,
  let invalid := ValueError "Invalid review correction audit" in
  let previous := rv_previous_review self in
  let review := rv_review self in
  raise_if (negb (canonical_uuid (rv_command_id self))
            || (rv_source_version self <? 1)
            || rv_version self != (rv_source_version self + 1)
            || negb (sha_re (rv_candidate_output_fingerprint self))) invalid ;;
  fingerprint ← review_fingerprint previous;
  raise_ifM (Ok (rv_previous_review_fingerprint self != fingerprint
                 || (hr_candidate_id review, hr_role review, hr_reviewer review)
                    != (hr_candidate_id previous, hr_role previous, hr_reviewer previous))
             <orM> dt_lt (hr_reviewed_at review) (hr_reviewed_at previous)
             <orM> Ok (is_some (hr_semantic_review review)
                       || is_some (hr_semantic_review previous))) invalid.

Record correction_state : Type := mk_correction_state {
  cs_result : list CandidateHumanReview;
  cs_seen : list string;
  cs_counts : gmap (string * string) Z;
  cs_last_version : Z;
}.

(** [[i for i, r in enumerate(result) if (r.candidate_id, r.role) == key]] *)
Definition indices_of (key : string * string) (l : list CandidateHumanReview) : list nat :=
  fst <$> List.filter (λ ir, role_key ir.2 == key) (imap pair l).

(** The body of the loop over the corrections. *)
Definition apply_correction
    (version : Z) (st : correction_state) (entry : ReviewCorrection) : res correction_state :=
  let chain := ValueError "Review correction chain differs from original signatures" in
  let key := role_key (rv_review entry) in
  match indices_of key (cs_result st) with
  | [i] =>
    raise_if (match cs_result st !! i with
              | Some r => negb (review_eqb r (rv_previous_review entry))
              | None => true
              end
              || (rv_command_id entry is_in cs_seen st)
              || (rv_source_version entry <? cs_last_version st)
              || (version <? rv_version entry)) chain ;;
    let count := default 0 (cs_counts st !! key) + 1 in
    raise_if (3 <? count) (ValueError "Review correction limit reached") ;;
    Ok (mk_correction_state (<[i := rv_review entry]> (cs_result st))
          (rv_command_id entry :: cs_seen st) (<[key := count]> (cs_counts st))
          (rv_version entry))
  | _ => Err chain
  end.

Definition effective_reviews
    (original : list CandidateHumanReview) (corrections : list ReviewCorrection) (version : Z)
    : res (list CandidateHumanReview) :=
  raise_if (210 <? len corrections) (ValueError "Review corrections exceed audit bound") ;;
  st ← foldM (apply_correction version) (mk_correction_state original [] ∅ 0) corrections;
  Ok (cs_result st).

(** One iteration of the validation: the correction at position [i] and every prefix. *)
Definition validate_correction
    (original : list CandidateHumanReview) (corrections : list ReviewCorrection)
    (candidates : list ReviewCandidate) (closed_at : datetime) (version : Z) (at_ : datetime)
    (gate_policy_version : string) (i : nat) (entry : ReviewCorrection) : res unit :=
  let unbound := ValueError "Review correction does not bind frozen candidate evidence" in
  match dict_of rc_candidate_id candidates !! hr_candidate_id (rv_review entry) with
  | None => Err unbound
  | Some candidate =>
    raise_ifM (Ok (rv_candidate_output_fingerprint entry
                   != sc_candidate_output_fingerprint (rc_semantic candidate))
               <orM> dt_gt (hr_reviewed_at (rv_review entry)) at_) unbound ;;
    values ← effective_reviews original (take (S i) corrections) version;
    add_human_reviews "awaiting_review" closed_at candidates [] values gate_policy_version ;;
    Ok tt
  end.

Definition validate_corrections
    (original : list CandidateHumanReview) (corrections : list ReviewCorrection)
    (candidates : list ReviewCandidate) (closed_at : datetime) (version : Z) (at_ : datetime)
    (gate_policy_version : string) : res (list CandidateHumanReview) :=
  (if original == [] then Ok tt
   else add_human_reviews "awaiting_review" closed_at candidates [] original
          gate_policy_version ;; Ok tt) ;;
  foldM (λ _ ie, validate_correction original corrections candidates closed_at version at_
                   gate_policy_version ie.1 ie.2) tt (imap pair corrections) ;;
  effective_reviews original corrections version.
Local Close Scope py_scope.

(** ** Properties *)

Definition owner (r : CandidateHumanReview) : string * string * string :=
  (hr_candidate_id r, hr_role r, hr_reviewer r).

Lemma constructed_correction_inv c :
  constructed c →
  owner (rv_review c) = owner (rv_previous_review c) ∧
  rv_version c = rv_source_version c + 1 ∧ 1 <= rv_source_version c ∧
  hr_semantic_review (rv_review c) = None.
Proof.
  unfold constructed, post_init, ReviewCorrection_post_init, owner. intros H. py_inv.
  repeat match goal with H : (_, _, _) = (_, _, _) |- _ => injection H as ? ? ? end.
  split_and!; try done; congruence.
Qed.

Lemma review_eqb_owner a b : review_eqb a b = true → owner a = owner b.
Proof.
  unfold review_eqb, owner. intros H. bool_inv.
  match goal with H : (_, _, _, _) = (_, _, _, _) |- _ => injection H as ? ? ? ? end. congruence.
Qed.

Lemma indices_of_elem key l i :
  i ∈ indices_of key l ↔ ∃ r, l !! i = Some r ∧ role_key r = key.
Proof.
  unfold indices_of. rewrite list_elem_of_fmap. split.
  - intros ([j r] & -> & Hin).
    rewrite list_elem_of_In, List.filter_In, <- list_elem_of_In in Hin.
    destruct Hin as [Hin Hk%bool_decide_eq_true]. exists r. split; [|done].
    apply elem_of_lookup_imap in Hin as (k & r' & [= -> ->] & ?). done.
  - intros (r & Hl & Hk). exists (i, r). split; [done|].
    rewrite list_elem_of_In, List.filter_In, <- list_elem_of_In.
    split; [|by apply bool_decide_eq_true]. apply elem_of_lookup_imap. eauto.
Qed.

(** One accepted correction: where it applies and what it leaves. *)
Lemma apply_correction_inv version st c st' :
  constructed c → apply_correction version st c = Ok st' →
  ∃ i r, cs_result st !! i = Some r ∧ owner r = owner (rv_review c) ∧
    cs_result st' = <[i := rv_review c]> (cs_result st) ∧
    rv_command_id c ∉ cs_seen st ∧ cs_seen st' = rv_command_id c :: cs_seen st ∧
    cs_last_version st < rv_version c <= version ∧ cs_last_version st' = rv_version c ∧
    default 0 (cs_counts st !! role_key (rv_review c)) < 3 ∧
    cs_counts st' = <[role_key (rv_review c) :=
      default 0 (cs_counts st !! role_key (rv_review c)) + 1]> (cs_counts st).
Proof.
  intros Hc H. unfold apply_correction in H.
  destruct (constructed_correction_inv c Hc) as (Hown & Hv & _ & _).
  destruct (indices_of _ _) as [|i [|? ?]] eqn:Hi; [done| |done].
  assert (i ∈ indices_of (role_key (rv_review c)) (cs_result st)) as Hin
    by (rewrite Hi; left).
  apply indices_of_elem in Hin as (r & Hr & Hk). rewrite Hr in H. py_inv.
  exists i, r. cbn. split_and!; try done; try lia.
  rewrite Hown. by apply review_eqb_owner.
Qed.

(** What a chain of accepted corrections leaves of the original signatures. *)
Record chain_inv (version : Z) (original : list CandidateHumanReview)
    (done_ : list ReviewCorrection) (st : correction_state) : Prop := {
  chain_owners : owner <$> cs_result st = owner <$> original;
  chain_seen : cs_seen st = reverse (rv_command_id <$> done_);
  chain_ids : NoDup (rv_command_id <$> done_);
  chain_counts : ∀ key, default 0 (cs_counts st !! key)
    = Z.of_nat (length (filter (λ c, role_key (rv_review c) = key) done_));
  chain_limit : ∀ key, (length (filter (λ c, role_key (rv_review c) = key) done_) ≤ 3)%nat;
  chain_versions : Forall (λ c, rv_version c <= cs_last_version st) done_;
  chain_last : 0 <= cs_last_version st <= Z.max 0 version;
  chain_untouched : ∀ i r, original !! i = Some r →
    (∀ c, c ∈ done_ → role_key (rv_review c) ≠ role_key r) → cs_result st !! i = Some r;
}.

Lemma chain_inv_step version original done_ st c st' :
  constructed c → chain_inv version original done_ st →
  apply_correction version st c = Ok st' → chain_inv version original (done_ ++ [c]) st'.
Proof.
  intros Hc [Ho Hs Hid Hcnt Hlim Hv Hl Hun] H.
  destruct (constructed_correction_inv c Hc) as (_ & Hver & Hsrc & _).
  apply apply_correction_inv in H
    as (i & r & Hr & Hown & Hres & Hn & Hseen & Hw & Hlast & Hlt & Hcounts); [|done].
  rewrite Hcnt in Hlt, Hcounts. split.
  - rewrite Hres, list_fmap_insert, <- Hown, Ho. apply list_insert_id.
    rewrite <- Ho, list_lookup_fmap, Hr. done.
  - by rewrite Hseen, Hs, fmap_app, <- reverse_snoc.
  - rewrite fmap_app, NoDup_app. rewrite Hs, elem_of_reverse in Hn.
    split_and!; [done| |apply NoDup_singleton]. by intros k Hk ->%list_elem_of_singleton.
  - intros key. rewrite filter_app, length_app, Hcounts, filter_cons, filter_nil.
    destruct (decide (role_key (rv_review c) = key)) as [<-|Hne].
    + rewrite lookup_insert_eq. cbn. lia.
    + rewrite lookup_insert_ne by done. rewrite Hcnt. cbn. lia.
  - intros key. rewrite filter_app, length_app, filter_cons, filter_nil.
    destruct (decide (role_key (rv_review c) = key)) as [<-|Hne]; cbn.
    + lia.
    + pose proof (Hlim key). lia.
  - rewrite Forall_app, Forall_singleton, Hlast. split; [|lia].
    eapply Forall_impl; [exact Hv|]. cbn. lia.
  - lia.
  - intros j r' Hj Hne. rewrite Hres.
    assert (Hj' : cs_result st !! j = Some r').
    { apply Hun; [done|]. intros c' Hc'. apply Hne. set_solver. }
    destruct (decide (i = j)) as [->|Hij]; [|by rewrite list_lookup_insert_ne].
    exfalso. rewrite Hr in Hj'. injection Hj' as ->.
    apply (Hne c); [set_solver|]. unfold owner, role_key in *. congruence.
Qed.

Lemma effective_reviews_chain original corrections version result :
  Forall constructed corrections →
  effective_reviews original corrections version = Ok result →
  (length corrections ≤ 210)%nat ∧
  ∃ st, chain_inv version original corrections st ∧ result = cs_result st ∧
    foldM (apply_correction version) (mk_correction_state original [] ∅ 0) corrections = Ok st.
Proof.
  unfold effective_reviews, len. intros Hc H. py_inv. split; [lia|].
  rename select (foldM _ _ _ = _) into Hf. exists x. split; [|done].
  clear H0. revert x Hf. induction corrections as [|c l IH] using rev_ind; intros st Hf.
  - cbn in Hf. injection Hf as <-. split; cbn; try done; try lia; try constructor.
  - apply Forall_app in Hc as [Hl Hc1]. rewrite Forall_singleton in Hc1.
    apply foldM_snoc in Hf as (s1 & Hf & Hstep). eapply chain_inv_step; eauto.
Qed.

(** corrections never change who signed what: after any accepted chain every position holds a
    review of the same candidate, role and reviewer as the original signature, a signature
    without a correction is untouched, no role of a candidate is corrected more than three
    times, commands are distinct and versions stay inside the run's. *)
Theorem corrections_preserve_signatures original corrections version result :
  Forall constructed corrections →
  effective_reviews original corrections version = Ok result →
  owner <$> result = owner <$> original ∧
  NoDup (rv_command_id <$> corrections) ∧
  (∀ key, (length (filter (λ c, role_key (rv_review c) = key) corrections) ≤ 3)%nat) ∧
  Forall (λ c, rv_version c <= Z.max 0 version) corrections ∧
  ∀ i r, original !! i = Some r →
    (∀ c, c ∈ corrections → role_key (rv_review c) ≠ role_key r) → result !! i = Some r.
Proof.
  intros Hc H. destruct (effective_reviews_chain _ _ _ _ Hc H) as (_ & st & [] & -> & _).
  split_and!; try done. eapply Forall_impl; [done|]. cbn. lia.
Qed.

Lemma validate_correction_inv original corrections candidates closed_at version at_ gate i c :
  validate_correction original corrections candidates closed_at version at_ gate i c = Ok tt →
  dt_gt (hr_reviewed_at (rv_review c)) at_ = Ok false ∧
  ∃ values candidate,
    effective_reviews original (take (S i) corrections) version = Ok values ∧
    history_valid candidates closed_at gate values ∧
    candidate ∈ candidates ∧ rc_candidate_id candidate = hr_candidate_id (rv_review c) ∧
    rv_candidate_output_fingerprint c = sc_candidate_output_fingerprint (rc_semantic candidate).
Proof.
  unfold validate_correction. intros H.
  destruct (dict_of _ _ !! _) as [candidate|] eqn:E; [|done].
  apply dict_of_lookup_elem in E as [Hin Hid].
  rewrite bind_Ok_unit, raise_ifM_Ok, orM_false, Ok_inj, negb_false_iff, bool_decide_eq_true in H.
  destruct H as ([Hfp Hat] & H). apply bind_Ok in H as (values & Hv & H).
  apply bind_Ok in H as (r & Hadd & _). apply add_human_reviews_Ok in Hadd as (_ & _ & Hh & _).
  split; [done|]. exists values, candidate. done.
Qed.

(** a validated chain leaves a history that a fresh review batch would accept: the effective
    reviews after the whole chain, and after each of its prefixes, are a valid history over the
    closed evidence, and each correction repeats its candidate's frozen output and is not later
    than the validation. *)
Theorem validated_corrections_history original corrections candidates closed_at version at_ gate result :
  validate_corrections original corrections candidates closed_at version at_ gate = Ok result →
  effective_reviews original corrections version = Ok result ∧
  (original ≠ [] ∨ corrections ≠ [] → history_valid candidates closed_at gate result) ∧
  ∀ i c, corrections !! i = Some c →
    dt_gt (hr_reviewed_at (rv_review c)) at_ = Ok false ∧
    ∃ values candidate,
      effective_reviews original (take (S i) corrections) version = Ok values ∧
      history_valid candidates closed_at gate values ∧
      candidate ∈ candidates ∧ rc_candidate_id candidate = hr_candidate_id (rv_review c) ∧
      rv_candidate_output_fingerprint c
        = sc_candidate_output_fingerprint (rc_semantic candidate).
Proof.
  unfold validate_corrections. rewrite !bind_Ok_unit. intros (Horig & Hall & Hres).
  split; [done|].
  assert (Heach : ∀ i c, corrections !! i = Some c →
    validate_correction original corrections candidates closed_at version at_ gate i c = Ok tt).
  { intros i c Hi. eapply (foldM_unit_elem _ _ Hall (i, c)).
    apply elem_of_lookup_imap. eauto. }
  assert (Hstep : ∀ i c, corrections !! i = Some c → _) by
    (intros i c Hi; exact (validate_correction_inv _ _ _ _ _ _ _ _ _ (Heach i c Hi))).
  split; [|exact Hstep].
  intros Hne. destruct corrections as [|c l _] using rev_ind.
  - destruct (bool_decide_reflect (original = [])) as [->|Hn]; [naive_solver|].
    apply bind_Ok in Horig as (r & Hadd & _).
    apply add_human_reviews_Ok in Hadd as (_ & _ & Hh & _).
    unfold effective_reviews in Hres. cbn in Hres. by injection Hres as <-.
  - destruct (Hstep (length l) c) as (_ & values & cand & Hv & Hh & _).
    { by rewrite lookup_app_r, Nat.sub_diag. }
    rewrite take_ge in Hv by (rewrite length_app; cbn; lia). congruence.
Qed.
