(* ===== verification/Gates.v ===== *)
(** * Gates: the release gates G3 to G5 and the final review

    Models [src/src/qs_ai/domain/evaluation/quality_gates.py],
    [src/src/qs_ai/domain/evaluation/finalization.py] and the frozen rule of
    [src/src/qs_ai/domain/evaluation/acceptance.py]. *)
From S2P Require Import Prelude PyText PyTime PyHash PyNum PyJson Failure Completion Preflight.
From S2P Require Import Review.

Local Open Scope string_scope.
Local Open Scope Z_scope.
Local Open Scope py_scope.

(** ** acceptance.py: the frozen rule *)

Definition RULE_VERSION : string := "candidate-completion/v1".
Definition float_one : float64 := float_of_int 1.
Definition RULE : json :=
  JObj [("version", JStr RULE_VERSION);
        ("base_policy", JStr "release-gates/v2");
        ("g3", JObj [("candidate_completion_rate", JFloat float_one);
                     ("execution_rates", JStr "observation_only")]);
        ("preserve", JList (JStr <$> ["frozen_identity"; "complete_inventory";
                                      "recovery_authorization"; "execution_budgets";
                                      "unresolved_call_rejection"; "candidate_quality";
                                      "human_accountability"]))].
Definition RULE_JSON : string :=
  match dumps_with compact_sorted RULE with Ok s => s | Err _ => "" end.
Definition RULE_FINGERPRINT : string := fingerprint_of RULE_JSON.
Definition rule_document : json :=
  JObj [("version", JStr RULE_VERSION); ("definition_json", JStr RULE_JSON);
        ("fingerprint", JStr RULE_FINGERPRINT)].

Example RULE_JSON_encodes : dumps_with compact_sorted RULE = Ok RULE_JSON.
Proof. vm_compute. reflexivity. Qed.

(** ** quality_gates.py *)

Definition SCORE_NAMES : list string :=
  ["faithfulness"; "cross_dimension_quality"; "suggestion_actionability"; "audience_clarity";
   "concision"].

Record QualityThresholds : Type := mk_QualityThresholds {
  qt_generation_cases : Z;
  qt_candidates_per_case : Z;
  qt_review_count : Z;
  min_infrastructure_rate : num;
  min_contract_rate : num;
  min_semantic_rate : num;
  min_case_passes : Z;
  min_overall_passes : Z;
  minimum_scores : list num;
  minimum_averages : list num;
}.

(** [not math.isfinite(v) or not lo <= v <= hi] *)
Definition number_outside (lo hi : Z) (v : num) : res bool :=
  negM (isfinite v) <orM> Ok (negb (num_le (NInt lo) v && num_le v (NInt hi))).

#[export] Instance QualityThresholds_post_init : Validated QualityThresholds := λ self,
  let counts := [qt_generation_cases self; qt_candidates_per_case self; qt_review_count self;
                 min_case_passes self; min_overall_passes self] in
  let invalid := ValueError "Invalid frozen candidate and review counts" in
  raise_if (existsb (λ n, n <? 1) counts) invalid ;;
  let size := qt_generation_cases self * qt_candidates_per_case self in
  raise_if (qt_review_count self != (size * 2)
            || (qt_candidates_per_case self <? min_case_passes self)
            || (size <? min_overall_passes self)) invalid ;;
  raise_ifM (anyM (number_outside 0 1)
               [min_infrastructure_rate self; min_contract_rate self; min_semantic_rate self])
    (ValueError "Invalid frozen reliability rates") ;;
  foldM (λ _ values,
    raise_ifM (Ok (len values != len SCORE_NAMES) <orM> anyM (number_outside 1 5) values)
      (ValueError "Invalid frozen semantic thresholds"))
    tt [minimum_scores self; minimum_averages self].

Record QualityCandidate : Type := mk_QualityCandidate {
  qc_case_id : string;
  qc_slot_ordinal : Z;
  qc_generation_execution_id : string;
  qc_evidence : ReviewCandidate;
}.

Record GateReason : Type := mk_GateReason {
  gr_gate : string;
  gr_code : string;
  gr_evidence_refs : list string;
}.
#[export] Instance GateReason_eq_dec : EqDecision GateReason.
Proof. solve_decision. Defined.

Record GateMetric : Type := mk_GateMetric {
  gm_name : string;
  gm_numerator : Z;
  gm_denominator : Z;
  gm_value : float64;
  gm_threshold : option num;
}.

Record QualityGateResult : Type := mk_QualityGateResult {
  qg_evaluated_at : datetime;
  qg_gate_passes : list (string * bool);
  qg_metrics : list GateMetric;
  qg_reasons : list GateReason;
  qg_semantic_adjudications : list SemanticAdjudication;
}.

(** *** assertion_outcome *)

Definition group_key (a : AssertionReceipt) : string * string * Z :=
  (ar_scope a, ar_type a, ar_ordinal a).
(** [[hard, passed, failed]] *)
Definition group : Type := bool * bool * bool.
Definition join_group (g : group) (a : AssertionReceipt) : group :=
  let '(hard, passed, failed) := g in
  (hard || (ar_hard a || (ar_scope a == "default")),
   passed || (ar_status a == "passed"),
   failed || (ar_status a is_in ["failed"; "blocked"])).
(** [groups.setdefault(key, [False, False, False])] and its update. *)
Fixpoint add_to_group (groups : list ((string * string * Z) * group)) (a : AssertionReceipt)
  : list ((string * string * Z) * group) :=
  match groups with
  | [] => [(group_key a, join_group (false, false, false) a)]
  | (k, g) :: groups =>
    if k == group_key a then (k, join_group g a) :: groups
    else (k, g) :: add_to_group groups a
  end.
Definition group_step (acc : bool * bool * bool) (kg : (string * string * Z) * group)
  : bool * bool * bool :=
  let '(case_present, case_passed, hard_passed) := acc in
  let '((scope, _, _), (hard, passed, failed)) := kg in
  let effective := passed && negb failed in
  (case_present || (scope == "case"),
   if scope == "case" then case_passed && effective else case_passed,
   if (hard : bool) then hard_passed && effective else hard_passed).
Definition assertion_outcome (assertions : list AssertionReceipt) : bool * bool * bool :=
  foldl group_step (false, true, true) (foldl add_to_group [] assertions).

(** *** Executions of both stages *)

Definition semantic_failure_codes : list string :=
  ["semantic_output_missing_or_too_large"; "semantic_output_schema_invalid";
   "semantic_output_decode_invalid"; "semantic_decision_contract_invalid"].

Definition infrastructure_success
    (status : string) (failure : option ClassifiedFailure) (receipt : option ProviderReceipt)
    : bool :=
  if status == "succeeded" then true
  else
    match failure with
    | Some failure =>
      if status != "failed" || is_none receipt then false
      else if cf_kind failure == "output_contract_conformance" then true
      else (cf_kind failure == "semantic_execution")
           && (cf_code failure is_in semantic_failure_codes)
    | None => false
    end.
Definition generation_infrastructure (g : GenerationCompletion) : bool :=
  infrastructure_success (gc_status g) (gc_failure g) (gc_receipt g).
Definition semantic_infrastructure (s : SemanticCompletion) : bool :=
  infrastructure_success (sc_status s) (sc_failure s) (sc_receipt s).

(** [a == b] on judgements: times are compared as instants. *)
Definition semantic_eqb (a b : SemanticCompletion) : bool :=
  ((sc_execution_id a, sc_candidate_id a, sc_candidate_output_fingerprint a,
    sc_execution_ordinal a, sc_invocation_id a, sc_status a)
   == (sc_execution_id b, sc_candidate_id b, sc_candidate_output_fingerprint b,
       sc_execution_ordinal b, sc_invocation_id b, sc_status b))
  && dt_eqb (sc_started_at a) (sc_started_at b)
  && dt_eqb (sc_finished_at a) (sc_finished_at b)
  && ((sc_provider_call_count a, sc_receipt a, sc_raw_output a, sc_normalized_output a,
       sc_failure a)
      == (sc_provider_call_count b, sc_receipt b, sc_raw_output b, sc_normalized_output b,
          sc_failure b)).

(** [sum(p(x) for x in l)] of a boolean [p] *)
Definition count_if {A} (p : A → bool) (l : list A) : Z := len (List.filter p l).

(** *** The checks before the calculation *)

Definition quality_times
    (reviews : list CandidateHumanReview) (closed_at evaluated_at : datetime) : res unit :=
  raise_ifM (Ok (negb (aware evaluated_at) || negb (aware closed_at))
             <orM> dt_lt evaluated_at closed_at
             <orM> anyM (λ r, dt_gt (hr_reviewed_at r) evaluated_at) reviews)
    (ValueError "Gate time cannot predate closed evidence or reviews").

Definition case_ids (candidates : list QualityCandidate) : list string :=
  remove_dups (qc_case_id <$> candidates).
Definition count_case (candidates : list QualityCandidate) (case_id : string) : Z :=
  count_if (λ c, qc_case_id c == case_id) candidates.

Definition quality_inventory
    (candidates : list QualityCandidate) (thresholds : QualityThresholds) : res unit :=
  raise_if (len (case_ids candidates) != qt_generation_cases thresholds
            || existsb (λ c, count_case candidates c != qt_candidates_per_case thresholds)
                 (case_ids candidates)
            || negb (bool_decide (NoDup ((λ c, (qc_case_id c, qc_slot_ordinal c)) <$> candidates)))
            || existsb (λ c, negb ((1 <=? qc_slot_ordinal c)
                                   && (qc_slot_ordinal c <=? qt_candidates_per_case thresholds)))
                 candidates
            || negb (bool_decide (NoDup ((λ c, rc_candidate_id (qc_evidence c)) <$> candidates))))
    (ValueError "Quality gates require the complete unique candidate inventory").

(** The loop over the candidates that binds each to its executions. *)
Definition quality_candidate_bound
    (generations : list GenerationCompletion) (semantics : list SemanticCompletion)
    (closed_at : datetime) (item : QualityCandidate) : res unit :=
  let differs := ValueError "Quality candidate differs from accepted execution evidence" in
  let evidence := qc_evidence item in
  match dict_of gc_execution_id generations !! qc_generation_execution_id item with
  | None => Err differs
  | Some g =>
    raise_ifM (Ok (gc_status g != "succeeded"
                   || (gc_case_id g, gc_slot_ordinal g) != (qc_case_id item, qc_slot_ordinal item)
                   || gc_normalized_output g != rc_normalized_output evidence
                   || match dict_of sc_execution_id semantics
                            !! sc_execution_id (rc_semantic evidence) with
                      | Some s => negb (semantic_eqb s (rc_semantic evidence))
                      | None => true
                      end)
               <orM> dt_gt (sc_finished_at (rc_semantic evidence)) closed_at) differs
  end.

(** *** G3 *)

Record gate_state : Type := mk_gate_state {
  gs_reasons : list GateReason;
  gs_metrics : list GateMetric;
}.

Definition rate
    (observation : bool) (name : string) (numerator denominator : Z) (minimum : num)
    (code : string) (st : gate_state) : gate_state :=
  let value := if denominator == 0 then S754_zero false else int_truediv numerator denominator in
  let metric := mk_GateMetric (if observation then "observed_" ++ name else name)
                  numerator denominator value (if observation then None else Some minimum) in
  mk_gate_state
    (if negb observation && num_lt (NFloat value) minimum
     then (gs_reasons st ++ [mk_GateReason "G3" code []])%list else gs_reasons st)
    (gs_metrics st ++ [metric]).

Definition add_metric (m : GateMetric) (st : gate_state) : gate_state :=
  mk_gate_state (gs_reasons st) (gs_metrics st ++ [m])%list.

(** The two observation metrics of one stage. *)
Definition observe
    (kind : string) (expected first retries : Z) (st : gate_state) : gate_state :=
  add_metric (mk_GateMetric ("observed_" ++ kind ++ "_retry_count") retries 1
                (int_as_float retries) None)
    (add_metric (mk_GateMetric ("observed_" ++ kind ++ "_first_attempt_success_rate")
                   first expected (int_truediv first expected) None) st).

Definition g3
    (observation : bool) (candidates : list QualityCandidate)
    (generations : list GenerationCompletion) (semantics : list SemanticCompletion)
    (thresholds : QualityThresholds) : gate_state :=
  let dispatched_generations := List.filter (λ g, gc_provider_call_count g == 1) generations in
  let dispatched_semantics := List.filter (λ s, sc_provider_call_count s == 1) semantics in
  let definite := List.filter
    (λ g, nonempty (gc_raw_output g) && gc_status g != "result_unknown") generations in
  let semantic_dispatched :=
    foldr Z.add 0 (sc_provider_call_count <$> semantics) in
  let st := mk_gate_state [] [] in
  let st := rate observation "infrastructure_success_rate"
    (count_if generation_infrastructure dispatched_generations
     + count_if semantic_infrastructure dispatched_semantics)
    (len dispatched_generations + len dispatched_semantics)
    (min_infrastructure_rate thresholds) "infrastructure_success_rate_below_threshold" st in
  let st := rate observation "generation_contract_conformance_rate"
    (count_if (λ g, gc_status g == "succeeded") definite) (len definite)
    (min_contract_rate thresholds) "generation_contract_conformance_rate_below_threshold" st in
  let st := rate observation "semantic_execution_success_rate"
    (count_if (λ s, sc_status s == "succeeded") semantics) semantic_dispatched
    (min_semantic_rate thresholds) "semantic_execution_success_rate_below_threshold" st in
  if observation then
    let expected := qt_generation_cases thresholds * qt_candidates_per_case thresholds in
    let complete :=
      count_if (λ c, sc_status (rc_semantic (qc_evidence c)) == "succeeded") candidates in
    let st := add_metric (mk_GateMetric "candidate_completion_rate" complete expected
                (int_truediv complete expected) (Some (NFloat float_one))) st in
    let st := if complete != expected
      then mk_gate_state
             (gs_reasons st ++ [mk_GateReason "G3" "candidate_completion_incomplete" []])
             (gs_metrics st)
      else st in
    let st := observe "generation" expected
      (count_if (λ r, (gc_execution_ordinal r == 1) && (gc_status r == "succeeded")) generations)
      (count_if (λ r, (1 <? gc_execution_ordinal r) && (gc_provider_call_count r == 1))
         generations) st in
    observe "semantic" expected
      (count_if (λ r, (sc_execution_ordinal r == 1) && (sc_status r == "succeeded")) semantics)
      (count_if (λ r, (1 <? sc_execution_ordinal r) && (sc_provider_call_count r == 1))
         semantics) st
  else st.

(** *** G4 and G5: one candidate *)

(** [set(v)] of a decoded value, as the list of its items: an unhashable item raises. *)
Definition set_items (v : json) : res (list json) :=
  items ← iterate v;
  raise_if (existsb (λ x, is_list x || is_dict x) items) TypeError ;;
  Ok items.
(** [set(scores) != set(SCORE_NAMES)] *)
Definition differs_from_names (items : list json) : bool :=
  negb (forallb (λ x, existsb (λ n, json_eqb x (JStr n)) SCORE_NAMES) items
        && forallb (λ n, existsb (λ x, json_eqb x (JStr n)) items) SCORE_NAMES).

(** [type(v) is not int or not 1 <= v <= 5] *)
Definition score_invalid (v : json) : bool :=
  match v with JInt z => negb ((1 <=? z) && (z <=? 5)) | _ => true end.
Definition score_value (v : json) : Z := match v with JInt z => z | _ => 0 end.

Definition candidate_scores (semantic : SemanticCompletion) : res (list Z) :=
  document ← loads_bytes (sc_normalized_output semantic);
  scores ← json_get_default document "scores" (JObj []);
  items ← set_items scores;
  raise_ifM (Ok (differs_from_names items)
             <orM> anyM (λ k, v ← json_item scores k; Ok (score_invalid v)) SCORE_NAMES)
    (ValueError "Accepted semantic scores are incomplete or invalid") ;;
  mapM (λ k, v ← json_item scores k; Ok (score_value v)) SCORE_NAMES.

(** [any(p(a, b) for a, b in zip(l, k, strict=True))] *)
Fixpoint any_zip_strict {A B} (p : A → B → bool) (l : list A) (k : list B) : res bool :=
  match l, k with
  | [], [] => Ok false
  | x :: l, y :: k => if p x y then Ok true else any_zip_strict p l k
  | _, _ => Err (ValueError "zip() arguments differ in length")
  end.

(** What one iteration of the loop over the candidates contributes. *)
Record candidate_verdict : Type := mk_candidate_verdict {
  cv_adjudication : option SemanticAdjudication;
  cv_reasons : list GateReason;
  cv_case_passed : bool;
  cv_scores : list Z;
}.

Definition reviews_of (reviews : list CandidateHumanReview) (candidate_id : string)
  : list CandidateHumanReview :=
  List.filter (λ r, hr_candidate_id r == candidate_id) reviews.

Definition reject_if (c : bool) (gate code : string) (refs : list string) : list GateReason :=
  if c then [mk_GateReason gate code refs] else [].

Definition REVIEW_ROLES : list string := ["assessment_semantics"; "safety_product"].

Definition judge_candidate
    (reviews : list CandidateHumanReview) (thresholds : QualityThresholds)
    (closed_at : datetime) (item : QualityCandidate) : res candidate_verdict :=
  let candidate := qc_evidence item in
  let id := rc_candidate_id candidate in
  let candidate_reviews := reviews_of reviews id in
  effective ← effective_candidate_assertions candidate candidate_reviews closed_at "v2";
  let '(present, passed, hard_passed) := assertion_outcome (eff_assertions effective) in
  values ← candidate_scores (rc_semantic candidate);
  below ← any_zip_strict (λ v minimum, num_lt (NInt v) minimum) values
            (minimum_scores thresholds);
  let roles := hr_role <$> candidate_reviews in
  Ok (mk_candidate_verdict (eff_adjudication effective)
        (reject_if (negb present) "G4" "candidate_case_assertion_failed" [id]
         ++ reject_if (negb hard_passed) "G4" "candidate_hard_assertion_failed" [id]
         ++ reject_if below "G4" "candidate_semantic_score_below_minimum" [id]
         ++ reject_if (existsb (λ r, hr_decision r == "reject") candidate_reviews)
              "G5" "human_review_rejected" [id]
         ++ foldr (λ role acc,
              (reject_if (role not_in roles) "G5" "human_review_incomplete" [id] ++ acc)%list)
              [] REVIEW_ROLES)
        (present && passed) values).

(** *** The calculation over all candidates *)

Definition case_passes
    (candidates : list QualityCandidate) (verdicts : list candidate_verdict) (case_id : string)
    : Z :=
  count_if (λ cv, (qc_case_id cv.1 == case_id) && cv_case_passed cv.2)
    (zip candidates verdicts).

Fixpoint insert_sorted (s : string) (l : list string) : list string :=
  match l with
  | [] => [s]
  | t :: l' => if String.leb s t then s :: l else t :: insert_sorted s l'
  end.
Definition sorted (l : list string) : list string := foldr insert_sorted [] l.

Definition add_scores (totals values : list Z) : list Z := zip_with Z.add totals values.

Definition unstable_cases
    (candidates : list QualityCandidate) (verdicts : list candidate_verdict)
    (thresholds : QualityThresholds) : list GateReason :=
  foldr (λ case_id acc,
    (reject_if (case_passes candidates verdicts case_id <? min_case_passes thresholds)
      "G4" "case_assertion_stability_failed" [case_id] ++ acc)%list)
    [] (sorted (case_ids candidates)).

Definition total_passes
    (candidates : list QualityCandidate) (verdicts : list candidate_verdict) : Z :=
  foldr Z.add 0 (case_passes candidates verdicts <$> case_ids candidates).

Definition GATES : list string := ["G3"; "G4"; "G5"].
Definition gate_passed (reasons : list GateReason) (g : string) : bool :=
  negb (existsb (λ r, gr_gate r == g) reasons).

Definition evaluate_quality_gates
    (candidates : list QualityCandidate) (generations : list GenerationCompletion)
    (semantics : list SemanticCompletion) (reviews : list CandidateHumanReview)
    (thresholds : QualityThresholds) (closed_at evaluated_at : datetime)
    (acceptance_rule : option string) : res QualityGateResult :=
  raise_if (acceptance_rule not_in [None; Some RULE_VERSION])
    (ValueError "Unsupported acceptance rule") ;;
  quality_times reviews closed_at evaluated_at ;;
  quality_inventory candidates thresholds ;;
  raise_if (negb (bool_decide (NoDup (gc_execution_id <$> generations)))
            || negb (bool_decide (NoDup (sc_execution_id <$> semantics))))
    (ValueError "Execution evidence must be unique") ;;
  foldM (λ _ c, quality_candidate_bound generations semantics closed_at c) tt candidates ;;
  (if reviews == [] then Ok tt
   else add_human_reviews "awaiting_review" closed_at (qc_evidence <$> candidates) [] reviews "v2" ;;
        Ok tt) ;;
  let st := g3 (acceptance_rule == Some RULE_VERSION) candidates generations semantics
              thresholds in
  verdicts ← mapM (judge_candidate reviews thresholds closed_at) candidates;
  let totals := foldl add_scores [0; 0; 0; 0; 0] (cv_scores <$> verdicts) in
  below ← any_zip_strict
            (λ total minimum, num_lt (NFloat (int_truediv total (len candidates))) minimum)
            totals (minimum_averages thresholds);
  let reasons :=
    (gs_reasons st
     ++ (verdicts ≫= cv_reasons)
     ++ unstable_cases candidates verdicts thresholds
     ++ reject_if (total_passes candidates verdicts <? min_overall_passes thresholds)
          "G4" "case_assertion_overall_failed" []
     ++ reject_if below "G4" "semantic_average_below_threshold" []
     ++ reject_if (len reviews != qt_review_count thresholds)
          "G5" "human_review_count_incomplete" [])%list in
  Ok (mk_QualityGateResult evaluated_at ((λ g, (g, gate_passed reasons g)) <$> GATES)
        (gs_metrics st) reasons (omap cv_adjudication verdicts)).

(** ** finalization.py *)

Record FinalReview : Type := mk_FinalReview {
  fr_actor : string;
  fr_reason : string;
  fr_finalized_at : datetime;
  fr_passed : bool;
}.

#[export] Instance FinalReview_post_init : Validated FinalReview := λ self,
  raise_if (negb (valid_id (fr_actor self))
            || negb (nonempty (strip (fr_reason self)))
            || (1000 <? byte_len (fr_reason self))
            || any_char angle_brackets (fr_reason self)
            || tz_none (fr_finalized_at self)
            || is_none (utcoffset (fr_finalized_at self)))
    (ValueError "Invalid final review audit").

Definition final_status (self : FinalReview) : string :=
  if fr_passed self then "approved" else "rejected".

Definition INCOMPLETE_CODES : list string :=
  ["human_review_incomplete"; "human_review_count_incomplete"].

Definition finalize_review
    (quality : QualityGateResult) (actor reason : string) : res FinalReview :=
  let gates : gmap string (string * bool) := dict_of fst (qg_gate_passes quality) in
  raise_if (len (qg_gate_passes quality) != 3
            || negb (bool_decide (dom gates = (list_to_set GATES : gset string)))
            || existsb (λ r, gr_code r is_in INCOMPLETE_CODES) (qg_reasons quality))
    (ValueError "Finalization requires complete validated human review") ;;
  construct (mk_FinalReview actor reason (qg_evaluated_at quality)
               (forallb snd (map_to_list gates).*2)).

Local Close Scope py_scope.
Local Open Scope list_scope.

(** ** Lemmas: the outcome of the assertions *)

(** The assertions of one identity agree that it passed. *)
Definition group_ok (l : list AssertionReceipt) (k : string * string * Z) : Prop :=
  (∃ b, b ∈ l ∧ group_key b = k ∧ ar_status b = "passed") ∧
  ∀ b, b ∈ l → group_key b = k → ar_status b ∉ ["failed"; "blocked"].

(** The flags of a group, declaratively. *)
Definition group_of (l : list AssertionReceipt) (k : string * string * Z) (g : group) : Prop :=
  let '(hard, passed, failed) := g in
  (hard = true ↔ ∃ a, a ∈ l ∧ group_key a = k ∧ (ar_hard a = true ∨ ar_scope a = "default")) ∧
  (passed = true ↔ ∃ a, a ∈ l ∧ group_key a = k ∧ ar_status a = "passed") ∧
  (failed = true ↔ ∃ a, a ∈ l ∧ group_key a = k ∧ ar_status a ∈ ["failed"; "blocked"]).

Definition groups_of (l : list AssertionReceipt) (groups : list ((string * string * Z) * group))
  : Prop :=
  (∀ k, (∃ a, a ∈ l ∧ group_key a = k) ↔ k ∈ groups.*1) ∧
  NoDup groups.*1 ∧ ∀ k g, (k, g) ∈ groups → group_of l k g.

Lemma exists_snoc {A} (P : A → Prop) l a :
  (∃ b, b ∈ l ++ [a] ∧ P b) ↔ (∃ b, b ∈ l ∧ P b) ∨ P a.
Proof.
  setoid_rewrite elem_of_app. setoid_rewrite list_elem_of_singleton. split.
  - intros (b & [?| ->] & ?); eauto.
  - intros [(b & ? & ?)|?]; eauto.
Qed.

Lemma join_group_of l k g a :
  group_of l k g → group_key a = k → group_of (l ++ [a]) k (join_group g a).
Proof.
  destruct g as [[h p] f]. unfold group_of, join_group.
  intros (Hh & Hp & Hf) Hk. rewrite !exists_snoc, !orb_true_iff, !bool_decide_eq_true.
  rewrite Hh, Hp, Hf. tauto.
Qed.

Lemma group_of_other l k g a :
  group_of l k g → group_key a ≠ k → group_of (l ++ [a]) k g.
Proof.
  destruct g as [[h p] f]. unfold group_of.
  intros (Hh & Hp & Hf) Hk. rewrite !exists_snoc, Hh, Hp, Hf. tauto.
Qed.

Lemma group_of_fresh l k a :
  (∀ b, b ∈ l → group_key b ≠ k) → group_key a = k →
  group_of (l ++ [a]) k (join_group (false, false, false) a).
Proof.
  intros Hl Hk. apply join_group_of; [|done]. unfold group_of.
  split_and!; (split; [done|]); intros (b & Hb & Hkb & _); by destruct (Hl b Hb).
Qed.

Lemma add_to_group_keys groups a k :
  k ∈ (add_to_group groups a).*1 ↔ k ∈ groups.*1 ∨ k = group_key a.
Proof.
  induction groups as [|[k' g] groups IH]; cbn.
  - rewrite list_elem_of_singleton. set_solver.
  - destruct (bool_decide_reflect (k' = group_key a)); cbn; rewrite !elem_of_cons; [naive_solver|].
    rewrite IH. tauto.
Qed.

#[local] Opaque group_key.

Lemma add_to_group_elem groups a k g :
  NoDup groups.*1 →
  (k, g) ∈ add_to_group groups a ↔
  (k ≠ group_key a ∧ (k, g) ∈ groups) ∨
  (k = group_key a ∧ ((∃ g0, (k, g0) ∈ groups ∧ g = join_group g0 a) ∨
                      (k ∉ groups.*1 ∧ g = join_group (false, false, false) a))).
Proof.
  induction groups as [|[k' g'] groups IH]; cbn [add_to_group fmap list_fmap]; intros Hnd.
  - rewrite list_elem_of_singleton. split.
    + intros [= -> ->]. right. split; [done|]. right. split; [apply not_elem_of_nil|done].
    + intros [[_ H]|[-> [(g0 & H & _)|[_ ->]]]]; [by apply not_elem_of_nil in H..|done].
  - apply NoDup_cons in Hnd as [Hn Hnd]. cbn in Hn.
    assert (Hin : ∀ x, (k', x) ∈ groups → False).
    { intros x Hx. apply Hn. by apply (list_elem_of_fmap_2 fst _ _ Hx). }
    destruct (bool_decide_reflect (k' = group_key a)) as [->|Hk].
    + rewrite !elem_of_cons, !pair_equal_spec. cbn. split.
      * intros [[-> ->]|H].
        { right. split; [done|]. left. exists g'. by split; [left|]. }
        left. split; [intros ->; by eapply Hin|by right].
      * intros [[? [[-> ->]|H]]|[-> [(g0 & [[_ ->]%pair_equal_spec|H]%elem_of_cons & ->)|[H _]]]];
          auto; [done|by eapply Hin in H|by destruct H; left].
    + rewrite !elem_of_cons, IH, !pair_equal_spec by done. cbn. split.
      * intros [[-> ->]|[[? ?]|[-> [(g0 & ? & ->)|[H ->]]]]].
        { left. auto. }
        { left. auto. }
        { right. split; [done|]. left. exists g0. split; [by right|done]. }
        { right. split; [done|]. right. split; [|done]. intros [?|?]; [congruence|done]. }
      * intros [[? [[-> ->]|H]]|[-> [(g0 & [[? ->]%pair_equal_spec|H]%elem_of_cons & ->)|[H ->]]]];
          auto; [congruence| |].
        { right. right. split; [done|]. left. eauto. }
        { right. right. split; [done|]. right. tauto. }
Qed.

#[local] Transparent group_key.

Lemma groups_of_fold l : groups_of l (foldl add_to_group [] l).
Proof.
  induction l as [|a l (Hk & Hnd & Hg)] using rev_ind.
  { split_and!; [|constructor|intros k g H; by apply not_elem_of_nil in H].
    intros k. split; [intros (a & H & _)|intros H]; by apply not_elem_of_nil in H. }
  rewrite foldl_app. cbn [foldl]. set (groups := foldl add_to_group [] l) in *. split_and!.
  - intros k. rewrite add_to_group_keys, <- Hk, exists_snoc. naive_solver.
  - clear Hk Hg. induction groups as [|[k g] groups IH]; cbn in *; [apply NoDup_singleton|].
    apply NoDup_cons in Hnd as [Hn Hnd].
    destruct (bool_decide_reflect (k = group_key a)); cbn; constructor; auto.
    rewrite add_to_group_keys. tauto.
  - intros k g H. apply add_to_group_elem in H; [|done].
    destruct H as [[Hne H]|[-> [(g0 & H & ->)|[H ->]]]].
    + apply group_of_other; [auto|done].
    + by apply join_group_of; [apply Hg|].
    + apply group_of_fresh; [|done]. intros b Hb Hkb. apply H, Hk. eauto.
Qed.

Lemma group_ok_flags l k hard passed failed :
  group_of l k (hard, passed, failed) → passed && negb failed = true ↔ group_ok l k.
Proof.
  intros (_ & Hp & Hf). unfold group_ok.
  rewrite andb_true_iff, Hp, negb_true_iff, <- not_true_iff_false, Hf.
  split; intros [H1 H2]; (split; [exact H1|]).
  - intros b Hb Hk Hs. apply H2. by exists b.
  - intros (b & Hb & Hk & Hs). by apply (H2 b).
Qed.

Definition group_effective (kg : (string * string * Z) * group) : Prop :=
  kg.2.1.2 && negb kg.2.2 = true.

Lemma group_steps acc groups p cp hp :
  foldl group_step acc groups = (p, cp, hp) →
  (p = true ↔ acc.1.1 = true ∨ Exists (λ kg, kg.1.1.1 = "case") groups) ∧
  (cp = true ↔ acc.1.2 = true ∧ Forall (λ kg, kg.1.1.1 = "case" → group_effective kg) groups) ∧
  (hp = true ↔ acc.2 = true ∧ Forall (λ kg, kg.2.1.1 = true → group_effective kg) groups).
Proof.
  revert acc; induction groups as [|[[[sc ty] o] [[h pa] f]] groups IH]; intros [[a b] c];
    cbn [foldl].
  - intros [= -> -> ->]. cbn. rewrite Exists_nil, !Forall_nil. tauto.
  - intros H. apply IH in H as (-> & -> & ->). unfold group_effective.
    rewrite Exists_cons, !Forall_cons. cbn [group_step fst snd].
    rewrite orb_true_iff, bool_decide_eq_true. split_and!; [tauto| |].
    + destruct (bool_decide_reflect (sc = "case")); [rewrite andb_true_iff|]; tauto.
    + destruct h; [rewrite andb_true_iff|]; intuition congruence.
Qed.

(** The outcome of a candidate's assertions: a case assertion is present, every case identity
    passed, and every identity with a hard or default member passed. *)
Lemma assertion_outcome_spec l p cp hp :
  assertion_outcome l = (p, cp, hp) →
  (p = true ↔ ∃ a, a ∈ l ∧ ar_scope a = "case") ∧
  (cp = true ↔ ∀ a, a ∈ l → ar_scope a = "case" → group_ok l (group_key a)) ∧
  (hp = true ↔ ∀ a, a ∈ l → ar_hard a = true ∨ ar_scope a = "default" →
     group_ok l (group_key a)).
Proof.
  unfold assertion_outcome. intros H.
  destruct (groups_of_fold l) as (Hk & _ & Hg).
  set (groups := foldl add_to_group [] l) in *.
  apply group_steps in H as (-> & -> & ->). cbn [fst snd].
  assert (Hkey : ∀ a, a ∈ l → ∃ g, (group_key a, g) ∈ groups).
  { intros a Ha. assert (group_key a ∈ groups.*1) as Hin by (apply Hk; eauto).
    apply list_elem_of_fmap in Hin as ([k g] & -> & ?). eauto. }
  assert (Hback : ∀ k g, (k, g) ∈ groups → ∃ a, a ∈ l ∧ group_key a = k).
  { intros k g Hin. apply Hk. by apply (list_elem_of_fmap_2 fst _ _ Hin). }
  assert (Heff : ∀ k g, (k, g) ∈ groups → group_effective (k, g) ↔ group_ok l k).
  { intros k [[h pa] f] Hin. unfold group_effective. cbn.
    by eapply group_ok_flags, Hg. }
  rewrite Exists_exists, !Forall_forall. split_and!.
  - split.
    + intros [?|([k g] & Hin & Hs)]; [done|]. destruct (Hback k g Hin) as (a & Ha & <-). eauto.
    + intros (a & Ha & Hs). right. destruct (Hkey a Ha) as [g Hg']. by eexists.
  - split.
    + intros [_ H] a Ha Hs. destruct (Hkey a Ha) as [g Hin].
      apply (Heff _ g Hin). by apply (H (group_key a, g)).
    + intros H. split; [done|]. intros [k g] Hin Hs.
      destruct (Hback k g Hin) as (a & Ha & <-). apply Heff; [done|]. by apply H.
  - split.
    + intros [_ H] a Ha Hs. destruct (Hkey a Ha) as [[[h pa] f] Hin].
      apply (Heff _ _ Hin). apply (H _ Hin). cbn.
      destruct (Hg _ _ Hin) as (Hh & _). apply Hh. eauto.
    + intros H. split; [done|]. intros [k [[h pa] f]] Hin Hh. cbn in Hh. apply Heff; [done|].
      destruct (Hg _ _ Hin) as (Hh' & _). apply Hh' in Hh as (a & Ha & <- & Hs). by apply H.
Qed.

(** ** Lemmas: the reasons of a gate *)

Lemma gate_passed_app l k g : gate_passed (l ++ k) g = gate_passed l g && gate_passed k g.
Proof. unfold gate_passed. by rewrite existsb_app, negb_orb. Qed.

Lemma gate_passed_reject_if c g' code refs g :
  gate_passed (reject_if c g' code refs) g = negb (c && bool_decide (g' = g)).
Proof. destruct c; unfold gate_passed; cbn; [by rewrite orb_false_r|done]. Qed.

Lemma gate_passed_bind {A} (f : A → list GateReason) l g :
  gate_passed (l ≫= f) g = true ↔ ∀ x, x ∈ l → gate_passed (f x) g = true.
Proof.
  induction l as [|x l IH]; cbn.
  - split; [intros _ x Hx; by apply not_elem_of_nil in Hx|done].
  - rewrite gate_passed_app, andb_true_iff, IH. setoid_rewrite elem_of_cons. naive_solver.
Qed.

Lemma gate_passed_foldr {A} (f : A → list GateReason) l g :
  gate_passed (foldr (λ x acc, f x ++ acc) [] l) g = true ↔
  ∀ x, x ∈ l → gate_passed (f x) g = true.
Proof.
  rewrite <- gate_passed_bind. by replace (foldr (λ x acc, f x ++ acc) [] l) with (l ≫= f) by
    (induction l as [|x l IH]; cbn; [done|by rewrite <- IH]).
Qed.

Lemma any_zip_strict_false {A B} (p : A → B → bool) l k :
  any_zip_strict p l k = Ok false ↔ Forall2 (λ x y, p x y = false) l k.
Proof.
  revert k; induction l as [|x l IH]; intros [|y k]; cbn.
  - split; [constructor|done].
  - split; [done|by inversion 1].
  - split; [done|by inversion 1].
  - destruct (p x y) eqn:E; [split; [done|inversion 1; congruence]|].
    rewrite IH, Forall2_cons. tauto.
Qed.

Lemma elem_of_reviews_of r reviews id :
  r ∈ reviews_of reviews id ↔ r ∈ reviews ∧ hr_candidate_id r = id.
Proof.
  unfold reviews_of. by rewrite !list_elem_of_In, List.filter_In, bool_decide_eq_true.
Qed.

Lemma elem_of_insert_sorted s t l : s ∈ insert_sorted t l ↔ s = t ∨ s ∈ l.
Proof.
  induction l as [|u l IH]; cbn; [rewrite list_elem_of_singleton, elem_of_nil; tauto|].
  destruct (String.leb t u); rewrite !elem_of_cons; [tauto|rewrite IH; tauto].
Qed.
Lemma elem_of_sorted s l : s ∈ sorted l ↔ s ∈ l.
Proof.
  induction l as [|t l IH]; [done|]. unfold sorted. cbn.
  rewrite elem_of_insert_sorted, elem_of_cons. unfold sorted in IH. by rewrite IH.
Qed.

(** What a candidate's verdict says of each gate. *)
Lemma judge_candidate_inv reviews thresholds closed_at item v :
  judge_candidate reviews thresholds closed_at item = Ok v →
  ∃ eff present passed hard scores,
    effective_candidate_assertions (qc_evidence item)
      (reviews_of reviews (rc_candidate_id (qc_evidence item))) closed_at "v2" = Ok eff ∧
    assertion_outcome (eff_assertions eff) = (present, passed, hard) ∧
    candidate_scores (rc_semantic (qc_evidence item)) = Ok scores ∧
    cv_scores v = scores ∧ cv_case_passed v = present && passed ∧
    gate_passed (cv_reasons v) "G3" = true ∧
    (gate_passed (cv_reasons v) "G4" = true ↔
       present = true ∧ hard = true ∧
       Forall2 (λ s m, num_lt (NInt s) m = false) scores (minimum_scores thresholds)) ∧
    (gate_passed (cv_reasons v) "G5" = true ↔
       (∀ r, r ∈ reviews_of reviews (rc_candidate_id (qc_evidence item)) →
          hr_decision r ≠ "reject") ∧
       (∀ role, role ∈ REVIEW_ROLES →
          ∃ r, r ∈ reviews_of reviews (rc_candidate_id (qc_evidence item)) ∧ hr_role r = role)).
Proof.
  unfold judge_candidate. intros H. apply bind_Ok in H as (eff & Heff & H).
  destruct (assertion_outcome (eff_assertions eff)) as [[present passed] hard] eqn:Ho.
  apply bind_Ok in H as (scores & Hs & H). apply bind_Ok in H as (below & Hb & [= <-]).
  exists eff, present, passed, hard, scores. cbn [cv_scores cv_case_passed cv_reasons].
  split_and!; try done.
  - by rewrite !gate_passed_app, !gate_passed_reject_if, !andb_false_r.
  - rewrite !gate_passed_app, !gate_passed_reject_if.
    rewrite (bool_decide_eq_false_2 ("G5" = "G4")), !andb_false_r by done.
    rewrite (bool_decide_eq_true_2 ("G4" = "G4")), !andb_true_r by done.
    rewrite <- any_zip_strict_false, Hb.
    destruct present, hard, below; cbn; intuition congruence.
  - rewrite !gate_passed_app, !gate_passed_reject_if.
    rewrite (bool_decide_eq_false_2 ("G4" = "G5")), !andb_false_r by done.
    rewrite (bool_decide_eq_true_2 ("G5" = "G5")), !andb_true_r by done.
    change (negb false) with true.
    rewrite !negb_involutive, !andb_true_iff, negb_true_iff, !bool_decide_eq_true, existsb_false,
      !list_elem_of_fmap.
    setoid_rewrite bool_decide_eq_false. split.
    + intros (_ & _ & _ & Hrej & (r1 & ? & ?) & (r2 & ? & ?)). split; [done|].
      intros role [-> | ->]%elem_of_two; [exists r1|exists r2]; done.
    + intros [Hrej Hr]. split_and!; try done.
      * destruct (Hr "assessment_semantics") as (r & ? & ?); [left|]. by exists r.
      * destruct (Hr "safety_product") as (r & ? & ?); [right; left|]. by exists r.
Qed.

Definition passes (q : QualityGateResult) (g : string) : Prop := (g, true) ∈ qg_gate_passes q.

Lemma evaluate_inv candidates generations semantics reviews thresholds closed_at at_ rule q :
  evaluate_quality_gates candidates generations semantics reviews thresholds closed_at at_ rule
    = Ok q →
  ∃ verdicts below,
    quality_inventory candidates thresholds = Ok tt ∧
    (∀ c, c ∈ candidates → quality_candidate_bound generations semantics closed_at c = Ok tt) ∧
    (reviews ≠ [] → history_valid (qc_evidence <$> candidates) closed_at "v2" reviews) ∧
    Forall2 (λ c v, judge_candidate reviews thresholds closed_at c = Ok v) candidates verdicts ∧
    any_zip_strict
      (λ total minimum, num_lt (NFloat (int_truediv total (len candidates))) minimum)
      (foldl add_scores [0; 0; 0; 0; 0] (cv_scores <$> verdicts))
      (minimum_averages thresholds) = Ok below ∧
    qg_evaluated_at q = at_ ∧
    qg_gate_passes q = (λ g, (g, gate_passed (qg_reasons q) g)) <$> GATES ∧
    qg_reasons q =
      gs_reasons (g3 (bool_decide (rule = Some RULE_VERSION)) candidates generations semantics
                    thresholds)
      ++ (verdicts ≫= cv_reasons) ++ unstable_cases candidates verdicts thresholds
      ++ reject_if (total_passes candidates verdicts <? min_overall_passes thresholds)
           "G4" "case_assertion_overall_failed" []
      ++ reject_if below "G4" "semantic_average_below_threshold" []
      ++ reject_if (negb (bool_decide (len reviews = qt_review_count thresholds)))
           "G5" "human_review_count_incomplete" [].
Proof.
  unfold evaluate_quality_gates. intros H.
  apply bind_Ok_unit in H as [_ H]. apply bind_Ok_unit in H as [_ H].
  apply bind_Ok_unit in H as [Hinv H]. apply bind_Ok_unit in H as [_ H].
  apply bind_Ok_unit in H as [Hb H]. apply bind_Ok_unit in H as [Hr H].
  apply bind_Ok in H as (verdicts & Hv & H). apply bind_Ok in H as (below & Hbelow & [= <-]).
  exists verdicts, below. split_and!; try done.
  - by apply foldM_unit_elem.
  - intros Hne. rewrite bool_decide_eq_false_2 in Hr by done.
    apply bind_Ok in Hr as (? & Hadd & _).
    by apply add_human_reviews_Ok in Hadd as (_ & _ & ? & _).
  - by apply mapM_Ok.
Qed.

Lemma passes_gate_passed q g :
  qg_gate_passes q = (λ g, (g, gate_passed (qg_reasons q) g)) <$> GATES → g ∈ GATES →
  passes q g ↔ gate_passed (qg_reasons q) g = true.
Proof.
  intros Hq Hg. unfold passes. rewrite Hq, list_elem_of_fmap. split.
  - by intros (? & [= -> <-] & _).
  - intros H. exists g. by rewrite H.
Qed.

(** ** The human gate *)

Definition human_complete (reviews : list CandidateHumanReview) (id : string) : Prop :=
  ∃ r1 r2, r1 ∈ reviews ∧ r2 ∈ reviews ∧
    hr_candidate_id r1 = id ∧ hr_candidate_id r2 = id ∧
    hr_role r1 = "assessment_semantics" ∧ hr_role r2 = "safety_product" ∧
    hr_decision r1 = "approve" ∧ hr_decision r2 = "approve" ∧
    hr_reviewer r1 ≠ hr_reviewer r2 ∧
    ∀ r, r ∈ reviews → hr_candidate_id r = id → r = r1 ∨ r = r2.

Lemma NoDup_key_inj {A B} (f : A → B) l x y :
  NoDup (f <$> l) → x ∈ l → y ∈ l → f x = f y → x = y.
Proof.
  intros Hnd [i Hi]%list_elem_of_lookup [j Hj]%list_elem_of_lookup Hf.
  assert (i = j) as ->; [|congruence].
  eapply (NoDup_lookup _ i j (f x) Hnd); rewrite list_lookup_fmap, ?Hi, ?Hj; cbn; congruence.
Qed.

Lemma constructed_review_inv r :
  constructed r →
  (hr_role r = "assessment_semantics" ∨ hr_role r = "safety_product") ∧
  (hr_decision r = "approve" ∨ hr_decision r = "reject").
Proof.
  unfold constructed, post_init, CandidateHumanReview_post_init. intros H. py_inv.
  by rewrite <- !elem_of_two.
Qed.

Lemma human_complete_iff candidates closed_at reviews id :
  Forall constructed reviews →
  (reviews ≠ [] → history_valid candidates closed_at "v2" reviews) →
  human_complete reviews id ↔
  (∀ r, r ∈ reviews_of reviews id → hr_decision r ≠ "reject") ∧
  (∀ role, role ∈ REVIEW_ROLES → ∃ r, r ∈ reviews_of reviews id ∧ hr_role r = role).
Proof.
  intros Hc Hh. rewrite Forall_forall in Hc. setoid_rewrite elem_of_reviews_of. split.
  - intros (r1 & r2 & ? & ? & ? & ? & Hr1 & Hr2 & Hd1 & Hd2 & _ & Hall). split.
    + intros r [Hr Hid]. destruct (Hall r Hr Hid) as [-> | ->]; congruence.
    + intros role [-> | ->]%elem_of_two; eauto.
  - intros [Hrej Hroles].
    destruct (Hroles "assessment_semantics") as (r1 & [Hin1 Hid1] & Hr1); [left|].
    destruct (Hroles "safety_product") as (r2 & [Hin2 Hid2] & Hr2); [right; left|].
    destruct Hh as (Hrk & Hvk & _); [by intros ->; apply not_elem_of_nil in Hin1|].
    assert (Happ : ∀ r, r ∈ reviews → hr_candidate_id r = id → hr_decision r = "approve").
    { intros r Hr Hid. destruct (constructed_review_inv r (Hc r Hr)) as [_ [?|?]]; [done|].
      by destruct (Hrej r). }
    exists r1, r2. split_and!; try done; auto.
    + intros Heq. assert (r1 = r2) as ->; [|congruence].
      apply (NoDup_key_inj reviewer_key reviews); try done. unfold reviewer_key. congruence.
    + intros r Hr Hid.
      destruct (constructed_review_inv r (Hc r Hr)) as [[Hrr|Hrr] _]; [left|right];
        apply (NoDup_key_inj role_key reviews); try done; unfold role_key; congruence.
Qed.

(** *** Where each gate's reasons come from *)

Definition rate_value (numerator denominator : Z) : float64 :=
  if bool_decide (denominator = 0) then S754_zero false else int_truediv numerator denominator.

Lemma rate_passed observation name n d minimum code st g :
  gate_passed (gs_reasons (rate observation name n d minimum code st)) g =
  gate_passed (gs_reasons st) g &&
  negb (negb observation && num_lt (NFloat (rate_value n d)) minimum && bool_decide ("G3" = g)).
Proof.
  unfold rate, rate_value. cbn [gs_reasons].
  destruct (negb observation && _); cbn [andb negb].
  - rewrite gate_passed_app. unfold gate_passed at 2. cbn. by rewrite orb_false_r.
  - by rewrite andb_true_r.
Qed.

Lemma g3_other observation candidates generations semantics thresholds g :
  g ≠ "G3" → gate_passed (gs_reasons (g3 observation candidates generations semantics
                                        thresholds)) g = true.
Proof.
  intros Hg. unfold g3. destruct observation; cbn [observe add_metric gs_reasons].
  - destruct (negb _); cbn [gs_reasons add_metric].
    + rewrite gate_passed_app, !rate_passed, (bool_decide_eq_false_2 ("G3" = g)), !andb_false_r
        by done.
      unfold gate_passed. cbn. by rewrite bool_decide_eq_false_2.
    + rewrite !rate_passed, (bool_decide_eq_false_2 ("G3" = g)), !andb_false_r by done. done.
  - rewrite !rate_passed. rewrite bool_decide_eq_false_2 by done. by rewrite !andb_false_r.
Qed.

Lemma unstable_passed candidates verdicts thresholds g :
  gate_passed (unstable_cases candidates verdicts thresholds) g = true ↔
  g ≠ "G4" ∨ ∀ id, id ∈ qc_case_id <$> candidates →
    min_case_passes thresholds <= case_passes candidates verdicts id.
Proof.
  unfold unstable_cases.
  rewrite (gate_passed_foldr (λ id, reject_if _ "G4" "case_assertion_stability_failed" [id])).
  setoid_rewrite gate_passed_reject_if. setoid_rewrite elem_of_sorted.
  unfold case_ids. setoid_rewrite elem_of_remove_dups.
  destruct (decide (g = "G4")) as [->|Hg].
  - rewrite bool_decide_eq_true_2 by done. setoid_rewrite andb_true_r.
    setoid_rewrite negb_true_iff. setoid_rewrite Z.ltb_ge. naive_solver.
  - rewrite bool_decide_eq_false_2 by congruence. setoid_rewrite andb_false_r. naive_solver.
Qed.

Lemma mem_gates g : g = "G3" ∨ g = "G4" ∨ g = "G5" → g ∈ GATES.
Proof. intros H. by apply elem_of_three. Qed.

(** Each gate of a calculation, as the conjunction of its sources. *)
Lemma gate_sources candidates generations semantics reviews thresholds closed_at at_ rule q g :
  evaluate_quality_gates candidates generations semantics reviews thresholds closed_at at_ rule
    = Ok q → g = "G3" ∨ g = "G4" ∨ g = "G5" →
  ∃ verdicts below,
    Forall2 (λ c v, judge_candidate reviews thresholds closed_at c = Ok v) candidates verdicts ∧
    any_zip_strict
      (λ total minimum, num_lt (NFloat (int_truediv total (len candidates))) minimum)
      (foldl add_scores [0; 0; 0; 0; 0] (cv_scores <$> verdicts))
      (minimum_averages thresholds) = Ok below ∧
    (passes q g ↔
      gate_passed (gs_reasons (g3 (bool_decide (rule = Some RULE_VERSION)) candidates generations
                                 semantics thresholds)) g = true ∧
      (∀ v, v ∈ verdicts → gate_passed (cv_reasons v) g = true) ∧
      (g = "G4" →
        (∀ id, id ∈ qc_case_id <$> candidates →
           min_case_passes thresholds <= case_passes candidates verdicts id) ∧
        min_overall_passes thresholds <= total_passes candidates verdicts ∧ below = false) ∧
      (g = "G5" → len reviews = qt_review_count thresholds)).
Proof.
  intros H Hg. destruct (evaluate_inv _ _ _ _ _ _ _ _ _ H)
    as (verdicts & below & _ & _ & _ & Hv & Hb & _ & Hp & Hr).
  exists verdicts, below. split; [done|]. split; [done|].
  rewrite passes_gate_passed, Hr by auto using mem_gates.
  rewrite !gate_passed_app, !gate_passed_reject_if, !andb_true_iff, gate_passed_bind,
    unstable_passed.
  destruct Hg as [-> | [-> | ->]].
  - rewrite !(bool_decide_eq_false_2 (_ = "G3")), !andb_false_r by done. naive_solver.
  - rewrite (bool_decide_eq_true_2 ("G4" = "G4")), (bool_decide_eq_false_2 ("G5" = "G4")),
      !andb_true_r, !andb_false_r, !negb_true_iff, Z.ltb_ge by done.
    split; [|intuition congruence].
    intros (? & ? & [?|?] & ? & ? & _); [done|]. by split_and!.
  - rewrite (bool_decide_eq_true_2 ("G5" = "G5")), (bool_decide_eq_false_2 ("G4" = "G5")),
      !andb_true_r, !andb_false_r, negb_involutive, bool_decide_eq_true by done.
    split; [intros (? & ? & _ & _ & _ & ?); by split_and!|].
    intros (? & ? & _ & Hl). split_and!; try done; auto.
Qed.

(** gate G5 passes exactly when every candidate of the inventory holds one approving review of
    each role by two different reviewers and nothing else, and the count is the frozen one. *)
Theorem g5_exact candidates generations semantics reviews thresholds closed_at at_ rule q :
  Forall constructed reviews →
  evaluate_quality_gates candidates generations semantics reviews thresholds closed_at at_ rule
    = Ok q →
  passes q "G5" ↔
  (∀ c, c ∈ candidates → human_complete reviews (rc_candidate_id (qc_evidence c))) ∧
  len reviews = qt_review_count thresholds.
Proof.
  intros Hc H. destruct (evaluate_inv _ _ _ _ _ _ _ _ _ H) as (_ & _ & _ & _ & Hh & _).
  destruct (gate_sources _ _ _ _ _ _ _ _ _ "G5" H) as (verdicts & below & Hv & _ & ->); [tauto|].
  rewrite g3_other by done. split.
  - intros (_ & Hall & _ & Hl). split; [|auto]. intros c Hin.
    apply list_elem_of_lookup in Hin as [i Hi].
    destruct (Forall2_lookup_l _ _ _ _ _ Hv Hi) as (v & Hvi & Hj).
    apply judge_candidate_inv in Hj as (? & ? & ? & ? & ? & _ & _ & _ & _ & _ & _ & _ & H5).
    rewrite human_complete_iff by done. apply H5, Hall. by eapply list_elem_of_lookup_2.
  - intros [Hall Hl]. split_and!; try done. intros v Hin.
    apply list_elem_of_lookup in Hin as [i Hi].
    destruct (Forall2_lookup_r _ _ _ _ _ Hv Hi) as (c & Hci & Hj).
    apply judge_candidate_inv in Hj as (? & ? & ? & ? & ? & _ & _ & _ & _ & _ & _ & _ & H5).
    apply H5. rewrite <- human_complete_iff by done. apply Hall.
    by eapply list_elem_of_lookup_2.
Qed.

(** The quality of one candidate, on the adjudicated view of its assertions. *)
Definition candidate_quality
    (reviews : list CandidateHumanReview) (thresholds : QualityThresholds)
    (closed_at : datetime) (c : QualityCandidate) : Prop :=
  ∃ eff scores,
    effective_candidate_assertions (qc_evidence c)
      (reviews_of reviews (rc_candidate_id (qc_evidence c))) closed_at "v2" = Ok eff ∧
    (∃ a, a ∈ eff_assertions eff ∧ ar_scope a = "case") ∧
    (∀ a, a ∈ eff_assertions eff → ar_hard a = true ∨ ar_scope a = "default" →
       group_ok (eff_assertions eff) (group_key a)) ∧
    candidate_scores (rc_semantic (qc_evidence c)) = Ok scores ∧
    Forall2 (λ s m, num_lt (NInt s) m = false) scores (minimum_scores thresholds).

Lemma candidate_quality_iff reviews thresholds closed_at c v :
  judge_candidate reviews thresholds closed_at c = Ok v →
  candidate_quality reviews thresholds closed_at c ↔ gate_passed (cv_reasons v) "G4" = true.
Proof.
  intros (eff & present & passed & hard & scores & He & Ho & Hs & _ & _ & _ & -> & _)%judge_candidate_inv.
  apply assertion_outcome_spec in Ho as (-> & _ & ->). unfold candidate_quality. split.
  - intros (eff' & scores' & He' & ? & ? & Hs' & ?).
    rewrite He in He'. injection He' as <-. rewrite Hs in Hs'. by injection Hs' as <-.
  - intros (? & ? & ?). by exists eff, scores.
Qed.

(** gate G4 passes exactly when every candidate meets its assertions and score minima on the
    adjudicated view, every case has its minimum of candidates that passed, the inventory its
    overall minimum, and no average falls below its threshold. *)
Theorem g4_exact candidates generations semantics reviews thresholds closed_at at_ rule q :
  evaluate_quality_gates candidates generations semantics reviews thresholds closed_at at_ rule
    = Ok q →
  ∃ verdicts,
    Forall2 (λ c v, judge_candidate reviews thresholds closed_at c = Ok v) candidates verdicts ∧
    (passes q "G4" ↔
      (∀ c, c ∈ candidates → candidate_quality reviews thresholds closed_at c) ∧
      (∀ id, id ∈ qc_case_id <$> candidates →
         min_case_passes thresholds <= case_passes candidates verdicts id) ∧
      min_overall_passes thresholds <= total_passes candidates verdicts ∧
      Forall2 (λ total m, num_lt (NFloat (int_truediv total (len candidates))) m = false)
        (foldl add_scores [0; 0; 0; 0; 0] (cv_scores <$> verdicts))
        (minimum_averages thresholds)).
Proof.
  intros H.
  destruct (gate_sources _ _ _ _ _ _ _ _ _ "G4" H) as (verdicts & below & Hv & Hb & Hp); [tauto|].
  exists verdicts. split; [done|]. rewrite Hp, g3_other by done. clear Hp.
  rewrite <- any_zip_strict_false, Hb.
  assert ((∀ v, v ∈ verdicts → gate_passed (cv_reasons v) "G4" = true) ↔
          (∀ c, c ∈ candidates → candidate_quality reviews thresholds closed_at c)) as ->.
  { split.
    - intros Hall c [i Hi]%list_elem_of_lookup.
      destruct (Forall2_lookup_l _ _ _ _ _ Hv Hi) as (v & Hvi & Hj).
      eapply candidate_quality_iff, Hall, list_elem_of_lookup_2; eauto.
    - intros Hall v [i Hi]%list_elem_of_lookup.
      destruct (Forall2_lookup_r _ _ _ _ _ Hv Hi) as (c & Hci & Hj).
      eapply candidate_quality_iff, Hall, list_elem_of_lookup_2; eauto. }
  split.
  - intros (_ & ? & Hx & _). destruct Hx as (? & ? & ->); [done|]. done.
  - intros (? & ? & ? & [= ->]). split_and!; try done.
Qed.

(** ** The execution gate under the completion rule *)

(** A key with exactly [c] items for each of the keys [ks]. *)
Lemma length_by_key {A} (f : A → string) (c : Z) l ks :
  NoDup ks → (∀ x, x ∈ l → f x ∈ ks) →
  (∀ k, k ∈ ks → count_if (λ x, bool_decide (f x = k)) l = c) →
  len l = len ks * c.
Proof.
  revert l; induction ks as [|k ks IH]; intros l Hnd Hin Hc.
  { destruct l as [|x l]; [done|]. by destruct (not_elem_of_nil (f x)); apply Hin; left. }
  apply NoDup_cons in Hnd as [Hk Hnd].
  assert (Hsplit : len l = count_if (λ x, bool_decide (f x = k)) l
                         + len (List.filter (λ x, negb (bool_decide (f x = k))) l)).
  { clear. unfold count_if, len. induction l as [|x l IH]; [done|]. cbn.
    destruct (bool_decide (f x = k)); cbn; lia. }
  rewrite Hsplit, Hc by left. rewrite (IH (List.filter _ l)); [unfold len; cbn; lia|done|..].
  - intros x. rewrite list_elem_of_In, List.filter_In, <- list_elem_of_In.
    rewrite negb_true_iff, bool_decide_eq_false. intros [Hx Hne].
    apply Hin, elem_of_cons in Hx as [?|?]; done.
  - intros k' Hk'. rewrite <- (Hc k') by by right. unfold count_if. f_equal.
    assert (k' ≠ k) by congruence. clear -H.
    induction l as [|x l IH]; cbn; [done|].
    destruct (bool_decide_reflect (f x = k)) as [->|]; cbn; rewrite IH; [|done].
    by rewrite bool_decide_eq_false_2.
Qed.

Lemma inventory_size candidates thresholds :
  quality_inventory candidates thresholds = Ok tt →
  len candidates = qt_generation_cases thresholds * qt_candidates_per_case thresholds ∧
  NoDup ((λ c, rc_candidate_id (qc_evidence c)) <$> candidates).
Proof.
  unfold quality_inventory. rewrite raise_if_Ok. intros H. bool_inv. split; [|done].
  rename select (len (case_ids candidates) = _) into Hl. rewrite <- Hl.
  apply (length_by_key qc_case_id); unfold case_ids.
  - apply NoDup_remove_dups.
  - intros x Hx. apply elem_of_remove_dups. by apply list_elem_of_fmap_2.
  - intros k Hk. rename select (∀ x, x ∈ case_ids candidates → _) into Hall.
    specialize (Hall k Hk). by bool_inv.
Qed.

Lemma count_if_all {A} (p : A → bool) l : (∀ x, x ∈ l → p x = true) → count_if p l = len l.
Proof.
  unfold count_if. induction l as [|x l IH]; intros H; cbn; [done|].
  rewrite (H x) by left. unfold len in *. cbn. rewrite !Nat2Z.inj_succ.
  rewrite IH; [done|]. intros y Hy. apply H. by right.
Qed.

Lemma constructed_candidate_inv c :
  constructed c →
  sc_status (rc_semantic c) = "succeeded" ∧ rc_candidate_id c = sc_candidate_id (rc_semantic c) ∧
  fingerprint_of (rc_normalized_output c) = sc_candidate_output_fingerprint (rc_semantic c).
Proof.
  unfold constructed, post_init, ReviewCandidate_post_init. intros H. by py_inv.
Qed.

(** under the completion rule the execution gate cannot fail: a calculation that answers has
    validated the complete inventory of accepted candidates, so the completion rate is one and
    the observed rates never reject. *)
Theorem completion_rule_passes_g3 candidates generations semantics reviews thresholds closed_at
    at_ q :
  Forall (λ c, constructed (qc_evidence c)) candidates →
  evaluate_quality_gates candidates generations semantics reviews thresholds closed_at at_
    (Some RULE_VERSION) = Ok q →
  passes q "G3".
Proof.
  intros Hc H. destruct (evaluate_inv _ _ _ _ _ _ _ _ _ H) as (vs & _ & Hinv & _ & _ & Hvs & _).
  destruct (gate_sources _ _ _ _ _ _ _ _ _ "G3" H) as (verdicts & below & Hv & _ & ->); [tauto|].
  split; [|split_and!; try done].
  - rewrite bool_decide_eq_true_2 by done. unfold g3. cbn [observe add_metric gs_reasons].
    rewrite count_if_all.
    2: { intros c Hin. rewrite Forall_forall in Hc.
         destruct (constructed_candidate_inv _ (Hc c Hin)) as [-> _]. done. }
    destruct (inventory_size _ _ Hinv) as [-> _].
    rewrite bool_decide_eq_true_2 by done. cbn [negb add_metric gs_reasons].
    rewrite !rate_passed. done.
  - intros v Hin. apply list_elem_of_lookup in Hin as [i Hi].
    destruct (Forall2_lookup_r _ _ _ _ _ Hv Hi) as (c & Hci & Hj).
    by apply judge_candidate_inv in Hj as (? & ? & ? & ? & ? & _ & _ & _ & _ & _ & ? & _).
Qed.

(** ** The final review *)

Lemma gates_forall q :
  qg_gate_passes q = (λ g, (g, gate_passed (qg_reasons q) g)) <$> GATES →
  forallb snd (map_to_list (dict_of fst (qg_gate_passes q))).*2 = true ↔
  ∀ g, g ∈ GATES → passes q g.
Proof.
  intros Hq. rewrite forallb_true.
  assert (Hnd : NoDup (fst <$> qg_gate_passes q)).
  { rewrite Hq. cbn. apply (bool_decide_unpack _). by vm_compute. }
  split.
  - intros H g Hg. apply passes_gate_passed; [done..|].
    apply (H (g, gate_passed (qg_reasons q) g)). apply list_elem_of_fmap.
    exists (g, (g, gate_passed (qg_reasons q) g)). split; [done|].
    apply elem_of_map_to_list, dict_of_lookup_NoDup; [done|]. split; [|done].
    rewrite Hq. by apply (list_elem_of_fmap_2 (λ g, (g, gate_passed (qg_reasons q) g))).
  - intros H [g b] ([k [g' b']] & [= -> ->] & Hin)%list_elem_of_fmap. cbn.
    apply elem_of_map_to_list, dict_of_lookup_elem in Hin as [Hin _].
    rewrite Hq in Hin. apply list_elem_of_fmap in Hin as (g & [= -> ->] & Hg).
    apply passes_gate_passed; [done..|]. by apply H.
Qed.

Lemma finalize_review_inv q actor reason f :
  qg_gate_passes q = (λ g, (g, gate_passed (qg_reasons q) g)) <$> GATES →
  finalize_review q actor reason = Ok f →
  constructed f ∧ fr_actor f = actor ∧ fr_finalized_at f = qg_evaluated_at q ∧
  (∀ r, r ∈ qg_reasons q → gr_code r ∉ INCOMPLETE_CODES) ∧
  (fr_passed f = true ↔ ∀ g, g ∈ GATES → passes q g).
Proof.
  intros Hq. unfold finalize_review, construct. rewrite bind_Ok_unit, raise_if_Ok. intros [Hc H].
  apply bind_Ok_unit in H as [Hf [= <-]]. split_and!; try done.
  - apply orb_false_iff in Hc as [_ Hc]. intros r Hr. rewrite existsb_false in Hc.
    specialize (Hc r Hr). by apply bool_decide_eq_false in Hc.
  - cbn [fr_passed]. by apply gates_forall.
Qed.

Lemma approval_accountable candidates generations semantics reviews thresholds closed_at at_
    rule q actor reason f :
  Forall constructed reviews →
  evaluate_quality_gates candidates generations semantics reviews thresholds closed_at at_ rule
    = Ok q →
  finalize_review q actor reason = Ok f →
  (final_status f = "approved" ↔ passes q "G3" ∧ passes q "G4" ∧ passes q "G5") ∧
  (final_status f = "approved" →
    len candidates = qt_generation_cases thresholds * qt_candidates_per_case thresholds ∧
    len reviews = qt_review_count thresholds ∧
    ∀ c, c ∈ candidates →
      human_complete reviews (rc_candidate_id (qc_evidence c)) ∧
      candidate_quality reviews thresholds closed_at c ∧
      quality_candidate_bound generations semantics closed_at c = Ok tt).
Proof.
  intros Hc H Hf. destruct (evaluate_inv _ _ _ _ _ _ _ _ _ H)
    as (vs & _ & Hinv & Hbound & Hh & _ & _ & _ & Hq & _).
  apply finalize_review_inv in Hf as (_ & _ & _ & _ & Hp); [|done].
  assert (Happ : final_status f = "approved" ↔ passes q "G3" ∧ passes q "G4" ∧ passes q "G5").
  { unfold final_status. setoid_rewrite elem_of_three in Hp.
    destruct (fr_passed f); split; try done.
    - intros _. pose proof (proj1 Hp eq_refl) as Hall. split_and!; apply Hall; tauto.
    - intros (? & ? & ?). assert (false = true); [|done]. apply Hp.
      intros g [-> | [-> | ->]]; done. }
  split; [done|]. intros (_ & H4 & H5)%Happ.
  destruct (gate_sources _ _ _ _ _ _ _ _ _ "G4" H) as (v4 & b4 & Hv4 & _ & Hp4); [tauto|].
  destruct (gate_sources _ _ _ _ _ _ _ _ _ "G5" H) as (v5 & b5 & Hv5 & _ & Hp5); [tauto|].
  apply Hp4 in H4 as (_ & H4 & _). apply Hp5 in H5 as (_ & H5 & _ & Hl).
  destruct (inventory_size _ _ Hinv) as [Hsize _].
  split; [done|]. split; [auto|]. intros c Hin.
  pose proof Hin as [i Hi]%list_elem_of_lookup.
  destruct (Forall2_lookup_l _ _ _ _ _ Hv4 Hi) as (v & Hvi & Hj4).
  destruct (Forall2_lookup_l _ _ _ _ _ Hv5 Hi) as (v' & Hvi' & Hj5).
  split_and!; [| |by apply Hbound].
  - apply judge_candidate_inv in Hj5 as (? & ? & ? & ? & ? & _ & _ & _ & _ & _ & _ & _ & Hg5).
    rewrite human_complete_iff by done. apply Hg5, H5. by eapply list_elem_of_lookup_2.
  - apply (candidate_quality_iff _ _ _ _ v Hj4), H4. by eapply list_elem_of_lookup_2.
Qed.

(** C4: what approval means: a run is finalized as approved exactly when all three gates pass, and
    then every candidate of the complete inventory carries one approval of each role by two
    different reviewers, meets its assertions and score minima on the adjudicated view, and the
    inventory holds the frozen number of candidates and reviews. *)
Theorem approved_run_accountable candidates generations semantics reviews thresholds closed_at at_
    rule q actor reason f :
  Forall constructed reviews →
  evaluate_quality_gates candidates generations semantics reviews thresholds closed_at at_ rule
    = Ok q →
  finalize_review q actor reason = Ok f →
  (final_status f = "approved" ↔ passes q "G3" ∧ passes q "G4" ∧ passes q "G5") ∧
  (final_status f = "approved" →
    len candidates = qt_generation_cases thresholds * qt_candidates_per_case thresholds ∧
    len reviews = qt_review_count thresholds ∧
    ∀ c, c ∈ candidates →
      human_complete reviews (rc_candidate_id (qc_evidence c)) ∧
      candidate_quality reviews thresholds closed_at c ∧
      quality_candidate_bound generations semantics closed_at c = Ok tt).
Proof. apply approval_accountable. Qed.
