(* ===== verification/Reopening.v ===== *)
(** * Reopening: audited rounds of semantic review

    Models [src/src/qs_ai/domain/evaluation/reopening.py]: when a rejected run may be reopened,
    for which candidates, and what a chain of reopening rounds preserves. *)
From S2P Require Import Prelude PyText PyTime PyNum PyJson Completion Preflight Review Correction.
From S2P Require Import Gates.

Local Open Scope string_scope.
Local Open Scope Z_scope.
Local Open Scope py_scope.

Record ReviewReopening : Type := mk_ReviewReopening {
  ro_previous_reviews : list CandidateHumanReview;
  ro_previous_gate : QualityGateResult;
  ro_candidate_ids : list string;
  ro_actor : string;
  ro_reason : string;
  ro_reopened_at : datetime;
}.

#[export] Instance ReviewReopening_post_init : Validated ReviewReopening := λ self,
  construct (mk_FinalReview (ro_actor self) (ro_reason self) (ro_reopened_at self) false) ;;
  let evaluated := qg_evaluated_at (ro_previous_gate self) in
  raise_ifM (Ok ((match ro_previous_reviews self with [] => true | _ => false end)
                 || (match ro_candidate_ids self with [] => true | _ => false end)
                 || negb (bool_decide (NoDup (ro_candidate_ids self)))
                 || negb (forallb (λ c, c is_in (hr_candidate_id <$> ro_previous_reviews self))
                            (ro_candidate_ids self))
                 || tz_none evaluated || is_none (utcoffset evaluated))
             <orM> dt_lt (ro_reopened_at self) evaluated)
    (ValueError "Invalid immutable review reopening audit").

Definition retained_reviews (self : ReviewReopening) : list CandidateHumanReview :=
  List.filter (λ r, hr_candidate_id r not_in ro_candidate_ids self) (ro_previous_reviews self).

Definition REOPENABLE_GATES : list (string * bool) := [("G3", true); ("G4", false); ("G5", true)].

(** The loop over the effective assertions of one candidate: [None] is the early [return ()],
    [Some failed] the flag at its end. *)
Fixpoint reopenable_assertions
    (candidate : ReviewCandidate) (assertions : list AssertionReceipt) (failed : bool)
    : option bool :=
  match assertions with
  | [] => Some failed
  | a :: assertions =>
    if negb (ar_hard a) || (ar_status a == "passed") then
      reopenable_assertions candidate assertions failed
    else if ar_status a != "failed" || ar_type a != "forbidden_claims_absent"
            || ar_scope a != "default" || ar_evaluator a != rc_semantic_evaluator candidate
    then None
    else if a not_in rc_semantic_assertions candidate then None
    else reopenable_assertions candidate assertions true
  end.

(** The loop over the candidates; [None] is the early [return ()]. *)
Fixpoint failed_candidates
    (reviews : list CandidateHumanReview) (closed_at : datetime) (gate_policy_version : string)
    (candidates : list ReviewCandidate) (ids : list string) : res (option (list string)) :=
  match candidates with
  | [] => Ok (Some ids)
  | candidate :: candidates =>
    effective ← effective_candidate_assertions candidate
      (reviews_of reviews (rc_candidate_id candidate)) closed_at gate_policy_version;
    match reopenable_assertions candidate (eff_assertions effective) false with
    | None => Ok None
    | Some failed =>
      failed_candidates reviews closed_at gate_policy_version candidates
        (if failed then (ids ++ [rc_candidate_id candidate])%list else ids)
    end
  end.

Definition eligible_candidate_ids
    (candidates : list ReviewCandidate) (reviews : list CandidateHumanReview)
    (gate : QualityGateResult) (closed_at : datetime) (status gate_policy_version : string)
    (reopening_count : Z) : res (list string) :=
  if negb ((0 <=? reopening_count) && (reopening_count <? 3))
     || status != "rejected" || gate_policy_version != "v2"
     || qg_gate_passes gate != REOPENABLE_GATES
     || (match qg_reasons gate with [] => true | _ => false end)
     || existsb (λ r, gr_gate r != "G4" || gr_code r != "candidate_hard_assertion_failed")
          (qg_reasons gate)
  then Ok []
  else
    add_human_reviews "awaiting_review" closed_at candidates [] reviews gate_policy_version ;;
    raise_ifM (Ok (len reviews != (len candidates * 2))
               <orM> anyM (λ r, dt_gt (hr_reviewed_at r) (qg_evaluated_at gate)) reviews)
      (ValueError "Final gate requires complete preceding reviews") ;;
    ids ← failed_candidates reviews closed_at gate_policy_version candidates [];
    Ok (default [] ids).

Definition reopen_review
    (candidates : list ReviewCandidate) (reviews : list CandidateHumanReview)
    (gate : QualityGateResult) (closed_at : datetime) (actor reason : string) (at_ : datetime)
    (status gate_policy_version : string) (reopening_count : Z) : res ReviewReopening :=
  ids ← eligible_candidate_ids candidates reviews gate closed_at status gate_policy_version
          reopening_count;
  construct (mk_FinalReview actor reason at_ false) ;;
  raise_ifM (Ok (match ids with [] => true | _ => false end) <orM> dt_lt at_ (qg_evaluated_at gate))
    (ValueError "Run is not eligible for audited semantic review reopening") ;;
  construct (mk_ReviewReopening reviews gate ids actor reason at_).

Definition validate_reopened_reviews
    (reopening : ReviewReopening) (current : list CandidateHumanReview) : res unit :=
  raise_ifM (anyM (λ r, Ok (hr_candidate_id r is_in ro_candidate_ids reopening)
                        <andM> dt_lt (hr_reviewed_at r) (ro_reopened_at reopening)) current)
    (ValueError "New signature predates review reopening") ;;
  raise_if (existsb (λ r, negb (existsb (λ c, review_eqb c r) current))
              (retained_reviews reopening))
    (ValueError "Unaffected review was changed or removed").

(** The body of the loop over the history.  [expected != entry] compares the candidates only:
    every other field of [expected] is the entry's own object. *)
Definition check_reopening
    (history : list ReviewReopening) (candidates : list ReviewCandidate) (closed_at : datetime)
    (gate_policy_version : string) (index : nat) (entry : ReviewReopening) : res unit :=
  expected ← reopen_review candidates (ro_previous_reviews entry) (ro_previous_gate entry)
    closed_at (ro_actor entry) (ro_reason entry) (ro_reopened_at entry) "rejected"
    gate_policy_version (Z.of_nat index);
  raise_if (ro_candidate_ids expected != ro_candidate_ids entry)
    (ValueError "Reopening candidates differ from validated semantic evidence") ;;
  match index with
  | O => Ok tt
  | S n =>
    match history !! n with
    | None => Err IndexError
    | Some previous =>
      raise_ifM (dt_lt (qg_evaluated_at (ro_previous_gate entry)) (ro_reopened_at previous))
        (ValueError "Previous finalization predates its review round") ;;
      validate_reopened_reviews previous (ro_previous_reviews entry)
    end
  end.

Definition validate_reopening_history
    (history : list ReviewReopening) (current : list CandidateHumanReview)
    (candidates : list ReviewCandidate) (closed_at : datetime) (gate_policy_version : string)
    : res unit :=
  raise_if (3 <? len history)
    (ValueError "At most three immutable reopening rounds are permitted") ;;
  foldM (λ _ ie, check_reopening history candidates closed_at gate_policy_version ie.1 ie.2) tt
    (imap pair history) ;;
  match last history with
  | None => Ok tt
  | Some entry => validate_reopened_reviews entry current
  end.
Local Close Scope py_scope.
Local Open Scope list_scope.

(** ** Lemmas *)

(** A hard assertion that keeps a candidate reopenable: a failed forbidden-claims judgement of
    the accepted semantic result. *)
Definition reopenable (candidate : ReviewCandidate) (a : AssertionReceipt) : Prop :=
  ar_status a = "failed" ∧ ar_type a = "forbidden_claims_absent" ∧ ar_scope a = "default" ∧
  ar_evaluator a = rc_semantic_evaluator candidate ∧ a ∈ rc_semantic_assertions candidate.

Definition reopenable_if_open (candidate : ReviewCandidate) (a : AssertionReceipt) : Prop :=
  ar_hard a = true → ar_status a ≠ "passed" → reopenable candidate a.

Lemma reopenable_assertions_Some candidate l b failed :
  reopenable_assertions candidate l b = Some failed ↔
  Forall (reopenable_if_open candidate) l ∧
  failed = b || existsb (λ a, ar_hard a && negb (bool_decide (ar_status a = "passed"))) l.
Proof.
  revert b; induction l as [|a l IH]; intros b; cbn.
  { rewrite orb_false_r. split; [intros [= ->]; by split|by intros [_ ->]]. }
  rewrite Forall_cons. unfold reopenable_if_open at 1.
  destruct (ar_hard a) eqn:Hh; cbn [negb orb andb].
  2: { rewrite IH. intuition congruence. }
  destruct (bool_decide_reflect (ar_status a = "passed")) as [Hp|Hp]; cbn [negb].
  { rewrite IH. intuition congruence. }
  match goal with |- context [if ?c then None else _] => destruct c eqn:E end.
  { split; [done|]. intros [[Hall _] _]. destruct (Hall eq_refl Hp) as (Hs & Ht & Hsc & He & _).
    rewrite Hs, Ht, Hsc, He, !bool_decide_eq_true_2 in E by done. done. }
  bool_inv. destruct (bool_decide_reflect (a ∈ rc_semantic_assertions candidate)); cbn [negb].
  2: { split; [done|]. intros [[Hall _] _]. by destruct (Hall eq_refl Hp) as (_ & _ & _ & _ & ?). }
  rewrite IH, orb_true_r. cbn. unfold reopenable. tauto.
Qed.

Lemma failed_candidates_Some reviews closed_at gate candidates ids ids' :
  failed_candidates reviews closed_at gate candidates ids = Ok (Some ids') →
  ∃ ids0, ids' = ids ++ ids0 ∧ ids0 `sublist_of` (rc_candidate_id <$> candidates) ∧
  ∀ c, c ∈ candidates → ∃ eff,
    effective_candidate_assertions c (reviews_of reviews (rc_candidate_id c)) closed_at gate
      = Ok eff ∧
    Forall (reopenable_if_open c) (eff_assertions eff) ∧
    ((∃ a, a ∈ eff_assertions eff ∧ ar_hard a = true ∧ ar_status a ≠ "passed") →
       rc_candidate_id c ∈ ids0).
Proof.
  revert ids; induction candidates as [|c candidates IH]; intros ids H; cbn in H.
  { injection H as <-. exists []. split_and!; [by rewrite app_nil_r|constructor|].
    intros c Hc; by apply not_elem_of_nil in Hc. }
  apply bind_Ok in H as (eff & Heff & H).
  destruct (reopenable_assertions _ _ _) as [failed|] eqn:Hr; [|done].
  apply reopenable_assertions_Some in Hr as [Hall Hfailed].
  apply IH in H as (ids0 & -> & Hsub & Hc).
  assert (Hex : (∃ a, a ∈ eff_assertions eff ∧ ar_hard a = true ∧ ar_status a ≠ "passed") →
                failed = true).
  { intros (a & Ha & Hh & Hp). rewrite Hfailed. apply existsb_true. exists a. split; [done|].
    by rewrite Hh, bool_decide_eq_false_2. }
  destruct failed.
  - exists (rc_candidate_id c :: ids0). rewrite <- app_assoc. split; [done|].
    split; [by apply sublist_skip|]. intros c' [->|Hc']%elem_of_cons.
    + exists eff. split_and!; [done..|]. intros _. left.
    + destruct (Hc c' Hc') as (eff' & ? & ? & Hin). exists eff'. split_and!; [done..|].
      intros Hx. right. auto.
  - exists ids0. split; [done|]. split; [by apply sublist_cons|].
    intros c' [->|Hc']%elem_of_cons; [|auto].
    exists eff. split_and!; [done..|]. intros Hx%Hex. done.
Qed.

Lemma eligible_inv candidates reviews gate closed_at status version n ids :
  eligible_candidate_ids candidates reviews gate closed_at status version n = Ok ids → ids ≠ [] →
  0 <= n < 3 ∧ status = "rejected" ∧ version = "v2" ∧ qg_gate_passes gate = REOPENABLE_GATES ∧
  history_valid candidates closed_at "v2" reviews ∧ len reviews = len candidates * 2 ∧
  (∀ r, r ∈ reviews → dt_gt (hr_reviewed_at r) (qg_evaluated_at gate) = Ok false) ∧
  ids `sublist_of` (rc_candidate_id <$> candidates) ∧
  ∀ c, c ∈ candidates → ∃ eff,
    effective_candidate_assertions c (reviews_of reviews (rc_candidate_id c)) closed_at "v2"
      = Ok eff ∧
    Forall (reopenable_if_open c) (eff_assertions eff) ∧
    ((∃ a, a ∈ eff_assertions eff ∧ ar_hard a = true ∧ ar_status a ≠ "passed") →
       rc_candidate_id c ∈ ids).
Proof.
  unfold eligible_candidate_ids. intros H Hne. if_inv; [ok_inv; done|].
  apply bind_Ok in H as (rs & Hadd & H). apply bind_Ok_unit in H as [Hlen H].
  apply bind_Ok in H as (o & Hf & [= <-]). destruct o as [ids'|]; [|done]. cbn in Hne |- *.
  bool_inv. subst version.
  apply add_human_reviews_Ok in Hadd as (_ & _ & Hh & _).
  rewrite raise_ifM_Ok, orM_false, Ok_inj, negb_false_iff, bool_decide_eq_true, anyM_false in Hlen.
  destruct Hlen as [Hl Ht]. apply failed_candidates_Some in Hf as (ids0 & -> & Hsub & Hc).
  split_and!; try done; lia.
Qed.

Lemma reopen_review_inv candidates reviews gate closed_at actor reason at_ status version n ro :
  reopen_review candidates reviews gate closed_at actor reason at_ status version n = Ok ro →
  ∃ ids, ids ≠ [] ∧
    eligible_candidate_ids candidates reviews gate closed_at status version n = Ok ids ∧
    dt_lt at_ (qg_evaluated_at gate) = Ok false ∧
    ro = mk_ReviewReopening reviews gate ids actor reason at_ ∧ constructed ro.
Proof.
  unfold reopen_review, construct. intros H. apply bind_Ok in H as (ids & He & H).
  apply bind_Ok in H as (fr & _ & H). apply bind_Ok_unit in H as [Hg H].
  apply bind_Ok_unit in H as [Hc [= <-]]. exists ids.
  rewrite raise_ifM_Ok, orM_false, Ok_inj in Hg. destruct Hg as [Hne Hat].
  split_and!; try done. by destruct ids.
Qed.

(** C37: a run is reopened only from a rejection whose only failing gate is G4, in its first three
    rounds, with the full set of two reviews per candidate behind it; the reopened candidates are
    candidates of the run in their order, and every hard assertion that did not pass, of every
    candidate, is a forbidden-claims judgement of its accepted semantic result and has its
    candidate among them. *)
Theorem reopen_review_sound candidates reviews gate closed_at actor reason at_ status version n ro :
  reopen_review candidates reviews gate closed_at actor reason at_ status version n = Ok ro →
  0 <= n < 3 ∧ status = "rejected" ∧ version = "v2" ∧ qg_gate_passes gate = REOPENABLE_GATES ∧
  len reviews = len candidates * 2 ∧
  ro_candidate_ids ro ≠ [] ∧ ro_candidate_ids ro `sublist_of` (rc_candidate_id <$> candidates) ∧
  dt_lt at_ (qg_evaluated_at gate) = Ok false ∧
  ∀ c, c ∈ candidates → ∃ eff,
    effective_candidate_assertions c (reviews_of reviews (rc_candidate_id c)) closed_at "v2"
      = Ok eff ∧
    ∀ a, a ∈ eff_assertions eff → ar_hard a = true → ar_status a ≠ "passed" →
      reopenable c a ∧ rc_candidate_id c ∈ ro_candidate_ids ro.
Proof.
  intros (ids & Hne & He & Hat & -> & _)%reopen_review_inv.
  destruct (eligible_inv _ _ _ _ _ _ _ _ He Hne)
    as (? & ? & ? & ? & _ & ? & _ & ? & Hc). cbn. split_and!; try done; try lia.
  intros c Hin. destruct (Hc c Hin) as (eff & Heff & Hall & Hids). exists eff.
  split; [done|]. rewrite Forall_forall in Hall. intros a Ha Hh Hp. split; [by apply Hall|eauto].
Qed.

(** The reviews that follow round [i]: those of the next round, or the current ones. *)
Definition next_reviews
    (history : list ReviewReopening) (current : list CandidateHumanReview) (i : nat)
    : list CandidateHumanReview :=
  match history !! S i with Some e => ro_previous_reviews e | None => current end.

Lemma validate_reopened_inv ro current :
  validate_reopened_reviews ro current = Ok tt →
  (∀ r, r ∈ current → hr_candidate_id r ∈ ro_candidate_ids ro →
     dt_lt (hr_reviewed_at r) (ro_reopened_at ro) = Ok false) ∧
  (∀ r, r ∈ ro_previous_reviews ro → hr_candidate_id r ∉ ro_candidate_ids ro →
     ∃ c, c ∈ current ∧ review_eqb c r = true).
Proof.
  unfold validate_reopened_reviews. rewrite bind_Ok_unit, raise_ifM_Ok, raise_if_Ok, anyM_false,
    existsb_false. intros [Hnew Hold]. split.
  - intros r Hr Hid. specialize (Hnew r Hr).
    rewrite andM_false, !Ok_inj, bool_decide_eq_false, bool_decide_eq_true in Hnew. tauto.
  - intros r Hr Hid. assert (Hin : r ∈ retained_reviews ro).
    { unfold retained_reviews. rewrite list_elem_of_In, List.filter_In, <- list_elem_of_In.
      by rewrite negb_true_iff, bool_decide_eq_false. }
    specialize (Hold r Hin). rewrite negb_false_iff, existsb_true in Hold. done.
Qed.

(** a validated chain of reopenings has at most three rounds, and across every round the
    signatures of the candidates that were not reopened are still there, while every signature of
    a reopened candidate comes after its reopening; the rounds themselves follow each other in
    time. *)
Theorem reopening_history_sound history current candidates closed_at version :
  validate_reopening_history history current candidates closed_at version = Ok tt →
  (length history ≤ 3)%nat ∧
  ∀ i e, history !! i = Some e →
    constructed e ∧ version = "v2" ∧
    eligible_candidate_ids candidates (ro_previous_reviews e) (ro_previous_gate e) closed_at
      "rejected" version (Z.of_nat i) = Ok (ro_candidate_ids e) ∧
    (∀ e', history !! S i = Some e' →
       dt_lt (qg_evaluated_at (ro_previous_gate e')) (ro_reopened_at e) = Ok false) ∧
    (∀ r, r ∈ next_reviews history current i → hr_candidate_id r ∈ ro_candidate_ids e →
       dt_lt (hr_reviewed_at r) (ro_reopened_at e) = Ok false) ∧
    (∀ r, r ∈ ro_previous_reviews e → hr_candidate_id r ∉ ro_candidate_ids e →
       ∃ c, c ∈ next_reviews history current i ∧ review_eqb c r = true).
Proof.
  unfold validate_reopening_history. rewrite !bind_Ok_unit, raise_if_Ok.
  intros (Hlen & Hall & Hlast). unfold len in Hlen. split; [lia|].
  assert (Heach : ∀ i e, history !! i = Some e →
    check_reopening history candidates closed_at version i e = Ok tt).
  { intros i e Hi. apply (foldM_unit_elem
      (λ ie, check_reopening history candidates closed_at version ie.1 ie.2) _ Hall (i, e)).
    apply elem_of_lookup_imap. eauto. }
  intros i e Hi. pose proof (Heach i e Hi) as He. unfold check_reopening in He.
  apply bind_Ok in He as (expected & Hro & He).
  apply reopen_review_inv in Hro as (ids & Hne & Helig & _ & -> & Hcon).
  apply bind_Ok_unit in He as [Hids _]. rewrite raise_if_Ok in Hids. cbn in Hids. bool_inv. subst ids.
  split; [by destruct e|].
  destruct (eligible_inv _ _ _ _ _ _ _ _ Helig Hne) as (_ & _ & Hv & _).
  split; [done|]. split; [done|].
  assert (Hnext : ∀ e', history !! S i = Some e' →
    dt_lt (qg_evaluated_at (ro_previous_gate e')) (ro_reopened_at e) = Ok false ∧
    validate_reopened_reviews e (ro_previous_reviews e') = Ok tt).
  { intros e' Hi'. pose proof (Heach _ _ Hi') as H'. unfold check_reopening in H'.
    apply bind_Ok in H' as (? & _ & H'). apply bind_Ok_unit in H' as [_ H'].
    rewrite Hi in H'. by rewrite bind_Ok_unit, raise_ifM_Ok in H'. }
  split; [intros e' Hi'; by apply Hnext|].
  apply validate_reopened_inv. unfold next_reviews.
  destruct (history !! S i) as [e'|] eqn:Hi'; [by apply Hnext|].
  assert (last history = Some e) as Hl; [|by rewrite Hl in Hlast].
  rewrite last_lookup. apply lookup_ge_None in Hi'. apply lookup_lt_Some in Hi as Hlt.
  by replace (Nat.pred (length history)) with i by lia.
Qed.
