(* ===== verification/Closure.v ===== *)
(** * Closure: the inventory of a closed evaluation run

    Models [src/src/qs_ai/domain/evaluation/closure.py]: the validation that a run which awaits
    review is closed over a complete, causally ordered and audited set of executions. *)
From S2P Require Import Prelude PyText PyTime PyHash PyJson Failure Checkpoint Completion Actions.
From S2P Require Import Resolution Preflight.

Local Open Scope string_scope.
Local Open Scope Z_scope.
Local Open Scope py_scope.

Record ClosureTransition : Type := mk_ClosureTransition {
  ct_source : string;
  ct_target : string;
  ct_actor : string;
  ct_cause : string;
  ct_at : datetime;
  ct_evidence_refs : list string;
  ct_evidence_at : option datetime;
}.

(** [a == b] on transitions *)
Definition transition_eqb (a b : ClosureTransition) : bool :=
  ((ct_source a, ct_target a, ct_actor a, ct_cause a)
   == (ct_source b, ct_target b, ct_actor b, ct_cause b))
  && dt_eqb (ct_at a) (ct_at b)
  && (ct_evidence_refs a == ct_evidence_refs b)
  && opt_dt_eqb (ct_evidence_at a) (ct_evidence_at b).

(** [GenerationCompletion | SemanticCompletion] *)
Inductive execution : Type :=
| Generation (g : GenerationCompletion)
| Semantic (s : SemanticCompletion).

Definition ex_id (e : execution) : string :=
  match e with Generation g => gc_execution_id g | Semantic s => sc_execution_id s end.
Definition ex_status (e : execution) : string :=
  match e with Generation g => gc_status g | Semantic s => sc_status s end.
Definition ex_ordinal (e : execution) : Z :=
  match e with Generation g => gc_execution_ordinal g | Semantic s => sc_execution_ordinal s end.
Definition ex_started (e : execution) : datetime :=
  match e with Generation g => gc_started_at g | Semantic s => sc_started_at s end.
Definition ex_finished (e : execution) : datetime :=
  match e with Generation g => gc_finished_at g | Semantic s => sc_finished_at s end.
Definition is_semantic (e : execution) : bool :=
  match e with Semantic _ => true | Generation _ => false end.

Definition all_executions
    (generations : list GenerationCompletion) (semantics : list SemanticCompletion)
    : list execution := ((Generation <$> generations) ++ (Semantic <$> semantics))%list.

(** [allowed] and the two further triples of the chain test. *)
Definition allowed_cause (state target cause : string) : bool :=
  (state, target, cause) is_in
    [("requested", "collecting", "evaluation_started");
     ("collecting", "blocked", "result_unknown_requires_review");
     ("blocked", "collecting", "manual_recovery_approved");
     ("collecting", "awaiting_review", "candidate_evidence_complete");
     ("collecting", "blocked", "semantic_recovery_not_allowed");
     ("blocked", "collecting", "semantic_contract_recovery_approved")].

Section chain.
Context (indexed : gmap string execution) (decisions : gmap string ResultUnknownResolution)
  (contract_decisions : gmap string ContractRecovery).

(** The single evidence reference of a transition. *)
Definition one_reference (t : ClosureTransition) (e : exn) : res string :=
  match ct_evidence_refs t with [r] => Ok r | _ => Err e end.

Definition blocked_evidence (t : ClosureTransition) : res unit :=
  ref ← one_reference t (ValueError "Unknown transition requires its execution reference");
  raise_if match indexed !! ref with
           | None => true
           | Some value =>
             (if ct_cause t == "result_unknown_requires_review"
              then ex_status value != "result_unknown"
              else negb (is_semantic value) || is_none (contract_decisions !! ex_id value))
             || negb (dt_eqb (ex_finished value) (default (ct_at t) (ct_evidence_at t)))
           end
    (ValueError "Unknown transition differs from execution").

Definition recovery_evidence (t : ClosureTransition) : res unit :=
  ref ← one_reference t (ValueError "Recovery transition requires its resolution reference");
  if ct_cause t == "semantic_contract_recovery_approved" then
    raise_if match contract_decisions !! ref with
             | None => true
             | Some d => cr_actor d != ct_actor t || negb (dt_eqb (cr_resolved_at d) (ct_at t))
             end
      (ValueError "Recovery transition differs from contract authorization")
  else
    raise_if match decisions !! ref with
             | None => true
             | Some d => ru_actor d != ct_actor t || negb (dt_eqb (ru_resolved_at d) (ct_at t))
                         || ru_decision d != "authorize_replacement"
             end
      (ValueError "Recovery transition differs from manual authorization").

Definition closure_evidence (t : ClosureTransition) : res unit :=
  ref ← one_reference t (ValueError "Closure requires its final semantic execution");
  raise_if match indexed !! ref with
           | None => true
           | Some value => negb (is_semantic value) || ex_status value != "succeeded"
                           || negb (dt_eqb (ex_finished value) (ct_at t))
           end
    (ValueError "Closure differs from accepted semantic evidence").

(** The body of the loop over [transitions[1:]]; the state is [(state, previous)]. *)
Definition check_transition (st : string * datetime) (t : ClosureTransition)
  : res (string * datetime) :=
  let '(state, previous) := st in
  match ct_evidence_at t with
  | None => Ok tt
  | Some at_ =>
    raise_ifM (Ok (ct_cause t != "semantic_recovery_not_allowed" || negb (aware at_))
               <orM> dt_gt at_ (ct_at t))
      (ValueError "Invalid original block evidence time")
  end ;;
  raise_ifM (Ok (negb (aware (ct_at t))) <orM> dt_lt (ct_at t) previous
             <orM> Ok (ct_source t != state
                       || negb (allowed_cause state (ct_target t) (ct_cause t))
                       || negb (valid_id (ct_actor t))))
    (ValueError "Invalid closed Run transition chain") ;;
  (if ct_target t == "blocked" then blocked_evidence t
   else if ct_source t == "blocked" then recovery_evidence t
   else if ct_target t == "awaiting_review" then closure_evidence t
   else Ok tt) ;;
  Ok (ct_target t, ct_at t).
End chain.

(** [[ref for t in transitions if t.cause == cause for ref in t.evidence_refs]] *)
Definition references (transitions : list ClosureTransition) (cause : string) : list string :=
  List.filter (λ t, ct_cause t == cause) transitions ≫= ct_evidence_refs.

(** [len(references) != len(ids) or set(references) != ids] *)
Definition references_differ (refs : list string) (ids : gset string) : bool :=
  len refs != Z.of_nat (size ids) || negb (bool_decide (list_to_set refs = ids)).

Definition unknowns_of
    (generations : list GenerationCompletion) (semantics : list SemanticCompletion)
    : res (list UnknownExecution) :=
  g ← mapM (λ e, construct (mk_UnknownExecution (gc_execution_id e) "generation"
                              (gc_execution_ordinal e) (gc_finished_at e)))
        (List.filter (λ e, gc_status e == "result_unknown") generations);
  s ← mapM (λ e, construct (mk_UnknownExecution (sc_execution_id e) "semantic"
                              (sc_execution_ordinal e) (sc_finished_at e)))
        (List.filter (λ e, sc_status e == "result_unknown") semantics);
  Ok (g ++ s)%list.

(** The loop over the resolutions; the state is [prior]. *)
Definition replay_resolution
    (unknowns : list UnknownExecution) (policy : ExecutionPolicy) (previous : datetime)
    (prior : list ResultUnknownResolution) (resolution : ResultUnknownResolution)
    : res (list ResultUnknownResolution) :=
  result ← resolve_unknown "blocked" unknowns prior resolution policy;
  raise_ifM (Ok (ru_decision resolution != "authorize_replacement")
             <orM> dt_gt (ru_resolved_at resolution) previous)
    (ValueError "Closed Run has invalid unknown resolution") ;;
  Ok (rp_resolutions result).

(** One of the two histories of a closed slot. *)
Definition check_history
    (history : list ExecutionResult) (limit : Z) (recovery : ClassifiedFailure → bool) : res unit :=
  raise_if (negb ((1 <=? len history) && (len history <=? limit))
            || match last history with Some e => er_status e != "succeeded" | None => true end)
    (ValueError "Closed execution history or budget is invalid") ;;
  foldM (λ _ item,
    raise_if (negb (er_replacement_authorized item || er_contract_recovery_authorized item)
              && (er_status item != "failed"
                  || match er_failure item with
                     | None => true
                     | Some failure => negb (recovery failure)
                     end))
      (ValueError "Execution recovery was not allowed by frozen policy"))
    tt (take (length history - 1) history).

(** [sorted(records, key=lambda e: e.execution_ordinal)], stable. *)
Fixpoint insert_execution (e : execution) (l : list execution) : list execution :=
  match l with
  | [] => [e]
  | x :: l' => if ex_ordinal e <=? ex_ordinal x then e :: l else x :: insert_execution e l'
  end.
Definition by_ordinal (l : list execution) : list execution := foldr insert_execution [] l.

(** One pair of [zip(records, records[1:])]. *)
Definition check_pair
    (decisions : gmap string ResultUnknownResolution)
    (contract_decisions : gmap string ContractRecovery) (first second : execution) : res unit :=
  raise_ifM (dt_gt (ex_finished first) (ex_started second))
    (ValueError "Replacement overlaps its previous execution") ;;
  match contract_decisions !! ex_id first with
  | Some d =>
    raise_ifM (dt_gt (cr_resolved_at d) (ex_started second))
      (ValueError "Retry precedes contract recovery authorization")
  | None => Ok tt
  end ;;
  if ex_status first == "result_unknown" then
    match decisions !! ex_id first with
    | Some d =>
      raise_ifM (dt_gt (ru_resolved_at d) (ex_started second))
        (ValueError "Replacement precedes manual authorization")
    | None => Err (KeyError (ex_id first))
    end
  else Ok tt.

Fixpoint check_pairs
    (decisions : gmap string ResultUnknownResolution)
    (contract_decisions : gmap string ContractRecovery) (records : list execution) : res unit :=
  match records with
  | first :: (second :: _) as rest =>
    check_pair decisions contract_decisions first second ;;
    check_pairs decisions contract_decisions rest
  | _ => Ok tt
  end.

Definition generation_records (generations : list GenerationCompletion) (slot : SlotProgress)
  : list execution :=
  Generation <$> List.filter
    (λ g, (gc_case_id g, gc_slot_ordinal g) == (sp_case_id slot, sp_ordinal slot)) generations.
Definition semantic_records (semantics : list SemanticCompletion) (candidate_id : string)
  : list execution :=
  Semantic <$> List.filter (λ s, sc_candidate_id s == candidate_id) semantics.

(** The body of the loop over the slots. *)
Definition check_closed_slot
    (generations : list GenerationCompletion) (semantics : list SemanticCompletion)
    (decisions : gmap string ResultUnknownResolution)
    (contract_decisions : gmap string ContractRecovery) (policy : ExecutionPolicy)
    (slot : SlotProgress) : res unit :=
  match sp_candidate slot with
  | None => Err (ValueError "Closed slot requires a candidate")
  | Some candidate =>
    check_history (sp_generation slot) (generation_per_slot policy)
      (allows_automatic_generation_recovery policy) ;;
    check_history (cand_semantic candidate) (semantic_per_candidate policy)
      (allows_automatic_semantic_recovery policy) ;;
    check_pairs decisions contract_decisions
      (by_ordinal (generation_records generations slot)) ;;
    check_pairs decisions contract_decisions
      (by_ordinal (semantic_records semantics (cand_id candidate)))
  end.

Definition validate_closed_inventory
    (created_at : datetime) (requested_by : string) (transitions : list ClosureTransition)
    (preflight : PreflightEvidence) (slots : list SlotProgress)
    (generations : list GenerationCompletion) (semantics : list SemanticCompletion)
    (resolutions : list ResultUnknownResolution) (policy : ExecutionPolicy)
    (contract_recoveries : list ContractRecovery) : res datetime :=
  raise_if (negb (aware created_at) || negb (valid_id requested_by))
    (ValueError "Valid creator and creation time required") ;;
  match transitions with
  | t0 :: ((t1 :: _ :: _) as rest) =>
    raise_if (negb (transition_eqb t0
                (mk_ClosureTransition "" "requested" requested_by "evaluation_requested"
                   created_at [] None)))
      (ValueError "Creation audit differs from initial transition") ;;
    let executions := all_executions generations semantics in
    let indexed := dict_of ex_id executions in
    raise_if (negb (Nat.eqb (size indexed) (length executions)))
      (ValueError "Execution identities must be unique across stages") ;;
    let decisions := dict_of ru_execution_id resolutions in
    validate_recoveries contract_recoveries semantics policy ;;
    let contract_decisions := dict_of cr_execution_id contract_recoveries in
    '(state, previous) ←
      foldM (check_transition indexed decisions contract_decisions) ("requested", created_at) rest;
    let evaluated := pe_evaluated_at preflight in
    raise_ifM (Ok (state != "awaiting_review")
               <orM> negM (dt_le (ct_at t1) evaluated <andM> dt_le evaluated previous))
      (ValueError "Complete preflight and unique closure required") ;;
    raise_if (existsb (λ slot, sp_case_id slot == pe_case_id preflight) slots)
      (ValueError "Preflight overlaps a generation case") ;;
    raise_ifM (anyM (λ e, negM (dt_le evaluated (ex_started e)
                                <andM> dt_le (ex_started e) (ex_finished e)
                                <andM> dt_le (ex_finished e) previous)) executions)
      (ValueError "Execution is outside the preflight and closure interval") ;;
    unknowns ← unknowns_of generations semantics;
    let unknown_ids : gset string := list_to_set (ue_execution_id <$> unknowns) in
    foldM (λ _ cause,
      raise_if (references_differ (references transitions cause) unknown_ids)
        (ValueError "Unknown execution history differs from audited transitions"))
      tt ["result_unknown_requires_review"; "manual_recovery_approved"] ;;
    foldM (λ _ cause,
      raise_if (references_differ (references transitions cause) (dom contract_decisions))
        (ValueError "Contract recovery differs from audited transitions"))
      tt ["semantic_recovery_not_allowed"; "semantic_contract_recovery_approved"] ;;
    prior ← foldM (replay_resolution unknowns policy previous) [] resolutions;
    raise_if (negb (Nat.eqb (length prior) (length unknowns)))
      (ValueError "Closed Run still contains unresolved calls") ;;
    raise_if ((generation_per_run policy <? len generations)
              || (semantic_per_run policy <? len semantics))
      (ValueError "Closed Run exceeded its execution budget") ;;
    foldM (λ _ slot,
      check_closed_slot generations semantics decisions contract_decisions policy slot) tt slots ;;
    action ← next_action "collecting" (pe_status preflight) (pe_case_id preflight) slots policy
               None 0;
    raise_if (na_kind action != "await_review") (ValueError "Candidate evidence is not complete") ;;
    Ok previous
  | _ => Err (ValueError "Creation audit differs from initial transition")
  end.
Local Close Scope py_scope.
Local Open Scope list_scope.

(** ** Lemmas *)


Definition unknown_evidence (e : execution) : UnknownExecution :=
  mk_UnknownExecution (ex_id e) (if is_semantic e then "semantic" else "generation")
    (ex_ordinal e) (ex_finished e).

Lemma unknowns_of_elem generations semantics us e :
  unknowns_of generations semantics = Ok us →
  e ∈ all_executions generations semantics → ex_status e = "result_unknown" →
  unknown_evidence e ∈ us.
Proof.
  unfold unknowns_of, all_executions. intros H He Hs.
  apply bind_Ok in H as (gs & Hg & H). apply bind_Ok in H as (ss & Hss & [= <-]).
  apply mapM_Ok in Hg, Hss. rewrite elem_of_app in He. rewrite elem_of_app.
  destruct He as [(g & -> & Hin)%list_elem_of_fmap|(s & -> & Hin)%list_elem_of_fmap];
    [left|right].
  - assert (g ∈ List.filter (λ e, bool_decide (gc_status e = "result_unknown")) generations) as Hf.
    { rewrite list_elem_of_In, List.filter_In, <- list_elem_of_In.
      split; [done|by apply bool_decide_eq_true]. }
    apply list_elem_of_lookup in Hf as [i Hi].
    destruct (Forall2_lookup_l _ _ _ _ _ Hg Hi) as (u & Hu & [_ ->]%construct_Ok).
    by eapply list_elem_of_lookup_2.
  - assert (s ∈ List.filter (λ e, bool_decide (sc_status e = "result_unknown")) semantics) as Hf.
    { rewrite list_elem_of_In, List.filter_In, <- list_elem_of_In.
      split; [done|by apply bool_decide_eq_true]. }
    apply list_elem_of_lookup in Hf as [i Hi].
    destruct (Forall2_lookup_l _ _ _ _ _ Hss Hi) as (u & Hu & [_ ->]%construct_Ok).
    by eapply list_elem_of_lookup_2.
Qed.

(** The replay of the resolutions accepts them all, each as an authorization of its own unknown
    execution. *)
Lemma replay_Ok unknowns policy previous rs prior :
  foldM (replay_resolution unknowns policy previous) [] rs = Ok prior →
  prior = rs ∧ NoDup (ru_execution_id <$> rs) ∧ (rs ≠ [] → NoDup (ue_execution_id <$> unknowns)) ∧
  Forall (λ r, authorization_valid unknowns policy r ∧ dt_gt (ru_resolved_at r) previous = Ok false) rs.
Proof.
  revert prior; induction rs as [|r rs IH] using rev_ind; intros prior H.
  { injection H as <-. split_and!; [done|constructor|done|constructor]. }
  apply foldM_snoc in H as (p & Hp & H). destruct (IH _ Hp) as (-> & Hnd & _ & Hall).
  unfold replay_resolution in H. apply bind_Ok in H as (st & Hr & H).
  apply bind_Ok_unit in H as [Hd [= <-]].
  apply resolve_unknown_iff in Hr as (_ & Hu & _ & _ & (Hn & e & He & Hid & Ht & Hb) & ->).
  rewrite raise_ifM_Ok, orM_false, Ok_inj, negb_false_iff, bool_decide_eq_true in Hd.
  destruct Hd as [Hd Hlate]. cbn [rp_resolutions].
  rewrite fmap_app, NoDup_app, Forall_app, Forall_singleton. cbn [fmap list_fmap].
  split; [done|]. split; [|split; [done|]].
  - split_and!; [done| |apply NoDup_singleton]. by intros k Hk ->%list_elem_of_singleton.
  - split; [done|]. split; [|done]. split; [done|]. exists e. auto.
Qed.

Lemma replay_covers unknowns policy previous rs u :
  foldM (replay_resolution unknowns policy previous) [] rs = Ok rs →
  length rs = length unknowns → u ∈ unknowns →
  ∃ r, r ∈ rs ∧ ru_execution_id r = ue_execution_id u ∧
    authorization_valid unknowns policy r ∧ dt_gt (ru_resolved_at r) previous = Ok false.
Proof.
  intros H Hlen Hu. apply replay_Ok in H as (_ & Hnd & Hun & Hall).
  assert (rs ≠ []) as Hne by (intros ->; destruct unknowns; [by apply not_elem_of_nil in Hu|done]).
  rewrite Forall_forall in Hall.
  assert (ru_execution_id <$> rs ≡ₚ ue_execution_id <$> unknowns) as Hp.
  { apply submseteq_length_Permutation; [|rewrite !length_fmap; lia].
    apply NoDup_submseteq; [done|]. apply (authorized_ids unknowns policy).
    apply Forall_forall. intros r Hr. by apply Hall. }
  assert (ue_execution_id u ∈ ru_execution_id <$> rs) as Hin
    by (rewrite Hp; by apply list_elem_of_fmap_2).
  apply list_elem_of_fmap in Hin as (r & Hid & Hr). exists r. destruct (Hall r Hr). done.
Qed.

Lemma check_history_inv history limit recovery :
  check_history history limit recovery = Ok tt →
  len history <= limit ∧ ∃ e, last history = Some e ∧ er_status e = "succeeded".
Proof.
  unfold check_history. rewrite bind_Ok_unit, raise_if_Ok. intros [H _]. bool_inv.
  split; [done|]. destruct (last history) as [e|]; [|done]. bool_inv. eauto.
Qed.

Lemma check_pairs_inv decisions contracts l i a b :
  check_pairs decisions contracts l = Ok tt → l !! i = Some a → l !! S i = Some b →
  check_pair decisions contracts a b = Ok tt.
Proof.
  revert i; induction l as [|x [|y l] IH]; intros i H Ha Hb; [done|by destruct i|].
  cbn [check_pairs] in H. apply bind_Ok_unit in H as [Hxy H].
  destruct i as [|i]; cbn in Ha, Hb; [congruence|]. by apply (IH i).
Qed.

(** The audited path of a run through its statuses. *)
Inductive audited_path : string → datetime → list ClosureTransition → string → datetime → Prop :=
| path_nil s t : audited_path s t [] s t
| path_cons s t tr l s' t' :
    ct_source tr = s → allowed_cause s (ct_target tr) (ct_cause tr) = true →
    aware (ct_at tr) = true → dt_lt (ct_at tr) t = Ok false →
    audited_path (ct_target tr) (ct_at tr) l s' t' →
    audited_path s t (tr :: l) s' t'.

Section path.
Context (indexed : gmap string execution) (decisions : gmap string ResultUnknownResolution)
  (contract_decisions : gmap string ContractRecovery).

Lemma check_transition_inv s t tr s' t' :
  check_transition indexed decisions contract_decisions (s, t) tr = Ok (s', t') →
  ct_source tr = s ∧ allowed_cause s (ct_target tr) (ct_cause tr) = true ∧
  aware (ct_at tr) = true ∧ dt_lt (ct_at tr) t = Ok false ∧
  s' = ct_target tr ∧ t' = ct_at tr ∧
  (ct_target tr = "awaiting_review" → ∃ ref e, ct_evidence_refs tr = [ref] ∧
     indexed !! ref = Some e ∧ is_semantic e = true ∧ ex_status e = "succeeded" ∧
     dt_eqb (ex_finished e) (ct_at tr) = true).
Proof.
  unfold check_transition. intros H. apply bind_Ok_unit in H as [_ H].
  apply bind_Ok_unit in H as [Hg H]. apply bind_Ok_unit in H as [He [= <- <-]].
  rewrite raise_ifM_Ok, !orM_false, !Ok_inj, !orb_false_iff, !negb_false_iff,
    bool_decide_eq_true in Hg. destruct Hg as [[Ha Hlt] [[Hs Hal] _]].
  split_and!; try done. intros Htarget. rewrite Htarget in He.
  change (bool_decide ("awaiting_review" = "blocked")) with false in He. cbn iota in He.
  destruct (bool_decide_reflect (ct_source tr = "blocked")) as [Hb|Hb].
  { exfalso. rewrite Hs, Htarget in *. subst s. rewrite Hb in Hal.
    unfold allowed_cause in Hal. apply bool_decide_eq_true in Hal.
    repeat (apply elem_of_cons in Hal as [[=]|Hal]). by apply not_elem_of_nil in Hal. }
  rewrite bool_decide_eq_true_2 in He by done. unfold closure_evidence, one_reference in He.
  destruct (ct_evidence_refs tr) as [|ref [|? ?]]; [done| |done]. cbn in He.
  rewrite raise_if_Ok in He. destruct (indexed !! ref) as [e|] eqn:E; [|done].
  bool_inv. eauto 10.
Qed.

Lemma check_transitions_path l s t s' t' :
  foldM (check_transition indexed decisions contract_decisions) (s, t) l = Ok (s', t') →
  audited_path s t l s' t'.
Proof.
  revert s t; induction l as [|tr l IH]; intros s t H; cbn in H.
  { injection H as <- <-. constructor. }
  apply bind_Ok in H as ([s1 t1] & Ht & H).
  apply check_transition_inv in Ht as (? & ? & ? & ? & -> & -> & _). constructor; auto.
Qed.
End path.

Lemma no_path_from_awaiting t tr l s' t' :
  ¬ audited_path "awaiting_review" t (tr :: l) s' t'.
Proof.
  inversion 1 as [|? ? ? ? ? ? _ Ha]; subst. unfold allowed_cause in Ha.
  apply bool_decide_eq_true in Ha. repeat (apply elem_of_cons in Ha as [[=]|Ha]).
  by apply not_elem_of_nil in Ha.
Qed.

(** A path to review reaches it once, at its last transition and time. *)
Lemma path_unique_closure s t l t' :
  s ≠ "awaiting_review" → audited_path s t l "awaiting_review" t' →
  ∃ l0 tr, l = l0 ++ [tr] ∧ ct_target tr = "awaiting_review" ∧ ct_at tr = t' ∧
    ∀ x, x ∈ l0 → ct_target x ≠ "awaiting_review".
Proof.
  revert s t; induction l as [|tr l IH]; intros s t Hs H; inversion H; subst; [done|].
  destruct (decide (ct_target tr = "awaiting_review")) as [Ht|Ht].
  - destruct l as [|tr' l]; [|rewrite Ht in *; exfalso; by eapply no_path_from_awaiting].
    exists [], tr. match goal with P : audited_path _ _ [] _ _ |- _ => inversion P end. subst.
    split_and!; try done. intros x Hx; by apply not_elem_of_nil in Hx.
  - edestruct IH as (l0 & tr' & -> & ? & ? & Hl0); [exact Ht|eassumption|].
    exists (tr :: l0), tr'. split_and!; try done. intros x [->|Hx]%elem_of_cons; auto.
Qed.

(** Everything the validation establishes, as propositions. *)
Lemma closed_inventory_inv created_at requested_by transitions preflight slots generations semantics
    resolutions policy recoveries t :
  validate_closed_inventory created_at requested_by transitions preflight slots generations
    semantics resolutions policy recoveries = Ok t →
  let indexed := dict_of ex_id (all_executions generations semantics) in
  let decisions := dict_of ru_execution_id resolutions in
  let contracts := dict_of cr_execution_id recoveries in
  ∃ t0 rest unknowns action,
    transitions = t0 :: rest ∧ ct_target t0 = "requested" ∧
    NoDup (ex_id <$> all_executions generations semantics) ∧
    foldM (check_transition indexed decisions contracts) ("requested", created_at) rest
      = Ok ("awaiting_review", t) ∧
    (∀ e, e ∈ all_executions generations semantics →
       dt_le (pe_evaluated_at preflight) (ex_started e) = Ok true ∧
       dt_le (ex_started e) (ex_finished e) = Ok true ∧ dt_le (ex_finished e) t = Ok true) ∧
    unknowns_of generations semantics = Ok unknowns ∧
    foldM (replay_resolution unknowns policy t) [] resolutions = Ok resolutions ∧
    length resolutions = length unknowns ∧
    len generations <= generation_per_run policy ∧ len semantics <= semantic_per_run policy ∧
    (∀ s, s ∈ slots →
       check_closed_slot generations semantics decisions contracts policy s = Ok tt) ∧
    next_action "collecting" (pe_status preflight) (pe_case_id preflight) slots policy None 0
      = Ok action ∧ na_kind action = "await_review".
Proof.
  unfold validate_closed_inventory. intros H. apply bind_Ok_unit in H as [_ H].
  destruct transitions as [|t0 [|t1 [|t2 l]]]; [done..|]. set (rest := t1 :: t2 :: l) in *.
  apply bind_Ok_unit in H as [H0 H]. apply bind_Ok_unit in H as [Hex H].
  apply bind_Ok in H as (auth & _ & H). apply bind_Ok in H as ([state previous] & Hpath & H).
  apply bind_Ok_unit in H as [Hpre H]. apply bind_Ok_unit in H as [_ H].
  apply bind_Ok_unit in H as [Hint H]. apply bind_Ok in H as (unknowns & Hun & H).
  apply bind_Ok_unit in H as [_ H]. apply bind_Ok_unit in H as [_ H].
  apply bind_Ok in H as (prior & Hprior & H). apply bind_Ok_unit in H as [Hlen H].
  apply bind_Ok_unit in H as [Hbudget H]. apply bind_Ok_unit in H as [Hslots H].
  apply bind_Ok in H as (action & Haction & H). apply bind_Ok_unit in H as [Hk [= <-]].
  pose proof (replay_Ok _ _ _ _ _ Hprior) as (-> & _).
  rewrite raise_if_Ok in H0, Hex, Hlen, Hbudget, Hk.
  rewrite raise_ifM_Ok, orM_false, Ok_inj in Hpre. destruct Hpre as [Hst _]. bool_inv. subst state.
  rewrite raise_ifM_Ok, anyM_false in Hint.
  exists t0, rest, unknowns, action. split; [done|].
  unfold transition_eqb in H0. bool_inv.
  match goal with E : (_, _, _, _) = (_, _, _, _) |- _ => injection E as _ Htgt _ _ end.
  split; [done|]. split; [apply dict_of_size; by apply Nat.eqb_eq|]. split; [done|].
  split.
  { intros e He. specialize (Hint e He). rewrite negM_Ok, !andM_true in Hint. cbn in Hint. tauto. }
  split_and!; try done; try lia; try (by apply Nat.eqb_eq).
  exact (foldM_unit_elem (check_closed_slot _ _ _ _ _) _ Hslots).
Qed.

Lemma closed_inventory_Ok created_at requested_by transitions preflight slots generations
    semantics resolutions policy recoveries t :
  validate_closed_inventory created_at requested_by transitions preflight slots generations
    semantics resolutions policy recoveries = Ok t →
  len generations <= generation_per_run policy ∧ len semantics <= semantic_per_run policy ∧
  check_plan slots policy = Ok tt ∧ pe_status preflight = "passed" ∧
  (∀ s, s ∈ slots → ∃ c, sp_candidate s = Some c ∧ cand_review_ready c = true ∧
     len (sp_generation s) <= generation_per_slot policy ∧
     len (cand_semantic c) <= semantic_per_candidate policy ∧
     (∃ e, last (sp_generation s) = Some e ∧ er_status e = "succeeded") ∧
     (∃ e, last (cand_semantic c) = Some e ∧ er_status e = "succeeded")) ∧
  (∀ e, e ∈ all_executions generations semantics →
     dt_le (pe_evaluated_at preflight) (ex_started e) = Ok true ∧
     dt_le (ex_started e) (ex_finished e) = Ok true ∧ dt_le (ex_finished e) t = Ok true) ∧
  (∀ e, e ∈ all_executions generations semantics → ex_status e = "result_unknown" →
     ∃ r, r ∈ resolutions ∧ ru_execution_id r = ex_id e ∧
       ru_decision r = "authorize_replacement" ∧ dt_gt (ru_resolved_at r) t = Ok false).
Proof.
  intros H. apply closed_inventory_inv in H as (t0 & rest & us & a & _ & _ & _ & _ & Hint & Hun &
    Hrep & Hlen & Hg & Hs & Hslots & Ha & Hk).
  apply next_action_inv in Ha as Hinv. destruct Hinv as [Hplan _].
  pose proof (await_review_ready _ _ _ _ _ _ _ Ha Hk) as (_ & _ & Hpass & _ & Hready).
  split_and!; try done.
  - intros s Hin. specialize (Hslots s Hin). unfold check_closed_slot in Hslots.
    specialize (Hready s Hin). unfold slot_ready in Hready.
    destruct (sp_candidate s) as [c|]; [|done].
    apply bind_Ok_unit in Hslots as [H1%check_history_inv Hslots].
    apply bind_Ok_unit in Hslots as [H2%check_history_inv _].
    destruct H1, H2. exists c. split_and!; done.
  - intros e He Hst. pose proof (unknowns_of_elem _ _ _ _ Hun He Hst) as Hu.
    destruct (replay_covers _ _ _ _ _ Hrep Hlen Hu) as (r & Hr & Hid & [Hd _] & Hl).
    exists r. split_and!; done.
Qed.

(** C5: what a closed run has proven: it collected inside its budgets, every slot of the frozen
    plan holds a review-ready candidate whose generation and judgement histories end in a success
    within their limits, every execution lies between the preflight and the closure, and every
    execution whose result was unknown carries its own authorization, made after it finished and
    not after the closure, within the budget. *)
Theorem closed_inventory_complete created_at requested_by transitions preflight slots generations
    semantics resolutions policy recoveries t :
  validate_closed_inventory created_at requested_by transitions preflight slots generations
    semantics resolutions policy recoveries = Ok t →
  len generations <= generation_per_run policy ∧ len semantics <= semantic_per_run policy ∧
  check_plan slots policy = Ok tt ∧ pe_status preflight = "passed" ∧
  (∀ s, s ∈ slots → ∃ c, sp_candidate s = Some c ∧ cand_review_ready c = true ∧
     len (sp_generation s) <= generation_per_slot policy ∧
     len (cand_semantic c) <= semantic_per_candidate policy ∧
     (∃ e, last (sp_generation s) = Some e ∧ er_status e = "succeeded") ∧
     (∃ e, last (cand_semantic c) = Some e ∧ er_status e = "succeeded")) ∧
  (∀ e, e ∈ all_executions generations semantics →
     dt_le (pe_evaluated_at preflight) (ex_started e) = Ok true ∧
     dt_le (ex_started e) (ex_finished e) = Ok true ∧ dt_le (ex_finished e) t = Ok true) ∧
  (∀ e, e ∈ all_executions generations semantics → ex_status e = "result_unknown" →
     ∃ r, r ∈ resolutions ∧ ru_execution_id r = ex_id e ∧
       ru_decision r = "authorize_replacement" ∧ dt_gt (ru_resolved_at r) t = Ok false).
Proof. apply closed_inventory_Ok. Qed.

(** the transitions of a closed run are one audited path from requested to review: every step
    has an allowed cause, times never go back, review is reached once, at the end, by the success
    of a judgement that finished at the very time of the closure. *)
Theorem closed_run_path created_at requested_by transitions preflight slots generations
    semantics resolutions policy recoveries t :
  validate_closed_inventory created_at requested_by transitions preflight slots generations
    semantics resolutions policy recoveries = Ok t →
  ∃ t0 l tr, transitions = t0 :: l ++ [tr] ∧ ct_target t0 = "requested" ∧
    audited_path "requested" created_at (l ++ [tr]) "awaiting_review" t ∧
    ct_target tr = "awaiting_review" ∧ ct_at tr = t ∧
    (∀ x, x ∈ l → ct_target x ≠ "awaiting_review") ∧
    ∃ e, e ∈ all_executions generations semantics ∧ ct_evidence_refs tr = [ex_id e] ∧
      is_semantic e = true ∧ ex_status e = "succeeded" ∧ dt_eqb (ex_finished e) t = true.
Proof.
  intros H. apply closed_inventory_inv in H as (t0 & rest & us & a & -> & Ht0 & Hnd & Hpath & _).
  pose proof (check_transitions_path _ _ _ _ _ _ _ _ Hpath) as Hp.
  assert (Hne : "requested" ≠ "awaiting_review") by done.
  destruct (path_unique_closure _ _ _ _ Hne Hp) as (l & tr & -> & Htgt & <- & Hl).
  exists t0, l, tr. split_and!; try done.
  apply foldM_snoc in Hpath as ([s1 t1] & _ & Hlast).
  apply check_transition_inv in Hlast as (_ & _ & _ & _ & _ & _ & Hev).
  destruct (Hev Htgt) as (ref & e & Hrefs & Hlook & ? & ? & ?).
  apply dict_of_lookup_elem in Hlook as [He <-]. exists e. split_and!; done.
Qed.
