(* ===== verification/Transactions.v ===== *)
(** * Transactions: the database a unit of work reads and writes

    Models the contract of [Transactions.open] in
    [src/src/qs_ai/infrastructure/persistence/mysql/database.py]: a block owns a fresh session whose
    uncommitted work is rolled back when the block ends, whether it returned or raised. *)
From S2P Require Import Prelude.

(** A computation on a database [DB] that may raise.  The effects made before an exception stay,
    for a handler that catches it inside the same transaction. *)
Definition tx (DB A : Type) : Type := DB → res A * DB.
#[export] Instance tx_ret {DB} : MRet (tx DB) := λ A a db, (Ok a, db).
#[export] Instance tx_bind {DB} : MBind (tx DB) := λ A B f m db,
  match m db with
  | (Ok a, db') => f a db'
  | (Err e, db') => (Err e, db')
  end.
(** A computation that does not touch the database. *)
Definition lift {DB A} (m : res A) : tx DB A := λ db, (m, db).

(** The [async with self.uows.open() as uow] block around a body that returns its value and
    whether it committed. *)
Definition transaction {DB A} (body : tx DB (A * bool)) (db : DB) : res A * DB :=
  match body db with
  | (Ok (a, true), db') => (Ok a, db')
  | (Ok (a, false), _) => (Ok a, db)
  | (Err e, _) => (Err e, db)
  end.

(** ** Lemmas *)

Lemma tx_bind_Ok {DB A B} (m : tx DB A) (f : A → tx DB B) db b db2 :
  (m ≫= f) db = (Ok b, db2) ↔ ∃ a db1, m db = (Ok a, db1) ∧ f a db1 = (Ok b, db2).
Proof.
  unfold mbind, tx_bind. destruct (m db) as [[a|e] db1]; naive_solver.
Qed.

Lemma lift_Ok {DB A} (m : res A) (db : DB) a db' :
  lift m db = (Ok a, db') ↔ m = Ok a ∧ db' = db.
Proof. unfold lift. naive_solver. Qed.

Lemma ret_Ok {DB A} (a b : A) (db db' : DB) :
  mret (M := tx DB) a db = (Ok b, db') ↔ a = b ∧ db = db'.
Proof. unfold mret, tx_ret. naive_solver. Qed.

Lemma transaction_Ok {DB A} (body : tx DB (A * bool)) db a db' :
  transaction body db = (Ok a, db') ↔
  ∃ c db1, body db = (Ok (a, c), db1) ∧ db' = if (c : bool) then db1 else db.
Proof.
  unfold transaction. destruct (body db) as [[[x []]|e] db1]; split; intros Hx; simplify_eq;
    try naive_solver.
Qed.

(** An exception rolls the transaction back. *)
Lemma transaction_Err {DB A} (body : tx DB (A * bool)) db e db' :
  transaction body db = (Err e, db') → db' = db.
Proof. unfold transaction. destruct (body db) as [[[x []]|e'] db1]; congruence. Qed.

Lemma lift_bind {DB A B} (m : res A) (f : A → tx DB B) db :
  (lift m ≫= f) db = match m with Ok a => f a db | Err e => (Err e, db) end.
Proof. unfold mbind, tx_bind, lift. by destruct m. Qed.

Lemma bind_run {DB A B} (m : tx DB A) (f : A → tx DB B) db :
  (m ≫= f) db = match m db with (Ok a, db') => f a db' | (Err e, db') => (Err e, db') end.
Proof. done. Qed.

Ltac tx_inv1 :=
  match goal with
  | H : (_ ≫= _) _ = (Ok _, _) |- _ =>
    apply tx_bind_Ok in H; destruct H as (? & ? & ? & H); cbn beta iota in *
  | H : lift _ _ = (Ok _, _) |- _ => apply lift_Ok in H; destruct H as [? ->]
  | H : mret _ _ = (Ok _, _) |- _ => apply ret_Ok in H; destruct H as [? ?]; subst
  end.
Ltac tx_inv := repeat (tx_inv1 || ok_inv1).

