(* ===== verification/Session.v ===== *)
(** * Session: the participant interpretation session

    Models [src/src/qs_ai/domain/interpretation/model.py]: actors, evidence sets and their
    validation, the session aggregate and its transitions.  A method that mutates the session is a
    function to the session after the call, or the error it raises before any change. *)
From S2P Require Import Prelude PyText.

Local Open Scope string_scope.
Local Open Scope Z_scope.
Local Open Scope py_scope.

Inductive Status : Type :=
| CREATED | QUEUED | RUNNING | AWAITING_ANSWER | BLOCKED | CANCELLED | COMPLETED.
#[export] Instance Status_eq_dec : EqDecision Status.
Proof. solve_decision. Defined.

(** The value of the [StrEnum] member. *)
Definition status_value (s : Status) : string :=
  match s with
  | CREATED => "created" | QUEUED => "queued" | RUNNING => "running"
  | AWAITING_ANSWER => "awaiting_answer" | BLOCKED => "blocked" | CANCELLED => "cancelled"
  | COMPLETED => "completed"
  end.

Record Actor : Type := mk_Actor { org_id : string; subject_id : string }.
#[export] Instance Actor_eq_dec : EqDecision Actor.
Proof. solve_decision. Defined.

#[export] Instance Actor_post_init : Validated Actor := λ self,
  raise_if (negb (nonempty (org_id self)) || negb (nonempty (subject_id self)))
    (RuleViolation "invalid_actor").

Record Fact : Type := mk_Fact { fact_ref : string; fact_value : string }.
#[export] Instance Fact_eq_dec : EqDecision Fact.
Proof. solve_decision. Defined.

Record EvidenceItem : Type := mk_EvidenceItem {
  ei_assessment_id : string;
  ei_testee_id : string;
  ei_report_id : string;
  ei_source_version : string;
  ei_facts : list Fact;
}.
#[export] Instance EvidenceItem_eq_dec : EqDecision EvidenceItem.
Proof. solve_decision. Defined.

Record EvidenceSet : Type := mk_EvidenceSet {
  es_id : string;
  es_session_id : string;
  es_fingerprint : string;
  es_items : list EvidenceItem;
}.

(** [{x for x in l} == set(k)] on strings. *)
Definition same_set (l k : list string) : bool :=
  bool_decide ((list_to_set l : gset string) = list_to_set k).

Definition check_item (testee_id : string) (item : EvidenceItem) : res unit :=
  raise_if (ei_testee_id item != testee_id) (RuleViolation "evidence_subject_mismatch") ;;
  raise_if (negb (nonempty (ei_report_id item)) || negb (nonempty (ei_source_version item))
            || (match ei_facts item with [] => true | _ => false end)
            || existsb (λ f, negb (nonempty (fact_ref f))) (ei_facts item)
            || negb (bool_decide (NoDup (fact_ref <$> ei_facts item))))
    (RuleViolation "evidence_identity_missing").

Definition evidence_validate
    (self : EvidenceSet) (testee_id : string) (assessment_ids : list string) : res unit :=
  raise_if ((match es_items self with [] => true | _ => false end)
            || len (es_items self) != len assessment_ids
            || negb (same_set (ei_assessment_id <$> es_items self) assessment_ids))
    (RuleViolation "evidence_incomplete") ;;
  foldM (λ _ item, check_item testee_id item) tt (es_items self).

Record Session : Type := mk_Session {
  s_id : string;
  s_actor : Actor;
  s_testee_id : string;
  s_assessment_ids : list string;
  s_goal : string;
  s_status : Status;
  s_version : Z;
  s_active_run_id : option string;
  s_current_question_id : option string;
  s_evidence_set_id : option string;
  s_workflow_version : string;
  s_failure_code : option string;
}.
#[export] Instance Session_eq_dec : EqDecision Session.
Proof. solve_decision. Defined.

(** [Session(id, actor, testee_id, assessment_ids, goal)] *)
Definition new_session (id : string) (actor : Actor) (testee_id : string)
    (assessment_ids : list string) (goal : string) : Session :=
  mk_Session id actor testee_id assessment_ids goal CREATED 1 None None None "interpretation-v1"
    None.

Definition uses_published_snapshot (self : Session) : bool :=
  s_workflow_version self is_in ["qs-published-snapshot-v1"; "qs-published-snapshot-v2"].
Definition uses_qs_snapshot (self : Session) : bool :=
  (s_workflow_version self == "qs-snapshot-v1") || uses_published_snapshot self.

(** The assignments of a transition: status, active run, question and failure code change, the
    version grows by one. *)
Definition moved (self : Session) (status : Status) (run question failure : option string)
  : Session :=
  mk_Session (s_id self) (s_actor self) (s_testee_id self) (s_assessment_ids self) (s_goal self)
    status (s_version self + 1) run question (s_evidence_set_id self) (s_workflow_version self)
    failure.

Definition expect (self : Session) (version : Z) : res unit :=
  raise_if (s_version self != version) (RuleViolation "version_conflict").

Definition queue (self : Session) (run_id : string) (question_id : option string) : res Session :=
  match question_id with
  | None => raise_if (s_status self != CREATED) (RuleViolation "invalid_state")
  | Some _ =>
    raise_if (s_status self != AWAITING_ANSWER || s_current_question_id self != question_id)
      (RuleViolation "question_conflict")
  end ;;
  Ok (moved self QUEUED (Some run_id) None (s_failure_code self)).

Definition running (self : Session) : res Session :=
  raise_if (s_status self not_in [QUEUED; RUNNING]) (RuleViolation "invalid_state") ;;
  Ok (moved self RUNNING (s_active_run_id self) (s_current_question_id self)
        (s_failure_code self)).

Definition retry (self : Session) (previous_run_id new_run_id : string) : res Session :=
  raise_if (negb (uses_qs_snapshot self) || s_status self != BLOCKED
            || s_active_run_id self != Some previous_run_id
            || negb (nonempty new_run_id) || (new_run_id == previous_run_id))
    (RuleViolation "participant_retry_conflict") ;;
  Ok (moved self QUEUED (Some new_run_id) None None).

Definition await_answer (self : Session) (question_id : string) : res Session :=
  raise_if (s_status self != RUNNING) (RuleViolation "invalid_state") ;;
  Ok (moved self AWAITING_ANSWER (s_active_run_id self) (Some question_id)
        (s_failure_code self)).

Definition block (self : Session) (code : string) : res Session :=
  raise_if (s_status self != RUNNING) (RuleViolation "invalid_state") ;;
  Ok (moved self BLOCKED (s_active_run_id self) (s_current_question_id self) (Some code)).

Definition cancel (self : Session) : res Session :=
  raise_if (s_status self is_in [CANCELLED; COMPLETED]) (RuleViolation "invalid_state") ;;
  Ok (moved self CANCELLED (s_active_run_id self) None (s_failure_code self)).

Definition complete (self : Session) : res Session :=
  raise_if (s_status self != RUNNING) (RuleViolation "invalid_state") ;;
  Ok (moved self COMPLETED (s_active_run_id self) None None).

(** [session.evidence_set_id = id] and [session.workflow_version = v] of the service. *)
Definition with_evidence (self : Session) (id : string) : Session :=
  mk_Session (s_id self) (s_actor self) (s_testee_id self) (s_assessment_ids self) (s_goal self)
    (s_status self) (s_version self) (s_active_run_id self) (s_current_question_id self)
    (Some id) (s_workflow_version self) (s_failure_code self).
Definition with_workflow (self : Session) (version : string) : Session :=
  mk_Session (s_id self) (s_actor self) (s_testee_id self) (s_assessment_ids self) (s_goal self)
    (s_status self) (s_version self) (s_active_run_id self) (s_current_question_id self)
    (s_evidence_set_id self) version (s_failure_code self).

Record Question : Type := mk_Question {
  q_id : string;
  q_session_id : string;
  q_text : string;
  q_can_skip : bool;
  q_answer : option string;
  q_skipped : bool;
  q_answered_by : option string;
}.
Local Close Scope py_scope.

(** ** The session as a transition system *)

Inductive command : Type :=
| Queue (run_id : string) (question_id : option string)
| Running
| Retry (previous_run_id new_run_id : string)
| AwaitAnswer (question_id : string)
| Block (code : string)
| Cancel
| Complete.

Definition execute (c : command) (s : Session) : res Session :=
  match c with
  | Queue run question => queue s run question
  | Running => running s
  | Retry previous new => retry s previous new
  | AwaitAnswer question => await_answer s question
  | Block code => block s code
  | Cancel => cancel s
  | Complete => complete s
  end.

Inductive step : Session → Session → Prop :=
| step_command c s s' : execute c s = Ok s' → step s s'
| step_evidence s id : step s (with_evidence s id)
| step_workflow s version : step s (with_workflow s version).

(** What every reachable session satisfies. *)
Record session_inv (s : Session) : Prop := {
  inv_version : 1 <= s_version s;
  inv_created : s_status s = CREATED → s_version s = 1;
  inv_run : s_active_run_id s = None → s_status s = CREATED ∨ s_status s = CANCELLED;
  inv_question : is_Some (s_current_question_id s) ↔ s_status s = AWAITING_ANSWER;
  inv_failure : is_Some (s_failure_code s) → s_status s = BLOCKED ∨ s_status s = CANCELLED;
  inv_blocked : s_status s = BLOCKED → is_Some (s_failure_code s);
}.

(** Each command succeeds from exactly the statuses the code admits; its effect is [moved]. *)
Lemma execute_Ok c s s' :
  execute c s = Ok s' ↔
  match c with
  | Queue run None =>
      s_status s = CREATED ∧ s' = moved s QUEUED (Some run) None (s_failure_code s)
  | Queue run (Some question) =>
      s_status s = AWAITING_ANSWER ∧ s_current_question_id s = Some question ∧
      s' = moved s QUEUED (Some run) None (s_failure_code s)
  | Running =>
      (s_status s = QUEUED ∨ s_status s = RUNNING) ∧
      s' = moved s RUNNING (s_active_run_id s) (s_current_question_id s) (s_failure_code s)
  | Retry previous new =>
      uses_qs_snapshot s = true ∧ s_status s = BLOCKED ∧ s_active_run_id s = Some previous ∧
      new ≠ "" ∧ new ≠ previous ∧ s' = moved s QUEUED (Some new) None None
  | AwaitAnswer question =>
      s_status s = RUNNING ∧
      s' = moved s AWAITING_ANSWER (s_active_run_id s) (Some question) (s_failure_code s)
  | Block code =>
      s_status s = RUNNING ∧
      s' = moved s BLOCKED (s_active_run_id s) (s_current_question_id s) (Some code)
  | Cancel =>
      s_status s ≠ CANCELLED ∧ s_status s ≠ COMPLETED ∧
      s' = moved s CANCELLED (s_active_run_id s) None (s_failure_code s)
  | Complete =>
      s_status s = RUNNING ∧ s' = moved s COMPLETED (s_active_run_id s) None None
  end.
Proof.
  destruct c as [run [question|]| |prev new|question|code| |]; cbn [execute];
    unfold queue, running, retry, await_answer, block, cancel, complete;
    rewrite bind_Ok_unit, raise_if_Ok, Ok_inj, (eq_comm _ s');
    autorewrite with pybool; rewrite ?elem_of_two; tauto.
Qed.

Lemma moved_version s st r q f : s_version (moved s st r q f) = s_version s + 1.
Proof. done. Qed.

Lemma execute_version c s s' : execute c s = Ok s' → s_version s' = s_version s + 1.
Proof.
  intros H. apply execute_Ok in H. destruct c as [? []| | | | | |]; destruct_and?; subst; done.
Qed.

Lemma execute_identity c s s' :
  execute c s = Ok s' →
  s_id s' = s_id s ∧ s_actor s' = s_actor s ∧ s_testee_id s' = s_testee_id s ∧
  s_assessment_ids s' = s_assessment_ids s ∧ s_goal s' = s_goal s ∧
  s_workflow_version s' = s_workflow_version s ∧ s_evidence_set_id s' = s_evidence_set_id s.
Proof.
  intros H. apply execute_Ok in H.
  destruct c as [? []| | | | | |]; destruct_and?; subst s'; by split_and!.
Qed.

Lemma step_inv s s' : session_inv s → step s s' → session_inv s'.
Proof.
  intros Hinv Hst. destruct Hst as [c s s' H|s id|s v]; destruct Hinv as [Hv Hc Hr Hq Hf Hb];
    [|by split..].
  apply execute_Ok in H.
  destruct c as [? []| | | | | |]; destruct_and?; subst; split;
    cbn [moved s_status s_version s_active_run_id s_current_question_id s_failure_code];
    try lia; try done;
    try (rewrite Hq; intuition congruence);
    try (split; [by intros [? ?]|done]);
    try (split; [done|eauto]);
    try (intros ?%Hr); try (intros ?%Hf); intuition (try congruence; eauto);
    try (match goal with H : is_Some None |- _ => by destruct H end).
Qed.

Lemma new_session_inv id actor testee ids goal : session_inv (new_session id actor testee ids goal).
Proof.
  split; cbn; first [done|lia|by left|by intros [? ?]|by split; [intros [? ?]|]].
Qed.

Lemma reachable_inv s s' : session_inv s → rtc step s s' → session_inv s'.
Proof. intros Hinv H. induction H; [done|]. eauto using step_inv. Qed.

Lemma step_version s s' : step s s' → s_version s <= s_version s'.
Proof. intros [c ? ? H%execute_version|? ?|? ?]; cbn; lia. Qed.

Lemma steps_version s s' : rtc step s s' → s_version s <= s_version s'.
Proof. induction 1 as [|? ? ? Hs%step_version _ IH]; lia. Qed.

(** every session the service can reach from its creation keeps its invariant: the current
    question exists exactly while it awaits an answer, a failure code exists only on a blocked or
    cancelled session and always on a blocked one, a session past its creation has a run unless
    it was cancelled first; and its identity and subject never change. *)
Theorem session_reachable id actor testee ids goal s :
  rtc step (new_session id actor testee ids goal) s →
  session_inv s ∧ s_id s = id ∧ s_actor s = actor ∧ s_testee_id s = testee ∧
  s_assessment_ids s = ids ∧ s_goal s = goal.
Proof.
  intros H. split; [by eapply reachable_inv, H; apply new_session_inv|].
  remember (new_session id actor testee ids goal) as s0 eqn:E.
  assert (s_id s0 = id ∧ s_actor s0 = actor ∧ s_testee_id s0 = testee ∧
          s_assessment_ids s0 = ids ∧ s_goal s0 = goal) as H0 by by subst.
  clear E. induction H as [|s0 s1 s2 Hs _ IH]; [done|]. apply IH.
  destruct Hs as [c s0 s1 Hc|s0 ?|s0 ?]; [|done..].
  apply execute_identity in Hc as (-> & -> & -> & -> & -> & _). done.
Qed.

Definition terminal (s : Session) : Prop := s_status s = CANCELLED ∨ s_status s = COMPLETED.

(** a cancelled or completed session is final: no command of the aggregate succeeds on it, and
    every state reachable from it keeps its status, version and run. *)
Theorem terminal_final s s' :
  terminal s → rtc step s s' →
  (∀ c s1, execute c s' ≠ Ok s1) ∧
  s_status s' = s_status s ∧ s_version s' = s_version s ∧ s_active_run_id s' = s_active_run_id s.
Proof.
  intros Ht H.
  assert (Hstuck : ∀ s, terminal s → ∀ c s1, execute c s ≠ Ok s1).
  { clear. intros s Ht c s1 H. apply execute_Ok in H. unfold terminal in Ht.
    destruct c as [? []| | | | | |]; intuition congruence. }
  assert (Hsame : s_status s' = s_status s ∧ s_version s' = s_version s ∧
                  s_active_run_id s' = s_active_run_id s).
  { induction H as [|s s1 s2 Hs _ IH]; [done|].
    destruct Hs as [c s s1 Hc|s ?|s ?]; [by apply Hstuck in Hc|..]; by apply IH. }
  split; [|done]. apply Hstuck. unfold terminal in *. destruct Hsame as (-> & _). done.
Qed.

(** the version is an optimistic lock: after any successful command, and however the session
    moves on, a second command that expects the same version is refused with a conflict. *)
Theorem version_lock s c s1 s2 version c' :
  expect s version = Ok tt → execute c s = Ok s1 → rtc step s1 s2 →
  (expect s2 version ;; execute c' s2) = Err (RuleViolation "version_conflict").
Proof.
  unfold expect. rewrite raise_if_Ok, negb_false_iff, bool_decide_eq_true.
  intros <- H%execute_version Hs%steps_version.
  rewrite bool_decide_eq_false_2 by lia. done.
Qed.

(** evidence is complete or refused with the code of its first defect: it validates exactly
    when it covers the requested assessments one to one, all of the participant, each with its
    report, source version and distinct referenced facts. *)
Theorem evidence_validate_iff e testee ids :
  NoDup ids →
  evidence_validate e testee ids = Ok tt ↔
  es_items e ≠ [] ∧ ei_assessment_id <$> es_items e ≡ₚ ids ∧
  ∀ i, i ∈ es_items e → ei_testee_id i = testee ∧ ei_report_id i ≠ "" ∧
    ei_source_version i ≠ "" ∧ ei_facts i ≠ [] ∧ NoDup (fact_ref <$> ei_facts i) ∧
    ∀ f, f ∈ ei_facts i → fact_ref f ≠ "".
Proof.
  intros Hnd. unfold evidence_validate, same_set, len.
  rewrite bind_Ok_unit, raise_if_Ok, !orb_false_iff, !negb_false_iff, !bool_decide_eq_true.
  assert (Hitems : foldM (λ _ item, check_item testee item) tt (es_items e) = Ok tt ↔
    ∀ i, i ∈ es_items e → check_item testee i = Ok tt).
  { split; [by apply foldM_unit_elem|]. generalize (es_items e). intros l.
    induction l as [|i l IH]; intros Hl; cbn; [done|].
    rewrite (Hl i) by left. cbn. apply IH. intros j Hj. apply Hl. by right. }
  rewrite Hitems.
  assert (Hperm : (Z.of_nat (length (es_items e)) = Z.of_nat (length ids) ∧
    (list_to_set (ei_assessment_id <$> es_items e) : gset string) = list_to_set ids) ↔
    ei_assessment_id <$> es_items e ≡ₚ ids).
  { split.
    - intros [Hl Hset]. symmetry. apply submseteq_length_Permutation;
        [|rewrite length_fmap; lia]. apply NoDup_submseteq; [done|]. intros x Hx.
      apply (elem_of_list_to_set (C := gset string)). rewrite Hset. by apply elem_of_list_to_set.
    - intros Hp. split; [|by rewrite Hp]. rewrite <- Hp. by rewrite length_fmap. }
  rewrite <- Hperm.
  assert (Hcheck : ∀ i, check_item testee i = Ok tt ↔
    ei_testee_id i = testee ∧ ei_report_id i ≠ "" ∧ ei_source_version i ≠ "" ∧ ei_facts i ≠ [] ∧
    NoDup (fact_ref <$> ei_facts i) ∧ ∀ f, f ∈ ei_facts i → fact_ref f ≠ "").
  { intros i. unfold check_item.
    rewrite bind_Ok_unit, !raise_if_Ok, !orb_false_iff, !negb_false_iff, !nonempty_true,
      !bool_decide_eq_true, existsb_false. setoid_rewrite negb_false_iff.
    setoid_rewrite nonempty_true.
    assert ((match ei_facts i with [] => true | _ => false end) = false ↔ ei_facts i ≠ [])
      as -> by by destruct (ei_facts i).
    tauto. }
  setoid_rewrite Hcheck.
  assert ((match es_items e with [] => true | _ => false end) = false ↔ es_items e ≠ [])
    as -> by by destruct (es_items e).
  tauto.
Qed.
