(* ===== verification/Service.v ===== *)
(** * Service: admission, answers and cancellation under idempotency keys

    Models [src/src/qs_ai/application/interpretation/service.py] with its typed inputs
    ([src/src/qs_ai/application/interpretation/commands.py]) and its port
    [UnitOfWork] of [src/src/qs_ai/application/interpretation/ports.py].

    The port is a type class: a transaction [tx] threads the database through operations that may
    raise, keeping the effects made before an exception that the handler catches; [transaction] is
    the [async with] block, which keeps the database only when the handler committed.  The laws of
    the class say what the service relies on: the idempotency ledger and the stored sessions. *)
From stdpp Require Import pretty.
From S2P Require Import Prelude PyText PyInt PyUuid PyHash PyJson Transactions Session.
From Stdlib Require Import Ascii.

Local Open Scope string_scope.
Local Open Scope Z_scope.
Local Open Scope py_scope.

(** ** The port *)

Record Receipt : Type := mk_Receipt {
  r_session_id : string;
  r_run_id : option string;
  r_status : string;
  r_version : Z;
}.
#[export] Instance Receipt_eq_dec : EqDecision Receipt.
Proof. solve_decision. Defined.

(** [Receipt(session.id, session.active_run_id, session.status, session.version)] *)
Definition session_receipt (s : Session) : Receipt :=
  mk_Receipt (s_id s) (s_active_run_id s) (status_value (s_status s)) (s_version s).

Class UnitOfWork (DB : Type) : Type := {
  uow_reserve : string → string → string → tx DB (option Receipt);
  uow_receipt : string → string → Receipt → tx DB unit;
  uow_get : string → tx DB Session;
  uow_bind_request : string → string → tx DB unit;
  uow_bind_configuration : Session → EvidenceSet → tx DB unit;
  uow_add : Session → tx DB unit;
  uow_add_evidence : EvidenceSet → tx DB unit;
  uow_save : Session → tx DB unit;
  uow_question : string → tx DB Question;
  uow_answer : Question → Actor → option string → bool → tx DB unit;
  uow_enqueue : Session → option string → bool → option string → tx DB unit;
  uow_reject_run : Session → tx DB unit;
  uow_cancel_jobs : Session → tx DB unit;
}.

(** ** Inputs *)

(** [hashlib.sha256(json.dumps(value, sort_keys=True, ...).encode()).hexdigest()] *)
Definition fingerprint (value : json) : res string :=
  raw ← dumps_with compact_sorted value; Ok (sha256_hex raw).

Definition actor_definition (a : Actor) : json :=
  JObj [("org_id", JStr (org_id a)); ("subject_id", JStr (subject_id a))].
Definition fact_definition (f : Fact) : json :=
  JObj [("ref", JStr (fact_ref f)); ("value", JStr (fact_value f))].
Definition item_definition (i : EvidenceItem) : json :=
  JObj [("assessment_id", JStr (ei_assessment_id i));
        ("testee_id", JStr (ei_testee_id i));
        ("report_id", JStr (ei_report_id i));
        ("source_version", JStr (ei_source_version i));
        ("facts", JList (fact_definition <$> ei_facts i))].

Definition published_workflow_version (evidence : list EvidenceItem) : string :=
  match evidence with
  | [item] =>
    match ei_facts item with
    | [fact] =>
      if fact_ref fact == "standard_report" then
        match loads (fact_value fact) with
        | Ok (JObj l) =>
          if json_eqb (default JNull (assoc "schema_version" l)) (JStr "qs-report-snapshot/v2")
          then "qs-published-snapshot-v2" else "qs-published-snapshot-v1"
        | _ => "qs-published-snapshot-v1"
        end
      else "qs-published-snapshot-v1"
    | _ => "qs-published-snapshot-v1"
    end
  | _ => "qs-published-snapshot-v1"
  end.

Definition external_id (value : string) : bool :=
  (str_len value <=? 20) && is_ascii value
  && (nonempty value && forallb digit (String.list_ascii_of_string value))
  && (pretty (int_of_digits value) == value)
  && ((0 <? int_of_digits value) && (int_of_digits value <? 2 ^ 64)).

Definition validate_session_input
    (testee_id : string) (assessment_ids : list string) (goal : string) : res unit :=
  raise_if (negb (external_id testee_id)
            || negb ((1 <=? len assessment_ids) && (len assessment_ids <=? 10))
            || negb (bool_decide (NoDup assessment_ids))
            || existsb (λ i, negb (external_id i)) assessment_ids
            || negb (nonempty (strip goal))
            || (2000 <? str_len goal))
    (RuleViolation "invalid_session_input").

(** Commands keep the decoded values: the service checks their types itself. *)
Inductive Command : Type :=
| AnswerCommand (expected_version question_id answer skip : json)
| CancelCommand (expected_version : json).

Definition command_action (c : Command) : string :=
  match c with AnswerCommand _ _ _ _ => "answer" | CancelCommand _ => "cancel" end.
Definition command_version (c : Command) : json :=
  match c with AnswerCommand v _ _ _ => v | CancelCommand v => v end.
(** [asdict(command)] *)
Definition command_definition (c : Command) : json :=
  match c with
  | AnswerCommand v q a s =>
    JObj [("expected_version", v); ("question_id", q); ("answer", a); ("skip", s)]
  | CancelCommand v => JObj [("expected_version", v)]
  end.

(** [InterpretationService._key] *)
Definition scope_key (actor : Actor) (action resource key : string) : res string :=
  raise_if (negb (nonempty key) || (128 <? str_len key) || negb (is_ascii key))
    (RuleViolation "invalid_idempotency_key") ;;
  fingerprint (JList [actor_definition actor; JStr action; JStr resource]).

(** What [_record_answer] reads of an answer: its question, text and skip flag. *)
Definition answer_values (question_id answer skip : json)
  : res (string * option string * bool) :=
  match question_id, skip, answer with
  | JStr q, JBool true, JNull => Ok (q, None, true)
  | JStr q, JBool false, JStr a =>
    if negb (nonempty (strip a)) || (4000 <? str_len a) then Err (RuleViolation "invalid_answer")
    else Ok (q, Some a, false)
  | _, _, _ => Err (RuleViolation "invalid_answer")
  end.

(** ** The handlers *)

Section service.
Context {DB : Type} `{UnitOfWork DB}.
(** The source that authorizes sessions without a snapshot, and the identities the service
    allocates for a session, its run and its evidence. *)
Context (authorize : Actor → string → list string → res unit).
Context (session_identity run_identity evidence_identity : string).

Definition owned (actor : Actor) (session_id : string) (db : DB) : res Session :=
  session ← (transaction (s ← uow_get session_id; mret (s, false)) db).1;
  raise_if (s_actor session != actor) AccessDenied ;;
  (if uses_qs_snapshot session then Ok tt
   else authorize actor (s_testee_id session) (s_assessment_ids session)) ;;
  Ok session.

Definition record_answer
    (session : Session) (actor : Actor) (question_id answer skip : json)
    : tx DB (string * option string * bool) :=
  '(q, text, skipped) ← lift (answer_values question_id answer skip);
  lift (raise_if (s_current_question_id session != Some q) (RuleViolation "question_conflict")) ;;
  question ← uow_question q;
  lift (raise_if (skipped && negb (q_can_skip question)) (RuleViolation "skip_not_allowed")) ;;
  lift (raise_if (is_some (q_answered_by question)) (RuleViolation "question_conflict")) ;;
  uow_answer question actor text skipped ;;
  mret (q, text, skipped).

Definition change_body
    (scope key request_hash : string) (actor : Actor) (session_id : string) (c : Command)
    : tx DB (Receipt * bool) :=
  previous ← uow_reserve scope key request_hash;
  match previous with
  | Some r => mret (r, false)
  | None =>
    session ← uow_get session_id;
    version ← lift (match command_version c with
                    | JInt v => Ok v
                    | _ => Err (RuleViolation "invalid_version")
                    end);
    lift (expect session version) ;;
    session ← (match c with
               | CancelCommand _ =>
                 session ← lift (cancel session);
                 uow_cancel_jobs session ;;
                 mret session
               | AnswerCommand _ question_id answer skip =>
                 '(q, text, skipped) ← record_answer session actor question_id answer skip;
                 session ← lift (queue session run_identity (Some q));
                 uow_enqueue session text skipped (Some q) ;;
                 mret session
               end);
    uow_save session ;;
    let receipt := session_receipt session in
    uow_receipt scope key receipt ;;
    mret (receipt, true)
  end.

(** [_change], [answer] and [cancel] *)
Definition change (actor : Actor) (session_id : string) (c : Command) (key : string) (db : DB)
  : res Receipt * DB :=
  match scope_key actor (command_action c) session_id key with
  | Err e => (Err e, db)
  | Ok scope =>
    match owned actor session_id db with
    | Err e => (Err e, db)
    | Ok _ =>
      match fingerprint (command_definition c) with
      | Err e => (Err e, db)
      | Ok h => transaction (change_body scope key h actor session_id c) db
      end
    end
  end.

(** The inner [try]: the evidence, the configuration and the queue.  It returns the session as
    the block left it, whether it raised or not. *)
Definition admit_evidence (session : Session) (testee_id : string) (assessment_ids : list string)
    (evidence : list EvidenceItem) : DB → res unit * Session * DB := λ db,
  match evidence_validate (mk_EvidenceSet "" "" "" evidence) testee_id assessment_ids with
  | Err (RuleViolation _) => (Err (AdmissionRejected "admission_input_invalid"), session, db)
  | Err e => (Err e, session, db)
  | Ok _ =>
    match fingerprint (JList (item_definition <$> evidence)) with
    | Err e => (Err e, session, db)
    | Ok h =>
      let frozen := mk_EvidenceSet evidence_identity (s_id session) h evidence in
      match uow_add_evidence frozen db with
      | (Err e, db) => (Err e, session, db)
      | (Ok _, db) =>
        let session := with_evidence session evidence_identity in
        match uow_bind_configuration session frozen db with
        | (Err e, db) => (Err e, session, db)
        | (Ok _, db) =>
          match uow_enqueue session None false None db with
          | (Err e, db) =>
            (Err (if e == RuleViolation "participant_daily_capacity_exceeded"
                  then AdmissionRejected "participant_daily_capacity_exceeded" else e),
             session, db)
          | (Ok _, db) => (Ok tt, session, db)
          end
        end
      end
    end
  end.

(** [except AdmissionRejected]: the durable refusal. *)
Definition refuse (session : Session) (code : string) : tx DB Session :=
  session ← lift (running session);
  session ← lift (block session code);
  uow_reject_run session ;;
  mret session.

Definition admission (session : Session) (testee_id : string) (assessment_ids : list string)
    (evidence : list EvidenceItem) : tx DB Session := λ db,
  match admit_evidence session testee_id assessment_ids evidence db with
  | (Ok _, session, db) => (Ok session, db)
  | (Err (AdmissionRejected code), session, db) => refuse session code db
  | (Err e, _, db) => (Err e, db)
  end.

Definition start_body
    (scope request_id request_hash : string) (actor : Actor) (testee_id : string)
    (assessment_ids : list string) (goal : string) (evidence : list EvidenceItem)
    : tx DB (Receipt * bool) :=
  previous ← uow_reserve scope request_id request_hash;
  match previous with
  | Some r => mret (r, false)
  | None =>
    session ← lift (queue (new_session session_identity actor testee_id assessment_ids goal)
                      run_identity None);
    uow_add session ;;
    let session := with_workflow session (published_workflow_version evidence) in
    uow_bind_request (s_id session) request_id ;;
    session ← admission session testee_id assessment_ids evidence;
    uow_save session ;;
    let receipt := session_receipt session in
    uow_receipt scope request_id receipt ;;
    mret (receipt, true)
  end.

(** [if str(UUID(request_id)) != request_id: raise ...] *)
Definition check_request_id (request_id : string) : res unit :=
  match uuid_canonical request_id with
  | None => Err (ValueError "badly formed hexadecimal UUID string")
  | Some canonical => raise_if (negb canonical) (RuleViolation "invalid_request_id")
  end.

Definition start_scope : res string :=
  fingerprint (JList [JStr "qs-server"; JStr "external-start-v1"]).
Definition start_hash (actor : Actor) (testee_id : string) (assessment_ids : list string)
    (goal : string) (evidence : list EvidenceItem) : res string :=
  fingerprint (JList ([actor_definition actor; JStr testee_id; JList (JStr <$> assessment_ids);
                       JStr goal] ++ (item_definition <$> evidence))%list).

Definition start_input (actor : Actor) (testee_id : string) (assessment_ids : list string)
    (goal request_id : string) : res unit :=
  check_request_id request_id ;;
  raise_if (negb (external_id (org_id actor)) || negb (nonempty (subject_id actor))
            || (128 <? str_len (subject_id actor))) (RuleViolation "invalid_session_input") ;;
  validate_session_input testee_id assessment_ids goal.

Definition start_external
    (actor : Actor) (testee_id : string) (assessment_ids : list string) (goal request_id : string)
    (evidence : list EvidenceItem) (db : DB) : res Receipt * DB :=
  match start_input actor testee_id assessment_ids goal request_id with
  | Err e => (Err e, db)
  | Ok _ =>
    match start_scope, start_hash actor testee_id assessment_ids goal evidence with
    | Ok scope, Ok h =>
      transaction (start_body scope request_id h actor testee_id assessment_ids goal evidence) db
    | Err e, _ => (Err e, db)
    | _, Err e => (Err e, db)
    end
  end.
End service.
Local Close Scope py_scope.

(** ** The laws of the port *)

(** The sessions whose identities a numeric column keeps: [str(int(id)) == id]. *)
Definition storable (s : Session) : Prop :=
  decimal_text (org_id (s_actor s)) ∧ decimal_text (s_testee_id s).

(** Two databases with the same idempotency ledger and the same stored sessions. *)
Class UnitOfWorkLaws (DB : Type) `{UnitOfWork DB} : Type := {
  (** The ledger of a scope and key: the request it was reserved for, and its receipt. *)
  ledger : DB → string * string → option (string * option Receipt);
  stored : DB → string → option Session;
  stored_id db i s : stored db i = Some s → s_id s = i ∧ storable s;
  reserve_new scope key h db :
    ledger db (scope, key) = None →
    ∃ db', uow_reserve scope key h db = (Ok None, db') ∧
      (∀ k, ledger db' k = if decide (k = (scope, key)) then Some (h, None) else ledger db k) ∧
      (∀ i, stored db' i = stored db i);
  reserve_old scope key h h' o db :
    ledger db (scope, key) = Some (h', o) →
    uow_reserve scope key h db =
      (if decide (h = h') then Ok o else Err (RuleViolation "idempotency_conflict"), db);
  receipt_spec scope key h o r db :
    ledger db (scope, key) = Some (h, o) →
    ∃ db', uow_receipt scope key r db = (Ok tt, db') ∧
      (∀ k, ledger db' k = if decide (k = (scope, key)) then Some (h, Some r) else ledger db k) ∧
      (∀ i, stored db' i = stored db i);
  get_spec i db :
    uow_get i db = (match stored db i with Some s => Ok s | None => Err NotFound end, db);
  save_spec s db db' :
    storable s → uow_save s db = (Ok tt, db') →
    (∀ k, ledger db' k = ledger db k) ∧
    ∀ i, stored db' i = if decide (i = s_id s) then (λ _, s) <$> stored db i else stored db i;
  add_spec s db db' :
    storable s → uow_add s db = (Ok tt, db') →
    stored db (s_id s) = None ∧ (∀ k, ledger db' k = ledger db k) ∧
    ∀ i, stored db' i = if decide (i = s_id s) then Some s else stored db i;
  (** The other operations touch neither, whether they raise or not. *)
  frame : DB → DB → Prop := λ db db',
    (∀ k, ledger db' k = ledger db k) ∧ (∀ i, stored db' i = stored db i);
  bind_request_frame i r db : frame db (uow_bind_request i r db).2;
  bind_configuration_frame s e db : frame db (uow_bind_configuration s e db).2;
  add_evidence_frame e db : frame db (uow_add_evidence e db).2;
  question_frame q db : frame db (uow_question q db).2;
  answer_frame q a t s db : frame db (uow_answer q a t s db).2;
  enqueue_frame s t k q db : frame db (uow_enqueue s t k q db).2;
  reject_run_frame s db : frame db (uow_reject_run s db).2;
  cancel_jobs_frame s db : frame db (uow_cancel_jobs s db).2;
}.

(** ** Lemmas *)

Section properties.
Context {DB : Type} `{UnitOfWorkLaws DB}.
Context (authorize : Actor → string → list string → res unit).
Context (session_identity run_identity evidence_identity : string).

Lemma frame_Ok {A} (m : tx DB A) db a db' :
  m db = (a, db') → frame db (m db).2 → frame db db'.
Proof. by intros ->. Qed.

Lemma frame_trans db1 db2 db3 : frame db1 db2 → frame db2 db3 → frame db1 db3.
Proof.
  unfold frame. intros [Hl1 Hs1] [Hl2 Hs2]. split; intros; [by rewrite Hl2|by rewrite Hs2].
Qed.

Lemma frame_refl db : frame db db.
Proof. by split. Qed.

(** A reservation finds the receipt of the same request, or opens the ledger entry. *)
Lemma reserve_Ok scope key h db o db1 :
  uow_reserve scope key h db = (Ok o, db1) →
  (is_Some o ∧ ledger db (scope, key) = Some (h, o) ∧ db1 = db) ∨
  (o = None ∧ (ledger db (scope, key) = None ∨ ledger db (scope, key) = Some (h, None)) ∧
   (∀ k, ledger db1 k = if decide (k = (scope, key)) then Some (h, None) else ledger db k) ∧
   ∀ i, stored db1 i = stored db i).
Proof.
  intros Hr. destruct (ledger db (scope, key)) as [[h' o']|] eqn:E.
  - rewrite (reserve_old _ _ h _ _ _ E) in Hr. injection Hr as Ho <-.
    destruct (decide (h = h')) as [<-|]; [|done]. injection Ho as <-.
    destruct o' as [r|]; [left; eauto|]. right. split_and!; auto.
    intros k. by destruct (decide (k = (scope, key))) as [->|].
  - destruct (reserve_new _ _ h _ E) as (db' & Hr' & Hl & Hs).
    rewrite Hr in Hr'. injection Hr' as -> ->. right. auto.
Qed.

(** Saving the session and the receipt at the end of a handler. *)
Lemma close_Ok scope key h session db0 db r db' :
  storable session →
  (∀ k, ledger db k = if decide (k = (scope, key)) then Some (h, None) else ledger db0 k) →
  (uow_save session ;; uow_receipt scope key (session_receipt session) ;;
   mret (session_receipt session, true)) db = (Ok r, db') →
  r = (session_receipt session, true) ∧
  (∀ k, ledger db' k = if decide (k = (scope, key)) then Some (h, Some (session_receipt session))
                       else ledger db0 k) ∧
  ∀ i, stored db' i
    = if decide (i = s_id session) then (λ _, session) <$> stored db i else stored db i.
Proof.
  intros Hst Hl Hx. apply tx_bind_Ok in Hx as ([] & db1 & Hsave & Hx).
  apply tx_bind_Ok in Hx as ([] & db2 & Hreceipt & Hx). apply ret_Ok in Hx as [<- <-].
  destruct (save_spec _ _ _ Hst Hsave) as [Hl1 Hs1].
  assert (ledger db1 (scope, key) = Some (h, None)) as Hk by by rewrite Hl1, Hl, decide_True.
  destruct (receipt_spec _ _ _ _ (session_receipt session) _ Hk) as (db3 & Hr & Hl2 & Hs2).
  rewrite Hreceipt in Hr. injection Hr as <-. split; [done|]. split.
  - intros k. rewrite Hl2. destruct (decide (k = (scope, key))) as [->|Hne]; [done|].
    by rewrite Hl1, Hl, decide_False.
  - intros i. by rewrite Hs2, Hs1.
Qed.

(** What the ledger and the stored session are after a handler that answered. *)
Definition recorded (scope key h : string) (r : Receipt) (db db' : DB) : Prop :=
  ∀ k, ledger db' k = if decide (k = (scope, key)) then Some (h, Some r) else ledger db k.

Lemma record_answer_frame session actor q a s db x db' :
  record_answer session actor q a s db = (Ok x, db') →
  frame db db' ∧ s_current_question_id session = Some x.1.1.
Proof.
  unfold record_answer. intros Hx. apply tx_bind_Ok in Hx as ([[qid text] skipped] & db1 & Hv & Hx).
  apply lift_Ok in Hv as [_ ->].
  apply tx_bind_Ok in Hx as (u & db2 & Hg & Hx). apply lift_Ok in Hg as [Hg ->].
  apply raise_if_Ok, negb_false_iff, bool_decide_eq_true in Hg.
  apply tx_bind_Ok in Hx as (question & db3 & Hq & Hx).
  apply tx_bind_Ok in Hx as (u2 & db4 & Hg2 & Hx). apply lift_Ok in Hg2 as [_ ->].
  apply tx_bind_Ok in Hx as (u3 & db5 & Hg3 & Hx). apply lift_Ok in Hg3 as [_ ->].
  apply tx_bind_Ok in Hx as (u4 & db6 & Ha & Hx). apply ret_Ok in Hx as [<- <-].
  split; [|done]. eapply frame_trans; [eapply frame_Ok; [exact Hq|apply question_frame]|].
  eapply frame_Ok; [exact Ha|apply answer_frame].
Qed.

(** The session command a request executes. *)
Definition command_of (c : Command) (s : Session) : option command :=
  match c with
  | CancelCommand _ => Some Cancel
  | AnswerCommand _ _ _ _ => Queue run_identity <$> (Some <$> s_current_question_id s)
  end.

Lemma change_body_Ok scope key h actor id c db r committed db' :
  change_body run_identity scope key h actor id c db = (Ok (r, committed), db') →
  (committed = false ∧ ledger db (scope, key) = Some (h, Some r)) ∨
  (committed = true ∧
   (ledger db (scope, key) = None ∨ ledger db (scope, key) = Some (h, None)) ∧
   recorded scope key h r db db' ∧
   ∃ s s' cmd, stored db id = Some s ∧ command_version c = JInt (s_version s) ∧
     command_of c s = Some cmd ∧ execute cmd s = Ok s' ∧ r = session_receipt s' ∧
     ∀ i, stored db' i = if decide (i = id) then Some s' else stored db i).
Proof.
  unfold change_body. intros Hx. apply tx_bind_Ok in Hx as (o & db1 & Hres & Hx).
  apply reserve_Ok in Hres as [([r0 Hr0] & Hl & ->)|(-> & Hl & Hl1 & Hs1)].
  { left. rewrite Hr0 in *. apply ret_Ok in Hx as [[= <- <-] _]. done. }
  right. apply tx_bind_Ok in Hx as (s & db2 & Hg & Hx). rewrite get_spec, Hs1 in Hg.
  destruct (stored db id) as [s0|] eqn:Hst; [|done]. injection Hg as -> <-.
  apply tx_bind_Ok in Hx as (v & db3 & Hv & Hx). apply lift_Ok in Hv as [Hv ->].
  apply tx_bind_Ok in Hx as (u & db4 & He & Hx). apply lift_Ok in He as [He ->].
  apply raise_if_Ok, negb_false_iff, bool_decide_eq_true in He. subst v.
  apply tx_bind_Ok in Hx as (s' & db5 & Hcmd & Hx).
  assert (Hmid : frame db1 db5 ∧ ∃ cmd, command_of c s = Some cmd ∧ execute cmd s = Ok s').
  { destruct c as [ver q a sk|ver].
    - apply tx_bind_Ok in Hcmd as ([[qid text] skipped] & db6 & Hans & Hcmd).
      apply record_answer_frame in Hans as [Hf Hq]. cbn in Hq.
      apply tx_bind_Ok in Hcmd as (s1 & db7 & Hqueue & Hcmd). apply lift_Ok in Hqueue as [Hqueue ->].
      apply tx_bind_Ok in Hcmd as (u2 & db8 & Henq & Hcmd). apply ret_Ok in Hcmd as [-> <-].
      split.
      + eapply frame_trans; [exact Hf|]. eapply frame_Ok; [exact Henq|apply enqueue_frame].
      + exists (Queue run_identity (Some qid)). split; [cbn; by rewrite Hq|exact Hqueue].
    - apply tx_bind_Ok in Hcmd as (s1 & db7 & Hcan & Hcmd). apply lift_Ok in Hcan as [Hcan ->].
      apply tx_bind_Ok in Hcmd as (u2 & db8 & Hj & Hcmd). apply ret_Ok in Hcmd as [-> <-].
      split; [eapply frame_Ok; [exact Hj|apply cancel_jobs_frame]|]. by exists Cancel. }
  destruct Hmid as ([Hlm Hsm] & cmd & Hcmd' & Hexec).
  destruct (stored_id _ _ _ Hst) as [Hid0 Hst0].
  assert (s_id s' = id ∧ storable s') as [Hid Hst'].
  { unfold storable in *. by apply execute_identity in Hexec as (-> & -> & -> & _). }
  apply (close_Ok scope key h s' db _ _ _ Hst') in Hx as ([= -> ->] & Hl' & Hs').
  2: { intros k. by rewrite Hlm, Hl1. }
  split; [done|]. split; [done|]. split; [done|].
  exists s, s', cmd. split_and!; try done.
  - destruct (command_version c); naive_solver.
  - intros i. rewrite Hs', Hid. rewrite Hsm, Hs1.
    destruct (decide (i = id)) as [->|]; [by rewrite Hst|done].
Qed.

Lemma transaction_get id db :
  (transaction (s ← uow_get id; mret (s, false)) db).1
  = match stored db id with Some s => Ok s | None => Err NotFound end.
Proof. unfold transaction, mbind, tx_bind. rewrite get_spec. by destruct (stored db id). Qed.

Lemma owned_inv actor id db s :
  owned authorize actor id db = Ok s ↔
  stored db id = Some s ∧ s_actor s = actor ∧
  (uses_qs_snapshot s = true ∨ authorize actor (s_testee_id s) (s_assessment_ids s) = Ok tt).
Proof.
  unfold owned. rewrite transaction_get.
  destruct (stored db id) as [s0|]; cbn; [|naive_solver].
  rewrite bind_Ok_unit, raise_if_Ok, negb_false_iff, bool_decide_eq_true, bind_Ok_unit, Ok_inj.
  destruct (uses_qs_snapshot s0) eqn:Hu; split.
  - intros (? & _ & <-). rewrite Hu. auto.
  - intros ([= <-] & ? & _). auto.
  - intros (? & ? & <-). auto.
  - intros ([= <-] & ? & [Hx|?]); [congruence|auto].
Qed.

Lemma admit_frame session testee ids evidence db o s' db' :
  admit_evidence evidence_identity session testee ids evidence db = (o, s', db') →
  frame db db' ∧ (s' = session ∨ s' = with_evidence session evidence_identity) ∧
  (o = Ok tt → s' = with_evidence session evidence_identity ∧
     evidence_validate (mk_EvidenceSet "" "" "" evidence) testee ids = Ok tt).
Proof.
  unfold admit_evidence. intros Hx.
  destruct (evidence_validate _ _ _) as [[]|e] eqn:Hv.
  2: { assert (s' = session ∧ db' = db ∧ o ≠ Ok tt) as (-> & -> & Ho)
         by (destruct e; simplify_eq; done).
       split_and!; [by apply frame_refl|by left|done]. }
  destruct (fingerprint _) as [h|e]; [|simplify_eq; split_and!; [apply frame_refl|by left|done]].
  destruct (uow_add_evidence _ db) as [[[]|e] db1] eqn:Ha.
  2: { simplify_eq. split_and!; [|by left|done].
       eapply frame_Ok; [exact Ha|apply add_evidence_frame]. }
  pose proof (frame_Ok _ _ _ _ Ha (add_evidence_frame _ _)) as Hf1.
  destruct (uow_bind_configuration _ _ db1) as [[[]|e] db2] eqn:Hb.
  2: { simplify_eq. split_and!; [|by right|done]. eapply frame_trans; [exact Hf1|].
       eapply frame_Ok; [exact Hb|apply bind_configuration_frame]. }
  pose proof (frame_Ok _ _ _ _ Hb (bind_configuration_frame _ _ _)) as Hf2.
  destruct (uow_enqueue _ _ _ _ db2) as [o3 db3] eqn:He.
  pose proof (frame_Ok _ _ _ _ He (enqueue_frame _ _ _ _ _)) as Hf3.
  assert (s' = with_evidence session evidence_identity ∧ db' = db3) as [-> ->].
  { clear -Hx. destruct o3 as [[]|e]; by simplify_eq. }
  split_and!; [by eapply frame_trans; [|eapply frame_trans]|by right|done].
Qed.

(** The session a start leaves: queued with its evidence, or durably refused. *)
Definition start_session (base s' : Session) (evidence : list EvidenceItem) : Prop :=
  (s' = with_evidence base evidence_identity ∧
   evidence_validate (mk_EvidenceSet "" "" "" evidence) (s_testee_id base) (s_assessment_ids base)
     = Ok tt) ∨
  ∃ s1 s2 code, (s1 = base ∨ s1 = with_evidence base evidence_identity) ∧
    execute Running s1 = Ok s2 ∧ execute (Block code) s2 = Ok s'.

Lemma admission_Ok session evidence db s' db' :
  admission evidence_identity session (s_testee_id session) (s_assessment_ids session) evidence db
    = (Ok s', db') →
  frame db db' ∧ start_session session s' evidence.
Proof.
  unfold admission. intros Hx.
  destruct (admit_evidence _ _ _ _ _ _) as [[o s1] db1] eqn:Ha. apply admit_frame in Ha as (Hf & Hs & Ho).
  destruct o as [[]|e].
  { injection Hx as <- <-. split; [done|]. left. by apply Ho. }
  destruct e; try done. unfold refuse in Hx.
  apply tx_bind_Ok in Hx as (s2 & db2 & Hrun & Hx). apply lift_Ok in Hrun as [Hrun ->].
  apply tx_bind_Ok in Hx as (s3 & db3 & Hblock & Hx). apply lift_Ok in Hblock as [Hblock ->].
  apply tx_bind_Ok in Hx as (u & db4 & Hrej & Hx). apply ret_Ok in Hx as [<- <-].
  split; [|right; by exists s1, s2, code].
  eapply frame_trans; [exact Hf|]. eapply frame_Ok; [exact Hrej|apply reject_run_frame].
Qed.

(** The session [start_external] creates before its admission. *)
Definition queued_session (actor : Actor) (testee : string) (ids : list string) (goal : string)
    (evidence : list EvidenceItem) : Session :=
  with_workflow (moved (new_session session_identity actor testee ids goal) QUEUED
                   (Some run_identity) None None) (published_workflow_version evidence).

Lemma start_body_Ok scope key h actor testee ids goal evidence db r committed db' :
  decimal_text (org_id actor) → decimal_text testee →
  start_body session_identity run_identity evidence_identity scope key h actor testee ids goal
    evidence db = (Ok (r, committed), db') →
  (committed = false ∧ ledger db (scope, key) = Some (h, Some r)) ∨
  (committed = true ∧
   (ledger db (scope, key) = None ∨ ledger db (scope, key) = Some (h, None)) ∧
   recorded scope key h r db db' ∧
   ∃ s', start_session (queued_session actor testee ids goal evidence) s' evidence ∧
     r = session_receipt s' ∧ stored db session_identity = None ∧
     ∀ i, stored db' i = if decide (i = session_identity) then Some s' else stored db i).
Proof.
  unfold start_body. intros Horg Htestee Hx. apply tx_bind_Ok in Hx as (o & db1 & Hres & Hx).
  apply reserve_Ok in Hres as [([r0 Hr0] & Hl & ->)|(-> & Hl & Hl1 & Hs1)].
  { left. rewrite Hr0 in *. apply ret_Ok in Hx as [[= <- <-] _]. done. }
  right. apply tx_bind_Ok in Hx as (s & db2 & Hq & Hx). apply lift_Ok in Hq as [Hq ->].
  cbn in Hq. injection Hq as <-.
  apply tx_bind_Ok in Hx as (u & db3 & Hadd & Hx). destruct u.
  assert (Hstor : storable (moved (new_session session_identity actor testee ids goal) QUEUED
                              (Some run_identity) None None)) by by split.
  destruct (add_spec _ _ _ Hstor Hadd) as (Hnew & Hl3 & Hs3). cbn in Hnew.
  fold (queued_session actor testee ids goal evidence) in Hx.
  set (base := queued_session actor testee ids goal evidence) in *.
  apply tx_bind_Ok in Hx as (u & db4 & Hbind & Hx).
  pose proof (frame_Ok _ _ _ _ Hbind (bind_request_frame _ _ _)) as Hf4.
  apply tx_bind_Ok in Hx as (s' & db5 & Hadm & Hx).
  apply (admission_Ok base) in Hadm as [Hf5 Hstart].
  destruct (frame_trans _ _ _ Hf4 Hf5) as [Hl5 Hs5].
  assert (s_id s' = session_identity ∧ storable s') as [Hid Hst'].
  { destruct Hstart as [[-> _]|(s1 & s2 & code & Hs & H1 & H2)]; [done|]. unfold storable.
    apply execute_identity in H2 as (-> & -> & -> & _), H1 as (-> & -> & -> & _).
    by destruct Hs as [-> | ->]. }
  apply (close_Ok scope key h s' db _ _ _ Hst') in Hx as ([= -> ->] & Hl' & Hs').
  2: { intros k. by rewrite Hl5, Hl3, Hl1. }
  split; [done|]. split; [done|]. split; [done|]. exists s'. split_and!; try done.
  - by rewrite <- Hs1.
  - intros i. rewrite Hs', Hid, Hs5, Hs3, Hs1. cbn.
    destruct (decide (i = session_identity)) as [->|]; done.
Qed.

Lemma change_Ok actor id c key db r db' :
  change authorize run_identity actor id c key db = (Ok r, db') →
  ∃ scope h s0, scope_key actor (command_action c) id key = Ok scope ∧
    fingerprint (command_definition c) = Ok h ∧ stored db id = Some s0 ∧ s_actor s0 = actor ∧
    owned authorize actor id db = Ok s0 ∧
    ((db' = db ∧ ledger db (scope, key) = Some (h, Some r)) ∨
     (recorded scope key h r db db' ∧
      ∃ s' cmd, command_version c = JInt (s_version s0) ∧ command_of c s0 = Some cmd ∧
        execute cmd s0 = Ok s' ∧ r = session_receipt s' ∧
        ∀ i, stored db' i = if decide (i = id) then Some s' else stored db i)).
Proof.
  unfold change. intros Hx.
  destruct (scope_key _ _ _ _) as [scope|] eqn:Hk; [|done].
  destruct (owned _ _ _ _) as [s0|] eqn:Ho; [|done].
  destruct (fingerprint _) as [h|] eqn:Hh; [|done].
  pose proof Ho as (Hst & Ha & _)%owned_inv. exists scope, h, s0. split_and!; try done.
  apply transaction_Ok in Hx as (committed & db1 & Hx & ->).
  apply change_body_Ok in Hx as [[-> Hl]|(-> & _ & Hrec & s & s' & cmd & Hs & Hx)];
    [by left|right].
  rewrite Hst in Hs. injection Hs as <-. split; [done|]. by exists s', cmd.
Qed.

(** A session that stays the owner's is still authorized after one of its own commands. *)
Lemma owned_after actor id db s0 cmd s' db' :
  owned authorize actor id db = Ok s0 → execute cmd s0 = Ok s' → stored db' id = Some s' →
  ∃ s, owned authorize actor id db' = Ok s.
Proof.
  intros (Hst & Ha & Hauth)%owned_inv Hex Hs'. exists s'. apply owned_inv.
  apply execute_identity in Hex as (_ & Hact & Ht & Has & _ & Hw & _).
  split_and!; [done|congruence|]. unfold uses_qs_snapshot, uses_published_snapshot in *.
  rewrite Hw, Ht, Has. done.
Qed.

(** commands are idempotent: once an answer or a cancellation has been answered, sending the
    same command with the same key again returns the same receipt and changes nothing. *)
Theorem change_replay actor id c key db r db' :
  change authorize run_identity actor id c key db = (Ok r, db') →
  change authorize run_identity actor id c key db' = (Ok r, db').
Proof.
  intros Hx. pose proof Hx as (scope & h & s0 & Hk & Hh & Hst & Ha & Ho & Hcase)%change_Ok.
  destruct Hcase as [[-> _]|(Hrec & s' & cmd & _ & _ & Hex & _ & Hst')]; [done|].
  destruct (owned_after _ _ _ _ _ s' db' Ho Hex) as [s Ho'].
  { by rewrite Hst', decide_True. }
  unfold change. rewrite Hk, Ho', Hh. unfold transaction, change_body, mbind, tx_bind.
  rewrite (reserve_old _ _ h h (Some r)) by by rewrite Hrec, decide_True.
  by rewrite decide_True.
Qed.

(** a key is bound to its command: sending a different command of the same action with a key
    that was answered is refused with a conflict, and changes nothing. *)
Theorem change_conflict actor id c c' key db r db' h h' :
  change authorize run_identity actor id c key db = (Ok r, db') →
  command_action c' = command_action c →
  fingerprint (command_definition c) = Ok h → fingerprint (command_definition c') = Ok h' →
  h' ≠ h →
  change authorize run_identity actor id c' key db'
    = (Err (RuleViolation "idempotency_conflict"), db').
Proof.
  intros (scope & h0 & s0 & Hk & Hh & Hst & Ha & Ho & Hcase)%change_Ok Hact Hh0 Hh' Hne.
  rewrite Hh in Hh0. injection Hh0 as ->.
  assert (ledger db' (scope, key) = Some (h, Some r) ∧
          ∃ s, owned authorize actor id db' = Ok s) as [Hl [s Ho']].
  { destruct Hcase as [[-> Hl]|(Hrec & s' & cmd & _ & _ & Hex & _ & Hst')]; [by eauto|].
    split; [by rewrite Hrec, decide_True|]. eapply owned_after; [done..|].
    by rewrite Hst', decide_True. }
  unfold change. rewrite Hact, Hk, Ho', Hh'. unfold transaction, change_body, mbind, tx_bind.
  rewrite (reserve_old _ _ h' h (Some r)) by done. by rewrite decide_False.
Qed.

(** a command that is answered for the first time moves exactly its session by exactly one
    transition of the aggregate, from the version it expected to the next one; a command that is
    refused changes nothing. *)
Theorem change_effect actor id c key db o db' :
  change authorize run_identity actor id c key db = (o, db') →
  match o with
  | Err _ => db' = db
  | Ok r =>
    db' = db ∨
    ∃ s s' cmd, stored db id = Some s ∧ s_actor s = actor ∧
      command_version c = JInt (s_version s) ∧ execute cmd s = Ok s' ∧
      (cmd = Cancel ∨ ∃ q, cmd = Queue run_identity (Some q)) ∧
      r = session_receipt s' ∧ r_version r = s_version s + 1 ∧
      ∀ i, stored db' i = if decide (i = id) then Some s' else stored db i
  end.
Proof.
  intros Hx. destruct o as [r|e].
  - apply change_Ok in Hx as (scope & h & s0 & _ & _ & Hst & Ha & _ & Hcase).
    destruct Hcase as [[-> _]|(_ & s' & cmd & Hv & Hcmd & Hex & -> & Hst')]; [by left|right].
    exists s0, s', cmd. split_and!; try done.
    + destruct c as [? ? ? ?|?]; cbn in Hcmd; [|left; congruence].
      destruct (s_current_question_id s0) as [q|]; [|done]. right. exists q. cbn in Hcmd. congruence.
    + by apply execute_version in Hex.
  - unfold change in Hx. destruct (scope_key _ _ _ _); [|congruence].
    destruct (owned _ _ _ _); [|congruence]. destruct (fingerprint _); [|congruence].
    by eapply transaction_Err.
Qed.

Lemma external_id_decimal v : external_id v = true → decimal_text v.
Proof.
  unfold external_id. rewrite !andb_true_iff, bool_decide_eq_true.
  intros [[_ Hv] [Hpos _]]. rewrite <- Hv. apply pretty_Z_decimal. lia.
Qed.

(** The identities a start accepts are decimal texts. *)
Lemma start_input_decimal actor testee ids goal request u :
  start_input actor testee ids goal request = Ok u → decimal_text (org_id actor) ∧ decimal_text testee.
Proof.
  unfold start_input, validate_session_input. intros Hx. py_inv.
  split; by apply external_id_decimal.
Qed.

#[local] Opaque start_scope start_hash start_input.

Lemma start_external_Ok actor testee ids goal request evidence db r db' :
  start_external session_identity run_identity evidence_identity actor testee ids goal request
    evidence db = (Ok r, db') →
  ∃ scope h, start_input actor testee ids goal request = Ok tt ∧ start_scope = Ok scope ∧
    start_hash actor testee ids goal evidence = Ok h ∧
    ((db' = db ∧ ledger db (scope, request) = Some (h, Some r)) ∨
     (recorded scope request h r db db' ∧
      ∃ s', start_session (queued_session actor testee ids goal evidence) s' evidence ∧
        r = session_receipt s' ∧ stored db session_identity = None ∧
        ∀ i, stored db' i = if decide (i = session_identity) then Some s' else stored db i)).
Proof.
  unfold start_external. intros Hx.
  destruct (start_input _ _ _ _ _) as [[]|] eqn:Hi; [|done].
  destruct start_scope as [scope|] eqn:Hk; [|done].
  destruct (start_hash _ _ _ _ _) as [h|] eqn:Hh; [|done].
  exists scope, h. split; [done|]. split; [done|]. split; [done|].
  apply transaction_Ok in Hx as (committed & db1 & Hx & ->).
  apply start_input_decimal in Hi as Hdec. destruct Hdec as [Horg Htestee].
  apply (start_body_Ok _ _ _ _ _ _ _ _ _ _ _ _ Horg Htestee) in Hx.
  destruct Hx as [[Hc Hl]|(Hc & _ & Hrec & s' & Hx)]; rewrite Hc.
  - left. split; [reflexivity|exact Hl].
  - right. split; [exact Hrec|]. exists s'. exact Hx.
Qed.

(** admission is durable: whatever the first answer to a request id was, an acceptance or a
    refusal, every later call with the same request returns the same receipt and changes nothing,
    on any database that kept the ledger; and a call that reuses the id for another request, of
    any actor, is refused with a conflict. *)
Theorem start_replay actor testee ids goal request evidence db r db' db2 :
  start_external session_identity run_identity evidence_identity actor testee ids goal request
    evidence db = (Ok r, db') →
  (∀ k, ledger db2 k = ledger db' k) →
  start_external session_identity run_identity evidence_identity actor testee ids goal request
    evidence db2 = (Ok r, db2) ∧
  ∀ actor' testee' ids' goal' evidence' h h',
    start_input actor' testee' ids' goal' request = Ok tt →
    start_hash actor testee ids goal evidence = Ok h →
    start_hash actor' testee' ids' goal' evidence' = Ok h' → h' ≠ h →
    start_external session_identity run_identity evidence_identity actor' testee' ids' goal'
      request evidence' db2 = (Err (RuleViolation "idempotency_conflict"), db2).
Proof.
  intros (scope & h & Hi & Hk & Hh & Hcase)%start_external_Ok Hsame.
  assert (ledger db2 (scope, request) = Some (h, Some r)) as Hl.
  { rewrite Hsame. destruct Hcase as [[-> Hl]|[Hrec _]]; [done|].
    by rewrite Hrec, decide_True. }
  split.
  - unfold start_external. rewrite Hi, Hk, Hh. unfold transaction, start_body, mbind, tx_bind.
    rewrite (reserve_old _ _ h h (Some r)) by done. by rewrite decide_True.
  - intros actor' testee' ids' goal' evidence' h0 h' Hi' Hh0 Hh' Hne.
    rewrite Hh in Hh0. injection Hh0 as <-.
    unfold start_external. rewrite Hi', Hk, Hh'. unfold transaction, start_body, mbind, tx_bind.
    rewrite (reserve_old _ _ h' h (Some r)) by done. by rewrite decide_False.
Qed.

(** an admission answers in one of three ways: the receipt of an earlier call, a session queued
    at version two over complete evidence, or a durable refusal, blocked at version four with its
    code; the stored session is the one the receipt reports. *)
Theorem start_outcomes actor testee ids goal request evidence db r db' :
  start_external session_identity run_identity evidence_identity actor testee ids goal request
    evidence db = (Ok r, db') →
  db' = db ∨
  ∃ s, stored db' session_identity = Some s ∧ r = session_receipt s ∧ s_actor s = actor ∧
    s_active_run_id s = Some run_identity ∧
    ((s_status s = QUEUED ∧ s_version s = 2 ∧ s_evidence_set_id s = Some evidence_identity ∧
      evidence_validate (mk_EvidenceSet "" "" "" evidence) testee ids = Ok tt) ∨
     (s_status s = BLOCKED ∧ s_version s = 4 ∧ is_Some (s_failure_code s))).
Proof.
  intros (scope & h & _ & _ & _ & [[-> _]|(_ & s & Hs & -> & _ & Hst)])%start_external_Ok; [by left|].
  right. exists s. split; [by rewrite Hst, decide_True|]. split; [done|].
  destruct Hs as [[-> Hv]|(s1 & s2 & code & Hs1 & H1 & H2)].
  - split; [done|]. split; [done|]. left. by split_and!.
  - apply execute_Ok in H1 as [_ ->], H2 as [_ ->].
    destruct Hs1 as [-> | ->]; (split; [done|]; split; [done|]; right; split_and!; [done..|eauto]).
Qed.
End properties.
