(* ===== verification/ReportInput.v ===== *)
(** * ReportInput: from a frozen report to the prompt

    The dispatch of [application/interpretation/input.py] ([assemble_input]) and
    [application/interpretation/preparation.py], which binds the evidence of a session to the
    report the input is assembled from and renders the prompt of a release. *)
From S2P Require Import Prelude PyText PyNum PyJson Errors JsonRoundTrip Scenes Prompts.
From S2P Require Import InputValues ScaleInput MbtiReferences MbtiInput Session Service.

Local Open Scope string_scope.
Local Open Scope Z_scope.
#[local] Arguments String.append : simpl nomatch.

(** [InputPolicy] and its two subclasses *)
Inductive ReportPolicy : Type :=
| ScalePolicy (policy : InputPolicy)
| MbtiPolicy (policy : InputPolicy) (scene_contract_version : string)
| ThematicPolicy (policy : InputPolicy) (scene_contract_version : string)
    (reference_material : MBTIReferenceMaterial).

(** [isinstance(policy, MBTIInputPolicy)] *)
Definition is_mbti (policy : ReportPolicy) : bool :=
  match policy with ScalePolicy _ => false | _ => true end.
(** [getattr(policy, "scene_contract_version", None)] *)
Definition scene_of (policy : ReportPolicy) : option string :=
  match policy with
  | ScalePolicy _ => None
  | MbtiPolicy _ scene | ThematicPolicy _ scene _ => Some scene
  end.

Definition assemble_body (raw : string) (policy : ReportPolicy) (locale : string)
    (focus : list string) : res AssembledInput :=
  snapshot ← loads_with snapshot_hooks raw;
  match policy with
  | ThematicPolicy policy scene material =>
    assemble_mbti_themes snapshot policy scene material locale focus
  | MbtiPolicy policy scene => assemble_mbti snapshot policy scene locale focus
  | ScalePolicy policy => assemble_scale snapshot policy locale focus
  end.

(** [except (KeyError, TypeError, AttributeError, ValueError)] around the body *)
Definition input_refusal (e : exn) : exn :=
  match e with
  | InvalidInput _ | NotApplicable _ => e
  | KeyError _ | TypeError | AttributeError => InvalidInput "Invalid report snapshot"
  | _ => if is_value_error e then InvalidInput "Invalid report snapshot" else e
  end.
Definition assemble_input (raw : string) (policy : ReportPolicy) (locale : string)
    (focus : list string) : res AssembledInput :=
  match assemble_body raw policy locale focus with
  | Ok a => Ok a
  | Err e => Err (input_refusal e)
  end.

(** ** Refusals *)

(** What the steps of an assembly raise. *)
Definition input_error (e : exn) : Prop :=
  match e with
  | KeyError _ | TypeError | AttributeError | OverflowError => True
  | _ => is_value_error e = true
  end.
(** The two classes of a refusal. *)
Definition refused (e : exn) : Prop :=
  match e with InvalidInput _ | NotApplicable _ => True | _ => False end.

Lemma json_item_raises v k : raises input_error (json_item v k).
Proof. destruct v; try done. cbn. by destruct (assoc k l). Qed.
Lemma json_get_raises v k : raises input_error (json_get v k).
Proof. by destruct v. Qed.
Lemma json_get_default_raises v k d : raises input_error (json_get_default v k d).
Proof. by destruct v. Qed.
Lemma iterate_raises v : raises input_error (iterate v).
Proof. by destruct v. Qed.
Lemma text_field_raises v k : raises input_error (text_field v k).
Proof. unfold text_field. apply raises_bind; [apply json_item_raises|]. intros []; done. Qed.
Lemma plain_raises v n b : raises input_error (plain v n b).
Proof. unfold plain. by solve_raises. Qed.
Lemma number_raises v b : raises input_error (number v b).
Proof. unfold number, isfinite. by solve_raises. Qed.
Lemma dumps_raises st v : raises input_error (dumps_with st v).
Proof. by apply dumps_with_raises. Qed.
Lemma pick_raises v ks : raises input_error (pick v ks).
Proof. unfold pick. solve_raises. apply json_item_raises. Qed.
#[export] Hint Resolve json_item_raises json_get_raises json_get_default_raises iterate_raises
  text_field_raises plain_raises number_raises dumps_raises pick_raises : raises.
#[export] Hint Extern 1 (input_error _) => done : raises.

Lemma append_raises refs st ref a b c : raises input_error (append_suggestion refs st ref a b c).
Proof. unfold append_suggestion. solve_raises. Qed.
#[export] Hint Resolve append_raises : raises.
Lemma suggestions_raises refs v : raises input_error (suggestions refs v).
Proof.
  unfold suggestions, collect_report, collect_dimension, report_ref, int_text, ref_value.
  solve_raises.
Qed.
#[export] Hint Resolve suggestions_raises : raises.

Lemma project_score_raises v : raises input_error (project_score v).
Proof. unfold project_score. solve_raises. Qed.
Lemma project_level_raises v : raises input_error (project_level v).
Proof. unfold project_level. solve_raises. Qed.
Lemma project_norm_raises v : raises input_error (project_norm v).
Proof. unfold project_norm. solve_raises. Qed.
Lemma project_model_result_raises v : raises input_error (project_model_result v).
Proof. unfold project_model_result. solve_raises. Qed.
#[export] Hint Resolve project_score_raises project_level_raises project_norm_raises
  project_model_result_raises : raises.
Lemma project_dimension_raises p r f s : raises input_error (project_dimension p r f s).
Proof. unfold project_dimension, natural_field, parent_of. solve_raises. Qed.
#[export] Hint Resolve project_dimension_raises : raises.
Lemma scale_facts_raises s p m r : raises input_error (scale_facts s p m r).
Proof. unfold scale_facts, dimension_codes. solve_raises. Qed.
#[export] Hint Resolve scale_facts_raises : raises.

Lemma assemble_scale_raises s p l f : raises input_error (assemble_scale s p l f).
Proof.
  unfold assemble_scale, check_scale_policy, check_model, check_source, check_identity,
    check_texts, source_identity, differs, json_text. solve_raises.
Qed.

(** *** The MBTI scenes *)

Lemma contract_axes code version k :
  mbti_model_contract code version = Some k → length (bounds k) = 4%nat ∧ length (axes k) = 4%nat.
Proof. unfold mbti_model_contract. repeat case_bool_decide; by intros [= <-]. Qed.
Lemma contract_of_axes code version k :
  contract_of code version = Some k → length (bounds k) = 4%nat ∧ length (axes k) = 4%nat.
Proof. destruct code, version; try done. apply contract_axes. Qed.

Lemma fields_raises v ks : raises input_error (fields v ks).
Proof. unfold fields. solve_raises. Qed.
Lemma bounded_raises v lo hi : raises input_error (bounded v lo hi).
Proof. unfold bounded. solve_raises. Qed.
#[export] Hint Resolve fields_raises bounded_raises : raises.

Lemma pole_preference_raises d score k :
  length (bounds k) = 4%nat → length (axes k) = 4%nat →
  raises input_error (pole_preference d score k).
Proof.
  intros Hb Ha. unfold pole_preference.
  apply raises_bind; [solve_raises|]. intros p _. apply raises_bind; [solve_raises|]. intros p' _.
  apply raises_bind; [solve_raises|]. intros order _. destruct order as [| |order| | | |]; try done.
  apply raises_bind; [solve_raises|]. intros u Ho. py_inv.
  destruct (lookup_lt_is_Some_2 (bounds k) (Z.to_nat (order - 1))) as [[[lo hi] t] ->]; [lia|].
  destruct (lookup_lt_is_Some_2 (axes k) (Z.to_nat (order - 1))) as [axis ->]; [lia|].
  solve_raises.
Qed.

Lemma joined_raises l : raises input_error (joined l).
Proof. unfold joined. solve_raises. Qed.
Lemma fromisoformat_raises s : raises input_error (PyIso.fromisoformat s).
Proof.
  unfold PyIso.fromisoformat, PyIso.clock, PyIso.offset, PyIso.clock, PyIso.number, PyIso.literal.
  solve_raises.
Qed.
#[export] Hint Resolve joined_raises fromisoformat_raises : raises.

Lemma validate_snapshot_raises v : raises input_error (validate_snapshot v).
Proof.
  assert (Hmodel : ∀ m, raises input_error (check_mbti_model m)).
  { intros m. unfold check_mbti_model. solve_raises. }
  assert (Hsource : ∀ m, raises input_error (check_mbti_source m)).
  { intros m. unfold check_mbti_source, check_texts, naive_time. solve_raises. }
  assert (Hresult : ∀ m, raises input_error (check_mbti_result m)).
  { intros m. unfold check_mbti_result. solve_raises. }
  assert (Hdim : ∀ k l d, length (bounds k) = 4%nat → length (axes k) = 4%nat →
            raises input_error (check_dimension k l d)).
  { intros k l d Hb Ha. unfold check_dimension, add_preference.
    repeat first [by apply pole_preference_raises | solve [eauto 4 with raises] | raises_step]. }
  assert (Hsug : ∀ l s, raises input_error (check_suggestion l s)).
  { intros l s. unfold check_suggestion. solve_raises. }
  unfold validate_snapshot. cbv beta.
  do 3 (apply raises_bind; [solve_raises|intros ? _]).
  do 2 (apply raises_bind; [solve_raises|intros ? _]).
  apply raises_bind; [solve_raises|intros ? _].
  apply raises_bind; [apply Hmodel|intros k Hk].
  assert (Hlen : length (bounds k) = 4%nat ∧ length (axes k) = 4%nat).
  { unfold check_mbti_model in Hk. ok_inv. destruct (contract_of _ _) as [k'|] eqn:E; [|done].
    ok_inv. by apply contract_of_axes in E. }
  destruct Hlen as [Hb Ha].
  repeat first [apply Hresult | by apply Hdim | apply Hsug | solve [eauto 4 with raises] | raises_step].
Qed.

Lemma decode_mbti_raises v : raises input_error (decode_mbti_snapshot v).
Proof.
  unfold decode_mbti_snapshot. pose proof (validate_snapshot_raises v) as H.
  destruct (validate_snapshot v) as [s|e]; [done|]. cbn in H. by destruct (_ || _).
Qed.
#[export] Hint Resolve decode_mbti_raises : raises.

Lemma mbti_facts_raises s : raises input_error (mbti_facts s).
Proof. unfold mbti_facts, sort_on, int_at, project_axis. solve_raises. Qed.
#[export] Hint Resolve mbti_facts_raises : raises.
Lemma project_mbti_raises v p c l f : raises input_error (project_mbti v p c l f).
Proof.
  unfold project_mbti, check_mbti_policy, check_mbti_request, json_text. solve_raises.
Qed.
#[export] Hint Resolve project_mbti_raises : raises.

Lemma loads_raises s : raises input_error (loads s).
Proof. by apply loads_with_raises. Qed.
Lemma projection_raises s : raises input_error (projection s).
Proof.
  unfold projection, selected_canonical. apply raises_bind; [solve_raises|]. intros t _.
  apply raises_bind; [apply loads_raises|]. intros d _. by solve_raises.
Qed.
Lemma select_raises m s : raises input_error (select m s).
Proof. unfold select. solve_raises. Qed.
#[export] Hint Resolve loads_raises projection_raises select_raises : raises.

Lemma assemble_themes_raises v p c m l f : raises input_error (assemble_mbti_themes v p c m l f).
Proof.
  unfold assemble_mbti_themes, type_code_of, select_value, update, json_text. solve_raises.
Qed.

Lemma assemble_body_raises raw p l f : raises input_error (assemble_body raw p l f).
Proof.
  unfold assemble_body. apply raises_bind.
  - apply loads_with_raises; try done. intros ps. cbn. unfold unique_object. solve_raises.
  - intros s _. destruct p.
    + apply assemble_scale_raises.
    + unfold assemble_mbti. solve_raises.
    + apply assemble_themes_raises.
Qed.

(** C23: every refusal of an assembly is an [InvalidInput] or its subclass [NotApplicable]: no key,
    type, attribute or decoding error of a snapshot leaves the module, whichever scene the policy
    names; the only other exception is the [OverflowError] of an integer too large for a float. *)
Theorem input_refusals raw policy locale focus e :
  assemble_input raw policy locale focus = Err e → refused e ∨ e = OverflowError.
Proof.
  unfold assemble_input. pose proof (assemble_body_raises raw policy locale focus) as H.
  destruct (assemble_body _ _ _ _) as [a|e']; [done|]. intros [= <-]. cbn in H.
  destruct e'; cbn in *; try done; auto.
Qed.

(** ** What the prompt reads of an assembled payload *)

Lemma check_data_context rpolicy scene locale focus facts :
  scene ≠ Some MBTI_THEMATIC_CONTRACT →
  check_data rpolicy scene
    (JObj [("context", context_json locale focus); ("facts", JObj facts)])
  = (raise_if ((35 <? str_len locale) || negb (locale_re locale))
       (InvalidPrompt "Invalid locale") ;;
     raise_if (negb (bool_decide (NoDup focus))
               || existsb (λ x, x not_in allowed_focus_areas rpolicy)%py focus)
       (InvalidPrompt "Focus areas must be unique and allowed by Profile") ;;
     Ok (locale, focus)).
Proof.
  intros Hs. unfold check_data. rewrite (bool_decide_eq_false_2 (scene = _)) by done.
  change (same_keys _ _) with true. cbn [negb raise_if mbind res_bind andM raise_ifM].
  change (json_item _ "context") with (Ok (context_json locale focus)).
  change (json_item _ "facts") with (Ok (JObj facts)).
  cbn [mbind res_bind orM is_dict context_json negb raise_ifM raise_if].
  change (json_get _ "locale") with (Ok (JStr locale)).
  change (json_get _ "focus_areas") with (Ok (JList (JStr <$> focus))).
  cbn [mbind res_bind string_items]. by rewrite all_strings_texts.
Qed.

(** The payload of the two scenes whose data is the context and the facts. *)
Lemma assembled_payload raw policy locale focus a :
  assemble_input raw policy locale focus = Ok a →
  match policy with ThematicPolicy _ _ _ => False | _ => True end →
  scene_of policy ≠ Some MBTI_THEMATIC_CONTRACT ∧ locale_re locale = true ∧ str_len locale <= 35 ∧
  NoDup focus ∧
  ∃ facts, json_text (JObj [("context", context_json locale focus); ("facts", JObj facts)])
           = Ok (provider_payload a).
Proof.
  unfold assemble_input, assemble_body. intros H Hp. destruct (_ ≫= _) as [a'|] eqn:E; [|done].
  injection H as ->. ok_inv. destruct policy as [p|p scene|]; [| |done].
  - unfold assemble_scale in *. ok_inv. unfold check_scale_policy, check_focus in *. py_inv.
    split_and!; try done; try lia. by eexists.
  - unfold assemble_mbti, project_mbti in *. ok_inv. unfold check_mbti_policy, check_mbti_request,
      check_focus, mbti_facts in *. py_inv. subst.
    match goal with Hs : suggestions _ _ = Ok ?x |- _ => destruct x as [sug filed] end. py_inv. subst.
    split_and!; try done; try lia. by eexists.
Qed.

(** ** preparation.py *)

Record ExplanationRelease : Type := mk_release {
  input_policy : ReportPolicy;
  render_policy : RenderPolicy;
  provider_route : string;
  definition_json : string;
}.
Record PreparedExplanation : Type := mk_prepared {
  assembled_input : AssembledInput;
  messages : PromptMessages;
  prepared_release : ExplanationRelease;
  prompt_fingerprint : string;
}.

(** The report of the evidence: its only fact. *)
Definition standard_report (evidence : EvidenceSet) : res (EvidenceItem * string) :=
  match es_items evidence with
  | [item] =>
    match ei_facts item with
    | [fact] =>
      if (fact_ref fact == "standard_report")%py then Ok (item, fact_value fact)
      else Err (RuleViolation "report_fact_missing")
    | _ => Err (RuleViolation "report_fact_missing")
    end
  | _ => Err (RuleViolation "single_report_required")
  end.

(** The binding of evidence and session. *)
Definition check_binding (session : Session) (evidence : EvidenceSet) : res unit :=
  raise_ifM (Ok (negb (uses_qs_snapshot session)
                 || (es_session_id evidence != s_id session)
                 || negb (bool_decide (s_evidence_set_id session = Some (es_id evidence)))) <orM>
             (f ← fingerprint (JList (item_definition <$> es_items evidence));
              Ok (es_fingerprint evidence != f)))%py
    (RuleViolation "evidence_binding_mismatch").

(** [prepare_report_input]; the source of an assembled document holds texts. *)
Definition prepare_report_input (session : Session) (evidence : EvidenceSet)
    (policy : ReportPolicy) (locale : string) (focus : list string) : res AssembledInput :=
  evidence_validate evidence (s_testee_id session) (s_assessment_ids session) ;;
  check_binding session evidence ;;
  '(item, report) ← standard_report evidence;
  raise_if (negb (Bool.eqb (s_workflow_version session == "qs-published-snapshot-v2")%py
                           (is_mbti policy)))
    (RuleViolation "input_workflow_mismatch") ;;
  assembled ← assemble_input report policy locale focus;
  document ← loads (canonical_json assembled);
  source ← json_item document "source";
  report_id ← json_item source "report_id";
  schema ← text_field source "content_schema_version"; outcome ← text_field source "outcome_id";
  raise_if (negb (json_eqb report_id (JStr (ei_report_id item)))
            || negb (bool_decide (schema ++ ":" ++ outcome = ei_source_version item)))
    (RuleViolation "report_source_mismatch") ;;
  Ok assembled.

(** [prepare_explanation] *)
Definition prepare_explanation (session : Session) (evidence : EvidenceSet)
    (release : ExplanationRelease) (package : PromptPackage) (locale : string)
    (focus : list string) : res PreparedExplanation :=
  assembled ← prepare_report_input session evidence (input_policy release) locale focus;
  m ← render_prompt package (render_policy release) (provider_payload assembled)
        (scene_of (input_policy release));
  Ok (mk_prepared assembled m release (Prompts.fingerprint package)).

(** C21: the binding of evidence, input and prompt: a prepared explanation rests on the one standard
    report of the evidence frozen for its session, whose document names the report and the source
    version of the evidence; the prompt is rendered from exactly the assembled payload, and, where
    that payload reads back, for the caller's locale and focus areas. *)
Theorem prepared_from_evidence session evidence release package locale focus p :
  prepare_explanation session evidence release package locale focus = Ok p →
  ∃ item fact document,
    (es_items evidence = [item] ∧ ei_facts item = [fact] ∧ fact_ref fact = "standard_report") ∧
    (es_session_id evidence = s_id session ∧ s_evidence_set_id session = Some (es_id evidence) ∧
     fingerprint (JList (item_definition <$> es_items evidence)) = Ok (es_fingerprint evidence) ∧
     ei_testee_id item = s_testee_id session) ∧
    assemble_input (fact_value fact) (input_policy release) locale focus = Ok (assembled_input p) ∧
    loads (canonical_json (assembled_input p)) = Ok document ∧
    (∃ source schema outcome, json_item document "source" = Ok source ∧
       json_item source "report_id" = Ok (JStr (ei_report_id item)) ∧
       text_field source "content_schema_version" = Ok schema ∧
       text_field source "outcome_id" = Ok outcome ∧
       ei_source_version item = schema ++ ":" ++ outcome) ∧
    render_prompt package (render_policy release) (provider_payload (assembled_input p))
      (scene_of (input_policy release)) = Ok (messages p) ∧
    (match input_policy release with ThematicPolicy _ _ _ => False | _ => True end →
     ∃ data, json_text data = Ok (provider_payload (assembled_input p)) ∧
       (textual data = true →
        request (render_policy release) (scene_of (input_policy release))
          (provider_payload (assembled_input p)) = Ok (locale, focus))).
Proof.
  unfold prepare_explanation, prepare_report_input. intros H. ok_inv.
  match goal with Hr : standard_report _ = Ok ?x |- _ => destruct x as [item report]; rename Hr into Hrep end.
  py_inv. unfold check_binding in *. py_inv. unfold standard_report in Hrep.
  destruct (es_items evidence) as [|item' [|]] eqn:Hitems; try discriminate Hrep.
  destruct (ei_facts item') as [|fact [|]] eqn:Hfacts; try discriminate Hrep.
  destruct (bool_decide (fact_ref fact = _)) eqn:Href; [|discriminate Hrep].
  apply bool_decide_eq_true in Href. injection Hrep as -> <-. rename x into assembled, x0 into m.
  match goal with Hv : evidence_validate _ _ _ = Ok _ |- _ => rename Hv into Hvalid end.
  match goal with Ha : assemble_input _ _ _ _ = Ok _ |- _ => rename Ha into Hassembled end.
  match goal with Hr : render_prompt _ _ _ _ = Ok _ |- _ => rename Hr into Hrendered end.
  match goal with Hj : json_eqb _ _ = true |- _ => apply json_eqb_str in Hj; subst end.
  cbn [assembled_input messages]. exists item, fact.
  eexists. split_and!; eauto.
  - unfold evidence_validate in Hvalid. rewrite Hitems in Hvalid. py_inv. cbn [foldM] in *. py_inv.
    unfold check_item in *. py_inv. done.
  - eexists _, _, _. split_and!; eauto.
  - intros Hp. destruct (assembled_payload _ _ _ _ _ Hassembled Hp) as (Hs & _ & _ & _ & facts & Hd).
    eexists. split; [exact Hd|]. intros Ht.
    destruct (render_request _ _ _ _ _ Hrendered) as (l & f & _ & Hreq & _).
    rewrite Hreq. unfold request in Hreq. rewrite (decode_written _ _ Ht Hd) in Hreq.
    cbn [mbind res_bind] in Hreq. rewrite check_data_context in Hreq by done.
    py_inv. congruence.
Qed.
