(* ===== verification/Output.v ===== *)
(** * Output: the deterministic gates of a model's answer

    [application/interpretation/output.py], [output_types.py] and [mbti_themes_output.py]: the
    answer is bounded, cites only the facts it was given, stays inside the policy of the profile,
    combines no dimension with its ancestor and names no other type than the report's. *)
From S2P Require Import Prelude PyText PyNum PyJson Errors JsonRoundTrip Scenes Prompts.
From S2P Require Import InputValues ScaleInput MbtiReferences MbtiInput ReportInput.
From Stdlib Require Import Ascii.

Local Open Scope string_scope.
Local Open Scope Z_scope.
#[local] Arguments String.append : simpl nomatch.

Record DeterministicOutput : Type := mk_deterministic {
  content_json : string;
  validator_version : string;
}.

(** [validate_output_length] *)
Definition validate_output_length (raw : string) (maximum : Z) : res unit :=
  raise_if (maximum <? str_len raw) (InvalidOutput "output_too_long").

(** ** The facts an answer may cite *)

(** [{item["ref"]: item for item in facts["dimensions"]}]; the references of an assembled payload
    are texts. *)
Definition by_ref (items : list json) : res (list (string * json)) :=
  foldM (λ d item, r ← text_field item "ref"; Ok (assoc_set r item d)) [] items.

Record citable : Type := mk_citable {
  dimensions : list (string * json);
  suggestion_refs : list string;
  has_model_result : bool;
}.

Definition citable_facts (facts : json) : res citable :=
  listed ← json_item facts "dimensions"; listed ← iterate listed;
  dims ← by_ref listed;
  suggested ← json_item facts "standard_suggestions"; suggested ← iterate suggested;
  refs ← mapM (λ s, text_field s "ref") suggested;
  result ← json_item facts "model_result";
  Ok (mk_citable dims refs (match result with JNull => false | _ => true end)).

(** [allowed_refs] *)
Definition allowed_refs (c : citable) : list (string * list string) :=
  [("dimension", (dimensions c).*1); ("standard_suggestion", suggestion_refs c);
   ("overall_result", ["overall_result"]);
   ("model_result", if has_model_result c then ["model_result"] else [])].

(** [v in s] for a set of texts *)
Definition in_texts (v : json) (s : list string) : res bool :=
  raise_if (negb (hashable v)) TypeError ;;
  Ok (match v with JStr r => (r is_in s)%py | _ => false end).
(** [allowed[kind]] *)
Definition allowed_of (allowed : list (string * list string)) (kind : json) : res (list string) :=
  match kind with
  | JStr k => match assoc k allowed with Some s => Ok s | None => Err (KeyError k) end
  | _ => if hashable kind then Err (KeyError "") else Err TypeError
  end.
(** [any(ref["ref"] not in allowed[ref["kind"]] for ref in item["evidence_refs"])] *)
Definition unresolved (allowed : list (string * list string)) (item : json) : res bool :=
  refs ← json_item item "evidence_refs"; refs ← iterate refs;
  anyM (λ ref, r ← json_item ref "ref"; kind ← json_item ref "kind";
               s ← allowed_of allowed kind; negM (in_texts r s)) refs.
Definition check_evidence (allowed : list (string * list string)) (item : json) : res unit :=
  raise_ifM (unresolved allowed item) (InvalidOutput "unresolved_evidence").
Definition check_sources (suggestions : list string) (item : json) : res unit :=
  raise_ifM (refs ← json_item item "source_suggestion_refs"; refs ← iterate refs;
             anyM (λ ref, negM (in_texts ref suggestions)) refs)
    (InvalidOutput "unresolved_standard_suggestion").

(** ** The lineage of a dimension *)

(** The parent a dimension names: a value that is no text names no dimension. *)
Definition parent_named (v : json) : res (option string) :=
  match v with
  | JNull => Ok None
  | JStr p => Ok (Some p)
  | _ => if hashable v then Ok None else Err TypeError
  end.
(** [dimensions.get(parent, {}).get("parent_ref")] *)
Definition next_parent (dims : list (string * json)) (p : string) : res (option string) :=
  match assoc p dims with
  | None => Ok None
  | Some d => v ← json_get d "parent_ref"; parent_named v
  end.

Definition hierarchy_error : exn := InvalidOutput "invalid_input_hierarchy".
Definition lineage_error : exn := InvalidOutput "ancestor_descendant_combination".

(** The loop [while parent is not None]; [fuel] bounds its rounds and [None] means that it was not
    enough. *)
Fixpoint walk (dims : list (string * json)) (refs : list string) (fuel : nat)
    (seen : list string) (parent : option string) : option (res unit) :=
  match parent with
  | None => Some (Ok tt)
  | Some p =>
    match fuel with
    | O => None
    | S n =>
      if (p is_in seen)%py then Some (Err hierarchy_error)
      else if (p is_in refs)%py then Some (Err lineage_error)
      else match next_parent dims p with
           | Err e => Some (Err e)
           | Ok next => walk dims refs n (p :: seen) next
           end
    end
  end.

(** One more round than there are dimensions ends the walk: [lineage_walk_ends]. *)
Definition enough (dims : list (string * json)) : nat := S (length dims).
Definition first_parent (dims : list (string * json)) (ref : string) : res (option string) :=
  match assoc ref dims with
  | None => Err (KeyError ref)
  | Some d => v ← json_item d "parent_ref"; parent_named v
  end.
Definition check_lineage (dims : list (string * json)) (refs : list string) (ref : string)
    : res unit :=
  parent ← first_parent dims ref;
  match walk dims refs (enough dims) [ref] parent with
  | Some r => r
  | None => Err hierarchy_error
  end.

(** ** Other type codes in the narrative *)

(** The ASCII letter a code point stands for in a case-insensitive match: the dotted and dotless
    [i], the long [s] and the Kelvin sign count as letters. *)
Definition fold_letter (c : N) : option N :=
  (if (65 <=? c) && (c <=? 90) then Some c
   else if (97 <=? c) && (c <=? 122) then Some (c - 32)
   else if (c =? 304) || (c =? 305) then Some 73
   else if c =? 383 then Some 83
   else if c =? 8490 then Some 75
   else None)%N.
Definition is_letter (c : N) : bool := is_some (fold_letter c).
Definition folds_to (letters : list N) (c : N) : bool :=
  match fold_letter c with Some x => bool_decide (x ∈ letters) | None => false end.
(** [c.upper()] of a matched character *)
Definition upper_char (c : N) : N :=
  (if (97 <=? c) && (c <=? 122) then c - 32 else if c =? 305 then 73
   else if c =? 383 then 83 else c)%N.

(** [[IE][SN][FT][JP](?![A-Za-z])] at the head *)
Definition code_at (l : list N) : option (list N) :=
  match l with
  | a :: b :: c :: d :: rest =>
    if folds_to [73; 69]%N a && folds_to [83; 78]%N b && folds_to [70; 84]%N c
       && folds_to [74; 80]%N d
       && negb (match rest with e :: _ => is_letter e | [] => false end)
    then Some [a; b; c; d] else None
  | _ => None
  end.
(** [re.findall]: a match ends before a character that is no letter, so matches never overlap. *)
Fixpoint mentions (after_letter : bool) (l : list N) : list (list N) :=
  match l with
  | [] => []
  | c :: r =>
    (if after_letter then []
     else match code_at l with Some code => [code] | None => [] end)
    ++ mentions (is_letter c) r
  end.
(** [any(code.upper() != expected for code in mentioned)] *)
Definition mentions_other (narrative : string) (expected : json) : bool :=
  existsb (λ code, negb (json_eqb (JStr (of_code_points (upper_char <$> code))) expected))
    (mentions false (code_points narrative)).

(** ** [validate_output] *)

(** [lo <= n <= hi] *)
Definition outside (lo hi n : Z) : bool := negb ((lo <=? n) && (n <=? hi)).
Definition one_of_texts (v : json) (l : list string) : bool := existsb (λ s, json_eqb v (JStr s)) l.

(** [{ref["ref"] for ref in item["evidence_refs"] if ref["kind"] == "dimension"}], each a text
    once its evidence is resolved *)
Definition dimension_refs (item : json) : res (list string) :=
  refs ← json_item item "evidence_refs"; refs ← iterate refs;
  refs ← mapM (λ ref, kind ← json_item ref "kind";
                      if json_eqb kind (JStr "dimension") then r ← text_field ref "ref"; Ok [r]
                      else Ok []) refs;
  Ok (remove_dups (concat refs)).

Definition check_insight (policy : RenderPolicy) (c : citable) (item : json) : res unit :=
  kind ← json_item item "kind";
  raise_if (negb (one_of_texts kind (allowed_insight_kinds policy)))
    (InvalidOutput "insight_kind_not_allowed") ;;
  refs ← dimension_refs item;
  raise_if (outside (min_dimension_refs policy) (max_dimension_refs policy) (len refs))
    (InvalidOutput "dimension_count_outside_policy") ;;
  if allow_parent_child_in_same_insight policy then Ok tt
  else foldM (λ _ ref, check_lineage (dimensions c) refs ref) tt refs.

Definition check_advice (policy : RenderPolicy) (item : json) : res unit :=
  raise_ifM ((o ← json_item item "origin";
              Ok (negb (one_of_texts o (allowed_suggestion_origins policy)))) <orM>
             (k ← json_item item "category";
              Ok (negb (one_of_texts k (allowed_suggestion_categories policy)))))%py
    (InvalidOutput "suggestion_policy_mismatch") ;;
  actions ← json_item item "actions"; actions ← iterate actions;
  raise_if (max_actions_per_item policy <? len actions) (InvalidOutput "too_many_actions").

(** The gates of the insights and suggestions of an answer. *)
Definition check_answer (policy : RenderPolicy) (c : citable) (insights advice : list json)
    : res unit :=
  foldM (λ _ item, check_evidence (allowed_refs c) item) tt (insights ++ advice)%list ;;
  foldM (λ _ item, check_sources (suggestion_refs c) item) tt advice ;;
  raise_if (outside (insight_min_items policy) (insight_max_items policy) (len insights))
    (InvalidOutput "insight_count_outside_policy") ;;
  foldM (λ _ item, check_insight policy c item) tt insights ;;
  raise_if (outside (suggestion_min_items policy) (suggestion_max_items policy) (len advice))
    (InvalidOutput "suggestion_count_outside_policy") ;;
  foldM (λ _ item, check_advice policy item) tt advice.

(** The answer of the two scenes with one document. *)
Definition validate_single (content : json) (prepared : PreparedExplanation)
    : res DeterministicOutput :=
  let policy := render_policy (prepared_release prepared) in
  version ← json_get content "schema_version";
  raise_if (negb (json_eqb version (JStr "ai-explanation-output/v1")))
    (InvalidOutput "output_contract_mismatch") ;;
  payload ← loads (provider_payload (assembled_input prepared));
  facts ← json_item payload "facts";
  c ← citable_facts facts;
  insights ← json_item content "integrated_insights";
  advice ← json_item content "suggestions";
  insights ← iterate insights; advice ← iterate advice;
  check_answer policy c insights advice ;;
  validator ← (if is_mbti (input_policy (prepared_release prepared)) then
                 result ← json_item facts "model_result"; expected ← json_item result "type_code";
                 narrative ← dumps_with spaced content;
                 raise_if (mentions_other narrative expected) (InvalidOutput "mbti_type_conflict") ;;
                 Ok "qs-ai-output-mbti-single-assessment/v1"
               else Ok "qs-ai-output-deterministic/v1");
  text ← dumps_with compact content;
  Ok (mk_deterministic text validator).

(** ** The three-topic scene *)

(** [check_evidence]: the cited references *)
Definition topic_evidence (allowed : list (string * list string)) (item : json)
    : res (list json) :=
  check_evidence allowed item ;;
  refs ← json_item item "evidence_refs"; refs ← iterate refs;
  mapM (λ ref, json_item ref "ref") refs.

(** [selected.validate_reference] of decoded values *)
Definition check_reference (selected : SelectedMBTIReferences) (topic : json)
    (evidence : list json) (ref : json) : res unit :=
  let unavailable := InvalidMBTIReferences "Reference is not available for this topic" in
  match ref, topic with
  | JStr ref, JStr topic =>
    validate_reference selected ref topic
      (omap (λ v, match v with JStr s => Some s | _ => None end) evidence)
  | _, _ => Err unavailable
  end.
Definition check_topic_item (allowed : list (string * list string))
    (selected : SelectedMBTIReferences) (section item : json) : res unit :=
  evidence ← topic_evidence allowed item;
  refs ← json_item item "reference_refs"; refs ← iterate refs;
  foldM (λ _ ref,
    topic ← json_item section "topic";
    match check_reference selected topic evidence ref with
    | Err (InvalidMBTIReferences _) => Err (InvalidOutput "unresolved_topic_reference")
    | r => r
    end) tt refs.
Definition check_section (allowed : list (string * list string))
    (selected : SelectedMBTIReferences) (section : json) : res unit :=
  insights ← json_item section "insights"; insights ← iterate insights;
  questions ← json_item section "reflection_questions"; questions ← iterate questions;
  actions ← json_item section "actions"; actions ← iterate actions;
  foldM (λ _ item, check_topic_item allowed selected section item)
    tt (insights ++ questions ++ actions)%list.

(** [validate_mbti_themes_output] *)
Definition frozen_payload (prepared : PreparedExplanation) (policy : InputPolicy)
    (material : MBTIReferenceMaterial) : res json :=
  match payload ← loads (provider_payload (assembled_input prepared));
        validate_mbti_themes_projection payload policy material ;; Ok payload with
  | Ok payload => Ok payload
  | Err e =>
    if is_value_error e || bool_decide (e = TypeError)
    then Err (InvalidOutput "input_reference_invalid") else Err e
  end.
Definition validate_themes (content : json) (prepared : PreparedExplanation)
    (policy : InputPolicy) (material : MBTIReferenceMaterial) : res DeterministicOutput :=
  raise_ifM ((v ← json_get content "schema_version";
              Ok (negb (json_eqb v (JStr "ai-explanation-output/v2")))) <orM>
             (v ← json_get content "scene_contract_version";
              Ok (negb (json_eqb v (JStr MBTI_THEMATIC_CONTRACT)))))%py
    (InvalidOutput "output_contract_mismatch") ;;
  payload ← frozen_payload prepared policy material;
  facts ← json_item payload "facts";
  type_code ← foldM json_item facts ["model_result"; "type_code"];
  selected ← select_value material type_code;
  c ← citable_facts facts;
  let allowed := allowed_refs (mk_citable (dimensions c) (suggestion_refs c) true) in
  summary ← json_item content "summary";
  check_evidence allowed summary ;;
  sections ← json_item content "sections"; sections ← iterate sections;
  foldM (λ _ s, check_section allowed selected s) tt sections ;;
  narrative ← dumps_with spaced content;
  raise_if (mentions_other narrative (JStr (sel_type_code selected)))
    (InvalidOutput "mbti_type_conflict") ;;
  text ← dumps_with compact content;
  Ok (mk_deterministic text "qs-ai-output-mbti-three-topic/v1").

(** The parser of the answers is configured with a schema: a parameter. *)
Section output.
Context (parse : string → res json).

Definition validate_output (raw : string) (prepared : PreparedExplanation)
    : res DeterministicOutput :=
  validate_output_length raw (max_output_characters (render_policy (prepared_release prepared))) ;;
  content ← parse raw;
  match input_policy (prepared_release prepared) with
  | ThematicPolicy policy _ material => validate_themes content prepared policy material
  | _ => validate_single content prepared
  end.
End output.

(** ** The walk through a lineage *)

Section lineage.
Context (dims : list (string * json)) (refs : list string).

(** [p] is the parent the dimension [c] names. *)
Definition parent (c p : string) : Prop := next_parent dims c = Ok (Some p).

Lemma parent_known c p : parent c p → c ∈ dims.*1.
Proof.
  unfold parent, next_parent. intros H. destruct (assoc c dims) as [d|] eqn:Hc; [|done].
  clear H. induction dims as [|[k v] l IH]; cbn in *; [done|].
  case_bool_decide; [subst; by left|right; auto].
Qed.

Definition unseen (seen : list string) : list string := filter (λ k, k ∉ seen) dims.*1.

Lemma unseen_cons p seen :
  p ∈ dims.*1 → p ∉ seen → (length (unseen (p :: seen)) < length (unseen seen))%nat.
Proof.
  unfold unseen. intros Hp Hs. induction dims.*1 as [|k l IH]; [by apply not_elem_of_nil in Hp|].
  rewrite !filter_cons. apply elem_of_cons in Hp as [<-|Hp].
  - rewrite (decide_False (P := p ∉ p :: seen)) by set_solver. rewrite decide_True by done. cbn.
    enough (length (filter (λ k, k ∉ p :: seen) l) ≤ length (filter (λ k, k ∉ seen) l))%nat by lia.
    clear. induction l as [|k l IH]; [done|]. rewrite !filter_cons.
    repeat case_decide; cbn; try lia. set_solver.
  - specialize (IH Hp). repeat case_decide; cbn; try lia. set_solver.
Qed.

(** Rounds for every dimension not yet seen are enough. *)
Lemma walk_ends fuel seen start :
  (length (unseen seen) < fuel)%nat → ∃ r, walk dims refs fuel seen start = Some r.
Proof.
  revert seen start. induction fuel as [|n IH]; intros seen start Hf; [lia|].
  destruct start as [p|]; [|by eexists]. cbn.
  case_bool_decide as Hseen; [by eexists|]. case_bool_decide as Hrefs; [by eexists|].
  destruct (next_parent dims p) as [[q|]|e] eqn:Hp; [|by destruct n; eexists|by eexists].
  apply IH. pose proof (unseen_cons p seen (parent_known p q Hp) Hseen). lia.
Qed.

Lemma walk_more fuel fuel' seen start r :
  walk dims refs fuel seen start = Some r → (fuel ≤ fuel')%nat →
  walk dims refs fuel' seen start = Some r.
Proof.
  revert fuel' seen start. induction fuel as [|n IH]; intros fuel' seen [p|] H Hle;
    [done|by destruct fuel'| |by destruct fuel'].
  destruct fuel' as [|n']; [lia|]. cbn in *.
  destruct (p is_in seen)%py; [done|]. destruct (p is_in refs)%py; [done|].
  destruct (next_parent dims p); [|done]. eapply IH; [done|lia].
Qed.
End lineage.

(** C24: the loop that follows a dimension's lineage ends: for every hierarchy of the payload, cyclic
    ones included, one round more than there are dimensions is enough, and more rounds give the
    same result. *)
Theorem lineage_walk_ends dims refs ref start :
  ∃ r, ∀ fuel, (enough dims ≤ fuel)%nat → walk dims refs fuel [ref] start = Some r.
Proof.
  destruct (walk_ends dims refs (enough dims) [ref] start) as [r Hr].
  - unfold enough, unseen. pose proof (length_filter (λ k, k ∉ [ref]) dims.*1) as Hl.
    rewrite length_fmap in Hl. lia.
  - exists r. intros fuel Hf. by eapply walk_more.
Qed.

(** ** What an accepted lineage means *)

Definition ancestor (dims : list (string * json)) : string → string → Prop := tc (parent dims).

Section lineage_meaning.
Context (dims : list (string * json)) (refs : list string).

Lemma parent_functional c p q : parent dims c p → parent dims c q → p = q.
Proof. unfold parent. congruence. Qed.

Lemma tc_parent c p q : parent dims c p → ancestor dims c q ↔ rtc (parent dims) p q.
Proof.
  intros Hp. split.
  - intros Hq. inversion Hq as [x y Hx|x y z Hx Hyz]; subst.
    + by rewrite (parent_functional c p q Hp Hx).
    + rewrite (parent_functional c p y Hp Hx). by apply tc_rtc.
  - intros Hq. by apply (tc_rtc_r _ p); [apply tc_once|].
Qed.

Lemma walk_Ok fuel seen p :
  walk dims refs fuel seen (Some p) = Some (Ok tt) →
  Acc (λ y x, parent dims x y) p ∧ ∀ q, rtc (parent dims) p q → q ∉ refs.
Proof.
  revert seen p. induction fuel as [|n IH]; intros seen p; [done|]. cbn.
  case_bool_decide; [done|]. case_bool_decide as Hrefs; [done|].
  destruct (next_parent dims p) as [[p'|]|] eqn:Hp; [|intros _|done].
  - intros [Hacc Hq]%IH. split.
    + constructor. intros y Hy. by rewrite (parent_functional p y p' Hy Hp).
    + intros q H'. inversion H' as [|x y z Hx Hyz]; subst; [done|].
      apply Hq. by rewrite (parent_functional p p' y Hp Hx).
  - split.
    + constructor. intros y Hy. unfold parent in Hy. congruence.
    + intros q H'. inversion H' as [|x y z Hx Hyz]; subst; [done|]. unfold parent in Hx. congruence.
Qed.

Lemma Acc_acyclic q : Acc (λ y x, parent dims x y) q → ¬ ancestor dims q q.
Proof.
  intros Hq. induction Hq as [q _ IH]. intros Hc.
  inversion Hc as [x y Hx|x y z Hx Hyz]; subst; [by apply (IH q)|].
  apply (IH y Hx). by apply (tc_r _ q).
Qed.

Lemma Acc_rtc p q :
  Acc (λ y x, parent dims x y) p → rtc (parent dims) p q → Acc (λ y x, parent dims x y) q.
Proof. intros Hp Hq. induction Hq as [|x y z Hx _ IH]; [done|]. apply IH. by apply Hp. Qed.

Hypothesis readable : ∀ c, ∃ o, next_parent dims c = Ok o.

Lemma walk_Err fuel seen p e :
  walk dims refs fuel seen (Some p) = Some (Err e) → (∀ s, s ∈ seen → ancestor dims s p) →
  (∃ q, rtc (parent dims) p q ∧ q ∈ refs) ∨ (∃ q, rtc (parent dims) p q ∧ ancestor dims q q).
Proof using readable.
  revert seen p. induction fuel as [|n IH]; intros seen p; [done|]. cbn.
  case_bool_decide as Hs; [intros _ Ha; right; exists p; split; [done|by apply Ha]|].
  case_bool_decide as Hr; [intros _ _; left; by exists p|].
  destruct (readable p) as [[p'|] Hp]; rewrite Hp; [|by destruct n]. intros Hw Ha.
  destruct (IH _ _ Hw) as [(q & Hq & ?)|(q & Hq & ?)].
  - intros s [->|Hin]%elem_of_cons; [by constructor|].
    unfold ancestor. eapply tc_r; [by apply Ha|done].
  - left. exists q. split; [by eapply rtc_l|done].
  - right. exists q. split; [by eapply rtc_l|done].
Qed.
End lineage_meaning.

(** A hierarchy whose parents can be read, [ref] among its dimensions. *)
Definition readable_hierarchy (dims : list (string * json)) (ref : string) : Prop :=
  (∀ c, ∃ o, next_parent dims c = Ok o) ∧ first_parent dims ref = next_parent dims ref.

Lemma first_parent_next dims ref o : first_parent dims ref = Ok o → next_parent dims ref = Ok o.
Proof.
  unfold first_parent, next_parent. destruct (assoc ref dims) as [d|]; [|done]. intros H. ok_inv.
  destruct d as [| | | | | |l]; try done. cbn in *. by destruct (assoc "parent_ref" l); ok_inv.
Qed.

Lemma check_lineage_Ok dims refs ref :
  check_lineage dims refs ref = Ok tt →
  ∀ q, ancestor dims ref q → q ∉ refs ∧ ¬ ancestor dims q q.
Proof.
  unfold check_lineage. intros H q Hq. ok_inv. destruct x as [p|].
  - match goal with Hf : first_parent _ _ = Ok _ |- _ => apply first_parent_next in Hf end.
    destruct (walk _ _ _ _ _) as [r|] eqn:Hw; [subst r|done].
    apply walk_Ok in Hw as [Hacc Hrefs]. apply (tc_parent dims ref p q) in Hq; [|done].
    split; [by apply Hrefs|]. by eapply Acc_acyclic, Acc_rtc.
  - match goal with Hf : first_parent _ _ = Ok _ |- _ => apply first_parent_next in Hf end.
    inversion Hq as [x y Hx|x y z Hx _]; subst; unfold parent in Hx; congruence.
Qed.

(** C25: the walk decides what it means to decide: over a readable hierarchy, an insight's dimension is
    accepted exactly when none of its ancestors, however remote, is cited by the same insight and
    no cycle lies on its lineage. *)
Theorem lineage_exact dims refs ref :
  readable_hierarchy dims ref →
  check_lineage dims refs ref = Ok tt ↔
  ∀ q, ancestor dims ref q → q ∉ refs ∧ ¬ ancestor dims q q.
Proof.
  intros [Hread Hfirst]. split; [apply check_lineage_Ok|]. intros Hq. unfold check_lineage.
  rewrite Hfirst. destruct (Hread ref) as [[p|] Hp]; rewrite Hp; cbn [mbind res_bind]; [|done].
  destruct (walk_ends dims refs (enough dims) [ref] (Some p)) as [[[]|e] Hw]; rewrite ?Hw; try done.
  - unfold enough, unseen. pose proof (length_filter (λ k, k ∉ [ref]) dims.*1) as Hl.
    rewrite length_fmap in Hl. lia.
  - exfalso. assert (Hstart : ∀ s, s ∈ [ref] → ancestor dims s p).
    { intros s ->%list_elem_of_singleton. by constructor. }
    destruct (walk_Err dims refs Hread _ _ _ _ Hw Hstart) as [(q & Hpq & Hin)|(q & Hpq & Hcyc)];
      apply (tc_parent dims ref p q Hp) in Hpq; by apply Hq in Hpq as [? ?].
Qed.

(** ** What an accepted answer promises *)

(** Every reference an item cites is one of the allowed references of its kind. *)
Definition cites_only (allowed : list (string * list string)) (item : json) : Prop :=
  ∃ refs l, json_item item "evidence_refs" = Ok refs ∧ iterate refs = Ok l ∧
    ∀ ref, ref ∈ l → ∃ r k s, json_item ref "ref" = Ok (JStr r) ∧
      json_item ref "kind" = Ok (JStr k) ∧ assoc k allowed = Some s ∧ r ∈ s.

Lemma in_texts_true v s : in_texts v s = Ok true → ∃ r, v = JStr r ∧ r ∈ s.
Proof. unfold in_texts. intros H. py_inv. destruct v; try done. py_inv. eauto. Qed.

Lemma check_evidence_Ok allowed item : check_evidence allowed item = Ok tt → cites_only allowed item.
Proof.
  unfold check_evidence, unresolved. intros H. ok_inv. eexists _, _. split_and!; [done..|].
  intros ref Hin. specialize (H ref Hin). ok_inv.
  match goal with Hx : in_texts _ _ = Ok _ |- _ => apply in_texts_true in Hx as (r & -> & Hr) end.
  match goal with Hx : allowed_of _ ?k = Ok _ |- _ => unfold allowed_of in Hx; destruct k end;
    try by destruct (hashable _).
  destruct (assoc _ allowed) as [s'|] eqn:Hs; [|done]. ok_inv. by eexists _, _, _.
Qed.

Definition sources_only (suggestions : list string) (item : json) : Prop :=
  ∃ refs l, json_item item "source_suggestion_refs" = Ok refs ∧ iterate refs = Ok l ∧
    ∀ ref, ref ∈ l → ∃ r, ref = JStr r ∧ r ∈ suggestions.

Lemma check_sources_Ok suggestions item :
  check_sources suggestions item = Ok tt → sources_only suggestions item.
Proof.
  unfold check_sources. intros H. ok_inv. eexists _, _. split_and!; [done..|].
  intros ref Hin. specialize (H ref Hin). ok_inv. by apply in_texts_true.
Qed.

Lemma one_of_texts_true v l : one_of_texts v l = true → ∃ s, v = JStr s ∧ s ∈ l.
Proof.
  unfold one_of_texts. rewrite existsb_true. intros (s & Hs & ->%json_eqb_str). by exists s.
Qed.

(** An insight inside the policy: its kind, the number of dimensions it combines, and no dimension
    together with one of its ancestors. *)
Record insight_in_policy (policy : RenderPolicy) (c : citable) (item : json) : Prop := {
  ip_kind : ∃ k, json_item item "kind" = Ok (JStr k) ∧ k ∈ allowed_insight_kinds policy;
  ip_refs : ∃ refs, dimension_refs item = Ok refs ∧ NoDup refs ∧
    min_dimension_refs policy <= len refs <= max_dimension_refs policy ∧
    (allow_parent_child_in_same_insight policy = false →
     ∀ a b, a ∈ refs → b ∈ refs → ¬ ancestor (dimensions c) a b);
}.

Lemma check_insight_Ok policy c item :
  check_insight policy c item = Ok tt → insight_in_policy policy c item.
Proof.
  unfold check_insight, outside. intros H. py_inv. split.
  - match goal with Hk : one_of_texts _ _ = true |- _ => apply one_of_texts_true in Hk as (k & -> & ?) end.
    by exists k.
  - eexists. split; [done|]. split; [|split; [lia|]].
    + unfold dimension_refs in *. ok_inv. subst. apply NoDup_remove_dups.
    + intros Hallow a b Ha Hb Hab. rewrite Hallow in H.
      pose proof (foldM_unit_elem (check_lineage (dimensions c) _) _ H a Ha) as Hlin.
      destruct (check_lineage_Ok _ _ _ Hlin b Hab) as [Hn _]. by apply Hn.
Qed.

Definition advice_in_policy (policy : RenderPolicy) (item : json) : Prop :=
  (∃ o, json_item item "origin" = Ok (JStr o) ∧ o ∈ allowed_suggestion_origins policy) ∧
  (∃ k, json_item item "category" = Ok (JStr k) ∧ k ∈ allowed_suggestion_categories policy) ∧
  (∃ actions l, json_item item "actions" = Ok actions ∧ iterate actions = Ok l ∧
     len l <= max_actions_per_item policy).

Lemma check_advice_Ok policy item : check_advice policy item = Ok tt → advice_in_policy policy item.
Proof.
  unfold check_advice. intros H. py_inv.
  repeat match goal with Hk : one_of_texts _ _ = true |- _ =>
           apply one_of_texts_true in Hk as (? & -> & ?) end.
  split_and!; eauto 10.
Qed.

(** An accepted answer of the two scenes with one document. *)
Record single_accepted (policy : RenderPolicy) (mbti : bool) (facts : json) (c : citable)
    (content : json) : Prop := {
  sa_version : json_get content "schema_version" = Ok (JStr "ai-explanation-output/v1");
  sa_items : ∃ insights advice,
    json_item content "integrated_insights" ≫= iterate = Ok insights ∧
    json_item content "suggestions" ≫= iterate = Ok advice ∧
    (∀ item, item ∈ insights ∨ item ∈ advice → cites_only (allowed_refs c) item) ∧
    (∀ item, item ∈ advice → sources_only (suggestion_refs c) item) ∧
    insight_min_items policy <= len insights <= insight_max_items policy ∧
    suggestion_min_items policy <= len advice <= suggestion_max_items policy ∧
    (∀ item, item ∈ insights → insight_in_policy policy c item) ∧
    (∀ item, item ∈ advice → advice_in_policy policy item);
  sa_type : mbti = true → ∃ narrative expected, dumps_with spaced content = Ok narrative ∧
    foldM json_item facts ["model_result"; "type_code"] = Ok expected ∧
    mentions_other narrative expected = false;
}.

Lemma validate_single_accepted content prepared out payload facts c :
  validate_single content prepared = Ok out →
  loads (provider_payload (assembled_input prepared)) = Ok payload →
  json_item payload "facts" = Ok facts → citable_facts facts = Ok c →
  dumps_with compact content = Ok (content_json out) ∧
  single_accepted (render_policy (prepared_release prepared))
    (is_mbti (input_policy (prepared_release prepared))) facts c content.
Proof.
  intros H Hp Hf Hc. unfold validate_single in H. rewrite Hp in H. cbn [mbind res_bind] in H.
  set (policy := render_policy (prepared_release prepared)) in *. cbv zeta in H.
  apply bind_Ok in H as (v & Hv & H). rewrite Hf in H. cbn [mbind res_bind] in H.
  rewrite Hc in H. cbn [mbind res_bind] in H. py_inv. cbn [content_json].
  match goal with Ha : check_answer _ _ ?i ?a = Ok _ |- _ =>
    rename i into insights, a into advice; rename Ha into Hanswer end.
  match goal with Hj : json_item content "integrated_insights" = Ok _ |- _ => rename Hj into Hin end.
  match goal with Hj : json_item content "suggestions" = Ok _ |- _ => rename Hj into Had end.
  unfold check_answer, outside in Hanswer. py_inv.
  repeat match goal with Hf : foldM (λ _ item, ?f item) tt _ = Ok _ |- _ =>
           let Hn := fresh "Hall" in pose proof (foldM_unit_elem f _ Hf) as Hn; clear Hf end.
  split; [done|]. split.
  - match goal with He : json_eqb _ _ = true |- _ => by apply json_eqb_str in He as <- end.
  - exists insights, advice. rewrite Hin, Had. cbn [mbind res_bind]. split_and!; try done.
    + intros item Hi. apply check_evidence_Ok, Hall2, elem_of_app. done.
    + intros item Hi. by apply check_sources_Ok, Hall1.
    + intros item Hi. by apply check_insight_Ok, Hall0.
    + intros item Hi. by apply check_advice_Ok, Hall.
  - intros Hm. rewrite Hm in *. py_inv. eexists _, _. split_and!; eauto. cbn [foldM].
    match goal with Hr : json_item _ "model_result" = Ok _ |- _ => rewrite Hr end.
    cbn [mbind res_bind].
    match goal with Hr : json_item _ "type_code" = Ok _ |- _ => by rewrite Hr end.
Qed.

(** A reference an item of a section may name: an entry that was selected for the report's type and
    for this topic, and whose axis, or the type itself, the item cites. *)
Definition reference_available (selected : SelectedMBTIReferences) (topic : json)
    (cited : list json) (ref : json) : Prop :=
  ∃ e, e ∈ sel_entries selected ∧ ref = JStr ("reference:" ++ re_entry_id e) ∧
    topic = JStr (re_topic e) ∧
    (JStr ("dimension:" ++ re_axis e) ∈ cited ∨ JStr "model_result" ∈ cited).

(** An item of a section: what it cites of the report and which references it names. *)
Definition topic_item_accepted (allowed : list (string * list string))
    (selected : SelectedMBTIReferences) (section item : json) : Prop :=
  cites_only allowed item ∧
  ∃ refs l cited named, json_item item "evidence_refs" = Ok refs ∧ iterate refs = Ok l ∧
    mapM (λ ref, json_item ref "ref") l = Ok cited ∧
    json_item item "reference_refs" ≫= iterate = Ok named ∧
    ∀ ref, ref ∈ named → ∃ topic, json_item section "topic" = Ok topic ∧
      reference_available selected topic cited ref.

Lemma check_reference_Ok selected topic cited ref :
  check_reference selected topic cited ref = Ok tt → reference_available selected topic cited ref.
Proof.
  unfold check_reference. destruct ref as [| | | |r| |], topic as [| | | |t| |]; try done.
  unfold validate_reference. destruct (List.find _ _) as [e|] eqn:He; [|done].
  apply List.find_some in He as [Hin%list_elem_of_In ->%bool_decide_eq_true].
  assert (Hcited : ∀ x, x ∈ omap (λ v, match v with JStr s => Some s | _ => None end) cited →
                        JStr x ∈ cited).
  { intros x (v & Hv & Hx)%list_elem_of_omap. destruct v; try done. by injection Hx as ->. }
  intros H. py_inv. exists e. split_and!; [done..|by f_equal|].
  apply andb_false_iff in H as [H|H]; apply negb_false_iff, bool_decide_eq_true in H; auto.
Qed.

Lemma check_topic_item_Ok allowed selected section item :
  check_topic_item allowed selected section item = Ok tt →
  topic_item_accepted allowed selected section item.
Proof.
  unfold check_topic_item, topic_evidence. intros H. ok_inv.
  split; [by apply check_evidence_Ok|]. do 4 eexists. split_and!; try done.
  { match goal with Hj : json_item item "reference_refs" = Ok _ |- _ => rewrite Hj end. done. }
  intros ref Hin.
  match goal with Hf : foldM (λ _ ref, @?f ref) tt _ = Ok _ |- _ =>
    pose proof (foldM_unit_elem f _ Hf ref Hin) as Hr end.
  cbn beta in Hr. apply bind_Ok in Hr as (topic & Ht & Hr). exists topic. split; [done|].
  apply check_reference_Ok. by destruct (check_reference _ _ _ _) as [[]|[]].
Qed.

(** An accepted answer of the three-topic scene. *)
Record themes_accepted (material : MBTIReferenceMaterial) (facts : json) (c : citable)
    (content : json) : Prop := {
  ta_version : json_get content "schema_version" = Ok (JStr "ai-explanation-output/v2") ∧
    json_get content "scene_contract_version" = Ok (JStr MBTI_THEMATIC_CONTRACT);
  ta_items : ∃ selected type_code summary sections narrative,
    foldM json_item facts ["model_result"; "type_code"] = Ok (JStr type_code) ∧
    select material type_code = Ok selected ∧
    json_item content "summary" = Ok summary ∧
    json_item content "sections" ≫= iterate = Ok sections ∧
    (let allowed := allowed_refs (mk_citable (dimensions c) (suggestion_refs c) true) in
     cites_only allowed summary ∧
     ∀ section, section ∈ sections → ∃ insights questions actions,
       json_item section "insights" ≫= iterate = Ok insights ∧
       json_item section "reflection_questions" ≫= iterate = Ok questions ∧
       json_item section "actions" ≫= iterate = Ok actions ∧
       ∀ item, item ∈ insights ∨ item ∈ questions ∨ item ∈ actions →
         topic_item_accepted allowed selected section item) ∧
    dumps_with spaced content = Ok narrative ∧
    mentions_other narrative (JStr type_code) = false;
}.

Lemma check_section_Ok allowed selected section :
  check_section allowed selected section = Ok tt →
  ∃ insights questions actions,
    json_item section "insights" ≫= iterate = Ok insights ∧
    json_item section "reflection_questions" ≫= iterate = Ok questions ∧
    json_item section "actions" ≫= iterate = Ok actions ∧
    ∀ item, item ∈ insights ∨ item ∈ questions ∨ item ∈ actions →
      topic_item_accepted allowed selected section item.
Proof.
  unfold check_section. intros H. ok_inv. do 3 eexists.
  repeat match goal with Hj : json_item section ?k = Ok _ |- _ => rewrite Hj; clear Hj end.
  split_and!; try done. intros item Hi. apply check_topic_item_Ok.
  apply (foldM_unit_elem (check_topic_item allowed selected section) _ H), elem_of_app.
  rewrite elem_of_app. tauto.
Qed.

Lemma select_value_Ok material v selected :
  select_value material v = Ok selected →
  v = JStr (sel_type_code selected) ∧ select material (sel_type_code selected) = Ok selected.
Proof.
  destruct v; try done. cbn [select_value]. intros H. apply select_spec in H as Hs.
  destruct Hs as [-> _]. done.
Qed.

Lemma frozen_payload_Ok prepared policy material payload :
  frozen_payload prepared policy material = Ok payload →
  loads (provider_payload (assembled_input prepared)) = Ok payload ∧
  validate_mbti_themes_projection payload policy material = Ok tt.
Proof.
  unfold frozen_payload. destruct (loads _) as [p|e]; cbn [mbind res_bind]; [|by destruct (_ || _)].
  destruct (validate_mbti_themes_projection p policy material) as [[]|e] eqn:Hv; cbn [mbind res_bind].
  - by intros [= ->].
  - by destruct (_ || _).
Qed.

Lemma validate_themes_accepted content prepared policy material out :
  validate_themes content prepared policy material = Ok out →
  ∃ payload facts c, loads (provider_payload (assembled_input prepared)) = Ok payload ∧
    json_item payload "facts" = Ok facts ∧ citable_facts facts = Ok c ∧
    dumps_with compact content = Ok (content_json out) ∧
    validate_mbti_themes_projection payload policy material = Ok tt ∧
    themes_accepted material facts c content.
Proof.
  unfold validate_themes. intros H. py_inv. cbn [content_json].
  match goal with Hs : select_value _ _ = Ok ?s |- _ =>
    apply select_value_Ok in Hs as [-> Hsel]; rename s into selected end.
  match goal with Hp : frozen_payload _ _ _ = Ok ?p |- _ =>
    apply frozen_payload_Ok in Hp as [Hp Hv]; exists p end.
  repeat match goal with He : json_eqb _ _ = true |- _ => apply json_eqb_str in He as -> end.
  match goal with Hs : json_item content "sections" = Ok _ |- _ => rename Hs into Hsections end.
  do 2 eexists. split_and!; try done. split; [done|].
  do 5 eexists. rewrite Hsections. cbn [mbind res_bind]. split_and!; try done.
  - by apply check_evidence_Ok.
  - intros section Hin. apply check_section_Ok.
    match goal with Hf : foldM _ tt _ = Ok _ |- _ => by apply (foldM_unit_elem _ _ Hf) end.
Qed.

(** C19: an accepted answer keeps every gate of its scene.  Whatever the scene, it is within the length
    of the profile and cites only facts of the payload the prompt carried.  For the scenes with one
    document its insights and suggestions are within the bounds of the profile and, when the profile
    forbids it, no insight combines a dimension with one of its ancestors; a suggestion names only
    standard suggestions of the report.  For three topics every reference is one selected for the
    type of the report and the topic of the section, with the evidence it needs, from the material
    the prompt carried.  An MBTI answer
    whose narrative names another type is refused. *)
Theorem accepted_answer_in_policy parse raw prepared out :
  validate_output parse raw prepared = Ok out →
  let release := prepared_release prepared in
  str_len raw <= max_output_characters (render_policy release) ∧
  ∃ content payload facts c,
    parse raw = Ok content ∧ dumps_with compact content = Ok (content_json out) ∧
    loads (provider_payload (assembled_input prepared)) = Ok payload ∧
    json_item payload "facts" = Ok facts ∧ citable_facts facts = Ok c ∧
    match input_policy release with
    | ThematicPolicy policy _ material =>
      validate_mbti_themes_projection payload policy material = Ok tt ∧
      themes_accepted material facts c content
    | policy => single_accepted (render_policy release) (is_mbti policy) facts c content
    end.
Proof.
  unfold validate_output, validate_output_length. intros H. ok_inv.
  match goal with Hp : parse raw = Ok ?v |- _ => rename v into content end.
  cbn zeta. split; [by py_inv|]. exists content.
  assert (Hsingle : validate_single content prepared = Ok out →
    ∃ payload facts c, loads (provider_payload (assembled_input prepared)) = Ok payload ∧
      json_item payload "facts" = Ok facts ∧ citable_facts facts = Ok c).
  { unfold validate_single. intros Hs. ok_inv. by do 3 eexists. }
  destruct (input_policy (prepared_release prepared)) eqn:Hpol.
  1,2: destruct (Hsingle H) as (payload & facts & c & Hp & Hf & Hc); exists payload, facts, c;
    destruct (validate_single_accepted _ _ _ _ _ _ H Hp Hf Hc) as [Hd Ha]; rewrite Hpol in Ha; by split_and!.
  apply validate_themes_accepted in H as (payload & facts & c & Hp & Hf & Hc & Hd & Hv & Ha).
  exists payload, facts, c. by split_and!.
Qed.
