(* ===== verification/Tables.v ===== *)
(** * Tables: the rows the interpretation transactions read and write

    Models the tables of [src/src/qs_ai/infrastructure/persistence/mysql/schema.py] that the
    admission, the answers and the execution of an interpretation use, and the statements of
    [src/src/qs_ai/infrastructure/persistence/mysql/interpretation.py] between rows and sessions.

    A table is a finite map from its primary key.  An [INSERT] that repeats a primary or unique key,
    or refers to a missing parent row, raises [IntegrityError]; a number outside an unsigned column
    raises [DataError].  Audit timestamps without a reader and column lengths are left out.  Times
    are microseconds of UTC.  [G] is the rest of the database: the publications and quotas the
    transactions only read. *)
From stdpp Require Import pretty.
From S2P Require Import Prelude PyText PyInt PyJson Transactions Session Service.

Local Open Scope string_scope.
Local Open Scope Z_scope.

(** ** Statements *)

Definition get_db {DB} : tx DB DB := λ db, (Ok db, db).
Definition modify {DB} (f : DB → DB) : tx DB unit := λ db, (Ok tt, f db).

(** [INSERT] of a row whose other constraints hold when [ok]. *)
Definition insert_row {DB K V} `{Countable K}
    (get : DB → gmap K V) (set : gmap K V → DB → DB) (key : K) (row : V) (ok : DB → bool)
    : tx DB unit := λ db,
  if is_none (get db !! key) && ok db then (Ok tt, set (<[key := row]> (get db)) db)
  else (Err IntegrityError, db).

(** [UPDATE ... SET ... WHERE p]. *)
Definition update_where {K V} `{Countable K} (p : V → bool) (f : V → V) (m : gmap K V)
    : gmap K V := (λ row, if p row then f row else row) <$> m.

Lemma get_bind {DB B} (f : DB → tx DB B) db : (get_db ≫= f) db = f db db.
Proof. done. Qed.
Lemma get_db_Ok {DB} (a db db' : DB) : get_db db = (Ok a, db') ↔ a = db ∧ db' = db.
Proof. unfold get_db. naive_solver. Qed.
Lemma modify_Ok {DB} (f : DB → DB) u db db' : modify f db = (Ok u, db') ↔ db' = f db.
Proof. unfold modify. destruct u. naive_solver. Qed.
Lemma insert_row_Ok {DB K V} `{Countable K} get (set : gmap K V → DB → DB) key row ok u db db' :
  insert_row get set key row ok db = (Ok u, db') ↔
  get db !! key = None ∧ ok db = true ∧ db' = set (<[key := row]> (get db)) db.
Proof.
  unfold insert_row. destruct (get db !! key), (ok db); cbn; destruct u; naive_solver.
Qed.

(** [tx_inv] through the statements above and the guards of the code. *)
Ltac run_inv1 :=
  match goal with
  | H : get_db _ = (Ok _, _) |- _ => apply get_db_Ok in H as [-> ->]
  | H : modify _ _ = (Ok _, _) |- _ => apply modify_Ok in H as ->
  | H : insert_row _ _ _ _ _ _ = (Ok _, _) |- _ => apply insert_row_Ok in H as (? & ? & ->)
  end.
Ltac run_inv := repeat (tx_inv1 || run_inv1 || py_inv).

(** ** Frames *)

(** A computation that leaves the part [π] of the database as it was, raising or not. *)
Definition keeps {DB A X} (π : DB → X) (m : tx DB A) : Prop :=
  ∀ db, π (m db).2 = π db.

Create HintDb keeps.

Section keeps.
Context {DB X : Type} (π : DB → X).

Lemma keeps_ret {A} (a : A) : keeps π (mret a).
Proof. done. Qed.

Lemma keeps_lift {A} (m : res A) : keeps π (lift m).
Proof. done. Qed.

Lemma keeps_get : keeps π get_db.
Proof. done. Qed.

Lemma keeps_bind {A B} (m : tx DB A) (f : A → tx DB B) :
  keeps π m → (∀ a, keeps π (f a)) → keeps π (m ≫= f).
Proof.
  intros Hm Hf db. rewrite bind_run. specialize (Hm db).
  destruct (m db) as [[a|e] db']; [|done]. cbn in Hm. rewrite <- Hm. apply Hf.
Qed.

Lemma keeps_insert {K V} `{Countable K} (get : DB → gmap K V) (set : gmap K V → DB → DB) k v ok :
  (∀ m db, π (set m db) = π db) → keeps π (insert_row get set k v ok).
Proof. intros Hs db. unfold insert_row. destruct (_ && _); [apply Hs|done]. Qed.

Lemma keeps_modify (f : DB → DB) : (∀ db, π (f db) = π db) → keeps π (modify f).
Proof. intros Hf db. apply Hf. Qed.

Lemma keeps_if {A} (b : bool) (m n : tx DB A) : keeps π m → keeps π n → keeps π (if b then m else n).
Proof. by destruct b. Qed.

Lemma keeps_option {A B} (o : option A) (f : A → tx DB B) n :
  (∀ a, keeps π (f a)) → keeps π n → keeps π (match o with Some a => f a | None => n end).
Proof. by destruct o. Qed.

Lemma keeps_Ok {A} (m : tx DB A) db o db' : keeps π m → m db = (o, db') → π db' = π db.
Proof. intros Hm Hx. specialize (Hm db). by rewrite Hx in Hm. Qed.

End keeps.
#[export] Hint Resolve keeps_ret keeps_lift keeps_get : keeps.

(** Goes through the code of a computation whose writes are all outside the part. *)
Ltac solve_keeps :=
  repeat match goal with
  | |- keeps _ (_ ≫= _) => apply keeps_bind; [|intros ?]
  | |- keeps _ (if _ then _ else _) => apply keeps_if
  | |- keeps _ (match _ with Some _ => _ | None => _ end) => apply keeps_option; [intros ?|]
  | |- keeps _ (insert_row _ _ _ _ _) => apply keeps_insert
  | |- keeps _ (modify _) => apply keeps_modify
  | |- keeps _ (let '(_, _) := ?x in _) => destruct x
  | |- _ => solve [eauto with keeps | done | by intros; repeat case_match]
  end.

(** ** Columns *)

(** The value of an unsigned [BIGINT] column. *)
Definition unsigned (z : Z) : res N :=
  if (0 <=? z) && (z <? 2 ^ 64) then Ok (Z.to_N z) else Err DataError.

(** [int(text)] *)
Definition int_of (s : string) : res Z :=
  match py_int s with
  | Some z => Ok z
  | None => Err (ValueError "invalid literal for int() with base 10")
  end.

(** ** Rows *)

Record SessionRow : Type := mk_SessionRow {
  sr_request_id : option string;
  sr_org_id : N;
  sr_owner_subject_id : string;
  sr_testee_id : N;
  sr_assessment_ids : list string;
  sr_goal : string;
  sr_status : Status;
  sr_version : Z;
  sr_active_run_id : option string;
  sr_current_question_id : option string;
  sr_evidence_set_id : option string;
  sr_workflow_version : string;
  sr_failure_code : option string;
}.

Record QuestionRow : Type := mk_QuestionRow {
  qr_question : Question;
  qr_seq : Z;
  qr_answered_at : option Z;
}.

Record RunRow : Type := mk_RunRow {
  rr_session_id : string;
  rr_session_version : Z;
  rr_status : string;
  rr_checkpoint_ref : option string;
}.

Record JobRow : Type := mk_JobRow {
  j_run_id : string;
  j_session_id : string;
  j_status : string;
  j_available_at : Z;
  j_lease_until : option Z;
  j_fence_token : Z;
  j_attempt : Z;
  j_answer : option string;
  j_skipped : bool;
  j_question_id : option string;
}.

Record LeaseRow : Type := mk_LeaseRow { l_fence : Z; l_expires_at : Z }.

Record CallRow : Type := mk_CallRow {
  c_invocation_id : string;
  c_fence_token : Z;
  c_status : string;
  c_request_json : string;
  c_response_json : option string;
  c_failure_code : option string;
}.

Record ArtifactRow : Type := mk_ArtifactRow {
  a_session_id : string;
  a_run_id : string;
  a_payload : json;
}.

Record Reservation : Type := mk_Reservation {
  v_session_id : string;
  v_organization_id : Z;
  v_subject_id : string;
  v_assessment_ids : list string;
  v_budget_day : Z;
  v_reserved_at : Z;
  v_active : bool;
  v_acquired_at : option Z;
  v_released_at : option Z;
  v_quota_snapshot : json;
}.

Record RetryRow : Type := mk_RetryRow {
  pr_organization_id : Z;
  pr_session_id : string;
  pr_run_id : string;
  pr_frozen_request_json : option string;
}.

(** [PlannedConfiguration] of [execution_configurations.py]. *)
Record PlannedConfiguration : Type := mk_PlannedConfiguration {
  pc_session_id : string;
  pc_evidence_set_id : string;
  pc_evidence_fingerprint : string;
  pc_publication_id : string;
  pc_publication_sha256 : string;
  pc_pointer_version : Z;
  pc_selector_query : string;
}.
#[export] Instance PlannedConfiguration_eq_dec : EqDecision PlannedConfiguration.
Proof. solve_decision. Defined.

(** [StateEvent] of [src/src/qs_ai/application/integration/events.py]. *)
Record StateEvent : Type := mk_StateEvent {
  ev_event_id : string;
  ev_request_id : string;
  ev_session_id : string;
  ev_actor : Actor;
  ev_testee_id : string;
  ev_version : Z;
  ev_status : string;
  ev_question_id : string;
  ev_question : string;
  ev_can_skip : bool;
  ev_failure_code : string;
  ev_artifact_json : string;
}.

Section tables.
Context {G : Type}.

Record Tables : Type := mk_Tables {
  t_idempotency : gmap (string * string) (string * option Receipt);
  t_sessions : gmap string SessionRow;
  t_questions : gmap string QuestionRow;
  t_evidence : gmap string EvidenceSet;
  t_runs : gmap string RunRow;
  t_jobs : gmap string JobRow;
  t_leases : gmap string LeaseRow;
  t_calls : gmap string CallRow;
  t_artifacts : gmap string ArtifactRow;
  t_locks : gset Z;
  t_reservations : gmap string Reservation;
  t_retries : list RetryRow;
  t_bindings : gmap string PlannedConfiguration;
  t_outbox : gmap (string * Z) StateEvent;
  t_rest : G;
}.

Definition set_idempotency (x : gmap (string * string) (string * option Receipt)) (db : Tables) : Tables :=
  mk_Tables x (t_sessions db) (t_questions db) (t_evidence db) (t_runs db) (t_jobs db)
    (t_leases db) (t_calls db) (t_artifacts db) (t_locks db) (t_reservations db) (t_retries db)
    (t_bindings db) (t_outbox db) (t_rest db).
Definition set_sessions (x : gmap string SessionRow) (db : Tables) : Tables :=
  mk_Tables (t_idempotency db) x (t_questions db) (t_evidence db) (t_runs db) (t_jobs db)
    (t_leases db) (t_calls db) (t_artifacts db) (t_locks db) (t_reservations db) (t_retries db)
    (t_bindings db) (t_outbox db) (t_rest db).
Definition set_questions (x : gmap string QuestionRow) (db : Tables) : Tables :=
  mk_Tables (t_idempotency db) (t_sessions db) x (t_evidence db) (t_runs db) (t_jobs db)
    (t_leases db) (t_calls db) (t_artifacts db) (t_locks db) (t_reservations db) (t_retries db)
    (t_bindings db) (t_outbox db) (t_rest db).
Definition set_evidence (x : gmap string EvidenceSet) (db : Tables) : Tables :=
  mk_Tables (t_idempotency db) (t_sessions db) (t_questions db) x (t_runs db) (t_jobs db)
    (t_leases db) (t_calls db) (t_artifacts db) (t_locks db) (t_reservations db) (t_retries db)
    (t_bindings db) (t_outbox db) (t_rest db).
Definition set_runs (x : gmap string RunRow) (db : Tables) : Tables :=
  mk_Tables (t_idempotency db) (t_sessions db) (t_questions db) (t_evidence db) x (t_jobs db)
    (t_leases db) (t_calls db) (t_artifacts db) (t_locks db) (t_reservations db) (t_retries db)
    (t_bindings db) (t_outbox db) (t_rest db).
Definition set_jobs (x : gmap string JobRow) (db : Tables) : Tables :=
  mk_Tables (t_idempotency db) (t_sessions db) (t_questions db) (t_evidence db) (t_runs db) x
    (t_leases db) (t_calls db) (t_artifacts db) (t_locks db) (t_reservations db) (t_retries db)
    (t_bindings db) (t_outbox db) (t_rest db).
Definition set_leases (x : gmap string LeaseRow) (db : Tables) : Tables :=
  mk_Tables (t_idempotency db) (t_sessions db) (t_questions db) (t_evidence db) (t_runs db)
    (t_jobs db) x (t_calls db) (t_artifacts db) (t_locks db) (t_reservations db) (t_retries db)
    (t_bindings db) (t_outbox db) (t_rest db).
Definition set_calls (x : gmap string CallRow) (db : Tables) : Tables :=
  mk_Tables (t_idempotency db) (t_sessions db) (t_questions db) (t_evidence db) (t_runs db)
    (t_jobs db) (t_leases db) x (t_artifacts db) (t_locks db) (t_reservations db) (t_retries db)
    (t_bindings db) (t_outbox db) (t_rest db).
Definition set_artifacts (x : gmap string ArtifactRow) (db : Tables) : Tables :=
  mk_Tables (t_idempotency db) (t_sessions db) (t_questions db) (t_evidence db) (t_runs db)
    (t_jobs db) (t_leases db) (t_calls db) x (t_locks db) (t_reservations db) (t_retries db)
    (t_bindings db) (t_outbox db) (t_rest db).
Definition set_locks (x : gset Z) (db : Tables) : Tables :=
  mk_Tables (t_idempotency db) (t_sessions db) (t_questions db) (t_evidence db) (t_runs db)
    (t_jobs db) (t_leases db) (t_calls db) (t_artifacts db) x (t_reservations db) (t_retries db)
    (t_bindings db) (t_outbox db) (t_rest db).
Definition set_reservations (x : gmap string Reservation) (db : Tables) : Tables :=
  mk_Tables (t_idempotency db) (t_sessions db) (t_questions db) (t_evidence db) (t_runs db)
    (t_jobs db) (t_leases db) (t_calls db) (t_artifacts db) (t_locks db) x (t_retries db)
    (t_bindings db) (t_outbox db) (t_rest db).
Definition set_retries (x : list RetryRow) (db : Tables) : Tables :=
  mk_Tables (t_idempotency db) (t_sessions db) (t_questions db) (t_evidence db) (t_runs db)
    (t_jobs db) (t_leases db) (t_calls db) (t_artifacts db) (t_locks db) (t_reservations db) x
    (t_bindings db) (t_outbox db) (t_rest db).
Definition set_bindings (x : gmap string PlannedConfiguration) (db : Tables) : Tables :=
  mk_Tables (t_idempotency db) (t_sessions db) (t_questions db) (t_evidence db) (t_runs db)
    (t_jobs db) (t_leases db) (t_calls db) (t_artifacts db) (t_locks db) (t_reservations db)
    (t_retries db) x (t_outbox db) (t_rest db).
Definition set_outbox (x : gmap (string * Z) StateEvent) (db : Tables) : Tables :=
  mk_Tables (t_idempotency db) (t_sessions db) (t_questions db) (t_evidence db) (t_runs db)
    (t_jobs db) (t_leases db) (t_calls db) (t_artifacts db) (t_locks db) (t_reservations db)
    (t_retries db) (t_bindings db) x (t_rest db).
Definition set_rest (x : G) (db : Tables) : Tables :=
  mk_Tables (t_idempotency db) (t_sessions db) (t_questions db) (t_evidence db) (t_runs db)
    (t_jobs db) (t_leases db) (t_calls db) (t_artifacts db) (t_locks db) (t_reservations db)
    (t_retries db) (t_bindings db) (t_outbox db) x.
End tables.
Arguments Tables G : clear implicits.

(** ** Sessions and rows *)

Definition session_from (id : string) (row : SessionRow) : Session :=
  mk_Session id (mk_Actor (pretty (sr_org_id row)) (sr_owner_subject_id row))
    (pretty (sr_testee_id row)) (sr_assessment_ids row) (sr_goal row) (sr_status row)
    (sr_version row) (sr_active_run_id row) (sr_current_question_id row) (sr_evidence_set_id row)
    (sr_workflow_version row) (sr_failure_code row).

(** The columns of [session_values], with the request the row already has. *)
Definition session_values (request : option string) (s : Session) : res SessionRow :=
  org ← int_of (org_id (s_actor s));
  testee ← int_of (s_testee_id s);
  org ← unsigned org;
  testee ← unsigned testee;
  Ok (mk_SessionRow request org (subject_id (s_actor s)) testee (s_assessment_ids s) (s_goal s)
        (s_status s) (s_version s) (s_active_run_id s) (s_current_question_id s)
        (s_evidence_set_id s) (s_workflow_version s) (s_failure_code s)).

Lemma unsigned_Ok z n : unsigned z = Ok n → n = Z.to_N z.
Proof. unfold unsigned. intros H. by if_inv; ok_inv. Qed.

(** What is read back is what was written, whatever the state of the session: the numeric columns
    keep a session's identities when they are decimal texts. *)
Lemma session_values_from request s row :
  storable s → session_values request s = Ok row → session_from (s_id s) row = s.
Proof.
  intros [[n Hn] [m Hm]] Hrow. unfold session_values, int_of in Hrow.
  rewrite Hn, Hm, !py_int_pretty in Hrow. ok_inv.
  repeat match goal with H : unsigned _ = Ok _ |- _ => apply unsigned_Ok in H; subst end.
  unfold session_from. cbn. rewrite !N2Z.id, <- Hn, <- Hm. by destruct s as [? []].
Qed.

Lemma session_from_storable id row : storable (session_from id row).
Proof. split; eexists; reflexivity. Qed.
