(* ===== verification/CheckpointRecords.v ===== *)
(** * CheckpointRecords: the durable checkpoint of an evaluation run

    Models [src/src/qs_ai/application/evaluation/checkpoints.py],
    [src/src/qs_ai/infrastructure/persistence/mysql/evaluation_checkpoints.py] and the evaluation
    tables of [src/src/qs_ai/infrastructure/persistence/mysql/schema.py]: the JSON form of a
    checkpoint, and the coordinator row whose version every transition of a run advances by one.

    A JSON column holds the value it was written with; a [NULL] column and the JSON [null] both
    read as [None].  The event marks of [changed_evaluation], which belong to the session and not
    to the tables, are left out.  [decode] is modelled on fields of the declared types: another
    value in the column is refused, as the constructor of the checkpoint refuses it, except that
    the class of the exception is [TypeError]. *)
From S2P Require Import Prelude PyText PyTime PyJson JsonRoundTrip PyIso Transactions Tables.
From S2P Require Import Checkpoint.

Local Open Scope string_scope.
Local Open Scope Z_scope.
Local Open Scope py_scope.

(** [column is None] *)
Definition is_null (v : json) : bool := match v with JNull => true | _ => false end.

(** ** The JSON form *)

Definition time_json (t : datetime) : json := JStr (isoformat t).
Definition optional_json (o : option json) : json := default JNull o.

(** [asdict(checkpoint)] with its times as texts. *)
Definition checkpoint_dict (cp : ExecutionCheckpoint) : json :=
  JObj [("execution_id", JStr (cp_execution_id cp)); ("kind", JStr (cp_kind cp));
        ("case_id", JStr (cp_case_id cp)); ("slot_ordinal", JInt (cp_slot_ordinal cp));
        ("candidate_id", JStr (cp_candidate_id cp));
        ("execution_ordinal", JInt (cp_execution_ordinal cp));
        ("owner", JStr (cp_owner cp)); ("invocation_id", JStr (cp_invocation_id cp));
        ("phase", JStr (cp_phase cp)); ("claimed_at", time_json (cp_claimed_at cp));
        ("lease_expires_at", time_json (cp_lease_expires_at cp));
        ("dispatch_started_at", optional_json (time_json <$> cp_dispatch_started_at cp))].

Definition encode (checkpoint : option ExecutionCheckpoint) : json :=
  optional_json (checkpoint_dict <$> checkpoint).

Definition optional_time (v : json) (k : string) : res (option datetime) :=
  x ← json_item v k;
  match x with
  | JNull => Ok None
  | JStr s => t ← fromisoformat s; Ok (Some t)
  | _ => Err TypeError
  end.
Definition time_field (v : json) (k : string) : res datetime :=
  t ← optional_time v k; match t with Some t => Ok t | None => Err AttributeError end.

Definition checkpoint_fields : list string :=
  ["execution_id"; "kind"; "case_id"; "slot_ordinal"; "candidate_id"; "execution_ordinal"; "owner";
   "invocation_id"; "phase"; "claimed_at"; "lease_expires_at"; "dispatch_started_at"].

Definition decode (value : json) : res (option ExecutionCheckpoint) :=
  match value with
  | JNull => Ok None
  | JObj d =>
    raise_if (negb (forallb (λ k, k is_in checkpoint_fields) d.*1)) TypeError ;;
    claimed_at ← time_field value "claimed_at";
    lease_expires_at ← time_field value "lease_expires_at";
    dispatch_started_at ← optional_time value "dispatch_started_at";
    execution_id ← text_field value "execution_id";
    kind ← text_field value "kind";
    case_id ← text_field value "case_id";
    slot_ordinal ← int_field value "slot_ordinal";
    candidate_id ← text_field value "candidate_id";
    execution_ordinal ← int_field value "execution_ordinal";
    owner ← text_field value "owner";
    invocation_id ← text_field value "invocation_id";
    phase ← text_field value "phase";
    cp ← construct (mk_ExecutionCheckpoint execution_id kind case_id slot_ordinal candidate_id
                      execution_ordinal owner invocation_id phase claimed_at lease_expires_at
                      dispatch_started_at);
    Ok (Some cp)
  | _ => Err TypeError
  end.

(** The times of a checkpoint a process can hold: aware values of the calendar. *)
Definition printable (cp : ExecutionCheckpoint) : bool :=
  printable_time (cp_claimed_at cp) && printable_time (cp_lease_expires_at cp)
  && from_option printable_time true (cp_dispatch_started_at cp).

(** ** Tables *)

(** A row of [evaluation_runs]; the two columns of the frozen policy are both set or both [NULL]. *)
Record EvaluationRunRow : Type := mk_EvaluationRunRow {
  er_execution_mode : string;
  er_organization_id : Z;
  er_requested_by : string;
  er_definition_json : string;
  er_progress_json : json;
  er_frozen_policy : option (string * string);
}.

(** A row of [evaluation_dispatches]. *)
Record DispatchRow : Type := mk_DispatchRow {
  dp_execution_id : string;
  dp_kind : string;
  dp_case_id : string;
  dp_slot_ordinal : Z;
  dp_candidate_id : string;
  dp_checkpoint_json : json;
}.

(** Versions of the coordinators with their checkpoints, runs, dispatches by run and invocation,
    slot claims by run, case and slot; [R] is the rest of the database. *)
Record EvaluationTables (R : Type) : Type := mk_EvaluationTables {
  e_checkpoints : gmap string (Z * json);
  e_runs : gmap string EvaluationRunRow;
  e_dispatches : gmap (string * string) DispatchRow;
  e_claims : gmap (string * string * Z) (Z * json);
  e_rest : R;
}.
Arguments mk_EvaluationTables {R}.
Arguments e_checkpoints {R}.
Arguments e_runs {R}.
Arguments e_dispatches {R}.
Arguments e_claims {R}.
Arguments e_rest {R}.

Section tables.
Context {R : Type}.
Notation DB := (EvaluationTables R).

Definition set_checkpoints (x : gmap string (Z * json)) (db : DB) : DB :=
  mk_EvaluationTables x (e_runs db) (e_dispatches db) (e_claims db) (e_rest db).
Definition set_runs (x : gmap string EvaluationRunRow) (db : DB) : DB :=
  mk_EvaluationTables (e_checkpoints db) x (e_dispatches db) (e_claims db) (e_rest db).
Definition set_dispatches (x : gmap (string * string) DispatchRow) (db : DB) : DB :=
  mk_EvaluationTables (e_checkpoints db) (e_runs db) x (e_claims db) (e_rest db).
Definition set_claims (x : gmap (string * string * Z) (Z * json)) (db : DB) : DB :=
  mk_EvaluationTables (e_checkpoints db) (e_runs db) (e_dispatches db) x (e_rest db).

(** ** The coordinator *)

Record CheckpointState : Type := mk_CheckpointState {
  cs_run_id : string;
  cs_version : Z;
  cs_checkpoint : option ExecutionCheckpoint;
}.
#[export] Instance CheckpointState_post_init : Validated CheckpointState := λ self,
  raise_if (cs_version self <? 0) (ValueError "Invalid checkpoint version").

(** [create]: a repeated key becomes a conflict. *)
Definition create (run_id : string) (db : DB) : res CheckpointState * DB :=
  match transaction (insert_row e_checkpoints set_checkpoints run_id (0, JNull) (λ _, true) ;;
                     mret (tt, true)) db with
  | (Ok _, db') => (construct (mk_CheckpointState run_id 0 None), db')
  | (Err IntegrityError, db') =>
    (Err (CheckpointConflict "Checkpoint state already exists"), db')
  | (Err e, db') => (Err e, db')
  end.

Definition get (run_id : string) : DB → res (option CheckpointState) * DB :=
  transaction (db ← get_db;
               o ← lift (match e_checkpoints db !! run_id with
                         | None => Ok None
                         | Some (version, value) =>
                           cp ← decode value;
                           s ← construct (mk_CheckpointState run_id version cp);
                           Ok (Some s)
                         end);
               mret (o, false)).

(** The compare-and-set of the version; a version that leaves the [BIGINT] column is refused. *)
Definition save_checkpoint (state : CheckpointState) (expected_version : Z) : tx DB unit :=
  lift (raise_if ((expected_version <? 0) || negb (cs_version state =? expected_version + 1))
          (ValueError "Checkpoint updates must advance exactly one version")) ;;
  db ← get_db;
  lift (raise_if (negb (from_option (λ row, row.1 =? expected_version) false
                          (e_checkpoints db !! cs_run_id state)))
          (CheckpointConflict "Checkpoint state changed concurrently")) ;;
  lift (raise_if (2 ^ 63 <=? cs_version state) DataError) ;;
  modify (set_checkpoints (<[cs_run_id state := (cs_version state, encode (cs_checkpoint state))]>
                             (e_checkpoints db))).

Definition save (state : CheckpointState) (expected_version : Z) : DB → res unit * DB :=
  transaction (save_checkpoint state expected_version ;; mret (tt, true)).
End tables.

(** ** Properties *)

Lemma time_field_dict l k t :
  assoc k l = Some (time_json t) → printable_time t = true → time_field (JObj l) k = Ok t.
Proof.
  intros Hk Ht. unfold time_field, optional_time. rewrite (json_item_dict _ _ _ Hk).
  cbn [mbind res_bind time_json]. by rewrite fromisoformat_isoformat.
Qed.
Lemma optional_time_dict l k o :
  assoc k l = Some (optional_json (time_json <$> o)) → from_option printable_time true o = true →
  optional_time (JObj l) k = Ok o.
Proof.
  intros Hk Ho. unfold optional_time. rewrite (json_item_dict _ _ _ Hk).
  destruct o as [t|]; [|done]. cbn [from_option] in Ho.
  change (optional_json (time_json <$> Some t)) with (JStr (isoformat t)). cbn [mbind res_bind].
  by rewrite fromisoformat_isoformat.
Qed.

Lemma decode_encode cp :
  constructed cp → printable cp = true → decode (checkpoint_dict cp) = Ok (Some cp).
Proof.
  unfold printable. intros Hcp [[H1 H2]%andb_true_iff H3]%andb_true_iff.
  unfold decode, checkpoint_dict.
  erewrite !text_field_dict, !int_field_dict, !time_field_dict, optional_time_dict by done.
  unfold construct. destruct cp. cbn -[post_init]. unfold constructed in Hcp. by rewrite Hcp.
Qed.

(** The compare-and-set on every branch. *)
Lemma save_checkpoint_Ok {R} state v (db db' : EvaluationTables R) :
  save_checkpoint state v db = (Ok tt, db') ↔
    0 <= v ∧ cs_version state = v + 1 ∧ v + 1 < 2 ^ 63 ∧
    (∃ old, e_checkpoints db !! cs_run_id state = Some (v, old)) ∧
    db' = set_checkpoints (<[cs_run_id state := (v + 1, encode (cs_checkpoint state))]>
                             (e_checkpoints db)) db.
Proof.
  unfold save_checkpoint. split.
  - intros H. run_inv. destruct (e_checkpoints db !! cs_run_id state) as [[n old]|] eqn:E;
      cbn in *; [|done].
    repeat match goal with H : (_ =? _) = true |- _ => apply Z.eqb_eq in H end.
    subst n. match goal with H : cs_version state = _ |- _ => rewrite H in * end. eauto 10.
  - intros (Hv & Hs & Hb & (old & E) & ->). rewrite !lift_bind, Hs, Z.eqb_refl.
    rewrite (proj2 (Z.ltb_ge v 0)) by done. cbn [negb orb raise_if]. rewrite get_bind, !lift_bind, E.
    cbn [from_option fst]. rewrite Z.eqb_refl. cbn [negb raise_if].
    by rewrite (proj2 (Z.leb_gt (2 ^ 63) (v + 1))) by done.
Qed.

Lemma textual_checkpoint cp : textual (checkpoint_dict cp) = true.
Proof.
  unfold checkpoint_dict, time_json. cbn [textual fmap list_fmap List.map fst snd forallb].
  assert (H : bool_decide (NoDup checkpoint_fields) = true) by by vm_compute.
  unfold checkpoint_fields in H. rewrite H. by destruct (cp_dispatch_started_at cp).
Qed.

Lemma decode_phase v cp : decode v = Ok (Some cp) → text_field v "phase" = Ok (cp_phase cp).
Proof.
  unfold decode. destruct v; try done. intros H. ok_inv.
  match goal with H : construct _ = Ok _ |- _ => apply construct_Ok in H as [_ ->] end.
  assumption.
Qed.

Lemma decode_constructed v cp : decode v = Ok (Some cp) → constructed cp.
Proof.
  unfold decode. destruct v; try done. intros H. ok_inv.
  match goal with H : construct _ = Ok _ |- _ => apply construct_Ok in H as [? ->] end.
  assumption.
Qed.

(** A checkpoint survives its storage: the column reads back as the checkpoint that was written,
    and so does the text of a record that holds it; no checkpoint reads back as none. *)
Theorem checkpoint_round_trip cp text :
  constructed cp → printable cp = true → dumps_with compact_finite (encode (Some cp)) = Ok text →
  decode (encode (Some cp)) = Ok (Some cp) ∧
  (v ← loads text; decode v) = Ok (Some cp) ∧
  decode (encode None) = Ok None.
Proof.
  intros Hcp Hp Ht. pose proof (decode_encode cp Hcp Hp) as Hd. split_and!; [done| |done].
  rewrite (loads_dumps compact_finite ltac:(by left) ltac:(by left) (encode (Some cp)) text);
    [|apply textual_checkpoint|done].
  by rewrite written_unsorted.
Qed.
