(* ===== verification/CompletionRecords.v ===== *)
(** * CompletionRecords: the terminal evidence of an execution as it is stored

    Models the rows of the table [evaluation_completions] of
    [src/src/qs_ai/infrastructure/persistence/mysql/schema.py] as
    [src/src/qs_ai/infrastructure/persistence/mysql/completion_records.py] splits them by kind, the
    evidence that [read_generation_acceptance] and [read_semantic_acceptance] write
    ([evaluation_completions.py], [evaluation_semantic.py]) and the decoders of
    [src/src/qs_ai/infrastructure/persistence/mysql/evaluation_projection.py] and of
    [src/src/qs_ai/domain/evaluation/contract_recovery.py] that read it back.

    A JSON column holds the value it was written with.  The decoders are modelled on fields of the
    declared types, which is what the program writes; another type in a column is a [TypeError]
    here.  The computed columns of the table are the conditional uniqueness of its rows, which the
    insertions state as guards. *)
From S2P Require Import Prelude PyText PyTime PyHash PyJson PyIso Failure Checkpoint Completion.
From S2P Require Import Resolution CheckpointRecords.

Local Open Scope string_scope.
Local Open Scope Z_scope.
Local Open Scope py_scope.

(** ** Rows *)

Record GenerationRow : Type := mk_GenerationRow {
  gr_execution_id : string;
  gr_invocation_id : string;
  gr_case_id : string;
  gr_slot_ordinal : Z;
  gr_execution_ordinal : Z;
  gr_candidate_id : option string;
  gr_candidate_json : json;
  gr_evidence_json : json;
  gr_raw_output : string;
  gr_normalized_output : string;
}.

Record SemanticRow : Type := mk_SemanticRow {
  sr_execution_id : string;
  sr_invocation_id : string;
  sr_candidate_id : string;
  sr_execution_ordinal : Z;
  sr_evidence_json : json;
  sr_result_json : json;
  sr_raw_output : string;
  sr_normalized_output : string;
}.

(** ** Arguments passed by name *)

(** [F( **value )]: a name that is no parameter of [F] is a [TypeError]. *)
Definition named (parameters : list string) (value : json) : res unit :=
  match value with
  | JObj d => raise_if (negb (forallb (λ k, k is_in parameters) d.*1)) TypeError
  | _ => Err TypeError
  end.
Definition bool_field (v : json) (k : string) : res bool :=
  x ← json_item v k; match x with JBool b => Ok b | _ => Err TypeError end.
(** A text parameter with a default. *)
Definition text_default (v : json) (k d : string) : res string :=
  x ← json_get_default v k (JStr d); match x with JStr s => Ok s | _ => Err TypeError end.
Definition optional_int_field (v : json) (k : string) : res (option Z) :=
  x ← json_item v k;
  match x with JNull => Ok None | JInt z => Ok (Some z) | _ => Err TypeError end.
Definition text_item (v : json) : res string :=
  match v with JStr s => Ok s | _ => Err TypeError end.
(** [tuple(value[k])] of texts. *)
Definition texts_field (v : json) (k : string) : res (list string) :=
  x ← json_item v k; match x with JList l => mapM text_item l | _ => Err TypeError end.
(** [datetime.fromisoformat(value[k])] *)
Definition iso_item (v : json) (k : string) : res datetime :=
  x ← json_item v k; match x with JStr s => fromisoformat s | _ => Err TypeError end.
(** [decode(value) if value is not None else None] *)
Definition unless_null {A} (decode : json → res A) (v : json) : res (option A) :=
  match v with JNull => Ok None | _ => x ← decode v; Ok (Some x) end.

(** ** Decoders *)

Definition identity_fields : list string :=
  ["provider"; "requested_model"; "protocol"; "adapter_contract"; "binding_id"; "binding_revision";
   "route_fingerprint"].
Definition decode_identity (v : json) : res ModelExecutionIdentity :=
  named identity_fields v ;;
  provider ← text_field v "provider";
  requested_model ← text_field v "requested_model";
  protocol ← text_field v "protocol";
  adapter_contract ← text_field v "adapter_contract";
  binding_id ← text_field v "binding_id";
  binding_revision ← text_field v "binding_revision";
  route_fingerprint ← text_field v "route_fingerprint";
  Ok (mk_ModelExecutionIdentity provider requested_model protocol adapter_contract binding_id
        binding_revision route_fingerprint).

Definition receipt_fields : list string :=
  ["invocation_id"; "request_id"; "provider"; "model"; "input_tokens"; "output_tokens"; "latency_ns";
   "execution_identity"].
Definition decode_receipt (value : json) : res ProviderReceipt :=
  named receipt_fields value ;;
  identity ← json_get value "execution_identity";
  identity ← unless_null decode_identity identity;
  invocation_id ← text_field value "invocation_id";
  request_id ← text_field value "request_id";
  provider ← text_field value "provider";
  model ← text_field value "model";
  input_tokens ← optional_int_field value "input_tokens";
  output_tokens ← optional_int_field value "output_tokens";
  latency_ns ← int_field value "latency_ns";
  construct (mk_ProviderReceipt invocation_id request_id provider model input_tokens output_tokens
               latency_ns identity).

Definition diagnostics_fields : list string :=
  ["code"; "request_id"; "response_status"; "response_shape"].
Definition decode_diagnostics (value : json) : res ProviderDiagnostics :=
  named diagnostics_fields value ;;
  code ← text_field value "code";
  request_id ← text_default value "request_id" "";
  response_status ← text_default value "response_status" "";
  response_shape ← text_default value "response_shape" "";
  construct (mk_ProviderDiagnostics code request_id response_status response_shape).

Definition failure_fields : list string :=
  ["stage"; "kind"; "code"; "retryable"; "result_unknown"; "disposition"; "safe_message";
   "evidence_refs"; "provider_diagnostics"; "schema_version"].
(** The reconstruction of a [ClassifiedFailure] that both decoders repeat. *)
Definition decode_failure (value : json) : res ClassifiedFailure :=
  evidence_refs ← texts_field value "evidence_refs";
  diagnostics ← json_item value "provider_diagnostics";
  diagnostics ← unless_null decode_diagnostics diagnostics;
  named failure_fields value ;;
  stage ← text_field value "stage";
  kind ← text_field value "kind";
  code ← text_field value "code";
  retryable ← bool_field value "retryable";
  result_unknown ← bool_field value "result_unknown";
  disposition ← text_field value "disposition";
  safe_message ← text_field value "safe_message";
  schema_version ← text_default value "schema_version" "ai-explanation-failure-taxonomy/v1";
  construct (mk_ClassifiedFailure stage kind code retryable result_unknown disposition safe_message
               evidence_refs diagnostics schema_version).

Definition generation_fields : list string :=
  ["execution_id"; "case_id"; "slot_ordinal"; "execution_ordinal"; "invocation_id"; "status";
   "started_at"; "finished_at"; "provider_call_count"; "receipt"; "raw_output";
   "normalized_output"; "normalized_fingerprint"; "failure"].

Definition decode_completion (row : GenerationRow) : res GenerationCompletion :=
  let value := gr_evidence_json row in
  started_at ← iso_item value "started_at";
  finished_at ← iso_item value "finished_at";
  receipt ← json_item value "receipt";
  receipt ← unless_null decode_receipt receipt;
  failure ← json_item value "failure";
  failure ← unless_null decode_failure failure;
  named generation_fields value ;;
  execution_id ← text_field value "execution_id";
  case_id ← text_field value "case_id";
  slot_ordinal ← int_field value "slot_ordinal";
  execution_ordinal ← int_field value "execution_ordinal";
  invocation_id ← text_field value "invocation_id";
  status ← text_field value "status";
  provider_call_count ← int_field value "provider_call_count";
  fingerprint ← text_default value "normalized_fingerprint" "";
  result ← construct (mk_GenerationCompletion execution_id case_id slot_ordinal execution_ordinal
                        invocation_id status started_at finished_at provider_call_count receipt
                        (gr_raw_output row) (gr_normalized_output row) fingerprint failure);
  raise_if ((gc_execution_id result, gc_invocation_id result, gc_case_id result,
             gc_slot_ordinal result, gc_execution_ordinal result)
            != (gr_execution_id row, gr_invocation_id row, gr_case_id row, gr_slot_ordinal row,
                gr_execution_ordinal row))
    (CheckpointConflict "Stored terminal identity differs from index") ;;
  Ok result.

Definition semantic_fields : list string :=
  ["execution_id"; "candidate_id"; "candidate_output_fingerprint"; "execution_ordinal";
   "invocation_id"; "status"; "started_at"; "finished_at"; "provider_call_count"; "receipt";
   "failure"; "output_fingerprint"].

(** [fields.pop("output_fingerprint")] first; the outputs are no members of the evidence, since they
    are passed beside it. *)
Definition decode_semantic_completion (row : SemanticRow) : res SemanticCompletion :=
  let value := sr_evidence_json row in
  fingerprint ← json_item value "output_fingerprint";
  started_at ← iso_item value "started_at";
  finished_at ← iso_item value "finished_at";
  receipt ← json_item value "receipt";
  receipt ← unless_null decode_receipt receipt;
  failure ← json_item value "failure";
  failure ← unless_null decode_failure failure;
  named semantic_fields value ;;
  execution_id ← text_field value "execution_id";
  candidate_id ← text_field value "candidate_id";
  candidate_fingerprint ← text_field value "candidate_output_fingerprint";
  execution_ordinal ← int_field value "execution_ordinal";
  invocation_id ← text_field value "invocation_id";
  status ← text_field value "status";
  provider_call_count ← int_field value "provider_call_count";
  result ← construct (mk_SemanticCompletion execution_id candidate_id candidate_fingerprint
                        execution_ordinal invocation_id status started_at finished_at
                        provider_call_count receipt (sr_raw_output row) (sr_normalized_output row)
                        failure);
  raise_if (negb (json_eqb (JStr (output_fingerprint result)) fingerprint)
            || ((sc_execution_id result, sc_invocation_id result, sc_candidate_id result,
                 sc_execution_ordinal result)
                != (sr_execution_id row, sr_invocation_id row, sr_candidate_id row,
                    sr_execution_ordinal row)))
    (CheckpointConflict "Semantic bytes or index differ from evidence") ;;
  Ok result.

(** [ResultUnknownResolution( **{**raw, "resolved_at": ...} )] *)
Definition resolution_fields : list string :=
  ["execution_id"; "decision"; "actor"; "reason"; "acknowledged_duplicate_call_and_cost_risk";
   "resolved_at"].
Definition decode_resolution (raw : json) : res ResultUnknownResolution :=
  resolved_at ← iso_item raw "resolved_at";
  named resolution_fields raw ;;
  execution_id ← text_field raw "execution_id";
  decision ← text_field raw "decision";
  actor ← text_field raw "actor";
  reason ← text_field raw "reason";
  acknowledged ← bool_field raw "acknowledged_duplicate_call_and_cost_risk";
  construct (mk_ResultUnknownResolution execution_id decision actor reason acknowledged resolved_at).

Definition recovery_fields : list string :=
  ["execution_id"; "candidate_id"; "candidate_fingerprint"; "output_fingerprint"; "actor"; "reason";
   "resolved_at"; "acknowledged_policy_exception_and_cost"; "recovery_version";
   "instruction_fingerprint"].
Definition decode_recovery (v : json) : res ContractRecovery :=
  resolved_at ← iso_item v "resolved_at";
  named recovery_fields v ;;
  execution_id ← text_field v "execution_id";
  candidate_id ← text_field v "candidate_id";
  candidate_fingerprint ← text_field v "candidate_fingerprint";
  output_fingerprint ← text_field v "output_fingerprint";
  actor ← text_field v "actor";
  reason ← text_field v "reason";
  acknowledged ← bool_field v "acknowledged_policy_exception_and_cost";
  recovery_version ← text_default v "recovery_version" RECOVERY_VERSION;
  instruction_fingerprint ← text_default v "instruction_fingerprint" INSTRUCTION_FINGERPRINT;
  construct (mk_ContractRecovery execution_id candidate_id candidate_fingerprint output_fingerprint
               actor reason resolved_at acknowledged recovery_version instruction_fingerprint).

Definition decode_recoveries (values : json) : res (list ContractRecovery) :=
  values ← iterate values; mapM decode_recovery values.

(** ** What is written *)

Definition texts (l : list string) : json := JList (JStr <$> l).

Definition diagnostics_dict (self : ProviderDiagnostics) : json :=
  JObj [("code", JStr (pd_code self)); ("request_id", JStr (pd_request_id self));
        ("response_status", JStr (pd_response_status self));
        ("response_shape", JStr (pd_response_shape self))].

(** [asdict] of a failure. *)
Definition failure_dict (self : ClassifiedFailure) : json :=
  JObj [("stage", JStr (cf_stage self)); ("kind", JStr (cf_kind self));
        ("code", JStr (cf_code self)); ("retryable", JBool (cf_retryable self));
        ("result_unknown", JBool (cf_result_unknown self));
        ("disposition", JStr (cf_disposition self));
        ("safe_message", JStr (cf_safe_message self));
        ("evidence_refs", texts (cf_evidence_refs self));
        ("provider_diagnostics", optional_json (diagnostics_dict <$> cf_provider_diagnostics self));
        ("schema_version", JStr (cf_schema_version self))].

(** [asdict(completion)] with the definition of its receipt, without its outputs, with its times as
    texts. *)
Definition generation_evidence (self : GenerationCompletion) : json :=
  JObj [("execution_id", JStr (gc_execution_id self)); ("case_id", JStr (gc_case_id self));
        ("slot_ordinal", JInt (gc_slot_ordinal self));
        ("execution_ordinal", JInt (gc_execution_ordinal self));
        ("invocation_id", JStr (gc_invocation_id self)); ("status", JStr (gc_status self));
        ("started_at", time_json (gc_started_at self));
        ("finished_at", time_json (gc_finished_at self));
        ("provider_call_count", JInt (gc_provider_call_count self));
        ("receipt", optional_json (receipt_definition <$> gc_receipt self));
        ("normalized_fingerprint", JStr (gc_normalized_fingerprint self));
        ("failure", optional_json (failure_dict <$> gc_failure self))].

Definition semantic_evidence (self : SemanticCompletion) : json :=
  JObj [("execution_id", JStr (sc_execution_id self)); ("candidate_id", JStr (sc_candidate_id self));
        ("candidate_output_fingerprint", JStr (sc_candidate_output_fingerprint self));
        ("execution_ordinal", JInt (sc_execution_ordinal self));
        ("invocation_id", JStr (sc_invocation_id self)); ("status", JStr (sc_status self));
        ("started_at", time_json (sc_started_at self));
        ("finished_at", time_json (sc_finished_at self));
        ("provider_call_count", JInt (sc_provider_call_count self));
        ("receipt", optional_json (receipt_definition <$> sc_receipt self));
        ("failure", optional_json (failure_dict <$> sc_failure self));
        ("output_fingerprint", JStr (output_fingerprint self))].

Definition resolution_dict (self : ResultUnknownResolution) : json :=
  JObj [("execution_id", JStr (ru_execution_id self)); ("decision", JStr (ru_decision self));
        ("actor", JStr (ru_actor self)); ("reason", JStr (ru_reason self));
        ("acknowledged_duplicate_call_and_cost_risk",
          JBool (ru_acknowledged_duplicate_call_and_cost_risk self));
        ("resolved_at", time_json (ru_resolved_at self))].

Definition recovery_dict (self : ContractRecovery) : json :=
  JObj [("execution_id", JStr (cr_execution_id self));
        ("candidate_id", JStr (cr_candidate_id self));
        ("candidate_fingerprint", JStr (cr_candidate_fingerprint self));
        ("output_fingerprint", JStr (cr_output_fingerprint self)); ("actor", JStr (cr_actor self));
        ("reason", JStr (cr_reason self)); ("resolved_at", time_json (cr_resolved_at self));
        ("acknowledged_policy_exception_and_cost",
          JBool (cr_acknowledged_policy_exception_and_cost self));
        ("recovery_version", JStr (cr_recovery_version self));
        ("instruction_fingerprint", JStr (cr_instruction_fingerprint self))].

(** [generation_terminal_values] and [semantic_terminal_values]: the values of the inserted rows. *)
Definition generation_row (self : GenerationCompletion) (candidate : option (string * json))
    : GenerationRow :=
  mk_GenerationRow (gc_execution_id self) (gc_invocation_id self) (gc_case_id self)
    (gc_slot_ordinal self) (gc_execution_ordinal self) (fst <$> candidate)
    (optional_json (snd <$> candidate)) (generation_evidence self) (gc_raw_output self)
    (gc_normalized_output self).
Definition semantic_row (self : SemanticCompletion) (result : option json) : SemanticRow :=
  mk_SemanticRow (sc_execution_id self) (sc_invocation_id self) (sc_candidate_id self)
    (sc_execution_ordinal self) (semantic_evidence self) (optional_json result)
    (sc_raw_output self) (sc_normalized_output self).

(** ** The round trip *)

(** The parts of a completion that a process holds: validated objects and times of the calendar. *)
Definition whole_failure (f : ClassifiedFailure) : Prop :=
  constructed f ∧ from_option constructed True (cf_provider_diagnostics f).
Definition whole_evidence (receipt : option ProviderReceipt) (failure : option ClassifiedFailure)
    (started finished : datetime) : Prop :=
  from_option constructed True receipt ∧ from_option whole_failure True failure ∧
  printable_time started = true ∧ printable_time finished = true.

Lemma bool_field_dict l k b : assoc k l = Some (JBool b) → bool_field (JObj l) k = Ok b.
Proof. intros Hk. unfold bool_field. by rewrite (json_item_dict _ _ _ Hk). Qed.
Lemma text_default_dict l k d s : assoc k l = Some (JStr s) → text_default (JObj l) k d = Ok s.
Proof. intros Hk. unfold text_default, json_get_default. by rewrite Hk. Qed.
Lemma optional_int_field_dict l k o :
  assoc k l = Some (json_opt_int o) → optional_int_field (JObj l) k = Ok o.
Proof. intros Hk. unfold optional_int_field. rewrite (json_item_dict _ _ _ Hk). by destruct o. Qed.
Lemma text_items s : mapM text_item (JStr <$> s) = Ok s.
Proof. apply mapM_Ok. induction s; constructor; done. Qed.
Lemma texts_field_dict l k s : assoc k l = Some (texts s) → texts_field (JObj l) k = Ok s.
Proof.
  intros Hk. unfold texts_field. rewrite (json_item_dict _ _ _ Hk). apply text_items.
Qed.
Lemma iso_item_dict l k t :
  assoc k l = Some (time_json t) → printable_time t = true → iso_item (JObj l) k = Ok t.
Proof.
  intros Hk Ht. unfold iso_item, time_json in *. rewrite (json_item_dict _ _ _ Hk). cbn.
  by apply fromisoformat_isoformat.
Qed.
Lemma json_get_dict l k v : assoc k l = Some v → json_get (JObj l) k = Ok v.
Proof. intros Hk. unfold json_get. by rewrite Hk. Qed.

Lemma json_get_absent l k : assoc k l = None → json_get (JObj l) k = Ok JNull.
Proof. intros Hk. unfold json_get. by rewrite Hk. Qed.
Lemma named_dict parameters l :
  forallb (λ k, bool_decide (k ∈ parameters)) l.*1 = true → named parameters (JObj l) = Ok tt.
Proof. intros H. unfold named. by rewrite H. Qed.

Lemma unless_null_optional {A} (decode : json → res A) (f : A → json) (o : option A) :
  (∀ x, o = Some x → decode (f x) = Ok x ∧ is_null (f x) = false) →
  unless_null decode (optional_json (f <$> o)) = Ok o.
Proof.
  destruct o as [x|]; [|done]. intros H. destruct (H x eq_refl) as [Hd Hn]. cbn.
  unfold unless_null. destruct (f x); cbn in *; by rewrite ?Hd.
Qed.

(** Reads every field of a written object. *)
Ltac read_fields :=
  erewrite ?named_dict, ?json_item_dict, ?json_get_dict, ?json_get_absent, ?text_field_dict,
    ?int_field_dict, ?bool_field_dict, ?text_default_dict, ?optional_int_field_dict,
    ?texts_field_dict by reflexivity.
Ltac reconstruct :=
  cbn -[post_init]; unfold construct;
  match goal with H : constructed _ |- _ => unfold constructed in H; rewrite H; cbn [mbind res_bind] end.

Lemma decode_identity_dict i : decode_identity (identity_definition i) = Ok i.
Proof. unfold decode_identity, identity_definition. read_fields. by destruct i. Qed.

Lemma decode_receipt_definition r : constructed r → decode_receipt (receipt_definition r) = Ok r.
Proof.
  intros Hr. unfold decode_receipt, receipt_definition.
  destruct r as [a b c d e f g [i|]]; cbn [pr_execution_identity]; read_fields.
  - cbn [mbind res_bind].
    change (identity_definition i) with (optional_json (identity_definition <$> Some i)).
    rewrite unless_null_optional by (intros ? [= <-]; by rewrite decode_identity_dict).
    by reconstruct.
  - by reconstruct.
Qed.

Lemma decode_diagnostics_dict d : constructed d → decode_diagnostics (diagnostics_dict d) = Ok d.
Proof.
  intros Hd. unfold decode_diagnostics, diagnostics_dict. read_fields. destruct d. by reconstruct.
Qed.

Lemma decode_failure_dict f : whole_failure f → decode_failure (failure_dict f) = Ok f.
Proof.
  intros [Hf Hd]. unfold decode_failure, failure_dict. read_fields.
  cbn [mbind res_bind]. rewrite unless_null_optional.
  - destruct f. by reconstruct.
  - intros d Hs. rewrite Hs in Hd. by rewrite decode_diagnostics_dict.
Qed.

Lemma decode_optional_receipt o :
  from_option constructed True o →
  unless_null decode_receipt (optional_json (receipt_definition <$> o)) = Ok o.
Proof.
  intros Ho. apply unless_null_optional. intros r ->. by rewrite decode_receipt_definition.
Qed.
Lemma decode_optional_failure o :
  from_option whole_failure True o →
  unless_null decode_failure (optional_json (failure_dict <$> o)) = Ok o.
Proof. intros Ho. apply unless_null_optional. intros f ->. by rewrite decode_failure_dict. Qed.

(** C33: The evidence of a generation survives its storage: the row that is inserted for a completion,
    with or without a candidate, decodes to that completion. *)
Theorem generation_record_round_trip g candidate :
  constructed g → whole_evidence (gc_receipt g) (gc_failure g) (gc_started_at g) (gc_finished_at g) →
  decode_completion (generation_row g candidate) = Ok g.
Proof.
  intros Hg (Hr & Hf & Hs & He). unfold decode_completion. cbn [gr_evidence_json generation_row].
  unfold generation_evidence. erewrite !iso_item_dict by (reflexivity || assumption).
  read_fields. cbn [mbind res_bind]. rewrite decode_optional_receipt by done.
  cbn [mbind res_bind]. rewrite decode_optional_failure by done. destruct g. reconstruct.
  by rewrite bool_decide_eq_true_2.
Qed.

(** The same for a judgement, whose output is bound by its fingerprint. *)
Lemma semantic_record_round_trip s result :
  constructed s → whole_evidence (sc_receipt s) (sc_failure s) (sc_started_at s) (sc_finished_at s) →
  decode_semantic_completion (semantic_row s result) = Ok s.
Proof.
  intros Hs (Hr & Hf & Hb & He). unfold decode_semantic_completion.
  cbn [sr_evidence_json semantic_row]. unfold semantic_evidence.
  erewrite !iso_item_dict by (reflexivity || assumption).
  read_fields. cbn [mbind res_bind]. rewrite decode_optional_receipt by done.
  cbn [mbind res_bind]. rewrite decode_optional_failure by done. destruct s. reconstruct.
  unfold output_fingerprint. cbn -[fingerprint_of]. by rewrite !bool_decide_eq_true_2.
Qed.

Lemma decode_resolution_dict r :
  constructed r → printable_time (ru_resolved_at r) = true →
  decode_resolution (resolution_dict r) = Ok r.
Proof.
  intros Hr Ht. unfold decode_resolution, resolution_dict.
  erewrite !iso_item_dict by (reflexivity || assumption). read_fields. destruct r. by reconstruct.
Qed.
Lemma decode_recovery_dict r :
  constructed r → printable_time (cr_resolved_at r) = true →
  decode_recovery (recovery_dict r) = Ok r.
Proof.
  intros Hr Ht. unfold decode_recovery, recovery_dict.
  erewrite !iso_item_dict by (reflexivity || assumption). read_fields. destruct r. by reconstruct.
Qed.
