(* ===== verification/Publication.v ===== *)
(** * Publication: release selection and the pointer of a selector

    Models [src/src/qs_ai/domain/governance/publication.py] with the assets it freezes:
    [manifest.py] and [profile.py] of the same directory and
    [src/src/qs_ai/domain/evaluation/identity.py].  A pointer is moved by a change that carries an
    audit; a participant's query resolves to the most specific active publication. *)
From Stdlib Require Import Ascii.
From S2P Require Import Prelude PyText PyUuid PyTime PyHash PyNum PyJson Gates Scenes.

Local Open Scope string_scope.
Local Open Scope Z_scope.
Local Open Scope py_scope.

(** ** manifest.py *)

Record AssetReference : Type := mk_AssetReference {
  as_identity : string;
  as_version : string;
  as_fingerprint : string;
  as_content_sha256 : string;
}.
#[export] Instance AssetReference_eq_dec : EqDecision AssetReference.
Proof. solve_decision. Defined.

#[export] Instance AssetReference_post_init : Validated AssetReference := λ self,
  raise_if (negb (nonempty (strip (as_identity self))) || (255 <? str_len (as_identity self)))
    (ValueError "Invalid asset identity") ;;
  raise_if (negb (version_re (as_version self))) (ValueError "Invalid asset version") ;;
  raise_if (negb (sha_re (as_fingerprint self))) (ValueError "Invalid source fingerprint") ;;
  raise_if (negb (hex64_re (as_content_sha256 self))) (ValueError "Invalid asset checksum").

Record GenerationManifest : Type := mk_GenerationManifest {
  m_profile : AssetReference;
  m_prompt : AssetReference;
  m_generation_route : AssetReference;
  m_input_schema : AssetReference;
  m_output_schema : AssetReference;
}.
#[export] Instance GenerationManifest_eq_dec : EqDecision GenerationManifest.
Proof. solve_decision. Defined.

Definition asset_dict (a : AssetReference) : json :=
  JObj [("identity", JStr (as_identity a)); ("version", JStr (as_version a));
        ("fingerprint", JStr (as_fingerprint a)); ("content_sha256", JStr (as_content_sha256 a))].

Definition manifest_json (self : GenerationManifest) : res string :=
  dumps_with compact_sorted
    (JObj [("schema_version", JStr "qs-ai-generation-manifest/v1");
           ("profile", asset_dict (m_profile self));
           ("prompt", asset_dict (m_prompt self));
           ("generation_route", asset_dict (m_generation_route self));
           ("input_schema", asset_dict (m_input_schema self));
           ("output_schema", asset_dict (m_output_schema self))]).
Definition manifest_fingerprint (self : GenerationManifest) : res string :=
  fingerprint_of <$> manifest_json self.

(** ** profile.py *)

Record ProfileAsset : Type := mk_ProfileAsset {
  p_profile_id : string;
  p_version : string;
  p_fingerprint : string;
  p_definition_json : string;
}.
#[export] Instance ProfileAsset_eq_dec : EqDecision ProfileAsset.
Proof. solve_decision. Defined.

#[export] Instance ProfileAsset_post_init : Validated ProfileAsset := λ self,
  raise_if (negb (nonempty (strip (p_profile_id self))) || (255 <? str_len (p_profile_id self)))
    (ValueError "Invalid Profile identity") ;;
  raise_if (negb (version_re (p_version self))) (ValueError "Invalid Profile version") ;;
  raise_if (131072 <? byte_len (p_definition_json self))
    (ValueError "Profile definition exceeds limit") ;;
  definition ← loads (p_definition_json self);
  raise_ifM (Ok (negb (is_dict definition))
             <orM> (i ← json_get definition "profile_id";
                    v ← json_get definition "version";
                    Ok (negb (json_eqb i (JStr (p_profile_id self))
                              && json_eqb v (JStr (p_version self))))))
    (ValueError "Profile definition identity mismatch") ;;
  raise_if (p_fingerprint self != fingerprint_of (p_definition_json self))
    (ValueError "Profile fingerprint mismatch").

(** ** identity.py *)

Record FrozenContractRef : Type := mk_FrozenContractRef {
  f_id : string;
  f_version : string;
  f_fingerprint : string;
}.
#[export] Instance FrozenContractRef_eq_dec : EqDecision FrozenContractRef.
Proof. solve_decision. Defined.

#[export] Instance FrozenContractRef_post_init : Validated FrozenContractRef := λ self,
  raise_if (negb (valid_id (f_id self))) (ValueError "Invalid frozen contract id") ;;
  raise_if (negb (version_re (f_version self))) (ValueError "Invalid frozen contract version") ;;
  raise_if (negb (sha_re (f_fingerprint self))) (ValueError "Invalid frozen contract fingerprint").

Definition matches_document (self : FrozenContractRef) (definition_json : string) : res bool :=
  document ← loads definition_json;
  ((λ x, json_eqb x (JStr (f_id self))) <$> json_get document "policy_id")
  <andM> ((λ x, json_eqb x (JStr (f_version self))) <$> json_get document "version")
  <andM> Ok (fingerprint_of definition_json == f_fingerprint self).

Record EvidenceReleaseIdentity : Type := mk_EvidenceReleaseIdentity {
  er_suite : FrozenContractRef;
  er_prompt : FrozenContractRef;
  er_profile : FrozenContractRef;
  er_input_schema : FrozenContractRef;
  er_output_schema : FrozenContractRef;
  er_generation_route : FrozenContractRef;
  er_semantic_prompt : FrozenContractRef;
  er_semantic_output_schema : FrozenContractRef;
  er_semantic_route : FrozenContractRef;
  er_execution_policy : FrozenContractRef;
  er_gate_policy : FrozenContractRef;
}.
#[export] Instance EvidenceReleaseIdentity_eq_dec : EqDecision EvidenceReleaseIdentity.
Proof. solve_decision. Defined.

Definition ref_dict (r : FrozenContractRef) : json :=
  JObj [("id", JStr (f_id r)); ("version", JStr (f_version r));
        ("fingerprint", JStr (f_fingerprint r))].

(** The fields in the order of their names; the references keep their field order. *)
Definition release_fields (self : EvidenceReleaseIdentity) : list (string * FrozenContractRef) :=
  [("execution_policy", er_execution_policy self); ("gate_policy", er_gate_policy self);
   ("generation_route", er_generation_route self); ("input_schema", er_input_schema self);
   ("output_schema", er_output_schema self); ("profile", er_profile self);
   ("prompt", er_prompt self); ("semantic_output_schema", er_semantic_output_schema self);
   ("semantic_prompt", er_semantic_prompt self); ("semantic_route", er_semantic_route self);
   ("suite", er_suite self)].
Definition release_json (self : EvidenceReleaseIdentity) : res string :=
  dumps_with compact (JObj ((λ kv, (kv.1, ref_dict kv.2)) <$> release_fields self)).
Definition release_fingerprint (self : EvidenceReleaseIdentity) : res string :=
  fingerprint_of <$> release_json self.

Definition validate_frozen_policies (self : EvidenceReleaseIdentity)
    (execution_json gate_json : string) : res unit :=
  raise_ifM (negM (matches_document (er_execution_policy self) execution_json)
             <orM> negM (matches_document (er_gate_policy self) gate_json))
    (ValueError "Frozen policy documents do not match release identity").

(** ** Selectors *)

Definition valid_version (value : Z) (initial : bool) : bool :=
  ((if initial then 0 else 1) <=? value) && (value <? 2 ^ 63).

Record ReleaseSelector : Type := mk_ReleaseSelector {
  audience : string;
  model_kind : string;
  decision_kind : string;
  model_code : option string;
  model_version : option string;
}.
#[export] Instance ReleaseSelector_eq_dec : EqDecision ReleaseSelector.
Proof. solve_decision. Defined.

Definition kinds (self : ReleaseSelector) : string * string * string :=
  (audience self, model_kind self, decision_kind self).

#[export] Instance ReleaseSelector_post_init : Validated ReleaseSelector := λ self,
  raise_if ((kinds self != ("participant", "scale", "score_range"))
            && negb (is_mbti_selector (audience self) (model_kind self) (decision_kind self)
                       (model_code self) (model_version self)))
    (ValueError "Unsupported existing Profile selector") ;;
  raise_if (match model_code self with
            | Some code => negb (nonempty (strip code)) || (255 <? byte_len code)
            | None => false
            end)
    (ValueError "Invalid selector model code") ;;
  raise_if (match model_version self with
            | Some version => is_none (model_code self) || negb (version_re version)
            | None => false
            end)
    (ValueError "Selector version requires a model code").

(** [dataclasses.replace] builds a new value, which is checked again. *)
Definition with_model (self : ReleaseSelector) (code version : option string)
    : res ReleaseSelector :=
  construct (mk_ReleaseSelector (audience self) (model_kind self) (decision_kind self) code version).

(** [tuple(dict.fromkeys(l))] *)
Fixpoint from_keys {A} `{EqDecision A} (seen l : list A) : list A :=
  match l with
  | [] => []
  | x :: l => if x is_in seen then from_keys seen l else x :: from_keys (x :: seen) l
  end.

Definition admission_candidates (self : ReleaseSelector) : res (list ReleaseSelector) :=
  if model_kind self == "typology" then Ok [self]
  else
    a ← with_model self (model_code self) None;
    b ← with_model self None None;
    Ok (from_keys [] [self; a; b]).

Definition specificity (self : ReleaseSelector) : Z :=
  if is_some (model_version self) then 2 else if is_some (model_code self) then 1 else 0.

Definition optional_str (v : option string) : json :=
  match v with Some s => JStr s | None => JNull end.
Definition selector_dict (self : ReleaseSelector) : json :=
  JObj [("audience", JStr (audience self)); ("model_kind", JStr (model_kind self));
        ("decision_kind", JStr (decision_kind self)); ("model_code", optional_str (model_code self));
        ("model_version", optional_str (model_version self))].
Definition selector_key (self : ReleaseSelector) : res string :=
  sha256_hex <$> dumps_with compact_sorted (selector_dict self).

Definition matches (self query : ReleaseSelector) : bool :=
  (kinds self == kinds query)
  && (is_none (model_code self) || (model_code self == model_code query))
  && (is_none (model_version self) || (model_version self == model_version query)).

(** [ReleaseSelector( **v )] of a decoded value: a keyword that is missing or unknown is a
    [TypeError], a field of another type fails the check it takes part in. *)
Definition text_of (v : json) : option string := match v with JStr s => Some s | _ => None end.
Definition optional_text_of (e : exn) (v : json) : res (option string) :=
  match v with JNull => Ok None | JStr s => Ok (Some s) | _ => Err e end.

Definition selector_of (v : json) : res ReleaseSelector :=
  match v with
  | JObj d =>
    raise_if (negb (forallb (λ k, k is_in ["audience"; "model_kind"; "decision_kind"; "model_code";
                                           "model_version"]) d.*1))
      TypeError ;;
    match assoc "audience" d, assoc "model_kind" d, assoc "decision_kind" d with
    | Some a, Some k, Some x =>
      match text_of a, text_of k, text_of x with
      | Some a, Some k, Some x =>
        let unsupported := ValueError "Unsupported existing Profile selector" in
        let scale := (a, k, x) == ("participant", "scale", "score_range") in
        code ← optional_text_of
                 (if scale then ValueError "Invalid selector model code" else unsupported)
                 (default JNull (assoc "model_code" d));
        raise_if (negb scale && is_none (text_of (default JNull (assoc "model_version" d))))
          unsupported ;;
        raise_if (match code with
                  | Some c => scale && (negb (nonempty (strip c)) || (255 <? byte_len c))
                  | None => false
                  end)
          (ValueError "Invalid selector model code") ;;
        version ← optional_text_of (ValueError "Selector version requires a model code")
                    (default JNull (assoc "model_version" d));
        construct (mk_ReleaseSelector a k x code version)
      | _, _, _ => Err (ValueError "Unsupported existing Profile selector")
      end
    | _, _, _ => Err TypeError
    end
  | _ => Err TypeError
  end.

(** ** Evidence and audits *)

(** [int(actor.removeprefix("user:"))] of [user:[1-9][0-9]{0,18}]. *)
Definition actor_digits (actor : string) : list ascii :=
  drop 5 (String.list_ascii_of_string actor).
Definition user_actor (actor : string) : bool :=
  String.prefix "user:" actor &&
  match actor_digits actor with
  | c :: l => in_range "1" "9" c && forallb digit l && Nat.leb (length l) 18
  | [] => false
  end
  && (decimal_value ((λ c, N_of_ascii c - 48)%N <$> actor_digits actor) <? 2 ^ 63).

Record PublicationAudit : Type := mk_PublicationAudit {
  pa_actor : string;
  pa_reason : string;
  pa_at : datetime;
}.
#[export] Instance PublicationAudit_eq_dec : EqDecision PublicationAudit.
Proof. solve_decision. Defined.

#[export] Instance PublicationAudit_post_init : Validated PublicationAudit := λ self,
  raise_if (negb (user_actor (pa_actor self))
            || negb (nonempty (strip (pa_reason self)))
            || (1000 <? byte_len (pa_reason self))
            || any_char angle_brackets (pa_reason self)
            || negb (aware (pa_at self)))
    (ValueError "Trusted publication audit required").

(** [==] of audits: times compare by their instant. *)
Definition audit_eqb (a b : PublicationAudit) : bool :=
  (pa_actor a == pa_actor b) && (pa_reason a == pa_reason b) && dt_eqb (pa_at a) (pa_at b).

Record PublicationEvidence : Type := mk_PublicationEvidence {
  pe_profile : ProfileAsset;
  pe_manifest : GenerationManifest;
  pe_release : EvidenceReleaseIdentity;
  pe_run_id : Z;
  pe_run_version : Z;
  pe_final_review : FinalReview;
  pe_evaluated_manifest_fingerprint : string;
}.
#[export] Instance FinalReview_eq_dec : EqDecision FinalReview.
Proof. solve_decision. Defined.
#[export] Instance PublicationEvidence_eq_dec : EqDecision PublicationEvidence.
Proof. solve_decision. Defined.

(** [f"{asset.identity}/{asset.version}"] *)
Definition versioned (a : AssetReference) : string := as_identity a ++ "/" ++ as_version a.

(** The assets of the manifest, the version the release names them by, and the release's
    reference. *)
Definition released_assets (m : GenerationManifest) (r : EvidenceReleaseIdentity)
    : list (AssetReference * string * FrozenContractRef) :=
  [(m_profile m, as_version (m_profile m), er_profile r);
   (m_prompt m, as_version (m_prompt m), er_prompt r);
   (m_generation_route m, as_version (m_generation_route m), er_generation_route r);
   (m_input_schema m, versioned (m_input_schema m), er_input_schema r);
   (m_output_schema m, versioned (m_output_schema m), er_output_schema r)].

Definition check_released (x : AssetReference * string * FrozenContractRef) : res unit :=
  let '(asset, version, ref) := x in
  expected ← construct (mk_FrozenContractRef (as_identity asset) version (as_fingerprint asset));
  raise_if (ref != expected)
    (ValueError "Published generation assets differ from evaluated release").

Definition expected_policy (m : GenerationManifest) : list (string * string) :=
  [("prompt_template_id", as_identity (m_prompt m)); ("prompt_version", as_version (m_prompt m));
   ("provider_route", as_identity (m_generation_route m));
   ("input_schema_version", versioned (m_input_schema m));
   ("output_schema_version", versioned (m_output_schema m))].

(** The property [selector] of the evidence. *)
Definition evidence_selector (self : PublicationEvidence) : res ReleaseSelector :=
  definition ← loads (p_definition_json (pe_profile self));
  s ← json_item definition "selector";
  selector_of s.

#[export] Instance PublicationEvidence_post_init : Validated PublicationEvidence := λ self,
  let manifest := pe_manifest self in
  let profile := pe_profile self in
  raise_if ((pe_run_id self == 0) || negb (valid_version (pe_run_version self) false)
            || negb (fr_passed (pe_final_review self)))
    (ValueError "Final approved evaluation required") ;;
  fingerprint ← manifest_fingerprint manifest;
  raise_if (pe_evaluated_manifest_fingerprint self != fingerprint)
    (ValueError "Publication bytes differ from the evaluated manifest") ;;
  foldM (λ _ x, check_released x) tt (released_assets manifest (pe_release self)) ;;
  raise_if ((as_identity (m_profile manifest) != p_profile_id profile)
            || (as_version (m_profile manifest) != p_version profile)
            || (as_fingerprint (m_profile manifest) != p_fingerprint profile)
            || (as_content_sha256 (m_profile manifest) != sha256_hex (p_definition_json profile)))
    (ValueError "Publication Profile differs from immutable content") ;;
  definition ← loads (p_definition_json profile);
  policy ← json_item definition "generation_policy";
  raise_ifM (anyM (λ kv, v ← json_get policy kv.1; Ok (negb (json_eqb v (JStr kv.2))))
               (expected_policy manifest))
    (ValueError "Publication Profile policy differs from evaluated generation assets") ;;
  s ← json_item definition "selector";
  selector_of s ;;
  Ok tt.

Record PublishedConfiguration : Type := mk_PublishedConfiguration {
  pu_publication_id : Z;
  pu_evidence : PublicationEvidence;
  pu_audit : PublicationAudit;
}.
#[export] Instance PublishedConfiguration_eq_dec : EqDecision PublishedConfiguration.
Proof. solve_decision. Defined.

#[export] Instance PublishedConfiguration_post_init : Validated PublishedConfiguration := λ self,
  raise_if (pu_publication_id self == 0) (ValueError "Publication identity required") ;;
  raise_ifM (dt_lt (pa_at (pu_audit self)) (fr_finalized_at (pe_final_review (pu_evidence self))))
    (ValueError "Publication predates final approval").

(** ** The pointer *)

Record PublicationPointer : Type := mk_PublicationPointer {
  pp_selector : ReleaseSelector;
  pp_version : Z;
  pp_active : option PublishedConfiguration;
  pp_changed_at : option datetime;
}.
#[export] Instance PublicationPointer_eq_dec : EqDecision PublicationPointer.
Proof. solve_decision. Defined.

Definition initial_pointer (selector : ReleaseSelector) : PublicationPointer :=
  mk_PublicationPointer selector 0 None None.

#[export] Instance PublicationPointer_post_init : Validated PublicationPointer := λ self,
  raise_if (negb (valid_version (pp_version self) true))
    (ValueError "Invalid publication pointer version") ;;
  (if pp_version self == 0 then
     raise_if (is_some (pp_active self) || is_some (pp_changed_at self))
       (ValueError "Initial publication pointer must be empty")
   else
     raise_if (match pp_changed_at self with Some t => negb (aware t) | None => true end)
       (ValueError "Pointer change time required")) ;;
  match pp_active self with
  | None => Ok tt
  | Some active =>
    raise_ifM (((λ s, s != pp_selector self) <$> evidence_selector (pu_evidence active))
               <orM> match pp_changed_at self with
                     | None => Ok true
                     | Some t => dt_lt t (pa_at (pu_audit active))
                     end)
      (ValueError "Active publication differs from selector or pointer time")
  end.

Record PublicationChange : Type := mk_PublicationChange {
  pc_previous : PublicationPointer;
  pc_current : PublicationPointer;
  pc_action : string;
  pc_audit : PublicationAudit;
}.
#[export] Instance PublicationChange_eq_dec : EqDecision PublicationChange.
Proof. solve_decision. Defined.

Definition active_id (pointer : PublicationPointer) : option Z :=
  pu_publication_id <$> pp_active pointer.

(** The guards of an action on its target. *)
Definition check_target (pointer : PublicationPointer) (target : option PublishedConfiguration)
    (action : string) (audit : PublicationAudit) : res unit :=
  if action == "disable" then
    raise_if (is_some target || is_none (pp_active pointer))
      (PublicationConflict "Disable requires an active publication")
  else if action is_in ["publish"; "rollback"] then
    match target with
    | None => Err (PublicationConflict "Publication must occupy the same selector slot")
    | Some target =>
      s ← evidence_selector (pu_evidence target);
      raise_if (s != pp_selector pointer)
        (PublicationConflict "Publication must occupy the same selector slot") ;;
      raise_if (Some (pu_publication_id target) == active_id pointer)
        (PublicationConflict "Publication already active") ;;
      raise_if ((action == "publish") && negb (audit_eqb (pu_audit target) audit))
        (ValueError "New publication and pointer require the same audit") ;;
      raise_ifM (Ok (action == "rollback")
                 <andM> (Ok (pp_version pointer == 0)
                         <orM> dt_gt (pa_at (pu_audit target)) (pa_at audit)))
        (ValueError "Rollback requires a previously published target")
    end
  else Err (ValueError "Unknown publication operation").

Definition change_publication (pointer : PublicationPointer)
    (target : option PublishedConfiguration) (action : string) (audit : PublicationAudit)
    (expected_version : Z) (expected_active_id : option Z) : res PublicationChange :=
  raise_if (negb (valid_version expected_version true)
            || (pp_version pointer != expected_version)
            || (active_id pointer != expected_active_id)
            || (pp_version pointer == (2 ^ 63 - 1)))
    (PublicationConflict "Current publication changed; refresh before confirming") ;;
  raise_ifM (match pp_changed_at pointer with
             | Some t => dt_lt (pa_at audit) t | None => Ok false end)
    (ValueError "Publication change predates previous change") ;;
  check_target pointer target action audit ;;
  updated ← construct (mk_PublicationPointer (pp_selector pointer) (pp_version pointer + 1) target
                         (Some (pa_at audit)));
  Ok (mk_PublicationChange pointer updated action audit).

(** [max(p.selector.specificity for p in candidates)] *)
Definition highest (candidates : list PublicationPointer) : Z :=
  foldr (λ p m, Z.max (specificity (pp_selector p)) m) 0 candidates.

Definition resolve_publication (pointers : list PublicationPointer) (query : ReleaseSelector)
    : res (option PublishedConfiguration) :=
  let candidates :=
    filter (λ p, is_some (pp_active p) && matches (pp_selector p) query = true) pointers in
  match candidates with
  | [] => Ok None
  | _ =>
    match filter (λ p, specificity (pp_selector p) = highest candidates) candidates with
    | [selected] => Ok (pp_active selected)
    | _ => Err (PublicationConflict "Ambiguous published Profile selector")
    end
  end.
Local Close Scope py_scope.

(** ** Selectors that match a query *)

Lemma constructed_selector s :
  constructed s ↔
  (kinds s = ("participant", "scale", "score_range") ∨
   is_mbti_selector (audience s) (model_kind s) (decision_kind s) (model_code s) (model_version s)
   = true) ∧
  (∀ code, model_code s = Some code →
     nonempty (strip code) = true ∧ byte_len code <= 255) ∧
  (∀ version, model_version s = Some version →
     (∃ code, model_code s = Some code) ∧ version_re version = true).
Proof.
  unfold constructed, post_init, ReleaseSelector_post_init.
  rewrite !bind_Ok_unit, !raise_if_Ok, andb_false_iff, !negb_false_iff, bool_decide_eq_true.
  split.
  - intros (Hk & Hc & Hv). split; [done|]. split.
    + intros code Hcode. rewrite Hcode in Hc.
      apply orb_false_iff in Hc as [Hc%negb_false_iff Hb%Z.ltb_ge]. done.
    + intros version Hver. rewrite Hver in Hv.
      apply orb_false_iff in Hv as [Hv%is_none_false Hr%negb_false_iff]. done.
  - intros (Hk & Hc & Hv). split; [done|]. split.
    + destruct (model_code s) as [code|]; [|done]. destruct (Hc code eq_refl) as [-> Hb].
      cbn. by apply Z.ltb_ge.
    + destruct (model_version s) as [version|]; [|done].
      destruct (Hv version eq_refl) as [[code ->] ->]. done.
Qed.

Lemma mbti_selector_Some a k d code version :
  is_mbti_selector a k d code version = true →
  (a, k, d) = ("participant", "typology", "pole_composition") ∧
  is_Some code ∧ is_Some version.
Proof.
  unfold is_mbti_selector, mbti_model_contract. intros [Hk Hm]%andb_true_iff.
  apply bool_decide_eq_true in Hk. split; [done|].
  case_bool_decide as H1; [injection H1 as -> ->; eauto|].
  case_bool_decide as H2; [injection H2 as -> ->; eauto|done].
Qed.

(** A selector that matches a query is told by how specific it is. *)
Lemma matches_specificity s1 s2 q :
  constructed s1 → constructed s2 → matches s1 q = true → matches s2 q = true →
  specificity s1 = specificity s2 → s1 = s2.
Proof.
  intros (_ & _ & Hv1)%constructed_selector (_ & _ & Hv2)%constructed_selector.
  unfold matches, specificity. intros H1 H2 Hs.
  repeat match goal with H : _ && _ = true |- _ => apply andb_true_iff in H as [? ?] end.
  destruct s1 as [a1 k1 d1 c1 v1], s2 as [a2 k2 d2 c2 v2], q as [a k d c v]. unfold kinds in *.
  cbn in *. bool_inv.
  repeat match goal with H : _ || _ = true |- _ => apply orb_true_iff in H end.
  destruct v1 as [v1|]; [destruct (Hv1 v1 eq_refl) as [[x1 ->] _]|];
  (destruct v2 as [v2|]; [destruct (Hv2 v2 eq_refl) as [[x2 ->] _]|]); cbn in *;
  try destruct c1; try destruct c2; cbn in *; try done;
  repeat match goal with
  | H : _ ∨ _ |- _ => destruct H as [H|H]; [discriminate H|]; apply bool_decide_eq_true in H
  end; simplify_eq; congruence.
Qed.

(** The pointers that could answer a query. *)
Definition answers_query (query : ReleaseSelector) (p : PublicationPointer) : Prop :=
  is_Some (pp_active p) ∧ matches (pp_selector p) query = true.

Definition candidates_of (pointers : list PublicationPointer) (query : ReleaseSelector)
    : list PublicationPointer :=
  filter (λ p, is_some (pp_active p) && matches (pp_selector p) query = true) pointers.

Lemma candidates_elem pointers query p :
  p ∈ candidates_of pointers query ↔ p ∈ pointers ∧ answers_query query p.
Proof.
  unfold candidates_of, answers_query. rewrite list_elem_of_filter, andb_true_iff, is_some_true.
  unfold is_Some. tauto.
Qed.

Lemma specificity_bounds s : 0 <= specificity s <= 2.
Proof. unfold specificity. destruct (model_version s), (model_code s); cbn; lia. Qed.

Lemma highest_max l p : p ∈ l → specificity (pp_selector p) <= highest l.
Proof.
  induction l as [|x l IH]; [by intros ?%not_elem_of_nil|].
  intros [->|Hp]%elem_of_cons; cbn; [lia|]. specialize (IH Hp). unfold highest in IH. lia.
Qed.

Lemma highest_attained l : l ≠ [] → ∃ p, p ∈ l ∧ specificity (pp_selector p) = highest l.
Proof.
  induction l as [|x l IH]; [done|]. intros _. cbn. pose proof (specificity_bounds (pp_selector x)).
  destruct l as [|y l].
  - exists x. split; [left|]. cbn. lia.
  - destruct IH as (p & Hp & Hm); [done|]. unfold highest in Hm.
    destruct (Z.max_spec (specificity (pp_selector x))
      (foldr (λ p m, Z.max (specificity (pp_selector p)) m) 0 (y :: l))) as [[_ ->]|[_ ->]].
    + exists p. split; [by right|done].
    + exists x. split; [left|done].
Qed.

(** A list whose elements share a key that is never repeated is one element. *)
Lemma filter_singleton {A B} (f : A → B) (P : A → Prop) `{∀ x, Decision (P x)} l x :
  NoDup (f <$> l) → x ∈ l → P x → (∀ y, y ∈ l → P y → f y = f x) → filter P l = [x].
Proof.
  intros Hnd Hx HP Hone. apply elem_of_Permutation in Hx as [k Hk].
  assert (Hnil : filter P k = []).
  { destruct (filter P k) as [|y t] eqn:E; [done|].
    assert (y ∈ filter P k) as [HPy Hy]%list_elem_of_filter by (rewrite E; left).
    rewrite Hk in Hnd. cbn in Hnd. apply NoDup_cons in Hnd as [Hnin _]. destruct Hnin.
    rewrite <- (Hone y); [by apply list_elem_of_fmap_2|rewrite Hk; by right|done]. }
  apply Permutation_singleton_r. rewrite Hk, filter_cons, decide_True by done. by rewrite Hnil.
Qed.

Lemma NoDup_fmap_filter {A B} (f : A → B) (P : A → Prop) `{∀ x, Decision (P x)} l :
  NoDup (f <$> l) → NoDup (f <$> filter P l).
Proof.
  induction l as [|x l IH]; [done|]. cbn [fmap list_fmap]. intros [Hx Hl]%NoDup_cons.
  rewrite filter_cons. case_decide; [|by apply IH]. cbn. constructor; [|by apply IH].
  intros (y & Hy & [_ Hin]%list_elem_of_filter)%list_elem_of_fmap. apply Hx. rewrite Hy.
  by apply list_elem_of_fmap_2.
Qed.

(** The publication a query gets: of the only most specific active pointer that matches. *)
Definition most_specific (pointers : list PublicationPointer) (query : ReleaseSelector)
    (p : PublicationPointer) : Prop :=
  p ∈ pointers ∧ answers_query query p ∧
  ∀ p', p' ∈ pointers → answers_query query p' → p' ≠ p →
    specificity (pp_selector p') < specificity (pp_selector p).

Section resolution.
Context (pointers : list PublicationPointer) (query : ReleaseSelector).
Context (Hkeys : NoDup (pp_selector <$> pointers)).
Context (Hsel : ∀ p, p ∈ pointers → constructed (pp_selector p)).

Lemma same_selector p p' :
  p ∈ pointers → p' ∈ pointers → pp_selector p = pp_selector p' → p = p'.
Proof.
  intros [i Hi]%list_elem_of_lookup_1 [j Hj]%list_elem_of_lookup_1 Heq.
  assert (i = j) as ->.
  { eapply (NoDup_lookup _ i j (pp_selector p)); [exact Hkeys|..];
      rewrite list_lookup_fmap, ?Hi, ?Hj; cbn; congruence. }
  congruence.
Qed.

Lemma resolve_candidates :
  match candidates_of pointers query with
  | [] => resolve_publication pointers query = Ok None
  | _ => ∃ p, most_specific pointers query p ∧ resolve_publication pointers query = Ok (pp_active p)
  end.
Proof.
  unfold resolve_publication. fold (candidates_of pointers query).
  destruct (candidates_of pointers query) as [|c cs] eqn:Hc; [done|]. rewrite <- Hc.
  destruct (highest_attained (candidates_of pointers query)) as (p & Hp & Hm); [by rewrite Hc|].
  pose proof Hp as [Hin Ha]%candidates_elem. exists p. split.
  - split_and!; [done|done|]. intros p' Hin' Ha' Hne.
    assert (Hp' : p' ∈ candidates_of pointers query) by by apply candidates_elem.
    pose proof (highest_max _ _ Hp') as Hle.
    enough (specificity (pp_selector p') ≠ specificity (pp_selector p)) by lia.
    intros Heq. apply Hne, same_selector; [done..|].
    by eapply matches_specificity; [apply Hsel|apply Hsel|apply Ha'|apply Ha|].
  - rewrite (filter_singleton pp_selector _ _ p); try done.
    + by apply NoDup_fmap_filter.
    + intros y Hy Hs. pose proof Hy as [Hiny Hay]%candidates_elem.
      eapply matches_specificity; [by apply Hsel|by apply Hsel|apply Hay|apply Ha|congruence].
Qed.
End resolution.

(** C30: A query is never ambiguous over a catalog that holds one pointer per selector: it resolves to
    the active publication of the one most specific matching selector, to nothing exactly when no
    active pointer matches, and the order of the catalog does not matter. *)
Theorem resolution_exact pointers query :
  NoDup (pp_selector <$> pointers) → (∀ p, p ∈ pointers → constructed (pp_selector p)) →
  (∃ o, resolve_publication pointers query = Ok o ∧
     match o with
     | None => ∀ p, p ∈ pointers → ¬ answers_query query p
     | Some publication => ∃ p, most_specific pointers query p ∧ pp_active p = Some publication
     end) ∧
  ∀ pointers', pointers ≡ₚ pointers' →
    resolve_publication pointers' query = resolve_publication pointers query.
Proof.
  intros Hkeys Hsel. split.
  - pose proof (resolve_candidates pointers query Hkeys Hsel) as Hr.
    destruct (candidates_of pointers query) as [|c cs] eqn:Hc.
    + exists None. split; [done|]. intros p Hp Ha.
      assert (p ∈ candidates_of pointers query) as Hin by by apply candidates_elem.
      rewrite Hc in Hin. by apply not_elem_of_nil in Hin.
    + destruct Hr as (p & Hp & ->). pose proof Hp as (_ & [[pub Hpub] _] & _).
      exists (Some pub). rewrite Hpub. split; [done|]. by exists p.
  - intros pointers' Hperm.
    pose proof (resolve_candidates pointers query Hkeys Hsel) as Hr.
    assert (Hkeys' : NoDup (pp_selector <$> pointers')) by by rewrite <- Hperm.
    assert (Hsel' : ∀ p, p ∈ pointers' → constructed (pp_selector p))
      by (intros p; rewrite <- Hperm; apply Hsel).
    pose proof (resolve_candidates pointers' query Hkeys' Hsel') as Hr'.
    assert (Hc : candidates_of pointers query ≡ₚ candidates_of pointers' query)
      by (unfold candidates_of; by rewrite Hperm).
    destruct (candidates_of pointers query) as [|c cs], (candidates_of pointers' query) as [|c' cs'].
    + congruence.
    + by apply Permutation_nil_l in Hc.
    + by apply Permutation_nil_r in Hc.
    + destruct Hr as (p & (Hin & Ha & Hbest) & ->), Hr' as (p' & (Hin' & Ha' & Hbest') & ->).
      rewrite <- Hperm in Hin'. destruct (decide (p' = p)) as [->|Hne]; [done|].
      specialize (Hbest p' Hin' Ha' Hne).
      specialize (Hbest' p ltac:(by rewrite <- Hperm) Ha ltac:(congruence)). lia.
Qed.

(** ** The rows a query needs *)

Lemma from_keys_elem {A} `{EqDecision A} (x : A) seen l :
  x ∈ from_keys seen l ↔ x ∈ l ∧ x ∉ seen.
Proof.
  revert seen; induction l as [|y l IH]; intros seen; cbn; [set_solver|].
  case_bool_decide as Hy.
  - rewrite IH. split; [set_solver|]. intros [[->|Hx]%elem_of_cons Hs]; [done|by split].
  - rewrite elem_of_cons, IH, not_elem_of_cons, elem_of_cons.
    destruct (decide (x = y)) as [->|]; naive_solver.
Qed.

Lemma matches_refl q : matches q q = true.
Proof. unfold matches. rewrite !bool_decide_eq_true_2 by done. by rewrite !orb_true_r. Qed.

Lemma matches_spec s q :
  matches s q = true ↔ kinds s = kinds q ∧
    (model_code s = None ∨ model_code s = model_code q) ∧
    (model_version s = None ∨ model_version s = model_version q).
Proof.
  unfold matches.
  rewrite !andb_true_iff, !orb_true_iff, !bool_decide_eq_true, !is_none_true. tauto.
Qed.

Definition scale_kinds : string * string * string := ("participant", "scale", "score_range").
Definition typology_kinds : string * string * string :=
  ("participant", "typology", "pole_composition").

Lemma constructed_kinds s :
  constructed s →
  kinds s = scale_kinds ∨
  kinds s = typology_kinds ∧ is_Some (model_code s) ∧ is_Some (model_version s).
Proof. intros [[Hk|Hm%mbti_selector_Some] _]%constructed_selector; [by left|by right]. Qed.

(** The candidates of a query are the selectors that match it. *)
Lemma admission_candidates_spec q :
  constructed q →
  ∃ cs, admission_candidates q = Ok cs ∧ ∀ s, constructed s → s ∈ cs ↔ matches s q = true.
Proof.
  intros Hq. pose proof Hq as Hq'. apply constructed_selector in Hq' as (_ & Hcode & Hver).
  unfold admission_candidates. destruct (constructed_kinds q Hq) as [Hk|(Hk & Hc & Hv)].
  - unfold kinds, scale_kinds in Hk. injection Hk as Ha Hm Hd.
    rewrite Hm, bool_decide_eq_false_2 by done.
    assert (H1 : constructed (mk_ReleaseSelector (audience q) (model_kind q) (decision_kind q)
                                (model_code q) None)).
    { apply constructed_selector. split; [left; unfold kinds; cbn; congruence|]. split; done. }
    assert (H2 : constructed (mk_ReleaseSelector (audience q) (model_kind q) (decision_kind q)
                                None None)).
    { apply constructed_selector. split; [left; unfold kinds; cbn; congruence|]. split; done. }
    unfold with_model, construct. rewrite H1, H2. cbn [mbind res_bind]. eexists. split; [done|].
    intros s Hs. rewrite from_keys_elem, !elem_of_cons, matches_spec.
    apply constructed_selector in Hs as (_ & _ & Hsv).
    destruct s as [a k d c v], q as [a' k' d' c' v']. unfold kinds in *. cbn in *. split.
    + intros [[Hs|[Hs|[Hs|Hs%not_elem_of_nil]]] _]; try done; injection Hs as -> -> -> -> ->;
        split_and!; auto.
    + intros ([= -> -> ->] & Hcs & Hvs). split; [|apply not_elem_of_nil].
      destruct v as [v|]; [|destruct Hcs as [->| ->]; auto].
      destruct (Hsv v eq_refl) as [[x ->] _]. destruct Hcs as [?| <-]; [done|].
      destruct Hvs as [?| <-]; [done|]. auto.
  - unfold kinds, typology_kinds in Hk. injection Hk as Ha Hm Hd.
    rewrite Hm, bool_decide_eq_true_2 by done. eexists. split; [done|].
    intros s Hs. rewrite list_elem_of_singleton, matches_spec. split; [intros ->; auto|].
    intros (Hks & Hcs & Hvs). destruct (constructed_kinds s Hs) as [Hk'|(_ & [c Hc'] & [v Hv'])].
    { rewrite Hks in Hk'. unfold kinds, scale_kinds in Hk'. rewrite Hm in Hk'. discriminate. }
    destruct s as [a k d c0 v0], q as [a' k' d' c' v']. unfold kinds in *. cbn in *. subst.
    destruct Hcs as [?|Hcs]; [done|]. destruct Hvs as [?|Hvs]; [done|]. congruence.
Qed.

(** Reading the rows of the query's own candidates is enough: over them the query resolves as
    over the whole catalog. *)
Theorem candidates_suffice pointers query :
  constructed query → (∀ p, p ∈ pointers → constructed (pp_selector p)) →
  ∃ cs, admission_candidates query = Ok cs ∧
    resolve_publication (filter (λ p, pp_selector p ∈ cs) pointers) query
    = resolve_publication pointers query.
Proof.
  intros Hq Hsel. destruct (admission_candidates_spec query Hq) as (cs & Hcs & Hin).
  exists cs. split; [done|]. unfold resolve_publication.
  assert (∀ l, (∀ p, p ∈ l → constructed (pp_selector p)) →
            candidates_of (filter (λ p, pp_selector p ∈ cs) l) query = candidates_of l query) as H.
  { clear Hsel. intros l. induction l as [|p l IH]; intros Hl; [done|].
    pose proof (Hin (pp_selector p) (Hl p ltac:(left))) as Hp. unfold candidates_of in *.
    rewrite filter_cons. case_decide as Hd.
    - rewrite !(filter_cons (λ p, _ = true)).
      by case_decide; rewrite IH by (intros; apply Hl; by right).
    - rewrite IH by (intros; apply Hl; by right). rewrite (filter_cons (λ p, _ = true)).
      rewrite decide_False; [done|]. intros [_ Hm]%andb_true_iff. by apply Hd, Hp. }
  specialize (H pointers Hsel). unfold candidates_of in H. by rewrite H.
Qed.

(** ** Changes *)

Lemma change_publication_Ok pointer target action audit version id c :
  change_publication pointer target action audit version id = Ok c →
  version = pp_version pointer ∧ id = active_id pointer ∧ pp_version pointer < 2 ^ 63 - 1 ∧
  check_target pointer target action audit = Ok tt ∧
  constructed (pc_current c) ∧
  c = mk_PublicationChange pointer
        (mk_PublicationPointer (pp_selector pointer) (pp_version pointer + 1) target
           (Some (pa_at audit))) action audit ∧
  ∀ t, pp_changed_at pointer = Some t → dt_lt (pa_at audit) t = Ok false.
Proof.
  unfold change_publication. intros Hc. ok_inv.
  match goal with H : construct _ = Ok _ |- _ => unfold construct in H end. ok_inv. bool_inv.
  subst version id.
  match goal with H : check_target _ _ _ _ = Ok ?u |- _ => destruct u end.
  split_and!; try done.
  - unfold valid_version in *. bool_inv. lia.
  - intros t Ht. by rewrite Ht in *.
Qed.

(** An accepted change of a pointer, by whoever, when. *)
Definition moved (p p' : PublicationPointer) : Prop :=
  ∃ target action audit version id c,
    change_publication p target action audit version id = Ok c ∧ p' = pc_current c.

Lemma moved_step p p' :
  moved p p' →
  constructed p' ∧ pp_selector p' = pp_selector p ∧ pp_version p' = pp_version p + 1 ∧
  (∃ t', pp_changed_at p' = Some t' ∧
     ∀ t, pp_changed_at p = Some t → dt_lt t' t = Ok false).
Proof.
  intros (target & action & audit & version & id & c & Hc & ->).
  apply change_publication_Ok in Hc as (_ & _ & _ & _ & Hcon & -> & Ht).
  cbn in *. split_and!; try done. eexists. by split.
Qed.

Lemma initial_constructed selector : constructed (initial_pointer selector).
Proof. done. Qed.

Lemma pointer_versions n p p' :
  nsteps moved n p p' → constructed p →
  constructed p' ∧ pp_selector p' = pp_selector p ∧ pp_version p' = pp_version p + Z.of_nat n.
Proof.
  induction 1 as [p|n p p' p'' Hm _ IH]; intros Hp; [split_and!; (done || lia)|].
  apply moved_step in Hm as (Hp' & Hs & Hv & _).
  destruct (IH Hp') as (Hp'' & Hs' & Hv'). split_and!; [done|congruence|lia].
Qed.

Lemma rtc_moved_version p p' : rtc moved p p' → pp_version p <= pp_version p'.
Proof.
  induction 1 as [p|p p' p'' Hm _ IH]; [done|]. apply moved_step in Hm as (_ & _ & Hv & _). lia.
Qed.

(** The active publication of a pointer Python could build. *)
Lemma active_pointer p publication :
  constructed p → pp_active p = Some publication →
  evidence_selector (pu_evidence publication) = Ok (pp_selector p) ∧
  ∃ t, pp_changed_at p = Some t ∧ dt_lt t (pa_at (pu_audit publication)) = Ok false.
Proof.
  unfold constructed, post_init, PublicationPointer_post_init. intros Hp Hact. rewrite Hact in Hp.
  ok_inv. bool_inv. destruct (pp_changed_at p) as [t|]; [|done]. subst. eauto.
Qed.

(** The pointer of a selector counts its changes: after [n] accepted publications, rollbacks and
    disables it is a value Python could build, still of its selector, at version [n], its active
    publication was evaluated for this selector and audited no later than the pointer changed,
    and each change is dated no earlier than the one before. *)
Theorem pointer_history selector n p p' :
  nsteps moved n (initial_pointer selector) p → moved p p' →
  constructed p ∧ pp_selector p = selector ∧ pp_version p = Z.of_nat n ∧
  (∀ publication, pp_active p = Some publication →
     evidence_selector (pu_evidence publication) = Ok selector ∧
     ∃ t, pp_changed_at p = Some t ∧ dt_lt t (pa_at (pu_audit publication)) = Ok false) ∧
  ∃ t', pp_changed_at p' = Some t' ∧ ∀ t, pp_changed_at p = Some t → dt_lt t' t = Ok false.
Proof.
  intros Hn Hm. apply pointer_versions in Hn as (Hp & Hs & Hv); [|apply initial_constructed].
  cbn in Hs, Hv. apply moved_step in Hm as (_ & _ & _ & Ht).
  split_and!; try done. intros publication Hact.
  destruct (active_pointer p publication Hp Hact) as [-> Hc]. by rewrite Hs.
Qed.

(** Two changes confirmed against the same version of a pointer never both happen: after one was
    accepted the other is refused as a conflict at every later pointer. *)
Theorem change_once p target action audit version id c p' target' action' audit' id' :
  change_publication p target action audit version id = Ok c → rtc moved (pc_current c) p' →
  change_publication p' target' action' audit' version id'
  = Err (PublicationConflict "Current publication changed; refresh before confirming").
Proof.
  intros Hc Hl%rtc_moved_version. apply change_publication_Ok in Hc as (-> & _ & _ & _ & _ & -> & _).
  cbn in Hl. unfold change_publication. rewrite (bool_decide_eq_false_2 (pp_version p' = _)) by lia.
  by rewrite orb_true_r.
Qed.

Lemma matches_le s q : matches s q = true → specificity s <= specificity q.
Proof.
  rewrite matches_spec. unfold specificity. intros (_ & [Hc|Hc] & [Hv|Hv]); rewrite ?Hc, ?Hv;
    destruct (model_version q), (model_code q); cbn; try lia;
    destruct (model_version s), (model_code s); cbn; lia.
Qed.

Local Open Scope list_scope.

(** C29: A change takes effect at the next query: in a catalog with one pointer per selector, after a
    publication or a rollback the selector's query resolves to exactly the target, and after a
    disable it resolves as if the pointer were not there, to the best of the less specific ones. *)
Theorem change_resolves l1 p l2 target action audit version id c :
  NoDup (pp_selector <$> l1 ++ p :: l2) →
  (∀ p', p' ∈ l1 ++ p :: l2 → constructed (pp_selector p')) →
  change_publication p target action audit version id = Ok c →
  resolve_publication (l1 ++ pc_current c :: l2) (pp_selector p)
  = match target with
    | Some publication => Ok (Some publication)
    | None => resolve_publication (l1 ++ l2) (pp_selector p)
    end.
Proof.
  intros Hkeys Hsel Hc. apply change_publication_Ok in Hc as (_ & _ & _ & _ & _ & -> & _).
  cbn [pc_current]. set (p' := mk_PublicationPointer _ _ _ _).
  assert (Heq : pp_selector <$> l1 ++ p' :: l2 = pp_selector <$> l1 ++ p :: l2)
    by by rewrite !fmap_app.
  destruct target as [publication|].
  - rewrite <- Heq in Hkeys.
    assert (Hsel' : ∀ x, x ∈ l1 ++ p' :: l2 → constructed (pp_selector x)).
    { intros x. rewrite elem_of_app, elem_of_cons. intros [Hx|[->|Hx]].
      - apply Hsel, elem_of_app. by left.
      - apply (Hsel p), elem_of_app. right. left.
      - apply Hsel, elem_of_app. right. by right. }
    pose proof (resolve_candidates _ (pp_selector p) Hkeys Hsel') as Hr.
    assert (Hin : p' ∈ l1 ++ p' :: l2) by (apply elem_of_app; right; left).
    assert (Ha : answers_query (pp_selector p) p') by (split; [by eexists|apply matches_refl]).
    assert (Hp' : p' ∈ candidates_of (l1 ++ p' :: l2) (pp_selector p)) by by apply candidates_elem.
    destruct (candidates_of _ _) as [|x xs]; [by apply not_elem_of_nil in Hp'|].
    destruct Hr as (m & (_ & [_ Hm] & Hbest) & ->).
    destruct (decide (p' = m)) as [<-|Hne]; [done|].
    specialize (Hbest p' Hin Ha Hne). apply matches_le in Hm. cbn in Hbest. lia.
  - unfold resolve_publication. rewrite !filter_app, filter_cons.
    by rewrite decide_False by done.
Qed.
