(* ===== verification/Policies.v ===== *)
(** * Policies: the frozen policies of an evaluation run

    Models the projections of
    [src/src/qs_ai/infrastructure/qs_server/evaluation_policies.py] and
    [src/src/qs_ai/infrastructure/persistence/mysql/evaluation_frozen_policies.py]: a policy is the
    bytes of its document, and its numbers are read from those bytes after their fingerprint was
    checked.  Reading the bundled files is left out.  A count that is a float or a boolean equal to
    the number the source compares it with is refused here; no release asset holds one. *)
From S2P Require Import Prelude PyText PyHash PyNum PyJson Failure Gates Publication.

Local Open Scope string_scope.
Local Open Scope Z_scope.
Local Open Scope py_scope.

Record FrozenPolicyDocument : Type := mk_FrozenPolicyDocument {
  fp_reference : FrozenContractRef;
  fp_definition_json : string;
}.
#[export] Instance FrozenPolicyDocument_eq_dec : EqDecision FrozenPolicyDocument.
Proof. solve_decision. Defined.

#[export] Instance ExecutionPolicy_eq_dec : EqDecision ExecutionPolicy.
Proof. solve_decision. Defined.

(** [(x["stage"], x["code"])] *)
Definition selector (x : json) : res (string * string) :=
  stage ← text_field x "stage"; code ← text_field x "code"; Ok (stage, code).
Definition selectors (recovery : json) (key : string) : res (gset (string * string)) :=
  v ← json_item recovery key;
  l ← iterate v;
  l ← mapM selector l;
  Ok (list_to_set l).

(** [d[k] is b] *)
Definition field_is (d : json) (key : string) (b : bool) : res bool :=
  v ← json_item d key; Ok (match v with JBool x => Bool.eqb x b | _ => false end).

Definition execution_policy (document : FrozenPolicyDocument) : res ExecutionPolicy :=
  raise_ifM (negM (matches_document (fp_reference document) (fp_definition_json document)))
    (ValueError "Execution policy fingerprint mismatch") ;;
  let raw := fp_definition_json document in
  definition ← loads raw;
  slot ← json_item definition "slot_policy";
  generation ← json_item definition "generation_budget";
  semantic ← json_item definition "semantic_budget";
  recovery ← json_item definition "recovery_policy";
  cases ← int_field slot "required_generation_cases";
  candidates ← int_field slot "required_candidates_per_case";
  preflight ← int_field slot "required_preflight_cases";
  raise_ifM (Ok ((cases, candidates, preflight) != (7, 5, 1))
             <orM> negM (field_is recovery "result_unknown_requires_manual_acknowledgement" true)
             <orM> negM (field_is recovery "quality_failure_replacement_allowed" false)
             <orM> negM (field_is recovery "semantic_failure_regenerates_candidate" false))
    (ValueError "Evaluation policy violates mandatory safety obligations") ;;
  per_slot ← int_field generation "max_executions_per_slot";
  per_run ← int_field generation "max_executions_per_run";
  per_candidate ← int_field semantic "max_executions_per_candidate";
  semantic_per_run ← int_field semantic "max_executions_per_run";
  raise_if (existsb (λ v, v <=? 0) [per_slot; per_run; per_candidate; semantic_per_run])
    (ValueError "Invalid execution policy limits") ;;
  policy_id ← text_field definition "policy_id";
  version ← text_field definition "version";
  automatic ← selectors recovery "auto_retryable_stage_codes";
  manual ← selectors recovery "manual_recovery_stage_codes";
  Ok (mk_ExecutionPolicy policy_id version (f_fingerprint (fp_reference document)) raw
        cases candidates preflight per_slot per_run per_candidate semantic_per_run
        automatic manual true false false).

(** A threshold that is an [int] or a [float]. *)
Definition number_field (d : json) (key : string) : res num :=
  v ← json_item d key;
  match v with
  | JInt z => Ok (NInt z)
  | JFloat f => Ok (NFloat f)
  | _ => Err (ValueError "Invalid frozen reliability rates")
  end.

Definition quality_thresholds (document : FrozenPolicyDocument) : res QualityThresholds :=
  raise_ifM (negM (matches_document (fp_reference document) (fp_definition_json document)))
    (ValueError "Gate policy fingerprint mismatch") ;;
  value ← loads (fp_definition_json document);
  sample ← json_item value "sample_completeness";
  reliability ← json_item value "execution_reliability";
  quality ← json_item value "candidate_quality";
  human ← json_item value "human_accountability";
  cases ← int_field sample "required_generation_cases";
  candidates ← int_field sample "required_candidates_per_case";
  reviews ← int_field human "required_review_count";
  infrastructure ← number_field reliability "min_infrastructure_success_rate";
  contract ← number_field reliability "min_generation_contract_conformance_rate";
  semantic ← number_field reliability "min_semantic_execution_success_rate";
  case_passes ← int_field quality "min_assertion_passes_per_case";
  overall_passes ← int_field quality "min_assertion_passes_overall";
  scores ← mapM (λ k, d ← json_item quality "minimum_semantic_scores"; number_field d k) SCORE_NAMES;
  averages ← mapM (λ k, d ← json_item quality "minimum_semantic_averages"; number_field d k)
               SCORE_NAMES;
  construct (mk_QualityThresholds cases candidates reviews infrastructure contract semantic
               case_passes overall_passes scores averages).

(** [FrozenContractRef( **value )] and the references of a creation document. *)
Definition contract_ref (value : json) : res FrozenContractRef :=
  match value with
  | JObj d =>
    raise_if (negb (forallb (λ k, k is_in ["id"; "version"; "fingerprint"]) d.*1)) TypeError ;;
    id ← text_field value "id";
    version ← text_field value "version";
    fingerprint ← text_field value "fingerprint";
    construct (mk_FrozenContractRef id version fingerprint)
  | _ => Err TypeError
  end.
Definition ref_field (release : json) (key : string) : res FrozenContractRef :=
  v ← json_item release key; contract_ref v.

Definition release_names : list string :=
  ["suite"; "prompt"; "profile"; "input_schema"; "output_schema"; "generation_route";
   "semantic_prompt"; "semantic_output_schema"; "semantic_route"; "execution_policy"; "gate_policy"].

Definition release_of (value : json) : res EvidenceReleaseIdentity :=
  names ← keys value;
  raise_if (negb (forallb (λ k, k is_in release_names) names)) TypeError ;;
  suite ← ref_field value "suite";
  prompt ← ref_field value "prompt";
  profile ← ref_field value "profile";
  input_schema ← ref_field value "input_schema";
  output_schema ← ref_field value "output_schema";
  generation_route ← ref_field value "generation_route";
  semantic_prompt ← ref_field value "semantic_prompt";
  semantic_output_schema ← ref_field value "semantic_output_schema";
  semantic_route ← ref_field value "semantic_route";
  execution_policy ← ref_field value "execution_policy";
  gate_policy ← ref_field value "gate_policy";
  Ok (mk_EvidenceReleaseIdentity suite prompt profile input_schema output_schema generation_route
        semantic_prompt semantic_output_schema semantic_route execution_policy gate_policy).

Definition frozen_policies (creation : json) : res (ExecutionPolicy * FrozenPolicyDocument) :=
  value ← json_item creation "release";
  release ← release_of value;
  recorded ← json_item creation "release_fingerprint";
  fingerprint ← release_fingerprint release;
  raise_if (negb (json_eqb recorded (JStr fingerprint)))
    (ValueError "Frozen Run release fingerprint mismatch") ;;
  execution_json ← text_field creation "execution_policy_json";
  gate_json ← text_field creation "gate_policy_json";
  validate_frozen_policies release execution_json gate_json ;;
  policy ← execution_policy (mk_FrozenPolicyDocument (er_execution_policy release) execution_json);
  Ok (policy, mk_FrozenPolicyDocument (er_gate_policy release) gate_json).

(** ** Properties *)

(** The limits of a stage in the projected policy. *)
Definition per_target (policy : ExecutionPolicy) (stage : string) : Z :=
  if stage == "generation" then generation_per_slot policy else semantic_per_candidate policy.
Definition per_run (policy : ExecutionPolicy) (stage : string) : Z :=
  if stage == "generation" then generation_per_run policy else semantic_per_run policy.

Definition budget_key (stage : string) : string :=
  if stage == "generation" then "generation_budget" else "semantic_budget".
Definition target_key (stage : string) : string :=
  if stage == "generation" then "max_executions_per_slot" else "max_executions_per_candidate".

Lemma int_field_Ok v k z : int_field v k = Ok z ↔ json_item v k = Ok (JInt z).
Proof. unfold int_field. destruct (json_item v k) as [[]|]; cbn; naive_solver. Qed.

(** A projected policy keeps its bytes, satisfies the safety obligations and has the positive limits
    its document states. *)
Lemma execution_policy_inv document policy :
  execution_policy document = Ok policy →
  policy_definition_json policy = fp_definition_json document ∧
  matches_document (fp_reference document) (fp_definition_json document) = Ok true ∧
  (generation_cases policy, candidates_per_case policy, preflight_cases policy) = (7, 5, 1) ∧
  unknown_requires_acknowledgement policy = true ∧ quality_replacement_allowed policy = false ∧
  semantic_failure_regenerates_candidate policy = false ∧
  ∃ definition, loads (fp_definition_json document) = Ok definition ∧
    ∀ stage, ∃ budget, json_item definition (budget_key stage) = Ok budget ∧
      json_item budget (target_key stage) = Ok (JInt (per_target policy stage)) ∧
      json_item budget "max_executions_per_run" = Ok (JInt (per_run policy stage)) ∧
      0 < per_target policy stage ∧ 0 < per_run policy stage.
Proof.
  unfold execution_policy. intros H. py_inv. rewrite !int_field_Ok in *.
  cbn [policy_definition_json generation_cases candidates_per_case preflight_cases
    unknown_requires_acknowledgement quality_replacement_allowed
    semantic_failure_regenerates_candidate].
  match goal with H : ∀ v, v ∈ _ → (v <=? 0) = false |- _ => rename H into Hpos end.
  assert (Hp : ∀ v, v ∈ [x7; x8; x9; x10] → 0 < v) by (intros v Hv%Hpos; by apply Z.leb_gt).
  split_and!; [done..|]. eexists; split; [done|]. intros stage.
  unfold per_target, per_run, budget_key, target_key. cbn.
  destruct (bool_decide (stage = "generation")); eexists;
    (split_and!; [eassumption|assumption|assumption| |]); apply Hp; set_solver.
Qed.
