(* ===== verification/SlotClaims.v ===== *)
(** * SlotClaims: the owners of the slots of a run and the ledger of its dispatches

    Models [src/src/qs_ai/infrastructure/persistence/mysql/evaluation_slot_claims.py],
    [src/src/qs_ai/infrastructure/persistence/mysql/evaluation_dispatches.py] and the preparation of
    [src/src/qs_ai/infrastructure/persistence/mysql/evaluation_candidate_plan.py].  A worker owns a
    slot through a claim whose version the coordinator of the run handed out; every use of the claim
    repeats the comparison with the stored row, and a call leaves the process only after its
    dispatch was recorded under the budget of the frozen policy.

    Each operation is the body of one transaction, which holds the locks it takes until it ends; the
    [lock=False] forms, which only read, are the same definitions.  The planner of
    [prepare_candidate] is a parameter: the results hold for every planner. *)
From stdpp Require Import sorting.
From S2P Require Import Prelude PyText PyTime PyHash PyNum PyJson JsonRoundTrip PyIso.
From S2P Require Import Transactions Tables Failure Checkpoint Actions Publication Policies.
From S2P Require Import CheckpointRecords.

Local Open Scope string_scope.
Local Open Scope Z_scope.
Local Open Scope py_scope.

Record SlotClaim : Type := mk_SlotClaim {
  sc_run_id : string;
  sc_version : Z;
  sc_checkpoint : ExecutionCheckpoint;
}.
#[export] Instance SlotClaim_eq_dec : EqDecision SlotClaim.
Proof. solve_decision. Defined.

(** [identity(claim)]: the primary key of the row. *)
Definition claim_key (run_id : string) (cp : ExecutionCheckpoint) : string * string * Z :=
  (run_id, cp_case_id cp, cp_slot_ordinal cp).
Definition identity (claim : SlotClaim) : string * string * Z :=
  claim_key (sc_run_id claim) (sc_checkpoint claim).

Definition conflict {DB A} (msg : string) : tx DB A := lift (Err (CheckpointConflict msg)).

Section claims.
Context {R : Type}.
Notation DB := (EvaluationTables R).

(** ** The coordinator of a candidate run *)

Definition run_in (db : DB) (run_id : string) (organization_id : Z) : option EvaluationRunRow :=
  match e_runs db !! run_id with
  | Some run => if er_organization_id run == organization_id then Some run else None
  | None => None
  end.

Definition lock_run (run_id : string) (organization_id : Z) : tx DB (EvaluationRunRow * Z) :=
  db ← get_db;
  match e_checkpoints db !! run_id, run_in db run_id organization_id with
  | Some (version, checkpoint), Some run =>
    if er_execution_mode run != "candidate_v2"
    then conflict "Candidate Run unavailable in organization"
    else if negb (is_null checkpoint) then conflict "Candidate Run cannot own a serial checkpoint"
    else mret (run, version)
  | _, _ => conflict "Candidate Run unavailable in organization"
  end.

(** ** Claims *)

(** The rows of a run in the order of their case and slot. *)
Definition claim_le (a b : (string * string * Z) * (Z * json)) : Prop :=
  match String.compare a.1.1.2 b.1.1.2 with
  | Lt => True
  | Eq => a.1.2 <= b.1.2
  | Gt => False
  end.
#[export] Instance claim_le_dec a b : Decision (claim_le a b).
Proof. unfold claim_le. destruct (String.compare _ _); apply _. Defined.

Definition claims_of (db : DB) (run_id : string) : list ((string * string * Z) * (Z * json)) :=
  merge_sort claim_le (filter (λ row, row.1.1.1 = run_id) (map_to_list (e_claims db))).

(** [(cp.case_id, cp.slot_ordinal) != (case_id, slot_ordinal)] *)
Definition other_slot (cp : ExecutionCheckpoint) (case_id : string) (slot_ordinal : Z) : bool :=
  (cp_case_id cp, cp_slot_ordinal cp) != (case_id, slot_ordinal).

Definition claim_of (row : (string * string * Z) * (Z * json)) : res SlotClaim :=
  let '((run_id, case_id, slot_ordinal), (version, value)) := row in
  cp ← decode value;
  match cp with
  | Some cp =>
    raise_if (other_slot cp case_id slot_ordinal)
      (CheckpointConflict "Candidate claim index differs from evidence") ;;
    Ok (mk_SlotClaim run_id version cp)
  | None => Err (CheckpointConflict "Candidate claim index differs from evidence")
  end.

Definition active_claims (run_id : string) : tx DB (list SlotClaim) :=
  db ← get_db; lift (mapM claim_of (claims_of db run_id)).

Definition same_owner (cp other : ExecutionCheckpoint) : bool :=
  (cp_execution_id cp, cp_invocation_id cp, cp_owner cp, cp_phase cp)
  == (cp_execution_id other, cp_invocation_id other, cp_owner other, cp_phase other).

Definition require_claim (claim : SlotClaim) : tx DB SlotClaim :=
  db ← get_db;
  match e_claims db !! identity claim with
  | None => conflict "Candidate execution ownership changed"
  | Some (version, value) =>
    cp ← lift (decode value);
    match cp with
    | None => conflict "Candidate execution ownership changed"
    | Some cp =>
      if other_slot cp (cp_case_id (sc_checkpoint claim)) (cp_slot_ordinal (sc_checkpoint claim))
         || version != sc_version claim || negb (same_owner cp (sc_checkpoint claim))
      then conflict "Candidate execution ownership changed"
      else mret (mk_SlotClaim (sc_run_id claim) version cp)
    end
  end.

Definition create_claim (run_id : string) (cp : ExecutionCheckpoint) (version : Z)
    : tx DB SlotClaim :=
  insert_row e_claims set_claims (claim_key run_id cp) (version, encode (Some cp))
    (λ db, is_some (e_runs db !! run_id)) ;;
  mret (mk_SlotClaim run_id version cp).

(** [update(claims).where(identity).values(checkpoint_json=...)] *)
Definition write_claim (claim : SlotClaim) (cp : ExecutionCheckpoint) : tx DB unit :=
  modify (λ db, set_claims (alter (λ row, (row.1, encode (Some cp))) (identity claim) (e_claims db)) db).

(** [replace(checkpoint, lease_expires_at=...)] *)
Definition extended (cp : ExecutionCheckpoint) (expires_at : datetime) : ExecutionCheckpoint :=
  mk_ExecutionCheckpoint (cp_execution_id cp) (cp_kind cp) (cp_case_id cp) (cp_slot_ordinal cp)
    (cp_candidate_id cp) (cp_execution_ordinal cp) (cp_owner cp) (cp_invocation_id cp) (cp_phase cp)
    (cp_claimed_at cp) expires_at (cp_dispatch_started_at cp).

Definition renew_claim (claim : SlotClaim) (at_ expires_at : datetime) : tx DB SlotClaim :=
  current ← require_claim claim;
  let cp := sc_checkpoint current in
  lift (raise_ifM (dt_lt at_ (cp_claimed_at cp) <orM> dt_ge at_ (cp_lease_expires_at cp)
                   <orM> dt_le expires_at (cp_lease_expires_at cp))
          (CheckpointConflict "Candidate lease already expired")) ;;
  renewed ← lift (construct (extended cp expires_at));
  write_claim claim renewed ;;
  mret (mk_SlotClaim (sc_run_id current) (sc_version current) renewed).

Definition release_claim (claim : SlotClaim) : tx DB unit :=
  require_claim claim ;;
  modify (λ db, set_claims (delete (identity claim) (e_claims db)) db).

(** ** The ledger of dispatches *)

(** The projected policy must be the one its bytes describe; a frozen policy is never replaced. *)
Definition freeze_policy (run_id : string) (policy : ExecutionPolicy) : tx DB unit :=
  lift (raise_if (fingerprint_of (policy_definition_json policy) != policy_fingerprint policy)
          (ValueError "Policy fingerprint mismatch")) ;;
  reference ← lift (construct (mk_FrozenContractRef (policy_id policy) (policy_version policy)
                                 (policy_fingerprint policy)));
  projected ← lift (execution_policy
                      (mk_FrozenPolicyDocument reference (policy_definition_json policy)));
  lift (raise_if (policy != projected)
          (ValueError "Invalid frozen evaluation policy projection")) ;;
  db ← get_db;
  match e_runs db !! run_id with
  | Some run =>
    if is_none (er_frozen_policy run) then
      modify (set_runs (<[run_id := mk_EvaluationRunRow (er_execution_mode run)
                            (er_organization_id run) (er_requested_by run) (er_definition_json run)
                            (er_progress_json run)
                            (Some (policy_fingerprint policy, policy_definition_json policy))]>
                          (e_runs db)))
    else conflict "Run policy already frozen or unavailable"
  | None => conflict "Run policy already frozen or unavailable"
  end.

(** [frozen_policy_query(run_id)] and its document. *)
Definition frozen_policy_json (db : DB) (run_id : string) : res string :=
  match e_runs db !! run_id with
  | Some run => match er_frozen_policy run with Some (_, d) => Ok d | None => Err NoResultFound end
  | None => Err NoResultFound
  end.

Definition stage_entries (db : DB) (run_id stage : string) : list DispatchRow :=
  (filter (λ row, row.1.1 = run_id ∧ dp_kind row.2 = stage) (map_to_list (e_dispatches db))).*2.

(** Whether an entry counts against the target of the checkpoint. *)
Definition counts_for (stage : string) (checkpoint : ExecutionCheckpoint) (item : DispatchRow)
    : bool :=
  (dp_case_id item == cp_case_id checkpoint)
  && (dp_slot_ordinal item == cp_slot_ordinal checkpoint)
  && ((stage == "generation") || (dp_candidate_id item == cp_candidate_id checkpoint)).

(** [n >= v] *)
Definition reaches (n : Z) (v : json) : res bool :=
  match num_of v with Some x => Ok (num_le x (NInt n)) | None => Err TypeError end.

(** The record a plan keeps as its text, and [DispatchRecordPlan.values]. *)
Definition record_dict (run_id : string) (cp : ExecutionCheckpoint) : json :=
  JObj [("run_id", JStr run_id); ("invocation_id", JStr (cp_invocation_id cp));
        ("execution_id", JStr (cp_execution_id cp)); ("kind", JStr (cp_kind cp));
        ("case_id", JStr (cp_case_id cp)); ("slot_ordinal", JInt (cp_slot_ordinal cp));
        ("candidate_id", JStr (cp_candidate_id cp)); ("checkpoint_json", encode (Some cp))].

Definition plan_dispatch_record (db : DB) (run_id : string) (checkpoint : ExecutionCheckpoint)
    : res string :=
  raw ← frozen_policy_json db run_id;
  policy ← loads raw;
  let stage := cp_kind checkpoint in
  budget ← json_item policy
             (if stage == "generation" then "generation_budget" else "semantic_budget");
  let entries := stage_entries db run_id stage in
  let used := len (filter (λ item, counts_for stage checkpoint item = true) entries) in
  limit ← json_item budget
            (if stage == "generation" then "max_executions_per_slot"
             else "max_executions_per_candidate");
  raise_ifM (reaches used limit
             <orM> (m ← json_item budget "max_executions_per_run"; reaches (len entries) m))
    (CheckpointConflict "Evaluation execution budget exhausted") ;;
  raise_if (negb (cp_execution_ordinal checkpoint =? used + 1))
    (CheckpointConflict "Evaluation execution ordinal is not next") ;;
  dumps_with compact_finite (record_dict run_id checkpoint).

Definition record_values (record_json : string) : res json :=
  value ← loads record_json;
  raise_if (negb (is_dict value)) (ValueError "Original immutable dispatch record required") ;;
  Ok value.

(** [insert(dispatches).values( **values )]: the execution is unique in its run. *)
Definition insert_dispatch (values : json) : tx DB unit :=
  run_id ← lift (text_field values "run_id");
  invocation_id ← lift (text_field values "invocation_id");
  execution_id ← lift (text_field values "execution_id");
  kind ← lift (text_field values "kind");
  case_id ← lift (text_field values "case_id");
  slot_ordinal ← lift (int_field values "slot_ordinal");
  candidate_id ← lift (text_field values "candidate_id");
  checkpoint ← lift (json_item values "checkpoint_json");
  insert_row e_dispatches set_dispatches (run_id, invocation_id)
    (mk_DispatchRow execution_id kind case_id slot_ordinal candidate_id checkpoint)
    (λ db, negb (existsb (λ row, (row.1.1 == run_id) && (dp_execution_id row.2 == execution_id))
                   (map_to_list (e_dispatches db)))).

Definition record_dispatch (run_id : string) (checkpoint : ExecutionCheckpoint) : tx DB unit :=
  db ← get_db;
  record ← lift (plan_dispatch_record db run_id checkpoint);
  values ← lift (record_values record);
  insert_dispatch values.

(** [progress.get("preflight", {}).get("status") != "passed"] *)
Definition preflight_pending (progress : json) : res bool :=
  preflight ← json_get_default progress "preflight" (JObj []);
  status ← json_get preflight "status";
  Ok (negb (json_eqb status (JStr "passed"))).
(** Truth value of [progress.get(k)]. *)
Definition flag (progress : json) (k : string) : res bool := truthy <$> json_get progress k.

Definition dispatch_claim (organization_id : Z) (claim : SlotClaim) (at_ : datetime)
    : tx DB SlotClaim :=
  '(run, _) ← lock_run (sc_run_id claim) organization_id;
  active_claims (sc_run_id claim) ;;
  current ← require_claim claim;
  let progress := er_progress_json run in
  lift (raise_ifM
          (((λ s, negb (json_eqb s (JStr "collecting"))) <$> json_item progress "status")
           <orM> flag progress "cancel_requested"
           <orM> flag progress "unresolved_result_unknown_count"
           <orM> preflight_pending progress
           <orM> dt_ge at_ (cp_lease_expires_at (sc_checkpoint current)))
          (CheckpointConflict "Run cannot dispatch new work")) ;;
  cp ← lift (mark_dispatching (sc_checkpoint current) (cp_owner (sc_checkpoint current)) at_);
  record_dispatch (sc_run_id claim) cp ;;
  write_claim claim cp ;;
  mret (mk_SlotClaim (sc_run_id current) (sc_version current) cp).

(** The reservation of a serial run, whose checkpoint is the coordinator's own. *)
Definition in_slots (checkpoint : ExecutionCheckpoint) (creation : json) : res bool :=
  slots ← json_item creation "slots";
  slots ← iterate slots;
  anyM (λ slot, ((λ c, json_eqb c (JStr (cp_case_id checkpoint))) <$> json_item slot "case_id")
                <andM> ((λ o, json_eqb o (JInt (cp_slot_ordinal checkpoint)))
                          <$> json_item slot "ordinal")) slots.

Definition reserve_dispatch (run_id : string) (expected_version : Z) (owner : string)
    (at_ : datetime) : tx DB CheckpointState :=
  db ← get_db;
  match e_checkpoints db !! run_id with
  | Some (version, value) =>
    if negb (version =? expected_version) then conflict "Checkpoint version changed"
    else
      checkpoint ← lift (decode value);
      match checkpoint, e_runs db !! run_id with
      | None, _ => conflict "Prepared checkpoint required"
      | Some _, None => conflict "Frozen evaluation Run required"
      | Some checkpoint, Some run =>
        lift (raise_if (er_execution_mode run != "serial_v1")
                (CheckpointConflict "Frozen evaluation Run required")) ;;
        let progress := er_progress_json run in
        lift (raise_ifM (Ok (negb (truthy progress))
                         <orM> ((λ s, negb (json_eqb s (JStr "collecting")))
                                  <$> json_get progress "status")
                         <orM> preflight_pending progress)
                (CheckpointConflict "Collecting Run with passed preflight required")) ;;
        lift (raise_ifM (flag progress "cancel_requested")
                (CheckpointConflict "Cancellation requested; no new dispatch")) ;;
        creation ← lift (loads (er_definition_json run));
        lift (raise_ifM (negM (in_slots checkpoint creation))
                (CheckpointConflict "Checkpoint target is outside frozen Run slots")) ;;
        dispatched ← lift (mark_dispatching checkpoint owner at_);
        record_dispatch run_id dispatched ;;
        state ← lift (construct (mk_CheckpointState run_id (expected_version + 1)
                                   (Some dispatched)));
        save_checkpoint state expected_version ;;
        mret state
      end
  | None => conflict "Checkpoint version changed"
  end.

(** ** Preparation *)

Definition candidate_checkpoint (run : EvaluationRunRow) (plan : ParallelPlan)
    (owner execution_id invocation_id : string) (at_ expires_at : datetime)
    : res ExecutionCheckpoint :=
  let progress := er_progress_json run in
  raise_ifM (Ok (negb (truthy progress)) <orM> flag progress "cancel_requested")
    (CheckpointConflict "Run is stopping or has no progress") ;;
  match pp_ready plan with
  | [] => Err (CheckpointConflict "No candidate capacity or ready work")
  | action :: _ =>
    creation ← loads (er_definition_json run);
    audit ← json_item creation "audit";
    created ← json_item audit "created_at";
    recoveries ← json_get_default progress "semantic_contract_recoveries" (JList []);
    recoveries ← iterate recoveries;
    resolved ← mapM (λ r, json_item r "resolved_at") recoveries;
    raise_ifM (anyM (λ value, t ← match value with JStr s => fromisoformat s | _ => Err TypeError end;
                              dt_lt at_ t) (created :: resolved))
      (ValueError "Preparation cannot precede source evidence") ;;
    construct (mk_ExecutionCheckpoint execution_id (na_kind action) (na_case_id action)
                 (na_slot_ordinal action) (na_candidate_id action) (na_execution_ordinal action)
                 owner invocation_id "prepared" at_ expires_at None)
  end.

Definition prepare_candidate
    (candidate_plan : DB → string → EvaluationRunRow → list SlotClaim → Z → res ParallelPlan)
    (run_id : string) (organization_id : Z) (owner execution_id invocation_id : string)
    (at_ expires_at : datetime) (limit : Z) : tx DB SlotClaim :=
  '(run, version) ← lock_run run_id organization_id;
  let progress := er_progress_json run in
  lift (raise_ifM (Ok (negb (truthy progress)) <orM> flag progress "cancel_requested")
          (CheckpointConflict "Run is stopping or has no progress")) ;;
  active ← active_claims run_id;
  db ← get_db;
  plan ← lift (candidate_plan db run_id run active limit);
  cp ← lift (candidate_checkpoint run plan owner execution_id invocation_id at_ expires_at);
  claim ← create_claim run_id cp (version + 1);
  state ← lift (construct (mk_CheckpointState run_id (version + 1) None));
  save_checkpoint state version ;;
  mret claim.
End claims.

(** ** Dispatches that are still running *)

Definition same_dispatch (cp original : ExecutionCheckpoint) : bool :=
  ((cp_execution_id cp, cp_owner cp, cp_kind cp, cp_case_id cp, cp_slot_ordinal cp,
    cp_candidate_id cp, cp_execution_ordinal cp)
   == (cp_execution_id original, cp_owner original, cp_kind original, cp_case_id original,
       cp_slot_ordinal original, cp_candidate_id original, cp_execution_ordinal original))
  && opt_dt_eqb (cp_dispatch_started_at cp) (cp_dispatch_started_at original).

Definition indexed_by (row : DispatchRow) (original : ExecutionCheckpoint) : bool :=
  (dp_execution_id row, dp_kind row, dp_case_id row, dp_slot_ordinal row, dp_candidate_id row)
  == (cp_execution_id original, cp_kind original, cp_case_id original, cp_slot_ordinal original,
      cp_candidate_id original).

(** The body of the loop over the ledger; the state is [(filtered, seen)]. *)
Definition see_dispatch (terminal : list string) (pending : gmap string ExecutionCheckpoint)
    (state : list (string * DispatchRow) * list string) (entry : string * DispatchRow)
    : res (list (string * DispatchRow) * list string) :=
  let '(filtered, seen) := state in
  let '(invocation, row) := entry in
  if invocation is_in terminal then Ok ((filtered ++ [entry])%list, seen)
  else
    original ← decode (dp_checkpoint_json row);
    match pending !! invocation, original with
    | Some cp, Some original =>
      raise_if ((cp_phase cp != "dispatching") || (cp_phase original != "dispatching")
                || (cp_invocation_id original != invocation) || negb (indexed_by row original)
                || negb (same_dispatch cp original))
        (CheckpointConflict "Unmatched dispatch requires recovery") ;;
      raise_if (invocation is_in seen) (CheckpointConflict "Duplicate active dispatch") ;;
      Ok (filtered, invocation :: seen)
    | _, _ => Err (CheckpointConflict "Unmatched dispatch requires recovery")
    end.

(** [terminal] is [row["invocation_id"]] of the completed records. *)
Definition terminal_dispatches (dispatches : list (string * DispatchRow)) (terminal : list string)
    (active : list SlotClaim) : res (list (string * DispatchRow)) :=
  let pending := sc_checkpoint <$> dict_of (λ c, cp_invocation_id (sc_checkpoint c)) active in
  '(filtered, seen) ← foldM (see_dispatch terminal pending) ([], []) dispatches;
  raise_if (existsb (λ c, (cp_phase (sc_checkpoint c) == "dispatching")
                          && (cp_invocation_id (sc_checkpoint c) not_in (terminal ++ seen)%list))
              active)
    (CheckpointConflict "Dispatched claim has no ledger") ;;
  Ok filtered.

(** ** Specification: locks with fencing tokens

    What the claims of one run promise: the coordinator hands out increasing tokens, a slot is held
    under one token, and a token that was given back is never held again. *)
Record lock : Type := mk_lock {
  token : option Z;
  held : gmap (string * Z) Z;
}.

Inductive lock_step (l : lock) : lock → Prop :=
| lock_open n : token l = None → lock_step l (mk_lock (Some n) (held l))
| lock_advance n : token l = Some n → lock_step l (mk_lock (Some (n + 1)) (held l))
| lock_acquire n s :
  token l = Some n → held l !! s = None →
  lock_step l (mk_lock (Some (n + 1)) (<[s := n + 1]> (held l)))
| lock_release s t :
  held l !! s = Some t → lock_step l (mk_lock (token l) (delete s (held l))).

Definition well_locked (l : lock) : Prop :=
  ∀ s t, held l !! s = Some t →
    (∃ n, token l = Some n ∧ t <= n) ∧ ∀ s', held l !! s' = Some t → s' = s.

(** A token that was handed out and is not held. *)
Definition retired (t : Z) (l : lock) : Prop :=
  (∃ n, token l = Some n ∧ t <= n) ∧ ∀ s, held l !! s ≠ Some t.

Lemma well_locked_step l l' : well_locked l → lock_step l l' → well_locked l'.
Proof.
  intros Hl Hs. destruct Hs as [n Hn|n Hn|n s Hn Hs|s t Hs]; intros s' t'; cbn.
  - intros (? & ?)%Hl. naive_solver.
  - intros ((n' & Hn' & ?) & Hu)%Hl. simplify_eq. split; [eexists; split; [done|lia]|done].
  - rewrite lookup_insert_Some. intros [[<- <-]|[Hne Hs']].
    + split; [by exists (n + 1)|]. intros s'. rewrite lookup_insert_Some.
      intros [[? _]|[_ ((n' & ? & ?) & _)%Hl]]; [done|]. simplify_eq. lia.
    + destruct (Hl _ _ Hs') as ((n' & ? & ?) & Hu). simplify_eq.
      split; [eexists; split; [done|lia]|]. intros s''. rewrite lookup_insert_Some.
      intros [[_ ?]|[_ H]]; [lia|by apply Hu].
  - rewrite lookup_delete_Some. intros [Hne Hs']. destruct (Hl _ _ Hs') as [Hn Hu].
    split; [done|]. intros s''. rewrite lookup_delete_Some. intros [_ H]. by apply Hu.
Qed.

Lemma retired_step t l l' : retired t l → lock_step l l' → retired t l'.
Proof.
  intros [(n & Hn & Ht) Hr] Hs. destruct Hs as [m Hm|m Hm|m s Hm Hs|s t' Hs]; simplify_eq; cbn.
  - split; [|done]. eexists; split; [done|lia].
  - split; [eexists; split; [done|lia]|]. intros s'. cbn. rewrite lookup_insert_Some.
    intros [[_ ?]|[_ H]]; [lia|by apply (Hr s')].
  - split; [by exists n|]. intros s'. cbn. rewrite lookup_delete_Some. intros [_ H]. by apply (Hr s').
Qed.

Lemma release_retires s t l :
  well_locked l → held l !! s = Some t → retired t (mk_lock (token l) (delete s (held l))).
Proof.
  intros Hl Hs. destruct (Hl _ _ Hs) as [Hn Hu]. split; [done|]. intros s'. cbn.
  rewrite lookup_delete_Some. intros [Hne H]. apply Hne. symmetry. by apply Hu.
Qed.

Lemma rtc_keeps {A} (St : A → A → Prop) (P : A → Prop) x y :
  (∀ x y, P x → St x y → P y) → P x → rtc St x y → P y.
Proof. intros HP Hx Hr. induction Hr; eauto. Qed.

(** ** The operations implement the locks *)

Section refinement.
Context {R : Type}.
Context (candidate_plan : EvaluationTables R → string → EvaluationRunRow → list SlotClaim → Z →
                          res ParallelPlan).
Notation DB := (EvaluationTables R).

(** Every statement of the program that writes a coordinator, a claim or a dispatch. *)
Inductive operation : Type :=
| Open (run_id : string) (version : Z)
| Save (state : CheckpointState) (expected_version : Z)
| Prepare (run_id : string) (organization_id : Z) (owner execution_id invocation_id : string)
    (at_ expires_at : datetime) (limit : Z)
| Renew (claim : SlotClaim) (at_ expires_at : datetime)
| Release (claim : SlotClaim)
| Dispatch (organization_id : Z) (claim : SlotClaim) (at_ : datetime)
| Reserve (run_id : string) (expected_version : Z) (owner : string) (at_ : datetime)
| Freeze (run_id : string) (policy : ExecutionPolicy).

Definition exec (o : operation) : tx DB unit :=
  match o with
  | Open run version => insert_row e_checkpoints set_checkpoints run (version, JNull) (λ _, true)
  | Save state v => save_checkpoint state v
  | Prepare run org owner e i t x limit =>
    prepare_candidate candidate_plan run org owner e i t x limit ;; mret tt
  | Renew claim t x => renew_claim claim t x ;; mret tt
  | Release claim => release_claim claim
  | Dispatch org claim t => dispatch_claim org claim t ;; mret tt
  | Reserve run v owner t => reserve_dispatch run v owner t ;; mret tt
  | Freeze run policy => freeze_policy run policy
  end.

(** A committed operation, or a change of other columns and tables: an operation that raises is
    rolled back with its transaction. *)
Inductive step (db : DB) : DB → Prop :=
| step_exec o u db' : exec o db = (Ok u, db') → step db db'
| step_other db' :
  e_checkpoints db' = e_checkpoints db → e_claims db' = e_claims db →
  e_dispatches db' = e_dispatches db →
  (∀ run policy, frozen_policy_json db run = Ok policy → frozen_policy_json db' run = Ok policy) →
  step db db'.

Definition represents (db : DB) (run_id : string) (l : lock) : Prop :=
  token l = fst <$> e_checkpoints db !! run_id ∧
  ∀ s, held l !! s = fst <$> e_claims db !! (run_id, s.1, s.2).

(** *** What the statements change *)

Lemma lock_run_Ok run_id org (db db' : DB) run version :
  lock_run run_id org db = (Ok (run, version), db') →
  db' = db ∧ e_runs db !! run_id = Some run ∧ e_checkpoints db !! run_id = Some (version, JNull) ∧
  er_execution_mode run = "candidate_v2" ∧ er_organization_id run = org.
Proof.
  unfold lock_run. rewrite get_bind. unfold run_in.
  destruct (e_checkpoints db !! run_id) as [[v value]|]; [|done].
  destruct (e_runs db !! run_id) as [r|]; [|done].
  destruct (bool_decide (er_organization_id r = org)) eqn:Ho; [|done].
  destruct (bool_decide (er_execution_mode r = "candidate_v2")) eqn:Hm; [|done].
  destruct value; try done. cbn. intros [= <- <- <-]. by bool_inv.
Qed.

Lemma active_claims_Ok run_id (db db' : DB) l :
  active_claims run_id db = (Ok l, db') → db' = db ∧ mapM claim_of (claims_of db run_id) = Ok l.
Proof. unfold active_claims. rewrite get_bind. by intros [? ->]%lift_Ok. Qed.

Lemma require_claim_Ok claim (db db' : DB) c :
  require_claim claim db = (Ok c, db') →
  db' = db ∧ sc_run_id c = sc_run_id claim ∧ sc_version c = sc_version claim ∧
  ∃ value, e_claims db !! identity claim = Some (sc_version claim, value) ∧
    decode value = Ok (Some (sc_checkpoint c)) ∧
    other_slot (sc_checkpoint c) (cp_case_id (sc_checkpoint claim))
      (cp_slot_ordinal (sc_checkpoint claim)) = false ∧
    same_owner (sc_checkpoint c) (sc_checkpoint claim) = true.
Proof.
  unfold require_claim. rewrite get_bind.
  destruct (e_claims db !! identity claim) as [[v value]|] eqn:E; [|done].
  rewrite lift_bind. destruct (decode value) as [[cp|]|] eqn:Hd; [|done|done].
  destruct (_ || _ || _) eqn:Hc; [done|]. intros [= <- <-]. bool_inv. subst. cbn. eauto 10.
Qed.

Lemma record_dispatch_keeps {X} (π : DB → X) run_id cp :
  (∀ x db, π (set_dispatches x db) = π db) → keeps π (record_dispatch run_id cp).
Proof. intros Hπ. unfold record_dispatch, insert_dispatch. solve_keeps. Qed.

(** The three effects a committed operation can have on coordinators and claims. *)
Inductive effect (db db' : DB) : Prop :=
| effect_same :
  e_checkpoints db' = e_checkpoints db →
  (∀ k, fst <$> e_claims db' !! k = fst <$> e_claims db !! k) → effect db db'
| effect_open run v :
  e_checkpoints db !! run = None → e_checkpoints db' = <[run := (v, JNull)]> (e_checkpoints db) →
  e_claims db' = e_claims db → effect db db'
| effect_save run v old value :
  e_checkpoints db !! run = Some (v, old) →
  e_checkpoints db' = <[run := (v + 1, value)]> (e_checkpoints db) →
  e_claims db' = e_claims db → effect db db'
| effect_claim run v old value case_id slot cp :
  e_checkpoints db !! run = Some (v, old) →
  e_checkpoints db' = <[run := (v + 1, value)]> (e_checkpoints db) →
  e_claims db !! (run, case_id, slot) = None →
  e_claims db' = <[(run, case_id, slot) := (v + 1, cp)]> (e_claims db) → effect db db'
| effect_release k v cp :
  e_claims db !! k = Some (v, cp) → e_claims db' = delete k (e_claims db) →
  e_checkpoints db' = e_checkpoints db → effect db db'.

Lemma save_effect state v (db db' : DB) u :
  save_checkpoint state v db = (Ok u, db') → effect db db'.
Proof.
  destruct u. intros (_ & _ & _ & (old & Hold) & ->)%save_checkpoint_Ok.
  by eapply effect_save.
Qed.

Lemma write_claim_same claim cp (db : DB) k :
  fst <$> e_claims (write_claim claim cp db).2 !! k = fst <$> e_claims db !! k.
Proof.
  unfold write_claim, modify. cbn. destruct (decide (k = identity claim)) as [->|Hk].
  - rewrite lookup_alter_eq. by destruct (e_claims db !! identity claim) as [[]|].
  - by rewrite lookup_alter_ne.
Qed.

Lemma candidate_checkpoint_Ok run plan owner e i at_ expires_at cp :
  candidate_checkpoint run plan owner e i at_ expires_at = Ok cp →
  constructed cp ∧ cp_phase cp = "prepared".
Proof.
  unfold candidate_checkpoint. intros H. ok_inv. destruct (pp_ready plan); [done|].
  ok_inv. by apply construct_Ok in H as [? ->].
Qed.

Lemma prepare_Ok run_id org owner e i at_ expires_at limit (db db' : DB) claim :
  prepare_candidate candidate_plan run_id org owner e i at_ expires_at limit db = (Ok claim, db') →
  ∃ version, e_checkpoints db !! run_id = Some (version, JNull) ∧
    let cp := sc_checkpoint claim in
    constructed cp ∧ cp_phase cp = "prepared" ∧ claim = mk_SlotClaim run_id (version + 1) cp ∧
    e_claims db !! claim_key run_id cp = None ∧
    db' = set_checkpoints (<[run_id := (version + 1, JNull)]> (e_checkpoints db))
            (set_claims (<[claim_key run_id cp := (version + 1, checkpoint_dict cp)]> (e_claims db)) db).
Proof.
  unfold prepare_candidate, create_claim. intros H. run_inv.
  repeat match goal with x : _ * _ |- _ => destruct x end.
  match goal with H : lock_run _ _ _ = _ |- _ => apply lock_run_Ok in H as (-> & _ & Hv & _) end.
  run_inv.
  match goal with H : active_claims _ _ = _ |- _ => apply active_claims_Ok in H as [-> _] end.
  match goal with H : save_checkpoint _ _ _ = (Ok ?u, _) |- _ =>
    destruct u; apply save_checkpoint_Ok in H as (_ & _ & _ & _ & ->) end.
  match goal with H : candidate_checkpoint _ _ _ _ _ _ _ = Ok _ |- _ =>
    apply candidate_checkpoint_Ok in H as [? ?] end.
  match goal with H : construct _ = Ok _ |- _ => apply construct_Ok in H as [_ ->] end.
  by eexists.
Qed.

Lemma renew_Ok claim at_ expires_at (db db' : DB) c :
  renew_claim claim at_ expires_at db = (Ok c, db') →
  ∃ current cp, require_claim claim db = (Ok current, db) ∧
    constructed cp ∧ cp = extended (sc_checkpoint current) expires_at ∧
    c = mk_SlotClaim (sc_run_id claim) (sc_version claim) cp ∧
    dt_lt at_ (cp_lease_expires_at (sc_checkpoint current)) = Ok true ∧
    dt_lt (cp_lease_expires_at (sc_checkpoint current)) expires_at = Ok true ∧
    db' = (write_claim claim cp db).2.
Proof.
  unfold renew_claim. intros H. run_inv.
  match goal with H : require_claim _ _ = _ |- _ =>
    pose proof H as Hr; apply require_claim_Ok in H as (-> & Hid & Hv & _) end.
  match goal with H : construct _ = Ok _ |- _ => apply construct_Ok in H as [? ->] end.
  match goal with H : write_claim _ _ _ = _ |- _ => unfold write_claim, modify in H; injection H as ? <- end.
  eexists _, _. split_and!; [done|done|done|by rewrite Hid, Hv|apply dt_lt_true..|done]; split;
    (assumption || lia || by apply comparable_sym).
Qed.

Lemma release_Ok claim (db db' : DB) u :
  release_claim claim db = (Ok u, db') →
  ∃ current, require_claim claim db = (Ok current, db) ∧
    db' = set_claims (delete (identity claim) (e_claims db)) db.
Proof.
  unfold release_claim. intros H. run_inv.
  match goal with H : require_claim _ _ = _ |- _ =>
    pose proof H as Hr; apply require_claim_Ok in H as [-> _] end. eauto.
Qed.

Lemma dispatch_Ok org claim at_ (db db' : DB) c :
  dispatch_claim org claim at_ db = (Ok c, db') →
  ∃ run version current cp db1,
    e_runs db !! sc_run_id claim = Some run ∧ er_organization_id run = org ∧
    e_checkpoints db !! sc_run_id claim = Some (version, JNull) ∧
    require_claim claim db = (Ok current, db) ∧
    json_item (er_progress_json run) "status" = Ok (JStr "collecting") ∧
    flag (er_progress_json run) "cancel_requested" = Ok false ∧
    preflight_pending (er_progress_json run) = Ok false ∧
    mark_dispatching (sc_checkpoint current) (cp_owner (sc_checkpoint current)) at_ = Ok cp ∧
    record_dispatch (sc_run_id claim) cp db = (Ok tt, db1) ∧
    c = mk_SlotClaim (sc_run_id claim) (sc_version claim) cp ∧ db' = (write_claim claim cp db1).2.
Proof.
  unfold dispatch_claim. intros H. run_inv. destruct x as [run version].
  match goal with H : lock_run _ _ _ = _ |- _ =>
    apply lock_run_Ok in H as (-> & Hrun & Hver & _ & Horg) end.
  run_inv.
  match goal with H : active_claims _ _ = _ |- _ => apply active_claims_Ok in H as [-> _] end.
  match goal with H : require_claim _ _ = _ |- _ =>
    pose proof H as Hr; apply require_claim_Ok in H as (-> & Hid & Hv & _) end.
  match goal with H : write_claim _ _ _ = _ |- _ => unfold write_claim, modify in H; injection H as ? <- end.
  match goal with H : json_eqb ?x _ = true |- _ => apply json_eqb_str in H as -> end.
  match goal with H : record_dispatch _ _ _ = (Ok ?u, _) |- _ => destruct u end.
  rewrite Hid, Hv. eauto 20.
Qed.

Lemma reserve_dispatch_Ok run_id v owner at_ (db db' : DB) state :
  reserve_dispatch run_id v owner at_ db = (Ok state, db') →
  ∃ checkpoint cp value db1,
    e_checkpoints db !! run_id = Some (v, value) ∧ decode value = Ok (Some checkpoint) ∧
    mark_dispatching checkpoint owner at_ = Ok cp ∧
    record_dispatch run_id cp db = (Ok tt, db1) ∧
    state = mk_CheckpointState run_id (v + 1) (Some cp) ∧
    save_checkpoint state v db1 = (Ok tt, db').
Proof.
  unfold reserve_dispatch. intros H. run_inv.
  destruct (e_checkpoints db !! run_id) as [[n value]|] eqn:E; [|done].
  destruct (n =? v) eqn:Hn; [|done]. apply Z.eqb_eq in Hn as ->. cbn [negb] in *. run_inv.
  match goal with H : decode _ = Ok ?o |- _ => destruct o as [cp|]; [|done] end.
  destruct (e_runs db !! run_id) as [run|]; [|done]. run_inv.
  match goal with H : record_dispatch _ _ _ = (Ok ?u, _) |- _ => destruct u end.
  match goal with H : save_checkpoint _ _ _ = (Ok ?u, _) |- _ => destruct u end.
  match goal with H : construct _ = Ok _ |- _ => apply construct_Ok in H as [_ ->] end.
  eauto 10.
Qed.

Lemma freeze_Ok run_id policy (db db' : DB) u :
  freeze_policy run_id policy db = (Ok u, db') →
  ∃ run reference, e_runs db !! run_id = Some run ∧ er_frozen_policy run = None ∧
    execution_policy (mk_FrozenPolicyDocument reference (policy_definition_json policy)) = Ok policy ∧
    db' = set_runs (<[run_id := mk_EvaluationRunRow (er_execution_mode run)
                        (er_organization_id run) (er_requested_by run) (er_definition_json run)
                        (er_progress_json run)
                        (Some (policy_fingerprint policy, policy_definition_json policy))]>
                      (e_runs db)) db.
Proof.
  unfold freeze_policy. intros H. run_inv.
  destruct (e_runs db !! run_id) as [run|] eqn:E; [|done].
  destruct (is_none (er_frozen_policy run)) eqn:Hn; [|done]. run_inv. subst. eauto 10.
Qed.

Lemma record_dispatch_frame run_id cp (db db1 : DB) u :
  record_dispatch run_id cp db = (Ok u, db1) →
  e_checkpoints db1 = e_checkpoints db ∧ e_claims db1 = e_claims db ∧ e_runs db1 = e_runs db.
Proof.
  intros H.
  assert (Hk : keeps (λ db : DB, (e_checkpoints db, e_claims db, e_runs db)) (record_dispatch run_id cp))
    by by apply record_dispatch_keeps.
  apply (keeps_Ok _ _ _ _ _ Hk) in H. by injection H.
Qed.

Lemma exec_effect o (db db' : DB) u : exec o db = (Ok u, db') → effect db db'.
Proof.
  destruct o; cbn [exec]; intros H; run_inv.
  - by eapply effect_open.
  - by eapply save_effect.
  - match goal with H : prepare_candidate _ _ _ _ _ _ _ _ _ _ = _ |- _ =>
      apply prepare_Ok in H as (v & Hv & _ & _ & _ & Hn & ->) end.
    by eapply effect_claim.
  - match goal with H : renew_claim _ _ _ _ = _ |- _ =>
      apply renew_Ok in H as (c & cp & _ & _ & _ & _ & _ & _ & ->) end.
    apply effect_same; [done|]. apply write_claim_same.
  - apply release_Ok in H as (c & (_ & _ & _ & value & Hk & _)%require_claim_Ok & ->).
    by eapply effect_release.
  - match goal with H : dispatch_claim _ _ _ _ = _ |- _ =>
      apply dispatch_Ok in H as (run & v & c & cp & db1 & _ & _ & _ & _ & _ & _ & _ & _ & Hd & _ & ->) end.
    apply record_dispatch_frame in Hd as (Hc & Hl & _).
    apply effect_same; [exact Hc|]. intros k. rewrite write_claim_same. by rewrite Hl.
  - match goal with H : reserve_dispatch _ _ _ _ _ = _ |- _ =>
      apply reserve_dispatch_Ok in H as (c & cp & value & db1 & _ & _ & _ & Hd & _ & Hs) end.
    apply record_dispatch_frame in Hd as (Hc & Hl & _).
    apply save_checkpoint_Ok in Hs as (_ & _ & _ & (old & Hold) & ->).
    rewrite Hc in Hold. eapply effect_save; [exact Hold|by cbn; rewrite Hc|exact Hl].
  - apply freeze_Ok in H as (run & reference & _ & _ & _ & ->). by apply effect_same.
Qed.

(** An operation is a step of the lock of every run, or leaves it alone. *)
Lemma effect_refines run_id l (db db' : DB) :
  represents db run_id l → effect db db' → ∃ l', rtc lock_step l l' ∧ represents db' run_id l'.
Proof.
  intros [Ht Hh] He.
  destruct He as [Hc Hl|run v Hn Hc Hl|run v old value Hn Hc Hl|run v old value case slot cp Hn Hc Hf Hl
                 |[[run case] slot] v cp Hk Hl Hc].
  - exists l. split; [done|]. split; [by rewrite Hc|]. intros s. by rewrite Hl.
  - destruct (decide (run = run_id)) as [->|Hne].
    + exists (mk_lock (Some v) (held l)). split; [apply rtc_once, lock_open; by rewrite Ht, Hn|].
      split; cbn; [by rewrite Hc, lookup_insert_eq|]. by rewrite Hl.
    + exists l. split; [done|]. split; [by rewrite Hc, lookup_insert_ne|]. by rewrite Hl.
  - destruct (decide (run = run_id)) as [->|Hne].
    + exists (mk_lock (Some (v + 1)) (held l)).
      split; [apply rtc_once, lock_advance; by rewrite Ht, Hn|].
      split; cbn; [by rewrite Hc, lookup_insert_eq|]. by rewrite Hl.
    + exists l. split; [done|]. split; [by rewrite Hc, lookup_insert_ne|]. by rewrite Hl.
  - destruct (decide (run = run_id)) as [->|Hne].
    + exists (mk_lock (Some (v + 1)) (<[(case, slot) := v + 1]> (held l))).
      split; [apply rtc_once, lock_acquire; [by rewrite Ht, Hn|by rewrite Hh; cbn; rewrite Hf]|].
      split; cbn; [by rewrite Hc, lookup_insert_eq|]. intros [case' slot']. rewrite Hl. cbn.
      destruct (decide ((case', slot') = (case, slot))) as [[= -> ->]|Hs].
      * by rewrite !lookup_insert_eq.
      * rewrite !lookup_insert_ne by congruence. apply Hh.
    + exists l. split; [done|]. split; [by rewrite Hc, lookup_insert_ne|].
      intros s. rewrite Hl, lookup_insert_ne by congruence. apply Hh.
  - destruct (decide (run = run_id)) as [->|Hne].
    + exists (mk_lock (token l) (delete (case, slot) (held l))).
      split; [apply rtc_once, (lock_release _ _ v); by rewrite Hh; cbn; rewrite Hk|].
      split; cbn; [by rewrite Hc|]. intros [case' slot']. rewrite Hl. cbn.
      destruct (decide ((case', slot') = (case, slot))) as [[= -> ->]|Hs].
      * by rewrite !lookup_delete_eq.
      * rewrite !lookup_delete_ne by congruence. apply Hh.
    + exists l. split; [done|]. split; [by rewrite Hc|].
      intros s. rewrite Hl, lookup_delete_ne by congruence. apply Hh.
Qed.

Lemma step_refines run_id l (db db' : DB) :
  represents db run_id l → step db db' → ∃ l', rtc lock_step l l' ∧ represents db' run_id l'.
Proof.
  intros Hr [o u db1 Ho|db1 Hc Hl _ _]; eapply effect_refines; try done.
  - by eapply exec_effect.
  - apply effect_same; [done|]. by rewrite Hl.
Qed.

Lemma steps_refine run_id l (db db' : DB) :
  represents db run_id l → rtc step db db' → ∃ l', rtc lock_step l l' ∧ represents db' run_id l'.
Proof.
  intros Hr Hs. revert l Hr. induction Hs as [db|db db1 db' Hs _ IH]; intros l Hr; [by exists l|].
  destruct (step_refines _ _ _ _ Hr Hs) as (l1 & H1 & Hr1). destruct (IH _ Hr1) as (l2 & H2 & Hr2).
  exists l2. split; [by etrans|done].
Qed.

Lemma empty_represents (db : DB) run_id :
  e_claims db = ∅ → represents db run_id (mk_lock (fst <$> e_checkpoints db !! run_id) ∅).
Proof. intros He. split; [done|]. intros s. by rewrite He. Qed.

Lemma empty_well_locked o : well_locked (mk_lock o ∅).
Proof. intros s t. cbn. by rewrite lookup_empty. Qed.

(** C36: The claims of a run implement a lock service with fencing tokens: whatever the program does to
    coordinators, claims and dispatches, each run goes through the steps of the specification, in
    which tokens increase, a slot is held under one token, and no token is held twice. *)
Theorem claims_refine_locks (db0 db : DB) run_id :
  e_claims db0 = ∅ → rtc step db0 db →
  ∃ l, rtc lock_step (mk_lock (fst <$> e_checkpoints db0 !! run_id) ∅) l ∧
    represents db run_id l ∧ well_locked l.
Proof.
  intros He Hs. destruct (steps_refine _ _ _ _ (empty_represents db0 run_id He) Hs) as (l & Hl & Hr).
  exists l. split_and!; [done|done|]. eapply rtc_keeps; [apply well_locked_step|apply empty_well_locked|done].
Qed.

(** A claim that was released is never accepted again, not even when its slot is claimed anew for
    the same execution, owner and phase: after any further operations of the program every use of
    it raises. *)
Theorem released_claim_refused (db0 db db1 db2 : DB) claim u :
  e_claims db0 = ∅ → rtc step db0 db →
  release_claim claim db = (Ok u, db1) → rtc step db1 db2 →
  (∀ c db', require_claim claim db2 ≠ (Ok c, db')) ∧
  (∀ t x c db', renew_claim claim t x db2 ≠ (Ok c, db')) ∧
  (∀ v db', release_claim claim db2 ≠ (Ok v, db')) ∧
  (∀ org t c db', dispatch_claim org claim t db2 ≠ (Ok c, db')).
Proof.
  intros He Hs Hrel Hs2.
  set (slot := (cp_case_id (sc_checkpoint claim), cp_slot_ordinal (sc_checkpoint claim))).
  destruct (steps_refine _ _ _ _ (empty_represents db0 (sc_run_id claim) He) Hs) as (l & Hl & Hr).
  assert (Hw : well_locked l)
    by (eapply rtc_keeps; [apply well_locked_step|apply empty_well_locked|done]).
  apply release_Ok in Hrel as (c & (_ & _ & _ & value & Hk & _)%require_claim_Ok & ->).
  assert (Hheld : held l !! slot = Some (sc_version claim))
    by by rewrite (proj2 Hr slot); cbn; unfold identity, claim_key in Hk; rewrite Hk.
  assert (Hr1 : represents (set_claims (delete (identity claim) (e_claims db)) db) (sc_run_id claim)
                  (mk_lock (token l) (delete slot (held l)))).
  { split; [apply Hr|]. intros [case' ord']. cbn. unfold identity, claim_key.
    destruct (decide ((case', ord') = slot)) as [[= -> ->]|Hne]; [by rewrite !lookup_delete_eq|].
    rewrite !lookup_delete_ne by (unfold slot in *; congruence). apply Hr. }
  destruct (steps_refine _ _ _ _ Hr1 Hs2) as (l2 & Hl2 & Hr2).
  assert (Hret : retired (sc_version claim) l2)
    by (eapply (rtc_keeps lock_step (retired (sc_version claim)));
          [apply retired_step|by apply release_retires|done]).
  assert (Hno : ∀ c db', require_claim claim db2 ≠ (Ok c, db')).
  { intros c' db' (_ & _ & _ & value' & Hk' & _)%require_claim_Ok.
    apply (proj2 Hret slot). rewrite (proj2 Hr2 slot). cbn. unfold identity, claim_key in Hk'.
    by rewrite Hk'. }
  split_and!; [done| | |].
  - intros t x c' db' (? & ? & Hq & _)%renew_Ok. by apply Hno in Hq.
  - intros v db' (? & Hq & _)%release_Ok. by apply Hno in Hq.
  - intros org t c' db' (? & ? & ? & ? & ? & _ & _ & _ & Hq & _)%dispatch_Ok. by apply Hno in Hq.
Qed.
End refinement.
