(* ===== verification/Projection.v ===== *)
(** * Projection: the slots of a run, reconstructed from its terminal evidence

    Models [project_slots] and [project_candidate] of
    [src/src/qs_ai/infrastructure/persistence/mysql/evaluation_projection.py]: every dispatch of the
    ledger must have exactly one terminal record that matches its checkpoint, the executions of a
    target are numbered without a gap, and an accepted judgement agrees with the output it was read
    from.  The decoders are in [CompletionRecords].

    The identity of a decision is modelled on its declared types, two texts and an integer; a
    decision of another shape is a [TypeError] here. *)
From S2P Require Import Prelude PyText PyTime PyHash PyJson PyIso Failure Checkpoint Completion.
From S2P Require Import Actions Resolution CheckpointRecords CompletionRecords SlotClaims.

Local Open Scope string_scope.
Local Open Scope Z_scope.
Local Open Scope py_scope.

(** [list(range(1, n + 1))] *)
Definition numbered (ordinals : list Z) : bool :=
  ordinals == seqZ 1 (len ordinals).

(** An entry of the ledger under its invocation. *)
Definition ledger_of (dispatches : list (string * DispatchRow)) : gmap string (string * DispatchRow) :=
  dict_of fst dispatches.
Definition index_differs (entry : string * DispatchRow) (cp : ExecutionCheckpoint) : bool :=
  negb (indexed_by entry.2 cp) || (entry.1 != cp_invocation_id cp).

(** ** An accepted judgement *)

Notation decision_key := (string * string * Z)%type.
Definition key_of (d : json) : res decision_key :=
  type ← text_field d "type"; scope ← text_field d "scope"; ordinal ← int_field d "ordinal";
  Ok (type, scope, ordinal).
Definition keyed (d : json) : res (decision_key * json) := k ← key_of d; Ok (k, d).

(** [{key(d): d for d in l}] *)
Definition by_key (l : list (decision_key * json)) : gmap decision_key json :=
  foldl (λ m kd, <[kd.1 := kd.2]> m) ∅ l.

(** [dict(value)] of an object or of a list of pairs. *)
Definition pair_of (v : json) : res (string * json) :=
  match v with JList [JStr k; x] => Ok (k, x) | _ => Err TypeError end.
Definition dict_value (v : json) : res json :=
  match v with
  | JObj _ => Ok v
  | JList l => pairs ← mapM pair_of l; Ok (dict_of_pairs pairs)
  | _ => Err TypeError
  end.

(** Whether two decisions have the same type and ordinal: [(key[0], key[2])]. *)
Definition same_label (a b : decision_key) : bool := (a.1.1 == b.1.1) && (a.2 == b.2).

(** [expected.pop(key, None)], or the only key left that has its type and ordinal. *)
Definition pop_decision (key : decision_key) (expected : gmap decision_key json)
    : option (json * gmap decision_key json) :=
  match expected !! key with
  | Some raw => Some (raw, delete key expected)
  | None =>
    match List.filter (λ k, same_label k key) (map_to_list expected).*1 with
    | [k] => raw ← expected !! k; Some (raw, delete k expected)
    | _ => None
    end
  end.

Definition stripped_field (v : json) (k : string) : res json :=
  s ← text_field v k; Ok (JStr (strip s)).
Definition field_differs (a : res json) (b : res json) : res bool :=
  x ← a; y ← b; Ok (negb (json_eqb x y)).

(** The body of the loop over [result["decisions"]]; the state is [expected]. *)
Definition check_decision (result : json) (current : gmap decision_key json)
    (expected : gmap decision_key json) (decision : json) : res (gmap decision_key json) :=
  let mismatch := CheckpointConflict "Candidate decisions differ from accepted semantic result" in
  key ← key_of decision;
  match pop_decision key expected with
  | None => Err mismatch
  | Some (raw, expected) =>
    raise_ifM (Ok match current !! key with Some d => negb (json_eqb decision d) | None => true end
               <orM> field_differs (json_item decision "status") (json_item raw "status")
               <orM> field_differs (json_item decision "detail") (stripped_field raw "detail")
               <orM> field_differs (json_item decision "evaluator")
                       (json_item result "evaluator_version"))
      mismatch ;;
    Ok expected
  end.

Definition list_field (v : json) (k : string) : res (list json) :=
  x ← json_item v k; match x with JList l => Ok l | _ => Err TypeError end.

Definition check_result (stored result : json) (value : SemanticCompletion) : res unit :=
  output ← loads_bytes (sc_normalized_output value);
  raise_ifM (Ok (is_null result)
             <orM> field_differs (json_item result "output_fingerprint")
                     (Ok (JStr (output_fingerprint value)))
             <orM> field_differs (s ← json_item result "scores"; dict_value s)
                     (json_item output "scores")
             <orM> field_differs (json_item result "rationale") (stripped_field output "rationale"))
    (CheckpointConflict "Semantic result differs from normalized evidence") ;;
  raw ← list_field output "decisions";
  keyed_raw ← mapM keyed raw;
  let expected := by_key keyed_raw in
  decisions ← list_field result "decisions";
  raise_if (negb (Nat.eqb (size expected) (length raw))
            || negb (Nat.eqb (length decisions) (size expected)))
    (CheckpointConflict "Semantic decisions incomplete or duplicated") ;;
  assertions ← list_field stored "semantic_assertions";
  keyed_current ← mapM keyed assertions;
  foldM (check_decision result (by_key keyed_current)) expected decisions ;;
  Ok tt.

(** ** The judgements of a candidate *)

Definition text_json (o : option string) : json := optional_json (JStr <$> o).

(** The body of the loop over the history; the state is [(accepted, executions, seen)]. *)
Definition project_judgement (ledger : gmap string (string * DispatchRow))
    (authorized recovered : gset string) (stored : json) (generated : GenerationCompletion)
    (state : option string * list ExecutionResult * list string) (row : SemanticRow)
    : res (option string * list ExecutionResult * list string) :=
  let '(accepted, executions, seen) := state in
  let mismatch := CheckpointConflict "Semantic completion does not match candidate dispatch" in
  raise_if (is_some accepted)
    (CheckpointConflict "Semantic execution continued after accepted result") ;;
  value ← decode_semantic_completion row;
  match ledger !! sc_invocation_id value with
  | None => Err mismatch
  | Some entry =>
    cp ← decode (dp_checkpoint_json entry.2);
    match cp with
    | None => Err mismatch
    | Some cp =>
      raise_ifM (negM (semantic_matches_checkpoint value cp (cp_owner cp)
                         (gc_normalized_fingerprint generated))
                 <orM> Ok (((cp_case_id cp, cp_slot_ordinal cp)
                            != (gc_case_id generated, gc_slot_ordinal generated))
                           || (sc_invocation_id value is_in seen)))
        mismatch ;;
      raise_if (index_differs entry cp) (CheckpointConflict "Semantic dispatch index mismatch") ;;
      accepted ←
        (if sc_status value == "succeeded" then
           check_result stored (sr_result_json row) value ;; Ok (Some (sc_execution_id value))
         else
           raise_if (negb (is_null (sr_result_json row)))
             (CheckpointConflict "Failed semantic execution cannot contain result") ;;
           Ok None);
      execution ← construct (mk_ExecutionResult (sc_status value) (sc_failure value)
                               (sc_execution_id value is_in authorized)
                               (sc_execution_id value is_in recovered));
      Ok (accepted, (executions ++ [execution])%list, sc_invocation_id value :: seen)
    end
  end.

Definition candidate_history (id : json) (records : list SemanticRow) : list SemanticRow :=
  sort_by (λ a b, sr_execution_ordinal a <=? sr_execution_ordinal b)
    (List.filter (λ r, json_eqb (JStr (sr_candidate_id r)) id) records).

Definition project_candidate (stored : json) (generated : GenerationCompletion)
    (records : list SemanticRow) (ledger : gmap string (string * DispatchRow)) (seen : list string)
    (authorized recovered : gset string) : res (CandidateProgress * list string) :=
  id ← json_item stored "id";
  let history := candidate_history id records in
  raise_if (negb (numbered (sr_execution_ordinal <$> history)))
    (CheckpointConflict "Incomplete semantic execution sequence") ;;
  '(accepted, executions, seen) ←
    foldM (project_judgement ledger authorized recovered stored generated) (None, [], seen) history;
  raise_ifM (field_differs (json_item stored "review_ready") (Ok (JBool (is_some accepted)))
             <orM> field_differs (json_get stored "accepted_semantic_execution_id")
                     (Ok (text_json accepted)))
    (CheckpointConflict "Candidate review readiness lacks matching semantic evidence") ;;
  candidate_id ← text_field stored "id";
  review_ready ← bool_field stored "review_ready";
  candidate ← construct (mk_CandidateProgress candidate_id review_ready executions);
  Ok (candidate, seen).

(** ** The executions of a slot *)

(** The operator's decisions on unknown results, in their order; the state is
    [(prior, authorized)]. *)
Definition unknown_of (kind execution_id : string) (ordinal : Z) (evidence : json)
    : res (option UnknownExecution) :=
  status ← json_item evidence "status";
  if json_eqb status (JStr "result_unknown") then
    finished_at ← iso_item evidence "finished_at";
    u ← construct (mk_UnknownExecution execution_id kind ordinal finished_at);
    Ok (Some u)
  else Ok None.
Definition unknown_executions (records : list GenerationRow) (semantic_records : list SemanticRow)
    : res (list UnknownExecution) :=
  generated ← mapM (λ r, unknown_of "generation" (gr_execution_id r) (gr_execution_ordinal r)
                           (gr_evidence_json r)) records;
  judged ← mapM (λ r, unknown_of "semantic" (sr_execution_id r) (sr_execution_ordinal r)
                        (sr_evidence_json r)) semantic_records;
  Ok (omap id (generated ++ judged)%list).

Definition authorize (unknowns : list UnknownExecution) (policy : ExecutionPolicy)
    (state : list ResultUnknownResolution * gset string) (raw : json)
    : res (list ResultUnknownResolution * gset string) :=
  let '(prior, authorized) := state in
  resolution ← decode_resolution raw;
  result ← resolve_unknown "blocked" unknowns prior resolution policy;
  Ok (rp_resolutions result,
      if ru_decision resolution == "authorize_replacement"
      then {[ru_execution_id resolution]} ∪ authorized else authorized).

Definition authorized_replacements (records : list GenerationRow)
    (semantic_records : list SemanticRow) (resolutions : json) (policy : ExecutionPolicy)
    : res (gset string) :=
  if truthy resolutions then
    unknowns ← unknown_executions records semantic_records;
    resolutions ← iterate resolutions;
    '(_, authorized) ← foldM (authorize unknowns policy) ([], ∅) resolutions;
    Ok authorized
  else Ok ∅.

Notation slot_id := (string * Z)%type.
Notation generation := (GenerationCompletion * GenerationRow)%type.
Definition slot_of (g : GenerationCompletion) : slot_id := (gc_case_id g, gc_slot_ordinal g).

(** The body of the loop over the generation records; the state is [(grouped, seen)]. *)
Definition place_generation (ledger : gmap string (string * DispatchRow))
    (state : gmap slot_id (list generation) * list string) (row : GenerationRow)
    : res (gmap slot_id (list generation) * list string) :=
  let '(grouped, seen) := state in
  let unmatched := CheckpointConflict "Stored completion does not match dispatch checkpoint" in
  let unique := CheckpointConflict "Terminal evidence requires unique generation dispatch" in
  value ← decode_completion row;
  match ledger !! gc_invocation_id value with
  | None => Err unique
  | Some entry =>
    raise_if ((dp_kind entry.2 != "generation") || (gc_invocation_id value is_in seen)) unique ;;
    cp ← decode (dp_checkpoint_json entry.2);
    match cp with
    | None => Err unmatched
    | Some cp =>
      raise_ifM (negM (generation_matches_checkpoint value cp (cp_owner cp))) unmatched ;;
      raise_if (index_differs entry cp)
        (CheckpointConflict "Dispatch index differs from checkpoint evidence") ;;
      match grouped !! slot_of value with
      | None => Err (CheckpointConflict "Stored completion outside frozen slots")
      | Some l => Ok (<[slot_of value := (l ++ [(value, row)])%list]> grouped,
                      gc_invocation_id value :: seen)
      end
    end
  end.

(** The fields of the stored candidate against the completion that produced it. *)
Definition candidate_differs (row : GenerationRow) (value : GenerationCompletion) : res bool :=
  let stored := gr_candidate_json row in
  id ← json_item stored "id";
  execution_id ← json_item stored "generation_execution_id";
  fingerprint ← json_item stored "normalized_output_fingerprint";
  accepted_at ← json_item stored "accepted_at";
  Ok (negb (json_eqb id (text_json (gr_candidate_id row))
            && json_eqb execution_id (JStr (gc_execution_id value))
            && json_eqb fingerprint (JStr (gc_normalized_fingerprint value))
            && json_eqb accepted_at (time_json (gc_finished_at value)))).

Section slots.
Context (ledger : gmap string (string * DispatchRow)) (semantic_records : list SemanticRow).
Context (authorized recovered : gset string).

(** The body of the loop over the history of a slot; the state is
    [(candidate, executions, seen)]. *)
Definition project_generation
    (state : option CandidateProgress * list ExecutionResult * list string) (item : generation)
    : res (option CandidateProgress * list ExecutionResult * list string) :=
  let '(candidate, executions, seen) := state in
  let '(value, row) := item in
  let stored := gr_candidate_json row in
  raise_if (is_some candidate)
    (CheckpointConflict "Generation continued after candidate acceptance") ;;
  '(candidate, seen) ←
    (if gc_status value == "succeeded" then
       raise_ifM (Ok (negb (truthy stored)) <orM> candidate_differs row value
                  <orM> (negb ∘ truthy <$> json_get stored "assertions"))
         (CheckpointConflict "Successful generation missing matching candidate") ;;
       '(c, seen) ← project_candidate stored value semantic_records ledger seen authorized recovered;
       Ok (Some c, seen)
     else
       raise_if (negb (is_null stored) || is_some (gr_candidate_id row))
         (CheckpointConflict "Failed execution cannot own candidate") ;;
       Ok (None, seen));
  execution ← construct (mk_ExecutionResult (gc_status value) (gc_failure value)
                           (gc_execution_id value is_in authorized) false);
  Ok (candidate, (executions ++ [execution])%list, seen).

Definition by_ordinal (a b : generation) : bool :=
  gc_execution_ordinal a.1 <=? gc_execution_ordinal b.1.

(** The body of the loop over the plan; the state is [(slots, seen)]. *)
Definition project_slot (grouped : gmap slot_id (list generation))
    (state : list SlotProgress * list string) (slot : slot_id)
    : res (list SlotProgress * list string) :=
  let '(slots, seen) := state in
  let history := sort_by by_ordinal (default [] (grouped !! slot)) in
  raise_if (negb (numbered ((λ item, gc_execution_ordinal item.1) <$> history)))
    (CheckpointConflict "Incomplete terminal execution sequence") ;;
  '(candidate, executions, seen) ← foldM project_generation (None, [], seen) history;
  s ← construct (mk_SlotProgress slot.1 slot.2 executions candidate);
  Ok ((slots ++ [s])%list, seen).
End slots.

Definition planned_slot (slot : json) : res slot_id :=
  case_id ← text_field slot "case_id"; ordinal ← int_field slot "ordinal"; Ok (case_id, ordinal).

Definition project_slots (plan : json) (records : list GenerationRow)
    (dispatches : list (string * DispatchRow)) (semantic_records : list SemanticRow)
    (resolutions contract_recoveries : json) (policy : ExecutionPolicy) : res (list SlotProgress) :=
  recoveries ← decode_recoveries (if truthy contract_recoveries then contract_recoveries
                                  else JList []);
  semantics ← mapM decode_semantic_completion semantic_records;
  recovered ← validate_recoveries recoveries semantics policy;
  authorized ← authorized_replacements records semantic_records resolutions policy;
  let ledger := ledger_of dispatches in
  raise_if (negb (Nat.eqb (size ledger) (length dispatches))
            || negb (Nat.eqb (length records + length semantic_records) (size ledger)))
    (CheckpointConflict "Dispatch and terminal evidence require reconciliation") ;;
  plan ← iterate plan;
  plan ← mapM planned_slot plan;
  let grouped := list_to_map ((λ slot, (slot, [])) <$> plan) in
  '(grouped, seen) ← foldM (place_generation ledger) (grouped, []) records;
  '(slots, seen) ←
    foldM (project_slot ledger semantic_records authorized recovered grouped) ([], seen) plan;
  raise_if (bool_decide ((list_to_set seen : gset string) ≠ dom ledger))
    (CheckpointConflict "Unmatched dispatch or semantic candidate") ;;
  Ok slots.

Local Close Scope py_scope.

(** ** What the projection counts *)

(** The entries that the ledger counts for a target: the executions of a slot, or the judgements of
    a candidate in its slot. *)
Definition occupies (stage : string) (slot : slot_id) (candidate : string)
    (entry : string * DispatchRow) : bool :=
  bool_decide (dp_kind entry.2 = stage)
  && bool_decide ((dp_case_id entry.2, dp_slot_ordinal entry.2) = slot)
  && (bool_decide (stage = "generation") || bool_decide (dp_candidate_id entry.2 = candidate)).

Lemma json_eqb_of_str s v : json_eqb (JStr s) v = true → v = JStr s.
Proof. destruct v; cbn; try done. by intros ->%bool_decide_eq_true. Qed.

Lemma index_differs_false entry cp :
  index_differs entry cp = false →
  dp_kind entry.2 = cp_kind cp ∧ dp_case_id entry.2 = cp_case_id cp ∧
  dp_slot_ordinal entry.2 = cp_slot_ordinal cp ∧ dp_candidate_id entry.2 = cp_candidate_id cp.
Proof. unfold index_differs, indexed_by. intros H. bool_inv. by simplify_eq. Qed.

Section counting.
Context (ledger : gmap string (string * DispatchRow)).

Definition tally (p : string * DispatchRow → bool) (seen : list string) : nat :=
  length (List.filter (λ i, from_option p false (ledger !! i)) seen).

Lemma tally_cons p i e seen :
  ledger !! i = Some e → tally p (i :: seen) = ((if p e then 1 else 0) + tally p seen)%nat.
Proof. intros He. unfold tally. cbn. rewrite He. cbn. by destruct (p e). Qed.
Lemma tally_app p l k : tally p (l ++ k) = (tally p l + tally p k)%nat.
Proof. unfold tally. by rewrite List.filter_app, length_app. Qed.
#[global] Instance tally_proper p : Proper ((≡ₚ) ==> (=)) (tally p).
Proof.
  intros l k H. unfold tally. induction H as [|x l k _ IH|x y l|l k m _ IH1 _ IH2];
    cbn; repeat case_match; cbn; congruence.
Qed.

(** Invocations newly seen, all of them counted for exactly the targets [p]. *)
Record entered (p : string → slot_id → string → bool) (invs seen : list string) : Prop := {
  entered_new : NoDup seen → NoDup (invs ++ seen);
  entered_ledger i : i ∈ invs → ∃ e, ledger !! i = Some e ∧
    ∀ stage slot c, occupies stage slot c e = p stage slot c;
}.

Lemma entered_nil p seen : entered p [] seen.
Proof. split; [done|]. by intros i ?%not_elem_of_nil. Qed.

Lemma entered_cons p i e invs seen :
  entered p invs seen → ledger !! i = Some e → i ∉ (invs ++ seen)%list →
  (∀ stage slot c, occupies stage slot c e = p stage slot c) → entered p (i :: invs) seen.
Proof.
  intros [Hn Hl] He Hi Hp. split; [intros ?; cbn; constructor; auto|].
  intros j [->|Hj]%elem_of_cons; [eauto|auto].
Qed.

Lemma entered_tally p invs seen stage slot c :
  entered p invs seen →
  tally (occupies stage slot c) (invs ++ seen)
  = ((if p stage slot c then length invs else 0) + tally (occupies stage slot c) seen)%nat.
Proof.
  intros [_ Hl]. rewrite tally_app. f_equal.
  induction invs as [|i invs IH]; [by destruct (p stage slot c)|].
  destruct (Hl i) as (e & He & Hp); [by left|]. rewrite (tally_cons _ _ e) by done.
  rewrite IH by (intros j Hj; apply Hl; by right). rewrite Hp. by destruct (p stage slot c).
Qed.
End counting.

(** *** Generations *)

Definition counts_generation (slot : slot_id) : string → slot_id → string → bool :=
  λ stage s _, bool_decide (stage = "generation") && bool_decide (s = slot).
Definition counts_judgement (slot : slot_id) (id : string) : string → slot_id → string → bool :=
  λ stage s c, bool_decide (stage = "semantic") && bool_decide (s = slot) && bool_decide (c = id).

Lemma decode_completion_slot row v :
  decode_completion row = Ok v →
  gc_execution_ordinal v = gr_execution_ordinal row ∧ gc_execution_id v = gr_execution_id row.
Proof. unfold decode_completion. intros H. py_inv. by simplify_eq. Qed.

Lemma decode_semantic_inv row v :
  decode_semantic_completion row = Ok v →
  sc_candidate_id v = sr_candidate_id row ∧ sc_execution_ordinal v = sr_execution_ordinal row.
Proof. unfold decode_semantic_completion. intros H. py_inv. by simplify_eq. Qed.

Lemma place_generation_Ok ledger grouped seen row st :
  place_generation ledger (grouped, seen) row = Ok st →
  ∃ value entry l, decode_completion row = Ok value ∧
    ledger !! gc_invocation_id value = Some entry ∧ gc_invocation_id value ∉ seen ∧
    (∀ stage slot c, occupies stage slot c entry = counts_generation (slot_of value) stage slot c) ∧
    grouped !! slot_of value = Some l ∧
    st = (<[slot_of value := (l ++ [(value, row)])%list]> grouped, gc_invocation_id value :: seen).
Proof.
  unfold place_generation. intros H. py_inv.
  destruct (ledger !! gc_invocation_id x) as [entry|] eqn:He; [|done]. py_inv.
  match goal with H : decode _ = Ok ?o |- _ => destruct o as [cp|]; [|done] end. py_inv.
  rename select (generation_matches_checkpoint _ _ _ = _) into Hm.
  rename select (index_differs _ _ = _) into Hi.
  destruct (grouped !! slot_of x) as [l|] eqn:Hg; [|done]. py_inv.
  apply generation_matches_iff in Hm as (_ & Hk & _ & _ & _ & Hc & Hs & _).
  apply index_differs_false in Hi as (Hk' & Hc' & Hs' & _).
  eexists _, entry, l. split_and!; try done. intros stage slot c.
  unfold occupies, counts_generation, slot_of. rewrite Hk', Hk, Hc', Hs', <- Hc, <- Hs.
  destruct (bool_decide_reflect (stage = "generation")) as [->|Hne].
  - rewrite bool_decide_eq_true_2 by done. cbn. rewrite andb_true_r.
    apply bool_decide_ext. naive_solver.
  - rewrite bool_decide_eq_false_2 by congruence. done.
Qed.

(** After the loop over the generation records every slot holds its own completions, and the ledger
    has as many entries for the slot. *)
Record placed (ledger : gmap string (string * DispatchRow)) (records : list GenerationRow)
    (grouped : gmap slot_id (list generation)) (seen : list string) : Prop := {
  placed_nodup : NoDup seen;
  placed_known i : i ∈ seen → is_Some (ledger !! i);
  placed_count slot c :
    tally ledger (occupies "generation" slot c) seen = length (default [] (grouped !! slot));
  placed_semantic slot c : tally ledger (occupies "semantic" slot c) seen = 0%nat;
  placed_own slot item :
    item ∈ default [] (grouped !! slot) →
    item.2 ∈ records ∧ slot_of item.1 = slot ∧ decode_completion item.2 = Ok item.1;
}.

Lemma placed_start ledger records (plan : list slot_id) :
  placed ledger records (list_to_map ((λ slot, (slot, [])) <$> plan)) [].
Proof.
  assert (Hg : ∀ slot, default [] ((list_to_map ((λ slot : slot_id, (slot, [] : list generation)) <$> plan)
                         : gmap slot_id (list generation)) !! slot) = []).
  { intros slot. induction plan as [|s plan IH]; [done|]. cbn. destruct (decide (s = slot)) as [->|Hne].
    - by rewrite lookup_insert_eq.
    - by rewrite lookup_insert_ne. }
  split; try done.
  - constructor.
  - by intros i ?%not_elem_of_nil.
  - intros slot c. by rewrite Hg.
  - intros slot item. rewrite Hg. by intros ?%not_elem_of_nil.
Qed.

Lemma placed_step ledger records grouped seen row st :
  row ∈ records → placed ledger records grouped seen →
  place_generation ledger (grouped, seen) row = Ok st → placed ledger records st.1 st.2.
Proof.
  intros Hrow [Hnd Hk Hc Hs Ho] (value & entry & l & Hd & He & Hn & Hp & Hg & ->)%place_generation_Ok.
  split; cbn [fst snd].
  - by constructor.
  - intros i [->|Hi]%elem_of_cons; eauto.
  - intros slot c. rewrite (tally_cons _ _ _ entry) by done. rewrite Hp, Hc. unfold counts_generation.
    destruct (decide (slot = slot_of value)) as [->|Hne].
    + rewrite lookup_insert_eq, !bool_decide_eq_true_2, Hg by done. cbn. rewrite length_app. cbn. lia.
    + rewrite lookup_insert_ne by congruence. by rewrite (bool_decide_eq_false_2 (slot = _)).
  - intros slot c. rewrite (tally_cons _ _ _ entry) by done. by rewrite Hp, Hs.
  - intros slot item. destruct (decide (slot = slot_of value)) as [->|Hne].
    + rewrite lookup_insert_eq. cbn. intros [Hi| ->%list_elem_of_singleton]%elem_of_app; [|done].
      apply Ho. rewrite Hg. exact Hi.
    + rewrite lookup_insert_ne by congruence. apply Ho.
Qed.

Lemma placed_all ledger plan records grouped seen :
  foldM (place_generation ledger) (list_to_map ((λ slot, (slot, [])) <$> plan), []) records
  = Ok (grouped, seen) → placed ledger records grouped seen.
Proof.
  intros H. change (placed ledger records (grouped, seen).1 (grouped, seen).2).
  eapply (foldM_ind (place_generation ledger) (λ st, placed ledger records st.1 st.2)); [| |exact H].
  - intros [g s] row st Hrow Hp Hs. by eapply placed_step.
  - apply placed_start.
Qed.

(** *** Judgements *)

(** What the executions of a slot keep of the evidence. *)
Definition reports_generation (e : ExecutionResult) (item : generation) : Prop :=
  er_status e = gc_status item.1 ∧ er_failure e = gc_failure item.1.

Lemma project_judgement_Ok ledger authorized recovered stored generated accepted executions seen row st :
  project_judgement ledger authorized recovered stored generated (accepted, executions, seen) row
  = Ok st →
  accepted = None ∧
  ∃ value entry e, decode_semantic_completion row = Ok value ∧
    ledger !! sc_invocation_id value = Some entry ∧ sc_invocation_id value ∉ seen ∧
    (∀ stage slot c, occupies stage slot c entry
                     = counts_judgement (slot_of generated) (sr_candidate_id row) stage slot c) ∧
    constructed e ∧ er_status e = sc_status value ∧ er_failure e = sc_failure value ∧
    st = (if bool_decide (sc_status value = "succeeded") then Some (sc_execution_id value) else None,
          (executions ++ [e])%list, sc_invocation_id value :: seen).
Proof.
  unfold project_judgement. intros H. py_inv. split; [done|]. subst accepted.
  destruct (ledger !! sc_invocation_id x) as [entry|] eqn:He; [|done]. py_inv.
  match goal with H : decode _ = Ok ?o |- _ => destruct o as [cp|]; [|done] end. py_inv.
  rename select (semantic_matches_checkpoint _ _ _ _ = _) into Hm.
  rename select (index_differs _ _ = _) into Hi.
  apply semantic_matches_iff in Hm as (_ & Hk & _ & _ & _ & Hc & _ & _ & _).
  apply index_differs_false in Hi as (Hk' & Hc' & Hs' & Hd').
  rename select (decode_semantic_completion _ = _) into Hd.
  pose proof (decode_semantic_inv _ _ Hd) as [Hcand _].
  match goal with H : construct _ = Ok _ |- _ => apply construct_Ok in H as [Hcon ->] end.
  eexists _, entry, _. split_and!; try done.
  - intros stage slot c. unfold occupies, counts_judgement, slot_of.
    rewrite Hk', Hk, Hc', Hs', Hd', <- Hc, Hcand.
    match goal with H : (cp_case_id _, _) = _ |- _ => rewrite H end.
    destruct (bool_decide_reflect (stage = "semantic")) as [->|Hne].
    + cbn. f_equal; apply bool_decide_ext; naive_solver.
    + rewrite (bool_decide_eq_false_2 ("semantic" = stage)) by congruence. done.
  - if_inv; py_inv; done.
Qed.

Definition judged_by (rows : list SemanticRow) (executions : list ExecutionResult) : Prop :=
  Forall2 (λ e row, ∃ value, decode_semantic_completion row = Ok value ∧
             er_status e = sc_status value ∧ er_failure e = sc_failure value) executions rows.

Lemma project_judgements_Ok ledger authorized recovered stored generated id rows seen0 st :
  Forall (λ r, sr_candidate_id r = id) rows →
  foldM (project_judgement ledger authorized recovered stored generated) (None, [], seen0) rows
  = Ok st →
  ∃ invs, st.2 = (invs ++ seen0)%list ∧ length invs = length st.1.2 ∧
    entered ledger (counts_judgement (slot_of generated) id) invs seen0 ∧
    judged_by rows st.1.2.
Proof.
  induction rows as [|row rows IH] using rev_ind in st |- *; intros Hrows.
  { cbn. intros [= <-]. exists []. split_and!; [done..|apply entered_nil|constructor]. }
  apply Forall_app in Hrows as [Hrows [Hid _]%Forall_cons].
  intros ([[accepted executions] seen] & Hf & Hs)%foldM_snoc.
  destruct (IH _ Hrows Hf) as (invs & Hseen & Hlen & Hent & Hj). cbn in Hseen, Hlen, Hj. subst seen.
  apply project_judgement_Ok in Hs
    as (_ & value & entry & e & Hd & He & Hn & Hp & _ & Hst & Hfl & ->).
  exists (sc_invocation_id value :: invs). cbn. split_and!; [done| |eapply entered_cons; eauto|].
  - rewrite length_app. cbn. lia.
  - by rewrite <- Hid.
  - apply Forall2_app; [done|]. constructor; [eauto|constructor].
Qed.

Lemma project_candidate_Ok stored generated records ledger seen authorized recovered c seen' :
  project_candidate stored generated records ledger seen authorized recovered = Ok (c, seen') →
  ∃ invs, seen' = (invs ++ seen)%list ∧ length invs = length (cand_semantic c) ∧
    entered ledger (counts_judgement (slot_of generated) (cand_id c)) invs seen ∧
    constructed c ∧ json_item stored "id" = Ok (JStr (cand_id c)) ∧
    judged_by (candidate_history (JStr (cand_id c)) records) (cand_semantic c).
Proof.
  unfold project_candidate. intros H. py_inv. destruct x0 as [[accepted executions] seen1]. py_inv.
  match goal with H : construct _ = Ok _ |- _ => apply construct_Ok in H as [Hcon ->] end.
  cbn [cand_id cand_semantic].
  rename select (text_field _ _ = _) into Hid. rename select (json_item stored "id" = _) into Hx.
  unfold text_field in Hid. rewrite Hx in Hid. cbn in Hid. destruct x; try done. injection Hid as <-.
  rename select (foldM _ _ _ = _) into Hf.
  eapply project_judgements_Ok in Hf as (invs & Hs & Hl & He & Hj);
    [cbn in Hs, Hl, Hj; subst; by exists invs|].
  apply sort_by_forall, Forall_forall. intros r Hr.
  apply list_elem_of_In, List.filter_In in Hr as [_ Hr].
  apply json_eqb_of_str in Hr. congruence.
Qed.

(** *** A slot *)

(** The entries that the judgements of a slot's candidate account for. *)
Definition judgements_of (candidate : option CandidateProgress) (id : string) : nat :=
  match candidate with
  | Some c => if bool_decide (id = cand_id c) then length (cand_semantic c) else 0
  | None => 0
  end.
Definition counts_candidate (slot : slot_id) (candidate : option CandidateProgress)
    : string → slot_id → string → bool :=
  match candidate with
  | Some c => counts_judgement slot (cand_id c)
  | None => λ _ _ _, false
  end.

Lemma project_generations_Ok ledger records authorized recovered slot items seen0 candidate executions seen :
  Forall (λ item, slot_of item.1 = slot) items →
  foldM (project_generation ledger records authorized recovered) (None, [], seen0) items
  = Ok (candidate, executions, seen) →
  ∃ invs, seen = (invs ++ seen0)%list ∧ Forall2 reports_generation executions items ∧
    entered ledger (counts_candidate slot candidate) invs seen0 ∧
    length invs = from_option (length ∘ cand_semantic) 0%nat candidate.
Proof.
  intros Hitems. revert candidate executions seen.
  induction items as [|[value row] items IH] using rev_ind; intros candidate executions seen.
  { cbn. intros [= <- <- <-]. exists []. split_and!; [done|constructor|apply entered_nil|done]. }
  apply Forall_app in Hitems as [Hitems [Hslot _]%Forall_cons]. cbn in Hslot.
  intros ([[candidate1 executions1] seen1] & Hf & Hs)%foldM_snoc.
  destruct (IH Hitems _ _ _ Hf) as (invs & -> & Hrep & Hent & Hlen).
  unfold project_generation in Hs. py_inv. subst candidate1. cbn in Hlen. apply nil_length_inv in Hlen as ->.
  destruct x as [candidate2 seen2]. ok_inv.
  match goal with H : construct _ = Ok _ |- _ => apply construct_Ok in H as [_ ->] end.
  assert (Hrep2 : ∀ b, Forall2 reports_generation
            (executions1 ++ [mk_ExecutionResult (gc_status value) (gc_failure value) b false])
            (items ++ [(value, row)]))
    by (intros b; apply Forall2_app; [done|]; by repeat constructor).
  if_inv; py_inv.
  - match goal with H : project_candidate _ _ _ _ _ _ _ = Ok ?x |- _ =>
      destruct x as [c s]; apply project_candidate_Ok in H as (invs & -> & Hl & He & _) end.
    ok_inv. exists invs. by split_and!.
  - exists []. by split_and!.
Qed.

Lemma counts_candidate_generation slot candidate s c :
  counts_candidate slot candidate "generation" s c = false.
Proof. by destruct candidate. Qed.
Lemma counts_candidate_other slot candidate s c :
  s ≠ slot → counts_candidate slot candidate "semantic" s c = false.
Proof.
  intros Hs. destruct candidate; [|done]. cbn. unfold counts_judgement.
  by rewrite (bool_decide_eq_false_2 (s = slot)).
Qed.
Lemma counts_candidate_own slot candidate invs id :
  length invs = from_option (length ∘ cand_semantic) 0%nat candidate →
  (if counts_candidate slot candidate "semantic" slot id then length (invs : list string) else 0%nat)
  = judgements_of candidate id.
Proof.
  destruct candidate as [c|]; [|done]. cbn. unfold counts_judgement. intros ->.
  by rewrite (bool_decide_eq_true_2 (slot = slot)).
Qed.

(** A slot and the evidence it was read from. *)
Definition slot_history_of (grouped : gmap slot_id (list generation)) (s : SlotProgress) : Prop :=
  ∃ history, history ≡ₚ default [] (grouped !! slot_key s) ∧
    (λ item, gc_execution_ordinal item.1) <$> history = seqZ 1 (len history) ∧
    Forall2 reports_generation (sp_generation s) history.

Record projected (ledger : gmap string (string * DispatchRow))
    (grouped : gmap slot_id (list generation)) (seen0 : list string) (prefix : list slot_id)
    (slots : list SlotProgress) (seen : list string) : Prop := {
  projected_keys : slot_key <$> slots = prefix;
  projected_nodup : NoDup seen;
  projected_generation slot c :
    tally ledger (occupies "generation" slot c) seen
    = tally ledger (occupies "generation" slot c) seen0;
  projected_later slot c :
    slot ∉ prefix → tally ledger (occupies "semantic" slot c) seen = 0%nat;
  projected_slot s :
    s ∈ slots → slot_history_of grouped s ∧
      ∀ id, tally ledger (occupies "semantic" (slot_key s) id) seen
            = judgements_of (sp_candidate s) id;
}.

Lemma project_slot_step ledger records authorized recovered grouped seen0 prefix slots seen slot st :
  (∀ slot item, item ∈ default [] (grouped !! slot) → slot_of item.1 = slot) →
  slot ∉ prefix → projected ledger grouped seen0 prefix slots seen →
  project_slot ledger records authorized recovered grouped (slots, seen) slot = Ok st →
  projected ledger grouped seen0 (prefix ++ [slot]) st.1 st.2.
Proof.
  intros Hown Hnew [Hkeys Hnd Hgen Hlater Hslots]. unfold project_slot, numbered. intros H. py_inv.
  destruct x as [[candidate executions] seen1]. py_inv.
  rename select (foldM _ _ _ = _) into Hf.
  match goal with H : construct _ = Ok _ |- _ => apply construct_Ok in H as [_ ->] end.
  set (history := sort_by by_ordinal (default [] (grouped !! slot))) in *.
  assert (Hperm : history ≡ₚ default [] (grouped !! slot)) by apply sort_by_perm.
  apply (project_generations_Ok ledger records authorized recovered slot) in Hf
    as (invs & -> & Hrep & Hent & Hlen).
  2: { rewrite Hperm. apply Forall_forall. apply Hown. }
  destruct slot as [case_id ordinal]. cbn [fst snd].
  split; cbn [fst snd].
  - by rewrite fmap_app.
  - by apply (entered_new _ _ _ _ Hent).
  - intros s c. rewrite (entered_tally _ _ _ _ _ _ _ Hent), counts_candidate_generation. apply Hgen.
  - intros s c [Hs Hne%not_elem_of_cons]%not_elem_of_app.
    rewrite (entered_tally _ _ _ _ _ _ _ Hent), counts_candidate_other by tauto. by apply Hlater.
  - intros s [Hs| ->%list_elem_of_singleton]%elem_of_app.
    + destruct (Hslots s Hs) as [Hh Ht]. split; [done|]. intros id.
      rewrite (entered_tally _ _ _ _ _ _ _ Hent), counts_candidate_other; [apply Ht|].
      intros Heq. apply Hnew. rewrite <- Heq. by apply list_elem_of_fmap_2.
    + split.
      * exists history. split_and!; [done| |done].
        rename select (_ <$> history = _) into Hord. rewrite Hord. unfold len. by rewrite length_fmap.
      * intros id. change (slot_key _) with (case_id, ordinal). cbn [sp_candidate].
        rewrite (entered_tally _ _ _ _ _ _ _ Hent), (counts_candidate_own _ _ _ _ Hlen).
        rewrite Hlater by done. lia.
Qed.

Lemma project_slots_fold ledger records authorized recovered grouped seen0 plan slots seen :
  (∀ slot item, item ∈ default [] (grouped !! slot) → slot_of item.1 = slot) →
  NoDup seen0 → NoDup plan → (∀ slot c, tally ledger (occupies "semantic" slot c) seen0 = 0%nat) →
  foldM (project_slot ledger records authorized recovered grouped) ([], seen0) plan
  = Ok (slots, seen) →
  projected ledger grouped seen0 plan slots seen.
Proof.
  intros Hown Hnd Hplan Hsem. revert slots seen.
  induction plan as [|slot plan IH] using rev_ind; intros slots seen.
  { cbn. intros [= <- <-]. split; try done. by intros s ?%not_elem_of_nil. }
  intros ([slots1 seen1] & Hf & Hs)%foldM_snoc.
  apply NoDup_app in Hplan as (Hplan & Hd & _).
  specialize (IH Hplan _ _ Hf).
  change (projected ledger grouped seen0 (plan ++ [slot]) (slots, seen).1 (slots, seen).2).
  eapply project_slot_step; [exact Hown| |exact IH|exact Hs].
  intros Hin. apply (Hd _ Hin). by left.
Qed.

(** *** The whole ledger *)

Lemma tally_dispatches p dispatches seen :
  NoDup dispatches.*1 → NoDup seen → (list_to_set seen : gset string) = dom (ledger_of dispatches) →
  tally (ledger_of dispatches) p seen = length (List.filter p dispatches).
Proof.
  intros Hd Hs Heq. assert (Hperm : seen ≡ₚ dispatches.*1).
  { apply NoDup_Permutation; [done..|]. intros i.
    rewrite <- (elem_of_list_to_set (C := gset string)), Heq. unfold ledger_of.
    by rewrite dict_of_dom, elem_of_list_to_set. }
  rewrite Hperm. assert (Hin : ∀ x, x ∈ dispatches → x ∈ dispatches) by done.
  revert Hin. generalize dispatches at 1 4 5. intros l.
  induction l as [|x l IH]; intros Hin; [done|]. cbn [fmap list_fmap List.map List.filter].
  rewrite (tally_cons _ _ _ x) by (apply dict_of_lookup_NoDup; [done|]; split; [apply Hin; by left|done]).
  rewrite IH by (intros y Hy; apply Hin; by right). by destruct (p x).
Qed.

(** The entries of the ledger for a target. *)
Definition entries (dispatches : list (string * DispatchRow)) (stage : string) (slot : slot_id)
    (candidate : string) : list (string * DispatchRow) :=
  List.filter (occupies stage slot candidate) dispatches.

Lemma project_slot_keys ledger records authorized recovered grouped seen0 plan slots seen :
  foldM (project_slot ledger records authorized recovered grouped) ([], seen0) plan
  = Ok (slots, seen) → slot_key <$> slots = plan.
Proof.
  revert slots seen. induction plan as [|[case_id ordinal] plan IH] using rev_ind; intros slots seen.
  { cbn. by intros [= <- <-]. }
  intros ([slots1 seen1] & Hf%IH & Hs)%foldM_snoc. unfold project_slot in Hs. py_inv.
  destruct x as [[candidate executions] seen2]. py_inv.
  match goal with H : construct _ = Ok _ |- _ => apply construct_Ok in H as [_ ->] end.
  by rewrite fmap_app.
Qed.

Lemma project_slots_Ok plan records dispatches semantics resolutions recoveries policy slots :
  project_slots plan records dispatches semantics resolutions recoveries policy = Ok slots →
  (l ← iterate plan; mapM planned_slot l) = Ok (slot_key <$> slots) ∧
  (NoDup (slot_key <$> slots) →
   ∃ grouped seen0 seen, placed (ledger_of dispatches) records grouped seen0 ∧
     projected (ledger_of dispatches) grouped seen0 (slot_key <$> slots) slots seen ∧
     NoDup dispatches.*1 ∧ (list_to_set seen : gset string) = dom (ledger_of dispatches)).
Proof.
  unfold project_slots. intros H. py_inv.
  repeat (match goal with x : _ * _ |- _ => destruct x end; py_inv).
  rename select (foldM (project_slot _ _ _ _ _) _ _ = _) into Hf.
  pose proof (project_slot_keys _ _ _ _ _ _ _ _ _ Hf) as Hkeys.
  split.
  { rename select (iterate plan = _) into Hi. rewrite Hi. cbn. by rewrite Hkeys. }
  intros Hnd. rewrite Hkeys in *.
  match goal with H : foldM (place_generation _) _ _ = Ok _ |- _ =>
    pose proof (placed_all _ _ _ _ _ H) as Hplaced end.
  apply project_slots_fold in Hf;
    [|by intros slot item (_ & Hi & _)%(placed_own _ _ _ _ Hplaced)|apply Hplaced|done|apply Hplaced].
  match goal with H : Nat.eqb (size _) (length dispatches) = true |- _ =>
    apply Nat.eqb_eq, dict_of_size in H end.
  do 3 eexists. split_and!; [done|exact Hf|done|].
  match goal with H : ¬ (_ ≠ _) |- _ => by apply dec_stable in H end.
Qed.

(** A reconstructed slot against the ledger. *)
Lemma projected_slot_counts records dispatches grouped seen0 seen keys slots s :
  placed (ledger_of dispatches) records grouped seen0 →
  projected (ledger_of dispatches) grouped seen0 keys slots seen → NoDup dispatches.*1 →
  (list_to_set seen : gset string) = dom (ledger_of dispatches) → s ∈ slots →
  (∀ c, length (sp_generation s) = length (entries dispatches "generation" (slot_key s) c)) ∧
  (∀ id, judgements_of (sp_candidate s) id
         = length (entries dispatches "semantic" (slot_key s) id)).
Proof.
  intros Hp [_ Hs Hgen _ Hslots] Hd Heq Hin.
  destruct (Hslots s Hin) as [(history & Hperm & _ & Hrep) Hsem]. unfold entries. split.
  - intros c. rewrite <- (tally_dispatches _ _ _ Hd Hs Heq), Hgen.
    rewrite (placed_count _ _ _ _ Hp), <- Hperm. by eapply Forall2_length.
  - intros id. by rewrite <- (tally_dispatches _ _ _ Hd Hs Heq), Hsem.
Qed.

(** C9: The reconstruction accounts for the whole ledger: a slot reports the completions of its frozen
    place, numbered from one without a gap and in that order, and it has exactly as many executions
    as the ledger has dispatches for the slot, and as many judgements of a candidate as the ledger
    has dispatches for that candidate in the slot: none is lost, repeated or borrowed. *)
Theorem projection_accounts plan records dispatches semantics resolutions recoveries policy slots :
  project_slots plan records dispatches semantics resolutions recoveries policy = Ok slots →
  NoDup (slot_key <$> slots) →
  (l ← iterate plan; mapM planned_slot l) = Ok (slot_key <$> slots) ∧
  ∀ s, s ∈ slots →
    (∃ history : list generation,
       Forall (λ item, item.2 ∈ records ∧ decode_completion item.2 = Ok item.1 ∧
                       slot_of item.1 = slot_key s) history ∧
       (λ item, gc_execution_ordinal item.1) <$> history = seqZ 1 (len history) ∧
       Forall2 reports_generation (sp_generation s) history) ∧
    (∀ c, length (sp_generation s) = length (entries dispatches "generation" (slot_key s) c)) ∧
    (∀ id, judgements_of (sp_candidate s) id
           = length (entries dispatches "semantic" (slot_key s) id)).
Proof.
  intros H Hnd. destruct (project_slots_Ok _ _ _ _ _ _ _ _ H) as [Hkeys Hp].
  destruct (Hp Hnd) as (grouped & seen0 & seen & Hpl & Hpr & Hd & Heq).
  split; [done|]. intros s Hin. split.
  - destruct (projected_slot _ _ _ _ _ _ Hpr s Hin) as [(history & Hperm & Hord & Hrep) _].
    exists history. split_and!; [|done..]. rewrite Hperm. apply Forall_forall. intros item Hi.
    destruct (placed_own _ _ _ _ Hpl _ _ Hi) as (? & ? & ?). done.
  - exact (projected_slot_counts _ _ _ _ _ _ _ _ Hpl Hpr Hd Heq Hin).
Qed.
