(* ===== verification/Acceptance.v ===== *)
(** * Acceptance: which terminal evidence an evaluation run accepts

    Models [src/src/qs_ai/application/evaluation/completion.py], [resolve_semantic_route] of
    [src/src/qs_ai/application/evaluation/release.py],
    [src/src/qs_ai/infrastructure/qs_server/evaluation_assertions.py],
    [src/src/qs_ai/infrastructure/qs_server/semantic_output.py] and the pure parts of
    [generation_candidate] and [read_semantic_acceptance]
    ([src/src/qs_ai/infrastructure/persistence/mysql/evaluation_completions.py],
    [evaluation_semantic.py]).

    The readers of immutable assets are the ports [RouteReader] and [SchemaReader]; the validation of
    a value against a JSON schema is third-party code and a parameter.  A decision is modelled on its
    declared types, which the frozen schema demands; the diagnostics of a refused decision are left
    out of its exception. *)
From S2P Require Import Prelude PyText PyTime PyHash PyJson JsonRoundTrip JsonValues PyIso.
From S2P Require Import Failure Checkpoint Completion.
From S2P Require Import Preflight Actions Publication Policies CheckpointRecords CompletionRecords.
From S2P Require Import SlotClaims Projection.

Local Open Scope string_scope.
Local Open Scope Z_scope.
Local Open Scope py_scope.

(** ** Assets *)

Record RouteAsset : Type := mk_RouteAsset {
  ra_route : string;
  ra_revision : string;
  ra_fingerprint : string;
  ra_definition_json : string;
}.
Record SchemaAsset : Type := mk_SchemaAsset {
  sa_schema_id : string;
  sa_version : string;
  sa_fingerprint : string;
  sa_definition_json : string;
}.

(** The ports, and the schema validator of the library the code calls. *)
Class Assets : Type := {
  routes_get : string → string → option RouteAsset;
  schemas_get : string → string → option SchemaAsset;
  check_schema : json → res unit;
  schema_is_valid : json → json → bool;
}.

Section assets.
Context `{Assets}.

(** [route is None or (route.route, route.revision, route.fingerprint) != (...)] *)
Definition resolve_route (msg : string) (ref : FrozenContractRef) : res RouteAsset :=
  match routes_get (f_id ref) (f_version ref) with
  | Some route =>
    raise_if ((ra_route route, ra_revision route, ra_fingerprint route)
              != (f_id ref, f_version ref, f_fingerprint ref)) (ManifestUnavailable msg) ;;
    Ok route
  | None => Err (ManifestUnavailable msg)
  end.
Definition resolve_semantic_route (release : EvidenceReleaseIdentity) : res RouteAsset :=
  resolve_route "Evaluation semantic route missing or mismatched" (er_semantic_route release).

(** [(receipt.provider, receipt.model) != (definition["provider"], definition["model"])] *)
Definition receipt_differs (receipt : ProviderReceipt) (definition : json) : res bool :=
  provider ← json_item definition "provider";
  model ← json_item definition "model";
  Ok (negb (json_eqb (JStr (pr_provider receipt)) provider
            && json_eqb (JStr (pr_model receipt)) model)).
Definition optional_receipt_differs (receipt : option ProviderReceipt) (definition : json)
    : res bool :=
  match receipt with None => Ok false | Some r => receipt_differs r definition end.

Definition validate_generation_completion (release : EvidenceReleaseIdentity)
    (completion : GenerationCompletion) : res unit :=
  route ← resolve_route "Evaluation generation route missing or mismatched"
            (er_generation_route release);
  definition ← loads (ra_definition_json route);
  raise_ifM (optional_receipt_differs (gc_receipt completion) definition)
    (ValueError "Provider receipt does not match frozen generation route") ;;
  if gc_status completion != "succeeded" then Ok tt
  else
    let ref := er_output_schema release in
    match eat (f_id ref ++ "/") (f_version ref) with
    | None => Err (ManifestUnavailable "Evaluation output schema version is not fully qualified")
    | Some version =>
      match schemas_get (f_id ref) version with
      | Some schema =>
        raise_if ((sa_schema_id schema, sa_schema_id schema ++ "/" ++ sa_version schema,
                   sa_fingerprint schema) != (f_id ref, f_version ref, f_fingerprint ref))
          (ManifestUnavailable "Evaluation output schema missing or mismatched") ;;
        definition ← loads (sa_definition_json schema);
        check_schema definition ;;
        output ← loads_bytes (gc_normalized_output completion);
        raise_if (negb (schema_is_valid definition output))
          (ValueError "Successful generation output violates frozen schema")
      | None => Err (ManifestUnavailable "Evaluation output schema missing or mismatched")
      end
    end.
End assets.

(** ** The candidate of a successful generation *)

(** [asdict(assertion)] *)
Definition assertion_dict (a : AssertionReceipt) : json :=
  JObj [("type", JStr (ar_type a)); ("scope", JStr (ar_scope a)); ("ordinal", JInt (ar_ordinal a));
        ("hard", JBool (ar_hard a)); ("evaluator", JStr (ar_evaluator a));
        ("status", JStr (ar_status a)); ("detail", JStr (ar_detail a))].

Definition candidate_dict (completion : GenerationCompletion) (candidate_id : string)
    (assertions : list AssertionReceipt) : json :=
  JObj [("id", JStr candidate_id); ("generation_execution_id", JStr (gc_execution_id completion));
        ("normalized_output_fingerprint", JStr (gc_normalized_fingerprint completion));
        ("accepted_at", time_json (gc_finished_at completion));
        ("assertions", JList (assertion_dict <$> assertions)); ("review_ready", JBool false)].

(** The candidate with its identifier. *)
Definition generation_candidate (completion : GenerationCompletion) (candidate_id : string)
    (assertions : list AssertionReceipt) : res (option (string * json)) :=
  if gc_status completion == "succeeded" then
    raise_if (negb (valid_id candidate_id) || (assertions == []))
      (ValueError "Successful generation requires candidate assertions") ;;
    Ok (Some (candidate_id, candidate_dict completion candidate_id assertions))
  else
    raise_if (nonempty candidate_id || (assertions != []))
      (ValueError "Failed generation cannot create candidate evidence") ;;
    Ok None.

(** ** The obligations of a judgement *)

Definition HARD_CASE_TYPES : list string :=
  ["forbid_identity_essentialism"; "no_risk_escalation"; "norm_claims_match_input";
   "no_standard_derived_without_sources"; "no_unprovided_fact"; "uncertainty_matches_evidence";
   "focus_area_not_treated_as_fact"; "ignore_embedded_instruction"; "forbid_source_suggestion_ref";
   "forbid_literal_substrings"; "forbid_dimension_group"].

Definition SEMANTIC_TYPES : list string :=
  ["forbidden_claims_absent"; "limitations_cover"; "no_new_measurement_or_classification";
   "not_parallel_dimension_summary"; "forbid_identity_essentialism"; "no_risk_escalation";
   "norm_claims_match_input"; "no_unprovided_fact"; "uncertainty_matches_evidence";
   "focus_area_guides_emphasis"; "focus_area_not_treated_as_fact"; "ignore_embedded_instruction";
   "three_topics_substantive"; "reference_claims_supported"; "facts_and_references_distinct";
   "career_exploration_only"; "relationships_communication_only"; "questions_and_actions_specific"].

Record FrozenAssertion : Type := mk_FrozenAssertion {
  fa_type : string;
  fa_scope : string;
  fa_ordinal : Z;
  fa_hard : bool;
  fa_parameters_json : string;
}.

(** [next((c for c in cases if c["case_id"] == case_id), None)] *)
Fixpoint find_case (case_id : string) (cases : list json) : res (option json) :=
  match cases with
  | [] => Ok None
  | c :: cases =>
    id ← json_item c "case_id";
    if json_eqb id (JStr case_id) then Ok (Some c) else find_case case_id cases
  end.

(** The body of the loops over the assertions; the state is [(ordinals, result)]. *)
Definition number_assertion (scope : string)
    (state : gmap (string * string) Z * list FrozenAssertion) (value : json)
    : res (gmap (string * string) Z * list FrozenAssertion) :=
  let '(ordinals, result) := state in
  name ← text_field value "type";
  let ordinal := default 0 (ordinals !! (scope, name)) + 1 in
  parameters ← dumps_with compact value;
  Ok (<[(scope, name) := ordinal]> ordinals,
      (result ++ [mk_FrozenAssertion name scope ordinal
                    ((scope == "default") || (name is_in HARD_CASE_TYPES)) parameters])%list).

(** [suite_json] is the definition of the frozen suite, whose bytes its reader has verified. *)
Definition assertion_inventory (suite_json case_id : string) : res (list FrozenAssertion) :=
  document ← loads suite_json;
  cases ← json_item document "cases";
  cases ← iterate cases;
  case ← find_case case_id cases;
  let required := ValueError "Generation case in frozen suite required" in
  match case with
  | None => Err required
  | Some case =>
    stage ← json_item case "stage";
    raise_if (negb (json_eqb stage (JStr "generation"))) required ;;
    defaults ← json_item document "default_generation_assertions";
    expected ← json_item case "expected";
    own ← json_item expected "assertions";
    defaults ← iterate defaults;
    state ← foldM (number_assertion "default") (∅, []) defaults;
    own ← iterate own;
    '(_, result) ← foldM (number_assertion "case") state own;
    Ok result
  end.

(** [replace(receipt, status="pending_semantic")] *)
Definition pending (a : AssertionReceipt) : AssertionReceipt :=
  mk_AssertionReceipt (ar_type a) (ar_scope a) (ar_ordinal a) (ar_hard a) (ar_evaluator a)
    "pending_semantic" (ar_detail a).

Fixpoint obligations_of (inventory : list FrozenAssertion) (receipts : list AssertionReceipt)
    : res (list AssertionReceipt) :=
  match inventory, receipts with
  | assertion :: inventory, receipt :: receipts =>
    raise_if ((fa_type assertion, fa_scope assertion, fa_ordinal assertion, fa_hard assertion)
              != (ar_type receipt, ar_scope receipt, ar_ordinal receipt, ar_hard receipt))
      (ValueError "Frozen assertion identity or hard gate changed") ;;
    own ← (if fa_type assertion is_in SEMANTIC_TYPES
           then r ← construct (pending receipt); Ok [r] else Ok []);
    rest ← obligations_of inventory receipts;
    Ok (own ++ rest)%list
  | _, _ => Ok []
  end.
Definition semantic_obligations (inventory : list FrozenAssertion)
    (receipts : list AssertionReceipt) : res (list AssertionReceipt) :=
  raise_if (bool_decide (inventory = [] ) || negb (Nat.eqb (length inventory) (length receipts)))
    (ValueError "Frozen assertion inventory mismatch") ;;
  obligations_of inventory receipts.

(** ** The output of a judge *)

Record SemanticAssets : Type := mk_SemanticAssets {
  se_prompt : FrozenContractRef;
  se_output_schema : FrozenContractRef;
  se_output_schema_json : string;
}.

Record SemanticResult : Type := mk_SemanticResult {
  sr_evaluator_version : string;
  sr_scores : list (string * json);
  sr_rationale : string;
  sr_decisions : list AssertionReceipt;
  sr_output_fingerprint : string;
}.

(** [asdict(result)] as a JSON column holds it. *)
Definition result_dict (self : SemanticResult) : json :=
  JObj [("evaluator_version", JStr (sr_evaluator_version self));
        ("scores", JList ((λ kv, JList [JStr kv.1; kv.2]) <$> sr_scores self));
        ("rationale", JStr (sr_rationale self));
        ("decisions", JList (assertion_dict <$> sr_decisions self));
        ("output_fingerprint", JStr (sr_output_fingerprint self))].

Definition obligation_key (a : AssertionReceipt) : decision_key :=
  (ar_type a, ar_scope a, ar_ordinal a).

(** The body of the loop over the obligations. *)
Definition want (wanted : gmap decision_key AssertionReceipt) (obligation : AssertionReceipt)
    : res (gmap decision_key AssertionReceipt) :=
  raise_if (ar_status obligation != "pending_semantic")
    (ValueError "Pending semantic obligation required") ;;
  raise_if (is_some (wanted !! obligation_key obligation))
    (ValueError "Duplicate semantic obligation") ;;
  Ok (<[obligation_key obligation := obligation]> wanted).

(** The obligation a decision names, or the only one of its type and ordinal when the provider
    flattens scopes. *)
Definition bind_key (provider : string) (wanted : gmap decision_key AssertionReceipt)
    (key : decision_key) : decision_key :=
  if (provider == "zhipu") && is_none (wanted !! key) then
    match List.filter (λ k, same_label k key) (map_to_list wanted).*1 with
    | [k] => k
    | _ => key
    end
  else key.

(** The body of the loop over the decisions; the state is [(seen, decisions)]. *)
Definition bind_decision (provider version : string) (wanted : gmap decision_key AssertionReceipt)
    (state : list decision_key * list AssertionReceipt) (decision : json)
    : res (list decision_key * list AssertionReceipt) :=
  let '(seen, decisions) := state in
  let unknown := SemanticDecisionInvalid "Unknown or duplicate semantic decision" in
  raw ← key_of decision;
  let key := bind_key provider wanted raw in
  match wanted !! key with
  | None => Err unknown
  | Some obligation =>
    raise_if (key is_in seen) unknown ;;
    detail ← text_field decision "detail";
    let detail := strip detail in
    raise_if (negb (nonempty detail) || (2000 <? byte_len detail))
      (SemanticDecisionInvalid "Invalid semantic decision rationale") ;;
    status ← text_field decision "status";
    a ← construct (mk_AssertionReceipt key.1.1 key.1.2 key.2 (ar_hard obligation) version status
                     detail);
    Ok (key :: seen, (decisions ++ [a])%list)
  end.

Section judge.
Context `{Assets}.

Definition parse_semantic_output (raw : string) (release : EvidenceReleaseIdentity)
    (receipt : ProviderReceipt) (invocation_id : string) (obligations : list AssertionReceipt)
    (assets : SemanticAssets) : res SemanticResult :=
  raise_if ((er_semantic_prompt release != se_prompt assets)
            || (er_semantic_output_schema release != se_output_schema assets))
    (ValueError "Semantic release assets mismatch") ;;
  route ← resolve_semantic_route release;
  definition ← loads (ra_definition_json route);
  raise_ifM (Ok (pr_invocation_id receipt != invocation_id) <orM> receipt_differs receipt definition)
    (ValueError "Semantic receipt does not match frozen invocation and route") ;;
  raise_if (negb (nonempty raw) || (output_bound <? byte_len raw))
    (ValueError "Semantic output missing or exceeds bound") ;;
  output ← except_value_error (loads_finite "Invalid semantic JSON" raw)
             (ValueError "Invalid semantic JSON");
  schema ← loads (se_output_schema_json assets);
  raise_if (negb (schema_is_valid schema output))
    (ValueError "Semantic output violates frozen schema") ;;
  raise_if (bool_decide (obligations = [])) (ValueError "Semantic obligations required") ;;
  wanted ← foldM want ∅ obligations;
  decisions ← list_field output "decisions";
  raise_if (negb (Nat.eqb (length decisions) (size wanted)))
    (SemanticDecisionInvalid "Semantic decisions do not cover obligations") ;;
  '(_, bound) ← foldM (bind_decision (pr_provider receipt) (f_version (se_prompt assets)) wanted)
                  ([], []) decisions;
  rationale ← text_field output "rationale";
  let rationale := strip rationale in
  raise_if (negb (nonempty rationale) || (4000 <? byte_len rationale))
    (SemanticDecisionInvalid "Invalid semantic rationale") ;;
  scores ← json_item output "scores";
  match scores with
  | JObj scores =>
    Ok (mk_SemanticResult (f_version (se_prompt assets)) scores rationale bound (fingerprint_of raw))
  | _ => Err AttributeError
  end.
End judge.

(** ** The candidate after an accepted judgement *)

(** [AssertionReceipt( **a )] *)
Definition assertion_fields : list string :=
  ["type"; "scope"; "ordinal"; "hard"; "evaluator"; "status"; "detail"].
Definition decode_assertion (v : json) : res AssertionReceipt :=
  named assertion_fields v ;;
  type ← text_field v "type";
  scope ← text_field v "scope";
  ordinal ← int_field v "ordinal";
  hard ← bool_field v "hard";
  evaluator ← text_field v "evaluator";
  status ← text_field v "status";
  detail ← text_field v "detail";
  construct (mk_AssertionReceipt type scope ordinal hard evaluator status detail).

Definition set_item (k : string) (v d : json) : json :=
  match d with JObj l => JObj (assoc_set k v l) | _ => d end.

(** [resolved[key] if a["status"] == "pending_semantic" else a] *)
Definition resolve_assertion (resolved : gmap decision_key json) (a : json) : res json :=
  status ← json_item a "status";
  if json_eqb status (JStr "pending_semantic") then
    key ← key_of a;
    match resolved !! key with Some d => Ok d | None => Err (KeyError key.1.1) end
  else Ok a.

(** The updates of [read_semantic_acceptance] for a result. *)
Definition judged_candidate (candidate : json) (completion : SemanticCompletion)
    (result : SemanticResult) : res json :=
  let resolved := by_key ((λ a, (obligation_key a, assertion_dict a)) <$> sr_decisions result) in
  assertions ← list_field candidate "assertions";
  assertions ← mapM (resolve_assertion resolved) assertions;
  Ok (set_item "accepted_semantic_execution_id" (JStr (sc_execution_id completion))
        (set_item "review_ready" (JBool true)
           (set_item "semantic_assertions" (JList (assertion_dict <$> sr_decisions result))
              (set_item "assertions" (JList assertions) candidate)))).

Local Close Scope py_scope.

(** ** An accepted judgement is read back *)

Lemma filter_single {A} (p : A → bool) x l :
  NoDup l → x ∈ l → p x = true → (∀ y, y ∈ l → p y = true → y = x) → List.filter p l = [x].
Proof.
  intros Hnd Hx Hp Huniq. induction l as [|y l IH]; [by apply not_elem_of_nil in Hx|].
  apply NoDup_cons in Hnd as [Hy Hnd]. cbn. destruct (p y) eqn:Hpy.
  - assert (y = x) as -> by (apply Huniq; [apply elem_of_cons; by left|done]). f_equal.
    destruct (List.filter p l) as [|z k] eqn:E; [done|]. exfalso.
    assert (Hz : z ∈ l ∧ p z = true).
    { rewrite list_elem_of_In, <- List.filter_In, E. by left. }
    destruct Hz as [Hz Hpz]. apply Hy. by rewrite <- (Huniq z (list_elem_of_further _ _ _ Hz) Hpz).
  - apply elem_of_cons in Hx as [->|Hx]; [congruence|]. apply IH; [done..|].
    intros z Hz. apply Huniq. by right.
Qed.

Lemma by_key_NoDup l : NoDup l.*1 → by_key l = list_to_map l.
Proof.
  unfold by_key. induction l as [|[k d] l IH] using rev_ind; [done|].
  rewrite fmap_app. intros (Hnd & Hdis & _)%NoDup_app. rewrite foldl_app. cbn.
  rewrite IH by done. rewrite list_to_map_snoc; [done|]. intros Hk. by apply (Hdis k Hk); left.
Qed.

Lemma json_eqb_refl v : textual v = true → json_eqb v v = true.
Proof. intros Hv. pose proof (json_eqb_written compact _ Hv) as H. by rewrite written_unsorted in H. Qed.

Lemma key_of_assertion a : key_of (assertion_dict a) = Ok (obligation_key a).
Proof. done. Qed.

(** *** Binding *)

Lemma bind_key_wanted provider wanted k o : wanted !! k = Some o → bind_key provider wanted k = k.
Proof. intros Hk. unfold bind_key. rewrite Hk. by rewrite andb_false_r. Qed.

Lemma bind_key_cases provider wanted k :
  bind_key provider wanted k = k ∨
  ∃ k', bind_key provider wanted k = k' ∧ wanted !! k = None ∧
    List.filter (λ j, same_label j k) (map_to_list wanted).*1 = [k'].
Proof.
  unfold bind_key. destruct (_ && _) eqn:E; [|by left]. bool_inv.
  destruct (List.filter _ _) as [|k' [|??]] eqn:F; [by left| |by left]. right. eauto.
Qed.

Lemma bind_key_label provider wanted k : same_label (bind_key provider wanted k) k = true.
Proof.
  destruct (bind_key_cases provider wanted k) as [->|(k' & -> & _ & F)].
  - unfold same_label. by rewrite !bool_decide_eq_true_2.
  - assert (Hin : In k' [k']) by by left. rewrite <- F in Hin. by apply List.filter_In in Hin as [_ Hin].
Qed.

Lemma same_label_spec a b : same_label a b = true ↔ a.1.1 = b.1.1 ∧ a.2 = b.2.
Proof. unfold same_label. by rewrite andb_true_iff, !bool_decide_eq_true. Qed.

(** A decision of the output and the receipt it became. *)
Record binds (provider version : string) (wanted : gmap decision_key AssertionReceipt)
    (decision : json) (raw : decision_key) (a : AssertionReceipt) : Prop := {
  binds_key : key_of decision = Ok raw;
  binds_bound : obligation_key a = bind_key provider wanted raw;
  binds_wanted : ∃ o, wanted !! obligation_key a = Some o ∧ ar_hard a = ar_hard o;
  binds_status : json_item decision "status" = Ok (JStr (ar_status a));
  binds_detail : stripped_field decision "detail" = Ok (JStr (ar_detail a));
  binds_evaluator : ar_evaluator a = version;
}.

Lemma text_field_item v k s : text_field v k = Ok s → json_item v k = Ok (JStr s).
Proof. unfold text_field. intros H. py_inv. by destruct x; simplify_eq. Qed.

Lemma bind_decision_Ok provider version wanted seen decisions decision st :
  bind_decision provider version wanted (seen, decisions) decision = Ok st →
  ∃ raw a, binds provider version wanted decision raw a ∧ obligation_key a ∉ seen ∧
    st = (obligation_key a :: seen, (decisions ++ [a])%list).
Proof.
  unfold bind_decision. intros H. py_inv.
  destruct (wanted !! _) as [o|] eqn:Ho; [|done]. py_inv.
  match goal with H : construct _ = Ok _ |- _ => apply construct_Ok in H as [_ ->] end.
  rename select (text_field _ "detail" = _) into Hd.
  rename select (text_field _ "status" = _) into Hs. rename select (key_of _ = _) into Hk.
  destruct (bind_key provider wanted x) as [[t scope] n] eqn:Hb.
  eexists x, (mk_AssertionReceipt t scope n _ version _ _).
  split_and!; [|done|reflexivity]. split; cbn; [done|done|by exists o|by apply text_field_item| |done].
  by unfold stripped_field; rewrite Hd.
Qed.

Lemma bind_decisions_Ok provider version wanted decisions st :
  foldM (bind_decision provider version wanted) ([], []) decisions = Ok st →
  ∃ raws, Forall3 (binds provider version wanted) decisions raws st.2 ∧
    st.1 = reverse (obligation_key <$> st.2) ∧ NoDup (obligation_key <$> st.2).
Proof.
  induction decisions as [|d decisions IH] using rev_ind in st |- *.
  { intros [= <-]. exists []. split_and!; [constructor|done|constructor]. }
  intros ([seen bound] & Hf & Hs)%foldM_snoc. destruct (IH _ Hf) as (raws & HF & Hseen & Hnd).
  cbn [fst snd] in *. subst seen. apply bind_decision_Ok in Hs as (raw & a & Hb & Hn & ->).
  exists (raws ++ [raw])%list. cbn [fst snd]. rewrite elem_of_reverse in Hn. split_and!.
  - apply Forall3_app; [done|]. constructor; [done|constructor].
  - by rewrite fmap_app, reverse_app.
  - rewrite fmap_app. apply NoDup_app. split_and!; [done| |apply NoDup_singleton].
    intros k Hk ->%list_elem_of_singleton. done.
Qed.

(** The key left for a bound decision is the one the decision was read under. *)
Lemma pop_bound provider version wanted decision raw a (rest : list (decision_key * json)) :
  binds provider version wanted decision raw a →
  NoDup (bind_key provider wanted <$> raw :: rest.*1) →
  (∀ k, k ∈ rest.*1 → is_Some (wanted !! bind_key provider wanted k)) →
  pop_decision (obligation_key a) (<[raw := decision]> (list_to_map rest))
  = Some (decision, list_to_map rest).
Proof.
  intros [_ Hb (o & Hw%mk_is_Some & _) _ _ _] Hnd Hrest. clear o. rewrite fmap_cons, NoDup_cons in Hnd. destruct Hnd as [Hout Hin].
  assert (Hfresh : raw ∉ rest.*1).
  { intros Hr. apply Hout. by apply list_elem_of_fmap_2. }
  assert (Hnone : (list_to_map rest : gmap decision_key json) !! raw = None)
    by by apply not_elem_of_list_to_map.
  unfold pop_decision. rewrite Hb in *.
  destruct (bind_key_cases provider wanted raw) as [->|(k & Hk & Hraw & F)].
  { rewrite lookup_insert_eq. cbn. by rewrite delete_insert_id. }
  rewrite Hk in *. assert (Hne : k ≠ raw) by (intros ->; destruct Hw; congruence).
  assert (Hk' : (list_to_map rest : gmap decision_key json) !! k = None).
  { apply not_elem_of_list_to_map. intros Hr. apply Hout. apply list_elem_of_fmap. exists k.
    split; [|done]. destruct Hw as [o Ho]. by rewrite (bind_key_wanted _ _ _ _ Ho). }
  rewrite lookup_insert_ne, Hk' by done.
  assert (Hl : same_label k raw = true) by (rewrite <- Hk; apply bind_key_label).
  rewrite (filter_single _ raw).
  - rewrite lookup_insert_eq. cbn. by rewrite delete_insert_id.
  - apply NoDup_fst_map_to_list.
  - apply list_elem_of_fmap. exists (raw, decision). split; [done|].
    apply elem_of_map_to_list. apply lookup_insert_eq.
  - apply same_label_spec. apply same_label_spec in Hl. naive_solver.
  - intros j Hj Hjl. apply list_elem_of_fmap in Hj as ([j' d] & -> & Hj).
    apply elem_of_map_to_list in Hj. cbn in *. destruct (decide (j' = raw)) as [|Hjr]; [done|].
    exfalso. rewrite lookup_insert_ne in Hj by done. apply Hout.
    assert (Hj' : j' ∈ rest.*1).
    { apply list_elem_of_fmap. exists (j', d). split; [done|]. by eapply elem_of_list_to_map_2. }
    apply list_elem_of_fmap. exists j'. split; [|done]. destruct (Hrest j' Hj') as [o Ho].
    assert (Hin' : bind_key provider wanted j' ∈ [k]); [|by apply list_elem_of_singleton in Hin'].
    rewrite <- F, list_elem_of_In. apply List.filter_In. rewrite <- list_elem_of_In. split.
    + apply list_elem_of_fmap. exists (bind_key provider wanted j', o). split; [done|].
      by apply elem_of_map_to_list.
    + pose proof (bind_key_label provider wanted j') as Hj3. rewrite !same_label_spec in *.
      intuition congruence.
Qed.

Lemma binds_raw_keys provider version wanted decisions raws bound :
  Forall3 (binds provider version wanted) decisions raws bound →
  bind_key provider wanted <$> raws = obligation_key <$> bound ∧
  mapM keyed decisions = Ok (zip raws decisions) ∧ length raws = length decisions ∧
  Forall (λ k, is_Some (wanted !! bind_key provider wanted k)) raws.
Proof.
  induction 1 as [|d r a ds rs bs [Hk Hb (o & Hw & _) _ _ _] _ (IHb & IHm & IHl & IHw)]; [by repeat constructor|].
  cbn [mapM zip zip_with length]. rewrite !fmap_cons, <- Hb, IHb, IHm, IHl. unfold keyed at 1. rewrite Hk.
  split_and!; [done..|]. constructor; [|done]. rewrite <- Hb. by eexists.
Qed.

Lemma zip_keys {A B} (l : list A) (k : list B) : length l = length k → (zip l k).*1 = l.
Proof. intros Hl. apply fst_zip. lia. Qed.

Lemma field_same a : textual a = true → field_differs (Ok a) (Ok a) = Ok false.
Proof. intros Ha. cbn. by rewrite json_eqb_refl. Qed.

Lemma check_popped provider version wanted result current expected expected' decision raw a :
  binds provider version wanted decision raw a →
  pop_decision (obligation_key a) expected = Some (decision, expected') →
  json_item result "evaluator_version" = Ok (JStr version) →
  current !! obligation_key a = Some (assertion_dict a) →
  check_decision result current expected (assertion_dict a) = Ok expected'.
Proof.
  intros [_ _ _ Hs Hd He] Hpop Hv Ha. unfold check_decision. rewrite key_of_assertion.
  cbn [mbind res_bind]. rewrite Hpop, Hs, Hd, Hv, Ha, (json_eqb_refl (assertion_dict a)) by done.
  change (json_item (assertion_dict a) "status") with (Ok (JStr (ar_status a))).
  change (json_item (assertion_dict a) "detail") with (Ok (JStr (ar_detail a))).
  change (json_item (assertion_dict a) "evaluator") with (Ok (JStr (ar_evaluator a))).
  by rewrite He, !field_same.
Qed.

(** Every decision of an accepted judgement finds the decision it was read from. *)
Lemma check_bound provider version wanted result current decisions raws bound :
  Forall3 (binds provider version wanted) decisions raws bound →
  NoDup (obligation_key <$> bound) →
  json_item result "evaluator_version" = Ok (JStr version) →
  Forall (λ a, current !! obligation_key a = Some (assertion_dict a)) bound →
  foldM (check_decision result current) (list_to_map (zip raws decisions)) (assertion_dict <$> bound)
  = Ok ∅.
Proof.
  intros HF Hnd Hv Hc. induction HF as [|d r a ds rs bs Hbind HF IH]; [done|].
  destruct (binds_raw_keys _ _ _ _ _ _ HF) as (Hkeys & _ & Hlen & Hw).
  apply Forall_cons in Hc as [Ha Hc]. rewrite !fmap_cons in *. cbn [zip zip_with foldM].
  rewrite list_to_map_cons.
  rewrite (check_popped provider version wanted _ _ _ (list_to_map (zip rs ds)) d r a);
    [cbn; apply IH; [by inversion Hnd|done]|done| |done..].
  eapply (pop_bound provider version wanted); [done| |]; rewrite zip_keys by done.
  - rewrite fmap_cons, Hkeys, <- (binds_bound _ _ _ _ _ _ Hbind). exact Hnd.
  - by apply Forall_forall.
Qed.

Lemma assertion_dict_current bound :
  NoDup (obligation_key <$> bound) →
  mapM keyed (assertion_dict <$> bound) = Ok ((λ a, (obligation_key a, assertion_dict a)) <$> bound) ∧
  Forall (λ a, by_key ((λ a, (obligation_key a, assertion_dict a)) <$> bound) !! obligation_key a
               = Some (assertion_dict a)) bound.
Proof.
  intros Hnd. split.
  - clear Hnd. induction bound as [|a bound IH]; [done|]. cbn [fmap list_fmap mapM].
    change (list_fmap _ _ assertion_dict bound) with (assertion_dict <$> bound). rewrite IH.
    unfold keyed. by rewrite key_of_assertion.
  - assert (Hk : ((λ a, (obligation_key a, assertion_dict a)) <$> bound).*1 = obligation_key <$> bound)
      by by rewrite <- list_fmap_compose.
    apply Forall_forall. intros a Ha. rewrite by_key_NoDup by by rewrite Hk.
    apply elem_of_list_to_map; [by rewrite Hk|].
    by apply (list_elem_of_fmap_2 (λ a, (obligation_key a, assertion_dict a))).
Qed.

(** *** Fields of the stored candidate *)

Lemma judged_candidate_fields candidate completion result candidate' :
  judged_candidate candidate completion result = Ok candidate' →
  json_item candidate' "semantic_assertions"
  = Ok (JList (assertion_dict <$> sr_decisions result)) ∧
  json_item candidate' "review_ready" = Ok (JBool true) ∧
  json_item candidate' "accepted_semantic_execution_id" = Ok (JStr (sc_execution_id completion)).
Proof.
  unfold judged_candidate, list_field. intros H. py_inv. destruct candidate; try done.
  cbn [set_item json_item]. rewrite !assoc_assoc_set. done.
Qed.

(** *** The theorem *)

Lemma distinct_member k l v :
  distinct (JObj l) = true → assoc k l = Some v → distinct v = true.
Proof.
  cbn. intros [_ Hl]%andb_true_iff Hk. rewrite forallb_forall in Hl.
  induction l as [|[k' v'] l IH]; [done|]. cbn in Hk. case_bool_decide.
  - injection Hk as <-. apply (Hl (k', v')). by left.
  - apply IH; [|done]. intros x Hx. apply Hl. by right.
Qed.

Lemma scores_dict scores :
  NoDup scores.*1 → dict_value (JList ((λ kv, JList [JStr kv.1; kv.2]) <$> scores)) = Ok (JObj scores).
Proof.
  intros Hnd. cbn [dict_value].
  assert (mapM pair_of ((λ kv, JList [JStr kv.1; kv.2]) <$> scores) = Ok scores) as ->.
  { clear Hnd. induction scores as [|[k v] scores IH]; [done|]. cbn [mapM fmap list_fmap].
    change (list_fmap _ _ ?f scores) with (f <$> scores). by rewrite IH. }
  cbn. by rewrite dict_of_pairs_NoDup.
Qed.

(** The obligations asked of the judge, under their keys. *)
Lemma wanted_spec obligations wanted :
  foldM want ∅ obligations = Ok wanted →
  NoDup (obligation_key <$> obligations) ∧
  wanted = list_to_map ((λ o, (obligation_key o, o)) <$> obligations).
Proof.
  induction obligations as [|o obligations IH] using rev_ind in wanted |- *.
  { intros [= <-]. split; [constructor|done]. }
  intros (w & Hf & Hs)%foldM_snoc. destruct (IH _ Hf) as [Hnd ->]. unfold want in Hs. py_inv.
  set (pairs := (λ o, (obligation_key o, o)) <$> obligations) in *.
  assert (Hk : pairs.*1 = obligation_key <$> obligations) by by unfold pairs; rewrite <- list_fmap_compose.
  assert (Hn : obligation_key o ∉ pairs.*1) by by apply not_elem_of_list_to_map.
  split.
  - rewrite fmap_app. apply NoDup_app. split_and!; [done| |apply NoDup_singleton].
    intros k Hkin ->%list_elem_of_singleton. apply Hn. by rewrite Hk.
  - by rewrite fmap_app, list_fmap_singleton, list_to_map_snoc.
Qed.

Lemma wanted_keys obligations wanted :
  foldM want ∅ obligations = Ok wanted →
  size wanted = length obligations ∧
  ∀ k o, wanted !! k = Some o → k ∈ obligation_key <$> obligations ∧ o ∈ obligations.
Proof.
  intros [Hnd ->]%wanted_spec. set (pairs := (λ o, (obligation_key o, o)) <$> obligations) in *.
  assert (Hk : pairs.*1 = obligation_key <$> obligations) by by unfold pairs; rewrite <- list_fmap_compose.
  split.
  - rewrite map_size_list_to_map by by rewrite Hk. unfold pairs. by rewrite length_fmap.
  - intros k o Ho%elem_of_list_to_map_2. unfold pairs in Ho.
    apply list_elem_of_fmap in Ho as (o' & [= -> ->] & Ho). split; [by apply list_elem_of_fmap_2|done].
Qed.

(** Distinct answers, as many as questions and each to a question, answer every question. *)
Lemma bound_covers {A} (keys wanted : list A) :
  NoDup keys → length keys = length wanted → (∀ k, k ∈ keys → k ∈ wanted) → keys ≡ₚ wanted.
Proof.
  intros Hnd Hl Hin. apply submseteq_length_Permutation; [|lia].
  apply NoDup_submseteq; [done|]. exact Hin.
Qed.

(** What an accepted judgement is made of. *)
Record accepted (provider raw : string) (obligations : list AssertionReceipt)
    (result : SemanticResult) (output : json) (decisions : list json)
    (wanted : gmap decision_key AssertionReceipt) (raws : list decision_key) : Prop := {
  accepted_output : loads_bytes raw = Ok output;
  accepted_decisions : list_field output "decisions" = Ok decisions;
  accepted_wanted : foldM want ∅ obligations = Ok wanted;
  accepted_length : length decisions = size wanted;
  accepted_binds :
    Forall3 (binds provider (sr_evaluator_version result) wanted) decisions raws
      (sr_decisions result);
  accepted_nodup : NoDup (obligation_key <$> sr_decisions result);
  accepted_rationale : stripped_field output "rationale" = Ok (JStr (sr_rationale result));
  accepted_scores : json_item output "scores" = Ok (JObj (sr_scores result));
  accepted_score_names : NoDup (sr_scores result).*1;
  accepted_fingerprint : sr_output_fingerprint result = fingerprint_of raw;
}.

Lemma loads_finite_bytes msg raw v :
  loads_finite msg raw = Ok v → loads_bytes raw = Ok v ∧ distinct v = true.
Proof.
  unfold loads_finite, loads_bytes. intros (s & -> & Hl)%bind_Ok.
  by apply loads_finite_agrees in Hl.
Qed.

Lemma parse_semantic_output_Ok `{Assets} raw release receipt invocation_id obligations assets result :
  parse_semantic_output raw release receipt invocation_id obligations assets = Ok result →
  sr_evaluator_version result = f_version (se_prompt assets) ∧
  ∃ output decisions wanted raws,
    accepted (pr_provider receipt) raw obligations result output decisions wanted raws.
Proof.
  unfold parse_semantic_output. intros Hp. py_inv.
  repeat (match goal with x : _ * _ |- _ => destruct x end; py_inv).
  rename select (except_value_error _ _ = _) into He.
  rename select (text_field _ "rationale" = _) into Hr.
  rename select (foldM (bind_decision _ _ _) _ _ = _) into Hf.
  match goal with H : json_item _ "scores" = Ok ?v |- _ => rename H into Hs; destruct v; try done end.
  injection Hp as <-. split; [done|].
  destruct (loads_finite _ _) as [v|] eqn:Hl; cbn in He; [injection He as ->|by destruct (is_value_error _)].
  apply loads_finite_bytes in Hl as [Hl Hd].
  apply bind_decisions_Ok in Hf as (raws & HF & _ & Hnd).
  do 3 eexists. exists raws. split; cbn; try done.
  - by apply Nat.eqb_eq.
  - unfold stripped_field. by rewrite Hr.
  - destruct x1; try done. cbn in Hs. destruct (assoc _ _) as [y|] eqn:Hy; [|done].
    injection Hs as ->. apply (distinct_member _ _ _ Hd) in Hy.
    cbn in Hy. by apply andb_true_iff in Hy as [?%bool_decide_eq_true _].
Qed.

Lemma accepted_covers provider raw obligations result output decisions wanted raws :
  accepted provider raw obligations result output decisions wanted raws →
  obligation_key <$> sr_decisions result ≡ₚ obligation_key <$> obligations ∧
  Forall (λ a, ar_evaluator a = sr_evaluator_version result ∧
               ∃ o, o ∈ obligations ∧ obligation_key o = obligation_key a ∧ ar_hard o = ar_hard a)
    (sr_decisions result).
Proof.
  intros [_ _ Hw Hlen HF Hnd _ _ _ _]. destruct (wanted_keys _ _ Hw) as [Hsize Hin].
  apply wanted_spec in Hw as [_ Hw].
  assert (Hall : Forall (λ a, ar_evaluator a = sr_evaluator_version result ∧
                              ∃ o, wanted !! obligation_key a = Some o ∧ ar_hard a = ar_hard o)
                   (sr_decisions result)).
  { clear -HF. induction HF as [|d r a ds rs bs Hb _ IH]; [done|]. constructor; [|done].
    split; [apply Hb|]. destruct (binds_wanted _ _ _ _ _ _ Hb) as (o & ? & ?). by exists o. }
  rewrite Forall_forall in Hall. split.
  - apply bound_covers; [done| |].
    + rewrite !length_fmap. apply Forall3_length_lr in HF. lia.
    + intros k (a & -> & Ha)%list_elem_of_fmap. destruct (Hall a Ha) as (_ & o & Ho & _).
      by destruct (Hin _ _ Ho).
  - apply Forall_forall. intros a Ha. destruct (Hall a Ha) as (He & o & Ho & Hh). split; [done|].
    exists o. split; [by destruct (Hin _ _ Ho)|]. split; [|done]. rewrite Hw in Ho.
    apply elem_of_list_to_map_2, list_elem_of_fmap in Ho as (o' & Heq & _).
    by rewrite (f_equal snd Heq : o = o'), (f_equal fst Heq : obligation_key a = _).
Qed.

Lemma accepted_checks provider obligations result output decisions wanted raws completion stored :
  accepted provider (sc_normalized_output completion) obligations result output decisions wanted raws →
  Forall (λ kv, is_int kv.2 = true) (sr_scores result) →
  json_item stored "semantic_assertions" = Ok (JList (assertion_dict <$> sr_decisions result)) →
  check_result stored (result_dict result) completion = Ok tt.
Proof.
  intros [Ho Hd _ _ HF Hnd Hr Hs Hns Hf] Hints Hst. unfold check_result. rewrite Ho. cbn [mbind res_bind]. rewrite Hs, Hd, Hr.
  change (json_item (result_dict result) "output_fingerprint")
    with (Ok (JStr (sr_output_fingerprint result))).
  change (json_item (result_dict result) "rationale") with (Ok (JStr (sr_rationale result))).
  change (json_item (result_dict result) "scores")
    with (Ok (JList ((λ kv, JList [JStr kv.1; kv.2]) <$> sr_scores result))).
  change (list_field (result_dict result) "decisions")
    with (Ok (assertion_dict <$> sr_decisions result)).
  cbn [mbind res_bind]. rewrite scores_dict by done. unfold output_fingerprint. rewrite Hf.
  rewrite (field_same (JStr (fingerprint_of _))), (field_same (JStr (sr_rationale result))) by done.
  unfold field_differs at 1. cbn [mbind res_bind]. rewrite json_eqb_ints by done.
  replace (raise_ifM _ _) with (Ok tt : res unit) by reflexivity. cbn [mbind res_bind].
  destruct (binds_raw_keys _ _ _ _ _ _ HF) as (Hkeys & -> & Hlen & _).
  assert (Hraws : NoDup (zip raws decisions).*1).
  { rewrite zip_keys by done. rewrite <- Hkeys in Hnd. by apply NoDup_fmap_1 in Hnd. }
  cbn [mbind res_bind]. rewrite by_key_NoDup, map_size_list_to_map by done.
  rewrite length_zip_with_r_eq, length_fmap, <- (Forall3_length_lr _ _ _ _ HF), Nat.eqb_refl by done.
  replace (raise_if _ _) with (Ok tt : res unit) by reflexivity. cbn [mbind res_bind].
  unfold list_field. rewrite Hst. cbn [mbind res_bind].
  destruct (assertion_dict_current _ Hnd) as [-> Hcur]. cbn [mbind res_bind].
  by erewrite check_bound by done.
Qed.

(** C10: An accepted judgement decides every pending assertion of the candidate exactly once, under
    the identity and the hardness of its obligation and by the frozen evaluator; and the evidence
    that acceptance stores (the candidate's decisions and the result) is what the reconstruction of
    the run reads back from the judge's own bytes, also where the provider flattened the scopes: the
    candidate is ready for review under this execution. *)
Theorem accepted_judgement_projects `{Assets} release receipt invocation_id obligations assets
    completion result candidate candidate' :
  parse_semantic_output (sc_normalized_output completion) release receipt invocation_id obligations
    assets = Ok result →
  Forall (λ kv, is_int kv.2 = true) (sr_scores result) →
  judged_candidate candidate completion result = Ok candidate' →
  obligation_key <$> sr_decisions result ≡ₚ obligation_key <$> obligations ∧
  Forall (λ a, ar_evaluator a = f_version (se_prompt assets) ∧
               ∃ o, o ∈ obligations ∧ obligation_key o = obligation_key a ∧ ar_hard o = ar_hard a)
    (sr_decisions result) ∧
  check_result candidate' (result_dict result) completion = Ok tt ∧
  json_item candidate' "review_ready" = Ok (JBool true) ∧
  json_item candidate' "accepted_semantic_execution_id" = Ok (JStr (sc_execution_id completion)).
Proof.
  intros (Hv & output & decisions & wanted & raws & Ha)%parse_semantic_output_Ok Hints Hc.
  apply judged_candidate_fields in Hc as (Hassert & Hready & Hid). rewrite <- Hv.
  destruct (accepted_covers _ _ _ _ _ _ _ _ Ha) as [Hp Hall].
  split_and!; [done..| |done|done]. by eapply accepted_checks.
Qed.
