(* ===== verification/CompletionProgress.v ===== *)
(** * CompletionProgress: what terminal evidence does to the progress of a run

    Models
    [src/src/qs_ai/infrastructure/persistence/mysql/evaluation_completion_progress.py] and the rules
    of [evaluation_candidate_completion.py] and [evaluation_candidate_records.py] (same directory)
    that choose the next status of a candidate run and the evidence a block is bound to.

    The progress is the JSON document of the run; its transitions and decisions are read on their
    declared types. *)
From S2P Require Import Prelude PyText PyTime PyHash PyJson PyIso Failure Checkpoint Completion.
From S2P Require Import Actions Resolution CheckpointRecords CompletionRecords SlotClaims.
From S2P Require Import Projection Acceptance.

Local Open Scope string_scope.
Local Open Scope Z_scope.
Local Open Scope py_scope.

(** [progress.get(k, d)] of an integer. *)
Definition int_default (v : json) (k : string) (d : Z) : res Z :=
  x ← json_get_default v k (JInt d); match x with JInt z => Ok z | _ => Err TypeError end.

Definition count_unknown (progress : json) : res json :=
  n ← int_default progress "unresolved_result_unknown_count" 0;
  Ok (set_item "unresolved_result_unknown_count" (JInt (n + 1)) progress).

(** [{**progress, "status": to, "transitions": [*progress["transitions"], transition]}] *)
Definition move_to (to_ : string) (transition progress : json) : res json :=
  transitions ← json_item progress "transitions";
  transitions ← iterate transitions;
  Ok (set_item "transitions" (JList (transitions ++ [transition]))
        (set_item "status" (JStr to_) progress)).

(** ** The progress of one completion *)

Definition generation_completion_progress (previous : json) (completion : GenerationCompletion)
    (policy : ExecutionPolicy) (owner : string) (candidate_claim : bool) : res json :=
  '(progress, cause) ←
    (if gc_status completion == "result_unknown" then
       progress ← count_unknown previous; Ok (progress, "result_unknown_requires_review")
     else if gc_status completion == "failed" then
       Ok (previous,
           if generation_per_slot policy <=? gc_execution_ordinal completion
           then "generation_budget_exhausted"
           else if negb (from_option (allows_automatic_generation_recovery policy) false
                           (gc_failure completion))
           then "generation_recovery_not_allowed" else "")
     else Ok (previous, ""));
  if nonempty cause && negb candidate_claim then
    move_to "blocked"
      (JObj [("from", JStr "collecting"); ("to", JStr "blocked"); ("cause_code", JStr cause);
             ("actor", JStr (strip owner)); ("at", time_json (gc_finished_at completion));
             ("evidence_refs", texts [gc_execution_id completion])]) progress
  else Ok progress.

Definition semantic_completion_progress (previous : json) (completion : SemanticCompletion)
    (policy : ExecutionPolicy) (owner : string) (candidate_claim : bool) : res json :=
  '(progress, cause) ←
    (if sc_status completion == "result_unknown" then
       progress ← count_unknown previous; Ok (progress, "result_unknown_requires_review")
     else if sc_status completion == "failed" then
       Ok (previous,
           if semantic_per_candidate policy <=? sc_execution_ordinal completion
           then "semantic_budget_exhausted"
           else if negb (from_option (allows_automatic_semantic_recovery policy) false
                           (sc_failure completion))
           then "semantic_recovery_not_allowed" else "")
     else Ok (previous, ""));
  if nonempty cause && negb candidate_claim then
    move_to "blocked"
      (JObj [("from", JStr "collecting"); ("to", JStr "blocked"); ("actor", JStr (strip owner));
             ("cause_code", JStr cause); ("at", time_json (sc_finished_at completion));
             ("evidence_refs", texts [sc_execution_id completion])]) progress
  else Ok progress.

(** ** The evidence of a block *)

(** A stored completion: its execution and its evidence. *)
Notation evidence_row := (string * json)%type.
Definition generation_item (r : GenerationRow) : evidence_row :=
  (gr_execution_id r, gr_evidence_json r).
Definition semantic_item (r : SemanticRow) : evidence_row :=
  (sr_execution_id r, sr_evidence_json r).

(** [{value["execution_id"] for value in progress.get("result_unknown_resolutions", [])}] *)
Definition resolved_executions (progress : json) : res (list string) :=
  values ← json_get_default progress "result_unknown_resolutions" (JList []);
  values ← iterate values;
  mapM (λ v, text_field v "execution_id") values.

Definition has_status (status : string) (row : evidence_row) : res bool :=
  s ← json_item row.2 "status"; Ok (json_eqb s (JStr status)).

Fixpoint unresolved_rows (resolved : list string) (rows : list evidence_row)
    : res (list evidence_row) :=
  match rows with
  | [] => Ok []
  | row :: rows =>
    unknown ← (Ok (row.1 not_in resolved) <andM> has_status "result_unknown" row);
    rest ← unresolved_rows resolved rows;
    Ok (if unknown : bool then row :: rest else rest)
  end.

(** [min(rows, key=finished_at)]: the first of the rows whose text is least. *)
Definition finished_text (row : evidence_row) : res string := text_field row.2 "finished_at".
Definition earlier (best row : evidence_row) : res evidence_row :=
  a ← finished_text row; b ← finished_text best;
  Ok (match String.compare a b with Lt => row | _ => best end).

Definition unresolved_evidence (progress : json) (rows : list evidence_row) : res evidence_row :=
  resolved ← resolved_executions progress;
  unknowns ← unresolved_rows resolved rows;
  match unknowns with
  | [] => Err (CheckpointConflict "Unresolved unknown result lacks terminal evidence")
  | row :: rest => foldM earlier row rest
  end.

(** The stored executions that an action to block points at. *)
Definition is_previous (action : NextAction) (ordinal : Z) : bool :=
  ordinal =? na_execution_ordinal action - 1.
Definition blocking_rows (cause : string) (action : NextAction) (generations : list GenerationRow)
    (semantics : list SemanticRow) : res (list evidence_row) :=
  if is_some (eat "semantic_" cause) then
    Ok (semantic_item <$> List.filter (λ r, is_previous action (sr_execution_ordinal r)
                                            && (sr_candidate_id r == na_candidate_id action)) semantics)
  else if is_some (eat "generation_" cause) then
    Ok (generation_item <$> List.filter (λ r, is_previous action (gr_execution_ordinal r)
                                              && ((gr_case_id r, gr_slot_ordinal r)
                                                  == (na_case_id action, na_slot_ordinal action)))
                              generations)
  else Err (CheckpointConflict "Unsupported candidate block cause").

Definition evidence_time (row : evidence_row) : res (string * datetime) :=
  finished_at ← iso_item row.2 "finished_at"; Ok (row.1, finished_at).

Section blocked.
Context (generations : list GenerationRow) (semantics : list SemanticRow).
(** What more than one matching row raises. *)
Context (several : exn).

Definition blocked_by (progress : json) (cause : string) (blocked : list NextAction)
    : res (string * datetime) :=
  row ←
    (if cause == "result_unknown_requires_review" then
       unresolved_evidence progress
         ((generation_item <$> generations) ++ (semantic_item <$> semantics))%list
     else
       let differs := CheckpointConflict "Blocked candidate differs from projected cause" in
       match blocked with
       | [] => Err differs
       | action :: _ =>
         raise_if (na_cause action != cause) differs ;;
         rows ← blocking_rows cause action generations semantics;
         let lacks := CheckpointConflict "Candidate block lacks failed terminal evidence" in
         match rows with
         | [row] => raise_ifM (has_status "succeeded" row) lacks ;; Ok row
         | [] => Err lacks
         | _ => Err several
         end
       end);
  evidence_time row.
End blocked.

(** [_blocked_execution] on the stored rows: [one_or_none]. *)
Definition blocked_execution (generations : list GenerationRow) (semantics : list SemanticRow)
    : json → string → list NextAction → res (string * datetime) :=
  blocked_by generations semantics MultipleResultsFound.
(** [virtual_blocked_execution] on the proposed rows. *)
Definition virtual_blocked_execution (generations : list GenerationRow)
    (semantics : list SemanticRow) : json → string → list NextAction → res (string * datetime) :=
  blocked_by generations semantics
    (CheckpointConflict "Candidate block lacks failed terminal evidence").

(** ** The next status of a candidate run *)

Definition candidate_completion_target (progress : json) (active : list SlotClaim)
    (plan : ParallelPlan) : res (string * string) :=
  if bool_decide (active = []) then
    unresolved ← flag progress "unresolved_result_unknown_count";
    if (unresolved : bool) then Ok ("blocked", "result_unknown_requires_review")
    else
      canceled ← flag progress "cancel_requested";
      if (canceled : bool) then Ok ("", "")
      else if pp_complete plan then Ok ("awaiting_review", "candidate_evidence_complete")
      else match pp_blocked plan with
           | action :: _ => Ok (if bool_decide (pp_ready plan = [])
                                then ("blocked", na_cause action) else ("", ""))
           | [] => Ok ("", "")
           end
  else Ok ("", "").

(** [max(at, *times)]: the first of the greatest. *)
Definition later (best t : datetime) : res datetime :=
  greater ← dt_gt t best; Ok (if greater : bool then t else best).
Definition latest (at_ : datetime) (times : list datetime) : res datetime := foldM later at_ times.

Definition transition_times (progress : json) : res (list datetime) :=
  transitions ← json_item progress "transitions";
  transitions ← iterate transitions;
  mapM (λ t, iso_item t "at") transitions.
(** [datetime.fromisoformat(progress["transitions"][-1]["at"])] *)
Definition last_transition (progress : json) : res datetime :=
  transitions ← list_field progress "transitions";
  match last transitions with Some t => iso_item t "at" | None => Err IndexError end.

(** [evidence] is the execution that caused a block, read when it is needed. *)
Definition candidate_completion_progress (evidence : json → string → list NextAction →
                                                     res (string * datetime))
    (claim : SlotClaim) (progress : json) (actor : string) (at_ : datetime)
    (active : list SlotClaim) (plan : ParallelPlan) : res json :=
  '(target, cause) ← candidate_completion_target progress active plan;
  '(reference, at_, evidence_at) ←
    (if target == "blocked" then
       '(reference, failed_at) ← evidence progress cause (pp_blocked plan);
       current ← last_transition progress;
       '(at_, evidence_at) ←
         (if cause == "semantic_recovery_not_allowed" then
            at_ ← latest at_ [failed_at; current];
            Ok (at_, [("evidence_at", time_json failed_at)])
          else Ok (failed_at, []));
       raise_ifM (dt_lt at_ current)
         (CheckpointConflict "Blocked evidence predates the current Run transition") ;;
       Ok (reference, at_, evidence_at)
     else
       times ← transition_times progress;
       at_ ← latest at_ times;
       Ok (cp_execution_id (sc_checkpoint claim), at_, []));
  status ← (if nonempty target then json_item progress "status" else Ok JNull);
  if nonempty target && negb (json_eqb (JStr target) status) then
    move_to target
      (JObj ([("from", status); ("to", JStr target); ("cause_code", JStr cause);
              ("actor", JStr actor); ("at", time_json at_); ("evidence_refs", texts [reference])]
             ++ evidence_at)) progress
  else Ok progress.

Local Close Scope py_scope.

(** ** What a transition changes *)

Lemma item_set k v k' d :
  json_item (set_item k v d) k'
  = match d with JObj _ => if bool_decide (k' = k) then Ok v else json_item d k' | _ => Err TypeError end.
Proof. destruct d; try done. cbn. rewrite assoc_assoc_set. by case_bool_decide. Qed.
Lemma get_set k v k' d :
  k' ≠ k → json_get (set_item k v d) k' = json_get d k'.
Proof. intros Hk. destruct d; try done. cbn. by rewrite assoc_assoc_set, bool_decide_eq_false_2. Qed.

Lemma move_to_Ok to_ transition progress progress' :
  move_to to_ transition progress = Ok progress' →
  ∃ transitions before, json_item progress "transitions" = Ok before ∧
    iterate before = Ok transitions ∧
    json_item progress' "status" = Ok (JStr to_) ∧
    json_item progress' "transitions" = Ok (JList (transitions ++ [transition])) ∧
    ∀ k, k ≠ "status" → k ≠ "transitions" → json_get progress' k = json_get progress k.
Proof.
  unfold move_to. intros H. py_inv. do 2 eexists. split; [done|]. split; [done|].
  destruct progress; try done. split_and!.
  - by rewrite !item_set.
  - by rewrite !item_set.
  - intros k Hs Ht. by rewrite !get_set.
Qed.

Lemma move_to_default to_ transition progress progress' k d :
  move_to to_ transition progress = Ok progress' → k ≠ "status" → k ≠ "transitions" →
  json_get_default progress' k d = json_get_default progress k d.
Proof.
  unfold move_to. intros H Hs Ht. py_inv. destruct progress; try done.
  cbn. by rewrite !assoc_assoc_set, !bool_decide_eq_false_2.
Qed.

(** ** The target of a candidate run *)

Lemma candidate_target_inv progress active plan target cause :
  candidate_completion_target progress active plan = Ok (target, cause) →
  target = "" ∨
  (active = [] ∧ target = "blocked" ∧
   (flag progress "unresolved_result_unknown_count" = Ok true ∨
    (flag progress "unresolved_result_unknown_count" = Ok false ∧
     flag progress "cancel_requested" = Ok false ∧ pp_complete plan = false ∧
     pp_blocked plan ≠ [] ∧ pp_ready plan = []))) ∨
  (active = [] ∧ target = "awaiting_review" ∧
   flag progress "unresolved_result_unknown_count" = Ok false ∧
   flag progress "cancel_requested" = Ok false ∧ pp_complete plan = true).
Proof.
  unfold candidate_completion_target. intros H.
  destruct (bool_decide_reflect (active = [])) as [Ha|Ha]; [|ok_inv; by left].
  ok_inv. destruct x; [ok_inv; naive_solver|]. ok_inv. destruct x; [ok_inv; by left|].
  destruct (pp_complete plan); [ok_inv; naive_solver|].
  destruct (pp_blocked plan) as [|a rest]; [ok_inv; by left|].
  destruct (bool_decide_reflect (pp_ready plan = [])); ok_inv; [|by left].
  right. left. naive_solver.
Qed.

Lemma dt_le_trans a b c : dt_le a b = Ok true → dt_le b c = Ok true → dt_le a c = Ok true.
Proof.
  rewrite !dt_le_true. unfold comparable. rewrite !eqb_true_iff. intros [-> ?] [-> ?]. split; [done|lia].
Qed.
Lemma dt_le_refl a : dt_le a a = Ok true.
Proof. apply dt_le_true. unfold comparable. by rewrite eqb_reflx. Qed.

Lemma latest_spec times at_ m :
  latest at_ times = Ok m →
  dt_le at_ m = Ok true ∧ Forall (λ t, dt_le t m = Ok true) times.
Proof.
  unfold latest. induction times as [|t times IH] in at_ |- *; cbn [foldM].
  { intros [= <-]. split; [apply dt_le_refl|constructor]. }
  intros (b & Hb & Hf)%bind_Ok. destruct (IH _ Hf) as [Hle Hall].
  enough (dt_le at_ b = Ok true ∧ dt_le t b = Ok true) as [H1 H2].
  { split; [by eapply dt_le_trans|]. constructor; [by eapply dt_le_trans|done]. }
  unfold later, dt_gt in Hb. apply bind_Ok in Hb as ([] & Hg & [= <-]).
  - apply dt_lt_true in Hg as [? ?]. split; [|apply dt_le_refl]. apply dt_le_true. split; [done|lia].
  - apply dt_lt_false in Hg as [? ?]. split; [apply dt_le_refl|]. apply dt_le_true.
    split; [by apply comparable_sym|lia].
Qed.

Lemma last_transition_time progress times now :
  transition_times progress = Ok times → last_transition progress = Ok now → now ∈ times.
Proof.
  unfold transition_times, last_transition, list_field. intros Ht Hn.
  apply bind_Ok in Ht as (v & Hv & (l & Hl & Ht)%bind_Ok). rewrite Hv in Hn. cbn in Hn.
  destruct v as [| | | | |k|]; try done. injection Hl as ->. cbn in Hn.
  destruct (last l) as [t|] eqn:Hlast; [|done]. apply last_Some in Hlast as [l' ->].
  apply mapM_Ok, Forall2_app_inv_l in Ht as (ts & [|t' rest] & _ & Htail & ->); [by inversion Htail|].
  inversion Htail; subst. apply elem_of_app. right. replace now with t' by congruence. by left.
Qed.

(** A run changes its status only to the target of its evidence, at a time that is not before the
    transition it is in. *)
Lemma completion_progress_inv evidence claim progress actor at_ active plan progress' :
  candidate_completion_progress evidence claim progress actor at_ active plan = Ok progress' →
  ∃ target cause, candidate_completion_target progress active plan = Ok (target, cause) ∧
    (progress' = progress ∨
     (target ≠ "" ∧ json_item progress "status" ≠ Ok (JStr target) ∧
      ∃ from_ t reference evidence_at,
        json_item progress "status" = Ok from_ ∧
        (∀ now, last_transition progress = Ok now → dt_le now t = Ok true) ∧
        move_to target
          (JObj ([("from", from_); ("to", JStr target); ("cause_code", JStr cause);
                  ("actor", JStr actor); ("at", time_json t); ("evidence_refs", texts [reference])]
                 ++ evidence_at)) progress = Ok progress')).
Proof.
  unfold candidate_completion_progress. intros ([target cause] & Ht & H)%bind_Ok.
  exists target, cause. split; [done|]. apply bind_Ok in H as ([[reference t] extra] & Href & H).
  apply bind_Ok in H as (status & Hs & H).
  assert (Hlate : ∀ now, last_transition progress = Ok now → dt_le now t = Ok true).
  { intros now Hnow. destruct (bool_decide (target = "blocked")).
    - apply bind_Ok in Href as ([r failed_at] & _ & Href).
      rewrite Hnow in Href. cbn [mbind res_bind] in Href.
      apply bind_Ok in Href as ([t' e'] & _ & Href). py_inv.
      apply dt_le_true. split; [by apply comparable_sym|lia].
    - py_inv. match goal with H : latest _ _ = Ok _ |- _ => apply latest_spec in H as [_ Hall] end.
      rewrite Forall_forall in Hall. apply Hall. by eapply last_transition_time. }
  destruct (nonempty target) eqn:Hn; [|cbn in H; ok_inv; by left]. apply nonempty_true in Hn.
  destruct (json_eqb (JStr target) status) eqn:He; [cbn in H; ok_inv; by left|]. right.
  split; [done|]. split; [|by exists status, t, reference, extra].
  intros Heq. rewrite Hs in Heq. injection Heq as ->. cbn in He. by rewrite bool_decide_eq_true_2 in He.
Qed.

(** ** Unknown results *)

(** The run stops and counts one more unresolved result. *)
Definition counts_unknown (previous progress : json) : Prop :=
  json_item progress "status" = Ok (JStr "blocked") ∧
  ∃ n, int_default previous "unresolved_result_unknown_count" 0 = Ok n ∧
       int_default progress "unresolved_result_unknown_count" 0 = Ok (n + 1).

Lemma count_unknown_Ok previous progress :
  count_unknown previous = Ok progress →
  ∃ n, int_default previous "unresolved_result_unknown_count" 0 = Ok n ∧
       int_default progress "unresolved_result_unknown_count" 0 = Ok (n + 1).
Proof.
  unfold count_unknown. intros H. py_inv. exists x. split; [done|].
  destruct previous; try done. unfold int_default. cbn. by rewrite assoc_assoc_set.
Qed.

Lemma get_default_get v k d :
  json_get_default v k d = match v with JObj l => Ok (default d (assoc k l)) | _ => Err AttributeError end.
Proof. by destruct v. Qed.

Lemma move_counts_unknown previous counted transition progress :
  count_unknown previous = Ok counted → move_to "blocked" transition counted = Ok progress →
  counts_unknown previous progress.
Proof.
  intros (n & Hp & Hc)%count_unknown_Ok Hm. split.
  - by apply move_to_Ok in Hm as (? & ? & _ & _ & ? & _).
  - exists n. split; [done|]. rewrite <- Hc. unfold move_to in Hm. py_inv.
    destruct counted; try done. unfold int_default. cbn. by rewrite !assoc_assoc_set.
Qed.

Lemma generation_unknown_progress previous completion policy owner progress :
  gc_status completion = "result_unknown" →
  generation_completion_progress previous completion policy owner false = Ok progress →
  counts_unknown previous progress.
Proof.
  unfold generation_completion_progress. intros -> H. rewrite bool_decide_eq_true_2 in H by done.
  apply bind_Ok in H as ([p cause] & (counted & Hc & [= <- <-])%bind_Ok & H).
  replace (nonempty _ && negb false) with true in H by reflexivity.
  by eapply move_counts_unknown.
Qed.
Lemma semantic_unknown_progress previous completion policy owner progress :
  sc_status completion = "result_unknown" →
  semantic_completion_progress previous completion policy owner false = Ok progress →
  counts_unknown previous progress.
Proof.
  unfold semantic_completion_progress. intros -> H. rewrite bool_decide_eq_true_2 in H by done.
  apply bind_Ok in H as ([p cause] & (counted & Hc & [= <- <-])%bind_Ok & H).
  replace (nonempty _ && negb false) with true in H by reflexivity.
  by eapply move_counts_unknown.
Qed.
