(* ===== verification/Documents.v ===== *)
(** * Documents: the JSON documents of a run, rewritten and read again

    The progress of a run is a JSON column that every operation rewrites key by key, and two
    operations write it as a text ([src/src/qs_ai/infrastructure/persistence/mysql]).  These lemmas
    say which documents their text keeps, and that rewriting a key keeps them so.  The last section
    is about what the server may change in a document that goes through a column ([JsonServer]). *)
From S2P Require Import Prelude PyText PyTime PyNum PyJson JsonRoundTrip PyIso Completion.
From S2P Require Import Resolution CheckpointRecords CompletionRecords Acceptance CompletionProgress.

Local Open Scope string_scope.
Local Open Scope Z_scope.

(** ** Documents that a text keeps *)

Lemma keys_assoc_set {A} k (v : A) l x : x ∈ (assoc_set k v l).*1 ↔ x = k ∨ x ∈ l.*1.
Proof.
  induction l as [|[k' v'] l IH]; cbn [assoc_set]; [set_solver|].
  case_bool_decide as Hk; cbn; set_solver.
Qed.
Lemma NoDup_assoc_set {A} k (v : A) l : NoDup l.*1 → NoDup (assoc_set k v l).*1.
Proof.
  induction l as [|[k' v'] l IH]; cbn [assoc_set]; intros Hl; [by apply NoDup_singleton|].
  cbn in Hl. apply NoDup_cons in Hl as [Hn Hl]. case_bool_decide as Hk; cbn; apply NoDup_cons.
  - by subst.
  - split; [|by apply IH]. rewrite keys_assoc_set. naive_solver.
Qed.
Lemma textual_object l :
  textual (JObj l) = true ↔ NoDup l.*1 ∧ ∀ kv, kv ∈ l → textual kv.2 = true.
Proof. cbn [textual]. by rewrite andb_true_iff, bool_decide_eq_true, forallb_true. Qed.
Lemma elem_of_assoc_set {A} k (v : A) l kv : kv ∈ assoc_set k v l → kv = (k, v) ∨ kv ∈ l.
Proof.
  induction l as [|[k' v'] l IH]; cbn [assoc_set]; [set_solver|]. case_bool_decide as Hk; set_solver.
Qed.
Lemma textual_set k v p : textual p = true → textual v = true → textual (set_item k v p) = true.
Proof.
  destruct p as [| | | | | |l]; try done. cbn [set_item]. rewrite !textual_object. intros [Hn Hl] Hv.
  split; [by apply NoDup_assoc_set|]. intros kv [->|Hin]%elem_of_assoc_set; [done|by apply Hl].
Qed.
Lemma assoc_member {A} k (l : list (string * A)) v : assoc k l = Some v → (k, v) ∈ l.
Proof.
  induction l as [|[k' v'] l IH]; cbn [assoc]; [done|]. case_bool_decide as Hk; [|intros; right; auto].
  intros [= ->]. subst. by left.
Qed.
Lemma textual_item p k v : textual p = true → json_item p k = Ok v → textual v = true.
Proof.
  destruct p as [| | | | | |l]; try done. rewrite textual_object. cbn [json_item]. intros [_ Hl].
  destruct (assoc k l) as [x|] eqn:E; [|done]. intros [= <-]. by apply (Hl (k, x)), assoc_member.
Qed.
Lemma textual_default p k d v :
  textual p = true → textual d = true → json_get_default p k d = Ok v → textual v = true.
Proof.
  destruct p as [| | | | | |l]; try done. rewrite textual_object. cbn [json_get_default]. intros [_ Hl] Hd.
  destruct (assoc k l) as [x|] eqn:E; intros [= <-]; [by apply (Hl (k, x)), assoc_member|done].
Qed.
Lemma textual_iterate v l : textual v = true → iterate v = Ok l → forallb textual l = true.
Proof.
  destruct v; try done; cbn [iterate]; intros Hv [= <-]; [|exact Hv|]; apply forallb_true;
    by intros x (y & -> & _)%list_elem_of_fmap.
Qed.
Lemma textual_texts l : textual (texts l) = true.
Proof. unfold texts. cbn [textual]. apply forallb_true. by intros x (y & -> & _)%list_elem_of_fmap. Qed.
Lemma textual_resolution r : textual (resolution_dict r) = true.
Proof. reflexivity. Qed.
Lemma textual_recovery r : textual (recovery_dict r) = true.
Proof. reflexivity. Qed.

Lemma textual_list {A} (f : A → json) l : (∀ x, textual (f x) = true) → textual (JList (f <$> l)) = true.
Proof. intros Hf. cbn [textual]. apply forallb_true. by intros x (y & -> & _)%list_elem_of_fmap. Qed.
Lemma textual_append l t : forallb textual l = true → textual t = true → textual (JList (l ++ [t])) = true.
Proof. intros Hl Ht. cbn [textual]. by rewrite forallb_app, Hl; cbn; rewrite Ht. Qed.

(** ** Keys *)

Lemma item_kept k v k' d x :
  k' ≠ k → json_item d k' = Ok x → json_item (set_item k v d) k' = Ok x.
Proof. intros Hk Hs. rewrite item_set. destruct d; try done. by rewrite bool_decide_eq_false_2. Qed.
(** Of a dict, which [k0] shows it to be. *)
Lemma item_new k v k0 d x :
  json_item d k0 = Ok x → json_item (set_item k v d) k = Ok v.
Proof. intros Hs. rewrite item_set. destruct d; try done. by rewrite bool_decide_eq_true_2. Qed.
(** A value that [get] found is not its default. *)
Lemma get_item d k v : json_get d k = Ok v → v ≠ JNull → json_item d k = Ok v.
Proof.
  destruct d as [| | | | | |l]; try done. cbn. destruct (assoc k l); [done|]. by intros [= <-].
Qed.

(** ** What the database gives back of a document

    A column of type JSON does not keep the text it was given: MySQL reads the document, may round a
    double by one unit in the last place when it decodes its decimal text, and orders the members of
    an object as it likes (comment of [mysql_json_record_matches] in [evaluation_finalization.py]).
    Texts, booleans, null and the integers of 64 bits come back as they are.  The rounding and the
    order are parameters: nothing here says that a double is kept. *)

(** [arranged] is the server's order of the members of an object. *)
Class JsonServer : Type := {
  rounded : float64 → float64;
  arranged : list (string * json) → list (string * json);
  rounded_finite f : is_ok (float_repr false f) = true → is_ok (float_repr false (rounded f)) = true;
  arranged_perm l : arranged l ≡ₚ l;
}.

Section server.
Context `{JsonServer}.

(** The document that comes back. *)
Fixpoint stored (v : json) : json :=
  match v with
  | JFloat f => JFloat (rounded f)
  | JList l => JList (List.map stored l)
  | JObj l => JObj (arranged (List.map (λ kv, (kv.1, stored kv.2)) l))
  | _ => v
  end.

Definition stored_members (l : list (string * json)) : list (string * json) :=
  arranged (List.map (λ kv, (kv.1, stored kv.2)) l).

Lemma stored_keys l : (stored_members l).*1 ≡ₚ l.*1.
Proof.
  unfold stored_members. rewrite arranged_perm.
  induction l as [|[k v] l IH]; [done|]. cbn. by rewrite IH.
Qed.

Lemma assoc_stored k l : NoDup l.*1 → assoc k (stored_members l) = stored <$> assoc k l.
Proof.
  intros Hl. assert (Hs : NoDup (stored_members l).*1) by by rewrite stored_keys.
  destruct (assoc k l) as [v|] eqn:Hk; cbn.
  - apply assoc_elem; [done|]. unfold stored_members. rewrite arranged_perm.
    apply (list_elem_of_fmap_2 (λ kv, (kv.1, stored kv.2)) l (k, v)). by apply assoc_member.
  - destruct (assoc k (stored_members l)) as [v|] eqn:Hv; [|done].
    apply assoc_member, (list_elem_of_fmap_2 fst) in Hv. cbn in Hv. rewrite stored_keys in Hv.
    apply assoc_keys in Hv as [w Hw]. congruence.
Qed.

(** Every item of a document comes back in its place. *)
Lemma stored_item l k v :
  NoDup l.*1 → json_item (JObj l) k = Ok v → json_item (stored (JObj l)) k = Ok (stored v).
Proof.
  intros Hl. cbn [stored json_item]. fold (stored_members l). rewrite assoc_stored by done.
  destruct (assoc k l); [|done]. by intros [= ->].
Qed.
Lemma stored_get l k v :
  NoDup l.*1 → json_get (JObj l) k = Ok v → json_get (stored (JObj l)) k = Ok (stored v).
Proof.
  intros Hl. cbn [stored json_get]. fold (stored_members l). rewrite assoc_stored by done.
  destruct (assoc k l); by intros [= <-].
Qed.

(** A document that came back is made of members that come back unchanged. *)
Lemma settled_member l k v :
  NoDup l.*1 → stored (JObj l) = JObj l → assoc k l = Some v → stored v = v.
Proof.
  intros Hl [= Hs] Hk. fold (stored_members l) in Hs.
  pose proof (assoc_stored k l Hl) as Ha. rewrite Hs, Hk in Ha. by injection Ha as <-.
Qed.

(** *** Documents that can be printed *)

(** Integers that [json.dumps] converts and finite floats. *)
Fixpoint prints (v : json) : bool :=
  match v with
  | JNull | JBool _ | JStr _ => true
  | JInt z => within_digits z
  | JFloat f => is_ok (float_repr false f)
  | JList l => forallb prints l
  | JObj l => forallb (λ kv, prints kv.2) l
  end.

Lemma is_ok_mapM {A B} (f : A → res B) l : is_ok (mapM f l) = forallb (λ x, is_ok (f x)) l.
Proof.
  induction l as [|x l IH]; [done|]. cbn. rewrite <- IH. destruct (f x); [|done]. cbn.
  by destruct (mapM f l).
Qed.

(** Whether a value can be printed does not depend on the style. *)
Lemma dumps_prints st v : allow_nan st = false → is_ok (dumps_with st v) = prints v.
Proof.
  intros Hst. induction v as [|b|z|f|s|l IH|l IH] using json_induction; try done.
  - cbn. by destruct (within_digits z).
  - cbn. by rewrite Hst.
  - rewrite dumps_list. transitivity (is_ok (mapM (dumps_with st) l)); [by destruct (mapM _ _)|].
    rewrite is_ok_mapM. cbn. induction IH as [|x l Hx _ IH]; [done|]. cbn. by rewrite Hx, IH.
  - rewrite dumps_obj.
    transitivity (is_ok (mapM (λ kv, t ← dumps_with st kv.2; Ok (kv.1, t)) l)); [by destruct (mapM _ _)|].
    rewrite is_ok_mapM. cbn. induction IH as [|[k x] l Hx _ IH]; [done|]. cbn in *.
    rewrite <- Hx, <- IH. by destruct (dumps_with st x).
Qed.

Lemma prints_stored v : prints v = true → prints (stored v) = true.
Proof.
  induction v as [|b|z|f|s|l IH|l IH] using json_induction; try done; cbn.
  - apply rounded_finite.
  - induction IH as [|x l Hx _ IH]; [done|]. cbn. rewrite !andb_true_iff. naive_solver.
  - intros Hl. apply forallb_true. intros kv. rewrite arranged_perm.
    induction IH as [|[k x] l Hx _ IH]; cbn; [by intros ?%not_elem_of_nil|].
    cbn in Hl, Hx. apply andb_true_iff in Hl as [H1 H2]. intros [->|Hin]%elem_of_cons; [by apply Hx|].
    by apply IH.
Qed.

(** An object of texts is equal to what comes back of it. *)
Lemma stored_texts (l : list (string * string)) :
  NoDup l.*1 →
  json_eqb (stored (JObj ((λ kv, (kv.1, JStr kv.2)) <$> l))) (JObj ((λ kv, (kv.1, JStr kv.2)) <$> l))
  = true.
Proof.
  intros Hl. set (m := (λ kv, (kv.1, JStr kv.2)) <$> l).
  assert (Hm : List.map (λ kv, (kv.1, stored kv.2)) m = m).
  { unfold m. clear. induction l as [|[k v] l IH]; [done|]. cbn. by rewrite IH. }
  assert (Hk : m.*1 = l.*1) by (unfold m; rewrite <- list_fmap_compose; done).
  cbn [stored]. rewrite Hm. pose proof (arranged_perm m) as Hp. cbn [json_eqb].
  rewrite (Permutation_length Hp), Nat.eqb_refl. cbn [andb].
  assert (Hin : ∀ kv, kv ∈ arranged m → assoc kv.1 m = Some kv.2 ∧ ∃ s, kv.2 = JStr s).
  { intros [k v]. rewrite Hp. intros Hkv. split; [apply assoc_elem; [by rewrite Hk|done]|].
    unfold m in Hkv. apply list_elem_of_fmap in Hkv as ([? s] & [= -> ->] & _). by exists s. }
  revert Hin. clear. generalize (arranged m) as a. induction a as [|[k v] a IH]; intros Hin; [done|].
  destruct (Hin (k, v)) as (Hk & s & Hs); [by left|]. cbn in Hk, Hs. subst v. rewrite Hk. cbn.
  rewrite bool_decide_eq_true_2 by done. apply IH. intros kv Hkv. apply Hin. by right.
Qed.
End server.
