(* ===== verification/DispatchLedger.v ===== *)
(** * DispatchLedger: what the ledger of dispatches guarantees

    Theorems on [record_dispatch] of
    [src/src/qs_ai/infrastructure/persistence/mysql/evaluation_dispatches.py], through every
    operation of [SlotClaims]: the ledger of a run stays within the limits of its frozen policy,
    numbers the executions of each target without a gap, and names an execution once. *)
From S2P Require Import Prelude PyText PyTime PyHash PyNum PyJson JsonRoundTrip PyIso.
From S2P Require Import Transactions Tables Failure Checkpoint Actions Publication Policies.
From S2P Require Import CheckpointRecords SlotClaims.

Local Open Scope string_scope.
Local Open Scope Z_scope.

Section ledger.
Context {R : Type}.
Context (candidate_plan : EvaluationTables R → string → EvaluationRunRow → list SlotClaim → Z →
                          res ParallelPlan).
Notation DB := (EvaluationTables R).
Notation step := (@step R candidate_plan).

(** The row of a dispatched checkpoint. *)
Definition dispatch_row (cp : ExecutionCheckpoint) : DispatchRow :=
  mk_DispatchRow (cp_execution_id cp) (cp_kind cp) (cp_case_id cp) (cp_slot_ordinal cp)
    (cp_candidate_id cp) (checkpoint_dict cp).

Definition target_entries (db : DB) (run_id stage : string) (cp : ExecutionCheckpoint)
    : list DispatchRow :=
  filter (λ item, counts_for stage cp item = true) (stage_entries db run_id stage).

Definition recorded_ordinal (row : DispatchRow) : option Z :=
  match int_field (dp_checkpoint_json row) "execution_ordinal" with Ok z => Some z | Err _ => None end.

(** The policy a run was frozen with. *)
Definition frozen_under (db : DB) (run_id : string) (policy : ExecutionPolicy) : Prop :=
  frozen_policy_json db run_id = Ok (policy_definition_json policy) ∧
  ∃ reference, execution_policy (mk_FrozenPolicyDocument reference (policy_definition_json policy))
               = Ok policy.

(** ** Recording a dispatch *)

Lemma record_values_plan run_id cp text :
  dumps_with compact_finite (record_dict run_id cp) = Ok text →
  record_values text = Ok (record_dict run_id cp).
Proof.
  intros Ht. unfold record_values.
  rewrite (loads_dumps compact_finite ltac:(by left) ltac:(by left) (record_dict run_id cp) text);
    [by rewrite written_unsorted| |done].
  unfold record_dict, encode. change (optional_json (checkpoint_dict <$> Some cp)) with (checkpoint_dict cp).
  cbn [textual fmap list_fmap List.map fst snd forallb]. rewrite textual_checkpoint. vm_compute. reflexivity.
Qed.

Lemma record_dispatch_Ok run_id cp (db db' : DB) u :
  record_dispatch run_id cp db = (Ok u, db') →
  ∃ raw policy budget limit total,
    frozen_policy_json db run_id = Ok raw ∧ loads raw = Ok policy ∧
    json_item policy (budget_key (cp_kind cp)) = Ok budget ∧
    json_item budget (target_key (cp_kind cp)) = Ok limit ∧
    reaches (len (target_entries db run_id (cp_kind cp) cp)) limit = Ok false ∧
    json_item budget "max_executions_per_run" = Ok total ∧
    reaches (len (stage_entries db run_id (cp_kind cp))) total = Ok false ∧
    cp_execution_ordinal cp = len (target_entries db run_id (cp_kind cp) cp) + 1 ∧
    e_dispatches db !! (run_id, cp_invocation_id cp) = None ∧
    (∀ i row, e_dispatches db !! (run_id, i) = Some row → dp_execution_id row ≠ cp_execution_id cp) ∧
    db' = set_dispatches (<[(run_id, cp_invocation_id cp) := dispatch_row cp]> (e_dispatches db)) db.
Proof.
  unfold record_dispatch. rewrite get_bind, lift_bind.
  destruct (plan_dispatch_record db run_id cp) as [text|] eqn:Hp; [|done].
  unfold plan_dispatch_record in Hp.
  change (if bool_decide (cp_kind cp = "generation") then "generation_budget" else "semantic_budget")
    with (budget_key (cp_kind cp)) in Hp.
  change (if bool_decide (cp_kind cp = "generation") then "max_executions_per_slot"
          else "max_executions_per_candidate") with (target_key (cp_kind cp)) in Hp.
  fold (target_entries db run_id (cp_kind cp) cp) in Hp.
  py_inv. rewrite lift_bind, (record_values_plan run_id cp text) by done.
  unfold insert_dispatch, record_dict.
  erewrite !text_field_dict, int_field_dict, json_item_dict by reflexivity. rewrite !lift_bind.
  intros (Hn & Hu & ->)%insert_row_Ok. apply negb_true_iff in Hu. rewrite existsb_false in Hu.
  match goal with H : (_ =? _) = true |- _ => apply Z.eqb_eq in H end.
  do 5 eexists. split_and!; try done. intros i row Hi Heq.
  specialize (Hu ((run_id, i), row) (proj2 (elem_of_map_to_list _ _ _) Hi)). cbn in Hu.
  by rewrite Heq, !bool_decide_eq_true_2 in Hu.
Qed.

(** The entries of a stage after a dispatch. *)
Lemma stage_entries_insert run_id cp (db : DB) run stage :
  e_dispatches db !! (run_id, cp_invocation_id cp) = None →
  stage_entries (set_dispatches (<[(run_id, cp_invocation_id cp) := dispatch_row cp]>
                                   (e_dispatches db)) db) run stage
  ≡ₚ (if decide (run_id = run ∧ cp_kind cp = stage) then [dispatch_row cp] else [])
     ++ stage_entries db run stage.
Proof.
  intros Hn. unfold stage_entries. cbn [e_dispatches set_dispatches].
  rewrite map_to_list_insert by done. rewrite filter_cons. cbn.
  by destruct (decide (run_id = run ∧ cp_kind cp = stage)).
Qed.

Lemma counts_for_same stage cp cp' :
  counts_for stage cp (dispatch_row cp') = true →
  ∀ item, counts_for stage cp item = counts_for stage cp' item.
Proof.
  unfold counts_for. intros H item. bool_inv. cbn in *. subst.
  match goal with H : cp_case_id _ = _ |- _ => rewrite H end.
  match goal with H : cp_slot_ordinal _ = _ |- _ => rewrite H end.
  destruct (bool_decide (stage = "generation")); cbn in *; [done|].
  match goal with H : bool_decide _ = true |- _ => apply bool_decide_eq_true in H; by rewrite H end.
Qed.

#[local] Instance len_proper A : Proper ((≡ₚ) ==> (=)) (@len A).
Proof. intros l l' Hl. unfold len. by rewrite Hl. Qed.

(** ** The invariant *)

Definition ordinals (rows : list DispatchRow) : list (option Z) := recorded_ordinal <$> rows.

#[local] Instance ordinals_proper : Proper ((≡ₚ) ==> (≡ₚ)) ordinals.
Proof. intros l l' Hl. unfold ordinals. by rewrite Hl. Qed.

(** The entries of a run are numbered per target, within the limits of a policy. *)
Definition within_policy (db : DB) (run_id : string) (policy : ExecutionPolicy) : Prop :=
  ∀ stage,
    len (stage_entries db run_id stage) <= per_run policy stage ∧
    ∀ cp, ordinals (target_entries db run_id stage cp)
            ≡ₚ Some <$> seqZ 1 (len (target_entries db run_id stage cp)) ∧
          len (target_entries db run_id stage cp) <= per_target policy stage.

Record ledger_kept (db : DB) : Prop := {
  kept_unfrozen run_id :
    (∀ raw, frozen_policy_json db run_id ≠ Ok raw) → ∀ stage, stage_entries db run_id stage = [];
  kept_policy run_id policy : frozen_under db run_id policy → within_policy db run_id policy;
  kept_unique run_id i j r r' :
    e_dispatches db !! (run_id, i) = Some r → e_dispatches db !! (run_id, j) = Some r' →
    dp_execution_id r = dp_execution_id r' → i = j;
}.

Lemma reaches_int n z b : reaches n (JInt z) = Ok b ↔ (z <=? n) = b.
Proof. unfold reaches. cbn [num_of]. rewrite num_le_int. naive_solver. Qed.

Lemma recorded_ordinal_row cp : recorded_ordinal (dispatch_row cp) = Some (cp_execution_ordinal cp).
Proof. reflexivity. Qed.

Lemma no_entries_within db run_id policy :
  (∀ stage, stage_entries db run_id stage = []) →
  (∃ reference, execution_policy (mk_FrozenPolicyDocument reference (policy_definition_json policy))
                = Ok policy) →
  within_policy db run_id policy.
Proof.
  intros He [ref (_ & _ & _ & _ & _ & _ & d & _ & Hd)%execution_policy_inv] stage.
  destruct (Hd stage) as (b & _ & _ & _ & H1 & H2). unfold target_entries. rewrite He.
  unfold len. cbn. split; [lia|]. intros cp. split; [done|lia].
Qed.

(** Recording a dispatch keeps the ledger. *)
Lemma record_keeps run_id cp (db db' : DB) u :
  ledger_kept db → record_dispatch run_id cp db = (Ok u, db') → ledger_kept db'.
Proof.
  intros [Hunf Hpol Huni] (raw & pol & budget & limit & total & Hraw & Hload & Hb & Hlim & Hused & Htot &
    Hall & Hord & Hn & Hfresh & ->)%record_dispatch_Ok.
  split.
  - intros run Hno stage. pose proof (stage_entries_insert run_id cp db run stage Hn) as Hp.
    rewrite decide_False in Hp by (intros [-> _]; by apply (Hno raw)).
    apply Permutation_nil_r. rewrite Hp. cbn. rewrite (Hunf run Hno). done.
  - intros run policy [Hf Href] stage.
    pose proof (stage_entries_insert run_id cp db run stage Hn) as Hp.
    destruct (Hpol run policy (conj Hf Href) stage) as [Hr Ht].
    destruct (decide (run_id = run ∧ cp_kind cp = stage)) as [[-> <-]|Hother].
    + destruct Href as [ref (_ & _ & _ & _ & _ & _ & d & Hd & Hlims)%execution_policy_inv].
      unfold frozen_policy_json in *. cbn in Hf. rewrite Hf in Hraw. injection Hraw as <-.
      cbn [fp_definition_json] in Hd. rewrite Hload in Hd. injection Hd as <-.
      destruct (Hlims (cp_kind cp)) as (b & Hb' & Hl' & Ht' & _).
      rewrite Hb in Hb'. injection Hb' as <-. rewrite Hlim in Hl'. injection Hl' as ->.
      rewrite Htot in Ht'. injection Ht' as ->.
      rewrite reaches_int, Z.leb_gt in Hused, Hall.
      split; [rewrite (Hp); cbn; unfold len in *; cbn; lia|].
      intros cp'. unfold target_entries. rewrite Hp. cbn [app]. rewrite filter_cons.
      destruct (decide (counts_for (cp_kind cp) cp' (dispatch_row cp) = true)) as [Hc|Hc]; [|apply Ht].
      assert (Heq : target_entries db run (cp_kind cp) cp = target_entries db run (cp_kind cp) cp').
      { apply list_filter_iff. intros x. by rewrite (counts_for_same _ _ _ Hc x). }
      fold (target_entries db run (cp_kind cp) cp'). rewrite Heq in *. destruct (Ht cp') as [Hp' Hle].
      set (rows := target_entries db run (cp_kind cp) cp') in *. split.
      * unfold ordinals, len in *. cbn [fmap list_fmap length].
        rewrite recorded_ordinal_row, Hord, seqZ_S, fmap_app. cbn.
        rewrite (Z.add_comm 1), <- Permutation_cons_append. by f_equiv.
      * unfold len in *. cbn. lia.
    + cbn in Hp.
      split; [by rewrite (Hp)|]. intros cp'. unfold target_entries. rewrite Hp. apply Ht.
  - intros run i j r r'. cbn. rewrite !lookup_insert_Some.
    intros [[[= -> <-] <-]|[_ Hi]] [[Hj Hr]|[_ Hj]] Heq; simplify_eq; try done.
    + exfalso. eapply Hfresh; [exact Hj|]. by rewrite <- Heq.
    + exfalso. by eapply Hfresh.
    + by eapply Huni.
Qed.

(** Every operation keeps the ledger. *)
Lemma ledger_frame (db db' : DB) :
  e_dispatches db' = e_dispatches db →
  (∀ run raw, frozen_policy_json db run = Ok raw → frozen_policy_json db' run = Ok raw) →
  ledger_kept db → ledger_kept db'.
Proof.
  intros Hd Hf [Hunf Hpol Huni].
  assert (He : ∀ run stage, stage_entries db' run stage = stage_entries db run stage)
    by (intros; unfold stage_entries; by rewrite Hd).
  assert (Hsame : ∀ run raw, frozen_policy_json db' run = Ok raw →
            frozen_policy_json db run = Ok raw ∨ ∀ raw, frozen_policy_json db run ≠ Ok raw).
  { intros run raw H. destruct (frozen_policy_json db run) as [raw'|] eqn:E; [|by right].
    apply Hf in E. left. congruence. }
  split.
  - intros run Hno stage. rewrite He. apply Hunf. intros raw H%Hf. by apply (Hno raw).
  - intros run policy [H Href]. destruct (Hsame _ _ H) as [H'|H'].
    + intros stage. unfold target_entries. rewrite !He. by apply Hpol.
    + apply no_entries_within; [|done]. intros stage. rewrite He. by apply Hunf.
  - intros run. rewrite Hd. apply Huni.
Qed.

Lemma step_keeps_ledger (db db' : DB) : ledger_kept db → step db db' → ledger_kept db'.
Proof.
  intros Hk [o u db1 Ho|db1 _ _ Hd Hf]; [|by eapply ledger_frame].
  destruct o; cbn [exec] in Ho; run_inv; try (by eapply ledger_frame; [..|exact Hk]).
  - destruct u. apply save_checkpoint_Ok in Ho as (_ & _ & _ & _ & ->). by eapply ledger_frame; [..|exact Hk].
  - match goal with H : prepare_candidate _ _ _ _ _ _ _ _ _ _ = _ |- _ =>
      apply prepare_Ok in H as (v & _ & _ & _ & _ & _ & ->) end.
    by eapply ledger_frame; [..|exact Hk].
  - match goal with H : renew_claim _ _ _ _ = _ |- _ =>
      apply renew_Ok in H as (c & cp & _ & _ & _ & _ & _ & _ & ->) end.
    by eapply ledger_frame; [..|exact Hk].
  - apply release_Ok in Ho as (c & _ & ->). by eapply ledger_frame; [..|exact Hk].
  - match goal with H : dispatch_claim _ _ _ _ = _ |- _ =>
      apply dispatch_Ok in H as (run & v & c & cp & db2 & _ & _ & _ & _ & _ & _ & _ & _ & Hd & _ & ->) end.
    apply (record_keeps _ _ _ _ _ Hk) in Hd. by eapply ledger_frame; [..|exact Hd].
  - match goal with H : reserve_dispatch _ _ _ _ _ = _ |- _ =>
      apply reserve_dispatch_Ok in H as (c & cp & value & db2 & _ & _ & _ & Hd & _ & Hs) end.
    apply (record_keeps _ _ _ _ _ Hk) in Hd.
    apply save_checkpoint_Ok in Hs as (_ & _ & _ & _ & ->). by eapply ledger_frame; [..|exact Hd].
  - apply freeze_Ok in Ho as (run & reference & Hrun & Hnone & _ & ->).
    apply (ledger_frame db); [done| |exact Hk]. intros r raw. unfold frozen_policy_json. cbn.
    destruct (decide (r = run_id)) as [->|Hne]; [|by rewrite lookup_insert_ne].
    by rewrite Hrun, Hnone.
Qed.

Lemma empty_ledger (db : DB) : e_dispatches db = ∅ → ledger_kept db.
Proof.
  intros He. assert (Hn : ∀ run stage, stage_entries db run stage = [])
    by (intros; unfold stage_entries; by rewrite He, map_to_list_empty).
  split; [done| |].
  - intros run policy [_ Href]. by apply no_entries_within.
  - intros run i j r r'. by rewrite He, lookup_empty.
Qed.

(** C34: The ledger of a run never exceeds its frozen policy, whatever operations the program runs: at
    each stage the run has at most its limit of dispatches, each target at most its own, the
    executions of a target are numbered from one without a gap or a repetition, and no execution
    of a run is dispatched under two invocations. *)
Theorem ledger_within_policy (db0 db : DB) run_id policy :
  e_dispatches db0 = ∅ → rtc step db0 db → frozen_under db run_id policy →
  (∀ stage,
     len (stage_entries db run_id stage) <= per_run policy stage ∧
     ∀ cp, len (target_entries db run_id stage cp) <= per_target policy stage ∧
       ordinals (target_entries db run_id stage cp)
         ≡ₚ Some <$> seqZ 1 (len (target_entries db run_id stage cp))) ∧
  ∀ i j r r', e_dispatches db !! (run_id, i) = Some r → e_dispatches db !! (run_id, j) = Some r' →
    dp_execution_id r = dp_execution_id r' → i = j.
Proof.
  intros He Hs Hf.
  assert (Hk : ledger_kept db)
    by (eapply rtc_keeps; [apply step_keeps_ledger|by apply empty_ledger|exact Hs]).
  split; [|by eapply kept_unique].
  intros stage. destruct (kept_policy _ Hk _ _ Hf stage) as [Hr Ht]. split; [done|].
  intros cp. by destruct (Ht cp).
Qed.

(** ** A claim is dispatched once *)

(** Version [v] of a run was handed out, and the row that holds it, if any, is dispatching. *)
Definition spent (run_id : string) (v : Z) (db : DB) : Prop :=
  (∃ n value, e_checkpoints db !! run_id = Some (n, value) ∧ v <= n) ∧
  ∀ case_id slot value, e_claims db !! (run_id, case_id, slot) = Some (v, value) →
    text_field value "phase" = Ok "dispatching".

Lemma mark_dispatching_phase cp owner at_ cp' :
  mark_dispatching cp owner at_ = Ok cp' → cp_phase cp = "prepared" ∧ cp_phase cp' = "dispatching".
Proof. unfold mark_dispatching. intros H. py_inv. by apply construct_Ok in H as [_ ->]. Qed.

Lemma spent_frame run_id v (db db' : DB) :
  e_checkpoints db' = e_checkpoints db → e_claims db' = e_claims db → spent run_id v db →
  spent run_id v db'.
Proof. unfold spent. by intros -> ->. Qed.

(** A saved coordinator only advances. *)
Lemma spent_checkpoint run_id v (db db' : DB) run n value old :
  e_checkpoints db !! run = Some (n, old) →
  e_checkpoints db' = <[run := (n + 1, value)]> (e_checkpoints db) →
  e_claims db' = e_claims db → spent run_id v db → spent run_id v db'.
Proof.
  intros Hn Hc Hl [(m & w & Hm & Hle) Hp]. split; [|by rewrite Hl].
  rewrite Hc. destruct (decide (run = run_id)) as [->|Hne].
  - rewrite lookup_insert_eq. eexists _, _. split; [done|]. simplify_eq. lia.
  - rewrite lookup_insert_ne by done. eauto.
Qed.

(** A rewritten row keeps its phase, or is dispatching. *)
Lemma spent_write run_id v claim current cp (db : DB) :
  require_claim claim db = (Ok current, db) →
  (cp_phase cp = cp_phase (sc_checkpoint current) ∨ cp_phase cp = "dispatching") →
  spent run_id v db → spent run_id v (write_claim claim cp db).2.
Proof.
  intros (_ & _ & _ & value & Hk & Hd & _)%require_claim_Ok Hph [Hv Hp]. split; [done|].
  intros case_id slot w. unfold write_claim, modify. cbn [snd e_claims set_claims].
  destruct (decide ((run_id, case_id, slot) = identity claim)) as [Heq|Hne].
  - rewrite Heq, lookup_alter_eq, Hk. cbn. intros [= <- <-]. rewrite <- Heq in Hk.
    apply Hp in Hk. apply decode_phase in Hd. rewrite Hk in Hd. injection Hd as Hd.
    unfold encode. cbn. destruct Hph as [-> | ->]; [by rewrite Hd|done].
  - rewrite lookup_alter_ne by done. apply Hp.
Qed.

Lemma step_keeps_spent run_id v (db db' : DB) :
  spent run_id v db → step db db' → spent run_id v db'.
Proof.
  intros Hs [o u db1 Ho|db1 Hc Hl _ _]; [|by eapply spent_frame].
  destruct o; cbn [exec] in Ho; run_inv.
  - destruct Hs as [(n & w & Hn & Hle) Hp]. split; [|done]. cbn.
    rewrite lookup_insert_ne by congruence. eauto.
  - destruct u. apply save_checkpoint_Ok in Ho as (_ & _ & _ & (old & Hold) & ->).
    by eapply spent_checkpoint.
  - match goal with H : prepare_candidate _ _ _ _ _ _ _ _ _ _ = _ |- _ =>
      apply prepare_Ok in H as (n & Hn & _ & _ & _ & Hfree & ->) end.
    eapply (spent_checkpoint _ _ (set_claims _ db)); [exact Hn|reflexivity|reflexivity|]. destruct Hs as [(m & w & Hm & Hle) Hp].
    split; [by eauto|]. intros case_id slot value. cbn. rewrite lookup_insert_Some.
    intros [[[= -> _ _] [= <- _]]|[_ H]]; [|by eapply Hp]. simplify_eq. lia.
  - match goal with H : renew_claim _ _ _ _ = _ |- _ =>
      apply renew_Ok in H as (c & cp & Hq & _ & -> & _ & _ & _ & ->) end.
    eapply spent_write; [done|by left|done].
  - apply release_Ok in Ho as (c & _ & ->). destruct Hs as [Hv Hp]. split; [done|].
    intros case_id slot value. cbn. rewrite lookup_delete_Some. intros [_ H]. by eapply Hp.
  - match goal with H : dispatch_claim _ _ _ _ = _ |- _ =>
      apply dispatch_Ok in H as (run & n & c & cp & db2 & _ & _ & _ & Hq & _ & _ & _ & Hm & Hd & _ & ->) end.
    apply mark_dispatching_phase in Hm as [_ Hph].
    apply record_dispatch_frame in Hd as (Hc & Hl & _).
    pose proof (spent_write run_id v _ _ cp db Hq (or_intror Hph) Hs) as Hw.
    eapply spent_frame; [| |exact Hw]; unfold write_claim, modify; cbn; [exact Hc|by rewrite Hl].
  - match goal with H : reserve_dispatch _ _ _ _ _ = _ |- _ =>
      apply reserve_dispatch_Ok in H as (c & cp & value & db2 & _ & _ & _ & Hd & _ & Hsave) end.
    apply record_dispatch_frame in Hd as (Hc & Hl & _).
    apply save_checkpoint_Ok in Hsave as (_ & _ & _ & (old & Hold) & ->). rewrite Hc in Hold.
    eapply spent_checkpoint; [exact Hold|cbn; by rewrite Hc|exact Hl|done].
  - apply freeze_Ok in Ho as (run & reference & _ & _ & _ & ->). by eapply spent_frame.
Qed.

Definition same_version (claim claim' : SlotClaim) : Prop :=
  sc_run_id claim = sc_run_id claim' ∧ sc_version claim = sc_version claim'.

(** C35: A claim sends at most one call: once a version of a run was dispatched, no claim of the same
    run and version is dispatched again, whatever happened in between. *)
Theorem claim_dispatched_once (db0 db db1 db2 : DB) org claim at_ c :
  e_claims db0 = ∅ → rtc step db0 db →
  dispatch_claim org claim at_ db = (Ok c, db1) → rtc step db1 db2 →
  ∀ claim' org' t c' db',
    same_version claim' claim → dispatch_claim org' claim' t db2 ≠ (Ok c', db').
Proof.
  intros He Hs Hd Hs2 claim' org' t c' db' [Hrun Hver] Hd'.
  assert (Hspent : spent (sc_run_id claim) (sc_version claim) db1).
  { destruct (steps_refine candidate_plan _ _ _ _ (empty_represents db0 (sc_run_id claim) He) Hs)
      as (l & Hl & Hr).
    assert (Hw : well_locked l)
      by (eapply rtc_keeps; [apply well_locked_step|apply empty_well_locked|done]).
    apply dispatch_Ok in Hd as (run & n & cur & cp & db4 & _ & _ & Hn & Hq & _ & _ & _ & Hm & Hrec & _ & ->).
    apply mark_dispatching_phase in Hm as [_ Hph].
    apply record_dispatch_frame in Hrec as (Hc & Hlc & _).
    apply require_claim_Ok in Hq as (_ & _ & _ & value & Hk & _).
    destruct (Hw (cp_case_id (sc_checkpoint claim), cp_slot_ordinal (sc_checkpoint claim)) (sc_version claim))
      as [(m & Hm & Hle) Hu].
    { rewrite (proj2 Hr). cbn. unfold identity, claim_key in Hk. by rewrite Hk. }
    rewrite (proj1 Hr), Hn in Hm. injection Hm as <-.
    split; [exists n, JNull; cbn; by rewrite Hc|].
    intros case_id slot w. unfold write_claim, modify. cbn [snd e_claims set_claims]. rewrite Hlc.
    destruct (decide ((sc_run_id claim, case_id, slot) = identity claim)) as [Heq|Hne].
    - rewrite Heq, lookup_alter_eq, Hk. cbn. intros [= <-]. unfold encode. cbn. by rewrite Hph.
    - rewrite lookup_alter_ne by done. intros Hrow. exfalso. apply Hne.
      specialize (Hu (case_id, slot)). rewrite (proj2 Hr) in Hu. cbn in Hu. rewrite Hrow in Hu.
      specialize (Hu eq_refl). unfold identity, claim_key. congruence. }
  assert (Hspent2 : spent (sc_run_id claim) (sc_version claim) db2)
    by (eapply (rtc_keeps step (spent (sc_run_id claim) (sc_version claim)));
          [apply step_keeps_spent|exact Hspent|exact Hs2]).
  apply dispatch_Ok in Hd' as (run & n & cur & cp & db3 & _ & _ & _ & Hq & _ & _ & _ & Hm & _).
  apply mark_dispatching_phase in Hm as [Hph _].
  apply require_claim_Ok in Hq as (_ & _ & _ & value & Hk & Hdec & _).
  unfold identity, claim_key in Hk. rewrite Hrun, Hver in Hk. apply (proj2 Hspent2) in Hk.
  apply decode_phase in Hdec. rewrite Hdec, Hph in Hk. discriminate.
Qed.
End ledger.

(** ** Dispatches that are still running *)

Local Open Scope py_scope.

(** The claim that is running a dispatch: its checkpoint and the recorded one agree, and the columns
    of the ledger agree with both. *)
Definition running (pending : gmap string ExecutionCheckpoint) (entry : string * DispatchRow)
    : Prop :=
  ∃ cp original,
    pending !! entry.1 = Some cp ∧ decode (dp_checkpoint_json entry.2) = Ok (Some original) ∧
    cp_phase cp = "dispatching" ∧ cp_phase original = "dispatching" ∧
    cp_invocation_id original = entry.1 ∧ indexed_by entry.2 original = true ∧
    same_dispatch cp original = true.

Local Close Scope py_scope.

Lemma see_dispatch_Ok terminal pending filtered seen entry state :
  see_dispatch terminal pending (filtered, seen) entry = Ok state ↔
  if decide (entry.1 ∈ terminal) then state = ((filtered ++ [entry])%list, seen)
  else running pending entry ∧ entry.1 ∉ seen ∧ state = (filtered, entry.1 :: seen).
Proof.
  destruct entry as [invocation row]. unfold see_dispatch, running. cbn [fst snd].
  destruct (decide (invocation ∈ terminal)) as [Hin|Hin].
  { rewrite bool_decide_eq_true_2 by done. split; [by intros [= <-]|by intros ->]. }
  rewrite bool_decide_eq_false_2 by done. split.
  - intros H. ok_inv. destruct (pending !! invocation) as [cp|] eqn:Hp; [|done].
    match goal with H : decode _ = Ok ?o |- _ => destruct o as [original|]; [|done] end.
    py_inv. eauto 15.
  - intros ((cp & original & -> & -> & H1 & H2 & H3 & H4 & H5) & Hs & ->). cbn [mbind res_bind].
    by rewrite (bool_decide_eq_true_2 _ H1), (bool_decide_eq_true_2 _ H2), (bool_decide_eq_true_2 _ H3),
      H4, H5, (bool_decide_eq_false_2 _ Hs).
Qed.

Lemma see_dispatches_Ok terminal pending l filtered seen filtered' seen' :
  let live := filter (λ e, e.1 ∉ terminal) l in
  foldM (see_dispatch terminal pending) (filtered, seen) l = Ok (filtered', seen') ↔
  filtered' = (filtered ++ filter (λ e, e.1 ∈ terminal) l)%list ∧
  seen' = (reverse live.*1 ++ seen)%list ∧
  NoDup live.*1 ∧ (∀ e, e ∈ live → running pending e ∧ e.1 ∉ seen).
Proof.
  cbn zeta. revert filtered seen. induction l as [|entry l IH]; intros filtered seen.
  { cbn. rewrite app_nil_r. split; [intros [= <- <-]|intros (-> & -> & _)]; [|done].
    split_and!; [done|done|constructor|]. by intros e ?%not_elem_of_nil. }
  cbn [foldM]. rewrite bind_Ok. rewrite !filter_cons.
  destruct (decide (entry.1 ∈ terminal)) as [Hin|Hin].
  - rewrite decide_False by tauto. split.
    + intros (s & Hs & H). apply see_dispatch_Ok in Hs. rewrite decide_True in Hs by done. subst s.
      apply IH in H as (-> & -> & ? & ?). by rewrite <- app_assoc.
    + intros (-> & -> & ? & ?). eexists. split; [apply see_dispatch_Ok; by rewrite decide_True|].
      apply IH. by rewrite <- app_assoc.
  - rewrite decide_True by tauto. cbn [fmap list_fmap]. rewrite NoDup_cons. split.
    + intros (s & Hs & H). apply see_dispatch_Ok in Hs. rewrite decide_False in Hs by done.
      destruct Hs as (Hr & Hns & ->). apply IH in H as (-> & -> & Hnd & Hl).
      rewrite reverse_cons, <- app_assoc. split_and!; [done|done| |done|].
      * intros (e & He & Hin')%list_elem_of_fmap. destruct (Hl e Hin') as [_ Hn]. set_solver.
      * intros e [->|He]%elem_of_cons; [done|]. destruct (Hl e He). set_solver.
    + intros (-> & -> & [Hn Hnd] & Hl). destruct (Hl entry ltac:(left)) as [Hr Hns].
      eexists. split; [apply see_dispatch_Ok; by rewrite decide_False|].
      apply IH. rewrite reverse_cons, <- app_assoc. split_and!; [done|done|done|].
      intros e He. destruct (Hl e ltac:(by right)) as [Hr' Hns']. split; [done|].
      rewrite not_elem_of_cons. split; [|done]. intros Heq. apply Hn. rewrite <- Heq.
      apply list_elem_of_fmap. eauto.
Qed.

(** A dispatch is hidden from the planner only when a live claim proves that it is running.  The
    projection succeeds exactly when every dispatch without terminal evidence is the one dispatch
    of a claim that agrees with the recorded checkpoint, and every dispatching claim has its entry
    in the ledger; it then returns the dispatches with terminal evidence, in their order. *)
Theorem terminal_dispatches_exact dispatches terminal active result :
  let pending := sc_checkpoint <$> dict_of (λ c, cp_invocation_id (sc_checkpoint c)) active in
  let live := filter (λ e, e.1 ∉ terminal) dispatches in
  terminal_dispatches dispatches terminal active = Ok result ↔
  result = filter (λ e, e.1 ∈ terminal) dispatches ∧ NoDup live.*1 ∧
  (∀ e, e ∈ live → running pending e) ∧
  (∀ c, c ∈ active → cp_phase (sc_checkpoint c) = "dispatching" →
     cp_invocation_id (sc_checkpoint c) ∈ terminal ∨
     cp_invocation_id (sc_checkpoint c) ∈ live.*1).
Proof.
  cbn zeta. unfold terminal_dispatches.
  set (pending := sc_checkpoint <$> dict_of (λ c, cp_invocation_id (sc_checkpoint c)) active).
  set (live := filter (λ e, e.1 ∉ terminal) dispatches).
  assert (Hcheck : ∀ seen, seen = (reverse live.*1 ++ [])%list →
    (existsb (λ c, (bool_decide (cp_phase (sc_checkpoint c) = "dispatching"))
                   && negb (bool_decide (cp_invocation_id (sc_checkpoint c) ∈ (terminal ++ seen)%list)))
       active = false ↔
     ∀ c, c ∈ active → cp_phase (sc_checkpoint c) = "dispatching" →
       cp_invocation_id (sc_checkpoint c) ∈ terminal ∨ cp_invocation_id (sc_checkpoint c) ∈ live.*1)).
  { intros seen ->. rewrite existsb_false, app_nil_r. apply forall_proper. intros c.
    rewrite andb_false_iff, negb_false_iff, bool_decide_eq_false, bool_decide_eq_true, elem_of_app,
      elem_of_reverse. destruct (decide (cp_phase (sc_checkpoint c) = "dispatching")); naive_solver. }
  rewrite bind_Ok. split.
  - intros ([filtered seen] & Hf & H). apply see_dispatches_Ok in Hf as (-> & Hs & Hnd & Hl).
    rewrite bind_Ok_unit, raise_if_Ok, Ok_inj, (Hcheck _ Hs) in H. destruct H as [H <-].
    split_and!; [done|done| |done]. intros e He. by apply Hl.
  - intros (-> & Hnd & Hl & Ha). exists (filter (λ e, e.1 ∈ terminal) dispatches, (reverse live.*1 ++ [])%list).
    split.
    + apply see_dispatches_Ok. split_and!; [done|done|done|]. intros e He. split; [by apply Hl|].
      apply not_elem_of_nil.
    + rewrite bind_Ok_unit, raise_if_Ok, Ok_inj. split; [by apply Hcheck|done].
Qed.
