(* ===== verification/CandidatePlan.v ===== *)
(** * CandidatePlan: the work a candidate run may start, from its durable evidence

    Models [candidate_plan] and [project_candidate_records] of
    [src/src/qs_ai/infrastructure/persistence/mysql/evaluation_candidate_plan.py] over the tables of
    the ledger and of the terminal evidence: dispatches that a live claim proves to be running are
    set aside, the others are projected to the progress of the slots, and the parallel planner
    chooses among the slots that nobody holds.

    A query without an order returns its rows in the order of the finite map here; the projection
    sorts what it reads, so the order decides only which of several conflicts is raised. *)
From S2P Require Import Prelude PyText PyTime PyHash PyJson Errors JsonRoundTrip PyIso Transactions.
From S2P Require Import Tables Failure Checkpoint Completion Actions Resolution Publication Policies.
From S2P Require Import CheckpointRecords CompletionRecords SlotClaims Projection.
From S2P Require Import CompletionProgress DispatchLedger.

Local Open Scope string_scope.
Local Open Scope Z_scope.
Local Open Scope py_scope.

(** The table [evaluation_completions] by kind, each row under its run and execution; [R] is the
    rest of the database. *)
Record CompletionTables (R : Type) : Type := mk_CompletionTables {
  ct_generations : gmap (string * string) GenerationRow;
  ct_semantics : gmap (string * string) SemanticRow;
  ct_rest : R;
}.
Arguments mk_CompletionTables {R}.
Arguments ct_generations {R}.
Arguments ct_semantics {R}.
Arguments ct_rest {R}.

Definition slot_of_claim (claim : SlotClaim) : string * Z :=
  (cp_case_id (sc_checkpoint claim), cp_slot_ordinal (sc_checkpoint claim)).

Definition project_candidate_records (creation progress : json) (policy : ExecutionPolicy)
    (active : list SlotClaim) (limit : Z) (dispatches : list (string * DispatchRow))
    (generations : list GenerationRow) (semantics : list SemanticRow) : res ParallelPlan :=
  terminal ← terminal_dispatches dispatches
               ((gr_invocation_id <$> generations) ++ (sr_invocation_id <$> semantics))%list active;
  plan ← json_item creation "slots";
  resolutions ← json_get_default progress "result_unknown_resolutions" (JList []);
  recoveries ← json_get_default progress "semantic_contract_recoveries" (JList []);
  slots ← project_slots plan generations terminal semantics resolutions recoveries policy;
  preflight ← json_item creation "preflight";
  preflight ← json_get_default progress "preflight" preflight;
  status ← text_field progress "status";
  preflight_status ← text_field preflight "status";
  preflight_case ← text_field preflight "case_id";
  unresolved ← int_default progress "unresolved_result_unknown_count" 0;
  plan_parallel status preflight_status preflight_case slots policy
    (list_to_set (slot_of_claim <$> active)) limit unresolved.

Section plan.
Context {R : Type}.
Notation DB := (EvaluationTables (CompletionTables R)).

(** The rows of a run in the three tables. *)
Definition dispatches_of (db : DB) (run_id : string) : list (string * DispatchRow) :=
  (λ row, (row.1.2, row.2)) <$> filter (λ row, row.1.1 = run_id) (map_to_list (e_dispatches db)).
Definition generations_of (db : DB) (run_id : string) : list GenerationRow :=
  (filter (λ row, row.1.1 = run_id) (map_to_list (ct_generations (e_rest db)))).*2.
Definition semantics_of (db : DB) (run_id : string) : list SemanticRow :=
  (filter (λ row, row.1.1 = run_id) (map_to_list (ct_semantics (e_rest db)))).*2.

Definition candidate_plan (db : DB) (run_id : string) (run : EvaluationRunRow)
    (active : list SlotClaim) (limit : Z) : res ParallelPlan :=
  creation ← loads (er_definition_json run);
  let progress := er_progress_json run in
  '(policy, _) ← frozen_policies creation;
  project_candidate_records creation progress policy active limit (dispatches_of db run_id)
    (generations_of db run_id) (semantics_of db run_id).
End plan.

Local Close Scope py_scope.

(** ** Running dispatches do not concern free slots *)

Lemma filter_filter_idle {A} (p : A → bool) (P : A → Prop) `{∀ x, Decision (P x)} l :
  (∀ x, x ∈ l → ¬ P x → p x = false) → List.filter p (filter P l) = List.filter p l.
Proof.
  induction l as [|x l IH]; intros Hl; [done|]. rewrite filter_cons. cbn [List.filter].
  rewrite <- IH by (intros y Hy; apply Hl; by right).
  destruct (decide (P x)); [done|]. by rewrite Hl by (done || by left).
Qed.

Lemma terminal_entries dispatches terminal active result stage slot c :
  terminal_dispatches dispatches terminal active = Ok result →
  slot ∉ slot_of_claim <$> active →
  entries result stage slot c = entries dispatches stage slot c.
Proof.
  intros (-> & _ & Hl & _)%terminal_dispatches_exact Hfree. unfold entries.
  apply filter_filter_idle. intros e He Ht.
  destruct (Hl e) as (cp & original & Hp & _ & _ & _ & _ & Hi & Hs); [by apply list_elem_of_filter|].
  rewrite lookup_fmap in Hp. apply fmap_Some in Hp as (claim & Hc & ->).
  apply dict_of_lookup_elem in Hc as [Hc _].
  unfold occupies. rewrite (bool_decide_eq_false_2 (_ = slot)); [by rewrite andb_false_r|].
  intros Heq. apply Hfree. apply list_elem_of_fmap. exists claim. split; [|done].
  unfold indexed_by, same_dispatch in *. bool_inv. unfold slot_of_claim. simplify_eq. congruence.
Qed.

(** ** The ledger counts what the projection counts *)

Lemma entries_target {R} (db : EvaluationTables (CompletionTables R)) run_id stage cp :
  len (entries (dispatches_of db run_id) stage (cp_case_id cp, cp_slot_ordinal cp) (cp_candidate_id cp))
  = len (target_entries db run_id stage cp).
Proof.
  unfold entries, dispatches_of, target_entries, stage_entries, len. f_equal.
  induction (map_to_list (e_dispatches db)) as [|[[run i] row] l IH]; [done|].
  rewrite !filter_cons. cbn [fst snd].
  destruct (decide (run = run_id)) as [Hr|Hr]; [|by rewrite decide_False by naive_solver].
  cbn [fmap list_fmap List.map List.filter fst snd].
  assert (Ho : occupies stage (cp_case_id cp, cp_slot_ordinal cp) (cp_candidate_id cp) (i, row)
               = bool_decide (dp_kind row = stage) && counts_for stage cp row).
  { unfold occupies, counts_for. cbn [snd]. rewrite <- !andb_assoc. f_equal.
    rewrite andb_assoc. f_equal. rewrite <- bool_decide_and. apply bool_decide_ext.
    split; [by intros [= -> ->]|by intros [-> ->]]. }
  rewrite Ho. destruct (decide (dp_kind row = stage)) as [Hk|Hk].
  - rewrite decide_True, bool_decide_eq_true_2 by done.
    cbn [fmap list_fmap List.map fst snd andb]. rewrite filter_cons.
    destruct (counts_for stage cp row) eqn:E;
      [rewrite decide_True by done|rewrite decide_False by done]; cbn [length]; by rewrite IH.
  - by rewrite decide_False, bool_decide_eq_false_2 by naive_solver.
Qed.

(** ** The planner's actions are the next dispatches *)

Lemma frozen_plan_NoDup cases k slots : frozen_plan cases k slots → NoDup (slot_key <$> slots).
Proof.
  intros (_ & ids & _ & Hnd & ->). induction Hnd as [|id ids Hid Hnd IH]; [constructor|].
  cbn. apply NoDup_app. split_and!; [|..|done].
  - unfold case_slots. apply NoDup_fmap; [|apply NoDup_seq]. intros a b [= ?]. lia.
  - intros [c o] (? & [= -> _] & _)%list_elem_of_fmap (id' & Hin & Hid')%list_elem_of_bind.
    apply list_elem_of_fmap in Hin as (? & [= -> _] & _). done.
Qed.

Lemma frozen_policies_inv creation policy gate :
  frozen_policies creation = Ok (policy, gate) →
  ∃ document, execution_policy document = Ok policy.
Proof.
  unfold frozen_policies. intros H. py_inv.
  match goal with H : (_, _) = (_, _) |- _ => injection H as -> _ | _ => idtac end. eauto.
Qed.

Lemma current_count s :
  length (current_executions s)
  = match sp_candidate s with
    | None => length (sp_generation s)
    | Some c => judgements_of (Some c) (cand_id c)
    end.
Proof.
  unfold current_executions. destruct (sp_candidate s); [|done]. cbn.
  by rewrite bool_decide_eq_true_2.
Qed.

Lemma plan_ready_slot status pre case slots policy active limit n p a :
  plan_parallel status pre case slots policy active limit n = Ok p → a ∈ pp_ready p →
  check_plan slots policy = Ok tt ∧
  ∃ s, s ∈ slots ∧ slot_key s ∉ active ∧ slot_action s policy = Ok (Some a) ∧ na_kind a ≠ "block".
Proof.
  intros H Ha. apply plan_parallel_inv in H as (_ & _ & first & Hf & H).
  split; [by apply next_action_inv in Hf as [? _]|].
  if_inv; [by subst; apply not_elem_of_nil in Ha|].
  destruct H as (acts & Hacts & ->). cbn [pp_ready] in Ha.
  apply elem_of_take in Ha as (i & Ha & _).
  apply list_elem_of_lookup_2, list_elem_of_filter in Ha as [Hnb Ha].
  destruct (slot_actions_elem _ _ _ _ Hacts Ha) as (s & Hs & Hsa).
  apply list_elem_of_filter in Hs as [Hact Hs]. by exists s.
Qed.

(** An action the planner offers is the next dispatch of its target, and within its budget. *)
Lemma planned_next {R} (db : EvaluationTables (CompletionTables R)) run_id run active limit p a cp :
  candidate_plan db run_id run active limit = Ok p → a ∈ pp_ready p →
  cp_kind cp = na_kind a → cp_case_id cp = na_case_id a → cp_slot_ordinal cp = na_slot_ordinal a →
  cp_candidate_id cp = na_candidate_id a →
  na_execution_ordinal a = len (target_entries db run_id (cp_kind cp) cp) + 1 ∧
  ∃ creation policy gate, loads (er_definition_json run) = Ok creation ∧
    frozen_policies creation = Ok (policy, gate) ∧
    na_execution_ordinal a <= per_target policy (cp_kind cp).
Proof.
  unfold candidate_plan, project_candidate_records. intros H Ha Hkind Hcase Hslot Hcand.
  py_inv. destruct x0 as [policy gate]. py_inv.
  rename select (plan_parallel _ _ _ _ _ _ _ _ = _) into Hp.
  destruct (plan_ready_slot _ _ _ _ _ _ _ _ _ _ Hp Ha) as (Hcheck & s & Hs & Hfree & Hact & Hnb).
  apply slot_action_Some in Hact as (_ & Hac & Has & Had & Hord & _ & [?|[Hk Hperm]]); [done|].
  rename select (frozen_policies _ = _) into Hfp.
  destruct (frozen_policies_inv _ _ _ Hfp) as [document Hdoc].
  pose proof (execution_policy_inv _ _ Hdoc) as (_ & _ & Hcounts & _ & _ & _ & def & _ & Hlim).
  injection Hcounts as Hc1 Hc2 _.
  apply check_plan_Ok in Hcheck; [|lia..]. apply frozen_plan_NoDup in Hcheck.
  rename select (project_slots _ _ _ _ _ _ _ = _) into Hproj.
  rename select (terminal_dispatches _ _ _ = _) into Hterm.
  destruct (project_slots_Ok _ _ _ _ _ _ _ _ Hproj) as [_ Hall].
  destruct (Hall Hcheck) as (grouped & seen0 & seen & Hpl & Hpr & Hd & Heq).
  destruct (projected_slot_counts _ _ _ _ _ _ _ _ Hpl Hpr Hd Heq Hs) as [Hgen Hsem].
  assert (Hkey : (cp_case_id cp, cp_slot_ordinal cp) = slot_key s)
    by (unfold slot_key; congruence).
  assert (Hcount : length (current_executions s) = length (entries (dispatches_of db run_id) (cp_kind cp)
            (cp_case_id cp, cp_slot_ordinal cp) (cp_candidate_id cp))).
  { rewrite <- (terminal_entries _ _ _ _ _ _ _ Hterm).
    2: { rewrite Hkey. by rewrite <- (elem_of_list_to_set (C := gset slot_id)). }
    rewrite current_count, Hkey, Hcand, Had, Hkind, Hk.
    unfold current_kind, current_candidate_id. destruct (sp_candidate s) as [c|] eqn:Hc; [|apply Hgen].
    apply Hsem. }
  split.
  - rewrite Hord. unfold len at 1. rewrite Hcount. by rewrite <- (entries_target db run_id).
  - exists x, policy, gate. split_and!; [done..|]. rewrite Hord, Hkind, Hk.
    destruct (Hlim (current_kind s)) as (b & _ & _ & _ & Hpos & _).
    destruct Hperm as [->|(e & _ & _ & Hlt & _)]; [unfold len; cbn; lia|].
    enough (per_target policy (current_kind s) = current_limit s policy) by lia.
    unfold per_target, current_kind, current_limit. by destruct (sp_candidate s).
Qed.

(** ** A complete plan *)

(** The evidence of a run, reconstructed under its frozen policy: the preflight passed, no unknown
    result is pending and every slot of the plan has a candidate that was judged and is ready for
    review. *)
Record review_evidence {R} (db : EvaluationTables (CompletionTables R)) (run_id : string)
    (progress : json) (policy : ExecutionPolicy) (slots : list SlotProgress) : Prop := {
  re_slots : ∃ run creation gate plan resolutions recoveries,
    e_runs db !! run_id = Some run ∧ loads (er_definition_json run) = Ok creation ∧
    frozen_policies creation = Ok (policy, gate) ∧ json_item creation "slots" = Ok plan ∧
    json_get_default progress "result_unknown_resolutions" (JList []) = Ok resolutions ∧
    json_get_default progress "semantic_contract_recoveries" (JList []) = Ok recoveries ∧
    project_slots plan (generations_of db run_id) (dispatches_of db run_id) (semantics_of db run_id)
      resolutions recoveries policy = Ok slots;
  re_preflight : ∃ d preflight, json_get_default progress "preflight" d = Ok preflight ∧
    text_field preflight "status" = Ok "passed";
  re_counted : int_default progress "unresolved_result_unknown_count" 0 = Ok 0;
  re_known : historical_unknown slots = false;
  re_plan : check_plan slots policy = Ok tt;
  re_ready : Forall (λ s, slot_ready s = true) slots;
}.
Definition reviewable {R} (db : EvaluationTables (CompletionTables R)) (run_id : string)
    (progress : json) : Prop :=
  ∃ policy slots, review_evidence db run_id progress policy slots.

Lemma slot_actions_nil policy slots :
  slot_actions policy slots = Ok [] → Forall (λ s, slot_ready s = true) slots.
Proof.
  induction slots as [|s slots IH]; [constructor|]. cbn. intros H. ok_inv. destruct x; [done|].
  ok_inv. subst. constructor; [by eapply slot_action_None|by apply IH].
Qed.

Lemma terminal_dispatches_idle dispatches terminal result :
  terminal_dispatches dispatches terminal [] = Ok result → result = dispatches.
Proof.
  intros (-> & _ & Hl & _)%terminal_dispatches_exact.
  assert (Hall : Forall (λ e, e.1 ∈ terminal) dispatches).
  { apply Forall_forall. intros e He. destruct (decide (e.1 ∈ terminal)) as [|Hn]; [done|].
    destruct (Hl e) as (cp & original & Hp & _); [by apply list_elem_of_filter|].
    by rewrite lookup_fmap in Hp. }
  clear Hl. induction Hall as [|e l He Hall IH]; [done|]. rewrite filter_cons, decide_True by done.
  by rewrite IH.
Qed.

Lemma complete_plan_reviewable {R} (db : EvaluationTables (CompletionTables R)) run_id run progress
    limit p :
  e_runs db !! run_id = Some run →
  candidate_plan db run_id (mk_EvaluationRunRow (er_execution_mode run) (er_organization_id run) (er_requested_by run)
                              (er_definition_json run) progress (er_frozen_policy run)) [] limit
  = Ok p →
  pp_complete p = true → reviewable db run_id progress.
Proof.
  intros Hrun. unfold candidate_plan, project_candidate_records. intros H Hc.
  cbn [er_definition_json er_progress_json] in H. py_inv. destruct x0 as [policy gate]. py_inv.
  rename select (plan_parallel _ _ _ _ _ _ _ _ = _) into Hp.
  rename select (terminal_dispatches _ _ _ = _) into Ht. apply terminal_dispatches_idle in Ht as ->.
  apply plan_parallel_inv in Hp as (_ & _ & first & Hf & Hp).
  apply next_action_inv in Hf as [Hplan Hf]. rewrite !bool_decide_not in Hp.
  destruct (bool_decide_reflect (x7 = "collecting")) as [->|]; [|cbn in Hp; by subst p].
  destruct (bool_decide_reflect (x8 = "passed")) as [->|]; [|cbn in Hp; by subst p]. cbn [negb orb] in Hp.
  destruct Hf as [[? _]|[(_ & [? ?] & _)|(_ & _ & Hf)]]; [done|done|].
  destruct (bool_decide_reflect (na_cause first = "result_unknown_requires_review")) as [|Hcause];
    [by subst p|].
  destruct (bool_decide_reflect (x10 ≠ 0)) as [|Hn]; cbn [orb] in Hf; [by subst first|].
  destruct (historical_unknown x4) eqn:Hh; [by subst first|]. apply dec_stable in Hn as ->.
  destruct Hp as (acts & Hacts & ->). cbn in Hc. bool_inv. subst acts.
  unfold inactive in Hacts. cbn in Hacts. eexists policy, _. split; try done.
  - by exists run; do 5 eexists.
  - by do 2 eexists.
  - apply slot_actions_nil in Hacts. rewrite Forall_forall in *. intros s Hs. apply Hacts.
    apply list_elem_of_filter. split; [by apply not_elem_of_empty|done].
Qed.

(** ** Prepared claims stay next *)

Lemma decode_dict_fields cp cp' :
  decode (checkpoint_dict cp) = Ok (Some cp') →
  cp_kind cp' = cp_kind cp ∧ cp_case_id cp' = cp_case_id cp ∧
  cp_slot_ordinal cp' = cp_slot_ordinal cp ∧ cp_candidate_id cp' = cp_candidate_id cp ∧
  cp_execution_ordinal cp' = cp_execution_ordinal cp ∧ cp_phase cp' = cp_phase cp.
Proof.
  unfold decode, checkpoint_dict. intros H.
  erewrite !text_field_dict, !int_field_dict in H by reflexivity. ok_inv.
  match goal with H : construct _ = Ok _ |- _ => apply construct_Ok in H as [_ ->] end. done.
Qed.

Lemma target_entries_ext {R} (db : EvaluationTables R) run_id stage cp cp' :
  cp_case_id cp = cp_case_id cp' → cp_slot_ordinal cp = cp_slot_ordinal cp' →
  cp_candidate_id cp = cp_candidate_id cp' →
  target_entries db run_id stage cp = target_entries db run_id stage cp'.
Proof.
  intros H1 H2 H3. apply list_filter_iff. intros x. unfold counts_for. by rewrite H1, H2, H3.
Qed.

(** A dispatch for another run or slot leaves the count of a target alone. *)
Lemma target_entries_insert {R} (db : EvaluationTables R) run_id cp run stage other :
  e_dispatches db !! (run_id, cp_invocation_id cp) = None →
  (run_id = run → (cp_case_id cp, cp_slot_ordinal cp) ≠ (cp_case_id other, cp_slot_ordinal other)) →
  len (target_entries (set_dispatches (<[(run_id, cp_invocation_id cp) := dispatch_row cp]>
                                         (e_dispatches db)) db) run stage other)
  = len (target_entries db run stage other).
Proof.
  intros Hn Hne. pose proof (stage_entries_insert run_id cp db run stage Hn) as Hp.
  unfold target_entries, len. f_equal. rewrite Hp.
  destruct (decide (run_id = run ∧ cp_kind cp = stage)) as [[Hr _]|_]; [|done].
  cbn [app]. rewrite filter_cons, decide_False; [done|].
  unfold counts_for. cbn. intros H. bool_inv. by apply (Hne Hr); f_equal.
Qed.

Section next.
Context {R : Type}.
Notation DB := (EvaluationTables (CompletionTables R)).
Notation step := (@step (CompletionTables R) candidate_plan).

Definition in_candidate_mode (db : DB) (run_id : string) : Prop :=
  ∃ r, e_runs db !! run_id = Some r ∧ er_execution_mode r = "candidate_v2".

(** No statement of the program rewrites the mode of a run or deletes one. *)
Definition keeps_modes (db db' : DB) : Prop :=
  ∀ run_id r, e_runs db !! run_id = Some r →
    ∃ r', e_runs db' !! run_id = Some r' ∧ er_execution_mode r' = er_execution_mode r.
Definition run_step (db db' : DB) : Prop := step db db' ∧ keeps_modes db db'.

(** The number of a checkpoint that follows the dispatches of its target. *)
Definition is_next (db : DB) (run_id : string) (cp : ExecutionCheckpoint) : Prop :=
  cp_execution_ordinal cp = len (target_entries db run_id (cp_kind cp) cp) + 1.

Definition claims_next (db : DB) : Prop :=
  ∀ run_id case_id slot v value, e_claims db !! (run_id, case_id, slot) = Some (v, value) →
    in_candidate_mode db run_id ∧
    ∃ cp, value = checkpoint_dict cp ∧ (cp_case_id cp, cp_slot_ordinal cp) = (case_id, slot) ∧
          (cp_phase cp = "prepared" → is_next db run_id cp).

Lemma claims_next_frame (db db' : DB) :
  keeps_modes db db' → e_dispatches db' = e_dispatches db →
  (∀ k x, e_claims db' !! k = Some x → e_claims db !! k = Some x) →
  claims_next db → claims_next db'.
Proof.
  intros Hm Hd Hc Hn run_id case_id slot v value Hk.
  destruct (Hn _ _ _ _ _ (Hc _ _ Hk)) as [(r & Hr & Hmode) (cp & -> & Hkey & Hnext)].
  split; [destruct (Hm _ _ Hr) as (r' & ? & ?); exists r'; by split; [|congruence]|].
  exists cp. split_and!; [done..|]. intros Hph. unfold is_next, target_entries, stage_entries.
  rewrite Hd. by apply Hnext.
Qed.

(** A new dispatch concerns only the claim of its own slot. *)
Lemma claims_next_record (db db1 db2 : DB) run_id cp u :
  claims_next db → record_dispatch run_id cp db = (Ok u, db1) →
  e_runs db2 = e_runs db1 → e_dispatches db2 = e_dispatches db1 →
  (∀ k x, e_claims db2 !! k = Some x →
     (k ≠ claim_key run_id cp ∧ e_claims db !! k = Some x) ∨
     (k = claim_key run_id cp ∧ in_candidate_mode db run_id ∧ x.2 = checkpoint_dict cp ∧
      cp_phase cp ≠ "prepared")) →
  claims_next db2.
Proof.
  intros Hn (raw & pol & budget & limit & total & _ & _ & _ & _ & _ & _ & _ & _ & Hfree & _ & ->)
    %record_dispatch_Ok Hr Hd Hc run case_id slot v value Hk. cbn in Hr, Hd.
  unfold in_candidate_mode. rewrite Hr.
  destruct (Hc _ _ Hk) as [[Hne Hold]|(Heq & Hm & Hv & Hph)].
  - destruct (Hn _ _ _ _ _ Hold) as [Hmode (other & -> & Hkey & Hnext)].
    split; [done|]. exists other. split_and!; [done..|]. intros Hph. unfold is_next.
    rewrite (Hnext Hph). f_equal. unfold target_entries, stage_entries. rewrite Hd.
    symmetry. apply (target_entries_insert db run_id cp run (cp_kind other) other); [done|].
    intros -> Heq. apply Hne. unfold claim_key. congruence.
  - cbn in Hv. subst value. injection Heq as -> -> ->. split; [done|]. by exists cp.
Qed.

(** The planner's preparation. *)
Lemma prepare_planned run_id org owner e i at_ expires_at limit (db db' : DB) claim :
  prepare_candidate candidate_plan run_id org owner e i at_ expires_at limit db = (Ok claim, db') →
  in_candidate_mode db run_id ∧ is_next db run_id (sc_checkpoint claim) ∧
  ∃ run active p a, candidate_plan db run_id run active limit = Ok p ∧ a ∈ pp_ready p ∧
    cp_execution_ordinal (sc_checkpoint claim) = na_execution_ordinal a.
Proof.
  unfold prepare_candidate, create_claim. intros H. run_inv.
  repeat match goal with x : _ * _ |- _ => destruct x end.
  match goal with H : lock_run _ _ _ = _ |- _ => apply lock_run_Ok in H as (-> & Hrun & Hv & Hm & _) end.
  run_inv.
  match goal with H : active_claims _ _ = _ |- _ => apply active_claims_Ok in H as [-> _] end.
  rename select (candidate_checkpoint _ _ _ _ _ _ _ = Ok _) into Hcp.
  rename select (candidate_plan _ _ _ _ _ = Ok _) into Hp.
  unfold candidate_checkpoint in Hcp. ok_inv.
  destruct (pp_ready _) as [|a rest] eqn:Hready; [done|]. ok_inv.
  match goal with H : construct (mk_ExecutionCheckpoint _ _ _ _ _ _ _ _ _ _ _ _) = Ok _ |- _ =>
    apply construct_Ok in H as [_ ->] end.
  match type of Hready with pp_ready ?p = _ =>
    assert (Ha : a ∈ pp_ready p) by (rewrite Hready; by left) end.
  split; [unfold in_candidate_mode; eauto|]. split; [|by eexists _, _, _, a].
  unfold is_next. cbn [sc_checkpoint]. eapply planned_next; [exact Hp|exact Ha|done..].
Qed.

(** A serial reservation belongs to a run that no claim can belong to. *)
Lemma reserve_serial run_id v owner at_ (db db' : DB) state :
  reserve_dispatch run_id v owner at_ db = (Ok state, db') → ¬ in_candidate_mode db run_id.
Proof.
  unfold reserve_dispatch. intros H. run_inv.
  destruct (e_checkpoints db !! run_id) as [[n value]|] eqn:E; [|done].
  destruct (n =? v) eqn:Hn; [|done]. cbn [negb] in *. run_inv.
  match goal with H : decode _ = Ok ?o |- _ => destruct o as [cp|]; [|done] end.
  destruct (e_runs db !! run_id) as [run|] eqn:Hrun; [|done]. run_inv.
  intros (r & Hr & Hmode). simplify_eq. congruence.
Qed.

Lemma step_keeps_next (db db' : DB) : claims_next db → run_step db db' → claims_next db'.
Proof.
  intros Hn [[o u db1 Ho|db1 _ Hl Hd _] Hm]; [|by apply (claims_next_frame db); rewrite ?Hl].
  destruct o; cbn [exec] in Ho; run_inv.
  - by apply (claims_next_frame db).
  - destruct u. apply save_checkpoint_Ok in Ho as (_ & _ & _ & _ & ->). by apply (claims_next_frame db).
  - match goal with H : prepare_candidate _ _ _ _ _ _ _ _ _ _ = _ |- _ =>
      pose proof (prepare_planned _ _ _ _ _ _ _ _ _ _ _ H) as (Hmode & Hnext & _);
      apply prepare_Ok in H as (v & _ & _ & _ & _ & _ & ->) end.
    intros run case_id slot w value. cbn. rewrite lookup_insert_Some.
    intros [[Heq [= <- <-]]|[_ Hk]]; [|by eapply Hn].
    injection Heq as <- <- <-. split; [done|]. eexists. by split_and!.
  - match goal with H : renew_claim _ _ _ _ = _ |- _ =>
      apply renew_Ok in H as (c & cp & Hq & _ & -> & _ & _ & _ & ->) end.
    apply require_claim_Ok in Hq as (_ & _ & _ & value & Hk & Hdec & _).
    intros run case_id slot w value'. unfold write_claim, modify. cbn.
    destruct (decide ((run, case_id, slot) = identity claim)) as [Heq|Hne];
      [|rewrite lookup_alter_ne by done; apply Hn].
    rewrite Heq, lookup_alter_eq, Hk. cbn. intros [= <- <-]. rewrite <- Heq in Hk.
    destruct (Hn _ _ _ _ _ Hk) as [Hmode (cp & -> & Hkey & Hnext)]. split; [done|].
    apply decode_dict_fields in Hdec as (H1 & H2 & H3 & H4 & H5 & H6).
    eexists. split_and!; [done|cbn; congruence|]. cbn. intros Hph. unfold is_next. cbn.
    rewrite H5, H1, (Hnext ltac:(congruence)). do 2 f_equal.
    exact (target_entries_ext db run (cp_kind cp) cp (extended (sc_checkpoint c) expires_at)
             (eq_sym H2) (eq_sym H3) (eq_sym H4)).
  - apply release_Ok in Ho as (c & _ & ->). apply (claims_next_frame db); [done..| |done].
    intros k x. cbn. rewrite lookup_delete_Some. by intros [_ ?].
  - match goal with H : dispatch_claim _ _ _ _ = _ |- _ =>
      apply dispatch_Ok in H as (run & n & c & cp & db2 & _ & _ & _ & Hq & _ & _ & _ & Hmark & Hd & _ & ->) end.
    apply require_claim_Ok in Hq as (_ & _ & _ & value & Hk & Hdec & Hslot & _).
    unfold mark_dispatching in Hmark. ok_inv. apply construct_Ok in Hmark as [_ ->].
    pose proof (record_dispatch_frame _ _ _ _ _ Hd) as (_ & Hl & _).
    assert (Hown : claim_key (sc_run_id claim) (dispatched (sc_checkpoint c) at_) = identity claim).
    { unfold identity, claim_key, other_slot in *. cbn. apply negb_false_iff, bool_decide_eq_true in Hslot.
      congruence. }
    eapply claims_next_record; [exact Hn|exact Hd|done|done|].
    intros k row. unfold write_claim, modify. cbn. rewrite Hl, Hown.
    destruct (decide (k = identity claim)) as [->|Hne]; [|by rewrite lookup_alter_ne by done; auto].
    rewrite lookup_alter_eq, Hk. cbn. intros [= <-]. right. split_and!; [done| |done|done].
    by destruct (Hn _ _ _ _ _ Hk).
  - match goal with H : reserve_dispatch _ _ _ _ _ = _ |- _ =>
      pose proof (reserve_serial _ _ _ _ _ _ _ H) as Hserial;
      apply reserve_dispatch_Ok in H as (c & cp & value & db2 & _ & _ & _ & Hd & _ & Hs) end.
    pose proof (record_dispatch_frame _ _ _ _ _ Hd) as (_ & Hl & _).
    apply save_checkpoint_Ok in Hs as (_ & _ & _ & _ & ->).
    eapply claims_next_record; [exact Hn|exact Hd|done|done|].
    intros k row. cbn. rewrite Hl. intros Hk. left. split; [|done]. intros ->.
    destruct row as [w value']. by destruct (Hn _ _ _ _ _ Hk).
  - apply freeze_Ok in Ho as (run & reference & _ & _ & _ & ->). by apply (claims_next_frame db).
Qed.
Lemma steps_keep_next (db0 db : DB) :
  e_claims db0 = ∅ → rtc run_step db0 db → claims_next db.
Proof.
  intros He Hs. eapply (rtc_keeps run_step); [exact step_keeps_next| |exact Hs].
  intros run_id case_id slot v value. by rewrite He, lookup_empty.
Qed.

Definition not_next : exn := CheckpointConflict "Evaluation execution ordinal is not next".

Lemma plan_record_is_next (db : DB) run_id cp :
  is_next db run_id cp → plan_dispatch_record db run_id cp ≠ Err not_next.
Proof.
  intros Hn. enough (raises (λ e, e ≠ not_next) (plan_dispatch_record db run_id cp)) as H
    by (intros He; rewrite He in H; by apply H).
  unfold plan_dispatch_record, frozen_policy_json, reaches, json_item.
  fold (target_entries db run_id (cp_kind cp) cp).
  unfold is_next in Hn. rewrite Hn, Z.eqb_refl. cbn [negb].
  repeat first
    [ done | by apply loads_with_raises | by apply dumps_with_raises | by apply raises_ifM | raises_step ].
Qed.

(** The planner, the projection and the ledger agree: whatever the program does to the claims and
    dispatches of its runs, a prepared claim is the next execution of its slot or candidate, in the
    number of the dispatches that the ledger counts for it.  Its dispatch is never refused as out of
    sequence. *)
Theorem prepared_claims_next (db0 db : DB) claim v value cp :
  e_claims db0 = ∅ → rtc run_step db0 db →
  e_claims db !! identity claim = Some (v, value) → decode value = Ok (Some cp) →
  cp_phase cp = "prepared" →
  cp_execution_ordinal cp = len (target_entries db (sc_run_id claim) (cp_kind cp) cp) + 1 ∧
  ∀ at_, plan_dispatch_record db (sc_run_id claim) (dispatched cp at_) ≠ Err not_next.
Proof.
  intros He Hs Hk Hd Hph. destruct (steps_keep_next _ _ He Hs _ _ _ _ _ Hk) as [_ (cp0 & -> & _ & Hnext)].
  apply decode_dict_fields in Hd as (H1 & H2 & H3 & H4 & H5 & H6).
  assert (Hn : is_next db (sc_run_id claim) cp).
  { unfold is_next. rewrite H5, H1, (Hnext ltac:(congruence)). do 2 f_equal.
    by apply target_entries_ext. }
  split; [exact Hn|]. intros at_. by apply plan_record_is_next.
Qed.
End next.
