(* ===== verification/Completions.v ===== *)
(** * Completions: terminal evidence of a generation enters a run

    Models [src/src/qs_ai/infrastructure/persistence/mysql/evaluation_candidate_completion.py],
    [evaluation_completions.py] and the generation part of [evaluation_candidate_records.py] (same
    directory): a completion is accepted against the checkpoint that owns it, the dispatch that was
    reserved for it, the evidence that precedes it and the frozen assets; its row is inserted, the
    claim or the serial checkpoint is given up and the status of the run follows.

    A caller's transaction wraps every operation: what raises changes nothing.  [lock=True] and
    [lock=False] read the same rows. *)
From S2P Require Import Prelude PyText PyTime PyHash PyJson PyIso Transactions Tables Failure.
From S2P Require Import Checkpoint Completion Preflight Actions Resolution Publication Policies.
From S2P Require Import CheckpointRecords CompletionRecords SlotClaims Projection Acceptance.
From S2P Require Import CompletionProgress DispatchLedger CandidatePlan.

Local Open Scope string_scope.
Local Open Scope Z_scope.
Local Open Scope py_scope.

Section operations.
Context {R : Type}.
Notation DB := (EvaluationTables (CompletionTables R)).
Context `{Assets}.

Definition set_rest (x : CompletionTables R) (db : DB) : DB :=
  mk_EvaluationTables (e_checkpoints db) (e_runs db) (e_dispatches db) (e_claims db) x.
Definition set_generations (x : gmap (string * string) GenerationRow) (db : DB) : DB :=
  set_rest (mk_CompletionTables x (ct_semantics (e_rest db)) (ct_rest (e_rest db))) db.
Definition set_semantics (x : gmap (string * string) SemanticRow) (db : DB) : DB :=
  set_rest (mk_CompletionTables (ct_generations (e_rest db)) x (ct_rest (e_rest db))) db.

Definition with_progress (progress : json) (run : EvaluationRunRow) : EvaluationRunRow :=
  mk_EvaluationRunRow (er_execution_mode run) (er_organization_id run) (er_requested_by run)
    (er_definition_json run) progress (er_frozen_policy run).
(** [update(evaluation_runs).where(run_id == ...).values(progress_json=progress)] *)
Definition write_progress (run_id : string) (progress : json) : tx DB unit :=
  modify (λ db, set_runs (alter (with_progress progress) run_id (e_runs db)) db).

(** ** Completing a claim *)

Definition completion_owner (run_id : string) (organization_id : Z) (claim : SlotClaim)
    : tx DB (EvaluationRunRow * Z * SlotClaim) :=
  lift (raise_if (sc_run_id claim != run_id)
          (CheckpointConflict "Claim belongs to another Run")) ;;
  '(run, version) ← lock_run run_id organization_id;
  active_claims run_id ;;
  current ← require_claim claim;
  let progress := er_progress_json run in
  lift (raise_ifM (Ok (negb (truthy progress))
                   <orM> ((λ s, negb (existsb (json_eqb s) [JStr "collecting"; JStr "blocked"]))
                            <$> json_item progress "status"))
          (CheckpointConflict "Run no longer accepts candidate results")) ;;
  mret (run, version, current).

(** Advances the coordinator of the run and gives its checkpoint up. *)
Definition finish_version (run_id : string) (version : Z) (progress : json)
    : tx DB CheckpointState :=
  state ← lift (construct (mk_CheckpointState run_id (version + 1) None));
  save_checkpoint state version ;;
  write_progress run_id progress ;;
  mret state.

Definition complete_claim (run_id : string) (version : Z) (claim : SlotClaim) (progress : json)
    (actor : string) (at_ : datetime) : tx DB CheckpointState :=
  release_claim claim ;;
  active ← active_claims run_id;
  db ← get_db;
  match e_runs db !! run_id with
  | None => lift (Err NoResultFound)
  | Some run =>
    plan ← lift (candidate_plan db run_id (with_progress progress run) active 32);
    progress ← lift (candidate_completion_progress
                       (blocked_execution (generations_of db run_id) (semantics_of db run_id))
                       claim progress actor at_ active plan);
    finish_version run_id version progress
  end.

(** [scalar_one_or_none] on the completion of an invocation. *)
Definition one_or_none {A} (l : list A) : res (option A) :=
  match l with [] => Ok None | [x] => Ok (Some x) | _ => Err MultipleResultsFound end.
Definition completed_executions (db : DB) (run_id : string) (cp : ExecutionCheckpoint)
    : list string :=
  if cp_kind cp == "generation" then
    gr_execution_id <$> List.filter (λ r, gr_invocation_id r == cp_invocation_id cp)
                          (generations_of db run_id)
  else sr_execution_id <$> List.filter (λ r, sr_invocation_id r == cp_invocation_id cp)
                             (semantics_of db run_id).

Definition completed_claim_state (organization_id : Z) (claim : SlotClaim)
    : tx DB (option CheckpointState) :=
  '(_, version) ← lock_run (sc_run_id claim) organization_id;
  active_claims (sc_run_id claim) ;;
  let cp := sc_checkpoint claim in
  db ← get_db;
  match e_dispatches db !! (sc_run_id claim, cp_invocation_id cp) with
  | None => mret None
  | Some ledger =>
    original ← lift (decode (dp_checkpoint_json ledger));
    lift (raise_if match original with
                   | None => true
                   | Some original => negb (same_dispatch original cp)
                                      || (cp_invocation_id original != cp_invocation_id cp)
                   end (CheckpointConflict "Completion identity differs from original dispatch")) ;;
    record ← lift (one_or_none (completed_executions db (sc_run_id claim) cp));
    match record with
    | None => mret None
    | Some record =>
      lift (raise_if (record != cp_execution_id cp)
              (CheckpointConflict "Completed invocation identity differs")) ;;
      state ← lift (construct (mk_CheckpointState (sc_run_id claim) version None));
      mret (Some state)
    end
  end.

(** ** The serial source of a completion *)

(** [intent.get("source_version") != expected_version or intent.get("version") != version] *)
Definition canceled_at (progress : json) (expected_version version : Z) : res bool :=
  intent ← json_get_default progress "cancel_requested" (JObj []);
  source ← json_get intent "source_version";
  target ← json_get intent "version";
  Ok (json_eqb source (JInt expected_version) && json_eqb target (JInt version)).

(** The version a completion continues from: its own, or the one its cancellation left. *)
Definition serial_version (progress : json) (expected_version version : Z) : res Z :=
  if version =? expected_version then Ok expected_version
  else
    raise_ifM (negM (canceled_at progress expected_version version))
      (CheckpointConflict "Run version changed outside cancellation") ;;
    Ok version.

Definition collecting (progress : json) : res bool :=
  s ← json_item progress "status"; Ok (json_eqb s (JStr "collecting")).
Definition collecting_required : exn :=
  CheckpointConflict "Collecting Run in organization required".

Definition load_serial_generation_source (db : DB) (run_id : string)
    (expected_version organization_id : Z) (owner : string) (completion : GenerationCompletion)
    : res (Z * ExecutionCheckpoint * EvaluationRunRow) :=
  let unmatched := CheckpointConflict "Terminal evidence does not match active Run checkpoint" in
  match e_checkpoints db !! run_id with
  | None => Err unmatched
  | Some (version, value) =>
    cp ← decode value;
    match cp with
    | None => Err unmatched
    | Some cp =>
      raise_ifM (negM (generation_matches_checkpoint completion cp owner)) unmatched ;;
      match run_in db run_id organization_id with
      | None => Err collecting_required
      | Some run =>
        let progress := er_progress_json run in
        raise_ifM (Ok (is_null progress) <orM> negM (collecting progress)) collecting_required ;;
        expected_version ← serial_version progress expected_version version;
        Ok (expected_version, cp, run)
      end
    end
  end.

Definition load_serial_semantic_state (db : DB) (run_id : string)
    (expected_version organization_id : Z)
    : res (Z * option ExecutionCheckpoint * EvaluationRunRow) :=
  match e_checkpoints db !! run_id with
  | None => Err (CheckpointConflict "Run version changed")
  | Some (version, value) =>
    cp ← decode value;
    match run_in db run_id organization_id with
    | None => Err collecting_required
    | Some run =>
      let progress := er_progress_json run in
      raise_ifM (Ok (negb (truthy progress)) <orM> negM (collecting progress)) collecting_required ;;
      expected_version ← serial_version progress expected_version version;
      Ok (expected_version, cp, run)
    end
  end.

(** ** Generations *)

Record GenerationAcceptance : Type := mk_GenerationAcceptance {
  ga_policy : ExecutionPolicy;
  ga_candidate : option (string * json);
  ga_creation : json;
}.

(** [creation], its policy and its release. *)
Definition run_policy (creation : json) : res ExecutionPolicy :=
  '(policy, _) ← frozen_policies creation;
  text ← json_item creation "execution_policy_json";
  raise_if (negb (json_eqb text (JStr (policy_definition_json policy))))
    (CheckpointConflict "Unsupported frozen execution policy") ;;
  Ok policy.
Definition creation_release (creation : json) : res EvidenceReleaseIdentity :=
  release ← json_item creation "release"; release_of release.

Definition is_slot (case_id : string) (ordinal : Z) (slot : json) : res bool :=
  ((λ c, json_eqb c (JStr case_id)) <$> json_item slot "case_id")
  <andM> ((λ o, json_eqb o (JInt ordinal)) <$> json_item slot "ordinal").
Definition frozen_slot (creation : json) (case_id : string) (ordinal : Z) : res bool :=
  slots ← json_item creation "slots";
  slots ← iterate slots;
  anyM (is_slot case_id ordinal) slots.

(** The dispatch that was reserved for an invocation. *)
Definition dispatched_checkpoint (db : DB) (run_id invocation_id : string)
    : res (option ExecutionCheckpoint) :=
  match e_dispatches db !! (run_id, invocation_id) with
  | None => Ok None
  | Some row => decode (dp_checkpoint_json row)
  end.
(** [dispatched is None or not matches(dispatched)] *)
Definition unreserved (dispatched : option ExecutionCheckpoint)
    (matches : ExecutionCheckpoint → res bool) : res bool :=
  match dispatched with None => Ok true | Some cp => negM (matches cp) end.

(** The earlier completions of a slot, in their order. *)
Definition previous_generations (db : DB) (run_id case_id : string) (slot_ordinal : Z)
    : list GenerationRow :=
  sort_by (λ a b, gr_execution_ordinal a <=? gr_execution_ordinal b)
    (List.filter (λ r, (gr_case_id r == case_id) && (gr_slot_ordinal r == slot_ordinal))
       (generations_of db run_id)).

Definition read_generation_acceptance (db : DB) (run_id : string) (run : EvaluationRunRow)
    (cp : ExecutionCheckpoint) (owner : string) (completion : GenerationCompletion)
    (candidate : option (string * json)) : res GenerationAcceptance :=
  raise_ifM (negM (generation_matches_checkpoint completion cp owner))
    (CheckpointConflict "Completion differs from candidate ownership") ;;
  creation ← loads (er_definition_json run);
  policy ← run_policy creation;
  raise_ifM (negM (frozen_slot creation (gc_case_id completion) (gc_slot_ordinal completion)))
    (CheckpointConflict "Completion target is not a frozen slot") ;;
  dispatched ← dispatched_checkpoint db run_id (gc_invocation_id completion);
  raise_ifM (unreserved dispatched (λ d, generation_matches_checkpoint completion d owner))
    (CheckpointConflict "Matching dispatch reservation required") ;;
  let previous := previous_generations db run_id (gc_case_id completion)
                    (gc_slot_ordinal completion) in
  raise_if (existsb (λ r, is_some (gr_candidate_id r)) previous
            || ((gr_execution_ordinal <$> previous)
                != seqZ 1 (gc_execution_ordinal completion - 1)))
    (CheckpointConflict "Slot already accepted or earlier terminal evidence missing") ;;
  release ← creation_release creation;
  validate_generation_completion release completion ;;
  Ok (mk_GenerationAcceptance policy candidate creation).

(** [table.insert()]: the keys of the table, and the conditional keys of the candidate and of the
    slot. *)
Definition generation_clash (row other : GenerationRow) : bool :=
  (gr_invocation_id other == gr_invocation_id row)
  || (is_some (gr_candidate_id row) && (gr_candidate_id other == gr_candidate_id row))
  || ((gr_case_id other, gr_slot_ordinal other, gr_execution_ordinal other)
      == (gr_case_id row, gr_slot_ordinal row, gr_execution_ordinal row)).
Definition insert_generation (run_id : string) (row : GenerationRow) : tx DB unit :=
  insert_row (λ db, ct_generations (e_rest db)) set_generations (run_id, gr_execution_id row) row
    (λ db, negb (existsb (generation_clash row) (generations_of db run_id))).

Definition complete_generation (run_id : string) (expected_version organization_id : Z)
    (owner : string) (completion : GenerationCompletion) (candidate_id : string)
    (assertions : list AssertionReceipt) (claim : option SlotClaim) : tx DB CheckpointState :=
  candidate ← lift (generation_candidate completion candidate_id assertions);
  '(version, cp, run, claim) ←
    match claim with
    | Some claim =>
      '(run, version, claim) ← completion_owner run_id organization_id claim;
      let cp := sc_checkpoint claim in
      lift (raise_ifM (negM (generation_matches_checkpoint completion cp owner))
              (CheckpointConflict "Completion differs from candidate ownership")) ;;
      mret (version, cp, run, Some claim)
    | None =>
      db ← get_db;
      '(version, cp, run) ← lift (load_serial_generation_source db run_id expected_version
                                    organization_id owner completion);
      mret (version, cp, run, None)
    end;
  db ← get_db;
  accepted ← lift (read_generation_acceptance db run_id run cp owner completion candidate);
  insert_generation run_id (generation_row completion (ga_candidate accepted)) ;;
  progress ← lift (generation_completion_progress (er_progress_json run) completion
                     (ga_policy accepted) owner (is_some claim));
  match claim with
  | Some claim =>
    complete_claim run_id version claim progress owner (gc_finished_at completion)
  | None => finish_version run_id version progress
  end.

(** ** The records a completion proposes *)

Record CandidateTerminalRecords : Type := mk_CandidateTerminalRecords {
  tr_active : list SlotClaim;
  tr_dispatches : list (string * DispatchRow);
  tr_generations : list GenerationRow;
  tr_semantics : list SemanticRow;
}.

(** [==] of two claims: times compare by their instant. *)
Definition claim_eqb (a b : SlotClaim) : bool :=
  let x := sc_checkpoint a in
  let y := sc_checkpoint b in
  ((sc_run_id a, sc_version a, cp_invocation_id x, cp_phase x)
   == (sc_run_id b, sc_version b, cp_invocation_id y, cp_phase y))
  && same_dispatch x y && dt_eqb (cp_claimed_at x) (cp_claimed_at y)
  && dt_eqb (cp_lease_expires_at x) (cp_lease_expires_at y).

(** The claims of the run, each on a slot of its own, with the completing one among them. *)
Definition scoped_claims (run_id : string) (claim : SlotClaim) (active : list SlotClaim) : bool :=
  Nat.eqb (length (List.filter (λ c, claim_eqb c claim) active)) 1
  && forallb (λ c, sc_run_id c == run_id) active
  && Nat.eqb (size (list_to_set (slot_of_claim <$> active) : gset (string * Z))) (length active).

(** The rows are those of the run, as the readers of this model scope them. *)
Definition generation_terminal_records (run_id : string) (claim : SlotClaim)
    (active : list SlotClaim) (completion : GenerationCompletion) (accepted : GenerationAcceptance)
    (dispatches : list (string * DispatchRow)) (generations : list GenerationRow)
    (semantics : list SemanticRow) : res CandidateTerminalRecords :=
  let cp := sc_checkpoint claim in
  raise_ifM (Ok ((sc_run_id claim != run_id) || (cp_kind cp != "generation")
                 || (cp_phase cp != "dispatching"))
             <orM> negM (generation_matches_checkpoint completion cp (cp_owner cp))
             <orM> Ok (negb (scoped_claims run_id claim active)
                       || negb (Bool.eqb (is_some (ga_candidate accepted))
                                  (gc_status completion == "succeeded"))))
    (CheckpointConflict "Exact scoped candidate generation source required") ;;
  terminal_dispatches dispatches
    ((gr_invocation_id <$> generations) ++ (sr_invocation_id <$> semantics))%list active ;;
  raise_if (existsb (λ r, (gr_execution_id r == gc_execution_id completion)
                          || (gr_invocation_id r == gc_invocation_id completion)) generations)
    (CheckpointConflict "Candidate generation terminal already exists") ;;
  match ga_candidate accepted with
  | None => Ok tt
  | Some (_, candidate) =>
    raise_ifM (field_differs (json_item candidate "generation_execution_id")
                 (Ok (JStr (gc_execution_id completion)))
               <orM> field_differs (json_item candidate "normalized_output_fingerprint")
                       (Ok (JStr (gc_normalized_fingerprint completion)))
               <orM> (truthy <$> json_item candidate "review_ready"))
      (CheckpointConflict "Original proposed generation candidate differs")
  end ;;
  Ok (mk_CandidateTerminalRecords (List.filter (λ c, negb (claim_eqb c claim)) active) dispatches
        (generations ++ [generation_row completion (ga_candidate accepted)]) semantics).
End operations.

Local Close Scope py_scope.

(** ** What the statements change *)

Section facts.
Context {R : Type}.
Notation DB := (EvaluationTables (CompletionTables R)).

Lemma finish_version_Ok run_id version progress (db db' : DB) state :
  finish_version run_id version progress db = (Ok state, db') →
  state = mk_CheckpointState run_id (version + 1) None ∧
  (∃ old, e_checkpoints db !! run_id = Some (version, old)) ∧
  db' = set_runs (alter (with_progress progress) run_id (e_runs db))
          (set_checkpoints (<[run_id := (version + 1, JNull)]> (e_checkpoints db)) db).
Proof.
  unfold finish_version, write_progress. intros H. run_inv.
  match goal with H : construct _ = Ok _ |- _ => apply construct_Ok in H as [_ ->] end.
  match goal with H : save_checkpoint _ _ _ = (Ok ?u, _) |- _ =>
    destruct u; apply save_checkpoint_Ok in H as (_ & _ & _ & Hold & ->) end.
  done.
Qed.

Lemma completion_owner_Ok run_id org claim (db db' : DB) run version c :
  completion_owner run_id org claim db = (Ok (run, version, c), db') →
  db' = db ∧ sc_run_id claim = run_id ∧ e_runs db !! run_id = Some run ∧
  e_checkpoints db !! run_id = Some (version, JNull) ∧ er_execution_mode run = "candidate_v2" ∧
  er_organization_id run = org ∧ require_claim claim db = (Ok c, db) ∧
  ∃ status, json_item (er_progress_json run) "status" = Ok (JStr status) ∧
            (status = "collecting" ∨ status = "blocked").
Proof.
  unfold completion_owner. intros H. run_inv.
  repeat match goal with x : _ * _ |- _ => destruct x end. cbn in *. run_inv.
  match goal with H : lock_run _ _ _ = _ |- _ => apply lock_run_Ok in H as (-> & Hr & Hv & Hm & Ho) end.
  match goal with H : active_claims _ _ = _ |- _ => apply active_claims_Ok in H as [-> _] end.
  match goal with H : require_claim _ _ = _ |- _ =>
    pose proof H as Hq; apply require_claim_Ok in H as [-> _] end.
  match goal with H : (_, _, _) = (_, _, _) |- _ => injection H as -> -> -> end.
  split_and!; try done. rename select (_ || _ = true) into Hs.
  apply orb_true_iff in Hs as [Hs|[Hs|?]%orb_true_iff]; [| |done]; apply json_eqb_str in Hs; subst;
    eexists; (split; [eassumption|]); [by left|by right].
Qed.

Lemma require_identity claim (db db' : DB) c :
  require_claim claim db = (Ok c, db') → identity c = identity claim.
Proof.
  intros (_ & Hr & _ & _ & _ & _ & Hs & _)%require_claim_Ok. unfold identity, claim_key, other_slot in *.
  apply negb_false_iff, bool_decide_eq_true in Hs. congruence.
Qed.

Lemma require_again claim (db db' : DB) c :
  require_claim claim db = (Ok c, db') → require_claim c db = (Ok c, db).
Proof.
  intros H. pose proof (require_identity _ _ _ _ H) as Hid.
  apply require_claim_Ok in H as (_ & Hr & Hv & value & Hk & Hd & _).
  unfold require_claim. rewrite get_bind, Hid, Hk, lift_bind, Hd.
  unfold other_slot, same_owner. rewrite Hv, !bool_decide_eq_true_2 by done. cbn.
  destruct c. cbn in *. by subst.
Qed.

(** Completing a claim frees it, advances the coordinator and writes the progress. *)
Lemma complete_claim_Ok run_id version claim progress actor at_ (db db' : DB) state :
  complete_claim run_id version claim progress actor at_ db = (Ok state, db') →
  ∃ current run active plan progress',
    let db1 := set_claims (delete (identity claim) (e_claims db)) db in
    require_claim claim db = (Ok current, db) ∧ e_runs db !! run_id = Some run ∧
    mapM claim_of (claims_of db1 run_id) = Ok active ∧
    candidate_plan db1 run_id (with_progress progress run) active 32 = Ok plan ∧
    candidate_completion_progress
      (blocked_execution (generations_of db1 run_id) (semantics_of db1 run_id)) claim progress actor
      at_ active plan = Ok progress' ∧
    state = mk_CheckpointState run_id (version + 1) None ∧
    (∃ old, e_checkpoints db !! run_id = Some (version, old)) ∧
    db' = set_runs (alter (with_progress progress') run_id (e_runs db))
            (set_checkpoints (<[run_id := (version + 1, JNull)]> (e_checkpoints db)) db1).
Proof.
  unfold complete_claim. intros H. run_inv.
  match goal with H : release_claim _ _ = _ |- _ => apply release_Ok in H as (current & Hq & ->) end.
  match goal with H : active_claims _ _ = _ |- _ => apply active_claims_Ok in H as [-> Ha] end.
  cbn [e_runs set_claims] in *. destruct (e_runs db !! run_id) as [run|] eqn:Hrun; [|done].
  run_inv. rename select (finish_version _ _ _ _ = _) into Hf.
  apply finish_version_Ok in Hf as (-> & Hold & ->).
  by eexists _, run, _, _, _.
Qed.

(** *** Generations *)

Lemma read_generation_acceptance_Ok `{Assets} (db : DB) run_id run cp owner completion candidate
    accepted :
  read_generation_acceptance db run_id run cp owner completion candidate = Ok accepted →
  ga_candidate accepted = candidate ∧
  generation_matches_checkpoint completion cp owner = Ok true ∧
  (∃ row d, e_dispatches db !! (run_id, gc_invocation_id completion) = Some row ∧
     decode (dp_checkpoint_json row) = Ok (Some d) ∧
     generation_matches_checkpoint completion d owner = Ok true) ∧
  (∃ creation, loads (er_definition_json run) = Ok creation ∧
     run_policy creation = Ok (ga_policy accepted) ∧
     frozen_slot creation (gc_case_id completion) (gc_slot_ordinal completion) = Ok true) ∧
  let previous := previous_generations db run_id (gc_case_id completion)
                    (gc_slot_ordinal completion) in
  Forall (λ r, gr_candidate_id r = None) previous ∧
  gr_execution_ordinal <$> previous = seqZ 1 (gc_execution_ordinal completion - 1).
Proof.
  unfold read_generation_acceptance, dispatched_checkpoint. intros Ha. py_inv.
  rename select (unreserved _ _ = _) into Hu.
  destruct (e_dispatches db !! _) as [row|] eqn:Hd; [|by ok_inv; subst].
  match goal with H : decode _ = Ok ?o |- _ => destruct o as [d|]; [|done] end. cbn in Hu. py_inv.
  split; [done|]. split; [done|]. split; [by exists row, d|]. split; [by eexists|]. split; [|done].
  apply Forall_forall. intros r Hr. by apply is_some_false; auto.
Qed.

(** The run a completion is accepted for, and the version it continues from. *)
Record accepts_for (db : DB) (run_id : string) (organization_id : Z) (cp : ExecutionCheckpoint)
    (claim : option SlotClaim) (run : EvaluationRunRow) (version : Z) : Prop := {
  accepts_run : e_runs db !! run_id = Some run;
  accepts_organization : er_organization_id run = organization_id;
  accepts_open : ∃ status, json_item (er_progress_json run) "status" = Ok (JStr status) ∧
    (status = "collecting" ∨ status = "blocked");
  accepts_owner :
    match claim with
    | Some c => sc_run_id c = run_id ∧ ∃ current, require_claim c db = (Ok current, db) ∧
        sc_checkpoint current = cp ∧ e_checkpoints db !! run_id = Some (version, JNull)
    | None => ∃ value, e_checkpoints db !! run_id = Some (version, value) ∧
        decode value = Ok (Some cp)
    end;
}.

Lemma collecting_open progress :
  collecting progress = Ok true →
  ∃ status, json_item progress "status" = Ok (JStr status) ∧
    (status = "collecting" ∨ status = "blocked").
Proof using Type.
  unfold collecting. intros H. ok_inv.
  match goal with H : json_eqb _ _ = true |- _ => apply json_eqb_str in H as -> end. eauto.
Qed.

Lemma serial_source_accepts (db : DB) run_id v org owner completion version cp run :
  load_serial_generation_source db run_id v org owner completion = Ok (version, cp, run) →
  accepts_for db run_id org cp None run version.
Proof.
  unfold load_serial_generation_source, serial_version, run_in. intros Hs.
  destruct (e_checkpoints db !! run_id) as [[n value]|] eqn:Hv; [|done]. ok_inv.
  match goal with H : decode _ = Ok ?o |- _ => destruct o as [c|]; [|done] end. ok_inv.
  destruct (e_runs db !! run_id) as [r|] eqn:Hr; [|done].
  destruct (bool_decide (er_organization_id r = org)) eqn:Ho; [|done]. py_inv.
  assert (version = n) as -> by (if_inv; py_inv; lia).
  split; [done|done|by apply collecting_open|]. by eexists.
Qed.

(** What remains of the claims. *)
Definition freed (claim : option SlotClaim) (db : DB) : DB :=
  match claim with
  | Some c => set_claims (delete (identity c) (e_claims db)) db
  | None => db
  end.

(** The rows an accepted completion leaves beside its own: the claim is gone, the coordinator is one
    version further and the run has its new progress. *)
Definition concluded (run_id : string) (version : Z) (claim : option SlotClaim) (progress : json)
    (db : DB) : DB :=
  set_runs (alter (with_progress progress) run_id (e_runs db))
    (set_checkpoints (<[run_id := (version + 1, JNull)]> (e_checkpoints db)) (freed claim db)).

(** How the status of the run follows from the progress of the completion. *)
Definition status_follows (run_id : string) (claim : option SlotClaim) (owner : string)
    (finished_at : datetime) (db : DB) (run : EvaluationRunRow) (progress progress' : json) : Prop :=
  match claim with
  | None => progress' = progress
  | Some c => ∃ current active plan,
      identity current = identity c ∧
      mapM claim_of (claims_of (freed claim db) run_id) = Ok active ∧
      candidate_plan (freed claim db) run_id (with_progress progress run) active 32 = Ok plan ∧
      candidate_completion_progress
        (blocked_execution (generations_of (freed claim db) run_id)
           (semantics_of (freed claim db) run_id))
        current progress owner finished_at active plan = Ok progress'
  end.

Lemma conclude_Ok run_id org cp version claim current run progress owner at_ (db0 db db' : DB) state :
  accepts_for db0 run_id org cp claim run version →
  e_runs db = e_runs db0 → e_claims db = e_claims db0 → e_checkpoints db = e_checkpoints db0 →
  match claim, current with
  | Some c, Some c' => require_claim c db0 = (Ok c', db0)
  | None, None => True
  | _, _ => False
  end →
  match current with
  | Some c => complete_claim run_id version c progress owner at_
  | None => finish_version run_id version progress
  end db = (Ok state, db') →
  state = mk_CheckpointState run_id (version + 1) None ∧
  ∃ progress', db' = concluded run_id version claim progress' db ∧
    status_follows run_id claim owner at_ db run progress progress'.
Proof.
  intros [Hrun _ _ _] Hr Hc Hv Hcur Hx. destruct claim as [c|], current as [c'|]; try done.
  - apply require_identity in Hcur as Hid.
    apply complete_claim_Ok in Hx as (cur & run' & active & plan & progress' & _ & Hrun' & Ha & Hp & Hn & -> & _ & ->).
    rewrite Hid in *. split; [done|]. exists progress'. split; [done|].
    exists c', active, plan. replace run with run' by congruence. done.
  - apply finish_version_Ok in Hx as (-> & _ & ->). split; [done|]. by exists progress.
Qed.

Definition add_generation (run_id : string) (row : GenerationRow) (db : DB) : DB :=
  set_generations (<[(run_id, gr_execution_id row) := row]> (ct_generations (e_rest db))) db.

Lemma complete_generation_Ok `{Assets} run_id expected_version org owner completion candidate_id
    assertions claim (db db' : DB) state :
  complete_generation run_id expected_version org owner completion candidate_id assertions claim db
  = (Ok state, db') →
  ∃ cp run version candidate accepted progress progress',
    let row := generation_row completion candidate in
    accepts_for db run_id org cp claim run version ∧
    generation_candidate completion candidate_id assertions = Ok candidate ∧
    read_generation_acceptance db run_id run cp owner completion candidate = Ok accepted ∧
    ct_generations (e_rest db) !! (run_id, gc_execution_id completion) = None ∧
    Forall (λ r, generation_clash row r = false) (generations_of db run_id) ∧
    generation_completion_progress (er_progress_json run) completion (ga_policy accepted) owner
      (is_some claim) = Ok progress ∧
    state = mk_CheckpointState run_id (version + 1) None ∧
    db' = concluded run_id version claim progress' (add_generation run_id row db) ∧
    status_follows run_id claim owner (gc_finished_at completion) (add_generation run_id row db) run
      progress progress'.
Proof.
  unfold complete_generation. intros Hx. apply tx_bind_Ok in Hx as (candidate & db0 & Hcand & Hx).
  apply lift_Ok in Hcand as [Hcand ->]. apply tx_bind_Ok in Hx as ([[[version cp] run] current] & db0 & Hsrc & Hx).
  assert (Hacc : db0 = db ∧ accepts_for db run_id org cp claim run version ∧
                 is_some current = is_some claim ∧
                 match claim, current with
                 | Some c, Some c' => require_claim c db = (Ok c', db)
                 | None, None => True
                 | _, _ => False
                 end).
  { clear Hx. destruct claim as [c|].
    - run_inv. repeat (match goal with x : _ * _ |- _ => destruct x end; run_inv).
      match goal with H : completion_owner _ _ _ _ = _ |- _ =>
        apply completion_owner_Ok in H as (-> & Hrid & Hr & Hv & _ & Ho & Hq & Hst) end.
      simplify_eq. split_and!; [done| |done|done]. split; [done|done|done|]. split; [done|]. by eexists.
    - run_inv. repeat (match goal with x : _ * _ |- _ => destruct x end; run_inv). simplify_eq.
      split_and!; try done. by eapply serial_source_accepts. }
  destruct Hacc as (-> & Hacc & His & Hcur). rewrite get_bind in Hx. run_inv.
  rename select (insert_generation _ _ _ = _) into Hi. unfold insert_generation in Hi. run_inv.
  rename select (read_generation_acceptance _ _ _ _ _ _ _ = _) into Hread.
  pose proof (read_generation_acceptance_Ok _ _ _ _ _ _ _ _ Hread) as [Hc _].
  rewrite Hc in *.
  eapply (conclude_Ok _ _ _ _ claim) in Hx as (-> & progress' & -> & Hst); [|exact Hacc|done..|exact Hcur].
  eexists cp, run, version, candidate, _, _, progress'.
  split_and!; try done; [|by rewrite <- His].
  apply Forall_forall. intros r Hr.
  by match goal with H : ∀ x, x ∈ generations_of db run_id → _ |- _ => apply H end.
Qed.
End facts.
