(* ===== verification/Judgements.v ===== *)
(** * Judgements: terminal evidence of a judge enters a run

    Models [src/src/qs_ai/infrastructure/persistence/mysql/evaluation_semantic.py] and the semantic
    part of [evaluation_candidate_records.py] (same directory): a judgement is accepted against the
    candidate it is about; a successful one is parsed, bound to the obligations of the frozen suite
    and written to the candidate with its result.

    The readers of a run's frozen suite and of its judge contract are the interface [RunAssets]. *)
From S2P Require Import Prelude PyText PyTime PyHash PyJson PyIso Transactions Tables Failure.
From S2P Require Import Checkpoint Completion Preflight Actions Resolution Publication Policies.
From S2P Require Import CheckpointRecords CompletionRecords SlotClaims Projection Acceptance.
From S2P Require Import CompletionProgress DispatchLedger CandidatePlan Completions.

Local Open Scope string_scope.
Local Open Scope Z_scope.
Local Open Scope py_scope.

(** [stored_run_suite(db, creation)] and [semantic_contract(db, release, org, frozen=creation)]. *)
Class RunAssets (DB : Type) : Type := {
  stored_run_suite : DB → json → res string;
  semantic_contract : DB → EvidenceReleaseIdentity → Z → json → res SemanticAssets;
}.

Section operations.
Context {R : Type}.
Notation DB := (EvaluationTables (CompletionTables R)).
Context `{Assets, RunAssets DB}.

(** ** Judgements *)

Record SemanticAcceptance : Type := mk_SemanticAcceptance {
  sa_policy : ExecutionPolicy;
  sa_generated : GenerationCompletion;
  sa_candidate : json;
  sa_result : option SemanticResult;
  sa_creation : json;
}.

(** The stored generation whose candidate is judged: [gen_candidate_key] is unique. *)
Definition candidate_generations (db : DB) (run_id candidate_id : string) : list GenerationRow :=
  List.filter (λ r, gr_candidate_id r == Some candidate_id) (generations_of db run_id).
Definition previous_semantics (db : DB) (run_id candidate_id : string) : list SemanticRow :=
  sort_by (λ a b, sr_execution_ordinal a <=? sr_execution_ordinal b)
    (List.filter (λ r, sr_candidate_id r == candidate_id) (semantics_of db run_id)).

(** The candidate and the completion that produced it. *)
Definition judged_generation (db : DB) (run_id : string) (owner : string)
    (completion : SemanticCompletion) (cp : option ExecutionCheckpoint)
    : res (GenerationCompletion * json * ExecutionCheckpoint) :=
  row ← one_or_none (candidate_generations db run_id (sc_candidate_id completion));
  let required := CheckpointConflict "Accepted candidate required" in
  match row with
  | None => Err required
  | Some row =>
    raise_if (negb (truthy (gr_candidate_json row))) required ;;
    generated ← decode_completion row;
    let candidate := gr_candidate_json row in
    let mismatch := CheckpointConflict "Semantic completion does not match current candidate" in
    raise_ifM (Ok (gc_status generated != "succeeded")
               <orM> (truthy <$> json_item candidate "review_ready")) mismatch ;;
    match cp with
    | None => Err mismatch
    | Some cp =>
      raise_ifM (negM (semantic_matches_checkpoint completion cp owner
                         (gc_normalized_fingerprint generated))
                 <orM> Ok ((cp_case_id cp, cp_slot_ordinal cp) != slot_of generated)) mismatch ;;
      id ← json_item candidate "id";
      execution_id ← json_item candidate "generation_execution_id";
      fingerprint ← json_item candidate "normalized_output_fingerprint";
      raise_if (negb (json_eqb id (JStr (sc_candidate_id completion))
                      && json_eqb execution_id (JStr (gc_execution_id generated))
                      && json_eqb fingerprint (JStr (gc_normalized_fingerprint generated))))
        (CheckpointConflict "Candidate identity or output evidence mismatch") ;;
      Ok (generated, candidate, cp)
    end
  end.

(** The judgement of a successful completion, and the candidate it leaves. *)
Definition accept_judgement (db : DB) (organization_id : Z) (creation : json)
    (release : EvidenceReleaseIdentity) (completion : SemanticCompletion)
    (generated : GenerationCompletion) (candidate : json)
    : res (json * option SemanticResult) :=
  if sc_status completion == "succeeded" then
    match sc_receipt completion with
    | None => Err AssertionError
    | Some receipt =>
      suite ← stored_run_suite db creation;
      inventory ← assertion_inventory suite (gc_case_id generated);
      assertions ← list_field candidate "assertions";
      receipts ← mapM decode_assertion assertions;
      obligations ← semantic_obligations inventory receipts;
      assets ← semantic_contract db release organization_id creation;
      result ← parse_semantic_output (sc_normalized_output completion) release receipt
                 (sc_invocation_id completion) obligations assets;
      candidate ← judged_candidate candidate completion result;
      Ok (candidate, Some result)
    end
  else Ok (candidate, None).

Definition read_semantic_acceptance (db : DB) (run_id : string) (organization_id : Z)
    (owner : string) (completion : SemanticCompletion) (run : EvaluationRunRow)
    (cp : option ExecutionCheckpoint) : res SemanticAcceptance :=
  '(generated, candidate, cp) ← judged_generation db run_id owner completion cp;
  dispatched ← dispatched_checkpoint db run_id (sc_invocation_id completion);
  raise_ifM (unreserved dispatched
               (λ d, semantic_matches_checkpoint completion d owner
                       (gc_normalized_fingerprint generated)
                     <andM> Ok ((cp_case_id d, cp_slot_ordinal d)
                                == (cp_case_id cp, cp_slot_ordinal cp))))
    (CheckpointConflict "Matching semantic dispatch reservation required") ;;
  let previous := previous_semantics db run_id (sc_candidate_id completion) in
  raise_if (((sr_execution_ordinal <$> previous) != seqZ 1 (sc_execution_ordinal completion - 1))
            || existsb (λ r, negb (is_null (sr_result_json r))) previous)
    (CheckpointConflict "Semantic sequence already accepted or incomplete") ;;
  creation ← loads (er_definition_json run);
  policy ← run_policy creation;
  release ← creation_release creation;
  route ← resolve_semantic_route release;
  definition ← loads (ra_definition_json route);
  raise_ifM (optional_receipt_differs (sc_receipt completion) definition)
    (ValueError "Semantic receipt does not match frozen route") ;;
  '(candidate, result) ← accept_judgement db organization_id creation release completion generated
                           candidate;
  Ok (mk_SemanticAcceptance policy generated candidate result creation).

(** [semantic_terminal_values] *)
Definition terminal_row (completion : SemanticCompletion) (accepted : SemanticAcceptance)
    : SemanticRow :=
  semantic_row completion (result_dict <$> sa_result accepted).

Definition with_candidate (candidate : json) (row : GenerationRow) : GenerationRow :=
  mk_GenerationRow (gr_execution_id row) (gr_invocation_id row) (gr_case_id row)
    (gr_slot_ordinal row) (gr_execution_ordinal row) (gr_candidate_id row) candidate
    (gr_evidence_json row) (gr_raw_output row) (gr_normalized_output row).

(** [{**r, "candidate_json": candidate} if r["execution_id"] == ... else r] *)
Definition replace_candidate (execution_id : string) (candidate : json)
    (rows : list GenerationRow) : list GenerationRow :=
  (λ r, if gr_execution_id r == execution_id then with_candidate candidate r else r) <$> rows.

Definition project_semantic_progress (db : DB) (run_id : string) (completion : SemanticCompletion)
    (owner : string) (run : EvaluationRunRow) (accepted : SemanticAcceptance)
    (candidate_claim before_insert : bool) : res json :=
  let policy := sa_policy accepted in
  let creation := sa_creation accepted in
  progress ← semantic_completion_progress (er_progress_json run) completion policy owner
               candidate_claim;
  stop ← (Ok (candidate_claim || is_none (sa_result accepted)) <orM> flag progress "cancel_requested");
  if stop : bool then Ok progress
  else
    let dispatches := dispatches_of db run_id in
    '(generations, semantics) ←
      (let generations := generations_of db run_id in
       let semantics := semantics_of db run_id in
       if before_insert then
         let execution_id := gc_execution_id (sa_generated accepted) in
         raise_if (negb (Nat.eqb (length (List.filter (λ r, gr_execution_id r == execution_id)
                                            generations)) 1)
                   || existsb (λ r, sr_execution_id r == sc_execution_id completion) semantics)
           (CheckpointConflict "Exact unprojected semantic source required") ;;
         Ok (replace_candidate execution_id (sa_candidate accepted) generations,
             (semantics ++ [terminal_row completion accepted])%list)
       else Ok (generations, semantics));
    plan ← json_item creation "slots";
    resolutions ← json_get_default progress "result_unknown_resolutions" (JList []);
    recoveries ← json_get_default progress "semantic_contract_recoveries" (JList []);
    slots ← project_slots plan generations dispatches semantics resolutions recoveries policy;
    preflight ← json_item progress "preflight";
    status ← text_field progress "status";
    preflight_status ← text_field preflight "status";
    preflight_case ← text_field preflight "case_id";
    unresolved ← int_default progress "unresolved_result_unknown_count" 0;
    action ← next_action status preflight_status preflight_case slots policy None unresolved;
    if na_kind action == "await_review" then
      move_to "awaiting_review"
        (JObj [("from", JStr "collecting"); ("to", JStr "awaiting_review");
               ("actor", JStr (strip owner)); ("cause_code", JStr "candidate_evidence_complete");
               ("at", time_json (sc_finished_at completion));
               ("evidence_refs", texts [sc_execution_id completion])]) progress
    else Ok progress.

Definition semantic_clash (row other : SemanticRow) : bool :=
  (sr_invocation_id other == sr_invocation_id row)
  || ((sr_candidate_id other, sr_execution_ordinal other)
      == (sr_candidate_id row, sr_execution_ordinal row)).
Definition insert_semantic (run_id : string) (row : SemanticRow) : tx DB unit :=
  insert_row (λ db, ct_semantics (e_rest db)) set_semantics (run_id, sr_execution_id row) row
    (λ db, negb (existsb (semantic_clash row) (semantics_of db run_id))).
Definition write_candidate (run_id execution_id : string) (candidate : json) : tx DB unit :=
  modify (λ db, set_generations (alter (with_candidate candidate) (run_id, execution_id)
                                   (ct_generations (e_rest db))) db).

Definition complete_semantic (run_id : string) (expected_version organization_id : Z)
    (owner : string) (completion : SemanticCompletion) (claim : option SlotClaim)
    : tx DB CheckpointState :=
  '(version, cp, run, claim) ←
    match claim with
    | Some claim =>
      '(run, version, claim) ← completion_owner run_id organization_id claim;
      mret (version, Some (sc_checkpoint claim), run, Some claim)
    | None =>
      db ← get_db;
      '(version, cp, run) ← lift (load_serial_semantic_state db run_id expected_version
                                    organization_id);
      mret (version, cp, run, None)
    end;
  db ← get_db;
  accepted ← lift (read_semantic_acceptance db run_id organization_id owner completion run cp);
  insert_semantic run_id (terminal_row completion accepted) ;;
  (if is_some (sa_result accepted)
   then write_candidate run_id (gc_execution_id (sa_generated accepted)) (sa_candidate accepted)
   else mret tt) ;;
  db ← get_db;
  progress ← lift (project_semantic_progress db run_id completion owner run accepted
                     (is_some claim) false);
  match claim with
  | Some claim =>
    complete_claim run_id version claim progress owner (sc_finished_at completion)
  | None => finish_version run_id version progress
  end.

(** ** The records a judgement proposes *)

(** The stored candidate that a judgement is about. *)
Definition unreviewed_candidate (completion : SemanticCompletion) (generated : GenerationCompletion)
    (row : GenerationRow) : res bool :=
  let stored := gr_candidate_json row in
  Ok ((gr_candidate_id row == Some (sc_candidate_id completion)) && truthy stored)
  <andM> negM (field_differs (json_item stored "id") (Ok (JStr (sc_candidate_id completion))))
  <andM> negM (field_differs (json_item stored "generation_execution_id")
                 (Ok (JStr (gc_execution_id generated))))
  <andM> negM (field_differs (json_item stored "normalized_output_fingerprint")
                 (Ok (JStr (gc_normalized_fingerprint generated))))
  <andM> negM (truthy <$> json_item stored "review_ready").

Definition semantic_terminal_records (run_id : string) (claim : SlotClaim)
    (active : list SlotClaim) (completion : SemanticCompletion) (accepted : SemanticAcceptance)
    (dispatches : list (string * DispatchRow)) (generations : list GenerationRow)
    (semantics : list SemanticRow) : res CandidateTerminalRecords :=
  let cp := sc_checkpoint claim in
  let generated := sa_generated accepted in
  raise_ifM (Ok ((sc_run_id claim != run_id) || (cp_kind cp != "semantic")
                 || (cp_phase cp != "dispatching"))
             <orM> negM (semantic_matches_checkpoint completion cp (cp_owner cp)
                           (gc_normalized_fingerprint generated))
             <orM> Ok (negb (Bool.eqb (is_some (sa_result accepted))
                               (sc_status completion == "succeeded"))
                       || (slot_of generated != slot_of_claim claim))
             <orM> field_differs (json_item (sa_candidate accepted) "id")
                     (Ok (JStr (cp_candidate_id cp)))
             <orM> Ok (negb (scoped_claims run_id claim active)))
    (CheckpointConflict "Exact scoped candidate terminal source required") ;;
  terminal_dispatches dispatches
    ((gr_invocation_id <$> generations) ++ (sr_invocation_id <$> semantics))%list active ;;
  raise_if (existsb (λ r, (sr_execution_id r == sc_execution_id completion)
                          || (sr_invocation_id r == sc_invocation_id completion)) semantics)
    (CheckpointConflict "Candidate semantic terminal already exists") ;;
  let required := CheckpointConflict "Exact unreviewed generation candidate required" in
  let execution_id := gc_execution_id generated in
  match List.filter (λ r, gr_execution_id r == execution_id) generations with
  | [row] =>
    raise_ifM (negM (unreviewed_candidate completion generated row)) required ;;
    Ok (mk_CandidateTerminalRecords (List.filter (λ c, negb (claim_eqb c claim)) active) dispatches
          (if is_some (sa_result accepted)
           then replace_candidate execution_id (sa_candidate accepted) generations
           else generations)
          (semantics ++ [terminal_row completion accepted]))
  | _ => Err required
  end.
End operations.

Local Close Scope py_scope.

(** ** What an accepted judgement changes *)

Section facts.
Context {R : Type}.
Notation DB := (EvaluationTables (CompletionTables R)).
Context `{Assets, RunAssets DB}.

(** The row whose candidate a judgement is about, and the checkpoint that owns the judgement. *)
Record judges (db : DB) (run_id owner : string) (completion : SemanticCompletion)
    (cp : ExecutionCheckpoint) (row : GenerationRow) (generated : GenerationCompletion) : Prop := {
  judges_candidate : candidate_generations db run_id (sc_candidate_id completion) = [row];
  judges_generated : decode_completion row = Ok generated;
  judges_succeeded : gc_status generated = "succeeded";
  judges_unreviewed : ∃ v, json_item (gr_candidate_json row) "review_ready" = Ok v ∧ truthy v = false;
  judges_matches : semantic_matches_checkpoint completion cp owner
                     (gc_normalized_fingerprint generated) = Ok true;
  judges_identity :
    json_item (gr_candidate_json row) "id" = Ok (JStr (sc_candidate_id completion));
  judges_slot : (cp_case_id cp, cp_slot_ordinal cp) = slot_of generated;
}.

Lemma one_or_none_Some {A} (l : list A) x : one_or_none l = Ok (Some x) → l = [x].
Proof. destruct l as [|y [|z l]]; cbn; congruence. Qed.

Lemma judged_generation_Ok (db : DB) run_id owner completion cp generated candidate c :
  judged_generation db run_id owner completion cp = Ok (generated, candidate, c) →
  cp = Some c ∧ ∃ row, judges db run_id owner completion c row generated ∧
    candidate = gr_candidate_json row.
Proof.
  unfold judged_generation. intros Hj. ok_inv.
  match goal with H : one_or_none _ = Ok ?o |- _ =>
    destruct o as [row|]; [apply one_or_none_Some in H as Hrow|done] end. ok_inv.
  destruct cp as [cp'|]; [|done]. py_inv. subst. split; [done|]. exists row. split; [|done].
  repeat match goal with H : json_eqb _ (JStr _) = true |- _ => apply json_eqb_str in H as -> end.
  split; try done. by eexists.
Qed.

(** What a completion is accepted with, beside the candidate it is about. *)
Record judgement_accepted (db : DB) (run_id : string) (organization_id : Z) (owner : string)
    (completion : SemanticCompletion) (run : EvaluationRunRow) (cp : ExecutionCheckpoint)
    (row : GenerationRow) (accepted : SemanticAcceptance) : Prop := {
  ja_judges : judges db run_id owner completion cp row (sa_generated accepted);
  ja_reserved : ∃ entry d, e_dispatches db !! (run_id, sc_invocation_id completion) = Some entry ∧
    decode (dp_checkpoint_json entry) = Ok (Some d) ∧
    semantic_matches_checkpoint completion d owner
      (gc_normalized_fingerprint (sa_generated accepted)) = Ok true ∧
    (cp_case_id d, cp_slot_ordinal d) = slot_of (sa_generated accepted);
  ja_ordinals :
    sr_execution_ordinal <$> previous_semantics db run_id (sc_candidate_id completion)
    = seqZ 1 (sc_execution_ordinal completion - 1);
  ja_unjudged :
    Forall (λ r, sr_result_json r = JNull) (previous_semantics db run_id (sc_candidate_id completion));
  ja_creation : loads (er_definition_json run) = Ok (sa_creation accepted);
  ja_policy : run_policy (sa_creation accepted) = Ok (sa_policy accepted);
  ja_judgement : ∃ release, creation_release (sa_creation accepted) = Ok release ∧
    accept_judgement db organization_id (sa_creation accepted) release completion
      (sa_generated accepted) (gr_candidate_json row)
    = Ok (sa_candidate accepted, sa_result accepted);
}.

Lemma read_semantic_acceptance_Ok (db : DB) run_id org owner completion run cp accepted :
  read_semantic_acceptance db run_id org owner completion run cp = Ok accepted →
  ∃ c row, cp = Some c ∧ judgement_accepted db run_id org owner completion run c row accepted.
Proof.
  unfold read_semantic_acceptance, dispatched_checkpoint. intros Ha. ok_inv.
  match goal with H : judged_generation _ _ _ _ _ = Ok ?x |- _ => destruct x as [[generated candidate] c];
    apply judged_generation_Ok in H as (-> & row & Hj & ->) end.
  py_inv. repeat (match goal with x : _ * _ |- _ => destruct x end; py_inv).
  rename select (unreserved _ _ = _) into Hu. exists c, row. split; [done|].
  destruct (e_dispatches db !! _) as [entry|] eqn:Hd; [|by ok_inv; subst].
  match goal with H : decode _ = Ok ?o |- _ => destruct o as [d|]; [|done] end. cbn in Hu. py_inv.
  split; cbn; try done.
  - exists entry, d. split_and!; try done. by rewrite <- (judges_slot _ _ _ _ _ _ _ Hj).
  - apply Forall_forall. intros r Hr.
    match goal with H : ∀ x, x ∈ previous_semantics _ _ _ → _ |- _ => specialize (H r Hr) end.
    by destruct (sr_result_json r).
  - by eexists.
Qed.

(** A judgement is stored exactly with a success, and then it was parsed for the candidate. *)
Lemma accept_judgement_Ok (db : DB) org creation release completion generated candidate candidate'
    result :
  accept_judgement db org creation release completion generated candidate = Ok (candidate', result) →
  match result with
  | None => sc_status completion ≠ "succeeded" ∧ candidate' = candidate
  | Some r => sc_status completion = "succeeded" ∧ judged_candidate candidate completion r = Ok candidate' ∧
      ∃ receipt suite inventory receipts obligations assets,
        sc_receipt completion = Some receipt ∧
        stored_run_suite db creation = Ok suite ∧
        assertion_inventory suite (gc_case_id generated) = Ok inventory ∧
        semantic_obligations inventory receipts = Ok obligations ∧
        semantic_contract db release org creation = Ok assets ∧
        parse_semantic_output (sc_normalized_output completion) release receipt
          (sc_invocation_id completion) obligations assets = Ok r
  end.
Proof.
  unfold accept_judgement. intros Ha. if_inv; [|ok_inv; by bool_inv]. bool_inv.
  destruct (sc_receipt completion) as [receipt|]; [|done]. ok_inv. split; [done|]. split; [done|].
  by do 6 eexists.
Qed.

Definition add_judgement (run_id : string) (completion : SemanticCompletion)
    (accepted : SemanticAcceptance) (db : DB) : DB :=
  let db1 := set_semantics (<[(run_id, sc_execution_id completion) := terminal_row completion accepted]>
                              (ct_semantics (e_rest db))) db in
  match sa_result accepted with
  | None => db1
  | Some _ =>
    set_generations (alter (with_candidate (sa_candidate accepted))
                       (run_id, gc_execution_id (sa_generated accepted))
                       (ct_generations (e_rest db))) db1
  end.

Lemma serial_state_accepts (db : DB) run_id v org version cp run :
  load_serial_semantic_state db run_id v org = Ok (version, Some cp, run) →
  accepts_for db run_id org cp None run version.
Proof using Type.
  unfold load_serial_semantic_state, serial_version, run_in. intros Hs.
  destruct (e_checkpoints db !! run_id) as [[n value]|] eqn:Hv; [|done]. ok_inv.
  destruct (e_runs db !! run_id) as [r|] eqn:Hr; [|done].
  destruct (bool_decide (er_organization_id r = org)) eqn:Ho; [|done]. py_inv.
  assert (version = n) as -> by (if_inv; py_inv; lia).
  split; [done|done|by apply collecting_open|]. by eexists.
Qed.

Lemma complete_semantic_Ok run_id expected_version org owner completion claim (db db' : DB) state :
  complete_semantic run_id expected_version org owner completion claim db = (Ok state, db') →
  ∃ cp row run version accepted progress progress',
    let db1 := add_judgement run_id completion accepted db in
    accepts_for db run_id org cp claim run version ∧
    judgement_accepted db run_id org owner completion run cp row accepted ∧
    ct_semantics (e_rest db) !! (run_id, sc_execution_id completion) = None ∧
    Forall (λ r, semantic_clash (terminal_row completion accepted) r = false)
      (semantics_of db run_id) ∧
    project_semantic_progress db1 run_id completion owner run accepted (is_some claim) false
    = Ok progress ∧
    state = mk_CheckpointState run_id (version + 1) None ∧
    db' = concluded run_id version claim progress' db1 ∧
    status_follows run_id claim owner (sc_finished_at completion) db1 run progress progress'.
Proof.
  unfold complete_semantic. intros Hx.
  apply tx_bind_Ok in Hx as ([[[version ocp] run] current] & db0 & Hsrc & Hx).
  assert (Hacc : db0 = db ∧ (∀ cp, ocp = Some cp → accepts_for db run_id org cp claim run version) ∧
                 is_some current = is_some claim ∧
                 match claim, current with
                 | Some c, Some c' => require_claim c db = (Ok c', db)
                 | None, None => True
                 | _, _ => False
                 end).
  { clear Hx. destruct claim as [c|].
    - run_inv. repeat (match goal with x : _ * _ |- _ => destruct x end; run_inv).
      match goal with H : completion_owner _ _ _ _ = _ |- _ =>
        apply completion_owner_Ok in H as (-> & Hrid & Hr & Hv & _ & Ho & Hq & Hst) end.
      simplify_eq. split_and!; [done| |done|done]. intros cp [= <-].
      split; [done|done|done|]. split; [done|]. by eexists.
    - run_inv. repeat (match goal with x : _ * _ |- _ => destruct x end; run_inv). simplify_eq.
      split_and!; try done. intros cp ->. by eapply serial_state_accepts. }
  destruct Hacc as (-> & Hacc & His & Hcur). rewrite get_bind in Hx.
  apply tx_bind_Ok in Hx as (accepted & db1 & Ha & Hx). apply lift_Ok in Ha as [Ha ->].
  apply read_semantic_acceptance_Ok in Ha as (cp & row & -> & Ha). specialize (Hacc cp eq_refl).
  apply tx_bind_Ok in Hx as (u & db1 & Hi & Hx). unfold insert_semantic in Hi. run_inv.
  rename select (_ = (Ok x, _)) into Hw.
  assert (x0 = add_judgement run_id completion accepted db) as ->.
  { unfold add_judgement, write_candidate in *. destruct (sa_result accepted); cbn [is_some is_none negb] in Hw;
      by run_inv. }
  eapply (conclude_Ok _ _ _ _ claim) in Hx as (-> & progress' & -> & Hst);
    [|exact Hacc|by unfold add_judgement; destruct (sa_result accepted)..|exact Hcur].
  eexists cp, row, run, version, accepted, _, progress'.
  split_and!; try done; [|by rewrite <- His].
  apply Forall_forall. intros r Hr.
  by match goal with H : ∀ x, x ∈ semantics_of db run_id → _ |- _ => apply H end.
Qed.

(** Without a judgement the run is not projected again. *)
Lemma unjudged_progress (db : DB) run_id completion owner run accepted claimed before :
  sa_result accepted = None →
  project_semantic_progress db run_id completion owner run accepted claimed before
  = semantic_completion_progress (er_progress_json run) completion (sa_policy accepted) owner claimed.
Proof using Type.
  intros Hr. unfold project_semantic_progress. rewrite Hr. rewrite orb_true_r.
  by destruct (semantic_completion_progress _ _ _ _ _).
Qed.

(** ** What sends a run to review *)

(** Two progress documents with the same record of a run beside its status. *)
Definition same_record (progress progress' : json) : Prop :=
  ∀ k d, k ≠ "status" → k ≠ "transitions" → json_get_default progress' k d = json_get_default progress k d.

Lemma move_same_record to_ transition progress progress' :
  move_to to_ transition progress = Ok progress' → same_record progress progress'.
Proof using Type. intros Hm k d. by eapply move_to_default. Qed.

Lemma review_evidence_frame (db db' : DB) run_id progress progress' :
  e_rest db' = e_rest db → e_dispatches db' = e_dispatches db →
  (∀ run, e_runs db !! run_id = Some run →
     ∃ run', e_runs db' !! run_id = Some run' ∧ er_definition_json run' = er_definition_json run) →
  same_record progress progress' →
  reviewable db run_id progress → reviewable db' run_id progress'.
Proof using Type.
  intros Hrest Hd Hruns Hget (policy & slots & [Hs Hp Hc Hk Hpl Hr]). exists policy, slots.
  split; [..|done|done|done].
  - destruct Hs as (run & creation & gate & plan & rs & rc & Hrun & Hl & Hf & Hpn & H1 & H2 & H3).
    destruct (Hruns _ Hrun) as (run' & Hrun' & Hdef).
    exists run', creation, gate, plan, rs, rc. unfold generations_of, semantics_of, dispatches_of.
    by rewrite Hdef, Hrest, Hd, !Hget.
  - destruct Hp as (d & pre & H1 & H2). exists d, pre. by rewrite Hget.
  - unfold int_default in *. by rewrite Hget.
Qed.

Lemma concluded_reviewable (db : DB) run_id version claim progress progress' :
  same_record progress progress' → reviewable db run_id progress →
  reviewable (concluded run_id version claim progress' db) run_id progress'.
Proof using Type.
  intros Hs. apply review_evidence_frame; [by destruct claim|by destruct claim| |done].
  intros run Hrun. exists (with_progress progress' run). split; [|done].
  unfold concluded. cbn [e_runs set_runs]. by rewrite lookup_alter_eq, Hrun.
Qed.

Lemma semantic_progress_status previous completion policy owner claimed progress s :
  semantic_completion_progress previous completion policy owner claimed = Ok progress →
  json_item previous "status" = Ok s →
  json_item progress "status" = Ok s ∨ json_item progress "status" = Ok (JStr "blocked").
Proof using Type.
  unfold semantic_completion_progress. intros ([p cause] & Hp & Hx)%bind_Ok Hs.
  assert (json_item p "status" = Ok s) as Hps.
  { clear Hx. if_inv; [|if_inv; by ok_inv]. ok_inv.
    match goal with H : count_unknown _ = Ok _ |- _ => unfold count_unknown in H end. py_inv.
    destruct previous; try done. rewrite item_set. by rewrite bool_decide_eq_false_2. }
  destruct (nonempty cause && negb claimed); [|ok_inv; by left].
  right. by apply move_to_Ok in Hx as (? & ? & _ & _ & ? & _).
Qed.

Lemma project_semantic_review (db : DB) run_id completion owner run accepted claimed progress s gate :
  project_semantic_progress db run_id completion owner run accepted claimed false = Ok progress →
  e_runs db !! run_id = Some run → loads (er_definition_json run) = Ok (sa_creation accepted) →
  frozen_policies (sa_creation accepted) = Ok (sa_policy accepted, gate) →
  json_item (er_progress_json run) "status" = Ok (JStr s) → s ≠ "awaiting_review" →
  json_item progress "status" = Ok (JStr "awaiting_review") →
  claimed = false ∧ reviewable db run_id progress.
Proof using Type.
  unfold project_semantic_progress. intros (p & Hp & Hx)%bind_Ok Hrun Hload Hpol Hs Hne Hst.
  pose proof (semantic_progress_status _ _ _ _ _ _ _ Hp Hs) as Hps.
  assert (json_item p "status" ≠ Ok (JStr "awaiting_review")) as Hpa
    by (destruct Hps as [Hps|Hps]; rewrite Hps; congruence).
  apply bind_Ok in Hx as (stop & Hstop & Hx). destruct stop; [by ok_inv|]. py_inv.
  split; [done|]. destruct (bool_decide_reflect (na_kind x8 = "await_review")) as [Hk|]; [|by ok_inv].
  match goal with H : next_action _ _ _ _ _ _ _ = Ok _ |- _ =>
    pose proof (next_action_inv _ _ _ _ _ _ _ _ H) as [Hplan _];
    apply await_review_ready in H as (-> & -> & -> & Hknown & Hready); [|done] end.
  eapply (review_evidence_frame db); [done|done|by eauto|by eapply move_same_record|].
  exists (sa_policy accepted), x2. split; try done.
  - by exists run, (sa_creation accepted), gate; do 3 eexists.
  - match goal with H : json_item p "preflight" = Ok ?x |- _ => exists JNull, x; split; [|done];
      clear - H end.
    destruct p; try done. cbn in *. by destruct (assoc "preflight" _); simplify_eq.
  - by apply Forall_forall.
Qed.

Lemma run_policy_frozen creation policy :
  run_policy creation = Ok policy → ∃ gate, frozen_policies creation = Ok (policy, gate).
Proof using Type.
  unfold run_policy. intros ([p gate] & Hf & Hp)%bind_Ok. ok_inv. by eexists.
Qed.

(** C8: Nothing goes to review before all of it can be reviewed: when a judgement is what sends a run to
    [awaiting_review], the evidence the completion leaves, projected again under the frozen policy,
    has a judged candidate ready for review in every slot of the frozen plan, its preflight passed
    and no unknown result is pending; and no claim of the run is left. *)
Theorem review_needs_every_candidate run_id expected_version org owner completion claim (db db' : DB)
    state run :
  complete_semantic run_id expected_version org owner completion claim db = (Ok state, db') →
  e_runs db' !! run_id = Some run →
  json_item (er_progress_json run) "status" = Ok (JStr "awaiting_review") →
  reviewable db' run_id (er_progress_json run) ∧
  (claim ≠ None → mapM claim_of (claims_of db' run_id) = Ok []).
Proof.
  intros Hx Hrun' Hst.
  apply complete_semantic_Ok in Hx as (cp & row & run0 & version & accepted & progress & progress' &
    Hacc & Hja & _ & _ & Hproj & _ & -> & Hfollow).
  destruct Hacc as [Hrun _ (s & Hs & Hopen) _].
  assert (Hne : s ≠ "awaiting_review") by (by destruct Hopen; subst).
  unfold concluded in Hrun'. cbn [e_runs set_runs] in Hrun'.
  set (db1 := add_judgement run_id completion accepted db) in *.
  assert (Hrun1 : e_runs db1 !! run_id = Some run0)
    by (unfold db1, add_judgement; by destruct (sa_result accepted)).
  rewrite lookup_alter_eq, Hrun1 in Hrun'. injection Hrun' as <-. cbn in *.
  destruct (run_policy_frozen _ _ (ja_policy _ _ _ _ _ _ _ _ _ Hja)) as [gate Hgate].
  destruct claim as [c|].
  - destruct Hfollow as (current & active & plan & _ & Hactive & Hplan & Hnext).
    assert (Hpa : json_item progress "status" ≠ Ok (JStr "awaiting_review")).
    { unfold project_semantic_progress in Hproj. apply bind_Ok in Hproj as (p & Hp & Hproj).
      cbn in Hproj. injection Hproj as <-.
      destruct (semantic_progress_status _ _ _ _ _ _ _ Hp Hs) as [E|E]; rewrite E; congruence. }
    apply completion_progress_inv in Hnext as (target & cause & Ht & [->|(Hn & _ & from_ & t & ref & ev & _
      & _ & Hm)]); [done|].
    pose proof (move_to_Ok _ _ _ _ Hm) as (_ & _ & _ & _ & Hstatus & _).
    assert (target = "awaiting_review") as -> by congruence.
    apply candidate_target_inv in Ht as [?|[(_ & ? & _)|(-> & _ & _ & _ & Hc)]]; [done|done|].
    split; [|done]. apply (concluded_reviewable _ _ _ _ progress); [by eapply move_same_record|].
    exact (complete_plan_reviewable db1 run_id run0 progress 32 plan Hrun1 Hplan Hc).
  - cbn in Hfollow. subst progress'.
    destruct (project_semantic_review _ _ _ _ _ _ _ _ _ _ Hproj Hrun1 (ja_creation _ _ _ _ _ _ _ _ _ Hja)
                Hgate Hs Hne Hst) as [_ Hr].
    split; [|done]. apply (concluded_reviewable _ _ _ _ progress); [by intros k d|done].
Qed.
End facts.
