(* ===== verification/Recovery.v ===== *)
(** * Recovery: an expired serial checkpoint is given up without a second call

    Models [src/src/qs_ai/infrastructure/persistence/mysql/evaluation_recovery.py]: a checkpoint
    whose lease ended is released when nothing was sent, and completed with an unknown result when
    something was; the audit of the recovery is appended to the progress of the run. *)
From S2P Require Import Prelude PyText PyTime PyHash PyJson PyIso Transactions Tables Failure.
From S2P Require Import Checkpoint Completion Preflight Actions Resolution Publication Policies.
From S2P Require Import CheckpointRecords CompletionRecords SlotClaims Projection Acceptance.
From S2P Require Import CompletionProgress DispatchLedger CandidatePlan Completions Judgements.
From Stdlib Require Import Ascii.

Local Open Scope string_scope.
Local Open Scope Z_scope.
Local Open Scope py_scope.

Section operations.
Context {R : Type}.
Notation DB := (EvaluationTables (CompletionTables R)).
Context `{Assets, RunAssets DB}.

Definition interrupted_failure (cp : ExecutionCheckpoint) : res ClassifiedFailure :=
  construct (mk_ClassifiedFailure
    (if cp_kind cp == "generation" then "generation_execution" else "semantic_evaluation")
    "result_unknown" "execution_interrupted" false true "manual_acknowledgement"
    "发送中断，无法确认供应商执行结果" [cp_execution_id cp; cp_invocation_id cp] None
    "ai-explanation-failure-taxonomy/v1").

Definition interrupted_completion (cp : ExecutionCheckpoint) (at_ : datetime)
    (candidate_fingerprint : string) : res (GenerationCompletion + SemanticCompletion) :=
  match cp_phase cp == "dispatching", cp_dispatch_started_at cp with
  | true, Some started =>
    failure ← interrupted_failure cp;
    if cp_kind cp == "generation" then
      c ← construct (mk_GenerationCompletion (cp_execution_id cp) (cp_case_id cp)
                       (cp_slot_ordinal cp) (cp_execution_ordinal cp) (cp_invocation_id cp)
                       "result_unknown" started at_ 1 None "" "" "" (Some failure));
      Ok (inl c)
    else
      c ← construct (mk_SemanticCompletion (cp_execution_id cp) (cp_candidate_id cp)
                       candidate_fingerprint (cp_execution_ordinal cp) (cp_invocation_id cp)
                       "result_unknown" started at_ 1 None "" "" (Some failure));
      Ok (inr c)
  | _, _ => Err (ValueError "Original dispatched checkpoint required")
  end.

Definition recovery_event (cp : ExecutionCheckpoint) (expected_version : Z)
    (observed_expiry at_ : datetime) (actor : string) : json :=
  JObj [("actor", JStr actor);
        ("cause_code", JStr (if cp_phase cp == "prepared" then "expired_preparation_released"
                             else "expired_dispatch_result_unknown"));
        ("invocation_id", JStr (cp_invocation_id cp)); ("execution_id", JStr (cp_execution_id cp));
        ("previous_owner", JStr (cp_owner cp)); ("observed_expiry", time_json observed_expiry);
        ("at", time_json at_); ("from_version", JInt expected_version);
        ("to_version", JInt (expected_version + 1))].
Definition recovery_progress (progress : json) (cp : ExecutionCheckpoint) (expected_version : Z)
    (observed_expiry at_ : datetime) (actor : string) : res json :=
  recoveries ← json_get_default progress "recoveries" (JList []);
  recoveries ← iterate recoveries;
  Ok (set_item "recoveries"
        (JList (recoveries ++ [recovery_event cp expected_version observed_expiry at_ actor]))
        progress).

Definition read_expired_recovery_source (db : DB) (run_id : string)
    (expected_version organization_id : Z) (invocation_id : string)
    (observed_expiry at_ : datetime) (actor : string) : res ExecutionCheckpoint :=
  raise_if (negb (valid_id actor)) (ValueError "Recovery actor required") ;;
  raise_if (existsb (λ t, negb (aware t)) [observed_expiry; at_])
    (ValueError "Recovery times require time zones") ;;
  let changed := CheckpointConflict "Recovery version changed" in
  match e_checkpoints db !! run_id with
  | None => Err changed
  | Some (version, value) =>
    raise_if (negb (version =? expected_version)) changed ;;
    cp ← decode value;
    let exact := CheckpointConflict "Exact expired checkpoint required" in
    match cp with
    | None => Err exact
    | Some cp =>
      raise_ifM (Ok ((cp_invocation_id cp != invocation_id)
                     || negb (dt_eqb (cp_lease_expires_at cp) observed_expiry))
                 <orM> dt_lt at_ observed_expiry) exact ;;
      match run_in db run_id organization_id with
      | None => Err collecting_required
      | Some run =>
        let progress := er_progress_json run in
        raise_ifM (Ok (is_null progress) <orM> negM (collecting progress)) collecting_required ;;
        Ok cp
      end
    end
  end.

(** [.one()] *)
Definition exactly_one {A} (l : list A) : res A :=
  match l with [] => Err NoResultFound | [x] => Ok x | _ => Err MultipleResultsFound end.

Definition recover_expired (run_id : string) (expected_version organization_id : Z)
    (invocation_id : string) (observed_expiry at_ : datetime) (actor : string)
    : tx DB CheckpointState :=
  db ← get_db;
  cp ← lift (read_expired_recovery_source db run_id expected_version organization_id invocation_id
               observed_expiry at_ actor);
  state ←
    (if cp_phase cp == "prepared" then
       lift (raise_if (existsb (λ row, (row.1.1 == run_id)
                                       && (dp_execution_id row.2 == cp_execution_id cp))
                         (map_to_list (e_dispatches db)))
               (ValueError "Prepared checkpoint has dispatch evidence")) ;;
       state ← lift (construct (mk_CheckpointState run_id (expected_version + 1) None));
       save_checkpoint state expected_version ;;
       mret state
     else
       fingerprint ← lift
         (if cp_kind cp == "generation" then Ok ""
          else row ← exactly_one (candidate_generations db run_id (cp_candidate_id cp));
               generated ← decode_completion row;
               Ok (gc_normalized_fingerprint generated));
       completion ← lift (interrupted_completion cp at_ fingerprint);
       match completion with
       | inl completion =>
         complete_generation run_id expected_version organization_id (cp_owner cp) completion ""
           [] None
       | inr completion =>
         complete_semantic run_id expected_version organization_id (cp_owner cp) completion None
       end);
  db ← get_db;
  match e_runs db !! run_id with
  | None => lift (Err NoResultFound)
  | Some run =>
    progress ← lift (recovery_progress (er_progress_json run) cp expected_version observed_expiry
                       at_ actor);
    write_progress run_id progress ;;
    mret state
  end.
End operations.

Local Close Scope py_scope.

(** ** Recovery gives a checkpoint up *)

Section facts.
Context {R : Type}.
Notation DB := (EvaluationTables (CompletionTables R)).
Context `{Assets, RunAssets DB}.

Lemma read_expired_recovery_source_Ok (db : DB) run_id v org invocation_id expiry at_ actor cp :
  read_expired_recovery_source db run_id v org invocation_id expiry at_ actor = Ok cp →
  (∃ value run, e_checkpoints db !! run_id = Some (v, value) ∧ decode value = Ok (Some cp) ∧
     e_runs db !! run_id = Some run ∧ er_organization_id run = org ∧
     collecting (er_progress_json run) = Ok true) ∧
  cp_invocation_id cp = invocation_id ∧ dt_eqb (cp_lease_expires_at cp) expiry = true ∧
  dt_lt at_ expiry = Ok false ∧ aware at_ = true.
Proof using Type.
  unfold read_expired_recovery_source, run_in. intros Hs. py_inv.
  destruct (e_checkpoints db !! run_id) as [[n value]|] eqn:Hv; [|done]. py_inv.
  match goal with H : decode _ = Ok ?o |- _ => destruct o as [c|]; [|done] end. py_inv.
  destruct (e_runs db !! run_id) as [r|] eqn:Hr; [|done].
  destruct (bool_decide (er_organization_id r = org)) eqn:Ho; [|done]. py_inv.
  rename select ((_ =? _) = true) into Hn. apply Z.eqb_eq in Hn as ->.
  split; [by eexists _, r|]. split_and!; [done|done|by apply dt_lt_false|].
  apply negb_false_iff. match goal with H : ∀ x, x ∈ _ → _ |- _ => apply H end.
  apply elem_of_cons. right. by left.
Qed.

(** An identity is a reference to evidence unless it is already one. *)
Lemma check_identity_ref seen s :
  valid_id s = true → s ∉ seen → check_evidence_ref seen s = Ok (s :: seen).
Proof using Type.
  intros Hs Hseen. unfold check_evidence_ref. rewrite (strip_plain s) by by apply valid_id_plain.
  pose proof (valid_id_nonempty _ Hs) as Hne. apply valid_id_chars in Hs as [Hc Hl].
  rewrite (proj2 (nonempty_true s) Hne), bool_decide_eq_false_2 by done.
  rewrite (proj2 (Z.ltb_ge _ _)) by (unfold byte_len; lia).
  assert (any_char ("009"%char :: "013"%char :: "010"%char :: " "%char :: angle_brackets) s = false) as ->.
  { apply existsb_false. intros c Hin. apply bool_decide_eq_false. rewrite Forall_forall in Hc.
    specialize (Hc c Hin). unfold angle_brackets. rewrite !elem_of_cons, elem_of_nil.
    intros [->|[->|[->|[->|[->|[->|[]]]]]]]; cbn in Hc; lia. }
  done.
Qed.

Lemma check_repeated_ref seen s :
  valid_id s = true → s ∈ seen →
  check_evidence_ref seen s = Err (ValueError "Invalid or duplicated evidence reference").
Proof using Type.
  intros Hs Hseen. unfold check_evidence_ref. rewrite (strip_plain s) by by apply valid_id_plain.
  rewrite (bool_decide_eq_true_2 (s ∈ seen)) by done. by rewrite !orb_true_r.
Qed.

(** The failure that stands for an interrupted call cites both identities, so they must differ. *)
Lemma interrupted_failure_exact cp :
  valid_id (cp_execution_id cp) = true → valid_id (cp_invocation_id cp) = true →
  is_ok (interrupted_failure cp) = bool_decide (cp_execution_id cp ≠ cp_invocation_id cp).
Proof using Type.
  intros He Hi. unfold interrupted_failure, construct, post_init, ClassifiedFailure_post_init.
  cbn [cf_evidence_refs foldM]. rewrite check_identity_ref by (done || by apply not_elem_of_nil).
  cbn [mbind res_bind]. destruct (decide (cp_execution_id cp = cp_invocation_id cp)) as [Heq|Hne].
  - rewrite (bool_decide_eq_false_2 (cp_execution_id cp ≠ _)) by by intros Hn.
    rewrite check_repeated_ref by (done || (rewrite Heq; by left)).
    by destruct (bool_decide (cp_kind cp = "generation")).
  - rewrite (bool_decide_eq_true_2 (cp_execution_id cp ≠ _)) by done.
    rewrite (check_identity_ref [_] (cp_invocation_id cp)) by (done || set_solver).
    by destruct (bool_decide (cp_kind cp = "generation")).
Qed.

(** The two outcomes of an interrupted execution. *)
Lemma interrupted_completion_Ok cp at_ fingerprint c :
  interrupted_completion cp at_ fingerprint = Ok c →
  cp_phase cp = "dispatching" ∧
  match c with
  | inl c => cp_kind cp = "generation" ∧ gc_status c = "result_unknown" ∧
             gc_execution_id c = cp_execution_id cp ∧ gc_invocation_id c = cp_invocation_id cp ∧
             gc_receipt c = None ∧ gc_finished_at c = at_
  | inr c => cp_kind cp ≠ "generation" ∧ sc_status c = "result_unknown" ∧
             sc_execution_id c = cp_execution_id cp ∧ sc_invocation_id c = cp_invocation_id cp ∧
             sc_receipt c = None ∧ sc_finished_at c = at_
  end.
Proof using Type.
  unfold interrupted_completion. intros Hi.
  destruct (bool_decide (cp_phase cp = "dispatching")) eqn:Hp; [|done]. bool_inv.
  destruct (cp_dispatch_started_at cp) as [started|]; [|done]. ok_inv. split; [done|].
  if_inv; ok_inv; bool_inv;
    match goal with H : construct _ = Ok _ |- _ => apply construct_Ok in H as [_ ->] end;
    by split_and!.
Qed.

Lemma constructs {A} `{Validated A} (x : A) : constructed x → construct x = Ok x.
Proof using Type. intros Hx. by apply construct_Ok. Qed.

Lemma checkpoint_identities cp :
  constructed cp →
  valid_id (cp_execution_id cp) = true ∧ valid_id (cp_case_id cp) = true ∧
  valid_id (cp_owner cp) = true ∧ valid_id (cp_invocation_id cp) = true.
Proof using Type.
  unfold constructed, post_init, ExecutionCheckpoint_post_init. intros Hc. py_inv.
  match goal with H : ∀ x, x ∈ [_; _; _; _] → _ |- _ => split_and!; apply H end; set_solver.
Qed.

Lemma times_valid started finished :
  aware started = true → aware finished = true → instant started <= instant finished →
  execution_times_invalid started finished = Ok false.
Proof using Type.
  intros Hs Hf Hle. unfold execution_times_invalid. apply orM_false.
  split; [|by apply dt_lt_false; split; [by apply aware_comparable|]].
  unfold aware, is_some in *. cbn. by destruct (tz_none started), (is_none (utcoffset started)),
    (tz_none finished), (is_none (utcoffset finished)).
Qed.

Lemma interrupted_generation cp started at_ failure :
  constructed cp → cp_kind cp = "generation" →
  execution_times_invalid started at_ = Ok false →
  cf_kind failure = "result_unknown" → cf_result_unknown failure = true →
  constructed (mk_GenerationCompletion (cp_execution_id cp) (cp_case_id cp) (cp_slot_ordinal cp)
                 (cp_execution_ordinal cp) (cp_invocation_id cp) "result_unknown" started at_ 1 None
                 "" "" "" (Some failure)).
Proof using Type.
  intros Hc Hk Ht Hf Hu. destruct (checkpoint_identities _ Hc) as (He & Hca & _ & Hi).
  pose proof (constructed_checkpoint_inv _ Hc) as (_ & _ & _ & Hs & Ho & _).
  unfold constructed, post_init, GenerationCompletion_post_init, candidate_exists. cbn.
  rewrite He, Hca, Hi, Ht, Hf, Hu. cbn.
  rewrite !(proj2 (Z.leb_le _ _)) by lia. by vm_compute.
Qed.

Lemma interrupted_semantic cp started at_ failure fingerprint :
  constructed cp → cp_kind cp = "semantic" → sha_re fingerprint = true →
  execution_times_invalid started at_ = Ok false →
  cf_kind failure = "result_unknown" → cf_result_unknown failure = true →
  constructed (mk_SemanticCompletion (cp_execution_id cp) (cp_candidate_id cp) fingerprint
                 (cp_execution_ordinal cp) (cp_invocation_id cp) "result_unknown" started at_ 1 None
                 "" "" (Some failure)).
Proof using Type.
  intros Hc Hk Hfp Ht Hf Hu. destruct (checkpoint_identities _ Hc) as (He & _ & _ & Hi).
  pose proof (constructed_checkpoint_inv _ Hc) as (_ & _ & _ & _ & Ho & [[? _]|[_ Hca]] & _);
    [congruence|].
  unfold constructed, post_init, SemanticCompletion_post_init. cbn.
  rewrite He, Hca, Hi, Ht, Hf, Hu, Hfp. cbn.
  rewrite !(proj2 (Z.leb_le _ _)) by lia. by vm_compute.
Qed.

(** An interruption can always be recorded: for every checkpoint of a sent call whose lease ended the
    unknown outcome is a valid completion that matches the checkpoint, provided that the execution
    and the invocation have different identities; with equal ones it never is, so that such a
    checkpoint could not be recovered. *)
Theorem interruption_recordable cp at_ fingerprint :
  constructed cp → cp_phase cp = "dispatching" → aware at_ = true →
  dt_lt at_ (cp_lease_expires_at cp) = Ok false →
  (cp_kind cp = "semantic" → sha_re fingerprint = true) →
  is_ok (interrupted_completion cp at_ fingerprint)
  = bool_decide (cp_execution_id cp ≠ cp_invocation_id cp) ∧
  ∀ c, interrupted_completion cp at_ fingerprint = Ok c →
    match c with
    | inl c => generation_matches_checkpoint c cp (cp_owner cp) = Ok true
    | inr c => semantic_matches_checkpoint c cp (cp_owner cp) fingerprint = Ok true
    end.
Proof using Type.
  intros Hc Hph Hat Hlease Hfp. destruct (checkpoint_identities _ Hc) as (He & _ & Ho & Hi).
  pose proof (constructed_checkpoint_inv _ Hc)
    as (_ & Hal & _ & _ & _ & Hk & [[? _]|(_ & t & Ht & Hta & Hle)]); [congruence|].
  apply dt_lt_false in Hlease as [_ Hlease].
  pose proof (times_valid t at_ Hta Hat ltac:(lia)) as Htimes.
  assert (Hown : cp_owner cp = strip (cp_owner cp)) by by rewrite strip_plain by by apply valid_id_plain.
  pose proof (interrupted_failure_exact cp He Hi) as Hf. unfold interrupted_completion.
  rewrite Hph, Ht, bool_decide_eq_true_2 by done.
  destruct (interrupted_failure cp) as [failure|e] eqn:Hfail; cbn [mbind res_bind]; [|done].
  rewrite <- Hf. apply construct_Ok in Hfail as [_ ->].
  match goal with |- context [Some (mk_ClassifiedFailure ?s ?k ?c ?r ?u ?d ?m ?e ?p ?v)] =>
    set (failure := mk_ClassifiedFailure s k c r u d m e p v) end.
  assert (Hcmp : comparable t t = true) by by apply aware_comparable.
  destruct Hk as [[Hk _]|[Hk _]]; rewrite Hk.
  - rewrite bool_decide_eq_true_2 by done.
    rewrite constructs by by apply interrupted_generation.
    split; [done|]. intros c Hx. cbn in Hx. injection Hx as <-. apply generation_matches_iff.
    split_and!; try done. exists t. by split_and!.
  - rewrite bool_decide_eq_false_2 by done.
    rewrite constructs by (apply interrupted_semantic; auto).
    split; [done|]. intros c Hx. cbn in Hx. injection Hx as <-. apply semantic_matches_iff.
    split_and!; try done. exists t. by split_and!.
Qed.

(** What recovery leaves of the terminal evidence and of the progress of the run. *)
Inductive recovery_outcome (run_id : string) (cp : ExecutionCheckpoint) (at_ : datetime)
    (previous : json) (db : DB) : CompletionTables R → json → Prop :=
| recovery_released :
  cp_phase cp = "prepared" →
  (∀ i row, e_dispatches db !! (run_id, i) = Some row → dp_execution_id row ≠ cp_execution_id cp) →
  recovery_outcome run_id cp at_ previous db (e_rest db) previous
| recovery_generation c progress :
  interrupted_completion cp at_ "" = Ok (inl c) →
  is_Some (e_dispatches db !! (run_id, cp_invocation_id cp)) →
  ct_generations (e_rest db) !! (run_id, cp_execution_id cp) = None →
  counts_unknown previous progress →
  recovery_outcome run_id cp at_ previous db
    (mk_CompletionTables
       (<[(run_id, cp_execution_id cp) := generation_row c None]> (ct_generations (e_rest db)))
       (ct_semantics (e_rest db)) (ct_rest (e_rest db))) progress
| recovery_semantic fingerprint c progress :
  interrupted_completion cp at_ fingerprint = Ok (inr c) →
  is_Some (e_dispatches db !! (run_id, cp_invocation_id cp)) →
  ct_semantics (e_rest db) !! (run_id, cp_execution_id cp) = None →
  counts_unknown previous progress →
  recovery_outcome run_id cp at_ previous db
    (mk_CompletionTables (ct_generations (e_rest db))
       (<[(run_id, cp_execution_id cp) := semantic_row c None]> (ct_semantics (e_rest db)))
       (ct_rest (e_rest db))) progress.

Lemma recover_generation run_id v org cp at_ c (db db' : DB) state value run :
  e_checkpoints db !! run_id = Some (v, value) → e_runs db !! run_id = Some run →
  interrupted_completion cp at_ "" = Ok (inl c) →
  complete_generation run_id v org (cp_owner cp) c "" [] None db = (Ok state, db') →
  ∃ rest progress, recovery_outcome run_id cp at_ (er_progress_json run) db rest progress ∧
    state = mk_CheckpointState run_id (v + 1) None ∧
    db' = mk_EvaluationTables (<[run_id := (v + 1, JNull)]> (e_checkpoints db))
            (alter (with_progress progress) run_id (e_runs db)) (e_dispatches db) (e_claims db) rest.
Proof.
  intros Hv Hrun Hi Hx. pose proof (interrupted_completion_Ok _ _ _ _ Hi) as (_ & _ & Hs & He & Hin & _).
  apply complete_generation_Ok in Hx
    as (cp' & run' & v' & candidate & accepted & progress & progress' & Hacc & Hcand & Hread & Hnew & _
        & Hprog & -> & -> & Hst).
  destruct Hacc as [Hrun' _ _ (value' & Hv' & _)]. simplify_eq. cbn in Hst. subst progress'.
  unfold generation_candidate in Hcand. rewrite Hs in Hcand.
  rewrite bool_decide_eq_false_2 in Hcand by done. cbn in Hcand. injection Hcand as <-.
  apply read_generation_acceptance_Ok in Hread as (_ & _ & (row & d & Hd & _) & _).
  rewrite He, Hin in *. eexists _, progress. split.
  - eapply recovery_generation; [done|by eexists|done|]. by eapply generation_unknown_progress.
  - split; [done|]. unfold concluded, freed, add_generation. cbn. by rewrite He.
Qed.

Lemma recover_semantic run_id v org cp at_ fingerprint c (db db' : DB) state value run :
  e_checkpoints db !! run_id = Some (v, value) → e_runs db !! run_id = Some run →
  interrupted_completion cp at_ fingerprint = Ok (inr c) →
  complete_semantic run_id v org (cp_owner cp) c None db = (Ok state, db') →
  ∃ rest progress, recovery_outcome run_id cp at_ (er_progress_json run) db rest progress ∧
    state = mk_CheckpointState run_id (v + 1) None ∧
    db' = mk_EvaluationTables (<[run_id := (v + 1, JNull)]> (e_checkpoints db))
            (alter (with_progress progress) run_id (e_runs db)) (e_dispatches db) (e_claims db) rest.
Proof.
  intros Hv Hrun Hi Hx. pose proof (interrupted_completion_Ok _ _ _ _ Hi) as (_ & _ & Hs & He & Hin & _).
  apply complete_semantic_Ok in Hx
    as (cp' & row & run' & v' & accepted & progress & progress' & Hacc & Hja & Hnew & _ & Hprog & -> & ->
        & Hst).
  destruct Hacc as [Hrun' _ _ (value' & Hv' & _)]. simplify_eq. cbn in Hst. subst progress'.
  destruct (ja_judgement _ _ _ _ _ _ _ _ _ Hja) as (release & _ & Haj).
  destruct (ja_reserved _ _ _ _ _ _ _ _ _ Hja) as (entry & d & Hd & _).
  apply accept_judgement_Ok in Haj. destruct (sa_result accepted) as [r|] eqn:Hr; [by destruct Haj; congruence|].
  rewrite unjudged_progress in Hprog by done.
  assert (Hrow : terminal_row c accepted = semantic_row c None) by (unfold terminal_row; by rewrite Hr).
  rewrite He, Hin in *. eexists _, progress. split.
  - eapply recovery_semantic; [done|by eexists|done|]. by eapply semantic_unknown_progress.
  - split; [done|]. unfold concluded, freed, add_judgement. by rewrite Hr, Hrow, He.
Qed.

Lemma alter_progress_twice progress progress' run_id (runs : gmap string EvaluationRunRow) :
  alter (with_progress progress') run_id (alter (with_progress progress) run_id runs)
  = alter (with_progress progress') run_id runs.
Proof using Type.
  rewrite alter_alter_eq. apply alter_ext. by intros [].
Qed.

Lemma recover_expired_Ok run_id v org invocation_id expiry at_ actor (db db' : DB) state :
  recover_expired run_id v org invocation_id expiry at_ actor db = (Ok state, db') →
  ∃ value cp run rest progress progress',
    e_checkpoints db !! run_id = Some (v, value) ∧ decode value = Ok (Some cp) ∧
    cp_invocation_id cp = invocation_id ∧ dt_eqb (cp_lease_expires_at cp) expiry = true ∧
    dt_lt at_ expiry = Ok false ∧
    e_runs db !! run_id = Some run ∧ er_organization_id run = org ∧
    recovery_outcome run_id cp at_ (er_progress_json run) db rest progress ∧
    recovery_progress progress cp v expiry at_ actor = Ok progress' ∧
    state = mk_CheckpointState run_id (v + 1) None ∧
    db' = mk_EvaluationTables (<[run_id := (v + 1, JNull)]> (e_checkpoints db))
            (alter (with_progress progress') run_id (e_runs db)) (e_dispatches db) (e_claims db) rest.
Proof.
  unfold recover_expired. rewrite get_bind. intros Hx.
  apply tx_bind_Ok in Hx as (cp & db0 & Hsrc & Hx). apply lift_Ok in Hsrc as [Hsrc ->].
  apply read_expired_recovery_source_Ok in Hsrc
    as ((value & run & Hv & Hd & Hrun & Ho & _) & Hin & He & Hlt & _).
  apply tx_bind_Ok in Hx as (st & db1 & Hstep & Hx).
  assert (Hout : ∃ rest progress, recovery_outcome run_id cp at_ (er_progress_json run) db rest progress ∧
    st = mk_CheckpointState run_id (v + 1) None ∧
    db1 = mk_EvaluationTables (<[run_id := (v + 1, JNull)]> (e_checkpoints db))
            (alter (with_progress progress) run_id (e_runs db)) (e_dispatches db) (e_claims db) rest).
  { clear Hx. destruct (bool_decide (cp_phase cp = "prepared")) eqn:Hp.
    - run_inv.
      match goal with H : construct _ = Ok _ |- _ => apply construct_Ok in H as [_ ->] end.
      match goal with H : save_checkpoint _ _ _ = (Ok ?u, _) |- _ =>
        destruct u; apply save_checkpoint_Ok in H as (_ & _ & _ & _ & ->) end.
      exists (e_rest db), (er_progress_json run). split; [|split; [done|]].
      + constructor; [done|]. intros i row Hi Heq.
        apply elem_of_map_to_list in Hi.
        match goal with H : ∀ x, x ∈ map_to_list _ → _ |- _ => specialize (H _ Hi) end.
        cbn in *. by rewrite !bool_decide_eq_true_2 in * by done.
      + unfold set_checkpoints. f_equal. symmetry. apply alter_id. intros r Hr.
        replace r with run by congruence. by destruct run.
    - apply tx_bind_Ok in Hstep as (fingerprint & db2 & Hf & Hstep). apply lift_Ok in Hf as [Hf ->].
      apply tx_bind_Ok in Hstep as (c & db2 & Hi & Hstep). apply lift_Ok in Hi as [Hi ->].
      pose proof (interrupted_completion_Ok _ _ _ _ Hi) as [_ Hc].
      destruct c as [c|c]; [|by eapply recover_semantic].
      destruct Hc as [Hk _]. rewrite bool_decide_eq_true_2 in Hf by done. injection Hf as <-.
      by eapply recover_generation. }
  destruct Hout as (rest & progress & Hout & -> & ->). run_inv. cbn [e_runs] in Hx.
  rewrite lookup_alter_eq, Hrun in Hx. cbn in Hx. unfold write_progress in Hx. run_inv.
  exists value, cp, run, rest, progress. eexists. split_and!; try done.
  2: { unfold set_runs. cbn. by rewrite alter_progress_twice. }
  by apply dt_lt_false.
Qed.

(** C11: Recovery gives up exactly the checkpoint it was asked about, at the version it was asked for and
    not before its lease ended, and it never starts a second call: a preparation that sent nothing is
    released and leaves the evidence alone, and a reserved dispatch is completed once with an unknown
    result, which blocks the run and counts as unresolved.  Dispatches and claims stay as they were,
    the coordinator is one version further, and the recovery is on record. *)
Theorem recovery_never_resends run_id v org invocation_id expiry at_ actor (db db' : DB) state :
  recover_expired run_id v org invocation_id expiry at_ actor db = (Ok state, db') →
  ∃ value cp run rest progress progress',
    e_checkpoints db !! run_id = Some (v, value) ∧ decode value = Ok (Some cp) ∧
    cp_invocation_id cp = invocation_id ∧ dt_eqb (cp_lease_expires_at cp) expiry = true ∧
    dt_lt at_ expiry = Ok false ∧
    e_runs db !! run_id = Some run ∧ er_organization_id run = org ∧
    recovery_outcome run_id cp at_ (er_progress_json run) db rest progress ∧
    recovery_progress progress cp v expiry at_ actor = Ok progress' ∧
    state = mk_CheckpointState run_id (v + 1) None ∧
    db' = mk_EvaluationTables (<[run_id := (v + 1, JNull)]> (e_checkpoints db))
            (alter (with_progress progress') run_id (e_runs db)) (e_dispatches db) (e_claims db) rest.
Proof. apply recover_expired_Ok. Qed.
End facts.
