(* ===== verification/EvidenceLedger.v ===== *)
(** * EvidenceLedger: what every history of a run's evidence keeps

    The operations of the claims, of the completions and of the recovery
    ([SlotClaims.v], [Completions.v], [Judgements.v], [Recovery.v]) as the steps of one transition
    system over the tables of an evaluation, with its invariants by rule induction: the terminal
    evidence of a slot is numbered without a gap, nothing follows an accepted result, every
    terminal row was reserved before, and what is stored stays. *)
From S2P Require Import Prelude PyText PyTime PyHash PyJson PyIso Transactions Tables Failure.
From S2P Require Import Checkpoint Completion Preflight Actions Resolution Publication Policies.
From S2P Require Import CheckpointRecords CompletionRecords SlotClaims Projection Acceptance.
From S2P Require Import CompletionProgress DispatchLedger CandidatePlan Completions Judgements.
From S2P Require Import Recovery.

Local Open Scope string_scope.
Local Open Scope Z_scope.

(** ** Rows of a run *)

Section rows.
Context {V : Type}.

Definition rows_of (m : gmap (string * string) V) (run_id : string) : list V :=
  (filter (λ row, row.1.1 = run_id) (map_to_list m)).*2.

Lemma rows_of_elem m run_id x :
  x ∈ rows_of m run_id ↔ ∃ k, m !! (run_id, k) = Some x.
Proof.
  unfold rows_of. rewrite list_elem_of_fmap. split.
  - intros ([[r k] y] & -> & [Hr Hin]%list_elem_of_filter). cbn in *. subst.
    exists k. by apply elem_of_map_to_list.
  - intros [k Hk]. exists (run_id, k, x). split; [done|]. apply list_elem_of_filter.
    split; [done|]. by apply elem_of_map_to_list.
Qed.

Lemma rows_of_insert m run_id k x run :
  m !! (run_id, k) = None →
  rows_of (<[(run_id, k) := x]> m) run ≡ₚ (if bool_decide (run_id = run) then [x] else []) ++ rows_of m run.
Proof.
  intros Hn. unfold rows_of. rewrite (map_to_list_insert _ _ _ Hn), filter_cons. cbn [fst].
  case_bool_decide; [by rewrite decide_True|by rewrite decide_False].
Qed.

(** A change of a row that keeps what is read. *)
Lemma rows_of_alter {X} (π : V → X) (f : V → V) m key run :
  (∀ x, π (f x) = π x) → π <$> rows_of (alter f key m) run ≡ₚ π <$> rows_of m run.
Proof.
  intros Hπ. destruct (m !! key) as [x|] eqn:Hx.
  2: { replace (alter f key m) with m; [done|]. symmetry. apply alter_id. congruence. }
  rewrite <- (insert_delete_id m key x Hx) at 2. rewrite <- (insert_delete_id m key x Hx) at 1.
  rewrite alter_insert_eq. destruct key as [r k].
  rewrite !rows_of_insert by by rewrite lookup_delete_eq. rewrite !fmap_app.
  case_bool_decide; [cbn; by rewrite Hπ|done].
Qed.
End rows.

Section alter.
Context {V : Type}.
Implicit Types (m : gmap (string * string) V).

Lemma rows_of_alter_inv m f key run r :
  r ∈ rows_of (alter f key m) run → ∃ r0, r0 ∈ rows_of m run ∧ (r = r0 ∨ r = f r0).
Proof.
  intros (k & Hk)%rows_of_elem. destruct (decide (key = (run, k))) as [->|Hne].
  - rewrite lookup_alter_eq in Hk. apply fmap_Some in Hk as (r0 & Hr0 & ->).
    exists r0. split; [apply rows_of_elem; eauto|auto].
  - rewrite lookup_alter_ne in Hk by done. exists r. split; [apply rows_of_elem; eauto|auto].
Qed.
Lemma rows_of_alter_elem m f key run r :
  r ∈ rows_of m run → ∃ r', r' ∈ rows_of (alter f key m) run ∧ (r' = r ∨ r' = f r).
Proof.
  intros (k & Hk)%rows_of_elem. destruct (decide (key = (run, k))) as [->|Hne].
  - exists (f r). split; [|auto]. apply rows_of_elem. exists k. by rewrite lookup_alter_eq, Hk.
  - exists r. split; [|auto]. apply rows_of_elem. exists k. by rewrite lookup_alter_ne.
Qed.
End alter.

Lemma generations_rows {R} (db : EvaluationTables (CompletionTables R)) run_id :
  generations_of db run_id = rows_of (ct_generations (e_rest db)) run_id.
Proof. done. Qed.
Lemma semantics_rows {R} (db : EvaluationTables (CompletionTables R)) run_id :
  semantics_of db run_id = rows_of (ct_semantics (e_rest db)) run_id.
Proof. done. Qed.

(** ** Attempts in sequence *)

(** Attempts by number, each with its mark of success: they are numbered from one without a gap or
    a repetition, and only the last one succeeded. *)
Record in_sequence (attempts : list (Z * bool)) : Prop := {
  seq_numbered : attempts.*1 ≡ₚ seqZ 1 (len attempts);
  seq_last : ∀ n, (n, true) ∈ attempts → n = len attempts;
}.

#[export] Instance in_sequence_Proper : Proper (Permutation ==> iff) in_sequence.
Proof.
  intros l l' Hp.
  assert (Hl : len l = len l') by (unfold len; by rewrite Hp).
  split; intros [H1 H2]; split.
  - by rewrite <- Hl, <- Hp.
  - intros n. rewrite <- Hl, <- Hp. apply H2.
  - by rewrite Hl, Hp.
  - intros n. rewrite Hl, Hp. apply H2.
Qed.

Lemma in_sequence_nil : in_sequence [].
Proof. split; [done|]. intros n H. by apply not_elem_of_nil in H. Qed.

Lemma in_sequence_next n b attempts :
  1 <= n → attempts.*1 ≡ₚ seqZ 1 (n - 1) → Forall (λ a, a.2 = false) attempts →
  in_sequence ((n, b) :: attempts).
Proof.
  intros Hn Hseq Hfree.
  assert (Hlen : len ((n, b) :: attempts) = n).
  { unfold len. cbn [length]. apply Permutation_length in Hseq.
    rewrite length_fmap, length_seqZ in Hseq. lia. }
  split; rewrite Hlen.
  - cbn [fmap list_fmap List.map fst]. fold (fmap fst attempts). rewrite Hseq.
    replace n with ((n - 1) + 1) at 3 by lia. rewrite seqZ_app by lia.
    replace (1 + (n - 1)) with n by lia. cbn. apply Permutation_cons_append.
  - intros m. rewrite elem_of_cons. intros [[= -> _]|Hin]; [done|].
    rewrite Forall_forall in Hfree. by apply Hfree in Hin.
Qed.

(** ** The steps of an evaluation *)

Section evidence.
Context {R : Type}.
Notation DB := (EvaluationTables (CompletionTables R)).
Context `{Assets, RunAssets DB}.

(** A committed operation on the evidence of a run, or a change of other columns and tables. *)
Inductive evaluation_step (db : DB) : DB → Prop :=
| run_operation o u db' : exec candidate_plan o db = (Ok u, db') → evaluation_step db db'
| run_generation run_id v org owner completion candidate_id assertions claim state db' :
  complete_generation run_id v org owner completion candidate_id assertions claim db = (Ok state, db') →
  evaluation_step db db'
| run_judgement run_id v org owner completion claim state db' :
  complete_semantic run_id v org owner completion claim db = (Ok state, db') →
  evaluation_step db db'
| run_recovery run_id v org invocation_id expiry at_ actor state db' :
  recover_expired run_id v org invocation_id expiry at_ actor db = (Ok state, db') →
  evaluation_step db db'
| run_elsewhere db' :
  e_checkpoints db' = e_checkpoints db → e_claims db' = e_claims db →
  e_dispatches db' = e_dispatches db →
  (∀ run policy, frozen_policy_json db run = Ok policy → frozen_policy_json db' run = Ok policy) →
  ct_generations (e_rest db') = ct_generations (e_rest db) →
  ct_semantics (e_rest db') = ct_semantics (e_rest db) → evaluation_step db db'.

(** ** What a step does to the evidence *)

(** The dispatch that an invocation was reserved with. *)
Definition reserved (db : DB) (run_id invocation_id : string) (cp : ExecutionCheckpoint) : Prop :=
  ∃ entry, e_dispatches db !! (run_id, invocation_id) = Some entry ∧
           decode (dp_checkpoint_json entry) = Ok (Some cp).

Record accepts_generation (db : DB) (run_id : string) (c : GenerationCompletion)
    (candidate : option (string * json)) : Prop := {
  ag_reserved : ∃ d owner, reserved db run_id (gc_invocation_id c) d ∧
    generation_matches_checkpoint c d owner = Ok true;
  ag_free : Forall (λ r, gr_candidate_id r = None)
              (previous_generations db run_id (gc_case_id c) (gc_slot_ordinal c));
  ag_ordinals : gr_execution_ordinal <$> previous_generations db run_id (gc_case_id c) (gc_slot_ordinal c)
                = seqZ 1 (gc_execution_ordinal c - 1);
  ag_new : ct_generations (e_rest db) !! (run_id, gc_execution_id c) = None;
  ag_unique : Forall (λ r, generation_clash (generation_row c candidate) r = false)
                (generations_of db run_id);
}.

Record accepts_judgement (db : DB) (run_id : string) (c : SemanticCompletion) : Prop := {
  aj_reserved : ∃ d owner fp, reserved db run_id (sc_invocation_id c) d ∧
    semantic_matches_checkpoint c d owner fp = Ok true;
  aj_candidate : ∃ row, candidate_generations db run_id (sc_candidate_id c) = [row];
  aj_free : Forall (λ r, sr_result_json r = JNull) (previous_semantics db run_id (sc_candidate_id c));
  aj_ordinals : sr_execution_ordinal <$> previous_semantics db run_id (sc_candidate_id c)
                = seqZ 1 (sc_execution_ordinal c - 1);
  aj_new : ct_semantics (e_rest db) !! (run_id, sc_execution_id c) = None;
  aj_unique : Forall (λ r, sr_invocation_id r ≠ sc_invocation_id c) (semantics_of db run_id);
}.

Inductive evidence_effect (db db' : DB) : Prop :=
| evidence_same :
  e_dispatches db' = e_dispatches db →
  ct_generations (e_rest db') = ct_generations (e_rest db) →
  ct_semantics (e_rest db') = ct_semantics (e_rest db) → evidence_effect db db'
| evidence_reserved run_id cp :
  e_dispatches db !! (run_id, cp_invocation_id cp) = None →
  e_dispatches db' = <[(run_id, cp_invocation_id cp) := dispatch_row cp]> (e_dispatches db) →
  ct_generations (e_rest db') = ct_generations (e_rest db) →
  ct_semantics (e_rest db') = ct_semantics (e_rest db) → evidence_effect db db'
| evidence_generation run_id c candidate :
  accepts_generation db run_id c candidate → e_dispatches db' = e_dispatches db →
  ct_generations (e_rest db') = <[(run_id, gc_execution_id c) := generation_row c candidate]>
                                  (ct_generations (e_rest db)) →
  ct_semantics (e_rest db') = ct_semantics (e_rest db) → evidence_effect db db'
| evidence_judgement run_id c result :
  accepts_judgement db run_id c → e_dispatches db' = e_dispatches db →
  ct_semantics (e_rest db') = <[(run_id, sc_execution_id c) := semantic_row c result]>
                                (ct_semantics (e_rest db)) →
  (ct_generations (e_rest db') = ct_generations (e_rest db) ∨
   ∃ key candidate, ct_generations (e_rest db')
                    = alter (with_candidate candidate) key (ct_generations (e_rest db))) →
  evidence_effect db db'.

Lemma evidence_effect_frame (db db1 db' : DB) :
  e_dispatches db' = e_dispatches db1 → e_rest db' = e_rest db1 →
  evidence_effect db db1 → evidence_effect db db'.
Proof using Type.
  intros Hd Hr He. destruct He; [eapply evidence_same|eapply evidence_reserved|eapply evidence_generation
    |eapply evidence_judgement]; rewrite ?Hd, ?Hr; done.
Qed.

Lemma record_evidence (db db1 db' : DB) run_id cp u :
  record_dispatch run_id cp db = (Ok u, db1) →
  e_dispatches db' = e_dispatches db1 → e_rest db' = e_rest db1 → evidence_effect db db'.
Proof using Type.
  intros (raw & pol & budget & limit & total & _ & _ & _ & _ & _ & _ & _ & _ & Hn & _ & ->)
    %record_dispatch_Ok Hd Hr.
  eapply evidence_reserved; [exact Hn|by rewrite Hd|by rewrite Hr..].
Qed.

Lemma exec_evidence o (db db' : DB) u :
  exec candidate_plan o db = (Ok u, db') → evidence_effect db db'.
Proof using Type.
  destruct o; cbn [exec]; intros Hx; run_inv; try by apply evidence_same.
  - destruct u. apply save_checkpoint_Ok in Hx as (_ & _ & _ & _ & ->). by apply evidence_same.
  - match goal with H : prepare_candidate _ _ _ _ _ _ _ _ _ _ = _ |- _ =>
      apply prepare_Ok in H as (v & _ & _ & _ & _ & _ & ->) end. by apply evidence_same.
  - match goal with H : renew_claim _ _ _ _ = _ |- _ =>
      apply renew_Ok in H as (c & cp & _ & _ & _ & _ & _ & _ & ->) end. by apply evidence_same.
  - apply release_Ok in Hx as (c & _ & ->). by apply evidence_same.
  - match goal with H : dispatch_claim _ _ _ _ = _ |- _ =>
      apply dispatch_Ok in H as (run & v & c & cp & db2 & _ & _ & _ & _ & _ & _ & _ & _ & Hd & _ & ->) end.
    by eapply record_evidence.
  - match goal with H : reserve_dispatch _ _ _ _ _ = _ |- _ =>
      apply reserve_dispatch_Ok in H as (c & cp & value & db2 & _ & _ & _ & Hd & _ & Hs) end.
    apply save_checkpoint_Ok in Hs as (_ & _ & _ & _ & ->). by eapply record_evidence.
  - apply freeze_Ok in Hx as (run & reference & _ & _ & _ & ->). by apply evidence_same.
Qed.

Lemma generation_evidence_effect run_id v org owner completion candidate_id assertions claim
    (db db' : DB) state :
  complete_generation run_id v org owner completion candidate_id assertions claim db = (Ok state, db') →
  evidence_effect db db'.
Proof using Type.
  intros Hx. apply complete_generation_Ok in Hx
    as (cp & run & version & candidate & accepted & progress & progress' & _ & _ & Hread & Hnew & Hu & _
        & _ & -> & _).
  apply read_generation_acceptance_Ok in Hread as (_ & _ & (row & d & Hd & Hdec & Hm) & _ & Hfree & Hord).
  eapply (evidence_generation _ _ run_id completion candidate); [|by destruct claim..].
  split; try done. exists d, owner. split; [by exists row|done].
Qed.

Lemma judgement_evidence_effect run_id v org owner completion claim (db db' : DB) state :
  complete_semantic run_id v org owner completion claim db = (Ok state, db') → evidence_effect db db'.
Proof.
  intros Hx. apply complete_semantic_Ok in Hx
    as (cp & row & run & version & accepted & progress & progress' & _ & Hja & Hnew & Hu & _ & _ & -> & _).
  destruct Hja as [Hj (entry & d & Hd & Hdec & Hm & _) Hord Hfree _ _ _].
  eapply (evidence_judgement _ _ run_id completion (result_dict <$> sa_result accepted)).
  - split; try done; [by exists d, owner, (gc_normalized_fingerprint (sa_generated accepted)); split;
      [by exists entry|]|by exists row; apply Hj|].
    eapply Forall_impl; [exact Hu|]. intros r Hr. unfold semantic_clash in Hr. cbn in Hr.
    apply orb_false_iff in Hr as [Hr _]. by apply bool_decide_eq_false in Hr.
  - unfold concluded, add_judgement. by destruct claim, (sa_result accepted).
  - unfold concluded, add_judgement, terminal_row. by destruct claim, (sa_result accepted).
  - unfold concluded, add_judgement. destruct claim, (sa_result accepted); cbn; eauto.
Qed.

Lemma recovery_evidence_effect run_id v org invocation_id expiry at_ actor (db db' : DB) state :
  recover_expired run_id v org invocation_id expiry at_ actor db = (Ok state, db') →
  evidence_effect db db'.
Proof.
  unfold recover_expired. rewrite get_bind. intros Hx.
  apply tx_bind_Ok in Hx as (cp & db0 & Hsrc & Hx). apply lift_Ok in Hsrc as [_ ->].
  apply tx_bind_Ok in Hx as (st & db1 & Hstep & Hx).
  assert (He : evidence_effect db db1).
  { clear Hx. destruct (bool_decide (cp_phase cp = "prepared")).
    - run_inv. match goal with H : save_checkpoint _ _ _ = (Ok ?u, _) |- _ =>
        destruct u; apply save_checkpoint_Ok in H as (_ & _ & _ & _ & ->) end. by apply evidence_same.
    - apply tx_bind_Ok in Hstep as (fingerprint & db2 & Hf & Hstep). apply lift_Ok in Hf as [_ ->].
      apply tx_bind_Ok in Hstep as ([c|c] & db2 & Hi & Hstep); apply lift_Ok in Hi as [_ ->];
        [by eapply generation_evidence_effect|by eapply judgement_evidence_effect]. }
  rewrite get_bind in Hx. destruct (e_runs db1 !! run_id); [|by run_inv]. unfold write_progress in Hx. run_inv.
  by apply (evidence_effect_frame db db1).
Qed.

Lemma step_evidence_effect (db db' : DB) : evaluation_step db db' → evidence_effect db db'.
Proof.
  intros [o u db1 Hx|r v org own c i a cl st db1 Hx|r v org own c cl st db1 Hx
         |r v org i e t a st db1 Hx|db1 _ _ Hd _ Hg Hs].
  - by eapply exec_evidence.
  - by eapply generation_evidence_effect.
  - by eapply judgement_evidence_effect.
  - by eapply recovery_evidence_effect.
  - by apply evidence_same.
Qed.

(** ** The invariant *)

Definition attempts_at {K} `{EqDecision K} (k : K) (marks : list (K * (Z * bool))) : list (Z * bool) :=
  (filter (λ m, m.1 = k) marks).*2.

Definition generation_mark (r : GenerationRow) : slot_id * (Z * bool) :=
  ((gr_case_id r, gr_slot_ordinal r), (gr_execution_ordinal r, is_some (gr_candidate_id r))).
Definition semantic_mark (r : SemanticRow) : string * (Z * bool) :=
  (sr_candidate_id r, (sr_execution_ordinal r, negb (is_null (sr_result_json r)))).

(** The attempts of a slot to produce a candidate, and of a candidate to be judged. *)
Definition slot_attempts (db : DB) (run_id : string) (slot : slot_id) : list (Z * bool) :=
  attempts_at slot (generation_mark <$> generations_of db run_id).
Definition candidate_attempts (db : DB) (run_id candidate_id : string) : list (Z * bool) :=
  attempts_at candidate_id (semantic_mark <$> semantics_of db run_id).

Definition reserved_generation (db : DB) (run_id : string) (r : GenerationRow) : Prop :=
  ∃ d, reserved db run_id (gr_invocation_id r) d ∧ cp_kind d = "generation" ∧
    cp_phase d = "dispatching" ∧ cp_execution_id d = gr_execution_id r ∧
    (cp_case_id d, cp_slot_ordinal d) = (gr_case_id r, gr_slot_ordinal r) ∧
    cp_execution_ordinal d = gr_execution_ordinal r.
Definition reserved_judgement (db : DB) (run_id : string) (r : SemanticRow) : Prop :=
  ∃ d, reserved db run_id (sr_invocation_id r) d ∧ cp_kind d = "semantic" ∧
    cp_phase d = "dispatching" ∧ cp_execution_id d = sr_execution_id r ∧
    cp_candidate_id d = sr_candidate_id r ∧ cp_execution_ordinal d = sr_execution_ordinal r.

Record evidence_kept (db : DB) : Prop := {
  ek_slots : ∀ run_id slot, in_sequence (slot_attempts db run_id slot);
  ek_candidates : ∀ run_id id, in_sequence (candidate_attempts db run_id id);
  ek_generations : ∀ run_id r, r ∈ generations_of db run_id → reserved_generation db run_id r;
  ek_judgements : ∀ run_id r, r ∈ semantics_of db run_id → reserved_judgement db run_id r ∧
    ∃ g, g ∈ generations_of db run_id ∧ gr_candidate_id g = Some (sr_candidate_id r);
}.

(** *** Attempts *)

Lemma attempts_filter {A K} `{EqDecision K} (mark : A → K * (Z * bool)) (p : A → bool) k l :
  (∀ x, p x = true ↔ (mark x).1 = k) →
  attempts_at k (mark <$> l) = (λ x, (mark x).2) <$> List.filter p l.
Proof using Type.
  intros Hp. unfold attempts_at. induction l as [|x l IH]; [done|].
  cbn [fmap list_fmap List.map List.filter]. rewrite filter_cons. specialize (Hp x).
  destruct (p x); [rewrite decide_True by by apply Hp|rewrite decide_False by by intros ?%Hp];
    cbn [fmap list_fmap List.map]; [f_equal|]; exact IH.
Qed.

Lemma slot_attempts_previous (db : DB) run_id case_id slot :
  (λ r, (generation_mark r).2) <$> previous_generations db run_id case_id slot
  ≡ₚ slot_attempts db run_id (case_id, slot).
Proof using Type.
  unfold previous_generations, slot_attempts. rewrite sort_by_perm.
  erewrite attempts_filter; [done|]. intros x. cbn.
  rewrite andb_true_iff, !bool_decide_eq_true. split; [by intros [-> ->]|by intros [= -> ->]].
Qed.
Lemma candidate_attempts_previous (db : DB) run_id id :
  (λ r, (semantic_mark r).2) <$> previous_semantics db run_id id ≡ₚ candidate_attempts db run_id id.
Proof using Type.
  unfold previous_semantics, candidate_attempts. rewrite sort_by_perm.
  erewrite attempts_filter; [done|]. intros x. cbn. by rewrite bool_decide_eq_true.
Qed.

#[export] Instance attempts_at_Proper {K} `{EqDecision K} (k : K) :
  Proper (Permutation ==> Permutation) (attempts_at k).
Proof using Type. intros l l' Hp. unfold attempts_at. by rewrite Hp. Qed.

Lemma attempts_at_cons {K} `{EqDecision K} (k k' : K) a l :
  attempts_at k ((k', a) :: l) = if bool_decide (k' = k) then a :: attempts_at k l else attempts_at k l.
Proof using Type.
  unfold attempts_at. rewrite filter_cons. cbn [fst].
  case_bool_decide; [by rewrite decide_True|by rewrite decide_False].
Qed.

(** Another attempt at a target, after attempts that failed. *)
Lemma in_sequence_add {K} `{EqDecision K} (marks : list (K * (Z * bool))) k n b k' :
  1 <= n → (attempts_at k marks).*1 ≡ₚ seqZ 1 (n - 1) →
  Forall (λ a, a.2 = false) (attempts_at k marks) → in_sequence (attempts_at k' marks) →
  in_sequence (attempts_at k' ((k, (n, b)) :: marks)).
Proof using Type.
  intros Hn Hseq Hfree Hold. rewrite attempts_at_cons.
  case_bool_decide; [subst k'; by apply in_sequence_next|done].
Qed.

Lemma reserved_ordinal (db : DB) run_id i d : reserved db run_id i d → 1 <= cp_execution_ordinal d.
Proof using Type.
  by intros (entry & _ & (_ & _ & _ & _ & [? _] & _)%decode_constructed%constructed_checkpoint_inv).
Qed.

Lemma reserved_frame (db db' : DB) run_id i d :
  e_dispatches db ⊆ e_dispatches db' → reserved db run_id i d → reserved db' run_id i d.
Proof using Type.
  intros Hd (entry & He & ?). exists entry. split; [by eapply lookup_weaken|done].
Qed.
Lemma reserved_generation_frame (db db' : DB) run_id r :
  e_dispatches db ⊆ e_dispatches db' → reserved_generation db run_id r → reserved_generation db' run_id r.
Proof using Type. intros Hd (d & ? & ?). exists d. split; [by eapply reserved_frame|done]. Qed.
Lemma reserved_judgement_frame (db db' : DB) run_id r :
  e_dispatches db ⊆ e_dispatches db' → reserved_judgement db run_id r → reserved_judgement db' run_id r.
Proof using Type. intros Hd (d & ? & ?). exists d. split; [by eapply reserved_frame|done]. Qed.

Lemma kept_frame (db db' : DB) :
  e_dispatches db ⊆ e_dispatches db' → ct_generations (e_rest db') = ct_generations (e_rest db) →
  ct_semantics (e_rest db') = ct_semantics (e_rest db) → evidence_kept db → evidence_kept db'.
Proof using Type.
  intros Hd Hg Hs [H1 H2 H3 H4].
  split; intros run_id; [intros slot|intros id|intros r Hr|intros r Hr];
    unfold slot_attempts, candidate_attempts, generations_of, semantics_of in *;
    rewrite ?Hg, ?Hs in *; [apply H1|apply H2|eapply reserved_generation_frame; [done|by apply H3]|].
  destruct (H4 _ _ Hr) as [? ?]. split; [by eapply reserved_judgement_frame|done].
Qed.

Lemma generation_kept (db db' : DB) run_id c candidate :
  accepts_generation db run_id c candidate → e_dispatches db' = e_dispatches db →
  ct_generations (e_rest db') = <[(run_id, gc_execution_id c) := generation_row c candidate]>
                                  (ct_generations (e_rest db)) →
  ct_semantics (e_rest db') = ct_semantics (e_rest db) → evidence_kept db → evidence_kept db'.
Proof using Type.
  intros [(d & owner & Hres & Hm) Hfree Hord Hnew _] Hd Hg Hs [H1 H2 H3 H4].
  apply generation_matches_iff in Hm as (Hph & Hk & _ & He & Hi & Hc & Hsl & Ho & _).
  pose proof (reserved_ordinal _ _ _ _ Hres) as Hpos.
  assert (Hgen : ∀ run, generations_of db' run
            ≡ₚ (if bool_decide (run_id = run) then [generation_row c candidate] else [])
               ++ generations_of db run).
  { intros run. rewrite !generations_rows, Hg. by apply rows_of_insert. }
  assert (Hsub : e_dispatches db ⊆ e_dispatches db') by by rewrite Hd.
  split.
  - intros run slot. unfold slot_attempts. rewrite (Hgen run), fmap_app.
    destruct (bool_decide_reflect (run_id = run)) as [->|]; [|apply H1].
    apply in_sequence_add; [cbn; lia| | |apply H1]; cbn [fst gr_case_id gr_slot_ordinal generation_row];
      fold (slot_attempts db run (gc_case_id c, gc_slot_ordinal c));
      rewrite <- slot_attempts_previous.
    + rewrite <- list_fmap_compose. cbn. by rewrite <- Hord.
    + rewrite Forall_fmap. eapply Forall_impl; [exact Hfree|]. intros r Hr. cbn. by rewrite Hr.
  - intros run id. unfold candidate_attempts, semantics_of. rewrite Hs. apply H2.
  - intros run r. rewrite (Hgen run), elem_of_app. intros [Hr|Hr].
    + destruct (bool_decide_reflect (run_id = run)) as [->|]; [|by apply not_elem_of_nil in Hr].
      apply list_elem_of_singleton in Hr as ->. apply (reserved_generation_frame db); [done|].
      exists d. cbn. rewrite He, Hc, Hsl, Ho. by split_and!.
    + by eapply reserved_generation_frame, H3.
  - intros run r. unfold semantics_of. rewrite Hs. intros Hr.
    destruct (H4 _ _ Hr) as (Hj & g & Hin & Hcand). split; [by eapply reserved_judgement_frame|].
    exists g. split; [|done]. rewrite (Hgen run). apply elem_of_app. by right.
Qed.

(** The generations a judgement leaves: what it writes is the candidate of one of them. *)
Definition rewrites_candidate (m m' : gmap (string * string) GenerationRow) : Prop :=
  m' = m ∨ ∃ key candidate, m' = alter (with_candidate candidate) key m.

Lemma rewritten_marks m m' run :
  rewrites_candidate m m' → generation_mark <$> rows_of m' run ≡ₚ generation_mark <$> rows_of m run.
Proof using Type. intros [->|(key & candidate & ->)]; [done|by apply rows_of_alter]. Qed.
Lemma rewritten_inv m m' run r :
  rewrites_candidate m m' → r ∈ rows_of m' run →
  ∃ r0, r0 ∈ rows_of m run ∧ (r = r0 ∨ ∃ candidate, r = with_candidate candidate r0).
Proof using Type.
  intros [->|(key & candidate & ->)] Hr; [by eauto|].
  apply rows_of_alter_inv in Hr as (r0 & ? & [?|?]); eauto.
Qed.
Lemma rewritten_elem m m' run r :
  rewrites_candidate m m' → r ∈ rows_of m run →
  ∃ r', r' ∈ rows_of m' run ∧ (r' = r ∨ ∃ candidate, r' = with_candidate candidate r).
Proof using Type.
  intros [->|(key & candidate & ->)] Hr; [by eauto|].
  apply (rows_of_alter_elem _ (with_candidate candidate) key) in Hr as (r' & ? & [?|?]); eauto.
Qed.

Lemma judgement_kept (db db' : DB) run_id c result :
  accepts_judgement db run_id c → e_dispatches db' = e_dispatches db →
  ct_semantics (e_rest db') = <[(run_id, sc_execution_id c) := semantic_row c result]>
                                (ct_semantics (e_rest db)) →
  rewrites_candidate (ct_generations (e_rest db)) (ct_generations (e_rest db')) →
  evidence_kept db → evidence_kept db'.
Proof using Type.
  intros [(d & owner & fp & Hres & Hm) [row Hrow] Hfree Hord Hnew _] Hd Hs Hg [H1 H2 H3 H4].
  apply semantic_matches_iff in Hm as (Hph & Hk & _ & He & Hi & Hc & Ho & _).
  pose proof (reserved_ordinal _ _ _ _ Hres) as Hpos.
  assert (Hsem : ∀ run, semantics_of db' run
            ≡ₚ (if bool_decide (run_id = run) then [semantic_row c result] else [])
               ++ semantics_of db run).
  { intros run. rewrite !semantics_rows, Hs. by apply rows_of_insert. }
  assert (Hsub : e_dispatches db ⊆ e_dispatches db') by by rewrite Hd.
  assert (Hcand : ∀ run g, g ∈ generations_of db run →
            ∃ g', g' ∈ generations_of db' run ∧ gr_candidate_id g' = gr_candidate_id g).
  { intros run g Hin. destruct (rewritten_elem _ _ _ _ Hg Hin) as (g' & Hin' & [->|[cand ->]]); eauto. }
  split.
  - intros run slot. unfold slot_attempts. rewrite generations_rows, (rewritten_marks _ _ run Hg).
    apply H1.
  - intros run id. unfold candidate_attempts. rewrite (Hsem run), fmap_app.
    destruct (bool_decide_reflect (run_id = run)) as [->|]; [|apply H2].
    apply in_sequence_add; [cbn; lia| | |apply H2]; cbn [fst sr_candidate_id semantic_row];
      fold (candidate_attempts db run (sc_candidate_id c)); rewrite <- candidate_attempts_previous.
    + rewrite <- list_fmap_compose. cbn. by rewrite <- Hord.
    + rewrite Forall_fmap. eapply Forall_impl; [exact Hfree|]. intros r Hr. cbn. by rewrite Hr.
  - intros run r Hr. destruct (rewritten_inv _ _ _ _ Hg Hr) as (r0 & Hr0 & Heq).
    apply (reserved_generation_frame db); [done|]. apply H3 in Hr0.
    by destruct Heq as [->|[cand ->]].
  - intros run r. rewrite (Hsem run), elem_of_app. intros [Hr|Hr].
    + destruct (bool_decide_reflect (run_id = run)) as [->|]; [|by apply not_elem_of_nil in Hr].
      apply list_elem_of_singleton in Hr as ->. split.
      * apply (reserved_judgement_frame db); [done|]. exists d. cbn. by rewrite He, Hc, Ho.
      * assert (Hin : row ∈ candidate_generations db run (sc_candidate_id c)) by (rewrite Hrow; by left).
        apply list_elem_of_In, List.filter_In in Hin as [Hin Heq]. apply list_elem_of_In in Hin.
        apply bool_decide_eq_true in Heq. destruct (Hcand _ _ Hin) as (g & ? & ?). exists g.
        split; [done|]. cbn. congruence.
    + destruct (H4 _ _ Hr) as (Hj & g & Hin & Heq). split; [by eapply reserved_judgement_frame|].
      destruct (Hcand _ _ Hin) as (g' & ? & ?). exists g'. split; [done|congruence].
Qed.

Lemma step_keeps_evidence (db db' : DB) : evidence_kept db → evaluation_step db db' → evidence_kept db'.
Proof.
  intros Hk Hs. apply step_evidence_effect in Hs as [Hd Hg Hj|run cp Hn Hd Hg Hj|run c cand Ha Hd Hg Hj
    |run c result Ha Hd Hj Hg].
  - apply (kept_frame db); [by rewrite Hd|done..].
  - apply (kept_frame db); [rewrite Hd; by apply insert_subseteq|done..].
  - by eapply generation_kept.
  - by eapply judgement_kept.
Qed.

Lemma no_evidence_kept (db : DB) :
  ct_generations (e_rest db) = ∅ → ct_semantics (e_rest db) = ∅ → evidence_kept db.
Proof using Type.
  intros Hg Hs.
  assert (Hgen : ∀ run, generations_of db run = []) by (intros; unfold generations_of; by rewrite Hg).
  assert (Hsem : ∀ run, semantics_of db run = []) by (intros; unfold semantics_of; by rewrite Hs).
  split; intros run; unfold slot_attempts, candidate_attempts; rewrite ?Hgen, ?Hsem;
    try (intros ?; apply in_sequence_nil); intros r Hr; by apply not_elem_of_nil in Hr.
Qed.

(** The evidence of every state that the steps reach. *)
Lemma evidence_histories (db0 db : DB) :
  ct_generations (e_rest db0) = ∅ → ct_semantics (e_rest db0) = ∅ → rtc evaluation_step db0 db →
  evidence_kept db.
Proof.
  intros Hg Hs. exact (rtc_keeps _ _ _ _ step_keeps_evidence (no_evidence_kept _ Hg Hs)).
Qed.

(** ** Evidence is never taken back *)

(** The stored evidence of [db] is that of [db'], up to the judged candidates. *)
Record retains (db db' : DB) : Prop := {
  rt_dispatches : e_dispatches db ⊆ e_dispatches db';
  rt_judgements : ct_semantics (e_rest db) ⊆ ct_semantics (e_rest db');
  rt_generations : ∀ k r, ct_generations (e_rest db) !! k = Some r →
    ∃ r', ct_generations (e_rest db') !! k = Some r' ∧
      (r' = r ∨ ∃ candidate, r' = with_candidate candidate r);
}.

Lemma retains_trans (a b c : DB) : retains a b → retains b c → retains a c.
Proof using Type.
  intros [H1 H2 H3] [K1 K2 K3]. split; [by etrans|by etrans|]. intros k r Hr.
  destruct (H3 _ _ Hr) as (r1 & Hr1 & E1). destruct (K3 _ _ Hr1) as (r2 & Hr2 & E2).
  exists r2. split; [done|]. destruct E1 as [->|[c1 ->]], E2 as [->|[c2 ->]]; eauto.
Qed.

Lemma step_retains (db db' : DB) : evaluation_step db db' → retains db db'.
Proof.
  intros Hs. apply step_evidence_effect in Hs as [Hd Hg Hj|run cp Hn Hd Hg Hj|run c cand Ha Hd Hg Hj
    |run c result Ha Hd Hj Hg]; split; rewrite ?Hd, ?Hj; try done; try (rewrite Hg; by eauto).
  - by apply insert_subseteq.
  - intros k r Hr. exists r. split; [|by left]. rewrite Hg, lookup_insert_ne; [done|].
    intros <-. by rewrite (ag_new _ _ _ _ Ha) in Hr.
  - apply insert_subseteq, Ha.
  - intros k r Hr. destruct Hg as [->|(key & cand & ->)]; [by eauto|].
    destruct (decide (key = k)) as [->|]; [rewrite lookup_alter_eq, Hr|rewrite lookup_alter_ne by done];
      cbn; eauto.
Qed.

Lemma steps_retain (db db' : DB) : rtc evaluation_step db db' → retains db db'.
Proof.
  induction 1 as [|x y z Hs _ IH]; [split; eauto|]. by eapply retains_trans; [apply step_retains|].
Qed.
End evidence.
