(* ===== verification/EvidenceBudget.v ===== *)
(** * EvidenceBudget: the evidence of a run stays within its frozen policy

    Every operation of [EvidenceLedger.v] is a sequence of statements of [SlotClaims.v] and of
    changes of other tables, so that the claims, the ledger of dispatches and the evidence live in
    one history.  The attempts at a slot or a candidate are then within the budget the run was
    frozen with. *)
From S2P Require Import Prelude PyText PyTime PyHash PyJson PyIso Transactions Tables Failure.
From S2P Require Import Checkpoint Completion Preflight Actions Resolution Publication Policies.
From S2P Require Import CheckpointRecords CompletionRecords SlotClaims Projection Acceptance.
From S2P Require Import CompletionProgress DispatchLedger CandidatePlan Completions Judgements.
From S2P Require Import Recovery EvidenceLedger.

Local Open Scope string_scope.
Local Open Scope Z_scope.

(** ** Computations as sequences of steps *)

Section steps.
Context {R : Type}.
Notation DB := (EvaluationTables (CompletionTables R)).
Notation step := (@step (CompletionTables R) candidate_plan).

(** What a computation that answers did is a sequence of steps of the claims. *)
Definition stepwise {A} (m : tx DB A) : Prop := ∀ db a db', m db = (Ok a, db') → rtc step db db'.

Lemma stepwise_ret {A} (a : A) : stepwise (mret a).
Proof. intros db b db' [_ ->]%ret_Ok. done. Qed.
Lemma stepwise_lift {A} (m : res A) : stepwise (lift m).
Proof. intros db a db' [_ ->]%lift_Ok. done. Qed.
Lemma stepwise_get : stepwise get_db.
Proof. intros db a db' [_ ->]%get_db_Ok. done. Qed.
Lemma stepwise_bind {A B} (m : tx DB A) (f : A → tx DB B) :
  stepwise m → (∀ a, stepwise (f a)) → stepwise (m ≫= f).
Proof. intros Hm Hf db b db' (a & db1 & H1 & H2)%tx_bind_Ok. etrans; [by eapply Hm|by eapply Hf]. Qed.
Lemma stepwise_if {A} (b : bool) (m n : tx DB A) : stepwise m → stepwise n → stepwise (if b then m else n).
Proof. by destruct b. Qed.
Lemma stepwise_option {A B} (o : option A) (f : A → tx DB B) n :
  (∀ a, stepwise (f a)) → stepwise n → stepwise (match o with Some a => f a | None => n end).
Proof. by destruct o. Qed.
Lemma stepwise_sum {A B C} (o : A + B) (f : A → tx DB C) (g : B → tx DB C) :
  (∀ a, stepwise (f a)) → (∀ b, stepwise (g b)) →
  stepwise (match o with inl a => f a | inr b => g b end).
Proof. by destruct o. Qed.
Lemma stepwise_pair {A B C} (p : A * B) (f : A → B → tx DB C) :
  (∀ a b, stepwise (f a b)) → stepwise (let '(a, b) := p in f a b).
Proof. by destruct p. Qed.

Lemma stepwise_exec o : stepwise (exec candidate_plan o).
Proof. intros db u db' H. apply rtc_once. by eapply step_exec. Qed.

(** A change of the columns and tables that the claims do not read. *)
Lemma stepwise_other (f : DB → DB) :
  (∀ db, e_checkpoints (f db) = e_checkpoints db) → (∀ db, e_claims (f db) = e_claims db) →
  (∀ db, e_dispatches (f db) = e_dispatches db) →
  (∀ db run, frozen_policy_json (f db) run = frozen_policy_json db run) →
  stepwise (modify f).
Proof.
  intros Hc Hl Hd Hf db u db' ->%modify_Ok. apply rtc_once, step_other; [done..|].
  intros run policy. by rewrite Hf.
Qed.
Lemma stepwise_insert {K V} `{Countable K} get (set : gmap K V → DB → DB) k v ok :
  (∀ m, stepwise (modify (set m))) → stepwise (insert_row get set k v ok).
Proof. intros Hs db u db' (_ & _ & ->)%insert_row_Ok. by eapply Hs. Qed.

Lemma progress_frozen progress run_id (db : DB) run :
  frozen_policy_json (set_runs (alter (with_progress progress) run_id (e_runs db)) db) run
  = frozen_policy_json db run.
Proof.
  unfold frozen_policy_json. cbn [e_runs set_runs].
  destruct (decide (run_id = run)) as [->|Hne]; [|by rewrite lookup_alter_ne].
  rewrite lookup_alter_eq. by destruct (e_runs db !! run).
Qed.
Lemma stepwise_progress run_id progress : stepwise (write_progress run_id progress).
Proof. apply stepwise_other; [done..|]. intros db run. apply progress_frozen. Qed.

Lemma stepwise_release claim : stepwise (release_claim claim).
Proof. exact (stepwise_exec (Release claim)). Qed.
Lemma stepwise_save state v : stepwise (save_checkpoint state v).
Proof. exact (stepwise_exec (Save state v)). Qed.
Lemma stepwise_insert_generation run_id row : stepwise (insert_generation run_id row).
Proof. apply stepwise_insert. intros m. by apply stepwise_other. Qed.
Lemma stepwise_insert_semantic run_id row : stepwise (insert_semantic run_id row).
Proof. apply stepwise_insert. intros m. by apply stepwise_other. Qed.
Lemma stepwise_write_candidate run_id execution_id candidate :
  stepwise (write_candidate run_id execution_id candidate).
Proof. by apply stepwise_other. Qed.
End steps.

Create HintDb stepwise.
#[export] Hint Resolve stepwise_ret stepwise_lift stepwise_get stepwise_progress stepwise_release
  stepwise_save stepwise_insert_generation stepwise_insert_semantic stepwise_write_candidate : stepwise.

(** Goes through the code of a computation whose writes are statements of the claims. *)
Ltac solve_stepwise :=
  repeat first
    [ solve [auto with stepwise]
    | match goal with
      | |- stepwise (_ ≫= _) => apply stepwise_bind; [|intros ?]
      | |- stepwise (if _ then _ else _) => apply stepwise_if
      | |- stepwise (match _ with Some _ => _ | None => _ end) => apply stepwise_option; [intros ?|]
      | |- stepwise (match _ with inl _ => _ | inr _ => _ end) => apply stepwise_sum; intros ?
      | |- stepwise (let '(_, _) := ?p in _) => destruct p
      end ].

(** ** The operations are steps of the claims *)

Section operations.
Context {R : Type}.
Notation DB := (EvaluationTables (CompletionTables R)).
Notation step := (@step (CompletionTables R) candidate_plan).
Context `{Assets, RunAssets DB}.

Lemma stepwise_completion_owner run_id org claim : stepwise (R := R) (completion_owner run_id org claim).
Proof using Type. unfold completion_owner, lock_run, active_claims, require_claim, conflict. solve_stepwise. Qed.
Lemma stepwise_finish run_id version progress : stepwise (R := R) (finish_version run_id version progress).
Proof using Type. unfold finish_version. solve_stepwise. Qed.
Lemma stepwise_complete_claim run_id version claim progress actor at_ :
  stepwise (R := R) (complete_claim run_id version claim progress actor at_).
Proof using Type.
  unfold complete_claim, active_claims. pose proof stepwise_finish. solve_stepwise.
Qed.

Lemma stepwise_complete_generation run_id v org owner completion candidate_id assertions claim :
  stepwise (R := R) (complete_generation run_id v org owner completion candidate_id assertions claim).
Proof using Type.
  pose proof stepwise_completion_owner. pose proof stepwise_finish. pose proof stepwise_complete_claim.
  unfold complete_generation. solve_stepwise.
Qed.
Lemma stepwise_complete_semantic run_id v org owner completion claim :
  stepwise (R := R) (complete_semantic run_id v org owner completion claim).
Proof using Type.
  pose proof stepwise_completion_owner. pose proof stepwise_finish. pose proof stepwise_complete_claim.
  unfold complete_semantic. solve_stepwise.
Qed.
Lemma stepwise_recover run_id v org invocation_id expiry at_ actor :
  stepwise (R := R) (recover_expired run_id v org invocation_id expiry at_ actor).
Proof using Type.
  pose proof stepwise_complete_generation. pose proof stepwise_complete_semantic.
  unfold recover_expired. solve_stepwise.
Qed.

(** Each step of an evaluation is a sequence of steps of its claims, so that what holds of every
    history of the claims holds of every history of the evidence. *)
Lemma evaluation_steps (db db' : DB) : evaluation_step db db' → rtc step db db'.
Proof.
  intros [o u db1 Hx|r v org own c i a cl st db1 Hx|r v org own c cl st db1 Hx
         |r v org i e t a st db1 Hx|db1 Hc Hl Hd Hf _ _].
  - by eapply stepwise_exec.
  - by eapply stepwise_complete_generation.
  - by eapply stepwise_complete_semantic.
  - by eapply stepwise_recover.
  - by apply rtc_once, step_other.
Qed.
Lemma evaluation_histories (db db' : DB) : rtc evaluation_step db db' → rtc step db db'.
Proof. induction 1 as [|x y z Hs _ IH]; [done|]. etrans; [by apply evaluation_steps|done]. Qed.

(** ** The rows of the ledger *)

Definition ledger_rows (db : DB) : Prop :=
  ∀ k entry, e_dispatches db !! k = Some entry → ∃ cp, entry = dispatch_row cp.

Lemma step_keeps_rows (db db' : DB) : ledger_rows db → evaluation_step db db' → ledger_rows db'.
Proof.
  intros Hl Hs k entry. apply step_evidence_effect in Hs as [Hd _ _|run cp _ Hd _ _|run c cand _ Hd _ _
    |run c result _ Hd _ _]; rewrite Hd; [apply Hl| |apply Hl|apply Hl].
  rewrite lookup_insert_Some. intros [[_ <-]|[_ ?]]; [by eexists|by eapply Hl].
Qed.

(** The number of a reserved dispatch is at most the number of dispatches of its target. *)
Lemma reserved_within (db : DB) run_id i d policy :
  ledger_rows db → ledger_kept db → frozen_under db run_id policy → reserved db run_id i d →
  cp_execution_ordinal d <= per_target policy (cp_kind d).
Proof using Type.
  intros Hrows Hk Hf (entry & He & Hd). destruct (Hrows _ _ He) as [cp ->].
  apply decode_dict_fields in Hd as (H1 & H2 & H3 & H4 & H5 & _).
  destruct (kept_policy _ Hk _ _ Hf (cp_kind d)) as [_ Ht]. destruct (Ht d) as [Hord Hmax].
  assert (Hin : Some (cp_execution_ordinal cp) ∈ ordinals (target_entries db run_id (cp_kind d) d)).
  { rewrite <- recorded_ordinal_row. unfold ordinals. apply list_elem_of_fmap_2.
    apply list_elem_of_filter. split.
    - unfold counts_for. cbn. rewrite !andb_true_iff, orb_true_iff, !bool_decide_eq_true. auto.
    - apply list_elem_of_fmap. exists ((run_id, i), dispatch_row cp). split; [done|].
      apply list_elem_of_filter. split; [by cbn|]. by apply elem_of_map_to_list. }
  rewrite Hord in Hin. apply list_elem_of_fmap in Hin as (n & [= <-] & [_ Hn]%elem_of_seqZ). lia.
Qed.

(** Attempts in sequence are as many as the number of the last. *)
Lemma sequence_bounded attempts limit :
  in_sequence attempts → 0 <= limit → (∀ a, a ∈ attempts → a.1 <= limit) → len attempts <= limit.
Proof using Type.
  intros [Hseq _] Hpos Hb. destruct (decide (len attempts = 0)) as [->|Hne]; [done|].
  assert (Hin : len attempts ∈ attempts.*1).
  { rewrite Hseq. apply elem_of_seqZ. unfold len in *. lia. }
  apply list_elem_of_fmap in Hin as (a & -> & Ha). by apply Hb.
Qed.

Lemma attempts_at_elem {A K} `{EqDecision K} (mark : A → K * (Z * bool)) k l a :
  a ∈ attempts_at k (mark <$> l) → ∃ x, x ∈ l ∧ mark x = (k, a).
Proof using Type.
  unfold attempts_at. intros ([k' a'] & -> & [Hk Hin]%list_elem_of_filter)%list_elem_of_fmap.
  apply list_elem_of_fmap in Hin as (x & Hx & Hin). exists x. split; [done|]. cbn in *. congruence.
Qed.

Lemma steps_within_policy (db0 db : DB) run_id policy :
  e_dispatches db0 = ∅ → ct_generations (e_rest db0) = ∅ → ct_semantics (e_rest db0) = ∅ →
  rtc evaluation_step db0 db → frozen_under db run_id policy →
  (∀ slot, len (slot_attempts db run_id slot) <= per_target policy "generation") ∧
  (∀ id, len (candidate_attempts db run_id id) <= per_target policy "semantic").
Proof.
  intros Hd Hg Hs Hr Hf.
  pose proof (evidence_histories _ _ Hg Hs Hr) as [Hslot Hcand Hgen Hsem].
  assert (Hrows : ledger_rows db).
  { eapply (rtc_keeps evaluation_step); [apply step_keeps_rows| |exact Hr].
    intros k entry. by rewrite Hd, lookup_empty. }
  assert (Hk : ledger_kept db).
  { eapply (rtc_keeps step); [apply step_keeps_ledger|by apply empty_ledger|by apply evaluation_histories]. }
  assert (Hpos : ∀ kind, 0 <= per_target policy kind).
  { intros kind. destruct (kept_policy _ Hk _ _ Hf kind) as [_ Ht].
    destruct (Ht (mk_ExecutionCheckpoint "" "" "" 0 "" 0 "" "" "" (mk_datetime 0 NoTz) (mk_datetime 0 NoTz) None))
      as [_ Hle]. unfold len in Hle. lia. }
  split; intros target; (apply sequence_bounded; [done|done|]).
  - intros a (r & Hin & [= _ <-])%attempts_at_elem.
    destruct (Hgen _ _ Hin) as (d & Hres & <- & _ & _ & _ & <-). by eapply reserved_within.
  - intros a (r & Hin & [= _ <-])%attempts_at_elem.
    destruct (Hsem _ _ Hin) as [(d & Hres & <- & _ & _ & _ & <-) _]. by eapply reserved_within.
Qed.
End operations.
