(* ===== verification/Suites.v ===== *)
(** * Suites: the frozen suite of a run and its preflight

    Models [load_suite], [FrozenSuite.slots] and [resolve_suite] of
    [src/src/qs_ai/infrastructure/qs_server/evaluation_suite.py] and [run_preflight] of
    [src/src/qs_ai/infrastructure/qs_server/preflight.py]: the plan of a run and the outcome of its
    rejection case are computed from the bytes of the suite, whose fingerprint the release names.
    The bytes are given; what [load_suite] checks of a native suite against its source and of the
    input construction is left out.  Counts are Python integers here: a float or a boolean in their
    place is a [TypeError]. *)
From S2P Require Import Prelude PyText PyTime PyHash PyJson PyIso Preflight Publication Policies.
From S2P Require Import CheckpointRecords CompletionRecords Projection.

Local Open Scope string_scope.
Local Open Scope Z_scope.
Local Open Scope py_scope.

Record FrozenSuite : Type := mk_FrozenSuite {
  fs_reference : FrozenContractRef;
  fs_definition_json : string;
  fs_generation_case_ids : list string;
  fs_preflight_case_id : string;
  fs_repetitions : Z;
}.

(** Every case with its repetitions, in order. *)
Definition slots (self : FrozenSuite) : list (string * Z) :=
  case ← fs_generation_case_ids self; pair case <$> seqZ 1 (fs_repetitions self).

(** [tuple(c["case_id"] for c in definition["cases"] if c["stage"] == stage)] *)
Definition cases_of (definition : json) : res (list json) :=
  cases ← json_item definition "cases"; iterate cases.
Fixpoint stage_cases (stage : string) (cases : list json) : res (list string) :=
  match cases with
  | [] => Ok []
  | c :: cases =>
    s ← json_item c "stage";
    if json_eqb s (JStr stage) then
      case_id ← text_field c "case_id"; rest ← stage_cases stage cases; Ok (case_id :: rest)
    else stage_cases stage cases
  end.

Definition load_suite (reference : FrozenContractRef) (raw : string) : res FrozenSuite :=
  raise_if (negb ((1 <=? byte_len raw) && (byte_len raw <=? 524288)))
    (ValueError "Frozen suite exceeds limit") ;;
  raise_if (fingerprint_of raw != f_fingerprint reference)
    (ValueError "Frozen suite fingerprint mismatch") ;;
  definition ← loads raw;
  suite_id ← json_item definition "suite_id";
  suite_version ← json_item definition "suite_version";
  raise_if (negb (json_eqb suite_id (JStr (f_id reference))
                  && json_eqb suite_version (JStr (f_version reference))))
    (ValueError "Frozen suite identity mismatch") ;;
  cases ← cases_of definition;
  generation ← stage_cases "generation" cases;
  preflight ← stage_cases "preflight" cases;
  policy ← json_item definition "execution_policy";
  repetitions ← int_field policy "generation_repetitions_per_case";
  match preflight with
  | [preflight] =>
    raise_if ((len generation != 7) || (repetitions != 5))
      (ValueError "Frozen suite execution plan mismatch") ;;
    Ok (mk_FrozenSuite reference raw generation preflight repetitions)
  | _ => Err (ValueError "Frozen suite execution plan mismatch")
  end.

(** [resolve_suite(reference, frozen)] of a supplied suite. *)
Definition resolve_suite (reference : FrozenContractRef) (frozen : FrozenSuite) : res FrozenSuite :=
  raise_if (fs_reference frozen != reference)
    (ValueError "Supplied suite differs from release") ;;
  raise_if (fingerprint_of (fs_definition_json frozen) != f_fingerprint reference)
    (ValueError "Supplied suite bytes differ from release") ;;
  Ok frozen.

(** ** The preflight *)

(** [x in l] of decoded values. *)
Definition json_in (x : json) (l : list json) : bool := existsb (json_eqb x) l.

(** [next(c for c in definition["cases"] if c["case_id"] == case_id)]; an empty generator raises
    [StopIteration], which a worker thread turns into a [RuntimeError]. *)
Fixpoint find_case (case_id : string) (cases : list json) : res json :=
  match cases with
  | [] => Err (RuntimeError "StopIteration")
  | c :: cases =>
    id ← json_item c "case_id";
    if json_eqb id (JStr case_id) then Ok c else find_case case_id cases
  end.

Definition eligible (included excluded : list json) (dimension : json) : res bool :=
  code ← json_item dimension "code";
  Ok ((bool_decide (included = []) || json_in code included) && negb (json_in code excluded)).

(** The number of the items that satisfy a predicate. *)
Fixpoint countM {A} (p : A → res bool) (l : list A) : res Z :=
  match l with
  | [] => Ok 0
  | x :: l => b ← p x; n ← countM p l; Ok ((if b : bool then 1 else 0) + n)
  end.

Definition dimensions_of (case : json) : res (list json) :=
  payload ← json_item case "provider_payload";
  facts ← json_item payload "facts";
  dimensions ← json_item facts "dimensions";
  iterate dimensions.

Definition rejection_reason (eligibility : json) (case : json) : res string :=
  included ← json_item eligibility "eligible_dimension_codes";
  included ← iterate included;
  excluded ← json_item eligibility "excluded_dimension_codes";
  excluded ← iterate excluded;
  dimensions ← dimensions_of case;
  count ← countM (eligible included excluded) dimensions;
  least ← int_field eligibility "min_eligible_dimensions";
  if count <? least then Ok "insufficient_eligible_dimensions"
  else
    most ← int_field eligibility "max_input_dimensions";
    if most <? count then Ok "dimension_overflow"
    else Err (ValueError "Registered preflight case unexpectedly allows provider execution").

(** [actual[type]]: the observed value of an assertion, and its text. *)
Definition actual (reason type : string) : res (json * string) :=
  if type == "provider_call_count" then Ok (JInt 0, "0")
  else if type == "rejection_reason" then Ok (JStr reason, reason)
  else Err (KeyError type).
Definition preflight_receipt (reason : string) (assertion : json) : res AssertionReceipt :=
  type ← text_field assertion "type";
  '(observed, detail) ← actual reason type;
  value ← json_item assertion "value";
  construct (mk_AssertionReceipt type "case" 1 true "preflight"
               (if json_eqb observed value then "passed" else "failed") detail).

Definition run_preflight (reference : FrozenContractRef) (at_ : datetime) (suite : FrozenSuite)
    : res PreflightEvidence :=
  suite ← resolve_suite reference suite;
  definition ← loads (fs_definition_json suite);
  cases ← cases_of definition;
  case ← find_case (fs_preflight_case_id suite) cases;
  fixture ← json_item definition "profile_fixture";
  eligibility ← json_item fixture "eligibility";
  reason ← rejection_reason eligibility case;
  expected ← json_item case "expected";
  raise_ifM (field_differs (json_item expected "execution") (Ok (JStr "reject_before_provider"))
             <orM> field_differs (json_item expected "error_code") (Ok (JStr "not_applicable")))
    (ValueError "Invalid preflight expectation") ;;
  assertions ← json_item expected "assertions";
  assertions ← iterate assertions;
  receipts ← mapM (preflight_receipt reason) assertions;
  construct (mk_PreflightEvidence (fs_preflight_case_id suite)
               (if forallb (λ r, ar_status r == "passed") receipts then "passed" else "failed")
               at_ 0 reason receipts).

Local Close Scope py_scope.

(** ** Properties *)

(** Evidence stays valid at another time. *)
Definition evaluated_at (t : datetime) (e : PreflightEvidence) : PreflightEvidence :=
  mk_PreflightEvidence (pe_case_id e) (pe_status e) t (pe_provider_call_count e)
    (pe_rejection_reason e) (pe_assertions e).
Lemma evaluated_at_constructed t e : aware t = true → constructed e → constructed (evaluated_at t e).
Proof.
  unfold constructed, post_init, PreflightEvidence_post_init, aware.
  cbn [evaluated_at pe_case_id pe_status pe_evaluated_at pe_provider_call_count pe_rejection_reason
    pe_assertions].
  intros [Ht Ho]%andb_true_iff H. apply negb_true_iff in Ht. apply is_some_true in Ho as [o Ho].
  rewrite Ht, Ho. cbn [is_none]. rewrite !orb_false_r. rewrite !bind_Ok_unit, !raise_if_Ok in *.
  destruct H as (H1 & H2 & [[H3 _]%orb_false_iff _]%orb_false_iff & H4 & H5 & H6). by split_and!.
Qed.

(** The outcome of a preflight does not depend on its time. *)
Lemma run_preflight_at reference at_ at' suite e :
  run_preflight reference at_ suite = Ok e → aware at' = true →
  run_preflight reference at' suite = Ok (evaluated_at at' e).
Proof.
  unfold run_preflight. intros H Hat.
  repeat match type of H with
  | mbind _ ?m = Ok _ => let E := fresh in destruct m eqn:E; [cbn [mbind res_bind] in H |- *|done]
  end.
  apply construct_Ok in H as [Hc ->]. apply construct_Ok. split; [|done].
  by apply (evaluated_at_constructed at') in Hc.
Qed.

(** A preflight names the rejection case of its suite and never calls a provider. *)
Lemma run_preflight_inv reference at_ suite e :
  run_preflight reference at_ suite = Ok e →
  constructed e ∧ pe_case_id e = fs_preflight_case_id suite ∧ pe_evaluated_at e = at_ ∧
  fs_reference suite = reference.
Proof.
  unfold run_preflight, resolve_suite. intros H. ok_inv.
  match goal with H : construct _ = Ok _ |- _ => apply construct_Ok in H as [? ->] end.
  bool_inv. done.
Qed.

(** The plan of a loaded suite: seven cases, five repetitions of each, in order. *)
Lemma load_suite_inv reference raw suite :
  load_suite reference raw = Ok suite →
  fs_reference suite = reference ∧ fs_definition_json suite = raw ∧
  len (fs_generation_case_ids suite) = 7 ∧ fs_repetitions suite = 5.
Proof.
  unfold load_suite. intros H. ok_inv.
  destruct x4 as [|? []]; try done. ok_inv. bool_inv. done.
Qed.
