(* ===== verification/RunProgress.v ===== *)
(** * RunProgress: a run is started, canceled before it starts, or given its preflight

    Models [src/src/qs_ai/infrastructure/persistence/mysql/evaluation_progress.py]: the first
    transitions of a run, decided on its coordinator and its row and written under the
    compare-and-set of the coordinator. *)
From S2P Require Import Prelude PyText PyTime PyHash PyJson PyIso Transactions Tables Failure.
From S2P Require Import Checkpoint Completion Preflight Actions Resolution Publication Policies.
From S2P Require Import CheckpointRecords CompletionRecords SlotClaims Projection Acceptance.
From S2P Require Import CompletionProgress CandidatePlan Completions Judgements Suites.

Local Open Scope string_scope.
Local Open Scope Z_scope.
Local Open Scope py_scope.

Definition validate_requested_transition (target actor reason : string) (at_ : datetime) : res unit :=
  raise_if (target not_in ["collecting"; "canceled"])
    (ValueError "Unsupported initial Run transition") ;;
  raise_if (negb (valid_id actor)) (ValueError "Invalid transition actor") ;;
  raise_if (invalid_reason reason) (ValueError "Invalid transition reason") ;;
  raise_if (tz_none at_ || is_none (utcoffset at_))
    (ValueError "Transition time must have a time zone").

(** A row of the coordinators: its version and its checkpoint. *)
Definition active_execution : exn :=
  CheckpointConflict "Run version changed or execution is active".
Definition validate_idle_checkpoint (checkpoint : option (Z * json)) (expected_version : Z)
    : res unit :=
  raise_if match checkpoint with
           | None => true
           | Some (version, value) => negb (version =? expected_version) || negb (is_null value)
           end active_execution.

(** [datetime.fromisoformat(creation["audit"]["created_at"])] *)
Definition created_at (creation : json) : res datetime :=
  audit ← json_item creation "audit"; iso_item audit "created_at".

(** [status != s] on the progress of a run. *)
Definition status_differs (s : string) (progress : json) : res bool :=
  status ← json_item progress "status"; Ok (negb (json_eqb status (JStr s))).

(** A row of the runs with its key. *)
Definition unavailable_run (run_id : string) (organization_id : Z)
    (run : option (string * EvaluationRunRow)) : bool :=
  match run with
  | None => true
  | Some (id, row) => (id != run_id) || negb (er_organization_id row =? organization_id)
  end.

Definition plan_requested_transition (run_id : string) (expected_version organization_id : Z)
    (target actor reason : string) (at_ : datetime) (checkpoint : option (Z * json))
    (run : option (string * EvaluationRunRow)) : res (CheckpointState * json) :=
  validate_requested_transition target actor reason at_ ;;
  validate_idle_checkpoint checkpoint expected_version ;;
  let unavailable := CheckpointConflict "Run unavailable in organization" in
  raise_if (unavailable_run run_id organization_id run) unavailable ;;
  match run with
  | None => Err unavailable
  | Some (_, run) =>
    creation ← loads (er_definition_json run);
    progress ←
      (if is_null (er_progress_json run) then
         raise_if (negb (expected_version =? 1))
           (CheckpointConflict "Legacy Run progress needs reconciliation") ;;
         status ← json_item creation "status";
         transitions ← json_item creation "transitions";
         Ok (JObj [("status", status); ("transitions", transitions)])
       else Ok (er_progress_json run));
    raise_ifM (status_differs "requested" progress)
      (CheckpointConflict "Run is no longer requested") ;;
    raise_ifM (created ← created_at creation; dt_lt at_ created)
      (ValueError "Transition cannot precede creation") ;;
    progress ← move_to target
      (JObj [("from", JStr "requested"); ("to", JStr target); ("actor", JStr actor);
             ("reason", JStr reason);
             ("cause_code", JStr (if target == "collecting" then "evaluation_started"
                                  else "evaluation_canceled"));
             ("at", time_json at_)]) progress;
    let progress := if target == "canceled" then set_item "canceled_at" (time_json at_) progress
                    else progress in
    state ← construct (mk_CheckpointState run_id (expected_version + 1) None);
    Ok (state, progress)
  end.

(** [asdict(evidence)] with its time as a text. *)
Definition preflight_dict (e : PreflightEvidence) : json :=
  JObj [("case_id", JStr (pe_case_id e)); ("status", JStr (pe_status e));
        ("evaluated_at", time_json (pe_evaluated_at e));
        ("provider_call_count", JInt (pe_provider_call_count e));
        ("rejection_reason", JStr (pe_rejection_reason e));
        ("assertions", JList (assertion_dict <$> pe_assertions e))].

(** [k in d] of a dict; the check is reached with one only. *)
Definition has_key (k : string) (d : json) : res bool :=
  match d with JObj l => Ok (is_some (assoc k l)) | _ => Err TypeError end.

Definition plan_preflight_completion (run_id : string) (expected_version organization_id : Z)
    (evidence : PreflightEvidence) (checkpoint : option (Z * json))
    (run : option (string * EvaluationRunRow)) : res (CheckpointState * json) :=
  validate_idle_checkpoint checkpoint expected_version ;;
  let unavailable := CheckpointConflict "Run unavailable in organization" in
  raise_if (unavailable_run run_id organization_id run) unavailable ;;
  match run with
  | None => Err unavailable
  | Some (_, run) =>
    creation ← loads (er_definition_json run);
    let progress := er_progress_json run in
    raise_ifM (Ok (is_null progress) <orM> status_differs "collecting" progress
               <orM> has_key "preflight" progress)
      (CheckpointConflict "Pending preflight in collecting Run required") ;;
    raise_ifM ((preflight ← json_item creation "preflight";
                case_id ← json_item preflight "case_id";
                Ok (negb (json_eqb (JStr (pe_case_id evidence)) case_id)))
               <orM> (created ← created_at creation; dt_lt (pe_evaluated_at evidence) created))
      (ValueError "Preflight source or time mismatch") ;;
    let progress := set_item "preflight" (preflight_dict evidence) progress in
    progress ←
      (if pe_status evidence == "failed" then
         move_to "blocked"
           (JObj [("from", JStr "collecting"); ("to", JStr "blocked");
                  ("cause_code", JStr "preflight_failed"); ("actor", JStr "system:runner");
                  ("at", time_json (pe_evaluated_at evidence));
                  ("evidence_refs", texts [pe_case_id evidence])]) progress
       else Ok progress);
    state ← construct (mk_CheckpointState run_id (expected_version + 1) None);
    Ok (state, progress)
  end.

Section operations.
Context {R : Type}.
Notation DB := (EvaluationTables (CompletionTables R)).

(** [save_checkpoint(db, state, v)] and the update of the progress that follows it everywhere. *)
Definition store_progress (state : CheckpointState) (expected_version : Z) (progress : json)
    : tx DB unit :=
  save_checkpoint state expected_version ;; write_progress (cs_run_id state) progress.

(** The row of a run in its organization. *)
Definition scoped_run (db : DB) (run_id : string) (organization_id : Z)
    : option (string * EvaluationRunRow) :=
  pair run_id <$> run_in db run_id organization_id.

Definition transition_requested (run_id : string) (expected_version organization_id : Z)
    (target actor reason : string) (at_ : datetime) : tx DB CheckpointState :=
  lift (validate_requested_transition target actor reason at_) ;;
  db ← get_db;
  let checkpoint := e_checkpoints db !! run_id in
  lift (validate_idle_checkpoint checkpoint expected_version) ;;
  '(state, progress) ← lift (plan_requested_transition run_id expected_version organization_id target
                               actor reason at_ checkpoint (scoped_run db run_id organization_id));
  store_progress state expected_version progress ;;
  mret state.

Definition complete_preflight (run_id : string) (expected_version organization_id : Z)
    (evidence : PreflightEvidence) : tx DB CheckpointState :=
  db ← get_db;
  let checkpoint := e_checkpoints db !! run_id in
  lift (validate_idle_checkpoint checkpoint expected_version) ;;
  '(state, progress) ← lift (plan_preflight_completion run_id expected_version organization_id
                               evidence checkpoint (scoped_run db run_id organization_id));
  store_progress state expected_version progress ;;
  mret state.

(** [stored_run_suite(db, creation)]: the bytes that the interface returns, loaded. *)
Definition run_suite `{RunAssets DB} (db : DB) (creation : json) : res FrozenSuite :=
  text ← stored_run_suite db creation;
  release ← json_item creation "release";
  reference ← ref_field release "suite";
  load_suite reference text.

Definition execute_preflight `{RunAssets DB} (run_id : string)
    (expected_version organization_id : Z) (at_ : datetime) : tx DB CheckpointState :=
  db ← get_db;
  match run_in db run_id organization_id with
  | None => conflict "Run unavailable in organization"
  | Some run =>
    creation ← lift (loads (er_definition_json run));
    suite ← lift (run_suite db creation);
    release ← lift (json_item creation "release");
    reference ← lift (ref_field release "suite");
    evidence ← lift (run_preflight reference at_ suite);
    complete_preflight run_id expected_version organization_id evidence
  end.
End operations.

Local Close Scope py_scope.

(** [PreflightEvidence( **{**raw, "evaluated_at": ..., "assertions": ...} )] *)
Definition preflight_fields : list string :=
  ["case_id"; "status"; "evaluated_at"; "provider_call_count"; "rejection_reason"; "assertions"].
Definition decode_preflight (raw : json) : res PreflightEvidence :=
  evaluated_at ← iso_item raw "evaluated_at";
  assertions ← json_item raw "assertions";
  assertions ← iterate assertions;
  assertions ← mapM decode_assertion assertions;
  named preflight_fields raw ;;
  case_id ← text_field raw "case_id";
  status ← text_field raw "status";
  count ← int_field raw "provider_call_count";
  reason ← text_field raw "rejection_reason";
  construct (mk_PreflightEvidence case_id status evaluated_at count reason assertions).

(** ** Properties *)

Lemma status_differs_false s progress :
  status_differs s progress = Ok false → json_item progress "status" = Ok (JStr s).
Proof.
  unfold status_differs. intros Hs. ok_inv.
  match goal with H : negb _ = false |- _ => apply negb_false_iff, json_eqb_str in H as -> end. done.
Qed.

Lemma decode_assertions l : Forall constructed l → mapM decode_assertion (assertion_dict <$> l) = Ok l.
Proof.
  induction 1 as [|a l Ha _ IH]; [done|]. cbn [fmap list_fmap List.map mapM].
  fold (assertion_dict <$> l). rewrite IH. unfold decode_assertion, assertion_dict.
  read_fields. cbn. unfold construct. destruct a. cbn. unfold constructed in Ha. cbn in Ha. by rewrite Ha.
Qed.

Lemma decode_preflight_dict e :
  constructed e → Forall constructed (pe_assertions e) → printable_time (pe_evaluated_at e) = true →
  decode_preflight (preflight_dict e) = Ok e.
Proof.
  intros He Ha Ht. unfold decode_preflight, preflight_dict.
  erewrite iso_item_dict by (reflexivity || assumption). cbn [mbind res_bind].
  rewrite (json_item_dict _ _ (JList (assertion_dict <$> pe_assertions e))) by done.
  cbn [mbind res_bind iterate]. rewrite decode_assertions by done. cbn [mbind res_bind].
  read_fields. destruct e. by reconstruct.
Qed.
