(* ===== verification/UnknownDecisions.v ===== *)
(** * UnknownDecisions: an operator decides about an unknown result

    Models [src/src/qs_ai/infrastructure/persistence/mysql/evaluation_resolution_evidence.py] and
    [src/src/qs_ai/infrastructure/persistence/mysql/evaluation_resolution.py]: the evidence of a run
    is read and projected again, its count of unresolved results must be the one that is stored,
    and an authorized decision is appended under the compare-and-set of the coordinator.  The rows
    of the evidence are never written. *)
From S2P Require Import Prelude PyText PyTime PyHash PyJson JsonRoundTrip PyIso Transactions Tables.
From S2P Require Import Failure Checkpoint Completion Preflight Actions Resolution Publication.
From S2P Require Import Policies CheckpointRecords CompletionRecords SlotClaims Projection Acceptance.
From S2P Require Import CompletionProgress Documents CandidatePlan Completions RunProgress.

Local Open Scope string_scope.
Local Open Scope Z_scope.
Local Open Scope py_scope.

Definition decode_resolutions (values : json) : res (list ResultUnknownResolution) :=
  values ← iterate values; mapM decode_resolution values.

Record ResolutionEvidence : Type := mk_ResolutionEvidence {
  re_policy : ExecutionPolicy;
  re_generations : list GenerationRow;
  re_semantics : list SemanticRow;
  re_dispatches : list (string * DispatchRow);
  re_unknowns : list UnknownExecution;
  re_resolutions : list ResultUnknownResolution;
}.

(** [type(count) is not int or count != n] *)
Definition count_differs (count : json) (n : Z) : bool :=
  match count with JInt z => z != n | _ => true end.

(** [json.dumps(v, ensure_ascii=False, allow_nan=False)] *)
Definition spaced_finite : dump_style := mk_dump_style ", " ": " false false.

Section operations.
Context {R : Type}.
Notation DB := (EvaluationTables (CompletionTables R)).

(** [progress.get("result_unknown_resolutions", [])] and the contract recoveries. *)
Definition resolutions_of (progress : json) : res json :=
  json_get_default progress "result_unknown_resolutions" (JList []).
Definition recoveries_of (progress : json) : res json :=
  json_get_default progress "semantic_contract_recoveries" (JList []).

Definition ledger_exceeds : exn := CheckpointConflict "Execution ledger exceeds frozen Run budget".

Definition load_resolution_evidence (db : DB) (run_id : string) (creation progress : json)
    : res ResolutionEvidence :=
  '(policy, _) ← frozen_policies creation;
  text ← json_item creation "execution_policy_json";
  raise_if (negb (json_eqb text (JStr (policy_definition_json policy))))
    (ValueError "Frozen execution policy unavailable") ;;
  let generations := generations_of db run_id in
  let semantics := semantics_of db run_id in
  let dispatches := dispatches_of db run_id in
  raise_if (generation_per_run policy <? len generations) ledger_exceeds ;;
  raise_if (semantic_per_run policy <? len semantics) ledger_exceeds ;;
  raise_if (generation_per_run policy + semantic_per_run policy <? len dispatches) ledger_exceeds ;;
  plan ← json_item creation "slots";
  resolutions ← resolutions_of progress;
  recoveries ← recoveries_of progress;
  project_slots plan generations dispatches semantics resolutions recoveries policy ;;
  unknowns ← unknown_executions generations semantics;
  prior ← decode_resolutions resolutions;
  count ← json_get_default progress "unresolved_result_unknown_count" (JInt 0);
  raise_if (count_differs count (len unknowns - len prior))
    (ValueError "Unknown execution count differs from persisted evidence") ;;
  raise_ifM (Ok (existsb (λ r, ru_decision r == "cancel_run") prior)
             <andM> status_differs "canceled" progress)
    (CheckpointConflict "Canceled resolution differs from Run state") ;;
  Ok (mk_ResolutionEvidence policy generations semantics dispatches unknowns prior).

(** The progress after a decision; [result] is what the domain made of it. *)
Definition resolved_progress (progress : json) (value : ResultUnknownResolution)
    (result : ResolutionProgress) : res json :=
  status ← json_item progress "status";
  let updated :=
    set_item "result_unknown_resolutions" (JList (resolution_dict <$> rp_resolutions result))
      (set_item "unresolved_result_unknown_count" (JInt (rp_unresolved_count result))
         (set_item "status" (JStr (rp_status result)) progress)) in
  updated ←
    (if negb (json_eqb (JStr (rp_status result)) status) then
       transitions ← json_item progress "transitions";
       transitions ← iterate transitions;
       Ok (set_item "transitions"
             (JList (transitions
                     ++ [JObj [("from", status); ("to", JStr (rp_status result));
                               ("cause_code",
                                 JStr (if rp_status result == "canceled"
                                       then "result_unknown_run_canceled"
                                       else "manual_recovery_approved"));
                               ("actor", JStr (ru_actor value));
                               ("at", time_json (ru_resolved_at value));
                               ("evidence_refs", texts [ru_execution_id value])]])) updated)
     else Ok updated);
  Ok (if rp_status result == "canceled"
      then set_item "canceled_at" (time_json (ru_resolved_at value)) updated else updated).

Record ResolutionPlan : Type := mk_ResolutionPlan {
  rl_state : CheckpointState;
  rl_progress_json : string;
}.

(** The claims of a run, when the run has them. *)
Definition claims_active (db : DB) (run_id : string) (run : EvaluationRunRow) : res bool :=
  if er_execution_mode run == "candidate_v2" then
    active ← mapM claim_of (claims_of db run_id); Ok (negb (bool_decide (active = [])))
  else Ok false.

(** [resolve_unknown(status, ...)] on a decoded status. *)
Definition resolve_status (status : json) (evidence : ResolutionEvidence)
    (value : ResultUnknownResolution) : res ResolutionProgress :=
  match status with
  | JStr s => resolve_unknown s (re_unknowns evidence) (re_resolutions evidence) value
                (re_policy evidence)
  | _ => Err (ValueError "Blocked Run required")
  end.

Definition plan_resolution (db : DB) (run_id : string) (expected_version organization_id : Z)
    (value : ResultUnknownResolution) (confirm : bool) : res ResolutionPlan :=
  raise_if (negb confirm) (ValueError "Explicit confirmation required") ;;
  validate_idle_checkpoint (e_checkpoints db !! run_id) expected_version ;;
  let unavailable := CheckpointConflict "Run unavailable in organization" in
  match run_in db run_id organization_id with
  | None => Err unavailable
  | Some run =>
    let progress := er_progress_json run in
    raise_if (is_null progress) unavailable ;;
    raise_ifM (claims_active db run_id run)
      (CheckpointConflict "Drain candidate executions before resolving unknown calls") ;;
    creation ← loads (er_definition_json run);
    evidence ← load_resolution_evidence db run_id creation progress;
    status ← json_item progress "status";
    result ← resolve_status status evidence value;
    raise_ifM (flag progress "cancel_requested"
               <andM> Ok ((rp_status result == "canceled") && (rp_unresolved_count result != 0)))
      (CheckpointConflict "Resolve remaining unknown calls before cancellation completes") ;;
    raise_ifM (created ← created_at creation; dt_lt (ru_resolved_at value) created)
      (ValueError "Resolution precedes Run creation") ;;
    updated ← resolved_progress progress value result;
    state ← construct (mk_CheckpointState run_id (expected_version + 1) None);
    text ← dumps_with spaced_finite updated;
    Ok (mk_ResolutionPlan state text)
  end.

Definition accept_resolution (run_id : string) (expected_version organization_id : Z)
    (value : ResultUnknownResolution) (confirm : bool) : tx DB CheckpointState :=
  db ← get_db;
  plan ← lift (plan_resolution db run_id expected_version organization_id value confirm);
  save_checkpoint (rl_state plan) expected_version ;;
  progress ← lift (loads (rl_progress_json plan));
  write_progress run_id progress ;;
  mret (rl_state plan).
End operations.

Local Close Scope py_scope.

(** ** What a decision writes *)

Lemma resolved_status progress value result updated :
  resolved_progress progress value result = Ok updated →
  json_item updated "status" = Ok (JStr (rp_status result)).
Proof.
  unfold resolved_progress. intros H. ok_inv.
  match goal with H : json_item progress "status" = Ok ?s |- _ => rename s into status; rename H into Hs end.
  assert (Hbase : ∀ v, json_item (set_item "status" v progress) "status" = Ok v)
    by (intros v; rewrite item_set; by destruct progress).
  assert (Hu : ∀ k v p, k ≠ "status" → json_item p "status" = Ok (JStr (rp_status result)) →
                        json_item (set_item k v p) "status" = Ok (JStr (rp_status result))).
  { intros k v p Hk Hp. rewrite item_set. destruct p; try done. by rewrite bool_decide_eq_false_2. }
  assert (Hx : json_item x0 "status" = Ok (JStr (rp_status result))).
  { if_inv; ok_inv; repeat (apply Hu; [done|]); apply Hbase. }
  destruct (bool_decide (rp_status result = "canceled")); [by apply Hu|done].
Qed.

Lemma resolved_textual progress value result updated :
  textual progress = true → resolved_progress progress value result = Ok updated →
  textual updated = true.
Proof.
  unfold resolved_progress. intros Hp H. ok_inv.
  match goal with H : json_item progress "status" = Ok ?s |- _ => rename s into status; rename H into Hs end.
  assert (Hst : textual status = true) by by eapply textual_item.
  assert (Hx : textual x0 = true).
  { if_inv; ok_inv; repeat (apply textual_set; [|try done]); try done;
      try (by apply textual_list, textual_resolution).
    apply textual_append; [by eapply textual_iterate; [eapply (textual_item _ _ _ Hp)|]; eassumption|].
    cbn [textual fmap list_fmap List.map forallb snd fst]. by rewrite Hst. }
  destruct (bool_decide (rp_status result = "canceled")); [by apply textual_set|done].
Qed.

(** What was written as a text is the progress that was computed. *)
Lemma written_progress updated text :
  textual updated = true → dumps_with spaced_finite updated = Ok text → loads text = Ok updated.
Proof.
  intros Ht Hd.
  rewrite (loads_dumps spaced_finite ltac:(by right) ltac:(by right) updated text) by done.
  by rewrite written_unsorted.
Qed.

Section facts.
Context {R : Type}.
Notation DB := (EvaluationTables (CompletionTables R)).

Lemma validate_idle_Ok (db : DB) run_id v :
  validate_idle_checkpoint (e_checkpoints db !! run_id) v = Ok tt →
  e_checkpoints db !! run_id = Some (v, JNull).
Proof.
  unfold validate_idle_checkpoint. intros H. py_inv.
  destruct (e_checkpoints db !! run_id) as [[n value]|]; [|done]. py_inv.
  destruct value; try done. f_equal. f_equal. lia.
Qed.

Lemma run_in_Some (db : DB) run_id org run :
  run_in db run_id org = Some run → e_runs db !! run_id = Some run ∧ er_organization_id run = org.
Proof.
  unfold run_in. destruct (e_runs db !! run_id); [|done]. intros H. case_bool_decide; naive_solver.
Qed.

(** An accepted decision on every condition it is accepted under. *)
Lemma accept_resolution_Ok run_id v org value confirm (db db' : DB) state :
  (∀ run, e_runs db !! run_id = Some run → textual (er_progress_json run) = true) →
  accept_resolution run_id v org value confirm db = (Ok state, db') →
  ∃ run creation evidence status result updated,
    e_checkpoints db !! run_id = Some (v, JNull) ∧ e_runs db !! run_id = Some run ∧
    er_organization_id run = org ∧ claims_active db run_id run = Ok false ∧
    loads (er_definition_json run) = Ok creation ∧
    load_resolution_evidence db run_id creation (er_progress_json run) = Ok evidence ∧
    json_item (er_progress_json run) "status" = Ok status ∧
    resolve_status status evidence value = Ok result ∧
    resolved_progress (er_progress_json run) value result = Ok updated ∧
    state = mk_CheckpointState run_id (v + 1) None ∧
    store_progress state v updated db = (Ok tt, db').
Proof.
  intros Htext. unfold accept_resolution. intros Hx. run_inv.
  rename select (plan_resolution _ _ _ _ _ _ = _) into Hp. unfold plan_resolution in Hp. ok_inv.
  match goal with H : validate_idle_checkpoint _ _ = Ok ?u |- _ => destruct u; apply validate_idle_Ok in H as Hv end.
  destruct (run_in db run_id org) as [run|] eqn:Hrun; [|done]. apply run_in_Some in Hrun as [Hrun Ho].
  apply bind_Ok_unit in Hp as [_ Hp]. apply bind_Ok_unit in Hp as [Hactive Hp].
  apply raise_ifM_Ok in Hactive.
  apply bind_Ok in Hp as (creation & Hcreation & (evidence & Hev & (status & Hs & (result & Hr & Hp)%bind_Ok)
    %bind_Ok)%bind_Ok).
  apply bind_Ok_unit in Hp as [_ Hp]. apply bind_Ok_unit in Hp as [_ Hp].
  apply bind_Ok in Hp as (updated & Hu & (st & Hst & (text & Ht & [= <-])%bind_Ok)%bind_Ok).
  apply construct_Ok in Hst as [_ ->]. cbn [rl_state rl_progress_json] in *.
  rewrite (written_progress updated text) in * by (done || by eapply resolved_textual; eauto).
  exists run, creation, evidence, status, result, updated. split_and!; try done.
  ok_inv. unfold store_progress. apply tx_bind_Ok. by destruct x7; eauto.
Qed.
End facts.
