(* ===== verification/ContractDecisions.v ===== *)
(** * ContractDecisions: an operator allows one retry of a judge that broke its contract

    Models [src/src/qs_ai/infrastructure/persistence/mysql/evaluation_contract_recovery.py]: a run
    that was blocked by the answer of a judge resumes at exactly the execution after the failed
    one, when the evidence, projected with the authorization, plans exactly that execution. *)
From S2P Require Import Prelude PyText PyTime PyHash PyJson JsonRoundTrip PyIso Transactions Tables.
From S2P Require Import Failure Checkpoint Completion Preflight Actions Resolution Publication.
From S2P Require Import Policies CheckpointRecords CompletionRecords SlotClaims Projection Acceptance.
From S2P Require Import CompletionProgress Documents CandidatePlan Completions RunProgress UnknownDecisions.

Local Open Scope string_scope.
Local Open Scope Z_scope.
Local Open Scope py_scope.

(** [v[-1]] of a list. *)
Definition last_item (v : json) : res json :=
  match v with
  | JList l => match last l with Some x => Ok x | None => Err IndexError end
  | _ => Err TypeError
  end.
(** [datetime.fromisoformat(v)] *)
Definition iso_value (v : json) : res datetime :=
  match v with JStr s => fromisoformat s | _ => Err TypeError end.

(** Whether the run is not the one that the execution blocked. *)
Definition differs_from_block (progress transitions : json) (value : ContractRecovery) : res bool :=
  status_differs "blocked" progress
  <orM> Ok (negb (truthy transitions))
  <orM> (t ← last_item transitions;
         field_differs (json_item t "cause_code") (Ok (JStr "semantic_recovery_not_allowed")))
  <orM> (t ← last_item transitions;
         field_differs (json_get t "evidence_refs") (Ok (texts [cr_execution_id value])))
  <orM> (t ← last_item transitions; at_ ← iso_item t "at"; dt_lt (cr_resolved_at value) at_).

(** [block.get("evidence_at", block["at"])] *)
Definition block_time (block : json) : res datetime :=
  at_ ← json_item block "at"; v ← json_get_default block "evidence_at" at_; iso_value v.

Definition recovered_progress (progress transitions : json) (values : list ContractRecovery)
    (value : ContractRecovery) : res json :=
  transitions ← iterate transitions;
  Ok (set_item "transitions"
        (JList (transitions
                ++ [JObj [("from", JStr "blocked"); ("to", JStr "collecting");
                          ("cause_code", JStr "semantic_contract_recovery_approved");
                          ("actor", JStr (cr_actor value)); ("at", time_json (cr_resolved_at value));
                          ("evidence_refs", texts [cr_execution_id value])]]))
        (set_item "semantic_contract_recoveries" (JList (recovery_dict <$> values))
           (set_item "status" (JStr "collecting") progress))).

Section operations.
Context {R : Type}.
Notation DB := (EvaluationTables (CompletionTables R)).

(** The execution that the authorization lets the run resume at. *)
Definition resumed_action (progress creation : json) (evidence : ResolutionEvidence)
    (values : list ContractRecovery) : res NextAction :=
  plan ← json_item creation "slots";
  resolutions ← resolutions_of progress;
  slots ← project_slots plan (re_generations evidence) (re_dispatches evidence)
            (re_semantics evidence) resolutions (JList (recovery_dict <$> values))
            (re_policy evidence);
  preflight ← json_item progress "preflight";
  preflight_status ← text_field preflight "status";
  preflight_case ← text_field preflight "case_id";
  next_action "collecting" preflight_status preflight_case slots (re_policy evidence) None 0.

Definition plan_contract_recovery (db : DB) (run_id : string)
    (expected_version organization_id : Z) (expected_release_fingerprint : string)
    (value : ContractRecovery) (confirm : bool) : res ResolutionPlan :=
  raise_if (negb confirm) (ValueError "Explicit policy exception confirmation required") ;;
  validate_idle_checkpoint (e_checkpoints db !! run_id) expected_version ;;
  let unavailable := CheckpointConflict "Run unavailable in organization" in
  match run_in db run_id organization_id with
  | None => Err unavailable
  | Some run =>
    let progress := er_progress_json run in
    raise_if (is_null progress) unavailable ;;
    creation ← loads (er_definition_json run);
    release ← creation_release creation;
    raise_ifM (field_differs (json_item creation "release_fingerprint")
                 (Ok (JStr expected_release_fingerprint))
               <orM> (fingerprint ← release_fingerprint release;
                      Ok (fingerprint != expected_release_fingerprint)))
      (CheckpointConflict "Frozen release differs from operator plan") ;;
    transitions ← json_get_default progress "transitions" (JList []);
    raise_ifM (differs_from_block progress transitions value)
      (ValueError "Only the current semantic contract block can be recovered") ;;
    evidence ← load_resolution_evidence db run_id creation progress;
    raise_if (negb (bool_decide (re_unknowns evidence = []))
              && negb (len (re_unknowns evidence) =? len (re_resolutions evidence)))
      (ValueError "Unresolved calls cannot be retried as contract failures") ;;
    prior ← recoveries_of progress;
    prior ← decode_recoveries prior;
    let values := (prior ++ [value])%list in
    semantics ← mapM decode_semantic_completion (re_semantics evidence);
    validate_recoveries values semantics (re_policy evidence) ;;
    match List.find (λ s, sc_execution_id s == cr_execution_id value) semantics with
    | None => Err (RuntimeError "StopIteration")
    | Some target =>
      block ← last_item transitions;
      evidence_at ← block_time block;
      raise_ifM (Ok (negb (dt_eqb (sc_finished_at target) evidence_at))
                 <orM> (at_ ← iso_item block "at"; dt_gt evidence_at at_))
        (ValueError "Block transition differs from failed execution") ;;
      raise_if (existsb (λ s, (sc_candidate_id s == sc_candidate_id target)
                              && (sc_execution_ordinal target <? sc_execution_ordinal s)) semantics
                || (semantic_per_run (re_policy evidence) <=? len semantics))
        (ValueError "Already retried execution or exhausted Run budget") ;;
      action ← resumed_action progress creation evidence values;
      raise_if ((na_kind action, na_candidate_id action, na_execution_ordinal action, na_cause action)
                != ("semantic", cr_candidate_id value, sc_execution_ordinal target + 1,
                    "semantic_contract_recovery_approved"))
        (ValueError "Recovery would not resume the exact failed semantic execution") ;;
      updated ← recovered_progress progress transitions values value;
      state ← construct (mk_CheckpointState run_id (expected_version + 1) None);
      text ← dumps_with spaced_finite updated;
      Ok (mk_ResolutionPlan state text)
    end
  end.

Definition authorize_contract_recovery (run_id : string) (expected_version organization_id : Z)
    (expected_release_fingerprint : string) (value : ContractRecovery) (confirm : bool)
    : tx DB CheckpointState :=
  db ← get_db;
  plan ← lift (plan_contract_recovery db run_id expected_version organization_id
                 expected_release_fingerprint value confirm);
  save_checkpoint (rl_state plan) expected_version ;;
  progress ← lift (loads (rl_progress_json plan));
  write_progress run_id progress ;;
  mret (rl_state plan).
End operations.

Local Close Scope py_scope.

(** ** What an authorization writes *)

Lemma recovered_status progress transitions values value updated s :
  json_item progress "status" = Ok s → recovered_progress progress transitions values value = Ok updated →
  json_item updated "status" = Ok (JStr "collecting").
Proof.
  unfold recovered_progress. intros Hs H. ok_inv. destruct progress; try done.
  cbn [json_item set_item]. by rewrite !assoc_assoc_set.
Qed.

Lemma recovered_textual progress transitions values value updated :
  textual progress = true → textual transitions = true →
  recovered_progress progress transitions values value = Ok updated → textual updated = true.
Proof.
  unfold recovered_progress. intros Hp Ht H. ok_inv.
  repeat (apply textual_set; [|try done]); try done; [by apply textual_list, textual_recovery|].
  apply textual_append; [by eapply textual_iterate|done].
Qed.

Section facts.
Context {R : Type}.
Notation DB := (EvaluationTables (CompletionTables R)).

(** An authorization moves a blocked run back to its collection. *)
Lemma authorize_Ok run_id v org fingerprint value confirm (db db' : DB) state :
  (∀ run, e_runs db !! run_id = Some run → textual (er_progress_json run) = true) →
  authorize_contract_recovery run_id v org fingerprint value confirm db = (Ok state, db') →
  ∃ run updated,
    e_runs db !! run_id = Some run ∧ er_organization_id run = org ∧
    json_item (er_progress_json run) "status" = Ok (JStr "blocked") ∧
    json_item updated "status" = Ok (JStr "collecting") ∧
    state = mk_CheckpointState run_id (v + 1) None ∧
    store_progress state v updated db = (Ok tt, db').
Proof.
  intros Htext. unfold authorize_contract_recovery. intros Hx. run_inv.
  rename select (plan_contract_recovery _ _ _ _ _ _ _ = _) into Hp. unfold plan_contract_recovery in Hp. ok_inv.
  destruct (run_in db run_id org) as [run|] eqn:Hrun; [|done]. apply run_in_Some in Hrun as [Hrun Ho].
  specialize (Htext _ Hrun). ok_inv. rename select (differs_from_block _ _ _ = _) into Hb.
  unfold differs_from_block in Hb. ok_inv.
  destruct (List.find _ _) as [target|]; [|done]. ok_inv.
  match goal with H : construct _ = Ok _ |- _ => apply construct_Ok in H as [_ ->] end.
  cbn [rl_state rl_progress_json] in *.
  match goal with H : json_get_default _ "transitions" _ = Ok _ |- _ =>
    apply (textual_default _ _ (JList []) _ Htext eq_refl) in H end.
  rename select (recovered_progress _ _ _ _ = Ok _) into Hu.
  match type of Hu with _ = Ok ?u => rename u into updated end.
  rename select (status_differs _ _ = _) into Hs. apply status_differs_false in Hs.
  pose proof (recovered_status _ _ _ _ _ _ Hs Hu). apply recovered_textual in Hu; [|done..].
  match goal with H : dumps_with _ updated = Ok _ |- _ => apply written_progress in H; [|done] end.
  simplify_eq. exists run, updated. split_and!; try done.
  unfold store_progress. apply tx_bind_Ok.
  match goal with H : loads ?t = Ok updated, H' : loads ?t = Ok _ |- _ =>
    rewrite H in H'; injection H' as <- end.
  destruct x7. eexists _, _. split; [eassumption|done].
Qed.
End facts.
