(* ===== verification/RunCreation.v ===== *)
(** * RunCreation: a run is created with everything it will be judged by

    Models [src/src/qs_ai/infrastructure/persistence/mysql/evaluation_runs.py],
    [evaluation_creation_receipt.py] (same directory) and [validate_generation_manifest] of
    [src/src/qs_ai/application/evaluation/release.py]: the documents of the release, its policies and
    its suite are frozen into one text, which the row of the run holds for good, and the receipt of
    the creation is read from that text.

    The suite and the contracts are those that the registry resolved; [native] is the manifest of a
    native suite, which [FrozenSuite] leaves out.  Of the judge's contract a creation reads the two
    bodies and their owner. *)
From S2P Require Import Prelude PyText PyInt PyTime PyHash PyNum PyJson JsonRoundTrip PyIso.
From S2P Require Import Transactions Tables Failure Checkpoint Completion Preflight Actions.
From S2P Require Import Resolution Review Correction Gates Publication Policies CheckpointRecords.
From S2P Require Import CompletionRecords SlotClaims Projection Acceptance CompletionProgress.
From S2P Require Import CandidatePlan Completions Judgements Suites RunProgress UnknownDecisions.
From S2P Require Import ContractDecisions.

Local Open Scope string_scope.
Local Open Scope Z_scope.
Local Open Scope py_scope.

(** [asdict(release)]: the fields in the order of the class. *)
Definition release_dict (r : EvidenceReleaseIdentity) : json :=
  JObj [("suite", ref_dict (er_suite r)); ("prompt", ref_dict (er_prompt r));
        ("profile", ref_dict (er_profile r)); ("input_schema", ref_dict (er_input_schema r));
        ("output_schema", ref_dict (er_output_schema r));
        ("generation_route", ref_dict (er_generation_route r));
        ("semantic_prompt", ref_dict (er_semantic_prompt r));
        ("semantic_output_schema", ref_dict (er_semantic_output_schema r));
        ("semantic_route", ref_dict (er_semantic_route r));
        ("execution_policy", ref_dict (er_execution_policy r));
        ("gate_policy", ref_dict (er_gate_policy r))].

(** ** The manifest of a release *)

Definition schema_reference (a : AssetReference) : res FrozenContractRef :=
  construct (mk_FrozenContractRef (as_identity a) (as_identity a ++ "/" ++ as_version a)
               (as_fingerprint a)).
Definition asset_reference (a : AssetReference) : res FrozenContractRef :=
  construct (mk_FrozenContractRef (as_identity a) (as_version a) (as_fingerprint a)).
Definition check_reference (name : string) (reference : FrozenContractRef)
    (expected : res FrozenContractRef) : res unit :=
  expected ← expected;
  raise_if (reference != expected)
    (ManifestUnavailable ("Evaluation " ++ name ++ " reference does not match frozen asset")).
Definition validate_generation_manifest (release : EvidenceReleaseIdentity)
    (manifest : GenerationManifest) : res unit :=
  check_reference "profile" (er_profile release) (asset_reference (m_profile manifest)) ;;
  check_reference "prompt" (er_prompt release) (asset_reference (m_prompt manifest)) ;;
  check_reference "generation_route" (er_generation_route release)
    (asset_reference (m_generation_route manifest)) ;;
  check_reference "input_schema" (er_input_schema release) (schema_reference (m_input_schema manifest)) ;;
  check_reference "output_schema" (er_output_schema release)
    (schema_reference (m_output_schema manifest)).

(** ** Freezing a run *)

Record RunCreationPlan : Type := mk_RunCreationPlan {
  rp_run_id : string;
  rp_organization_id : Z;
  rp_requested_by : string;
  rp_execution_mode : string;
  rp_definition_json : string;
  rp_policy : ExecutionPolicy;
}.

Record EvaluationContracts : Type := mk_EvaluationContracts {
  ec_execution : ExecutionPolicy;
  ec_gate : FrozenPolicyDocument;
  ec_semantic_prompt_markdown : string;
  ec_semantic_output_schema_json : string;
  ec_semantic_owner_organization_id : Z;
}.

Definition validate_creation (run_id : string) (organization_id : Z)
    (requested_by request_reason : string) (created_at : datetime) (execution_mode : string)
    : res unit :=
  raise_if (execution_mode not_in ["serial_v1"; "candidate_v2"])
    (ValueError "Invalid evaluation execution mode") ;;
  raise_if (run_id == "00000000-0000-0000-0000-000000000000") (ValueError "Run id required") ;;
  raise_if (organization_id <=? 0) (ValueError "Organization required") ;;
  raise_if (negb (valid_id requested_by)) (ValueError "Request actor required") ;;
  raise_if (invalid_reason request_reason) (ValueError "Invalid request reason") ;;
  raise_if (tz_none created_at || is_none (utcoffset created_at))
    (ValueError "Creation time must have a time zone").

(** The slots and the preflight of a suite, before anything ran. *)
Definition pending_slots (suite : FrozenSuite) : json :=
  JList ((λ s, JObj [("case_id", JStr s.1); ("ordinal", JInt s.2); ("status", JStr "pending")])
           <$> slots suite).
Definition pending_preflight (suite : FrozenSuite) : json :=
  JObj [("case_id", JStr (fs_preflight_case_id suite)); ("status", JStr "pending")].

Definition creation_fields (run_id : string) (release : EvidenceReleaseIdentity)
    (fingerprint : string) (organization_id : Z) (requested_by request_reason : string)
    (created_at : datetime) (suite : FrozenSuite) (contracts : EvaluationContracts)
    : list (string * json) :=
  [("schema_version", JStr "qs-ai-evaluation-run-creation/v1"); ("run_id", JStr run_id);
   ("release", release_dict release); ("release_fingerprint", JStr fingerprint);
   ("execution_policy_json", JStr (policy_definition_json (ec_execution contracts)));
   ("gate_policy_json", JStr (fp_definition_json (ec_gate contracts)));
   ("semantic_prompt_markdown", JStr (ec_semantic_prompt_markdown contracts));
   ("semantic_owner_organization_id", JInt (ec_semantic_owner_organization_id contracts));
   ("semantic_output_schema_json", JStr (ec_semantic_output_schema_json contracts));
   ("acceptance_rule", rule_document); ("suite_json", JStr (fs_definition_json suite));
   ("status", JStr "requested"); ("preflight", pending_preflight suite);
   ("slots", pending_slots suite);
   ("audit", JObj [("organization_id", JInt organization_id); ("requested_by", JStr requested_by);
                   ("request_reason", JStr request_reason); ("created_at", time_json created_at)]);
   ("transitions", JList [JObj [("to", JStr "requested"); ("cause_code", JStr "evaluation_requested");
                                ("actor", JStr requested_by); ("at", time_json created_at)]])].

Definition freeze_run_creation (run_id : string) (release : EvidenceReleaseIdentity)
    (organization_id : Z) (requested_by request_reason : string) (created_at : datetime)
    (suite : FrozenSuite) (native : option GenerationManifest) (contracts : EvaluationContracts)
    (generation_manifest : option GenerationManifest) (execution_mode : string)
    : res RunCreationPlan :=
  validate_creation run_id organization_id requested_by request_reason created_at execution_mode ;;
  raise_if (fs_reference suite != er_suite release)
    (ValueError "Exact original creation suite required") ;;
  raise_if (is_some native && (generation_manifest != native))
    (ValueError "Native suite requires its registered generation manifest") ;;
  let policy := ec_execution contracts in
  validate_frozen_policies release (policy_definition_json policy)
    (fp_definition_json (ec_gate contracts)) ;;
  raise_if (negb ((len (fs_generation_case_ids suite) =? generation_cases policy)
                  && (fs_repetitions suite =? candidates_per_case policy)
                  && (preflight_cases policy =? 1)))
    (ValueError "Suite and execution policy disagree") ;;
  fingerprint ← release_fingerprint release;
  let fields := creation_fields run_id release fingerprint organization_id requested_by
                  request_reason created_at suite contracts in
  fields ←
    match generation_manifest with
    | None => Ok fields
    | Some manifest =>
      validate_generation_manifest release manifest ;;
      text ← manifest_json manifest;
      sha ← manifest_fingerprint manifest;
      Ok (fields ++ [("generation_manifest_json", JStr text);
                     ("generation_manifest_fingerprint", JStr sha)])%list
    end;
  text ← dumps_with compact (JObj fields);
  Ok (mk_RunCreationPlan run_id organization_id requested_by execution_mode text policy).

(** ** The receipt of a creation *)

Definition creation_receipt (run_id : string) (row : EvaluationRunRow) : res string :=
  definition ← loads (er_definition_json row);
  raise_ifM (field_differs (json_item definition "schema_version")
               (Ok (JStr "qs-ai-evaluation-run-creation/v1"))
             <orM> field_differs (json_item definition "run_id") (Ok (JStr run_id)))
    (ValueError "Creation identity does not match stored Run") ;;
  audit ← json_item definition "audit";
  requested_by ← json_item audit "requested_by";
  reason ← json_item audit "request_reason";
  created ← json_item audit "created_at";
  organization ← json_item audit "organization_id";
  raise_ifM (Ok (match organization with JInt z => negb (z =? er_organization_id row) | _ => true end)
             <orM> Ok (negb (json_eqb requested_by (JStr (er_requested_by row))))
             <orM> Ok (negb (valid_id (er_requested_by row)))
             <orM> Ok (match reason with JStr s => invalid_reason s | _ => true end)
             <orM> (at_ ← iso_value created; Ok (is_none (utcoffset at_))))
    (ValueError "Creation audit does not match stored Run") ;;
  release ← creation_release definition;
  fingerprint ← release_fingerprint release;
  raise_ifM (field_differs (Ok (JStr fingerprint)) (json_item definition "release_fingerprint"))
    (ValueError "Creation release fingerprint does not match") ;;
  dumps_with compact
    (JObj [("schema_version", JStr "qs-ai-evaluation-creation-receipt/v1");
           ("run_id", JStr run_id); ("release", release_dict release);
           ("release_fingerprint", JStr fingerprint); ("requested_by", requested_by);
           ("request_reason", reason); ("created_at", created)]).

(** ** Applying a creation *)

Section operations.
Context {R : Type}.
Notation DB := (EvaluationTables R).

Definition created_row (plan : RunCreationPlan) (transitions : json) : EvaluationRunRow :=
  mk_EvaluationRunRow (rp_execution_mode plan) (rp_organization_id plan) (rp_requested_by plan)
    (rp_definition_json plan)
    (JObj [("status", JStr "requested"); ("transitions", transitions)]) None.

Definition apply_run_creation (plan : RunCreationPlan) : tx DB CheckpointState :=
  let run_id := rp_run_id plan in
  definition ← lift (loads (rp_definition_json plan));
  transitions ← lift (json_item definition "transitions");
  insert_row e_runs set_runs run_id (created_row plan transitions) (λ _, true) ;;
  freeze_policy run_id (rp_policy plan) ;;
  insert_row e_checkpoints set_checkpoints run_id (1, JNull) (λ _, true) ;;
  lift (construct (mk_CheckpointState run_id 1 None)).
End operations.

Local Close Scope py_scope.
