(* ===== verification/ReviewRecords.v ===== *)
(** * ReviewRecords: the stored form of reviews, corrections, decisions and rounds

    Models [src/src/qs_ai/infrastructure/persistence/mysql/evaluation_review_codec.py],
    [src/src/qs_ai/infrastructure/persistence/mysql/evaluation_review_history.py],
    [src/src/qs_ai/application/evaluation/finalization.py] and
    [src/src/qs_ai/application/evaluation/gates.py]: the documents a run keeps of its review, the
    final decision as it is recorded, and the check that every archived round of a reopened run is
    the round its evidence gives. *)
From S2P Require Import Prelude PyText PyTime PyHash PyNum PyJson JsonRoundTrip PyIso Completion.
From S2P Require Import Preflight Review Correction Gates Reopening Publication Policies.
From S2P Require Import CheckpointRecords CompletionRecords Projection Acceptance RunProgress.
From S2P Require Import ContractDecisions.

Local Open Scope string_scope.
Local Open Scope Z_scope.
Local Open Scope py_scope.

(** ** Reviews and corrections *)

Definition contradiction_fields : list string :=
  ["policy_version"; "execution_id"; "output_fingerprint"; "assertion_ordinal"; "original_detail";
   "candidate_excerpt"; "reason"].
Definition decode_contradiction (v : json) : res SemanticContradictionReview :=
  named contradiction_fields v ;;
  policy ← text_field v "policy_version";
  execution_id ← text_field v "execution_id";
  fingerprint ← text_field v "output_fingerprint";
  ordinal ← int_field v "assertion_ordinal";
  detail ← text_field v "original_detail";
  excerpt ← text_field v "candidate_excerpt";
  reason ← text_field v "reason";
  construct (mk_SemanticContradictionReview policy execution_id fingerprint ordinal detail excerpt
               reason).

Definition review_fields : list string :=
  ["candidate_id"; "role"; "reviewer"; "decision"; "reviewed_at"; "reason"; "semantic_review"].
Definition decode_review (value : json) : res CandidateHumanReview :=
  reviewed_at ← iso_item value "reviewed_at";
  contradiction ← json_get value "semantic_review";
  contradiction ← unless_null decode_contradiction contradiction;
  named review_fields value ;;
  candidate_id ← text_field value "candidate_id";
  role ← text_field value "role";
  reviewer ← text_field value "reviewer";
  decision ← text_field value "decision";
  reason ← text_field value "reason";
  construct (mk_CandidateHumanReview candidate_id role reviewer decision reviewed_at reason
               contradiction).
Definition decode_reviews (values : json) : res (list CandidateHumanReview) :=
  values ← iterate values; mapM decode_review values.

(** [asdict(entry)] with its reviews encoded. *)
Definition encode_correction (entry : ReviewCorrection) : json :=
  JObj [("command_id", JStr (rv_command_id entry)); ("source_version", JInt (rv_source_version entry));
        ("version", JInt (rv_version entry));
        ("previous_review_fingerprint", JStr (rv_previous_review_fingerprint entry));
        ("candidate_output_fingerprint", JStr (rv_candidate_output_fingerprint entry));
        ("previous_review", review_definition (rv_previous_review entry));
        ("review", review_definition (rv_review entry))].

Definition correction_fields : list string :=
  ["command_id"; "source_version"; "version"; "previous_review_fingerprint";
   "candidate_output_fingerprint"; "previous_review"; "review"].
Definition decode_correction (entry : json) : res ReviewCorrection :=
  previous ← json_item entry "previous_review";
  previous ← decode_review previous;
  review ← json_item entry "review";
  review ← decode_review review;
  named correction_fields entry ;;
  command_id ← text_field entry "command_id";
  source_version ← int_field entry "source_version";
  version ← int_field entry "version";
  previous_fingerprint ← text_field entry "previous_review_fingerprint";
  output_fingerprint ← text_field entry "candidate_output_fingerprint";
  construct (mk_ReviewCorrection command_id source_version version previous_fingerprint
               output_fingerprint previous review).
Definition decode_correction_list (raw : json) : res (list ReviewCorrection) :=
  match raw with
  | JList l => mapM decode_correction l
  | _ => Err (ValueError "Review correction audit must be an array")
  end.
Definition decode_corrections (progress : json) : res (list ReviewCorrection) :=
  raw ← json_get_default progress "review_corrections" (JList []); decode_correction_list raw.

(** [decode_reviews(progress.get("human_reviews", []))] *)
Definition human_reviews (progress : json) : res (list CandidateHumanReview) :=
  values ← json_get_default progress "human_reviews" (JList []); decode_reviews values.

Definition current_reviews (progress : json) (version : Z) : res (list CandidateHumanReview) :=
  originals ← human_reviews progress;
  corrections ← decode_corrections progress;
  effective_reviews originals corrections version.

(** ** The final decision *)

Record GatePreview : Type := mk_GatePreview {
  gv_run_id : string;
  gv_version : Z;
  gv_release_fingerprint : string;
  gv_quality : QualityGateResult;
}.
Definition gate_passes (self : GatePreview) : list (string * bool) :=
  ("G1", true) :: ("G2", true) :: qg_gate_passes (gv_quality self).

Definition num_json (n : num) : json := match n with NInt z => JInt z | NFloat f => JFloat f end.
Definition metric_dict (m : GateMetric) : json :=
  JObj [("name", JStr (gm_name m)); ("numerator", JInt (gm_numerator m));
        ("denominator", JInt (gm_denominator m)); ("value", JFloat (gm_value m));
        ("threshold", optional_json (num_json <$> gm_threshold m))].
Definition reason_dict (r : GateReason) : json :=
  JObj [("gate", JStr (gr_gate r)); ("code", JStr (gr_code r));
        ("evidence_refs", texts (gr_evidence_refs r))].
Definition adjudication_dict (a : SemanticAdjudication) : json :=
  JObj [("policy_version", JStr (sa_policy_version a)); ("candidate_id", JStr (sa_candidate_id a));
        ("execution_id", JStr (sa_execution_id a));
        ("output_fingerprint", JStr (sa_output_fingerprint a));
        ("assertion_type", JStr (sa_assertion_type a));
        ("assertion_ordinal", JInt (sa_assertion_ordinal a));
        ("original_status", JStr (sa_original_status a));
        ("effective_status", JStr (sa_effective_status a));
        ("reviewers", texts [(sa_reviewers a).1; (sa_reviewers a).2])].

(** [{**asdict(preview.quality), "evaluated_at": ..., "gate_passes": dict(preview.gate_passes)}] *)
Definition gate_result_dict (preview : GatePreview) : json :=
  let q := gv_quality preview in
  JObj [("evaluated_at", time_json (qg_evaluated_at q));
        ("gate_passes", dict_of_pairs ((λ kv, (kv.1, JBool kv.2)) <$> gate_passes preview));
        ("metrics", JList (metric_dict <$> qg_metrics q));
        ("reasons", JList (reason_dict <$> qg_reasons q));
        ("semantic_adjudications", JList (adjudication_dict <$> qg_semantic_adjudications q))].

Definition final_record_dict (preview : GatePreview) (decision : FinalReview) : json :=
  JObj [("schema_version", JStr "qs-ai-evaluation-finalization/v1");
        ("run_id", JStr (gv_run_id preview)); ("source_version", JInt (gv_version preview));
        ("version", JInt (gv_version preview + 1));
        ("release_fingerprint", JStr (gv_release_fingerprint preview));
        ("actor", JStr (fr_actor decision)); ("reason", JStr (fr_reason decision));
        ("finalized_at", time_json (fr_finalized_at decision));
        ("passed", JBool (fr_passed decision)); ("status", JStr (final_status decision));
        ("gate_result", gate_result_dict preview)].

Definition final_record (preview : GatePreview) (actor reason : string) : res json :=
  decision ← finalize_review (gv_quality preview) actor reason;
  encoded ← dumps_with compact_finite (final_record_dict preview decision);
  raise_if (256 * 1024 <? byte_len encoded)
    (ValueError "Finalization evidence exceeds response bound") ;;
  loads encoded.

Definition final_transition (record : json) : res json :=
  status ← json_item record "status";
  actor ← json_item record "actor";
  reason ← json_item record "reason";
  at_ ← json_item record "finalized_at";
  Ok (JObj [("from", JStr "awaiting_review"); ("to", status); ("actor", actor);
            ("cause_code", JStr "human_review_finalized"); ("reason", reason); ("at", at_)]).

(** ** Rounds of review *)

(** [canonical] *)
Definition canonical_style : dump_style := mk_dump_style "," ":" true false.
Definition canonical : json → res string := dumps_with canonical_style.

Definition has_review_rounds (progress : json) : res bool :=
  has_key "review_reopenings" progress
  <orM> (transitions ← json_get_default progress "transitions" (JList []);
         transitions ← iterate transitions;
         anyM (λ t, cause ← json_get t "cause_code";
                    Ok (json_eqb cause (JStr "semantic_review_reopened"))) transitions).

Definition opening_transition (entry : json) : res json :=
  actor ← json_item entry "actor";
  reason ← json_item entry "reason";
  at_ ← json_item entry "reopened_at";
  Ok (JObj [("from", JStr "rejected"); ("to", JStr "awaiting_review");
            ("cause_code", JStr "semantic_review_reopened"); ("actor", actor); ("reason", reason);
            ("at", at_)]).

Definition opening_record (plan : ReviewReopening) (final : json) (transition_count : Z) : res json :=
  version ← json_item final "version";
  number ← int_field final "version";
  Ok (JObj [("source_version", version); ("version", JInt (number + 1));
            ("transition_count", JInt transition_count); ("previous_finalization", final);
            ("previous_reviews", JList (review_definition <$> ro_previous_reviews plan));
            ("candidate_ids", texts (ro_candidate_ids plan)); ("actor", JStr (ro_actor plan));
            ("reason", JStr (ro_reason plan)); ("reopened_at", time_json (ro_reopened_at plan))]).

(** [a == b] on tuples of reviews. *)
Fixpoint reviews_eqb (l k : list CandidateHumanReview) : bool :=
  match l, k with
  | [], [] => true
  | a :: l, b :: k => review_eqb a b && reviews_eqb l k
  | _, _ => false
  end.

(** [canonical(a) != canonical(b)] *)
Definition canonical_differs (a b : json) : res bool :=
  s ← canonical a; t ← canonical b; Ok (s != t).
(** [transitions[i]] *)
Definition item_at (l : list json) (i : Z) : res json :=
  match l !! Z.to_nat i with Some x => Ok x | None => Err IndexError end.

Section rounds.
Context (run_id : string) (version : Z) (fingerprint : string) (progress : json) (closure_count : Z).
Context (candidates : list ReviewCandidate) (closed_at at_ : datetime).
Context (calculate : list CandidateHumanReview → datetime → res QualityGateResult).

(** The reviews of an archived round, after the corrections that were archived with them. *)
Definition archived_corrections (entry final : json) (source_version : Z)
    (reviews : list CandidateHumanReview) : res unit :=
  archived ← has_key "previous_review_corrections" entry
             <orM> has_key "previous_original_reviews" entry;
  if archived : bool then
    originals ← json_item entry "previous_original_reviews";
    originals ← decode_reviews originals;
    corrections ← json_item entry "previous_review_corrections";
    corrections ← decode_correction_list corrections;
    finalized_at ← iso_item final "finalized_at";
    projected ← validate_corrections originals corrections candidates closed_at source_version
                  finalized_at "v2";
    raise_if (negb (reviews_eqb projected reviews))
      (ValueError "Archived correction projection differs from final reviews")
  else Ok tt.

(** What the archive of a round must be. *)
Definition expected_opening (entry : json) (plan : ReviewReopening) (expected_final : json)
    (boundary : Z) : res json :=
  expected ← opening_record plan expected_final boundary;
  corrected ← has_key "previous_review_corrections" entry;
  if corrected : bool then
    originals ← json_item entry "previous_original_reviews";
    corrections ← json_item entry "previous_review_corrections";
    Ok (set_item "previous_review_corrections" corrections
          (set_item "previous_original_reviews" originals expected))
  else Ok expected.

(** The body of the loop over the archive; the state is [(history, previous_version)]. *)
Definition validate_round (transitions : list json) (state : list ReviewReopening * Z)
    (round : nat * json) : res (list ReviewReopening * Z) :=
  let '(history, previous_version) := state in
  let '(index, entry) := round in
  final ← json_item entry "previous_finalization";
  source_version ← json_item final "source_version";
  match source_version with
  | JInt source_version =>
    raise_if (source_version <? previous_version)
      (ValueError "Historical finalization version is invalid") ;;
    reviews ← json_item entry "previous_reviews";
    reviews ← decode_reviews reviews;
    archived_corrections entry final source_version reviews ;;
    finalized_at ← iso_item final "finalized_at";
    quality ← calculate reviews finalized_at;
    actor ← text_field final "actor";
    reason ← text_field final "reason";
    expected_final ← final_record (mk_GatePreview run_id source_version fingerprint quality)
                       actor reason;
    raise_ifM (canonical_differs final expected_final)
      (ValueError "Historical final gate differs from original evidence") ;;
    opener ← text_field entry "actor";
    opening_reason ← text_field entry "reason";
    reopened_at ← iso_item entry "reopened_at";
    status ← text_field final "status";
    plan ← reopen_review candidates reviews quality closed_at opener opening_reason reopened_at
             status "v2" (Z.of_nat index);
    let boundary := closure_count + Z.of_nat index * 2 + 1 in
    expected ← expected_opening entry plan expected_final boundary;
    next_version ← int_field expected "version";
    raise_ifM (canonical_differs entry expected
               <orM> field_differs (item_at transitions (boundary - 1)) (final_transition final)
               <orM> field_differs (item_at transitions boundary) (opening_transition expected)
               <orM> Ok (version <? next_version)
               <orM> dt_gt (ro_reopened_at plan) at_)
      (ValueError "Historical reopening audit differs from its Run boundary") ;;
    Ok ((history ++ [plan])%list, next_version)
  | _ => Err (ValueError "Historical finalization version is invalid")
  end.

Definition validate_rounds : res unit :=
  raw_history ← json_get_default progress "review_reopenings" (JList []);
  match raw_history with
  | JList entries =>
    raise_if (3 <? len entries) (ValueError "Bounded review history required") ;;
    text ← canonical raw_history;
    raise_if (2 * 1024 * 1024 <? byte_len text) (ValueError "Review history exceeds response bound") ;;
    transitions ← list_field progress "transitions";
    raise_if (negb (len transitions =? closure_count + 2 * len entries))
      (ValueError "Review transitions differ from archived rounds") ;;
    '(history, _) ← foldM (validate_round transitions) ([], 1) (imap pair entries);
    raise_ifM
      match last entries with
      | None => Ok false
      | Some entry =>
        corrections ← decode_corrections progress;
        anyM (λ c, reopened_at ← iso_item entry "reopened_at";
                   dt_lt (hr_reviewed_at (rv_review c)) reopened_at) corrections
      end (ValueError "Correction predates current review round") ;;
    current ← human_reviews progress;
    validate_reopening_history history current candidates closed_at "v2"
  | _ => Err (ValueError "Bounded review history required")
  end.
End rounds.

Local Close Scope py_scope.
