(* ===== verification/GateSnapshot.v ===== *)
(** * GateSnapshot: the release gates, evaluated again on what is stored

    Models [src/src/qs_ai/infrastructure/persistence/mysql/evaluation_gates.py] and
    [acceptance_version] of [src/src/qs_ai/domain/evaluation/acceptance.py]: nothing a run says
    about itself is believed.  The frozen documents are compared with the registered ones, the
    preflight is executed again, the slots are projected from the rows, the inventory is closed
    again, every review and correction is replayed, and only then the gates are evaluated. *)
From S2P Require Import Prelude PyText PyTime PyHash PyNum PyJson PyIso Transactions Tables Failure.
From S2P Require Import Checkpoint Completion Preflight Actions Resolution Review Correction Gates.
From S2P Require Import Reopening Closure Publication Policies CheckpointRecords CompletionRecords.
From S2P Require Import SlotClaims Projection Acceptance CompletionProgress CandidatePlan.
From S2P Require Import Completions Judgements Suites RunProgress UnknownDecisions.
From S2P Require Import ContractDecisions RunCreation ReviewRecords.

Local Open Scope string_scope.
Local Open Scope Z_scope.
Local Open Scope py_scope.

(** ** The acceptance rule of a run *)

Definition adoption_fields : list string :=
  ["rule"; "actor"; "reason"; "adopted_at"; "source_version"; "version"; "release_fingerprint"].
(** [set(adopted) != {...}] *)
Definition adoption_named (adopted : json) : bool :=
  match adopted with
  | JObj d => forallb (λ k, k is_in adoption_fields) d.*1
              && forallb (λ k, k is_in d.*1) adoption_fields
  | _ => false
  end.

(** The items with the cause that closed the evidence. *)
Definition is_closure (t : json) : res bool :=
  cause ← json_item t "cause_code"; Ok (json_eqb cause (JStr "candidate_evidence_complete")).
Fixpoint closures (transitions : list json) : res (list json) :=
  match transitions with
  | [] => Ok []
  | t :: transitions =>
    c ← is_closure t; rest ← closures transitions; Ok (if c : bool then t :: rest else rest)
  end.

(** The audit of an adopted rule. *)
Definition adoption_invalid (creation adopted : json) (version : Z) : res bool :=
  Ok (negb (adoption_named adopted))
  <orM> field_differs (json_item adopted "rule") (Ok rule_document)
  <orM> field_differs (json_item adopted "release_fingerprint")
          (json_item creation "release_fingerprint")
  <orM> (actor ← json_item adopted "actor";
         Ok match actor with JStr s => negb (valid_id s) | _ => true end)
  <orM> (reason ← json_item adopted "reason";
         Ok match reason with JStr s => invalid_reason s | _ => true end)
  <orM> (source ← json_item adopted "source_version";
         target ← json_item adopted "version";
         Ok match source, target with
            | JInt s, JInt t => negb ((1 <=? s) && (s <? t) && (t <=? version)) || negb (t =? s + 1)
            | _, _ => true
            end).

Definition acceptance_version (creation progress : json) (version : Z) (at_ : datetime)
    : res (option string) :=
  created ← json_get creation "acceptance_rule";
  adopted ← json_get progress "acceptance_rule_adoption";
  if negb (is_null created) then
    raise_if (negb (json_eqb created rule_document) || negb (is_null adopted))
      (ValueError "Frozen acceptance rule mismatch") ;;
    Ok (Some RULE_VERSION)
  else if is_null adopted then Ok None
  else
    raise_ifM (adoption_invalid creation adopted version)
      (ValueError "Invalid acceptance rule adoption audit") ;;
    adopted_at ← iso_item adopted "adopted_at";
    transitions ← list_field progress "transitions";
    closed ← closures transitions;
    let outside := ValueError "Acceptance adoption outside completed evidence interval" in
    match closed with
    | [closure] =>
      raise_ifM (Ok (is_none (utcoffset adopted_at))
                 <orM> (closed_at ← iso_item closure "at";
                        negM (dt_le closed_at adopted_at <andM> dt_le adopted_at at_))) outside ;;
      Ok (Some RULE_VERSION)
    | _ => Err outside
    end.

(** ** Management scope *)

Record ManagementScope : Type := mk_ManagementScope {
  ms_run_id : string;
  ms_organization_id : Z;
  ms_operator_user_id : Z;
}.
#[export] Instance ManagementScope_post_init : Validated ManagementScope := λ self,
  raise_if ((ms_run_id self == "00000000-0000-0000-0000-000000000000")
            || existsb (λ v, negb ((0 <? v) && (v <=? 2 ^ 63 - 1)))
                 [ms_organization_id self; ms_operator_user_id self])
    (ValueError "Valid management scope required").
Definition actor (self : ManagementScope) : string := "user:" ++ decimal (ms_operator_user_id self).

(** ** The snapshot *)

Record GateSnapshot : Type := mk_GateSnapshot {
  gn_preview : GatePreview;
  gn_candidates : list ReviewCandidate;
  gn_reviews : list CandidateHumanReview;
  gn_closed_at : datetime;
}.

(** What a transition of the history is. *)
Definition closure_transition (t : json) : res ClosureTransition :=
  source ← json_get_default t "from" (JStr "");
  source ← text_item source;
  target ← text_field t "to";
  actor ← text_field t "actor";
  cause ← text_field t "cause_code";
  at_ ← iso_item t "at";
  refs ← json_get_default t "evidence_refs" (JList []);
  refs ← iterate refs;
  refs ← mapM text_item refs;
  dated ← has_key "evidence_at" t;
  evidence_at ← (if dated : bool then e ← iso_item t "evidence_at"; Ok (Some e) else Ok None);
  Ok (mk_ClosureTransition source target actor cause at_ refs evidence_at).

(** The position after the only closure. *)
Fixpoint closure_positions (i : Z) (transitions : list json) : res (list Z) :=
  match transitions with
  | [] => Ok []
  | t :: transitions =>
    c ← is_closure t;
    rest ← closure_positions (i + 1) transitions;
    Ok (if c : bool then i :: rest else rest)
  end.
Definition closure_count (transitions : list json) : res Z :=
  positions ← closure_positions 0 transitions;
  match positions with
  | [i] => Ok (i + 1)
  | _ => Err (ValueError "Unique original collection closure required")
  end.

(** The reason of a start. *)
Definition started_without_reason (t : json) : res bool :=
  cause ← json_item t "cause_code";
  if json_eqb cause (JStr "evaluation_started") then
    reason ← json_get_default t "reason" (JStr "");
    match reason with JStr s => Ok (invalid_reason s) | _ => Err AttributeError end
  else Ok false.

(** [a == b] on the evidence of a preflight. *)
Definition preflight_eqb (a b : PreflightEvidence) : bool :=
  ((pe_case_id a, pe_status a, pe_provider_call_count a, pe_rejection_reason a, pe_assertions a)
   == (pe_case_id b, pe_status b, pe_provider_call_count b, pe_rejection_reason b, pe_assertions b))
  && dt_eqb (pe_evaluated_at a) (pe_evaluated_at b).

(** The progress of a run that has nothing left to reconcile. *)
Definition unreconciled (progress : json) : res bool :=
  count ← json_get_default progress "unresolved_result_unknown_count" (JInt 0);
  Ok (count_differs count 0)
  <orM> flag progress "canceled_at" <orM> flag progress "gate_result"
  <orM> flag progress "finalized_at".

(** A candidate of the inventory: a generation with its accepted judgement. *)
Definition quality_candidate (semantics : list SemanticRow) (row : GenerationRow)
    : res QualityCandidate :=
  let stored := gr_candidate_json row in
  generation ← decode_completion row;
  accepted_id ← text_field stored "accepted_semantic_execution_id";
  match List.find (λ r, sr_execution_id r == accepted_id) semantics with
  | None => Err (KeyError accepted_id)
  | Some accepted =>
    candidate_id ← text_field stored "id";
    judged ← decode_semantic_completion accepted;
    evaluator ← text_field (sr_result_json accepted) "evaluator_version";
    assertions ← list_field stored "assertions";
    assertions ← mapM decode_assertion assertions;
    semantic_assertions ← list_field stored "semantic_assertions";
    semantic_assertions ← mapM decode_assertion semantic_assertions;
    candidate ← construct (mk_ReviewCandidate candidate_id (gc_finished_at generation)
                             (gc_normalized_output generation) judged evaluator assertions
                             semantic_assertions);
    Ok (mk_QualityCandidate (gc_case_id generation) (gc_slot_ordinal generation)
          (gc_execution_id generation) candidate)
  end.
Definition by_slot (a b : QualityCandidate) : bool :=
  if qc_case_id a == qc_case_id b then qc_slot_ordinal a <=? qc_slot_ordinal b
  else String.leb (qc_case_id a) (qc_case_id b).
Definition quality_candidates (generations : list GenerationRow) (semantics : list SemanticRow)
    : res (list QualityCandidate) :=
  candidates ← mapM (quality_candidate semantics)
                 (List.filter (λ r, negb (is_null (gr_candidate_json r))) generations);
  Ok (sort_by by_slot candidates).

(** [order_by(table.c.execution_id)] *)
Definition by_execution {A} (execution_id : A → string) : list A → list A :=
  sort_by (λ a b, String.leb (execution_id a) (execution_id b)).

Section snapshot.
Context {R : Type}.
Notation DB := (EvaluationTables (CompletionTables R)).
Context `{RunAssets DB}.

(** The frozen documents of a run, each of them the registered one. *)
Record FrozenDocuments : Type := mk_FrozenDocuments {
  fd_release : EvidenceReleaseIdentity;
  fd_fingerprint : string;
  fd_policy : ExecutionPolicy;
  fd_gate : FrozenPolicyDocument;
  fd_suite : FrozenSuite;
}.

(** The identity and the audit of the creation. *)
Definition check_audit (scope : ManagementScope) (run : EvaluationRunRow) (creation : json) : res json :=
  raise_ifM (field_differs (json_item creation "schema_version")
               (Ok (JStr "qs-ai-evaluation-run-creation/v1"))
             <orM> field_differs (json_item creation "run_id") (Ok (JStr (ms_run_id scope))))
    (ValueError "Frozen Run identity differs from index") ;;
  audit ← json_item creation "audit";
  reason ← text_field audit "request_reason";
  raise_if (invalid_reason reason) (ValueError "Frozen request audit requires a valid reason") ;;
  organization ← json_item audit "organization_id";
  requested_by ← json_item audit "requested_by";
  raise_if (negb (json_eqb organization (JInt (ms_organization_id scope))
                  && json_eqb requested_by (JStr (er_requested_by run))))
    (ValueError "Frozen audit differs from Run scope") ;;
  Ok audit.

Definition check_documents (db : DB) (run : EvaluationRunRow) (creation : json) : res FrozenDocuments :=
  release ← creation_release creation;
  '(policy, gate) ← frozen_policies creation;
  suite ← run_suite db creation;
  execution_json ← text_field creation "execution_policy_json";
  gate_json ← text_field creation "gate_policy_json";
  validate_frozen_policies release execution_json gate_json ;;
  recorded ← json_item creation "release_fingerprint";
  suite_json ← json_item creation "suite_json";
  fingerprint ← release_fingerprint release;
  raise_if (negb (json_eqb recorded (JStr fingerprint))
            || (execution_json != policy_definition_json policy)
            || (gate_json != fp_definition_json gate)
            || negb (json_eqb suite_json (JStr (fs_definition_json suite))))
    (ValueError "Frozen release documents differ from registered identity") ;;
  raise_if (er_frozen_policy run != Some (policy_fingerprint policy, policy_definition_json policy))
    (ValueError "Dispatch policy differs from frozen release") ;;
  raise_ifM (field_differs (json_item creation "slots") (Ok (pending_slots suite)))
    (ValueError "Frozen slot plan differs from suite") ;;
  raise_ifM (field_differs (json_item creation "preflight") (Ok (pending_preflight suite)))
    (ValueError "Frozen preflight differs from suite") ;;
  Ok (mk_FrozenDocuments release fingerprint policy gate suite).

(** The stored preflight is the one that the rejection case gives at its time. *)
Definition check_preflight (progress : json) (documents : FrozenDocuments) : res PreflightEvidence :=
  raw ← json_item progress "preflight";
  preflight ← decode_preflight raw;
  expected ← run_preflight (er_suite (fd_release documents)) (pe_evaluated_at preflight)
               (fd_suite documents);
  raise_if (negb (preflight_eqb preflight expected))
    (ValueError "Preflight evidence differs from frozen rejection case") ;;
  Ok preflight.

(** The rows of a run in the order of their executions, within its budget. *)
Record StoredEvidence : Type := mk_StoredEvidence {
  se_generations : list GenerationRow;
  se_semantics : list SemanticRow;
  se_dispatches : list (string * DispatchRow);
}.
Definition stored_evidence (db : DB) (run_id : string) (policy : ExecutionPolicy)
    : res StoredEvidence :=
  let exceeded := ValueError "Persisted execution budget exceeded" in
  let generations := by_execution gr_execution_id (generations_of db run_id) in
  let semantics := by_execution sr_execution_id (semantics_of db run_id) in
  let dispatches := by_execution (λ d, dp_execution_id d.2) (dispatches_of db run_id) in
  raise_if (generation_per_run policy <? len generations) exceeded ;;
  raise_if (semantic_per_run policy <? len semantics) exceeded ;;
  raise_if (generation_per_run policy + semantic_per_run policy <? len dispatches) exceeded ;;
  Ok (mk_StoredEvidence generations semantics dispatches).

(** The history of the run up to its closure. *)
Definition check_history_audit (creation progress : json) : res (Z * list ClosureTransition) :=
  transitions ← list_field progress "transitions";
  count ← closure_count transitions;
  closed ← mapM closure_transition (take (Z.to_nat count) transitions);
  raise_ifM (anyM started_without_reason transitions)
    (ValueError "Start transition requires an audited reason") ;;
  raise_ifM (field_differs (json_item creation "transitions") (Ok (JList (take 1 transitions)))
             <orM> field_differs (json_item creation "status") (Ok (JStr "requested")))
    (ValueError "Initial Run history differs from frozen creation") ;;
  Ok (count, closed).

(** [not preflight.evaluated_at <= cp.claimed_at <= closed] *)
Definition outside_collection (preflight : PreflightEvidence) (closed : datetime)
    (dispatch : string * DispatchRow) : res bool :=
  cp ← decode (dp_checkpoint_json dispatch.2);
  match cp with
  | None => Ok true
  | Some cp => negM (dt_le (pe_evaluated_at preflight) (cp_claimed_at cp)
                     <andM> dt_le (cp_claimed_at cp) closed)
  end.

(** The evidence of a run with the time its collection was closed at. *)
Record ClosedInventory : Type := mk_ClosedInventory {
  ci_closure_count : Z;
  ci_generations : list GenerationCompletion;
  ci_semantics : list SemanticCompletion;
  ci_candidates : list QualityCandidate;
  ci_closed_at : datetime;
}.
Definition check_inventory (creation progress audit : json) (documents : FrozenDocuments)
    (preflight : PreflightEvidence) (rows : StoredEvidence) : res ClosedInventory :=
  plan ← json_item creation "slots";
  resolutions ← resolutions_of progress;
  recoveries ← recoveries_of progress;
  projected ← project_slots plan (se_generations rows) (se_dispatches rows) (se_semantics rows)
                resolutions recoveries (fd_policy documents);
  generated ← mapM decode_completion (se_generations rows);
  judged ← mapM decode_semantic_completion (se_semantics rows);
  '(count, transitions) ← check_history_audit creation progress;
  created ← iso_item audit "created_at";
  requested_by ← text_field audit "requested_by";
  resolved ← decode_resolutions resolutions;
  recovered ← decode_recoveries recoveries;
  closed ← validate_closed_inventory created requested_by transitions preflight projected generated
             judged resolved (fd_policy documents) recovered;
  raise_ifM (anyM (outside_collection preflight closed) (se_dispatches rows))
    (ValueError "Dispatch preparation is outside evidence collection") ;;
  candidates ← quality_candidates (se_generations rows) (se_semantics rows);
  Ok (mk_ClosedInventory count generated judged candidates closed).

Definition load_snapshot (db : DB) (scope : ManagementScope) (run : EvaluationRunRow)
    (version expected_version : Z) (at_ : datetime) : res GateSnapshot :=
  raise_if (negb (version =? expected_version))
    (CheckpointConflict "Gate preview version changed") ;;
  match e_checkpoints db !! ms_run_id scope with
  | None => Err NoResultFound
  | Some (_, checkpoint) =>
    raise_if (negb (is_null checkpoint))
      (CheckpointConflict "Gate preview requires no active execution") ;;
    creation ← loads (er_definition_json run);
    let progress := er_progress_json run in
    raise_ifM (Ok (negb (truthy progress)) <orM> status_differs "awaiting_review" progress)
      (CheckpointConflict "Gate preview requires a closed review inventory") ;;
    raise_ifM (unreconciled progress)
      (CheckpointConflict "Closed Run progress requires reconciliation") ;;
    audit ← check_audit scope run creation;
    documents ← check_documents db run creation;
    preflight ← check_preflight progress documents;
    rows ← stored_evidence db (ms_run_id scope) (fd_policy documents);
    inventory ← check_inventory creation progress audit documents preflight rows;
    let targets := qc_evidence <$> ci_candidates inventory in
    let closed := ci_closed_at inventory in
    originals ← human_reviews progress;
    corrections ← decode_corrections progress;
    reviews ← validate_corrections originals corrections targets closed version at_
                (f_version (fp_reference (fd_gate documents)));
    thresholds ← quality_thresholds (fd_gate documents);
    rule ← acceptance_version creation progress version at_;
    let calculate := λ values evaluated_at,
      evaluate_quality_gates (ci_candidates inventory) (ci_generations inventory)
        (ci_semantics inventory) values thresholds closed evaluated_at rule in
    validate_rounds (ms_run_id scope) version (fd_fingerprint documents) progress
      (ci_closure_count inventory) targets closed at_ calculate ;;
    quality ← calculate reviews at_;
    Ok (mk_GateSnapshot (mk_GatePreview (ms_run_id scope) version (fd_fingerprint documents) quality)
          targets reviews closed)
  end.

(** [evaluate_snapshot], and [preview_gates] on the row of the run and its coordinator. *)
Definition evaluate_snapshot (db : DB) (scope : ManagementScope) (run : EvaluationRunRow)
    (version expected_version : Z) (at_ : datetime) : res GatePreview :=
  gn_preview <$> load_snapshot db scope run version expected_version at_.
Definition header (db : DB) (scope : ManagementScope) : res (EvaluationRunRow * Z) :=
  match e_checkpoints db !! ms_run_id scope,
        run_in db (ms_run_id scope) (ms_organization_id scope) with
  | Some (version, _), Some run => Ok (run, version)
  | _, _ => Err NotFound
  end.
Definition preview_gates (db : DB) (scope : ManagementScope) (expected_version : Z) (at_ : datetime)
    : res GatePreview :=
  raise_if (expected_version <? 1) (ValueError "Explicit Run version required") ;;
  '(run, version) ← header db scope;
  evaluate_snapshot db scope run version expected_version at_.
End snapshot.

Local Close Scope py_scope.
