(* ===== verification/ReviewDecisions.v ===== *)
(** * ReviewDecisions: reviews, corrections, the final decision and its reopening

    Models [src/src/qs_ai/infrastructure/persistence/mysql/evaluation_finalization.py],
    [evaluation_reopening.py], [evaluation_reviews.py] and [evaluation_review_corrections.py] (same
    directory): what people decide about a run whose evidence is closed.  Each decision locks the
    coordinator and the run, evaluates the snapshot again, and writes one new progress under the
    compare-and-set of the coordinator.

    The cast of a text to JSON and back that MySQL makes is a parameter ([MysqlJson]); the tables hold
    the progress that was written, and what a column may change of it when it is read is added where
    it matters ([Documents.JsonServer], [FinalVerification]).  The isolation
    level that [lock_run] sets first has no counterpart: a transaction is one step.  The candidates a
    reopened round names are read as the list that its validated archive holds. *)
From S2P Require Import Prelude PyText PyTime PyHash PyNum PyJson JsonRoundTrip PyIso Transactions.
From S2P Require Import Tables Failure Checkpoint Completion Preflight Actions Resolution Review.
From S2P Require Import Correction Gates Reopening Closure Publication Policies CheckpointRecords.
From S2P Require Import CompletionRecords SlotClaims Projection Acceptance CompletionProgress.
From S2P Require Import CandidatePlan Completions Judgements Suites RunProgress UnknownDecisions.
From S2P Require Import ContractDecisions ReviewRecords GateSnapshot.

Local Open Scope string_scope.
Local Open Scope Z_scope.
Local Open Scope py_scope.

(** [SELECT CAST(:text AS JSON)]: the text MySQL prints for the document. *)
Class MysqlJson : Type := { cast_as_json : string → string }.

(** [json.dumps(v, sort_keys=True, allow_nan=False)], which also escapes every character that is not
    printable ASCII. *)
Definition sorted_spaced : dump_style := mk_dump_style ", " ": " true false.
Definition hex_text (n : N) : string :=
  "\u" ++ String (hex_digit_char (n / 4096)) (String (hex_digit_char (n / 256 mod 16))
            (String (hex_digit_char (n / 16 mod 16)) (String (hex_digit_char (n mod 16)) ""))).
Definition ascii_char (c : N) : string :=
  if N.leb c 126 then of_code_points [c]
  else if N.ltb c 65536 then hex_text c
  else hex_text (55296 + (c - 65536) / 1024) ++ hex_text (56320 + (c - 65536) mod 1024).
Definition dumps_ascii (v : json) : res string :=
  text ← dumps_with sorted_spaced v;
  Ok (String.concat "" (ascii_char <$> code_points text)).

Definition mysql_json_record_matches `{MysqlJson} (record expected : json) : res bool :=
  encoded ← dumps_ascii expected;
  normalized ← loads (cast_as_json encoded);
  a ← dumps_ascii record;
  b ← dumps_ascii normalized;
  Ok (a == b).

(** ** The progress after a decision *)

(** [[*progress["transitions"], t]] *)
Definition with_transition (progress : json) (t : json) : res json :=
  transitions ← json_item progress "transitions";
  transitions ← iterate transitions;
  Ok (JList (transitions ++ [t])).

Definition finalized_progress (progress : json) (preview : GatePreview) (actor reason : string)
    (expected_passed : bool) : res json :=
  record ← final_record preview actor reason;
  raise_ifM (field_differs (json_item record "passed") (Ok (JBool expected_passed)))
    (CheckpointConflict "Gate outcome changed; refresh preview") ;;
  status ← json_item record "status";
  finalized_at ← json_item record "finalized_at";
  t ← final_transition record;
  transitions ← with_transition progress t;
  Ok (set_item "transitions" transitions
        (set_item "gate_result" record
           (set_item "finalized_at" finalized_at (set_item "status" status progress)))).

(** [len(progress.get("review_reopenings", []))] *)
Definition archived_rounds (progress : json) : res (list json) :=
  rounds ← json_get_default progress "review_reopenings" (JList []); iterate rounds.

Definition not_rejected : exn := CheckpointConflict "Only a finalized rejection can be reopened".
Definition is_rejected (progress : json) : res bool :=
  Ok (truthy progress) <andM> negM (status_differs "rejected" progress).

(** The archive of the round with the corrections that go with it. *)
Definition archived_entry (progress : json) (plan : ReviewReopening) : res json :=
  final ← json_item progress "gate_result";
  transitions ← json_item progress "transitions";
  transitions ← iterate transitions;
  entry ← opening_record plan final (len transitions);
  corrected ← flag progress "review_corrections";
  if corrected : bool then
    originals ← json_item progress "human_reviews";
    corrections ← json_item progress "review_corrections";
    Ok (set_item "previous_review_corrections" corrections
          (set_item "previous_original_reviews" originals entry))
  else Ok entry.

Definition reopened_progress (scope : ManagementScope) (reason : string) (at_ : datetime)
    (progress : json) (snapshot : GateSnapshot) : res json :=
  raise_ifM (negM (is_rejected progress)) not_rejected ;;
  history ← archived_rounds progress;
  status ← text_field progress "status";
  plan ← reopen_review (gn_candidates snapshot) (gn_reviews snapshot)
           (gv_quality (gn_preview snapshot)) (gn_closed_at snapshot) (actor scope) reason at_
           status "v2" (len history);
  entry ← archived_entry progress plan;
  let history := JList (history ++ [entry]) in
  text ← canonical history;
  raise_if (2 * 1024 * 1024 <? byte_len text) (ValueError "Review history exceeds response bound") ;;
  t ← opening_transition entry;
  transitions ← with_transition progress t;
  Ok (set_item "transitions" transitions
        (set_item "review_corrections" (JList [])
           (set_item "review_reopenings" history
              (set_item "human_reviews" (JList (review_definition <$> retained_reviews plan))
                 (set_item "finalized_at" JNull
                    (set_item "gate_result" JNull
                       (set_item "status" (JStr "awaiting_review") progress))))))).

(** [max(v.reviewed_at for v in values)] *)
Definition latest_review (values : list CandidateHumanReview) : res datetime :=
  match hr_reviewed_at <$> values with
  | [] => Err (ValueError "max() iterable argument is empty")
  | t :: times => latest t times
  end.

Definition untrusted_batch (scope : ManagementScope) (expected_version : Z)
    (values : list CandidateHumanReview) : bool :=
  (expected_version <? 1) || negb ((1 <=? len values) && (len values <=? 35))
  || existsb (λ v, hr_reviewer v != actor scope) values
  || negb (len (remove_dups (hr_role <$> values)) =? 1).

(** A new signature of the last round that was made before the round. *)
Definition predates_reopening (latest : json) (v : CandidateHumanReview) : res bool :=
  (candidates ← list_field latest "candidate_ids";
   Ok (existsb (json_eqb (JStr (hr_candidate_id v))) candidates))
  <andM> (reopened_at ← iso_item latest "reopened_at"; dt_lt (hr_reviewed_at v) reopened_at).

(** [None] is the answer to an exact repetition of the command. *)
Section correction.
Context (scope : ManagementScope) (expected_version : Z).
Context (command_id previous_review_fingerprint candidate_output_fingerprint : string).
Context (value : CandidateHumanReview).

Definition different_intent (prior : ReviewCorrection) : bool :=
  negb (rv_source_version prior =? expected_version)
  || (rv_previous_review_fingerprint prior != previous_review_fingerprint)
  || (rv_candidate_output_fingerprint prior != candidate_output_fingerprint)
  || ((hr_candidate_id (rv_review prior), hr_role (rv_review prior), hr_reviewer (rv_review prior),
       hr_decision (rv_review prior), hr_reason (rv_review prior))
      != (hr_candidate_id value, hr_role value, actor scope, hr_decision value, hr_reason value)).

Fixpoint replayed_in (archives : list json) : res bool :=
  match archives with
  | [] => Ok false
  | archive :: archives =>
    priors ← decode_corrections archive;
    match List.find (λ prior, rv_command_id prior == command_id) priors with
    | Some prior =>
      raise_if (different_intent prior)
        (CheckpointConflict "Correction command ID reused with different intent") ;;
      Ok true
    | None => replayed_in archives
    end
  end.

Definition archived_round (r : json) : res json :=
  v ← json_get_default r "previous_review_corrections" (JList []);
  Ok (JObj [("review_corrections", v)]).
Definition correction_replayed (progress : json) : res bool :=
  rounds ← archived_rounds progress;
  archives ← mapM archived_round rounds;
  replayed_in (progress :: archives).
End correction.

Section operations.
Context {R : Type}.
Notation DB := (EvaluationTables (CompletionTables R)).
Context `{RunAssets DB, MysqlJson}.

(** ** The final decision *)

(** The row of the run with the version of its coordinator, as the snapshot reads them. *)
Definition lock_run_in_transaction (scope : ManagementScope) (expected_version : Z)
    : tx DB (EvaluationRunRow * Z) :=
  db ← get_db;
  match run_in db (ms_run_id scope) (ms_organization_id scope) with
  | None => lift (Err NotFound)
  | Some run =>
    match e_checkpoints db !! ms_run_id scope with
    | None => conflict "Finalization version changed"
    | Some (version, checkpoint) =>
      if negb (version =? expected_version) || negb (is_null checkpoint)
      then conflict "Finalization version changed"
      else mret (run, version)
    end
  end.

Definition save_progress (scope : ManagementScope) (expected_version : Z) (updated : json)
    : tx DB unit :=
  state ← lift (construct (mk_CheckpointState (ms_run_id scope) (expected_version + 1) None));
  store_progress state expected_version updated.

Definition finalize (scope : ManagementScope) (expected_version : Z) (expected_passed : bool)
    (reason : string) (at_ : datetime) (confirm : bool) : tx DB unit :=
  lift (raise_if (negb confirm || (expected_version <? 1))
          (ValueError "Explicit version, expected outcome and confirmation required")) ;;
  '(run, version) ← lock_run_in_transaction scope expected_version;
  db ← get_db;
  preview ← lift (evaluate_snapshot db scope run version expected_version at_);
  updated ← lift (finalized_progress (er_progress_json run) preview (actor scope) reason
                    expected_passed);
  save_progress scope expected_version updated.

(** Whether the record is not the decision that the run records. *)
Definition finalization_differs (version : Z) (progress record : json) (source_version : Z) : res bool :=
  Ok ((source_version <? 1) || negb (version =? source_version + 1))
  <orM> field_differs (json_get progress "finalized_at") (json_item record "finalized_at")
  <orM> field_differs (json_item progress "status") (json_item record "status")
  <orM> (transitions ← json_item progress "transitions"; Ok (negb (truthy transitions)))
  <orM> (transitions ← json_item progress "transitions";
         field_differs (last_item transitions) (final_transition record)).

(** The progress before the decision. *)
Definition awaiting_progress (progress : json) : res json :=
  transitions ← list_field progress "transitions";
  Ok (set_item "transitions" (JList (removelast transitions))
        (set_item "finalized_at" JNull
           (set_item "gate_result" JNull (set_item "status" (JStr "awaiting_review") progress)))).

Definition undecided (progress : json) : res bool :=
  status_differs "approved" progress <andM> status_differs "rejected" progress.

Definition verified_final_snapshot (db : DB) (scope : ManagementScope) (run : EvaluationRunRow)
    (version : Z) : res GateSnapshot :=
  let progress := er_progress_json run in
  record ← json_get progress "gate_result";
  raise_ifM (Ok (negb (is_dict record)) <orM> undecided progress)
    (ValueError "Final status and gate decision disagree") ;;
  source_version ← json_item record "source_version";
  let reconcile := ValueError "Finalized Run audit requires reconciliation" in
  match source_version with
  | JInt source_version =>
    raise_ifM (finalization_differs version progress record source_version) reconcile ;;
    awaiting ← awaiting_progress progress;
    finalized_at ← iso_item record "finalized_at";
    snapshot ← load_snapshot db scope (with_progress awaiting run) source_version source_version
                 finalized_at;
    operator ← text_field record "actor";
    reason ← text_field record "reason";
    expected ← final_record (gn_preview snapshot) operator reason;
    raise_ifM (negM (mysql_json_record_matches record expected))
      (ValueError "Final gate differs from original evidence") ;;
    Ok snapshot
  | _ => Err reconcile
  end.

Definition read_finalization (db : DB) (scope : ManagementScope) (run : EvaluationRunRow)
    (version : Z) (now : datetime) : res (string * bool) :=
  let progress := er_progress_json run in
  record ← json_get progress "gate_result";
  absent ← Ok (is_null record) <andM> undecided progress;
  if absent : bool then
    raise_ifM (flag progress "finalized_at")
      (ValueError "Finalization audit without a gate decision") ;;
    rounds ← has_review_rounds progress <orM> flag progress "review_corrections";
    (if rounds : bool then load_snapshot db scope run version version now ;; Ok tt else Ok tt) ;;
    Ok ("", false)
  else
    snapshot ← verified_final_snapshot db scope run version;
    status ← text_field progress "status";
    rounds ← archived_rounds progress;
    ids ← eligible_candidate_ids (gn_candidates snapshot) (gn_reviews snapshot)
            (gv_quality (gn_preview snapshot)) (gn_closed_at snapshot) status "v2" (len rounds);
    text ← dumps_with compact_finite record;
    Ok (text, negb (bool_decide (ids = []))).

(** ** Reopening *)

Definition reopen (scope : ManagementScope) (expected_version : Z) (reason : string)
    (at_ : datetime) (confirm : bool) : tx DB unit :=
  lift (raise_if (negb confirm || (expected_version <? 1))
          (ValueError "Explicit version and confirmation required")) ;;
  '(run, version) ← lock_run_in_transaction scope expected_version;
  let progress := er_progress_json run in
  lift (raise_ifM (negM (is_rejected progress)) not_rejected) ;;
  db ← get_db;
  snapshot ← lift (verified_final_snapshot db scope run version);
  updated ← lift (reopened_progress scope reason at_ progress snapshot);
  save_progress scope expected_version updated.

(** ** Reviews *)

(** The stored evidence plans the review and nothing else. *)
Definition awaits_review (db : DB) (run_id : string) (creation progress : json)
    (policy : ExecutionPolicy) : res unit :=
  plan ← json_item creation "slots";
  resolutions ← resolutions_of progress;
  recoveries ← recoveries_of progress;
  slots ← project_slots plan (generations_of db run_id) (dispatches_of db run_id)
            (semantics_of db run_id) resolutions recoveries policy;
  preflight ← json_item progress "preflight";
  preflight_status ← text_field preflight "status";
  preflight_case ← text_field preflight "case_id";
  unresolved ← int_default progress "unresolved_result_unknown_count" 0;
  action ← next_action "collecting" preflight_status preflight_case slots policy None unresolved;
  raise_if (na_kind action != "await_review")
    (CheckpointConflict "Review requires complete frozen candidate evidence").

Definition closing_time (progress : json) : res datetime :=
  transitions ← list_field progress "transitions";
  closed ← closures transitions;
  match closed with
  | [closure] => iso_item closure "at"
  | _ => Err (CheckpointConflict "Unique candidate evidence closure required")
  end.

Definition review_candidates (db : DB) (run_id : string) : res (list ReviewCandidate) :=
  mapM (λ row, qc_evidence <$> quality_candidate (semantics_of db run_id) row)
    (List.filter (λ r, negb (is_null (gr_candidate_json r))) (generations_of db run_id)).

Definition plan_reviews (db : DB) (scope : ManagementScope) (expected_version : Z)
    (values : list CandidateHumanReview) : res (CheckpointState * json) :=
  let run_id := ms_run_id scope in
  raise_if (untrusted_batch scope expected_version values)
    (ValueError "Trusted reviewer, single role and Run version required") ;;
  validate_idle_checkpoint (e_checkpoints db !! run_id) expected_version ;;
  let unavailable := CheckpointConflict "Run unavailable in organization" in
  match run_in db run_id (ms_organization_id scope) with
  | None => Err unavailable
  | Some run =>
    let progress := er_progress_json run in
    raise_if (is_null progress) unavailable ;;
    creation ← loads (er_definition_json run);
    '(policy, gate) ← frozen_policies creation;
    raise_ifM (field_differs (json_item creation "execution_policy_json")
                 (Ok (JStr (policy_definition_json policy)))
               <orM> field_differs (json_item creation "gate_policy_json")
                       (Ok (JStr (fp_definition_json gate))))
      (ValueError "Frozen review policies unavailable") ;;
    raise_ifM (status_differs "awaiting_review" progress)
      (CheckpointConflict "Run is not awaiting review") ;;
    rounds ← has_review_rounds progress;
    again ← Ok rounds <orM> flag progress "review_corrections";
    (if again : bool then
       at_ ← latest_review values;
       evaluate_snapshot db scope run expected_version expected_version at_ ;; Ok tt
     else Ok tt) ;;
    (if rounds : bool then
       archive ← json_item progress "review_reopenings";
       latest ← last_item archive;
       raise_ifM (anyM (predates_reopening latest) values)
         (ValueError "New signature predates reopening")
     else Ok tt) ;;
    awaits_review db run_id creation progress policy ;;
    closed_at ← closing_time progress;
    candidates ← review_candidates db run_id;
    prior ← human_reviews progress;
    result ← add_human_reviews "awaiting_review" closed_at candidates prior values
               (f_version (fp_reference gate));
    let updated := set_item "human_reviews" (JList (review_definition <$> result)) progress in
    state ← construct (mk_CheckpointState run_id (expected_version + 1) None);
    Ok (state, updated)
  end.

Definition accept_reviews (scope : ManagementScope) (expected_version : Z)
    (values : list CandidateHumanReview) : tx DB CheckpointState :=
  db ← get_db;
  '(state, updated) ← lift (plan_reviews db scope expected_version values);
  store_progress state expected_version updated ;;
  mret state.

(** ** Corrections *)

Section correcting.
Context (scope : ManagementScope) (expected_version : Z).
Context (command_id previous_review_fingerprint candidate_output_fingerprint : string).
Context (value : CandidateHumanReview).

Definition untrusted_correction : res unit :=
  raise_if ((expected_version <? 1) || (hr_reviewer value != actor scope))
    (ValueError "Trusted original reviewer and explicit version required").

(** The decision that the command corrects. *)
Definition corrected_review (reviews : list CandidateHumanReview) : res CandidateHumanReview :=
  let other := ValueError "Only the original reviewer may correct their own decision" in
  match List.filter (λ r, (hr_candidate_id r, hr_role r)
                          == (hr_candidate_id value, hr_role value)) reviews with
  | [previous] => raise_if (hr_reviewer previous != actor scope) other ;; Ok previous
  | _ => Err other
  end.

Definition plan_review_correction (db : DB) (run : EvaluationRunRow) (version : Z)
    : res (option json) :=
  untrusted_correction ;;
  let progress := er_progress_json run in
  replayed ← correction_replayed scope expected_version command_id previous_review_fingerprint
               candidate_output_fingerprint value progress;
  if replayed : bool then Ok None
  else
    raise_ifM (Ok (negb (version =? expected_version)) <orM> status_differs "awaiting_review" progress)
      (CheckpointConflict "Review correction requires current awaiting-review version") ;;
    snapshot ← load_snapshot db scope run version version (hr_reviewed_at value);
    originals ← human_reviews progress;
    corrections ← decode_corrections progress;
    previous ← corrected_review (gn_reviews snapshot);
    entry ← construct (mk_ReviewCorrection command_id version (version + 1)
                         previous_review_fingerprint candidate_output_fingerprint previous value);
    validate_corrections originals (corrections ++ [entry])%list (gn_candidates snapshot)
      (gn_closed_at snapshot) (version + 1) (hr_reviewed_at value) "v2" ;;
    Ok (Some (set_item "review_corrections"
                (JList (encode_correction <$> (corrections ++ [entry])%list)) progress)).

Definition correct_review : tx DB unit :=
  lift untrusted_correction ;;
  db ← get_db;
  match e_checkpoints db !! ms_run_id scope with
  | None => lift (Err NotFound)
  | Some (version, _) =>
    '(run, version) ← lock_run_in_transaction scope version;
    updated ← lift (plan_review_correction db run version);
    match updated with
    | None => mret tt
    | Some updated => save_progress scope version updated
    end
  end.
End correcting.
End operations.

Local Close Scope py_scope.
