(* ===== verification/Cancellations.v ===== *)
(** * Cancellations: an operator cancels a run, at once or after its calls have drained

    Models [src/src/qs_ai/infrastructure/persistence/mysql/evaluation_cancellation.py].  A run with a call in flight, a claim or an
    unknown result only records the request; everything else becomes the terminal, audited
    cancellation, which a reader builds again from its source before it is believed.

    Reads with [lock] and without read the same rows.  Fields of a stored audit are read at their
    declared type: another value is refused with [TypeError] where Python raises its own error. *)
From S2P Require Import Prelude PyText PyInt PyTime PyHash PyNum PyJson JsonRoundTrip PyIso.
From S2P Require Import Transactions Tables Failure Checkpoint Completion Preflight Actions.
From S2P Require Import Resolution Review Correction Gates Reopening Closure Publication Policies.
From S2P Require Import CheckpointRecords CompletionRecords SlotClaims Projection Acceptance.
From S2P Require Import CompletionProgress CandidatePlan Completions Judgements Suites RunProgress.
From S2P Require Import UnknownDecisions ContractDecisions RunCreation ReviewRecords GateSnapshot.
From S2P Require Import ReviewDecisions.

Local Open Scope string_scope.
Local Open Scope Z_scope.
Local Open Scope py_scope.

(** ** The record of a cancellation *)

Definition transition (record : json) : res json :=
  source ← json_item record "source_status";
  discard ← json_item record "discard";
  operator ← json_item record "actor";
  reason ← json_item record "reason";
  at_ ← json_item record "canceled_at";
  execution ← json_item record "execution_id";
  Ok (JObj [("from", source); ("to", JStr "canceled");
            ("cause_code", JStr (if truthy discard then "operator_discarded" else "operator_canceled"));
            ("actor", operator); ("reason", reason); ("at", at_);
            ("evidence_refs", JList (if truthy execution then [execution] else []))]).

(** [decision.cause(status, count, cp)], a [ValueError] as a conflict. *)
Definition decided_cause (decision : CancellationDecision) (status count : json)
    (cp : option ExecutionCheckpoint) : res string :=
  match match status, count with
        | JStr s, JInt n => cancellation_cause decision s n cp
        | _, _ => Err (ValueError "Run cannot be canceled; resolve unknown calls first")
        end with
  | Err (ValueError m) => Err (CheckpointConflict m)
  | r => r
  end.

(** The times of everything the run has recorded. *)
Definition each (k : string) (values : res json) : res (list json) :=
  values ← values; values ← iterate values; mapM (λ v, json_item v k) values.
Definition recorded_times (created progress : json) (evidence : ResolutionEvidence)
    : res (list json) :=
  transitions ← each "at" (json_item progress "transitions");
  finished ← mapM (λ v, json_item v "finished_at")
               ((gr_evidence_json <$> re_generations evidence)
                ++ (sr_evidence_json <$> re_semantics evidence))%list;
  reviewed ← each "reviewed_at" (json_get_default progress "human_reviews" (JList []));
  corrected ← each "review" (json_get_default progress "review_corrections" (JList []));
  corrected ← mapM (λ v, json_item v "reviewed_at") corrected;
  Ok ((created :: transitions) ++ finished ++ reviewed ++ corrected)%list.
Definition precedes (at_ : datetime) (times : list json) : res bool :=
  anyM (λ v, t ← iso_value v; dt_lt at_ t) times.

Definition differs_from_plan (cp : ExecutionCheckpoint) (planned : NextAction) : bool :=
  (cp_kind cp, cp_case_id cp, cp_slot_ordinal cp, cp_candidate_id cp, cp_execution_ordinal cp)
  != (na_kind planned, na_case_id planned, na_slot_ordinal planned, na_candidate_id planned,
      na_execution_ordinal planned).

Section operations.
Context {R : Type}.
Notation DB := (EvaluationTables (CompletionTables R)).
Context `{RunAssets DB, MysqlJson}.

(** A prepared execution is the one the frozen plan names. *)
Definition check_prepared (creation progress : json) (evidence : ResolutionEvidence)
    (cp : option ExecutionCheckpoint) : res unit :=
  match cp with
  | None => Ok tt
  | Some cp =>
    plan ← json_item creation "slots";
    resolutions ← resolutions_of progress;
    recoveries ← recoveries_of progress;
    slots ← project_slots plan (re_generations evidence) (re_dispatches evidence)
              (re_semantics evidence) resolutions recoveries (re_policy evidence);
    frozen ← json_item creation "preflight";
    preflight ← json_get_default progress "preflight" frozen;
    status ← text_field progress "status";
    preflight_status ← text_field preflight "status";
    preflight_case ← text_field preflight "case_id";
    planned ← next_action status preflight_status preflight_case slots (re_policy evidence) None 0;
    raise_if (differs_from_plan cp planned)
      (CheckpointConflict "Prepared checkpoint differs from frozen execution plan")
  end.

Definition cancellation_record (scope : ManagementScope) (version : Z) (source_status : string)
    (release_fingerprint : json) (decision : CancellationDecision)
    (cp : option ExecutionCheckpoint) : json :=
  JObj [("schema_version", JStr "qs-ai-evaluation-cancellation/v1");
        ("run_id", JStr (ms_run_id scope)); ("source_version", JInt version);
        ("version", JInt (version + 1)); ("source_status", JStr source_status);
        ("status", JStr "canceled"); ("release_fingerprint", release_fingerprint);
        ("actor", JStr (cd_actor decision)); ("reason", JStr (cd_reason decision));
        ("discard", JBool (cd_discard decision)); ("canceled_at", time_json (cd_canceled_at decision));
        ("execution_id", JStr (from_option cp_execution_id "" cp));
        ("invocation_id", JStr (from_option cp_invocation_id "" cp))].

Definition record_for (db : DB) (scope : ManagementScope) (run : EvaluationRunRow) (version : Z)
    (checkpoint : json) (decision : CancellationDecision) (now : datetime) : res json :=
  creation ← loads (er_definition_json run);
  receipt ← creation_receipt (ms_run_id scope) run;
  receipt ← loads receipt;
  let progress := er_progress_json run in
  raise_ifM (Ok (negb (truthy progress)) <orM> flag progress "cancellation"
             <orM> flag progress "canceled_at")
    (CheckpointConflict "Cancellation requires current uncanceled progress") ;;
  cp ← decode checkpoint;
  status ← json_item progress "status";
  count ← json_get_default progress "unresolved_result_unknown_count" (JInt 0);
  decided_cause decision status count cp ;;
  evidence ← load_resolution_evidence db (ms_run_id scope) creation progress;
  created ← json_item receipt "created_at";
  times ← recorded_times created progress evidence;
  raise_ifM (precedes (cd_canceled_at decision) times)
    (ValueError "Cancellation cannot precede existing evidence") ;;
  raise_if (json_eqb status (JStr "requested") && negb (bool_decide (re_dispatches evidence = [])))
    (CheckpointConflict "Requested Run cannot own dispatched work") ;;
  check_prepared creation progress evidence cp ;;
  read_finalization db scope run version now ;;
  source_status ← text_field progress "status";
  fingerprint ← json_item receipt "release_fingerprint";
  Ok (cancellation_record scope version source_status fingerprint decision cp).

(** ** Planning a cancellation *)

(** Whether the run has work that only a drain can end. *)
Definition has_work (progress : json) (active : list SlotClaim) (cp : option ExecutionCheckpoint)
    : res bool :=
  Ok (truthy progress)
  <andM> (Ok (negb (bool_decide (active = [])))
          <orM> Ok (from_option (λ cp, cp_phase cp == "dispatching") false cp)
          <orM> flag progress "unresolved_result_unknown_count").

Definition cancel_intent (scope : ManagementScope) (expected_version : Z)
    (decision : CancellationDecision) (at_ : datetime) : json :=
  JObj [("schema_version", JStr "qs-ai-evaluation-cancel-request/v1");
        ("run_id", JStr (ms_run_id scope)); ("source_version", JInt expected_version);
        ("version", JInt (expected_version + 1)); ("status", JStr "cancel_requested");
        ("actor", JStr (cd_actor decision)); ("reason", JStr (cd_reason decision));
        ("requested_at", time_json at_)].

Definition plan_drain (scope : ManagementScope) (expected_version : Z) (progress : json)
    (active : list SlotClaim) (cp : option ExecutionCheckpoint) (decision : CancellationDecision)
    (at_ : datetime) (discard : bool) : res (CheckpointState * json) :=
  raise_ifM ((status_differs "collecting" progress <andM> status_differs "blocked" progress)
             <orM> Ok discard)
    (CheckpointConflict "Only running work can request cancellation drain") ;;
  raise_ifM (flag progress "cancel_requested")
    (CheckpointConflict "Cancellation already requested") ;;
  transitions ← each "at" (json_get_default progress "transitions" (JList []));
  let claimed := (((λ c, time_json (cp_claimed_at (sc_checkpoint c))) <$> active)
                  ++ from_option (λ cp, [time_json (cp_claimed_at cp)]) [] cp)%list in
  raise_ifM (precedes at_ (transitions ++ claimed)%list)
    (ValueError "Cancellation cannot precede existing work") ;;
  state ← construct (mk_CheckpointState (ms_run_id scope) (expected_version + 1) cp);
  Ok (state, set_item "cancel_requested" (cancel_intent scope expected_version decision at_) progress).

(** The terminal cancellation. *)
Definition plan_terminal (db : DB) (scope : ManagementScope) (run : EvaluationRunRow)
    (expected_version : Z) (checkpoint : json) (decision : CancellationDecision) (now : datetime)
    : res (CheckpointState * json) :=
  record ← record_for db scope run expected_version checkpoint decision now;
  let progress := er_progress_json run in
  state ← construct (mk_CheckpointState (ms_run_id scope) (expected_version + 1) None);
  canceled_at ← json_item record "canceled_at";
  t ← transition record;
  transitions ← with_transition progress t;
  Ok (state, set_item "transitions" transitions
               (set_item "canceled_checkpoint" checkpoint
                  (set_item "cancellation" record
                     (set_item "canceled_at" canceled_at
                        (set_item "status" (JStr "canceled") progress))))).

Definition claims_of_mode (db : DB) (run_id : string) (run : EvaluationRunRow)
    : res (list SlotClaim) :=
  if er_execution_mode run == "candidate_v2" then mapM claim_of (claims_of db run_id) else Ok [].

Definition plan_cancellation (db : DB) (scope : ManagementScope) (expected_version : Z)
    (reason : string) (at_ : datetime) (discard confirm : bool) (now : datetime)
    : res (CheckpointState * json) :=
  let run_id := ms_run_id scope in
  raise_if (negb confirm || negb ((0 <? expected_version) && (expected_version <? 2 ^ 63 - 1)))
    (ValueError "Explicit version and confirmation required") ;;
  decision ← construct (mk_CancellationDecision (actor scope) (strip reason) discard at_);
  match run_in db run_id (ms_organization_id scope) with
  | None => Err NotFound
  | Some run =>
    match e_checkpoints db !! run_id with
    | None => Err (CheckpointConflict "Cancellation version changed")
    | Some (version, checkpoint) =>
      raise_if (negb (version =? expected_version))
        (CheckpointConflict "Cancellation version changed") ;;
      let progress := er_progress_json run in
      active ← claims_of_mode db run_id run;
      cp ← decode checkpoint;
      work ← has_work progress active cp;
      if work : bool
      then plan_drain scope expected_version progress active cp decision at_ discard
      else plan_terminal db scope run expected_version checkpoint decision now
    end
  end.

Definition cancel (scope : ManagementScope) (expected_version : Z) (reason : string)
    (at_ : datetime) (discard confirm : bool) (now : datetime) : tx DB unit :=
  db ← get_db;
  '(state, updated) ← lift (plan_cancellation db scope expected_version reason at_ discard confirm now);
  store_progress state expected_version updated.

(** ** Reading a cancellation *)

Definition intent_fields : list string :=
  ["schema_version"; "run_id"; "source_version"; "version"; "status"; "actor"; "reason";
   "requested_at"].
(** [set(d) != keys] *)
Definition keys_differ (keys : list string) (d : json) : bool :=
  match d with
  | JObj l => negb (forallb (λ k, k is_in keys) l.*1 && forallb (λ k, k is_in l.*1) keys)
  | _ => true
  end.

Definition invalid_intent (run_id : string) (version : Z) (intent : json) : res bool :=
  Ok (keys_differ intent_fields intent)
  <orM> field_differs (json_item intent "schema_version")
          (Ok (JStr "qs-ai-evaluation-cancel-request/v1"))
  <orM> field_differs (json_item intent "run_id") (Ok (JStr run_id))
  <orM> field_differs (json_item intent "status") (Ok (JStr "cancel_requested"))
  <orM> (source ← json_item intent "source_version";
         target ← json_item intent "version";
         Ok match source with
            | JInt s => (s <? 1) || negb (json_eqb target (JInt (s + 1))) || (version <? s + 1)
            | _ => true
            end).

Definition check_intent (run_id : string) (version : Z) (intent : json) : res unit :=
  if is_null intent then Ok tt
  else
    raise_ifM (invalid_intent run_id version intent)
      (ValueError "Cancellation request audit requires reconciliation") ;;
    operator ← text_field intent "actor";
    reason ← text_field intent "reason";
    requested_at ← iso_item intent "requested_at";
    construct (mk_CancellationDecision operator reason false requested_at) ;;
    Ok tt.

Definition invalid_cancellation (version : Z) (checkpoint progress record : json) : res bool :=
  Ok (negb (is_dict record))
  <orM> status_differs "canceled" progress
  <orM> Ok (negb (is_null checkpoint))
  <orM> (source ← json_get record "source_version";
         Ok match source with JInt s => negb (s =? version - 1) || (s <? 1) | _ => true end)
  <orM> field_differs (json_get record "version") (Ok (JInt version))
  <orM> field_differs (json_get progress "canceled_at") (json_get record "canceled_at")
  <orM> (transitions ← json_item progress "transitions"; Ok (negb (truthy transitions)))
  <orM> (transitions ← json_item progress "transitions";
         field_differs (last_item transitions) (transition record)).

(** [d.pop(k, None)] for every key. *)
Definition without (keys : list string) (d : json) : json :=
  match d with JObj l => JObj (List.filter (λ kv, kv.1 not_in keys) l) | _ => d end.

(** The progress that was canceled. *)
Definition uncanceled_progress (progress record : json) : res json :=
  source ← json_item record "source_status";
  transitions ← list_field progress "transitions";
  Ok (without ["cancellation"; "canceled_checkpoint"; "canceled_at"]
        (set_item "transitions" (JList (removelast transitions)) (set_item "status" source progress))).

(** [run] is the row with the version and the checkpoint that were read with it. *)
Definition read_cancellation (db : DB) (scope : ManagementScope) (run : EvaluationRunRow)
    (version : Z) (checkpoint : json) (now : datetime) : res (string * (EvaluationRunRow * Z)) :=
  let progress := er_progress_json run in
  intent ← json_get progress "cancel_requested";
  check_intent (ms_run_id scope) version intent ;;
  record ← json_get progress "cancellation";
  if is_null record then
    raise_ifM (prepared ← json_get progress "canceled_checkpoint"; Ok (negb (is_null prepared)))
      (ValueError "Canceled preparation requires its original audit") ;;
    text ← (if truthy intent then canonical intent else Ok "");
    Ok (text, (run, version))
  else
    raise_ifM (invalid_cancellation version checkpoint progress record)
      (ValueError "Cancellation audit requires reconciliation") ;;
    original_progress ← uncanceled_progress progress record;
    let original := with_progress original_progress run in
    operator ← text_field record "actor";
    reason ← text_field record "reason";
    discard ← bool_field record "discard";
    canceled_at ← iso_item record "canceled_at";
    decision ← construct (mk_CancellationDecision operator reason discard canceled_at);
    prepared ← json_get progress "canceled_checkpoint";
    expected ← record_for db scope original (version - 1) prepared decision now;
    raise_ifM (canonical_differs record expected)
      (ValueError "Cancellation differs from its source evidence") ;;
    text ← canonical record;
    Ok (text, (original, version - 1)).

(** ** Draining *)

Record CancellationDrainSource : Type := mk_CancellationDrainSource {
  ds_scope : ManagementScope;
  ds_version : Z;
  ds_reason : string;
  ds_at : datetime;
}.

(** [int(s.removeprefix("user:"))] *)
Definition operator_of (s : string) : res Z :=
  let digits := if String.prefix "user:" s then String.substring 5 (String.length s - 5) s else s in
  match py_int digits with
  | Some z => Ok z
  | None => Err (ValueError "invalid literal for int() with base 10")
  end.

Definition read_cancel_drain_source (db : DB) (scope : ManagementScope) (at_ : datetime)
    : res (option CancellationDrainSource) :=
  let run_id := ms_run_id scope in
  match e_checkpoints db !! run_id, run_in db run_id (ms_organization_id scope) with
  | Some (version, checkpoint), Some run =>
    let progress := er_progress_json run in
    intent ← (if truthy progress then json_get progress "cancel_requested" else Ok JNull);
    idle ← Ok (negb (truthy intent)) <orM> negM (status_differs "canceled" progress);
    if idle : bool then Ok None
    else
      undrained ← Ok (negb (is_null checkpoint))
                  <orM> (active ← mapM claim_of (claims_of db run_id);
                         Ok (negb (bool_decide (active = []))))
                  <orM> flag progress "unresolved_result_unknown_count";
      if undrained : bool then Ok None
      else
        requested ← iso_item intent "requested_at";
        operator ← text_field intent "actor";
        operator ← operator_of operator;
        actor_scope ← construct (mk_ManagementScope run_id (ms_organization_id scope) operator);
        reason ← text_field intent "reason";
        at_ ← latest at_ [requested];
        Ok (Some (mk_CancellationDrainSource actor_scope version reason at_))
  | _, _ => Err NoResultFound
  end.

Definition finish_cancellation (scope : ManagementScope) (at_ now : datetime) : tx DB bool :=
  db ← get_db;
  source ← lift (read_cancel_drain_source db scope at_);
  match source with
  | None => mret false
  | Some source =>
    cancel (ds_scope source) (ds_version source) (ds_reason source) (ds_at source) false true now ;;
    mret true
  end.
End operations.

Local Close Scope py_scope.
