(* ===== verification/RunLifecycle.v ===== *)
(** * RunLifecycle: everything that happens to a run, as one state machine

    The operations of the other files, as the steps of one relation: the statements on coordinators,
    claims and dispatches, the completions and recoveries, and the decisions of people and of the
    system on a run ([src/src/qs_ai/infrastructure/persistence/mysql/evaluation_runs.py],
    [evaluation_progress.py], [evaluation_resolution.py], [evaluation_contract_recovery.py],
    [evaluation_reviews.py], [evaluation_review_corrections.py], [evaluation_finalization.py],
    [evaluation_reopening.py], [evaluation_cancellation.py]).  The theorems are about every sequence
    of them: which statuses a run goes through, and when its evidence is final. *)
From stdpp Require Import sorting.
From S2P Require Import Prelude PyText PyTime PyHash PyNum PyJson JsonRoundTrip PyIso Transactions.
From S2P Require Import Tables Failure Checkpoint Completion Preflight Actions Resolution Review.
From S2P Require Import Correction Gates Reopening Closure Publication Policies CheckpointRecords.
From S2P Require Import CompletionRecords SlotClaims Projection Acceptance CompletionProgress.
From S2P Require Import Documents DispatchLedger CandidatePlan Completions Judgements Recovery EvidenceLedger.
From S2P Require Import EvidenceBudget Suites RunProgress UnknownDecisions ContractDecisions.
From S2P Require Import RunCreation ReviewRecords GateSnapshot ReviewDecisions Cancellations.

Local Open Scope string_scope.
Local Open Scope Z_scope.

(** ** Statuses *)

(** The status of a run; a row without progress has not left its creation. *)
Definition progress_status (progress : json) : string :=
  match json_item progress "status" with Ok (JStr s) => s | _ => "requested" end.

(** The pairs of statuses a run may be in before and after one operation that writes its progress. *)
Definition run_edges : list (string * string) :=
  [("requested", "collecting"); ("requested", "canceled");
   ("collecting", "collecting"); ("collecting", "blocked"); ("collecting", "awaiting_review");
   ("collecting", "canceled");
   ("blocked", "blocked"); ("blocked", "collecting"); ("blocked", "awaiting_review");
   ("blocked", "canceled");
   ("awaiting_review", "awaiting_review"); ("awaiting_review", "approved");
   ("awaiting_review", "rejected"); ("awaiting_review", "canceled");
   ("rejected", "awaiting_review")].

(** Whether a run still collects evidence. *)
Definition collects (status : string) : bool := bool_decide (status ∈ ["collecting"; "blocked"]).

Lemma item_status progress s :
  json_item progress "status" = Ok (JStr s) → progress_status progress = s.
Proof. unfold progress_status. by intros ->. Qed.
(** The planned state and progress that a transaction goes on with. *)
Ltac split_pairs := repeat (match goal with x : (_ * _)%type |- _ => destruct x end; run_inv).

Section operations.
Context {R : Type}.
Notation DB := (EvaluationTables (CompletionTables R)).

(** The rows after a decision at version [v]. *)
Definition decided (run_id : string) (v : Z) (value progress : json) (db : DB) : DB :=
  set_runs (alter (with_progress progress) run_id (e_runs db))
    (set_checkpoints (<[run_id := (v + 1, value)]> (e_checkpoints db)) db).

(** One run gets a new progress under the compare-and-set of its coordinator, and its status takes an
    edge. *)
Inductive decision (run_id : string) (db : DB) : DB → Prop :=
| decision_made v old value run progress :
  0 <= v → v + 1 < 2 ^ 63 →
  e_checkpoints db !! run_id = Some (v, old) → e_runs db !! run_id = Some run →
  (∃ cp, value = encode cp) →
  (progress_status (er_progress_json run), progress_status progress) ∈ run_edges →
  decision run_id db (decided run_id v value progress db).

Lemma store_progress_Ok state v progress (db db' : DB) u :
  store_progress state v progress db = (Ok u, db') →
  0 <= v ∧ v + 1 < 2 ^ 63 ∧ (∃ old, e_checkpoints db !! cs_run_id state = Some (v, old)) ∧
  db' = decided (cs_run_id state) v (encode (cs_checkpoint state)) progress db.
Proof.
  unfold store_progress, write_progress. intros H. run_inv.
  match goal with H : save_checkpoint _ _ _ = (Ok ?u, _) |- _ =>
    destruct u; apply save_checkpoint_Ok in H as (? & _ & ? & ? & ->) end.
  by split_and!.
Qed.

(** What a planned decision comes to, once it is stored. *)
Lemma planned_decision run_id state v progress (db db' : DB) u run :
  store_progress state v progress db = (Ok u, db') → cs_run_id state = run_id →
  e_runs db !! run_id = Some run →
  (progress_status (er_progress_json run), progress_status progress) ∈ run_edges →
  decision run_id db db'.
Proof.
  intros (? & ? & (old & Hold) & ->)%store_progress_Ok <- Hrun He.
  eapply decision_made; try done. by eexists.
Qed.

Lemma edge_statuses progress progress' s s' :
  progress_status progress = s → json_item progress' "status" = Ok (JStr s') →
  bool_decide ((s, s') ∈ run_edges) = true →
  (progress_status progress, progress_status progress') ∈ run_edges.
Proof using Type. by intros -> ->%item_status ?%bool_decide_eq_true. Qed.

(** *** The first transitions *)

Lemma transition_decision run_id v org target actor reason at_ (db db' : DB) state :
  transition_requested run_id v org target actor reason at_ db = (Ok state, db') →
  decision run_id db db'.
Proof.
  unfold transition_requested. intros H. run_inv. split_pairs.
  rename select (plan_requested_transition _ _ _ _ _ _ _ _ _ = _) into Hp.
  unfold plan_requested_transition, scoped_run in Hp. ok_inv.
  destruct (run_in db run_id org) as [run|] eqn:Hrun; [|done]. cbn [fmap option_fmap option_map] in Hp.
  apply run_in_Some in Hrun as [Hrun _]. ok_inv.
  match goal with H : construct _ = Ok _ |- _ => apply construct_Ok in H as [_ ->] end.
  match goal with H : move_to _ _ _ = Ok _ |- _ => apply move_to_Ok in H as (? & ? & _ & _ & Hst & _) end.
  run_inv. eapply planned_decision; [eassumption|done|exact Hrun|].
  assert (Hold : progress_status (er_progress_json run) = "requested").
  { destruct (is_null (er_progress_json run)) eqn:Hn.
    - destruct (er_progress_json run); done.
    - ok_inv. by apply item_status, status_differs_false. }
  rename select (validate_requested_transition _ _ _ _ = _) into Hv.
  unfold validate_requested_transition in Hv. apply bind_Ok_unit in Hv as [Ht _]. ok_inv. bool_inv.
  apply elem_of_two in Ht as [->| ->]; (eapply edge_statuses; [exact Hold| |]).
  - exact Hst.
  - done.
  - by apply item_kept.
  - done.
Qed.

Lemma preflight_decision `{RunAssets (EvaluationTables (CompletionTables R))} run_id v org at_ (db db' : DB) state :
  execute_preflight run_id v org at_ db = (Ok state, db') → decision run_id db db'.
Proof.
  unfold execute_preflight, conflict. intros Hx. run_inv. destruct (run_in db run_id org) as [row|]; [|by run_inv]. run_inv.
  rename select (complete_preflight _ _ _ _ _ = _) into Hc. unfold complete_preflight in Hc. run_inv. split_pairs.
  rename select (plan_preflight_completion _ _ _ _ _ _ = _) into Hp.
  unfold plan_preflight_completion, scoped_run in Hp. ok_inv.
  destruct (run_in db run_id org) as [run|] eqn:Hrun; [|done]. cbn [fmap option_fmap option_map] in Hp.
  apply run_in_Some in Hrun as [Hrun _]. ok_inv.
  match goal with H : construct _ = Ok _ |- _ => apply construct_Ok in H as [_ ->] end.
  eapply planned_decision; [eassumption|done|exact Hrun|].
  rename select (status_differs _ _ = _) into Hs. apply status_differs_false in Hs.
  if_inv.
  - match goal with H : move_to _ _ _ = Ok _ |- _ => apply move_to_Ok in H as (? & ? & _ & _ & Hst & _) end.
    by eapply edge_statuses; [exact (item_status _ _ Hs)|exact Hst|].
  - ok_inv. by eapply edge_statuses; [exact (item_status _ _ Hs)|apply item_kept; [done|exact Hs]|].
Qed.

(** *** Operators *)

Lemma resolution_decision run_id v org value confirm (db db' : DB) state :
  (∀ run, e_runs db !! run_id = Some run → textual (er_progress_json run) = true) →
  accept_resolution run_id v org value confirm db = (Ok state, db') → decision run_id db db'.
Proof.
  intros Ht (run & creation & evidence & status & result & updated & _ & Hrun & _ & _ & _ & _ & Hs & Hr
    & Hu & -> & Hx)%accept_resolution_Ok; [|done].
  eapply planned_decision; [exact Hx|done|exact Hrun|].
  unfold resolve_status, resolve_unknown in Hr. destruct status; try done. py_inv. subst.
  destruct (_ !! ru_execution_id value) as [target|]; [|done]. ok_inv.
  apply resolved_status in Hu. cbn [rp_status] in Hu.
  eapply edge_statuses; [exact (item_status _ _ Hs)|exact Hu|].
  destruct (bool_decide (ru_decision value = "cancel_run")); [done|].
  match goal with |- context [if ?b then _ else _] => by destruct b end.
Qed.

Lemma contract_decision run_id v org fingerprint value confirm (db db' : DB) state :
  (∀ run, e_runs db !! run_id = Some run → textual (er_progress_json run) = true) →
  authorize_contract_recovery run_id v org fingerprint value confirm db = (Ok state, db') →
  decision run_id db db'.
Proof.
  intros Ht (run & updated & Hrun & _ & Hs & Hst & -> & Hx)%authorize_Ok; [|done].
  eapply planned_decision; [exact Hx|done|exact Hrun|].
  by eapply edge_statuses; [exact (item_status _ _ Hs)|exact Hst|].
Qed.

(** *** People *)

Context {run_assets : RunAssets DB} {mysql_json : MysqlJson}.

Lemma load_snapshot_status (db : DB) scope run version expected_version at_ snapshot :
  load_snapshot db scope run version expected_version at_ = Ok snapshot →
  json_item (er_progress_json run) "status" = Ok (JStr "awaiting_review").
Proof using Type.
  unfold load_snapshot. intros H. ok_inv.
  destruct (e_checkpoints db !! _) as [[n value]|]; [|done].
  apply bind_Ok_unit in H as [_ H]. apply bind_Ok in H as (creation & _ & H).
  apply bind_Ok_unit in H as [Hs _]. ok_inv. by apply status_differs_false.
Qed.

Lemma lock_transaction_Ok scope v (db db' : DB) run version :
  lock_run_in_transaction scope v db = (Ok (run, version), db') →
  db' = db ∧ version = v ∧ e_checkpoints db !! ms_run_id scope = Some (v, JNull) ∧
  e_runs db !! ms_run_id scope = Some run ∧ er_organization_id run = ms_organization_id scope.
Proof using Type.
  unfold lock_run_in_transaction, conflict. intros H. run_inv.
  destruct (run_in db _ _) as [r|] eqn:Hr; [|by run_inv]. apply run_in_Some in Hr as [Hr Ho].
  destruct (e_checkpoints db !! _) as [[n value]|]; [|by run_inv].
  destruct (negb _ || negb _) eqn:Hb; [by run_inv|]. apply orb_false_iff in Hb as [Hn Hv].
  apply negb_false_iff, Z.eqb_eq in Hn as ->. run_inv. simplify_eq. by destruct value.
Qed.

Lemma save_progress_Ok scope v updated (db db' : DB) u :
  save_progress scope v updated db = (Ok u, db') →
  store_progress (mk_CheckpointState (ms_run_id scope) (v + 1) None) v updated db = (Ok u, db').
Proof using Type.
  unfold save_progress. intros H. run_inv.
  by match goal with H : construct _ = Ok _ |- _ => apply construct_Ok in H as [_ ->] end.
Qed.

Lemma reviews_decision scope v values (db db' : DB) state :
  accept_reviews scope v values db = (Ok state, db') → decision (ms_run_id scope) db db'.
Proof using Type.
  unfold accept_reviews. intros Hx. run_inv. split_pairs.
  rename select (plan_reviews _ _ _ _ = _) into Hp. unfold plan_reviews in Hp.
  apply bind_Ok_unit in Hp as [_ Hp]. apply bind_Ok_unit in Hp as [_ Hp].
  destruct (run_in db _ _) as [run|] eqn:Hrun; [|done]. apply run_in_Some in Hrun as [Hrun _].
  apply bind_Ok_unit in Hp as [_ Hp]. apply bind_Ok in Hp as (creation & _ & Hp).
  apply bind_Ok in Hp as ([policy gate] & _ & Hp). cbn beta iota in Hp.
  apply bind_Ok_unit in Hp as [_ Hp]. apply bind_Ok_unit in Hp as [Hs Hp].
  apply raise_ifM_Ok, status_differs_false in Hs.
  apply bind_Ok in Hp as (rounds & _ & (again & _ & Hp)%bind_Ok).
  apply bind_Ok_unit in Hp as [_ Hp]. apply bind_Ok_unit in Hp as [_ Hp]. apply bind_Ok_unit in Hp as [_ Hp].
  apply bind_Ok in Hp as (closed & _ & (candidates & _ & (prior & _ & (result & _ & (st & Hst & Hp)%bind_Ok)
    %bind_Ok)%bind_Ok)%bind_Ok).
  apply construct_Ok in Hst as [_ ->]. injection Hp as <- <-.
  eapply planned_decision; [eassumption|done|exact Hrun|].
  by eapply edge_statuses; [exact (item_status _ _ Hs)|apply item_kept; [done|exact Hs]|].
Qed.

Lemma correction_decision scope v command previous output value (db db' : DB) u :
  correct_review scope v command previous output value db = (Ok u, db') →
  db' = db ∨ decision (ms_run_id scope) db db'.
Proof using Type.
  unfold correct_review. intros Hx. run_inv.
  destruct (e_checkpoints db !! _) as [[n c]|]; [|by run_inv]. run_inv. split_pairs.
  rename select (lock_run_in_transaction _ _ _ = _) into Hl.
  apply lock_transaction_Ok in Hl as (-> & -> & _ & Hrun & _).
  rename select (plan_review_correction _ _ _ _ _ _ _ _ _ = _) into Hp.
  destruct x0 as [updated|]; [right|run_inv; by left].
  apply save_progress_Ok in Hx. unfold plan_review_correction in Hp.
  apply bind_Ok_unit in Hp as [_ Hp]. apply bind_Ok in Hp as (replayed & _ & Hp).
  destruct replayed; [done|]. apply bind_Ok_unit in Hp as [Hs Hp]. ok_inv. simplify_eq.
  eapply planned_decision; [exact Hx|done|exact Hrun|].
  rename select (status_differs _ _ = _) into Hs. apply status_differs_false in Hs.
  by eapply edge_statuses; [exact (item_status _ _ Hs)|apply item_kept; [done|exact Hs]|].
Qed.

Lemma reopened_status scope reason at_ progress snapshot updated :
  reopened_progress scope reason at_ progress snapshot = Ok updated →
  json_item progress "status" = Ok (JStr "rejected") ∧
  json_item updated "status" = Ok (JStr "awaiting_review").
Proof using Type.
  unfold reopened_progress. intros H. apply bind_Ok_unit in H as [Hr H].
  unfold is_rejected in Hr. ok_inv.
  rename select (status_differs _ _ = _) into Hs. apply status_differs_false in Hs. split; [done|].
  repeat (apply item_kept; [done|]). by eapply item_new.
Qed.

Lemma reopen_decision scope v reason at_ confirm (db db' : DB) u :
  reopen scope v reason at_ confirm db = (Ok u, db') → decision (ms_run_id scope) db db'.
Proof using Type.
  unfold reopen. intros Hx. run_inv. split_pairs.
  rename select (lock_run_in_transaction _ _ _ = _) into Hl.
  apply lock_transaction_Ok in Hl as (-> & -> & _ & Hrun & _). run_inv. apply save_progress_Ok in Hx.
  rename select (reopened_progress _ _ _ _ _ = _) into Hp. apply reopened_status in Hp as [Hs Hu].
  eapply planned_decision; [exact Hx|done|exact Hrun|].
  by eapply edge_statuses; [exact (item_status _ _ Hs)|exact Hu|].
Qed.

(** The numbers of a decision are those that its text gives back. *)
Definition decision_readable (db : DB) (scope : ManagementScope) (v : Z) (at_ : datetime) : Prop :=
  ∀ run preview, e_runs db !! ms_run_id scope = Some run →
    evaluate_snapshot db scope run v v at_ = Ok preview → textual (gate_result_dict preview) = true.

Lemma final_record_written preview actor reason record :
  textual (gate_result_dict preview) = true → final_record preview actor reason = Ok record →
  ∃ decision, finalize_review (gv_quality preview) actor reason = Ok decision ∧
              record = final_record_dict preview decision.
Proof using Type.
  intros Ht H. unfold final_record in H. ok_inv.
  rename select (finalize_review _ _ _ = Ok _) into Hf.
  match type of Hf with _ = Ok ?d => exists d; split; [exact Hf|] end.
  rename select (dumps_with _ _ = Ok _) into Hd.
  match type of Hd with dumps_with _ ?v = _ => assert (Hv : textual v = true) end.
  { unfold final_record_dict. cbn [textual forallb snd]. by rewrite Ht. }
  rewrite (loads_dumps compact_finite ltac:(by left) ltac:(by left) _ _ Hv Hd) in H.
  rewrite written_unsorted in H by done. by injection H as <-.
Qed.

Lemma finalized_status progress preview actor reason passed updated s :
  textual (gate_result_dict preview) = true → json_item progress "status" = Ok s →
  finalized_progress progress preview actor reason passed = Ok updated →
  ∃ decision, finalize_review (gv_quality preview) actor reason = Ok decision ∧
    fr_passed decision = passed ∧
    json_item updated "status" = Ok (JStr (final_status decision)) ∧
    json_item updated "gate_result" = Ok (final_record_dict preview decision).
Proof using Type.
  intros Ht Hs. unfold finalized_progress. intros H. apply bind_Ok in H as (record & Hr & H).
  apply final_record_written in Hr as (decision & Hf & ->); [|done]. exists decision. split; [exact Hf|].
  apply bind_Ok_unit in H as [Hp H]. apply raise_ifM_Ok in Hp. cbn in Hp. split; [by destruct (fr_passed decision), passed|].
  apply bind_Ok in H as (status & Hst & (finalized_at & _ & (t & _ & (transitions & _ & [= <-])%bind_Ok)
    %bind_Ok)%bind_Ok).
  cbn in Hst. injection Hst as <-.
  split; [|apply item_kept; [done|]; eapply (item_new _ _ "status"); apply item_kept; [done|]; by eapply item_new].
  repeat (apply item_kept; [done|]). by eapply item_new.
Qed.

Lemma finalize_decision scope v passed reason at_ confirm (db db' : DB) u :
  decision_readable db scope v at_ →
  finalize scope v passed reason at_ confirm db = (Ok u, db') → decision (ms_run_id scope) db db'.
Proof using Type.
  intros Hread. unfold finalize. intros Hx. run_inv. split_pairs.
  rename select (lock_run_in_transaction _ _ _ = _) into Hl.
  apply lock_transaction_Ok in Hl as (-> & -> & _ & Hrun & _). run_inv. apply save_progress_Ok in Hx.
  rename select (evaluate_snapshot _ _ _ _ _ _ = _) into He.
  pose proof (Hread _ _ Hrun He) as Ht. unfold evaluate_snapshot in He. ok_inv.
  rename select (load_snapshot _ _ _ _ _ _ = _) into Hsn. apply load_snapshot_status in Hsn as Hs.
  rename select (finalized_progress _ _ _ _ _ = _) into Hp.
  eapply finalized_status in Hp as (d & _ & _ & Hu & _); [|exact Ht|exact Hs].
  eapply planned_decision; [exact Hx|done|exact Hrun|].
  eapply edge_statuses; [exact (item_status _ _ Hs)|exact Hu|]. unfold final_status. by destruct (fr_passed d).
Qed.

(** *** Cancellation *)

Lemma record_for_status (db : DB) scope run version checkpoint d now record :
  record_for db scope run version checkpoint d now = Ok record →
  ∃ s, json_item (er_progress_json run) "status" = Ok (JStr s) ∧
       s ∈ ["requested"; "collecting"; "blocked"; "awaiting_review"].
Proof using Type.
  unfold record_for. intros H. ok_inv.
  rename select (decided_cause _ _ _ _ = _) into Hd. unfold decided_cause in Hd.
  match goal with Hs : json_item (er_progress_json run) "status" = Ok ?x |- _ => rename x into status end.
  destruct status as [| | | |s| |]; try done. exists s. split; [done|].
  match type of Hd with match (match ?c with JInt _ => _ | _ => _ end) with _ => _ end = _ => destruct c; try done end.
  destruct (cancellation_cause _ _ _ _) as [cause|[]] eqn:Hc; try done.
  unfold cancellation_cause in Hc. apply bind_Ok_unit in Hc as [Hc _]. by py_inv.
Qed.

Lemma cancel_decision scope v reason at_ discard confirm now (db db' : DB) u :
  cancel scope v reason at_ discard confirm now db = (Ok u, db') → decision (ms_run_id scope) db db'.
Proof using Type.
  unfold cancel. intros Hx. run_inv. split_pairs.
  rename select (plan_cancellation _ _ _ _ _ _ _ _ = _) into Hp. unfold plan_cancellation in Hp.
  apply bind_Ok_unit in Hp as [_ Hp]. apply bind_Ok in Hp as (d & _ & Hp).
  destruct (run_in db _ _) as [run|] eqn:Hrun; [|done]. apply run_in_Some in Hrun as [Hrun _].
  destruct (e_checkpoints db !! _) as [[version checkpoint]|] eqn:Hc; [|done].
  apply bind_Ok_unit in Hp as [_ Hp].
  apply bind_Ok in Hp as (active & _ & (cp & _ & (work & _ & Hp)%bind_Ok)%bind_Ok).
  destruct work.
  - unfold plan_drain in Hp. apply bind_Ok_unit in Hp as [Hs Hp]. ok_inv.
    match goal with H : construct _ = Ok _ |- _ => apply construct_Ok in H as [_ ->] end.
    eapply planned_decision; [exact Hx|done|exact Hrun|].
    assert (Hst : ∃ s, json_item (er_progress_json run) "status" = Ok (JStr s) ∧ (s = "collecting" ∨ s = "blocked")).
    { destruct (status_differs "collecting" _) as [[]|] eqn:E; try done; eexists;
        (split; [by apply status_differs_false|]); auto. }
    destruct Hst as (s & Hst & [->| ->]);
      (eapply edge_statuses; [exact (item_status _ _ Hst)|by apply item_kept; [|exact Hst]|done]).
  - unfold plan_terminal in Hp. ok_inv.
    match goal with H : construct _ = Ok _ |- _ => apply construct_Ok in H as [_ ->] end.
    rename select (record_for _ _ _ _ _ _ _ = _) into Hr. apply record_for_status in Hr as (s & Hs & Hin).
    eapply planned_decision; [exact Hx|done|exact Hrun|].
    eapply edge_statuses; [exact (item_status _ _ Hs)| |].
    + repeat (apply item_kept; [done|]). by eapply item_new.
    + apply elem_of_four in Hin. by destruct Hin as [->|[->|[->| ->]]].
Qed.

Lemma drain_decision scope at_ now (db db' : DB) b :
  finish_cancellation scope at_ now db = (Ok b, db') → db' = db ∨ decision (ms_run_id scope) db db'.
Proof using Type.
  unfold finish_cancellation. intros Hx. run_inv.
  match type of Hx with (match ?o with Some _ => _ | None => _ end) _ = _ => destruct o as [source|] end;
    [|run_inv; by left]. run_inv. right.
  rename select (cancel _ _ _ _ _ _ _ _ = _) into Hc. apply cancel_decision in Hc.
  rename select (read_cancel_drain_source _ _ _ = _) into Hs. unfold read_cancel_drain_source in Hs.
  destruct (e_checkpoints db !! _) as [[n c]|]; [|done]. destruct (run_in db _ _) as [run|]; [|done].
  apply bind_Ok in Hs as (intent & _ & (idle & _ & Hs)%bind_Ok). destruct idle; [done|].
  apply bind_Ok in Hs as (undrained & _ & Hs). destruct undrained; [done|]. ok_inv.
  match goal with H : construct _ = Ok _ |- _ => apply construct_Ok in H as [_ ->] end. exact Hc.
Qed.

(** *** Creation *)

Lemma creation_Ok plan (db db' : DB) state :
  apply_run_creation plan db = (Ok state, db') →
  ∃ transitions, e_runs db !! rp_run_id plan = None ∧ e_checkpoints db !! rp_run_id plan = None ∧
    db' = set_checkpoints (<[rp_run_id plan := (1, JNull)]> (e_checkpoints db))
            (set_runs (<[rp_run_id plan :=
               mk_EvaluationRunRow (rp_execution_mode plan) (rp_organization_id plan)
                 (rp_requested_by plan) (rp_definition_json plan)
                 (JObj [("status", JStr "requested"); ("transitions", transitions)])
                 (Some (policy_fingerprint (rp_policy plan), policy_definition_json (rp_policy plan)))]>
               (e_runs db)) db).
Proof using Type.
  unfold apply_run_creation. intros Hx. run_inv.
  rename select (freeze_policy _ _ _ = _) into Hf. apply freeze_Ok in Hf as (run & reference & Hrun & _ & _ & ->).
  cbn [set_runs e_runs e_checkpoints] in *. rewrite lookup_insert_eq in Hrun. injection Hrun as <-.
  eexists. split_and!; [done|done|]. unfold set_checkpoints, set_runs. cbn. by rewrite insert_insert_eq.
Qed.
End operations.

(** ** The steps of a run *)

Section lifecycle.
Context {R : Type}.
Notation DB := (EvaluationTables (CompletionTables R)).
Context {assets : Assets} {run_assets : RunAssets DB} {mysql_json : MysqlJson}.

(** The documents of the runs are documents that their text keeps. *)
Definition documents_kept (db : DB) : Prop :=
  ∀ run_id run, e_runs db !! run_id = Some run → textual (er_progress_json run) = true.

(** A committed operation, or a change of other tables: an operation that raises is rolled back. *)
Inductive lifecycle_step (db : DB) : DB → Prop :=
| life_operation o u db' : exec candidate_plan o db = (Ok u, db') → lifecycle_step db db'
| life_generation run_id v org owner completion candidate_id assertions claim state db' :
  complete_generation run_id v org owner completion candidate_id assertions claim db = (Ok state, db') →
  lifecycle_step db db'
| life_judgement run_id v org owner completion claim state db' :
  complete_semantic run_id v org owner completion claim db = (Ok state, db') → lifecycle_step db db'
| life_recovery run_id v org invocation_id expiry at_ actor state db' :
  recover_expired run_id v org invocation_id expiry at_ actor db = (Ok state, db') →
  lifecycle_step db db'
| life_creation plan state db' : apply_run_creation plan db = (Ok state, db') → lifecycle_step db db'
| life_transition run_id v org target actor reason at_ state db' :
  transition_requested run_id v org target actor reason at_ db = (Ok state, db') → lifecycle_step db db'
| life_preflight run_id v org at_ state db' :
  execute_preflight run_id v org at_ db = (Ok state, db') → lifecycle_step db db'
| life_resolution run_id v org value confirm state db' :
  documents_kept db →
  accept_resolution run_id v org value confirm db = (Ok state, db') → lifecycle_step db db'
| life_contract run_id v org fingerprint value confirm state db' :
  documents_kept db →
  authorize_contract_recovery run_id v org fingerprint value confirm db = (Ok state, db') →
  lifecycle_step db db'
| life_reviews scope v values state db' :
  accept_reviews scope v values db = (Ok state, db') → lifecycle_step db db'
| life_correction scope v command previous output value u db' :
  correct_review scope v command previous output value db = (Ok u, db') → lifecycle_step db db'
| life_finalization scope v passed reason at_ confirm u db' :
  decision_readable db scope v at_ →
  finalize scope v passed reason at_ confirm db = (Ok u, db') → lifecycle_step db db'
| life_reopening scope v reason at_ confirm u db' :
  reopen scope v reason at_ confirm db = (Ok u, db') → lifecycle_step db db'
| life_cancellation scope v reason at_ discard confirm now u db' :
  cancel scope v reason at_ discard confirm now db = (Ok u, db') → lifecycle_step db db'
| life_drain scope at_ now b db' :
  finish_cancellation scope at_ now db = (Ok b, db') → lifecycle_step db db'
| life_elsewhere rest :
  lifecycle_step db
    (set_rest (mk_CompletionTables (ct_generations (e_rest db)) (ct_semantics (e_rest db)) rest) db).

(** What was frozen for a run stays. *)
Definition same_frozen (run run' : EvaluationRunRow) : Prop :=
  (er_execution_mode run', er_organization_id run', er_requested_by run', er_definition_json run')
  = (er_execution_mode run, er_organization_id run, er_requested_by run, er_definition_json run) ∧
  ∀ policy, er_frozen_policy run = Some policy → er_frozen_policy run' = Some policy.

Definition run_moves (run run' : EvaluationRunRow) : Prop :=
  same_frozen run run' ∧
  (er_progress_json run' = er_progress_json run ∨
   (progress_status (er_progress_json run), progress_status (er_progress_json run')) ∈ run_edges).
Definition runs_move (db db' : DB) : Prop :=
  ∀ run_id run, e_runs db !! run_id = Some run → ∃ run', e_runs db' !! run_id = Some run' ∧ run_moves run run'.

(** The dispatch, the generation and the judgement under a key of a run. *)
Definition evidence_at (db : DB) (run_id k : string)
    : option DispatchRow * option GenerationRow * option SemanticRow :=
  (e_dispatches db !! (run_id, k), ct_generations (e_rest db) !! (run_id, k),
   ct_semantics (e_rest db) !! (run_id, k)).
(** A step leaves the evidence of the runs that do not collect. *)
Definition evidence_stays (db db' : DB) : Prop :=
  ∀ run_id run, e_runs db !! run_id = Some run →
    collects (progress_status (er_progress_json run)) = false →
    ∀ k, evidence_at db' run_id k = evidence_at db run_id k.

Lemma same_frozen_refl run : same_frozen run run.
Proof. done. Qed.
Lemma same_frozen_trans a b c : same_frozen a b → same_frozen b c → same_frozen a c.
Proof. intros [H1 H2] [H3 H4]. split; [by rewrite H3|auto]. Qed.
Lemma run_stays run : run_moves run run.
Proof. split; [apply same_frozen_refl|by left]. Qed.
Lemma with_progress_moves progress run :
  (progress_status (er_progress_json run), progress_status progress) ∈ run_edges →
  run_moves run (with_progress progress run).
Proof. intros He. split; [done|by right]. Qed.

Lemma runs_stay (db db' : DB) : e_runs db' = e_runs db → runs_move db db'.
Proof. intros Hr run_id run Hrun. exists run. rewrite Hr. split; [done|apply run_stays]. Qed.
Lemma written_moves run_id run progress (db db' : DB) :
  e_runs db !! run_id = Some run → e_runs db' = alter (with_progress progress) run_id (e_runs db) →
  (progress_status (er_progress_json run), progress_status progress) ∈ run_edges → runs_move db db'.
Proof.
  intros Hrun Hr He k r Hk. rewrite Hr. destruct (decide (run_id = k)) as [<-|Hne].
  - rewrite lookup_alter_eq, Hk. eexists. split; [done|]. apply with_progress_moves. congruence.
  - rewrite lookup_alter_ne by done. exists r. split; [done|apply run_stays].
Qed.

Lemma all_evidence_stays (db db' : DB) :
  e_dispatches db' = e_dispatches db → e_rest db' = e_rest db → evidence_stays db db'.
Proof. intros Hd Hr run_id run _ _ k. unfold evidence_at. by rewrite Hd, Hr. Qed.
(** Evidence is added to a run that collects. *)
Lemma other_evidence_stays run_id run (db db' : DB) :
  e_runs db !! run_id = Some run → collects (progress_status (er_progress_json run)) = true →
  (∀ other k, other ≠ run_id → evidence_at db' other k = evidence_at db other k) →
  evidence_stays db db'.
Proof.
  intros Hrun Hc Ho other r Hr Hn k. apply Ho. intros ->. congruence.
Qed.

Lemma decision_moves run_id (db db' : DB) : decision run_id db db' → runs_move db db'.
Proof. intros [v old value run progress _ _ _ Hrun _ He]. by eapply written_moves. Qed.
Lemma decision_evidence run_id (db db' : DB) : decision run_id db db' → evidence_stays db db'.
Proof. intros [v old value run progress _ _ _ Hrun _ He]. by apply all_evidence_stays. Qed.

(** ** Operations on claims *)

Lemma exec_moves o (db db' : DB) u : exec candidate_plan o db = (Ok u, db') → runs_move db db'.
Proof.
  destruct o; cbn [exec]; intros Hx; run_inv; try by apply runs_stay.
  - destruct u. apply save_checkpoint_Ok in Hx as (_ & _ & _ & _ & ->). by apply runs_stay.
  - match goal with H : prepare_candidate _ _ _ _ _ _ _ _ _ _ = _ |- _ =>
      apply prepare_Ok in H as (v & _ & _ & _ & _ & _ & ->) end. by apply runs_stay.
  - match goal with H : renew_claim _ _ _ _ = _ |- _ =>
      apply renew_Ok in H as (c & cp & _ & _ & _ & _ & _ & _ & ->) end. by apply runs_stay.
  - apply release_Ok in Hx as (c & _ & ->). by apply runs_stay.
  - match goal with H : dispatch_claim _ _ _ _ = _ |- _ =>
      apply dispatch_Ok in H as (run & v & c & cp & db2 & _ & _ & _ & _ & _ & _ & _ & _ & Hd & _ & ->) end.
    apply record_dispatch_frame in Hd as (_ & _ & Hr). by apply runs_stay.
  - match goal with H : reserve_dispatch _ _ _ _ _ = _ |- _ =>
      apply reserve_dispatch_Ok in H as (c & cp & value & db2 & _ & _ & _ & Hd & _ & Hs) end.
    apply record_dispatch_frame in Hd as (_ & _ & Hr).
    apply save_checkpoint_Ok in Hs as (_ & _ & _ & _ & ->). by apply runs_stay.
  - apply freeze_Ok in Hx as (run & reference & Hrun & Hn & _ & ->). intros k r Hk.
    cbn [e_runs set_runs]. destruct (decide (run_id = k)) as [<-|Hne].
    + rewrite lookup_insert_eq. replace r with run by congruence. eexists. split; [done|].
      split; [|by left]. split; [done|]. intros p Hp. congruence.
    + rewrite lookup_insert_ne by done. exists r. split; [done|apply run_stays].
Qed.

Lemma reserve_collecting run_id v owner at_ (db db' : DB) state :
  reserve_dispatch run_id v owner at_ db = (Ok state, db') →
  ∃ run, e_runs db !! run_id = Some run ∧
         json_item (er_progress_json run) "status" = Ok (JStr "collecting").
Proof.
  unfold reserve_dispatch. intros H. run_inv.
  destruct (e_checkpoints db !! run_id) as [[n value]|]; [|done].
  destruct (negb (n =? v)); [done|]. run_inv.
  match goal with H : decode _ = Ok ?o |- _ => destruct o as [cp|]; [|done] end.
  destruct (e_runs db !! run_id) as [run|]; [|done]. run_inv. exists run. split; [done|].
  match goal with H : json_eqb _ _ = true |- _ => apply json_eqb_str in H as -> end. by apply get_item.
Qed.

Lemma record_other run_id cp (db db1 : DB) u other k :
  record_dispatch run_id cp db = (Ok u, db1) → other ≠ run_id →
  evidence_at db1 other k = evidence_at db other k.
Proof.
  intros (raw & pol & budget & limit & total & _ & _ & _ & _ & _ & _ & _ & _ & _ & _ & ->)
    %record_dispatch_Ok Hne.
  unfold evidence_at. cbn. rewrite lookup_insert_ne; [done|]. by intros [= ->].
Qed.

Lemma exec_evidence_stays o (db db' : DB) u :
  exec candidate_plan o db = (Ok u, db') → evidence_stays db db'.
Proof.
  destruct o; cbn [exec]; intros Hx; run_inv; try by apply all_evidence_stays.
  - destruct u. apply save_checkpoint_Ok in Hx as (_ & _ & _ & _ & ->). by apply all_evidence_stays.
  - match goal with H : prepare_candidate _ _ _ _ _ _ _ _ _ _ = _ |- _ =>
      apply prepare_Ok in H as (v & _ & _ & _ & _ & _ & ->) end. by apply all_evidence_stays.
  - match goal with H : renew_claim _ _ _ _ = _ |- _ =>
      apply renew_Ok in H as (c & cp & _ & _ & _ & _ & _ & _ & ->) end. by apply all_evidence_stays.
  - apply release_Ok in Hx as (c & _ & ->). by apply all_evidence_stays.
  - match goal with H : dispatch_claim _ _ _ _ = _ |- _ =>
      apply dispatch_Ok in H as (run & v & c & cp & db2 & Hrun & _ & _ & _ & Hs & _ & _ & _ & Hd & _ & ->) end.
    eapply other_evidence_stays; [exact Hrun|by rewrite (item_status _ _ Hs)|].
    intros other k Hne. rewrite <- (record_other _ _ _ _ _ _ k Hd Hne). done.
  - match goal with H : reserve_dispatch _ _ _ _ _ = _ |- _ =>
      pose proof (reserve_collecting _ _ _ _ _ _ _ H) as (run & Hrun & Hst);
      apply reserve_dispatch_Ok in H as (c & cp & value & db2 & _ & _ & _ & Hd & _ & Hs) end.
    apply save_checkpoint_Ok in Hs as (_ & _ & _ & _ & ->).
    eapply other_evidence_stays; [exact Hrun|by rewrite (item_status _ _ Hst)|].
    intros other k Hne. rewrite <- (record_other _ _ _ _ _ _ k Hd Hne). done.
  - apply freeze_Ok in Hx as (run & reference & _ & _ & _ & ->). by apply all_evidence_stays.
Qed.

(** ** Completions *)

(** From a status that collects, a completion leads to one of these. *)
Definition completes_to (s : string) (progress : json) : Prop :=
  ∃ s', json_item progress "status" = Ok (JStr s') ∧ (s' = s ∨ s' = "blocked" ∨ s' = "awaiting_review").

Lemma completes_edge s previous progress :
  json_item previous "status" = Ok (JStr s) → s = "collecting" ∨ s = "blocked" →
  completes_to s progress → (progress_status previous, progress_status progress) ∈ run_edges.
Proof.
  intros Hs Hc (s' & Hs' & He). rewrite (item_status _ _ Hs), (item_status _ _ Hs').
  apply (bool_decide_unpack _). by destruct Hc as [-> | ->], He as [-> | [-> | ->]].
Qed.

Lemma generation_progress_status previous completion policy owner claimed progress s :
  generation_completion_progress previous completion policy owner claimed = Ok progress →
  json_item previous "status" = Ok (JStr s) → completes_to s progress.
Proof.
  unfold generation_completion_progress. intros ([p cause] & Hp & Hx)%bind_Ok Hs.
  assert (json_item p "status" = Ok (JStr s)) as Hps.
  { clear Hx. if_inv; [|if_inv; by ok_inv]. ok_inv.
    match goal with H : count_unknown _ = Ok _ |- _ => unfold count_unknown in H end. ok_inv.
    by apply item_kept. }
  destruct (nonempty cause && negb claimed); [|ok_inv; exists s; auto].
  exists "blocked". split; [|auto]. by apply move_to_Ok in Hx as (? & ? & _ & _ & ? & _).
Qed.

Lemma judgement_progress_status (db : DB) run_id completion owner run accepted claimed progress s :
  project_semantic_progress db run_id completion owner run accepted claimed false = Ok progress →
  json_item (er_progress_json run) "status" = Ok (JStr s) → completes_to s progress.
Proof.
  unfold project_semantic_progress. intros (p & Hp & Hx)%bind_Ok Hs.
  apply (semantic_progress_status _ _ _ _ _ _ _ Hp) in Hs as Hps.
  assert (completes_to s p) as Hc by (destruct Hps; [exists s|exists "blocked"]; auto).
  apply bind_Ok in Hx as (stop & _ & Hx). destruct stop; [by ok_inv|]. ok_inv.
  match type of Hx with (if ?b then _ else _) = _ => destruct b end; [|by ok_inv].
  exists "awaiting_review". split; [|auto]. by apply move_to_Ok in Hx as (? & ? & _ & _ & ? & _).
Qed.

(** The status that follows a completion stays in range. *)
Lemma follows_status run_id claim owner at_ (db : DB) run progress progress' s :
  status_follows run_id claim owner at_ db run progress progress' → completes_to s progress →
  completes_to s progress'.
Proof.
  intros Hf Hc. destruct claim as [c|]; cbn in Hf; [|by subst].
  destruct Hf as (current & active & plan & _ & _ & _ & Hp).
  apply completion_progress_inv in Hp as (target & cause & Ht & [->|(Hne & _ & f & t & ref & ev & _ & _ & Hm)]); [done|].
  apply move_to_Ok in Hm as (? & ? & _ & _ & Hst & _). exists target. split; [done|].
  apply candidate_target_inv in Ht as [->|[(_ & -> & _)|(_ & -> & _)]]; [done|auto|auto].
Qed.

Lemma open_collects progress s :
  json_item progress "status" = Ok (JStr s) → s = "collecting" ∨ s = "blocked" →
  collects (progress_status progress) = true.
Proof. intros ->%item_status [-> | ->]; done. Qed.

Lemma generation_lives run_id v org owner completion candidate_id assertions claim (db db' : DB) state :
  complete_generation run_id v org owner completion candidate_id assertions claim db = (Ok state, db') →
  runs_move db db' ∧ evidence_stays db db'.
Proof.
  intros (cp & run & version & candidate & accepted & progress & progress' & [Hrun _ (s & Hs & Hopen) _]
    & _ & _ & _ & _ & Hp & _ & -> & Hf)%complete_generation_Ok.
  split.
  - eapply written_moves; [exact Hrun|by destruct claim|].
    eapply completes_edge; [exact Hs|exact Hopen|]. eapply follows_status; [exact Hf|].
    by eapply generation_progress_status.
  - eapply other_evidence_stays; [exact Hrun|by eapply open_collects|]. intros other k Hne.
    unfold evidence_at. destruct claim; cbn; (rewrite lookup_insert_ne; [done|]; by intros [= ->]).
Qed.

Lemma judgement_lives run_id v org owner completion claim (db db' : DB) state :
  complete_semantic run_id v org owner completion claim db = (Ok state, db') →
  runs_move db db' ∧ evidence_stays db db'.
Proof.
  intros (cp & row & run & version & accepted & progress & progress' & [Hrun _ (s & Hs & Hopen) _]
    & _ & _ & _ & Hp & _ & -> & Hf)%complete_semantic_Ok.
  split.
  - eapply written_moves; [exact Hrun| |].
    { unfold concluded, add_judgement. by destruct claim, (sa_result accepted). }
    eapply completes_edge; [exact Hs|exact Hopen|]. eapply follows_status; [exact Hf|].
    by eapply judgement_progress_status.
  - eapply other_evidence_stays; [exact Hrun|by eapply open_collects|]. intros other k Hne.
    unfold evidence_at, concluded, add_judgement.
    destruct claim, (sa_result accepted); cbn;
      rewrite ?lookup_insert_ne, ?lookup_alter_ne by (by intros [= ->]); done.
Qed.

Lemma recovery_lives run_id v org invocation_id expiry at_ actor (db db' : DB) state :
  recover_expired run_id v org invocation_id expiry at_ actor db = (Ok state, db') →
  runs_move db db' ∧ evidence_stays db db'.
Proof.
  intros Hx. assert (Hcollecting : ∃ run, e_runs db !! run_id = Some run ∧
    json_item (er_progress_json run) "status" = Ok (JStr "collecting")).
  { unfold recover_expired in Hx. rewrite get_bind in Hx. apply tx_bind_Ok in Hx as (cp & db0 & Hsrc & _).
    apply lift_Ok in Hsrc as [Hsrc _].
    apply read_expired_recovery_source_Ok in Hsrc as ((value & run & _ & _ & Hrun & _ & Hc) & _).
    exists run. split; [done|]. unfold collecting in Hc. ok_inv.
    by match goal with H : json_eqb _ _ = true |- _ => apply json_eqb_str in H as -> end. }
  destruct Hcollecting as (run & Hrun & Hs).
  apply recover_expired_Ok in Hx as (value & cp & run' & rest & progress & progress' & _ & _ & _ & _ & _
    & Hrun' & _ & Hout & Hp & _ & ->).
  replace run' with run in * by congruence.
  assert (Hst : completes_to "collecting" progress).
  { destruct Hout as [_ _|? ? _ _ _ [Hb _]|? ? ? _ _ _ [Hb _]]; [by exists "collecting"; auto|
      by exists "blocked"; auto..]. }
  split.
  - eapply written_moves; [exact Hrun|done|]. eapply completes_edge; [exact Hs|by left|].
    destruct Hst as (s' & Hs' & Hin). exists s'. split; [|done].
    unfold recovery_progress in Hp. ok_inv. by apply item_kept.
  - eapply other_evidence_stays; [exact Hrun|by rewrite (item_status _ _ Hs)|]. intros other k Hne.
    unfold evidence_at. destruct Hout; cbn; rewrite ?lookup_insert_ne by (by intros [= ->]); done.
Qed.

(** ** Every step *)

Lemma same_or_decision run_id (db db' : DB) :
  db' = db ∨ decision run_id db db' → runs_move db db' ∧ evidence_stays db db'.
Proof.
  intros [->|Hd]; [|by split; [eapply decision_moves|eapply decision_evidence]].
  split; [by apply runs_stay|by apply all_evidence_stays].
Qed.

Lemma creation_lives plan (db db' : DB) state :
  apply_run_creation plan db = (Ok state, db') → runs_move db db' ∧ evidence_stays db db'.
Proof.
  intros (transitions & Hn & _ & ->)%creation_Ok. split; [|by apply all_evidence_stays].
  intros k r Hk. exists r. split; [|apply run_stays]. cbn. rewrite lookup_insert_ne; [done|]. congruence.
Qed.

Lemma lifecycle_lives (db db' : DB) : lifecycle_step db db' → runs_move db db' ∧ evidence_stays db db'.
Proof.
  destruct 1.
  - split; [by eapply exec_moves|by eapply exec_evidence_stays].
  - by eapply generation_lives.
  - by eapply judgement_lives.
  - by eapply recovery_lives.
  - by eapply creation_lives.
  - eapply same_or_decision; right; by eapply transition_decision.
  - eapply same_or_decision; right; by eapply preflight_decision.
  - eapply same_or_decision; right. eapply resolution_decision; [|done]. by intros ?; apply H.
  - eapply same_or_decision; right. eapply contract_decision; [|done]. by intros ?; apply H.
  - eapply same_or_decision; right; by eapply reviews_decision.
  - by eapply same_or_decision, correction_decision.
  - eapply same_or_decision; right; by eapply finalize_decision.
  - eapply same_or_decision; right; by eapply reopen_decision.
  - eapply same_or_decision; right; by eapply cancel_decision.
  - by eapply same_or_decision, drain_decision.
  - split; [by apply runs_stay|]. intros run_id run _ _ k. done.
Qed.
End lifecycle.
