(* ===== verification/RunHistories.v ===== *)
(** * RunHistories: what holds of a run in every history

    The theorems about any sequence of the steps of [RunLifecycle]: the state machine of a run's
    status, the finality of its evidence once it is reviewed, and the numbering, provenance and
    bounds of the evidence that the steps of [EvidenceLedger] establish. *)
From stdpp Require Import sorting.
From S2P Require Import Prelude PyText PyTime PyHash PyNum PyJson JsonRoundTrip PyIso Transactions.
From S2P Require Import Tables Failure Checkpoint Completion Preflight Actions Resolution Review.
From S2P Require Import Correction Gates Reopening Closure Publication Policies CheckpointRecords.
From S2P Require Import CompletionRecords SlotClaims Projection Acceptance CompletionProgress.
From S2P Require Import Documents DispatchLedger CandidatePlan Completions Judgements Recovery EvidenceLedger.
From S2P Require Import EvidenceBudget Suites RunProgress UnknownDecisions ContractDecisions.
From S2P Require Import RunCreation ReviewRecords GateSnapshot ReviewDecisions Cancellations.
From S2P Require Import RunLifecycle.

Local Open Scope string_scope.
Local Open Scope Z_scope.

Section histories.
Context {R : Type}.
Notation DB := (EvaluationTables (CompletionTables R)).
Context {assets : Assets} {run_assets : RunAssets DB} {mysql_json : MysqlJson}.

(** Any sequence of committed steps. *)
Definition history : DB → DB → Prop := rtc lifecycle_step.

(** ** Statuses and evidence *)

Definition run_edge (s s' : string) : Prop := (s, s') ∈ run_edges.
Definition terminal_statuses : list string := ["approved"; "canceled"].
Definition reviewed_statuses : list string := ["awaiting_review"; "rejected"; "approved"; "canceled"].

Lemma final_edges s s' : s ∈ terminal_statuses → ¬ run_edge s s'.
Proof.
  intros Hs He. assert (Hb : forallb (λ e, negb (bool_decide (e.1 ∈ terminal_statuses))) run_edges = true)
    by by vm_compute.
  rewrite forallb_true in Hb. specialize (Hb _ He). by bool_inv.
Qed.
Lemma reviewed_edges s s' : s ∈ reviewed_statuses → run_edge s s' → s' ∈ reviewed_statuses.
Proof.
  intros Hs He.
  assert (Hb : forallb (λ e, negb (bool_decide (e.1 ∈ reviewed_statuses))
                             || bool_decide (e.2 ∈ reviewed_statuses)) run_edges = true) by by vm_compute.
  rewrite forallb_true in Hb. specialize (Hb _ He). cbn in Hb.
  rewrite bool_decide_eq_true_2 in Hb by done. by apply bool_decide_eq_true in Hb.
Qed.
Lemma reviewed_closed s : s ∈ reviewed_statuses → collects s = false.
Proof. intros Hs. apply bool_decide_eq_false. unfold reviewed_statuses in Hs. set_solver. Qed.

(** A run after a history, with what it kept. *)
Lemma history_moves (db db' : DB) run_id run :
  history db db' → e_runs db !! run_id = Some run →
  ∃ run', e_runs db' !! run_id = Some run' ∧ same_frozen run run' ∧
    rtc run_edge (progress_status (er_progress_json run)) (progress_status (er_progress_json run')) ∧
    (progress_status (er_progress_json run) ∈ terminal_statuses →
       er_progress_json run' = er_progress_json run) ∧
    (progress_status (er_progress_json run) ∈ reviewed_statuses →
       progress_status (er_progress_json run') ∈ reviewed_statuses ∧
       ∀ k, evidence_at db' run_id k = evidence_at db run_id k).
Proof.
  intros Hr. revert run. induction Hr as [db|db db1 db' Hstep _ IH]; intros run Hrun.
  { exists run. split_and!; [done|apply same_frozen_refl|done|done|done]. }
  destruct (lifecycle_lives _ _ Hstep) as [Hm He].
  destruct (Hm _ _ Hrun) as (run1 & Hrun1 & Hf1 & Hp1).
  destruct (IH _ Hrun1) as (run' & Hrun' & Hf' & Hedges & Hterm & Hrev). exists run'.
  split; [done|]. split; [by eapply same_frozen_trans|].
  assert (Hs1 : rtc run_edge (progress_status (er_progress_json run)) (progress_status (er_progress_json run1))).
  { destruct Hp1 as [->|Hp1]; [done|by apply rtc_once]. }
  split; [by etrans|]. split.
  - intros Ht. destruct Hp1 as [Hp1|Hp1]; [|by apply final_edges in Hp1].
    rewrite <- Hp1 in Ht |- *. auto.
  - intros Ht. assert (Ht1 : progress_status (er_progress_json run1) ∈ reviewed_statuses).
    { destruct Hp1 as [->|Hp1]; [done|by eapply reviewed_edges]. }
    destruct (Hrev Ht1) as [Hs' Hk]. split; [done|]. intros k. rewrite Hk.
    by eapply He, reviewed_closed.
Qed.

(** ** The history of a run is a history of its evidence *)

Lemma decision_steps run_id (db db' : DB) : decision run_id db db' → rtc evaluation_step db db'.
Proof.
  intros [v old value run progress H0 Hv Hc Hrun [cp ->] _]. eapply rtc_l.
  - apply (run_operation _ (Save (mk_CheckpointState run_id (v + 1) cp) v) tt).
    cbn [exec]. apply save_checkpoint_Ok. cbn [cs_run_id cs_version cs_checkpoint]. by split_and!; eauto.
  - apply rtc_once, run_elsewhere; try done. intros r policy <-.
    apply (progress_frozen progress run_id (set_checkpoints _ db)).
Qed.

Lemma creation_steps plan (db db' : DB) state :
  apply_run_creation plan db = (Ok state, db') → rtc evaluation_step db db'.
Proof.
  intros (transitions & Hn & Hc & ->)%creation_Ok.
  match goal with |- context [set_runs ?m db] => apply (rtc_l _ _ (set_runs m db)) end.
  - apply run_elsewhere; try done. intros r policy. unfold frozen_policy_json. cbn [e_runs set_runs].
    destruct (decide (rp_run_id plan = r)) as [<-|]; [by rewrite Hn|by rewrite lookup_insert_ne].
  - apply rtc_once, (run_operation _ (Open (rp_run_id plan) 1) tt). cbn [exec].
    by apply insert_row_Ok.
Qed.

Lemma lifecycle_steps (db db' : DB) : lifecycle_step db db' → rtc evaluation_step db db'.
Proof.
  destruct 1.
  - by eapply rtc_once, run_operation.
  - by eapply rtc_once, run_generation.
  - by eapply rtc_once, run_judgement.
  - by eapply rtc_once, run_recovery.
  - by eapply creation_steps.
  - by eapply decision_steps, transition_decision.
  - by eapply decision_steps, preflight_decision.
  - eapply decision_steps, resolution_decision; [|done]. by intros ?; apply H.
  - eapply decision_steps, contract_decision; [|done]. by intros ?; apply H.
  - by eapply decision_steps, reviews_decision.
  - match goal with H : correct_review _ _ _ _ _ _ _ = _ |- _ => apply correction_decision in H as [->|H] end;
      [done|by eapply decision_steps].
  - by eapply decision_steps, finalize_decision.
  - by eapply decision_steps, reopen_decision.
  - by eapply decision_steps, cancel_decision.
  - match goal with H : finish_cancellation _ _ _ _ = _ |- _ => apply drain_decision in H as [->|H] end;
      [done|by eapply decision_steps].
  - by apply rtc_once, run_elsewhere.
Qed.
Lemma lifecycle_history (db db' : DB) : history db db' → rtc evaluation_step db db'.
Proof. induction 1 as [|? ? ? Hs _ IH]; [done|]. etrans; [by apply lifecycle_steps|done]. Qed.

(** ** Theorems *)

(** C2: Whatever is done to a run, by workers, the system and people in any order, it keeps what was
    frozen at its creation and its status only takes the edges of the state machine; an approved or
    canceled run is never written again. *)
Theorem run_state_machine (db db' : DB) run_id run :
  history db db' → e_runs db !! run_id = Some run →
  ∃ run', e_runs db' !! run_id = Some run' ∧ same_frozen run run' ∧
    rtc run_edge (progress_status (er_progress_json run)) (progress_status (er_progress_json run')) ∧
    (progress_status (er_progress_json run) ∈ terminal_statuses →
       er_progress_json run' = er_progress_json run).
Proof.
  intros Hr Hrun. destruct (history_moves _ _ _ _ Hr Hrun) as (run' & ? & ? & ? & ? & _). eauto 10.
Qed.

(** C3: Nobody reviews a moving target: once a run awaits its review, its dispatches, generations and
    judgements are the same in every later state, through reviews, corrections, decisions, reopened
    rounds and cancellation, and it never collects again. *)
Theorem reviewed_evidence_final (db db' : DB) run_id run :
  history db db' → e_runs db !! run_id = Some run →
  progress_status (er_progress_json run) ∈ reviewed_statuses →
  (∀ k, evidence_at db' run_id k = evidence_at db run_id k) ∧
  ∃ run', e_runs db' !! run_id = Some run' ∧
    progress_status (er_progress_json run') ∈ reviewed_statuses.
Proof.
  intros Hr Hrun Hs. destruct (history_moves _ _ _ _ Hr Hrun) as (run' & ? & _ & _ & _ & Hk).
  destruct (Hk Hs). eauto.
Qed.

(** C7: The terminal evidence of every slot and of every candidate is in sequence, whatever the program
    runs: the attempts are numbered from one without a gap or a repetition and nothing follows the
    one that succeeded, so that no slot ever has two candidates and no candidate two judgements. *)
Theorem evidence_in_sequence (db0 db : DB) run_id :
  ct_generations (e_rest db0) = ∅ → ct_semantics (e_rest db0) = ∅ → history db0 db →
  (∀ slot, in_sequence (slot_attempts db run_id slot)) ∧
  (∀ id, in_sequence (candidate_attempts db run_id id)).
Proof.
  intros Hg Hs Hr%lifecycle_history. destruct (evidence_histories _ _ Hg Hs Hr) as [? ? _ _]. auto.
Qed.

(** C31: No result without a reservation: every terminal row of a run, in whatever history, answers the
    one dispatch that its invocation was reserved with, for the same execution, target and number,
    and a judgement is about a candidate that the run holds. *)
Theorem evidence_was_reserved (db0 db : DB) run_id :
  ct_generations (e_rest db0) = ∅ → ct_semantics (e_rest db0) = ∅ → history db0 db →
  (∀ r, r ∈ generations_of db run_id → reserved_generation db run_id r) ∧
  (∀ r, r ∈ semantics_of db run_id → reserved_judgement db run_id r ∧
     ∃ g, g ∈ generations_of db run_id ∧ gr_candidate_id g = Some (sr_candidate_id r)).
Proof.
  intros Hg Hs Hr%lifecycle_history. destruct (evidence_histories _ _ Hg Hs Hr) as [_ _ ? ?]. auto.
Qed.

(** C32: Evidence is append-only: no history of operations changes or removes a reserved dispatch, a
    judgement or a generation that is stored, except that the candidate document of a generation
    may be replaced (a judgement writes its outcome there). *)
Theorem evidence_append_only (db db' : DB) : history db db' → retains db db'.
Proof. intros Hr%lifecycle_history. by apply steps_retain. Qed.

(** C12: The evidence is within the budget: in every history of operations, a slot of a run has at most as
    many terminal generations, and a candidate at most as many terminal judgements, as the policy
    that the run was frozen with allows. *)
Theorem evidence_within_policy (db0 db : DB) run_id policy :
  e_dispatches db0 = ∅ → ct_generations (e_rest db0) = ∅ → ct_semantics (e_rest db0) = ∅ →
  history db0 db → frozen_under db run_id policy →
  (∀ slot, len (slot_attempts db run_id slot) <= per_target policy "generation") ∧
  (∀ id, len (candidate_attempts db run_id id) <= per_target policy "semantic").
Proof. intros Hd Hg Hs Hr%lifecycle_history. by eapply steps_within_policy. Qed.
End histories.
