(* ===== verification/FinalDecisions.v ===== *)
(** * FinalDecisions: what a final decision in storage stands for

    The theorems about the decisions of [ReviewDecisions] that need the whole model: what the stored
    rows of a run prove once it is approved, and that the record of a decision verifies itself. *)
From stdpp Require Import sorting.
From S2P Require Import Prelude PyText PyTime PyHash PyNum PyJson JsonRoundTrip PyIso Transactions.
From S2P Require Import Tables Failure Checkpoint Completion Preflight Actions Resolution Review.
From S2P Require Import Correction Gates Reopening Closure Publication Policies CheckpointRecords.
From S2P Require Import CompletionRecords SlotClaims Projection Acceptance CompletionProgress.
From S2P Require Import Documents DispatchLedger CandidatePlan Completions Judgements Recovery EvidenceLedger.
From S2P Require Import EvidenceBudget Suites RunProgress UnknownDecisions ContractDecisions.
From S2P Require Import RunCreation ReviewRecords GateSnapshot ReviewDecisions Cancellations.
From S2P Require Import RunLifecycle RunHistories.

Local Open Scope string_scope.
Local Open Scope Z_scope.

(** ** Documents that agree *)

(** Two objects with the same values, except possibly under [ks]. *)
Definition agrees (ks : list string) (p q : json) : Prop :=
  ∃ l m, p = JObj l ∧ q = JObj m ∧ ∀ k, k ∉ ks → assoc k l = assoc k m.

Section agreement.
Context (ks : list string).
Lemma agrees_dict p k v : json_item p k = Ok v → agrees ks p p.
Proof. destruct p as [| | | | | |l]; try done. intros _. by exists l, l. Qed.
Lemma agrees_set k v p q : k ∈ ks → agrees ks p q → agrees ks (set_item k v p) q.
Proof.
  intros Hk (l & m & -> & -> & Ha). exists (assoc_set k v l), m. split_and!; [done..|].
  intros k' Hk'. rewrite assoc_assoc_set, bool_decide_eq_false_2 by (by intros ->). by apply Ha.
Qed.
Lemma agrees_item p q k : agrees ks p q → k ∉ ks → json_item p k = json_item q k.
Proof. intros (l & m & -> & -> & Ha) Hk. cbn. by rewrite Ha. Qed.
Lemma agrees_get p q k : agrees ks p q → k ∉ ks → json_get p k = json_get q k.
Proof. intros (l & m & -> & -> & Ha) Hk. cbn. by rewrite Ha. Qed.
Lemma agrees_default p q k d : agrees ks p q → k ∉ ks → json_get_default p k d = json_get_default q k d.
Proof. intros (l & m & -> & -> & Ha) Hk. cbn. by rewrite Ha. Qed.
End agreement.

(** What a decision writes. *)
Definition decision_keys : list string := ["status"; "finalized_at"; "gate_result"; "transitions"].

Lemma agreed_reviews p q :
  agrees decision_keys p q →
  human_reviews p = human_reviews q ∧ decode_corrections p = decode_corrections q ∧
  resolutions_of p = resolutions_of q ∧ recoveries_of p = recoveries_of q.
Proof.
  intros Ha. unfold human_reviews, decode_corrections, resolutions_of, recoveries_of.
  split_and!; by rewrite (agrees_default decision_keys p q) by (done || by apply (bool_decide_unpack _)).
Qed.

(** ** Reviews *)

Lemma decoded_review v r : decode_review v = Ok r → constructed r.
Proof. unfold decode_review. intros H. ok_inv. by match goal with H : construct _ = Ok _ |- _ => apply construct_Ok in H as [? ->] end. Qed.
Lemma decoded_correction v c : decode_correction v = Ok c → constructed (rv_review c).
Proof.
  unfold decode_correction. intros H. ok_inv.
  match goal with H : construct _ = Ok _ |- _ => apply construct_Ok in H as [_ ->] end.
  by eapply decoded_review.
Qed.
Lemma mapM_decoded {A B} (f : A → res B) (P : B → Prop) l k :
  (∀ x y, f x = Ok y → P y) → mapM f l = Ok k → Forall P k.
Proof.
  intros Hf H%mapM_Ok. induction H; constructor; eauto.
Qed.
Lemma human_reviews_constructed progress reviews :
  human_reviews progress = Ok reviews → Forall constructed reviews.
Proof.
  unfold human_reviews, decode_reviews. intros H. ok_inv. eapply mapM_decoded; [|eassumption].
  apply decoded_review.
Qed.
Lemma corrections_constructed progress corrections :
  decode_corrections progress = Ok corrections → Forall (λ c, constructed (rv_review c)) corrections.
Proof.
  unfold decode_corrections, decode_correction_list. intros (raw & _ & H)%bind_Ok.
  destruct raw; try done. eapply mapM_decoded; [|eassumption]. apply decoded_correction.
Qed.
(** A correction replaces one decision by the decision it carries. *)
Lemma effective_constructed originals corrections version reviews :
  Forall constructed originals → Forall (λ c, constructed (rv_review c)) corrections →
  effective_reviews originals corrections version = Ok reviews → Forall constructed reviews.
Proof.
  intros Ho Hc. unfold effective_reviews. intros H. ok_inv.
  apply (foldM_ind (apply_correction version) (λ st, Forall constructed (cs_result st))
           (mk_correction_state originals [] ∅ 0) corrections); [|exact Ho|done].
  intros st c st' Hin Hst Ha. rewrite Forall_forall in Hc. unfold apply_correction in Ha.
  destruct (indices_of _ _) as [|i []]; try done. ok_inv. cbn [cs_result].
  apply Forall_insert; [done|by apply Hc].
Qed.
Lemma validated_effective originals corrections candidates closed_at version at_ gate reviews :
  validate_corrections originals corrections candidates closed_at version at_ gate = Ok reviews →
  effective_reviews originals corrections version = Ok reviews.
Proof. unfold validate_corrections. intros H. by ok_inv. Qed.

Section decisions.
Context {R : Type}.
Notation DB := (EvaluationTables (CompletionTables R)).
Context {assets : Assets} {run_assets : RunAssets DB} {mysql_json : MysqlJson}.

(** ** The snapshot of a run *)

(** What a snapshot was made of. *)
Record SnapshotSource : Type := mk_SnapshotSource {
  so_creation : json;
  so_audit : json;
  so_documents : FrozenDocuments;
  so_preflight : PreflightEvidence;
  so_rows : StoredEvidence;
  so_inventory : ClosedInventory;
  so_originals : list CandidateHumanReview;
  so_corrections : list ReviewCorrection;
  so_thresholds : QualityThresholds;
  so_rule : option string;
}.
Record loaded (db : DB) (scope : ManagementScope) (run : EvaluationRunRow) (version : Z)
    (at_ : datetime) (snapshot : GateSnapshot) (so : SnapshotSource) : Prop := {
  ld_creation : loads (er_definition_json run) = Ok (so_creation so);
  ld_status : json_item (er_progress_json run) "status" = Ok (JStr "awaiting_review");
  ld_documents : check_documents db run (so_creation so) = Ok (so_documents so);
  ld_rows : stored_evidence db (ms_run_id scope) (fd_policy (so_documents so)) = Ok (so_rows so);
  ld_inventory : check_inventory (so_creation so) (er_progress_json run) (so_audit so)
    (so_documents so) (so_preflight so) (so_rows so) = Ok (so_inventory so);
  ld_originals : human_reviews (er_progress_json run) = Ok (so_originals so);
  ld_corrections : decode_corrections (er_progress_json run) = Ok (so_corrections so);
  ld_reviews : effective_reviews (so_originals so) (so_corrections so) version
    = Ok (gn_reviews snapshot);
  ld_thresholds : quality_thresholds (fd_gate (so_documents so)) = Ok (so_thresholds so);
  ld_quality : evaluate_quality_gates (ci_candidates (so_inventory so))
    (ci_generations (so_inventory so)) (ci_semantics (so_inventory so)) (gn_reviews snapshot)
    (so_thresholds so) (ci_closed_at (so_inventory so)) at_ (so_rule so)
    = Ok (gv_quality (gn_preview snapshot));
  ld_version : gv_version (gn_preview snapshot) = version;
}.

Lemma load_snapshot_inv (db : DB) scope run version expected_version at_ snapshot :
  load_snapshot db scope run version expected_version at_ = Ok snapshot →
  ∃ so, loaded db scope run version at_ snapshot so.
Proof using Type.
  intros Hx. apply load_snapshot_status in Hx as Hst. unfold load_snapshot in Hx.
  apply bind_Ok_unit in Hx as [_ Hx]. destruct (e_checkpoints db !! _) as [[n value]|]; [|done].
  apply bind_Ok_unit in Hx as [_ Hx]. apply bind_Ok in Hx as (creation & Hc & Hx).
  apply bind_Ok_unit in Hx as [_ Hx]. apply bind_Ok_unit in Hx as [_ Hx].
  apply bind_Ok in Hx as (audit & Ha & (documents & Hd & (preflight & Hp & (rows & Hr & Hx)%bind_Ok)%bind_Ok)%bind_Ok).
  apply bind_Ok in Hx as (inv & Hi & Hx). cbn zeta in Hx.
  apply bind_Ok in Hx as (originals & Ho & (corrections & Hco & (reviews & Hre & Hx)%bind_Ok)%bind_Ok).
  apply bind_Ok in Hx as (thresholds & Ht & (rule & Hru & Hx)%bind_Ok).
  apply bind_Ok_unit in Hx as [_ Hx]. apply bind_Ok in Hx as (quality & Hq & [= <-]).
  exists (mk_SnapshotSource creation audit documents preflight rows inv originals corrections thresholds
            rule).
  apply validated_effective in Hre. by split.
Qed.

(** ** What approval stands for *)

(** The rows of a run, in some order. *)
Record rows_of (db : DB) (run_id : string) (rows : StoredEvidence) : Prop := {
  ro_generations : se_generations rows ≡ₚ generations_of db run_id;
  ro_semantics : se_semantics rows ≡ₚ semantics_of db run_id;
  ro_dispatches : se_dispatches rows ≡ₚ dispatches_of db run_id;
}.

(** A closed collection: inside its budgets, every slot ready with histories that succeed, every
    execution between the preflight and the closure, every unknown result authorized. *)
Record closed_collection (policy : ExecutionPolicy) (preflight : PreflightEvidence)
    (slots : list SlotProgress) (generations : list GenerationCompletion)
    (semantics : list SemanticCompletion) (resolutions : list ResultUnknownResolution)
    (t : datetime) : Prop := {
  cc_budget : len generations <= generation_per_run policy ∧ len semantics <= semantic_per_run policy;
  cc_plan : check_plan slots policy = Ok tt;
  cc_slots : ∀ s, s ∈ slots → ∃ c, sp_candidate s = Some c ∧ cand_review_ready c = true ∧
     (∃ e, last (sp_generation s) = Some e ∧ er_status e = "succeeded") ∧
     (∃ e, last (cand_semantic c) = Some e ∧ er_status e = "succeeded");
  cc_interval : ∀ e, e ∈ all_executions generations semantics →
     dt_le (pe_evaluated_at preflight) (ex_started e) = Ok true ∧
     dt_le (ex_started e) (ex_finished e) = Ok true ∧ dt_le (ex_finished e) t = Ok true;
  cc_unknown : ∀ e, e ∈ all_executions generations semantics → ex_status e = "result_unknown" →
     ∃ r, r ∈ resolutions ∧ ru_execution_id r = ex_id e ∧
       ru_decision r = "authorize_replacement" ∧ dt_gt (ru_resolved_at r) t = Ok false;
}.

(** Every candidate of the inventory is there, signed for both roles by two people, and good. *)
Record signed_inventory (thresholds : QualityThresholds) (reviews : list CandidateHumanReview)
    (inv : ClosedInventory) : Prop := {
  sg_candidates : len (ci_candidates inv)
    = qt_generation_cases thresholds * qt_candidates_per_case thresholds;
  sg_reviews : len reviews = qt_review_count thresholds;
  sg_signed : ∀ c, c ∈ ci_candidates inv →
    human_complete reviews (rc_candidate_id (qc_evidence c)) ∧
    candidate_quality reviews thresholds (ci_closed_at inv) c ∧
    quality_candidate_bound (ci_generations inv) (ci_semantics inv) (ci_closed_at inv) c = Ok tt;
}.

(** The stored run is accountable: its frozen documents, its stored rows and its stored reviews and
    corrections are those of a closed collection with a signed inventory. *)
Inductive accountable (db : DB) (run_id : string) (run : EvaluationRunRow) : Prop :=
| accountable_run creation policy gate thresholds rows plan slots preflight resolutions recoveries
    resolved inv originals corrections version reviews :
  loads (er_definition_json run) = Ok creation → frozen_policies creation = Ok (policy, gate) →
  er_frozen_policy run = Some (policy_fingerprint policy, policy_definition_json policy) →
  quality_thresholds gate = Ok thresholds →
  rows_of db run_id rows →
  mapM decode_completion (se_generations rows) = Ok (ci_generations inv) →
  mapM decode_semantic_completion (se_semantics rows) = Ok (ci_semantics inv) →
  quality_candidates (se_generations rows) (se_semantics rows) = Ok (ci_candidates inv) →
  json_item creation "slots" = Ok plan →
  resolutions_of (er_progress_json run) = Ok resolutions →
  recoveries_of (er_progress_json run) = Ok recoveries →
  project_slots plan (se_generations rows) (se_dispatches rows) (se_semantics rows) resolutions
    recoveries policy = Ok slots →
  decode_resolutions resolutions = Ok resolved →
  closed_collection policy preflight slots (ci_generations inv) (ci_semantics inv) resolved
    (ci_closed_at inv) →
  human_reviews (er_progress_json run) = Ok originals →
  decode_corrections (er_progress_json run) = Ok corrections →
  effective_reviews originals corrections version = Ok reviews →
  signed_inventory thresholds reviews inv →
  accountable db run_id run.

(** The rows under the keys of a run. *)
Lemma run_rows_perm {V} (m m' : gmap (string * string) V) (run_id : string) :
  (∀ k, m' !! (run_id, k) = m !! (run_id, k)) →
  filter (λ row, row.1.1 = run_id) (map_to_list m') ≡ₚ filter (λ row, row.1.1 = run_id) (map_to_list m).
Proof using Type.
  intros Hm. apply NoDup_Permutation; [apply NoDup_filter, NoDup_map_to_list..|].
  intros [[r k] v]. rewrite !list_elem_of_filter, !elem_of_map_to_list. cbn.
  split; intros [-> Hv]; (split; [done|]); congruence.
Qed.
Lemma rows_stay (db db' : DB) run_id rows :
  (∀ k, evidence_at db' run_id k = evidence_at db run_id k) → rows_of db run_id rows → rows_of db' run_id rows.
Proof using Type.
  intros He [Hg Hs Hd]. unfold evidence_at in He.
  split; [rewrite Hg|rewrite Hs|rewrite Hd]; symmetry;
    (apply fmap_Permutation, run_rows_perm; intros k; specialize (He k); congruence).
Qed.

Lemma stored_evidence_rows (db : DB) run_id policy rows :
  stored_evidence db run_id policy = Ok rows → rows_of db run_id rows.
Proof using Type.
  unfold stored_evidence. intros H. ok_inv. split; apply sort_by_perm.
Qed.

Lemma check_documents_frozen (db : DB) run creation documents :
  check_documents db run creation = Ok documents →
  frozen_policies creation = Ok (fd_policy documents, fd_gate documents) ∧
  er_frozen_policy run
    = Some (policy_fingerprint (fd_policy documents), policy_definition_json (fd_policy documents)).
Proof using Type.
  unfold check_documents. intros (release & _ & ([policy gate] & Hf & H)%bind_Ok)%bind_Ok. ok_inv.
  cbn [fd_policy fd_gate]. split; [done|].
  match goal with H : negb (bool_decide (er_frozen_policy run = _)) = false |- _ =>
    by apply negb_false_iff, bool_decide_eq_true in H end.
Qed.

Lemma check_inventory_Ok creation progress audit documents preflight rows inv :
  check_inventory creation progress audit documents preflight rows = Ok inv →
  ∃ plan resolutions recoveries slots resolved,
    json_item creation "slots" = Ok plan ∧ resolutions_of progress = Ok resolutions ∧
    recoveries_of progress = Ok recoveries ∧
    project_slots plan (se_generations rows) (se_dispatches rows) (se_semantics rows) resolutions
      recoveries (fd_policy documents) = Ok slots ∧
    decode_resolutions resolutions = Ok resolved ∧
    mapM decode_completion (se_generations rows) = Ok (ci_generations inv) ∧
    mapM decode_semantic_completion (se_semantics rows) = Ok (ci_semantics inv) ∧
    quality_candidates (se_generations rows) (se_semantics rows) = Ok (ci_candidates inv) ∧
    closed_collection (fd_policy documents) preflight slots (ci_generations inv) (ci_semantics inv)
      resolved (ci_closed_at inv).
Proof using Type.
  unfold check_inventory.
  intros (plan & Hp & (resolutions & Hr & (recoveries & Hc & (slots & Hs & H)%bind_Ok)%bind_Ok)%bind_Ok)%bind_Ok.
  apply bind_Ok in H as (generated & Hg & (judged & Hj & ([count transitions] & _ & H)%bind_Ok)%bind_Ok).
  apply bind_Ok in H as (created & _ & (requested_by & _ & (resolved & Hd & (recovered & _ & H)%bind_Ok)
    %bind_Ok)%bind_Ok).
  apply bind_Ok in H as (closed & Hv & H). apply bind_Ok_unit in H as [_ H].
  apply bind_Ok in H as (candidates & Hq & [= <-]).
  exists plan, resolutions, recoveries, slots, resolved. split_and!; try done.
  apply closed_inventory_Ok in Hv as (? & ? & ? & _ & Hslots & ? & ?). split; try done.
  intros s Hin. destruct (Hslots s Hin) as (c & ? & ? & _ & _ & ? & ?). by exists c.
Qed.

(** A snapshot that is finalized as approved was made of an accountable run. *)
Lemma approved_snapshot (db : DB) scope run version at_ snapshot so actor reason decision :
  loaded db scope run version at_ snapshot so →
  finalize_review (gv_quality (gn_preview snapshot)) actor reason = Ok decision →
  fr_passed decision = true → accountable db (ms_run_id scope) run.
Proof using Type.
  intros [Hcr _ Hdoc Hrows Hinv Ho Hco Hre Ht Hq _] Hf Hp.
  apply check_documents_frozen in Hdoc as [Hfr Hpol]. apply stored_evidence_rows in Hrows.
  apply check_inventory_Ok in Hinv
    as (plan & resolutions & recoveries & slots & resolved & ? & ? & ? & ? & ? & ? & ? & ? & ?).
  assert (Hall : Forall constructed (gn_reviews snapshot)).
  { eapply effective_constructed; [by eapply human_reviews_constructed|by eapply corrections_constructed|exact Hre]. }
  destruct (approval_accountable _ _ _ _ _ _ _ _ _ _ _ _ Hall Hq Hf) as [_ Happ].
  destruct Happ as (Hlc & Hlr & Heach); [unfold final_status; by rewrite Hp|].
  by econstructor; try done; split.
Qed.

(** The evidence and what a decision leaves of the progress carry the account over. *)
Lemma accountable_kept (db db' : DB) run_id run run' :
  accountable db run_id run → er_definition_json run' = er_definition_json run →
  (∀ policy, er_frozen_policy run = Some policy → er_frozen_policy run' = Some policy) →
  agrees decision_keys (er_progress_json run') (er_progress_json run) →
  (∀ k, evidence_at db' run_id k = evidence_at db run_id k) → accountable db' run_id run'.
Proof using Type.
  intros [] Hd Hf (Ha1 & Ha2 & Ha3 & Ha4)%agreed_reviews He.
  econstructor; rewrite ?Hd, ?Ha1, ?Ha2, ?Ha3, ?Ha4; try done; [by apply Hf|by eapply rows_stay].
Qed.

(** What the transaction of a decision is made of. *)
Lemma finalize_Ok scope v passed reason at_ confirm (db db1 : DB) u :
  finalize scope v passed reason at_ confirm db = (Ok u, db1) →
  ∃ run snapshot updated,
    e_runs db !! ms_run_id scope = Some run ∧ e_checkpoints db !! ms_run_id scope = Some (v, JNull) ∧
    er_organization_id run = ms_organization_id scope ∧
    load_snapshot db scope run v v at_ = Ok snapshot ∧
    finalized_progress (er_progress_json run) (gn_preview snapshot) (actor scope) reason passed
      = Ok updated ∧
    1 <= v ∧ db1 = decided (ms_run_id scope) v JNull updated db.
Proof using Type.
  unfold finalize. intros Hx. run_inv. split_pairs.
  rename select (lock_run_in_transaction _ _ _ = _) into Hl.
  apply lock_transaction_Ok in Hl as (-> & -> & Hc & Hrun & Ho). run_inv. apply save_progress_Ok in Hx.
  rename select (evaluate_snapshot _ _ _ _ _ _ = _) into He. unfold evaluate_snapshot in He. ok_inv.
  apply store_progress_Ok in Hx as (_ & _ & _ & Hdb). cbn in Hdb.
  do 3 eexists. split_and!; try done; bool_inv; by subst.
Qed.

Lemma finalized_agrees progress preview actor reason passed updated s :
  json_item progress "status" = Ok s →
  finalized_progress progress preview actor reason passed = Ok updated →
  agrees decision_keys updated progress.
Proof using Type.
  intros Hs H. unfold finalized_progress in H. ok_inv.
  repeat (apply agrees_set; [by apply (bool_decide_unpack _)|]). by eapply agrees_dict.
Qed.

(** C1: What an approval stands for, for as long as the system runs: once a run is finalized as approved,
    it stays approved through every later operation, and the rows, frozen documents, reviews and
    corrections that are stored for it are those of a closed collection inside the frozen policy in
    which every candidate has both signatures by two people and meets the frozen thresholds. *)
Theorem approval_from_storage (db db1 db2 : DB) scope v reason at_ confirm u :
  decision_readable db scope v at_ →
  finalize scope v true reason at_ confirm db = (Ok u, db1) → history db1 db2 →
  ∃ run, e_runs db2 !! ms_run_id scope = Some run ∧
    progress_status (er_progress_json run) = "approved" ∧ accountable db2 (ms_run_id scope) run.
Proof using Type.
  intros Hread Hx Hh. apply finalize_Ok in Hx as (run & snapshot & updated & Hrun & _ & _ & Hl & Hp & _ & ->).
  apply load_snapshot_inv in Hl as Hso. destruct Hso as [so Hso]. pose proof (ld_status _ _ _ _ _ _ _ Hso) as Hs.
  assert (Ht : textual (gate_result_dict (gn_preview snapshot)) = true).
  { apply (Hread _ _ Hrun). unfold evaluate_snapshot. by rewrite Hl. }
  pose proof (finalized_agrees _ _ _ _ _ _ _ Hs Hp) as Ha.
  eapply finalized_status in Hp as (d & Hf & Hd & Hst & _); [|exact Ht|exact Hs].
  unfold final_status in Hst. rewrite Hd in Hst. apply item_status in Hst.
  pose proof (approved_snapshot _ _ _ _ _ _ _ _ _ _ Hso Hf Hd) as Hacc.
  destruct (history_moves _ _ (ms_run_id scope) (with_progress updated run) Hh)
    as (run2 & Hrun2 & [Hsame Hpol] & _ & Hterm & Hrev).
  { cbn [decided e_runs set_runs]. by rewrite lookup_alter_eq, Hrun. }
  cbn [er_progress_json with_progress] in *. rewrite Hst in *. exists run2. split; [exact Hrun2|].
  rewrite Hterm by (by apply (bool_decide_unpack _)). split; [exact Hst|].
  destruct Hrev as [_ Hev]; [by apply (bool_decide_unpack _)|].
  eapply accountable_kept; [exact Hacc|by injection Hsame|exact Hpol| |exact Hev].
  by rewrite Hterm by (by apply (bool_decide_unpack _)).
Qed.
End decisions.
