(* ===== verification/FinalVerification.v ===== *)
(** * FinalVerification: the record of a final decision verifies itself

    [verified_final_snapshot] of [ReviewDecisions] believes nothing of a decided run: it puts the
    progress back to the state before the decision, evaluates the gates again on the stored rows at
    the recorded time and version, and compares the record.  Here: it accepts what [finalize] wrote,
    so that reading a decision and reopening a rejected run start from the decision that was made. *)
From S2P Require Import Prelude PyText PyTime PyHash PyNum PyJson JsonRoundTrip PyIso Transactions.
From S2P Require Import Tables Failure Checkpoint Completion Preflight Actions Resolution Review.
From S2P Require Import Correction Gates Reopening Closure Publication Policies CheckpointRecords.
From S2P Require Import CompletionRecords SlotClaims Projection Acceptance CompletionProgress.
From S2P Require Import Documents CandidatePlan Completions Judgements Suites RunProgress.
From S2P Require Import UnknownDecisions ContractDecisions RunCreation ReviewRecords GateSnapshot.
From S2P Require Import ReviewDecisions RunLifecycle FinalDecisions.

Local Open Scope string_scope.
Local Open Scope Z_scope.

(** What differs before a decision and after it is taken back. *)
Definition undone_keys : list string := ["finalized_at"; "gate_result"].

Ltac agree Ha :=
  rewrite ?(agrees_item undone_keys _ _ _ Ha), ?(agrees_get undone_keys _ _ _ Ha),
    ?(agrees_default undone_keys _ _ _ _ Ha) by by apply (bool_decide_unpack _).

Lemma item_truthy p k v : json_item p k = Ok v → truthy p = true.
Proof. destruct p as [| | | | | |l]; try done. by destruct l. Qed.

Section agreed.
Context (p q : json) (Ha : agrees undone_keys p q).

Lemma agreed_status s : status_differs s p = status_differs s q.
Proof using Ha. unfold status_differs. by agree Ha. Qed.
Lemma agreed_preflight documents : check_preflight p documents = check_preflight q documents.
Proof using Ha. unfold check_preflight. by agree Ha. Qed.
Lemma agreed_records :
  human_reviews p = human_reviews q ∧ decode_corrections p = decode_corrections q.
Proof using Ha. unfold human_reviews, decode_corrections. by agree Ha. Qed.
Lemma agreed_inventory creation audit documents preflight rows :
  check_inventory creation p audit documents preflight rows
  = check_inventory creation q audit documents preflight rows.
Proof using Ha.
  unfold check_inventory, resolutions_of, recoveries_of, check_history_audit, list_field. by agree Ha.
Qed.
Lemma agreed_rule creation version at_ :
  acceptance_version creation p version at_ = acceptance_version creation q version at_.
Proof using Ha. unfold acceptance_version, list_field. by agree Ha. Qed.
Lemma agreed_rounds run_id version fingerprint count candidates closed_at at_ calculate :
  validate_rounds run_id version fingerprint p count candidates closed_at at_ calculate
  = validate_rounds run_id version fingerprint q count candidates closed_at at_ calculate.
Proof using Ha.
  unfold validate_rounds, list_field. destruct agreed_records as [-> ->]. by agree Ha.
Qed.
Lemma agreed_unreconciled :
  json_item p "gate_result" = Ok JNull → json_item p "finalized_at" = Ok JNull →
  unreconciled q = Ok false → unreconciled p = Ok false.
Proof using Ha.
  unfold unreconciled, flag. intros Hg Hf H. agree Ha.
  destruct p as [| | | | | |l]; try done. cbn [json_item json_get] in *.
  destruct (assoc "gate_result" l) as [g|]; [|done]. injection Hg as ->.
  destruct (assoc "finalized_at" l) as [f|]; [|done]. injection Hf as ->.
  apply bind_Ok in H as (count & Hc & H). rewrite Hc. cbn [mbind res_bind].
  rewrite !orM_false in H |- *.
  destruct H as [[H _] _]. by split_and!; try apply H.
Qed.
End agreed.

Section verification.
Context {R : Type}.
Notation DB := (EvaluationTables (CompletionTables R)).
Context {assets : Assets} {run_assets : RunAssets DB} {mysql_json : MysqlJson} {server : JsonServer}.

(** The tables that a snapshot reads, apart from the run. *)
Record same_sources (db db' : DB) (run_id : string) : Prop := {
  ss_rest : e_rest db' = e_rest db;
  ss_dispatches : e_dispatches db' = e_dispatches db;
  ss_suite : ∀ creation, stored_run_suite db' creation = stored_run_suite db creation;
  ss_idle : ∃ version, e_checkpoints db' !! run_id = Some (version, JNull);
}.

Lemma check_documents_again (db db' : DB) run_id run p creation :
  same_sources db db' run_id →
  check_documents db' (with_progress p run) creation = check_documents db run creation.
Proof using Type. intros [_ _ Hs _]. unfold check_documents, run_suite. by rewrite Hs. Qed.
Lemma stored_evidence_again (db db' : DB) run_id policy :
  same_sources db db' run_id → stored_evidence db' run_id policy = stored_evidence db run_id policy.
Proof using Type.
  intros [Hr Hd _ _]. unfold stored_evidence, generations_of, semantics_of, dispatches_of.
  by rewrite Hr, Hd.
Qed.

(** The next statement succeeds by [E], here and in the hypothesis. *)
Ltac again H :=
  let x := fresh "x" in let E := fresh "E" in
  apply bind_Ok in H as (x & E & H); rewrite E; cbn beta iota zeta in H |- *;
  cbn [mbind res_bind].

Lemma load_snapshot_again (db db' : DB) scope run p version at_ snapshot :
  same_sources db db' (ms_run_id scope) → agrees undone_keys p (er_progress_json run) →
  json_item p "gate_result" = Ok JNull → json_item p "finalized_at" = Ok JNull →
  load_snapshot db scope run version version at_ = Ok snapshot →
  load_snapshot db' scope (with_progress p run) version version at_ = Ok snapshot.
Proof using Type.
  intros Hss Ha Hg Hf H. destruct (ss_idle _ _ _ Hss) as [n Hc]. unfold load_snapshot in H |- *.
  cbn [er_definition_json er_progress_json with_progress]. rewrite Hc. again H.
  destruct (e_checkpoints db !! _) as [[m value]|]; [|done].
  apply bind_Ok_unit in H as [_ H]. cbn beta iota zeta in H. cbn [is_null negb].
  unfold raise_if at 1. cbn [mbind res_bind].
  again H. rewrite (item_truthy _ _ _ Hg), (agreed_status _ _ Ha).
  apply bind_Ok_unit in H as [[_ Hst]%raise_ifM_Ok%orM_false H]. rewrite Hst.
  apply bind_Ok_unit in H as [Hun%raise_ifM_Ok H]. rewrite (agreed_unreconciled _ _ Ha Hg Hf Hun).
  unfold raise_ifM at 1 2. unfold orM at 1. unfold raise_if at 1 2. cbn [mbind res_bind negb].
  replace (check_audit scope (with_progress p run)) with (check_audit scope run) by done. again H.
  rewrite (check_documents_again _ _ _ _ _ _ Hss). again H.
  rewrite (agreed_preflight _ _ Ha). again H. rewrite (stored_evidence_again _ _ _ _ Hss). again H.
  rewrite (agreed_inventory _ _ Ha). again H. destruct (agreed_records _ _ Ha) as [-> ->].
  do 4 again H. rewrite (agreed_rule _ _ Ha). again H. by rewrite (agreed_rounds _ _ Ha).
Qed.

Lemma loaded_transitions (db : DB) scope run version at_ snapshot :
  load_snapshot db scope run version version at_ = Ok snapshot →
  ∃ transitions, json_item (er_progress_json run) "transitions" = Ok (JList transitions).
Proof using Type.
  intros [so [_ _ _ _ Hi _ _ _ _ _ _]]%load_snapshot_inv. unfold check_inventory, check_history_audit, list_field in Hi.
  ok_inv. destruct (json_item (er_progress_json run) "transitions") as [raw|e] eqn:E; [|ok_inv].
  destruct raw as [| | | | |l|]; try (cbn [mbind res_bind] in *; ok_inv; done). by eexists.
Qed.

(** The transition and the progress that a decision writes. *)
Definition decision_transition (decision : FinalReview) : json :=
  JObj [("from", JStr "awaiting_review"); ("to", JStr (final_status decision));
        ("actor", JStr (fr_actor decision)); ("cause_code", JStr "human_review_finalized");
        ("reason", JStr (fr_reason decision)); ("at", time_json (fr_finalized_at decision))].
Definition with_decision (preview : GatePreview) (decision : FinalReview) (transitions : list json)
    (progress : json) : json :=
  set_item "transitions" (JList (transitions ++ [decision_transition decision]))
    (set_item "gate_result" (final_record_dict preview decision)
       (set_item "finalized_at" (time_json (fr_finalized_at decision))
          (set_item "status" (JStr (final_status decision)) progress))).

Lemma record_transition preview decision :
  final_transition (final_record_dict preview decision) = Ok (decision_transition decision).
Proof using Type. reflexivity. Qed.

Lemma finalized_progress_Ok progress preview actor reason passed updated transitions :
  textual (gate_result_dict preview) = true →
  json_item progress "transitions" = Ok (JList transitions) →
  finalized_progress progress preview actor reason passed = Ok updated →
  ∃ decision, finalize_review (gv_quality preview) actor reason = Ok decision ∧
    final_record preview actor reason = Ok (final_record_dict preview decision) ∧
    updated = with_decision preview decision transitions progress.
Proof using Type.
  intros Ht Hts. unfold finalized_progress, with_transition. rewrite Hts.
  intros (record & Hr & H)%bind_Ok. pose proof Hr as (decision & Hf & ->)%final_record_written; [|done].
  apply bind_Ok_unit in H as [_ H]. rewrite record_transition in H.
  apply bind_Ok in H as (s & Hs & (t & Hft & [= <-])%bind_Ok). exists decision. split_and!; try done.
  assert (s = JStr (final_status decision)) as -> by (by apply Ok_inj; rewrite <- Hs).
  assert (t = time_json (fr_finalized_at decision)) as -> by (by apply Ok_inj; rewrite <- Hft). done.
Qed.

Lemma finalize_review_fields quality actor reason decision :
  finalize_review quality actor reason = Ok decision →
  fr_actor decision = actor ∧ fr_reason decision = reason ∧
  fr_finalized_at decision = qg_evaluated_at quality.
Proof using Type.
  unfold finalize_review. intros H. apply bind_Ok_unit in H as [_ H].
  by apply construct_Ok in H as [_ ->].
Qed.

Lemma last_transition l t : last_item (JList (l ++ [t])) = Ok t.
Proof using Type. cbn [last_item]. by rewrite last_snoc. Qed.

(** The row as the next transaction reads it: its progress went through a column of type JSON. *)
Definition row_read (run : EvaluationRunRow) : EvaluationRunRow :=
  with_progress (stored (er_progress_json run)) run.

(** What the server is relied on for: the time is one that prints; the registered suite is the same;
    the progress that was read before the decision comes back unchanged when it is written again;
    and [CAST] gives back of the text of the record what a column gives back of the record, whatever
    that is: it may round the ratios and reorder the members. *)
Record server_keeps (db db1 : DB) (run_id : string) (at_ : datetime) : Prop := {
  sk_time : printable_time at_ = true;
  sk_suite : ∀ creation, stored_run_suite db1 creation = stored_run_suite db creation;
  sk_progress : ∀ run, e_runs db !! run_id = Some run →
    textual (er_progress_json run) = true ∧ stored (er_progress_json run) = er_progress_json run;
  sk_cast : ∀ run record text, e_runs db1 !! run_id = Some run →
    json_get (er_progress_json run) "gate_result" = Ok record →
    dumps_ascii record = Ok text → loads (cast_as_json text) = Ok (stored record);
}.

Lemma dumps_ascii_prints v : prints v = true → ∃ t, dumps_ascii v = Ok t.
Proof using Type.
  rewrite <- (dumps_prints sorted_spaced) by done. unfold dumps_ascii.
  destruct (dumps_with sorted_spaced v); [by eexists|done].
Qed.

(** The comparison through the server accepts what the server gives back of a record. *)
Lemma matches_stored record :
  prints record = true →
  (∀ text, dumps_ascii record = Ok text → loads (cast_as_json text) = Ok (stored record)) →
  mysql_json_record_matches (stored record) record = Ok true.
Proof using Type.
  intros Hp Hc. destruct (dumps_ascii_prints record Hp) as [t Ht].
  destruct (dumps_ascii_prints (stored record)) as [u Hu]; [by apply prints_stored|].
  unfold mysql_json_record_matches. rewrite Ht. cbn [mbind res_bind]. rewrite (Hc _ Ht).
  cbn [mbind res_bind]. rewrite Hu. cbn [mbind res_bind]. by rewrite bool_decide_eq_true_2.
Qed.

Lemma record_prints preview actor reason decision :
  finalize_review (gv_quality preview) actor reason = Ok decision →
  is_ok (final_record preview actor reason) = true →
  prints (final_record_dict preview decision) = true.
Proof using Type.
  intros Hf. unfold final_record. rewrite Hf. cbn [mbind res_bind].
  rewrite <- (dumps_prints compact_finite) by done. by destruct (dumps_with _ _).
Qed.

(** What comes back of the record of a decision. *)
Section record.
Context (preview : GatePreview) (decision : FinalReview).
Notation record := (final_record_dict preview decision).

Lemma record_item k v : json_item record k = Ok v → json_item (stored record) k = Ok (stored v).
Proof using Type. apply stored_item, (bool_decide_unpack _). vm_compute. reflexivity. Qed.

Lemma stored_record_items :
  is_dict (stored record) = true ∧
  json_item (stored record) "source_version" = Ok (JInt (gv_version preview)) ∧
  json_item (stored record) "status" = Ok (JStr (final_status decision)) ∧
  json_item (stored record) "actor" = Ok (JStr (fr_actor decision)) ∧
  json_item (stored record) "reason" = Ok (JStr (fr_reason decision)) ∧
  json_item (stored record) "finalized_at" = Ok (time_json (fr_finalized_at decision)).
Proof using Type.
  split; [done|].
  split_and!; [by apply (record_item "source_version" (JInt _))|by apply (record_item "status" (JStr _))
    |by apply (record_item "actor" (JStr _))|by apply (record_item "reason" (JStr _))
    |by apply (record_item "finalized_at" (JStr _))].
Qed.

Lemma stored_record_transition : final_transition (stored record) = Ok (decision_transition decision).
Proof using Type.
  destruct stored_record_items as (_ & _ & Hs & Ha & Hr & Hf). unfold final_transition.
  rewrite Hs, Ha, Hr, Hf. reflexivity.
Qed.

Lemma stored_transition_same :
  field_differs (Ok (stored (decision_transition decision))) (Ok (decision_transition decision))
  = Ok false.
Proof using Type.
  unfold field_differs. cbn [mbind res_bind].
  enough (json_eqb (stored (decision_transition decision)) (decision_transition decision) = true) as ->
    by done.
  apply (stored_texts [("from", "awaiting_review"); ("to", final_status decision);
    ("actor", fr_actor decision); ("cause_code", "human_review_finalized");
    ("reason", fr_reason decision); ("at", isoformat (fr_finalized_at decision))]).
  apply (bool_decide_unpack _). vm_compute. reflexivity.
Qed.
End record.

(** What comes back of the progress of a decision. *)
Section progress.
Context (preview : GatePreview) (decision : FinalReview) (transitions : list json)
  (l : list (string * json)).
Context (Hl : NoDup l.*1) (Hset : stored (JObj l) = JObj l).
Context (Ht : assoc "transitions" l = Some (JList transitions))
  (Hs : assoc "status" l = Some (JStr "awaiting_review")).
Notation record := (final_record_dict preview decision).
Notation decided := (with_decision preview decision transitions (JObj l)).

Lemma decided_assoc k v :
  (assoc k (assoc_set "transitions" (JList (transitions ++ [decision_transition decision]))
     (assoc_set "gate_result" record
        (assoc_set "finalized_at" (time_json (fr_finalized_at decision))
           (assoc_set "status" (JStr (final_status decision)) l)))) = v) →
  json_item (stored decided) k = match v with Some v => Ok (stored v) | None => Err (KeyError k) end ∧
  json_get (stored decided) k = match v with Some v => Ok (stored v) | None => Ok JNull end.
Proof using Hl.
  intros <-. unfold with_decision. cbn [set_item stored json_item json_get].
  fold (stored_members (assoc_set "transitions" (JList (transitions ++ [decision_transition decision]))
     (assoc_set "gate_result" record
        (assoc_set "finalized_at" (time_json (fr_finalized_at decision))
           (assoc_set "status" (JStr (final_status decision)) l))))).
  rewrite assoc_stored by by repeat apply NoDup_assoc_set. by destruct (assoc k _).
Qed.

Lemma settled_transitions : List.map stored transitions = transitions.
Proof using Hl Hset Ht. pose proof (settled_member _ _ _ Hl Hset Ht) as H. by injection H. Qed.

Lemma decided_items :
  json_get (stored decided) "gate_result" = Ok (stored record) ∧
  json_item (stored decided) "status" = Ok (JStr (final_status decision)) ∧
  json_get (stored decided) "finalized_at" = Ok (time_json (fr_finalized_at decision)) ∧
  json_item (stored decided) "transitions"
  = Ok (JList (transitions ++ [stored (decision_transition decision)])).
Proof using Hl Hset Ht.
  split_and!.
  - apply (decided_assoc "gate_result" (Some record)). by rewrite !assoc_assoc_set.
  - apply (decided_assoc "status" (Some (JStr (final_status decision)))). by rewrite !assoc_assoc_set.
  - apply (decided_assoc "finalized_at" (Some (time_json (fr_finalized_at decision)))).
    by rewrite !assoc_assoc_set.
  - destruct (decided_assoc "transitions"
      (Some (JList (transitions ++ [decision_transition decision])))) as [-> _];
      [by rewrite assoc_assoc_set|]. cbn [stored]. by rewrite map_app, settled_transitions.
Qed.

(** Nothing of the written decision differs from its record. *)
Lemma decision_consistent v :
  1 <= v →
  undecided (stored decided) = Ok false ∧
  finalization_differs (v + 1) (stored decided) (stored record) v = Ok false.
Proof using Hl Hset Ht.
  intros Hv. destruct decided_items as (_ & Hst & Hfa & Hts).
  destruct (stored_record_items preview decision) as (_ & _ & Rs & _ & _ & Rf).
  split; [unfold undecided, status_differs; rewrite Hst; unfold final_status; by destruct (fr_passed decision)|].
  unfold finalization_differs. rewrite Hst, Hfa, Hts, Rs, Rf, stored_record_transition.
  rewrite !orM_false. split_and!.
  - apply (f_equal Ok), orb_false_iff. split; [by apply Z.ltb_ge|by rewrite Z.eqb_refl].
  - by apply (field_same (time_json (fr_finalized_at decision))).
  - by apply (field_same (JStr (final_status decision))).
  - cbn [mbind res_bind]. by destruct transitions.
  - cbn [mbind res_bind]. rewrite last_transition. apply stored_transition_same.
Qed.

Lemma decision_undone :
  ∃ awaiting, awaiting_progress (stored decided) = Ok awaiting ∧
    agrees undone_keys awaiting (JObj l) ∧
    json_item awaiting "gate_result" = Ok JNull ∧ json_item awaiting "finalized_at" = Ok JNull.
Proof using Hl Hset Ht Hs.
  destruct decided_items as (_ & _ & _ & Hts).
  eexists. split.
  { unfold awaiting_progress, list_field. rewrite Hts. cbn [mbind res_bind].
    rewrite removelast_last. unfold with_decision. cbn [set_item stored]. reflexivity. }
  cbn [set_item json_item]. rewrite !assoc_assoc_set. split; [|done]. eexists _, l.
  split; [reflexivity|]. split; [reflexivity|]. intros k Hk. rewrite !assoc_assoc_set.
  unfold undone_keys in Hk. rewrite !not_elem_of_cons in Hk. destruct Hk as (Hf & Hg & _).
  destruct (decide (k = "transitions")) as [->|Hkt]; [by rewrite Ht|].
  destruct (decide (k = "status")) as [->|Hks]; [by rewrite Hs|].
  rewrite !bool_decide_eq_false_2 by done.
  match goal with |- context [arranged (List.map _ ?m)] =>
    change (assoc k (stored_members m) = assoc k l) end.
  rewrite assoc_stored by by repeat apply NoDup_assoc_set.
  rewrite !assoc_assoc_set, !bool_decide_eq_false_2 by done.
  destruct (assoc k l) as [v|] eqn:Hv; [|done]. cbn. by rewrite (settled_member _ _ _ Hl Hset Hv).
Qed.
End progress.

(** The verification, statement by statement. *)
Lemma verified_final_snapshot_Ok (db : DB) scope run version v record awaiting at_ operator reason
    expected snapshot :
  json_get (er_progress_json run) "gate_result" = Ok record → is_dict record = true →
  undecided (er_progress_json run) = Ok false → json_item record "source_version" = Ok (JInt v) →
  finalization_differs version (er_progress_json run) record v = Ok false →
  awaiting_progress (er_progress_json run) = Ok awaiting →
  iso_item record "finalized_at" = Ok at_ →
  load_snapshot db scope (with_progress awaiting run) v v at_ = Ok snapshot →
  json_item record "actor" = Ok (JStr operator) → json_item record "reason" = Ok (JStr reason) →
  final_record (gn_preview snapshot) operator reason = Ok expected →
  mysql_json_record_matches record expected = Ok true →
  verified_final_snapshot db scope run version = Ok snapshot.
Proof using Type.
  intros Hg Hd Hu Hv Hdiff Haw Hat Hl Ha Hr He Hm. unfold verified_final_snapshot, text_field.
  rewrite Hg. cbn [mbind res_bind]. rewrite Hd, Hu, Hv. cbn. rewrite Hdiff. cbn. rewrite Haw. cbn.
  rewrite Hat. cbn. rewrite Hl. cbn. rewrite Ha. cbn. rewrite Hr. cbn. rewrite He. cbn.
  by rewrite Hm.
Qed.

(** C13: A final decision verifies itself: right after [finalize] the stored record is the decision on
    the stored evidence.  [verified_final_snapshot] takes the decision back from the row that the
    next transaction reads, evaluates the gates again and compares the record through the server; it
    accepts it with the very snapshot that was decided on, even if the server rounds the ratios of
    the record and reorders its members. *)
Theorem finalization_verifies (db db1 : DB) scope v passed reason at_ confirm u :
  decision_readable db scope v at_ →
  finalize scope v passed reason at_ confirm db = (Ok u, db1) →
  server_keeps db db1 (ms_run_id scope) at_ →
  ∃ run run1 snapshot,
    e_runs db !! ms_run_id scope = Some run ∧ e_runs db1 !! ms_run_id scope = Some run1 ∧
    load_snapshot db scope run v v at_ = Ok snapshot ∧
    verified_final_snapshot db1 scope (row_read run1) (v + 1) = Ok snapshot.
Proof using Type.
  intros Hread Hx [Htime Hsuite Hprog Hcast].
  apply finalize_Ok in Hx as (run & snapshot & updated & Hrun & Hc & _ & Hl & Hp & Hv & ->).
  assert (Hrun1 : e_runs (decided (ms_run_id scope) v JNull updated db) !! ms_run_id scope
                  = Some (with_progress updated run)).
  { cbn [decided e_runs set_runs]. by rewrite lookup_alter_eq, Hrun. }
  exists run, (with_progress updated run), snapshot. split_and!; [done..|].
  assert (Ht : textual (gate_result_dict (gn_preview snapshot)) = true).
  { apply (Hread _ _ Hrun). unfold evaluate_snapshot. by rewrite Hl. }
  destruct (loaded_transitions _ _ _ _ _ _ Hl) as [transitions Hts].
  pose proof Hl as [so [_ Hs _ _ _ _ _ _ _ Hq Hver]]%load_snapshot_inv.
  apply evaluate_inv in Hq as (? & ? & _ & _ & _ & _ & _ & Hat & _).
  destruct (Hprog _ Hrun) as [Htext Hset].
  eapply finalized_progress_Ok in Hp as (d & Hf & Hrec & Hup); [|exact Ht|exact Hts].
  subst updated. apply finalize_review_fields in Hf as Hfields. destruct Hfields as (Ha & Hr & Hfin).
  rewrite Hat in Hfin.
  assert (Hprints : prints (final_record_dict (gn_preview snapshot) d) = true).
  { eapply record_prints; [exact Hf|]. by rewrite Hrec. }
  unfold row_read. cbn [er_progress_json with_progress].
  destruct (er_progress_json run) as [| | | | | |l] eqn:Hprogress; try done.
  apply textual_object in Htext as [Hnd _]. cbn [json_item] in Hts, Hs.
  destruct (assoc "transitions" l) as [ts|] eqn:Ets; [injection Hts as ->|done].
  destruct (assoc "status" l) as [st|] eqn:Est; [injection Hs as ->|done].
  destruct (decided_items (gn_preview snapshot) d transitions l Hnd Hset Ets) as (Hg & _).
  destruct (decision_consistent (gn_preview snapshot) d transitions l Hnd Hset Ets v Hv) as [Hu Hdiff].
  destruct (decision_undone (gn_preview snapshot) d transitions l Hnd Hset Ets Est)
    as (awaiting & Haw & Hagree & Hg0 & Hf0).
  destruct (stored_record_items (gn_preview snapshot) d) as (Hdict & Rv & _ & Ra & Rr & Rf).
  eapply verified_final_snapshot_Ok; cbn [er_progress_json with_progress];
    [exact Hg|exact Hdict|exact Hu|by rewrite Rv, Hver|exact Hdiff|exact Haw|..].
  - unfold iso_item. rewrite Rf, Hfin. cbn [time_json mbind res_bind].
    by apply fromisoformat_isoformat.
  - apply (load_snapshot_again db _ scope run); [|rewrite Hprogress; exact Hagree|exact Hg0|exact Hf0|exact Hl].
    split; [done|done|exact Hsuite|]. eexists. apply lookup_insert_eq.
  - by rewrite Ra, Ha.
  - by rewrite Rr, Hr.
  - exact Hrec.
  - apply matches_stored; [done|]. intros text. apply (Hcast _ _ _ Hrun1).
    cbn [er_progress_json with_progress with_decision set_item json_get]. by rewrite !assoc_assoc_set.
Qed.
End verification.
