(* ===== verification/CreatedRuns.v ===== *)
(** * CreatedRuns: what is frozen for a run can be read

    The document that [freeze_run_creation] of [RunCreation] writes is read by the dispatches, by
    the completions, by the reviews and, with the registered documents, by the release gates.  Here:
    every one of these readers gets back what was frozen. *)
From S2P Require Import Prelude PyText PyTime PyHash PyNum PyJson JsonRoundTrip PyIso Transactions.
From S2P Require Import Tables Failure Checkpoint Completion Preflight Actions Resolution Review.
From S2P Require Import Correction Gates Reopening Closure Publication Policies CheckpointRecords.
From S2P Require Import CompletionRecords SlotClaims Projection Acceptance CompletionProgress.
From S2P Require Import Documents CandidatePlan Completions Judgements Suites RunProgress.
From S2P Require Import UnknownDecisions ContractDecisions RunCreation ReviewRecords GateSnapshot.
From S2P Require Import ReviewDecisions RunLifecycle FinalDecisions FinalVerification.

Local Open Scope string_scope.
Local Open Scope Z_scope.

(** The references of a release, each of them constructed. *)
Definition release_refs (r : EvidenceReleaseIdentity) : list FrozenContractRef :=
  [er_suite r; er_prompt r; er_profile r; er_input_schema r; er_output_schema r;
   er_generation_route r; er_semantic_prompt r; er_semantic_output_schema r; er_semantic_route r;
   er_execution_policy r; er_gate_policy r].

Lemma contract_ref_dict ref : constructed ref → contract_ref (ref_dict ref) = Ok ref.
Proof.
  intros Hc. transitivity (construct ref); [by destruct ref|by apply construct_Ok].
Qed.
Lemma release_ref r k ref :
  json_item (release_dict r) k = Ok (ref_dict ref) → constructed ref →
  ref_field (release_dict r) k = Ok ref.
Proof. intros Hk Hc. unfold ref_field. rewrite Hk. by apply contract_ref_dict. Qed.
Lemma release_of_dict r : Forall constructed (release_refs r) → release_of (release_dict r) = Ok r.
Proof.
  intros Hr. unfold release_refs in Hr. rewrite !Forall_cons in Hr. destruct_and! Hr.
  unfold release_of. replace (keys (release_dict r)) with (Ok release_names) by done.
  apply bind_Ok. eexists. split; [done|]. apply bind_Ok_unit. split; [done|].
  repeat (erewrite release_ref; [|reflexivity|assumption]; cbn [mbind res_bind]). by destruct r.
Qed.

Section created.
Context {R : Type}.
Notation DB := (EvaluationTables (CompletionTables R)).
Context {run_assets : RunAssets DB}.

Context (run_id : string) (release : EvidenceReleaseIdentity) (organization_id : Z).
Context (requested_by request_reason : string) (created_at : datetime) (suite : FrozenSuite).
Context (native generation_manifest : option GenerationManifest) (contracts : EvaluationContracts).
Context (execution_mode : string) (plan : RunCreationPlan).

Notation freeze :=
  (freeze_run_creation run_id release organization_id requested_by request_reason created_at suite
     native contracts generation_manifest execution_mode).

Lemma slots_textual : textual (pending_slots suite) = true.
Proof using Type. apply textual_list. by intros []. Qed.
Lemma creation_textual fingerprint extra :
  extra.*1 ∈ [[]; ["generation_manifest_json"; "generation_manifest_fingerprint"]] →
  forallb textual extra.*2 = true →
  textual (JObj (creation_fields run_id release fingerprint organization_id requested_by
                   request_reason created_at suite contracts ++ extra)) = true.
Proof using Type.
  intros Hk Hv. apply textual_object. split.
  - rewrite fmap_app. rewrite elem_of_two in Hk. by destruct Hk as [-> | ->]; apply (bool_decide_unpack _).
  - intros kv [Hin|Hin]%elem_of_app.
    + pose proof slots_textual. unfold creation_fields in Hin.
      repeat (apply elem_of_cons in Hin as [->|Hin]; [done|]). by apply not_elem_of_nil in Hin.
    + rewrite forallb_true in Hv. apply Hv. by apply (list_elem_of_fmap_2 snd).
Qed.

(** The document that the plan of a creation holds. *)
Lemma freeze_Ok_fields :
  freeze = Ok plan →
  ∃ fingerprint extra,
    validate_creation run_id organization_id requested_by request_reason created_at execution_mode
      = Ok tt ∧
    validate_frozen_policies release (policy_definition_json (ec_execution contracts))
      (fp_definition_json (ec_gate contracts)) = Ok tt ∧
    release_fingerprint release = Ok fingerprint ∧
    loads (rp_definition_json plan)
      = Ok (JObj (creation_fields run_id release fingerprint organization_id requested_by
                    request_reason created_at suite contracts ++ extra)) ∧
    plan = mk_RunCreationPlan run_id organization_id requested_by execution_mode
             (rp_definition_json plan) (ec_execution contracts).
Proof using Type.
  unfold freeze_run_creation. intros H. apply bind_Ok_unit in H as [Hv H].
  apply bind_Ok_unit in H as [_ H]. apply bind_Ok_unit in H as [_ H]. cbn zeta in H.
  apply bind_Ok_unit in H as [Hp H]. apply bind_Ok_unit in H as [_ H].
  apply bind_Ok in H as (fingerprint & Hf & H). cbn zeta in H.
  apply bind_Ok in H as (fields & Hx & (text & Ht & [= <-])%bind_Ok).
  assert (∃ extra, fields = (creation_fields run_id release fingerprint organization_id requested_by
            request_reason created_at suite contracts ++ extra)%list ∧ textual (JObj fields) = true)
    as (extra & -> & Htx).
  { assert (∃ extra, fields = (creation_fields run_id release fingerprint organization_id requested_by
      request_reason created_at suite contracts ++ extra)%list ∧ forallb textual extra.*2 = true ∧
      extra.*1 ∈ [[]; ["generation_manifest_json"; "generation_manifest_fingerprint"]])
      as (extra & -> & Hv2 & Hk); [|by exists extra; split; [|apply creation_textual]].
    destruct generation_manifest as [m|]; [ok_inv; eexists; split; [done|]|exists []; rewrite app_nil_r; ok_inv];
      (split; [done|]); by apply (bool_decide_unpack _). }
  exists fingerprint, extra. split_and!; try done. cbn [rp_definition_json].
  rewrite (loads_dumps compact ltac:(by left) ltac:(by left) _ _ Htx Ht). by rewrite written_unsorted.
Qed.

(** The contracts come from the registered documents of the release. *)
Record registered_contracts : Prop := {
  rg_release : Forall constructed (release_refs release);
  rg_policy : execution_policy
      (mk_FrozenPolicyDocument (er_execution_policy release)
         (policy_definition_json (ec_execution contracts))) = Ok (ec_execution contracts);
  rg_gate : fp_reference (ec_gate contracts) = er_gate_policy release;
  rg_time : printable_time created_at = true;
}.

Notation fields fingerprint :=
  (creation_fields run_id release fingerprint organization_id requested_by request_reason created_at
     suite contracts).

Lemma created_release fingerprint extra :
  registered_contracts → creation_release (JObj (fields fingerprint ++ extra)) = Ok release.
Proof using Type.
  intros [Hr _ _ _]. transitivity (release_of (release_dict release)); [done|by apply release_of_dict].
Qed.

Lemma created_policies fingerprint extra :
  registered_contracts →
  validate_frozen_policies release (policy_definition_json (ec_execution contracts))
    (fp_definition_json (ec_gate contracts)) = Ok tt →
  release_fingerprint release = Ok fingerprint →
  frozen_policies (JObj (fields fingerprint ++ extra))
  = Ok (ec_execution contracts, ec_gate contracts).
Proof using Type.
  intros [Hr Hp Hg _] Hv Hf. unfold frozen_policies.
  apply bind_Ok. exists (release_dict release). split; [done|]. rewrite release_of_dict by done.
  cbn [mbind res_bind]. apply bind_Ok. exists (JStr fingerprint). split; [done|]. rewrite Hf.
  cbn [mbind res_bind]. apply bind_Ok_unit. split; [cbn [json_eqb]; by rewrite bool_decide_eq_true_2|].
  apply bind_Ok. exists (policy_definition_json (ec_execution contracts)). split; [done|].
  apply bind_Ok. exists (fp_definition_json (ec_gate contracts)). split; [done|]. rewrite Hv, Hp.
  cbn [mbind res_bind]. rewrite <- Hg. by destruct (ec_gate contracts).
Qed.

Lemma created_documents (db : DB) row fingerprint extra :
  registered_contracts →
  validate_frozen_policies release (policy_definition_json (ec_execution contracts))
    (fp_definition_json (ec_gate contracts)) = Ok tt →
  release_fingerprint release = Ok fingerprint →
  er_frozen_policy row = Some (policy_fingerprint (ec_execution contracts),
                               policy_definition_json (ec_execution contracts)) →
  run_suite db (JObj (fields fingerprint ++ extra)) = Ok suite →
  check_documents db row (JObj (fields fingerprint ++ extra))
  = Ok (mk_FrozenDocuments release fingerprint (ec_execution contracts) (ec_gate contracts) suite).
Proof using Type.
  intros Hreg Hv Hf Hpol Hs. unfold check_documents. rewrite created_release by done.
  cbn [mbind res_bind]. rewrite created_policies by done. cbn [mbind res_bind]. rewrite Hs.
  cbn [mbind res_bind].
  apply bind_Ok. exists (policy_definition_json (ec_execution contracts)). split; [done|].
  apply bind_Ok. exists (fp_definition_json (ec_gate contracts)). split; [done|]. rewrite Hv.
  cbn [mbind res_bind]. apply bind_Ok. exists (JStr fingerprint). split; [done|].
  apply bind_Ok. exists (JStr (fs_definition_json suite)). split; [done|]. rewrite Hf.
  cbn [mbind res_bind]. apply bind_Ok_unit. split.
  { cbn [json_eqb]. by rewrite !bool_decide_eq_true_2. }
  rewrite Hpol. apply bind_Ok_unit. split; [by rewrite bool_decide_eq_true_2|].
  apply bind_Ok_unit. split; [by apply raise_ifM_Ok, (field_same (pending_slots suite)), slots_textual|].
  apply bind_Ok_unit. split; [by apply raise_ifM_Ok, (field_same (pending_preflight suite))|]. done.
Qed.

Lemma created_audit operator row fingerprint extra :
  validate_creation run_id organization_id requested_by request_reason created_at execution_mode = Ok tt →
  er_requested_by row = requested_by →
  is_ok (check_audit (mk_ManagementScope run_id organization_id operator) row
           (JObj (fields fingerprint ++ extra))) = true.
Proof using Type.
  unfold validate_creation. intros Hv Hr. py_inv. unfold check_audit.
  match goal with |- is_ok ?m = true => assert (∃ audit, m = Ok audit) as [? ->]; [|done] end.
  eexists. apply bind_Ok_unit. split.
  { apply raise_ifM_Ok, orM_false. split; by apply (field_same (JStr _)). }
  apply bind_Ok. eexists. split; [done|]. apply bind_Ok. exists request_reason. split; [done|].
  apply bind_Ok_unit. split; [by apply raise_if_Ok|].
  apply bind_Ok. exists (JInt organization_id). split; [done|].
  apply bind_Ok. exists (JStr requested_by). split; [done|]. rewrite Hr.
  apply bind_Ok_unit. split; [|done]. apply raise_if_Ok, negb_false_iff.
  by rewrite !json_eqb_refl.
Qed.

Lemma created_receipt_Ok row fingerprint extra :
  registered_contracts →
  validate_creation run_id organization_id requested_by request_reason created_at execution_mode = Ok tt →
  release_fingerprint release = Ok fingerprint →
  loads (er_definition_json row) = Ok (JObj (fields fingerprint ++ extra)) →
  er_organization_id row = organization_id → er_requested_by row = requested_by →
  is_ok (creation_receipt run_id row) = true.
Proof using Type.
  unfold validate_creation. intros Hreg Hv Hf Hl Ho Hr. py_inv. unfold creation_receipt. rewrite Hl, Ho, Hr.
  match goal with |- is_ok ?m = true => assert (∃ text, m = Ok text) as [? ->]; [|done] end.
  eexists. cbn [mbind res_bind]. apply bind_Ok_unit. split.
  { apply raise_ifM_Ok, orM_false. split; by apply (field_same (JStr _)). }
  apply bind_Ok. eexists. split; [done|]. apply bind_Ok. exists (JStr requested_by). split; [done|].
  apply bind_Ok. exists (JStr request_reason). split; [done|].
  apply bind_Ok. exists (time_json created_at). split; [done|].
  apply bind_Ok. exists (JInt organization_id). split; [done|].
  apply bind_Ok_unit. split.
  { apply raise_ifM_Ok. rewrite !orM_false, Z.eqb_refl, json_eqb_refl, H2, H3 by done.
    split_and!; [done..|]. cbn [iso_value time_json].
    rewrite fromisoformat_isoformat by apply Hreg. cbn [mbind res_bind]. by rewrite H5. }
  rewrite created_release by done. cbn [mbind res_bind]. rewrite Hf. cbn [mbind res_bind].
  apply bind_Ok_unit. split; [by apply raise_ifM_Ok, (field_same (JStr fingerprint))|]. reflexivity.
Qed.

(** C14: A created run can be read by everything that reads it: the row that a creation leaves holds a
    document from which the dispatches and the reviews get the frozen policies, the completions the
    release, the client its receipt and the release gates an audit that matches; and once the suite
    is the registered one, the gates find every frozen document to be the one that was frozen. *)
Theorem created_run_readable (db db' : DB) state :
  registered_contracts → freeze = Ok plan → apply_run_creation plan db = (Ok state, db') →
  ∃ row creation fingerprint,
    e_runs db' !! run_id = Some row ∧ e_checkpoints db' !! run_id = Some (1, JNull) ∧
    loads (er_definition_json row) = Ok creation ∧ creation_release creation = Ok release ∧
    frozen_policies creation = Ok (ec_execution contracts, ec_gate contracts) ∧
    frozen_policy_json db' run_id = Ok (policy_definition_json (ec_execution contracts)) ∧
    is_ok (creation_receipt run_id row) = true ∧
    (∀ operator, is_ok (check_audit (mk_ManagementScope run_id organization_id operator) row creation)
                 = true) ∧
    (run_suite db' creation = Ok suite →
     check_documents db' row creation
     = Ok (mk_FrozenDocuments release fingerprint (ec_execution contracts) (ec_gate contracts) suite)).
Proof using Type.
  intros Hreg (fingerprint & extra & Hv & Hp & Hf & Hl & Hplan)%freeze_Ok_fields
    (transitions & _ & _ & ->)%creation_Ok.
  rewrite Hplan in Hl |- *. cbn [rp_run_id rp_execution_mode rp_organization_id rp_requested_by
    rp_definition_json rp_policy] in *.
  do 2 eexists. exists fingerprint. unfold frozen_policy_json. cbn [e_runs e_checkpoints set_runs set_checkpoints].
  rewrite !lookup_insert_eq. split_and!; [done|done|exact Hl|..].
  - by apply created_release.
  - by apply created_policies.
  - done.
  - by eapply created_receipt_Ok.
  - intros operator. by apply created_audit.
  - intros Hs. by apply created_documents.
Qed.
End created.
