(* ===== verification/Capacity.v ===== *)
(** * Capacity: participant admission budgets and active slots

    Models [src/src/qs_ai/application/execution/capacity.py] and
    [src/src/qs_ai/infrastructure/persistence/mysql/participant_capacity.py]: the daily budget an
    admission reserves, the active slot a provider call holds, and its release.  The effective
    policy of an organization is an argument: [participant_policy] of
    [src/src/qs_ai/infrastructure/persistence/mysql/quotas.py] reads it from the rest of the
    database. *)
From stdpp Require Import pretty.
From S2P Require Import Prelude PyText PyInt PyTime PyJson Transactions Session Service Tables.

Local Open Scope string_scope.
Local Open Scope Z_scope.
Local Open Scope py_scope.

Record ParticipantCapacityPolicy : Type := mk_ParticipantCapacityPolicy {
  daily_org : Z;
  daily_user : Z;
  daily_assessment : Z;
  active_org : Z;
  active_user : Z;
  active_assessment : Z;
}.

#[export] Instance ParticipantCapacityPolicy_post_init : Validated ParticipantCapacityPolicy :=
  λ self,
  raise_if (existsb (λ v, v <? 1)
              [daily_org self; daily_user self; daily_assessment self;
               active_org self; active_user self; active_assessment self])
    (ValueError "Positive participant capacity limits required").

Definition DEFAULT_PARTICIPANT_CAPACITY : ParticipantCapacityPolicy :=
  mk_ParticipantCapacityPolicy 500 5 3 10 2 1.

(** [(org_limit, user_limit, assessment_limit)] *)
Definition daily_limits (p : ParticipantCapacityPolicy) : Z * Z * Z :=
  (daily_org p, daily_user p, daily_assessment p).
Definition active_limits (p : ParticipantCapacityPolicy) : Z * Z * Z :=
  (active_org p, active_user p, active_assessment p).

(** [sum(p(r) for r in rows)] *)
Definition count (p : Reservation → bool) (rows : list Reservation) : Z :=
  len (filter (λ r, p r = true) rows).

Definition of_user (subject : string) (r : Reservation) : bool := v_subject_id r == subject.
Definition of_assessment (a : string) (r : Reservation) : bool := a is_in v_assessment_ids r.

Definition fits (rows : list Reservation) (session : Session) (limits : Z * Z * Z) : bool :=
  let '(org_limit, user_limit, assessment_limit) := limits in
  (len rows <? org_limit)
  && (count (of_user (subject_id (s_actor session))) rows <? user_limit)
  && forallb (λ a, count (of_assessment a) rows <? assessment_limit) (s_assessment_ids session).

#[global] Arguments fits : simpl never.

(** The day of [at.astimezone(UTC).date()], in days since 1970-01-01. *)
Definition utc_day (at_ : datetime) : Z := instant at_ / 86400000000.

Section capacity.
Context {G : Type}.
Context (participant_policy : Z → G → res (ParticipantCapacityPolicy * json)).
Notation DB := (Tables G).

(** [select(reservations).where(p)] *)
Definition select_reservations (p : Reservation → bool) (db : DB) : list Reservation :=
  filter (λ r, p r = true) ((map_to_list (t_reservations db)).*2).

Definition of_day (org day : Z) (r : Reservation) : bool :=
  (v_organization_id r == org) && (v_budget_day r == day).
Definition active_of (org : Z) (r : Reservation) : bool :=
  (v_organization_id r == org) && v_active r.

Definition lock (session : Session) : tx DB unit :=
  org ← lift (int_of (org_id (s_actor session)));
  lift (unsigned org) ;;
  modify (λ db, set_locks ({[org]} ∪ t_locks db) db).

(** The row of the session's run, or a conflict when another session holds it. *)
Definition prior (session : Session) : tx DB (option Reservation) := λ db,
  match s_active_run_id session ≫= λ run, t_reservations db !! run with
  | None => (Ok None, db)
  | Some row =>
    (raise_ifM (Ok (v_session_id row != s_id session)
                <orM> ((λ org, v_organization_id row != org) <$> int_of (org_id (s_actor session)))
                <orM> Ok (v_subject_id row != subject_id (s_actor session))
                <orM> Ok (v_assessment_ids row != s_assessment_ids session))
       (RuleViolation "participant_reservation_conflict") ;;
     Ok (Some row), db)
  end.

(** [at.tzinfo is None or not session.active_run_id] *)
Definition no_run (session : Session) : bool :=
  match s_active_run_id session with Some run => negb (nonempty run) | None => true end.

Definition preview (session : Session) (at_ : datetime) : tx DB unit :=
  lift (raise_if (tz_none at_ || no_run session)
          (ValueError "Participant preview requires UTC time and Run")) ;;
  row ← prior session;
  match row with
  | Some _ => mret tt
  | None =>
    org ← lift (int_of (org_id (s_actor session)));
    db ← get_db;
    policy ← lift (participant_policy org (t_rest db));
    lift (raise_if (negb (fits (select_reservations (of_day org (utc_day at_)) db) session
                            (daily_limits policy.1)))
            (RuleViolation "participant_daily_capacity_exceeded"))
  end.

Definition reserve (session : Session) (at_ : datetime) : tx DB unit :=
  lift (raise_if (tz_none at_ || no_run session)
          (ValueError "Participant reservation requires UTC time and Run")) ;;
  lock session ;;
  row ← prior session;
  match row with
  | Some _ => mret tt
  | None =>
    org ← lift (int_of (org_id (s_actor session)));
    db ← get_db;
    '(policy, quota_snapshot) ← lift (participant_policy org (t_rest db));
    lift (raise_if (negb (fits (select_reservations (of_day org (utc_day at_)) db) session
                            (daily_limits policy)))
            (RuleViolation "participant_daily_capacity_exceeded")) ;;
    insert_row t_reservations set_reservations (default "" (s_active_run_id session))
      (mk_Reservation (s_id session) org (subject_id (s_actor session)) (s_assessment_ids session)
         (utc_day at_) (instant at_) false None None quota_snapshot) (λ _, true)
  end.

Definition activate (at_ : datetime) (r : Reservation) : Reservation :=
  mk_Reservation (v_session_id r) (v_organization_id r) (v_subject_id r) (v_assessment_ids r)
    (v_budget_day r) (v_reserved_at r) true (Some (instant at_)) (v_released_at r)
    (v_quota_snapshot r).
Definition deactivate (at_ : datetime) (r : Reservation) : Reservation :=
  mk_Reservation (v_session_id r) (v_organization_id r) (v_subject_id r) (v_assessment_ids r)
    (v_budget_day r) (v_reserved_at r) false (v_acquired_at r) (Some (instant at_))
    (v_quota_snapshot r).

(** The [UPDATE ... WHERE run_id = session.active_run_id], a comparison no row passes when the
    session has no run. *)
Definition update_run (session : Session) (p : Reservation → bool) (f : Reservation → Reservation)
    (db : DB) : DB :=
  match s_active_run_id session with
  | Some run => set_reservations (alter (λ r, if p r then f r else r) run (t_reservations db)) db
  | None => db
  end.

(** The last part of [acquire]: the active slots of the organization. *)
Definition take_slot (session : Session) (at_ : datetime) : tx DB bool :=
  org ← lift (int_of (org_id (s_actor session)));
  db ← get_db;
  policy ← lift (participant_policy org (t_rest db));
  if fits (select_reservations (active_of org) db) session (active_limits policy.1)
  then modify (update_run session (λ _, true) (activate at_)) ;; mret true
  else mret false.

Definition acquire (session : Session) (at_ : datetime) : tx DB bool :=
  lock session ;;
  row ← prior session;
  match row with
  | None => λ db,
    match reserve session at_ db with
    | (Ok _, db) => take_slot session at_ db
    | (Err (RuleViolation code), db) =>
      if code == "participant_daily_capacity_exceeded" then (Ok false, db)
      else (Err (RuleViolation code), db)
    | (Err e, db) => (Err e, db)
    end
  | Some row =>
    if v_active row then mret true
    else
      lift (raise_if (is_some (v_released_at row))
              (RuleViolation "participant_slot_already_released")) ;;
      take_slot session at_
  end.

Definition release (session : Session) (at_ : datetime) : tx DB unit :=
  lock session ;;
  org ← lift (int_of (org_id (s_actor session)));
  modify (update_run session (active_of org) (deactivate at_)).

End capacity.
Local Close Scope py_scope.

(** ** Lemmas *)

Section rows.
Implicit Types (m : gmap string Reservation) (rows : list Reservation).

Lemma rows_lookup m k r :
  m !! k = Some r → (map_to_list m).*2 ≡ₚ r :: (map_to_list (delete k m)).*2.
Proof. intros Hk. rewrite <- (map_to_list_delete m k r Hk). reflexivity. Qed.

Lemma rows_insert m k r :
  m !! k = None → (map_to_list (<[k := r]> m)).*2 ≡ₚ r :: (map_to_list m).*2.
Proof. intros Hk. rewrite map_to_list_insert by done. reflexivity. Qed.

Lemma rows_alter m k r f :
  m !! k = Some r →
  (map_to_list (alter f k m)).*2 ≡ₚ f r :: (map_to_list (delete k m)).*2.
Proof.
  intros Hk. rewrite (rows_lookup _ k (f r)); [|by rewrite lookup_alter_eq, Hk].
  by rewrite delete_alter_eq.
Qed.

Lemma alter_present m k r f : m !! k = Some r → alter f k m = <[k := f r]> m.
Proof.
  intros Hk. apply map_eq. intros i.
  destruct (decide (i = k)) as [->|]; [|by rewrite lookup_alter_ne, lookup_insert_ne].
  by rewrite lookup_alter_eq, lookup_insert_eq, Hk.
Qed.

Lemma alter_absent m k f : m !! k = None → alter f k m = m.
Proof.
  intros Hk. apply map_eq. intros i.
  destruct (decide (i = k)) as [->|]; [|by rewrite lookup_alter_ne].
  by rewrite lookup_alter_eq, Hk.
Qed.

Lemma count_cons p r rows : count p (r :: rows) = (if p r then 1 else 0) + count p rows.
Proof.
  unfold count, len. rewrite filter_cons. destruct (p r) eqn:E.
  - rewrite decide_True by done. cbn. lia.
  - rewrite decide_False by congruence. lia.
Qed.

(** The rows of an organization respect its limits. *)
Definition within (limits : Z * Z * Z) (rows : list Reservation) : Prop :=
  len rows <= limits.1.1 ∧ (∀ s, count (of_user s) rows <= limits.1.2) ∧
  ∀ a, count (of_assessment a) rows <= limits.2.

Lemma count_Permutation p rows rows' : rows ≡ₚ rows' → count p rows = count p rows'.
Proof. intros Hp. unfold count, len. by rewrite Hp. Qed.

Lemma within_Permutation limits rows rows' : rows ≡ₚ rows' → within limits rows → within limits rows'.
Proof.
  intros Hp (Hl & Hu & Ha). unfold within, len in *. split_and!; [by rewrite <- Hp|..]; intros x.
  - by rewrite <- (count_Permutation _ _ _ Hp).
  - by rewrite <- (count_Permutation _ _ _ Hp).
Qed.

Lemma within_cons limits r rows : within limits (r :: rows) → within limits rows.
Proof.
  intros (Hl & Hu & Ha). unfold within, len in *. cbn in Hl.
  split_and!; [lia|intros s; specialize (Hu s)|intros s; specialize (Ha s)];
    rewrite count_cons in *; case_match; lia.
Qed.

(** A row of a session that fits is within the limits. *)
Lemma fits_within rows session limits r :
  fits rows session limits = true → within limits rows →
  v_subject_id r = subject_id (s_actor session) → v_assessment_ids r = s_assessment_ids session →
  within limits (r :: rows).
Proof.
  destruct limits as [[o u] a]. unfold fits. intros Hf (Hl & Hu & Ha) Hs Has. bool_inv.
  unfold within in *. cbn in *. split_and!.
  - unfold len in *. cbn. lia.
  - intros s. rewrite count_cons. unfold of_user at 1. rewrite Hs.
    case_bool_decide as Heq; [rewrite <- Heq|specialize (Hu s)]; lia.
  - intros x. rewrite count_cons. unfold of_assessment at 1. rewrite Has.
    case_bool_decide as Hx; [|by apply Ha].
    match goal with H : ∀ y, y ∈ s_assessment_ids session → _ |- _ => specialize (H x Hx) end. lia.
Qed.
End rows.

Section properties.
Context {G : Type}.
Context (participant_policy : Z → G → res (ParticipantCapacityPolicy * json)).
Notation DB := (Tables G).
Implicit Types (db : DB).

(** The reservations and the policies did not change. *)
Definition same db db' : Prop := t_reservations db' = t_reservations db ∧ t_rest db' = t_rest db.

(** Every organization respects the daily budgets and the active slots of its policy. *)
Definition in_budget db : Prop :=
  ∀ org p snapshot, participant_policy org (t_rest db) = Ok (p, snapshot) →
    (∀ day, within (daily_limits p) (select_reservations (of_day org day) db)) ∧
    within (active_limits p) (select_reservations (active_of org) db).

Lemma same_in_budget db db' : same db db' → in_budget db → in_budget db'.
Proof.
  intros [Hr Hg] Hb org p snapshot Hp. rewrite Hg in Hp. unfold select_reservations.
  rewrite Hr. by apply (Hb org p snapshot).
Qed.

Definition selected (p : Reservation → bool) (r : Reservation) : list Reservation :=
  if p r then [r] else [].

Lemma select_insert p db run r :
  t_reservations db !! run = None →
  select_reservations p (set_reservations (<[run := r]> (t_reservations db)) db)
    ≡ₚ selected p r ++ select_reservations p db.
Proof.
  intros Hk. unfold select_reservations, selected. cbn. rewrite (rows_insert _ _ _ Hk).
  rewrite filter_cons. destruct (p r) eqn:E; by rewrite ?decide_True, ?decide_False by congruence.
Qed.

Definition without (run : string) db : DB := set_reservations (delete run (t_reservations db)) db.

Lemma select_without p db run r :
  t_reservations db !! run = Some r →
  select_reservations p db ≡ₚ selected p r ++ select_reservations p (without run db).
Proof.
  intros Hk. unfold select_reservations, selected. cbn. rewrite (rows_lookup _ _ _ Hk).
  rewrite filter_cons. destruct (p r) eqn:E; by rewrite ?decide_True, ?decide_False by congruence.
Qed.

Lemma select_alter p db run r f :
  t_reservations db !! run = Some r →
  select_reservations p (set_reservations (alter f run (t_reservations db)) db)
    ≡ₚ selected p (f r) ++ select_reservations p (without run db).
Proof.
  intros Hk. rewrite (select_without _ _ run (f r)); [|cbn; by rewrite lookup_alter_eq, Hk].
  unfold without, select_reservations. cbn. by rewrite delete_alter_eq.
Qed.

Lemma lock_same session db o db' : lock session db = (o, db') → same db db'.
Proof.
  unfold lock, mbind, tx_bind, lift, modify. intros Hx.
  repeat case_match; simplify_eq; by split.
Qed.

(** The row [prior] finds is the reservation of this session's run. *)
Definition own_row (session : Session) (run : string) (row : Reservation) : Prop :=
  s_active_run_id session = Some run ∧ v_session_id row = s_id session ∧
  int_of (org_id (s_actor session)) = Ok (v_organization_id row) ∧
  v_subject_id row = subject_id (s_actor session) ∧
  v_assessment_ids row = s_assessment_ids session.

Lemma prior_db session db : (prior session db).2 = db.
Proof. unfold prior. by destruct (_ ≫= _). Qed.

Lemma prior_Ok session db o db' :
  prior session db = (Ok o, db') →
  db' = db ∧
  match o with
  | None => ∀ run, s_active_run_id session = Some run → t_reservations db !! run = None
  | Some row => ∃ run, t_reservations db !! run = Some row ∧ own_row session run row
  end.
Proof.
  intros Hx. assert (db' = db) as -> by by rewrite <- (prior_db session db), Hx.
  split; [done|]. unfold prior in Hx. destruct (s_active_run_id session) as [run|] eqn:Hr;
    cbn in Hx; [|by simplify_eq].
  destruct (t_reservations db !! run) as [row|] eqn:Hk; [|simplify_eq; by intros ? [= <-]].
  injection Hx as Hx. py_inv. exists run. split; [done|]. unfold own_row.
  by subst.
Qed.

(** A reservation that was made: a new inactive row of the run that fits the daily budget. *)
Definition reserved session (at_ : datetime) db db' : Prop :=
  ∃ run row p snapshot, own_row session run row ∧ t_reservations db !! run = None ∧
    participant_policy (v_organization_id row) (t_rest db) = Ok (p, snapshot) ∧
    fits (select_reservations (of_day (v_organization_id row) (utc_day at_)) db) session
      (daily_limits p) = true ∧
    v_budget_day row = utc_day at_ ∧ v_active row = false ∧ v_released_at row = None ∧
    t_reservations db' = <[run := row]> (t_reservations db) ∧ t_rest db' = t_rest db.

Lemma reserve_effect session at_ db o db' :
  reserve participant_policy session at_ db = (o, db') →
  (same db db' ∧ (o = Ok tt → ∃ run row, t_reservations db' !! run = Some row ∧
                                own_row session run row)) ∨
  (o = Ok tt ∧ reserved session at_ db db').
Proof.
  unfold reserve. rewrite lift_bind.
  destruct (raise_if _ _) as [[]|] eqn:Hg; intros Hx; [|simplify_eq; left; by split_and!].
  rewrite bind_run in Hx.
  destruct (lock session db) as [[u|e] db1] eqn:Hl; apply lock_same in Hl as Hsame;
    [|simplify_eq; left; by split_and!].
  destruct Hsame as [Hr Hrest]. rewrite bind_run in Hx.
  destruct (prior session db1) as [[[row|]|e] db2] eqn:Hp.
  - apply prior_Ok in Hp as [-> (run & Hk & Hown)]. unfold mret, tx_ret in Hx. simplify_eq.
    left. split; [by split|]. eauto.
  - apply prior_Ok in Hp as [-> Hnone]. rewrite lift_bind in Hx.
    destruct (int_of _) as [org|] eqn:Ho; [|simplify_eq; left; by split_and!].
    rewrite get_bind, lift_bind in Hx.
    destruct (participant_policy _ _) as [[policy snapshot]|] eqn:Hpol;
      [|simplify_eq; left; by split_and!].
    rewrite lift_bind in Hx.
    destruct (raise_if (negb _) _) as [[]|] eqn:Hf; [|simplify_eq; left; by split_and!].
    apply raise_if_Ok, negb_false_iff in Hf. unfold insert_row in Hx.
    apply raise_if_Ok, orb_false_iff in Hg as [_ Hrun]. unfold no_run in Hrun.
    destruct (s_active_run_id session) as [run|] eqn:Hs; [|done]. cbn in Hx.
    rewrite (Hnone _ eq_refl) in Hx. cbn in Hx. injection Hx as <- <-. right. split; [done|].
    rewrite Hr in Hnone. unfold select_reservations in *. rewrite Hr, Hrest in *.
    exists run, (mk_Reservation (s_id session) org (subject_id (s_actor session))
              (s_assessment_ids session) (utc_day at_) (instant at_) false None None snapshot),
      policy, snapshot.
    unfold own_row, select_reservations. cbn [t_reservations t_rest set_reservations].
    rewrite ?Hr. auto 20.
  - assert (db2 = db1) as -> by by rewrite <- (prior_db session db1), Hp.
    simplify_eq. left. by split_and!.
Qed.

(** A slot that was taken: the run's row becomes active and fits the active limits. *)
Definition slot_taken session (at_ : datetime) run row db db' : Prop :=
  ∃ p snapshot,
    participant_policy (v_organization_id row) (t_rest db) = Ok (p, snapshot) ∧
    fits (select_reservations (active_of (v_organization_id row)) db) session (active_limits p)
      = true ∧
    db' = set_reservations (alter (activate at_) run (t_reservations db)) db.

Lemma take_slot_effect session at_ run row db o db' :
  own_row session run row →
  take_slot participant_policy session at_ db = (o, db') →
  (db' = db ∧ o ≠ Ok true) ∨ (o = Ok true ∧ slot_taken session at_ run row db db').
Proof.
  intros (Hrun & _ & Horg & _). unfold take_slot. rewrite lift_bind, Horg, get_bind, lift_bind.
  destruct (participant_policy _ _) as [[p snapshot]|] eqn:Hp; intros Hx; [|simplify_eq; by left].
  cbn in Hx. destruct (fits _ _ _) eqn:Hf.
  - unfold mbind, tx_bind, modify, mret, tx_ret, update_run in Hx. rewrite Hrun in Hx.
    injection Hx as <- <-. right. split; [done|]. by exists p, snapshot.
  - injection Hx as <- <-. left. by split.
Qed.

Definition released_row session (at_ : datetime) db db' : Prop :=
  t_rest db' = t_rest db ∧
  (t_reservations db' = t_reservations db ∨
   ∃ run row, t_reservations db !! run = Some row ∧ v_active row = true ∧
     s_active_run_id session = Some run ∧
     t_reservations db' = <[run := deactivate at_ row]> (t_reservations db)).

Lemma release_effect session at_ db o db' :
  release session at_ db = (o, db') → released_row session at_ db db'.
Proof.
  unfold release. rewrite bind_run.
  destruct (lock session db) as [[u|e] db1] eqn:Hl; apply lock_same in Hl as [Hr Hrest];
    intros Hx; [|simplify_eq; split; auto]. rewrite lift_bind in Hx.
  destruct (int_of _) as [org|] eqn:Ho; [|simplify_eq; split; auto].
  unfold modify, update_run in Hx. injection Hx as _ <-. split.
  { by destruct (s_active_run_id session). }
  destruct (s_active_run_id session) as [run|] eqn:Hrun; [cbn|by left]. rewrite Hr.
  destruct (t_reservations db !! run) as [row|] eqn:Hk; [|left; by apply alter_absent].
  destruct (active_of org row) eqn:Ha.
  - right. exists run, row. unfold active_of in Ha. bool_inv.
    rewrite (alter_present _ _ _ _ Hk). cbn beta. unfold active_of.
    rewrite bool_decide_eq_true_2, H0 by done. done.
  - left. rewrite (alter_present _ _ _ _ Hk). cbn beta. rewrite Ha. by apply insert_id.
Qed.
Lemma select_rows p db m db' :
  t_reservations db' = m →
  select_reservations p db' = select_reservations p (set_reservations m db).
Proof. intros <-. done. Qed.

Lemma within_same_head limits r r' rows :
  v_subject_id r' = v_subject_id r → v_assessment_ids r' = v_assessment_ids r →
  within limits (r :: rows) → within limits (r' :: rows).
Proof.
  intros Hs Ha (Hl & Hu & Hx). unfold within, len in *. cbn in *. split_and!; [done|..].
  - intros s. specialize (Hu s). rewrite count_cons in *. unfold of_user at 1 in Hu.
    unfold of_user at 1. by rewrite Hs.
  - intros a. specialize (Hx a). rewrite count_cons in *. unfold of_assessment at 1 in Hx.
    unfold of_assessment at 1. by rewrite Ha.
Qed.

(** A new reservation that fits keeps the budgets: its day's rows stay within the daily limits,
    and it is not active. *)
Lemma reserved_in_budget session at_ db db' :
  reserved session at_ db db' → in_budget db → in_budget db'.
Proof.
  intros (run & row & p & snapshot & Hown & Hk & Hp & Hf & Hday & Hact & _ & Hr & Hg) Hb
    org q snap Hq. rewrite Hg in Hq. destruct (Hb org q snap Hq) as [Hdays Hactive].
  destruct Hown as (_ & _ & _ & Hs & Has). split.
  - intros day. rewrite (select_rows _ db _ _ Hr).
    eapply within_Permutation; [symmetry; by apply select_insert|]. unfold selected.
    destruct (of_day org day row) eqn:Hd; [|by apply Hdays]. unfold of_day in Hd. bool_inv.
    subst org day. rewrite Hp in Hq. injection Hq as <- <-.
    eapply fits_within; [|apply Hdays|done..]. by rewrite Hday.
  - rewrite (select_rows _ db _ _ Hr).
    eapply within_Permutation; [symmetry; by apply select_insert|]. unfold selected, active_of at 1.
    by rewrite Hact, andb_false_r.
Qed.

(** A row that is updated in place keeps the budgets when it does not become active, or fits. *)
Lemma update_in_budget db db' run r r' :
  t_reservations db !! run = Some r → t_reservations db' = <[run := r']> (t_reservations db) →
  t_rest db' = t_rest db →
  v_organization_id r' = v_organization_id r → v_budget_day r' = v_budget_day r →
  v_subject_id r' = v_subject_id r → v_assessment_ids r' = v_assessment_ids r →
  (v_active r' = true → v_active r = false →
     ∀ p snapshot, participant_policy (v_organization_id r) (t_rest db) = Ok (p, snapshot) →
       within (active_limits p) (select_reservations (active_of (v_organization_id r)) db) →
       within (active_limits p) (r :: select_reservations (active_of (v_organization_id r)) db)) →
  in_budget db → in_budget db'.
Proof.
  intros Hk Hr Hg Ho Hd Hs Ha Hslot Hb org q snap Hq. rewrite Hg in Hq.
  destruct (Hb org q snap Hq) as [Hdays Hactive].
  assert (Hsel : ∀ p, select_reservations p db' ≡ₚ
                       selected p r' ++ select_reservations p (without run db)).
  { intros p. rewrite (select_without p db' run r'); [|by rewrite Hr, lookup_insert_eq].
    unfold without, select_reservations. cbn. by rewrite Hr, delete_insert_eq. }
  split.
  - intros day. eapply within_Permutation; [symmetry; apply Hsel|].
    specialize (Hdays day). eapply within_Permutation in Hdays; [|by apply select_without].
    unfold selected in *. assert (of_day org day r' = of_day org day r) as ->
      by (unfold of_day; by rewrite Ho, Hd).
    destruct (of_day org day r); [|done]. by eapply within_same_head.
  - eapply within_Permutation; [symmetry; apply Hsel|].
    pose proof (select_without (active_of org) db run r Hk) as Hwas.
    assert (∀ x, v_organization_id x = v_organization_id r →
              selected (active_of org) x = if bool_decide (v_organization_id r = org) && v_active x
                                           then [x] else []) as Hx.
    { intros x Hx. unfold selected, active_of. by rewrite Hx. }
    rewrite Hx in Hwas |- * by done. case_bool_decide as Horg; cbn [andb] in *.
    2: { by apply (within_Permutation _ _ _ Hwas). }
    subst org.
    pose proof (within_Permutation _ _ _ Hwas Hactive) as Hhere.
    destruct (v_active r') eqn:Er', (v_active r) eqn:Er.
    + by eapply within_same_head.
    + eapply within_same_head; [done..|].
      eapply within_Permutation, Hslot; [by rewrite Hwas|done..].
    + by eapply within_cons.
    + done.
Qed.

Lemma slot_taken_in_budget session at_ run row db db' :
  t_reservations db !! run = Some row → own_row session run row →
  slot_taken session at_ run row db db' → in_budget db → in_budget db'.
Proof.
  intros Hk Hown (p & snapshot & Hp & Hf & ->). eapply (update_in_budget _ _ run row (activate at_ row)); try done.
  - cbn. by apply alter_present.
  - intros _ _ q snap Hq Hw. rewrite Hp in Hq. injection Hq as <- <-.
    destruct Hown as (_ & _ & _ & Hs & Ha). by eapply fits_within.
Qed.

Lemma released_in_budget session at_ db db' :
  released_row session at_ db db' → in_budget db → in_budget db'.
Proof.
  intros [Hg [Hr|(run & row & Hk & _ & _ & Hr)]]; [by apply same_in_budget|].
  by eapply (update_in_budget _ _ run row (deactivate at_ row)).
Qed.

Lemma same_reserved session at_ db db1 db2 :
  same db db1 → reserved session at_ db1 db2 → reserved session at_ db db2.
Proof.
  intros [Hr Hg] (run & row & p & snapshot & Hx). exists run, row, p, snapshot.
  unfold select_reservations in *. rewrite Hr, Hg in Hx. done.
Qed.

(** [acquire] keeps the reservations, or reserves, or takes the slot of the run, or both. *)
Lemma acquire_effect session at_ db o db' :
  acquire participant_policy session at_ db = (o, db') →
  ∃ db1, (same db db1 ∨ reserved session at_ db db1) ∧
    ((db' = db1 ∧
      (o = Ok true → ∃ run row, t_reservations db1 !! run = Some row ∧
                       own_row session run row ∧ v_active row = true)) ∨
     (o = Ok true ∧ ∃ run row, t_reservations db1 !! run = Some row ∧ own_row session run row ∧
        v_active row = false ∧ v_released_at row = None ∧
        slot_taken session at_ run row db1 db')).
Proof.
  unfold acquire. rewrite bind_run. intros Hx.
  destruct (lock session db) as [[u|e] db1] eqn:Hl; apply lock_same in Hl as Hsame;
    [|simplify_eq; exists db'; split; [by left|left; by split]].
  rewrite bind_run in Hx. destruct (prior session db1) as [[[row|]|e] db2] eqn:Hp.
  - apply prior_Ok in Hp as [-> (run & Hk & Hown)].
    destruct (v_active row) eqn:Ha.
    { unfold mret, tx_ret in Hx. simplify_eq. exists db'. split; [by left|]. left. eauto 6. }
    rewrite lift_bind in Hx.
    destruct (raise_if _ _) as [[]|] eqn:Hrel; [|simplify_eq; exists db'; split; [by left|left; by split]].
    apply raise_if_Ok, is_some_false in Hrel. exists db1. split; [by left|].
    apply (take_slot_effect _ _ _ _ _ _ _ Hown) in Hx as [[-> Ho]|[-> Ht]]; [by left|right].
    split; [done|]. by exists run, row.
  - apply prior_Ok in Hp as [-> Hnone].
    destruct (reserve _ session at_ db1) as [o1 db3] eqn:Hres.
    apply reserve_effect in Hres as [[Hsame3 Hok]|[-> Hres]].
    + assert (same db db3) as Hs.
      { destruct Hsame, Hsame3. split; congruence. }
      exists db3. split; [by left|left]. destruct o1 as [[]|e].
      * destruct (Hok eq_refl) as (run & row & Hk & Hrun & _). destruct Hsame3 as [Hr3 _].
        by rewrite Hr3, (Hnone run Hrun) in Hk.
      * destruct e; try (by simplify_eq). case_bool_decide; by simplify_eq.
    + exists db3. split; [right; by eapply same_reserved|].
      destruct Hres as (run & row & p & snapshot & Hown & _ & _ & _ & _ & Ha & Hrel & Hr & _).
      assert (t_reservations db3 !! run = Some row) as Hk by by rewrite Hr, lookup_insert_eq.
      apply (take_slot_effect _ _ _ _ _ _ _ Hown) in Hx as [[-> Ho]|[-> Ht]]; [by left|right].
      split; [done|]. by exists run, row.
  - assert (db2 = db1) as -> by by rewrite <- (prior_db session db1), Hp.
    simplify_eq. exists db'. split; [by left|left; by split].
Qed.

Lemma prior_own session run row db :
  t_reservations db !! run = Some row → own_row session run row →
  prior session db = (Ok (Some row), db).
Proof.
  intros Hk (Hrun & Hid & Horg & Hs & Ha). unfold prior. rewrite Hrun. cbn. rewrite Hk, Hid, Horg.
  cbn. rewrite Hs, Ha, !bool_decide_eq_true_2 by done. done.
Qed.

(** Whether [lock] succeeds depends on the session only. *)
Lemma lock_again session db u db1 db2 :
  lock session db = (Ok u, db1) → ∃ db3, lock session db2 = (Ok tt, db3) ∧ same db2 db3.
Proof.
  unfold lock. rewrite !lift_bind. destruct (int_of _) as [org|]; [|done].
  rewrite !lift_bind. destruct (unsigned org); [|done]. intros _. eexists. by split.
Qed.

Lemma acquire_lock session at_ db db' b :
  acquire participant_policy session at_ db = (Ok b, db') →
  ∃ db1, lock session db = (Ok tt, db1).
Proof.
  unfold acquire. rewrite bind_run. destruct (lock session db) as [[[]|e] db1]; [by eexists|done].
Qed.

Lemma acquire_held session at_ run row db db0 db1 :
  lock session db0 = (Ok tt, db1) →
  t_reservations db !! run = Some row → own_row session run row →
  (v_active row = true →
     ∃ db', acquire participant_policy session at_ db = (Ok true, db') ∧ same db db') ∧
  (v_active row = false → is_Some (v_released_at row) →
     (acquire participant_policy session at_ db).1
       = Err (RuleViolation "participant_slot_already_released")).
Proof.
  intros Hl Hk Hown. destruct (lock_again _ _ _ _ db Hl) as (db3 & Hl3 & Hs3).
  unfold acquire. rewrite bind_run, Hl3, bind_run.
  rewrite (prior_own session run row) by (done || by rewrite (proj1 Hs3)).
  split; intros Ha; rewrite Ha; [by eexists|]. intros [t Ht]. by rewrite lift_bind, Ht.
Qed.

Lemma acquire_true session at_ db db' :
  acquire participant_policy session at_ db = (Ok true, db') →
  ∃ run row, t_reservations db' !! run = Some row ∧ own_row session run row ∧
    v_active row = true.
Proof.
  intros (db1 & _ & [[-> Ho]|(_ & run & row & Hk & Hown & Ha & _ & p & sn & _ & _ & ->)])%acquire_effect;
    [by apply Ho|].
  exists run, (activate at_ row). split_and!; try done.
  cbn. by rewrite lookup_alter_eq, Hk.
Qed.

(** A call of the capacity operations by any session at any time, whatever it answers. *)
Inductive capacity_step : DB → DB → Prop :=
| step_reserve session at_ o db db' :
    reserve participant_policy session at_ db = (o, db') → capacity_step db db'
| step_acquire session at_ o db db' :
    acquire participant_policy session at_ db = (o, db') → capacity_step db db'
| step_release session at_ o db db' :
    release session at_ db = (o, db') → capacity_step db db'.

(** a slot is held once: a successful acquisition leaves the session's own reservation active,
    acquiring again answers yes without another slot, a release makes it inactive, and from then
    on the slot of that run can not be taken again. *)
Theorem slot_lifecycle session at_ at2 at3 db db1 db2 :
  acquire participant_policy session at_ db = (Ok true, db1) →
  (acquire participant_policy session at2 db1).1 = Ok true ∧
  t_reservations (acquire participant_policy session at2 db1).2 = t_reservations db1 ∧
  (release session at2 db1 = (Ok tt, db2) →
   (acquire participant_policy session at3 db2).1
     = Err (RuleViolation "participant_slot_already_released")).
Proof.
  intros Hx. destruct (acquire_lock _ _ _ _ _ Hx) as [db0 Hl].
  apply acquire_true in Hx as (run & row & Hk & Hown & Ha).
  destruct (acquire_held session at2 run row db1 db db0 Hl Hk Hown) as [Hheld _].
  destruct (Hheld Ha) as (db3 & -> & [Hs _]). split; [done|]. split; [done|]. intros Hrel.
  assert (∃ row2, t_reservations db2 !! run = Some row2 ∧ own_row session run row2 ∧
            v_active row2 = false ∧ is_Some (v_released_at row2)) as (row2 & Hk2 & Hown2 & Ha2 & Hr2).
  { unfold release in Hrel. rewrite bind_run in Hrel.
    destruct (lock session db1) as [[[]|] db4] eqn:Hl4; [|done]. apply lock_same in Hl4 as [Hr4 _].
    pose proof Hown as (Hrun & _ & Horg & _). rewrite lift_bind, Horg in Hrel.
    unfold modify, update_run in Hrel. rewrite Hrun in Hrel. injection Hrel as <-.
    exists (deactivate at2 row). cbn. rewrite lookup_alter_eq, Hr4, Hk. cbn.
    unfold active_of. rewrite bool_decide_eq_true_2, Ha by done. by split_and!. }
  by apply (acquire_held session at3 run row2 db2 db db0 Hl Hk2 Hown2).
Qed.
End properties.

(** ** Policies under other policies *)

Section policies.
Context {G : Type}.
Notation Policy := (Z → G → res (ParticipantCapacityPolicy * json)).
Implicit Types (pp qq : Policy) (db : Tables G).

Definition limits_le (a b : Z * Z * Z) : Prop := a.1.1 <= b.1.1 ∧ a.1.2 <= b.1.2 ∧ a.2 <= b.2.

(** Whenever [pp] answers limits, [qq] answers limits that are not lower. *)
Definition looser (g : G) pp qq : Prop :=
  ∀ org p snapshot, pp org g = Ok (p, snapshot) →
    ∃ q other, qq org g = Ok (q, other) ∧
      limits_le (daily_limits p) (daily_limits q) ∧ limits_le (active_limits p) (active_limits q).

Lemma looser_refl g pp : looser g pp pp.
Proof. intros org p snapshot Hp. exists p, snapshot. unfold limits_le. split_and!; (done || lia). Qed.

Lemma fits_mono rows session a b :
  limits_le a b → fits rows session a = true → fits rows session b = true.
Proof.
  destruct a as [[o u] x], b as [[o' u'] x']. unfold limits_le, fits. cbn. intros (? & ? & ?) Hf.
  bool_inv. rewrite !andb_true_iff, forallb_true. split_and!; [lia..|].
  intros y Hy. match goal with H : ∀ z, z ∈ _ → _ |- _ => specialize (H y Hy) end. lia.
Qed.

Lemma reserved_looser pp qq session at_ db db' :
  looser (t_rest db) pp qq → reserved pp session at_ db db' → reserved qq session at_ db db'.
Proof.
  intros Hl (run & row & p & snapshot & Hown & Hk & Hp & Hf & Hrest).
  destruct (Hl _ _ _ Hp) as (q & other & Hq & Hle & _).
  exists run, row, q, other. split_and!; try done; [by eapply fits_mono|apply Hrest..].
Qed.

Lemma slot_taken_looser pp qq session at_ run row db db' :
  looser (t_rest db) pp qq →
  slot_taken pp session at_ run row db db' → slot_taken qq session at_ run row db db'.
Proof.
  intros Hl (p & snapshot & Hp & Hf & ->).
  destruct (Hl _ _ _ Hp) as (q & other & Hq & _ & Hle).
  exists q, other. split_and!; [done|by eapply fits_mono|done].
Qed.

Lemma capacity_step_rest pp db db' : capacity_step pp db db' → t_rest db' = t_rest db.
Proof.
  intros [session at_ o d d' Hx|session at_ o d d' Hx|session at_ o d d' Hx].
  - apply reserve_effect in Hx as [[[_ ?] _]|[_ (?&?&?&?&?)]]; naive_solver.
  - apply acquire_effect in Hx as (d1 & Hd1 & Hx).
    assert (t_rest d1 = t_rest d) as Hr by (destruct Hd1 as [[_ ?]|(?&?&?&?&?)]; naive_solver).
    by destruct Hx as [[-> _]|(_ & run & row & _ & _ & _ & _ & p & sn & _ & _ & ->)].
  - by apply release_effect in Hx as [? _].
Qed.

(** Operations under a policy keep the budgets of every looser one. *)
Lemma capacity_step_in_budget pp qq db db' :
  looser (t_rest db) pp qq → capacity_step pp db db' → in_budget qq db → in_budget qq db'.
Proof.
  intros Hl Hstep Hb.
  destruct Hstep as [session at_ o db db1 Hx|session at_ o db db1 Hx|session at_ o db db1 Hx].
  - apply reserve_effect in Hx as [[Hs _]|[_ Hr]]; [by eapply same_in_budget|].
    by eapply reserved_in_budget, Hb; eapply reserved_looser.
  - apply acquire_effect in Hx as (db3 & Hdb3 & Hx).
    assert (in_budget qq db3 ∧ t_rest db3 = t_rest db) as [Hb3 Hr3].
    { destruct Hdb3 as [Hs|Hr]; [split; [by eapply same_in_budget|apply Hs]|].
      split; [by eapply reserved_in_budget, Hb; eapply reserved_looser|].
      destruct Hr as (?&?&?&?&?). naive_solver. }
    destruct Hx as [[-> _]|(_ & run & row & Hk & Hown & _ & _ & Ht)]; [done|].
    rewrite <- Hr3 in Hl. by eapply slot_taken_in_budget, Hb3; [..|eapply slot_taken_looser].
  - apply release_effect in Hx. by eapply released_in_budget.
Qed.

(** C27: admission control is exact and cannot be raced past its limits: whatever sequence of
    reservations, acquisitions and releases the sessions of every organization make, each
    organization keeps its reservations of each day, and its active slots, within its limits: in
    total, per user and per assessment. *)
Theorem capacity_invariant participant_policy db db' :
  in_budget participant_policy db → rtc (capacity_step participant_policy) db db' →
  in_budget participant_policy db'.
Proof.
  intros Hb Hsteps. induction Hsteps as [|db db1 db2 Hstep _ IH]; [done|].
  by eapply IH, capacity_step_in_budget, Hb; [apply looser_refl|].
Qed.
End policies.
