(* ===== verification/Quotas.v ===== *)
(** * Quotas: the capacity limits an organization may set

    Models [src/src/qs_ai/application/governance/quotas.py],
    [src/src/qs_ai/application/evaluation/capacity.py] and
    [src/src/qs_ai/infrastructure/persistence/mysql/quotas.py]: typed quota values under the
    ceilings of the deployment, the versions, pointers and commands of an organization, and the
    policies that admissions read.  The operations run on the tables of the interpretation, whose
    remaining part are the quota tables, so that they share the admission locks. *)
From stdpp Require Import pretty sorting.
From S2P Require Import Prelude PyText PyInt PyUuid PyTime PyHash PyJson JsonRoundTrip.
From S2P Require Import Transactions Tables Capacity.

Local Open Scope string_scope.
Local Open Scope Z_scope.
Local Open Scope py_scope.

(** ** Typed values *)

Record EvaluationCapacityPolicy : Type := mk_EvaluationCapacityPolicy {
  daily_provider_calls : Z;
  max_active_runs : Z;
}.

#[export] Instance EvaluationCapacityPolicy_post_init : Validated EvaluationCapacityPolicy :=
  λ self,
  raise_if (existsb (λ v, v <? 1) [daily_provider_calls self; max_active_runs self])
    (ValueError "Positive evaluation capacity limits required").

Definition DEFAULT_EVALUATION_CAPACITY : EvaluationCapacityPolicy :=
  mk_EvaluationCapacityPolicy 1024 1.

Record QuotaValues : Type := mk_QuotaValues {
  participant : ParticipantCapacityPolicy;
  evaluation : EvaluationCapacityPolicy;
}.

#[export] Instance ParticipantCapacityPolicy_eq_dec : EqDecision ParticipantCapacityPolicy.
Proof. solve_decision. Defined.
#[export] Instance EvaluationCapacityPolicy_eq_dec : EqDecision EvaluationCapacityPolicy.
Proof. solve_decision. Defined.
#[export] Instance QuotaValues_eq_dec : EqDecision QuotaValues.
Proof. solve_decision. Defined.

(** The fields of the sections, in the order of [asdict]. *)
Definition participant_fields (p : ParticipantCapacityPolicy) : list (string * Z) :=
  [("daily_org", daily_org p); ("daily_user", daily_user p);
   ("daily_assessment", daily_assessment p); ("active_org", active_org p);
   ("active_user", active_user p); ("active_assessment", active_assessment p)].
Definition evaluation_fields (p : EvaluationCapacityPolicy) : list (string * Z) :=
  [("daily_provider_calls", daily_provider_calls p); ("max_active_runs", max_active_runs p)].
Definition sections (v : QuotaValues) : list (string * list (string * Z)) :=
  [("participant", participant_fields (participant v));
   ("evaluation", evaluation_fields (evaluation v))].

(** The dictionary of a section, and [asdict]. *)
Definition section_dict (fields : list (string * Z)) : json :=
  JObj ((λ kv, (kv.1, JInt kv.2)) <$> fields).
Definition sections_dict (l : list (string * list (string * Z))) : json :=
  JObj ((λ kv, (kv.1, section_dict kv.2)) <$> l).
Definition asdict (v : QuotaValues) : json := sections_dict (sections v).

(** [set(d) == set(ks)] *)
Definition same_keys (ks : list string) (d : list (string * json)) : bool :=
  forallb (λ k, k is_in ks) d.*1 && forallb (λ k, k is_in d.*1) ks.

(** A keyword argument of a policy: its default when it is missing. *)
Definition limit_of (e : exn) (d : list (string * json)) (k : string) (default : Z) : res Z :=
  match assoc k d with
  | None => Ok default
  | Some (JInt z) => Ok z
  | Some _ => Err e
  end.

(** [ParticipantCapacityPolicy( **v )] and [EvaluationCapacityPolicy( **v )]: an unknown key is a
    [TypeError], a value that is no integer is refused like one that is not positive. *)
Definition participant_of (v : json) : res ParticipantCapacityPolicy :=
  match v with
  | JObj d =>
    raise_if (negb (forallb (λ k, k is_in (participant_fields DEFAULT_PARTICIPANT_CAPACITY).*1) d.*1))
      TypeError ;;
    let get := limit_of (ValueError "Positive participant capacity limits required") d in
    a ← get "daily_org" 500;
    b ← get "daily_user" 5;
    c ← get "daily_assessment" 3;
    x ← get "active_org" 10;
    y ← get "active_user" 2;
    z ← get "active_assessment" 1;
    construct (mk_ParticipantCapacityPolicy a b c x y z)
  | _ => Err TypeError
  end.
Definition evaluation_of (v : json) : res EvaluationCapacityPolicy :=
  match v with
  | JObj d =>
    raise_if (negb (forallb (λ k, k is_in (evaluation_fields DEFAULT_EVALUATION_CAPACITY).*1) d.*1))
      TypeError ;;
    let get := limit_of (ValueError "Positive evaluation capacity limits required") d in
    a ← get "daily_provider_calls" 1024;
    b ← get "max_active_runs" 1;
    construct (mk_EvaluationCapacityPolicy a b)
  | _ => Err TypeError
  end.

Definition parse (raw : json) : res QuotaValues :=
  match raw with
  | JObj d =>
    raise_if (negb (same_keys ["participant"; "evaluation"] d))
      (ValueError "Complete typed quota values required") ;;
    raise_if (negb (forallb (λ kv, is_dict kv.2) d)) (ValueError "Quota sections must be objects") ;;
    p ← json_item raw "participant";
    e ← json_item raw "evaluation";
    raise_ifM
      (anyM (λ sv, ks ← keys sv.1;
                   Ok (negb (same_keys sv.2 ((λ k, (k, JNull)) <$> ks))))
         [(p, (participant_fields DEFAULT_PARTICIPANT_CAPACITY).*1);
          (e, (evaluation_fields DEFAULT_EVALUATION_CAPACITY).*1)])
      (ValueError "Complete quota fields required") ;;
    p ← participant_of p;
    e ← evaluation_of e;
    Ok (mk_QuotaValues p e)
  | _ => Err (ValueError "Complete typed quota values required")
  end.

(** The loop of [bounded] over the fields of a section: a value above its limit becomes the limit
    and its name is reported. *)
Fixpoint clamp (section : string) (limits fields : list (string * Z))
    : res (list (string * Z) * list string) :=
  match fields with
  | [] => Ok ([], [])
  | (key, value) :: fields =>
    limit ← match assoc key limits with Some l => Ok l | None => Err (KeyError key) end;
    '(fields, constrained) ← clamp section limits fields;
    Ok (if limit <? value then ((key, limit) :: fields, (section ++ "." ++ key) :: constrained)
        else ((key, value) :: fields, constrained))
  end.
Fixpoint clamp_sections (limits values : list (string * list (string * Z)))
    : res (list (string * list (string * Z)) * list string) :=
  match values with
  | [] => Ok ([], [])
  | (section, fields) :: values =>
    limit ← match assoc section limits with Some l => Ok l | None => Err (KeyError section) end;
    '(fields, constrained) ← clamp section limit fields;
    '(values, others) ← clamp_sections limits values;
    Ok ((section, fields) :: values, (constrained ++ others)%list)
  end.

Definition bounded (self ceiling : QuotaValues) : res (QuotaValues * list string) :=
  '(values, constrained) ← clamp_sections (sections ceiling) (sections self);
  v ← parse (sections_dict values);
  Ok (v, constrained).

Definition validate_write (self ceiling : QuotaValues) : res unit :=
  '(_, constrained) ← bounded self ceiling;
  raise_if (negb (constrained == [])) (ValueError "Organization quota exceeds deployment ceiling").

Record QuotaBaseline : Type := mk_QuotaBaseline {
  defaults : QuotaValues;
  ceilings : QuotaValues;
}.

#[export] Instance QuotaBaseline_post_init : Validated QuotaBaseline :=
  λ self, validate_write (defaults self) (ceilings self).

Definition configuration_status (configured : option QuotaValues) (revision : Z) : json :=
  JList [
    JObj [("category", JStr "organization_quotas");
          ("source", JStr (if configured then "mysql" else "deployment_default"));
          ("version", JInt revision);
          ("applies_to", JStr "next_admission_or_slot")];
    JObj [("category", JStr "quota_ceilings"); ("source", JStr "deployment");
          ("applies_to", JStr "restart")];
    JObj [("category", JStr "execution_assets"); ("source", JStr "publication_snapshot");
          ("applies_to", JStr "new_accepted_task")]].

Definition optional_dict (v : option QuotaValues) : json :=
  match v with Some v => asdict v | None => JNull end.

Definition resolve (self : QuotaBaseline) (configured : option QuotaValues) (revision : Z)
    : res (list (string * json)) :=
  raise_if ((revision <? 0) || xorb (is_none configured) (revision == 0))
    (ValueError "Invalid quota pointer") ;;
  '(effective, constrained) ← bounded (default (defaults self) configured) (ceilings self);
  Ok [("revision", JInt revision);
      ("source", JStr (if configured then "organization" else "deployment_default"));
      ("defaults", asdict (defaults self));
      ("ceilings", asdict (ceilings self));
      ("configured", optional_dict configured);
      ("effective", asdict effective);
      ("constrained_fields", JList (JStr <$> constrained));
      ("configuration_status", configuration_status configured revision)].

Definition default_baseline : QuotaBaseline :=
  let values := mk_QuotaValues DEFAULT_PARTICIPANT_CAPACITY DEFAULT_EVALUATION_CAPACITY in
  mk_QuotaBaseline values values.

(** ** Tables *)

Record VersionRow : Type := mk_VersionRow {
  qv_definition_json : string;
  qv_definition_sha256 : string;
  qv_operator_user_id : Z;
  qv_reason : string;
  qv_created_at : Z;
}.

Record CommandRow : Type := mk_CommandRow {
  qc_operator_user_id : Z;
  qc_request_json : string;
  qc_receipt_json : string;
  qc_receipt_sha256 : string;
}.

Record QuotaTables : Type := mk_QuotaTables {
  q_versions : gmap (Z * Z) VersionRow;
  q_pointers : gmap Z Z;
  q_commands : gmap (Z * string) CommandRow;
  q_evaluation_locks : gset Z;
}.

Definition set_versions (x : gmap (Z * Z) VersionRow) (q : QuotaTables) : QuotaTables :=
  mk_QuotaTables x (q_pointers q) (q_commands q) (q_evaluation_locks q).
Definition set_pointers (x : gmap Z Z) (q : QuotaTables) : QuotaTables :=
  mk_QuotaTables (q_versions q) x (q_commands q) (q_evaluation_locks q).
Definition set_commands (x : gmap (Z * string) CommandRow) (q : QuotaTables) : QuotaTables :=
  mk_QuotaTables (q_versions q) (q_pointers q) x (q_evaluation_locks q).
Definition set_evaluation_locks (x : gset Z) (q : QuotaTables) : QuotaTables :=
  mk_QuotaTables (q_versions q) (q_pointers q) (q_commands q) x.

(** ** Texts *)

Definition sorted_finite : dump_style := mk_dump_style "," ":" true false.
Definition encode (value : json) : res string := dumps_with sorted_finite value.
Definition digest (raw : string) : string := sha256_hex raw.
Definition checked (raw checksum : string) : res json :=
  raise_if (digest raw != checksum) (ValueError "Quota snapshot checksum mismatch") ;;
  loads raw.

(** ** The policy in force *)

Definition values_of (row : VersionRow) : res QuotaValues :=
  raw ← checked (qv_definition_json row) (qv_definition_sha256 row);
  parse raw.

Definition configuration (organization_id : Z) (q : QuotaTables) : res (option QuotaValues * Z) :=
  match q_pointers q !! organization_id with
  | None => Ok (None, 0)
  | Some revision =>
    match q_versions q !! (organization_id, revision) with
    | None => Err NoResultFound
    | Some row => v ← values_of row; Ok (Some v, revision)
    end
  end.

Definition effective (baseline : QuotaBaseline) (organization_id : Z) (q : QuotaTables)
    : res (list (string * json)) :=
  '(configured, revision) ← configuration organization_id q;
  resolve baseline configured revision.

Definition baseline_or (values : QuotaValues) (baseline : option QuotaBaseline)
    : res QuotaBaseline :=
  match baseline with Some b => Ok b | None => construct (mk_QuotaBaseline values values) end.

Definition participant_policy (defaults : ParticipantCapacityPolicy)
    (baseline : option QuotaBaseline) (organization_id : Z) (q : QuotaTables)
    : res (ParticipantCapacityPolicy * json) :=
  baseline ← baseline_or (mk_QuotaValues defaults DEFAULT_EVALUATION_CAPACITY) baseline;
  snapshot ← effective baseline organization_id q;
  e ← json_item (JObj snapshot) "effective";
  p ← json_item e "participant";
  policy ← participant_of p;
  Ok (policy, JObj snapshot).

Definition evaluation_policy (defaults : EvaluationCapacityPolicy)
    (baseline : option QuotaBaseline) (organization_id : Z) (q : QuotaTables)
    : res (EvaluationCapacityPolicy * json) :=
  baseline ← baseline_or (mk_QuotaValues DEFAULT_PARTICIPANT_CAPACITY defaults) baseline;
  snapshot ← effective baseline organization_id q;
  e ← json_item (JObj snapshot) "effective";
  p ← json_item e "evaluation";
  policy ← evaluation_of p;
  Ok (policy, JObj snapshot).

(** ** Operations *)

(** [positive] and [DraftScope]. *)
Definition positive (value : Z) : bool := (0 <? value) && (value <? 2 ^ 63).

Record DraftScope : Type := mk_DraftScope { organization_id : Z; operator_user_id : Z }.
#[export] Instance DraftScope_post_init : Validated DraftScope :=
  λ self,
  raise_if (negb (positive (organization_id self)) || negb (positive (operator_user_id self)))
    (ValueError "Trusted draft management scope required").

Definition valid_reason (value : string) : bool :=
  nonempty (strip value) && (byte_len value <=? 1000) && negb (any_char (nul :: angle_brackets) value).

Section operations.
Context (baseline : QuotaBaseline).
Notation DB := (Tables QuotaTables).
Notation quotas := (@t_rest QuotaTables).

Definition modify_quotas (f : QuotaTables → QuotaTables) : tx DB unit :=
  modify (λ db, set_rest (f (t_rest db)) db).

Definition lock_configuration (org : Z) : tx DB unit :=
  modify (λ db, set_locks ({[org]} ∪ t_locks db) db) ;;
  modify_quotas (λ q, set_evaluation_locks ({[org]} ∪ q_evaluation_locks q) q).

Definition get (scope : DraftScope) : DB → res (list (string * json)) * DB :=
  transaction (db ← get_db;
               v ← lift (effective baseline (organization_id scope) (quotas db));
               mret (v, false)).

(** The recorded answer of a command; [request] is checked when it is given. *)
Definition receipt_of (scope : DraftScope) (command_id : Z) (request : option string)
    (q : QuotaTables) : res (option json) :=
  match q_commands q !! (organization_id scope, uuid_text command_id) with
  | None => Ok None
  | Some row =>
    raise_if (qc_operator_user_id row != operator_user_id scope) NotFound ;;
    raise_if (match request with Some r => qc_request_json row != r | None => false end)
      (DraftConflict "Quota command identity already used") ;;
    value ← checked (qc_receipt_json row) (qc_receipt_sha256 row);
    raise_if (negb (is_dict value)) (ValueError "Invalid quota receipt") ;;
    Ok (Some value)
  end.

Definition receipt (scope : DraftScope) (command_id : Z) : DB → res json * DB :=
  transaction (db ← get_db;
               o ← lift (receipt_of scope command_id None (quotas db));
               match o with
               | None => lift (Err NotFound)
               | Some v => mret (v, false)
               end).

(** [SELECT ... ORDER BY revision DESC] of the versions of an organization. *)
Definition newest_first (a b : Z * VersionRow) : Prop := b.1 <= a.1.
#[export] Instance newest_first_dec : RelDecision newest_first := λ a b, decide (b.1 <= a.1).
Definition select_versions (org before_revision : Z) (q : QuotaTables) : list (Z * VersionRow) :=
  merge_sort newest_first
    ((λ kv, (kv.1.2, kv.2)) <$>
       filter (λ kv, kv.1.1 = org ∧ (before_revision = 0 ∨ kv.1.2 < before_revision))
         (map_to_list (q_versions q))).

Definition history_item (kv : Z * VersionRow) : res json :=
  v ← values_of kv.2;
  Ok (JObj [("revision", JInt kv.1);
            ("values", asdict v);
            ("operator_user_id", JStr (pretty (qv_operator_user_id kv.2)));
            ("reason", JStr (qv_reason kv.2));
            ("created_at", JStr (isoformat (utc (qv_created_at kv.2))))]).

Definition history (scope : DraftScope) (before_revision : Z) : DB → res (list json * Z) * DB :=
  λ db,
  if before_revision <? 0 then (Err (ValueError "Invalid history cursor"), db) else
  transaction (db ← get_db;
               let rows := take 21 (select_versions (organization_id scope) before_revision
                                      (quotas db)) in
               items ← lift (mapM history_item (take 20 rows));
               mret ((items, match rows !! 20%nat, rows !! 19%nat with
                             | Some _, Some r => r.1
                             | _, _ => 0
                             end), false)) db.

Definition optional_int (v : option Z) : json := match v with Some z => JInt z | None => JNull end.

Definition request_of (expected_revision : Z) (reason : string) (values : option QuotaValues)
    (target_revision : option Z) : res string :=
  encode (JObj [("expected_revision", JInt expected_revision);
                ("reason", JStr reason);
                ("values", optional_dict values);
                ("target_revision", optional_int target_revision)]).

(** The values an accepted command writes. *)
Definition new_values (scope : DraftScope) (values : option QuotaValues)
    (target_revision : option Z) (q : QuotaTables) : res QuotaValues :=
  values ← match target_revision with
           | Some r =>
             match q_versions q !! (organization_id scope, r) with
             | None => Err NotFound
             | Some row => v ← values_of row; Ok (Some v)
             end
           | None => Ok values
           end;
  match values with Some v => Ok v | None => Err AssertionError end.

(** The body of [apply] after the replay check: the new version, the pointer and the receipt. *)
Definition write_version (scope : DraftScope) (command_id : Z) (request : string)
    (expected_revision : Z) (reason : string) (at_ : datetime) (values : option QuotaValues)
    (target_revision : option Z) : tx DB (json * bool) :=
  db ← get_db;
  let q := quotas db in
  '(_, revision) ← lift (configuration (organization_id scope) q);
  lift (raise_if (expected_revision != revision) (DraftConflict "Quota revision changed")) ;;
  values ← lift (new_values scope values target_revision q);
  lift (validate_write values (ceilings baseline)) ;;
  raw ← lift (encode (asdict values));
  let revision := revision + 1 in
  lift (raise_if (2 ^ 63 <=? revision) DataError) ;;
  lift (raise_if (is_some (q_versions q !! (organization_id scope, revision))) IntegrityError) ;;
  modify_quotas (λ q, set_versions
    (<[(organization_id scope, revision) :=
         mk_VersionRow raw (digest raw) (operator_user_id scope) reason (instant at_)]>
       (q_versions q)) q) ;;
  modify_quotas (λ q, set_pointers (<[organization_id scope := revision]> (q_pointers q)) q) ;;
  resolved ← lift (resolve baseline (Some values) revision);
  let result := JObj (resolved ++
    [("command_id", JStr (uuid_text command_id));
     ("reason", JStr reason);
     ("operator_user_id", JStr (pretty (operator_user_id scope)));
     ("created_at", JStr (isoformat (utc (instant at_))))])%list in
  receipt ← lift (encode result);
  lift (raise_if (is_some (q_commands q !! (organization_id scope, uuid_text command_id)))
          IntegrityError) ;;
  modify_quotas (λ q, set_commands
    (<[(organization_id scope, uuid_text command_id) :=
         mk_CommandRow (operator_user_id scope) request receipt (digest receipt)]>
       (q_commands q)) q) ;;
  mret (result, true).

Definition apply (scope : DraftScope) (command_id expected_revision : Z) (reason : string)
    (at_ : datetime) (values : option QuotaValues) (target_revision : option Z)
    : DB → res json * DB := λ db,
  match
    raise_if ((command_id == 0) || (expected_revision <? 0) || negb (valid_reason reason)
              || tz_none at_ || Bool.eqb (is_none values) (is_none target_revision))
      (ValueError "Complete quota command required") ;;
    raise_if (match target_revision with Some r => r <? 1 | None => false end)
      (ValueError "Positive rollback revision required") ;;
    request_of expected_revision reason values target_revision
  with
  | Err e => (Err e, db)
  | Ok request =>
    transaction
      (lock_configuration (organization_id scope) ;;
       db ← get_db;
       prior ← lift (receipt_of scope command_id (Some request) (quotas db));
       match prior with
       | Some value => mret (value, false)
       | None =>
         write_version scope command_id request expected_revision reason at_ values target_revision
       end) db
  end.
End operations.
Local Close Scope py_scope.

(** ** Values and their texts *)

(** Values Python could build. *)
Definition valid (v : QuotaValues) : Prop :=
  constructed (participant v) ∧ constructed (evaluation v).

Lemma participant_of_fields p : participant_of (section_dict (participant_fields p)) = construct p.
Proof. by destruct p. Qed.
Lemma evaluation_of_fields p : evaluation_of (section_dict (evaluation_fields p)) = construct p.
Proof. by destruct p. Qed.

Lemma parse_asdict_eq v :
  parse (asdict v) = (p ← construct (participant v); e ← construct (evaluation v);
                      Ok (mk_QuotaValues p e)).
Proof. by destruct v as [[] []]. Qed.

Lemma parse_asdict v : valid v → parse (asdict v) = Ok v.
Proof.
  intros [Hp He]. rewrite parse_asdict_eq. unfold construct. rewrite Hp, He. by destruct v.
Qed.

(** What [json.loads] reads back from the stored text: the same sections, keys in order. *)
Lemma parse_written v : parse (written sorted_finite (asdict v)) = parse (asdict v).
Proof. by destruct v as [[] []]. Qed.

Lemma comma_separates : separates "," (item_separator sorted_finite).
Proof. by left. Qed.
Lemma colon_separates : separates ":" (key_separator sorted_finite).
Proof. by left. Qed.

Lemma checked_encode d raw :
  textual d = true → encode d = Ok raw →
  checked raw (digest raw) = Ok (written sorted_finite d).
Proof.
  intros Hd Hraw. unfold checked. rewrite bool_decide_eq_true_2 by done. cbn.
  by apply (loads_dumps sorted_finite comma_separates colon_separates).
Qed.

(** An accepted quota survives its storage. *)
Lemma quota_text v raw operator reason at_ :
  valid v → encode (asdict v) = Ok raw →
  values_of (mk_VersionRow raw (digest raw) operator reason at_) = Ok v.
Proof.
  intros Hv Hraw. unfold values_of. cbn [qv_definition_json qv_definition_sha256].
  rewrite (checked_encode (asdict v)) by done. cbn [mbind res_bind].
  by rewrite parse_written, parse_asdict.
Qed.

(** A stored snapshot is read back as it was written: with its digest the encoded document loads
    to an equal document and an encoded quota parses to the same values; with any other digest it
    is refused before it is parsed. *)
Theorem snapshot_round_trip d raw :
  textual d = true → encode d = Ok raw →
  (∃ d', checked raw (digest raw) = Ok d' ∧ json_eqb d d' = true ∧
     ∀ v, valid v → d = asdict v → parse d' = Ok v) ∧
  ∀ sha, sha ≠ digest raw →
    checked raw sha = Err (ValueError "Quota snapshot checksum mismatch").
Proof.
  intros Hd Hraw. split.
  - exists (written sorted_finite d). split_and!; [by apply checked_encode|by apply json_eqb_written|].
    intros v Hv ->. by rewrite parse_written, parse_asdict.
  - intros sha Hsha. unfold checked. by rewrite bool_decide_eq_false_2.
Qed.

(** ** Ceilings *)

Lemma clamp_spec section limits fields (f : string → Z) :
  (∀ kv, kv ∈ fields → assoc kv.1 limits = Some (f kv.1)) →
  clamp section limits fields
  = Ok ((λ kv, (kv.1, Z.min kv.2 (f kv.1))) <$> fields,
        (λ kv, section ++ "." ++ kv.1) <$> filter (λ kv, f kv.1 < kv.2) fields).
Proof.
  induction fields as [|[k v] fields IH]; intros Hf; [done|]. cbn [clamp].
  pose proof (Hf (k, v) ltac:(left)) as Hk. cbn in Hk. rewrite Hk. cbn [mbind res_bind].
  rewrite IH by (intros; apply Hf; by right). cbn [mbind res_bind].
  rewrite filter_cons. cbn [fst snd]. destruct (Z.ltb_spec (f k) v) as [Hlt|Hge].
  - rewrite decide_True by done. cbn. by rewrite Z.min_r by lia.
  - rewrite decide_False by lia. cbn. by rewrite Z.min_l by lia.
Qed.

Definition cap_participant (p c : ParticipantCapacityPolicy) : ParticipantCapacityPolicy :=
  mk_ParticipantCapacityPolicy
    (Z.min (daily_org p) (daily_org c)) (Z.min (daily_user p) (daily_user c))
    (Z.min (daily_assessment p) (daily_assessment c)) (Z.min (active_org p) (active_org c))
    (Z.min (active_user p) (active_user c)) (Z.min (active_assessment p) (active_assessment c)).
Definition cap_evaluation (p c : EvaluationCapacityPolicy) : EvaluationCapacityPolicy :=
  mk_EvaluationCapacityPolicy (Z.min (daily_provider_calls p) (daily_provider_calls c))
    (Z.min (max_active_runs p) (max_active_runs c)).
(** The values under the ceilings, and the names of the fields above them. *)
Definition cap (v c : QuotaValues) : QuotaValues :=
  mk_QuotaValues (cap_participant (participant v) (participant c))
    (cap_evaluation (evaluation v) (evaluation c)).

Definition limit_in (limits : list (string * Z)) (k : string) : Z := default 0 (assoc k limits).
Definition above (section : string) (fields limits : list (string * Z)) : list string :=
  (λ kv, section ++ "." ++ kv.1) <$> filter (λ kv, limit_in limits kv.1 < kv.2) fields.
Definition exceeded (v c : QuotaValues) : list string :=
  (above "participant" (participant_fields (participant v)) (participant_fields (participant c))
   ++ above "evaluation" (evaluation_fields (evaluation v)) (evaluation_fields (evaluation c)))%list.

Lemma bounded_eq v c :
  bounded v c = (w ← parse (asdict (cap v c)); Ok (w, exceeded v c)).
Proof.
  unfold bounded, sections. cbn [clamp_sections assoc].
  rewrite (bool_decide_eq_true_2 ("participant" = "participant")) by done. cbn [mbind res_bind].
  rewrite (clamp_spec _ _ _ (limit_in (participant_fields (participant c)))).
  2: { intros kv Hkv. unfold participant_fields, evaluation_fields in Hkv.
       rewrite !elem_of_cons in Hkv. repeat (destruct Hkv as [->|Hkv]; [done|]). by apply not_elem_of_nil in Hkv. }
  cbn [mbind res_bind].
  rewrite (bool_decide_eq_false_2 ("evaluation" = "participant")) by done.
  rewrite (bool_decide_eq_true_2 ("evaluation" = "evaluation")) by done. cbn [mbind res_bind].
  rewrite (clamp_spec _ _ _ (limit_in (evaluation_fields (evaluation c)))).
  2: { intros kv Hkv. unfold participant_fields, evaluation_fields in Hkv.
       rewrite !elem_of_cons in Hkv. repeat (destruct Hkv as [->|Hkv]; [done|]). by apply not_elem_of_nil in Hkv. }
  cbn [mbind res_bind]. rewrite app_nil_r. done.
Qed.

(** The values respect the ceilings. *)
Record participant_below (p c : ParticipantCapacityPolicy) : Prop := mk_participant_below {
  below_daily_org : daily_org p <= daily_org c;
  below_daily_user : daily_user p <= daily_user c;
  below_daily_assessment : daily_assessment p <= daily_assessment c;
  below_active_org : active_org p <= active_org c;
  below_active_user : active_user p <= active_user c;
  below_active_assessment : active_assessment p <= active_assessment c;
}.
Record evaluation_below (p c : EvaluationCapacityPolicy) : Prop := mk_evaluation_below {
  below_daily_provider_calls : daily_provider_calls p <= daily_provider_calls c;
  below_max_active_runs : max_active_runs p <= max_active_runs c;
}.
Definition below (v c : QuotaValues) : Prop :=
  participant_below (participant v) (participant c) ∧ evaluation_below (evaluation v) (evaluation c).

Lemma constructed_participant p :
  constructed p ↔ 1 <= daily_org p ∧ 1 <= daily_user p ∧ 1 <= daily_assessment p ∧
                  1 <= active_org p ∧ 1 <= active_user p ∧ 1 <= active_assessment p.
Proof.
  unfold constructed, post_init, ParticipantCapacityPolicy_post_init. rewrite raise_if_Ok.
  cbn. lia.
Qed.
Lemma constructed_evaluation p :
  constructed p ↔ 1 <= daily_provider_calls p ∧ 1 <= max_active_runs p.
Proof.
  unfold constructed, post_init, EvaluationCapacityPolicy_post_init. rewrite raise_if_Ok.
  cbn. lia.
Qed.

Lemma cap_valid v c : valid v → valid c → valid (cap v c).
Proof.
  unfold valid. rewrite !constructed_participant, !constructed_evaluation. cbn. lia.
Qed.

Lemma cap_below v c : below (cap v c) c.
Proof. split; constructor; cbn; lia. Qed.

Lemma cap_id v c : below v c → cap v c = v.
Proof.
  destruct v as [[] []], c as [[] []]. intros [[] []]. cbn in *. unfold cap, cap_participant, cap_evaluation.
  cbn. repeat f_equal; lia.
Qed.

Lemma bounded_valid v c : valid v → valid c → bounded v c = Ok (cap v c, exceeded v c).
Proof. intros Hv Hc. by rewrite bounded_eq, parse_asdict by by apply cap_valid. Qed.

Lemma above_nil section fields limits :
  above section fields limits = [] ↔ ∀ kv, kv ∈ fields → kv.2 <= limit_in limits kv.1.
Proof.
  unfold above. split.
  - intros H%fmap_nil_inv kv Hkv. destruct (Z.le_gt_cases kv.2 (limit_in limits kv.1)); [done|].
    assert (kv ∈ filter (λ kv, limit_in limits kv.1 < kv.2) fields) as Hin
      by (apply list_elem_of_filter; split; [lia|done]).
    rewrite H in Hin. by apply not_elem_of_nil in Hin.
  - intros H. destruct (filter _ _) as [|kv l] eqn:E; [done|].
    assert (kv ∈ kv :: l) as Hin by left. rewrite <- E in Hin.
    apply list_elem_of_filter in Hin as [Hlt Hin]. specialize (H kv Hin). lia.
Qed.

Lemma exceeded_nil v c : exceeded v c = [] ↔ below v c.
Proof.
  unfold exceeded. rewrite app_nil, !above_nil. split.
  - intros [Hp He]. split; constructor.
    + apply (Hp ("daily_org", _)). by repeat constructor.
    + apply (Hp ("daily_user", _)). by repeat constructor.
    + apply (Hp ("daily_assessment", _)). by repeat constructor.
    + apply (Hp ("active_org", _)). by repeat constructor.
    + apply (Hp ("active_user", _)). by repeat constructor.
    + apply (Hp ("active_assessment", _)). by repeat constructor.
    + apply (He ("daily_provider_calls", _)). by repeat constructor.
    + apply (He ("max_active_runs", _)). by repeat constructor.
  - intros [[] []]. unfold participant_fields, evaluation_fields.
    split; intros kv Hkv; rewrite !elem_of_cons in Hkv;
      repeat (destruct Hkv as [->|Hkv]; [done|]); by apply not_elem_of_nil in Hkv.
Qed.

(** The ceilings bound every quota: bounding valid values answers their fieldwise minimum with
    the ceilings and the names of the fields that were above them, and values are refused for
    writing exactly when such a field exists. *)
Theorem bounded_exact v c :
  valid v → valid c →
  bounded v c = Ok (cap v c, exceeded v c) ∧ valid (cap v c) ∧ below (cap v c) c ∧
  (validate_write v c = Ok tt ↔ below v c) ∧
  (¬ below v c →
     validate_write v c = Err (ValueError "Organization quota exceeds deployment ceiling")).
Proof.
  intros Hv Hc. split_and!.
  - by apply bounded_valid.
  - by apply cap_valid.
  - apply cap_below.
  - unfold validate_write. rewrite bounded_valid by done. cbn [mbind res_bind].
    rewrite raise_if_Ok, negb_false_iff, bool_decide_eq_true. apply exceeded_nil.
  - intros Hb. unfold validate_write. rewrite bounded_valid by done. cbn [mbind res_bind].
    rewrite bool_decide_eq_false_2; [done|]. by rewrite exceeded_nil.
Qed.

(** ** The policy an admission reads *)

(** What [resolve] answers for values of the organization or the defaults. *)
Lemma resolve_Ok baseline configured revision :
  valid (ceilings baseline) → valid (default (defaults baseline) configured) →
  0 <= revision → (configured = None ↔ revision = 0) →
  ∃ snapshot, resolve baseline configured revision = Ok snapshot ∧
    assoc "effective" snapshot
    = Some (asdict (cap (default (defaults baseline) configured) (ceilings baseline))).
Proof.
  intros Hc Hv Hr Hn. unfold resolve.
  assert ((revision <? 0) || xorb (is_none configured) (bool_decide (revision = 0)) = false) as ->.
  { rewrite (proj2 (Z.ltb_ge _ _)) by done. cbn.
    destruct configured; cbn; [|by rewrite bool_decide_eq_true_2 by by apply Hn].
    rewrite bool_decide_eq_false_2; [done|]. by intros ?%Hn. }
  unfold raise_if. cbn [mbind res_bind]. rewrite bounded_valid by done. by eexists.
Qed.

Lemma policies_Ok baseline org q snapshot v :
  effective baseline org q = Ok snapshot → assoc "effective" snapshot = Some (asdict v) →
  valid v →
  (∀ d, participant_policy d (Some baseline) org q = Ok (participant v, JObj snapshot)) ∧
  (∀ d, evaluation_policy d (Some baseline) org q = Ok (evaluation v, JObj snapshot)).
Proof.
  intros He Ha [Hp Hv].
  assert (Hi : json_item (asdict v) "participant" = Ok (section_dict (participant_fields (participant v)))
             ∧ json_item (asdict v) "evaluation" = Ok (section_dict (evaluation_fields (evaluation v))))
    by done.
  split; intros d; unfold participant_policy, evaluation_policy, baseline_or;
    cbn [mbind res_bind]; rewrite He; cbn [mbind res_bind json_item]; rewrite Ha; cbn [mbind res_bind].
  - rewrite (proj1 Hi). cbn [mbind res_bind]. rewrite participant_of_fields. unfold construct.
    by rewrite Hp.
  - rewrite (proj2 Hi). cbn [mbind res_bind]. rewrite evaluation_of_fields. unfold construct.
    by rewrite Hv.
Qed.

(** ** The tables *)

(** A stored version parses to the values that were encoded. *)
Definition stored_values (row : VersionRow) (v : QuotaValues) : Prop :=
  valid v ∧ encode (asdict v) = Ok (qv_definition_json row) ∧
  qv_definition_sha256 row = digest (qv_definition_json row).

Lemma stored_values_of row v : stored_values row v → values_of row = Ok v.
Proof.
  destruct row as [raw sha o r t]. intros (Hv & Hraw & Hsha). cbn in *. subst sha.
  by apply quota_text.
Qed.

Record well_kept (q : QuotaTables) : Prop := mk_well_kept {
  kept_versions : ∀ k row, q_versions q !! k = Some row → ∃ v, stored_values row v;
  kept_range : ∀ org r, is_Some (q_versions q !! (org, r)) ↔
                         1 <= r <= default 0 (q_pointers q !! org);
  kept_pointers : ∀ org r, q_pointers q !! org = Some r → 1 <= r;
  kept_commands : ∀ k row, q_commands q !! k = Some row →
    ∃ d, textual (JObj d) = true ∧ encode (JObj d) = Ok (qc_receipt_json row) ∧
         qc_receipt_sha256 row = digest (qc_receipt_json row);
}.

Definition no_quotas : QuotaTables := mk_QuotaTables ∅ ∅ ∅ ∅.

Lemma no_quotas_kept : well_kept no_quotas.
Proof.
  constructor; cbn.
  - intros k row Hk. by rewrite lookup_empty in Hk.
  - intros org r. rewrite !lookup_empty. split; [by intros []|cbn; lia].
  - intros org r Hk. by rewrite lookup_empty in Hk.
  - intros k row Hk. by rewrite lookup_empty in Hk.
Qed.

(** The configuration in force, and its revision. *)
Definition revision_of (org : Z) (q : QuotaTables) : Z := default 0 (q_pointers q !! org).

Lemma configuration_kept org q :
  well_kept q →
  (q_pointers q !! org = None ∧ configuration org q = Ok (None, 0)) ∨
  ∃ v row, q_versions q !! (org, revision_of org q) = Some row ∧ stored_values row v ∧
    q_pointers q !! org = Some (revision_of org q) ∧ 1 <= revision_of org q ∧
    configuration org q = Ok (Some v, revision_of org q).
Proof.
  intros Hq. unfold configuration, revision_of.
  destruct (q_pointers q !! org) as [r|] eqn:Hp; [right|by left]. cbn.
  pose proof (kept_pointers q Hq org r Hp) as Hr.
  destruct (proj2 (kept_range q Hq org r)) as [row Hrow]; [rewrite Hp; cbn; lia|].
  destruct (kept_versions q Hq _ _ Hrow) as [v Hv]. exists v, row.
  rewrite Hrow, (stored_values_of row v Hv). done.
Qed.

Lemma configuration_revision org q o r :
  well_kept q → configuration org q = Ok (o, r) → r = revision_of org q.
Proof.
  intros Hq Hc. destruct (configuration_kept org q Hq) as [[Hp Hc']|(v & row & _ & _ & _ & _ & Hc')];
    rewrite Hc in Hc'; injection Hc' as -> ->; [|done].
  unfold revision_of. by rewrite Hp.
Qed.

Lemma policy_kept baseline org q d :
  well_kept q → valid (defaults baseline) → valid (ceilings baseline) →
  ∃ v snapshot, valid v ∧ below v (ceilings baseline) ∧
    participant_policy d (Some baseline) org q = Ok (participant v, JObj snapshot) ∧
    ∀ e, evaluation_policy e (Some baseline) org q = Ok (evaluation v, JObj snapshot).
Proof.
  intros Hq Hd Hc.
  assert (∃ configured r, configuration org q = Ok (configured, r) ∧
            valid (default (defaults baseline) configured) ∧ 0 <= r ∧ (configured = None ↔ r = 0))
    as (configured & r & Hconf & Hv & Hr & Hn).
  { destruct (configuration_kept org q Hq) as [[_ ->]|(v & row & _ & Hv & _ & Hr & ->)].
    - by exists None, 0.
    - exists (Some v), (revision_of org q). split_and!; [done|apply Hv|lia|]. split; [done|lia]. }
  destruct (resolve_Ok baseline configured r Hc Hv Hr Hn) as (snapshot & Hs & Ha).
  assert (He : effective baseline org q = Ok snapshot).
  { unfold effective. rewrite Hconf. done. }
  assert (Hcap : valid (cap (default (defaults baseline) configured) (ceilings baseline)))
    by by apply cap_valid.
  destruct (policies_Ok baseline org q snapshot _ He Ha Hcap) as [Hp Hev].
  eexists _, snapshot. split_and!; [exact Hcap|apply cap_below|apply Hp|apply Hev].
Qed.


(** ** Commands *)

Section commands.
Context (baseline : QuotaBaseline).
Notation DB := (Tables QuotaTables).
Implicit Types (db : DB) (q : QuotaTables).

Lemma checked_written d raw sha :
  textual d = true → encode d = Ok raw → sha = digest raw →
  checked raw sha = Ok (written sorted_finite d).
Proof. intros ? ? ->. by apply checked_encode. Qed.

(** What a recorded command answers. *)
Lemma receipt_of_row scope command_id request q row d :
  q_commands q !! (organization_id scope, uuid_text command_id) = Some row →
  textual (JObj d) = true → encode (JObj d) = Ok (qc_receipt_json row) →
  qc_receipt_sha256 row = digest (qc_receipt_json row) →
  receipt_of scope command_id request q
  = (raise_if (negb (bool_decide (qc_operator_user_id row = operator_user_id scope))) NotFound ;;
     raise_if (match request with
               | Some r => negb (bool_decide (qc_request_json row = r)) | None => false end)
       (DraftConflict "Quota command identity already used") ;;
     Ok (Some (written sorted_finite (JObj d)))).
Proof.
  intros Hrow Hd Henc Hsha. unfold receipt_of. rewrite Hrow.
  by rewrite (checked_written (JObj d)).
Qed.

(** An accepted new command: its version, its pointer and its receipt. *)
Definition applied (scope : DraftScope) (command_id expected_revision : Z) (reason : string)
    (at_ : datetime) (values : option QuotaValues) (target_revision : option Z)
    (request : string) (result : json) (v : QuotaValues) q q' : Prop :=
  q_commands q !! (organization_id scope, uuid_text command_id) = None ∧
  expected_revision = revision_of (organization_id scope) q ∧
  expected_revision + 1 < 2 ^ 63 ∧
  valid v ∧ below v (ceilings baseline) ∧
  match target_revision with
  | Some r => ∃ row, q_versions q !! (organization_id scope, r) = Some row ∧ stored_values row v
  | None => values = Some v
  end ∧
  ∃ raw d receipt,
    encode (asdict v) = Ok raw ∧ result = JObj d ∧ textual result = true ∧
    encode result = Ok receipt ∧
    assoc "revision" d = Some (JInt (expected_revision + 1)) ∧
    assoc "effective" d = Some (asdict v) ∧
    q_versions q' = <[(organization_id scope, expected_revision + 1) :=
                        mk_VersionRow raw (digest raw) (operator_user_id scope) reason
                          (instant at_)]> (q_versions q) ∧
    q_pointers q' = <[organization_id scope := expected_revision + 1]> (q_pointers q) ∧
    q_commands q' = <[(organization_id scope, uuid_text command_id) :=
                        mk_CommandRow (operator_user_id scope) request receipt (digest receipt)]>
                      (q_commands q).

Lemma strings_textual (l : list string) : textual (JList (JStr <$> l)) = true.
Proof. cbn. induction l as [|s l IH]; [done|]. exact IH. Qed.

Lemma resolve_shape configured revision d :
  resolve baseline configured revision = Ok d → valid (ceilings baseline) →
  valid (default (defaults baseline) configured) →
  ∀ command reason operator created,
  let result := (d ++ [("command_id", JStr command); ("reason", JStr reason);
                  ("operator_user_id", JStr operator); ("created_at", JStr created)])%list in
  textual (JObj result) = true ∧ assoc "revision" result = Some (JInt revision) ∧
  assoc "effective" result
  = Some (asdict (cap (default (defaults baseline) configured) (ceilings baseline))).
Proof.
  unfold resolve. intros Hres Hc Hv command reason operator created.
  rewrite bounded_valid in Hres by done. ok_inv. cbn zeta.
  split_and!; [|reflexivity..].
  assert (Hl : textual (JList (JStr <$> exceeded (default (defaults baseline) configured)
                                 (ceilings baseline))) = true).
  { apply strings_textual. }
  destruct configured; cbn [textual]; cbn in Hl |- *; by rewrite Hl.
Qed.

Lemma new_values_Ok scope values target q v :
  well_kept q → (∀ w, values = Some w → valid w) →
  is_none values = negb (is_none target) →
  new_values scope values target q = Ok v →
  valid v ∧ match target with
            | Some r => ∃ row, q_versions q !! (organization_id scope, r) = Some row ∧
                               stored_values row v
            | None => values = Some v
            end.
Proof.
  intros Hq Hval Hone Hnew. unfold new_values in Hnew. destruct target as [r|].
  - destruct (q_versions q !! _) as [row|] eqn:Hrow; [|done].
    destruct (kept_versions q Hq _ _ Hrow) as [w Hw].
    rewrite (stored_values_of row w Hw) in Hnew. cbn in Hnew. injection Hnew as <-.
    split; [apply Hw|]. by exists row.
  - cbn in Hnew. destruct values as [w|]; [|done]. injection Hnew as <-. split; [by apply Hval|done].
Qed.

Lemma modify_quotas_Ok f db u db' :
  modify_quotas f db = (Ok u, db') → db' = set_rest (f (t_rest db)) db.
Proof. unfold modify_quotas, modify. by intros [= _ <-]. Qed.

(** The body after the replay check, when it commits. *)
Lemma write_version_effect scope command_id request expected reason at_ values target db result c db' :
  well_kept (t_rest db) → valid (ceilings baseline) → (∀ w, values = Some w → valid w) →
  is_none values = negb (is_none target) →
  write_version baseline scope command_id request expected reason at_ values target db
  = (Ok (result, c), db') →
  c = true ∧ ∃ v q', db' = set_rest q' db ∧
    applied scope command_id expected reason at_ values target request result v (t_rest db) q'.
Proof.
  intros Hq Hc Hval Hone Hw. unfold write_version in Hw. tx_inv.
  repeat match goal with
  | H : get_db _ = _ |- _ => unfold get_db in H; injection H as <- <-
  | x : _ * _ |- _ => destruct x
  end.
  tx_inv.
  repeat match goal with H : modify_quotas _ _ = (Ok _, _) |- _ => apply modify_quotas_Ok in H as -> end.
  simplify_eq. bool_inv. subst expected.
  match goal with H : configuration _ _ = Ok (_, ?r) |- _ =>
    pose proof (configuration_revision _ _ _ _ Hq H) as Hrev end.
  match goal with H : new_values _ _ _ _ = Ok ?w |- _ =>
    destruct (new_values_Ok _ _ _ _ w Hq Hval Hone H) as [Hv Hnew]; rename w into v end.
  match goal with H : validate_write _ _ = Ok ?u |- _ => destruct u; rename H into Hwrite end.
  destruct (bounded_exact v (ceilings baseline) Hv Hc) as (_ & _ & _ & Hbelow & _).
  apply Hbelow in Hwrite. split; [done|].
  match goal with H : resolve _ _ _ = Ok _ |- _ =>
    destruct (resolve_shape _ _ _ H Hc Hv (uuid_text command_id) reason
                (pretty (operator_user_id scope)) (isoformat (utc (instant at_))))
      as (Htext & Hr & Heff) end.
  cbn [default] in Heff. rewrite (cap_id v) in Heff by done.
  eexists v, _. split; [reflexivity|]. unfold applied. cbn [t_rest set_rest].
  split_and!; try done.
  eexists _, _, _. split_and!; [eassumption|reflexivity|done|eassumption|done|done|reflexivity..].
Qed.
(** The state in which the body runs: the two lock rows of the organization exist. *)
Definition locked (scope : DraftScope) db : DB :=
  let db := set_locks ({[organization_id scope]} ∪ t_locks db) db in
  set_rest (set_evaluation_locks
              ({[organization_id scope]} ∪ q_evaluation_locks (t_rest db)) (t_rest db)) db.

Lemma lock_run scope db : lock_configuration (organization_id scope) db = (Ok tt, locked scope db).
Proof. done. Qed.

Lemma locked_kept scope db : well_kept (t_rest db) → well_kept (t_rest (locked scope db)).
Proof. intros [H1 H2 H3 H4]. by constructor. Qed.

(** The guards of [apply] before its transaction. *)
Definition accepted_form (command_id expected_revision : Z) (reason : string) (at_ : datetime)
    (values : option QuotaValues) (target_revision : option Z) : Prop :=
  command_id ≠ 0 ∧ 0 <= expected_revision ∧ valid_reason reason = true ∧ tz_none at_ = false ∧
  is_none values = negb (is_none target_revision) ∧
  (∀ r, target_revision = Some r → 1 <= r).

(** A command changes nothing, and then answers the recorded receipt or fails; or it writes. *)
Lemma apply_effect scope command_id expected reason at_ values target db o db' :
  well_kept (t_rest db) → valid (ceilings baseline) → (∀ w, values = Some w → valid w) →
  apply baseline scope command_id expected reason at_ values target db = (o, db') →
  (db' = db ∧ ∀ x, o = Ok x → ∃ request, request_of expected reason values target = Ok request ∧
     receipt_of scope command_id (Some request) (t_rest db) = Ok (Some x)) ∨
  ∃ result v q' request, o = Ok result ∧
    accepted_form command_id expected reason at_ values target ∧
    request_of expected reason values target = Ok request ∧ db' = set_rest q' (locked scope db) ∧
    applied scope command_id expected reason at_ values target request result v (t_rest db) q'.
Proof.
  intros Hq Hc Hval Ha. unfold apply in Ha.
  destruct (_ ≫= _) as [request|e] eqn:Hg; [|injection Ha as <- <-; by left]. ok_inv. bool_inv.
  unfold transaction in Ha. rewrite bind_run, lock_run, get_bind, lift_bind in Ha.
  change (receipt_of scope command_id (Some request) (t_rest (locked scope db)))
    with (receipt_of scope command_id (Some request) (t_rest db)) in Ha.
  destruct (receipt_of _ _ _ _) as [[prior|]|e] eqn:Hr.
  - injection Ha as <- <-. left. split; [done|]. intros x [= <-]. by exists request.
  - destruct (write_version _ _ _ _ _ _ _ _ _ _) as [[[result c]|e] db1] eqn:Hw;
      [|injection Ha as <- <-; by left].
    assert (Hone : is_none values = negb (is_none target)).
    { by destruct (is_none values), (is_none target). }
    apply write_version_effect in Hw as [-> (v & q' & -> & Hap)];
      [|by apply locked_kept|done..].
    injection Ha as <- <-. right. exists result, v, q', request. split_and!; try done.
    unfold accepted_form. split_and!; try done.
    intros r ->. by apply Z.ltb_ge.
  - injection Ha as <- <-. by left.
Qed.

(** Later tables: versions and receipts stay as they were, revisions never go back. *)
Record grows q q' : Prop := mk_grows {
  grows_versions : q_versions q ⊆ q_versions q';
  grows_commands : q_commands q ⊆ q_commands q';
  grows_revision : ∀ org, revision_of org q <= revision_of org q';
}.
#[export] Instance grows_preorder : PreOrder grows.
Proof.
  split; [by constructor|]. intros q1 q2 q3 [? ? Hr] [? ? Hr']. constructor; [by etrans..|].
  intros org. specialize (Hr org). specialize (Hr' org). lia.
Qed.

Section applied.
Context (scope : DraftScope) (command_id expected : Z) (reason : string) (at_ : datetime).
Context (values : option QuotaValues) (target : option Z) (request : string) (result : json).
Context (v : QuotaValues) (q q' : QuotaTables) (Hq : well_kept q).
Context (Happlied : applied scope command_id expected reason at_ values target request result v q q').

Lemma applied_fresh : q_versions q !! (organization_id scope, expected + 1) = None.
Proof.
  destruct Happlied as (_ & -> & _). apply eq_None_not_Some.
  rewrite (kept_range q Hq). unfold revision_of. lia.
Qed.

Lemma revision_nonnegative org : 0 <= revision_of org q.
Proof.
  unfold revision_of. destruct (q_pointers q !! org) as [r|] eqn:Hr; cbn; [|lia].
  pose proof (kept_pointers q Hq org r Hr). lia.
Qed.

Lemma applied_revision org :
  revision_of org q' = if bool_decide (org = organization_id scope) then expected + 1
                       else revision_of org q.
Proof.
  destruct Happlied as (_ & _ & _ & _ & _ & _ & raw & d & receipt & _ & _ & _ & _ & _ & _ & _ & Hp & _).
  unfold revision_of. rewrite Hp. case_bool_decide as Horg; [subst|].
  - by rewrite lookup_insert_eq.
  - by rewrite lookup_insert_ne.
Qed.

Lemma applied_grows : grows q q'.
Proof.
  pose proof applied_fresh as Hf. pose proof applied_revision as Hrev.
  destruct Happlied as (Hc & He & _ & _ & _ & _ & raw & d & receipt & _ & _ & _ & _ & _ & _ & Hv & _ & Hcs).
  constructor.
  - rewrite Hv. by apply insert_subseteq.
  - rewrite Hcs. by apply insert_subseteq.
  - intros org. rewrite Hrev. case_bool_decide; subst; lia.
Qed.

Lemma applied_kept : well_kept q'.
Proof.
  pose proof applied_revision as Hrev. unfold revision_of in Hrev.
  pose proof (revision_nonnegative (organization_id scope)) as Hpos.
  destruct Happlied as (_ & He & _ & Hval & _ & _ & raw & d & receipt & Hraw & Hd & Htext & Henc & _
                        & _ & Hv & Hp & Hcs). constructor.
  - intros k row. rewrite Hv, lookup_insert_Some. intros [[_ <-]|[_ Hk]].
    + by exists v.
    + by apply (kept_versions q Hq _ _ Hk).
  - intros org r. rewrite Hrev, Hv, lookup_insert_is_Some', (kept_range q Hq). case_bool_decide as Horg.
    + subst org expected. unfold revision_of in Hpos |- *. split; [intros [[= <-]|]; lia|].
      intros ?. destruct (decide (r = default 0 (q_pointers q !! organization_id scope) + 1)) as [->|];
        [by left|right; lia].
    + split; [by intros [[= <- _]|]|by right].
  - intros org r. rewrite Hp, lookup_insert_Some. intros [[_ <-]|[_ Hk]].
    + lia.
    + by apply (kept_pointers q Hq _ _ Hk).
  - intros k row. rewrite Hcs, lookup_insert_Some. intros [[_ <-]|[_ Hk]].
    + exists d. subst result. done.
    + by apply (kept_commands q Hq _ _ Hk).
Qed.

Lemma applied_configuration :
  configuration (organization_id scope) q' = Ok (Some v, expected + 1).
Proof.
  destruct Happlied as (_ & _ & _ & Hval & _ & _ & raw & d & receipt & Hraw & _ & _ & _ & _ & _ & Hv & Hp & _).
  unfold configuration. rewrite Hp, lookup_insert_eq, Hv, lookup_insert_eq.
  by rewrite (stored_values_of _ v).
Qed.
End applied.

(** A command of any operator at any time, whatever it answers; its values are built by Python. *)
Definition quota_step db db' : Prop :=
  ∃ scope command_id expected reason at_ values target o,
    (∀ w, values = Some w → valid w) ∧
    apply baseline scope command_id expected reason at_ values target db = (o, db').

Lemma quota_step_effect db db' :
  valid (ceilings baseline) → well_kept (t_rest db) → quota_step db db' →
  well_kept (t_rest db') ∧ grows (t_rest db) (t_rest db') ∧
  t_reservations db' = t_reservations db.
Proof.
  intros Hc Hq (scope & command_id & expected & reason & at_ & values & target & o & Hval & Ha).
  apply apply_effect in Ha as [[-> _]|(result & v & q' & request & _ & _ & _ & -> & Hap)];
    [by split_and!| |done..].
  split_and!; [by eapply applied_kept|by eapply applied_grows|done].
Qed.

Lemma quota_steps_effect db db' :
  valid (ceilings baseline) → well_kept (t_rest db) → rtc quota_step db db' →
  well_kept (t_rest db') ∧ grows (t_rest db) (t_rest db').
Proof.
  intros Hc Hq Hs. induction Hs as [db|db db1 db' Hstep _ IH]; [done|].
  apply quota_step_effect in Hstep as (Hq1 & Hg & _); [|done..].
  destruct (IH Hq1) as [Hq' Hg']. split; [done|]. by etrans.
Qed.

(** A command without a receipt that is accepted writes. *)
Lemma new_command_effect scope command_id expected reason at_ values target db result db' :
  well_kept (t_rest db) → valid (ceilings baseline) → (∀ w, values = Some w → valid w) →
  receipt_of scope command_id None (t_rest db) = Ok None →
  apply baseline scope command_id expected reason at_ values target db = (Ok result, db') →
  ∃ v q' request, accepted_form command_id expected reason at_ values target ∧
    request_of expected reason values target = Ok request ∧ db' = set_rest q' (locked scope db) ∧
    applied scope command_id expected reason at_ values target request result v (t_rest db) q'.
Proof.
  intros Hq Hc Hval Hnone Ha.
  apply apply_effect in Ha as [[_ Hx]|(result' & v & q' & request & Heq & Hrest)]; [| |done..].
  - destruct (Hx result eq_refl) as (request & _ & Hr). unfold receipt_of in *.
    destruct (q_commands _ !! _); [|done]. by ok_inv.
  - injection Heq as <-. by exists v, q', request.
Qed.

(** An accepted quota command moves the organization to the next revision with exactly the
    values it names (its own, or those of the version it rolls back to), under the ceilings, and
    what is read back is those values; nothing but this revision, the pointer and the receipt of
    the command changes, and it is the next reader's configuration. *)
Theorem quota_apply_exact scope command_id expected reason at_ values target db result db' :
  well_kept (t_rest db) → valid (ceilings baseline) → (∀ w, values = Some w → valid w) →
  receipt_of scope command_id None (t_rest db) = Ok None →
  apply baseline scope command_id expected reason at_ values target db = (Ok result, db') →
  expected = revision_of (organization_id scope) (t_rest db) ∧
  ∃ v, below v (ceilings baseline) ∧
    match target with
    | Some r => ∃ row, q_versions (t_rest db) !! (organization_id scope, r) = Some row ∧
                       values_of row = Ok v
    | None => values = Some v
    end ∧
    configuration (organization_id scope) (t_rest db') = Ok (Some v, expected + 1) ∧
    json_item result "revision" = Ok (JInt (expected + 1)) ∧
    json_item result "effective" = Ok (asdict v) ∧
    (∀ org, org ≠ organization_id scope →
       configuration org (t_rest db') = configuration org (t_rest db)) ∧
    grows (t_rest db) (t_rest db') ∧ well_kept (t_rest db').
Proof.
  intros Hq Hc Hval Hnone Ha.
  apply new_command_effect in Ha as (v & q' & request & _ & _ & -> & Hap); [|done..].
  cbn [t_rest set_rest].
  pose proof (applied_configuration _ _ _ _ _ _ _ _ _ _ _ _ Hap) as Hconf.
  pose proof (applied_grows _ _ _ _ _ _ _ _ _ _ _ _ Hq Hap) as Hg.
  pose proof (applied_kept _ _ _ _ _ _ _ _ _ _ _ _ Hq Hap) as Hq'.
  destruct Hap as (_ & He & _ & _ & Hb & Hnew & raw & d & receipt & _ & -> & _ & _ & Hrev & Heff
                   & Hv & Hp & _).
  split; [done|]. exists v. split_and!; try done.
  - destruct target as [r|]; [|done]. destruct Hnew as (row & Hrow & Hs). exists row.
    split; [done|]. by apply stored_values_of.
  - cbn. by rewrite Hrev.
  - cbn. by rewrite Heff.
  - intros org Horg. unfold configuration. rewrite Hp, Hv, lookup_insert_ne by done.
    destruct (q_pointers _ !! org) as [r|]; [|done]. by rewrite lookup_insert_ne by congruence.
Qed.

(** The guards pass for a command of the accepted form. *)
Lemma apply_form scope command_id expected reason at_ values target request db :
  accepted_form command_id expected reason at_ values target →
  request_of expected reason values target = Ok request →
  apply baseline scope command_id expected reason at_ values target db
  = transaction
      (lock_configuration (organization_id scope) ;;
       db ← get_db;
       prior ← lift (receipt_of scope command_id (Some request) (t_rest db));
       match prior with
       | Some value => mret (value, false)
       | None => write_version baseline scope command_id request expected reason at_ values target
       end) db.
Proof.
  intros (Hid & He & Hr & Ht & Hone & Htarget) Hreq. unfold apply.
  rewrite (bool_decide_eq_false_2 (command_id = 0)), (proj2 (Z.ltb_ge _ _)), Hr, Ht, Hone by done.
  assert (Bool.eqb (negb (is_none target)) (is_none target) = false) as ->
    by by destruct (is_none target).
  unfold raise_if at 1. cbn [orb negb mbind res_bind].
  assert ((match target with Some r => r <? 1 | None => false end) = false) as ->.
  { destruct target as [r|]; [|done]. by apply Z.ltb_ge, Htarget. }
  unfold raise_if at 1. cbn [mbind res_bind]. by rewrite Hreq.
Qed.

(** A recorded command is only looked up. *)
Lemma apply_recorded scope command_id expected reason at_ values target request db x :
  accepted_form command_id expected reason at_ values target →
  request_of expected reason values target = Ok request →
  receipt_of scope command_id (Some request) (t_rest db) = x → x ≠ Ok None →
  apply baseline scope command_id expected reason at_ values target db
  = (match x with Ok (Some v) => Ok v | Ok None => Err AssertionError | Err e => Err e end, db).
Proof.
  intros Hform Hreq Hx Hnone. rewrite (apply_form _ _ _ _ _ _ _ request) by done.
  unfold transaction. rewrite bind_run, lock_run, get_bind, lift_bind.
  change (receipt_of scope command_id (Some request) (t_rest (locked scope db)))
    with (receipt_of scope command_id (Some request) (t_rest db)).
  rewrite Hx. by destruct x as [[]|].
Qed.

(** A repeated quota command answers its first receipt, in every later state of the tables, and
    writes nothing: the answers are equal as dictionaries.  Another operator does not see the
    command, and another request under its identifier is a conflict. *)
Theorem quota_replay scope command_id expected reason at_ values target db result db1 db2 :
  well_kept (t_rest db) → valid (ceilings baseline) → (∀ w, values = Some w → valid w) →
  receipt_of scope command_id None (t_rest db) = Ok None →
  apply baseline scope command_id expected reason at_ values target db = (Ok result, db1) →
  rtc quota_step db1 db2 →
  (∃ again, apply baseline scope command_id expected reason at_ values target db2 = (Ok again, db2)
     ∧ json_eqb result again = true) ∧
  (∀ user, user ≠ operator_user_id scope →
     receipt_of (mk_DraftScope (organization_id scope) user) command_id None (t_rest db2)
     = Err NotFound) ∧
  (∀ expected' reason' at' values' target',
     accepted_form command_id expected' reason' at' values' target' →
     ∀ request', request_of expected' reason' values' target' = Ok request' →
     request_of expected reason values target ≠ Ok request' →
     apply baseline scope command_id expected' reason' at' values' target' db2
     = (Err (DraftConflict "Quota command identity already used"), db2)).
Proof.
  intros Hq Hc Hval Hnone Ha Hlater.
  apply new_command_effect in Ha as (v & q' & request & Hform & Hreq & -> & Hap); [|done..].
  pose proof (applied_kept _ _ _ _ _ _ _ _ _ _ _ _ Hq Hap) as Hq'.
  apply quota_steps_effect in Hlater as [_ [_ Hcmd _]]; [|done..]. cbn [t_rest set_rest] in Hcmd.
  destruct Hap as (_ & _ & _ & _ & _ & _ & raw & d & receipt & _ & -> & Htext & Henc & _ & _
                   & _ & _ & Hcs).
  set (row := mk_CommandRow (operator_user_id scope) request receipt (digest receipt)) in *.
  assert (Hrow : q_commands (t_rest db2) !! (organization_id scope, uuid_text command_id) = Some row).
  { eapply lookup_weaken, Hcmd. rewrite Hcs. apply lookup_insert_eq. }
  pose proof (receipt_of_row scope command_id) as Hof.
  split_and!.
  - exists (written sorted_finite (JObj d)). split.
    + rewrite (apply_recorded _ _ _ _ _ _ _ request _ (Ok (Some (written sorted_finite (JObj d)))));
        [done..| |done].
      rewrite (Hof (Some request) _ _ _ Hrow Htext Henc) by done. unfold row. cbn [qc_operator_user_id qc_request_json].
      by rewrite !bool_decide_eq_true_2 by done.
    + by apply json_eqb_written.
  - intros user Huser.
    rewrite (receipt_of_row (mk_DraftScope (organization_id scope) user) _ None _ row d) by done.
    cbn [qc_operator_user_id row operator_user_id].
    by rewrite bool_decide_eq_false_2 by congruence.
  - intros expected' reason' at' values' target' Hform' request' Hreq' Hne.
    rewrite (apply_recorded _ _ _ _ _ _ _ request' _
               (Err (DraftConflict "Quota command identity already used"))); [done..| |done].
    rewrite (Hof (Some request') _ _ _ Hrow Htext Henc) by done.
    unfold row. cbn [qc_operator_user_id qc_request_json].
    rewrite (bool_decide_eq_false_2 (request = request')) by congruence.
    by rewrite bool_decide_eq_true_2 by done.
Qed.

(** Two commands that expect the same revision never both write: after one was accepted, in
    every later state the other is refused as a conflict and nothing is written. *)
Theorem quota_no_lost_update scope command_id expected reason at_ values target db result db1 db2
    scope' command_id' reason' at' values' target' :
  well_kept (t_rest db) → valid (ceilings baseline) → (∀ w, values = Some w → valid w) →
  receipt_of scope command_id None (t_rest db) = Ok None →
  apply baseline scope command_id expected reason at_ values target db = (Ok result, db1) →
  rtc quota_step db1 db2 →
  organization_id scope' = organization_id scope →
  q_commands (t_rest db2) !! (organization_id scope', uuid_text command_id') = None →
  accepted_form command_id' expected reason' at' values' target' →
  (∃ request, request_of expected reason' values' target' = Ok request) →
  apply baseline scope' command_id' expected reason' at' values' target' db2
  = (Err (DraftConflict "Quota revision changed"), db2).
Proof.
  intros Hq Hc Hval Hnone Ha Hlater Horg Hfresh Hform [request Hreq].
  apply new_command_effect in Ha as (v & q' & request0 & _ & _ & -> & Hap); [|done..].
  pose proof (applied_kept _ _ _ _ _ _ _ _ _ _ _ _ Hq Hap) as Hq'.
  pose proof (applied_revision _ _ _ _ _ _ _ _ _ _ _ _ Hap (organization_id scope)) as Hr1.
  rewrite bool_decide_eq_true_2 in Hr1 by done.
  apply quota_steps_effect in Hlater as [Hq2 [_ _ Hrev]]; [|done..].
  specialize (Hrev (organization_id scope)). cbn [t_rest set_rest] in Hrev. rewrite Hr1 in Hrev.
  rewrite (apply_form _ _ _ _ _ _ _ request) by done.
  unfold transaction. rewrite bind_run, lock_run, get_bind, lift_bind.
  assert (receipt_of scope' command_id' (Some request) (t_rest (locked scope' db2)) = Ok None) as ->
    by (unfold receipt_of; change (q_commands (t_rest (locked scope' db2)))
          with (q_commands (t_rest db2)); by rewrite Hfresh).
  unfold write_version. rewrite get_bind, lift_bind.
  destruct (configuration (organization_id scope') (t_rest (locked scope' db2))) as [[o r]|e] eqn:Hconf.
  - apply configuration_revision in Hconf; [|by apply locked_kept].
    change (revision_of (organization_id scope') (t_rest (locked scope' db2)))
      with (revision_of (organization_id scope') (t_rest db2)) in Hconf.
    rewrite Horg in Hconf. rewrite lift_bind, bool_decide_eq_false_2 by lia. done.
  - destruct (configuration_kept (organization_id scope') (t_rest (locked scope' db2)))
      as [[_ Hc']|(w & row & _ & _ & _ & _ & Hc')]; [by apply locked_kept|congruence..].
Qed.


(** ** Admissions under changing quotas *)

(** A session takes a step under the quota in force, or an operator changes the quota. *)
Definition system_step (d : ParticipantCapacityPolicy) db db' : Prop :=
  capacity_step (participant_policy d (Some baseline)) db db' ∨ quota_step db db'.

(** The policy of the ceilings, for every organization. *)
Definition ceiling_policy (org : Z) q : res (ParticipantCapacityPolicy * json) :=
  Ok (participant (ceilings baseline), JNull).

Lemma quotas_below_ceilings d q :
  well_kept q → valid (defaults baseline) → valid (ceilings baseline) →
  looser q (participant_policy d (Some baseline)) ceiling_policy.
Proof.
  intros Hq Hd Hc org p snapshot Hp.
  destruct (policy_kept baseline org q d Hq Hd Hc) as (v & sn & _ & [[] _] & Hv & _).
  rewrite Hv in Hp. injection Hp as <- <-. eexists _, _. split; [reflexivity|].
  unfold limits_le. by cbn.
Qed.

(** C28: The ceilings of the deployment hold end to end: however organizations change their quotas
    while their participants reserve, acquire and release, every organization stays within the
    ceilings for its day and its active slots, in total, per user and per assessment, and its
    quota tables stay well kept. *)
Theorem ceilings_hold d db db' :
  valid (defaults baseline) → valid (ceilings baseline) → well_kept (t_rest db) →
  in_budget ceiling_policy db → rtc (system_step d) db db' →
  well_kept (t_rest db') ∧
  ∀ org, (∀ day, within (daily_limits (participant (ceilings baseline)))
                   (select_reservations (of_day org day) db')) ∧
         within (active_limits (participant (ceilings baseline)))
           (select_reservations (active_of org) db').
Proof.
  intros Hd Hc Hq Hb Hsteps.
  assert (well_kept (t_rest db') ∧ in_budget ceiling_policy db') as [Hq' Hb'].
  { induction Hsteps as [|db db1 db' [Hstep|Hstep] _ IH]; [done|..].
    - pose proof (capacity_step_rest _ _ _ Hstep) as Hr. apply IH; [by rewrite Hr|].
      by eapply capacity_step_in_budget, Hb; [apply quotas_below_ceilings|].
    - destruct (quota_step_effect db db1 Hc Hq Hstep) as (Hq1 & _ & Hr). apply IH; [done|].
      intros org p snapshot Hp. unfold select_reservations. rewrite Hr.
      by apply (Hb org p snapshot). }
  split; [done|]. intros org. by apply (Hb' org _ JNull).
Qed.

(** C40: The policy of an organization can always be read: after any commands on tables that began
    empty, under any deployment (its ceilings may have been lowered since), reading it never
    fails, and every limit of it is positive and under the ceiling in force. *)
Theorem policy_always_readable now d org db db' :
  valid (ceilings baseline) → valid (defaults now) → valid (ceilings now) →
  t_rest db = no_quotas → rtc quota_step db db' →
  ∃ v snapshot, valid v ∧ below v (ceilings now) ∧
    participant_policy d (Some now) org (t_rest db') = Ok (participant v, JObj snapshot) ∧
    ∀ e, evaluation_policy e (Some now) org (t_rest db') = Ok (evaluation v, JObj snapshot).
Proof.
  intros Hc Hd Hn Hempty Hsteps. apply policy_kept; try done.
  assert (well_kept (t_rest db)) by (rewrite Hempty; apply no_quotas_kept).
  by apply quota_steps_effect in Hsteps as [Hq _].
Qed.

(** ** Pages of the history *)

(** The highest revision of a page. *)
Definition page_top (scope : DraftScope) (before : Z) q : Z :=
  let n := revision_of (organization_id scope) q in
  if before =? 0 then n else Z.min n (before - 1).

Definition descending (a b : Z) : Prop := b <= a.

Lemma countdown_sorted (n : nat) : StronglySorted descending (reverse (seqZ 1 (Z.of_nat n))).
Proof.
  induction n as [|n IH]; [constructor|].
  rewrite seqZ_S, reverse_app. cbn. constructor; [done|].
  apply Forall_forall. intros x. rewrite elem_of_reverse, elem_of_seqZ. unfold descending. lia.
Qed.

#[export] Instance newest_first_trans : Transitive newest_first.
Proof. intros a b c. unfold newest_first. lia. Qed.
#[export] Instance newest_first_total : Total newest_first.
Proof. intros a b. unfold newest_first. lia. Qed.

Lemma select_versions_elem org before q r row :
  (r, row) ∈ select_versions org before q ↔
  q_versions q !! (org, r) = Some row ∧ (before = 0 ∨ r < before).
Proof.
  unfold select_versions. rewrite merge_sort_Permutation, list_elem_of_fmap. split.
  - intros ([[o r'] row'] & [= -> ->] & [[<- Hb] Hin]%list_elem_of_filter).
    by apply elem_of_map_to_list in Hin.
  - intros [Hrow Hb]. exists ((org, r), row). split; [done|]. apply list_elem_of_filter.
    split; [done|]. by apply elem_of_map_to_list.
Qed.

Lemma selected_revisions scope before q :
  well_kept q → 0 <= before →
  (select_versions (organization_id scope) before q).*1
  = reverse (seqZ 1 (page_top scope before q)).
Proof.
  intros Hq Hbefore. set (org := organization_id scope).
  assert (Hin : ∀ r, r ∈ (select_versions org before q).*1 ↔ r ∈ seqZ 1 (page_top scope before q)).
  { intros r. rewrite elem_of_seqZ, list_elem_of_fmap. unfold page_top, revision_of.
    pose proof (kept_range q Hq org r) as Hr. unfold is_Some in Hr. split.
    - intros ([r' row] & -> & [Hrow Hb]%select_versions_elem). cbn in *.
      destruct (proj1 Hr) as [? ?]; [by exists row|]. subst org.
      destruct (Z.eqb_spec before 0); lia.
    - intros Hle. destruct (proj2 Hr) as [row Hrow].
      { subst org. destruct (Z.eqb_spec before 0); lia. }
      exists (r, row). split; [done|]. apply select_versions_elem. split; [done|].
      destruct (Z.eqb_spec before 0); lia. }
  apply (StronglySorted_unique_strong descending).
  - unfold descending. lia.
  - apply (StronglySorted_fmap fst newest_first); [done|]. apply StronglySorted_merge_sort; apply _.
  - destruct (Z.le_gt_cases (page_top scope before q) 0).
    + rewrite seqZ_nil by done. constructor.
    + rewrite <- (Z2Nat.id (page_top scope before q)) by lia. apply countdown_sorted.
  - apply NoDup_Permutation; [| |intros r; by rewrite elem_of_reverse].
    + unfold select_versions. rewrite merge_sort_Permutation.
      rewrite <- list_fmap_compose. apply NoDup_fmap_2_strong.
      * intros [[o1 r1] row1] [[o2 r2] row2] [[Ho1 _] H1]%list_elem_of_filter
          [[Ho2 _] H2]%list_elem_of_filter Heq. cbn in Ho1, Ho2, Heq. subst.
        apply elem_of_map_to_list in H1, H2. rewrite H1 in H2. by injection H2 as ->.
      * apply NoDup_filter, NoDup_map_to_list.
    + rewrite NoDup_reverse. apply NoDup_seqZ.
Qed.

Lemma countdown_lookup n i : (i < Z.to_nat n)%nat → reverse (seqZ 1 n) !! i = Some (n - Z.of_nat i).
Proof.
  intros Hi. rewrite reverse_lookup_Some, length_seqZ, lookup_seqZ. lia.
Qed.

Lemma history_item_kept q org r row :
  well_kept q → q_versions q !! (org, r) = Some row →
  ∃ item, history_item (r, row) = Ok item ∧ ∃ v, values_of row = Ok v ∧
    json_item item "revision" = Ok (JInt r) ∧ json_item item "values" = Ok (asdict v) ∧
    json_item item "reason" = Ok (JStr (qv_reason row)).
Proof.
  intros Hq Hrow. destruct (kept_versions q Hq _ _ Hrow) as [v Hv%stored_values_of].
  unfold history_item. cbn [snd]. rewrite Hv. eexists. split; [reflexivity|]. by exists v.
Qed.

(** A page of the history is total and exact: it lists the versions below the cursor from the
    newest down, twenty at most, each with its stored values, and the next cursor is the oldest
    revision listed exactly when older ones remain, so that following it visits every revision
    once. *)
Theorem history_page_exact scope before db :
  well_kept (t_rest db) → 0 <= before →
  let top := page_top scope before (t_rest db) in
  ∃ items,
    history scope before db = (Ok (items, if 20 <? top then top - 19 else 0), db) ∧
    Forall2 (λ item r,
      ∃ row v, q_versions (t_rest db) !! (organization_id scope, r) = Some row ∧
        values_of row = Ok v ∧ json_item item "revision" = Ok (JInt r) ∧
        json_item item "values" = Ok (asdict v) ∧
        json_item item "reason" = Ok (JStr (qv_reason row)))
      items (take 20 (reverse (seqZ 1 top))) ∧
    (20 < top → page_top scope (top - 19) (t_rest db) = top - 20).
Proof.
  intros Hq Hbefore top. set (q := t_rest db) in *.
  pose proof (selected_revisions scope before q Hq Hbefore) as Hfst. fold top in Hfst.
  set (rows := select_versions (organization_id scope) before q) in *.
  assert (Hat : ∀ i : nat, Z.of_nat i < top → ∃ row, rows !! i = Some (top - Z.of_nat i, row)).
  { intros i Hi. pose proof (countdown_lookup top i ltac:(lia)) as Hl.
    rewrite <- Hfst, list_lookup_fmap in Hl. destruct (rows !! i) as [[r row]|]; [|done].
    cbn in Hl. injection Hl as ->. by exists row. }
  assert (Hrows : Forall (λ kv, ∃ item, history_item kv = Ok item) (take 20 (take 21 rows))).
  { do 2 apply Forall_take. apply Forall_forall. intros [r row] [Hrow _]%select_versions_elem.
    destruct (history_item_kept q _ _ _ Hq Hrow) as (item & Hitem & _). by exists item. }
  destruct (mapM_total _ _ Hrows) as [items Hitems]. exists items. split_and!.
  - unfold history. rewrite (proj2 (Z.ltb_ge _ _)) by done.
    unfold transaction. rewrite get_bind. fold q rows. rewrite lift_bind, Hitems.
    unfold mret, tx_ret. repeat f_equal.
    rewrite !lookup_take_lt by lia. destruct (Z.ltb_spec 20 top) as [Hlt|Hge].
    + destruct (Hat 20%nat) as [row20 ->]; [lia|]. destruct (Hat 19%nat) as [row19 ->]; [lia|].
      cbn. lia.
    + assert (rows !! 20%nat = None) as ->; [|done]. apply lookup_ge_None.
      rewrite <- (length_fmap fst), Hfst, length_reverse, length_seqZ. lia.
  - rewrite take_take in Hitems. change (20 `min` 21)%nat with 20%nat in Hitems.
    apply mapM_elem in Hitems. rewrite <- Hfst, <- fmap_take. apply Forall2_fmap_r, Forall2_flip.
    eapply Forall2_impl; [exact Hitems|]. intros [r row] item [Hin Hitem].
    assert ((r, row) ∈ rows) as [Hrow _]%select_versions_elem
      by by eapply elem_of_submseteq, sublist_submseteq, sublist_take.
    destruct (history_item_kept q _ _ _ Hq Hrow) as (item' & Hitem' & v & Hv).
    rewrite Hitem in Hitem'. injection Hitem' as <-. exists row, v. by split.
  - intros Hlt. unfold top, page_top in *. fold q in Hlt |- *.
    revert Hlt. destruct (Z.eqb_spec before 0); intros Hlt;
      (destruct (_ - 19 =? 0) eqn:E; [apply Z.eqb_eq in E|apply Z.eqb_neq in E]); lia.
Qed.

End commands.
