(* ===== verification/MysqlUow.v ===== *)
(** * MysqlUow: the unit of work of the interpretation service on MySQL

    Models [MySQLUnitOfWork] of [src/src/qs_ai/infrastructure/persistence/mysql/interpretation.py],
    with [stage_state] of [result_outbox.py], [interpretation_state] of
    [src/src/qs_ai/infrastructure/workflow_transport/state_projection.py] and [bind_configuration],
    [configuration_refusals] of [execution_configurations.py], and proves that it implements the
    port: [mysql_laws] discharges the laws the service's theorems are proved against. *)
From stdpp Require Import pretty.
From S2P Require Import Prelude PyText PyInt PyTime PyJson Transactions Session Service Tables.
From S2P Require Import Capacity.

Local Open Scope string_scope.
Local Open Scope Z_scope.
Local Open Scope py_scope.

(** The question, artifact and identity a visible state is projected from. *)
Definition interpretation_state (event_id request_id : string) (session : Session)
    (question : option Question) (artifact : option json) : res StateEvent :=
  artifact_json ← (if s_status session == COMPLETED then
                     match artifact with
                     | None => Err (ValueError "Completed session requires a durable artifact")
                     | Some a => dumps_with compact a
                     end
                   else Ok "");
  Ok (mk_StateEvent event_id request_id (s_id session) (s_actor session) (s_testee_id session)
        (s_version session) (status_value (s_status session))
        (from_option q_id "" question) (from_option q_text "" question)
        (from_option q_can_skip false question) (default "" (s_failure_code session))
        artifact_json).

(** The deterministic-refusal boundary of an admission. *)
Definition configuration_refusals {A} (m : res A) : res A :=
  match m with
  | Ok a => Ok a
  | Err e =>
    Err (match e with
         | RuleViolation code =>
           AdmissionRejected (if code == "configuration_unavailable"
                              then "configuration_unavailable" else "admission_input_invalid")
         | InvalidInput _ => AdmissionRejected "admission_input_invalid"
         | NotFound | SchemaError | KeyError _ | TypeError =>
           AdmissionRejected "admission_configuration_invalid"
         | _ => if is_value_error e then AdmissionRejected "admission_configuration_invalid" else e
         end)
  end.

(** What a unit of work is opened with: the database clock, the identities it allocates (or that
    the caller froze), the business time and the frozen configuration plan. *)
Record UowSettings : Type := mk_UowSettings {
  u_now : Z;
  u_job_id : string;
  u_event_id : string;
  u_at : datetime;
  u_configuration : option PlannedConfiguration;
}.

Section mysql.
Context {G : Type}.
Context (participant_policy : Z → G → res (ParticipantCapacityPolicy * json)).
(** [plan_configuration]: selects, loads and compiles the publication; it stages nothing. *)
Context (plan_configuration : Session → EvidenceSet → Tables G → res PlannedConfiguration).
Context (settings : UowSettings).
Notation DB := (Tables G).

Definition sql_reserve (scope key request_hash : string) : tx DB (option Receipt) := λ db,
  let db := match t_idempotency db !! (scope, key) with
            | None => set_idempotency (<[(scope, key) := (request_hash, None)]> (t_idempotency db)) db
            | Some _ => db
            end in
  match t_idempotency db !! (scope, key) with
  | None => (Err NoResultFound, db)
  | Some (h, response) =>
    if h != request_hash then (Err (RuleViolation "idempotency_conflict"), db)
    else (Ok response, db)
  end.

Definition sql_receipt (scope key : string) (receipt : Receipt) : tx DB unit :=
  modify (λ db, set_idempotency
                  (alter (λ row, (row.1, Some receipt)) (scope, key) (t_idempotency db)) db).

Definition sql_get (session_id : string) : tx DB Session := λ db,
  match t_sessions db !! session_id with
  | None => (Err NotFound, db)
  | Some row => (Ok (session_from session_id row), db)
  end.

Definition bind_planned (session : Session) (evidence : EvidenceSet) : tx DB unit :=
  db ← get_db;
  planned ← lift (configuration_refusals (plan_configuration session evidence db));
  lift (raise_if (match u_configuration settings with
                  | Some expected => planned != expected
                  | None => false
                  end)
          (RuntimeError "Original configuration differs from frozen admission")) ;;
  insert_row t_bindings set_bindings (pc_session_id planned) planned
    (λ db, is_some (t_sessions db !! pc_session_id planned)
           && is_some (t_evidence db !! pc_evidence_set_id planned)).

Definition has_request (request_id : string) (row : SessionRow) : bool :=
  sr_request_id row == Some request_id.

Definition with_request (request_id : string) (row : SessionRow) : SessionRow :=
  mk_SessionRow (Some request_id) (sr_org_id row) (sr_owner_subject_id row) (sr_testee_id row)
    (sr_assessment_ids row) (sr_goal row) (sr_status row) (sr_version row) (sr_active_run_id row)
    (sr_current_question_id row) (sr_evidence_set_id row) (sr_workflow_version row)
    (sr_failure_code row).

Definition bind_request (session_id request_id : string) : tx DB unit := λ db,
  match t_sessions db !! session_id with
  | Some row =>
    if is_some (sr_request_id row) then (Err (RuleViolation "idempotency_conflict"), db)
    else if existsb (has_request request_id) ((map_to_list (t_sessions db)).*2)
    then (Err IntegrityError, db)
    else (Ok tt, set_sessions (<[session_id := with_request request_id row]> (t_sessions db)) db)
  | None => (Err (RuleViolation "idempotency_conflict"), db)
  end.

Definition sql_add (session : Session) : tx DB unit :=
  row ← lift (session_values None session);
  insert_row t_sessions set_sessions (s_id session) row (λ _, true).

Definition of_session (session_id : string) (e : EvidenceSet) : bool :=
  es_session_id e == session_id.

Definition sql_add_evidence (evidence : EvidenceSet) : tx DB unit :=
  insert_row t_evidence set_evidence (es_id evidence) evidence
    (λ db, is_some (t_sessions db !! es_session_id evidence)
           && negb (existsb (of_session (es_session_id evidence)) ((map_to_list (t_evidence db)).*2))).

Definition sql_question (question_id : string) : tx DB Question := λ db,
  match t_questions db !! question_id with
  | Some row => (Ok (qr_question row), db)
  | None => (Err NoResultFound, db)
  end.

Definition artifact_of (session_id : string) (row : ArtifactRow) : bool :=
  a_session_id row == session_id.

(** [stage_state]: the visible state of a session with a request, once per version. *)
Definition stage_state (session : Session) : tx DB unit :=
  db ← get_db;
  match t_sessions db !! s_id session ≫= sr_request_id with
  | None => mret tt
  | Some request_id =>
    question ← (match s_current_question_id session with
                | Some question_id =>
                  if nonempty question_id then q ← sql_question question_id; mret (Some q)
                  else mret None
                | None => mret None
                end);
    let payload :=
      if s_status session == COMPLETED then
        a_payload <$> head (filter (λ r, artifact_of (s_id session) r = true)
                              ((map_to_list (t_artifacts db)).*2))
      else None in
    event ← lift (interpretation_state (u_event_id settings) request_id session question payload);
    modify (λ db,
      if is_some (t_outbox db !! (s_id session, s_version session))
         || existsb (λ ev, ev_event_id ev == u_event_id settings) ((map_to_list (t_outbox db)).*2)
      then db
      else set_outbox (<[(s_id session, s_version session) := event]> (t_outbox db)) db)
  end.

Definition sql_save (session : Session) : tx DB unit :=
  db ← get_db;
  row ← lift (session_values (t_sessions db !! s_id session ≫= sr_request_id) session);
  modify (λ db, set_sessions (alter (λ _, row) (s_id session) (t_sessions db)) db) ;;
  stage_state session.

Definition sql_answer (question : Question) (actor : Actor) (answer : option string) (skip : bool)
    : tx DB unit :=
  modify (λ db, set_questions
    (alter (λ row,
       let q := qr_question row in
       mk_QuestionRow
         (mk_Question (q_id q) (q_session_id q) (q_text q) (q_can_skip q) answer skip
            (Some (subject_id actor))) (qr_seq row) (Some (u_now settings)))
       (q_id question) (t_questions db)) db).

(** The [INSERT] of the run; a run without identity violates its primary key. *)
Definition insert_run (session : Session) (status : string) : tx DB unit :=
  match s_active_run_id session with
  | None => lift (Err IntegrityError)
  | Some run =>
    insert_row t_runs set_runs run (mk_RunRow (s_id session) (s_version session) status None)
      (λ db, is_some (t_sessions db !! s_id session))
  end.

Definition of_run (run_id : string) (job : JobRow) : bool := j_run_id job == run_id.

Definition queued_job (session : Session) (run : string) (answer : option string) (skip : bool)
    (question_id : option string) : JobRow :=
  mk_JobRow run (s_id session) "queued" (u_now settings) None 0 0 answer skip question_id.

Definition sql_enqueue (session : Session) (answer : option string) (skip : bool)
    (question_id : option string) : tx DB unit :=
  (if uses_qs_snapshot session then reserve participant_policy session (u_at settings)
   else mret tt) ;;
  insert_run session "queued" ;;
  let run := default "" (s_active_run_id session) in
  insert_row t_jobs set_jobs (u_job_id settings) (queued_job session run answer skip question_id)
    (λ db, is_some (t_runs db !! run) && is_some (t_sessions db !! s_id session)
           && negb (existsb (of_run run) ((map_to_list (t_jobs db)).*2))).

Definition sql_reject_run (session : Session) : tx DB unit :=
  lift (raise_if (s_status session != BLOCKED
                  || s_failure_code session not_in
                       [Some "participant_daily_capacity_exceeded"; Some "configuration_unavailable";
                        Some "admission_input_invalid"; Some "admission_configuration_invalid"])
          (ValueError "Admission rejection requires a known blocked result")) ;;
  insert_run session (status_value (s_status session)).

Definition cancel_job (session_id : string) (job : JobRow) : bool :=
  (j_session_id job == session_id) && (j_status job is_in ["queued"; "leased"]).
Definition cancelled_job (job : JobRow) : JobRow :=
  mk_JobRow (j_run_id job) (j_session_id job) "cancelled" (j_available_at job) (j_lease_until job)
    (j_fence_token job) (j_attempt job) (j_answer job) (j_skipped job) (j_question_id job).
Definition cancel_run (session_id : string) (run : RunRow) : bool :=
  (rr_session_id run == session_id) && (rr_status run is_in ["queued"; "running"]).
Definition cancelled_run (run : RunRow) : RunRow :=
  mk_RunRow (rr_session_id run) (rr_session_version run) "cancelled" (rr_checkpoint_ref run).
(** [fence = fence + 1, expires_at = utc_timestamp(6)] *)
Definition fence_off (now : Z) (lease : LeaseRow) : LeaseRow :=
  mk_LeaseRow (l_fence lease + 1) now.

Definition sql_cancel_jobs (session : Session) : tx DB unit :=
  modify (λ db, set_jobs (update_where (cancel_job (s_id session)) cancelled_job (t_jobs db)) db) ;;
  modify (λ db, set_runs (update_where (cancel_run (s_id session)) cancelled_run (t_runs db)) db) ;;
  modify (λ db, set_leases (alter (fence_off (u_now settings)) (s_id session) (t_leases db)) db) ;;
  (if uses_qs_snapshot session then release session (u_at settings) else mret tt).

Definition mysql_uow : UnitOfWork DB := {|
  uow_reserve := sql_reserve;
  uow_receipt := sql_receipt;
  uow_get := sql_get;
  uow_bind_request := bind_request;
  uow_bind_configuration := bind_planned;
  uow_add := sql_add;
  uow_add_evidence := sql_add_evidence;
  uow_save := sql_save;
  uow_question := sql_question;
  uow_answer := sql_answer;
  uow_enqueue := sql_enqueue;
  uow_reject_run := sql_reject_run;
  uow_cancel_jobs := sql_cancel_jobs;
|}.
End mysql.
Local Close Scope py_scope.

(** ** The unit of work implements the port *)

Section keeps.
Context {G X : Type} (π : Tables G → X).

Lemma keeps_prior session : keeps π (prior session).
Proof. intros db. by rewrite prior_db. Qed.

Lemma keeps_question q : keeps π (sql_question q).
Proof. intros db. unfold sql_question. by case_match. Qed.
End keeps.
#[export] Hint Resolve keeps_prior keeps_question : keeps.

(** What the laws of the port speak of. *)
Definition port_part {G} (db : Tables G) := (t_idempotency db, t_sessions db).

Section mysql_laws.
Context {G : Type}.
Context (participant_policy : Z → G → res (ParticipantCapacityPolicy * json)).
Context (plan_configuration : Session → EvidenceSet → Tables G → res PlannedConfiguration).
Context (settings : UowSettings).
Notation DB := (Tables G).

Lemma lock_keeps session : keeps port_part (lock session : tx DB unit).
Proof. unfold lock. solve_keeps. Qed.
Hint Resolve lock_keeps : keeps.

Lemma reserve_keeps session at_ : keeps port_part (reserve participant_policy session at_).
Proof. unfold reserve. solve_keeps. Qed.
Hint Resolve reserve_keeps : keeps.

Lemma release_keeps session at_ : keeps port_part (release session at_ : tx DB unit).
Proof. unfold release, update_run. solve_keeps. Qed.
Hint Resolve release_keeps : keeps.

Lemma insert_run_keeps session status : keeps port_part (insert_run session status : tx DB unit).
Proof. unfold insert_run. solve_keeps. Qed.
Hint Resolve insert_run_keeps : keeps.

Lemma stage_state_keeps session : keeps port_part (stage_state settings session : tx DB unit).
Proof. unfold stage_state. solve_keeps. Qed.

Lemma bind_planned_keeps session evidence :
  keeps port_part (bind_planned plan_configuration settings session evidence).
Proof. unfold bind_planned. solve_keeps. Qed.

Lemma add_evidence_keeps evidence : keeps port_part (sql_add_evidence evidence : tx DB unit).
Proof. unfold sql_add_evidence. solve_keeps. Qed.

Lemma answer_keeps q actor text skip :
  keeps port_part (sql_answer settings q actor text skip : tx DB unit).
Proof. unfold sql_answer. solve_keeps. Qed.

Lemma enqueue_keeps session text skip q :
  keeps port_part (sql_enqueue participant_policy settings session text skip q).
Proof. unfold sql_enqueue. solve_keeps. Qed.

Lemma reject_run_keeps session : keeps port_part (sql_reject_run session : tx DB unit).
Proof. unfold sql_reject_run. solve_keeps. Qed.

Lemma cancel_jobs_keeps session :
  keeps port_part (sql_cancel_jobs settings session : tx DB unit).
Proof. unfold sql_cancel_jobs. solve_keeps. Qed.

(** The ledger and the sessions a database holds. *)
Definition sql_ledger (db : DB) (k : string * string) : option (string * option Receipt) :=
  t_idempotency db !! k.
Definition sql_stored (db : DB) (i : string) : option Session :=
  session_from i <$> t_sessions db !! i.

Definition sql_frame (db db' : DB) : Prop :=
  (∀ k, sql_ledger db' k = sql_ledger db k) ∧ ∀ i, sql_stored db' i = sql_stored db i.

Lemma keeps_frame {A} (m : tx DB A) db : keeps port_part m → sql_frame db (m db).2.
Proof.
  intros Hm. specialize (Hm db). injection Hm as Hl Hs. unfold sql_frame, sql_ledger, sql_stored.
  by rewrite Hl, Hs.
Qed.

Lemma bind_request_frame_sql i r db : sql_frame db (bind_request i r db).2.
Proof.
  unfold bind_request. destruct (t_sessions db !! i) as [row|] eqn:Hi; [|done].
  destruct (is_some _); [done|]. destruct (existsb _ _); [done|]. split; [done|].
  intros j. unfold sql_stored. cbn. destruct (decide (j = i)) as [->|].
  - by rewrite lookup_insert_eq, Hi.
  - by rewrite lookup_insert_ne.
Qed.

Lemma sql_save_spec s db db' :
  storable s → sql_save settings s db = (Ok tt, db') →
  (∀ k, sql_ledger db' k = sql_ledger db k) ∧
  ∀ i, sql_stored db' i
       = if decide (i = s_id s) then (λ _, s) <$> sql_stored db i else sql_stored db i.
Proof.
  intros Hs Hx. unfold sql_save in Hx. rewrite get_bind, lift_bind in Hx.
  destruct (session_values _ s) as [row|] eqn:Hrow; [|done].
  rewrite bind_run in Hx. cbn [modify] in Hx.
  apply (keeps_Ok port_part) in Hx as [= Hl Hss]; [|apply stage_state_keeps]. unfold sql_ledger, sql_stored. rewrite Hl, Hss.
  split; [done|]. intros i. destruct (decide (i = s_id s)) as [->|].
  - rewrite lookup_alter_eq. destruct (t_sessions db !! s_id s); [|done]. cbn.
    by rewrite (session_values_from _ _ _ Hs Hrow).
  - by rewrite lookup_alter_ne.
Qed.

Lemma sql_add_spec s db db' :
  storable s → sql_add s db = (Ok tt, db') →
  sql_stored db (s_id s) = None ∧ (∀ k, sql_ledger db' k = sql_ledger db k) ∧
  ∀ i, sql_stored db' i = if decide (i = s_id s) then Some s else sql_stored db i.
Proof.
  intros Hs Hx. unfold sql_add in Hx. rewrite lift_bind in Hx.
  destruct (session_values _ s) as [row|] eqn:Hrow; [|done]. unfold insert_row in Hx.
  destruct (_ && _) eqn:Hfree in Hx; [|done]. injection Hx as <-.
  apply andb_true_iff in Hfree as [Hfree%is_none_true _].
  unfold sql_stored. cbn. split; [by rewrite Hfree|]. split; [done|]. intros i. destruct (decide (i = s_id s)) as [->|].
  - rewrite lookup_insert_eq. cbn. by rewrite (session_values_from _ _ _ Hs Hrow).
  - by rewrite lookup_insert_ne.
Qed.

Lemma sql_reserve_new scope key h (db : DB) :
  sql_ledger db (scope, key) = None →
  ∃ db', sql_reserve scope key h db = (Ok None, db') ∧
    (∀ k, sql_ledger db' k = if decide (k = (scope, key)) then Some (h, None)
                             else sql_ledger db k) ∧
    ∀ i, sql_stored db' i = sql_stored db i.
Proof.
  unfold sql_ledger, sql_reserve. intros ->. cbn. rewrite lookup_insert_eq.
  rewrite bool_decide_eq_true_2 by done. eexists. split; [done|]. split; [|done].
  intros k. cbn. destruct (decide (k = (scope, key))) as [->|].
  - by rewrite lookup_insert_eq.
  - by rewrite lookup_insert_ne.
Qed.

Lemma sql_reserve_old scope key h h' o (db : DB) :
  sql_ledger db (scope, key) = Some (h', o) →
  sql_reserve scope key h db
    = (if decide (h = h') then Ok o else Err (RuleViolation "idempotency_conflict"), db).
Proof.
  unfold sql_ledger, sql_reserve. intros Hl. rewrite !Hl.
  destruct (decide (h = h')) as [->|]; [by rewrite bool_decide_eq_true_2|].
  by rewrite bool_decide_eq_false_2.
Qed.

Lemma sql_receipt_spec scope key h o r (db : DB) :
  sql_ledger db (scope, key) = Some (h, o) →
  ∃ db', sql_receipt scope key r db = (Ok tt, db') ∧
    (∀ k, sql_ledger db' k = if decide (k = (scope, key)) then Some (h, Some r)
                             else sql_ledger db k) ∧
    ∀ i, sql_stored db' i = sql_stored db i.
Proof.
  unfold sql_ledger. intros Hl. eexists. split; [done|]. split; [|done]. intros k. cbn.
  destruct (decide (k = (scope, key))) as [->|]; [by rewrite lookup_alter_eq, Hl|].
  by rewrite lookup_alter_ne.
Qed.

Definition mysql_laws :
  @UnitOfWorkLaws DB (mysql_uow participant_policy plan_configuration settings).
Proof.
  refine (@Build_UnitOfWorkLaws DB (mysql_uow participant_policy plan_configuration settings)
            sql_ledger sql_stored _ _ _ _ _ _ _ _ _ _ _ _ _ _ _).
  - intros db i s. unfold sql_stored. destruct (t_sessions db !! i) as [row|]; [|done].
    cbn. intros [= <-]. split; [done|]. apply session_from_storable.
  - apply sql_reserve_new.
  - apply sql_reserve_old.
  - apply sql_receipt_spec.
  - intros i db. cbn. unfold sql_get, sql_stored. by destruct (t_sessions db !! i).
  - apply sql_save_spec.
  - apply sql_add_spec.
  - apply bind_request_frame_sql.
  - intros. apply keeps_frame, bind_planned_keeps.
  - intros. apply keeps_frame, add_evidence_keeps.
  - intros. apply keeps_frame, keeps_question.
  - intros. apply keeps_frame, answer_keeps.
  - intros. apply keeps_frame, enqueue_keeps.
  - intros. apply keeps_frame, reject_run_keeps.
  - intros. apply keeps_frame, cancel_jobs_keeps.
Defined.

(** ** What an admission leaves in the tables *)

Notation uow := (mysql_uow participant_policy plan_configuration settings).
Context (session_identity run_identity evidence_identity : string).

(** The jobs and the reservations, which only [enqueue] writes in an admission. *)
Definition work_part (db : DB) := (t_jobs db, t_reservations db).

Lemma insert_run_work session status : keeps work_part (insert_run session status : tx DB unit).
Proof. unfold insert_run. solve_keeps. Qed.

Lemma save_work session : keeps work_part (sql_save settings session : tx DB unit).
Proof. unfold sql_save, stage_state. solve_keeps. Qed.

Lemma bind_request_work i r : keeps work_part (bind_request i r : tx DB unit).
Proof. intros db. unfold bind_request. by repeat case_match. Qed.

(** A job that is queued for the session's run, with the run's reservation when the session is
    metered. *)
Definition enqueued session text skip question (db db' : DB) : Prop :=
  ∃ run, s_active_run_id session = Some run ∧ t_jobs db !! u_job_id settings = None ∧
    t_jobs db' = <[u_job_id settings := queued_job settings session run text skip question]>
                   (t_jobs db) ∧
    (uses_qs_snapshot session = true →
       ∃ row, t_reservations db' !! run = Some row ∧ own_row session run row).

Lemma enqueue_effect session text skip question (db : DB) o db' :
  sql_enqueue participant_policy settings session text skip question db = (o, db') →
  (o = Ok tt → enqueued session text skip question db db') ∧
  (∀ e, o = Err e → e = IntegrityError ∨ work_part db' = work_part db).
Proof.
  unfold sql_enqueue. rewrite bind_run. intros Hx.
  destruct ((if uses_qs_snapshot session
             then reserve participant_policy session (u_at settings) else mret tt) db)
    as [o1 db1] eqn:Hres.
  assert (t_jobs db1 = t_jobs db) as Hj1.
  { apply (keeps_Ok t_jobs) in Hres; [done|]. unfold reserve, lock. solve_keeps. }
  assert ((∀ e, o1 = Err e → t_reservations db1 = t_reservations db) ∧
          (uses_qs_snapshot session = true → o1 = Ok tt →
             ∃ run row, t_reservations db1 !! run = Some row ∧ own_row session run row)) as [Hr1 Hok].
  { destruct (uses_qs_snapshot session); [|by injection Hres as <- <-].
    apply reserve_effect in Hres as [[[Hr _] Hok]|[-> Hres]]; [by split|]. split; [done|].
    destruct Hres as (run & row & p & sn & Hown & _ & _ & _ & _ & _ & _ & -> & _).
    intros _ _. exists run, row. by rewrite lookup_insert_eq. }
  destruct o1 as [[]|e].
  2: { injection Hx as <- <-. split; [done|]. intros e' [= ->]. right. unfold work_part.
       by rewrite Hj1, (Hr1 e'). }
  rewrite bind_run in Hx. destruct (insert_run session "queued" db1) as [o2 db2] eqn:Hrun.
  pose proof (keeps_Ok work_part _ _ _ _ (insert_run_work _ _) Hrun) as [= Hj2 Hr2].
  unfold insert_run in Hrun. destruct (s_active_run_id session) as [run|] eqn:Hs.
  2: { injection Hrun as <- <-. injection Hx as <- <-. split; [done|]. intros ? [= <-]. by left. }
  unfold insert_row in Hrun. destruct o2 as [[]|e].
  2: { destruct (_ && _); [done|]. injection Hrun as <- <-. injection Hx as <- <-.
       split; [done|]. intros ? [= <-]. by left. }
  cbn in Hx. unfold insert_row in Hx. destruct (_ && _) eqn:Hc in Hx.
  2: { injection Hx as <- <-. split; [done|]. intros ? [= <-]. by left. }
  injection Hx as <- <-. split; [|done]. intros _. exists run. apply andb_true_iff in Hc as [Hfree _].
  apply is_none_true in Hfree. rewrite Hj2, Hj1 in Hfree. cbn. rewrite Hj2, Hj1, Hr2.
  split_and!; try done. intros Hm. destruct (Hok Hm eq_refl) as (run' & row & Hk & Hown).
  exists row. assert (run' = run) as -> by (destruct Hown; congruence). done.
Qed.

Lemma admit_work session testee ids evidence (db : DB) o s' db' :
  @admit_evidence DB uow evidence_identity session testee ids evidence db = (o, s', db') →
  (o = Ok tt → s' = with_evidence session evidence_identity ∧ enqueued s' None false None db db') ∧
  (∀ code, o = Err (AdmissionRejected code) → work_part db' = work_part db).
Proof.
  unfold admit_evidence. intros Hx.
  destruct (evidence_validate _ _ _) as [[]|e];
    [|assert (db' = db ∧ o ≠ Ok tt) as [-> ?] by (destruct e; by simplify_eq); by split].
  destruct (fingerprint _) as [h|e]; [|by simplify_eq].
  destruct (uow_add_evidence _ db) as [o1 db1] eqn:Ha.
  apply (keeps_Ok work_part) in Ha as [= Hj1 Hr1]; [|unfold uow_add_evidence; cbn; unfold sql_add_evidence; solve_keeps].
  destruct o1 as [[]|e]; [|simplify_eq; split; [done|]; intros; unfold work_part; congruence].
  destruct (uow_bind_configuration _ _ db1) as [o2 db2] eqn:Hb.
  apply (keeps_Ok work_part) in Hb as [= Hj2 Hr2]; [|unfold uow_bind_configuration; cbn; unfold bind_planned; solve_keeps].
  destruct o2 as [[]|e]; [|simplify_eq; split; [done|]; intros; unfold work_part; congruence].
  destruct (uow_enqueue _ _ _ _ db2) as [o3 db3] eqn:He. cbn in He.
  apply enqueue_effect in He as [Hok Herr]. destruct o3 as [[]|e].
  - simplify_eq. split; [|done]. intros _. split; [done|].
    destruct (Hok eq_refl) as (run & Hrun & Hfree & Hjobs & Hres). exists run.
    by rewrite <- Hj1, <- Hj2.
  - simplify_eq. split; [done|]. intros code Hc.
    destruct (Herr _ eq_refl) as [->|[= Hj3 Hr3]]; [done|]. unfold work_part. congruence.
Qed.

Lemma published_workflow_metered s evidence e :
  uses_qs_snapshot (with_evidence (with_workflow s (published_workflow_version evidence)) e) = true.
Proof.
  assert (published_workflow_version evidence = "qs-published-snapshot-v1" ∨
          published_workflow_version evidence = "qs-published-snapshot-v2") as [H|H]
    by (unfold published_workflow_version; repeat case_match; auto);
    unfold uses_qs_snapshot, uses_published_snapshot, with_evidence, with_workflow;
    cbn [s_workflow_version]; rewrite H; reflexivity.
Qed.

Lemma admission_work session testee ids evidence (db : DB) s' db' :
  @admission DB uow evidence_identity session testee ids evidence db = (Ok s', db') →
  enqueued s' None false None db db' ∧ s' = with_evidence session evidence_identity ∨
  s_status s' = BLOCKED ∧ work_part db' = work_part db.
Proof.
  unfold admission. intros Hx. destruct (admit_evidence _ _ _ _ _ _) as [[o s1] db1] eqn:Ha.
  apply admit_work in Ha as [Hok Hrej]. destruct o as [[]|e].
  { injection Hx as <- <-. left. destruct (Hok eq_refl). auto. }
  destruct e; try done. right. unfold refuse in Hx.
  rewrite lift_bind in Hx. destruct (running s1) as [s2|]; [|done].
  rewrite lift_bind in Hx. destruct (block s2 code) as [s3|] eqn:Hblock; [|done].
  rewrite bind_run in Hx. destruct (uow_reject_run s3 db1) as [o4 db4] eqn:Hr. cbn in Hr.
  apply (keeps_Ok work_part) in Hr; [|unfold sql_reject_run; solve_keeps; apply insert_run_work].
  destruct o4 as [[]|]; [|done]. injection Hx as <- <-. split.
  - apply (execute_Ok (Block code)) in Hblock as [_ ->]. done.
  - rewrite Hr. by apply (Hrej code).
Qed.

(** work exists only for what was admitted: over MySQL, a start that is answered for the first
    time either leaves one new queued job of the session's run, with the run's reservation in the
    participant's budget, and answers queued; or leaves jobs and reservations as they were and
    answers blocked. *)
Theorem admission_tables actor testee ids goal request evidence (db : DB) r db' :
  @start_external DB uow session_identity run_identity evidence_identity actor testee ids goal
    request evidence db = (Ok r, db') →
  db' = db ∨
  (r_status r = "queued" ∧ r_run_id r = Some run_identity ∧ r_session_id r = session_identity ∧
   t_jobs db !! u_job_id settings = None ∧
   t_jobs db' = <[u_job_id settings := mk_JobRow run_identity session_identity "queued"
                                         (u_now settings) None 0 0 None false None]> (t_jobs db) ∧
   ∃ row, t_reservations db' !! run_identity = Some row ∧ v_session_id row = session_identity ∧
     v_subject_id row = subject_id actor ∧ v_assessment_ids row = ids) ∨
  (r_status r = "blocked" ∧ work_part db' = work_part db).
Proof.
  unfold start_external. destruct (start_input _ _ _ _ _) as [[]|]; [|done].
  destruct start_scope as [scope|]; [|done]. destruct (start_hash _ _ _ _ _) as [h|]; [|done].
  intros (committed & db1 & Hx & Hdb')%transaction_Ok.
  unfold start_body in Hx. apply tx_bind_Ok in Hx as (o & db2 & Hres & Hx).
  apply (keeps_Ok work_part) in Hres as Hw2.
  2: { intros d. cbn. unfold sql_reserve. by repeat case_match. }
  destruct o as [r0|]; [apply ret_Ok in Hx as [[= <- <-] _]; by left|right].
  apply tx_bind_Ok in Hx as (s & db3 & Hq & Hx). apply lift_Ok in Hq as [Hq ->].
  cbn in Hq. injection Hq as <-.
  apply tx_bind_Ok in Hx as (u & db4 & Hadd & Hx).
  apply (keeps_Ok work_part) in Hadd as Hw4; [|cbn; unfold sql_add; solve_keeps].
  apply tx_bind_Ok in Hx as (u5 & db5 & Hbind & Hx).
  apply (keeps_Ok work_part) in Hbind as Hw5; [|apply bind_request_work].
  apply tx_bind_Ok in Hx as (s' & db6 & Hadm & Hx). apply admission_work in Hadm.
  apply tx_bind_Ok in Hx as (u7 & db7 & Hsave & Hx).
  apply (keeps_Ok work_part) in Hsave as Hw7; [|apply save_work].
  apply tx_bind_Ok in Hx as (u8 & db8 & Hrec & Hx).
  apply (keeps_Ok work_part) in Hrec as Hw8; [|cbn; unfold sql_receipt; solve_keeps].
  apply ret_Ok in Hx as [[= <- <-] <-]. subst db'.
  assert (work_part db8 = work_part db6) as [= Hj Hr] by congruence.
  assert (work_part db5 = work_part db) as [= Hj0 Hr0] by congruence.
  destruct Hadm as [[(run & Hrun & Hfree & Hjobs & Hown) ->]|[Hst Hw]].
  - left. cbn in Hrun. injection Hrun as <-. split; [done|]. split; [done|]. split; [done|].
    rewrite <- Hj0, Hj, Hr. split; [done|]. split; [exact Hjobs|].
    destruct Hown as (row & Hk & _ & Hid & _ & Hs & Has).
    { apply published_workflow_metered. }
    by exists row.
  - right. cbn. rewrite Hst. split; [done|]. unfold work_part in *. congruence.
Qed.

Definition run_part (db : DB) := (t_jobs db, t_runs db, t_leases db).

Lemma save_run session : keeps run_part (sql_save settings session : tx DB unit).
Proof. unfold sql_save, stage_state. solve_keeps. Qed.

Lemma cancel_jobs_effect session (db : DB) u db' :
  sql_cancel_jobs settings session db = (Ok u, db') →
  run_part db' = (update_where (cancel_job (s_id session)) cancelled_job (t_jobs db),
                  update_where (cancel_run (s_id session)) cancelled_run (t_runs db),
                  alter (fence_off (u_now settings)) (s_id session) (t_leases db)).
Proof.
  unfold sql_cancel_jobs. intros Hx.
  do 3 (rewrite bind_run in Hx; cbn beta iota delta [modify] in Hx).
  apply (keeps_Ok run_part) in Hx; [by rewrite Hx|]. unfold release, lock, update_run. solve_keeps.
Qed.

(** No row selected by [p] is left by an update that falsifies [p]. *)
Lemma update_where_lookup {V} (p : V → bool) f (m : gmap string V) i v :
  update_where p f m !! i = Some v →
  ∃ w, m !! i = Some w ∧ v = (if p w then f w else w).
Proof.
  unfold update_where. rewrite lookup_fmap. destruct (m !! i) as [w|] eqn:Hw; [|done].
  cbn. intros [= <-]. by exists w.
Qed.

Lemma cancel_job_done id job :
  j_session_id (if cancel_job id job then cancelled_job job else job) = id →
  j_status (if cancel_job id job then cancelled_job job else job) ≠ "queued" ∧
  j_status (if cancel_job id job then cancelled_job job else job) ≠ "leased".
Proof.
  destruct (cancel_job id job) eqn:E; [done|]. intros Hid. unfold cancel_job in E.
  rewrite bool_decide_eq_true_2 in E by done. cbn in E.
  apply bool_decide_eq_false in E. rewrite elem_of_two in E. tauto.
Qed.

Lemma cancel_run_done id run :
  rr_session_id (if cancel_run id run then cancelled_run run else run) = id →
  rr_status (if cancel_run id run then cancelled_run run else run) ≠ "queued" ∧
  rr_status (if cancel_run id run then cancelled_run run else run) ≠ "running".
Proof.
  destruct (cancel_run id run) eqn:E; [done|]. intros Hid. unfold cancel_run in E.
  rewrite bool_decide_eq_true_2 in E by done. cbn in E.
  apply bool_decide_eq_false in E. rewrite elem_of_two in E. tauto.
Qed.

(** cancelling stops the work: after a cancellation that is answered for the first time no job
    of the session is queued or leased and none of its runs is queued or running, every lease on
    it has a new fence and is expired, and jobs of other sessions are as they were. *)
Theorem cancel_stops_work authorize actor id version key (db : DB) r db' :
  @change DB uow authorize run_identity actor id (CancelCommand version) key db = (Ok r, db') →
  db' = db ∨
  ((∀ i job, t_jobs db' !! i = Some job → j_session_id job = id →
      j_status job ≠ "queued" ∧ j_status job ≠ "leased") ∧
   (∀ i run, t_runs db' !! i = Some run → rr_session_id run = id →
      rr_status run ≠ "queued" ∧ rr_status run ≠ "running") ∧
   t_leases db' !! id = fence_off (u_now settings) <$> t_leases db !! id ∧
   ∀ i job, t_jobs db !! i = Some job → j_session_id job ≠ id → t_jobs db' !! i = Some job).
Proof.
  intros Hx. unfold change in Hx. destruct (scope_key _ _ _ _) as [scope|]; [|done].
  destruct (owned _ _ _ _) as [s0|] eqn:Ho; [|done]. destruct (fingerprint _) as [h|]; [|done].
  apply transaction_Ok in Hx as (committed & db1 & Hx & ->).
  unfold change_body in Hx. apply tx_bind_Ok in Hx as (o & db2 & Hres & Hx).
  apply (keeps_Ok run_part) in Hres as [= Hj2 Hr2 Hl2];
    [|intros d; cbn; unfold sql_reserve; by repeat case_match].
  destruct o as [r0|]; [apply ret_Ok in Hx as [[= <- <-] _]; by left|].
  apply tx_bind_Ok in Hx as (s & db3 & Hget & Hx). cbn in Hget. unfold sql_get in Hget.
  destruct (t_sessions db2 !! id) as [row|]; [|done]. injection Hget as <- <-.
  apply tx_bind_Ok in Hx as (v & db4 & Hv & Hx). apply lift_Ok in Hv as [_ ->].
  apply tx_bind_Ok in Hx as (u & db5 & He & Hx). apply lift_Ok in He as [_ ->].
  apply tx_bind_Ok in Hx as (s1 & db6 & Hc & Hx).
  apply tx_bind_Ok in Hc as (s2 & db7 & Hcan & Hc). apply lift_Ok in Hcan as [Hcan ->].
  apply tx_bind_Ok in Hc as (u8 & db8 & Hjobs & Hc). apply ret_Ok in Hc as [-> <-].
  apply tx_bind_Ok in Hx as (u9 & db9 & Hsave & Hx).
  apply tx_bind_Ok in Hx as (u10 & db10 & Hrec & Hx). apply ret_Ok in Hx as [[= <- <-] <-].
  apply (keeps_Ok run_part) in Hsave as [= Hj9 Hr9 Hl9]; [|apply save_run].
  apply (keeps_Ok run_part) in Hrec as [= Hj10 Hr10 Hl10]; [|cbn; unfold sql_receipt; solve_keeps].
  apply cancel_jobs_effect in Hjobs as [= Hj Hr Hl].
  assert (s_id s1 = id) as Hid by by apply (execute_identity Cancel) in Hcan as (-> & _).
  rewrite Hid, Hj2, Hr2, Hl2 in *. right.
  rewrite Hj10, Hj9, Hj, Hr10, Hr9, Hr, Hl10, Hl9, Hl. split_and!.
  - intros i job (w & _ & ->)%update_where_lookup. apply cancel_job_done.
  - intros i run (w & _ & ->)%update_where_lookup. apply cancel_run_done.
  - apply lookup_alter_eq.
  - intros i job Hi Hne. unfold update_where. rewrite lookup_fmap, Hi. cbn.
    unfold cancel_job. by rewrite bool_decide_eq_false_2.
Qed.
End mysql_laws.
