(* ===== verification/ModelCapacity.v ===== *)
(** * ModelCapacity: the in-process limiter of model calls

    Models [src/src/qs_ai/application/execution/model_capacity.py]: the limits of a provider, the
    counters of the limiter, its tokens and the tasks that wait for a generation token.  Every
    method is synchronous, so a step of the world is one call; the only suspension is the wait on
    the event, which a release sets. *)
From S2P Require Import Prelude.

Local Open Scope string_scope.
Local Open Scope Z_scope.
Local Open Scope py_scope.

Record ProviderCapacity : Type := mk_ProviderCapacity {
  pc_total : Z;
  pc_generation_reserved : Z;
}.

#[export] Instance ProviderCapacity_post_init : Validated ProviderCapacity := λ self,
  raise_if (negb ((1 <=? pc_total self) && (pc_total self <=? 32))
            || negb ((0 <=? pc_generation_reserved self)
                     && (pc_generation_reserved self <? pc_total self)))
    (ValueError "Invalid provider model capacity").

(** The limiter; [mc_changed] is the flag of its event. *)
Record ModelCapacity : Type := mk_ModelCapacity {
  mc_providers : gmap string ProviderCapacity;
  mc_limit : Z;
  mc_active : gmap string Z;
  mc_evaluations : gmap string Z;
  mc_changed : bool;
}.

Record CapacityToken : Type := mk_CapacityToken {
  ct_provider : string;
  ct_evaluation : bool;
  ct_released : bool;
}.

Definition new_capacity (providers : gmap string ProviderCapacity) (evaluation_limit : Z)
    : res ModelCapacity :=
  raise_if (negb ((1 <=? evaluation_limit) && (evaluation_limit <=? 32)))
    (ValueError "Invalid global evaluation capacity") ;;
  Ok (mk_ModelCapacity providers evaluation_limit ((λ _, 0) <$> providers)
        ((λ _, 0) <$> providers) false).

(** [m[key]] and [sum(m.values())] *)
Definition item (m : gmap string Z) (key : string) : res Z :=
  match m !! key with Some v => Ok v | None => Err (KeyError key) end.
Definition sum_values (m : gmap string Z) : Z := map_fold (λ _ v acc, v + acc) 0 m.

(** [int(b)] *)
Definition int_of_bool (b : bool) : Z := if b then 1 else 0.

Definition try_acquire (self : ModelCapacity) (provider : string) (evaluation : bool)
    : res (option CapacityToken * ModelCapacity) :=
  match mc_providers self !! provider with
  | None => Err (ValueError "Provider capacity is not configured")
  | Some limits =>
    active ← item (mc_active self) provider;
    evaluations ← item (mc_evaluations self) provider;
    if pc_total limits <=? active then Ok (None, self)
    else if evaluation
            && ((mc_limit self <=? sum_values (mc_evaluations self))
                || (pc_total limits - pc_generation_reserved limits <=? evaluations))
    then Ok (None, self)
    else
      Ok (Some (mk_CapacityToken provider evaluation false),
          mk_ModelCapacity (mc_providers self) (mc_limit self)
            (<[provider := active + 1]> (mc_active self))
            (<[provider := evaluations + int_of_bool evaluation]> (mc_evaluations self))
            (mc_changed self))
  end.

(** [_release]: the counters go down and the event is set. *)
Definition release_counters (self : ModelCapacity) (provider : string) (evaluation : bool)
    : res ModelCapacity :=
  active ← item (mc_active self) provider;
  evaluations ← item (mc_evaluations self) provider;
  Ok (mk_ModelCapacity (mc_providers self) (mc_limit self)
        (<[provider := active - 1]> (mc_active self))
        (<[provider := evaluations - int_of_bool evaluation]> (mc_evaluations self)) true).

(** [CapacityToken.release]: only the first call counts. *)
Definition release_token (self : ModelCapacity) (token : CapacityToken)
    : res (CapacityToken * ModelCapacity) :=
  if ct_released token then Ok (token, self)
  else
    self ← release_counters self (ct_provider token) (ct_evaluation token);
    Ok (mk_CapacityToken (ct_provider token) (ct_evaluation token) true, self).

(** One turn of the loop of [acquire_generation]: clear the event and try.  [None] is the wait;
    nothing runs between the clear and the wait, so the event is clear when the task sleeps. *)
Definition generation_turn (self : ModelCapacity) (provider : string)
    : res (option CapacityToken * ModelCapacity) :=
  try_acquire (mk_ModelCapacity (mc_providers self) (mc_limit self) (mc_active self)
                 (mc_evaluations self) false) provider false.

(** ** The event loop

    The tokens handed out, in order, and the tasks inside [acquire_generation]: each waits for a
    provider and is asleep ([false]) or woken by a set event ([true]). *)
Record World : Type := mk_World {
  w_capacity : ModelCapacity;
  w_tokens : list CapacityToken;
  w_waiters : list (string * bool);
}.

(** [Event.set] resolves the future of every task that waits. *)
Definition wake (waiters : list (string * bool)) : list (string * bool) :=
  (λ w, (w.1, true)) <$> waiters.

Inductive w_step : World → World → Prop :=
| w_try provider evaluation token c c' tokens waiters :
    try_acquire c provider evaluation = Ok (Some token, c') →
    w_step (mk_World c tokens waiters) (mk_World c' (tokens ++ [token]) waiters)
| w_release i token token' c c' tokens waiters :
    tokens !! i = Some token → release_token c token = Ok (token', c') →
    w_step (mk_World c tokens waiters)
      (mk_World c' (<[i := token']> tokens) (if ct_released token then waiters else wake waiters))
| w_call provider token c c' tokens waiters :
    generation_turn c provider = Ok (Some token, c') →
    w_step (mk_World c tokens waiters) (mk_World c' (tokens ++ [token]) waiters)
| w_sleep provider c c' tokens waiters :
    generation_turn c provider = Ok (None, c') →
    w_step (mk_World c tokens waiters) (mk_World c' tokens (waiters ++ [(provider, false)]))
| w_resume l1 provider l2 token c c' tokens :
    generation_turn c provider = Ok (Some token, c') →
    w_step (mk_World c tokens (l1 ++ (provider, true) :: l2))
      (mk_World c' (tokens ++ [token]) (l1 ++ l2))
| w_sleep_again l1 provider l2 c c' tokens :
    generation_turn c provider = Ok (None, c') →
    w_step (mk_World c tokens (l1 ++ (provider, true) :: l2))
      (mk_World c' tokens (l1 ++ (provider, false) :: l2))
| w_cancel l1 w l2 c tokens :
    w_step (mk_World c tokens (l1 ++ w :: l2)) (mk_World c tokens (l1 ++ l2)).

Local Close Scope py_scope.
Local Open Scope list_scope.

(** ** Counting tokens *)

(** The tokens of a provider that are still held, and those of them held by evaluations. *)
Definition held (provider : string) (t : CapacityToken) : Prop :=
  ct_provider t = provider ∧ ct_released t = false.
#[export] Instance held_dec provider t : Decision (held provider t).
Proof. unfold held. apply _. Defined.
Definition held_evaluation (provider : string) (t : CapacityToken) : Prop :=
  held provider t ∧ ct_evaluation t = true.
#[export] Instance held_evaluation_dec provider t : Decision (held_evaluation provider t).
Proof. unfold held_evaluation. apply _. Defined.

Definition count_of (P : CapacityToken → Prop) `{∀ t, Decision (P t)} (l : list CapacityToken) : Z :=
  len (filter P l).

Section count.
Context (P : CapacityToken → Prop) `{∀ t, Decision (P t)}.

Lemma count_of_app l1 l2 : count_of P (l1 ++ l2) = count_of P l1 + count_of P l2.
Proof. unfold count_of, len. rewrite filter_app, length_app. lia. Qed.

Lemma count_of_cons x l : count_of P (x :: l) = (if decide (P x) then 1 else 0) + count_of P l.
Proof. unfold count_of, len. rewrite filter_cons. case_decide; rewrite ?length_cons; lia. Qed.

Lemma count_of_snoc x l : count_of P (l ++ [x]) = count_of P l + (if decide (P x) then 1 else 0).
Proof. rewrite count_of_app, count_of_cons. assert (count_of P [] = 0) as -> by done. lia. Qed.

Lemma count_of_nonneg l : 0 <= count_of P l.
Proof. unfold count_of, len. lia. Qed.

Lemma count_of_insert i x y l :
  l !! i = Some x →
  count_of P (<[i := y]> l)
  = count_of P l - (if decide (P x) then 1 else 0) + (if decide (P y) then 1 else 0).
Proof.
  intros Hx. rewrite insert_take_drop by by eapply lookup_lt_Some.
  rewrite <- (take_drop_middle l i x Hx) at 3.
  rewrite !count_of_app, !count_of_cons. lia.
Qed.
End count.

Lemma count_of_le (P Q : CapacityToken → Prop) `{∀ t, Decision (P t)} `{∀ t, Decision (Q t)} l :
  (∀ t, P t → Q t) → count_of P l <= count_of Q l.
Proof.
  intros HPQ. induction l as [|x l IH]; [done|]. rewrite !count_of_cons.
  repeat case_decide; try lia. naive_solver.
Qed.

(** The weight of one token in the two counts. *)
Lemma weight_held p t :
  (if decide (held p t) then 1 else 0)
  = int_of_bool (bool_decide (ct_provider t = p) && negb (ct_released t)).
Proof.
  unfold held. destruct (decide _) as [[-> ->]|H]; [by rewrite bool_decide_eq_true_2|].
  destruct (ct_released t), (bool_decide_reflect (ct_provider t = p)); naive_solver.
Qed.

Lemma weight_held_evaluation p t :
  (if decide (held_evaluation p t) then 1 else 0)
  = int_of_bool (bool_decide (ct_provider t = p) && negb (ct_released t) && ct_evaluation t).
Proof.
  unfold held_evaluation, held. destruct (decide _) as [[[-> ->] ->]|H];
    [by rewrite bool_decide_eq_true_2|].
  destruct (ct_released t), (ct_evaluation t), (bool_decide_reflect (ct_provider t = p));
    naive_solver.
Qed.

Lemma sum_values_insert m k x y :
  m !! k = Some x → sum_values (<[k := y]> m) = sum_values m - x + y.
Proof.
  intros Hx. unfold sum_values.
  rewrite <- insert_delete_eq.
  rewrite map_fold_insert_L; [|intros; lia|apply lookup_delete_eq].
  rewrite (map_fold_delete_L _ _ k x m); [lia|intros; lia|done].
Qed.

Lemma sum_values_zero {A} (m : gmap string A) : sum_values ((λ _, 0) <$> m) = 0.
Proof.
  unfold sum_values. induction m as [|k x m Hk IH] using map_ind; [done|].
  rewrite fmap_insert, map_fold_insert_L; [lia|intros; lia|]. by rewrite lookup_fmap, Hk.
Qed.

Lemma item_Ok m k v : item m k = Ok v ↔ m !! k = Some v.
Proof. unfold item. destruct (m !! k); split; congruence. Qed.

(** ** The limiter keeps its limits *)

(** The counters agree with the tokens that are held, and no limit is exceeded. *)
Record limits_kept (w : World) : Prop := {
  lk_counters : ∀ p l, mc_providers (w_capacity w) !! p = Some l →
    constructed l ∧
    mc_active (w_capacity w) !! p = Some (count_of (held p) (w_tokens w)) ∧
    mc_evaluations (w_capacity w) !! p = Some (count_of (held_evaluation p) (w_tokens w)) ∧
    count_of (held p) (w_tokens w) <= pc_total l ∧
    count_of (held_evaluation p) (w_tokens w) <= pc_total l - pc_generation_reserved l;
  lk_domain : ∀ t, t ∈ w_tokens w → is_Some (mc_providers (w_capacity w) !! ct_provider t);
  lk_evaluations : sum_values (mc_evaluations (w_capacity w)) <= mc_limit (w_capacity w);
}.

(** No task sleeps on a provider that has room for it. *)
Definition no_lost_wakeup (w : World) : Prop :=
  ∀ p, (p, false) ∈ w_waiters w → ∃ l,
    mc_providers (w_capacity w) !! p = Some l ∧ pc_total l <= count_of (held p) (w_tokens w).

Lemma constructed_provider l :
  constructed l → 1 <= pc_total l <= 32 ∧ 0 <= pc_generation_reserved l < pc_total l.
Proof. unfold constructed, post_init, ProviderCapacity_post_init. intros H. py_inv. lia. Qed.

Lemma try_acquire_Some c p e t c' :
  try_acquire c p e = Ok (Some t, c') ↔
  ∃ l a v, mc_providers c !! p = Some l ∧ mc_active c !! p = Some a ∧
    mc_evaluations c !! p = Some v ∧ a < pc_total l ∧
    (e = true → sum_values (mc_evaluations c) < mc_limit c ∧
                v < pc_total l - pc_generation_reserved l) ∧
    t = mk_CapacityToken p e false ∧
    c' = mk_ModelCapacity (mc_providers c) (mc_limit c) (<[p := a + 1]> (mc_active c))
           (<[p := v + int_of_bool e]> (mc_evaluations c)) (mc_changed c).
Proof.
  unfold try_acquire. destruct (mc_providers c !! p) as [l|]; [|split; [done|naive_solver]].
  split.
  - intros H. ok_inv. repeat if_inv; [done..|]. ok_inv. rewrite item_Ok in *.
    apply Z.leb_gt in Heqb. exists l, x, x0. split_and!; try done.
    intros ->. cbn in Heqb0. bool_inv. lia.
  - intros (l' & a & v & [= <-] & Ha & Hv & Hlt & He & -> & ->).
    unfold item. rewrite Ha, Hv. cbn. rewrite (proj2 (Z.leb_gt _ _)) by done.
    destruct e; cbn; [|done]. destruct (He eq_refl).
    by rewrite !(proj2 (Z.leb_gt _ _)) by done.
Qed.

Lemma try_acquire_None c p e c' :
  try_acquire c p e = Ok (None, c') →
  c' = c ∧ ∃ l a, mc_providers c !! p = Some l ∧ mc_active c !! p = Some a ∧
    (e = false → pc_total l <= a).
Proof.
  unfold try_acquire. destruct (mc_providers c !! p) as [l|]; [|done].
  intros H. ok_inv. rewrite item_Ok in *. repeat if_inv; [| |ok_inv; discriminate]; ok_inv;
    (split; [done|]); exists l, x; (split_and!; try done).
  - intros _. by apply Z.leb_le.
  - intros ->. done.
Qed.

Lemma release_token_Ok c t t' c' :
  release_token c t = Ok (t', c') →
  if ct_released t then t' = t ∧ c' = c
  else t' = mk_CapacityToken (ct_provider t) (ct_evaluation t) true ∧
    ∃ a v, mc_active c !! ct_provider t = Some a ∧ mc_evaluations c !! ct_provider t = Some v ∧
      c' = mk_ModelCapacity (mc_providers c) (mc_limit c) (<[ct_provider t := a - 1]> (mc_active c))
             (<[ct_provider t := v - int_of_bool (ct_evaluation t)]> (mc_evaluations c)) true.
Proof.
  unfold release_token, release_counters. destruct (ct_released t); [naive_solver|].
  intros H. ok_inv. rewrite item_Ok in *. naive_solver.
Qed.

(** A turn of the waiting loop is an acquisition that leaves the event clear. *)
Lemma generation_turn_limits c p o c' tokens w1 w2 :
  generation_turn c p = Ok (o, c') →
  limits_kept (mk_World c tokens w1) →
  match o with
  | Some t => ∃ c0, try_acquire c p false = Ok (Some t, c0) ∧
      c' = mk_ModelCapacity (mc_providers c0) (mc_limit c0) (mc_active c0) (mc_evaluations c0) false
  | None => limits_kept (mk_World c' tokens w2) ∧ mc_providers c' = mc_providers c ∧
      ∃ l, mc_providers c !! p = Some l ∧ pc_total l <= count_of (held p) tokens
  end.
Proof.
  unfold generation_turn. intros H Hk. destruct o as [t|].
  - apply try_acquire_Some in H as (l & a & v & H1 & H2 & H3 & H4 & _ & -> & ->). cbn in *.
    exists (mk_ModelCapacity (mc_providers c) (mc_limit c) (<[p := a + 1]> (mc_active c))
              (<[p := v + 0]> (mc_evaluations c)) (mc_changed c)).
    split; [|done]. apply try_acquire_Some. by exists l, a, v.
  - apply try_acquire_None in H as [-> (l & a & Hl & Ha & Hle)]. cbn in *.
    destruct Hk as [Hc Hd He]. cbn in *. split; [by constructor|]. split; [done|].
    exists l. split; [done|]. destruct (Hc p l Hl) as (_ & Ha' & _). rewrite Ha in Ha'.
    injection Ha' as ->. auto.
Qed.

Lemma acquired_limits c p e t c' tokens w1 w2 changed :
  try_acquire c p e = Ok (Some t, c') → limits_kept (mk_World c tokens w1) →
  limits_kept (mk_World (mk_ModelCapacity (mc_providers c') (mc_limit c') (mc_active c')
                           (mc_evaluations c') changed) (tokens ++ [t]) w2).
Proof.
  intros (l & a & v & Hl & Ha & Hv & Hlt & He & -> & ->)%try_acquire_Some [Hc Hd Hs]. cbn in *.
  destruct (Hc p l Hl) as (Hcon & Ha' & Hv' & Hta & Hte). rewrite Ha in Ha'. rewrite Hv in Hv'.
  injection Ha' as ->. injection Hv' as ->. constructor; cbn.
  - intros q m Hq. destruct (Hc q m Hq) as (Hm & Haq & Hvq & Htq & Heq).
    rewrite !count_of_snoc, weight_held, weight_held_evaluation. cbn.
    destruct (decide (p = q)) as [->|Hne].
    + rewrite Hl in Hq. injection Hq as <-. rewrite !lookup_insert_eq.
      rewrite bool_decide_eq_true_2 by done.
      split; [done|]. destruct e; cbn; [destruct (He eq_refl)|]; repeat split; f_equal; lia.
    + rewrite !lookup_insert_ne by done. rewrite bool_decide_eq_false_2 by done. cbn.
      rewrite !Z.add_0_r. done.
  - intros x [Hx|Hx]%elem_of_app; [by apply Hd|]. apply list_elem_of_singleton in Hx as ->. eauto.
  - rewrite (sum_values_insert _ _ _ _ Hv). destruct e; cbn; [destruct (He eq_refl)|]; lia.
Qed.

Lemma released_limits c i t t' c' tokens w1 w2 :
  tokens !! i = Some t → release_token c t = Ok (t', c') →
  limits_kept (mk_World c tokens w1) → limits_kept (mk_World c' (<[i := t']> tokens) w2).
Proof.
  intros Hi Hr [Hc Hd Hs]. apply release_token_Ok in Hr. cbn in *.
  destruct (ct_released t) eqn:Er.
  { destruct Hr as [-> ->]. rewrite list_insert_id by done. by constructor. }
  destruct Hr as (-> & a & v & Ha & Hv & ->).
  destruct (Hd t) as [l Hl]; [by eapply list_elem_of_lookup_2|].
  destruct (Hc _ l Hl) as (Hcon & Ha' & Hv' & Hta & Hte). rewrite Ha in Ha'. rewrite Hv in Hv'.
  injection Ha' as ->. injection Hv' as ->. constructor; cbn.
  - intros q m Hq. destruct (Hc q m Hq) as (Hm & Haq & Hvq & Htq & Heq).
    rewrite !(count_of_insert _ i t _ tokens Hi), !weight_held, !weight_held_evaluation, Er. cbn.
    rewrite !andb_false_r, !andb_true_r. cbn [int_of_bool].
    destruct (decide (ct_provider t = q)) as [<-|Hne].
    + rewrite Hl in Hq. injection Hq as <-. rewrite !lookup_insert_eq.
      rewrite bool_decide_eq_true_2 by done.
      split; [done|]. destruct (ct_evaluation t); cbn; repeat split; f_equal; lia.
    + rewrite !lookup_insert_ne by done. rewrite bool_decide_eq_false_2 by done. cbn.
      rewrite !Z.sub_0_r, !Z.add_0_r. done.
  - intros x Hx. apply list_elem_of_lookup in Hx as [j Hj].
    destruct (decide (i = j)) as [<-|Hij].
    + rewrite list_lookup_insert_eq in Hj by by eapply lookup_lt_Some.
      injection Hj as <-. eauto.
    + rewrite list_lookup_insert_ne in Hj by done. apply Hd. by eapply list_elem_of_lookup_2.
  - rewrite (sum_values_insert _ _ _ _ Hv). destruct (ct_evaluation t); cbn; lia.
Qed.

Lemma wake_awake p ws : (p, false) ∉ wake ws.
Proof. unfold wake. intros ([q b] & [=] & _)%list_elem_of_fmap. Qed.

Lemma acquired_held c p e t c' q tokens :
  try_acquire c p e = Ok (Some t, c') →
  mc_providers c' = mc_providers c ∧ count_of (held q) tokens <= count_of (held q) (tokens ++ [t]).
Proof.
  intros (l & a & v & _ & _ & _ & _ & _ & -> & ->)%try_acquire_Some. split; [done|].
  rewrite count_of_snoc. case_decide; lia.
Qed.

(** An acquisition keeps every sleeper's reason to sleep. *)
Lemma acquired_asleep c p e t c' tokens ws ws' changed :
  try_acquire c p e = Ok (Some t, c') → (∀ x, x ∈ ws' → x ∈ ws) →
  no_lost_wakeup (mk_World c tokens ws) →
  no_lost_wakeup (mk_World (mk_ModelCapacity (mc_providers c') (mc_limit c') (mc_active c')
                              (mc_evaluations c') changed) (tokens ++ [t]) ws').
Proof.
  intros Ht Hws Hn q Hq. destruct (Hn q) as (l & Hl & Hle); [by apply Hws|]. cbn in *.
  destruct (acquired_held c p e t c' q tokens Ht) as [-> ?]. exists l. split; [done|lia].
Qed.

Lemma same_asleep c c' tokens ws ws' :
  mc_providers c' = mc_providers c →
  (∀ p, (p, false) ∈ ws' → (p, false) ∈ ws ∨
     ∃ l, mc_providers c !! p = Some l ∧ pc_total l <= count_of (held p) tokens) →
  no_lost_wakeup (mk_World c tokens ws) → no_lost_wakeup (mk_World c' tokens ws').
Proof.
  intros Hc Hws Hn p Hp. destruct (Hws p Hp) as [H|H]; cbn; rewrite Hc; [by apply Hn|done].
Qed.

Lemma changed_irrelevant c :
  c = mk_ModelCapacity (mc_providers c) (mc_limit c) (mc_active c) (mc_evaluations c) (mc_changed c).
Proof. by destruct c. Qed.

Definition sound (w : World) : Prop := limits_kept w ∧ no_lost_wakeup w.

(** A turn that acquires, by a new call or a woken task. *)
Lemma turn_sound c p t c' tokens ws ws' :
  generation_turn c p = Ok (Some t, c') → (∀ x, x ∈ ws' → x ∈ ws) →
  sound (mk_World c tokens ws) → sound (mk_World c' (tokens ++ [t]) ws').
Proof.
  intros Ht Hws [Hk Hn].
  destruct (generation_turn_limits c p (Some t) c' tokens ws ws Ht Hk) as (c0 & H0 & ->).
  split; [by eapply acquired_limits|by eapply acquired_asleep].
Qed.

(** A turn that sleeps. *)
Lemma sleep_sound c p c' tokens ws ws' :
  generation_turn c p = Ok (None, c') →
  (∀ q, (q, false) ∈ ws' → (q, false) ∈ ws ∨ q = p) →
  sound (mk_World c tokens ws) → sound (mk_World c' tokens ws').
Proof.
  intros Ht Hws [Hk Hn].
  destruct (generation_turn_limits c p None c' tokens ws ws' Ht Hk) as (? & Hp & Hl).
  split; [done|]. eapply same_asleep; [exact Hp| |exact Hn].
  intros q [?| ->]%Hws; [by left|by right].
Qed.

Lemma sound_step w w' : sound w → w_step w w' → sound w'.
Proof.
  intros Hs Hstep. destruct Hstep as [p e t c c' tokens ws Ht|i t t' c c' tokens ws Hi Hr
    |p t c c' tokens ws Ht|p c c' tokens ws Ht|l1 p l2 t c c' tokens Ht|l1 p l2 c c' tokens Ht
    |l1 x l2 c tokens].
  - rewrite (changed_irrelevant c'). destruct Hs. split; [by eapply acquired_limits|].
    eapply acquired_asleep; eauto.
  - destruct Hs as [Hk Hn]. split; [by eapply released_limits|].
    intros q Hq. cbn in *. apply release_token_Ok in Hr.
    destruct (ct_released t); [|by apply wake_awake in Hq].
    destruct Hr as [-> ->]. rewrite list_insert_id by done. by apply Hn.
  - by eapply turn_sound.
  - eapply sleep_sound; [exact Ht| |exact Hs].
    intros q [?|[= ->]%list_elem_of_singleton]%elem_of_app; [by left|by right].
  - eapply turn_sound; [exact Ht| |exact Hs]. set_solver.
  - eapply sleep_sound; [exact Ht| |exact Hs].
    intros q. rewrite !elem_of_app, !elem_of_cons. naive_solver.
  - destruct Hs as [[Hc Hd He] Hn]. split; [by constructor|].
    intros q Hq. apply Hn. cbn in *. set_solver.
Qed.

Lemma new_capacity_sound providers limit c :
  (∀ p l, providers !! p = Some l → constructed l) →
  new_capacity providers limit = Ok c → sound (mk_World c [] []).
Proof.
  unfold new_capacity. intros Hp H. ok_inv. bool_inv. split.
  - constructor; cbn.
    + intros p l Hl. rewrite !lookup_fmap, Hl. cbn.
      destruct (constructed_provider l (Hp p l Hl)).
      change (count_of (held p) []) with 0. change (count_of (held_evaluation p) []) with 0.
      split_and!; eauto; lia.
    + intros t Ht. by apply not_elem_of_nil in Ht.
    + rewrite sum_values_zero. lia.
  - intros p Hq. by apply not_elem_of_nil in Hq.
Qed.

Lemma sound_reachable w w' : sound w → rtc w_step w w' → sound w'.
Proof. intros Hs H. induction H; [done|]. eauto using sound_step. Qed.

(** C38: the limiter never exceeds its limits and never starves a generation of its reserve: after
    any interleaving of acquisitions, releases, waits and cancellations each provider has at most
    its total of held tokens and at most its total less the reserve of them by evaluations, which
    together stay under the global limit; and as long as fewer generation tokens are held than
    the reserve, the next generation is admitted. *)
Theorem model_capacity_limits providers limit c w p l :
  (∀ p l, providers !! p = Some l → constructed l) →
  new_capacity providers limit = Ok c → rtc w_step (mk_World c [] []) w →
  mc_providers (w_capacity w) !! p = Some l →
  count_of (held p) (w_tokens w) <= pc_total l ∧
  count_of (held_evaluation p) (w_tokens w) <= pc_total l - pc_generation_reserved l ∧
  sum_values (mc_evaluations (w_capacity w)) <= mc_limit (w_capacity w) ∧
  (count_of (held p) (w_tokens w) - count_of (held_evaluation p) (w_tokens w)
     < pc_generation_reserved l →
   ∃ t c', try_acquire (w_capacity w) p false = Ok (Some t, c')).
Proof.
  intros Hp Hc Hw Hl. apply sound_reachable in Hw as [[Hk Hd He] _];
    [|by eapply new_capacity_sound].
  destruct (Hk p l Hl) as (_ & Ha & Hv & Hta & Hte). split_and!; try done.
  intros Hlt. eexists _, _. apply try_acquire_Some. exists l, (count_of (held p) (w_tokens w)),
    (count_of (held_evaluation p) (w_tokens w)). split_and!; try done. lia.
Qed.

(** C39: no wake-up is lost: a task sleeps only while every token of its provider is held, so a
    release is still to come, the release wakes it, and a woken task whose provider has room
    takes its token in its next turn. *)
Theorem waiting_generation_progress providers limit c w p :
  (∀ p l, providers !! p = Some l → constructed l) →
  new_capacity providers limit = Ok c → rtc w_step (mk_World c [] []) w →
  (p, false) ∈ w_waiters w →
  ∃ l i t, mc_providers (w_capacity w) !! p = Some l ∧
    count_of (held p) (w_tokens w) = pc_total l ∧ w_tokens w !! i = Some t ∧ held p t ∧
    ∃ w1, w_step w w1 ∧ (p, true) ∈ w_waiters w1 ∧
      ∃ w2 t', w_step w1 w2 ∧ w_tokens w2 = w_tokens w1 ++ [t'] ∧ held p t'.
Proof.
  intros Hp Hc Hw Hin. apply sound_reachable in Hw as Hs; [|by eapply new_capacity_sound].
  destruct Hs as [Hk Hn]. destruct (Hn p Hin) as (l & Hl & Hfull).
  pose proof Hk as [Hcnt Hdom _]. destruct (Hcnt p l Hl) as (Hcon & Ha & Hv & Hta & _).
  apply constructed_provider in Hcon. destruct w as [c0 tokens ws]. cbn in *.
  destruct (filter (held p) tokens) as [|t ts] eqn:Ef.
  { assert (count_of (held p) tokens = 0) by (unfold count_of; by rewrite Ef). lia. }
  assert (t ∈ filter (held p) tokens) as Ht by (rewrite Ef; apply list_elem_of_here).
  apply list_elem_of_filter in Ht as [Hheld Ht].
  apply list_elem_of_lookup in Ht as [i Hi]. pose proof Hheld as [Htp Htr]. subst p.
  exists l, i, t. split_and!; [done|lia|done|done|].
  assert (∃ c1, release_token c0 t = Ok (mk_CapacityToken (ct_provider t) (ct_evaluation t) true, c1))
    as [c1 Hrel].
  { unfold release_token, release_counters, item. rewrite Htr, Ha, Hv. cbn. by eexists. }
  pose proof (released_limits c0 i t _ c1 tokens ws (wake ws) Hi Hrel Hk) as Hk1.
  pose proof (w_release i t _ c0 c1 tokens ws Hi Hrel) as Hstep. rewrite Htr in Hstep.
  eexists. split; [exact Hstep|]. cbn.
  assert ((ct_provider t, true) ∈ wake ws) as Hwake.
  { unfold wake. apply list_elem_of_fmap. by exists (ct_provider t, false). }
  split; [done|]. apply list_elem_of_split in Hwake as (l1 & l2 & Hsplit).
  apply release_token_Ok in Hrel. rewrite Htr in Hrel.
  destruct Hrel as (_ & a & v & Ha1 & Hv1 & ->). rewrite Ha in Ha1. injection Ha1 as <-.
  eexists (mk_World _ (_ ++ [mk_CapacityToken (ct_provider t) false false]) _), _.
  split; [|split; [reflexivity|done]]. rewrite Hsplit. apply w_resume.
  unfold generation_turn. apply try_acquire_Some. cbn. eexists l, _, _.
  split; [done|]. split; [apply lookup_insert_eq|]. split; [apply lookup_insert_eq|].
  split; [lia|]. split; [done|]. split; [done|]. reflexivity.
Qed.
