(* ===== verification/Execution.v ===== *)
(** * Execution: leases, fences, model calls and results

    Models [src/src/qs_ai/infrastructure/persistence/mysql/execution.py]: the worker's claim of a
    due job under a fenced lease, the durable marker of a model call, its response, the renewal of
    the lease and the commit of a result.  The workers interleave: every operation is one committed
    transaction on the shared tables, and [exec_step] is any of them by anyone.

    The clock of the database is an argument; an operation that checks its lease again before
    committing reads a second, later clock.  Diagnostic milestones are not modelled. *)
From stdpp Require Import pretty.
From S2P Require Import Prelude PyText PyInt PyTime PyHash PyJson Transactions Session Service.
From S2P Require Import Tables Capacity MysqlUow.

Local Open Scope string_scope.
Local Open Scope Z_scope.
Local Open Scope py_scope.

Record Claim : Type := mk_Claim {
  cl_job_id : string;
  cl_run_id : string;
  cl_session : Session;
  cl_fence : Z;
  cl_answer : option string;
  cl_skipped : bool;
  cl_question_id : option string;
}.

Record ModelCall : Type := mk_ModelCall {
  mc_invocation_id : string;
  mc_status : string;
  mc_request_json : string;
  mc_response_json : option string;
  mc_failure_code : option string;
}.

(** [ArtifactCandidate], and [MBTIArtifactCandidate] when it carries reference material. *)
Record ArtifactCandidate : Type := mk_ArtifactCandidate {
  ac_id : string;
  ac_session_id : string;
  ac_run_id : string;
  ac_evidence_set_id : string;
  ac_evidence_fingerprint : string;
  ac_invocation_id : string;
  ac_provider_request_id : string;
  ac_content_json : string;
  ac_content_fingerprint : string;
  ac_input_fingerprint : string;
  ac_profile_id : string;
  ac_profile_version : string;
  ac_profile_fingerprint : string;
  ac_prompt_fingerprint : string;
  ac_route_fingerprint : string;
  ac_output_validator_version : string;
  ac_safety_validator_version : string;
  ac_assessment_id : string;
  ac_report_id : string;
  ac_source_version : string;
  ac_schema_version : string;
  ac_reference_material : option (string * string);
}.
#[export] Instance ArtifactCandidate_eq_dec : EqDecision ArtifactCandidate.
Proof. solve_decision. Defined.

(** [asdict(candidate)] *)
Definition artifact_definition (a : ArtifactCandidate) : json :=
  JObj ([("id", JStr (ac_id a)); ("session_id", JStr (ac_session_id a));
         ("run_id", JStr (ac_run_id a)); ("evidence_set_id", JStr (ac_evidence_set_id a));
         ("evidence_fingerprint", JStr (ac_evidence_fingerprint a));
         ("invocation_id", JStr (ac_invocation_id a));
         ("provider_request_id", JStr (ac_provider_request_id a));
         ("content_json", JStr (ac_content_json a));
         ("content_fingerprint", JStr (ac_content_fingerprint a));
         ("input_fingerprint", JStr (ac_input_fingerprint a));
         ("profile_id", JStr (ac_profile_id a)); ("profile_version", JStr (ac_profile_version a));
         ("profile_fingerprint", JStr (ac_profile_fingerprint a));
         ("prompt_fingerprint", JStr (ac_prompt_fingerprint a));
         ("route_fingerprint", JStr (ac_route_fingerprint a));
         ("output_validator_version", JStr (ac_output_validator_version a));
         ("safety_validator_version", JStr (ac_safety_validator_version a));
         ("assessment_id", JStr (ac_assessment_id a)); ("report_id", JStr (ac_report_id a));
         ("source_version", JStr (ac_source_version a));
         ("schema_version", JStr (ac_schema_version a))]
        ++ match ac_reference_material a with
           | Some (material, fp) =>
             [("reference_material_json", JStr material);
              ("reference_material_fingerprint", JStr fp)]
           | None => []
           end)%list.

Record WorkflowResult : Type := mk_WorkflowResult {
  wr_checkpoint_ref : string;
  wr_question : option string;
  wr_can_skip : bool;
  wr_failure_code : option string;
  wr_artifact : option ArtifactCandidate;
}.

(** What [claim_in] staged. *)
Inductive ClaimStage : Type :=
| Miss
| Deferred
| Exhausted
| Claimed (claim : Claim).

(** [timestampadd(SECOND, ttl, utc_timestamp(6))] *)
Definition expiry (ttl_seconds now : Z) : Z := now + ttl_seconds * 1000000.

Definition eligible (now : Z) (job : JobRow) : bool :=
  ((j_status job == "queued") && (j_available_at job <=? now))
  || ((j_status job == "leased")
      && match j_lease_until job with Some t => t <=? now | None => false end).

Section execution.
Context {G : Type}.
Context (participant_policy : Z → G → res (ParticipantCapacityPolicy * json)).
(** [validate_generation] and the artifact it rebuilds: they compile the accepted publication,
    read the evidence and decode the frozen request. *)
Context (validate_generation : Session → option EvidenceSet → string → Tables G → res unit).
Context (expected_artifact :
  Claim → Session → EvidenceSet → CallRow → Tables G → res ArtifactCandidate).
Notation DB := (Tables G).

(** [_guard]: the session, when the claim still owns it. *)
Definition guard (now : Z) (claim : Claim) : tx DB Session := λ db,
  let id := s_id (cl_session claim) in
  match t_sessions db !! id with
  | None => (Err NotFound, db)
  | Some row =>
    let session := session_from id row in
    match t_jobs db !! cl_job_id claim, t_leases db !! id with
    | Some job, Some lease =>
      ((raise_if ((s_status session != RUNNING)
                  || (s_active_run_id session != Some (cl_run_id claim))
                  || (s_version session != s_version (cl_session claim))
                  || (j_status job != "leased")
                  || (j_fence_token job != cl_fence claim)
                  || (l_fence lease != cl_fence claim)
                  || negb (now <? l_expires_at lease))
          (LeaseLost "Execution lease no longer owns this session") ;;
        Ok session), db)
    | _, _ => (Err NoResultFound, db)
    end
  end.

Definition check_active (now : Z) (claim : Claim) : tx DB unit := λ db,
  (raise_if (match t_leases db !! s_id (cl_session claim) with
             | Some lease => negb ((l_fence lease == cl_fence claim) && (now <? l_expires_at lease))
             | None => true
             end)
     (LeaseLost "Execution lease expired before commit"), db).

(** The row of the session's evidence: [session_id] is unique. *)
Definition evidence_of (session_id : string) (db : DB) : option EvidenceSet :=
  head (filter (λ e, of_session session_id e = true) ((map_to_list (t_evidence db)).*2)).

Definition frozen_request (claim : Claim) (session : Session) (org : Z) (row : RetryRow) : bool :=
  (pr_run_id row == cl_run_id claim) && (pr_session_id row == s_id session)
  && (pr_organization_id row == org).

Definition call_of (row : CallRow) : ModelCall :=
  mk_ModelCall (c_invocation_id row) (c_status row) (c_request_json row) (c_response_json row)
    (c_failure_code row).

(** [except ConfigurationUnavailable: raise ProviderFailure("configuration_invalid")] *)
Definition generation_refusal (m : res unit) : res unit :=
  match m with
  | Err (ConfigurationUnavailable _) => Err (ProviderFailure "configuration_invalid" false false)
  | m => m
  end.

(** [begin_model_call]: the marker of the call and whether this transaction created it. *)
Definition begin_model_call (now later : Z) (identity : string) (claim : Claim)
    (request_json : string) : tx DB (ModelCall * bool) :=
  session ← guard now claim;
  db ← get_db;
  let row := t_calls db !! cl_run_id claim in
  request_json ← (match row with
                  | Some _ => mret request_json
                  | None =>
                    org ← lift (int_of (org_id (s_actor session)));
                    mret (default request_json
                            (head (filter (λ r, frozen_request claim session org r = true)
                                     (t_retries db)) ≫= pr_frozen_request_json))
                  end);
  (if uses_published_snapshot session then
     lift (generation_refusal
             (validate_generation session (evidence_of (s_id session) db)
                (from_option c_request_json request_json row) db))
   else mret tt) ;;
  match row with
  | Some row => mret (call_of row, false)
  | None =>
    let call := mk_CallRow identity (cl_fence claim) "dispatched" request_json None None in
    insert_row t_calls set_calls (cl_run_id claim) call
      (λ db, is_some (t_runs db !! cl_run_id claim)
             && negb (existsb (λ c, c_invocation_id c == identity) ((map_to_list (t_calls db)).*2))) ;;
    check_active later claim ;;
    mret (call_of call, true)
  end.

(** [has_model_call] *)
Definition has_model_call (now : Z) (claim : Claim) : tx DB bool :=
  guard now claim ;;
  db ← get_db;
  mret (is_some (t_calls db !! cl_run_id claim)).

Definition answered (status : string) (response failure : option string) (row : CallRow) : CallRow :=
  mk_CallRow (c_invocation_id row) (c_fence_token row) status (c_request_json row) response failure.

Definition record_model_response (now later : Z) (claim : Claim) (invocation_id : string)
    (response_json failure_code : option string) (result_unknown : bool) : tx DB unit :=
  lift (raise_if (Bool.eqb (is_none response_json) (is_none failure_code))
          (ValueError "Exactly one response or failure is required")) ;;
  guard now claim ;;
  db ← get_db;
  match t_calls db !! cl_run_id claim with
  | None => lift (Err NoResultFound)
  | Some row =>
    lift (raise_if ((c_invocation_id row != invocation_id)
                    || (c_fence_token row != cl_fence claim)
                    || (c_status row != "dispatched"))
            (LeaseLost "Model call no longer belongs to this dispatch")) ;;
    let status := match response_json with
                  | Some _ => "response_received"
                  | None => if result_unknown then "unknown" else "failed"
                  end in
    modify (λ db, set_calls (alter (answered status response_json failure_code) (cl_run_id claim)
                               (t_calls db)) db) ;;
    check_active later claim
  end.

(** [claim_candidates]: the due jobs, oldest first, at most twenty. *)
Definition due_before (a b : string * JobRow) : bool :=
  (j_available_at a.2 <? j_available_at b.2)
  || ((j_available_at a.2 =? j_available_at b.2) && String.leb a.1 b.1).
Fixpoint insert_due (x : string * JobRow) (l : list (string * JobRow)) : list (string * JobRow) :=
  match l with
  | [] => [x]
  | y :: l => if due_before x y then x :: y :: l else y :: insert_due x l
  end.
Definition claim_candidates (now : Z) (db : DB) : list (string * string) :=
  (λ jr, (jr.1, j_session_id jr.2)) <$>
    take 20 (foldr insert_due [] (filter (λ jr, eligible now jr.2 = true) (map_to_list (t_jobs db)))).

Definition set_job_status (status : string) (job : JobRow) : JobRow :=
  mk_JobRow (j_run_id job) (j_session_id job) status (j_available_at job) (j_lease_until job)
    (j_fence_token job) (j_attempt job) (j_answer job) (j_skipped job) (j_question_id job).
Definition defer_job (available_at : Z) (job : JobRow) : JobRow :=
  mk_JobRow (j_run_id job) (j_session_id job) (j_status job) available_at (j_lease_until job)
    (j_fence_token job) (j_attempt job) (j_answer job) (j_skipped job) (j_question_id job).
Definition lease_job (fence until : Z) (job : JobRow) : JobRow :=
  mk_JobRow (j_run_id job) (j_session_id job) "leased" (j_available_at job) (Some until) fence
    (j_attempt job + 1) (j_answer job) (j_skipped job) (j_question_id job).
Definition renew_job (until : Z) (job : JobRow) : JobRow :=
  mk_JobRow (j_run_id job) (j_session_id job) (j_status job) (j_available_at job) (Some until)
    (j_fence_token job) (j_attempt job) (j_answer job) (j_skipped job) (j_question_id job).
Definition update_job (f : JobRow → JobRow) (job_id : string) : tx DB unit :=
  modify (λ db, set_jobs (alter f job_id (t_jobs db)) db).
Definition set_run_status (status : string) (version : option Z) (run : RunRow) : RunRow :=
  mk_RunRow (rr_session_id run) (default (rr_session_version run) version) status
    (rr_checkpoint_ref run).
Definition update_run_row (f : RunRow → RunRow) (run_id : string) : tx DB unit :=
  modify (λ db, set_runs (alter f run_id (t_runs db)) db).
Definition update_lease (f : LeaseRow → LeaseRow) (thread_id : string) : tx DB unit :=
  modify (λ db, set_leases (alter f thread_id (t_leases db)) db).

(** The third crash blocks the session: [job["attempt"] >= 3]. *)
Definition exhaust (settings : UowSettings) (job_id : string) (job : JobRow) (session : Session)
    : tx DB ClaimStage :=
  session ← lift (running session);
  session ← lift (block session "attempts_exhausted");
  sql_save settings session ;;
  update_job (set_job_status "dead") job_id ;;
  update_run_row (set_run_status "blocked" None) (j_run_id job) ;;
  update_lease (fence_off (u_now settings)) (s_id session) ;;
  (if uses_qs_snapshot session then release session (u_at settings) else mret tt) ;;
  mret Exhausted.

(** The lease is expired and the capacity acquired: the claim takes the next fence. *)
Definition take_lease (settings : UowSettings) (ttl_seconds : Z) (job_id : string) (job : JobRow)
    (session : Session) (lease : LeaseRow) : tx DB ClaimStage :=
  let fence := l_fence lease + 1 in
  let until := expiry ttl_seconds (u_now settings) in
  session ← lift (running session);
  sql_save settings session ;;
  update_lease (λ _, mk_LeaseRow fence until) (s_id session) ;;
  update_job (lease_job fence until) job_id ;;
  update_run_row (set_run_status "running" (Some (s_version session))) (j_run_id job) ;;
  mret (Claimed (mk_Claim job_id (j_run_id job) session fence (j_answer job) (j_skipped job)
                   (j_question_id job))).

Definition claim_in (settings : UowSettings) (ttl_seconds : Z) (job_id session_id : string)
    : tx DB ClaimStage :=
  let now := u_now settings in
  lift (raise_if (ttl_seconds <? 3) (ValueError "Lease TTL must be at least three seconds")) ;;
  db ← get_db;
  match t_sessions db !! session_id, t_jobs db !! job_id with
  | Some row, Some job =>
    let session := session_from session_id row in
    if negb (eligible now job) then mret Miss
    else if (s_active_run_id session != Some (j_run_id job))
            || (s_status session not_in [QUEUED; RUNNING]) then mret Miss
    else if 3 <=? j_attempt job then exhaust settings job_id job session
    else
      modify (λ db, match t_leases db !! session_id with
                    | Some _ => db
                    | None => set_leases (<[session_id := mk_LeaseRow 0 now]> (t_leases db)) db
                    end) ;;
      db ← get_db;
      match t_leases db !! session_id with
      | None => lift (Err NoResultFound)
      | Some lease =>
        if now <? l_expires_at lease then mret Miss
        else
          acquired ← (if uses_qs_snapshot session
                      then acquire participant_policy session (u_at settings) else mret true);
          if (acquired : bool) then take_lease settings ttl_seconds job_id job session lease
          else update_job (defer_job (expiry 1 now)) job_id ;; mret Deferred
      end
  | _, _ => mret Miss
  end.

(** [claim]: the candidates in order; a deferral is committed before the next candidate. *)
Fixpoint claim_loop (settings : string → UowSettings) (ttl_seconds : Z)
    (candidates : list (string * string)) (committed working : DB) : res (option Claim) * DB :=
  match candidates with
  | [] => (Ok None, committed)
  | (job_id, session_id) :: rest =>
    match claim_in (settings job_id) ttl_seconds job_id session_id working with
    | (Err e, _) => (Err e, committed)
    | (Ok Miss, db) => claim_loop settings ttl_seconds rest committed db
    | (Ok Deferred, db) => claim_loop settings ttl_seconds rest db db
    | (Ok Exhausted, db) => (Ok None, db)
    | (Ok (Claimed claim), db) => (Ok (Some claim), db)
    end
  end.

Definition claim (settings : string → UowSettings) (ttl_seconds now : Z) (db : DB)
    : res (option Claim) * DB :=
  if ttl_seconds <? 3 then (Err (ValueError "Lease TTL must be at least three seconds"), db)
  else claim_loop settings ttl_seconds (claim_candidates now db) db db.

Definition renew (now : Z) (claim : Claim) (ttl_seconds : Z) : tx DB unit :=
  lift (raise_if (ttl_seconds <? 3) (ValueError "Lease TTL must be at least three seconds")) ;;
  guard now claim ;;
  update_lease (λ l, mk_LeaseRow (l_fence l) (expiry ttl_seconds now)) (s_id (cl_session claim)) ;;
  update_job (renew_job (expiry ttl_seconds now)) (cl_job_id claim).

(** [evidence] *)
Definition read_evidence (now : Z) (claim : Claim) : tx DB (option EvidenceSet) :=
  guard now claim ;;
  db ← get_db;
  mret (evidence_of (s_id (cl_session claim)) db).

Definition validate_finish (result : WorkflowResult) : res unit :=
  raise_if (is_some (wr_artifact result)
            && (is_some (wr_question result)
                || match wr_failure_code result with Some c => nonempty c | None => false end))
    (ValueError "Artifact cannot accompany a question or failure") ;;
  raise_if (match wr_question result with
            | Some q => negb (has_text q) || negb (nonempty (wr_checkpoint_ref result))
                        || is_some (wr_failure_code result)
            | None => false
            end)
    (ValueError "Question must have a durable checkpoint and no failure").

(** [json.loads(call["response_json"])["request_id"]] *)
Definition response_request_id (call : CallRow) : res json :=
  match c_response_json call with
  | None => Err TypeError
  | Some raw => v ← loads raw; json_item v "request_id"
  end.

(** The result must be the one of the durable call of this run. *)
Definition check_artifact (claim : Claim) (session : Session) (evidence : option EvidenceSet)
    (call : CallRow) (candidate : ArtifactCandidate) : res unit :=
  raise_ifM (Ok (ac_session_id candidate != s_id session)
             <orM> Ok (ac_run_id candidate != cl_run_id claim)
             <orM> Ok (match evidence with
                       | None => true
                       | Some e => (ac_evidence_set_id candidate != es_id e)
                                   || (ac_evidence_fingerprint candidate != es_fingerprint e)
                       end)
             <orM> Ok (c_status call != "response_received")
             <orM> Ok (ac_invocation_id candidate != c_invocation_id call)
             <orM> ((λ v, negb (json_eqb (JStr (ac_provider_request_id candidate)) v))
                      <$> response_request_id call)
             <orM> Ok (ac_content_fingerprint candidate
                       != ("sha256:" ++ sha256_hex (ac_content_json candidate))))
    (ValueError "Artifact does not match the durable execution").

Definition save_artifact (claim : Claim) (session : Session) (candidate : ArtifactCandidate)
    : tx DB Session :=
  db ← get_db;
  let evidence := evidence_of (s_id session) db in
  match t_calls db !! cl_run_id claim with
  | None => lift (Err NoResultFound)
  | Some call =>
    lift (check_artifact claim session evidence call candidate) ;;
    (if uses_published_snapshot session then
       lift (validate_generation session evidence (c_request_json call) db) ;;
       expected ← lift (match evidence with
                        | Some e => expected_artifact claim session e call db
                        | None => Err (ConfigurationUnavailable "Accepted evidence missing")
                        end);
       lift (raise_if (candidate != expected)
               (ValueError "Artifact differs from accepted publication and response"))
     else mret tt) ;;
    let payload := artifact_definition candidate in
    raw ← lift (dumps_with spaced payload);
    lift (raise_if (131072 <? byte_len raw) (ValueError "Artifact exceeds delivery limit")) ;;
    insert_row t_artifacts set_artifacts (ac_id candidate)
      (mk_ArtifactRow (s_id session) (cl_run_id claim) payload)
      (λ db, is_some (t_runs db !! cl_run_id claim)
             && negb (existsb (λ a, (a_session_id a == s_id session)
                                    || (a_run_id a == cl_run_id claim))
                        ((map_to_list (t_artifacts db)).*2))) ;;
    lift (complete session)
  end.

(** The next question of the session. *)
Definition save_question (question_id : string) (session : Session) (text : string)
    (can_skip : bool) : tx DB Session :=
  db ← get_db;
  let asked := filter (λ r, q_session_id (qr_question r) = s_id session)
                 ((map_to_list (t_questions db)).*2) in
  let seq := len asked + 1 in
  insert_row t_questions set_questions question_id
    (mk_QuestionRow (mk_Question question_id (s_id session) text can_skip None false None) seq None)
    (λ _, negb (existsb (λ r, qr_seq r == seq) asked)) ;;
  lift (await_answer session question_id).

Definition finish_in (settings : UowSettings) (later : Z) (question_id : string) (claim : Claim)
    (result : WorkflowResult) : tx DB unit :=
  lift (validate_finish result) ;;
  session ← guard (u_now settings) claim;
  session ← (match wr_artifact result, wr_question result with
             | Some candidate, _ => save_artifact claim session candidate
             | None, Some text => save_question question_id session text (wr_can_skip result)
             | None, None =>
               lift (block session (match wr_failure_code result with
                                    | Some c => if nonempty c then c else "model_not_connected"
                                    | None => "model_not_connected"
                                    end))
             end);
  sql_save settings session ;;
  update_run_row (λ run, mk_RunRow (rr_session_id run) (rr_session_version run)
                           (status_value (s_status session)) (Some (wr_checkpoint_ref result)))
    (cl_run_id claim) ;;
  update_job (set_job_status "done") (cl_job_id claim) ;;
  check_active later claim ;;
  update_lease (λ l, mk_LeaseRow (l_fence l) later) (s_id session) ;;
  (if uses_qs_snapshot session then release session (u_at settings) else mret tt).

(** [finish]: validated before the transaction that commits it. *)
Definition commit {A} (body : tx DB A) (db : DB) : res A * DB :=
  match body db with
  | (Ok a, db') => (Ok a, db')
  | (Err e, _) => (Err e, db)
  end.
End execution.
Local Close Scope py_scope.

(** ** Lemmas *)

(** The parts of the database that decide who owns an execution. *)
Definition lease_part {G} (db : Tables G) := (t_leases db, t_jobs db, t_calls db).

Section lemmas.
Context {G : Type}.
Context (participant_policy : Z → G → res (ParticipantCapacityPolicy * json)).
Context (validate_generation : Session → option EvidenceSet → string → Tables G → res unit).
Context (expected_artifact :
  Claim → Session → EvidenceSet → CallRow → Tables G → res ArtifactCandidate).
Notation DB := (Tables G).
Implicit Types (db : DB).

(** The capacity operations write reservations and locks only. *)
Section capacity_keeps.
Context {X : Type} (π : DB → X).
Context (π_reservations : ∀ m db, π (set_reservations m db) = π db).
Context (π_locks : ∀ m db, π (set_locks m db) = π db).

Lemma lock_keeps_part session : keeps π (lock session).
Proof using π_locks. unfold lock. solve_keeps. Qed.

Lemma update_run_part session p f db : π (update_run session p f db) = π db.
Proof using π_reservations. unfold update_run. by destruct (s_active_run_id session). Qed.

Lemma take_slot_keeps session at_ : keeps π (take_slot participant_policy session at_).
Proof using π_reservations.
  intros db. unfold take_slot. rewrite lift_bind. destruct (int_of _) as [org|]; [|done].
  rewrite get_bind, lift_bind. destruct (participant_policy _ _); [|done].
  destruct (fits _ _ _); [|done]. apply update_run_part.
Qed.

Lemma reserve_keeps_part session at_ : keeps π (reserve participant_policy session at_).
Proof using π_reservations π_locks. unfold reserve, lock. solve_keeps. Qed.

Lemma release_keeps_part session at_ : keeps π (release session at_).
Proof using π_reservations π_locks.
  unfold release, lock. solve_keeps. intros db. apply update_run_part.
Qed.

Lemma acquire_keeps session at_ : keeps π (acquire participant_policy session at_).
Proof using π_reservations π_locks.
  unfold acquire. apply keeps_bind; [apply lock_keeps_part|]. intros _.
  apply keeps_bind; [apply keeps_prior|]. intros [row|].
  - apply keeps_if; [apply keeps_ret|]. apply keeps_bind; [apply keeps_lift|].
    intros _. apply take_slot_keeps.
  - intros db. pose proof (reserve_keeps_part session at_ db) as Hr.
    destruct (reserve _ session at_ db) as [[[]|e] db1]; cbn in Hr; rewrite <- Hr.
    + apply take_slot_keeps.
    + destruct e; try done. by destruct (bool_decide _).
Qed.
End capacity_keeps.

Lemma save_Ok settings s db u db' :
  storable s → sql_save settings s db = (Ok u, db') →
  lease_part db' = lease_part db ∧ t_runs db' = t_runs db ∧
  ∀ i, sql_stored db' i
       = if decide (i = s_id s) then (λ _, s) <$> sql_stored db i else sql_stored db i.
Proof.
  intros Hs Hx. destruct u. split; [|split].
  - eapply keeps_Ok in Hx; [exact Hx|]. unfold sql_save, stage_state. solve_keeps.
  - eapply (keeps_Ok t_runs) in Hx; [exact Hx|]. unfold sql_save, stage_state. solve_keeps.
  - by apply sql_save_spec in Hx as [_ ?].
Qed.

Lemma stored_storable db i s : sql_stored db i = Some s → s_id s = i ∧ storable s.
Proof.
  unfold sql_stored. destruct (t_sessions db !! i) as [row|]; [|done]. intros [= <-].
  split; [done|]. apply session_from_storable.
Qed.

(** The lease a claim finds: an absent one is inserted expired, with fence zero. *)
Definition current_lease (now : Z) db (session_id : string) : LeaseRow :=
  default (mk_LeaseRow 0 now) (t_leases db !! session_id).

(** The rows a lease guards, the sessions and the runs. *)
Definition owner_part db := (lease_part db, t_sessions db, t_runs db).

Lemma alter_const {K V} `{Countable K} (m : gmap K V) k v x :
  m !! k = Some x → alter (λ _, v) k m = <[k := v]> m.
Proof.
  intros Hk. apply map_eq. intros i. destruct (decide (i = k)) as [->|].
  - by rewrite lookup_alter_eq, lookup_insert_eq, Hk.
  - by rewrite lookup_alter_ne, lookup_insert_ne.
Qed.

Lemma alter_some {K V} `{Countable K} (m : gmap K V) k f x :
  m !! k = Some x → alter f k m = <[k := f x]> m.
Proof.
  intros Hk. apply map_eq. intros i. destruct (decide (i = k)) as [->|].
  - by rewrite lookup_alter_eq, lookup_insert_eq, Hk.
  - by rewrite lookup_alter_ne, lookup_insert_ne.
Qed.

(** The first lease of a session that has none. *)
Definition with_lease (now : Z) (session_id : string) db : DB :=
  match t_leases db !! session_id with
  | Some _ => db
  | None => set_leases (<[session_id := mk_LeaseRow 0 now]> (t_leases db)) db
  end.

Lemma with_lease_spec now session_id db :
  t_leases (with_lease now session_id db)
    = <[session_id := current_lease now db session_id]> (t_leases db) ∧
  t_jobs (with_lease now session_id db) = t_jobs db ∧
  t_calls (with_lease now session_id db) = t_calls db ∧
  t_sessions (with_lease now session_id db) = t_sessions db ∧
  t_runs (with_lease now session_id db) = t_runs db.
Proof.
  unfold with_lease, current_lease. destruct (t_leases db !! session_id) eqn:E; [|done].
  cbn. by rewrite insert_id.
Qed.

(** A lease that still runs was there before. *)
Lemma with_lease_live now session_id db :
  now < l_expires_at (current_lease now db session_id) → with_lease now session_id db = db.
Proof.
  unfold with_lease, current_lease. destruct (t_leases db !! session_id); [done|]. cbn. lia.
Qed.

(** ** The outcomes of a claim *)

(** The job is due and the session waits for it or was left running it. *)
Record due (now : Z) db (job_id session_id : string) (session : Session) (job : JobRow) : Prop := {
  du_session : sql_stored db session_id = Some session;
  du_job : t_jobs db !! job_id = Some job;
  du_eligible : eligible now job = true;
  du_run : s_active_run_id session = Some (j_run_id job);
  du_status : s_status session = QUEUED ∨ s_status session = RUNNING;
}.

(** The slot of a metered session, taken before the lease. *)
Definition slot_answer (settings : UowSettings) (session_id : string) (session : Session) db
    : res bool * DB :=
  (if uses_qs_snapshot session then acquire participant_policy session (u_at settings)
   else mret true) (with_lease (u_now settings) session_id db).

(** The sessions after [s] was saved. *)
Definition saved (s : Session) db db' : Prop :=
  ∀ i, sql_stored db' i = if decide (i = s_id s) then Some s else sql_stored db i.

(** The job is given up: the session is blocked and the lease ends under a fence nobody holds. *)
Record given_up (settings : UowSettings) (job_id : string) (job : JobRow) (blocked : Session) db db'
    : Prop := {
  gu_leases : t_leases db' = alter (fence_off (u_now settings)) (s_id blocked) (t_leases db);
  gu_jobs : t_jobs db' = alter (set_job_status "dead") job_id (t_jobs db);
  gu_runs : t_runs db' = alter (set_run_status "blocked" None) (j_run_id job) (t_runs db);
  gu_calls : t_calls db' = t_calls db;
  gu_stored : saved blocked db db';
}.

(** The job is put off for a second; a session without a lease has an expired one afterwards. *)
Record put_off (settings : UowSettings) (job_id session_id : string) db db' : Prop := {
  po_leases : t_leases db'
    = <[session_id := current_lease (u_now settings) db session_id]> (t_leases db);
  po_jobs : t_jobs db' = alter (defer_job (expiry 1 (u_now settings))) job_id (t_jobs db);
  po_calls : t_calls db' = t_calls db;
  po_sessions : t_sessions db' = t_sessions db;
  po_runs : t_runs db' = t_runs db;
}.

(** The claim is granted: the next fence, a lease of the requested length on the session and on the
    job, one more attempt, and the run and the session running under a new version. *)
Record granted (settings : UowSettings) (ttl : Z) (job_id session_id : string) (session : Session)
    (job : JobRow) (c : Claim) db db' : Prop := {
  gr_running : running session = Ok (cl_session c);
  gr_id : s_id (cl_session c) = session_id;
  gr_job : cl_job_id c = job_id;
  gr_run : cl_run_id c = j_run_id job;
  gr_input : (cl_answer c, cl_skipped c, cl_question_id c)
             = (j_answer job, j_skipped job, j_question_id job);
  gr_fence : cl_fence c = l_fence (current_lease (u_now settings) db session_id) + 1;
  gr_lease : t_leases db' = <[session_id := mk_LeaseRow (cl_fence c) (expiry ttl (u_now settings))]>
                              (t_leases db);
  gr_jobs : t_jobs db' = alter (lease_job (cl_fence c) (expiry ttl (u_now settings))) job_id
                           (t_jobs db);
  gr_runs : t_runs db' = alter (set_run_status "running" (Some (s_version (cl_session c))))
                           (j_run_id job) (t_runs db);
  gr_calls : t_calls db' = t_calls db;
  gr_stored : saved (cl_session c) db db';
}.

(** What a claim does of the rows it finds; the cases exclude each other. *)
Inductive claim_outcome (settings : UowSettings) (ttl : Z) (job_id session_id : string) db
    : ClaimStage → DB → Prop :=
| nothing_to_claim :
    (∀ session job, due (u_now settings) db job_id session_id session job →
       j_attempt job < 3 ∧
       u_now settings < l_expires_at (current_lease (u_now settings) db session_id)) →
    claim_outcome settings ttl job_id session_id db Miss db
| claim_exhausted session job started blocked db' :
    due (u_now settings) db job_id session_id session job → 3 <= j_attempt job →
    running session = Ok started → block started "attempts_exhausted" = Ok blocked →
    given_up settings job_id job blocked db db' →
    claim_outcome settings ttl job_id session_id db Exhausted db'
| claim_deferred session job db1 db' :
    due (u_now settings) db job_id session_id session job → j_attempt job < 3 →
    l_expires_at (current_lease (u_now settings) db session_id) <= u_now settings →
    slot_answer settings session_id session db = (Ok false, db1) →
    put_off settings job_id session_id db db' →
    claim_outcome settings ttl job_id session_id db Deferred db'
| claim_granted session job c db1 db' :
    due (u_now settings) db job_id session_id session job → j_attempt job < 3 →
    l_expires_at (current_lease (u_now settings) db session_id) <= u_now settings →
    slot_answer settings session_id session db = (Ok true, db1) →
    granted settings ttl job_id session_id session job c db db' →
    claim_outcome settings ttl job_id session_id db (Claimed c) db'.

Lemma due_here now db job_id session_id row job :
  t_sessions db !! session_id = Some row → t_jobs db !! job_id = Some job →
  eligible now job = true →
  ((s_active_run_id (session_from session_id row) != Some (j_run_id job))
   || (s_status (session_from session_id row) not_in [QUEUED; RUNNING]))%py = false →
  due now db job_id session_id (session_from session_id row) job.
Proof.
  intros Hrow Hjob Hel [Hact Hstat]%orb_false_iff. bool_inv. apply elem_of_two in Hstat.
  split; [by unfold sql_stored; rewrite Hrow|done..].
Qed.

(** The rows that are due are the ones the claim reads. *)
Lemma due_rows now db job_id session_id session job :
  due now db job_id session_id session job →
  ∃ row, t_sessions db !! session_id = Some row ∧ session = session_from session_id row ∧
    t_jobs db !! job_id = Some job ∧ eligible now job = true ∧
    ((s_active_run_id session != Some (j_run_id job))
     || (s_status session not_in [QUEUED; RUNNING]))%py = false.
Proof.
  intros [Hs Hj He Hr Hst]. unfold sql_stored in Hs.
  destruct (t_sessions db !! session_id) as [row|]; [|done]. injection Hs as <-. exists row.
  split_and!; try done. apply orb_false_iff. rewrite Hr.
  split; [by rewrite bool_decide_eq_true_2|].
  apply negb_false_iff, bool_decide_eq_true. by apply elem_of_two.
Qed.

Lemma slot_answer_keeps settings session_id session db b db1 :
  slot_answer settings session_id session db = (Ok b, db1) →
  owner_part db1 = owner_part (with_lease (u_now settings) session_id db).
Proof.
  unfold slot_answer. intros H. eapply (keeps_Ok owner_part) in H; [exact H|].
  apply keeps_if; [by apply acquire_keeps|apply keeps_ret].
Qed.

Lemma take_lease_Ok settings ttl job_id job session lease db stage db' :
  storable session → sql_stored db (s_id session) = Some session →
  t_leases db !! s_id session = Some lease →
  take_lease settings ttl job_id job session lease db = (Ok stage, db') →
  ∃ c, stage = Claimed c ∧ granted settings ttl job_id (s_id session) session job c db db'.
Proof.
  intros Hs Hst Hlease. unfold take_lease. rewrite lift_bind.
  destruct (running session) as [session'|] eqn:Hrun; [|done]. rewrite bind_run.
  destruct (sql_save settings session' db) as [[u|e] db1] eqn:Hsave; [|done].
  apply (execute_identity Running) in Hrun as Hid. destruct Hid as (Hid & Ha & Ht & _).
  assert (storable session') as Hs' by (unfold storable; by rewrite Ha, Ht).
  apply (save_Ok _ _ _ _ _ Hs') in Hsave as ([= Hl Hj Hc] & Hr & Hstored).
  intros Hx. unfold update_lease, update_job, update_run_row in Hx.
  do 3 (rewrite bind_run in Hx; cbn beta iota delta [modify] in Hx).
  injection Hx as <- <-. eexists. split; [done|].
  split; cbn; unfold current_lease; rewrite ?Hlease, ?Hl, ?Hj, ?Hc, ?Hr, ?Hid; try done.
  - by apply (alter_const _ _ _ lease).
  - intros i. unfold sql_stored in *. cbn. rewrite Hstored, Hid.
    destruct (decide (i = s_id session)) as [->|]; [|done]. by rewrite Hst.
Qed.

(** The first lease makes no difference to what a claim grants. *)
Lemma granted_from settings ttl job_id session_id session job c db db1 db' :
  owner_part db1 = owner_part (with_lease (u_now settings) session_id db) →
  granted settings ttl job_id session_id session job c db1 db' →
  granted settings ttl job_id session_id session job c db db'.
Proof.
  destruct (with_lease_spec (u_now settings) session_id db) as (Hl & Hj & Hc & Hs & Hr).
  intros [= El Ej Ec Es Er] [? ? ? ? ? Hf Gl Gj Gr Gc Gs].
  assert (current_lease (u_now settings) db1 session_id = current_lease (u_now settings) db session_id)
    as Hcur by (unfold current_lease at 1; by rewrite El, Hl, lookup_insert_eq).
  split; try done; [by rewrite Hf, Hcur|rewrite Gl|rewrite Gj|rewrite Gr|rewrite Gc|];
    try congruence.
  - by rewrite El, Hl, insert_insert_eq.
  - intros i. rewrite Gs. unfold sql_stored. by rewrite Es, Hs.
Qed.

Lemma exhaust_effect settings job_id job session db o db' :
  storable session → sql_stored db (s_id session) = Some session →
  exhaust settings job_id job session db = (Ok o, db') →
  o = Exhausted ∧ ∃ started blocked, running session = Ok started ∧
    block started "attempts_exhausted" = Ok blocked ∧ given_up settings job_id job blocked db db'.
Proof.
  intros Hs Hst. unfold exhaust. rewrite lift_bind.
  destruct (running session) as [s1|] eqn:Hrun; [|done]. rewrite lift_bind.
  destruct (block s1 _) as [s2|] eqn:Hblock; [|done]. rewrite bind_run.
  destruct (sql_save settings s2 db) as [[u|e] db1] eqn:Hsave; [|done].
  apply (execute_identity Running) in Hrun as Hi1. destruct Hi1 as (Hid1 & Ha1 & Ht1 & _).
  apply (execute_identity (Block _)) in Hblock as Hi2. destruct Hi2 as (Hid2 & Ha2 & Ht2 & _).
  assert (storable s2) as Hs2 by (unfold storable; by rewrite Ha2, Ht2, Ha1, Ht1).
  apply (save_Ok _ _ _ _ _ Hs2) in Hsave as ([= Hl Hj Hc] & Hr & Hstored).
  intros Hx. unfold update_lease, update_job, update_run_row in Hx.
  do 3 (rewrite bind_run in Hx; cbn beta iota delta [modify] in Hx).
  apply tx_bind_Ok in Hx as (u3 & db3 & Hrel & Hx).
  apply (keeps_Ok owner_part) in Hrel as [= Hl3 Hj3 Hc3 Hs3 Hr3].
  2: { apply keeps_if; [by apply release_keeps_part|apply keeps_ret]. }
  apply ret_Ok in Hx as [<- <-]. split; [done|]. exists s1, s2. split_and!; [done..|].
  split; rewrite ?Hl3, ?Hj3, ?Hc3, ?Hr3; cbn; rewrite ?Hl, ?Hj, ?Hr; try done.
  intros i. unfold sql_stored. rewrite Hs3. cbn. fold (sql_stored db1 i). rewrite Hstored, Hid2, Hid1.
  destruct (decide (i = s_id session)) as [->|]; [by rewrite Hst|done].
Qed.

(** Whether a job is due can be decided from the two rows. *)
Lemma due_or_not now db job_id session_id :
  (∃ session job, due now db job_id session_id session job) ∨
  (∀ session job, ¬ due now db job_id session_id session job).
Proof.
  destruct (t_sessions db !! session_id) as [row|] eqn:Hrow;
    [|right; intros s j (? & ? & _)%due_rows; congruence].
  destruct (t_jobs db !! job_id) as [job|] eqn:Hjob;
    [|right; intros s j (? & _ & _ & ? & _)%due_rows; congruence].
  destruct (eligible now job) eqn:Hel;
    [|right; intros s j (? & _ & _ & ? & ? & _)%due_rows; congruence].
  destruct ((s_active_run_id (session_from session_id row) != Some (j_run_id job))
            || (s_status (session_from session_id row) not_in [QUEUED; RUNNING]))%py eqn:Hst.
  - right. intros s j (r & Hr & -> & Hj & _ & Hd)%due_rows.
    rewrite Hrow in Hr. injection Hr as <-. rewrite Hjob in Hj. injection Hj as <-.
    by rewrite Hst in Hd.
  - left. eauto using due_here.
Qed.

Lemma claim_in_not_due settings ttl job_id session_id db stage db' :
  (∀ session job, ¬ due (u_now settings) db job_id session_id session job) →
  claim_in participant_policy settings ttl job_id session_id db = (Ok stage, db') →
  stage = Miss ∧ db' = db.
Proof.
  intros Hn. unfold claim_in. rewrite lift_bind. destruct (raise_if _ _) as [[]|]; [|done].
  rewrite get_bind. destruct (t_sessions db !! session_id) as [row|] eqn:Hrow; [|by intros [= <- <-]].
  destruct (t_jobs db !! job_id) as [job|] eqn:Hjob; [|by intros [= <- <-]].
  destruct (eligible _ job) eqn:Hel; [|by intros [= <- <-]]. cbn [negb].
  destruct (_ || _) eqn:Hst; [by intros [= <- <-]|].
  destruct (Hn (session_from session_id row) job). by apply due_here.
Qed.

(** The guards of a job that is due: its attempts, its lease and its slot, in this order. *)
Lemma claim_in_due settings ttl job_id session_id session job db :
  due (u_now settings) db job_id session_id session job → 3 <= ttl →
  claim_in participant_policy settings ttl job_id session_id db
  = if 3 <=? j_attempt job then exhaust settings job_id job session db
    else if u_now settings <? l_expires_at (current_lease (u_now settings) db session_id)
    then (Ok Miss, with_lease (u_now settings) session_id db)
    else match slot_answer settings session_id session db with
         | (Ok true, db1) =>
           take_lease settings ttl job_id job session
             (current_lease (u_now settings) db session_id) db1
         | (Ok false, db1) =>
           (Ok Deferred,
            set_jobs (alter (defer_job (expiry 1 (u_now settings))) job_id (t_jobs db1)) db1)
         | (Err e, db1) => (Err e, db1)
         end.
Proof.
  intros (row & Hrow & -> & Hjob & Hel & Hst)%due_rows Httl. unfold claim_in.
  rewrite lift_bind. destruct (raise_if _ _) as [[]|e] eqn:Hr.
  2: { unfold raise_if in Hr. destruct (ttl <? 3) eqn:E; [apply Z.ltb_lt in E; lia|done]. }
  rewrite get_bind, Hrow, Hjob, Hel, Hst. cbn [negb].
  destruct (3 <=? j_attempt job); [done|]. rewrite bind_run. cbn beta iota delta [modify].
  rewrite get_bind. fold (with_lease (u_now settings) session_id db).
  destruct (with_lease_spec (u_now settings) session_id db) as (Hl0 & _).
  rewrite Hl0, lookup_insert_eq. clear Hr.
  destruct (_ <? _); [done|]. rewrite bind_run.
  unfold slot_answer. cbn zeta.
  destruct (uses_qs_snapshot _); [|done]. by destruct (acquire _ _ _ _) as [[[]|e] db1].
Qed.

Lemma claim_in_outcome settings ttl job_id session_id db stage db' :
  claim_in participant_policy settings ttl job_id session_id db = (Ok stage, db') →
  claim_outcome settings ttl job_id session_id db stage db'.
Proof.
  intros Hx. destruct (due_or_not (u_now settings) db job_id session_id) as [(session & job & Hdue)|Hn].
  2: { apply claim_in_not_due in Hx as [-> ->]; [|done]. constructor. by intros s j Hd%Hn. }
  assert (Httl : 3 <= ttl).
  { unfold claim_in in Hx. rewrite lift_bind in Hx. unfold raise_if in Hx.
    destruct (ttl <? 3) eqn:E; [done|]. by apply Z.ltb_ge. }
  rewrite (claim_in_due _ _ _ _ _ _ _ Hdue Httl) in Hx. pose proof Hdue as Hrows.
  apply due_rows in Hrows as (row & Hrow & Hses & Hjob & _).
  assert (storable session) as Hs by (subst session; apply session_from_storable).
  assert (s_id session = session_id) as Hid by by subst session.
  destruct (Z.leb_spec 3 (j_attempt job)).
  { apply exhaust_effect in Hx as (-> & s1 & s2 & H1 & H2 & H3); [|done|rewrite Hid; apply Hdue].
    by eapply claim_exhausted. }
  destruct (Z.ltb_spec (u_now settings) (l_expires_at (current_lease (u_now settings) db session_id))).
  { rewrite with_lease_live in Hx by done. injection Hx as <- <-.
    constructor. intros s j (r & _ & _ & Hj & _)%due_rows. split; [|done]. congruence. }
  destruct (slot_answer settings session_id session db) as [[b|e] db1] eqn:Hslot; [|done].
  pose proof (slot_answer_keeps _ _ _ _ _ _ Hslot) as Hk. pose proof Hk as [= Hl1 Hj1 Hc1 Hs1 Hr1].
  destruct (with_lease_spec (u_now settings) session_id db) as (Hl0 & Hj0 & Hc0 & Hs0 & Hr0).
  destruct b.
  - subst session_id. apply take_lease_Ok in Hx as (c & -> & Hg); [|done|..].
    + eapply claim_granted; eauto. by eapply granted_from.
    + unfold sql_stored. rewrite Hs1, Hs0. apply Hdue.
    + by rewrite Hl1, Hl0, lookup_insert_eq.
  - injection Hx as <- <-. eapply claim_deferred; eauto. split; cbn; congruence.
Qed.

Lemma outcome_granted settings ttl job_id session_id db c db' :
  claim_outcome settings ttl job_id session_id db (Claimed c) db' →
  ∃ session job, granted settings ttl job_id session_id session job c db db'.
Proof. intros Ho. inversion Ho; subst. eauto. Qed.

(** A job that can be claimed is: the previous lease is over, the slot is free and the session can
    be saved. *)
Lemma claim_in_grants settings ttl job_id session_id session job started db db1 db2 :
  3 <= ttl → due (u_now settings) db job_id session_id session job → j_attempt job < 3 →
  l_expires_at (current_lease (u_now settings) db session_id) <= u_now settings →
  slot_answer settings session_id session db = (Ok true, db1) →
  running session = Ok started → sql_save settings started db1 = (Ok tt, db2) →
  ∃ c db', claim_in participant_policy settings ttl job_id session_id db = (Ok (Claimed c), db').
Proof.
  intros Httl Hdue Hatt Hexp Hslot Hrun Hsave. rewrite (claim_in_due _ _ _ _ _ _ _ Hdue Httl), Hslot.
  rewrite (proj2 (Z.leb_gt _ _)), (proj2 (Z.ltb_ge _ _)) by done.
  unfold take_lease. rewrite lift_bind, Hrun, bind_run, Hsave. eauto.
Qed.

(** C15: what a claim does is decided by the rows it finds.  Nothing is written when the job is not
    due, is not the one of the session's active run, or its previous lease still runs; a job with
    three attempts is given up and its session blocked; a session without a free slot is put off by
    a second; otherwise the claim gets the next fence, a lease of the requested length, one more
    attempt, and the run and the session running under a new version.  No other lease, job, run or
    session changes, and no model call.  And a job that can be claimed is claimed. *)
Theorem claim_in_sound settings ttl job_id session_id db :
  (∀ stage db', claim_in participant_policy settings ttl job_id session_id db = (Ok stage, db') →
     claim_outcome settings ttl job_id session_id db stage db') ∧
  (∀ session job started db1 db2,
     3 <= ttl → due (u_now settings) db job_id session_id session job → j_attempt job < 3 →
     l_expires_at (current_lease (u_now settings) db session_id) <= u_now settings →
     slot_answer settings session_id session db = (Ok true, db1) →
     running session = Ok started → sql_save settings started db1 = (Ok tt, db2) →
     ∃ c db', claim_in participant_policy settings ttl job_id session_id db = (Ok (Claimed c), db')).
Proof. split; [apply claim_in_outcome|by eauto using claim_in_grants]. Qed.

Lemma guard_db now c db : (guard now c db).2 = db.
Proof. unfold guard. by repeat case_match. Qed.

(** A claim that still owns its session. *)
Record owns (now : Z) (c : Claim) (s : Session) db : Prop := {
  ow_stored : sql_stored db (s_id (cl_session c)) = Some s;
  ow_status : s_status s = RUNNING;
  ow_run : s_active_run_id s = Some (cl_run_id c);
  ow_version : s_version s = s_version (cl_session c);
  ow_job : ∃ job, t_jobs db !! cl_job_id c = Some job ∧ j_status job = "leased" ∧
             j_fence_token job = cl_fence c;
  ow_lease : ∃ lease, t_leases db !! s_id (cl_session c) = Some lease ∧
               l_fence lease = cl_fence c ∧ now < l_expires_at lease;
}.

Lemma guard_Ok now c db s db' : guard now c db = (Ok s, db') ↔ db' = db ∧ owns now c s db.
Proof.
  split.
  - intros Hx. assert (db' = db) as -> by by rewrite <- (guard_db now c db), Hx.
    split; [done|]. unfold guard in Hx.
    destruct (t_sessions db !! _) as [row|] eqn:Hrow; [|done].
    destruct (t_jobs db !! _) as [job|] eqn:Hjob; [|done].
    destruct (t_leases db !! _) as [lease|] eqn:Hlease; [|done].
    injection Hx as Hx. py_inv. split; try done; eauto. unfold sql_stored. by rewrite Hrow.
  - intros [-> [Hst Hstat Hrun Hv (job & Hj & Hjs & Hjf) (lease & Hl & Hlf & Hle)]].
    unfold guard. unfold sql_stored in Hst. destruct (t_sessions db !! _) as [row|]; [|done].
    cbn in Hst. injection Hst as Hst. rewrite Hj, Hl, Hst, Hstat, Hrun, Hv, Hjs, Hjf, Hlf.
    rewrite !bool_decide_eq_true_2 by done. cbn. by rewrite (proj2 (Z.ltb_lt _ _) Hle).
Qed.

Lemma check_active_Ok now c db u db' :
  check_active now c db = (Ok u, db') → db' = db.
Proof. unfold check_active. by intros [= _ <-]. Qed.

(** The lease of the session is the claim's and runs. *)
Definition holds_lease (now : Z) (c : Claim) db : Prop :=
  ∃ lease, t_leases db !! s_id (cl_session c) = Some lease ∧
    l_fence lease = cl_fence c ∧ now < l_expires_at lease.

Lemma check_active_holds now c db u db' :
  check_active now c db = (Ok u, db') → holds_lease now c db.
Proof.
  unfold check_active, holds_lease. intros [= H _].
  destruct (t_leases db !! _) as [lease|]; [|done]. exists lease. py_inv. by split_and!.
Qed.

(** ** One operation by any worker or any participant *)

Context (plan_configuration : Session → EvidenceSet → DB → res PlannedConfiguration).

Inductive exec_step : DB → DB → Prop :=
| step_claim settings ttl job_id session_id stage db db' :
    claim_in participant_policy settings ttl job_id session_id db = (Ok stage, db') →
    exec_step db db'
| step_begin now later identity c request call db db' :
    begin_model_call validate_generation now later identity c request db
      = (Ok (call, true), db') →
    exec_step db db'
| step_record now later c invocation response failure unknown db db' :
    record_model_response now later c invocation response failure unknown db = (Ok tt, db') →
    exec_step db db'
| step_renew now c ttl db db' :
    renew now c ttl db = (Ok tt, db') → exec_step db db'
| step_finish settings later question_id c result db db' :
    finish_in validate_generation expected_artifact settings later question_id c result db
      = (Ok tt, db') →
    exec_step db db'
| step_change settings authorize run_identity actor id c key o db db' :
    @change DB (mysql_uow participant_policy plan_configuration settings) authorize run_identity
      actor id c key db = (o, db') →
    exec_step db db'
| step_start settings session_identity run_identity evidence_identity actor testee ids goal request
    evidence o db db' :
    @start_external DB (mysql_uow participant_policy plan_configuration settings)
      session_identity run_identity evidence_identity actor testee ids goal request evidence db
      = (o, db') →
    exec_step db db'.

(** Nothing is taken back: fences and versions never decrease, and a model call keeps its identity
    and its request. *)
Record progress db db' : Prop := {
  pr_lease : ∀ i l, t_leases db !! i = Some l →
    ∃ l', t_leases db' !! i = Some l' ∧ l_fence l <= l_fence l';
  pr_calls : ∀ i c, t_calls db !! i = Some c →
    ∃ c', t_calls db' !! i = Some c' ∧ c_invocation_id c' = c_invocation_id c ∧
      c_request_json c' = c_request_json c;
  pr_stored : ∀ i s, sql_stored db i = Some s →
    ∃ s', sql_stored db' i = Some s' ∧ s_version s <= s_version s';
}.

Lemma progress_refl db : progress db db.
Proof. split; eauto with lia. Qed.

Lemma progress_trans db1 db2 db3 : progress db1 db2 → progress db2 db3 → progress db1 db3.
Proof.
  intros [Hl1 Hc1 Hs1] [Hl2 Hc2 Hs2]. split.
  - intros i l (l' & H' & ?)%Hl1. apply Hl2 in H' as (l'' & ? & ?). eauto with lia.
  - intros i x (x' & H' & ? & ?)%Hc1. apply Hc2 in H' as (x'' & ? & ? & ?).
    exists x''. split; [done|split; congruence].
  - intros i x (x' & H' & ?)%Hs1. apply Hs2 in H' as (x'' & ? & ?). eauto with lia.
Qed.

#[local] Instance progress_preorder : PreOrder progress.
Proof. split; [exact progress_refl|exact progress_trans]. Qed.

(** A computation that makes progress, raising or not. *)
Definition advances {A} (m : tx DB A) : Prop := ∀ db, progress db (m db).2.

Lemma advances_bind {A B} (m : tx DB A) (f : A → tx DB B) :
  advances m → (∀ a, advances (f a)) → advances (m ≫= f).
Proof.
  intros Hm Hf db. rewrite bind_run. specialize (Hm db).
  destruct (m db) as [[a|e] db']; [|done]. etrans; [exact Hm|apply Hf].
Qed.

Lemma same_progress db db' :
  t_leases db' = t_leases db → t_calls db' = t_calls db →
  (∀ i, sql_stored db' i = sql_stored db i) → progress db db'.
Proof. intros Hl Hc Hs. split; rewrite ?Hl, ?Hc; setoid_rewrite Hs || idtac; eauto with lia. Qed.

Definition progress_part db := (t_leases db, t_calls db, t_sessions db).

Lemma keeps_advances {A} (m : tx DB A) : keeps progress_part m → advances m.
Proof.
  intros Hm db. specialize (Hm db). injection Hm as Hl Hc Hs.
  apply same_progress; [done|done|]. intros i. unfold sql_stored. by rewrite Hs.
Qed.

(** The marker of a call: created once, or found with its original identity and request. *)
Lemma begin_effect now later identity c request db call created db' :
  begin_model_call validate_generation now later identity c request db
    = (Ok (call, created), db') →
  (∃ s, owns now c s db) ∧
  if created then
    t_calls db !! cl_run_id c = None ∧
    ∃ row, call = call_of row ∧ c_invocation_id row = identity ∧ c_status row = "dispatched" ∧
      c_fence_token row = cl_fence c ∧
      db' = set_calls (<[cl_run_id c := row]> (t_calls db)) db
  else ∃ row, t_calls db !! cl_run_id c = Some row ∧ call = call_of row ∧ db' = db.
Proof.
  unfold begin_model_call. intros Hx.
  apply tx_bind_Ok in Hx as (s & db1 & Hg & Hx). apply guard_Ok in Hg as [-> Hown].
  split; [by exists s|]. rewrite get_bind in Hx.
  apply tx_bind_Ok in Hx as (req & db2 & Hreq & Hx).
  assert (db2 = db) as ->.
  { destruct (t_calls db !! _); [by apply ret_Ok in Hreq as [_ ->]|].
    apply tx_bind_Ok in Hreq as (org & db3 & Ho & Hreq). apply lift_Ok in Ho as [_ ->].
    by apply ret_Ok in Hreq as [_ ->]. }
  apply tx_bind_Ok in Hx as (u & db3 & Hv & Hx).
  assert (db3 = db) as ->.
  { destruct (uses_published_snapshot s); [by apply lift_Ok in Hv as [_ ->]|].
    by apply ret_Ok in Hv as [_ ->]. }
  destruct (t_calls db !! cl_run_id c) as [row|] eqn:Hrow.
  { apply ret_Ok in Hx as [[= <- <-] <-]. eauto. }
  apply tx_bind_Ok in Hx as (u2 & db4 & Hins & Hx).
  apply tx_bind_Ok in Hx as (u3 & db5 & Hact & Hx). apply check_active_Ok in Hact as ->.
  apply ret_Ok in Hx as [[= <- <-] <-]. unfold insert_row in Hins.
  destruct (_ && _) in Hins; [|done]. injection Hins as _ <-. split; [done|].
  eexists. by split_and!.
Qed.

Lemma record_effect now later c invocation response failure unknown db u db' :
  record_model_response now later c invocation response failure unknown db = (Ok u, db') →
  (∃ s, owns now c s db) ∧
  ∃ row status, t_calls db !! cl_run_id c = Some row ∧ c_invocation_id row = invocation ∧
    c_status row = "dispatched" ∧ c_fence_token row = cl_fence c ∧
    db' = set_calls (alter (answered status response failure) (cl_run_id c) (t_calls db)) db.
Proof.
  unfold record_model_response. intros Hx.
  apply tx_bind_Ok in Hx as (u1 & db1 & Hr & Hx). apply lift_Ok in Hr as [_ ->].
  apply tx_bind_Ok in Hx as (s & db2 & Hg & Hx). apply guard_Ok in Hg as [-> Hown].
  split; [by exists s|]. rewrite get_bind in Hx.
  destruct (t_calls db !! cl_run_id c) as [row|] eqn:Hrow; [|done].
  apply tx_bind_Ok in Hx as (u2 & db3 & Hr & Hx). apply lift_Ok in Hr as [Hr ->]. py_inv.
  rewrite bind_run in Hx. cbn beta iota delta [modify] in Hx.
  apply check_active_Ok in Hx as ->. exists row. eexists. by split_and!.
Qed.

Lemma renew_effect now c ttl db u db' :
  renew now c ttl db = (Ok u, db') →
  (∃ s, owns now c s db) ∧
  db' = set_jobs (alter (renew_job (expiry ttl now)) (cl_job_id c) (t_jobs db))
          (set_leases (alter (λ l, mk_LeaseRow (l_fence l) (expiry ttl now))
                         (s_id (cl_session c)) (t_leases db)) db).
Proof.
  unfold renew. intros Hx.
  apply tx_bind_Ok in Hx as (u1 & db1 & Hr & Hx). apply lift_Ok in Hr as [_ ->].
  apply tx_bind_Ok in Hx as (s & db2 & Hg & Hx). apply guard_Ok in Hg as [-> Hown].
  split; [by exists s|]. unfold update_lease, update_job in Hx. rewrite bind_run in Hx.
  cbn beta iota delta [modify] in Hx. by injection Hx as _ <-.
Qed.

(** The transition a result makes of the session. *)
Definition finishing (session session' : Session) : Prop :=
  execute Complete session = Ok session' ∨ (∃ q, execute (AwaitAnswer q) session = Ok session') ∨
  ∃ code, execute (Block code) session = Ok session'.

Lemma finishing_spec s s' :
  finishing s s' →
  s_id s' = s_id s ∧ (storable s → storable s') ∧ s_version s' = s_version s + 1 ∧
  s_status s' ≠ RUNNING.
Proof.
  intros Hf. assert (∃ cmd, execute cmd s = Ok s') as [cmd Hx]
    by (destruct Hf as [?|[[? ?]|[? ?]]]; eauto).
  assert (s_status s' ≠ RUNNING) as Hst.
  { destruct Hf as [H|[[? H]|[? H]]]; apply execute_Ok in H as [_ ->]; done. }
  apply execute_version in Hx as Hv. apply execute_identity in Hx as (Hid & Ha & Ht & _).
  split_and!; try done. unfold storable. by rewrite Ha, Ht.
Qed.

(** What a participant sees of a result. *)
Definition result_part db := (t_artifacts db, t_questions db).

(** The artifact is the one of the durable call of the run, whose response was received. *)
Definition artifact_saved (c : Claim) (s : Session) (a : ArtifactCandidate) db db' : Prop :=
  (∃ call e, t_calls db !! cl_run_id c = Some call ∧ evidence_of (s_id s) db = Some e ∧
     c_status call = "response_received" ∧ ac_invocation_id a = c_invocation_id call ∧
     (ac_session_id a, ac_run_id a, ac_evidence_set_id a) = (s_id s, cl_run_id c, es_id e)) ∧
  t_artifacts db !! ac_id a = None ∧
  result_part db' = (<[ac_id a := mk_ArtifactRow (s_id s) (cl_run_id c) (artifact_definition a)]>
                       (t_artifacts db), t_questions db).

(** The question is the next of the session and waits for its answer. *)
Definition question_saved (q : string) (s : Session) (text : string) (can_skip : bool) db db' : Prop :=
  t_questions db !! q = None ∧
  result_part db'
  = (t_artifacts db,
     <[q := mk_QuestionRow (mk_Question q (s_id s) text can_skip None false None)
              (len (filter (λ r, q_session_id (qr_question r) = s_id s)
                      ((map_to_list (t_questions db)).*2)) + 1) None]> (t_questions db)).

Lemma check_artifact_Ok c s evidence call a :
  check_artifact c s evidence call a = Ok tt →
  ∃ e, evidence = Some e ∧ c_status call = "response_received" ∧
    ac_invocation_id a = c_invocation_id call ∧
    (ac_session_id a, ac_run_id a, ac_evidence_set_id a) = (s_id s, cl_run_id c, es_id e).
Proof.
  unfold check_artifact. destruct evidence as [e|]; intros H; py_inv; [|done].
  exists e. split_and!; congruence.
Qed.

Lemma save_artifact_Ok c session candidate db session' db' :
  save_artifact validate_generation expected_artifact c session candidate db = (Ok session', db') →
  execute Complete session = Ok session' ∧ owner_part db' = owner_part db ∧
  artifact_saved c session candidate db db'.
Proof.
  unfold save_artifact. intros Hx. rewrite get_bind in Hx.
  destruct (t_calls db !! _) as [call|] eqn:Hcall; [|done].
  apply tx_bind_Ok in Hx as ([] & db1 & Hr & Hx). apply lift_Ok in Hr as [Hcheck ->].
  apply check_artifact_Ok in Hcheck as (e & ? & ? & ? & ?).
  apply tx_bind_Ok in Hx as (u2 & db2 & Hv & Hx).
  assert (db2 = db) as ->.
  { eapply (keeps_Ok id) in Hv; [exact Hv|]. solve_keeps. }
  apply tx_bind_Ok in Hx as (raw & db3 & Hr & Hx). apply lift_Ok in Hr as [_ ->].
  apply tx_bind_Ok in Hx as (u4 & db4 & Hr & Hx). apply lift_Ok in Hr as [_ ->].
  apply tx_bind_Ok in Hx as (u5 & db5 & Hins & Hx). apply lift_Ok in Hx as [Hc ->].
  split; [exact Hc|]. unfold insert_row in Hins. destruct (_ && _) eqn:Hfree in Hins; [|done].
  apply andb_true_iff in Hfree as [Hfree%is_none_true _].
  injection Hins as _ <-. split; [done|]. split; [by do 2 eexists|done].
Qed.

Lemma save_question_Ok q session text can_skip db session' db' :
  save_question q session text can_skip db = (Ok session', db') →
  execute (AwaitAnswer q) session = Ok session' ∧ owner_part db' = owner_part db ∧
  question_saved q session text can_skip db db'.
Proof.
  unfold save_question. intros Hx. rewrite get_bind in Hx.
  apply tx_bind_Ok in Hx as (u5 & db5 & Hins & Hx). apply lift_Ok in Hx as [Hc ->].
  split; [exact Hc|]. unfold insert_row in Hins. destruct (_ && _) eqn:Hfree in Hins; [|done].
  apply andb_true_iff in Hfree as [Hfree%is_none_true _]. by injection Hins as _ <-.
Qed.

(** What a result makes of the session and leaves for the participant. *)
Definition concluded (question_id : string) (c : Claim) (result : WorkflowResult) (s s' : Session)
    db db' : Prop :=
  match wr_artifact result, wr_question result with
  | Some a, _ => execute Complete s = Ok s' ∧ artifact_saved c s a db db'
  | None, Some text =>
    execute (AwaitAnswer question_id) s = Ok s' ∧
    question_saved question_id s text (wr_can_skip result) db db'
  | None, None =>
    (∃ code, execute (Block code) s = Ok s' ∧ code ≠ "" ∧
       (wr_failure_code result = Some code ∨
        default "" (wr_failure_code result) = "" ∧ code = "model_not_connected")) ∧
    result_part db' = result_part db
  end.

(** A committed result: the claim owned the session and its lease still ran before the commit. *)
Record finished (settings : UowSettings) (later : Z) (question_id : string) (c : Claim)
    (result : WorkflowResult) (s s' : Session) db db' : Prop := {
  fi_owner : owns (u_now settings) c s db;
  fi_live : holds_lease later c db;
  fi_result : concluded question_id c result s s' db db';
  fi_version : s_version s' = s_version (cl_session c) + 1;
  fi_stored : saved s' db db';
  fi_leases : t_leases db' = alter (λ l, mk_LeaseRow (l_fence l) later) (s_id s) (t_leases db);
  fi_jobs : t_jobs db' = alter (set_job_status "done") (cl_job_id c) (t_jobs db);
  fi_runs : t_runs db'
    = alter (λ run, mk_RunRow (rr_session_id run) (rr_session_version run)
                      (status_value (s_status s')) (Some (wr_checkpoint_ref result)))
        (cl_run_id c) (t_runs db);
  fi_calls : t_calls db' = t_calls db;
}.

Lemma concluded_finishing question_id c result s s' db db' :
  concluded question_id c result s s' db db' → finishing s s'.
Proof.
  unfold concluded, finishing. destruct (wr_artifact result); [naive_solver|].
  destruct (wr_question result); naive_solver.
Qed.

(** Only what a participant sees of the tables matters to [concluded]. *)
Lemma concluded_same question_id c result s s' db db1 db2 :
  result_part db2 = result_part db1 → concluded question_id c result s s' db db1 →
  concluded question_id c result s s' db db2.
Proof.
  unfold concluded, artifact_saved, question_saved. intros ->.
  destruct (wr_artifact result); [done|]. by destruct (wr_question result).
Qed.

(** The three branches of [finish_in]. *)
Lemma result_effect question_id c result s db s' db' :
  match wr_artifact result, wr_question result with
  | Some candidate, _ => save_artifact validate_generation expected_artifact c s candidate
  | None, Some text => save_question question_id s text (wr_can_skip result)
  | None, None =>
    lift (block s (match wr_failure_code result with
                   | Some c => if nonempty c then c else "model_not_connected"
                   | None => "model_not_connected"
                   end))
  end db = (Ok s', db') →
  concluded question_id c result s s' db db' ∧ owner_part db' = owner_part db.
Proof.
  unfold concluded. destruct (wr_artifact result) as [a|].
  { intros (? & ? & ?)%save_artifact_Ok. by split_and!. }
  destruct (wr_question result) as [text|].
  { intros (? & ? & ?)%save_question_Ok. by split_and!. }
  intros [H ->]%lift_Ok. split; [|done]. split; [|done]. eexists. split; [exact H|].
  destruct (wr_failure_code result) as [[|x l]|]; cbn; auto.
Qed.

Lemma save_results settings s : keeps result_part (sql_save settings s : tx DB unit).
Proof. unfold sql_save, stage_state. solve_keeps. Qed.

Lemma finish_effect settings later question_id c result db u db' :
  finish_in validate_generation expected_artifact settings later question_id c result db
    = (Ok u, db') →
  ∃ s s', finished settings later question_id c result s s' db db'.
Proof.
  unfold finish_in. intros Hx.
  apply tx_bind_Ok in Hx as (u1 & db1 & Hr & Hx). apply lift_Ok in Hr as [_ ->].
  apply tx_bind_Ok in Hx as (s & db2 & Hg & Hx). apply guard_Ok in Hg as [-> Hown].
  apply tx_bind_Ok in Hx as (s' & db3 & Hmid & Hx).
  apply result_effect in Hmid as [Hres Hk]. pose proof Hk as [= Hl3 Hj3 Hc3 Hs3 Hr3].
  pose proof (concluded_finishing _ _ _ _ _ _ _ Hres) as Hfin.
  destruct (finishing_spec _ _ Hfin) as (Hid & Hstor & Hver & _).
  destruct (stored_storable _ _ _ (ow_stored _ _ _ _ Hown)) as [Hid0 Hs0].
  apply tx_bind_Ok in Hx as (u4 & db4 & Hsave & Hx).
  pose proof (keeps_Ok result_part _ _ _ _ (save_results _ _) Hsave) as Hp4.
  apply save_Ok in Hsave as ([= Hl4 Hj4 Hc4] & Hr4 & Hst4); [|auto].
  unfold update_run_row, update_job, update_lease in Hx.
  do 2 (rewrite bind_run in Hx; cbn beta iota delta [modify] in Hx).
  apply tx_bind_Ok in Hx as (u5 & db5 & Hact & Hx).
  pose proof (check_active_holds _ _ _ _ _ Hact) as Hlive. apply check_active_Ok in Hact as ->.
  rewrite bind_run in Hx. cbn beta iota delta [modify] in Hx.
  match type of Hx with context[set_leases ?m ?d] => set (db6 := set_leases m d) in Hx end.
  pose proof (keeps_Ok result_part (if uses_qs_snapshot s' then release s' (u_at settings) else mret tt)
    db6 _ _ ltac:(apply keeps_if; [by apply release_keeps_part|apply keeps_ret]) Hx) as Hp6.
  apply (keeps_Ok owner_part) in Hx as [= Hl6 Hj6 Hc6 Hs6 Hr6].
  2: { apply keeps_if; [by apply release_keeps_part|apply keeps_ret]. }
  exists s, s'. unfold holds_lease in Hlive. cbn in Hlive. rewrite Hl4, Hl3 in Hlive.
  split; rewrite ?Hl6, ?Hj6, ?Hc6, ?Hr6; cbn; rewrite ?Hid, ?Hl4, ?Hj4, ?Hc4, ?Hr4; try congruence.
  - exact Hlive.
  - eapply concluded_same; [|exact Hres]. rewrite Hp6. exact Hp4.
  - by rewrite Hver, (ow_version _ _ _ _ Hown).
  - intros i. unfold sql_stored in *. rewrite Hs6. cbn. rewrite Hst4, Hid, Hs3.
    destruct (decide (i = s_id s)) as [->|]; [|done].
    pose proof (ow_stored _ _ _ _ Hown) as Hst. unfold sql_stored in Hst. rewrite <- Hid0 in Hst.
    by rewrite Hst.
Qed.

Lemma alter_lease_progress f i db db' :
  (∀ l, l_fence l <= l_fence (f l)) → t_leases db' = alter f i (t_leases db) →
  ∀ j l, t_leases db !! j = Some l → ∃ l', t_leases db' !! j = Some l' ∧ l_fence l <= l_fence l'.
Proof.
  intros Hf -> j l Hj. destruct (decide (j = i)) as [->|].
  - rewrite lookup_alter_eq, Hj. by eexists.
  - rewrite lookup_alter_ne by done. eauto with lia.
Qed.

Lemma insert_lease_progress session_id l db db' :
  (∀ l0, t_leases db !! session_id = Some l0 → l_fence l0 <= l_fence l) →
  t_leases db' = <[session_id := l]> (t_leases db) → t_calls db' = t_calls db →
  (∀ i s, sql_stored db i = Some s →
     ∃ s', sql_stored db' i = Some s' ∧ s_version s <= s_version s') →
  progress db db'.
Proof.
  intros Hf Hl Hc Hs. split; [|rewrite Hc; eauto|done]. intros i l0 Hi. rewrite Hl.
  destruct (decide (i = session_id)) as [->|].
  - rewrite lookup_insert_eq. eauto.
  - rewrite lookup_insert_ne by done. eauto with lia.
Qed.

Lemma begin_progress now later identity c request call db db' :
  begin_model_call validate_generation now later identity c request db
    = (Ok (call, true), db') → progress db db'.
Proof.
  intros (_ & Hnone & row & _ & _ & _ & _ & ->)%begin_effect.
  split; [eauto with lia| |unfold sql_stored; eauto with lia].
  intros i x Hi. exists x. cbn. by rewrite lookup_insert_ne by congruence.
Qed.

Lemma record_progress now later c invocation response failure unknown db u db' :
  record_model_response now later c invocation response failure unknown db = (Ok u, db') →
  progress db db'.
Proof.
  intros (_ & row & status & Hrow & _ & _ & _ & ->)%record_effect.
  split; [eauto with lia| |unfold sql_stored; eauto with lia].
  intros i x Hi. cbn. destruct (decide (i = cl_run_id c)) as [->|].
  - rewrite lookup_alter_eq, Hi. by eexists.
  - rewrite lookup_alter_ne by done. eauto.
Qed.

Lemma renew_progress now c ttl db u db' : renew now c ttl db = (Ok u, db') → progress db db'.
Proof.
  intros [_ ->]%renew_effect. split; [|eauto|unfold sql_stored; eauto with lia].
  eapply alter_lease_progress; [|done]. done.
Qed.

(** Versions of sessions only grow when a newer session is saved. *)
Lemma saved_stored s0 s db db' :
  sql_stored db (s_id s) = Some s0 → s_version s0 <= s_version s → saved s db db' →
  ∀ i x, sql_stored db i = Some x → ∃ x', sql_stored db' i = Some x' ∧ s_version x <= s_version x'.
Proof.
  intros Hs Hv Hsaved i x Hi. rewrite Hsaved. destruct (decide (i = s_id s)) as [->|]; [|eauto with lia].
  rewrite Hs in Hi. injection Hi as <-. eauto.
Qed.

Lemma finish_progress settings later question_id c result db u db' :
  finish_in validate_generation expected_artifact settings later question_id c result db
    = (Ok u, db') → progress db db'.
Proof.
  intros (s & s' & [Hown _ Hres Hv Hst Hl _ _ Hc])%finish_effect.
  apply concluded_finishing, finishing_spec in Hres as (Hid' & _ & Hv' & _).
  destruct Hown as [Hs _ _ _ _ _]. destruct (stored_storable _ _ _ Hs) as [Hid _]. split.
  - eapply alter_lease_progress; [|done]. done.
  - rewrite Hc. eauto.
  - eapply saved_stored; [|shelve|exact Hst]. by rewrite Hid', Hid.
    Unshelve. lia.
Qed.

Lemma claim_progress settings ttl job_id session_id stage db db' :
  claim_in participant_policy settings ttl job_id session_id db = (Ok stage, db') → progress db db'.
Proof.
  intros Hx%claim_in_outcome.
  destruct Hx as [|session job s1 s2 db' [Hs _ _ _ _] _ H1 H2 [Hl _ _ Hc Hst]
                 |session job db1 db' _ _ _ _ [Hl _ Hc Hs _]
                 |session job c db1 db' [Hs _ _ _ _] _ _ _ [Hrun Hid _ _ _ Hf Hl _ _ Hc Hst]].
  - apply progress_refl.
  - apply (execute_version Running) in H1 as Hv1. apply (execute_identity Running) in H1 as [Hi1 _].
    apply (execute_version (Block _)) in H2 as Hv2. apply (execute_identity (Block _)) in H2 as [Hi2 _].
    destruct (stored_storable _ _ _ Hs) as [Hid _]. split; [|rewrite Hc; eauto|].
    + eapply alter_lease_progress; [|done]. intros l. cbn. lia.
    + eapply (saved_stored session); [by rewrite Hi2, Hi1, Hid|lia|done].
  - apply insert_lease_progress with (session_id := session_id) (l := current_lease (u_now settings) db session_id);
      [|done|done|by unfold sql_stored; rewrite Hs; eauto with lia].
    unfold current_lease. intros l ->. done.
  - eapply insert_lease_progress; [|exact Hl|done|].
    + intros l Hi. cbn. rewrite Hf. unfold current_lease. rewrite Hi. cbn. lia.
    + apply (execute_version Running) in Hrun. eapply (saved_stored session); [by rewrite Hid|lia|done].
Qed.

Lemma transaction_keeps {A X} (π : DB → X) (body : tx DB (A * bool)) db o db' :
  keeps π body → transaction body db = (o, db') → π db' = π db.
Proof.
  intros Hk Hx. specialize (Hk db). unfold transaction in Hx.
  destruct (body db) as [[[a []]|e] db1]; by simplify_eq.
Qed.

Lemma reserve_key_keeps {X} (π : DB → X) scope key h :
  (∀ m db, π (set_idempotency m db) = π db) → keeps π (sql_reserve scope key h).
Proof. intros Hi db. unfold sql_reserve. repeat case_match; cbn; auto. Qed.

(** The parts an admission and an answer never write. *)
Definition guarded_part db := (t_calls db, t_leases db).

Notation uow settings := (mysql_uow participant_policy plan_configuration settings).

Lemma record_answer_keeps settings session actor q a s :
  keeps guarded_part (@record_answer DB (uow settings) session actor q a s).
Proof. unfold record_answer. cbn. unfold sql_answer. solve_keeps. Qed.

Lemma enqueue_guarded settings session text skip q :
  keeps guarded_part (sql_enqueue participant_policy settings session text skip q).
Proof.
  unfold sql_enqueue, insert_run.
  apply keeps_bind; [apply keeps_if; [by apply reserve_keeps_part|apply keeps_ret]|intros _]. solve_keeps.
Qed.

Lemma save_guarded settings session : keeps guarded_part (sql_save settings session).
Proof. unfold sql_save, stage_state. solve_keeps. Qed.

Lemma get_keeps {X} (π : DB → X) id : keeps π (sql_get id).
Proof. intros db. unfold sql_get. by case_match. Qed.

Lemma keeps_fst {A X Y} (π : DB → X) (ρ : DB → Y) (m : tx DB A) :
  keeps (λ db, (π db, ρ db)) m → keeps π m.
Proof. intros Hk db. specialize (Hk db). by injection Hk. Qed.

Lemma cancel_jobs_calls settings session :
  keeps t_calls (sql_cancel_jobs settings session : tx DB unit).
Proof.
  unfold sql_cancel_jobs. do 3 (apply keeps_bind; [solve_keeps|intros _]).
  apply keeps_if; [by apply release_keeps_part|apply keeps_ret].
Qed.

(** Commands of participants neither touch model calls nor take fences back. *)
Lemma change_body_calls settings run_identity scope key h actor id c :
  keeps t_calls (@change_body DB (uow settings) run_identity scope key h actor id c).
Proof.
  unfold change_body. apply keeps_bind; [by apply reserve_key_keeps|].
  intros [r|]; [apply keeps_ret|]. apply keeps_bind; [apply get_keeps|]. intros s.
  apply keeps_bind; [apply keeps_lift|]. intros v. apply keeps_bind; [apply keeps_lift|]. intros _.
  apply keeps_bind; [destruct c|intros s'].
  - apply keeps_bind; [apply (keeps_fst _ t_leases), record_answer_keeps|]. intros [[q t] sk].
    apply keeps_bind; [apply keeps_lift|]. intros s'. apply keeps_bind; [|intros _; apply keeps_ret].
    apply (keeps_fst _ t_leases), enqueue_guarded.
  - apply keeps_bind; [apply keeps_lift|]. intros s'. apply keeps_bind; [|intros _; apply keeps_ret].
    apply cancel_jobs_calls.
  - apply keeps_bind; [apply (keeps_fst _ t_leases), save_guarded|]. intros _.
    apply keeps_bind; [by apply keeps_modify|]. intros _. apply keeps_ret.
Qed.

Lemma change_body_leases settings run_identity scope key h actor id c db a db' :
  @change_body DB (uow settings) run_identity scope key h actor id c db = (Ok a, db') →
  t_leases db' = t_leases db ∨ t_leases db' = alter (fence_off (u_now settings)) id (t_leases db).
Proof.
  unfold change_body. intros Hx. apply tx_bind_Ok in Hx as (o & db2 & Hres & Hx).
  apply (keeps_Ok t_leases) in Hres as <-; [|by apply reserve_key_keeps].
  destruct o as [r0|]; [apply ret_Ok in Hx as [_ <-]; by left|].
  apply tx_bind_Ok in Hx as (s & db3 & Hget & Hx).
  assert (s_id s = id ∧ db3 = db2) as [Hid ->].
  { change (sql_get id db2 = (Ok s, db3)) in Hget. unfold sql_get in Hget.
    destruct (t_sessions db2 !! id); [|done]. by injection Hget as <- <-. }
  apply tx_bind_Ok in Hx as (v & db4 & Hv & Hx). apply lift_Ok in Hv as [_ ->].
  apply tx_bind_Ok in Hx as (u & db5 & He & Hx). apply lift_Ok in He as [_ ->].
  apply tx_bind_Ok in Hx as (s1 & db6 & Hc & Hx).
  assert (t_leases db' = t_leases db6) as ->.
  { eapply (keeps_Ok t_leases) in Hx; [exact Hx|].
    apply keeps_bind; [unfold sql_save, stage_state; cbn; unfold sql_save, stage_state; solve_keeps|].
    intros _. apply keeps_bind; [by apply keeps_modify|]. intros _. apply keeps_ret. }
  destruct c as [ver q a0 sk|ver].
  - left. eapply (keeps_Ok guarded_part) in Hc; [by injection Hc|].
    apply keeps_bind; [apply record_answer_keeps|]. intros [[q' t] sk'].
    apply keeps_bind; [apply keeps_lift|]. intros s'. apply keeps_bind; [|intros _; apply keeps_ret].
    apply enqueue_guarded.
  - right. apply tx_bind_Ok in Hc as (s2 & db7 & Hcan & Hc). apply lift_Ok in Hcan as [Hcan ->].
    apply tx_bind_Ok in Hc as (u8 & db8 & Hjobs & Hc). apply ret_Ok in Hc as [-> <-].
    apply cancel_jobs_effect in Hjobs as [= _ _ ->].
    by apply (execute_identity Cancel) in Hcan as (-> & _); rewrite Hid.
Qed.

Lemma change_progress settings authorize run_identity actor id c key db o db' :
  @change DB (uow settings) authorize run_identity actor id c key db = (o, db') → progress db db'.
Proof.
  intros Hx. pose proof Hx as Hport. pose (laws := mysql_laws participant_policy plan_configuration settings).
  unfold change in Hx. destruct (scope_key _ _ _ _) as [scope|]; [|simplify_eq; apply progress_refl].
  destruct (owned _ _ _ _); [|simplify_eq; apply progress_refl].
  destruct (fingerprint _) as [h|]; [|simplify_eq; apply progress_refl].
  destruct o as [r|e]; [|by apply transaction_Err in Hx as ->; apply progress_refl].
  pose proof (transaction_keeps t_calls _ _ _ _ (change_body_calls _ _ _ _ _ _ _ _) Hx) as Hcalls.
  apply transaction_Ok in Hx as (committed & db1 & Hx & Hdb').
  destruct committed; [subst db1|subst db'; apply progress_refl].
  split.
  - apply change_body_leases in Hx as [->|Hl]; [eauto with lia|].
    eapply alter_lease_progress; [|done]. intros l. cbn. lia.
  - rewrite Hcalls. eauto.
  - destruct (@change_Ok DB (uow settings) laws _ _ _ _ _ _ _ _ _ Hport)
      as (sc & h' & s0 & _ & _ & Hst & _ & _ & [[Heq _]|(_ & s' & cmd & _ & _ & Hex & _ & Hs')]);
      [rewrite Heq; eauto with lia|].
    intros i x Hi. apply execute_version in Hex. specialize (Hs' i). cbn in Hs', Hst.
    rewrite Hs'. destruct (decide (i = id)) as [->|]; [|eauto with lia].
    exists s'. split; [done|]. rewrite Hi in Hst. injection Hst as ->. lia.
Qed.

Lemma admission_keeps settings evidence_identity session testee ids evidence :
  keeps guarded_part (@admission DB (uow settings) evidence_identity session testee ids evidence).
Proof.
  intros db. unfold admission.
  destruct (admit_evidence _ _ _ _ _ db) as [[o s1] db1] eqn:Ha.
  assert (guarded_part db1 = guarded_part db) as H1.
  { unfold admit_evidence in Ha. destruct (evidence_validate _ _ _) as [[]|e];
      [|by destruct e; injection Ha as _ _ <-].
    destruct (fingerprint _) as [h|e]; [|by injection Ha as _ _ <-].
    destruct (uow_add_evidence _ db) as [o2 db2] eqn:H2.
    apply (keeps_Ok guarded_part) in H2 as <-; [|cbn; unfold sql_add_evidence; solve_keeps].
    destruct o2; [|by injection Ha as _ _ <-].
    destruct (uow_bind_configuration _ _ db2) as [o3 db3] eqn:H3.
    apply (keeps_Ok guarded_part) in H3 as <-; [|cbn; unfold bind_planned; solve_keeps].
    destruct o3; [|by injection Ha as _ _ <-].
    destruct (uow_enqueue _ _ _ _ db3) as [o4 db4] eqn:H4.
    apply (keeps_Ok guarded_part) in H4 as <-; [|apply enqueue_guarded].
    by destruct o4; injection Ha as _ _ <-. }
  rewrite <- H1. destruct o as [[]|e]; [done|]. destruct e; try done.
  unfold refuse. apply keeps_bind; [apply keeps_lift|]. intros s2.
  apply keeps_bind; [apply keeps_lift|]. intros s3.
  apply keeps_bind; [cbn; unfold sql_reject_run, insert_run; solve_keeps|]. intros _. apply keeps_ret.
Qed.

(** Admissions write neither leases nor model calls. *)
Lemma start_guarded settings session_identity run_identity evidence_identity actor testee ids goal
    request evidence db o db' :
  @start_external DB (uow settings) session_identity run_identity evidence_identity actor testee ids
    goal request evidence db = (o, db') →
  guarded_part db' = guarded_part db.
Proof.
  unfold start_external. destruct (start_input _ _ _ _ _); [|by intros [= _ <-]].
  destruct start_scope as [scope|]; [|by intros [= _ <-]].
  destruct (start_hash _ _ _ _ _) as [h|]; [|by intros [= _ <-]].
  apply transaction_keeps. unfold start_body.
  apply keeps_bind; [by apply reserve_key_keeps|]. intros [r|]; [apply keeps_ret|].
  apply keeps_bind; [apply keeps_lift|]. intros s.
  apply keeps_bind; [cbn; unfold sql_add; solve_keeps|]. intros _.
  apply keeps_bind; [intros d; cbn; unfold bind_request; by repeat case_match|]. intros _.
  apply keeps_bind; [apply admission_keeps|]. intros s'.
  apply keeps_bind; [apply save_guarded|]. intros _.
  apply keeps_bind; [by apply keeps_modify|]. intros _. apply keeps_ret.
Qed.

Lemma start_progress settings session_identity run_identity evidence_identity actor testee ids goal
    request evidence db o db' :
  @start_external DB (uow settings) session_identity run_identity evidence_identity actor testee ids
    goal request evidence db = (o, db') → progress db db'.
Proof.
  intros Hx. pose (laws := mysql_laws participant_policy plan_configuration settings).
  pose proof (start_guarded _ _ _ _ _ _ _ _ _ _ _ _ _ Hx) as [= Hc Hl].
  split; [rewrite Hl; eauto with lia|rewrite Hc; eauto|].
  destruct o as [r|e].
  - destruct (@start_external_Ok DB (uow settings) laws _ _ _ _ _ _ _ _ _ _ _ _ Hx)
      as (sc & h & _ & _ & _ & [[Heq _]|(_ & s' & _ & _ & Hnone & Hst)]);
      [rewrite Heq; eauto with lia|].
    intros i x Hi. specialize (Hst i). cbn in Hst, Hnone. rewrite Hst.
    destruct (decide (i = session_identity)) as [->|]; [congruence|eauto with lia].
  - assert (db' = db) as Heq; [|rewrite Heq; eauto with lia]. unfold start_external in Hx.
    destruct (start_input _ _ _ _ _); [|by injection Hx].
    destruct start_scope; [|by injection Hx]. destruct (start_hash _ _ _ _ _); [|by injection Hx].
    by apply transaction_Err in Hx.
Qed.

Lemma exec_progress db db' : exec_step db db' → progress db db'.
Proof.
  intros [].
  - by eapply claim_progress.
  - by eapply begin_progress.
  - by eapply record_progress.
  - by eapply renew_progress.
  - by eapply finish_progress.
  - by eapply change_progress.
  - by eapply start_progress.
Qed.

Lemma execs_progress db db' : rtc exec_step db db' → progress db db'.
Proof.
  induction 1 as [|db1 db2 db3 Hs _ IH]; [apply progress_refl|].
  eapply progress_trans; [by apply exec_progress|done].
Qed.

(** Every operation of the claim is refused, whenever it comes. *)
Definition refused (c : Claim) db : Prop :=
  ∀ now later settings identity request invocation response failure unknown ttl question_id result,
    is_ok (begin_model_call validate_generation now later identity c request db).1 = false ∧
    is_ok (record_model_response now later c invocation response failure unknown db).1 = false ∧
    is_ok (renew now c ttl db).1 = false ∧
    is_ok (finish_in validate_generation expected_artifact settings later question_id c result db).1
      = false.

Lemma not_owns_refused c db : (∀ now s, ¬ owns now c s db) → refused c db.
Proof.
  intros Hno now later settings identity request invocation response failure unknown ttl question_id
    result. split_and!.
  - destruct (begin_model_call _ _ _ _ _ _ _) as [[[call cr]|e] db'] eqn:Hx; [|done].
    apply begin_effect in Hx as [[s Hs] _]. by apply Hno in Hs.
  - destruct (record_model_response _ _ _ _ _ _ _ _) as [[u|e] db'] eqn:Hx; [|done].
    apply record_effect in Hx as [[s Hs] _]. by apply Hno in Hs.
  - destruct (renew _ _ _ _) as [[u|e] db'] eqn:Hx; [|done].
    apply renew_effect in Hx as [[s Hs] _]. by apply Hno in Hs.
  - destruct (finish_in _ _ _ _ _ _ _ _) as [[u|e] db'] eqn:Hx; [|done].
    apply finish_effect in Hx as (s & s' & [Hs]). by apply Hno in Hs.
Qed.

(** C18: fencing: when a session is claimed again, however long after and whatever happened in
    between, the new claim has a greater fence, and from then on every operation of the older
    claim is refused: it can not start or record a model call, renew its lease or commit a result,
    even if it never noticed that its lease expired. *)
Theorem stale_claim_refused settings ttl j settings' ttl' j' id c c' db db1 db2 db3 db4 :
  claim_in participant_policy settings ttl j id db = (Ok (Claimed c), db1) →
  rtc exec_step db1 db2 →
  claim_in participant_policy settings' ttl' j' id db2 = (Ok (Claimed c'), db3) →
  rtc exec_step db3 db4 →
  cl_fence c < cl_fence c' ∧ refused c db4.
Proof.
  intros Hc%claim_in_outcome H12%execs_progress Hc'%claim_in_outcome H34%execs_progress.
  apply outcome_granted in Hc as (? & ? & [_ Hid _ _ _ _ Hl1 _ _ _ _]).
  apply outcome_granted in Hc' as (? & ? & [_ Hid' _ _ _ Hf' Hl3 _ _ _ _]).
  destruct (pr_lease _ _ H12 id (mk_LeaseRow (cl_fence c) (expiry ttl (u_now settings))))
    as (l2 & Hl2 & Hle); [by rewrite Hl1, lookup_insert_eq|]. cbn in Hle.
  assert (cl_fence c < cl_fence c') as Hlt.
  { rewrite Hf'. unfold current_lease. rewrite Hl2. cbn. lia. }
  split; [done|]. apply not_owns_refused. intros now s [_ _ _ _ _ (lease & Hlease & Hf & _)].
  destruct (pr_lease _ _ H34 id (mk_LeaseRow (cl_fence c') (expiry ttl' (u_now settings'))))
    as (l4 & Hl4 & Hle4); [by rewrite Hl3, lookup_insert_eq|]. cbn in Hle4.
  rewrite Hid, Hl4 in Hlease. injection Hlease as ->. lia.
Qed.

(** C17: a result is committed once, by the live owner: the session runs this claim's run at the
    claim's version, job and lease carry its fence, and the lease still runs before the commit.  An
    artifact of the durable call completes the session, a question makes it wait for the answer, and
    without either it is blocked with the failure's code; the job is done, the run has the status
    and the checkpoint, and the lease ends.  Afterwards every operation of the claim is refused for
    good, a second result too. *)
Theorem finish_once settings later question_id c result db db1 db2 :
  finish_in validate_generation expected_artifact settings later question_id c result db
    = (Ok tt, db1) →
  rtc exec_step db1 db2 →
  (∃ s s', finished settings later question_id c result s s' db db1) ∧ refused c db2.
Proof.
  intros Hx H12%execs_progress. apply finish_effect in Hx as (s & s' & Hfin). split; [by eauto|].
  destruct Hfin as [[Hs _ _ _ _ _] _ Hres Hv Hst _ _ _ _].
  apply concluded_finishing, finishing_spec in Hres as (Hid' & _).
  destruct (stored_storable _ _ _ Hs) as [Hid _].
  apply not_owns_refused. intros now s2 [Hs2 _ _ Hv2 _ _].
  destruct (pr_stored _ _ H12 (s_id (cl_session c)) s') as (s3 & Hs3 & Hle).
  { by rewrite Hst, Hid', Hid, decide_True. }
  rewrite Hs2 in Hs3. injection Hs3 as <-. lia.
Qed.
End lemmas.
