(* ===== verification/Generation.v ===== *)
(** * Generation: one gateway call per run

    Models [DurableGeneration] of [src/src/qs_ai/application/execution/generation.py] over the store
    of [Execution]: the marker is committed before the gateway is called, only its creator calls,
    and a worker that finds a marker answers from the durable record.  Workers interleave and crash
    anywhere; [w_sent] is the history of the calls the gateway received.

    The frozen request, the response and their codec are arguments ([FrozenGeneration],
    [ModelResponse] and [JSONModelCallCodec] of [src/src/qs_ai/application/interpretation] and
    [src/src/qs_ai/infrastructure/persistence]); the process-local [ModelCapacity] only delays a
    worker. *)
From stdpp Require Import relations.
From S2P Require Import Prelude PyText PyTime PyJson Transactions Session Service Tables Capacity.
From S2P Require Import MysqlUow Execution.

Local Open Scope string_scope.
Local Open Scope Z_scope.
Local Open Scope py_scope.

Section generation.
Context {F R : Type} `{EqDecision F}.
Context (encode_request : F → string) (decode_request : string → res F).
Context (encode_response : R → string) (decode_response : string → res R).
Context (publication_id : F → option string) (route_model : F → string).
Context (response_invocation_id response_model : R → string).

(** [except ValueError: raise ProviderFailure("model_call_record_invalid")] *)
Definition record_invalid {A} (m : res A) : res A :=
  match m with
  | Err e =>
    if is_value_error e then Err (ProviderFailure "model_call_record_invalid" false false) else Err e
  | Ok a => Ok a
  end.

Definition check_response (call : ModelCall) (request : F) (response : R) : res unit :=
  raise_if ((response_invocation_id response != mc_invocation_id call)
            || (response_model response != route_model request))
    (ProviderFailure "model_call_response_mismatch" false true).

(** What follows the marker: the gateway is called, or the recorded response is returned. *)
Inductive Plan : Type :=
| Send (frozen : F)
| Recovered (frozen : F) (response : R).

Definition plan_call (request : F) (call : ModelCall) (created : bool) : res Plan :=
  frozen ← record_invalid (decode_request (mc_request_json call));
  raise_if (is_some (publication_id request) && (frozen != request))
    (ProviderFailure "model_call_configuration_mismatch" false false) ;;
  if created then Ok (Send frozen)
  else
    match (if mc_status call == "response_received" then mc_response_json call else None) with
    | Some raw =>
      response ← record_invalid (decode_response raw);
      check_response call frozen response ;;
      Ok (Recovered frozen response)
    | None =>
      if mc_status call is_in ["dispatched"; "unknown"]
      then Err (ProviderFailure "provider_result_unknown" false true)
      else
        let code := default "" (mc_failure_code call) in
        if (mc_status call == "failed") && nonempty code
        then Err (ProviderFailure code false false)
        else Err (ProviderFailure "model_call_record_invalid" false false)
    end.

(** What is recorded of the gateway's reply: a response, or a failure; nothing when the reply is
    another exception (a cancellation, a lost lease). *)
Definition recorded_reply (call : ModelCall) (frozen : F) (reply : res R)
    : option (option string * option string * bool) :=
  match (response ← reply; check_response call frozen response ;; Ok response) with
  | Ok response => Some (Some (encode_response response), None, false)
  | Err (ProviderFailure code _ result_unknown) => Some (None, Some code, result_unknown)
  | Err _ => None
  end.

(** ** Workers that interleave *)

Context {G : Type}.
Context (participant_policy : Z → G → res (ParticipantCapacityPolicy * json)).
Context (validate_generation : Session → option EvidenceSet → string → Tables G → res unit).
Context (expected_artifact :
  Claim → Session → EvidenceSet → CallRow → Tables G → res ArtifactCandidate).
Context (plan_configuration : Session → EvidenceSet → Tables G → res PlannedConfiguration).

(** The shared tables, the workers about to call the gateway, and the calls it received: the run
    and the invocation of each. *)
Record World : Type := mk_World {
  w_db : Tables G;
  w_pending : list (Claim * ModelCall * F);
  w_sent : list (string * string);
}.

Definition pending_call (p : Claim * ModelCall * F) : string * string :=
  (cl_run_id p.1.1, mc_invocation_id p.1.2).

Inductive w_step : World → World → Prop :=
| w_exec db db' pending sent :
    exec_step participant_policy validate_generation expected_artifact plan_configuration db db' →
    w_step (mk_World db pending sent) (mk_World db' pending sent)
| w_begin now later identity c request call created frozen db db' pending sent :
    begin_model_call validate_generation now later identity c (encode_request request) db
      = (Ok (call, created), db') →
    plan_call request call created = Ok (Send frozen) →
    w_step (mk_World db pending sent) (mk_World db' ((c, call, frozen) :: pending) sent)
| w_send p l1 l2 db sent :
    w_step (mk_World db (l1 ++ p :: l2) sent) (mk_World db (l1 ++ l2) (pending_call p :: sent))
| w_crash p l1 l2 db sent :
    w_step (mk_World db (l1 ++ p :: l2) sent) (mk_World db (l1 ++ l2) sent).
End generation.
Local Close Scope py_scope.
Local Open Scope list_scope.

(** ** Lemmas *)

Section properties.
Context {F R : Type} `{EqDecision F}.
Context (encode_request : F → string) (decode_request : string → res F).
Context (encode_response : R → string) (decode_response : string → res R).
Context (publication_id : F → option string) (route_model : F → string).
Context (response_invocation_id response_model : R → string).
Context {G : Type}.
Context (participant_policy : Z → G → res (ParticipantCapacityPolicy * json)).
Context (validate_generation : Session → option EvidenceSet → string → Tables G → res unit).
Context (expected_artifact :
  Claim → Session → EvidenceSet → CallRow → Tables G → res ArtifactCandidate).
Context (plan_configuration : Session → EvidenceSet → Tables G → res PlannedConfiguration).

Notation planned :=
  (plan_call decode_request decode_response publication_id route_model response_invocation_id
     response_model).
Notation wstep :=
  (w_step encode_request decode_request decode_response publication_id route_model
     response_invocation_id response_model participant_policy validate_generation
     expected_artifact plan_configuration).
Notation World := (@World F G).

(** Only the creator of the marker is told to call the gateway. *)
Lemma plan_send request call created frozen :
  planned request call created = Ok (Send frozen) → created = true.
Proof.
  unfold plan_call. destruct created; [done|]. intros Hx.
  repeat (ok_inv || case_match); done.
Qed.

(** The calls a world has made or may still make. *)
Definition calls (w : World) : list (string * string) :=
  (pending_call <$> w_pending w) ++ w_sent w.

(** Each is the call of a marker that was not there at the start, and no run has two. *)
Definition once (db0 : Tables G) (w : World) : Prop :=
  NoDup (calls w).*1 ∧
  ∀ run invocation, (run, invocation) ∈ calls w →
    t_calls db0 !! run = None ∧
    ∃ row, t_calls (w_db w) !! run = Some row ∧ c_invocation_id row = invocation.

Lemma once_submseteq db0 (db : Tables G) (l1 l2 : list (Claim * ModelCall * F)) s1 s2 :
  (pending_call <$> l2) ++ s2 ⊆+ (pending_call <$> l1) ++ s1 →
  once db0 (mk_World db l1 s1) → once db0 (mk_World db l2 s2).
Proof.
  unfold once, calls. cbn. intros Hsub [Hnd Hc]. split.
  - assert ((((pending_call <$> l2) ++ s2).*1) ⊆+ ((pending_call <$> l1) ++ s1).*1) as Hs
      by by apply fmap_submseteq.
    apply submseteq_Permutation in Hs as [k Hk]. rewrite Hk, NoDup_app in Hnd. by destruct Hnd.
  - intros run inv Hin. apply Hc. by eapply elem_of_submseteq.
Qed.

Lemma once_step db0 w w' :
  progress db0 (w_db w) → once db0 w → wstep w w' → progress db0 (w_db w') ∧ once db0 w'.
Proof.
  intros Hp Ho Hstep. destruct Hstep as [db db' pending sent Hstep|now later identity c request call created frozen db db'
    pending sent Hbegin Hplan|p l1 l2 db sent|p l1 l2 db sent]; cbn in *.
  - apply exec_progress in Hstep. split; [by eapply progress_trans|].
    destruct Ho as [Hnd Hc]. split; [done|]. intros run inv Hin.
    destruct (Hc run inv Hin) as (Hnone & row & Hrow & Hinv). split; [done|].
    destruct (pr_calls _ _ Hstep _ _ Hrow) as (row' & Hrow' & Hi & _). exists row'. cbn.
    split; [done|congruence].
  - apply plan_send in Hplan as ->. apply begin_progress in Hbegin as Hp'.
    apply begin_effect in Hbegin as (_ & Hnone & row & Hc & Hi & _ & _ & ->).
    assert (t_calls db0 !! cl_run_id c = None) as Hnone0.
    { destruct (t_calls db0 !! cl_run_id c) as [r|] eqn:E; [|done].
      apply (pr_calls _ _ Hp) in E as (r' & Hr' & _). cbn in Hr'. congruence. }
    split; [by eapply progress_trans|]. destruct Ho as [Hnd Hcalls]. split; cbn.
    + constructor; [|exact Hnd]. intros ([run inv] & Heq & Hin)%list_elem_of_fmap. cbn in Heq.
      destruct (Hcalls run inv Hin) as (_ & row' & Hrow' & _). cbn in Hrow'. congruence.
    + intros run inv [[= -> ->]|Hin]%elem_of_cons.
      * split; [done|]. exists row. rewrite lookup_insert_eq. by subst call.
      * destruct (Hcalls run inv Hin) as (Hn & row' & Hrow' & Hinv). split; [done|].
        exists row'. cbn in Hrow'. split; [|done]. rewrite lookup_insert_ne; [done|congruence].
  - split; [done|]. eapply once_submseteq, Ho. rewrite !fmap_app. cbn. solve_submseteq.
  - split; [done|]. eapply once_submseteq, Ho. rewrite !fmap_app. cbn. solve_submseteq.
Qed.

(** C16: at most one gateway call per run: however many workers claim the run, crash, lose their
    lease or are claimed over, and whatever is recorded or cancelled meanwhile, the gateway receives
    at most one call for each run; it is the invocation of the run's durable marker, and never a
    run whose marker existed before. *)
Theorem gateway_called_once db0 w :
  rtc (w_step encode_request decode_request decode_response publication_id route_model
         response_invocation_id response_model participant_policy validate_generation
         expected_artifact plan_configuration) (mk_World db0 [] []) w →
  NoDup (w_sent w).*1 ∧
  ∀ run invocation, (run, invocation) ∈ w_sent w →
    t_calls db0 !! run = None ∧
    ∃ row, t_calls (w_db w) !! run = Some row ∧ c_invocation_id row = invocation.
Proof.
  intros Hsteps.
  assert (progress db0 (w_db w) ∧ once db0 w) as [_ [Hnd Hc]].
  { remember (mk_World db0 [] []) as w0 eqn:Ew.
    assert (progress db0 (w_db w0) ∧ once db0 w0) as H0.
    { subst. split; [apply progress_refl|]. split; [constructor|]. intros ? ? ?%elem_of_nil. done. }
    clear Ew. induction Hsteps as [|w1 w2 w3 Hstep _ IH]; [done|]. apply IH.
    destruct H0. by eapply once_step. }
  unfold calls in *. rewrite fmap_app, NoDup_app in Hnd. split; [tauto|].
  intros run inv Hin. apply Hc, elem_of_app. by right.
Qed.
End properties.
