(* ===== verification/EvaluationSamples.v ===== *)
(** * EvaluationSamples: an evaluation run from its plan to its closure

    Concrete runs on which the hypotheses of the theorems on the planners, the resolutions and
    the closure hold: a collecting run of one case and three slots, a blocked run with two unknown
    results, and a closed run whose only slot lost its first generation and got it replaced. *)
From stdpp Require Import relations.
From S2P Require Import Prelude PyText PyTime PyHash PyJson Failure Checkpoint Completion Actions.
From S2P Require Import Resolution Preflight Closure.

Local Open Scope string_scope.
Local Open Scope Z_scope.

(** ** The plan of a collecting run *)

Definition policy_of (cases per_case : Z) : ExecutionPolicy :=
  mk_ExecutionPolicy "policy" "v1" "sha" "{}" cases per_case 1 2 6 2 6
    {[("semantic_evaluation", "timeout")]} ∅ true false false.
Definition policy3 : ExecutionPolicy := policy_of 1 3.

Definition succeeded : ExecutionResult := mk_ExecutionResult "succeeded" None false false.
Definition schema_failure : ClassifiedFailure :=
  mk_ClassifiedFailure "output_validation" "output_contract_conformance" "output_schema_invalid"
    false false "replace_generation" "The output broke its schema" ["execution-1"] None
    "ai-explanation-failure-taxonomy/v1".
Definition broken : ExecutionResult := mk_ExecutionResult "failed" (Some schema_failure) false false.

Definition ready_slot (o : Z) (id : string) : SlotProgress :=
  mk_SlotProgress "case-1" o [succeeded] (Some (mk_CandidateProgress id true [succeeded])).
(** A slot whose first output broke its contract: its generation may be replaced. *)
Definition broken_slot (o : Z) : SlotProgress := mk_SlotProgress "case-1" o [broken] None.
Definition open_slots : list SlotProgress :=
  [ready_slot 1 "candidate-1"; broken_slot 2; mk_SlotProgress "case-1" 3 [] None].
Definition ready_slots : list SlotProgress :=
  [ready_slot 1 "candidate-1"; ready_slot 2 "candidate-2"; ready_slot 3 "candidate-3"].

Example open_slots_constructed :
  Forall constructed open_slots ∧ Forall constructed ready_slots ∧ constructed schema_failure ∧
  constructed broken.
Proof. split_and!; repeat constructor. Qed.

Definition recovery_action : NextAction :=
  mk_NextAction "generation" "generation_recovery_allowed" "case-1" 2 "" 2 false.
Definition review_action : NextAction :=
  run_action "await_review" "candidate_evidence_complete" "".

Lemma plan_check_exact_witness : frozen_plan 1 3 open_slots.
Proof.
  refine (proj1 (plan_check_exact open_slots policy3 _ _) _); [done..|vm_compute; reflexivity].
Defined.

Lemma next_action_dispatch_safe_witness :
  dispatch_permitted policy3 (broken_slot 2) ∧ len (current_executions (broken_slot 2)) + 1 = 2.
Proof.
  destruct (next_action_dispatch_safe "collecting" "passed" "preflight-1" open_slots policy3 None 0
    recovery_action) as (_ & _ & _ & _ & _ & l1 & s & l2 & Hs & Hl & Hr & _ & Ho & _ & Hp & He & _);
    [vm_compute; reflexivity|reflexivity|left; reflexivity|].
  destruct l1 as [|x [|y [|z [|? ?]]]]; injection Hs; intros; subst; try discriminate.
  split; [exact Hp|reflexivity].
Defined.

Lemma await_review_iff_witness :
  historical_unknown ready_slots = false ∧ ∀ s, s ∈ ready_slots → slot_ready s = true.
Proof.
  refine (let H := proj1 (await_review_iff "collecting" "passed" "preflight-1" ready_slots policy3
    None 0 review_action _ _) eq_refl in proj2 (proj2 (proj2 (proj2 H))));
    [vm_compute|]; reflexivity.
Defined.

Definition plan_of (slots : list SlotProgress) (active : gset (string * Z)) : ParallelPlan :=
  match plan_parallel "collecting" "passed" "preflight-1" slots policy3 active 2 0 with
  | Ok p => p
  | Err _ => mk_ParallelPlan [] [] None false
  end.

Lemma plan_parallel_bounds_witness :
  pp_ready (plan_of open_slots {[("case-1", 3)]}) = [recovery_action] ∧
  ∃ s, s ∈ open_slots ∧ slot_ready s = false ∧ dispatch_permitted policy3 s.
Proof.
  destruct (plan_parallel_bounds "collecting" "passed" "preflight-1" open_slots policy3
    {[("case-1", 3)]} 2 0 (plan_of open_slots {[("case-1", 3)]})) as (_ & Hr & _);
    [vm_compute; reflexivity|].
  assert (pp_ready (plan_of open_slots {[("case-1", 3)]}) = [recovery_action]) as E
    by (vm_compute; reflexivity).
  split; [exact E|]. destruct (Hr recovery_action) as (s & Hs & _ & Hn & _ & _ & Hp);
    [rewrite E; apply list_elem_of_here|].
  exists s. exact (conj Hs (conj Hn Hp)).
Defined.

Lemma serial_parallel_agree_witness :
  head (pp_ready (plan_of open_slots ∅)) = Some recovery_action ∨
  head (pp_blocked (plan_of open_slots ∅)) = Some recovery_action.
Proof.
  refine (serial_parallel_agree "collecting" "passed" "preflight-1" open_slots policy3 2 0
    (plan_of open_slots ∅) recovery_action _ _); vm_compute; reflexivity.
Defined.

(** ** A blocked run with two unknown results *)

Definition unknown1 : UnknownExecution := mk_UnknownExecution "execution-1" "generation" 1 (utc 11).
Definition unknown2 : UnknownExecution := mk_UnknownExecution "execution-2" "semantic" 1 (utc 12).
Definition replace_unknown (id : string) (at_ : Z) : ResultUnknownResolution :=
  mk_ResultUnknownResolution id "authorize_replacement" "user:7" "provider outage" true (utc at_).
Definition replacements : list ResultUnknownResolution :=
  [replace_unknown "execution-2" 20; replace_unknown "execution-1" 21].

Example resolutions_constructed :
  Forall constructed replacements ∧ constructed unknown1 ∧ constructed unknown2.
Proof. split_and!; repeat constructor. Qed.

Lemma resolutions_return_to_collecting_witness :
  authorizations_valid [unknown1; unknown2] policy3 replacements ∧
  ru_execution_id <$> replacements ≡ₚ ["execution-1"; "execution-2"].
Proof.
  destruct (resolutions_return_to_collecting [unknown1; unknown2] policy3 replacements
    (mk_ResolutionProgress "collecting" 0 replacements)) as (Hv & _ & _ & Hc & _);
    [done|repeat constructor|vm_compute; reflexivity|].
  split; [exact Hv|]. exact (proj1 Hc eq_refl).
Defined.

Lemma resolutions_commute_witness :
  ∃ st, foldM (resolve_step [unknown1; unknown2] policy3) (blocked_start [unknown1; unknown2])
          (reverse replacements) = Ok st ∧ rp_status st = "collecting".
Proof.
  destruct (resolutions_commute [unknown1; unknown2] policy3 replacements (reverse replacements)
    (mk_ResolutionProgress "collecting" 0 replacements)) as (st & Hst & Hs & _);
    [repeat constructor|by rewrite reverse_Permutation|vm_compute; reflexivity|].
  exists st. split; [exact Hst|exact Hs].
Defined.

(** ** A closed run *)

Definition policy1 : ExecutionPolicy := policy_of 1 1.

Definition receipt_of (invocation : string) : ProviderReceipt :=
  mk_ProviderReceipt invocation "request-1" "openai" "model-1" (Some 10) (Some 20) 5 None.
Definition unknown_failure : ClassifiedFailure :=
  mk_ClassifiedFailure "generation_execution" "result_unknown" "provider_result_unknown"
    false true "manual_acknowledgement" "The result of the call is unknown" ["generation-1"] None
    "ai-explanation-failure-taxonomy/v1".

(** The normalized output of the accepted generation. *)
Definition output_json : string :=
  Eval vm_compute in match dumps_with compact_sorted
                             (JObj [("summary", JStr "no cure is claimed")]) with
                     | Ok s => s
                     | Err _ => ""
                     end.
Definition output_sha : string := Eval vm_compute in fingerprint_of output_json.

Definition lost_generation : GenerationCompletion :=
  mk_GenerationCompletion "generation-1" "case-1" 1 1 "invocation-1" "result_unknown" (utc 10)
    (utc 11) 1 None "" "" "" (Some unknown_failure).
Definition accepted_generation : GenerationCompletion :=
  mk_GenerationCompletion "generation-2" "case-1" 1 2 "invocation-2" "succeeded" (utc 13)
    (utc 14) 1 (Some (receipt_of "invocation-2")) output_json output_json output_sha None.
Definition generations0 : list GenerationCompletion := [lost_generation; accepted_generation].

(** The normalized judgement: one decision, five scores. *)
Definition decision_document : json :=
  JObj [("type", JStr "forbidden_claims_absent"); ("scope", JStr "default"); ("ordinal", JInt 1);
        ("status", JStr "failed"); ("detail", JStr "claims a cure")].
Definition judgement_document : json :=
  JObj [("decisions", JList [decision_document]);
        ("scores", JObj [("faithfulness", JInt 4); ("cross_dimension_quality", JInt 4);
                         ("suggestion_actionability", JInt 5); ("audience_clarity", JInt 4);
                         ("concision", JInt 5)])].
Definition judgement_json : string :=
  Eval vm_compute in match dumps_with compact_sorted judgement_document with
                     | Ok s => s
                     | Err _ => ""
                     end.

Definition judgement : SemanticCompletion :=
  mk_SemanticCompletion "semantic-1" "candidate-1" output_sha 1 "invocation-3" "succeeded" (utc 15)
    (utc 16) 1 (Some (receipt_of "invocation-3")) judgement_json judgement_json None.

Definition closed_slot : SlotProgress :=
  mk_SlotProgress "case-1" 1
    [mk_ExecutionResult "result_unknown" (Some unknown_failure) true false; succeeded]
    (Some (mk_CandidateProgress "candidate-1" true [succeeded])).

Definition preflight0 : PreflightEvidence :=
  mk_PreflightEvidence "preflight-1" "passed" (utc 2) 0 "unsafe_input"
    [mk_AssertionReceipt "provider_call_count" "default" 1 true "deterministic" "passed" "";
     mk_AssertionReceipt "rejection_reason" "default" 2 true "deterministic" "passed" ""].

Definition step_of (source target actor cause : string) (at_ : Z) (refs : list string)
    : ClosureTransition := mk_ClosureTransition source target actor cause (utc at_) refs None.
Definition transitions0 : list ClosureTransition :=
  [step_of "" "requested" "user:7" "evaluation_requested" 0 [];
   step_of "requested" "collecting" "user:7" "evaluation_started" 1 [];
   step_of "collecting" "blocked" "worker-1" "result_unknown_requires_review" 11 ["generation-1"];
   step_of "blocked" "collecting" "user:7" "manual_recovery_approved" 12 ["generation-1"];
   step_of "collecting" "awaiting_review" "worker-1" "candidate_evidence_complete" 16
     ["semantic-1"]].
Definition resolution0 : ResultUnknownResolution := replace_unknown "generation-1" 12.

Example closed_run_constructed :
  Forall constructed generations0 ∧ constructed judgement ∧ constructed closed_slot ∧
  constructed preflight0 ∧ constructed resolution0.
Proof. split_and!; [constructor; [|constructor; [|constructor]]| | | |]; vm_compute; reflexivity. Qed.

Lemma closed_run :
  validate_closed_inventory (utc 0) "user:7" transitions0 preflight0 [closed_slot] generations0
    [judgement] [resolution0] policy1 [] = Ok (utc 16).
Proof. vm_compute. reflexivity. Qed.

Lemma closed_inventory_complete_witness :
  len generations0 <= 6 ∧
  ∃ r, r ∈ [resolution0] ∧ ru_execution_id r = "generation-1" ∧
       ru_decision r = "authorize_replacement".
Proof.
  destruct (closed_inventory_complete (utc 0) "user:7" transitions0 preflight0 [closed_slot]
    generations0 [judgement] [resolution0] policy1 [] (utc 16) closed_run)
    as (Hg & _ & _ & _ & _ & _ & Hu).
  split; [exact Hg|].
  destruct (Hu (Generation lost_generation)) as (r & ? & ? & ? & _); [left|reflexivity|].
  by exists r.
Defined.

Lemma closed_run_path_witness :
  ∃ l tr, audited_path "requested" (utc 0) (l ++ [tr]) "awaiting_review" (utc 16) ∧
    ct_at tr = utc 16 ∧ length l = 3%nat.
Proof.
  destruct (closed_run_path (utc 0) "user:7" transitions0 preflight0 [closed_slot]
    generations0 [judgement] [resolution0] policy1 [] (utc 16) closed_run)
    as (t0 & l & tr & Ht & _ & Hp & _ & Ha & _).
  exists l, tr. split; [exact Hp|]. split; [exact Ha|].
  apply (f_equal length) in Ht. cbn in Ht. rewrite length_app in Ht. cbn in Ht. lia.
Defined.
