(* ===== verification/ReviewSamples.v ===== *)
(** * ReviewSamples: the reviews of a closed run, from the first signature to the release

    Concrete reviews on which the hypotheses of the theorems on the reviews, their corrections,
    the gates and the reopening hold: the candidate of the closed run of [EvaluationSamples] has a
    failed forbidden-claims judgement; plain approvals leave the run rejected and reopened, the
    approvals that both contradict the judgement release it. *)
From stdpp Require Import relations.
From S2P Require Import Prelude PyText PyUuid PyTime PyHash PyNum PyJson Completion Preflight.
From S2P Require Import Review Correction Gates Reopening EvaluationSamples.

Local Open Scope string_scope.
Local Open Scope Z_scope.

(** ** The candidate and its reviews *)

Definition forbidden_claims : AssertionReceipt :=
  mk_AssertionReceipt "forbidden_claims_absent" "default" 1 true "semantic-v1" "failed"
    "claims a cure".
Definition case_assertion : AssertionReceipt :=
  mk_AssertionReceipt "mentions_dimension" "case" 1 false "deterministic" "passed" "".
Definition candidate0 : ReviewCandidate :=
  mk_ReviewCandidate "candidate-1" (utc 14) output_json judgement "semantic-v1"
    [forbidden_claims; case_assertion] [forbidden_claims].

Definition judgement_sha : string := Eval vm_compute in fingerprint_of judgement_json.
Definition contradiction : SemanticContradictionReview :=
  mk_SemanticContradictionReview CONTRADICTION_POLICY "semantic-1" judgement_sha 1 "claims a cure"
    "no cure is claimed" "The output denies the claim".

Definition review_of (role reviewer decision : string) (at_ : Z)
    (semantic : option SemanticContradictionReview) : CandidateHumanReview :=
  mk_CandidateHumanReview "candidate-1" role reviewer decision (utc at_) "checked" semantic.
(** Two plain approvals, and the two that contradict the judgement. *)
Definition plain_reviews : list CandidateHumanReview :=
  [review_of "assessment_semantics" "user:1" "approve" 20 None;
   review_of "safety_product" "user:2" "approve" 21 None].
Definition signed_reviews : list CandidateHumanReview :=
  [review_of "assessment_semantics" "user:1" "approve" 31 (Some contradiction);
   review_of "safety_product" "user:2" "approve" 32 (Some contradiction)].

Lemma reviews_constructed : Forall constructed plain_reviews ∧ Forall constructed signed_reviews.
Proof. split; repeat constructor. Qed.
Example candidate_constructed : constructed candidate0 ∧ constructed contradiction.
Proof. split; vm_compute; reflexivity. Qed.

Lemma plain_accepted :
  add_human_reviews "awaiting_review" (utc 16) [candidate0] [] plain_reviews "v2"
    = Ok plain_reviews.
Proof. vm_compute. reflexivity. Qed.

Lemma add_human_reviews_incremental_witness :
  (r1 ← add_human_reviews "awaiting_review" (utc 16) [candidate0] [] (take 1 plain_reviews) "v2";
   add_human_reviews "awaiting_review" (utc 16) [candidate0] r1 (drop 1 plain_reviews) "v2")
    = Ok plain_reviews.
Proof.
  refine (proj2 (add_human_reviews_incremental "awaiting_review" (utc 16) [candidate0] []
    (take 1 plain_reviews) (drop 1 plain_reviews) "v2" plain_reviews _ _) plain_accepted); done.
Defined.

Lemma at_most_two_reviews_witness :
  (length (filter (λ r, hr_candidate_id r = "candidate-1") plain_reviews) ≤ 2)%nat.
Proof.
  exact (proj1 (at_most_two_reviews "awaiting_review" (utc 16) [candidate0] [] plain_reviews "v2"
    plain_reviews "candidate-1" (proj1 reviews_constructed) plain_accepted)).
Defined.

Definition adjudicated : EffectiveCandidateAssertions :=
  mk_EffectiveCandidateAssertions [with_status forbidden_claims "passed"; case_assertion]
    (Some (mk_SemanticAdjudication CONTRADICTION_POLICY "candidate-1" "semantic-1" judgement_sha
             "forbidden_claims_absent" 1 "failed" "passed" ("user:1", "user:2"))).
Lemma adjudicates :
  effective_candidate_assertions candidate0 signed_reviews (utc 16) "v2" = Ok adjudicated.
Proof. vm_compute. reflexivity. Qed.

Lemma adjudication_single_flip_witness :
  ∃ l1 a l2, rc_assertions candidate0 = (l1 ++ a :: l2)%list ∧
    eff_assertions adjudicated = (l1 ++ with_status a "passed" :: l2)%list.
Proof.
  destruct (adjudication_single_flip candidate0 signed_reviews (utc 16) "v2" adjudicated adjudicates)
    as [[_ H]|(adj & r1 & r2 & l1 & a & l2 & H)]; [discriminate|].
  exists l1, a, l2. destruct H as (_ & _ & _ & _ & _ & _ & _ & _ & _ & _ & _ & _ & H1 & H2 & _).
  exact (conj H1 H2).
Defined.

(** ** A correction: a rejection signed by mistake *)

Definition mistaken : CandidateHumanReview :=
  review_of "safety_product" "user:2" "reject" 21 None.
Definition mistaken_reviews : list CandidateHumanReview :=
  [review_of "assessment_semantics" "user:1" "approve" 20 None; mistaken].
Definition mistaken_sha : string :=
  Eval vm_compute in match review_fingerprint mistaken with Ok s => s | Err _ => "" end.
Definition correction0 : ReviewCorrection :=
  mk_ReviewCorrection "0b9c5a1e-6d3f-4a52-8e0e-0123456789ab" 5 6 mistaken_sha output_sha mistaken
    (review_of "safety_product" "user:2" "approve" 22 None).
Definition corrected_reviews : list CandidateHumanReview :=
  [review_of "assessment_semantics" "user:1" "approve" 20 None;
   review_of "safety_product" "user:2" "approve" 22 None].

Lemma correction_constructed : Forall constructed [correction0].
Proof. constructor; [vm_compute; reflexivity|constructor]. Qed.

Lemma corrections_preserve_signatures_witness :
  owner <$> corrected_reviews = owner <$> mistaken_reviews ∧
  corrected_reviews !! 0%nat = mistaken_reviews !! 0%nat.
Proof.
  destruct (corrections_preserve_signatures mistaken_reviews [correction0] 6 corrected_reviews)
    as (Ho & _ & _ & _ & Hi); [exact correction_constructed|vm_compute; reflexivity|].
  split; [exact Ho|]. refine (Hi 0%nat _ eq_refl _).
  intros c ->%list_elem_of_singleton. vm_compute. discriminate.
Defined.

Lemma validated_corrections_history_witness :
  history_valid [candidate0] (utc 16) "v2" corrected_reviews.
Proof.
  destruct (validated_corrections_history mistaken_reviews [correction0] [candidate0] (utc 16) 6
    (utc 23) "v2" corrected_reviews) as (_ & Hh & _); [vm_compute; reflexivity|].
  apply Hh. left. discriminate.
Defined.

(** ** The gates *)

Definition candidates0 : list QualityCandidate :=
  [mk_QualityCandidate "case-1" 1 "generation-2" candidate0].
Definition thresholds0 : QualityThresholds :=
  mk_QualityThresholds 1 1 2 (NFloat (float_of_decimal 95 (-2))) (NFloat (float_of_decimal 5 (-1)))
    (NInt 1) 1 1 [NInt 3; NInt 3; NInt 3; NInt 3; NInt 3]
    [NInt 4; NInt 4; NInt 4; NInt 4; NFloat (float_of_decimal 45 (-1))].
Definition gates_of (reviews : list CandidateHumanReview) (at_ : Z) : QualityGateResult :=
  match evaluate_quality_gates candidates0 generations0 [judgement] reviews thresholds0 (utc 16)
          (utc at_) (Some RULE_VERSION) with
  | Ok q => q
  | Err _ => mk_QualityGateResult (utc 0) [] [] [] []
  end.
Definition rejected_gates : QualityGateResult := Eval vm_compute in gates_of plain_reviews 25.
Definition approved_gates : QualityGateResult := Eval vm_compute in gates_of signed_reviews 33.

Lemma rejected :
  evaluate_quality_gates candidates0 generations0 [judgement] plain_reviews thresholds0 (utc 16)
    (utc 25) (Some RULE_VERSION) = Ok rejected_gates.
Proof. vm_compute. reflexivity. Qed.
Lemma approved :
  evaluate_quality_gates candidates0 generations0 [judgement] signed_reviews thresholds0 (utc 16)
    (utc 33) (Some RULE_VERSION) = Ok approved_gates.
Proof. vm_compute. reflexivity. Qed.

Lemma g5_exact_witness : human_complete plain_reviews "candidate-1".
Proof.
  destruct (g5_exact candidates0 generations0 [judgement] plain_reviews thresholds0 (utc 16)
    (utc 25) (Some RULE_VERSION) rejected_gates (proj1 reviews_constructed) rejected) as [H _].
  assert (passes rejected_gates "G5") as Hp by (unfold passes; cbn; set_solver).
  exact (proj1 (H Hp) (mk_QualityCandidate "case-1" 1 "generation-2" candidate0)
           (list_elem_of_here _ _)).
Defined.

Lemma g4_exact_witness : candidate_quality signed_reviews thresholds0 (utc 16)
  (mk_QualityCandidate "case-1" 1 "generation-2" candidate0).
Proof.
  destruct (g4_exact candidates0 generations0 [judgement] signed_reviews thresholds0 (utc 16)
    (utc 33) (Some RULE_VERSION) approved_gates approved) as (verdicts & _ & H & _).
  assert (passes approved_gates "G4") as Hp by (unfold passes; cbn; set_solver).
  exact (proj1 (H Hp) _ (list_elem_of_here _ _)).
Defined.

Lemma completion_rule_passes_g3_witness : passes rejected_gates "G3".
Proof.
  refine (completion_rule_passes_g3 candidates0 generations0 [judgement] plain_reviews thresholds0
    (utc 16) (utc 25) rejected_gates _ rejected).
  constructor; [exact (proj1 candidate_constructed)|constructor].
Defined.

Definition final0 : FinalReview := mk_FinalReview "user:9" "both reviewers agree" (utc 33) true.
Lemma approved_run_accountable_witness :
  final_status final0 = "approved" ∧ human_complete signed_reviews "candidate-1".
Proof.
  destruct (approved_run_accountable candidates0 generations0 [judgement] signed_reviews
    thresholds0 (utc 16) (utc 33) (Some RULE_VERSION) approved_gates "user:9"
    "both reviewers agree" final0 (proj2 reviews_constructed) approved) as [_ H];
    [vm_compute; reflexivity|].
  split; [reflexivity|].
  destruct (H eq_refl) as (_ & _ & Hall). apply (Hall _ (list_elem_of_here _ _)).
Defined.

(** ** The rejected run reopened *)

Definition reopening0 : ReviewReopening :=
  mk_ReviewReopening plain_reviews rejected_gates ["candidate-1"] "user:9" "judgement disputed"
    (utc 30).
Lemma reopen_review_sound_witness : 
  qg_gate_passes rejected_gates = REOPENABLE_GATES ∧
  ["candidate-1"] `sublist_of` ["candidate-1"].
Proof.
  destruct (reopen_review_sound [candidate0] plain_reviews rejected_gates (utc 16) "user:9"
    "judgement disputed" (utc 30) "rejected" "v2" 0 reopening0) as (_ & _ & _ & Hg & _ & _ & Hs & _);
    [vm_compute; reflexivity|].
  split; [exact Hg|exact Hs].
Defined.

Lemma reopening_history_sound_witness :
  dt_lt (utc 31) (utc 30) = Ok false ∧ length [reopening0] = 1%nat.
Proof.
  destruct (reopening_history_sound [reopening0] signed_reviews [candidate0] (utc 16) "v2")
    as (_ & H); [vm_compute; reflexivity|].
  destruct (H 0%nat reopening0 eq_refl) as (_ & _ & _ & _ & Hr & _).
  split; [|reflexivity].
  exact (Hr (review_of "assessment_semantics" "user:1" "approve" 31 (Some contradiction))
           (list_elem_of_here _ _) (list_elem_of_here _ _)).
Defined.
