(* ===== verification/InterpretationSamples.v ===== *)
(** * InterpretationSamples: an interpretation from its admission to its result

    Concrete runs on which the hypotheses of the theorems on sessions, the service, the capacity,
    the tables, the execution and the generation hold: a start over empty tables, its replay, two
    claims of its job, a model call, a result, a cancellation. *)
From stdpp Require Import relations.
From S2P Require Import Prelude PyText PyTime PyJson Transactions Session Service Tables Capacity.
From S2P Require Import MysqlUow Execution Generation.

Local Open Scope string_scope.
Local Open Scope Z_scope.

(** ** The participant, the evidence and the parameters *)

Definition actor0 : Actor := mk_Actor "7" "user-1".
Definition item0 : EvidenceItem :=
  mk_EvidenceItem "1001" "42" "report-1" "v3" [mk_Fact "standard_report" "{}"].
Definition evidence0 : list EvidenceItem := [item0].
Definition request0 : string := "0b9c5a1e-6d3f-4a52-8e0e-0123456789ab".

Definition policy0 : Z → unit → res (ParticipantCapacityPolicy * json) :=
  λ _ _, Ok (DEFAULT_PARTICIPANT_CAPACITY, JNull).
Definition plan0 (s : Session) (e : EvidenceSet) (_ : Tables unit) : res PlannedConfiguration :=
  Ok (mk_PlannedConfiguration (s_id s) (es_id e) (es_fingerprint e) "publication-1" "sha" 1 "{}").
Definition validate0 (_ : Session) (_ : option EvidenceSet) (_ : string) (_ : Tables unit)
    : res unit := Ok tt.
Definition artifact0 (_ : Claim) (_ : Session) (_ : EvidenceSet) (_ : CallRow) (_ : Tables unit)
    : res ArtifactCandidate := Err (ConfigurationUnavailable "Accepted evidence missing").
Definition authorize0 (_ : Actor) (_ : string) (_ : list string) : res unit := Ok tt.

(** A unit of work opened at a time of the database. *)
Definition settings0 (now : Z) : UowSettings := mk_UowSettings now "job-1" "event-1" (utc now) None.
Definition uow0 (now : Z) : UnitOfWork (Tables unit) := mysql_uow policy0 plan0 (settings0 now).

Definition empty_db : Tables unit := mk_Tables ∅ ∅ ∅ ∅ ∅ ∅ ∅ ∅ ∅ ∅ ∅ [] ∅ ∅ tt.

Definition value {A} (d : A) (m : res A) : A := match m with Ok a => a | Err _ => d end.

(** The database an operation leaves is named by its second component. *)
Lemma answers {A B} (p : A * B) a : p.1 = a → p = (a, p.2).
Proof. intros <-. by destruct p. Qed.

(** ** The admission *)

Definition start0 (request goal : string) (db : Tables unit) : res Receipt * Tables unit :=
  @start_external _ (uow0 0) "session-1" "run-1" "evidence-1" actor0 "42" ["1001"] goal request
    evidence0 db.
Definition receipt0 : Receipt := mk_Receipt "session-1" (Some "run-1") "queued" 2.
Definition started_db : Tables unit := (start0 request0 "goal" empty_db).2.

Lemma started : start0 request0 "goal" empty_db = (Ok receipt0, started_db).
Proof. apply (answers (start0 request0 "goal" empty_db)). vm_compute. reflexivity. Qed.

Lemma start_replay_witness :
  start0 request0 "goal" started_db = (Ok receipt0, started_db) ∧
  start0 request0 "another goal" started_db
    = (Err (RuleViolation "idempotency_conflict"), started_db).
Proof.
  pose proof (@start_replay _ (uow0 0) (mysql_laws policy0 plan0 (settings0 0)) "session-1" "run-1"
    "evidence-1" actor0 "42" ["1001"] "goal" request0 evidence0 empty_db receipt0 started_db
    started_db started (λ _, eq_refl)) as [Hsame Hother].
  split; [exact Hsame|].
  refine (Hother actor0 "42" ["1001"] "another goal" evidence0
            (value "" (start_hash actor0 "42" ["1001"] "goal" evidence0))
            (value "" (start_hash actor0 "42" ["1001"] "another goal" evidence0)) _ _ _ _);
    vm_compute; [reflexivity..|discriminate].
Defined.

Lemma start_outcomes_witness :
  started_db = empty_db ∨
  ∃ s, sql_stored started_db "session-1" = Some s ∧ receipt0 = session_receipt s ∧
    s_actor s = actor0 ∧ s_active_run_id s = Some "run-1" ∧
    ((s_status s = QUEUED ∧ s_version s = 2 ∧ s_evidence_set_id s = Some "evidence-1" ∧
      evidence_validate (mk_EvidenceSet "" "" "" evidence0) "42" ["1001"] = Ok tt) ∨
     (s_status s = BLOCKED ∧ s_version s = 4 ∧ is_Some (s_failure_code s))).
Proof.
  exact (@start_outcomes _ (uow0 0) (mysql_laws policy0 plan0 (settings0 0)) "session-1" "run-1"
    "evidence-1" actor0 "42" ["1001"] "goal" request0 evidence0 empty_db receipt0 started_db started).
Defined.

Lemma admission_tables_witness :
  r_status receipt0 = "queued" ∧
  t_jobs started_db = {["job-1" := mk_JobRow "run-1" "session-1" "queued" 0 None 0 0 None false None]} ∧
  started_db ≠ empty_db.
Proof.
  destruct (admission_tables policy0 plan0 (settings0 0) "session-1" "run-1" "evidence-1" actor0 "42"
    ["1001"] "goal" request0 evidence0 empty_db receipt0 started_db started)
    as [H|[(Hs & _ & _ & _ & Hj & _)|[Hs _]]].
  - apply (f_equal (λ db, t_jobs db !! "job-1")) in H. vm_compute in H. discriminate.
  - split; [exact Hs|]. split; [rewrite Hj; reflexivity|].
    intros H. apply (f_equal (λ db, t_jobs db !! "job-1")) in H. vm_compute in H. discriminate.
  - discriminate.
Defined.

(** ** The cancellation *)

Definition cancel0 (version : Z) (db : Tables unit) : res Receipt * Tables unit :=
  @change _ (uow0 5) authorize0 "run-2" actor0 "session-1" (CancelCommand (JInt version)) "key-1" db.
Definition cancelled_receipt : Receipt := mk_Receipt "session-1" (Some "run-1") "cancelled" 3.
Definition cancelled_db : Tables unit := (cancel0 2 started_db).2.

Lemma cancelled : cancel0 2 started_db = (Ok cancelled_receipt, cancelled_db).
Proof. apply (answers (cancel0 2 started_db)). vm_compute. reflexivity. Qed.

Lemma cancelled_other : cancelled_db ≠ started_db.
Proof.
  intros H. apply (f_equal (λ db, j_status <$> t_jobs db !! "job-1")) in H.
  vm_compute in H. discriminate.
Qed.

Lemma change_replay_witness : cancel0 2 cancelled_db = (Ok cancelled_receipt, cancelled_db).
Proof.
  exact (@change_replay _ (uow0 5) (mysql_laws policy0 plan0 (settings0 5)) authorize0 "run-2" actor0
    "session-1" (CancelCommand (JInt 2)) "key-1" started_db cancelled_receipt cancelled_db cancelled).
Defined.

Lemma change_conflict_witness :
  cancel0 3 cancelled_db = (Err (RuleViolation "idempotency_conflict"), cancelled_db).
Proof.
  refine (@change_conflict _ (uow0 5) (mysql_laws policy0 plan0 (settings0 5)) authorize0 "run-2"
    actor0 "session-1" (CancelCommand (JInt 2)) (CancelCommand (JInt 3)) "key-1" started_db
    cancelled_receipt cancelled_db
    (value "" (fingerprint (command_definition (CancelCommand (JInt 2)))))
    (value "" (fingerprint (command_definition (CancelCommand (JInt 3))))) cancelled eq_refl _ _ _);
    vm_compute; [reflexivity..|discriminate].
Defined.

Lemma change_effect_witness :
  ∃ s s', sql_stored started_db "session-1" = Some s ∧ sql_stored cancelled_db "session-1" = Some s' ∧
    cancelled_receipt = session_receipt s' ∧ r_version cancelled_receipt = s_version s + 1.
Proof.
  destruct (@change_effect _ (uow0 5) (mysql_laws policy0 plan0 (settings0 5)) authorize0 "run-2"
    actor0 "session-1" (CancelCommand (JInt 2)) "key-1" started_db (Ok cancelled_receipt) cancelled_db
    cancelled) as [H|(s & s' & cmd & Hs & _ & _ & _ & _ & Hr & Hv & Hst)];
    [destruct (cancelled_other H)|].
  exists s, s'. split; [exact Hs|]. split; [exact (Hst "session-1")|]. split; [exact Hr|exact Hv].
Defined.

Definition cancelled_row : JobRow :=
  mk_JobRow "run-1" "session-1" "cancelled" 0 None 0 0 None false None.
Lemma cancel_stops_work_witness :
  t_jobs cancelled_db !! "job-1" = Some cancelled_row ∧
  j_status cancelled_row ≠ "queued" ∧ j_status cancelled_row ≠ "leased".
Proof.
  assert (t_jobs cancelled_db !! "job-1" = Some cancelled_row) as Hj
    by (vm_compute; reflexivity).
  split; [exact Hj|].
  destruct (cancel_stops_work policy0 plan0 (settings0 5) "run-2" authorize0 actor0 "session-1"
    (JInt 2) "key-1" started_db cancelled_receipt cancelled_db cancelled) as [H|[H _]];
    [destruct (cancelled_other H)|exact (H "job-1" cancelled_row Hj eq_refl)].
Defined.

(** ** Two claims of the job, a model call and a result *)

Definition claim0 (now : Z) (db : Tables unit) : res ClaimStage * Tables unit :=
  claim_in policy0 (settings0 now) 3 "job-1" "session-1" db.
Definition first_claim : Claim :=
  mk_Claim "job-1" "run-1"
    (mk_Session "session-1" actor0 "42" ["1001"] "goal" RUNNING 3 (Some "run-1") None
       (Some "evidence-1") "qs-published-snapshot-v1" None) 1 None false None.
Definition second_claim : Claim :=
  mk_Claim "job-1" "run-1"
    (mk_Session "session-1" actor0 "42" ["1001"] "goal" RUNNING 4 (Some "run-1") None
       (Some "evidence-1") "qs-published-snapshot-v1" None) 2 None false None.
Definition claimed_db : Tables unit := (claim0 1000000 started_db).2.
Definition reclaimed_db : Tables unit := (claim0 9000000 claimed_db).2.

Lemma claimed : claim0 1000000 started_db = (Ok (Claimed first_claim), claimed_db).
Proof. apply (answers (claim0 1000000 started_db)). vm_compute. reflexivity. Qed.

Lemma reclaimed : claim0 9000000 claimed_db = (Ok (Claimed second_claim), reclaimed_db).
Proof. apply (answers (claim0 9000000 claimed_db)). vm_compute. reflexivity. Qed.

Notation step0 := (exec_step policy0 validate0 artifact0 plan0).

Definition waiting : Session :=
  mk_Session "session-1" actor0 "42" ["1001"] "goal" QUEUED 2 (Some "run-1") None
    (Some "evidence-1") "qs-published-snapshot-v1" None.
Definition queued : JobRow := mk_JobRow "run-1" "session-1" "queued" 0 None 0 0 None false None.
Definition slot0 : res bool * Tables unit :=
  slot_answer policy0 (settings0 1000000) "session-1" waiting started_db.
Lemma waiting_due : due 1000000 started_db "job-1" "session-1" waiting queued.
Proof. split; try (left; reflexivity); vm_compute; reflexivity. Qed.

Lemma claim_in_sound_witness :
  claim_outcome policy0 (settings0 1000000) 3 "job-1" "session-1" started_db
    (Claimed first_claim) claimed_db ∧
  ∃ c db', claim0 1000000 started_db = (Ok (Claimed c), db').
Proof.
  destruct (claim_in_sound policy0 (settings0 1000000) 3 "job-1" "session-1" started_db) as [H1 H2].
  split; [exact (H1 (Claimed first_claim) claimed_db claimed)|].
  assert (Hslot : slot0 = (Ok true, slot0.2)) by (apply (answers slot0); vm_compute; reflexivity).
  refine (H2 waiting queued (cl_session first_claim) slot0.2
            (sql_save (settings0 1000000) (cl_session first_claim) slot0.2).2 _ waiting_due _ _ Hslot _ _);
    [vm_compute; discriminate|reflexivity|vm_compute; discriminate|reflexivity|].
  apply (answers (sql_save (settings0 1000000) (cl_session first_claim) slot0.2)).
  vm_compute. reflexivity.
Defined.

Lemma stale_claim_refused_witness : refused validate0 artifact0 first_claim reclaimed_db.
Proof.
  exact (proj2 (stale_claim_refused policy0 validate0 artifact0 plan0 (settings0 1000000) 3 "job-1"
    (settings0 9000000) 3 "job-1" "session-1" first_claim second_claim started_db claimed_db claimed_db
    reclaimed_db reclaimed_db claimed (rtc_refl step0 claimed_db) reclaimed
    (rtc_refl step0 reclaimed_db))).
Defined.

Definition finish0 (db : Tables unit) : res unit * Tables unit :=
  finish_in validate0 artifact0 (settings0 2000000) 2000001 "question-1" first_claim
    (mk_WorkflowResult "checkpoint" (Some "Which day?") true None None) db.
Definition finished_db : Tables unit := (finish0 claimed_db).2.

Lemma finished : finish0 claimed_db = (Ok tt, finished_db).
Proof. apply (answers (finish0 claimed_db)). vm_compute. reflexivity. Qed.

Lemma finish_once_witness :
  (∃ s', sql_stored finished_db "session-1" = Some s' ∧ s_status s' = AWAITING_ANSWER) ∧
  refused validate0 artifact0 first_claim finished_db.
Proof.
  destruct (finish_once policy0 validate0 artifact0 plan0 (settings0 2000000) 2000001 "question-1"
    first_claim (mk_WorkflowResult "checkpoint" (Some "Which day?") true None None) claimed_db
    finished_db finished_db finished (rtc_refl step0 finished_db))
    as [(s & s' & [[Hs _ _ _ _ _] _ [Hx _] _ Hst _ _ _ _]) Href].
  split; [|exact Href]. exists s'. apply (execute_identity (AwaitAnswer _)) in Hx as Hid.
  destruct Hid as [Hid _]. apply (execute_Ok (AwaitAnswer _)) in Hx as [_ Hx].
  destruct (stored_storable _ _ _ Hs) as [Hids _]. split; [|rewrite Hx; reflexivity].
  rewrite (Hst "session-1"), Hid, Hids, decide_True by reflexivity. reflexivity.
Defined.

(** ** The gateway *)

Definition begin0 : res (ModelCall * bool) * Tables unit :=
  begin_model_call validate0 2000000 2000001 "invocation-1" first_claim "{}" claimed_db.
Definition call0 : ModelCall := mk_ModelCall "invocation-1" "dispatched" "{}" None None.

Lemma begun : begin0 = (Ok (call0, true), begin0.2).
Proof. apply (answers begin0). vm_compute. reflexivity. Qed.

Lemma gateway_called_once_witness :
  NoDup ((@w_sent string unit (mk_World begin0.2 [] [("run-1", "invocation-1")])).*1).
Proof.
  refine (proj1 (gateway_called_once (λ f, f) (λ s, Ok s) (λ s, Ok s) (λ _, None) (λ _, "model")
    (λ _, "invocation-1") (λ _, "model") policy0 validate0 artifact0 plan0 claimed_db
    (mk_World begin0.2 [] [("run-1", "invocation-1")]) _)).
  eapply rtc_l; [exact (w_begin (λ f, f) (λ s, Ok s) (λ s, Ok s) (λ _, None) (λ _, "model")
    (λ _, "invocation-1") (λ _, "model") policy0 validate0 artifact0 plan0 2000000 2000001
    "invocation-1" first_claim "{}" call0 true "{}" claimed_db begin0.2 [] [] begun eq_refl)|].
  apply rtc_once. exact (w_send _ _ _ _ _ _ _ policy0 validate0 artifact0 plan0
    (first_claim, call0, "{}") [] [] begin0.2 []).
Defined.

(** ** The session alone *)

Definition session0 : Session := new_session "session-1" actor0 "42" ["1001"] "goal".
Definition queued0 : Session := moved session0 QUEUED (Some "run-1") None None.
Definition cancelled0 : Session := moved queued0 CANCELLED (Some "run-1") None None.

Lemma session_reachable_witness : session_inv cancelled0 ∧ s_id cancelled0 = "session-1".
Proof.
  assert (rtc step session0 cancelled0) as H.
  { eapply rtc_l; [exact (step_command (Queue "run-1" None) session0 queued0 eq_refl)|].
    apply rtc_once. exact (step_command Cancel queued0 cancelled0 eq_refl). }
  destruct (session_reachable "session-1" actor0 "42" ["1001"] "goal" cancelled0 H) as (Hi & Hid & _).
  split; [exact Hi|exact Hid].
Defined.

Lemma terminal_final_witness :
  terminal cancelled0 ∧ execute Cancel cancelled0 ≠ Ok cancelled0.
Proof.
  split; [exact (or_introl eq_refl)|].
  exact (proj1 (terminal_final cancelled0 cancelled0 (or_introl eq_refl)
                  (rtc_refl step cancelled0)) Cancel cancelled0).
Defined.

Lemma version_lock_witness :
  (expect queued0 1 ;; execute Cancel queued0) = Err (RuleViolation "version_conflict").
Proof.
  exact (version_lock session0 (Queue "run-1" None) queued0 queued0 1 Cancel eq_refl eq_refl
           (rtc_refl step queued0)).
Defined.

Lemma evidence_validate_iff_witness :
  evidence_validate (mk_EvidenceSet "" "" "" evidence0) "42" ["1001"] = Ok tt ∧
  ei_assessment_id <$> evidence0 ≡ₚ ["1001"].
Proof.
  split; [reflexivity|].
  exact (proj1 (proj2 (proj1 (evidence_validate_iff (mk_EvidenceSet "" "" "" evidence0) "42" ["1001"]
    (NoDup_singleton "1001")) eq_refl))).
Defined.

(** ** The capacity alone *)

Definition acquire0 (db : Tables unit) : res bool * Tables unit := acquire policy0 queued0 (utc 10) db.
Definition acquired_db : Tables unit := (acquire0 empty_db).2.
Definition release0 : res unit * Tables unit := release queued0 (utc 20) acquired_db.

Lemma acquired : acquire0 empty_db = (Ok true, acquired_db).
Proof. apply (answers (acquire0 empty_db)). vm_compute. reflexivity. Qed.

Lemma slot_lifecycle_witness :
  (acquire policy0 queued0 (utc 30) release0.2).1
    = Err (RuleViolation "participant_slot_already_released").
Proof.
  refine (proj2 (proj2 (slot_lifecycle policy0 queued0 (utc 10) (utc 20) (utc 30) empty_db acquired_db
    release0.2 acquired)) _).
  apply (answers release0). vm_compute. reflexivity.
Defined.

Lemma empty_in_budget : in_budget policy0 empty_db.
Proof.
  intros org p snapshot [= <- _].
  assert (∀ limits, 0 <= limits.1.1 → 0 <= limits.1.2 → 0 <= limits.2 → within limits []) as H.
  { intros limits ? ? ?. split; [done|]. by split. }
  split; [intros day|]; apply H; vm_compute; discriminate.
Qed.

Lemma capacity_invariant_witness : in_budget policy0 acquired_db.
Proof.
  exact (capacity_invariant policy0 empty_db acquired_db empty_in_budget
    (rtc_once _ _ (step_acquire policy0 queued0 (utc 10) (Ok true) empty_db acquired_db acquired))).
Defined.
