(* ===== verification/CapacitySamples.v ===== *)
(** * CapacitySamples: quotas, participant slots and provider capacity on concrete inputs

    Runs on which the hypotheses of the theorems on quotas, on the ceilings of the deployment and
    on the capacity of the model providers hold. *)
From stdpp Require Import relations.
From S2P Require Import Prelude PyText PyTime PyJson JsonRoundTrip Transactions Session Tables.
From S2P Require Import Capacity Quotas ModelCapacity.

Local Open Scope string_scope.
Local Open Scope Z_scope.

(** ** A text *)

Definition answer {A} (d : A) (m : res A) : A := match m with Ok a => a | Err _ => d end.
Definition document0 : json :=
  JObj [("b", JList [JInt (-3); JNull; JBool true]); ("a", JStr "x")].

Lemma snapshot_round_trip_witness :
  ∃ raw, encode document0 = Ok raw ∧ (∃ d, checked raw (digest raw) = Ok d ∧ json_eqb document0 d = true)
    ∧ checked raw "" = Err (ValueError "Quota snapshot checksum mismatch").
Proof.
  exists (answer "" (encode document0)).
  assert (encode document0 = Ok (answer "" (encode document0))) as He by (vm_compute; reflexivity).
  destruct (snapshot_round_trip document0 (answer "" (encode document0)) eq_refl He)
    as [(d & Hd & Heq & _) Hother].
  split; [exact He|]. split; [exists d; exact (conj Hd Heq)|]. apply Hother. vm_compute. discriminate.
Defined.

(** ** Quotas *)

Definition values1 : QuotaValues :=
  mk_QuotaValues (mk_ParticipantCapacityPolicy 100 5 3 4 2 1) (mk_EvaluationCapacityPolicy 512 1).
Definition values2 : QuotaValues :=
  mk_QuotaValues (mk_ParticipantCapacityPolicy 900 5 3 4 2 1) (mk_EvaluationCapacityPolicy 512 2).
Definition scope0 : DraftScope := mk_DraftScope 7 9.
Definition scope1 : DraftScope := mk_DraftScope 7 11.
Definition empty_tables : Tables QuotaTables :=
  mk_Tables ∅ ∅ ∅ ∅ ∅ ∅ ∅ ∅ ∅ ∅ ∅ [] ∅ ∅ no_quotas.

Lemma named {A B} (p : A * B) a : p.1 = a → p = (a, p.2).
Proof. intros <-. by destruct p. Qed.

Definition baseline0 : QuotaBaseline := default_baseline.
Definition apply0 (scope : DraftScope) (command expected : Z) (values : option QuotaValues)
    (target : option Z) (db : Tables QuotaTables) : res json * Tables QuotaTables :=
  apply baseline0 scope command expected "season" (utc 1000000) values target db.

Lemma values1_valid w : Some values1 = Some w → valid w.
Proof. intros [= <-]. by split. Qed.
Lemma ceilings_valid : valid (ceilings baseline0).
Proof. by split. Qed.

Definition quota_db : Tables QuotaTables := (apply0 scope0 1 0 (Some values1) None empty_tables).2.
Definition quota_result : json :=
  Eval vm_compute in answer JNull (apply0 scope0 1 0 (Some values1) None empty_tables).1.
Lemma quota_applied :
  apply0 scope0 1 0 (Some values1) None empty_tables = (Ok quota_result, quota_db).
Proof. apply (named (apply0 scope0 1 0 (Some values1) None empty_tables)). vm_compute. reflexivity. Qed.

Lemma bounded_exact_witness :
  bounded values2 (ceilings baseline0)
  = Ok (mk_QuotaValues (mk_ParticipantCapacityPolicy 500 5 3 4 2 1)
          (mk_EvaluationCapacityPolicy 512 1),
        ["participant.daily_org"; "evaluation.max_active_runs"]) ∧
  validate_write values1 (ceilings baseline0) = Ok tt ∧ below values1 (ceilings baseline0).
Proof.
  destruct (bounded_exact values2 (ceilings baseline0) (conj eq_refl eq_refl) ceilings_valid)
    as [H _].
  destruct (bounded_exact values1 (ceilings baseline0) (conj eq_refl eq_refl) ceilings_valid)
    as (_ & _ & _ & H1 & _).
  split; [exact H|]. assert (validate_write values1 (ceilings baseline0) = Ok tt) as Hw
    by (vm_compute; reflexivity).
  split; [exact Hw|]. by apply H1.
Defined.

Lemma quota_apply_exact_witness :
  json_item quota_result "revision" = Ok (JInt 1) ∧
  configuration 7 (t_rest quota_db) = Ok (Some values1, 1).
Proof.
  destruct (quota_apply_exact baseline0 scope0 1 0 "season" (utc 1000000) (Some values1) None
    empty_tables quota_result quota_db no_quotas_kept ceilings_valid values1_valid eq_refl
    quota_applied) as (_ & v & _ & [= <-] & Hc & Hr & _).
  split; [exact Hr|exact Hc].
Defined.

Lemma quota_replay_witness :
  (∃ again, apply0 scope0 1 0 (Some values1) None quota_db = (Ok again, quota_db) ∧
     json_eqb quota_result again = true) ∧
  receipt_of scope1 1 None (t_rest quota_db) = Err NotFound.
Proof.
  destruct (quota_replay baseline0 scope0 1 0 "season" (utc 1000000) (Some values1) None
    empty_tables quota_result quota_db quota_db no_quotas_kept ceilings_valid values1_valid eq_refl
    quota_applied (rtc_refl _ _)) as (Hsame & Hother & _).
  split; [exact Hsame|]. by apply (Hother 11).
Defined.

Lemma quota_no_lost_update_witness :
  apply0 scope1 2 0 None (Some 1) quota_db
  = (Err (DraftConflict "Quota revision changed"), quota_db).
Proof.
  refine (quota_no_lost_update baseline0 scope0 1 0 "season" (utc 1000000) (Some values1) None
    empty_tables quota_result quota_db quota_db scope1 2 "season" (utc 1000000) None (Some 1)
    no_quotas_kept ceilings_valid values1_valid eq_refl quota_applied (rtc_refl _ _) eq_refl _ _ _).
  - vm_compute. reflexivity.
  - unfold accepted_form. split_and!; try (vm_compute; (reflexivity || discriminate)).
    by intros r [= <-].
  - exists (answer "" (request_of 0 "season" None (Some 1))). vm_compute. reflexivity.
Defined.

Lemma policy_always_readable_witness :
  ∃ v snapshot, valid v ∧ below v (ceilings baseline0) ∧
    participant_policy DEFAULT_PARTICIPANT_CAPACITY (Some baseline0) 7 (t_rest quota_db)
    = Ok (participant v, JObj snapshot).
Proof.
  destruct (policy_always_readable baseline0 baseline0 DEFAULT_PARTICIPANT_CAPACITY 7 empty_tables
    quota_db ceilings_valid ceilings_valid ceilings_valid eq_refl) as (v & s & Hv & Hb & Hp & _).
  - apply rtc_once. exists scope0, 1, 0, "season", (utc 1000000), (Some values1), None, (Ok quota_result).
    split; [exact values1_valid|exact quota_applied].
  - exists v, s. exact (conj Hv (conj Hb Hp)).
Defined.

Lemma quota_db_kept : well_kept (t_rest quota_db).
Proof.
  eapply (quota_step_effect baseline0 empty_tables); [exact ceilings_valid|exact no_quotas_kept|].
  exists scope0, 1, 0, "season", (utc 1000000), (Some values1), None, (Ok quota_result).
  split; [exact values1_valid|exact quota_applied].
Qed.

Lemma history_page_exact_witness :
  ∃ items, history scope0 0 quota_db = (Ok (items, 0), quota_db) ∧ length items = 1%nat.
Proof.
  destruct (history_page_exact scope0 0 quota_db quota_db_kept ltac:(done)) as (items & Hh & Hi & _).
  exists items. split; [exact Hh|]. apply Forall2_length in Hi. rewrite Hi. vm_compute. reflexivity.
Defined.

(** ** Slots under the quota *)

Definition session0 : Session :=
  mk_Session "session-1" (mk_Actor "7" "user-1") "42" ["1001"] "goal" QUEUED 2 (Some "run-1") None
    (Some "evidence-1") "v1" None.
Definition acquire0 (db : Tables QuotaTables) : res bool * Tables QuotaTables :=
  acquire (participant_policy DEFAULT_PARTICIPANT_CAPACITY (Some baseline0)) session0 (utc 2000000) db.
Definition slot_db : Tables QuotaTables := (acquire0 quota_db).2.
Lemma slot_acquired : acquire0 quota_db = (Ok true, slot_db).
Proof. apply (named (acquire0 quota_db)). vm_compute. reflexivity. Qed.

Lemma empty_under_ceilings : in_budget (ceiling_policy baseline0) empty_tables.
Proof.
  intros org p snapshot [= <- _].
  assert (∀ limits, 0 <= limits.1.1 → 0 <= limits.1.2 → 0 <= limits.2 → within limits []) as H.
  { intros limits ? ? ?. split; [done|]. by split. }
  split; [intros day|]; apply H; vm_compute; discriminate.
Qed.

Lemma ceilings_hold_witness :
  well_kept (t_rest slot_db) ∧
  within (active_limits DEFAULT_PARTICIPANT_CAPACITY) (select_reservations (active_of 7) slot_db).
Proof.
  destruct (ceilings_hold baseline0 DEFAULT_PARTICIPANT_CAPACITY empty_tables slot_db ceilings_valid
    ceilings_valid no_quotas_kept empty_under_ceilings) as [Hk Hw].
  - eapply rtc_l; [right|apply rtc_once; left].
    + exists scope0, 1, 0, "season", (utc 1000000), (Some values1), None, (Ok quota_result).
      split; [exact values1_valid|exact quota_applied].
    + exact (step_acquire _ session0 (utc 2000000) (Ok true) quota_db slot_db slot_acquired).
  - split; [exact Hk|]. apply (Hw 7).
Defined.

(** ** Provider capacity *)

Definition providers0 : gmap string ProviderCapacity := {["model" := mk_ProviderCapacity 1 0]}.
Lemma providers0_constructed p l : providers0 !! p = Some l → constructed l.
Proof. unfold providers0. intros [<- <-]%lookup_singleton_Some. reflexivity. Qed.

Definition capacity_at (active : Z) : ModelCapacity :=
  mk_ModelCapacity providers0 4 {["model" := active]} {["model" := 0]} false.
Definition token0 : CapacityToken := mk_CapacityToken "model" false false.
Definition waiting : World := mk_World (capacity_at 1) [token0] [("model", false)].

Lemma waiting_reached : rtc w_step (mk_World (capacity_at 0) [] []) waiting.
Proof.
  eapply rtc_l; [apply (w_call "model" token0 _ (capacity_at 1)); vm_compute; reflexivity|].
  apply rtc_once. apply (w_sleep "model" _ (capacity_at 1)). vm_compute. reflexivity.
Qed.
Lemma capacity_new : new_capacity providers0 4 = Ok (capacity_at 0).
Proof. vm_compute. reflexivity. Qed.

Lemma model_capacity_limits_witness :
  count_of (held "model") (w_tokens waiting) <= 1.
Proof.
  exact (proj1 (model_capacity_limits providers0 4 (capacity_at 0) waiting "model"
    (mk_ProviderCapacity 1 0) providers0_constructed capacity_new waiting_reached eq_refl)).
Defined.

Lemma waiting_generation_progress_witness :
  ∃ w1 w2 t, w_step waiting w1 ∧ w_step w1 w2 ∧ w_tokens w2 = (w_tokens w1 ++ [t])%list ∧
    held "model" t.
Proof.
  destruct (waiting_generation_progress providers0 4 (capacity_at 0) waiting "model"
    providers0_constructed capacity_new waiting_reached ltac:(left))
    as (l & i & t & _ & _ & _ & _ & w1 & H1 & _ & w2 & t' & H2 & Ht & Hh).
  exists w1, w2, t'. by split_and!.
Defined.
