(* ===== verification/PublicationSamples.v ===== *)
(** * PublicationSamples: a configuration that is published, disabled and resolved

    A publication Python could build, the pointer it becomes active on and the queries that resolve
    to it: the inputs on which the hypotheses of the theorems on publications hold. *)
From stdpp Require Import relations.
From S2P Require Import Prelude PyText PyTime PyHash PyJson Gates Publication.

Local Open Scope string_scope.
Local Open Scope Z_scope.

Definition selector0 : ReleaseSelector :=
  mk_ReleaseSelector "participant" "scale" "score_range" None None.
Definition selector1 : ReleaseSelector :=
  mk_ReleaseSelector "participant" "scale" "score_range" (Some "SDS") None.
Definition query0 : ReleaseSelector :=
  mk_ReleaseSelector "participant" "scale" "score_range" (Some "SDS") (Some "v1").

Definition text (m : res string) : string := match m with Ok t => t | Err _ => "" end.

(** ** The assets of a release *)

Definition profile_definition : json :=
  JObj [("profile_id", JStr "profile"); ("version", JStr "1");
        ("generation_policy",
         JObj [("prompt_template_id", JStr "prompt"); ("prompt_version", JStr "2");
               ("provider_route", JStr "route"); ("input_schema_version", JStr "input/v1");
               ("output_schema_version", JStr "output/v1")]);
        ("selector", selector_dict selector1)].
Definition profile_text : string := Eval vm_compute in text (dumps_with compact profile_definition).
Definition profile0 : ProfileAsset :=
  mk_ProfileAsset "profile" "1" (fingerprint_of profile_text) profile_text.

Definition asset (identity version : string) : AssetReference :=
  mk_AssetReference identity version (fingerprint_of identity) (sha256_hex identity).
Definition manifest0 : GenerationManifest :=
  mk_GenerationManifest
    (mk_AssetReference "profile" "1" (fingerprint_of profile_text) (sha256_hex profile_text))
    (asset "prompt" "2") (asset "route" "3") (asset "input" "v1") (asset "output" "v1").
Definition ref (id version : string) : FrozenContractRef :=
  mk_FrozenContractRef id version (fingerprint_of id).
Definition release0 : EvidenceReleaseIdentity :=
  mk_EvidenceReleaseIdentity (ref "suite" "1") (ref "prompt" "2")
    (mk_FrozenContractRef "profile" "1" (fingerprint_of profile_text))
    (ref "input" "input/v1") (ref "output" "output/v1") (ref "route" "3")
    (ref "semantic" "1") (ref "semantic-output" "1") (ref "semantic-route" "1")
    (ref "execution" "1") (ref "gate" "1").

Definition review0 : FinalReview := mk_FinalReview "user:9" "all gates passed" (utc 1000) true.
Definition audit0 : PublicationAudit := mk_PublicationAudit "user:9" "release" (utc 2000).
Definition audit1 : PublicationAudit := mk_PublicationAudit "user:9" "stop" (utc 3000).
Definition evidence0 : PublicationEvidence :=
  mk_PublicationEvidence profile0 manifest0 release0 17 4 review0
    (text (manifest_fingerprint manifest0)).
Definition publication0 : PublishedConfiguration :=
  mk_PublishedConfiguration 21 evidence0 audit0.

Example publication_constructed :
  constructed profile0 ∧ constructed evidence0 ∧ constructed audit0 ∧ constructed publication0.
Proof. split_and!; vm_compute; reflexivity. Qed.

(** ** The pointer of the selector *)

Definition pointer0 : PublicationPointer := initial_pointer selector1.
Definition pointer1 : PublicationPointer :=
  mk_PublicationPointer selector1 1 (Some publication0) (Some (utc 2000)).
Definition pointer2 : PublicationPointer := mk_PublicationPointer selector1 2 None (Some (utc 3000)).
Definition change1 : PublicationChange := mk_PublicationChange pointer0 pointer1 "publish" audit0.
Definition change2 : PublicationChange := mk_PublicationChange pointer1 pointer2 "disable" audit1.

Lemma published :
  change_publication pointer0 (Some publication0) "publish" audit0 0 None = Ok change1.
Proof. vm_compute. reflexivity. Qed.
Lemma disabled : change_publication pointer1 None "disable" audit1 1 (Some 21) = Ok change2.
Proof. vm_compute. reflexivity. Qed.

Lemma moved1 : moved pointer0 pointer1.
Proof. by exists (Some publication0), "publish", audit0, 0, None, change1. Qed.
Lemma moved2 : moved pointer1 pointer2.
Proof. by exists None, "disable", audit1, 1, (Some 21), change2. Qed.

Lemma pointer_history_witness :
  pp_version pointer1 = 1 ∧ evidence_selector (pu_evidence publication0) = Ok selector1.
Proof.
  destruct (pointer_history selector1 1 pointer1 pointer2 (nsteps_l _ _ _ _ _ moved1 (nsteps_O _ _)) moved2)
    as (_ & _ & Hv & Hact & _).
  split; [exact Hv|]. exact (proj1 (Hact publication0 eq_refl)).
Defined.

Lemma change_once_witness :
  change_publication pointer2 (Some publication0) "publish" audit0 0 None
  = Err (PublicationConflict "Current publication changed; refresh before confirming").
Proof.
  exact (change_once pointer0 (Some publication0) "publish" audit0 0 None change1 pointer2
    (Some publication0) "publish" audit0 None published (rtc_once _ _ moved2)).
Defined.

(** ** Queries *)

Definition base0 : PublicationPointer := initial_pointer selector0.
Definition catalog0 : list PublicationPointer := [base0; pointer0].
Lemma catalog_keys : NoDup (pp_selector <$> catalog0).
Proof. apply (bool_decide_unpack _). vm_compute. exact I. Qed.
Lemma catalog1_keys : NoDup (pp_selector <$> [base0; pointer1]).
Proof. apply (bool_decide_unpack _). vm_compute. exact I. Qed.
Lemma catalog_selectors p' : p' ∈ catalog0 → constructed (pp_selector p').
Proof.
  unfold catalog0. rewrite elem_of_cons, list_elem_of_singleton. by intros [->| ->].
Qed.
Lemma catalog1_selectors p' : p' ∈ [base0; pointer1] → constructed (pp_selector p').
Proof. rewrite elem_of_cons, list_elem_of_singleton. by intros [->| ->]. Qed.

Lemma change_resolves_witness :
  resolve_publication [base0; pointer1] selector1 = Ok (Some publication0).
Proof.
  exact (change_resolves [base0] pointer0 [] (Some publication0) "publish" audit0 0 None change1
    catalog_keys catalog_selectors published).
Defined.

Lemma resolution_exact_witness :
  resolve_publication [base0; pointer1] query0 = Ok (Some publication0) ∧
  resolve_publication [pointer1; base0] query0 = resolve_publication [base0; pointer1] query0.
Proof.
  destruct (resolution_exact [base0; pointer1] query0 catalog1_keys catalog1_selectors) as [_ Hperm].
  split; [vm_compute; reflexivity|]. apply Hperm. apply Permutation_swap.
Defined.

Lemma candidates_suffice_witness :
  ∃ cs, admission_candidates query0 = Ok cs ∧ length cs = 3%nat ∧
    resolve_publication (filter (λ p, pp_selector p ∈ cs) [base0; pointer1]) query0
    = resolve_publication [base0; pointer1] query0.
Proof.
  destruct (candidates_suffice [base0; pointer1] query0 eq_refl catalog1_selectors) as (cs & Hcs & Hr).
  exists cs. split; [exact Hcs|]. split; [|exact Hr]. injection Hcs as <-. reflexivity.
Defined.
