(* ===== verification/ClaimSamples.v ===== *)
(** * ClaimSamples: checkpoints, claims and dispatches on concrete inputs

    A candidate run with a frozen policy of two executions per slot: a claim is prepared,
    dispatched and released, and its slot is claimed again. *)
From S2P Require Import Prelude PyText PyTime PyHash PyJson JsonRoundTrip PyIso Transactions Tables.
From S2P Require Import Failure Checkpoint Actions Publication Policies.
From S2P Require Import CheckpointRecords SlotClaims DispatchLedger.

Local Open Scope string_scope.
Local Open Scope Z_scope.

Definition value_of {A} (d : A) (m : res A) : A := match m with Ok a => a | Err _ => d end.

Lemma ran {DB A} (m : tx DB A) db a : (m db).1 = Ok a → m db = (Ok a, (m db).2).
Proof. intros <-. by destruct (m db). Qed.

(** ** A policy *)

Definition selectors0 : json :=
  JList [JObj [("stage", JStr "semantic_evaluation"); ("code", JStr "timeout")]].
Definition policy_document : json :=
  JObj [("policy_id", JStr "bounded-recovery"); ("version", JStr "v2");
        ("slot_policy", JObj [("required_generation_cases", JInt 7);
                              ("required_candidates_per_case", JInt 5);
                              ("required_preflight_cases", JInt 1)]);
        ("generation_budget", JObj [("max_executions_per_slot", JInt 2);
                                    ("max_executions_per_run", JInt 40)]);
        ("semantic_budget", JObj [("max_executions_per_candidate", JInt 2);
                                  ("max_executions_per_run", JInt 50)]);
        ("recovery_policy",
         JObj [("result_unknown_requires_manual_acknowledgement", JBool true);
               ("quality_failure_replacement_allowed", JBool false);
               ("semantic_failure_regenerates_candidate", JBool false);
               ("auto_retryable_stage_codes", selectors0);
               ("manual_recovery_stage_codes", JList [])])].
Definition policy_text : string := Eval vm_compute in value_of "" (dumps_with compact policy_document).
Definition policy_ref : FrozenContractRef :=
  Eval vm_compute in mk_FrozenContractRef "bounded-recovery" "v2" (fingerprint_of policy_text).
Definition policy0 : ExecutionPolicy :=
  mk_ExecutionPolicy "bounded-recovery" "v2" (f_fingerprint policy_ref) policy_text 7 5 1 2 40 2 50
    {[("semantic_evaluation", "timeout")]} ∅ true false false.

Lemma policy0_projected : execution_policy (mk_FrozenPolicyDocument policy_ref policy_text) = Ok policy0.
Proof. vm_compute. reflexivity. Qed.

(** ** A run *)

Definition at_ (s : Z) : datetime := utc ((1704067200 + s) * 1000000).
Definition run0 : EvaluationRunRow :=
  mk_EvaluationRunRow "candidate_v2" 7 "user:1"
    (value_of "" (dumps_with compact
       (JObj [("audit", JObj [("created_at", JStr "2024-01-01T00:00:00+00:00")])])))
    (JObj [("status", JStr "collecting"); ("preflight", JObj [("status", JStr "passed")])])
    None.
Definition db0 : EvaluationTables () :=
  mk_EvaluationTables {["run" := (1, JNull)]} {["run" := run0]} ∅ ∅ ().

(** A planner that offers the next generation of the first slot of a case. *)
Definition plan0 (db : EvaluationTables ()) (run_id : string) (run : EvaluationRunRow)
    (active : list SlotClaim) (limit : Z) : res ParallelPlan :=
  Ok (mk_ParallelPlan
        [mk_NextAction "generation" "initial_generation" "case" 1 ""
           (1 + Z.of_nat (size (e_dispatches db))) false]
        [] None false).

Notation step0 := (@step () plan0).
Notation exec0 := (@exec () plan0).

Lemma run_step o db u : (exec0 o db).1 = Ok u → step0 db (exec0 o db).2.
Proof. intros H. by apply (step_exec plan0 db o u), ran. Qed.

Definition freeze0 : operation := Freeze "run" policy0.
Definition prepare0 (execution invocation : string) (s : Z) : operation :=
  Prepare "run" 7 "worker" execution invocation (at_ s) (at_ (s + 300)) 4.

Definition db1 := (exec0 freeze0 db0).2.
Definition db2 := (exec0 (prepare0 "e1" "i1" 10) db1).2.
Definition claim1 : SlotClaim :=
  mk_SlotClaim "run" 2 (mk_ExecutionCheckpoint "e1" "generation" "case" 1 "" 1 "worker" "i1"
                          "prepared" (at_ 10) (at_ 310) None).
Definition db3 := (dispatch_claim 7 claim1 (at_ 20) db2).2.
Definition claim1' : SlotClaim :=
  mk_SlotClaim "run" 2 (dispatched (sc_checkpoint claim1) (at_ 20)).
Definition db4 := (release_claim claim1' db3).2.
Definition db5 := (exec0 (prepare0 "e2" "i2" 40) db4).2.

Lemma steps_to_2 : rtc step0 db0 db2.
Proof.
  exact (rtc_l _ db0 db1 db2 (run_step freeze0 db0 tt ltac:(vm_compute; reflexivity))
           (rtc_once db1 db2
              (run_step (prepare0 "e1" "i1" 10) db1 tt ltac:(vm_compute; reflexivity)))).
Qed.
Lemma dispatched_3 : dispatch_claim 7 claim1 (at_ 20) db2 = (Ok claim1', db3).
Proof.
  exact (ran (dispatch_claim 7 claim1 (at_ 20)) db2 claim1' ltac:(vm_compute; reflexivity)).
Qed.
Lemma steps_to_3 : rtc step0 db0 db3.
Proof.
  eapply rtc_r; [apply steps_to_2|].
  apply (step_exec plan0 db2 (Dispatch 7 claim1 (at_ 20)) tt). cbn [exec].
  rewrite bind_run, dispatched_3. reflexivity.
Qed.
Lemma released_4 : release_claim claim1' db3 = (Ok tt, db4).
Proof. exact (ran (release_claim claim1') db3 tt ltac:(vm_compute; reflexivity)). Qed.
Lemma steps_4_5 : rtc step0 db4 db5.
Proof.
  exact (rtc_once db4 db5 (run_step (prepare0 "e2" "i2" 40) db4 tt ltac:(vm_compute; reflexivity))).
Qed.

Lemma checkpoint_round_trip_witness :
  decode (encode (Some (sc_checkpoint claim1'))) = Ok (Some (sc_checkpoint claim1')).
Proof.
  exact (proj1 (checkpoint_round_trip (sc_checkpoint claim1')
    (value_of "" (dumps_with compact_finite (encode (Some (sc_checkpoint claim1')))))
    ltac:(vm_compute; reflexivity) ltac:(vm_compute; reflexivity) ltac:(vm_compute; reflexivity))).
Defined.

Lemma claims_refine_locks_witness :
  ∃ l, rtc lock_step (mk_lock (Some 1) ∅) l ∧ represents db5 "run" l ∧ well_locked l.
Proof.
  apply (claims_refine_locks plan0 db0 db5 "run"); [reflexivity|].
  etrans; [apply steps_to_3|]. eapply rtc_l; [|apply steps_4_5].
  exact (step_exec plan0 db3 (Release claim1') tt db4 released_4).
Defined.

(** The slot is held again under version 3; the old claim is refused. *)
Lemma released_claim_refused_witness :
  (∃ value, e_claims db5 !! ("run", "case", 1) = Some (3, value)) ∧
  ∀ c db', require_claim claim1' db5 ≠ (Ok c, db').
Proof.
  split; [eexists; vm_compute; reflexivity|].
  exact (proj1 (released_claim_refused plan0 db0 db3 db4 db5 claim1' tt eq_refl steps_to_3
                  released_4 steps_4_5)).
Defined.

Lemma claim_dispatched_once_witness :
  (∃ value, e_claims db3 !! ("run", "case", 1) = Some (2, value)) ∧
  ∀ c db', dispatch_claim 7 claim1 (at_ 30) db3 ≠ (Ok c, db').
Proof.
  split; [eexists; vm_compute; reflexivity|]. intros c db'.
  exact (claim_dispatched_once plan0 db0 db2 db3 db3 7 claim1 (at_ 20) claim1' eq_refl steps_to_2
           dispatched_3 (rtc_refl _ _) claim1 7 (at_ 30) c db' (conj eq_refl eq_refl)).
Defined.

Lemma ledger_within_policy_witness :
  len (stage_entries db5 "run" "generation") <= 40 ∧
  ordinals (target_entries db5 "run" "generation" (sc_checkpoint claim1)) = [Some 1].
Proof.
  assert (Hs : rtc step0 db0 db5).
  { etrans; [apply steps_to_3|]. eapply rtc_l; [|apply steps_4_5].
    exact (step_exec plan0 db3 (Release claim1') tt db4 released_4). }
  destruct (ledger_within_policy plan0 db0 db5 "run" policy0 eq_refl Hs) as [H _].
  { split; [vm_compute; reflexivity|]. exists policy_ref. apply policy0_projected. }
  split; [exact (proj1 (H "generation"))|vm_compute; reflexivity].
Defined.
