(* ===== verification/CandidateSamples.v ===== *)
(** * CandidateSamples: a candidate run from its first claim to its review

    A run of seven cases with five slots each under a frozen release: a claim is prepared by the
    planner, dispatched and completed, its candidate is judged, an interrupted call is recovered
    and the judgement of the last candidate sends the run to review.  The histories are those of
    the operations themselves, evaluated. *)
From stdpp Require Import relations pretty.
From S2P Require Import Prelude PyText PyTime PyHash PyJson PyInt JsonRoundTrip PyIso.
From S2P Require Import Transactions Tables Failure Checkpoint Completion Preflight Actions.
From S2P Require Import Resolution Publication Policies CheckpointRecords CompletionRecords.
From S2P Require Import SlotClaims Projection Acceptance CompletionProgress DispatchLedger.
From S2P Require Import CandidatePlan Completions Judgements Recovery EvidenceLedger EvidenceBudget.
From S2P Require Import Suites RunProgress ReviewDecisions RunLifecycle RunHistories ClaimSamples.

Local Open Scope string_scope.
Local Open Scope Z_scope.

(** ** The frozen release *)

Definition gate_text : string :=
  Eval vm_compute in value_of "" (dumps_with compact
    (JObj [("policy_id", JStr "gates"); ("version", JStr "v1")])).
Definition ref0 (id version : string) : FrozenContractRef :=
  mk_FrozenContractRef id version (fingerprint_of id).
Definition release1 : EvidenceReleaseIdentity := Eval vm_compute in
  mk_EvidenceReleaseIdentity (ref0 "suite" "1") (ref0 "prompt" "2") (ref0 "profile" "1")
    (ref0 "input" "input/v1") (ref0 "output" "output/v1") (ref0 "route" "3")
    (ref0 "semantic" "1") (ref0 "semantic-output" "1") (ref0 "semantic-route" "1")
    policy_ref (mk_FrozenContractRef "gates" "v1" (fingerprint_of gate_text)).

Definition case_ids : list string :=
  ["case-1"; "case-2"; "case-3"; "case-4"; "case-5"; "case-6"; "case-7"].
Definition frozen_slots : list slot_id := c ← case_ids; (λ n, (c, n)) <$> [1; 2; 3; 4; 5].
Definition creation0 : json :=
  JObj [("release", JObj ((λ kv, (kv.1, ref_dict kv.2)) <$> release_fields release1));
        ("release_fingerprint", JStr (value_of "" (release_fingerprint release1)));
        ("execution_policy_json", JStr policy_text); ("gate_policy_json", JStr gate_text);
        ("slots", JList ((λ s, JObj [("case_id", JStr s.1); ("ordinal", JInt s.2)]) <$> frozen_slots));
        ("preflight", JObj [("status", JStr "passed"); ("case_id", JStr "preflight")]);
        ("audit", JObj [("created_at", JStr "2024-01-01T00:00:00+00:00")])].
Definition creation_text : string := Eval vm_compute in value_of "" (dumps_with compact creation0).

Definition progress0 : json :=
  JObj [("status", JStr "collecting");
        ("preflight", JObj [("status", JStr "passed"); ("case_id", JStr "preflight")]);
        ("transitions", JList [JObj [("from", JStr "created"); ("to", JStr "collecting");
                                     ("at", JStr "2024-01-01T00:00:00+00:00")]])].
Definition run_row (mode : string) (progress : json) : EvaluationRunRow :=
  mk_EvaluationRunRow mode 7 "user:1" creation_text progress
    (Some (policy_fingerprint policy0, policy_definition_json policy0)).

(** ** The assets *)

Definition route_text : string :=
  Eval vm_compute in value_of "" (dumps_with compact
    (JObj [("provider", JStr "zhipu"); ("model", JStr "glm")])).
(** The ports hold the release; the validator of the library accepts the outputs below. *)
#[local] Instance assets0 : Assets := {
  routes_get id version := Some (mk_RouteAsset id version (fingerprint_of id) route_text);
  schemas_get id version := Some (mk_SchemaAsset id version (fingerprint_of id) "{}");
  check_schema _ := Ok tt;
  schema_is_valid _ _ := true;
}.

Definition suite_text : string :=
  Eval vm_compute in value_of "" (dumps_with compact
    (JObj [("cases", JList ((λ c, JObj [("case_id", JStr c); ("stage", JStr "generation");
                                        ("expected", JObj [("assertions", JList [])])])
                              <$> case_ids));
           ("default_generation_assertions",
              JList [JObj [("type", JStr "limitations_cover")]])])).

Notation tables := (EvaluationTables (CompletionTables ())).
#[local] Instance run_assets0 : RunAssets tables := {
  stored_run_suite _ _ := Ok suite_text;
  semantic_contract _ release _ _ :=
    Ok (mk_SemanticAssets (er_semantic_prompt release) (er_semantic_output_schema release) "{}");
}.

(** A server that prints the document again. *)
#[local] Instance mysql_json0 : MysqlJson := {
  cast_as_json text := value_of "" (v ← loads text; dumps_ascii v);
}.

(** ** The executions of a slot *)

Definition checkpoint0 (kind e i : string) (slot : slot_id) (candidate : string) (s : Z)
    : ExecutionCheckpoint :=
  mk_ExecutionCheckpoint e kind slot.1 slot.2 candidate 1 "worker" i "dispatching" (at_ s)
    (at_ (s + 300)) (Some (at_ (s + 10))).
Definition receipt0 (i : string) : ProviderReceipt :=
  mk_ProviderReceipt i "request" "zhipu" "glm" (Some 10) (Some 20) 1000 None.

Definition output_text : string := "{}".
Definition output_fp : string := Eval vm_compute in fingerprint_of output_text.
Definition generated0 (e i : string) (slot : slot_id) (s : Z) : GenerationCompletion :=
  mk_GenerationCompletion e slot.1 slot.2 1 i "succeeded" (at_ (s + 10)) (at_ (s + 20)) 1
    (Some (receipt0 i)) output_text output_text output_fp None.
Definition assertions0 : list AssertionReceipt :=
  [mk_AssertionReceipt "limitations_cover" "default" 1 true "local" "pending_semantic" ""].

(** The judge names the assertion under the wrong scope. *)
Definition judge_text : string :=
  Eval vm_compute in value_of "" (dumps_with compact
    (JObj [("decisions",
              JList [JObj [("type", JStr "limitations_cover"); ("scope", JStr "case");
                           ("ordinal", JInt 1); ("status", JStr "passed"); ("detail", JStr "yes ")]]);
           ("rationale", JStr "ok"); ("scores", JObj [("c", JInt 4)])])).
Definition judged0 (e i candidate : string) (s : Z) : SemanticCompletion :=
  mk_SemanticCompletion e candidate output_fp 1 i "succeeded" (at_ (s + 10))
    (at_ (s + 20)) 1 (Some (receipt0 i)) judge_text judge_text None.
Definition result0 : SemanticResult := Eval vm_compute in
  value_of (mk_SemanticResult "" [] "" [] "")
    (parse_semantic_output judge_text release1 (receipt0 "si") "si" assertions0
       (mk_SemanticAssets (er_semantic_prompt release1) (er_semantic_output_schema release1) "{}")).

Example judged_one : length (sr_decisions result0) = 1%nat.
Proof. vm_compute. reflexivity. Qed.
Example creation_readable :
  (creation ← loads creation_text; '(p, _) ← frozen_policies creation; Ok (bool_decide (p = policy0)))
  = Ok true.
Proof. vm_compute. reflexivity. Qed.

(** ** One slot, from its claim to its judgement *)

Definition run_of (progress : json) : gmap string EvaluationRunRow :=
  {["run" := run_row "candidate_v2" progress]}.
Definition opened : tables :=
  mk_EvaluationTables {["run" := (1, JNull)]} (run_of progress0) ∅ ∅ (mk_CompletionTables ∅ ∅ ()).

Notation execc := (@exec (CompletionTables ()) candidate_plan).
Definition slot1 : slot_id := ("case-1", 1).
Definition prepared1 : operation := Prepare "run" 7 "worker" "g1" "gi1" (at_ 10) (at_ 310) 4.
Definition at1 : tables := Eval vm_compute in (execc prepared1 opened).2.
Definition generation_claim : SlotClaim :=
  mk_SlotClaim "run" 2
    (mk_ExecutionCheckpoint "g1" "generation" "case-1" 1 "" 1 "worker" "gi1" "prepared" (at_ 10) (at_ 310)
       None).
Definition sent1 : operation := Dispatch 7 generation_claim (at_ 20).
Definition at2 : tables := Eval vm_compute in (execc sent1 at1).2.
Definition sent_generation : SlotClaim :=
  mk_SlotClaim "run" 2 (checkpoint0 "generation" "g1" "gi1" slot1 "" 10).
Notation complete1 :=
  (complete_generation "run" 0 7 "worker" (generated0 "g1" "gi1" slot1 10) "c1" assertions0
     (Some sent_generation)).
Definition at3 : tables := Eval vm_compute in (complete1 at2).2.
Definition prepared2 : operation := Prepare "run" 7 "worker" "s1" "si1" (at_ 40) (at_ 340) 1.
Definition at4 : tables := Eval vm_compute in (execc prepared2 at3).2.
Definition judgement_claim : SlotClaim :=
  mk_SlotClaim "run" 4
    (mk_ExecutionCheckpoint "s1" "semantic" "case-1" 1 "c1" 1 "worker" "si1" "prepared" (at_ 40) (at_ 340)
       None).
Definition sent2 : operation := Dispatch 7 judgement_claim (at_ 50).
Definition at5 : tables := Eval vm_compute in (execc sent2 at4).2.
Definition sent_judgement : SlotClaim :=
  mk_SlotClaim "run" 4 (checkpoint0 "semantic" "s1" "si1" slot1 "c1" 40).
Notation complete2 :=
  (complete_semantic "run" 0 7 "worker" (judged0 "s1" "si1" "c1" 40) (Some sent_judgement)).
Definition at6 : tables := Eval vm_compute in (complete2 at5).2.

Lemma completed_generation : complete1 at2 = (Ok (mk_CheckpointState "run" 3 None), at3).
Proof. vm_compute. reflexivity. Qed.
Lemma completed_judgement : complete2 at5 = (Ok (mk_CheckpointState "run" 5 None), at6).
Proof. vm_compute. reflexivity. Qed.
Lemma steps12 : execc prepared1 opened = (Ok tt, at1) ∧ execc sent1 at1 = (Ok tt, at2).
Proof. split; vm_compute; reflexivity. Qed.
Lemma steps45 : execc prepared2 at3 = (Ok tt, at4) ∧ execc sent2 at4 = (Ok tt, at5).
Proof. split; vm_compute; reflexivity. Qed.

Lemma history3 : history opened at3.
Proof.
  destruct steps12 as [H1 H2].
  exact (rtc_l _ opened at1 at3 (life_operation opened prepared1 tt at1 H1)
    (rtc_l _ at1 at2 at3 (life_operation at1 sent1 tt at2 H2)
      (rtc_once at2 at3 (life_generation at2 "run" 0 7 "worker" (generated0 "g1" "gi1" slot1 10) "c1"
         assertions0 (Some sent_generation) (mk_CheckpointState "run" 3 None) at3
         completed_generation)))).
Qed.
Lemma history6 : history at3 at6.
Proof.
  destruct steps45 as [H1 H2].
  exact (rtc_l _ at3 at4 at6 (life_operation at3 prepared2 tt at4 H1)
    (rtc_l _ at4 at5 at6 (life_operation at4 sent2 tt at5 H2)
      (rtc_once at5 at6 (life_judgement at5 "run" 0 7 "worker" (judged0 "s1" "si1" "c1" 40)
         (Some sent_judgement) (mk_CheckpointState "run" 5 None) at6 completed_judgement)))).
Qed.
Lemma histories : history opened at6.
Proof. etrans; [apply history3|apply history6]. Qed.

Lemma evidence_in_sequence_witness :
  (slot_attempts at6 "run" slot1 = [(1, true)] ∧ candidate_attempts at6 "run" "c1" = [(1, true)]) ∧
  in_sequence (slot_attempts at6 "run" slot1) ∧ in_sequence (candidate_attempts at6 "run" "c1").
Proof.
  split; [split; vm_compute; reflexivity|].
  destruct (evidence_in_sequence opened at6 "run" eq_refl eq_refl histories) as [Hs Hc].
  split; [apply Hs|apply Hc].
Defined.

Lemma evidence_was_reserved_witness :
  length (semantics_of at6 "run") = 1%nat ∧
  ∀ r, r ∈ semantics_of at6 "run" → reserved_judgement at6 "run" r.
Proof.
  split; [vm_compute; reflexivity|]. intros r Hr.
  exact (proj1 (proj2 (evidence_was_reserved opened at6 "run" eq_refl eq_refl histories) r Hr)).
Defined.

Lemma evidence_append_only_witness : retains at3 at6.
Proof. exact (evidence_append_only at3 at6 history6). Defined.

Lemma evidence_within_policy_witness :
  len (slot_attempts at6 "run" slot1) <= 2 ∧ len (candidate_attempts at6 "run" "c1") <= 2.
Proof.
  destruct (evidence_within_policy opened at6 "run" policy0 eq_refl eq_refl eq_refl histories) as [Hs Hc].
  { split; [vm_compute; reflexivity|]. exists policy_ref. apply policy0_projected. }
  split; [apply (Hs slot1)|apply (Hc "c1")].
Defined.

(** ** The last judgement of a run *)

(** The executions of the [n]-th slot. *)
Definition named0 (prefix : string) (n : nat) : string := prefix ++ pretty n.
Definition generation_at (n : nat) (slot : slot_id) : GenerationCompletion :=
  generated0 (named0 "g" n) (named0 "gi" n) slot 10.
Definition judgement_at (n : nat) : SemanticCompletion :=
  judged0 (named0 "s" n) (named0 "si" n) (named0 "c" n) 40.
Definition proposed_at (n : nat) (slot : slot_id) : json :=
  candidate_dict (generation_at n slot) (named0 "c" n) assertions0.
Definition generation_row_at (judged : bool) (n : nat) (slot : slot_id) : GenerationRow :=
  generation_row (generation_at n slot)
    (Some (named0 "c" n,
           if judged then value_of JNull (judged_candidate (proposed_at n slot) (judgement_at n) result0)
           else proposed_at n slot)).
Definition dispatches_at (n : nat) (slot : slot_id) : list DispatchRow :=
  [dispatch_row (checkpoint0 "generation" (named0 "g" n) (named0 "gi" n) slot "" 10);
   dispatch_row (checkpoint0 "semantic" (named0 "s" n) (named0 "si" n) slot (named0 "c" n) 40)].
Definition keyed_by {V} (key : V → string) (rows : list V) : gmap (string * string) V :=
  list_to_map ((λ r, (("run", key r), r)) <$> rows).
Definition invocation_of (d : DispatchRow) : string :=
  value_of "" (text_field (dp_checkpoint_json d) "invocation_id").

Definition last_claim : SlotClaim :=
  mk_SlotClaim "run" 9 (checkpoint0 "semantic" "s34" "si34" ("case-7", 5) "c34" 40).
Definition collected : tables :=
  mk_EvaluationTables {["run" := (9, JNull)]} (run_of progress0)
    (keyed_by invocation_of (concat (imap dispatches_at frozen_slots)))
    {[("run", "case-7", 5) := (9, checkpoint_dict (sc_checkpoint last_claim))]}
    (mk_CompletionTables
       (keyed_by gr_execution_id (imap (λ n, generation_row_at (bool_decide (n ≠ 34%nat)) n) frozen_slots))
       (keyed_by sr_execution_id
          ((λ n, semantic_row (judgement_at n) (Some (result_dict result0))) <$> seq 0 34)) ()).
Notation last_judgement :=
  (complete_semantic "run" 0 7 "worker" (judgement_at 34) (Some last_claim)).
Definition reviewed : tables := (last_judgement collected).2.

(** One evaluation of the last completion. *)
Lemma reviewed_run :
  ((last_judgement collected).1,
   (λ r, json_item (er_progress_json r) "status") <$> e_runs (last_judgement collected).2 !! "run")
  = (Ok (mk_CheckpointState "run" 10 None), Some (Ok (JStr "awaiting_review"))).
Proof. vm_compute. reflexivity. Qed.

Lemma review_needs_every_candidate_witness :
  ∃ run, e_runs reviewed !! "run" = Some run ∧ reviewable reviewed "run" (er_progress_json run).
Proof.
  pose proof reviewed_run as Hx. apply pair_equal_spec in Hx as [Hstate Hst].
  apply ran in Hstate. apply fmap_Some in Hst as (run & Hrun & Hst). exists run. split; [exact Hrun|].
  exact (proj1 (review_needs_every_candidate "run" 0 7 "worker" (judgement_at 34) (Some last_claim)
                  collected reviewed (mk_CheckpointState "run" 10 None) run Hstate Hrun (eq_sym Hst))).
Defined.

(** ** The records of one slot *)

Lemma generation_record_round_trip_witness :
  decode_completion (generation_row (generated0 "g1" "gi1" slot1 10) None)
  = Ok (generated0 "g1" "gi1" slot1 10).
Proof.
  apply (generation_record_round_trip (generated0 "g1" "gi1" slot1 10) None).
  - vm_compute. reflexivity.
  - split_and!; vm_compute; reflexivity.
Defined.

Definition one_slot : json := JList [JObj [("case_id", JStr "case-1"); ("ordinal", JInt 1)]].
Definition projected : list SlotProgress :=
  value_of [] (project_slots one_slot (generations_of at6 "run") (dispatches_of at6 "run")
                 (semantics_of at6 "run") (JList []) (JList []) policy0).
Lemma projection_accounts_witness :
  slot_key <$> projected = [slot1] ∧
  ∀ s, s ∈ projected →
    length (sp_generation s) = length (entries (dispatches_of at6 "run") "generation" (slot_key s) "").
Proof.
  assert (Hp : project_slots one_slot (generations_of at6 "run") (dispatches_of at6 "run")
                 (semantics_of at6 "run") (JList []) (JList []) policy0 = Ok projected)
    by (vm_compute; reflexivity).
  assert (Hk : slot_key <$> projected = [slot1]) by (vm_compute; reflexivity).
  split; [exact Hk|]. intros s Hs.
  assert (Hnd : NoDup (slot_key <$> projected)) by (rewrite Hk; apply NoDup_singleton).
  exact (proj1 (proj2 (proj2 (projection_accounts _ _ _ _ _ _ _ _ Hp Hnd) s Hs)) "").
Defined.

Lemma prepared_claims_next_witness :
  cp_execution_ordinal (sc_checkpoint generation_claim)
  = len (target_entries at1 "run" "generation" (sc_checkpoint generation_claim)) + 1.
Proof.
  assert (Hs : rtc CandidatePlan.run_step opened at1).
  { apply rtc_once. split; [exact (step_exec candidate_plan opened prepared1 tt at1 (proj1 steps12))|].
    assert (Hr : e_runs at1 = e_runs opened) by (vm_compute; reflexivity).
    intros run_id r Hrun. exists r. by rewrite Hr. }
  assert (Hk : e_claims at1 !! identity generation_claim
               = Some (2, checkpoint_dict (sc_checkpoint generation_claim))) by (vm_compute; reflexivity).
  assert (Hd : decode (checkpoint_dict (sc_checkpoint generation_claim))
               = Ok (Some (sc_checkpoint generation_claim))) by (vm_compute; reflexivity).
  exact (proj1 (prepared_claims_next opened at1 generation_claim 2 _ _ eq_refl Hs Hk Hd eq_refl)).
Defined.

(** The flattened decision of the judge is bound to its only obligation. *)
Lemma accepted_judgement_projects_witness :
  obligation_key <$> sr_decisions result0 = [("limitations_cover", "default", 1)] ∧
  check_result (value_of JNull (judged_candidate (proposed_at 0 slot1) (judgement_at 0) result0))
    (result_dict result0) (judgement_at 0) = Ok tt.
Proof.
  split; [vm_compute; reflexivity|].
  assert (Hp : parse_semantic_output (sc_normalized_output (judgement_at 0)) release1 (receipt0 "si") "si"
                 assertions0 (mk_SemanticAssets (er_semantic_prompt release1)
                                (er_semantic_output_schema release1) "{}") = Ok result0)
    by (vm_compute; reflexivity).
  assert (Hi : Forall (λ kv, is_int kv.2 = true) (sr_scores result0)) by (repeat constructor).
  assert (Hc : judged_candidate (proposed_at 0 slot1) (judgement_at 0) result0
               = Ok (value_of JNull (judged_candidate (proposed_at 0 slot1) (judgement_at 0) result0)))
    by (vm_compute; reflexivity).
  exact (proj1 (proj2 (proj2 (accepted_judgement_projects _ _ _ _ _ _ _ _ _ Hp Hi Hc)))).
Defined.

(** ** An interrupted call *)

Definition interrupted : ExecutionCheckpoint := checkpoint0 "generation" "g1" "gi1" slot1 "" 10.
Lemma interruption_recordable_witness :
  is_ok (interrupted_completion interrupted (at_ 400) "") = true.
Proof.
  refine (proj1 (interruption_recordable interrupted (at_ 400) "" _ _ _ _ _));
    first [discriminate | vm_compute; reflexivity].
Defined.

Definition interrupted_tables : tables :=
  mk_EvaluationTables {["run" := (3, checkpoint_dict interrupted)]}
    {["run" := run_row "serial_v1" progress0]} {[("run", "gi1") := dispatch_row interrupted]} ∅
    (mk_CompletionTables ∅ ∅ ()).
Notation recovery0 := (recover_expired "run" 3 7 "gi1" (at_ 310) (at_ 400) "operator").
Definition recovered : tables := (recovery0 interrupted_tables).2.
Lemma recovery_never_resends_witness :
  recovery0 interrupted_tables = (Ok (mk_CheckpointState "run" 4 None), recovered) ∧
  e_dispatches recovered = e_dispatches interrupted_tables.
Proof.
  assert (Hx : (recovery0 interrupted_tables).1 = Ok (mk_CheckpointState "run" 4 None))
    by (vm_compute; reflexivity).
  apply ran in Hx. split; [exact Hx|].
  destruct (recovery_never_resends "run" 3 7 "gi1" (at_ 310) (at_ 400) "operator" interrupted_tables
              recovered (mk_CheckpointState "run" 4 None) Hx)
    as (value & cp & run & rest & progress & progress' & _ & _ & _ & _ & _ & _ & _ & _ & _ & _ & Hdb).
  rewrite Hdb. reflexivity.
Defined.
