(* ===== verification/ReportSamples.v ===== *)
(** * ReportSamples: a report from its snapshot to an accepted answer

    A scale report with three dimensions, one the parent of another, its assembled input, the
    rendered prompt and two answers: runs on which the hypotheses of the theorems on prompts,
    inputs and outputs hold. *)
From S2P Require Import Prelude PyText PyHash PyNum PyJson JsonRoundTrip Scenes Prompts.
From S2P Require Import InputValues ScaleInput MbtiReferences MbtiInput Session Service.
From S2P Require Import ReportInput Output.
From Stdlib Require Import Ascii.

Local Open Scope string_scope.
Local Open Scope Z_scope.

Definition value {A} (d : A) (m : res A) : A := match m with Ok a => a | Err _ => d end.
Definition text_or_empty (v : json) : string := value "" (dumps_with compact v).

(** ** The report *)

Definition score (v : json) : json :=
  JObj [("kind", JStr "t_score"); ("value", v); ("label", JStr ""); ("max", JNull)].
Definition level0 : json :=
  JObj [("code", JStr "mild"); ("label", JStr ""); ("severity", JStr "low")].
Definition dimension0 (code parent : string) (order : Z) (raw : json) : json :=
  JObj [("code", JStr code); ("kind", JStr "factor"); ("name", JStr code); ("role", JStr "primary");
        ("parent_code", if bool_decide (parent = "") then JNull else JStr parent);
        ("hierarchy_level", JInt 0); ("sort_order", JInt order); ("raw_score", raw);
        ("max_score", JInt 40); ("derived_scores", JList [score raw]); ("level", level0);
        ("norm_reference", JNull); ("description", JStr "text");
        ("suggestion", JStr (if bool_decide (order = 1) then "rest" else " "))].
Definition snapshot0 (raw : json) : json :=
  JObj [("schema_version", JStr "qs-report-snapshot/v1");
        ("source",
          JObj [("report_id", JStr "9001"); ("outcome_id", JStr "77");
                ("report_type", JStr "standard"); ("report_template_version", JStr "v1");
                ("content_schema_version", JStr "v3"); ("builder_identity", JStr "builder");
                ("generated_at", JStr "2026-01-01T00:00:00Z")]);
        ("model", JObj [("kind", JStr "scale"); ("algorithm", JStr "sum"); ("code", JStr "SCL");
                        ("version", JStr "v1"); ("title", JStr "Scale")]);
        ("runtime", JObj [("decision_kind", JStr "score_range")]);
        ("primary_score", score (JInt 12)); ("level", level0); ("conclusion", JStr "fine");
        ("dimensions", JList [dimension0 "sleep" "mood" 2 raw; dimension0 "mood" "" 1 (JInt 9);
                              dimension0 "food" "" 3 (JInt 4)]);
        ("suggestions",
          JList [JObj [("source_index", JInt 0); ("category", JStr "daily");
                       ("content", JStr "walk"); ("dimension_code", JStr "sleep")]]);
        ("model_extra", JNull)].
Definition half_score : json := JFloat (float_of_decimal 125 (-1)).
Definition report0 : string := text_or_empty (snapshot0 half_score).

Definition sha0 : string := fingerprint_of "profile".
Definition scale_policy : InputPolicy :=
  mk_input_policy "profile-1" "v1" sha0 (Some "SCL") None 2 5 [] [] ["sleep_quality"] false false.
Definition assembled0 : AssembledInput :=
  value (mk_assembled_input "" "" "")
    (assemble_input report0 (ScalePolicy scale_policy) "zh-CN" ["sleep_quality"]).

(** ** The prompt *)

Definition package0 : PromptPackage :=
  mk_prompt_package "template-1" "v1" "sha" None "system" "In {{locale}} about {{focus_areas_json}}"
    "facts follow" ["{{locale}}"; "{{focus_areas_json}}"].
Definition render0 : RenderPolicy :=
  mk_render_policy "template-1" "v1" ["sleep_quality"] ["pattern"] 1 2 2 3 false
    ["standard"] ["daily"] 1 2 2 2000.
Definition messages0 : PromptMessages :=
  value (mk_prompt_messages "" "" "" "")
    (render_prompt package0 render0 (provider_payload assembled0) None).

Lemma assembled0_Ok :
  assemble_input report0 (ScalePolicy scale_policy) "zh-CN" ["sleep_quality"] = Ok assembled0.
Proof. vm_compute. reflexivity. Qed.
Lemma messages0_Ok :
  render_prompt package0 render0 (provider_payload assembled0) None = Ok messages0.
Proof. vm_compute. reflexivity. Qed.
Example task0 : message_task messages0 = "In zh-CN about [" ++ dump_string "sleep_quality" ++ "]".
Proof. vm_compute. reflexivity. Qed.

(** Another report with other facts asks for the same messages. *)
Definition assembled1 : AssembledInput :=
  value (mk_assembled_input "" "" "")
    (assemble_input (text_or_empty (snapshot0 (JInt 3))) (ScalePolicy scale_policy) "zh-CN"
       ["sleep_quality"]).
Definition messages1 : PromptMessages :=
  value (mk_prompt_messages "" "" "" "")
    (render_prompt package0 render0 (provider_payload assembled1) None).
Lemma facts_stay_data_witness :
  data_json messages0 ≠ data_json messages1 ∧ trusted messages0 = trusted messages1.
Proof.
  split; [vm_compute; discriminate|].
  exact (facts_stay_data package0 render0 None (provider_payload assembled0)
    (provider_payload assembled1) messages0 messages1 messages0_Ok
    ltac:(vm_compute; reflexivity) ltac:(vm_compute; reflexivity)).
Defined.

Lemma payload_text_bounded_witness :
  ∃ locale focus values,
    request render0 None (provider_payload assembled0) = Ok (locale, focus) ∧
    forallb locale_char (String.list_ascii_of_string locale) = true ∧
    prompt_values render0 locale focus = Ok values ∧
    fill values (pieces 0 (task_template package0)) = Ok (message_task messages0).
Proof.
  destruct (payload_text_bounded package0 render0 None (provider_payload assembled0) messages0
    messages0_Ok) as (l & f & v & Hr & (Hl & _) & _ & Hv & _ & Hf & _).
  exists l, f, v. exact (conj Hr (conj Hl (conj Hv Hf))).
Defined.

Definition data0 : json := value JNull (decode_payload (provider_payload assembled0)).
Lemma data_message_faithful_witness :
  decode_payload (data_json messages0) = Ok data0 ∧
  render_prompt package0 render0 (data_json messages0) None = Ok messages0.
Proof.
  exact (data_message_faithful package0 render0 None (provider_payload assembled0) messages0 data0
    messages0_Ok ltac:(vm_compute; reflexivity) ltac:(vm_compute; reflexivity)).
Defined.

Lemma prompt_refusals_witness :
  invalid_prompt (InvalidPrompt "Invalid provider payload") ∨
  (∃ data, decode_payload "{" = Ok data ∧
           json_text data = Err (InvalidPrompt "Invalid provider payload")).
Proof.
  exact (prompt_refusals package0 render0 "{" None (InvalidPrompt "Invalid provider payload")
    ltac:(vm_compute; reflexivity)).
Defined.

(** A number beyond the range of a float is no JSON constant: its refusal is the encoder's. *)
Example infinite_fact :
  let payload := text_or_empty (JObj [("context", context_json "zh-CN" []); ("facts", JObj [])]) in
  let payload := String.append (take_str (byte_len payload - 3) payload)
                   ("{" ++ dump_string "x" ++ ":1e999}}") in
  render_prompt package0 render0 payload None
  = Err (ValueError "Out of range float values are not JSON compliant").
Proof. vm_compute. reflexivity. Qed.

(** ** The assembled input *)

Definition bare_snapshot : json := snapshot0 half_score.
Definition scale_assembled : AssembledInput :=
  value (mk_assembled_input "" "" "") (assemble_scale bare_snapshot scale_policy "zh-CN" []).
Lemma assembled_facts_closed_witness :
  ∃ f, closed_facts scale_policy f ∧
    json_text (JObj [("context", context_json "zh-CN" []); ("facts", facts_json f)])
    = Ok (provider_payload scale_assembled).
Proof.
  destruct (assembled_facts_closed bare_snapshot scale_policy "zh-CN" [] scale_assembled
    ltac:(vm_compute; reflexivity)) as (f & source & Hf & Hp & _).
  exists f. exact (conj Hf Hp).
Defined.

(** An integer score too large for a float leaves the module as an [OverflowError]: it is neither
    an [InvalidInput] nor a [NotApplicable], and the callers catch only those. *)
Definition huge_report : string := text_or_empty (snapshot0 (JInt (10 ^ 400))).
Lemma oversized_score_escapes :
  assemble_input huge_report (ScalePolicy scale_policy) "zh-CN" [] = Err OverflowError.
Proof. vm_compute. reflexivity. Qed.

Lemma input_refusals_witness :
  refused (InvalidInput "Invalid report snapshot") ∨
  InvalidInput "Invalid report snapshot" = OverflowError.
Proof.
  exact (input_refusals "[]" (ScalePolicy scale_policy) "zh-CN" []
    (InvalidInput "Invalid report snapshot") ltac:(vm_compute; reflexivity)).
Defined.

(** ** The session and its evidence *)

Definition item0 : EvidenceItem :=
  mk_EvidenceItem "1001" "42" "9001" "v3:77" [mk_Fact "standard_report" report0].
Definition evidence0 : EvidenceSet :=
  mk_EvidenceSet "evidence-1" "session-1"
    (value "" (fingerprint (JList [item_definition item0]))) [item0].
Definition session0 : Session :=
  mk_Session "session-1" (mk_Actor "7" "user-1") "42" ["1001"] "goal" CREATED 1 None None
    (Some "evidence-1") "qs-snapshot-v1" None.
Definition release0 : ExplanationRelease :=
  mk_release (ScalePolicy scale_policy) render0 "route" "{}".
Definition prepared0 : PreparedExplanation :=
  mk_prepared assembled0 messages0 release0 "sha".
Lemma prepared0_Ok :
  prepare_explanation session0 evidence0 release0 package0 "zh-CN" ["sleep_quality"] = Ok prepared0.
Proof. vm_compute. reflexivity. Qed.

Lemma prepared_from_evidence_witness :
  (∃ document, loads (canonical_json assembled0) = Ok document) ∧
  request render0 None (provider_payload assembled0) = Ok ("zh-CN", ["sleep_quality"]).
Proof.
  destruct (prepared_from_evidence session0 evidence0 release0 package0 "zh-CN" ["sleep_quality"]
    prepared0 prepared0_Ok) as (item & fact & document & _ & _ & _ & Hd & _ & _ & Hr).
  split; [exists document; exact Hd|].
  destruct (Hr I) as (data & Hdata & Hreq). vm_compute. reflexivity.
Defined.

(** ** The answer *)

Definition ref0 (kind ref : string) : json := JObj [("kind", JStr kind); ("ref", JStr ref)].
Definition insight0 (a b : string) : json :=
  JObj [("kind", JStr "pattern"); ("text", JStr "both matter");
        ("evidence_refs", JList [ref0 "dimension" a; ref0 "dimension" b])].
Definition advice0 : json :=
  JObj [("origin", JStr "standard"); ("category", JStr "daily"); ("actions", JList [JStr "walk"]);
        ("evidence_refs", JList [ref0 "standard_suggestion" "suggestion:report:1"]);
        ("source_suggestion_refs", JList [JStr "suggestion:report:1"])].
Definition answer0 (a b : string) : json :=
  JObj [("schema_version", JStr "ai-explanation-output/v1");
        ("integrated_insights", JList [insight0 a b]); ("suggestions", JList [advice0])].
Definition validated0 : DeterministicOutput :=
  mk_deterministic (text_or_empty (answer0 "dimension:mood" "dimension:food"))
    "qs-ai-output-deterministic/v1".
Lemma validated0_Ok :
  validate_output loads (content_json validated0) prepared0 = Ok validated0.
Proof. vm_compute. reflexivity. Qed.

(** ** An answer in three topics *)

(** An axis of the report whose left pole is preferred. *)
Definition pole0 (code left right : string) (order : Z) : json :=
  JObj [("code", JStr code); ("kind", JStr "pole"); ("name", JStr code); ("raw_score", JInt 20);
        ("pole_facts",
          JObj [("schema_version", JStr "mbti-pole-facts/v1"); ("left_pole", JStr left);
                ("right_pole", JStr right); ("preference", JStr left); ("strength", JInt 25);
                ("min_score", JInt 8); ("max_score", JInt 40); ("threshold", JInt 24);
                ("composition_order", JInt order)]);
        ("description", JStr "text"); ("suggestion", JStr "")].
Definition mbti_snapshot : json :=
  JObj [("schema_version", JStr "qs-report-snapshot/v2");
        ("source",
          JObj [("report_id", JStr "9001"); ("outcome_id", JStr "77");
                ("report_type", JStr "standard"); ("report_template_version", JStr "v1");
                ("content_schema_version", JStr "v3"); ("builder_identity", JStr "builder");
                ("generated_at", JStr "2026-01-01T00:00:00Z")]);
        ("model", JObj [("kind", JStr "typology"); ("algorithm", JStr "personality_typology");
                        ("code", JStr MBTI_MODEL); ("version", JStr MBTI_VERSION);
                        ("title", JStr "Type")]);
        ("runtime", JObj [("decision_kind", JStr "pole_composition")]);
        ("conclusion", JStr "fine");
        ("dimensions", JList [pole0 "EI" "I" "E" 1; pole0 "SN" "S" "N" 2; pole0 "TF" "F" "T" 3;
                              pole0 "JP" "J" "P" 4]);
        ("suggestions", JList []);
        ("model_extra",
          JObj [("kind", JStr "personality_type"); ("type_code", JStr "ISFJ");
                ("type_name", JStr "name"); ("one_liner", JStr ""); ("match_percent", JInt 90);
                ("commentary", JStr "")])].
Definition entry0 (id topic axis pole : string) : MBTIReferenceEntry :=
  mk_reference_entry id topic axis pole "content" ["source-1"] "boundary".
Definition material0 : MBTIReferenceMaterial :=
  mk_material "refs/v1" MBTI_MODEL MBTI_VERSION
    [mk_reference_source "source-1" "title" "https://example.org" "2026-01-01" "scope"]
    [entry0 "quiet" "work" "EI" "I"; entry0 "loud" "work" "EI" "E"].
Definition mbti_policy : InputPolicy :=
  mk_input_policy "profile-2" "v1" sha0 (Some MBTI_MODEL) (Some MBTI_VERSION) 4 4
    ["EI"; "SN"; "TF"; "JP"] [] [] false true.
Definition themes_policy : ReportPolicy := ThematicPolicy mbti_policy MBTI_THEMATIC_CONTRACT material0.
Definition prepared2 : PreparedExplanation :=
  mk_prepared
    (value (mk_assembled_input "" "" "")
       (assemble_input (text_or_empty mbti_snapshot) themes_policy "zh-CN" []))
    messages0 (mk_release themes_policy render0 "route" "{}") "sha".
Definition topic_item (reference : string) (ref : json) : json :=
  JObj [("text", JStr "you work well alone"); ("evidence_refs", JList [ref]);
        ("reference_refs", JList [JStr reference])].
Definition themed_answer (reference : string) (ref : json) : json :=
  JObj [("schema_version", JStr "ai-explanation-output/v2");
        ("scene_contract_version", JStr MBTI_THEMATIC_CONTRACT);
        ("summary", JObj [("text", JStr "ISFJ"); ("evidence_refs", JList [ref0 "model_result" "model_result"])]);
        ("sections",
          JList [JObj [("topic", JStr "work"); ("insights", JList [topic_item reference ref]);
                       ("reflection_questions", JList []); ("actions", JList [])]])].
Definition validated2 : DeterministicOutput :=
  mk_deterministic (text_or_empty (themed_answer "reference:quiet" (ref0 "dimension" "dimension:EI")))
    "qs-ai-output-mbti-three-topic/v1".
Lemma validated2_Ok : validate_output loads (content_json validated2) prepared2 = Ok validated2.
Proof. vm_compute. reflexivity. Qed.
(** The entry of the other pole, or of an axis the item does not cite, is refused. *)
Example other_pole :
  validate_output loads
    (text_or_empty (themed_answer "reference:loud" (ref0 "dimension" "dimension:EI"))) prepared2
  = Err (InvalidOutput "unresolved_topic_reference").
Proof. vm_compute. reflexivity. Qed.
Example other_axis :
  validate_output loads
    (text_or_empty (themed_answer "reference:quiet" (ref0 "dimension" "dimension:SN"))) prepared2
  = Err (InvalidOutput "unresolved_topic_reference").
Proof. vm_compute. reflexivity. Qed.

Lemma accepted_answer_in_policy_witness :
  (∃ facts c content, loads (content_json validated0) = Ok content ∧ single_accepted render0 false facts c content) ∧
  (∃ facts c content, loads (content_json validated2) = Ok content ∧ themes_accepted material0 facts c content).
Proof.
  split.
  - destruct (accepted_answer_in_policy loads (content_json validated0) prepared0 validated0
      validated0_Ok) as (_ & content & payload & facts & c & Hp & _ & _ & _ & _ & Ha).
    exists facts, c, content. exact (conj Hp Ha).
  - destruct (accepted_answer_in_policy loads (content_json validated2) prepared2 validated2
      validated2_Ok) as (_ & content & payload & facts & c & Hp & _ & _ & _ & _ & _ & Ha).
    exists facts, c, content. exact (conj Hp Ha).
Defined.

(** A dimension together with its parent is refused. *)
Example parent_and_child :
  validate_output loads (text_or_empty (answer0 "dimension:mood" "dimension:sleep")) prepared0
  = Err (InvalidOutput "ancestor_descendant_combination").
Proof. vm_compute. reflexivity. Qed.

Definition dims0 : list (string * json) :=
  [("a", JObj [("parent_ref", JStr "b")]); ("b", JObj [("parent_ref", JStr "c")]);
   ("c", JObj [("parent_ref", JNull)])].
Lemma dims0_readable : readable_hierarchy dims0 "a".
Proof.
  split; [|reflexivity]. intros c. unfold next_parent, dims0. cbn [assoc].
  repeat case_bool_decide; eexists; reflexivity.
Defined.
Lemma lineage_exact_witness :
  ancestor dims0 "a" "c" ∧ check_lineage dims0 ["a"; "b"] "a" ≠ Ok tt ∧
  check_lineage dims0 ["a"; "d"] "a" = Ok tt.
Proof.
  assert (Hac : ancestor dims0 "a" "c").
  { apply (relations.tc_l _ "a" "b"); [reflexivity|]. by apply relations.tc_once. }
  split; [exact Hac|]. split; [|vm_compute; reflexivity].
  intros H. destruct (proj1 (lineage_exact dims0 ["a"; "b"] "a" dims0_readable) H "b") as [Hb _].
  - by apply relations.tc_once.
  - apply Hb. right. left.
Defined.

(** A cycle ends too. *)
Example cyclic_lineage :
  check_lineage [("a", JObj [("parent_ref", JStr "b")]); ("b", JObj [("parent_ref", JStr "b")])]
    ["a"] "a" = Err hierarchy_error.
Proof. vm_compute. reflexivity. Qed.

(** ** Type codes *)

Definition narrative_of (s : string) : string :=
  value "" (dumps_with spaced (JObj [("text", JStr s)])).
Example other_type_found : mentions_other (narrative_of "like an enfp, not you") (JStr "INTJ") = true.
Proof. vm_compute. reflexivity. Qed.
(** The narrative that is searched is JSON text: a line feed before the code is written as a
    backslash and the letter [n], and a code after a letter is not a mention. *)
Lemma type_code_after_newline_missed :
  mentions_other (narrative_of (String "010"%char "ENFP fits you")) (JStr "INTJ") = false ∧
  mentions_other (narrative_of (String " "%char "ENFP fits you")) (JStr "INTJ") = true.
Proof. split; vm_compute; reflexivity. Qed.
