(* ===== verification/DecisionSamples.v ===== *)
(** * DecisionSamples: the final decision of a stored run, evaluated

    A run whose thirty-five candidates are collected, judged and signed by two people, as rows of
    the tables, from the creation that froze it to the decision; the theorems of [RunHistories],
    [FinalDecisions], [FinalVerification] and [CreatedRuns] at it. *)
From stdpp Require Import relations pretty.
From S2P Require Import Prelude PyText PyTime PyHash PyNum PyJson PyInt JsonRoundTrip PyIso.
From S2P Require Import Transactions Tables Failure Checkpoint Completion Preflight Actions.
From S2P Require Import Resolution Review Correction Gates Closure Publication Policies.
From S2P Require Import CheckpointRecords CompletionRecords SlotClaims Projection Acceptance.
From S2P Require Import CompletionProgress DispatchLedger CandidatePlan Completions Judgements.
From S2P Require Import Recovery EvidenceLedger EvidenceBudget Suites RunProgress RunCreation.
From S2P Require Import ReviewRecords GateSnapshot ReviewDecisions RunLifecycle RunHistories.
From S2P Require Import Documents FinalDecisions FinalVerification CreatedRuns ClaimSamples.
From S2P Require Import CandidateSamples.

Local Open Scope string_scope.
Local Open Scope Z_scope.

(** ** The registered documents *)

Definition five (v : json) : json := JObj ((λ k, (k, v)) <$> SCORE_NAMES).
Definition gates_text : string :=
  Eval vm_compute in value_of "" (dumps_with compact
    (JObj [("policy_id", JStr "gates"); ("version", JStr "v2");
           ("sample_completeness", JObj [("required_generation_cases", JInt 7);
                                         ("required_candidates_per_case", JInt 5)]);
           ("human_accountability", JObj [("required_review_count", JInt 70)]);
           ("execution_reliability", JObj [("min_infrastructure_success_rate", JInt 1);
              ("min_generation_contract_conformance_rate", JInt 1);
              ("min_semantic_execution_success_rate", JInt 1)]);
           ("candidate_quality", JObj [("min_assertion_passes_per_case", JInt 4);
              ("min_assertion_passes_overall", JInt 30); ("minimum_semantic_scores", five (JInt 3));
              ("minimum_semantic_averages", five (JInt 4))])])).
Definition rejected_case : json :=
  JObj [("case_id", JStr "preflight"); ("stage", JStr "preflight");
        ("provider_payload", JObj [("facts", JObj [("dimensions", JList [])])]);
        ("expected", JObj [("execution", JStr "reject_before_provider");
           ("error_code", JStr "not_applicable");
           ("assertions", JList [JObj [("type", JStr "provider_call_count"); ("value", JInt 0)];
              JObj [("type", JStr "rejection_reason");
                    ("value", JStr "insufficient_eligible_dimensions")]])])].
Definition suite1_text : string :=
  Eval vm_compute in value_of "" (dumps_with compact
    (JObj [("suite_id", JStr "suite"); ("suite_version", JStr "1");
           ("cases", JList (((λ c, JObj [("case_id", JStr c); ("stage", JStr "generation")])
                               <$> case_ids) ++ [rejected_case]));
           ("execution_policy", JObj [("generation_repetitions_per_case", JInt 5)]);
           ("profile_fixture", JObj [("eligibility",
              JObj [("eligible_dimension_codes", JList []); ("excluded_dimension_codes", JList []);
                    ("min_eligible_dimensions", JInt 1); ("max_input_dimensions", JInt 9)])])])).
Definition release2 : EvidenceReleaseIdentity := Eval vm_compute in
  mk_EvidenceReleaseIdentity (mk_FrozenContractRef "suite" "1" (fingerprint_of suite1_text))
    (ref0 "prompt" "2") (ref0 "profile" "1") (ref0 "input" "input/v1") (ref0 "output" "output/v1")
    (ref0 "route" "3") (ref0 "semantic" "1") (ref0 "semantic-output" "1") (ref0 "semantic-route" "1")
    policy_ref (mk_FrozenContractRef "gates" "v2" (fingerprint_of gates_text)).

#[local] Existing Instance assets0.
(** A server that orders the members by their keys and is one unit off in the last place at 1.0, the
    ratio that the gates of this run record. *)
Definition one_float : float64 := S754_finite false 4503599627370496 (-52).
Definition below_one : float64 := S754_finite false 9007199254740991 (-53).
Definition one_below (f : float64) : float64 := if bool_decide (f = one_float) then below_one else f.
Lemma one_below_finite f :
  is_ok (float_repr false f) = true → is_ok (float_repr false (one_below f)) = true.
Proof. unfold one_below. by case_bool_decide. Qed.
#[local] Instance server0 : JsonServer := {
  rounded := one_below;
  arranged := sort_items;
  rounded_finite := one_below_finite;
  arranged_perm := sort_items_perm;
}.
#[local] Instance mysql_json1 : MysqlJson := {
  cast_as_json text := value_of "" (v ← loads text; dumps_with compact (stored v));
}.
#[local] Instance run_assets1 : RunAssets tables := {
  stored_run_suite _ _ := Ok suite1_text;
  semantic_contract _ release _ _ :=
    Ok (mk_SemanticAssets (er_semantic_prompt release) (er_semantic_output_schema release) "{}");
}.
Definition suite1 : FrozenSuite := Eval vm_compute in
  value_of (mk_FrozenSuite (er_suite release2) "" [] "" 0) (load_suite (er_suite release2) suite1_text).
Definition contracts1 : EvaluationContracts :=
  mk_EvaluationContracts policy0 (mk_FrozenPolicyDocument (er_gate_policy release2) gates_text)
    "judge" "{}" 7.

(** ** The creation *)

Notation freeze1 :=
  (freeze_run_creation "run" release2 7 "user:1" "quarterly evaluation" (at_ 0) suite1 None contracts1
     None "candidate_v2").
Definition plan1 : RunCreationPlan := Eval vm_compute in
  value_of (mk_RunCreationPlan "" 0 "" "" "" policy0) freeze1.
Definition nothing : tables := mk_EvaluationTables ∅ ∅ ∅ ∅ (mk_CompletionTables ∅ ∅ ()).
Definition created : tables := Eval vm_compute in (apply_run_creation plan1 nothing).2.
Notation start1 :=
  (transition_requested "run" 1 7 "collecting" "user:1" "quarterly evaluation" (at_ 1)).
Definition started : tables := Eval vm_compute in (start1 created).2.
Notation preflight1 := (execute_preflight "run" 2 7 (at_ 2)).
Definition checked : tables := Eval vm_compute in (preflight1 started).2.

(** ** The evidence *)

Definition passed1 : list AssertionReceipt :=
  [mk_AssertionReceipt "limitations_cover" "default" 1 true "local" "pending_semantic" "";
   mk_AssertionReceipt "mentions_dimension" "case" 1 true "local" "passed" ""].
Definition verdict_text : string :=
  Eval vm_compute in value_of "" (dumps_with compact
    (JObj [("decisions",
              JList [JObj [("type", JStr "limitations_cover"); ("scope", JStr "default");
                           ("ordinal", JInt 1); ("status", JStr "passed"); ("detail", JStr "yes")]]);
           ("rationale", JStr "ok"); ("scores", five (JInt 4))])).
Definition verdict : SemanticResult := Eval vm_compute in
  value_of (mk_SemanticResult "" [] "" [] "")
    (parse_semantic_output verdict_text release2 (receipt0 "si") "si" (take 1 passed1)
       (mk_SemanticAssets (er_semantic_prompt release2) (er_semantic_output_schema release2) "{}")).
Definition judgement1 (n : nat) : SemanticCompletion :=
  mk_SemanticCompletion (named0 "s" n) (named0 "c" n) output_fp 1 (named0 "si" n) "succeeded" (at_ 50)
    (at_ 60) 1 (Some (receipt0 (named0 "si" n))) verdict_text verdict_text None.
Definition generated1 (n : nat) (slot : slot_id) : GenerationRow :=
  generation_row (generation_at n slot)
    (Some (named0 "c" n,
           value_of JNull (judged_candidate (candidate_dict (generation_at n slot) (named0 "c" n) passed1)
                             (judgement1 n) verdict))).
Definition evidence1 : CompletionTables () :=
  mk_CompletionTables (keyed_by gr_execution_id (imap generated1 frozen_slots))
    (keyed_by sr_execution_id
       ((λ n, semantic_row (judgement1 n) (Some (result_dict verdict))) <$> seq 0 35)) ().

(** The last judgement closes the collection. *)
Definition closing (progress : json) : json :=
  value_of JNull (move_to "awaiting_review"
    (JObj [("from", JStr "collecting"); ("to", JStr "awaiting_review");
           ("cause_code", JStr "candidate_evidence_complete"); ("actor", JStr "worker");
           ("at", time_json (at_ 60)); ("evidence_refs", texts [named0 "s" 34])]) progress).
Definition closed1 : tables :=
  mk_EvaluationTables {["run" := (4, JNull)]}
    ((λ r, with_progress (closing (er_progress_json r)) r) <$> e_runs checked)
    (keyed_by invocation_of (concat (imap dispatches_at frozen_slots))) ∅ evidence1.

(** ** The signatures *)

Definition scope_of (user : Z) : ManagementScope := mk_ManagementScope "run" 7 user.
Definition signed_by (role : string) (user s : Z) : list CandidateHumanReview :=
  (λ n, mk_CandidateHumanReview (named0 "c" n) role (actor (scope_of user)) "approve" (at_ s) "checked"
          None) <$> seq 0 35.
Definition signatures : json :=
  JList (review_definition <$>
           (signed_by "assessment_semantics" 1 70 ++ signed_by "safety_product" 2 80)%list).
Definition signed_run : EvaluationRunRow := Eval vm_compute in
  match e_runs closed1 !! "run" with
  | Some r => with_progress (stored (set_item "human_reviews" signatures (er_progress_json r))) r
  | None => run_row "" JNull
  end.
Definition signed : tables :=
  mk_EvaluationTables {["run" := (6, JNull)]} {["run" := signed_run]} (e_dispatches closed1) ∅
    (e_rest closed1).

(** ** The decision *)

Definition preview1 : GatePreview := Eval vm_compute in
  value_of (mk_GatePreview "" 0 "" (mk_QualityGateResult (at_ 0) [] [] [] []))
    (evaluate_snapshot signed (scope_of 9) signed_run 6 6 (at_ 90)).
(** One evaluation of the gates on the stored rows. *)
Lemma preview1_Ok :
  evaluate_snapshot signed (scope_of 9) signed_run 6 6 (at_ 90) = Ok preview1.
Proof. vm_cast_no_check (@eq_refl (res GatePreview) (Ok preview1)). Qed.

Definition decided_progress : json := Eval vm_compute in
  value_of JNull (finalized_progress (er_progress_json signed_run) preview1 (actor (scope_of 9))
                    "both reviewers agree" true).
Definition approved1 : tables := decided "run" 6 JNull decided_progress signed.
Notation approve1 := (finalize (scope_of 9) 6 true "both reviewers agree" (at_ 90) true).

Lemma approved1_Ok : approve1 signed = (Ok tt, approved1).
Proof.
  unfold finalize. apply tx_bind_Ok. exists tt, signed. split; [reflexivity|].
  apply tx_bind_Ok. exists (signed_run, 6), signed. split; [reflexivity|].
  apply tx_bind_Ok. exists signed, signed. split; [reflexivity|].
  apply tx_bind_Ok. exists preview1, signed. split; [apply lift_Ok; split; [apply preview1_Ok|done]|].
  apply tx_bind_Ok. exists decided_progress, signed.
  split; [apply lift_Ok; split; [vm_compute; reflexivity|done]|].
  unfold save_progress. apply tx_bind_Ok. exists (mk_CheckpointState "run" 7 None), signed.
  split; [reflexivity|]. unfold store_progress. apply tx_bind_Ok.
  exists tt, (set_checkpoints (<["run" := (6 + 1, JNull)]> (e_checkpoints signed)) signed).
  split; [|reflexivity].
  apply save_checkpoint_Ok. split_and!; try done. exists JNull. reflexivity.
Qed.
Lemma readable1 : decision_readable signed (scope_of 9) 6 (at_ 90).
Proof.
  intros run preview Hrun Hp. assert (run = signed_run) as -> by (injection Hrun; auto).
  pose proof preview1_Ok as H1. rewrite Hp in H1. injection H1 as ->. vm_compute. reflexivity.
Qed.
Lemma server1 : server_keeps signed approved1 "run" (at_ 90).
Proof.
  split; [vm_compute; reflexivity|reflexivity| |].
  - intros run Hrun. assert (run = signed_run) as -> by (injection Hrun; auto).
    split; vm_compute; reflexivity.
  - intros run record text Hrun Hg Ht. assert (er_progress_json run = decided_progress) as Hd.
    { unfold approved1, decided in Hrun. cbn [e_runs set_runs] in Hrun. rewrite lookup_alter_eq in Hrun.
      by injection Hrun as <-. }
    rewrite Hd in Hg. vm_compute in Hg. injection Hg as <-. vm_compute in Ht. injection Ht as <-.
    vm_compute. reflexivity.
Qed.

(** ** The theorems *)

Lemma first_steps :
  apply_run_creation plan1 nothing = (Ok (mk_CheckpointState "run" 1 None), created) ∧
  start1 created = (Ok (mk_CheckpointState "run" 2 None), started) ∧
  preflight1 started = (Ok (mk_CheckpointState "run" 3 None), checked).
Proof. split_and!; vm_compute; reflexivity. Qed.

Lemma created_run_readable_witness :
  ∃ row creation, e_runs created !! "run" = Some row ∧ loads (er_definition_json row) = Ok creation ∧
    is_ok (check_documents created row creation) = true.
Proof.
  assert (Hreg : registered_contracts release2 (at_ 0) contracts1).
  { split; [repeat constructor|vm_compute; reflexivity..]. }
  assert (Hf : freeze1 = Ok plan1) by (vm_compute; reflexivity).
  destruct (created_run_readable "run" release2 7 "user:1" "quarterly evaluation" (at_ 0) suite1 None None
              contracts1 "candidate_v2" plan1 nothing created _ Hreg Hf (proj1 first_steps))
    as (row & creation & fingerprint & Hrow & _ & Hl & _ & _ & _ & _ & _ & Hd).
  exists row, creation. split; [exact Hrow|]. split; [exact Hl|].
  assert (Hs : run_suite created creation = Ok suite1).
  { injection Hrow as <-. vm_compute in Hl. injection Hl as <-. vm_compute. reflexivity. }
  rewrite (Hd Hs). reflexivity.
Defined.

Lemma run_state_machine_witness :
  ∃ run, e_runs checked !! "run" = Some run ∧ er_organization_id run = 7 ∧
    rtc run_edge "requested" (progress_status (er_progress_json run)).
Proof.
  assert (Hh : history created checked).
  { destruct first_steps as (_ & H1 & H2).
    exact (rtc_l _ created started checked (life_transition _ _ _ _ _ _ _ _ _ _ H1)
             (rtc_once started checked (life_preflight _ _ _ _ _ _ _ H2))). }
  destruct (e_runs created !! "run") as [run|] eqn:Hrun; [|vm_compute in Hrun; discriminate Hrun].
  destruct (run_state_machine created checked "run" run Hh Hrun) as (run' & Hrun' & [Hf _] & He & _).
  exists run'. split; [exact Hrun'|]. injection Hf as _ Ho _ _. vm_compute in Hrun. injection Hrun as <-.
  split; [exact Ho|exact He].
Defined.

Lemma decision_history : history signed approved1.
Proof. exact (rtc_once signed approved1 (life_finalization _ _ _ _ _ _ _ _ _ readable1 approved1_Ok)). Qed.

Lemma reviewed_evidence_final_witness :
  is_Some (evidence_at signed "run" (named0 "s" 34)).2 ∧
  evidence_at approved1 "run" (named0 "s" 34) = evidence_at signed "run" (named0 "s" 34) ∧
  ∃ run, e_runs approved1 !! "run" = Some run ∧
    progress_status (er_progress_json run) ∈ reviewed_statuses.
Proof.
  assert (Hs : progress_status (er_progress_json signed_run) ∈ reviewed_statuses)
    by (apply (bool_decide_unpack _); vm_compute; reflexivity).
  destruct (reviewed_evidence_final signed approved1 "run" signed_run decision_history eq_refl Hs)
    as [Hk Hrun].
  split; [|split; [apply Hk|exact Hrun]].
  apply (bool_decide_unpack _). vm_compute. reflexivity.
Defined.

Lemma approval_from_storage_witness :
  ∃ run, e_runs approved1 !! "run" = Some run ∧ accountable approved1 "run" run.
Proof.
  destruct (approval_from_storage signed approved1 approved1 (scope_of 9) 6 "both reviewers agree"
              (at_ 90) true tt readable1 approved1_Ok (rtc_refl _ _)) as (run & Hrun & _ & Ha).
  exists run. split; [exact Hrun|exact Ha].
Defined.

Lemma finalization_verifies_witness :
  ∃ run snapshot, e_runs approved1 !! "run" = Some run ∧ row_read run ≠ run ∧
    verified_final_snapshot approved1 (scope_of 9) (row_read run) 7 = Ok snapshot.
Proof.
  destruct (finalization_verifies signed approved1 (scope_of 9) 6 true "both reviewers agree" (at_ 90)
              true tt readable1 approved1_Ok server1) as (_ & run & snapshot & _ & Hrun & _ & Hv).
  exists run, snapshot. split; [exact Hrun|]. split; [|exact Hv].
  unfold approved1, decided in Hrun. cbn [e_runs set_runs] in Hrun. rewrite lookup_alter_eq in Hrun.
  injection Hrun as <-. intros He. apply (f_equal er_progress_json) in He.
  apply (f_equal (λ p, json_item p "gate_result" ≫= λ r, json_item r "gate_result" ≫= dumps_ascii)) in He.
  vm_compute in He. discriminate He.
Defined.
